(* ===== verification/_CoqProject ===== *)
-Q . S2P
Prelude.v
Errors.v
Chunking.v
TextNormalization.v
PyFloat.v
Domain.v
AgentModels.v
Schemas.v
RuntimeModels.v
Gate.v
Prompts.v
PyText.v
Unicode.v
ExecutionRouter.v
Session.v
Storage.v
KnowledgeStore.v
FloatOrder.v
KnowledgeExtraction.v
Repositories.v
KnowledgeRepositories.v
Telemetry.v
Identity.v
Governance.v
ReviewSpec.v
GovernanceSpec.v
MemorySession.v
KnowledgeDemo.v
KnowledgeEnrichment.v
TraversalTheorems.v
GovernanceTheorems.v
Resilience.v
Assessments.v
Tools.v
JsonText.v
AgentGraph.v
EvidenceAgent.v
EvidenceTheorems.v
MultiAgentGraph.v
AssessmentRouting.v
AssessmentLifecycle.v
MultiAgentTheorems.v
KnowledgeRetrieval.v
RetrievalTheorems.v
Utf8.v
DocumentParsers.v
AgentPrompts.v
KnowledgeTools.v
Ingestion.v
FileIngestion.v
PolicyConnector.v
HttpApp.v
Settings.v
AgentGraphTheorems.v
Composition.v
FloatRatio.v
Providers.v
Counting.v
AssessmentBenchmark.v
AssessmentEvaluation.v
AssessmentEvaluationTheorems.v
AssessmentRunTheorems.v
AssessmentReports.v
AssessmentReportTheorems.v
RetrievalBenchmark.v
RetrievalEvaluation.v
RetrievalMetricTheorems.v
RetrievalRunTheorems.v
RetrievalReports.v
Specialists.v
ProviderTheorems.v
EmbeddingTheorems.v
ProviderDemo.v
SpecialistTheorems.v
ProductRead.v
DatabaseSession.v
ApiRoutes.v
KnowledgePlatform.v
Migrations.v
Operations.v
