(* ===== verification/Prelude.v ===== *)
(** * Verification of the enterprise agentic assessment platform

    The program (src/app) takes a request for an AI-adoption assessment, decides how to
    produce it (one model call, a bounded tool-using agent, or four specialists), grounds
    the answer in retrieved evidence, passes it through a deterministic quality gate, and
    either completes it or holds it for human review with a bounded number of revisions.
    Every stage is committed to a relational database.

    The development is a shallow embedding: a pure function is a Rocq function, stateful or
    fallible code is a computation of the monad [M S A] of Errors.v (state passing, with the
    mutations made before an exception kept), a class is a record type [t] in a module of
    its name, an enum an inductive type.  All definitions are executable.

    ** Parts, bottom up (a file of this directory: the sources it models)

    - Prelude: identifiers, strings as lists of code points with Python's string
      operations, insertion-ordered dictionaries, record update.
    - Errors: core/exceptions.py, the exception classes, the monad, and two judgements on
      computations: [wp] (post-condition) and [safe] (frame, exceptions and result).
    - Chunking, TextNormalization: rag/chunking.py.
    - PyFloat: binary64 floats, [round].  Unicode: the parameters of case folding.
    - Domain, AgentModels, Schemas, RuntimeModels: models/, agents/models.py,
      agents/multi_agent_models.py, tools/models.py, schemas/assessment.py,
      runtime/models.py; [valid] is the conjunction of a model's field constraints and
      validators, [construct] the constructor call.
    - Gate: runtime/gate.py.  ExecutionRouter: services/execution_router.py.
    - Prompts: services/assessment_prompt.py with the part of json.dumps it uses.
    - Session: the class [Session] is the interface of a database session over tables of
      any type, with [SessionLaws] its contract (reads see the pending view, commit
      publishes it or leaves the committed tables alone, rollback discards it) and the
      rules [txn] and [commits] for transactions; MemorySession is an implementation of
      that contract with scripted faults, used by the witnesses.
    - Storage: the assessment and review tables of db/models/; Repositories:
      repositories/assessments.py and runtime_reviews.py.
    - Telemetry: runtime/metrics.py, runtime/telemetry.py and observability/exporters.py (the
      attribute allowlist).
    - Identity: identity/.  Resilience: runtime/resilience.py.
    - Governance: services/runtime_governance.py; ReviewSpec is the abstract review machine
      it refines (a step relation, its invariant and the measure its steps lower),
      GovernanceSpec the transaction rules, GovernanceTheorems the refinement and, along it,
      the termination of the reviews of any sequence of requests.
    - Assessments: services/assessments.py; AssessmentRouting (execution routes, grounding)
      and AssessmentLifecycle (the life of a row) are its theorems.
    - Tools: tools/registry.py and tools/permissions.py.
    - AgentGraph, AgentGraphTheorems: graph/state.py, nodes.py, routing.py, workflow.py.
    - EvidenceAgent, EvidenceTheorems: agents/evidence_agent.py.
    - MultiAgentGraph, MultiAgentTheorems: graph/multi_agent_*.py.
    - PyText: str of integers and identifiers, number formats.  JsonText: json.dumps with
      the shortest form of floats.  Utf8: the strict UTF-8 codec.  FloatOrder, FloatRatio,
      Counting: the order of float scores, quotients, and counting arguments on lists.
    - KnowledgeStore, KnowledgeRepositories: db/models/knowledge_*.py and
      repositories/knowledge_*.py, rows and constraints of the five tables and every query;
      TraversalTheorems: the neighborhood search; KnowledgeDemo: sample tables.
    - KnowledgeExtraction, KnowledgeEnrichment: knowledge_graph/, from the answers of the
      extractors to the transaction that stores them.
    - KnowledgeRetrieval, RetrievalTheorems: rag/retrieval.py, context.py and service.py,
      knowledge_graph/retrieval.py, hybrid.py and context.py.
    - KnowledgeTools: tools/knowledge.py.  Ingestion: rag/ingestion.py.
    - DocumentParsers: ingestion/models.py, router.py and parsers/.  FileIngestion:
      ingestion/service.py.  PolicyConnector: connectors/policy_repository.py.
    - HttpApp: main.py, the middleware and the exception handlers.
    - Settings: core/config.py.  Composition: the assessment side of api/dependencies.py and
      identity/dependencies.py; KnowledgePlatform: its knowledge side, resolved per route.
    - Providers: providers/contracts.py, openai.py and anthropic.py; ProviderTheorems: the
      contract they meet, and providers/factory.py; EmbeddingTheorems: batches and the number
      of requests; ProviderDemo: concrete clients.
    - AgentPrompts, Specialists: agents/structured_output.py, the prompts and the
      specialist agents;
      SpecialistTheorems: that they meet the contracts the workflows are proved against.
    - AssessmentBenchmark, AssessmentEvaluation, AssessmentReports: evaluation/assessment/, its
      data model, evaluators and runner, and the comparison; AssessmentEvaluationTheorems,
      AssessmentRunTheorems, AssessmentReportTheorems.
    - RetrievalBenchmark, RetrievalEvaluation, RetrievalReports: evaluation/, the retrieval
      benchmark with its integrity validator, the metrics and the runner;
      RetrievalMetricTheorems, RetrievalRunTheorems.
    - ProductRead: services/product_read.py.  DatabaseSession: db/session.py and
      api/routes/health.py.  ApiRoutes: api/routes/ and api/router.py behind HttpApp.
    - Migrations: alembic/versions/, and the schema db/models/ declares.
    - Operations: core/logging.py, server.py, the loaders and the judge of the evaluations,
      and the resources of the process with the lifespan of main.py.

    ** How the parts meet

    [Assessments.services] is the record of the service's collaborators, and
    [AssessmentLifecycle.services_ok] states what the service relies on.  The two agent
    workflows are proved to meet their clauses of it (agentic_workflow_admissible,
    multi_agent_workflow_admissible), so the lifecycle theorem applies to them.  The
    governance operations are proved against [Session] and [SessionLaws]; the service calls
    them through the same interface.  [Tools.registry_ok] is what a registry promises to
    the agents that call it, and KnowledgeTools discharges it for the knowledge registry.
    Composition builds the service from the settings as api/dependencies.py does, and proves
    that validated settings give services that meet [services_ok] - with the exceptions
    recorded there.  Ingestion and enrichment are used through [ingest_spec] and [enrich_spec]
    by the file uploads and the policy connector.

    ** What the theorems show

    Gate and router: strongest decision, reason codes, monotonicity; totality of
    routing. Governance: the reviewer operations, resumption and first processing refine
    the abstract machine, each naming the case and the rows it commits; whatever is
    served, the committed tables hold reachable cases only, and under a budget of n
    revisions at most 2n+1 reviewer operations on an assessment ever succeed. Lifecycle:
    one request inserts one row and answers what the committed row says, or records the
    failure, whatever its collaborators do. Agents: limits are respected, the recursion
    limit the settings demand suffices, traces and metadata are true accounts, a partial
    failure degrades exactly as the policy says. Tools: each failure becomes a result
    with its own code, and a handler runs at most once. Identity: endpoints serve
    authenticated principals with the role. Prompts: a request cannot close its block.
    Chunking: bounded overlapping slices that lose nothing.
    Knowledge: enrichment, ingestion and uploads commit everything they promise or
    nothing; a neighborhood is bounded, supported, and complete where its limits do not
    bind; a vector search returns exactly the ranked chunks asked for; hybrid retrieval
    degrades one path at a time; the tools commit nothing. Uploads: what is accepted,
    that nothing visible is lost by the text parsers, UTF-8 round trips. Connector: a
    bounded pull ingests a prefix. HTTP: every request is answered, under one
    identifier, and a guarded route runs once, for a principal with its role, or not at
    all; reading routes commit nothing; the pages of the review queue list every held
    case once. Settings: what validation guarantees to the services built from them, and
    what it misses; the services built meet the assumptions of the theorems about them,
    from the vendor adapters up. Providers: validated answers or public errors, a
    bounded number of requests, vectors in the order of the texts. Evaluation: every
    score is the quotient it stands for and agrees with the stored observations, a run
    calls the executor once per case and reports what it answered, the frontier is
    exact. Schema: whatever path of migrations was taken the schema is that of the
    recorded revision, and the head is the schema the models declare. Operations: no
    sensitive attribute is logged, shared resources are released.

    ** Bounds and fuel

    [Fixpoint]s with a counter take it from the code's own bounds: the retry loop from
    [max_retries], the graph from the recursion limit, the evidence loop from its step
    limit; [chunk_loop] takes the length of the text, which suffices because every chunk
    starts further right (part of its theorem); the reading of an upload takes the length of
    its content, one byte at least being read per iteration; the graph traversal takes its
    maximal depth.

    ** Parameters

    Code outside src/ is an argument of the definitions that use it, its documented
    behaviour a hypothesis: the database session with the distance of its vectors and the
    collation of its names, token decoding and JWKS, SHA-256 and the canonical JSON it is
    applied to, json.loads (which raises JSONDecodeError, a plain ValueError or
    RecursionError), the language-model and embedding providers, the clocks, the OpenTelemetry
    exporters, Unicode case folding and normalization, URL splitting, the readers of PDF,
    DOCX, ZIP and JSON, the HTTP client, and the database server as a catalogue of which
    only the documented effect of a schema operation is assumed, on empty tables.  Of
    FastAPI and Starlette the model has what main.py relies on: which handler meets which
    exception, the default answer to the HTTPException the router itself raises, and the
    debug mode.  The graph library runs one
    node per superstep until the end or the recursion limit; its parallel superstep is
    modelled in both orders of the two nodes.  Pydantic trims with the same set of spaces as
    [str.strip].

    ** Not modelled

    Text that only people read: the printed reports beyond their lines, the OpenAPI
    metadata. I/O and third-party behaviour: the installation of log handlers, the spans
    of the OpenTelemetry exporter, the writing of report files and the command lines of
    the two evaluations, the rows a migration meets, the host and origin middleware of
    main.py, alembic/env.py. demo/ writes sample rows through the repositories modelled
    here. The frontend, the scripts and the tests are not part of the service.
    knowledge_graph/ports.py and the other protocol classes have no behaviour: the
    definitions take records of functions in their place.
*)
From stdpp Require Export base tactics list gmap strings numbers option sorting.
From Stdlib Require Export ZArith Lia.

(** ** Record update

    Pydantic's [model_copy(update=...)], [dataclasses.replace] and attribute
    assignment change some fields of a record: [r <| f := v |>].  A record type
    declares its eta expansion; the update of a field is computed from it. *)

Class Eta (R : Type) := eta : R → R.
Class Update {R F : Type} (p : R → F) := update : F → R → R.
Arguments update {R F} p {_} _ _ /.

Ltac build_update p :=
  lazymatch type of p with
  | ?R → ?F =>
      let i := constr:(_ : Eta R) in
      let e := eval hnf in i in
      lazymatch eval pattern p in e with
      | ?f _ =>
          let u := eval cbv beta in (fun (v : F) (r : R) => f (fun _ => v) r) in
          exact u
      end
  end.
#[export] Hint Extern 0 (Update ?p) => build_update p : typeclass_instances.

Declare Scope platform_scope.
Delimit Scope platform_scope with platform.
Notation "r <| p := v |>" := (update p v r)
  (at level 1, left associativity, p at level 99, v at level 200,
   format "r  <| p  :=  v |>") : platform_scope.
#[global] Open Scope platform_scope.

(** ** Identifiers

    A [uuid.UUID] is its 128-bit integer value.  [str] of a UUID prints that
    integer as 32 fixed-width lower-case hexadecimal digits, so sorting by [str]
    is sorting by the integer. *)

Abbreviation uuid := N.

(** ** Strings

    A Python [str] is a sequence of Unicode code points: a list of integers.
    Literals are Rocq strings, coerced. *)

Abbreviation pystr := (list Z).

Fixpoint lit (s : string) : pystr :=
  match s with
  | EmptyString => []
  | String c s' => Z.of_N (Ascii.N_of_ascii c) :: lit s'
  end.
Coercion lit : string >-> list.
#[global] Arguments lit : simpl never.

(** [str.isspace] of one character: the code points Python strips. *)
Definition is_space (c : Z) : bool :=
  bool_decide ((9 ≤ c ≤ 13) ∨ (28 ≤ c ≤ 32) ∨ c = 133 ∨ c = 160 ∨ c = 5760 ∨
               (8192 ≤ c ≤ 8202) ∨ c = 8232 ∨ c = 8233 ∨ c = 8239 ∨ c = 8287 ∨
               c = 12288)%Z.

(** [str.lstrip], [str.rstrip] and [str.strip] without an argument. *)
Fixpoint str_lstrip (s : pystr) : pystr :=
  match s with
  | [] => []
  | c :: s' => if is_space c then str_lstrip s' else s
  end.
Definition str_rstrip (s : pystr) : pystr := reverse (str_lstrip (reverse s)).
Definition str_strip (s : pystr) : pystr := str_rstrip (str_lstrip s).

(** Truth value of a string and of a list. *)
Definition truthy {A} (l : list A) : bool :=
  match l with [] => false | _ :: _ => true end.

(** [s.startswith(p)]. *)
Fixpoint str_startswith (p s : pystr) : bool :=
  match p, s with
  | [], _ => true
  | c :: p', d :: s' => Z.eqb c d && str_startswith p' s'
  | _ :: _, [] => false
  end.

(** [s.replace(old, new)] for a non-empty [old]: left to right, not overlapping;
    [skip] counts the characters of a match already replaced. *)
Fixpoint str_replace_from (old new : pystr) (skip : nat) (s : pystr) : pystr :=
  match s with
  | [] => []
  | c :: s' =>
      match skip with
      | S k => str_replace_from old new k s'
      | O =>
          if str_startswith old s
          then new ++ str_replace_from old new (length old - 1) s'
          else c :: str_replace_from old new 0 s'
      end
  end.
Definition str_replace (s old new : pystr) : pystr := str_replace_from old new 0 s.

(** [s.split(sep)] for a one-character [sep]: always a non-empty list. *)
Fixpoint str_split (sep : Z) (s : pystr) : list pystr :=
  match s with
  | [] => [[]]
  | c :: s' =>
      if Z.eqb c sep then [] :: str_split sep s'
      else match str_split sep s' with
           | w :: ws => (c :: w) :: ws
           | [] => [[c]]
           end
  end.

(** [sep.join(parts)]. *)
Fixpoint str_join (sep : pystr) (parts : list pystr) : pystr :=
  match parts with
  | [] => []
  | [w] => w
  | w :: ws => w ++ sep ++ str_join sep ws
  end.

(** [s.split()]: the maximal runs of non-space characters. *)
Fixpoint str_words_from (word : pystr) (s : pystr) : list pystr :=
  match s with
  | [] => if truthy word then [reverse word] else []
  | c :: s' =>
      if is_space c
      then (if truthy word then [reverse word] else []) ++ str_words_from [] s'
      else str_words_from (c :: word) s'
  end.
Definition str_words (s : pystr) : list pystr := str_words_from [] s.

(** ** Sequences and dictionaries *)

(** [dict.setdefault] folded over a sequence of keyed items: the first item of
    each key, in order of first appearance (Python dicts keep insertion order). *)
Fixpoint dedup_by_from {A K} `{EqDecision K} (key : A → K) (seen : list K)
    (l : list A) : list A :=
  match l with
  | [] => []
  | a :: l' =>
      if decide (key a ∈ seen) then dedup_by_from key seen l'
      else a :: dedup_by_from key (key a :: seen) l'
  end.
Definition dedup_by {A K} `{EqDecision K} (key : A → K) (l : list A) : list A :=
  dedup_by_from key [] l.

(** [list(dict.fromkeys(l))]. *)
Definition dict_fromkeys {A} `{EqDecision A} (l : list A) : list A := dedup_by id l.

(** [next((x for x in l if p x), None)]. *)
Fixpoint py_next {A} (p : A → bool) (l : list A) : option A :=
  match l with
  | [] => None
  | a :: l' => if p a then Some a else py_next p l'
  end.

(** Dictionaries keyed by an attribute of their values: [d[key a] = a] and
    [d.setdefault(key a, a)], which keep the position of an existing key. *)
Definition keyed_set {A K} `{EqDecision K} (key : A → K) (l : list A) (a : A) : list A :=
  if decide (key a ∈ key <$> l)
  then (λ b, if decide (key b = key a) then a else b) <$> l else l ++ [a].
Definition keyed_setdefault {A K} `{EqDecision K} (key : A → K) (l : list A) (a : A) : list A :=
  if decide (key a ∈ key <$> l) then l else l ++ [a].

Definition sum_Z (l : list Z) : Z := foldr Z.add 0%Z l.

(** [o is not None]. *)
Definition is_not_none {A} (o : option A) : bool :=
  match o with Some _ => true | None => false end.

(** [bool]-valued membership. *)
Definition mem {A} `{EqDecision A} (a : A) (l : list A) : bool := bool_decide (a ∈ l).

Lemma mem_spec {A} `{EqDecision A} (a : A) l : mem a l = true ↔ a ∈ l.
Proof. apply bool_decide_eq_true. Qed.

Lemma forallb_Forall {A} (p : A → bool) l : forallb p l = true ↔ Forall (λ a, p a = true) l.
Proof. rewrite forallb_forall, Forall_forall. by setoid_rewrite list_elem_of_In. Qed.

Lemma existsb_Exists {A} (p : A → bool) l : existsb p l = true ↔ Exists (λ a, p a = true) l.
Proof. rewrite existsb_exists, Exists_exists. by setoid_rewrite list_elem_of_In. Qed.

Lemma elem_of_merge_sort {A} (R : relation A) `{!RelDecision R} l a :
  a ∈ merge_sort R l ↔ a ∈ l.
Proof. by rewrite (merge_sort_Permutation R l). Qed.

(** *** Facts about [dedup_by] *)
Section dedup.
Context {A K : Type} `{EqDecision K} (key : A → K).
Implicit Types (l : list A) (seen : list K).

Lemma dedup_by_from_fresh seen l a :
  a ∈ dedup_by_from key seen l → key a ∉ seen ∧ a ∈ l.
Proof.
  revert seen; induction l as [|b l IH]; intros seen; simpl; [set_solver|].
  case_decide as Hb.
  - intros [? ?]%IH. set_solver.
  - rewrite elem_of_cons. intros [-> | [? ?]%IH]; set_solver.
Qed.

Lemma dedup_by_from_NoDup seen l : NoDup (key <$> dedup_by_from key seen l).
Proof.
  revert seen; induction l as [|b l IH]; intros seen; simpl; [constructor|].
  case_decide; [done|]. csimpl. constructor; [|done].
  rewrite list_elem_of_fmap. intros (a & Heq & Ha%dedup_by_from_fresh). set_solver.
Qed.

Lemma dedup_by_from_complete seen l a :
  a ∈ l → key a ∉ seen → key a ∈ (key <$> dedup_by_from key seen l).
Proof.
  revert seen; induction l as [|b l IH]; intros seen; simpl; [set_solver|].
  rewrite elem_of_cons. intros [-> | Ha] Hs.
  - rewrite decide_False by done. csimpl. set_solver.
  - case_decide as Hb; [by apply IH|]. csimpl. rewrite elem_of_cons.
    destruct (decide (key a = key b)) as [|Hne]; [by left|right].
    apply IH; [done|]. set_solver.
Qed.

Lemma dedup_by_NoDup l : NoDup (key <$> dedup_by key l).
Proof. apply dedup_by_from_NoDup. Qed.

Lemma dedup_by_subset l a : a ∈ dedup_by key l → a ∈ l.
Proof. by intros [_ ?]%dedup_by_from_fresh. Qed.

Lemma dedup_by_keys l k : (k ∈ (key <$> dedup_by key l)) ↔ (k ∈ (key <$> l)).
Proof.
  rewrite !list_elem_of_fmap. split.
  - intros (a & -> & Ha%dedup_by_subset). eauto.
  - intros (a & -> & Ha). apply list_elem_of_fmap.
    apply dedup_by_from_complete; set_solver.
Qed.

Lemma dedup_by_from_id seen l :
  NoDup (key <$> l) → (∀ a, a ∈ l → key a ∉ seen) → dedup_by_from key seen l = l.
Proof.
  revert seen; induction l as [|b l IH]; intros seen; simpl; [done|].
  csimpl. rewrite NoDup_cons. intros [Hb Hl] Hs.
  rewrite decide_False by (apply Hs; set_solver). f_equal. apply IH; [done|].
  intros a Ha. rewrite elem_of_cons. intros [Heq|Hin].
  - apply Hb. rewrite <- Heq. by apply list_elem_of_fmap_2.
  - eapply Hs; [|done]. set_solver.
Qed.

Lemma dedup_by_id l : NoDup (key <$> l) → dedup_by key l = l.
Proof. intros. apply dedup_by_from_id; set_solver. Qed.
End dedup.

(** *** Facts about keyed dictionaries *)
Section keyed.
Context {A K : Type} `{EqDecision K} (key : A → K).
Implicit Types (l : list A).

Lemma keyed_set_NoDup l l' :
  NoDup (key <$> (l ++ l')) → fold_left (keyed_set key) l' l = l ++ l'.
Proof.
  revert l; induction l' as [|a l' IH]; intros l Hn; simpl; [by rewrite app_nil_r|].
  assert (key a ∉ key <$> l) as Ha.
  { rewrite fmap_app in Hn. apply NoDup_app in Hn as (_ & Hd & _). intros Hin.
    apply (Hd _ Hin). csimpl. left. }
  unfold keyed_set at 2. rewrite decide_False by done.
  rewrite IH by (by rewrite <- app_assoc). by rewrite <- app_assoc.
Qed.

Lemma keyed_setdefault_NoDup l l' :
  NoDup (key <$> l) → NoDup (key <$> fold_left (keyed_setdefault key) l' l).
Proof.
  revert l; induction l' as [|a l' IH]; intros l Hn; simpl; [done|]. apply IH.
  unfold keyed_setdefault. case_decide as Ha; [done|].
  rewrite fmap_app. apply NoDup_app. split_and!; [done| |by apply NoDup_singleton].
  intros k Hk. csimpl. intros ->%list_elem_of_singleton. done.
Qed.

Lemma keyed_setdefault_prefix l l' : l `prefix_of` fold_left (keyed_setdefault key) l' l.
Proof.
  revert l; induction l' as [|a l' IH]; intros l; simpl; [done|].
  etrans; [|apply IH]. unfold keyed_setdefault. case_decide; [done|]. by eexists.
Qed.

Lemma keyed_setdefault_elem l l' a :
  a ∈ fold_left (keyed_setdefault key) l' l → a ∈ l ∨ a ∈ l'.
Proof.
  revert l; induction l' as [|b l' IH]; intros l; simpl; [by left|].
  intros [H|H]%IH; [|right; by right]. unfold keyed_setdefault in H.
  case_decide; [by left|]. apply elem_of_app in H as [?|Hb]; [by left|].
  apply list_elem_of_singleton in Hb as ->. right. left.
Qed.

Lemma keyed_setdefault_keys l l' k :
  k ∈ key <$> l ++ l' → k ∈ key <$> fold_left (keyed_setdefault key) l' l.
Proof.
  revert l; induction l' as [|b l' IH]; intros l; simpl; [by rewrite app_nil_r|].
  intros Hk. apply IH. unfold keyed_setdefault. rewrite fmap_app, elem_of_app in Hk |- *.
  revert Hk. csimpl. rewrite elem_of_cons. case_decide as Hb.
  - intros [?|[->|?]]; auto.
  - rewrite fmap_app, elem_of_app. csimpl. rewrite elem_of_cons. intros [?|[->|?]]; auto.
Qed.
End keyed.

(** ** Proof automation *)

Create HintDb platform discriminated.

(** Split every boolean conjunction in the context. *)
Ltac split_bools :=
  repeat match goal with
  | H : _ && _ = true |- _ => apply andb_true_iff in H as [??]
  | H : _ || _ = false |- _ => apply orb_false_iff in H as [??]
  | H : negb _ = true |- _ => apply negb_true_iff in H
  | H : negb _ = false |- _ => apply negb_false_iff in H
  end.

(** Case analysis on the scrutinee of every [match] and [if] of the goal. *)
Ltac cases :=
  repeat (case_match || case_decide || case_bool_decide); simplify_eq/=.

(** Finite case analysis over every boolean test the goal branches on. *)
Ltac bool_cases :=
  repeat match goal with
  | |- context [if ?b then _ else _] => destruct b eqn:?
  end.
