(* ===== verification/Errors.v ===== *)
(** Errors: the exceptions of app/core/exceptions.py, the classes of other
    exceptions the code distinguishes, and the state-and-exception monad in which
    effectful code is written. *)
From S2P Require Import Prelude.

(** ** app/core/exceptions.py

    Every subclass of [ApplicationError] is a constructor; [error_code] and
    [public_message] are its class attributes.  [ApplicationError] itself is
    [BaseApplicationError]. *)

Inductive app_error :=
  | BaseApplicationError
  | AuthenticationRequiredError
  | PermissionDeniedError
  | ConnectorNotConfiguredError
  | ConnectorUnavailableError
  | InvalidConnectorResponseError
  | OpenAIClientNotConfiguredError
  | ModelProviderNotConfiguredError
  | LLMProviderError
  | InvalidLLMResponseError
  | AssessmentGenerationError
  | DatabaseNotConfiguredError
  | DatabaseUnavailableError
  | PersistenceError
  | AssessmentNotFoundError
  | RuntimeStateNotFoundError
  | InvalidReviewTransitionError
  | RevisionLimitReachedError
  | EmbeddingNotConfiguredError
  | EmbeddingProviderError
  | InvalidEmbeddingError
  | EmptyKnowledgeDocumentError
  | KnowledgeDocumentNotFoundError
  | KnowledgeStoreUnavailableError
  | KnowledgePersistenceError
  | KnowledgeGraphDisabledError
  | KnowledgeGraphExtractionError
  | KnowledgeGraphPersistenceError
  | KnowledgeGraphUnavailableError
  | UnsupportedFileTypeError
  | FileTooLargeError
  | EmptyFileError
  | InvalidUploadMetadataError
  | DocumentParseError
  | EncryptedPDFError
  | OCRRequiredError
  | TextDecodeError.

#[global] Instance app_error_eq_dec : EqDecision app_error.
Proof. solve_decision. Defined.

Definition error_code (e : app_error) : pystr :=
  match e with
  | BaseApplicationError => "application_error"
  | AuthenticationRequiredError => "authentication_required"
  | PermissionDeniedError => "permission_denied"
  | ConnectorNotConfiguredError => "connector_not_configured"
  | ConnectorUnavailableError => "connector_unavailable"
  | InvalidConnectorResponseError => "invalid_connector_response"
  | OpenAIClientNotConfiguredError => "openai_not_configured"
  | ModelProviderNotConfiguredError => "model_provider_not_configured"
  | LLMProviderError => "llm_provider_error"
  | InvalidLLMResponseError => "invalid_llm_response"
  | AssessmentGenerationError => "assessment_generation_error"
  | DatabaseNotConfiguredError => "database_not_configured"
  | DatabaseUnavailableError => "database_unavailable"
  | PersistenceError => "persistence_error"
  | AssessmentNotFoundError => "assessment_not_found"
  | RuntimeStateNotFoundError => "runtime_state_not_found"
  | InvalidReviewTransitionError => "invalid_review_transition"
  | RevisionLimitReachedError => "revision_limit_reached"
  | EmbeddingNotConfiguredError => "embedding_not_configured"
  | EmbeddingProviderError => "embedding_provider_error"
  | InvalidEmbeddingError => "invalid_embedding"
  | EmptyKnowledgeDocumentError => "empty_knowledge_document"
  | KnowledgeDocumentNotFoundError => "knowledge_document_not_found"
  | KnowledgeStoreUnavailableError => "knowledge_store_unavailable"
  | KnowledgePersistenceError => "knowledge_persistence_error"
  | KnowledgeGraphDisabledError => "knowledge_graph_disabled"
  | KnowledgeGraphExtractionError => "knowledge_graph_extraction_error"
  | KnowledgeGraphPersistenceError => "knowledge_graph_persistence_error"
  | KnowledgeGraphUnavailableError => "knowledge_graph_unavailable"
  | UnsupportedFileTypeError => "unsupported_file_type"
  | FileTooLargeError => "file_too_large"
  | EmptyFileError => "empty_file"
  | InvalidUploadMetadataError => "invalid_upload_metadata"
  | DocumentParseError => "document_parse_failed"
  | EncryptedPDFError => "encrypted_pdf"
  | OCRRequiredError => "ocr_required"
  | TextDecodeError => "text_decode_failed"
  end.

Definition public_message (e : app_error) : pystr :=
  match e with
  | BaseApplicationError => "The request could not be completed."
  | AuthenticationRequiredError =>
      "Valid bearer authentication is required."
  | PermissionDeniedError =>
      "The authenticated principal is not permitted to perform this action."
  | ConnectorNotConfiguredError =>
      "The policy repository connector is not configured."
  | ConnectorUnavailableError =>
      "The policy repository is temporarily unavailable. Please try again."
  | InvalidConnectorResponseError =>
      "The policy repository returned an invalid response."
  | OpenAIClientNotConfiguredError =>
      "AI assessments are unavailable because OPENAI_API_KEY is not configured."
  | ModelProviderNotConfiguredError =>
      "AI assessments are unavailable because the model provider is not configured."
  | LLMProviderError =>
      "AI assessment generation is temporarily unavailable. Please try again."
  | InvalidLLMResponseError =>
      "The AI service returned an invalid assessment. Please try again."
  | AssessmentGenerationError =>
      "AI assessment generation failed unexpectedly. Please try again."
  | DatabaseNotConfiguredError =>
      "Assessment persistence is unavailable because DATABASE_URL is not configured."
  | DatabaseUnavailableError =>
      "Assessment persistence is temporarily unavailable. Please try again."
  | PersistenceError =>
      "The assessment could not be persisted. Please try again."
  | AssessmentNotFoundError =>
      "The requested assessment was not found."
  | RuntimeStateNotFoundError =>
      "Runtime governance state is not available for this assessment."
  | InvalidReviewTransitionError =>
      "The requested human review action is not valid in the current state."
  | RevisionLimitReachedError =>
      "The maximum number of human-requested revisions has been reached."
  | EmbeddingNotConfiguredError =>
      "Knowledge embeddings are unavailable because OPENAI_API_KEY is not configured."
  | EmbeddingProviderError =>
      "Knowledge embedding generation is temporarily unavailable. Please try again."
  | InvalidEmbeddingError =>
      "The embedding service returned an invalid vector. Please try again."
  | EmptyKnowledgeDocumentError =>
      "The knowledge document must contain non-whitespace text."
  | KnowledgeDocumentNotFoundError =>
      "The requested knowledge document was not found."
  | KnowledgeStoreUnavailableError =>
      "The knowledge store is temporarily unavailable. Please try again."
  | KnowledgePersistenceError =>
      "The knowledge document could not be persisted. Please try again."
  | KnowledgeGraphDisabledError =>
      "Knowledge graph operations are not enabled."
  | KnowledgeGraphExtractionError =>
      "Knowledge graph extraction could not produce valid grounded data."
  | KnowledgeGraphPersistenceError =>
      "The knowledge graph could not be persisted. Please try again."
  | KnowledgeGraphUnavailableError =>
      "Knowledge graph retrieval is temporarily unavailable. Please try again."
  | UnsupportedFileTypeError =>
      "The uploaded file type is not supported or does not match its content."
  | FileTooLargeError =>
      "The uploaded file exceeds the configured size limit."
  | EmptyFileError =>
      "The uploaded file is empty."
  | InvalidUploadMetadataError =>
      "Upload metadata must be a valid JSON object."
  | DocumentParseError =>
      "The uploaded document could not be parsed."
  | EncryptedPDFError =>
      "Encrypted PDF files are not supported."
  | OCRRequiredError =>
      "The PDF requires OCR because it has insufficient extractable text."
  | TextDecodeError =>
      "The text document is not valid UTF-8."
  end.

Definition all_app_errors : list app_error :=
  [BaseApplicationError; AuthenticationRequiredError; PermissionDeniedError;
   ConnectorNotConfiguredError; ConnectorUnavailableError; InvalidConnectorResponseError;
   OpenAIClientNotConfiguredError; ModelProviderNotConfiguredError; LLMProviderError;
   InvalidLLMResponseError; AssessmentGenerationError; DatabaseNotConfiguredError;
   DatabaseUnavailableError; PersistenceError; AssessmentNotFoundError;
   RuntimeStateNotFoundError; InvalidReviewTransitionError; RevisionLimitReachedError;
   EmbeddingNotConfiguredError; EmbeddingProviderError; InvalidEmbeddingError;
   EmptyKnowledgeDocumentError; KnowledgeDocumentNotFoundError;
   KnowledgeStoreUnavailableError; KnowledgePersistenceError; KnowledgeGraphDisabledError;
   KnowledgeGraphExtractionError; KnowledgeGraphPersistenceError;
   KnowledgeGraphUnavailableError; UnsupportedFileTypeError; FileTooLargeError;
   EmptyFileError; InvalidUploadMetadataError; DocumentParseError; EncryptedPDFError;
   OCRRequiredError; TextDecodeError].

Lemma all_app_errors_complete (e : app_error) : e ∈ all_app_errors.
Proof. destruct e; vm_compute; repeat constructor. Qed.

(** Stable error codes are pairwise different, so a persisted code names one class. *)
Lemma error_code_inj (e1 e2 : app_error) : error_code e1 = error_code e2 → e1 = e2.
Proof.
  assert (H : forallb (λ a, forallb (λ b,
      implb (bool_decide (error_code a = error_code b)) (bool_decide (a = b)))
      all_app_errors) all_app_errors = true) by (vm_compute; reflexivity).
  rewrite forallb_Forall, Forall_forall in H.
  specialize (H e1 (all_app_errors_complete e1)).
  rewrite forallb_Forall, Forall_forall in H.
  specialize (H e2 (all_app_errors_complete e2)).
  intros Heq. rewrite (bool_decide_eq_true_2 _ Heq) in H. by apply bool_decide_eq_true in H.
Qed.

(** Codes and messages fit the columns [error_code(100)] and [error_message(500)],
    so the truncation in [mark_failed] never changes them. *)
Lemma error_code_bounded (e : app_error) : (length (error_code e) ≤ 100)%nat.
Proof. destruct e; vm_compute; lia. Qed.

Lemma public_message_bounded (e : app_error) : (length (public_message e) ≤ 500)%nat.
Proof. destruct e; vm_compute; lia. Qed.

(** ** Other exceptions

    The SQLAlchemy classes the handlers tell apart ([OperationalError] and
    [ProgrammingError] are subclasses of [SQLAlchemyError]); the provider errors of
    app/providers/contracts.py; [OperationTimeoutError] of app/runtime/resilience.py;
    pydantic's [ValidationError], which is a [ValueError]; the builtins raised by the
    code; any other exception carries the name of its type. *)

Inductive sql_error := OperationalError | ProgrammingError | OtherSQLAlchemyError.

Inductive provider_error :=
  | ProviderBaseError | ProviderTransientError | ProviderTimeoutError
  | ProviderPermanentError.

Inductive exn :=
  | ApplicationError (e : app_error)
  | SQLAlchemyError (e : sql_error)
  | ProviderError (e : provider_error)
  | OperationTimeoutError
  | ValidationError
  | ValueError
  | TypeError
  | KeyError
  | AssertionError
  | RuntimeError
  | GraphRecursionError
  | OtherException (type_name : pystr).

#[global] Instance sql_error_eq_dec : EqDecision sql_error.
Proof. solve_decision. Defined.
#[global] Instance provider_error_eq_dec : EqDecision provider_error.
Proof. solve_decision. Defined.
#[global] Instance exn_eq_dec : EqDecision exn.
Proof. solve_decision. Defined.

(** The subclasses of [ValueError] the standard library raises under a name of their own. *)
Definition value_error_names : list pystr :=
  lit <$> ["JSONDecodeError"; "UnicodeDecodeError"; "UnicodeEncodeError"].

(** [isinstance(exc, ValueError | TypeError)]. *)
Definition is_value_or_type_error (e : exn) : bool :=
  match e with
  | ValidationError | ValueError | TypeError => true
  | OtherException name => mem name value_error_names
  | _ => false
  end.

(** ** Results and effects *)

Inductive res (A : Type) :=
  | Ok (a : A)
  | Raise (e : exn).
Arguments Ok {A} a.
Arguments Raise {A} e.

(** A computation over a state [S]: Python keeps the mutations made before an
    exception, so the state is returned in both outcomes. *)
Definition M (S A : Type) : Type := S → S * res A.

Definition ret {S A} (a : A) : M S A := λ s, (s, Ok a).
Definition raise {S A} (e : exn) : M S A := λ s, (s, Raise e).
Definition bind {S A B} (m : M S A) (k : A → M S B) : M S B := λ s,
  match m s with
  | (s', Ok a) => k a s'
  | (s', Raise e) => (s', Raise e)
  end.

(** [try: m  except ...: handler], the handler seeing every exception. *)
Definition try_except {S A} (m : M S A) (handler : exn → M S A) : M S A := λ s,
  match m s with
  | (s', Ok a) => (s', Ok a)
  | (s', Raise e) => handler e s'
  end.

Definition of_res {S A} (r : res A) : M S A := λ s, (s, r).
Definition app_raise {S A} (e : app_error) : M S A := raise (ApplicationError e).

Notation "'let*' x ':=' m 'in' k" := (bind m (λ x, k))
  (at level 10, x pattern, k at level 200) : platform_scope.
Notation "m ;;; k" := (bind m (λ _, k))
  (at level 60, right associativity) : platform_scope.

(** Pure fallible code. *)
Definition res_bind {A B} (r : res A) (k : A → res B) : res B :=
  match r with Ok a => k a | Raise e => Raise e end.

(** [[f(x) for x in l]] where [f] may raise. *)
Fixpoint res_map {A B} (f : A → res B) (l : list A) : res (list B) :=
  match l with
  | [] => Ok []
  | a :: l' => res_bind (f a) (λ b, res_bind (res_map f l') (λ bs, Ok (b :: bs)))
  end.

Lemma res_map_length {A B} (f : A → res B) l bs : res_map f l = Ok bs → length bs = length l.
Proof.
  revert bs; induction l as [|a l IH]; simpl; intros bs; [by intros [= <-]|].
  destruct (f a); simpl; [|done]. destruct (res_map f l); simpl; [|done].
  intros [= <-]. simpl. by rewrite (IH _ eq_refl).
Qed.

Lemma res_map_fmap {A B C} (f : B → res C) (g : A → B) (h : A → C) l :
  (∀ a, a ∈ l → f (g a) = Ok (h a)) → res_map f (g <$> l) = Ok (h <$> l).
Proof.
  induction l as [|a l IH]; intros H; csimpl; [done|].
  rewrite H by left. simpl. rewrite IH; [done|]. intros; apply H; by right.
Qed.

Lemma res_map_total {A B} (f : A → res B) l :
  (∀ a, a ∈ l → ∃ b, f a = Ok b) →
  ∃ bs, res_map f l = Ok bs ∧ Forall2 (λ a b, f a = Ok b) l bs.
Proof.
  induction l as [|a l IH]; intros H; [by exists []|].
  destruct (H a) as [b Hb]; [left|]. destruct IH as (bs & Hbs & Hall); [intros; apply H; by right|].
  exists (b :: bs). simpl. rewrite Hb. simpl. rewrite Hbs. split; [done|by constructor].
Qed.

Lemma res_map_raises {A B} (f : A → res B) l e : res_map f l = Raise e → ∃ a, a ∈ l ∧ f a = Raise e.
Proof.
  induction l as [|a l IH]; simpl; [done|]. destruct (f a) as [b|e'] eqn:Hf; simpl.
  - destruct (res_map f l); simpl; [done|]. intros [= ->]. destruct IH as (x & Hx & He); [done|].
    exists x. by split; [right|].
  - intros [= ->]. exists a. by split; [left|].
Qed.

(** ** Post-conditions

    [wp m Q s]: running [m] from [s] ends in a state and an outcome related by
    [Q].  Every computation of the model terminates, so this is total
    correctness. *)

Definition wp {S A} (m : M S A) (Q : S → res A → Prop) (s : S) : Prop :=
  Q (m s).1 (m s).2.

Section wp_rules.
Context {S A B : Type}.
Implicit Types (s : S) (m : M S A).

Lemma wp_mono m (P Q : S → res A → Prop) s :
  wp m P s → (∀ s' r, P s' r → Q s' r) → wp m Q s.
Proof. unfold wp. auto. Qed.

Lemma wp_ret (a : A) (Q : S → res A → Prop) s : Q s (Ok a) → wp (ret a) Q s.
Proof. done. Qed.

Lemma wp_raise e (Q : S → res A → Prop) s : Q s (Raise e) → wp (raise e) Q s.
Proof. done. Qed.

Lemma wp_bind m (k : A → M S B) (Q : S → res B → Prop) s :
  wp m (λ s' r, match r with Ok a => wp (k a) Q s' | Raise e => Q s' (Raise e) end) s →
  wp (bind m k) Q s.
Proof. unfold wp, bind. destruct (m s) as [s' [a|e]]; done. Qed.

Lemma wp_try m (h : exn → M S A) (Q : S → res A → Prop) s :
  wp m (λ s' r, match r with Ok a => Q s' (Ok a) | Raise e => wp (h e) Q s' end) s →
  wp (try_except m h) Q s.
Proof. unfold wp, try_except. destruct (m s) as [s' [a|e]]; done. Qed.

Lemma wp_eq m (Q : S → res A → Prop) s s' r : m s = (s', r) → wp m Q s → Q s' r.
Proof. unfold wp. by intros ->. Qed.
End wp_rules.

Lemma bind_ret_l {S A B} (a : A) (k : A → M S B) s : bind (ret a) k s = k a s.
Proof. done. Qed.

Lemma bind_of_res {S A B} (r : res A) (k : A → M S B) s :
  bind (of_res r) k s = match r with Ok a => k a s | Raise e => (s, Raise e) end.
Proof. done. Qed.

Lemma bind_assoc {S A B C} (m : M S A) (f : A → M S B) (g : B → M S C) s :
  bind (bind m f) g s = bind m (λ a, bind (f a) g) s.
Proof. unfold bind. by destruct (m s) as [s' [a|e]]. Qed.

(** [try: m  finally: f]: [f] runs in both outcomes, and its own exception replaces the
    outcome. *)
Definition try_finally {S A} (m : M S A) (f : M S unit) : M S A := λ s,
  match m s with
  | (s', r) =>
      match f s' with
      | (s'', Ok _) => (s'', r)
      | (s'', Raise e) => (s'', Raise e)
      end
  end.

(** [x = None; try: x = m; return x  finally: f(x)]. *)
Definition finally_given {S A} (m : M S A) (f : option A → M S unit) : M S A := λ s,
  match m s with
  | (s', r) =>
      match f (match r with Ok a => Some a | Raise _ => None end) s' with
      | (s'', Ok _) => (s'', r)
      | (s'', Raise e) => (s'', Raise e)
      end
  end.

Lemma wp_finally_given {S A} (m : M S A) f (P : S → Prop) s :
  wp m (λ s1 _, ∀ o, wp (f o) (λ s2 _, P s2) s1) s → wp (finally_given m f) (λ s' _, P s') s.
Proof.
  unfold wp, finally_given. destruct (m s) as [s1 r]. simpl. intros H.
  specialize (H (match r with Ok a => Some a | Raise _ => None end)).
  by destruct (f _ s1) as [s2 [a|e]].
Qed.

(** ** Computations under a frame

    [safe R E m Q]: from any state, [m] moves along the preorder [R] and either returns a
    value satisfying [Q] or raises an exception satisfying [E]. *)

Definition safe {S} (R : relation S) (E : exn → Prop) {A} (m : M S A) (Q : A → Prop) : Prop :=
  ∀ s, wp m (λ s' r, R s s' ∧ match r with Ok a => Q a | Raise e => E e end) s.

Section safe_rules.
Context {S : Type} (R : relation S) `{!PreOrder R} (E : exn → Prop).

Lemma safe_ret {A} (a : A) (Q : A → Prop) : Q a → safe R E (ret a) Q.
Proof. intros H s. by apply wp_ret. Qed.

Lemma safe_raise {A} e (Q : A → Prop) : E e → safe R E (raise e) Q.
Proof. intros H s. by apply wp_raise. Qed.

Lemma safe_of_res {A} (r : res A) (Q : A → Prop) :
  match r with Ok a => Q a | Raise e => E e end → safe R E (of_res r) Q.
Proof. intros H s. unfold wp. simpl. split; [done|]. by destruct r. Qed.

Lemma safe_mono {A} (m : M S A) (E' : exn → Prop) (P Q : A → Prop) :
  safe R E' m P → (∀ e, E' e → E e) → (∀ a, P a → Q a) → safe R E m Q.
Proof.
  intros Hm HE HQ s. eapply wp_mono; [apply Hm|]. intros s' [a|e] [? ?]; split; auto.
Qed.

Lemma safe_bind {A B} (m : M S A) (k : A → M S B) P (Q : B → Prop) :
  safe R E m P → (∀ a, P a → safe R E (k a) Q) → safe R E (bind m k) Q.
Proof.
  intros Hm Hk s. apply wp_bind. eapply wp_mono; [apply Hm|].
  intros s' [a|e] [Hs Ha]; [|done]. eapply wp_mono; [by apply Hk|].
  intros s'' r [Hs' Hr]. split; [by transitivity s'|done].
Qed.

Lemma safe_try {A} (m : M S A) h (E' : exn → Prop) (Q : A → Prop) :
  safe R E' m Q → (∀ e, E' e → safe R E (h e) Q) → safe R E (try_except m h) Q.
Proof.
  intros Hm Hh s. apply wp_try. eapply wp_mono; [apply Hm|].
  intros s' [a|e] [Hs Ha]; [done|]. eapply wp_mono; [by apply Hh|].
  intros s'' r [Hs' Hr]. split; [by transitivity s'|done].
Qed.

Lemma safe_finally {A} (m : M S A) f (Q : A → Prop) :
  safe R E m Q → safe R E f (λ _, True) → safe R E (try_finally m f) Q.
Proof.
  intros Hm Hf s. specialize (Hm s). unfold wp, try_finally in *.
  destruct (m s) as [s' r]. simpl in Hm. destruct Hm as [Hs Hr].
  specialize (Hf s'). unfold wp in Hf. destruct (f s') as [s'' [[]|e]]; simpl in *;
    destruct Hf as [Hs' He]; (split; [by transitivity s'|done]).
Qed.

Lemma safe_finally_given {A} (m : M S A) f (Q : A → Prop) :
  safe R E m Q → (∀ o, from_option Q True o → safe R E (f o) (λ _, True)) →
  safe R E (finally_given m f) Q.
Proof.
  intros Hm Hf s. specialize (Hm s). unfold wp, finally_given in *.
  destruct (m s) as [s' r]. simpl in Hm. destruct Hm as [Hs Hr].
  assert (from_option Q True (match r with Ok a => Some a | Raise _ => None end)) as Ho
    by by destruct r.
  specialize (Hf _ Ho s'). unfold wp in Hf.
  destruct (f _ s') as [s'' [[]|e]]; simpl in *;
    destruct Hf as [Hs' He]; (split; [by transitivity s'|done]).
Qed.
End safe_rules.
