(* ===== verification/Chunking.v ===== *)
(** app/rag/chunking.py: text normalization and chunking.

    Normalization keeps every visible character in order and is idempotent, so the chunk
    offsets computed on normalized text refer to the stored document; every visible
    character of the document lies in a chunk, and every chunk is a bounded, trimmed slice
    of the document. *)
From S2P Require Import Prelude Errors.

Module TextChunk.
Record t := mk {
  index : nat;
  content : pystr;
  start_offset : nat;
  end_offset : nat
}.
End TextChunk.

(** ** normalize_text *)

(** The loop: [started] is [bool(normalized_lines)]. *)
Fixpoint normalize_lines (started previous_blank : bool) (lines : list pystr) : list pystr :=
  match lines with
  | [] => []
  | line :: rest =>
      let cleaned := str_rstrip line in
      if truthy (str_strip cleaned)
      then cleaned :: normalize_lines true false rest
      else if started && negb previous_blank
           then [] :: normalize_lines started true rest
           else normalize_lines started true rest
  end.

Definition unified_newlines (raw_text : pystr) : pystr :=
  str_replace (str_replace raw_text [13; 10]%Z [10%Z]) [13%Z] [10%Z].

Definition normalize_text (raw_text : pystr) : pystr :=
  str_strip (str_join [10%Z]
    (normalize_lines false false (str_split 10 (unified_newlines raw_text)))).

(** ** chunk_text *)

(** [s[a:b]] for [0 <= a]. *)
Definition py_slice (s : pystr) (a b : nat) : pystr := take (b - a) (drop a s).

(** [s.rfind(sub, lo, hi)]: the last of the [n] positions from [lo] where [sub] starts. *)
Fixpoint rfind_below (sub s : pystr) (lo n : nat) : option nat :=
  match n with
  | O => None
  | S k => if str_startswith sub (drop (lo + k) s) then Some (lo + k)%nat
           else rfind_below sub s lo k
  end.
Definition rfind (sub s : pystr) (lo hi : nat) : option nat :=
  rfind_below sub s lo (S hi - length sub - lo).

(** The end of the chunk that starts at [start]. *)
Definition chunk_end (text : pystr) (size start : nat) : nat :=
  let end_ := Nat.min (start + size) (length text) in
  if Nat.ltb end_ (length text) then
    let search_start := Nat.min (start + Nat.div2 size) end_ in
    match rfind [10; 10]%Z text search_start end_ with
    | Some boundary => boundary
    | None =>
        match rfind [10%Z] text search_start end_ with
        | Some boundary => boundary
        | None => default end_ (rfind [32%Z] text search_start end_)
        end
    end
  else end_.

(** The chunk cut out of [text[start:end]], if it is not blank. *)
Definition chunk_at (text : pystr) (index start end_ : nat) : list TextChunk.t :=
  let candidate := py_slice text start end_ in
  let content_start := (start + (length candidate - length (str_lstrip candidate)))%nat in
  let content_end := (end_ - (length candidate - length (str_rstrip candidate)))%nat in
  let content := py_slice text content_start content_end in
  if truthy content then [TextChunk.mk index content content_start content_end] else [].

Fixpoint chunk_loop (fuel : nat) (text : pystr) (size overlap start index : nat) :
    list TextChunk.t :=
  match fuel with
  | O => []
  | S fuel =>
      if Nat.ltb start (length text) then
        let end_ := chunk_end text size start in
        let chunks := chunk_at text index start end_ in
        if Nat.leb (length text) end_ then chunks
        else chunks ++ chunk_loop fuel text size overlap
               (Nat.max (end_ - overlap) (start + 1)) (index + length chunks)
      else []
  end.

Definition chunk_text (text : pystr) (chunk_size overlap : Z) : res (list TextChunk.t) :=
  if Z.leb chunk_size 0 then Raise ValueError
  else if Z.ltb overlap 0 || Z.leb chunk_size overlap then Raise ValueError
  else
    let normalized := normalize_text text in
    Ok (chunk_loop (length normalized) normalized (Z.to_nat chunk_size) (Z.to_nat overlap) 0 0).

Example chunk_words :
  TextChunk.content <$> match chunk_text "alpha beta gamma delta" 12 3 with
                        | Ok l => l | Raise _ => [] end =
  [lit "alpha beta"; lit "eta gamma"; lit "mma delta"].
Proof. vm_compute. reflexivity. Qed.

(** ** Spaces *)

Definition visible (s : pystr) : pystr := filter (λ c, is_space c = false) s.

Lemma visible_app s t : visible (s ++ t) = visible s ++ visible t.
Proof. apply filter_app. Qed.

Lemma visible_cons c s : visible (c :: s) = if is_space c then visible s else c :: visible s.
Proof. unfold visible. rewrite filter_cons. destruct (is_space c); by case_decide. Qed.

Lemma lstrip_spec s : ∃ sp, s = sp ++ str_lstrip s ∧ Forall (λ c, is_space c = true) sp ∧
  match head (str_lstrip s) with Some c => is_space c = false | None => True end.
Proof.
  induction s as [|c s (sp & Hs & Hsp & Hh)]; simpl; [by exists []|].
  destruct (is_space c) eqn:Hc; [|by exists []].
  exists (c :: sp). split; [simpl; by f_equal|]. split; [by constructor|done].
Qed.

Lemma rstrip_spec s : ∃ sp, s = str_rstrip s ++ sp ∧ Forall (λ c, is_space c = true) sp ∧
  match last (str_rstrip s) with Some c => is_space c = false | None => True end.
Proof.
  unfold str_rstrip. destruct (lstrip_spec (reverse s)) as (sp & Hs & Hsp & Hh).
  exists (reverse sp). split; [|split].
  - rewrite <- reverse_app, <- Hs. by rewrite reverse_involutive.
  - by apply Forall_reverse.
  - by rewrite last_reverse.
Qed.

Lemma visible_spaces s : Forall (λ c, is_space c = true) s → visible s = [].
Proof. induction 1 as [|c s Hc _ IH]; [done|]. by rewrite visible_cons, Hc. Qed.

Lemma visible_lstrip s : visible (str_lstrip s) = visible s.
Proof.
  destruct (lstrip_spec s) as (sp & Hs & Hsp & _). rewrite Hs at 2.
  by rewrite visible_app, (visible_spaces sp).
Qed.

Lemma visible_rstrip s : visible (str_rstrip s) = visible s.
Proof.
  destruct (rstrip_spec s) as (sp & Hs & Hsp & _). rewrite Hs at 2.
  by rewrite visible_app, (visible_spaces sp), app_nil_r.
Qed.

Lemma visible_strip s : visible (str_strip s) = visible s.
Proof. unfold str_strip. by rewrite visible_rstrip, visible_lstrip. Qed.

(** The three ways a string is blank. *)
Lemma strip_nil s : truthy (str_strip s) = false ↔ visible s = [].
Proof.
  rewrite <- visible_strip. split.
  - destruct (str_strip s) eqn:Hs; [done|]. discriminate.
  - unfold str_strip. destruct (rstrip_spec (str_lstrip s)) as (sp & _ & _ & Hl).
    destruct (last (str_rstrip (str_lstrip s))) as [c|] eqn:E.
    + apply last_Some in E as [l' Hl']. rewrite Hl', visible_app, visible_cons, Hl.
      intros H. by apply app_nil in H as [_ H].
    + apply last_None in E. by rewrite E.
Qed.

(** ** Normalization keeps the visible characters *)

Lemma startswith_app p s : str_startswith p s = true → ∃ post, s = p ++ post.
Proof.
  revert s; induction p as [|c p IH]; intros s H; [by exists s|].
  destruct s as [|d s]; [done|]. simpl in H. apply andb_true_iff in H as [->%Z.eqb_eq H].
  destruct (IH s H) as [post ->]. by exists post.
Qed.

Lemma visible_replace old new skip s :
  old ≠ [] → Forall (λ c, is_space c = true) old → visible new = [] →
  Forall (λ c, is_space c = true) (take skip s) →
  visible (str_replace_from old new skip s) = visible s.
Proof.
  intros Hne Ho Hn. revert skip; induction s as [|c s IH]; intros skip Hk; [done|].
  destruct skip as [|k]; simpl.
  - destruct (str_startswith old (c :: s)) eqn:Hs.
    + destruct (startswith_app _ _ Hs) as [post Hp].
      rewrite visible_app, Hn. simpl.
      assert (Forall (λ c, is_space c = true) (take (length old - 1) s)) as Hold.
      { destruct old as [|d old].
        - simpl. by rewrite take_0.
        - injection Hp as -> ->. inversion_clear Ho. simpl. rewrite Nat.sub_0_r.
          by rewrite take_app_length. }
      rewrite IH by done. destruct old as [|d old]; [done|].
      injection Hp as -> _. inversion_clear Ho as [|? ? Hd _]. by rewrite visible_cons, Hd.
    + rewrite !visible_cons. by rewrite IH by (by rewrite take_0).
  - inversion_clear Hk. rewrite IH by done. rewrite visible_cons. by destruct (is_space c).
Qed.

Lemma visible_unified s : visible (unified_newlines s) = visible s.
Proof.
  unfold unified_newlines, str_replace.
  by rewrite !visible_replace by (done || by rewrite ?take_0; repeat constructor).
Qed.

Lemma visible_join ls : visible (str_join [10%Z] ls) = mjoin (visible <$> ls).
Proof.
  induction ls as [|l ls IH]; [done|]. destruct ls as [|l2 ls].
  - csimpl. by rewrite app_nil_r.
  - change (str_join [10%Z] (l :: l2 :: ls)) with (l ++ [10%Z] ++ str_join [10%Z] (l2 :: ls)).
    rewrite !visible_app, IH. done.
Qed.

Lemma join_split s : str_join [10%Z] (str_split 10 s) = s.
Proof.
  induction s as [|c s IH]; [done|]. cbn [str_split].
  destruct (Z.eqb_spec c 10) as [->|Hc].
  - destruct (str_split 10 s) as [|l ls] eqn:E; [by destruct s; simpl in E; repeat case_match|].
    change (str_join [10%Z] ([] :: l :: ls)) with ([10%Z] ++ str_join [10%Z] (l :: ls)).
    by rewrite IH.
  - destruct (str_split 10 s) as [|l ls]; [by simpl in *; subst|].
    destruct ls as [|l2 ls]; simpl in *; by subst.
Qed.

Lemma visible_normalize_lines started blank ls :
  mjoin (visible <$> normalize_lines started blank ls) = mjoin (visible <$> ls).
Proof.
  revert started blank; induction ls as [|l ls IH]; intros started blank; [done|]. simpl.
  destruct (truthy (str_strip (str_rstrip l))) eqn:Ht.
  - csimpl. by rewrite IH, visible_rstrip.
  - apply strip_nil in Ht. rewrite visible_rstrip in Ht. csimpl. rewrite Ht. simpl.
    destruct (started && negb blank); csimpl; by rewrite IH.
Qed.

Lemma visible_normalize s : visible (normalize_text s) = visible s.
Proof.
  unfold normalize_text.
  rewrite visible_strip, visible_join, visible_normalize_lines, <- visible_join, join_split.
  apply visible_unified.
Qed.

(** ** Trimming a slice *)

Lemma lstrip_spaces sp s : Forall (λ c, is_space c = true) sp → str_lstrip (sp ++ s) = str_lstrip s.
Proof. induction 1 as [|c sp Hc _ IH]; [done|]. simpl. by rewrite Hc. Qed.

Lemma lstrip_visible_head c s : is_space c = false → str_lstrip (c :: s) = c :: s.
Proof. simpl. by intros ->. Qed.

Lemma rstrip_spaces s sp : Forall (λ c, is_space c = true) sp → str_rstrip (s ++ sp) = str_rstrip s.
Proof.
  intros H. unfold str_rstrip. rewrite reverse_app, lstrip_spaces; [done|by apply Forall_reverse].
Qed.

Lemma rstrip_visible_last s c : is_space c = false → str_rstrip (s ++ [c]) = s ++ [c].
Proof.
  intros H. unfold str_rstrip. rewrite reverse_snoc, lstrip_visible_head by done.
  by rewrite <- reverse_snoc, reverse_involutive.
Qed.

(** A string is blank, or a core between spaces that both strips keep. *)
Lemma strip_cases s :
  (Forall (λ c, is_space c = true) s) ∨
  ∃ sp1 core sp2, s = sp1 ++ core ++ sp2 ∧ Forall (λ c, is_space c = true) sp1 ∧
    Forall (λ c, is_space c = true) sp2 ∧ core ≠ [] ∧ str_lstrip core = core ∧
    str_rstrip core = core ∧ str_lstrip s = core ++ sp2 ∧ str_rstrip s = sp1 ++ core.
Proof.
  destruct (lstrip_spec s) as (sp1 & Hs & Hsp1 & Hh).
  destruct (str_lstrip s) as [|c body] eqn:Hb; [left; by rewrite Hs, app_nil_r|right].
  destruct (rstrip_spec (c :: body)) as (sp2 & Hr & Hsp2 & Hl).
  destruct (last (str_rstrip (c :: body))) as [d|] eqn:E.
  2: { apply last_None in E. rewrite E in Hr. simpl in Hr. subst sp2.
       inversion_clear Hsp2. simpl in Hh. congruence. }
  apply last_Some in E as [l' Hcore]. set (core := str_rstrip (c :: body)) in *.
  exists sp1, core, sp2. assert (core ≠ []) as Hne by (rewrite Hcore; by destruct l').
  assert (∃ core', core = c :: core') as [core' Hc].
  { destruct core as [|c' core']; [done|]. injection Hr as -> _. by exists core'. }
  split_and!; try done.
  - by rewrite Hs, Hr.
  - rewrite Hc. by apply lstrip_visible_head.
  - rewrite Hcore. by apply rstrip_visible_last.
  - rewrite Hs, Hr, app_assoc, rstrip_spaces, Hcore, app_assoc by done.
    by apply rstrip_visible_last.
Qed.

Lemma slice_app_middle (s pre mid post : pystr) a :
  drop a s = pre ++ mid ++ post → py_slice s (a + length pre) (a + length pre + length mid) = mid.
Proof.
  intros H. unfold py_slice. replace (_ - _)%nat with (length mid) by lia.
  by rewrite <- drop_drop, H, drop_app_length, take_app_length.
Qed.

Definition trimmed (s : pystr) : Prop := s ≠ [] ∧ str_lstrip s = s ∧ str_rstrip s = s.

(** A chunk is a trimmed slice of the text between its offsets. *)
Definition chunk_ok (text : pystr) (c : TextChunk.t) : Prop :=
  TextChunk.content c = py_slice text (TextChunk.start_offset c) (TextChunk.end_offset c) ∧
  trimmed (TextChunk.content c) ∧
  (TextChunk.start_offset c < TextChunk.end_offset c ≤ length text)%nat.

Definition covers (chunks : list TextChunk.t) (p : nat) : Prop :=
  ∃ c, c ∈ chunks ∧ (TextChunk.start_offset c ≤ p < TextChunk.end_offset c)%nat.

Definition visible_at (text : pystr) (p : nat) : Prop :=
  ∃ c, text !! p = Some c ∧ is_space c = false.

Lemma slice_length (s : pystr) a b : (a ≤ b ≤ length s)%nat → length (py_slice s a b) = (b - a)%nat.
Proof. intros H. unfold py_slice. rewrite length_take, length_drop. lia. Qed.

Lemma slice_lookup (s : pystr) a b p :
  (a ≤ p < b)%nat → py_slice s a b !! (p - a)%nat = s !! p.
Proof.
  intros H. unfold py_slice. rewrite lookup_take_lt by lia. rewrite lookup_drop. f_equal. lia.
Qed.

Lemma space_at (sp : pystr) i c :
  Forall (λ c, is_space c = true) sp → sp !! i = Some c → is_space c = true.
Proof. intros H Hi. by eapply Forall_lookup in H. Qed.

Lemma chunk_at_spec text index start end_ :
  (start ≤ end_ ≤ length text)%nat →
  (length (chunk_at text index start end_) ≤ 1)%nat ∧
  (∀ c, c ∈ chunk_at text index start end_ →
     TextChunk.index c = index ∧ chunk_ok text c ∧
     (start ≤ TextChunk.start_offset c ∧ TextChunk.end_offset c ≤ end_)%nat) ∧
  (∀ p, (start ≤ p < end_)%nat → visible_at text p → covers (chunk_at text index start end_) p).
Proof.
  intros Hb. unfold chunk_at. set (cand := py_slice text start end_).
  assert (length cand = (end_ - start)%nat) as Hlen by by apply slice_length.
  assert (∃ post, drop start text = cand ++ post) as [post Hpost].
  { exists (drop (end_ - start) (drop start text)). unfold cand, py_slice. by rewrite take_drop. }
  destruct (strip_cases cand) as [Hsp|(sp1 & core & sp2 & Hc & H1 & H2 & Hne & Hl & Hr & Hls & Hrs)].
  - assert (str_lstrip cand = []) as Hls.
    { rewrite <- (app_nil_r cand). by rewrite lstrip_spaces. }
    rewrite Hls. simpl (length []). rewrite Nat.sub_0_r, Hlen.
    replace (py_slice _ _ _) with (@nil Z).
    2: { unfold py_slice. replace (_ - _)%nat with 0%nat by lia. by rewrite take_0. }
    simpl. split; [lia|]. split; [set_solver|].
    intros p Hp (c & Hc & Hs). exfalso. rewrite <- (slice_lookup text start end_ p Hp) in Hc.
    rewrite (space_at _ _ _ Hsp Hc) in Hs. done.
  - rewrite Hls, Hrs. rewrite Hc in Hlen |- *. rewrite !length_app in *.
    assert (0 < length core)%nat by (destruct core; [done|simpl; lia]).
    rewrite Hc, <- !app_assoc in Hpost. pose proof (slice_app_middle _ _ _ _ _ Hpost) as Hslice.
    replace (start + _)%nat with (start + length sp1)%nat by lia.
    replace (end_ - _)%nat with (start + length sp1 + length core)%nat by lia.
    rewrite Hslice. destruct core as [|c0 core'] eqn:Ecore; [done|]. rewrite <- Ecore in *.
    replace (truthy core) with true by (by rewrite Ecore).
    split; [simpl; lia|]. split.
    + intros c [->|[]%elem_of_nil]%elem_of_cons. simpl. split; [done|]. split; [|lia].
      split; [done|]. split; [by split_and!|]. simpl. lia.
    + intros p Hp (c & Hcp & Hs). eexists. split; [left|]. simpl.
      rewrite <- (slice_lookup text start end_ p Hp) in Hcp. fold cand in Hcp. rewrite Hc in Hcp.
      destruct (decide (p - start < length sp1)%nat).
      { rewrite lookup_app_l in Hcp by done. by rewrite (space_at _ _ _ H1 Hcp) in Hs. }
      rewrite lookup_app_r in Hcp by lia.
      destruct (decide (p - start - length sp1 < length core)%nat); [lia|].
      rewrite lookup_app_r in Hcp by lia. by rewrite (space_at _ _ _ H2 Hcp) in Hs.
Qed.

(** ** The boundary search and the loop *)

Lemma rfind_below_spec sub s lo n i :
  rfind_below sub s lo n = Some i →
  (lo ≤ i < lo + n)%nat ∧ str_startswith sub (drop i s) = true.
Proof.
  induction n as [|k IH]; [done|]. simpl.
  destruct (str_startswith sub (drop (lo + k) s)) eqn:H.
  - intros [= <-]. split; [lia|done].
  - intros [Hi Hs]%IH. split; [lia|done].
Qed.

(** A boundary lies in the searched range and stands on a space. *)
Lemma rfind_boundary c sub s lo hi i :
  is_space c = true → rfind (c :: sub) s lo hi = Some i →
  (lo ≤ i < hi)%nat ∧ ¬ visible_at s i.
Proof.
  intros Hc H. apply rfind_below_spec in H as [Hi Hs]. simpl in Hi. split; [lia|].
  destruct (startswith_app _ _ Hs) as [post Hp]. intros (d & Hd & Hds).
  rewrite <- (Nat.add_0_r i), <- lookup_drop, Hp in Hd. injection Hd as ->. congruence.
Qed.

Lemma chunk_end_spec text size start :
  (0 < size)%nat → (start < length text)%nat →
  let end_ := chunk_end text size start in
  (start ≤ end_ ≤ Nat.min (start + size) (length text))%nat ∧
  (end_ = start → ¬ visible_at text start).
Proof.
  intros Hs Hlt end_. subst end_. unfold chunk_end. generalize (Nat.div2 size). intros half.
  remember (Nat.min (start + size) (length text)) as e eqn:He.
  destruct (Nat.ltb_spec e (length text)); [|lia].
  remember (Nat.min (start + half) e) as lo eqn:Hlo.
  assert (start < e ∧ start ≤ lo ≤ e)%nat as [Hse Hl] by lia.
  assert (∀ c sub i, is_space c = true → rfind (c :: sub) text lo e = Some i →
    (start ≤ i ≤ e)%nat ∧ (i = start → ¬ visible_at text start)) as Hb.
  { intros c sub i Hc Hi. destruct (rfind_boundary c sub text lo e i Hc Hi) as [Hr Hv].
    split; [lia|]. by intros <-. }
  destruct (rfind [10; 10]%Z text lo e) eqn:E1; [by eapply Hb; [|exact E1]; reflexivity|].
  destruct (rfind [10%Z] text lo e) eqn:E2; [by eapply Hb; [|exact E2]; reflexivity|].
  destruct (rfind [32%Z] text lo e) eqn:E3; simpl; [by eapply Hb; [|exact E3]; reflexivity|]. lia.
Qed.

(** Chunks later in the list start no earlier and repeat at most [overlap] characters. *)
Definition overlap_at_most (overlap : nat) (c1 c2 : TextChunk.t) : Prop :=
  (TextChunk.end_offset c1 ≤ TextChunk.start_offset c2 + overlap)%nat.

Lemma chunk_loop_spec text size overlap fuel start index :
  (0 < size)%nat → (length text - start ≤ fuel)%nat →
  let chunks := chunk_loop fuel text size overlap start index in
  TextChunk.index <$> chunks = seq index (length chunks) ∧
  (∀ c, c ∈ chunks → chunk_ok text c ∧ (start ≤ TextChunk.start_offset c)%nat ∧
     (TextChunk.end_offset c ≤ TextChunk.start_offset c + size)%nat) ∧
  (∀ p, (start ≤ p)%nat → visible_at text p → covers chunks p) ∧
  StronglySorted (overlap_at_most overlap) chunks.
Proof.
  intros Hs. revert start index; induction fuel as [|fuel IH]; intros start index Hf.
  { simpl. split_and!; [done|set_solver| |constructor].
    intros p Hp (c & Hc & _). apply lookup_lt_Some in Hc. lia. }
  cbn [chunk_loop]. destruct (Nat.ltb_spec start (length text)) as [Hlt|Hge].
  2: { simpl. split_and!; [done|set_solver| |constructor].
       intros p Hp (c & Hc & _). apply lookup_lt_Some in Hc. lia. }
  destruct (chunk_end_spec text size start Hs Hlt) as [He Hsp].
  set (e := chunk_end text size start) in *.
  destruct (chunk_at_spec text index start e) as (Hlen & Hok & Hcov); [lia|].
  set (here := chunk_at text index start e) in *.
  assert (TextChunk.index <$> here = seq index (length here)) as Hidx.
  { destruct here as [|c [|? ?]]; [done| |simpl in Hlen; lia].
    destruct (Hok c) as [Hi _]; [left|]. csimpl. by rewrite Hi. }
  assert (StronglySorted (overlap_at_most overlap) here) as Hsort.
  { destruct here as [|c [|? ?]]; [constructor|by repeat constructor|simpl in Hlen; lia]. }
  assert (∀ c, c ∈ here → chunk_ok text c ∧ (start ≤ TextChunk.start_offset c)%nat ∧
     (TextChunk.end_offset c ≤ TextChunk.start_offset c + size)%nat) as Hhere.
  { intros c Hc. destruct (Hok c Hc) as (_ & Hk & Hr). split; [done|]. lia. }
  destruct (Nat.leb_spec (length text) e) as [Hdone|Hmore].
  - split_and!; try done. intros p Hp Hv. apply Hcov; [|done].
    destruct Hv as (c & Hc & _). apply lookup_lt_Some in Hc. lia.
  - set (next := Nat.max (e - overlap) (start + 1)).
    destruct (IH next (index + length here)%nat) as (Hi & Hk & Hc & Hss); [lia|].
    set (rest := chunk_loop _ _ _ _ _ _) in *. split; [|split; [|split]].
    + by rewrite fmap_app, Hidx, Hi, length_app, seq_app.
    + intros c [Hin|Hin]%elem_of_app; [by apply Hhere|].
      destruct (Hk c Hin) as (? & ? & ?). split; [done|]. lia.
    + intros p Hp Hv.
      assert (covers here p ∨ covers rest p) as [(c & Hin & Hr)|(c & Hin & Hr)].
      { destruct (decide (p < e)%nat); [left; apply Hcov; [lia|done]|].
        right. apply Hc; [|done]. destruct (decide (p = start)) as [->|]; [|lia].
        exfalso. by apply Hsp; [lia|]. }
      * exists c. split; [|done]. apply elem_of_app. by left.
      * exists c. split; [|done]. apply elem_of_app. by right.
    + apply StronglySorted_app_2; [|done|done].
      intros c1 c2 H1 H2. destruct (Hok c1 H1) as (_ & _ & Hr).
      destruct (Hk c2 H2) as (_ & Hr2 & _). unfold overlap_at_most. lia.
Qed.

(** chunking accepts exactly a positive size and a smaller overlap; its chunks are
    numbered from zero, each is a trimmed slice of the normalized text of at most
    [chunk_size] characters, no visible character is lost, and two chunks share at most
    [overlap] characters. *)
Theorem chunk_text_correct text chunk_size overlap :
  ((0 < chunk_size ∧ 0 ≤ overlap < chunk_size)%Z →
   ∃ chunks, chunk_text text chunk_size overlap = Ok chunks ∧
     let normalized := normalize_text text in
     TextChunk.index <$> chunks = seq 0 (length chunks) ∧
     (∀ c, c ∈ chunks → chunk_ok normalized c ∧
        (Z.of_nat (length (TextChunk.content c)) ≤ chunk_size)%Z) ∧
     (∀ p, visible_at normalized p → covers chunks p) ∧
     StronglySorted (overlap_at_most (Z.to_nat overlap)) chunks) ∧
  (¬ (0 < chunk_size ∧ 0 ≤ overlap < chunk_size)%Z →
   chunk_text text chunk_size overlap = Raise ValueError).
Proof.
  unfold chunk_text.
  destruct (Z.leb_spec chunk_size 0); [split; [lia|done]|].
  destruct (Z.ltb_spec overlap 0); [split; [lia|done]|].
  destruct (Z.leb_spec chunk_size overlap); [split; [lia|done]|].
  split; [|lia]. intros _. eexists. split; [reflexivity|]. cbn zeta.
  set (n := normalize_text text).
  destruct (chunk_loop_spec n (Z.to_nat chunk_size) (Z.to_nat overlap) (length n) 0 0)
    as (Hi & Hk & Hc & Hs); [lia|lia|].
  split_and!; [done| |intros p; apply Hc; lia|done].
  intros c Hin. destruct (Hk c Hin) as (Hok & _ & Hsz). split; [done|].
  destruct Hok as (-> & _ & Hr). rewrite slice_length by lia. lia.
Qed.

Lemma chunk_text_correct_witness :
  ∃ chunks, chunk_text "alpha beta gamma delta" 12 3 = Ok chunks ∧ length chunks = 3%nat ∧
    ∀ p, visible_at (normalize_text "alpha beta gamma delta") p → covers chunks p.
Proof.
  destruct (proj1 (chunk_text_correct "alpha beta gamma delta" 12 3)) as (chunks & Hc & Hr).
  { lia. }
  exists chunks. split; [exact Hc|]. split; [|apply Hr].
  assert (Hv : chunk_text "alpha beta gamma delta" 12 3 = Ok chunks) by exact Hc.
  vm_compute in Hv. injection Hv as <-. reflexivity.
Defined.
