(* ===== verification/TextNormalization.v ===== *)
(** app/rag/chunking.py: normalizing text is idempotent.  The ingestion pipeline stores the
    normalized document and chunks it with a second normalization, so the offsets of the
    chunks refer to the stored text. *)
From S2P Require Import Prelude Errors Chunking.

(** ** Replacing and splitting *)

Lemma replace_one_absent a b s : a ≠ b → a ∉ str_replace_from [a] [b] 0 s.
Proof.
  intros Hab. induction s as [|c s IH]; [set_solver|]. cbn [str_replace_from str_startswith].
  destruct (Z.eqb_spec a c) as [->|]; cbn [andb]; [|set_solver].
  simpl. set_solver.
Qed.

Lemma replace_absent a old new s : a ∉ s → str_replace_from (a :: old) new 0 s = s.
Proof.
  induction s as [|c s IH]; intros Ha; [done|]. cbn [str_replace_from str_startswith].
  destruct (Z.eqb_spec a c); [set_solver|]. simpl. rewrite IH; [done|set_solver].
Qed.

Lemma split_parts sep s l : l ∈ str_split sep s → sep ∉ l ∧ ∀ c, c ∈ l → c ∈ s.
Proof.
  revert l; induction s as [|c s IH]; intros l; cbn [str_split].
  { intros ->%list_elem_of_singleton. split; [apply not_elem_of_nil|]. by intros c ?%elem_of_nil. }
  destruct (Z.eqb_spec c sep) as [->|Hc].
  - intros [->|Hl]%elem_of_cons.
    + split; [apply not_elem_of_nil|]. by intros c ?%elem_of_nil.
    + destruct (IH l Hl) as [H1 H2]. split; [done|]. intros d Hd. right. by apply H2.
  - destruct (str_split sep s) as [|w ws].
    + intros ->%list_elem_of_singleton. split.
      * intros Heq%list_elem_of_singleton. congruence.
      * intros d ->%list_elem_of_singleton. left.
    + intros [->|Hl]%elem_of_cons.
      * destruct (IH w) as [H1 H2]; [left|]. split.
        -- intros [Heq|?]%elem_of_cons; [congruence|done].
        -- intros d [->|Hd]%elem_of_cons; [left|]. right. by apply H2.
      * destruct (IH l) as [H1 H2]; [by right|]. split; [done|]. intros d Hd. right. by apply H2.
Qed.

Lemma split_join ls :
  ls ≠ [] → (∀ l, l ∈ ls → 10%Z ∉ l) → str_split 10 (str_join [10%Z] ls) = ls.
Proof.
  assert (∀ l, 10%Z ∉ l → str_split 10 l = [l]) as Hone.
  { intros l. induction l as [|c l IH]; intros Hl; [done|]. cbn [str_split].
    destruct (Z.eqb_spec c 10) as [->|_]; [set_solver|]. rewrite IH; [done|set_solver]. }
  assert (∀ l s, 10%Z ∉ l → str_split 10 (l ++ 10%Z :: s) = l :: str_split 10 s) as Hmany.
  { intros l s. induction l as [|c l IH]; intros Hl; [done|]. cbn [app str_split].
    destruct (Z.eqb_spec c 10) as [->|_]; [set_solver|]. rewrite IH; [done|set_solver]. }
  induction ls as [|l ls IH]; intros Hne H; [done|].
  destruct ls as [|l2 ls]; [apply Hone, H; left|].
  change (str_join [10%Z] (l :: l2 :: ls)) with (l ++ 10%Z :: str_join [10%Z] (l2 :: ls)).
  rewrite Hmany by (apply H; left). f_equal. apply IH; [done|]. intros l' Hl'. apply H. by right.
Qed.

(** ** Clean lines

    A line without line breaks and without trailing space, visible somewhere. *)
Definition clean_line (l : pystr) : Prop :=
  visible l ≠ [] ∧ str_rstrip l = l ∧ 10%Z ∉ l ∧ 13%Z ∉ l.

(** Clean lines with single blank lines between them; [blank] says a blank line, or the
    beginning of the text, comes just before. *)
Fixpoint clean_lines (blank : bool) (ls : list pystr) : Prop :=
  match ls with
  | [] => True
  | l :: rest => (l = [] ∧ blank = false ∧ clean_lines true rest) ∨
                 (clean_line l ∧ clean_lines false rest)
  end.

Lemma rstrip_idem s : str_rstrip (str_rstrip s) = str_rstrip s.
Proof. destruct (rstrip_spec s) as (sp & Hs & Hsp & _). rewrite Hs at 2. by rewrite rstrip_spaces. Qed.

Lemma rstrip_subset s c : c ∈ str_rstrip s → c ∈ s.
Proof. destruct (rstrip_spec s) as (sp & Hs & _). rewrite Hs at 2. set_solver. Qed.

Lemma lstrip_subset s c : c ∈ str_lstrip s → c ∈ s.
Proof. destruct (lstrip_spec s) as (sp & Hs & _). rewrite Hs at 2. set_solver. Qed.

Lemma normalize_lines_clean started blank ls :
  (∀ l, l ∈ ls → 10%Z ∉ l ∧ 13%Z ∉ l) →
  clean_lines (negb (started && negb blank)) (normalize_lines started blank ls).
Proof.
  revert started blank; induction ls as [|l ls IH]; intros started blank H; [done|]. simpl.
  assert (∀ l, l ∈ ls → 10%Z ∉ l ∧ 13%Z ∉ l) as H' by (intros; apply H; by right).
  destruct (truthy (str_strip (str_rstrip l))) eqn:Ht.
  - right. split; [|exact (IH true false H')]. destruct (H l) as [H1 H2]; [left|]. split_and!.
    + intros Hv. apply strip_nil in Hv. congruence.
    + apply rstrip_idem.
    + by intros ?%rstrip_subset.
    + by intros ?%rstrip_subset.
  - destruct (started && negb blank) eqn:Hs.
    + left. split_and!; [done|done|]. pose proof (IH started true H') as Hc.
      by rewrite andb_false_r in Hc.
    + pose proof (IH started true H') as Hc. by rewrite andb_false_r in Hc.
Qed.

(** Normalizing clean lines changes nothing. *)
Lemma normalize_lines_id started blank ls :
  clean_lines (negb (started && negb blank)) ls → normalize_lines started blank ls = ls.
Proof.
  revert started blank; induction ls as [|l ls IH]; intros started blank H; [done|]. simpl in *.
  destruct H as [(-> & Hb & H)|[(Hv & Hr & _) H]].
  - change (truthy (str_strip (str_rstrip []))) with false. cbn iota.
    apply negb_false_iff in Hb. rewrite Hb. f_equal. apply IH. by rewrite andb_false_r.
  - rewrite Hr. destruct (truthy (str_strip l)) eqn:Ht; [|by apply strip_nil in Ht].
    f_equal. by apply IH.
Qed.

(** Dropping the trailing blank line. *)
Fixpoint trim_tail (ls : list pystr) : list pystr :=
  match ls with
  | [] => []
  | l :: rest => match l, rest with [], [] => [] | _, _ => l :: trim_tail rest end
  end.

Lemma rstrip_app_visible s t : visible t ≠ [] → str_rstrip (s ++ t) = s ++ str_rstrip t.
Proof.
  intros Hv. destruct (rstrip_spec t) as (sp & Ht & Hsp & Hl).
  destruct (last (str_rstrip t)) as [c|] eqn:E.
  - apply last_Some in E as [t' Ht']. rewrite Ht at 1. rewrite app_assoc, rstrip_spaces by done.
    rewrite Ht', app_assoc. by apply rstrip_visible_last.
  - apply last_None in E. rewrite E in Ht. simpl in Ht. subst t. by rewrite visible_spaces in Hv.
Qed.

Lemma join_cons l l2 ls :
  str_join [10%Z] (l :: l2 :: ls) = l ++ [10%Z] ++ str_join [10%Z] (l2 :: ls).
Proof. done. Qed.

Lemma clean_visible blank ls :
  clean_lines blank ls → ls ≠ [] → ls ≠ [[]] → visible (str_join [10%Z] ls) ≠ [].
Proof.
  intros H Hne Hb. rewrite visible_join. destruct ls as [|l ls]; [done|].
  simpl in H. destruct H as [(-> & -> & H)|[(Hv & _) H]].
  - destruct ls as [|l ls]; [done|]. simpl in H. destruct H as [(_ & ? & _)|[(Hv & _) _]]; [done|].
    csimpl. intros Hnil. by apply app_nil in Hnil as [? _].
  - csimpl. intros Hnil. by apply app_nil in Hnil as [? _].
Qed.

Lemma rstrip_join blank ls :
  clean_lines blank ls → str_rstrip (str_join [10%Z] ls) = str_join [10%Z] (trim_tail ls).
Proof.
  revert blank; induction ls as [|l ls IH]; intros blank H; [done|].
  destruct ls as [|l2 ls].
  - simpl in H. destruct H as [(-> & _)|[(Hv & Hr & _) _]]; [done|].
    simpl. destruct l; [done|]. done.
  - rewrite join_cons. simpl in H.
    assert (clean_lines (bool_decide (l = [])) (l2 :: ls)) as Hrest.
    { destruct H as [(-> & _ & H)|[(Hv & _) H]]; [done|]. destruct l; done. }
    destruct (decide (l2 :: ls = [[]])) as [[= -> ->]|Hne].
    + rewrite rstrip_spaces by (repeat constructor). simpl in Hrest.
      destruct H as [(-> & _ & H)|[(Hv & Hr & _) H]]; [simpl in H; naive_solver|].
      rewrite Hr. destruct l; done.
    + rewrite app_assoc, rstrip_app_visible by (by eapply clean_visible).
      rewrite (IH _ Hrest), <- app_assoc.
      replace (trim_tail (l :: l2 :: ls)) with (l :: trim_tail (l2 :: ls)) by (by destruct l).
      destruct (trim_tail (l2 :: ls)) as [|l3 ls3] eqn:E; [|done].
      destruct l2 as [|c l2]; destruct ls; simpl in E; done.
Qed.

Lemma trim_tail_clean blank ls : clean_lines blank ls → clean_lines blank (trim_tail ls).
Proof.
  revert blank; induction ls as [|l ls IH]; intros blank H; [done|].
  destruct l as [|c l]; [destruct ls as [|l2 ls]; [done|]|].
  - simpl in H. destruct H as [(_ & Hb & H)|[(Hv & _) _]]; [|done].
    left. split_and!; [done|done|]. by apply (IH true).
  - simpl in H. destruct H as [(? & _)|[Hl H]]; [done|]. right. split; [done|]. by apply (IH false).
Qed.


Lemma trim_tail_last blank ls : clean_lines blank ls → last (trim_tail ls) ≠ Some [].
Proof.
  revert blank; induction ls as [|l ls IH]; intros blank H; [done|].
  destruct l as [|c l].
  - destruct ls as [|l2 ls]; [done|]. simpl in H.
    destruct H as [(_ & _ & H)|[(Hv & _) _]]; [|done].
    change (trim_tail ([] :: l2 :: ls)) with ([] :: trim_tail (l2 :: ls)).
    specialize (IH true H). rewrite last_cons. destruct (last (trim_tail (l2 :: ls))) eqn:E; [done|].
    apply last_None in E. destruct l2; [|done]. destruct ls; [|done].
    simpl in H. destruct H as [(_ & ? & _)|[(? & _) _]]; done.
  - simpl in H. destruct H as [(? & _)|[Hl H]]; [done|].
    change (trim_tail ((c :: l) :: ls)) with ((c :: l) :: trim_tail ls).
    specialize (IH false H). rewrite last_cons. by destruct (last (trim_tail ls)).
Qed.

Lemma trim_tail_id ls : last ls ≠ Some [] → trim_tail ls = ls.
Proof.
  induction ls as [|l ls IH]; intros H; [done|]. simpl.
  assert (ls ≠ [] → trim_tail ls = ls) as H'.
  { intros Hne. apply IH. intros Hl. apply H. rewrite last_cons, Hl. done. }
  destruct l; [destruct ls as [|l2 ls]; [done|]|].
  - by rewrite H'.
  - destruct ls as [|l2 ls]; [done|]. by rewrite H'.
Qed.

(** ** The normalized text *)

(** The lines of a normalized text: clean, none blank at either end. *)
Definition normal_lines (ls : list pystr) : Prop :=
  clean_lines true ls ∧ last ls ≠ Some [] ∧
  match ls with l :: _ => str_lstrip l = l | [] => True end.

Lemma lstrip_app_visible s t : visible s ≠ [] → str_lstrip (s ++ t) = str_lstrip s ++ t.
Proof.
  intros Hv. destruct (lstrip_spec s) as (sp & Hs & Hsp & Hh).
  destruct (str_lstrip s) as [|c body] eqn:E.
  - rewrite app_nil_r in Hs. subst s. by rewrite visible_spaces in Hv.
  - rewrite Hs, <- app_assoc, lstrip_spaces by done. simpl. simpl in Hh. by rewrite Hh.
Qed.

Lemma lstrip_idem s : str_lstrip (str_lstrip s) = str_lstrip s.
Proof.
  destruct (lstrip_spec s) as (sp & _ & _ & Hh). destruct (str_lstrip s) as [|c body]; [done|].
  by apply lstrip_visible_head.
Qed.

Lemma strip_idem s : str_strip (str_strip s) = str_strip s.
Proof.
  unfold str_strip. pose proof (lstrip_spec s) as (_ & _ & _ & Hh).
  destruct (rstrip_spec (str_lstrip s)) as (sp & Hs & _).
  destruct (str_rstrip (str_lstrip s)) as [|c body] eqn:E; [done|].
  rewrite Hs in Hh. simpl in Hh. simpl str_lstrip. rewrite Hh, <- E. apply rstrip_idem.
Qed.

Lemma clean_line_lstrip l : clean_line l → clean_line (str_lstrip l).
Proof.
  intros (Hv & Hr & H1 & H2). split_and!.
  - by rewrite visible_lstrip.
  - destruct (lstrip_spec l) as (sp & Hs & _). rewrite Hs in Hr at 1.
    rewrite rstrip_app_visible in Hr by (by rewrite visible_lstrip).
    rewrite Hs in Hr at 2. by apply app_inv_head in Hr.
  - by intros ?%lstrip_subset.
  - by intros ?%lstrip_subset.
Qed.

(** Stripping the joined lines leaves the joined lines of a normalized text. *)
Lemma strip_join ls :
  clean_lines true ls → ∃ ls', str_strip (str_join [10%Z] ls) = str_join [10%Z] ls' ∧ normal_lines ls'.
Proof.
  intros H. destruct ls as [|l ls]; [by exists []|].
  simpl in H. destruct H as [(_ & ? & _)|[Hl H]]; [done|].
  assert (clean_lines true (str_lstrip l :: ls)) as Hc.
  { right. split; [by apply clean_line_lstrip|done]. }
  exists (trim_tail (str_lstrip l :: ls)). split.
  - unfold str_strip. rewrite <- (rstrip_join true) by done. f_equal.
    destruct ls as [|l2 ls]; [done|]. rewrite !join_cons. apply lstrip_app_visible, Hl.
  - split; [by apply trim_tail_clean|]. split; [by eapply trim_tail_last|].
    destruct Hc as [(Hn & ? & _)|[(Hv & _) _]]; [done|].
    destruct (str_lstrip l) as [|c l'] eqn:E; [done|]. cbn [trim_tail].
    rewrite <- E. apply lstrip_idem.
Qed.

Lemma normal_lines_fixed ls :
  normal_lines ls → normalize_text (str_join [10%Z] ls) = str_join [10%Z] ls.
Proof.
  intros (Hc & Hl & Hf). destruct ls as [|l ls]; [done|].
  assert (∀ blank ls, clean_lines blank ls → ∀ l, l ∈ ls → 10%Z ∉ l ∧ 13%Z ∉ l) as Hclean.
  { clear. intros blank ls; revert blank; induction ls as [|l ls IH]; intros blank H l' Hin;
      [set_solver|]. simpl in H.
    destruct H as [(-> & _ & H)|[(_ & _ & H1 & H2) H]]; apply elem_of_cons in Hin as [->|Hin];
      [set_solver|by eapply IH|done|by eapply IH]. }
  assert (∀ ls, (∀ l, l ∈ ls → 13%Z ∉ l) → 13%Z ∉ str_join [10%Z] ls) as Hcr.
  { clear. induction ls as [|l ls IH]; intros H; [set_solver|].
    destruct ls as [|l2 ls]; [apply H; left|]. rewrite join_cons, !elem_of_app.
    intros [Hin|[Hin|Hin]]; [|set_solver|].
    - apply (H l); [left|done].
    - apply IH; [|done]. intros l' Hl'. apply H. by right. }
  unfold normalize_text, unified_newlines, str_replace.
  assert (13%Z ∉ str_join [10%Z] (l :: ls)) as Hno by (apply Hcr; intros; by eapply Hclean).
  rewrite !replace_absent by (rewrite ?replace_absent; done).
  rewrite split_join by (done || intros; by eapply Hclean).
  rewrite normalize_lines_id by done. unfold str_strip.
  replace (str_lstrip (str_join [10%Z] (l :: ls))) with (str_join [10%Z] (l :: ls)).
  - rewrite (rstrip_join true) by done. by rewrite trim_tail_id.
  - simpl in Hc. destruct Hc as [(_ & ? & _)|[(Hv & _) _]]; [done|].
    destruct ls as [|l2 ls]; [done|]. rewrite join_cons, lstrip_app_visible by done. by rewrite Hf.
Qed.

Lemma normalize_text_lines s : ∃ ls, normalize_text s = str_join [10%Z] ls ∧ normal_lines ls.
Proof.
  unfold normalize_text. apply strip_join.
  apply (normalize_lines_clean false false). intros l Hl.
  apply split_parts in Hl as [H1 H2]. split; [done|]. intros H13%H2. revert H13.
  unfold unified_newlines, str_replace. by apply replace_one_absent.
Qed.

(** Normalization rewrites no content: the visible characters are kept, in order; the
    result has no carriage return, no line with trailing space, no two blank lines in a
    row and none at either end; and normalizing again changes nothing, so the chunk
    offsets refer to the stored document. *)
Theorem normalize_text_correct text :
  visible (normalize_text text) = visible text ∧
  (∃ lines, normalize_text text = str_join [10%Z] lines ∧ normal_lines lines) ∧
  normalize_text (normalize_text text) = normalize_text text.
Proof.
  split; [apply visible_normalize|]. destruct (normalize_text_lines text) as (ls & -> & Hls).
  split; [by exists ls|]. by apply normal_lines_fixed.
Qed.
