(* ===== verification/PyFloat.v ===== *)
(** Python's [float]: IEEE-754 binary64 values with the executable operations of
    the Standard Library's [SpecFloat] at precision 53 and maximal exponent 1024.
    Also [round], conversion from [int] and the order tests, with the facts the
    timing code relies on. *)
From Stdlib Require Import Floats.SpecFloat.
From S2P Require Import Prelude Errors.

Abbreviation pyfloat := spec_float.

Definition f64_prec : Z := 53.
Definition f64_emax : Z := 1024.

(** [float(n)] for an [int]: correctly rounded. *)
Definition float_of_Z (n : Z) : pyfloat := binary_normalize f64_prec f64_emax n 0 false.
(** The literal [n / 2^k], exact for small [n]. *)
Definition float_dyadic (n : Z) (k : Z) : pyfloat :=
  binary_normalize f64_prec f64_emax n (- k) false.

Definition fadd : pyfloat → pyfloat → pyfloat := SFadd f64_prec f64_emax.
Definition fsub : pyfloat → pyfloat → pyfloat := SFsub f64_prec f64_emax.
Definition fmul : pyfloat → pyfloat → pyfloat := SFmul f64_prec f64_emax.
Definition fdiv : pyfloat → pyfloat → pyfloat := SFdiv f64_prec f64_emax.
Definition fneg : pyfloat → pyfloat := SFopp.

(** [x < y], [x <= y], [x == y] on floats; all false on NaN. *)
Definition fltb (x y : pyfloat) : bool := SFltb x y.
Definition fleb (x y : pyfloat) : bool := SFleb x y.
Definition feqb (x y : pyfloat) : bool := SFeqb x y.

Definition f64_zero : pyfloat := float_of_Z 0.
Definition f64_one : pyfloat := float_of_Z 1.

#[global] Instance pyfloat_eq_dec : EqDecision pyfloat.
Proof. solve_decision. Defined.

(** Half-to-even rounding of the fraction [m / 2^k], [0 <= k]. *)
Definition round_half_even (m k : Z) : Z :=
  let q := Z.shiftr m k in
  let r := (m - Z.shiftl q k)%Z in
  let half := Z.shiftl 1 (k - 1) in
  if Z.ltb r half then q
  else if Z.ltb half r then (q + 1)%Z
  else if Z.even q then q else (q + 1)%Z.

(** [round(x)] with one argument: an [int], half to even; [ValueError] on NaN and
    [OverflowError] on an infinity. *)
Definition py_round (x : pyfloat) : res Z :=
  match x with
  | S754_zero _ => Ok 0%Z
  | S754_infinity _ => Raise (OtherException "OverflowError")
  | S754_nan => Raise ValueError
  | S754_finite neg m e =>
      let n := if neg then Z.neg m else Z.pos m in
      if Z.leb 0 e then Ok (Z.shiftl n e) else Ok (round_half_even n (- e))
  end.

(** [timedelta.total_seconds()]: the true division of the microseconds by 10^6,
    which is the correctly rounded quotient. *)
Definition total_seconds (microseconds : Z) : pyfloat :=
  fdiv (float_of_Z microseconds) (float_of_Z 1000000).

(** [round(delta.total_seconds() * 1_000)]. *)
Definition round_ms (microseconds : Z) : res Z :=
  py_round (fmul (total_seconds microseconds) (float_of_Z 1000)).

Example round_ms_exact : round_ms 1234000 = Ok 1234%Z.
Proof. vm_compute. reflexivity. Qed.
Example round_ms_half_down : round_ms 1000500 = Ok 1000%Z.
Proof. vm_compute. reflexivity. Qed.
Example round_ms_half_even : round_ms 1500 = Ok 2%Z.
Proof. vm_compute. reflexivity. Qed.
Example round_ms_half_even2 : round_ms 2500 = Ok 2%Z.
Proof. vm_compute. reflexivity. Qed.
Example round_ms_neg : round_ms (-1999) = Ok (-2)%Z.
Proof. vm_compute. reflexivity. Qed.
Example round_ms_big : round_ms 86400000001 = Ok 86400000%Z.
Proof. vm_compute. reflexivity. Qed.
