(* ===== verification/Domain.v ===== *)
(** Domain data: JSON-like values, timestamps, the pydantic field constraints, and the
    records of app/models/assessment.py, app/models/knowledge.py and
    app/models/knowledge_graph.py.  Each class is a module with its record [t]; [valid]
    is the conjunction of its field constraints and model validators, and [construct] is
    the constructor call, which raises [ValidationError] on an invalid instance. *)
From S2P Require Import Prelude PyFloat Errors.

(** ** Values *)

(** A value of type [Any] in a metadata or payload dictionary. *)
Inductive pyval :=
  | PNone
  | PBool (b : bool)
  | PInt (n : Z)
  | PFloat (x : pyfloat)
  | PStr (s : pystr)
  | PList (l : list pyval)
  | PDict (d : list (pystr * pyval)).

Abbreviation pydict := (list (pystr * pyval)).

(** [d.get(k)]. *)
Definition dict_get {V} (d : list (pystr * V)) (k : pystr) : option V :=
  snd <$> py_next (λ kv, bool_decide (kv.1 = k)) d.

(** A [datetime]: wall-clock microseconds since the epoch and, when it is aware, its
    offset from UTC in microseconds. *)
Module datetime.
Record t := mk { wall : Z; utcoffset : option Z }.
End datetime.
Abbreviation datetime := datetime.t.

#[global] Instance datetime_eq_dec : EqDecision datetime.
Proof. solve_decision. Defined.

Definition datetime_utc (micros : Z) : datetime := datetime.mk micros (Some 0%Z).
Definition is_aware (d : datetime) : bool := bool_decide (is_Some (datetime.utcoffset d)).

(** The instant an aware datetime denotes. *)
Definition instant (d : datetime) : Z := (datetime.wall d - default 0 (datetime.utcoffset d))%Z.

(** [a - b]: microseconds; [TypeError] when one is naive and the other aware. *)
Definition datetime_sub (a b : datetime) : res Z :=
  if Bool.eqb (is_aware a) (is_aware b) then Ok (instant a - instant b)%Z else Raise TypeError.

(** [d - timedelta(milliseconds=ms)]. *)
Definition datetime_minus_ms (d : datetime) (ms : Z) : datetime :=
  datetime.mk (datetime.wall d - ms * 1000)%Z (datetime.utcoffset d).

(** ** Field constraints *)

Definition len_ge {A} (lo : Z) (l : list A) : bool := Z.leb lo (Z.of_nat (length l)).
Definition len_le {A} (hi : Z) (l : list A) : bool := Z.leb (Z.of_nat (length l)) hi.
Definition len_in {A} (lo hi : Z) (l : list A) : bool := len_ge lo l && len_le hi l.
Definition opt_all {A} (p : A → bool) (o : option A) : bool :=
  match o with Some a => p a | None => true end.

(** ** app/models/assessment.py *)

Module AssessmentStatus.
Inductive t := PENDING | PROCESSING | COMPLETED | FAILED | PENDING_REVIEW.
Definition value (x : t) : pystr :=
  match x with
  | PENDING => "pending"
  | PROCESSING => "processing"
  | COMPLETED => "completed"
  | FAILED => "failed"
  | PENDING_REVIEW => "pending_review"
  end.
Definition members : list t := [PENDING; PROCESSING; COMPLETED; FAILED; PENDING_REVIEW].
#[export] Instance eq_dec : EqDecision t.
Proof. solve_decision. Defined.
End AssessmentStatus.
#[export] Existing Instance AssessmentStatus.eq_dec.

Module SuitabilityLevel.
Inductive t := LOW | MEDIUM | HIGH.
Definition value (x : t) : pystr :=
  match x with
  | LOW => "low"
  | MEDIUM => "medium"
  | HIGH => "high"
  end.
Definition members : list t := [LOW; MEDIUM; HIGH].
#[export] Instance eq_dec : EqDecision t.
Proof. solve_decision. Defined.
End SuitabilityLevel.
#[export] Existing Instance SuitabilityLevel.eq_dec.

Module ComplexityLevel.
Inductive t := LOW | MEDIUM | HIGH.
Definition value (x : t) : pystr :=
  match x with
  | LOW => "low"
  | MEDIUM => "medium"
  | HIGH => "high"
  end.
Definition members : list t := [LOW; MEDIUM; HIGH].
#[export] Instance eq_dec : EqDecision t.
Proof. solve_decision. Defined.
End ComplexityLevel.
#[export] Existing Instance ComplexityLevel.eq_dec.

Module PriorityLevel.
Inductive t := LOW | MEDIUM | HIGH.
Definition value (x : t) : pystr :=
  match x with
  | LOW => "low"
  | MEDIUM => "medium"
  | HIGH => "high"
  end.
Definition members : list t := [LOW; MEDIUM; HIGH].
#[export] Instance eq_dec : EqDecision t.
Proof. solve_decision. Defined.
End PriorityLevel.
#[export] Existing Instance PriorityLevel.eq_dec.

Module SolutionPattern.
Inductive t := DETERMINISTIC_AUTOMATION | LLM_ASSISTED_WORKFLOW | RAG_DECISION_SUPPORT |
    TOOL_USING_AGENT | AGENTIC_WORKFLOW.
Definition value (x : t) : pystr :=
  match x with
  | DETERMINISTIC_AUTOMATION => "deterministic_automation"
  | LLM_ASSISTED_WORKFLOW => "llm_assisted_workflow"
  | RAG_DECISION_SUPPORT => "rag_decision_support"
  | TOOL_USING_AGENT => "tool_using_agent"
  | AGENTIC_WORKFLOW => "agentic_workflow"
  end.
Definition members : list t := [DETERMINISTIC_AUTOMATION; LLM_ASSISTED_WORKFLOW;
    RAG_DECISION_SUPPORT; TOOL_USING_AGENT; AGENTIC_WORKFLOW].
#[export] Instance eq_dec : EqDecision t.
Proof. solve_decision. Defined.
End SolutionPattern.
#[export] Existing Instance SolutionPattern.eq_dec.

Module RiskCategory.
Inductive t := PRIVACY | SECURITY | HALLUCINATION | COMPLIANCE | DATA_QUALITY | EXPLAINABILITY |
    OPERATIONAL.
Definition value (x : t) : pystr :=
  match x with
  | PRIVACY => "privacy"
  | SECURITY => "security"
  | HALLUCINATION => "hallucination"
  | COMPLIANCE => "compliance"
  | DATA_QUALITY => "data_quality"
  | EXPLAINABILITY => "explainability"
  | OPERATIONAL => "operational"
  end.
Definition members : list t := [PRIVACY; SECURITY; HALLUCINATION; COMPLIANCE; DATA_QUALITY;
    EXPLAINABILITY; OPERATIONAL].
#[export] Instance eq_dec : EqDecision t.
Proof. solve_decision. Defined.
End RiskCategory.
#[export] Existing Instance RiskCategory.eq_dec.

Module RiskSeverity.
Inductive t := LOW | MEDIUM | HIGH | CRITICAL.
Definition value (x : t) : pystr :=
  match x with
  | LOW => "low"
  | MEDIUM => "medium"
  | HIGH => "high"
  | CRITICAL => "critical"
  end.
Definition members : list t := [LOW; MEDIUM; HIGH; CRITICAL].
#[export] Instance eq_dec : EqDecision t.
Proof. solve_decision. Defined.
End RiskSeverity.
#[export] Existing Instance RiskSeverity.eq_dec.

Module ExternalEvidenceStatus.
Inductive t := RETRIEVED | NOT_RETRIEVED.
Definition value (x : t) : pystr :=
  match x with
  | RETRIEVED => "retrieved"
  | NOT_RETRIEVED => "not_retrieved"
  end.
Definition members : list t := [RETRIEVED; NOT_RETRIEVED].
#[export] Instance eq_dec : EqDecision t.
Proof. solve_decision. Defined.
End ExternalEvidenceStatus.
#[export] Existing Instance ExternalEvidenceStatus.eq_dec.

(** ** app/models/knowledge.py *)

Module KnowledgeSourceType.
Inductive t := TEXT | MARKDOWN | POLICY | REPORT | CASE_STUDY | MANUAL | SYNTHETIC.
Definition value (x : t) : pystr :=
  match x with
  | TEXT => "text"
  | MARKDOWN => "markdown"
  | POLICY => "policy"
  | REPORT => "report"
  | CASE_STUDY => "case_study"
  | MANUAL => "manual"
  | SYNTHETIC => "synthetic"
  end.
Definition members : list t := [TEXT; MARKDOWN; POLICY; REPORT; CASE_STUDY; MANUAL; SYNTHETIC].
#[export] Instance eq_dec : EqDecision t.
Proof. solve_decision. Defined.
End KnowledgeSourceType.
#[export] Existing Instance KnowledgeSourceType.eq_dec.

Module RetrievalSource.
Inductive t := VECTOR | GRAPH | BOTH.
Definition value (x : t) : pystr :=
  match x with
  | VECTOR => "vector"
  | GRAPH => "graph"
  | BOTH => "both"
  end.
Definition members : list t := [VECTOR; GRAPH; BOTH].
#[export] Instance eq_dec : EqDecision t.
Proof. solve_decision. Defined.
End RetrievalSource.
#[export] Existing Instance RetrievalSource.eq_dec.

Module KnowledgeDocumentRecord.
Record t := mk {
  document_id : uuid;
  title : pystr;
  source_type : KnowledgeSourceType.t;
  source_uri : option pystr;
  external_id : option pystr;
  content : pystr;
  metadata : pydict;
  content_hash : pystr;
  created_at : datetime;
  updated_at : datetime
}.
#[export] Instance eta : Eta t := λ r, mk (document_id r) (title r) (source_type r) (source_uri
    r) (external_id r) (content r) (metadata r) (content_hash r) (created_at r) (updated_at r).
End KnowledgeDocumentRecord.
#[export] Existing Instance KnowledgeDocumentRecord.eta.

Module KnowledgeChunkRecord.
Record t := mk {
  chunk_id : uuid;
  document_id : uuid;
  chunk_index : Z;
  content : pystr;
  embedding : list pyfloat;
  metadata : pydict;
  created_at : datetime
}.
#[export] Instance eta : Eta t := λ r, mk (chunk_id r) (document_id r) (chunk_index r) (content
    r) (embedding r) (metadata r) (created_at r).
End KnowledgeChunkRecord.
#[export] Existing Instance KnowledgeChunkRecord.eta.

Module EmbeddedChunk.
Record t := mk {
  chunk_index : Z;
  content : pystr;
  embedding : list pyfloat;
  metadata : pydict
}.
#[export] Instance eta : Eta t := λ r, mk (chunk_index r) (content r) (embedding r) (metadata r).
End EmbeddedChunk.
#[export] Existing Instance EmbeddedChunk.eta.

Module KnowledgeSourceSegment.
Record t := mk {
  text : pystr;
  metadata : pydict
}.
#[export] Instance eta : Eta t := λ r, mk (text r) (metadata r).
End KnowledgeSourceSegment.
#[export] Existing Instance KnowledgeSourceSegment.eta.

Module RetrievedEvidence.
Record t := mk {
  chunk_id : uuid;
  document_id : uuid;
  document_title : pystr;
  content : pystr;
  similarity_score : option pyfloat;
  source_type : KnowledgeSourceType.t;
  metadata : pydict;
  retrieval_source : RetrievalSource.t
}.
#[export] Instance eta : Eta t := λ r, mk (chunk_id r) (document_id r) (document_title r)
    (content r) (similarity_score r) (source_type r) (metadata r) (retrieval_source r).
End RetrievedEvidence.
#[export] Existing Instance RetrievedEvidence.eta.

Module RAGPreparation.
Record t := mk {
  query : pystr;
  evidence : list RetrievedEvidence.t;
  context : pystr
}.
#[export] Instance eta : Eta t := λ r, mk (query r) (evidence r) (context r).
End RAGPreparation.
#[export] Existing Instance RAGPreparation.eta.

Module KnowledgeIngestionResult.
Record t := mk {
  document : KnowledgeDocumentRecord.t;
  chunk_count : Z;
  duplicate : bool
}.
#[export] Instance eta : Eta t := λ r, mk (document r) (chunk_count r) (duplicate r).
End KnowledgeIngestionResult.
#[export] Existing Instance KnowledgeIngestionResult.eta.

(** ** app/models/knowledge_graph.py *)

Module KnowledgeEntityType.
Inductive t := ORGANIZATION | PROCESS | SYSTEM | POLICY | REGULATION | RISK | DATA_ASSET |
    AI_CAPABILITY | CONTROL | ROLE | OTHER.
Definition value (x : t) : pystr :=
  match x with
  | ORGANIZATION => "organization"
  | PROCESS => "process"
  | SYSTEM => "system"
  | POLICY => "policy"
  | REGULATION => "regulation"
  | RISK => "risk"
  | DATA_ASSET => "data_asset"
  | AI_CAPABILITY => "ai_capability"
  | CONTROL => "control"
  | ROLE => "role"
  | OTHER => "other"
  end.
Definition members : list t := [ORGANIZATION; PROCESS; SYSTEM; POLICY; REGULATION; RISK;
    DATA_ASSET; AI_CAPABILITY; CONTROL; ROLE; OTHER].
#[export] Instance eq_dec : EqDecision t.
Proof. solve_decision. Defined.
End KnowledgeEntityType.
#[export] Existing Instance KnowledgeEntityType.eq_dec.

Module KnowledgeRelationshipType.
Inductive t := USES | DEPENDS_ON | PART_OF | GOVERNED_BY | AFFECTED_BY | CREATES_RISK |
    MITIGATED_BY | REQUIRES | PRODUCES | CONSUMES | RELATED_TO.
Definition value (x : t) : pystr :=
  match x with
  | USES => "uses"
  | DEPENDS_ON => "depends_on"
  | PART_OF => "part_of"
  | GOVERNED_BY => "governed_by"
  | AFFECTED_BY => "affected_by"
  | CREATES_RISK => "creates_risk"
  | MITIGATED_BY => "mitigated_by"
  | REQUIRES => "requires"
  | PRODUCES => "produces"
  | CONSUMES => "consumes"
  | RELATED_TO => "related_to"
  end.
Definition members : list t := [USES; DEPENDS_ON; PART_OF; GOVERNED_BY; AFFECTED_BY;
    CREATES_RISK; MITIGATED_BY; REQUIRES; PRODUCES; CONSUMES; RELATED_TO].
#[export] Instance eq_dec : EqDecision t.
Proof. solve_decision. Defined.
End KnowledgeRelationshipType.
#[export] Existing Instance KnowledgeRelationshipType.eq_dec.

Module KnowledgeEntityRecord.
Record t := mk {
  entity_id : uuid;
  entity_type : KnowledgeEntityType.t;
  canonical_name : pystr;
  normalized_name : pystr;
  description : option pystr;
  metadata : pydict;
  created_at : datetime;
  updated_at : datetime
}.
#[export] Instance eta : Eta t := λ r, mk (entity_id r) (entity_type r) (canonical_name r)
    (normalized_name r) (description r) (metadata r) (created_at r) (updated_at r).
End KnowledgeEntityRecord.
#[export] Existing Instance KnowledgeEntityRecord.eta.

Module KnowledgeEntityMentionRecord.
Record t := mk {
  mention_id : uuid;
  entity_id : uuid;
  document_id : uuid;
  chunk_id : uuid;
  mention_text : pystr;
  confidence : pyfloat;
  metadata : pydict;
  created_at : datetime
}.
#[export] Instance eta : Eta t := λ r, mk (mention_id r) (entity_id r) (document_id r) (chunk_id
    r) (mention_text r) (confidence r) (metadata r) (created_at r).
End KnowledgeEntityMentionRecord.
#[export] Existing Instance KnowledgeEntityMentionRecord.eta.

Module KnowledgeRelationshipRecord.
Record t := mk {
  relationship_id : uuid;
  source_entity_id : uuid;
  target_entity_id : uuid;
  relationship_type : KnowledgeRelationshipType.t;
  description : option pystr;
  confidence : pyfloat;
  source_chunk_id : uuid;
  metadata : pydict;
  created_at : datetime
}.
#[export] Instance eta : Eta t := λ r, mk (relationship_id r) (source_entity_id r)
    (target_entity_id r) (relationship_type r) (description r) (confidence r) (source_chunk_id r)
    (metadata r) (created_at r).
End KnowledgeRelationshipRecord.
#[export] Existing Instance KnowledgeRelationshipRecord.eta.

Module GraphTraversalData.
Record t := mk {
  matched_entities : list KnowledgeEntityRecord.t;
  related_entities : list KnowledgeEntityRecord.t;
  relationships : list KnowledgeRelationshipRecord.t;
  mentions : list KnowledgeEntityMentionRecord.t;
  evidence : list RetrievedEvidence.t;
  depth_used : Z
}.
#[export] Instance eta : Eta t := λ r, mk (matched_entities r) (related_entities r)
    (relationships r) (mentions r) (evidence r) (depth_used r).
End GraphTraversalData.
#[export] Existing Instance GraphTraversalData.eta.

Module KnowledgeGraphEnrichmentResult.
Record t := mk {
  document_id : uuid;
  entity_count : Z;
  relationship_count : Z;
  status : pystr
}.
#[export] Instance eta : Eta t := λ r, mk (document_id r) (entity_count r) (relationship_count r)
    (status r).
End KnowledgeGraphEnrichmentResult.
#[export] Existing Instance KnowledgeGraphEnrichmentResult.eta.

Module GraphEntityResult.
Record t := mk {
  entity_id : uuid;
  entity_type : KnowledgeEntityType.t;
  canonical_name : pystr;
  normalized_name : pystr;
  description : option pystr
}.
#[export] Instance eta : Eta t := λ r, mk (entity_id r) (entity_type r) (canonical_name r)
    (normalized_name r) (description r).
End GraphEntityResult.
#[export] Existing Instance GraphEntityResult.eta.

Module GraphRelationshipResult.
Record t := mk {
  relationship_id : uuid;
  source_entity_id : uuid;
  source_entity_name : pystr;
  target_entity_id : uuid;
  target_entity_name : pystr;
  relationship_type : KnowledgeRelationshipType.t;
  description : option pystr;
  confidence : pyfloat;
  source_document_id : uuid;
  source_chunk_id : uuid
}.
#[export] Instance eta : Eta t := λ r, mk (relationship_id r) (source_entity_id r)
    (source_entity_name r) (target_entity_id r) (target_entity_name r) (relationship_type r)
    (description r) (confidence r) (source_document_id r) (source_chunk_id r).
(** The constraints pydantic enforces on an instance. *)
Definition valid (r : t) : bool :=
  fleb (float_of_Z 0%Z) (confidence r) &&
  fleb (confidence r) (float_of_Z 1%Z).
Definition construct (r : t) : res t :=
  if valid r then Ok r else Raise ValidationError.
End GraphRelationshipResult.
#[export] Existing Instance GraphRelationshipResult.eta.

Module GraphNeighborhood.
Record t := mk {
  query : pystr;
  matched_entities : list GraphEntityResult.t;
  related_entities : list GraphEntityResult.t;
  relationships : list GraphRelationshipResult.t;
  source_document_ids : list uuid;
  source_chunk_ids : list uuid;
  depth_used : Z;
  evidence : list RetrievedEvidence.t
}.
#[export] Instance eta : Eta t := λ r, mk (query r) (matched_entities r) (related_entities r)
    (relationships r) (source_document_ids r) (source_chunk_ids r) (depth_used r) (evidence r).
(** The constraints pydantic enforces on an instance. *)
Definition valid (r : t) : bool :=
  len_in 1 4000 (query r) &&
  forallb (λ v, GraphRelationshipResult.valid v) (relationships r) &&
  Z.leb 0%Z (depth_used r) &&
  Z.leb (depth_used r) 5%Z.
Definition construct (r : t) : res t :=
  if valid r then Ok r else Raise ValidationError.
End GraphNeighborhood.
#[export] Existing Instance GraphNeighborhood.eta.

Module GraphRetrievalExecutionMetadata.
Record t := mk {
  graph_retrieval_used : bool;
  matched_entity_count : Z;
  relationship_count : Z;
  graph_depth_used : Z;
  vector_evidence_count : Z;
  graph_evidence_count : Z;
  hybrid_evidence_count : Z;
  degraded_graph_mode : bool;
  graph_error_code : option pystr;
  vector_error_code : option pystr
}.
#[export] Instance eta : Eta t := λ r, mk (graph_retrieval_used r) (matched_entity_count r)
    (relationship_count r) (graph_depth_used r) (vector_evidence_count r) (graph_evidence_count
    r) (hybrid_evidence_count r) (degraded_graph_mode r) (graph_error_code r) (vector_error_code
    r).
(** The constraints pydantic enforces on an instance. *)
Definition valid (r : t) : bool :=
  Z.leb 0%Z (matched_entity_count r) &&
  Z.leb 0%Z (relationship_count r) &&
  Z.leb 0%Z (graph_depth_used r) &&
  Z.leb (graph_depth_used r) 5%Z &&
  Z.leb 0%Z (vector_evidence_count r) &&
  Z.leb 0%Z (graph_evidence_count r) &&
  Z.leb 0%Z (hybrid_evidence_count r) &&
  opt_all (λ v, len_le 100 v) (graph_error_code r) &&
  opt_all (λ v, len_le 100 v) (vector_error_code r).
Definition construct (r : t) : res t :=
  if valid r then Ok r else Raise ValidationError.
End GraphRetrievalExecutionMetadata.
#[export] Existing Instance GraphRetrievalExecutionMetadata.eta.

Module HybridRetrievalResult.
Record t := mk {
  evidence : list RetrievedEvidence.t;
  neighborhood : GraphNeighborhood.t;
  metadata : GraphRetrievalExecutionMetadata.t
}.
#[export] Instance eta : Eta t := λ r, mk (evidence r) (neighborhood r) (metadata r).
End HybridRetrievalResult.
#[export] Existing Instance HybridRetrievalResult.eta.

Module HybridRAGPreparation.
Record t := mk {
  query : pystr;
  evidence : list RetrievedEvidence.t;
  context : pystr;
  graph_retrieval : GraphRetrievalExecutionMetadata.t
}.
#[export] Instance eta : Eta t := λ r, mk (query r) (evidence r) (context r) (graph_retrieval r).
End HybridRAGPreparation.
#[export] Existing Instance HybridRAGPreparation.eta.
