(* ===== verification/AgentModels.v ===== *)
(** Agent data: the typed hand-offs and execution metadata of app/agents/models.py,
    app/agents/multi_agent_models.py and app/tools/models.py. *)
From S2P Require Import Prelude PyFloat Errors Domain.

(** ** app/agents/models.py *)

Module AgentDecisionType.
Inductive t := TOOL | SYNTHESIZE | FAIL.
Definition value (x : t) : pystr :=
  match x with
  | TOOL => "tool"
  | SYNTHESIZE => "synthesize"
  | FAIL => "fail"
  end.
Definition members : list t := [TOOL; SYNTHESIZE; FAIL].
#[export] Instance eq_dec : EqDecision t.
Proof. solve_decision. Defined.
End AgentDecisionType.
#[export] Existing Instance AgentDecisionType.eq_dec.

Module AgentTraceEventType.
Inductive t := REASONING_STARTED | TOOL_REQUESTED | TOOL_COMPLETED | TOOL_FAILED |
    SYNTHESIS_STARTED | WORKFLOW_COMPLETED | WORKFLOW_FAILED | MAX_STEPS_REACHED |
    MAX_TOOL_CALLS_REACHED.
Definition value (x : t) : pystr :=
  match x with
  | REASONING_STARTED => "reasoning_started"
  | TOOL_REQUESTED => "tool_requested"
  | TOOL_COMPLETED => "tool_completed"
  | TOOL_FAILED => "tool_failed"
  | SYNTHESIS_STARTED => "synthesis_started"
  | WORKFLOW_COMPLETED => "workflow_completed"
  | WORKFLOW_FAILED => "workflow_failed"
  | MAX_STEPS_REACHED => "max_steps_reached"
  | MAX_TOOL_CALLS_REACHED => "max_tool_calls_reached"
  end.
Definition members : list t := [REASONING_STARTED; TOOL_REQUESTED; TOOL_COMPLETED; TOOL_FAILED;
    SYNTHESIS_STARTED; WORKFLOW_COMPLETED; WORKFLOW_FAILED; MAX_STEPS_REACHED;
    MAX_TOOL_CALLS_REACHED].
#[export] Instance eq_dec : EqDecision t.
Proof. solve_decision. Defined.
End AgentTraceEventType.
#[export] Existing Instance AgentTraceEventType.eq_dec.

Module AgentTerminationReason.
Inductive t := COMPLETED | MAX_STEPS_REACHED | MAX_TOOL_CALLS_REACHED | AGENT_STOPPED | FAILED.
Definition value (x : t) : pystr :=
  match x with
  | COMPLETED => "completed"
  | MAX_STEPS_REACHED => "max_steps_reached"
  | MAX_TOOL_CALLS_REACHED => "max_tool_calls_reached"
  | AGENT_STOPPED => "agent_stopped"
  | FAILED => "failed"
  end.
Definition members : list t := [COMPLETED; MAX_STEPS_REACHED; MAX_TOOL_CALLS_REACHED;
    AGENT_STOPPED; FAILED].
#[export] Instance eq_dec : EqDecision t.
Proof. solve_decision. Defined.
End AgentTerminationReason.
#[export] Existing Instance AgentTerminationReason.eq_dec.

Module AgentToolRequest.
Record t := mk {
  name : pystr;
  arguments : pydict
}.
#[export] Instance eta : Eta t := λ r, mk (name r) (arguments r).
(** The constraints pydantic enforces on an instance. *)
Definition valid (r : t) : bool :=
  len_in 1 100 (name r).
Definition construct (r : t) : res t :=
  if valid r then Ok r else Raise ValidationError.
End AgentToolRequest.
#[export] Existing Instance AgentToolRequest.eta.

Module AgentDecision.
Record t := mk {
  action : AgentDecisionType.t;
  tool_request : option AgentToolRequest.t
}.
#[export] Instance eta : Eta t := λ r, mk (action r) (tool_request r).
(** The constraints pydantic enforces on an instance. *)
Definition valid (r : t) : bool :=
  opt_all (λ v, AgentToolRequest.valid v) (tool_request r) &&
  match action r, tool_request r with
  | AgentDecisionType.TOOL, None => false
  | AgentDecisionType.TOOL, Some _ => true
  | _, Some _ => false
  | _, None => true
  end.
Definition construct (r : t) : res t :=
  if valid r then Ok r else Raise ValidationError.
End AgentDecision.
#[export] Existing Instance AgentDecision.eta.

Module AgentTraceEvent.
Record t := mk {
  step : Z;
  event_type : AgentTraceEventType.t;
  timestamp : datetime;
  summary : pystr;
  tool_name : option pystr;
  tool_status : option pystr;
  termination_reason : option AgentTerminationReason.t
}.
#[export] Instance eta : Eta t := λ r, mk (step r) (event_type r) (timestamp r) (summary r)
    (tool_name r) (tool_status r) (termination_reason r).
(** The constraints pydantic enforces on an instance. *)
Definition valid (r : t) : bool :=
  Z.leb 0%Z (step r) &&
  len_in 1 300 (summary r) &&
  opt_all (λ v, len_le 100 v) (tool_name r) &&
  opt_all (λ v, mem v (lit <$> ["completed"; "failed"; "cached"])) (tool_status r).
Definition construct (r : t) : res t :=
  if valid r then Ok r else Raise ValidationError.
End AgentTraceEvent.
#[export] Existing Instance AgentTraceEvent.eta.

Module AssessmentExecutionMetadata.
Record t := mk {
  request_id : option pystr;
  execution_mode : pystr;
  preferred_execution_mode : option pystr;
  routing_reason_codes : list pystr;
  fallback_reason_codes : list pystr;
  steps_used : Z;
  tools_used : list pystr;
  termination_reason : AgentTerminationReason.t;
  trace : list AgentTraceEvent.t;
  graph_retrieval : option GraphRetrievalExecutionMetadata.t
}.
#[export] Instance eta : Eta t := λ r, mk (request_id r) (execution_mode r)
    (preferred_execution_mode r) (routing_reason_codes r) (fallback_reason_codes r) (steps_used
    r) (tools_used r) (termination_reason r) (trace r) (graph_retrieval r).
(** The constraints pydantic enforces on an instance. *)
Definition valid (r : t) : bool :=
  opt_all (λ v, len_le 128 v) (request_id r) &&
  mem (execution_mode r) (lit <$> ["single_agent"; "agentic"]) &&
  opt_all (λ v, mem v (lit <$> ["deterministic"; "single_agent"; "multi_agent"]))
    (preferred_execution_mode r) &&
  len_le 12 (routing_reason_codes r) &&
  len_le 12 (fallback_reason_codes r) &&
  Z.leb 0%Z (steps_used r) &&
  forallb (λ v, AgentTraceEvent.valid v) (trace r) &&
  opt_all (λ v, GraphRetrievalExecutionMetadata.valid v) (graph_retrieval r).
Definition construct (r : t) : res t :=
  if valid r then Ok r else Raise ValidationError.
End AssessmentExecutionMetadata.
#[export] Existing Instance AssessmentExecutionMetadata.eta.

Module DeterministicExecutionMetadata.
Record t := mk {
  request_id : option pystr;
  execution_mode : pystr;
  preferred_execution_mode : option pystr;
  routing_reason_codes : list pystr;
  fallback_reason_codes : list pystr;
  graph_retrieval : option GraphRetrievalExecutionMetadata.t
}.
#[export] Instance eta : Eta t := λ r, mk (request_id r) (execution_mode r)
    (preferred_execution_mode r) (routing_reason_codes r) (fallback_reason_codes r)
    (graph_retrieval r).
(** The constraints pydantic enforces on an instance. *)
Definition valid (r : t) : bool :=
  opt_all (λ v, len_le 128 v) (request_id r) &&
  mem (execution_mode r) ["deterministic" : pystr] &&
  opt_all (λ v, mem v (lit <$> ["deterministic"; "single_agent"; "multi_agent"]))
    (preferred_execution_mode r) &&
  len_le 12 (routing_reason_codes r) &&
  len_le 12 (fallback_reason_codes r) &&
  opt_all (λ v, GraphRetrievalExecutionMetadata.valid v) (graph_retrieval r).
Definition construct (r : t) : res t :=
  if valid r then Ok r else Raise ValidationError.
End DeterministicExecutionMetadata.
#[export] Existing Instance DeterministicExecutionMetadata.eta.

(** ** app/agents/multi_agent_models.py *)

Module SpecialistConfidence.
Inductive t := LOW | MEDIUM | HIGH.
Definition value (x : t) : pystr :=
  match x with
  | LOW => "low"
  | MEDIUM => "medium"
  | HIGH => "high"
  end.
Definition members : list t := [LOW; MEDIUM; HIGH].
#[export] Instance eq_dec : EqDecision t.
Proof. solve_decision. Defined.
End SpecialistConfidence.
#[export] Existing Instance SpecialistConfidence.eq_dec.

Module MultiAgentName.
Inductive t := EVIDENCE | ARCHITECTURE | RISK_GOVERNANCE | SYNTHESIS.
Definition value (x : t) : pystr :=
  match x with
  | EVIDENCE => "evidence"
  | ARCHITECTURE => "architecture"
  | RISK_GOVERNANCE => "risk_governance"
  | SYNTHESIS => "synthesis"
  end.
Definition members : list t := [EVIDENCE; ARCHITECTURE; RISK_GOVERNANCE; SYNTHESIS].
#[export] Instance eq_dec : EqDecision t.
Proof. solve_decision. Defined.
End MultiAgentName.
#[export] Existing Instance MultiAgentName.eq_dec.

Module MultiAgentStatus.
Inductive t := PENDING | RUNNING | COMPLETED | FAILED | SKIPPED.
Definition value (x : t) : pystr :=
  match x with
  | PENDING => "pending"
  | RUNNING => "running"
  | COMPLETED => "completed"
  | FAILED => "failed"
  | SKIPPED => "skipped"
  end.
Definition members : list t := [PENDING; RUNNING; COMPLETED; FAILED; SKIPPED].
#[export] Instance eq_dec : EqDecision t.
Proof. solve_decision. Defined.
End MultiAgentStatus.
#[export] Existing Instance MultiAgentStatus.eq_dec.

Module MultiAgentTraceEventType.
Inductive t := WORKFLOW_STARTED | AGENT_STARTED | AGENT_COMPLETED | AGENT_FAILED | TOOL_COMPLETED
    | TOOL_FAILED | TOOL_AUTHORIZATION_DENIED | DEGRADED_MODE | WORKFLOW_COMPLETED.
Definition value (x : t) : pystr :=
  match x with
  | WORKFLOW_STARTED => "workflow_started"
  | AGENT_STARTED => "agent_started"
  | AGENT_COMPLETED => "agent_completed"
  | AGENT_FAILED => "agent_failed"
  | TOOL_COMPLETED => "tool_completed"
  | TOOL_FAILED => "tool_failed"
  | TOOL_AUTHORIZATION_DENIED => "tool_authorization_denied"
  | DEGRADED_MODE => "degraded_mode"
  | WORKFLOW_COMPLETED => "workflow_completed"
  end.
Definition members : list t := [WORKFLOW_STARTED; AGENT_STARTED; AGENT_COMPLETED; AGENT_FAILED;
    TOOL_COMPLETED; TOOL_FAILED; TOOL_AUTHORIZATION_DENIED; DEGRADED_MODE; WORKFLOW_COMPLETED].
#[export] Instance eq_dec : EqDecision t.
Proof. solve_decision. Defined.
End MultiAgentTraceEventType.
#[export] Existing Instance MultiAgentTraceEventType.eq_dec.

Module MultiAgentTerminationReason.
Inductive t := COMPLETED | COMPLETED_DEGRADED.
Definition value (x : t) : pystr :=
  match x with
  | COMPLETED => "completed"
  | COMPLETED_DEGRADED => "completed_degraded"
  end.
Definition members : list t := [COMPLETED; COMPLETED_DEGRADED].
#[export] Instance eq_dec : EqDecision t.
Proof. solve_decision. Defined.
End MultiAgentTerminationReason.
#[export] Existing Instance MultiAgentTerminationReason.eq_dec.

Module EvidenceItem.
Record t := mk {
  claim : pystr;
  supporting_document_ids : list uuid;
  supporting_chunk_ids : list uuid;
  relevance : pystr;
  notes : option pystr
}.
#[export] Instance eta : Eta t := λ r, mk (claim r) (supporting_document_ids r)
    (supporting_chunk_ids r) (relevance r) (notes r).
(** The constraints pydantic enforces on an instance. *)
Definition valid (r : t) : bool :=
  len_in 1 1000 (claim r) &&
  len_le 20 (supporting_document_ids r) &&
  len_le 20 (supporting_chunk_ids r) &&
  len_in 1 1000 (relevance r) &&
  opt_all (λ v, len_le 1000 v) (notes r).
(** [str_strip_whitespace]. *)
Definition normalize (r : t) : t := mk (str_strip (claim r)) (supporting_document_ids r)
    (supporting_chunk_ids r) (str_strip (relevance r)) (str_strip <$> (notes r)).
Definition construct (r : t) : res t :=
  if valid (normalize r) then Ok (normalize r) else Raise ValidationError.
End EvidenceItem.
#[export] Existing Instance EvidenceItem.eta.

Module EvidenceBrief.
Record t := mk {
  summary : pystr;
  evidence_items : list EvidenceItem.t;
  evidence_gaps : list pystr;
  confidence : SpecialistConfidence.t;
  retrieved_document_ids : list uuid;
  retrieved_chunk_ids : list uuid
}.
#[export] Instance eta : Eta t := λ r, mk (summary r) (evidence_items r) (evidence_gaps r)
    (confidence r) (retrieved_document_ids r) (retrieved_chunk_ids r).
(** The constraints pydantic enforces on an instance. *)
Definition valid (r : t) : bool :=
  len_in 1 4000 (summary r) &&
  len_le 50 (evidence_items r) &&
  forallb (λ v, EvidenceItem.valid v) (evidence_items r) &&
  len_le 50 (evidence_gaps r) &&
  len_le 100 (retrieved_document_ids r) &&
  len_le 100 (retrieved_chunk_ids r) &&
  forallb (λ item,
    forallb (λ d, mem d (retrieved_document_ids r)) (EvidenceItem.supporting_document_ids item) &&
    forallb (λ c, mem c (retrieved_chunk_ids r)) (EvidenceItem.supporting_chunk_ids item))
    (evidence_items r).
End EvidenceBrief.
#[export] Existing Instance EvidenceBrief.eta.

Module ArchitectureRecommendation.
Record t := mk {
  recommended_pattern : SolutionPattern.t;
  architecture_summary : pystr;
  components : list pystr;
  data_flow : list pystr;
  integrations : list pystr;
  complexity : ComplexityLevel.t;
  implementation_assumptions : list pystr;
  alternatives_considered : list pystr;
  why_simpler_options_are_or_are_not_sufficient : pystr;
  confidence : SpecialistConfidence.t
}.
#[export] Instance eta : Eta t := λ r, mk (recommended_pattern r) (architecture_summary r)
    (components r) (data_flow r) (integrations r) (complexity r) (implementation_assumptions r)
    (alternatives_considered r) (why_simpler_options_are_or_are_not_sufficient r) (confidence r).
(** The constraints pydantic enforces on an instance. *)
Definition valid (r : t) : bool :=
  len_in 1 4000 (architecture_summary r) &&
  len_le 50 (components r) &&
  len_le 50 (data_flow r) &&
  len_le 50 (integrations r) &&
  len_le 50 (implementation_assumptions r) &&
  len_le 50 (alternatives_considered r) &&
  len_in 1 4000 (why_simpler_options_are_or_are_not_sufficient r).
End ArchitectureRecommendation.
#[export] Existing Instance ArchitectureRecommendation.eta.

Module GovernanceRisk.
Record t := mk {
  category : RiskCategory.t;
  description : pystr;
  severity : RiskSeverity.t;
  mitigation : pystr
}.
#[export] Instance eta : Eta t := λ r, mk (category r) (description r) (severity r) (mitigation
    r).
(** The constraints pydantic enforces on an instance. *)
Definition valid (r : t) : bool :=
  len_in 1 2000 (description r) &&
  len_in 1 2000 (mitigation r).
End GovernanceRisk.
#[export] Existing Instance GovernanceRisk.eta.

Module GovernanceOversight.
Record t := mk {
  review_required : bool;
  decisions_requiring_review : list pystr;
  rationale : pystr
}.
#[export] Instance eta : Eta t := λ r, mk (review_required r) (decisions_requiring_review r)
    (rationale r).
(** The constraints pydantic enforces on an instance. *)
Definition valid (r : t) : bool :=
  len_le 50 (decisions_requiring_review r) &&
  len_in 1 2000 (rationale r).
End GovernanceOversight.
#[export] Existing Instance GovernanceOversight.eta.

Module RiskGovernanceReview.
Record t := mk {
  overall_risk : RiskSeverity.t;
  risks : list GovernanceRisk.t;
  required_controls : list pystr;
  human_oversight : GovernanceOversight.t;
  auditability_requirements : list pystr;
  unresolved_questions : list pystr;
  confidence : SpecialistConfidence.t
}.
#[export] Instance eta : Eta t := λ r, mk (overall_risk r) (risks r) (required_controls r)
    (human_oversight r) (auditability_requirements r) (unresolved_questions r) (confidence r).
(** The constraints pydantic enforces on an instance. *)
Definition valid (r : t) : bool :=
  len_le 50 (risks r) &&
  forallb (λ v, GovernanceRisk.valid v) (risks r) &&
  len_le 50 (required_controls r) &&
  GovernanceOversight.valid (human_oversight r) &&
  len_le 50 (auditability_requirements r) &&
  len_le 50 (unresolved_questions r).
End RiskGovernanceReview.
#[export] Existing Instance RiskGovernanceReview.eta.

Module MultiAgentStatuses.
Record t := mk {
  evidence : MultiAgentStatus.t;
  architecture : MultiAgentStatus.t;
  risk_governance : MultiAgentStatus.t;
  synthesis : MultiAgentStatus.t
}.
#[export] Instance eta : Eta t := λ r, mk (evidence r) (architecture r) (risk_governance r)
    (synthesis r).
End MultiAgentStatuses.
#[export] Existing Instance MultiAgentStatuses.eta.

Module MultiAgentDurations.
Record t := mk {
  evidence : option Z;
  architecture : option Z;
  risk_governance : option Z;
  synthesis : option Z
}.
#[export] Instance eta : Eta t := λ r, mk (evidence r) (architecture r) (risk_governance r)
    (synthesis r).
(** The constraints pydantic enforces on an instance. *)
Definition valid (r : t) : bool :=
  opt_all (λ v, Z.leb 0%Z v) (evidence r) &&
  opt_all (λ v, Z.leb 0%Z v) (architecture r) &&
  opt_all (λ v, Z.leb 0%Z v) (risk_governance r) &&
  opt_all (λ v, Z.leb 0%Z v) (synthesis r).
(** [str_strip_whitespace]. *)
Definition normalize (r : t) : t := mk (evidence r) (architecture r) (risk_governance r)
    (synthesis r).
Definition construct (r : t) : res t :=
  if valid (normalize r) then Ok (normalize r) else Raise ValidationError.
End MultiAgentDurations.
#[export] Existing Instance MultiAgentDurations.eta.

Module MultiAgentErrors.
Record t := mk {
  evidence : option pystr;
  architecture : option pystr;
  risk_governance : option pystr;
  synthesis : option pystr
}.
#[export] Instance eta : Eta t := λ r, mk (evidence r) (architecture r) (risk_governance r)
    (synthesis r).
(** The constraints pydantic enforces on an instance. *)
Definition valid (r : t) : bool :=
  opt_all (λ v, len_le 100 v) (evidence r) &&
  opt_all (λ v, len_le 100 v) (architecture r) &&
  opt_all (λ v, len_le 100 v) (risk_governance r) &&
  opt_all (λ v, len_le 100 v) (synthesis r).
(** [str_strip_whitespace]. *)
Definition normalize (r : t) : t := mk (str_strip <$> (evidence r)) (str_strip <$> (architecture
    r)) (str_strip <$> (risk_governance r)) (str_strip <$> (synthesis r)).
Definition construct (r : t) : res t :=
  if valid (normalize r) then Ok (normalize r) else Raise ValidationError.
End MultiAgentErrors.
#[export] Existing Instance MultiAgentErrors.eta.

Module MultiAgentTraceEvent.
Record t := mk {
  sequence : Z;
  timestamp : datetime;
  agent : option MultiAgentName.t;
  event_type : MultiAgentTraceEventType.t;
  summary : pystr;
  tool_name : option pystr;
  error_code : option pystr
}.
#[export] Instance eta : Eta t := λ r, mk (sequence r) (timestamp r) (agent r) (event_type r)
    (summary r) (tool_name r) (error_code r).
(** The constraints pydantic enforces on an instance. *)
Definition valid (r : t) : bool :=
  Z.leb 0%Z (sequence r) &&
  len_in 1 300 (summary r) &&
  opt_all (λ v, len_le 100 v) (tool_name r) &&
  opt_all (λ v, len_le 100 v) (error_code r).
(** [str_strip_whitespace]. *)
Definition normalize (r : t) : t := mk (sequence r) (timestamp r) (agent r) (event_type r)
    (str_strip (summary r)) (str_strip <$> (tool_name r)) (str_strip <$> (error_code r)).
Definition construct (r : t) : res t :=
  if valid (normalize r) then Ok (normalize r) else Raise ValidationError.
End MultiAgentTraceEvent.
#[export] Existing Instance MultiAgentTraceEvent.eta.

Module MultiAgentExecutionMetadata.
Record t := mk {
  request_id : option pystr;
  execution_mode : pystr;
  preferred_execution_mode : option pystr;
  routing_reason_codes : list pystr;
  fallback_reason_codes : list pystr;
  agents : list MultiAgentName.t;
  agent_statuses : MultiAgentStatuses.t;
  agent_durations_ms : MultiAgentDurations.t;
  agent_errors : MultiAgentErrors.t;
  tools_used : list pystr;
  tool_calls : Z;
  degraded_mode : bool;
  degradation_reasons : list pystr;
  termination_reason : MultiAgentTerminationReason.t;
  trace : list MultiAgentTraceEvent.t;
  graph_retrieval : option GraphRetrievalExecutionMetadata.t
}.
#[export] Instance eta : Eta t := λ r, mk (request_id r) (execution_mode r)
    (preferred_execution_mode r) (routing_reason_codes r) (fallback_reason_codes r) (agents r)
    (agent_statuses r) (agent_durations_ms r) (agent_errors r) (tools_used r) (tool_calls r)
    (degraded_mode r) (degradation_reasons r) (termination_reason r) (trace r) (graph_retrieval
    r).
(** The constraints pydantic enforces on an instance. *)
Definition valid (r : t) : bool :=
  opt_all (λ v, len_le 128 v) (request_id r) &&
  mem (execution_mode r) ["multi_agent" : pystr] &&
  opt_all (λ v, mem v (lit <$> ["deterministic"; "single_agent"; "multi_agent"]))
    (preferred_execution_mode r) &&
  len_le 12 (routing_reason_codes r) &&
  len_le 12 (fallback_reason_codes r) &&
  MultiAgentDurations.valid (agent_durations_ms r) &&
  MultiAgentErrors.valid (agent_errors r) &&
  Z.leb 0%Z (tool_calls r) &&
  forallb (λ v, MultiAgentTraceEvent.valid v) (trace r) &&
  opt_all (λ v, GraphRetrievalExecutionMetadata.valid v) (graph_retrieval r) &&
  bool_decide (agents r = MultiAgentName.members).
(** [str_strip_whitespace]. *)
Definition normalize (r : t) : t := mk (str_strip <$> (request_id r)) (execution_mode r)
    (preferred_execution_mode r) (str_strip <$> (routing_reason_codes r)) (str_strip <$>
    (fallback_reason_codes r)) (agents r) (agent_statuses r) (agent_durations_ms r) (agent_errors
    r) (str_strip <$> (tools_used r)) (tool_calls r) (degraded_mode r) (str_strip <$>
    (degradation_reasons r)) (termination_reason r) (trace r) (graph_retrieval r).
Definition construct (r : t) : res t :=
  if valid (normalize r) then Ok (normalize r) else Raise ValidationError.
End MultiAgentExecutionMetadata.
#[export] Existing Instance MultiAgentExecutionMetadata.eta.

(** [EvidenceBrief.unavailable()]. *)
Definition EvidenceBrief_unavailable : EvidenceBrief.t :=
  EvidenceBrief.mk
    "External evidence analysis was unavailable; use assessment input only."
    [] ["External evidence retrieval and analysis did not complete." : pystr]
    SpecialistConfidence.LOW [] [].

(** ** app/tools/models.py *)

Module SearchKnowledgeArguments.
Record t := mk {
  query : pystr;
  top_k : Z
}.
#[export] Instance eta : Eta t := λ r, mk (query r) (top_k r).
(** The constraints pydantic enforces on an instance. *)
Definition valid (r : t) : bool :=
  len_in 1 4000 (query r) &&
  Z.leb 1%Z (top_k r) &&
  Z.leb (top_k r) 20%Z.
End SearchKnowledgeArguments.
#[export] Existing Instance SearchKnowledgeArguments.eta.

Module GetKnowledgeDocumentArguments.
Record t := mk {
  document_id : uuid
}.
#[export] Instance eta : Eta t := λ r, mk (document_id r).
End GetKnowledgeDocumentArguments.
#[export] Existing Instance GetKnowledgeDocumentArguments.eta.

Module SearchKnowledgeGraphArguments.
Record t := mk {
  query : pystr;
  max_depth : Z;
  entity_types : option (list KnowledgeEntityType.t)
}.
#[export] Instance eta : Eta t := λ r, mk (query r) (max_depth r) (entity_types r).
(** The constraints pydantic enforces on an instance. *)
Definition valid (r : t) : bool :=
  len_in 1 4000 (query r) &&
  Z.leb 1%Z (max_depth r) &&
  Z.leb (max_depth r) 5%Z &&
  opt_all (λ v, len_le 11 v) (entity_types r).
End SearchKnowledgeGraphArguments.
#[export] Existing Instance SearchKnowledgeGraphArguments.eta.

Module ObservedKnowledgeDocument.
Record t := mk {
  document_id : uuid;
  title : pystr;
  source_type : KnowledgeSourceType.t;
  content_excerpt : pystr;
  metadata : pydict;
  truncated : bool
}.
#[export] Instance eta : Eta t := λ r, mk (document_id r) (title r) (source_type r)
    (content_excerpt r) (metadata r) (truncated r).
End ObservedKnowledgeDocument.
#[export] Existing Instance ObservedKnowledgeDocument.eta.

Module ToolExecutionResult.
Record t := mk {
  tool_name : pystr;
  success : bool;
  summary : pystr;
  evidence : list RetrievedEvidence.t;
  document : option ObservedKnowledgeDocument.t;
  graph_neighborhood : option GraphNeighborhood.t;
  graph_retrieval : option GraphRetrievalExecutionMetadata.t;
  error_code : option pystr;
  cached : bool
}.
#[export] Instance eta : Eta t := λ r, mk (tool_name r) (success r) (summary r) (evidence r)
    (document r) (graph_neighborhood r) (graph_retrieval r) (error_code r) (cached r).
End ToolExecutionResult.
#[export] Existing Instance ToolExecutionResult.eta.

Module ToolHistoryEntry.
Record t := mk {
  step : Z;
  tool_name : pystr;
  success : bool;
  summary : pystr;
  argument_keys : list pystr;
  call_fingerprint : pystr;
  cached : bool;
  error_code : option pystr;
  graph_retrieval : option GraphRetrievalExecutionMetadata.t
}.
#[export] Instance eta : Eta t := λ r, mk (step r) (tool_name r) (success r) (summary r)
    (argument_keys r) (call_fingerprint r) (cached r) (error_code r) (graph_retrieval r).
End ToolHistoryEntry.
#[export] Existing Instance ToolHistoryEntry.eta.
