(* ===== verification/Schemas.v ===== *)
(** Assessment schemas: app/schemas/assessment.py and app/models/persisted_assessment.py. *)
From S2P Require Import Prelude PyFloat Errors Domain AgentModels.

(** ** app/schemas/assessment.py *)

Module AssessmentRequest.
Record t := mk {
  company_name : pystr;
  organization_description : option pystr;
  industry : pystr;
  business_problem : pystr;
  current_process : option pystr;
  pain_points : list pystr;
  desired_outcome : pystr;
  constraints : list pystr;
  additional_context : option pystr
}.
#[export] Instance eta : Eta t := λ r, mk (company_name r) (organization_description r) (industry
    r) (business_problem r) (current_process r) (pain_points r) (desired_outcome r) (constraints
    r) (additional_context r).
(** The constraints pydantic enforces on an instance. *)
Definition valid (r : t) : bool :=
  len_in 1 200 (company_name r) &&
  opt_all (λ v, len_in 1 2000 v) (organization_description r) &&
  len_in 1 120 (industry r) &&
  len_in 1 2000 (business_problem r) &&
  opt_all (λ v, len_in 1 4000 v) (current_process r) &&
  len_le 20 (pain_points r) &&
  forallb (λ v, len_in 1 500 v) (pain_points r) &&
  len_in 1 2000 (desired_outcome r) &&
  len_le 20 (constraints r) &&
  forallb (λ v, len_in 1 500 v) (constraints r) &&
  opt_all (λ v, len_in 1 4000 v) (additional_context r).
End AssessmentRequest.
#[export] Existing Instance AssessmentRequest.eta.

Module ProblemAnalysis.
Record t := mk {
  core_problem : pystr;
  current_process_weaknesses : list pystr;
  key_bottlenecks : list pystr
}.
#[export] Instance eta : Eta t := λ r, mk (core_problem r) (current_process_weaknesses r)
    (key_bottlenecks r).
End ProblemAnalysis.
#[export] Existing Instance ProblemAnalysis.eta.

Module AISuitability.
Record t := mk {
  level : SuitabilityLevel.t;
  rationale : pystr
}.
#[export] Instance eta : Eta t := λ r, mk (level r) (rationale r).
End AISuitability.
#[export] Existing Instance AISuitability.eta.

Module RecommendedUseCase.
Record t := mk {
  name : pystr;
  description : pystr;
  expected_business_value : pystr;
  complexity : ComplexityLevel.t;
  priority : PriorityLevel.t
}.
#[export] Instance eta : Eta t := λ r, mk (name r) (description r) (expected_business_value r)
    (complexity r) (priority r).
End RecommendedUseCase.
#[export] Existing Instance RecommendedUseCase.eta.

Module RecommendedSolution.
Record t := mk {
  pattern : SolutionPattern.t;
  description : pystr;
  rationale : pystr
}.
#[export] Instance eta : Eta t := λ r, mk (pattern r) (description r) (rationale r).
End RecommendedSolution.
#[export] Existing Instance RecommendedSolution.eta.

Module AssessmentRisk.
Record t := mk {
  category : RiskCategory.t;
  description : pystr;
  severity : RiskSeverity.t;
  mitigation : pystr
}.
#[export] Instance eta : Eta t := λ r, mk (category r) (description r) (severity r) (mitigation
    r).
End AssessmentRisk.
#[export] Existing Instance AssessmentRisk.eta.

Module HumanOversight.
Record t := mk {
  review_recommended : bool;
  decisions_requiring_review : list pystr;
  rationale : pystr
}.
#[export] Instance eta : Eta t := λ r, mk (review_recommended r) (decisions_requiring_review r)
    (rationale r).
End HumanOversight.
#[export] Existing Instance HumanOversight.eta.

Module NextStep.
Record t := mk {
  priority : Z;
  action : pystr;
  rationale : pystr
}.
#[export] Instance eta : Eta t := λ r, mk (priority r) (action r) (rationale r).
End NextStep.
#[export] Existing Instance NextStep.eta.

Module SourceReference.
Record t := mk {
  document_id : uuid;
  chunk_id : uuid;
  document_title : pystr
}.
#[export] Instance eta : Eta t := λ r, mk (document_id r) (chunk_id r) (document_title r).
End SourceReference.
#[export] Existing Instance SourceReference.eta.

Module AssessmentResult.
Record t := mk {
  executive_summary : pystr;
  problem_analysis : ProblemAnalysis.t;
  ai_suitability : AISuitability.t;
  recommended_use_cases : list RecommendedUseCase.t;
  recommended_solution : RecommendedSolution.t;
  risks : list AssessmentRisk.t;
  human_oversight : HumanOversight.t;
  next_steps : list NextStep.t;
  assumptions : list pystr;
  information_gaps : list pystr;
  external_evidence_status : ExternalEvidenceStatus.t;
  source_references : list SourceReference.t
}.
#[export] Instance eta : Eta t := λ r, mk (executive_summary r) (problem_analysis r)
    (ai_suitability r) (recommended_use_cases r) (recommended_solution r) (risks r)
    (human_oversight r) (next_steps r) (assumptions r) (information_gaps r)
    (external_evidence_status r) (source_references r).
End AssessmentResult.
#[export] Existing Instance AssessmentResult.eta.

Module AssessmentFailure.
Record t := mk {
  code : pystr;
  message : pystr
}.
#[export] Instance eta : Eta t := λ r, mk (code r) (message r).
End AssessmentFailure.
#[export] Existing Instance AssessmentFailure.eta.

(** The union of the three execution-metadata classes; [isinstance] is [match]. *)
Inductive ExecutionMetadata :=
  | Deterministic (m : DeterministicExecutionMetadata.t)
  | SingleAgent (m : AssessmentExecutionMetadata.t)
  | MultiAgent (m : MultiAgentExecutionMetadata.t).

Module AssessmentResponse.
Record t := mk {
  assessment_id : uuid;
  status : AssessmentStatus.t;
  input : AssessmentRequest.t;
  result : option AssessmentResult.t;
  execution : option ExecutionMetadata;
  error : option AssessmentFailure.t;
  created_at : datetime;
  updated_at : datetime;
  completed_at : option datetime
}.
(** [validate_lifecycle_payloads]. *)
Definition valid (r : t) : bool :=
  match status r with
  | AssessmentStatus.COMPLETED =>
      bool_decide (is_Some (result r)) && bool_decide (is_Some (completed_at r)) &&
      negb (bool_decide (is_Some (error r)))
  | AssessmentStatus.FAILED =>
      negb (bool_decide (is_Some (result r))) && bool_decide (is_Some (error r))
  | AssessmentStatus.PENDING_REVIEW =>
      negb (bool_decide (is_Some (result r))) && negb (bool_decide (is_Some (error r))) &&
      negb (bool_decide (is_Some (completed_at r)))
  | _ => true
  end.
Definition construct (r : t) : res t :=
  if valid r then Ok r else Raise ValidationError.
End AssessmentResponse.

(** ** app/models/persisted_assessment.py

    The JSON columns hold values of a payload type [J]: what pydantic's [model_dump]
    produces (see Storage). *)
Module PersistedAssessment.
Record t {J : Type} := mk {
  assessment_id : uuid;
  status : AssessmentStatus.t;
  request_payload : J;
  result_payload : option J;
  execution_metadata : option J;
  error_code : option pystr;
  error_message : option pystr;
  created_at : datetime;
  updated_at : datetime;
  completed_at : option datetime;
  created_by_subject : option pystr
}.
Arguments t : clear implicits.
End PersistedAssessment.
