(* ===== verification/RuntimeModels.v ===== *)
(** Runtime governance data: app/runtime/models.py. *)
From S2P Require Import Prelude PyFloat Errors Domain.

Module RuntimeRiskDecision.
Inductive t := AUTO_COMPLETE | COMPLETE_WITH_WARNING | REQUIRE_HUMAN_REVIEW | BLOCK_AND_ESCALATE.
Definition value (x : t) : pystr :=
  match x with
  | AUTO_COMPLETE => "auto_complete"
  | COMPLETE_WITH_WARNING => "complete_with_warning"
  | REQUIRE_HUMAN_REVIEW => "require_human_review"
  | BLOCK_AND_ESCALATE => "block_and_escalate"
  end.
Definition members : list t := [AUTO_COMPLETE; COMPLETE_WITH_WARNING; REQUIRE_HUMAN_REVIEW;
    BLOCK_AND_ESCALATE].
#[export] Instance eq_dec : EqDecision t.
Proof. solve_decision. Defined.
End RuntimeRiskDecision.
#[export] Existing Instance RuntimeRiskDecision.eq_dec.

Module RuntimeRiskLevel.
Inductive t := LOW | MEDIUM | HIGH | CRITICAL.
Definition value (x : t) : pystr :=
  match x with
  | LOW => "low"
  | MEDIUM => "medium"
  | HIGH => "high"
  | CRITICAL => "critical"
  end.
Definition members : list t := [LOW; MEDIUM; HIGH; CRITICAL].
#[export] Instance eq_dec : EqDecision t.
Proof. solve_decision. Defined.
End RuntimeRiskLevel.
#[export] Existing Instance RuntimeRiskLevel.eq_dec.

Module RuntimeReasonCode.
Inductive t := MEDIUM_RISK | HIGH_RISK | CRITICAL_RISK | INSUFFICIENT_EVIDENCE |
    INVALID_PROVENANCE | DEGRADED_EXECUTION | SPECIALIST_UNAVAILABLE | MISSING_HUMAN_OVERSIGHT |
    MISSING_RISK_MITIGATION | UNSUPPORTED_CLAIM | MODEL_FAILURE | TOOL_FAILURE |
    RETRIEVAL_FAILURE | QUALITY_GATE_FAILED.
Definition value (x : t) : pystr :=
  match x with
  | MEDIUM_RISK => "medium_risk"
  | HIGH_RISK => "high_risk"
  | CRITICAL_RISK => "critical_risk"
  | INSUFFICIENT_EVIDENCE => "insufficient_evidence"
  | INVALID_PROVENANCE => "invalid_provenance"
  | DEGRADED_EXECUTION => "degraded_execution"
  | SPECIALIST_UNAVAILABLE => "specialist_unavailable"
  | MISSING_HUMAN_OVERSIGHT => "missing_human_oversight"
  | MISSING_RISK_MITIGATION => "missing_risk_mitigation"
  | UNSUPPORTED_CLAIM => "unsupported_claim"
  | MODEL_FAILURE => "model_failure"
  | TOOL_FAILURE => "tool_failure"
  | RETRIEVAL_FAILURE => "retrieval_failure"
  | QUALITY_GATE_FAILED => "quality_gate_failed"
  end.
Definition members : list t := [MEDIUM_RISK; HIGH_RISK; CRITICAL_RISK; INSUFFICIENT_EVIDENCE;
    INVALID_PROVENANCE; DEGRADED_EXECUTION; SPECIALIST_UNAVAILABLE; MISSING_HUMAN_OVERSIGHT;
    MISSING_RISK_MITIGATION; UNSUPPORTED_CLAIM; MODEL_FAILURE; TOOL_FAILURE; RETRIEVAL_FAILURE;
    QUALITY_GATE_FAILED].
#[export] Instance eq_dec : EqDecision t.
Proof. solve_decision. Defined.
End RuntimeReasonCode.
#[export] Existing Instance RuntimeReasonCode.eq_dec.

Module HumanReviewStatus.
Inductive t := NOT_REQUIRED | PENDING | APPROVED | REJECTED | REVISION_REQUESTED.
Definition value (x : t) : pystr :=
  match x with
  | NOT_REQUIRED => "not_required"
  | PENDING => "pending"
  | APPROVED => "approved"
  | REJECTED => "rejected"
  | REVISION_REQUESTED => "revision_requested"
  end.
Definition members : list t := [NOT_REQUIRED; PENDING; APPROVED; REJECTED; REVISION_REQUESTED].
#[export] Instance eq_dec : EqDecision t.
Proof. solve_decision. Defined.
End HumanReviewStatus.
#[export] Existing Instance HumanReviewStatus.eq_dec.

Module HumanReviewAction.
Inductive t := REQUESTED | APPROVED | REJECTED | REVISION_REQUESTED | REVISION_SUBMITTED.
Definition value (x : t) : pystr :=
  match x with
  | REQUESTED => "requested"
  | APPROVED => "approved"
  | REJECTED => "rejected"
  | REVISION_REQUESTED => "revision_requested"
  | REVISION_SUBMITTED => "revision_submitted"
  end.
Definition members : list t := [REQUESTED; APPROVED; REJECTED; REVISION_REQUESTED;
    REVISION_SUBMITTED].
#[export] Instance eq_dec : EqDecision t.
Proof. solve_decision. Defined.
End HumanReviewAction.
#[export] Existing Instance HumanReviewAction.eq_dec.

Module ExecutionHealth.
Inductive t := FULL | DEGRADED | BLOCKED | PENDING_HUMAN_REVIEW.
Definition value (x : t) : pystr :=
  match x with
  | FULL => "full"
  | DEGRADED => "degraded"
  | BLOCKED => "blocked"
  | PENDING_HUMAN_REVIEW => "pending_human_review"
  end.
Definition members : list t := [FULL; DEGRADED; BLOCKED; PENDING_HUMAN_REVIEW].
#[export] Instance eq_dec : EqDecision t.
Proof. solve_decision. Defined.
End ExecutionHealth.
#[export] Existing Instance ExecutionHealth.eq_dec.

Module FailureCategory.
Inductive t := TRANSIENT | PERMANENT | VALIDATION | POLICY | TIMEOUT | PROVIDER | RETRIEVAL |
    TOOL | PERSISTENCE | HUMAN_REJECTION.
Definition value (x : t) : pystr :=
  match x with
  | TRANSIENT => "transient"
  | PERMANENT => "permanent"
  | VALIDATION => "validation"
  | POLICY => "policy"
  | TIMEOUT => "timeout"
  | PROVIDER => "provider"
  | RETRIEVAL => "retrieval"
  | TOOL => "tool"
  | PERSISTENCE => "persistence"
  | HUMAN_REJECTION => "human_rejection"
  end.
Definition members : list t := [TRANSIENT; PERMANENT; VALIDATION; POLICY; TIMEOUT; PROVIDER;
    RETRIEVAL; TOOL; PERSISTENCE; HUMAN_REJECTION].
#[export] Instance eq_dec : EqDecision t.
Proof. solve_decision. Defined.
End FailureCategory.
#[export] Existing Instance FailureCategory.eq_dec.

Module RuntimeTraceEventType.
Inductive t := ASSESSMENT_STARTED | RETRIEVAL_STARTED | RETRIEVAL_COMPLETED | AGENT_STARTED |
    AGENT_COMPLETED | TOOL_STARTED | TOOL_COMPLETED | RETRY | TIMEOUT | QUALITY_GATE_EVALUATED |
    HUMAN_REVIEW_REQUESTED | HUMAN_REVIEW_RESUMED | HUMAN_REVIEW_APPROVED | HUMAN_REVIEW_REJECTED
    | REVISION_REQUESTED | ASSESSMENT_COMPLETED | ASSESSMENT_FAILED.
Definition value (x : t) : pystr :=
  match x with
  | ASSESSMENT_STARTED => "assessment_started"
  | RETRIEVAL_STARTED => "retrieval_started"
  | RETRIEVAL_COMPLETED => "retrieval_completed"
  | AGENT_STARTED => "agent_started"
  | AGENT_COMPLETED => "agent_completed"
  | TOOL_STARTED => "tool_started"
  | TOOL_COMPLETED => "tool_completed"
  | RETRY => "retry"
  | TIMEOUT => "timeout"
  | QUALITY_GATE_EVALUATED => "quality_gate_evaluated"
  | HUMAN_REVIEW_REQUESTED => "human_review_requested"
  | HUMAN_REVIEW_RESUMED => "human_review_resumed"
  | HUMAN_REVIEW_APPROVED => "human_review_approved"
  | HUMAN_REVIEW_REJECTED => "human_review_rejected"
  | REVISION_REQUESTED => "revision_requested"
  | ASSESSMENT_COMPLETED => "assessment_completed"
  | ASSESSMENT_FAILED => "assessment_failed"
  end.
Definition members : list t := [ASSESSMENT_STARTED; RETRIEVAL_STARTED; RETRIEVAL_COMPLETED;
    AGENT_STARTED; AGENT_COMPLETED; TOOL_STARTED; TOOL_COMPLETED; RETRY; TIMEOUT;
    QUALITY_GATE_EVALUATED; HUMAN_REVIEW_REQUESTED; HUMAN_REVIEW_RESUMED; HUMAN_REVIEW_APPROVED;
    HUMAN_REVIEW_REJECTED; REVISION_REQUESTED; ASSESSMENT_COMPLETED; ASSESSMENT_FAILED].
#[export] Instance eq_dec : EqDecision t.
Proof. solve_decision. Defined.
End RuntimeTraceEventType.
#[export] Existing Instance RuntimeTraceEventType.eq_dec.

Module RuntimeTraceEvent.
Record t := mk {
  timestamp : datetime;
  request_id : option pystr;
  event_type : RuntimeTraceEventType.t;
  component : pystr;
  status : pystr;
  duration_ms : option Z;
  reason_code : option RuntimeReasonCode.t
}.
#[export] Instance eta : Eta t := λ r, mk (timestamp r) (request_id r) (event_type r) (component
    r) (status r) (duration_ms r) (reason_code r).
(** The constraints pydantic enforces on an instance. *)
Definition valid (r : t) : bool :=
  opt_all (λ v, len_le 128 v) (request_id r) &&
  len_in 1 100 (component r) &&
  len_in 1 50 (status r) &&
  opt_all (λ v, Z.leb 0%Z v) (duration_ms r).
(** [str_strip_whitespace]. *)
Definition normalize (r : t) : t := mk (timestamp r) (str_strip <$> (request_id r)) (event_type
    r) (str_strip (component r)) (str_strip (status r)) (duration_ms r) (reason_code r).
Definition construct (r : t) : res t :=
  if valid (normalize r) then Ok (normalize r) else Raise ValidationError.
End RuntimeTraceEvent.
#[export] Existing Instance RuntimeTraceEvent.eta.

Module ProviderTokenUsage.
Record t := mk {
  input_tokens : option Z;
  output_tokens : option Z;
  total_tokens : option Z
}.
#[export] Instance eta : Eta t := λ r, mk (input_tokens r) (output_tokens r) (total_tokens r).
(** The constraints pydantic enforces on an instance. *)
Definition valid (r : t) : bool :=
  opt_all (λ v, Z.leb 0%Z v) (input_tokens r) &&
  opt_all (λ v, Z.leb 0%Z v) (output_tokens r) &&
  opt_all (λ v, Z.leb 0%Z v) (total_tokens r).
(** [str_strip_whitespace]. *)
Definition normalize (r : t) : t := mk (input_tokens r) (output_tokens r) (total_tokens r).
Definition construct (r : t) : res t :=
  if valid (normalize r) then Ok (normalize r) else Raise ValidationError.
End ProviderTokenUsage.
#[export] Existing Instance ProviderTokenUsage.eta.

Module OperationalTelemetry.
Record t := mk {
  request_id : option pystr;
  execution_mode : pystr;
  execution_health : ExecutionHealth.t;
  total_duration_ms : Z;
  execution_duration_ms : Z;
  human_wait_duration_ms : option Z;
  retrieval_duration_ms : option Z;
  synthesis_duration_ms : option Z;
  model_call_count : option Z;
  model_call_durations_ms : list Z;
  embedding_call_count : option Z;
  tool_call_count : Z;
  graph_retrieval_used : bool;
  vector_retrieval_used : bool;
  specialist_durations_ms : gmap pystr (option Z);
  retry_count : Z;
  timeout_count : Z;
  degraded_state_count : Z;
  human_review_status : HumanReviewStatus.t;
  termination_reason : pystr;
  token_usage : option ProviderTokenUsage.t;
  estimated_cost : option pyfloat;
  estimated_cost_currency : option pystr;
  events : list RuntimeTraceEvent.t
}.
#[export] Instance eta : Eta t := λ r, mk (request_id r) (execution_mode r) (execution_health r)
    (total_duration_ms r) (execution_duration_ms r) (human_wait_duration_ms r)
    (retrieval_duration_ms r) (synthesis_duration_ms r) (model_call_count r)
    (model_call_durations_ms r) (embedding_call_count r) (tool_call_count r)
    (graph_retrieval_used r) (vector_retrieval_used r) (specialist_durations_ms r) (retry_count
    r) (timeout_count r) (degraded_state_count r) (human_review_status r) (termination_reason r)
    (token_usage r) (estimated_cost r) (estimated_cost_currency r) (events r).
(** The constraints pydantic enforces on an instance. *)
Definition valid (r : t) : bool :=
  opt_all (λ v, len_le 128 v) (request_id r) &&
  len_in 1 30 (execution_mode r) &&
  Z.leb 0%Z (total_duration_ms r) &&
  Z.leb 0%Z (execution_duration_ms r) &&
  opt_all (λ v, Z.leb 0%Z v) (human_wait_duration_ms r) &&
  opt_all (λ v, Z.leb 0%Z v) (retrieval_duration_ms r) &&
  opt_all (λ v, Z.leb 0%Z v) (synthesis_duration_ms r) &&
  opt_all (λ v, Z.leb 0%Z v) (model_call_count r) &&
  opt_all (λ v, Z.leb 0%Z v) (embedding_call_count r) &&
  Z.leb 0%Z (tool_call_count r) &&
  Z.leb 0%Z (retry_count r) &&
  Z.leb 0%Z (timeout_count r) &&
  Z.leb 0%Z (degraded_state_count r) &&
  len_in 1 100 (termination_reason r) &&
  opt_all (λ v, ProviderTokenUsage.valid v) (token_usage r) &&
  opt_all (λ v, fleb (float_of_Z 0%Z) v) (estimated_cost r) &&
  opt_all (λ v, len_le 10 v) (estimated_cost_currency r) &&
  forallb (λ v, RuntimeTraceEvent.valid v) (events r).
(** [str_strip_whitespace]. *)
Definition normalize (r : t) : t := mk (str_strip <$> (request_id r)) (str_strip (execution_mode
    r)) (execution_health r) (total_duration_ms r) (execution_duration_ms r)
    (human_wait_duration_ms r) (retrieval_duration_ms r) (synthesis_duration_ms r)
    (model_call_count r) (model_call_durations_ms r) (embedding_call_count r) (tool_call_count r)
    (graph_retrieval_used r) (vector_retrieval_used r) (specialist_durations_ms r) (retry_count
    r) (timeout_count r) (degraded_state_count r) (human_review_status r) (str_strip
    (termination_reason r)) (token_usage r) (estimated_cost r) (str_strip <$>
    (estimated_cost_currency r)) (events r).
Definition construct (r : t) : res t :=
  if valid (normalize r) then Ok (normalize r) else Raise ValidationError.
End OperationalTelemetry.
#[export] Existing Instance OperationalTelemetry.eta.

Module RuntimeRiskPolicy.
Record t := mk {
  medium_risk_decision : RuntimeRiskDecision.t;
  high_risk_decision : RuntimeRiskDecision.t;
  critical_risk_decision : RuntimeRiskDecision.t;
  review_on_insufficient_evidence : bool;
  review_on_degraded_execution : bool;
  review_on_specialist_unavailable : bool;
  review_on_tool_failure : bool;
  block_high_risk_invalid_provenance : bool;
  block_critical_missing_mitigation : bool;
  max_human_revisions : Z
}.
#[export] Instance eta : Eta t := λ r, mk (medium_risk_decision r) (high_risk_decision r)
    (critical_risk_decision r) (review_on_insufficient_evidence r) (review_on_degraded_execution
    r) (review_on_specialist_unavailable r) (review_on_tool_failure r)
    (block_high_risk_invalid_provenance r) (block_critical_missing_mitigation r)
    (max_human_revisions r).
(** The constraints pydantic enforces on an instance. *)
Definition valid (r : t) : bool :=
  Z.leb 0%Z (max_human_revisions r) &&
  Z.leb (max_human_revisions r) 10%Z.
End RuntimeRiskPolicy.
#[export] Existing Instance RuntimeRiskPolicy.eta.

Module QualityGateSignals.
Record t := mk {
  risk_level : RuntimeRiskLevel.t;
  evidence_required : bool;
  evidence_available : bool;
  provenance_valid : bool;
  unsupported_claims_detected : bool;
  degraded_execution : bool;
  specialist_unavailable : bool;
  retrieval_failed : bool;
  tool_failed : bool;
  model_failed : bool;
  human_oversight_required : bool;
  human_oversight_present : bool;
  mitigations_complete : bool
}.
#[export] Instance eta : Eta t := λ r, mk (risk_level r) (evidence_required r)
    (evidence_available r) (provenance_valid r) (unsupported_claims_detected r)
    (degraded_execution r) (specialist_unavailable r) (retrieval_failed r) (tool_failed r)
    (model_failed r) (human_oversight_required r) (human_oversight_present r)
    (mitigations_complete r).
End QualityGateSignals.
#[export] Existing Instance QualityGateSignals.eta.

Module QualityGateResult.
Record t := mk {
  decision : RuntimeRiskDecision.t;
  risk_level : RuntimeRiskLevel.t;
  reason_codes : list RuntimeReasonCode.t;
  review_required : bool;
  blocked : bool
}.
#[export] Instance eta : Eta t := λ r, mk (decision r) (risk_level r) (reason_codes r)
    (review_required r) (blocked r).
(** The constraints pydantic enforces on an instance. *)
Definition valid (r : t) : bool :=
  Bool.eqb (review_required r)
    (bool_decide (decision r = RuntimeRiskDecision.REQUIRE_HUMAN_REVIEW)) &&
  Bool.eqb (blocked r)
    (bool_decide (decision r = RuntimeRiskDecision.BLOCK_AND_ESCALATE)).
(** [str_strip_whitespace]. *)
Definition normalize (r : t) : t := mk (decision r) (risk_level r) (reason_codes r)
    (review_required r) (blocked r).
Definition construct (r : t) : res t :=
  if valid (normalize r) then Ok (normalize r) else Raise ValidationError.
End QualityGateResult.
#[export] Existing Instance QualityGateResult.eta.

Module HumanReviewRequest.
Record t := mk {
  reviewer_id : option pystr;
  comment : option pystr
}.
#[export] Instance eta : Eta t := λ r, mk (reviewer_id r) (comment r).
(** The constraints pydantic enforces on an instance. *)
Definition valid (r : t) : bool :=
  opt_all (λ v, len_in 1 100 v) (reviewer_id r) &&
  opt_all (λ v, len_in 1 2000 v) (comment r).
End HumanReviewRequest.
#[export] Existing Instance HumanReviewRequest.eta.

Module HumanReviewRecord.
Record t := mk {
  review_id : uuid;
  assessment_id : uuid;
  action : HumanReviewAction.t;
  previous_status : HumanReviewStatus.t;
  new_status : HumanReviewStatus.t;
  reviewer_id : option pystr;
  reviewer_subject : option pystr;
  reviewer_email : option pystr;
  reviewer_role : option pystr;
  reviewer_issuer : option pystr;
  request_id : option pystr;
  comment : option pystr;
  reason_codes : list RuntimeReasonCode.t;
  revision_number : Z;
  created_at : datetime
}.
#[export] Instance eta : Eta t := λ r, mk (review_id r) (assessment_id r) (action r)
    (previous_status r) (new_status r) (reviewer_id r) (reviewer_subject r) (reviewer_email r)
    (reviewer_role r) (reviewer_issuer r) (request_id r) (comment r) (reason_codes r)
    (revision_number r) (created_at r).
(** The constraints pydantic enforces on an instance. *)
Definition valid (r : t) : bool :=
  Z.leb 0%Z (revision_number r).
(** [str_strip_whitespace]. *)
Definition normalize (r : t) : t := mk (review_id r) (assessment_id r) (action r)
    (previous_status r) (new_status r) (str_strip <$> (reviewer_id r))
    (str_strip <$> (reviewer_subject r)) (str_strip <$> (reviewer_email r))
    (str_strip <$> (reviewer_role r)) (str_strip <$> (reviewer_issuer r))
    (str_strip <$> (request_id r)) (str_strip <$> (comment r)) (reason_codes r)
    (revision_number r) (created_at r).
Definition construct (r : t) : res t :=
  if valid (normalize r) then Ok (normalize r) else Raise ValidationError.
End HumanReviewRecord.
#[export] Existing Instance HumanReviewRecord.eta.

Module RetryPolicy.
Record t := mk {
  max_retries : Z;
  base_delay_ms : Z;
  max_delay_ms : Z;
  jitter_ratio : pyfloat
}.
#[export] Instance eta : Eta t := λ r, mk (max_retries r) (base_delay_ms r) (max_delay_ms r)
    (jitter_ratio r).
(** The constraints pydantic enforces on an instance. *)
Definition valid (r : t) : bool :=
  Z.leb 0%Z (max_retries r) &&
  Z.leb (max_retries r) 10%Z &&
  Z.leb 0%Z (base_delay_ms r) &&
  Z.leb (base_delay_ms r) 60000%Z &&
  Z.leb 0%Z (max_delay_ms r) &&
  Z.leb (max_delay_ms r) 60000%Z &&
  fleb (float_of_Z 0%Z) (jitter_ratio r) &&
  fleb (jitter_ratio r) (float_of_Z 1%Z) &&
  Z.leb (base_delay_ms r) (max_delay_ms r).
(** [str_strip_whitespace]. *)
Definition normalize (r : t) : t := mk (max_retries r) (base_delay_ms r) (max_delay_ms r)
    (jitter_ratio r).
Definition construct (r : t) : res t :=
  if valid (normalize r) then Ok (normalize r) else Raise ValidationError.
End RetryPolicy.
#[export] Existing Instance RetryPolicy.eta.

(** [RuntimeAssessmentState], with payloads of type [J]. *)
Module RuntimeAssessmentState.
Record t {J : Type} := mk {
  assessment_id : uuid;
  gate_result : QualityGateResult.t;
  review_status : HumanReviewStatus.t;
  candidate_result : option J;
  candidate_execution : option J;
  telemetry : OperationalTelemetry.t;
  revision_count : Z;
  max_revisions : Z;
  created_at : datetime;
  updated_at : datetime
}.
Arguments t : clear implicits.
(** The nested models are instances already: pydantic does not validate them again. *)
Definition valid {J} (r : t J) : bool :=
  Z.leb 0%Z (revision_count r) && Z.leb 0%Z (max_revisions r).
Definition construct {J} (r : t J) : res (t J) :=
  if valid r then Ok r else Raise ValidationError.
End RuntimeAssessmentState.

Module RuntimeStatusResponse.
Record t := mk {
  assessment_id : uuid;
  gate_result : QualityGateResult.t;
  review_status : HumanReviewStatus.t;
  revision_count : Z;
  max_revisions : Z;
  telemetry : OperationalTelemetry.t
}.
#[export] Instance eta : Eta t := λ r, mk (assessment_id r) (gate_result r) (review_status r)
    (revision_count r) (max_revisions r) (telemetry r).
(** The constraints pydantic enforces on an instance. *)
Definition valid (r : t) : bool :=
  QualityGateResult.valid (gate_result r) &&
  OperationalTelemetry.valid (telemetry r).
End RuntimeStatusResponse.
#[export] Existing Instance RuntimeStatusResponse.eta.

Module HumanReviewDecision.
Record t := mk {
  assessment_id : uuid;
  action : HumanReviewAction.t;
  review_status : HumanReviewStatus.t;
  assessment_status : pystr;
  revision_count : Z
}.
#[export] Instance eta : Eta t := λ r, mk (assessment_id r) (action r) (review_status r)
    (assessment_status r) (revision_count r).
End HumanReviewDecision.
#[export] Existing Instance HumanReviewDecision.eta.
