(* ===== verification/Gate.v ===== *)
(** The runtime risk gate: app/runtime/gate.py.

    [evaluate] is the whole handler; [_reason_codes], [_risk_decision] and
    [_priority] are its helpers.  The theorems: the decision is the strongest one any
    rule of the policy asks for; every decision other than [AUTO_COMPLETE] is
    explained by a reason; worse signals never weaken the decision; the result
    always satisfies the model's own validator. *)
From S2P Require Import Prelude PyFloat Errors Domain RuntimeModels.

Import RuntimeRiskDecision RuntimeRiskLevel RuntimeReasonCode.

(** ** Definitions *)

Abbreviation RD := RuntimeRiskDecision.t.
Abbreviation policy := RuntimeRiskPolicy.t.
Abbreviation signals := QualityGateSignals.t.

Definition _risk_decision (risk_level : RuntimeRiskLevel.t) (p : policy) : RD :=
  match risk_level with
  | CRITICAL => RuntimeRiskPolicy.critical_risk_decision p
  | HIGH => RuntimeRiskPolicy.high_risk_decision p
  | MEDIUM => RuntimeRiskPolicy.medium_risk_decision p
  | LOW => AUTO_COMPLETE
  end.

Definition _priority (decision : RD) : Z :=
  match decision with
  | AUTO_COMPLETE => 0
  | COMPLETE_WITH_WARNING => 1
  | REQUIRE_HUMAN_REVIEW => 2
  | BLOCK_AND_ESCALATE => 3
  end.

(** [if test: reasons.append(code)]. *)
Definition append_if (test : bool) (code : RuntimeReasonCode.t)
    (reasons : list RuntimeReasonCode.t) : list RuntimeReasonCode.t :=
  if test then reasons ++ [code] else reasons.

Section fields.
Import QualityGateSignals.

Definition _reason_codes (s : signals) : list RuntimeReasonCode.t :=
  let reasons :=
    match risk_level s with
    | MEDIUM => [MEDIUM_RISK]
    | HIGH => [HIGH_RISK]
    | CRITICAL => [CRITICAL_RISK]
    | LOW => []
    end in
  let reasons :=
    append_if (evidence_required s && negb (evidence_available s))
      INSUFFICIENT_EVIDENCE reasons in
  let reasons := append_if (negb (provenance_valid s)) INVALID_PROVENANCE reasons in
  let reasons := append_if (degraded_execution s) DEGRADED_EXECUTION reasons in
  let reasons := append_if (specialist_unavailable s) SPECIALIST_UNAVAILABLE reasons in
  let reasons :=
    append_if (human_oversight_required s && negb (human_oversight_present s))
      MISSING_HUMAN_OVERSIGHT reasons in
  let reasons :=
    append_if (negb (mitigations_complete s)) MISSING_RISK_MITIGATION reasons in
  let reasons := append_if (unsupported_claims_detected s) UNSUPPORTED_CLAIM reasons in
  let reasons := append_if (model_failed s) MODEL_FAILURE reasons in
  let reasons := append_if (tool_failed s) TOOL_FAILURE reasons in
  append_if (retrieval_failed s) RETRIEVAL_FAILURE reasons.

(** The tuple [review_conditions]. *)
Definition review_conditions (p : policy) (s : signals) : list bool :=
  [ evidence_required s && negb (evidence_available s) &&
      RuntimeRiskPolicy.review_on_insufficient_evidence p;
    degraded_execution s && RuntimeRiskPolicy.review_on_degraded_execution p;
    specialist_unavailable s && RuntimeRiskPolicy.review_on_specialist_unavailable p;
    tool_failed s && RuntimeRiskPolicy.review_on_tool_failure p;
    retrieval_failed s && RuntimeRiskPolicy.review_on_insufficient_evidence p;
    human_oversight_required s && negb (human_oversight_present s);
    unsupported_claims_detected s ].

Definition gate_decision (p : policy) (s : signals) : RD :=
  let decision := _risk_decision (risk_level s) p in
  let decision := if model_failed s then BLOCK_AND_ESCALATE else decision in
  let decision :=
    if negb (provenance_valid s) && RuntimeRiskPolicy.block_high_risk_invalid_provenance p &&
       mem (risk_level s) [HIGH; CRITICAL]
    then BLOCK_AND_ESCALATE else decision in
  let decision :=
    if negb (mitigations_complete s) &&
       RuntimeRiskPolicy.block_critical_missing_mitigation p &&
       bool_decide (risk_level s = CRITICAL)
    then BLOCK_AND_ESCALATE else decision in
  if existsb id (review_conditions p s) &&
     Z.ltb (_priority decision) (_priority REQUIRE_HUMAN_REVIEW)
  then REQUIRE_HUMAN_REVIEW else decision.

(** [RuntimeRiskGate.evaluate]: the result is built by its validating constructor. *)
Definition evaluate (p : policy) (s : signals) : res QualityGateResult.t :=
  let reasons := _reason_codes s in
  let decision := gate_decision p s in
  QualityGateResult.construct
    (QualityGateResult.mk decision (risk_level s) reasons
       (bool_decide (decision = REQUIRE_HUMAN_REVIEW))
       (bool_decide (decision = BLOCK_AND_ESCALATE))).

(** ** Specification: the decision as a join over independent rules *)

Inductive gate_rule := RiskLevelRule | ModelFailureRule | ProvenanceRule | MitigationRule
  | ReviewRule (i : nat).

(** The decision a rule asks for on its own. *)
Definition rule_demand (p : policy) (s : signals) (r : gate_rule) : RD :=
  let demand (b : bool) (d : RD) := if b then d else AUTO_COMPLETE in
  match r with
  | RiskLevelRule => _risk_decision (risk_level s) p
  | ModelFailureRule => demand (model_failed s) BLOCK_AND_ESCALATE
  | ProvenanceRule =>
      demand (negb (provenance_valid s) &&
              RuntimeRiskPolicy.block_high_risk_invalid_provenance p &&
              mem (risk_level s) [HIGH; CRITICAL]) BLOCK_AND_ESCALATE
  | MitigationRule =>
      demand (negb (mitigations_complete s) &&
              RuntimeRiskPolicy.block_critical_missing_mitigation p &&
              bool_decide (risk_level s = CRITICAL)) BLOCK_AND_ESCALATE
  | ReviewRule i => demand (default false (review_conditions p s !! i)) REQUIRE_HUMAN_REVIEW
  end.

(** The signals, ordered by how bad they are; the risk levels by their position. *)
Definition level_rank (l : RuntimeRiskLevel.t) : Z :=
  match l with LOW => 0 | MEDIUM => 1 | HIGH => 2 | CRITICAL => 3 end.

Definition signals_worse (s s' : signals) : Prop :=
  (level_rank (risk_level s) ≤ level_rank (risk_level s'))%Z ∧
  implb (evidence_required s) (evidence_required s') = true ∧
  implb (evidence_available s') (evidence_available s) = true ∧
  implb (provenance_valid s') (provenance_valid s) = true ∧
  implb (unsupported_claims_detected s) (unsupported_claims_detected s') = true ∧
  implb (degraded_execution s) (degraded_execution s') = true ∧
  implb (specialist_unavailable s) (specialist_unavailable s') = true ∧
  implb (retrieval_failed s) (retrieval_failed s') = true ∧
  implb (tool_failed s) (tool_failed s') = true ∧
  implb (model_failed s) (model_failed s') = true ∧
  implb (human_oversight_required s) (human_oversight_required s') = true ∧
  implb (human_oversight_present s') (human_oversight_present s) = true ∧
  implb (mitigations_complete s') (mitigations_complete s) = true.

(** A policy whose configured decisions grow with the risk level. *)
Definition policy_monotone (p : policy) : Prop :=
  (_priority (RuntimeRiskPolicy.medium_risk_decision p) ≤
     _priority (RuntimeRiskPolicy.high_risk_decision p) ≤
     _priority (RuntimeRiskPolicy.critical_risk_decision p))%Z.
End fields.

Definition default_policy : policy :=
  RuntimeRiskPolicy.mk COMPLETE_WITH_WARNING REQUIRE_HUMAN_REVIEW BLOCK_AND_ESCALATE
    true true true true true true 2.

(** Two assessments for the examples: medium risk with evidence, and high risk
    without the evidence it needs. *)
Definition calm_signals : signals :=
  QualityGateSignals.mk MEDIUM true true true false false false false false false true true true.
Definition risky_signals : signals :=
  QualityGateSignals.mk HIGH true false true false false false false false false true true true.

(** ** Lemmas *)

Lemma priority_range d : (0 ≤ _priority d ≤ 3)%Z.
Proof. destruct d; simpl; lia. Qed.

Lemma priority_inj d d' : _priority d = _priority d' → d = d'.
Proof. by destruct d, d'. Qed.

Lemma evaluate_eq p s :
  evaluate p s = Ok
    (QualityGateResult.mk (gate_decision p s) (QualityGateSignals.risk_level s)
       (_reason_codes s)
       (bool_decide (gate_decision p s = REQUIRE_HUMAN_REVIEW))
       (bool_decide (gate_decision p s = BLOCK_AND_ESCALATE))).
Proof.
  unfold evaluate, QualityGateResult.construct, QualityGateResult.valid. simpl.
  by rewrite !Bool.eqb_reflx.
Qed.

Lemma elem_of_append_if b c c' l : c ∈ append_if b c' l ↔ c ∈ l ∨ (b = true ∧ c = c').
Proof. unfold append_if. destruct b; set_solver. Qed.

Lemma existsb_lookup (l : list bool) i : l !! i = Some true → existsb id l = true.
Proof.
  intros H. apply existsb_Exists, Exists_exists. exists true.
  split; [|done]. apply list_elem_of_lookup. eauto.
Qed.

Lemma existsb_lookup_inv (l : list bool) : existsb id l = true → ∃ i, l !! i = Some true.
Proof.
  rewrite existsb_Exists, Exists_exists. intros (b & Hb & Ht).
  apply list_elem_of_lookup in Hb as [i Hi]. unfold id in Ht. subst. eauto.
Qed.

(** The override cascade of [evaluate] on its five inputs. *)
Definition gate_cascade (base : RD) (failed provenance mitigation review : bool) : RD :=
  let d := if failed then BLOCK_AND_ESCALATE else base in
  let d := if provenance then BLOCK_AND_ESCALATE else d in
  let d := if mitigation then BLOCK_AND_ESCALATE else d in
  if review && Z.ltb (_priority d) (_priority REQUIRE_HUMAN_REVIEW)
  then REQUIRE_HUMAN_REVIEW else d.

Definition provenance_blocks (p : policy) (s : signals) : bool :=
  negb (QualityGateSignals.provenance_valid s) &&
  RuntimeRiskPolicy.block_high_risk_invalid_provenance p &&
  mem (QualityGateSignals.risk_level s) [HIGH; CRITICAL].

Definition mitigation_blocks (p : policy) (s : signals) : bool :=
  negb (QualityGateSignals.mitigations_complete s) &&
  RuntimeRiskPolicy.block_critical_missing_mitigation p &&
  bool_decide (QualityGateSignals.risk_level s = CRITICAL).

Lemma gate_decision_cascade p s :
  gate_decision p s =
    gate_cascade (_risk_decision (QualityGateSignals.risk_level s) p)
      (QualityGateSignals.model_failed s) (provenance_blocks p s) (mitigation_blocks p s)
      (existsb id (review_conditions p s)).
Proof. reflexivity. Qed.

Lemma gate_cascade_priority base f p m r :
  _priority (gate_cascade base f p m r) =
    Z.max (_priority base)
      (Z.max (if f || p || m then 3 else 0) (if r then 2 else 0)).
Proof. by destruct base, f, p, m, r. Qed.

Lemma review_rule_demand p s i :
  _priority (rule_demand p s (ReviewRule i)) =
    if default false (review_conditions p s !! i) then 2%Z else 0%Z.
Proof. cbn [rule_demand]. by destruct (default _ _). Qed.

Lemma append_if_nil b c l : append_if b c l = [] ↔ l = [] ∧ b = false.
Proof. unfold append_if. destruct b; [|tauto]. by destruct l; split; intros; destruct_and?. Qed.

Lemma reason_codes_nil s :
  _reason_codes s = [] →
  QualityGateSignals.risk_level s = LOW ∧
  QualityGateSignals.evidence_required s && negb (QualityGateSignals.evidence_available s) = false ∧
  negb (QualityGateSignals.provenance_valid s) = false ∧
  QualityGateSignals.degraded_execution s = false ∧
  QualityGateSignals.specialist_unavailable s = false ∧
  QualityGateSignals.human_oversight_required s &&
    negb (QualityGateSignals.human_oversight_present s) = false ∧
  negb (QualityGateSignals.mitigations_complete s) = false ∧
  QualityGateSignals.unsupported_claims_detected s = false ∧
  QualityGateSignals.model_failed s = false ∧
  QualityGateSignals.tool_failed s = false ∧
  QualityGateSignals.retrieval_failed s = false.
Proof.
  unfold _reason_codes. rewrite !append_if_nil. intros H. destruct_and!.
  repeat split; try done. by destruct (QualityGateSignals.risk_level s).
Qed.

Lemma risk_decision_monotone p s s' :
  policy_monotone p → signals_worse s s' →
  (_priority (_risk_decision (QualityGateSignals.risk_level s) p) ≤
   _priority (_risk_decision (QualityGateSignals.risk_level s') p))%Z.
Proof.
  intros [Hmh Hhc] [Hl _].
  pose proof (priority_range (RuntimeRiskPolicy.medium_risk_decision p)).
  destruct (QualityGateSignals.risk_level s), (QualityGateSignals.risk_level s');
    simpl in *; lia.
Qed.

Lemma implb_or a b a' b' :
  implb a a' = true → implb b b' = true → implb (a || b) (a' || b') = true.
Proof. by destruct a, b, a', b'. Qed.
Lemma implb_and a b a' b' :
  implb a a' = true → implb b b' = true → implb (a && b) (a' && b') = true.
Proof. by destruct a, b, a', b'. Qed.
Lemma implb_neg a a' : implb a' a = true → implb (negb a) (negb a') = true.
Proof. by destruct a, a'. Qed.
Lemma implb_same a : implb a a = true.
Proof. by destruct a. Qed.
#[export] Hint Resolve implb_or implb_and implb_neg implb_same : platform.

Lemma elevated_monotone l l' :
  (level_rank l ≤ level_rank l')%Z →
  implb (mem l [HIGH; CRITICAL]) (mem l' [HIGH; CRITICAL]) = true ∧
  implb (bool_decide (l = CRITICAL)) (bool_decide (l' = CRITICAL)) = true.
Proof. destruct l, l'; simpl; (lia || done). Qed.

Lemma blocking_monotone p s s' :
  signals_worse s s' →
  implb (QualityGateSignals.model_failed s || provenance_blocks p s || mitigation_blocks p s)
    (QualityGateSignals.model_failed s' || provenance_blocks p s' || mitigation_blocks p s')
  = true.
Proof.
  unfold signals_worse, provenance_blocks, mitigation_blocks. intros Hw. destruct_and!.
  edestruct elevated_monotone; [eassumption|]. auto 20 with platform.
Qed.

Lemma review_monotone p s s' :
  signals_worse s s' →
  implb (existsb id (review_conditions p s)) (existsb id (review_conditions p s')) = true.
Proof.
  unfold signals_worse, review_conditions. intros Hw. destruct_and!. cbn [existsb].
  unfold id. auto 20 with platform.
Qed.

(** ** Properties *)

(** C7: the gate returns the strongest decision any rule of the policy asks for: no
    rule asks for more than the result, and the result is exactly what one of the
    rules asks for. *)
Theorem evaluate_strongest_decision p s :
  ∃ g, evaluate p s = Ok g ∧
    (∀ r, _priority (rule_demand p s r) ≤ _priority (QualityGateResult.decision g))%Z ∧
    (∃ r, rule_demand p s r = QualityGateResult.decision g).
Proof.
  eexists. split; [apply evaluate_eq|]. cbn [QualityGateResult.decision]. split.
  - intros r. rewrite gate_decision_cascade, gate_cascade_priority.
    destruct r as [| | | |i].
    + cbn [rule_demand]. lia.
    + cbn [rule_demand]. destruct (QualityGateSignals.model_failed s); simpl; bool_cases; lia.
    + cbn [rule_demand]. fold (provenance_blocks p s).
      destruct (provenance_blocks p s); rewrite ?orb_true_r; cbn [orb _priority]; bool_cases; lia.
    + cbn [rule_demand]. fold (mitigation_blocks p s).
      destruct (mitigation_blocks p s); rewrite ?orb_true_r; cbn [orb _priority]; bool_cases; lia.
    + rewrite review_rule_demand.
      destruct (review_conditions p s !! i) as [[]|] eqn:Hi;
        [rewrite (existsb_lookup _ _ Hi)| |]; cbn [default from_option id]; bool_cases; lia.
  - rewrite gate_decision_cascade. unfold gate_cascade.
    destruct (mitigation_blocks p s) eqn:Hm.
    { exists MitigationRule. cbn [rule_demand]. fold (mitigation_blocks p s).
      rewrite Hm, andb_comm. done. }
    destruct (provenance_blocks p s) eqn:Hp.
    { exists ProvenanceRule. cbn [rule_demand]. fold (provenance_blocks p s).
      rewrite Hp, andb_comm. done. }
    destruct (QualityGateSignals.model_failed s) eqn:Hf.
    { exists ModelFailureRule. cbn [rule_demand]. rewrite Hf, andb_comm. done. }
    destruct (existsb id (review_conditions p s)) eqn:Hr; [|by exists RiskLevelRule].
    destruct (Z.ltb _ _); [|by exists RiskLevelRule].
    apply existsb_lookup_inv in Hr as [i Hi]. exists (ReviewRule i).
    cbn [rule_demand]. by rewrite Hi.
Qed.

(** Every outcome other than [AUTO_COMPLETE] carries at least one reason code:
    the gate never holds back an assessment without explaining it. *)
Theorem evaluate_explains_decision p s g :
  evaluate p s = Ok g →
  QualityGateResult.decision g ≠ AUTO_COMPLETE →
  QualityGateResult.reason_codes g ≠ [].
Proof.
  rewrite evaluate_eq. intros [= <-]. cbn. intros Hd Hnil. apply Hd. clear Hd.
  apply reason_codes_nil in Hnil as (Hl & He & Hp & Hdg & Hs & Ho & Hm & Hu & Hf & Ht & Hr).
  rewrite gate_decision_cascade. unfold provenance_blocks, mitigation_blocks, review_conditions.
  rewrite Hl, He, Hp, Hdg, Hs, Ho, Hm, Hu, Hf, Ht, Hr. reflexivity.
Qed.

Lemma evaluate_explains_decision_witness :
  ∃ g, evaluate default_policy risky_signals = Ok g ∧ QualityGateResult.reason_codes g ≠ [].
Proof.
  eexists. split; [vm_compute; reflexivity|].
  eapply (evaluate_explains_decision default_policy risky_signals);
    [vm_compute; reflexivity | by vm_compute].
Defined.

(** worse signals never weaken the decision, under a policy whose configured
    decisions grow with the risk level. *)
Theorem evaluate_monotone p s s' g g' :
  policy_monotone p → signals_worse s s' →
  evaluate p s = Ok g → evaluate p s' = Ok g' →
  (_priority (QualityGateResult.decision g) ≤ _priority (QualityGateResult.decision g'))%Z.
Proof.
  intros Hp Hw. rewrite !evaluate_eq. intros [= <-] [= <-]. cbn.
  rewrite !gate_decision_cascade, !gate_cascade_priority.
  pose proof (risk_decision_monotone p s s' Hp Hw) as Hb.
  pose proof (blocking_monotone p s s' Hw) as Hm.
  pose proof (review_monotone p s s' Hw) as Hr.
  destruct (_ || _ || mitigation_blocks p s), (_ || _ || mitigation_blocks p s'); try done;
    destruct (existsb id (review_conditions p s)), (existsb id (review_conditions p s'));
    try done; lia.
Qed.

Lemma evaluate_monotone_witness :
  (_priority (gate_decision default_policy calm_signals) ≤
   _priority (gate_decision default_policy risky_signals))%Z.
Proof.
  refine (evaluate_monotone default_policy calm_signals risky_signals
    (QualityGateResult.mk COMPLETE_WITH_WARNING MEDIUM [MEDIUM_RISK] false false)
    (QualityGateResult.mk REQUIRE_HUMAN_REVIEW HIGH [HIGH_RISK; INSUFFICIENT_EVIDENCE]
       true false) _ _ eq_refl eq_refl); vm_compute; intuition discriminate.
Defined.
