(* ===== verification/PyText.v ===== *)
(** Python's text conversions: [str] of integers and UUIDs, the fixed-point format
    [f"{x:.6f}"], [json.dumps(_, ensure_ascii=False, indent=2, sort_keys=True)] on nested
    values, and the formatting of UTF-8 encodable text. *)
From S2P Require Import Prelude PyFloat Errors Domain AgentModels Schemas Prompts.
From Stdlib Require Import Floats.SpecFloat.

(** ** Integers and UUIDs *)

(** The decimal digits of a non-negative integer, least significant first. *)
Fixpoint digits_rev (fuel : nat) (n : Z) : pystr :=
  match fuel with
  | O => []
  | S fuel' =>
      if Z.ltb n 10 then [(48 + n)%Z]
      else (48 + n mod 10)%Z :: digits_rev fuel' (n / 10)
  end.
Definition str_nonneg (n : Z) : pystr := reverse (digits_rev (S (Z.to_nat (Z.log2 n))) n).
(** [str(n)]. *)
Definition str_int (n : Z) : pystr :=
  if Z.ltb n 0 then 45%Z :: str_nonneg (- n) else str_nonneg n.

(** [len] hexadecimal digits of [n], most significant first. *)
Fixpoint hex_digits (len : nat) (n : Z) : pystr :=
  match len with
  | O => []
  | S len' => hex_digits len' (n / 16) ++ [hex_digit (n mod 16)]
  end.
(** [str(uuid)]: groups of 8, 4, 4, 4 and 12 hexadecimal digits. *)
Definition str_uuid (u : uuid) : pystr :=
  let n := Z.of_N u in
  str_join "-" [hex_digits 8 (n / 2 ^ 96); hex_digits 4 (n / 2 ^ 80); hex_digits 4 (n / 2 ^ 64);
                hex_digits 4 (n / 2 ^ 48); hex_digits 12 n].

(** ** [format(x, ".{d}f")]

    The exact binary value rounded half to even at the [d]-th decimal, [1 <= d]; the sign is kept
    even when every digit is zero. *)
Definition fixed_scaled (m : positive) (e d : Z) : Z :=
  if Z.leb 0 e then (Z.pos m * 2 ^ e * 10 ^ d)%Z
  else round_half_even (Z.pos m * 10 ^ d) (- e).
Definition fixed_digits (n d : Z) : pystr :=
  let frac := str_nonneg (n mod 10 ^ d) in
  str_nonneg (n / 10 ^ d) ++ [46%Z] ++ replicate (Z.to_nat d - length frac) 48%Z ++ frac.
Definition format_fixed (d : Z) (x : pyfloat) : pystr :=
  match x with
  | S754_zero neg => (if neg then [45%Z] else []) ++ fixed_digits 0 d
  | S754_infinity neg => (if neg then [45%Z] else []) ++ lit "inf"
  | S754_nan => lit "nan"
  | S754_finite neg m e => (if neg then [45%Z] else []) ++ fixed_digits (fixed_scaled m e d) d
  end.

Example format_half : format_fixed 6 (float_dyadic 1 1) = lit "0.500000".
Proof. vm_compute. reflexivity. Qed.
Example format_tenth : format_fixed 6 (fdiv f64_one (float_of_Z 3)) = lit "0.333333".
Proof. vm_compute. reflexivity. Qed.
Example format_big : format_fixed 3 (float_of_Z (-1234)) = lit "-1234.000".
Proof. vm_compute. reflexivity. Qed.
Example format_tie : format_fixed 1 (float_dyadic 1 2) = lit "0.2".
Proof. vm_compute. reflexivity. Qed.
Example uuid_text : str_uuid (2 ^ 96 + 255)%N = lit "00000001-0000-0000-0000-0000000000ff".
Proof. vm_compute. reflexivity. Qed.

(** ** Layout *)

(** [f"{x:.3f}"]. *)
Definition fixed3 (x : pyfloat) : pystr := format_fixed 3 x.

(** [s.title()] of an ASCII text. *)
Definition ascii_letter (c : Z) : bool :=
  (Z.leb 65 c && Z.leb c 90) || (Z.leb 97 c && Z.leb c 122).
Definition ascii_upper (c : Z) : Z := if Z.leb 97 c && Z.leb c 122 then (c - 32)%Z else c.
Definition ascii_lower (c : Z) : Z := if Z.leb 65 c && Z.leb c 90 then (c + 32)%Z else c.
Fixpoint title_from (in_word : bool) (s : pystr) : pystr :=
  match s with
  | [] => []
  | c :: s' => (if in_word then ascii_lower c else ascii_upper c) :: title_from (ascii_letter c) s'
  end.
Definition title : pystr → pystr := title_from false.

(** [f"{s:<n}"] and [f"{s:>n}"]. *)
Definition pad_right (n : nat) (s : pystr) : pystr := s ++ replicate (n - length s) 32%Z.
Definition pad_left (n : nat) (s : pystr) : pystr := replicate (n - length s) 32%Z ++ s.

(** ** Nested JSON

    Strings, arrays and objects, which is what the extraction prompts serialize; the keys
    of an object are given in order. *)
#[local] Unset Elimination Schemes.
Inductive json :=
  | JString (s : pystr)
  | JArray (l : list json)
  | JObject (d : list (pystr * json)).
#[local] Set Elimination Schemes.

Definition json_block (level : nat) (opening closing : Z) (items : list pystr) : pystr :=
  match items with
  | [] => [opening; closing]
  | _ =>
      opening :: json_newline (S level) ++ str_join (44%Z :: json_newline (S level)) items ++
      json_newline level ++ [closing]
  end.

Fixpoint json_dumps (level : nat) (v : json) : pystr :=
  match v with
  | JString s => json_string s
  | JArray l => json_block level 91 93 (map (json_dumps (S level)) l)
  | JObject d =>
      json_block level 123 125
        (map (λ kv, json_string kv.1 ++ lit ": " ++ json_dumps (S level) kv.2) d)
  end.

Example json_nested :
  json_dumps 0 (JObject [(lit "a", JArray [JString "v"; JArray []])]) =
  lit "{" ++ json_newline 1 ++ json_string "a" ++ lit ": [" ++ json_newline 2 ++
  json_string "v" ++ lit "," ++ json_newline 2 ++ lit "[]" ++ json_newline 1 ++ lit "]" ++
  json_newline 0 ++ lit "}".
Proof. vm_compute. reflexivity. Qed.

(** ** UTF-8 *)

(** [s.encode()] succeeds on strings without surrogates. *)
Definition utf8_encodable (s : pystr) : bool :=
  forallb (λ c, negb (Z.leb 55296 c && Z.leb c 57343)) s.

(** [hashlib.sha256(_).hexdigest()] of an encoded text, and of a text that may not have an
    encoding: the [UnicodeEncodeError] is a [ValueError]. *)
Class Sha256 := sha256_hex : pystr → pystr.
Definition sha256_of {sha : Sha256} (s : pystr) : res pystr :=
  if utf8_encodable s then Ok (sha256_hex s) else Raise ValueError.
