(* ===== verification/Unicode.v ===== *)
(** Text matching: Python's case folding, word characters and the word-delimited
    search [re.search(rf"(?<!\w){re.escape(term)}(?!\w)", text)] that the execution
    router and the knowledge graph use. *)
From S2P Require Import Prelude.

(** The Unicode character database Python consults: full case folding of one
    character, the word characters of [re] ([\w]) and NFKC normalisation.  It is
    data, not code of the repository, so it is an interface; [ascii_db] is its
    restriction to ASCII, used to evaluate examples. *)
Class UnicodeDB := {
  casefold_char : Z → pystr;
  is_word : Z → bool;
  nfkc : pystr → pystr
}.

Definition ascii_casefold_char (c : Z) : pystr :=
  if Z.leb 65 c && Z.leb c 90 then [(c + 32)%Z] else [c].
Definition ascii_is_word (c : Z) : bool :=
  (Z.leb 48 c && Z.leb c 57) || (Z.leb 65 c && Z.leb c 90) ||
  (Z.leb 97 c && Z.leb c 122) || Z.eqb c 95.
Definition ascii_db : UnicodeDB :=
  {| casefold_char := ascii_casefold_char; is_word := ascii_is_word; nfkc := id |}.

Section search.
Context {db : UnicodeDB}.

(** [s.casefold()]. *)
Definition casefold (s : pystr) : pystr := mjoin (casefold_char <$> s).

(** Whether the character before (after) a position exists and is a word character. *)
Definition word_opt (c : option Z) : bool :=
  match c with Some c => is_word c | None => false end.

(** The regular expression tried at a position: [prev] is the character before it
    and [text] what follows. *)
Definition matches_at (prev : option Z) (term text : pystr) : bool :=
  negb (word_opt prev) && str_startswith term text &&
  negb (word_opt (text !! length term)).

Fixpoint search_from (prev : option Z) (term text : pystr) : bool :=
  matches_at prev term text ||
  match text with
  | [] => false
  | c :: text' => search_from (Some c) term text'
  end.

Definition contains_term (text term : pystr) : bool := search_from None term text.

Lemma startswith_prefix (p s : pystr) :
  str_startswith p s = true ↔ ∃ post, s = p ++ post.
Proof.
  revert s; induction p as [|c p IH]; intros [|d s]; simpl.
  - split; [by exists []|done].
  - split; [by exists (d :: s)|done].
  - split; [done|by intros [post ?]].
  - rewrite andb_true_iff, Z.eqb_eq, IH. split.
    + intros [-> [post ->]]. by exists post.
    + intros [post [= -> ->]]. eauto.
Qed.

(** The search finds exactly the occurrences delimited by non-word characters. *)
Lemma search_from_spec prev (term text : pystr) :
  search_from prev term text = true ↔
  ∃ pre post, text = pre ++ term ++ post ∧
    word_opt (match last pre with Some c => Some c | None => prev end) = false ∧
    word_opt (head post) = false.
Proof.
  assert (Hat : ∀ prev text, matches_at prev term text = true ↔
    ∃ post, text = term ++ post ∧ word_opt prev = false ∧ word_opt (head post) = false).
  { intros pv tx. unfold matches_at.
    rewrite !andb_true_iff, !negb_true_iff, startswith_prefix. split.
    - intros [[Hp [post ->]] Hn]. exists post. split_and!; [done..|].
      rewrite lookup_app_r, Nat.sub_diag in Hn by lia. by destruct post.
    - intros (post & -> & Hp & Hn). split_and!; [done|eauto|].
      rewrite lookup_app_r, Nat.sub_diag by lia. by destruct post. }
  revert prev; induction text as [|c text IH]; intros prev; simpl;
    rewrite orb_true_iff, Hat.
  - split.
    + intros [(post & Ht & Hp & Hn)|[=]]. exists [], post. done.
    + intros ([|? ?] & post & Ht & Hp & Hn); [|done]. left. eauto.
  - rewrite IH. split.
    + intros [(post & Ht & Hp & Hn)|(pre & post & -> & Hp & Hn)].
      * exists [], post. done.
      * exists (c :: pre), post. split_and!; [done| |done].
        rewrite last_cons. by destruct (last pre).
    + intros ([|d pre] & post & Ht & Hp & Hn).
      * left. exists post. done.
      * right. simplify_eq/=. exists pre, post. split_and!; [done| |done].
        rewrite last_cons in Hp. by destruct (last pre).
Qed.
End search.

Example contains_word : contains_term (db := ascii_db) "the api is" "api" = true.
Proof. reflexivity. Qed.
Example contains_not_inside : contains_term (db := ascii_db) "a capitol" "api" = false.
Proof. reflexivity. Qed.
