(* ===== verification/ExecutionRouter.v ===== *)
(** The execution router: app/services/execution_router.py.

    [route] chooses one of the three assessment workflows from workload signals of
    the request.  The theorems: it never fails and its reasons fit their bounds; it
    chooses each workflow exactly when the documented signals hold; a keyword counts
    only as a whole word. *)
From S2P Require Import Prelude PyFloat Errors Domain AgentModels Schemas Unicode.

(** ** Data *)

Module ExecutionMode.
Inductive t := DETERMINISTIC | SINGLE_AGENT | MULTI_AGENT.
Definition value (x : t) : pystr :=
  match x with
  | DETERMINISTIC => "deterministic"
  | SINGLE_AGENT => "single_agent"
  | MULTI_AGENT => "multi_agent"
  end.
#[export] Instance eq_dec : EqDecision t.
Proof. solve_decision. Defined.
End ExecutionMode.
#[export] Existing Instance ExecutionMode.eq_dec.

Module RoutingReasonCode.
Inductive t :=
  | ENVIRONMENT_OVERRIDE | BOUNDED_SCOPE | LOW_COORDINATION_COMPLEXITY
  | MULTIPLE_PAIN_POINTS | MULTIPLE_CONSTRAINTS | MULTIPLE_WORKLOAD_CONCERNS
  | RICH_PROCESS_CONTEXT | SINGLE_REASONING_CONTEXT_SUFFICIENT
  | CROSS_FUNCTIONAL_COORDINATION | SPECIALIST_SEPARATION_BENEFICIAL
  | LEGACY_FLAG_SELECTION.
Definition value (x : t) : pystr :=
  match x with
  | ENVIRONMENT_OVERRIDE => "environment_override"
  | BOUNDED_SCOPE => "bounded_scope"
  | LOW_COORDINATION_COMPLEXITY => "low_coordination_complexity"
  | MULTIPLE_PAIN_POINTS => "multiple_pain_points"
  | MULTIPLE_CONSTRAINTS => "multiple_constraints"
  | MULTIPLE_WORKLOAD_CONCERNS => "multiple_workload_concerns"
  | RICH_PROCESS_CONTEXT => "rich_process_context"
  | SINGLE_REASONING_CONTEXT_SUFFICIENT => "single_reasoning_context_sufficient"
  | CROSS_FUNCTIONAL_COORDINATION => "cross_functional_coordination"
  | SPECIALIST_SEPARATION_BENEFICIAL => "specialist_separation_beneficial"
  | LEGACY_FLAG_SELECTION => "legacy_flag_selection"
  end.
#[export] Instance eq_dec : EqDecision t.
Proof. solve_decision. Defined.
End RoutingReasonCode.
#[export] Existing Instance RoutingReasonCode.eq_dec.

Module FallbackReasonCode.
Inductive t :=
  | MULTI_AGENT_CAPABILITY_UNAVAILABLE | SINGLE_AGENT_CAPABILITY_UNAVAILABLE
  | FALLBACK_TO_SINGLE_AGENT | FALLBACK_TO_DETERMINISTIC.
Definition value (x : t) : pystr :=
  match x with
  | MULTI_AGENT_CAPABILITY_UNAVAILABLE => "multi_agent_capability_unavailable"
  | SINGLE_AGENT_CAPABILITY_UNAVAILABLE => "single_agent_capability_unavailable"
  | FALLBACK_TO_SINGLE_AGENT => "fallback_to_single_agent"
  | FALLBACK_TO_DETERMINISTIC => "fallback_to_deterministic"
  end.
#[export] Instance eq_dec : EqDecision t.
Proof. solve_decision. Defined.
End FallbackReasonCode.
#[export] Existing Instance FallbackReasonCode.eq_dec.

Module ExecutionRoutingDecision.
Record t := mk {
  preferred_execution_mode : ExecutionMode.t;
  reason_codes : list RoutingReasonCode.t
}.
Definition valid (r : t) : bool := len_in 1 12 (reason_codes r).
Definition construct (r : t) : res t :=
  if valid r then Ok r else Raise ValidationError.
End ExecutionRoutingDecision.

Module ResolvedExecutionRoute.
Record t := mk {
  preferred_execution_mode : ExecutionMode.t;
  execution_mode : ExecutionMode.t;
  routing_reason_codes : list RoutingReasonCode.t;
  fallback_reason_codes : list FallbackReasonCode.t
}.
Definition valid (r : t) : bool :=
  len_le 12 (routing_reason_codes r) && len_le 12 (fallback_reason_codes r).
Definition construct (r : t) : res t :=
  if valid r then Ok r else Raise ValidationError.
End ResolvedExecutionRoute.

Import ExecutionMode RoutingReasonCode.

Definition MULTIPLE_PAIN_POINTS_THRESHOLD : Z := 2.
Definition MULTIPLE_CONSTRAINTS_THRESHOLD : Z := 2.
Definition SPECIALIST_CONCERNS_THRESHOLD : Z := 3.

Definition _CONCERN_KEYWORDS : list (pystr * list pystr) :=
  [ (lit "data",
     lit <$> ["data"; "record"; "records"; "document"; "documents";
              "information quality"]);
    (lit "integration",
     lit <$> ["integration"; "integrations"; "integrate"; "api"; "apis"; "system";
              "systems"; "handoff"; "handoffs"]);
    (lit "security_privacy",
     lit <$> ["security"; "privacy"; "confidential"; "sensitive"; "access control";
              "permission"]);
    (lit "governance_risk",
     lit <$> ["risk"; "compliance"; "audit"; "policy"; "regulatory"; "approval";
              "oversight"]);
    (lit "operations",
     lit <$> ["operations"; "reliability"; "monitoring"; "latency"; "scalability";
              "deployment"]);
    (lit "people_change",
     lit <$> ["team"; "department"; "stakeholder"; "training"; "change management";
              "customer"; "employee"]) ].

Definition _COORDINATION_KEYWORDS : list pystr :=
  lit <$> ["cross-functional"; "cross functional"; "multiple teams";
           "multiple departments"; "across teams"; "across departments";
           "across systems"; "end-to-end"; "end to end"; "multiple stakeholders";
           "parallel workstreams"].

(** ** Operations *)

Section router.
Context {db : UnicodeDB}.

Definition _workload_text (request : AssessmentRequest.t) : pystr :=
  let values :=
    [ AssessmentRequest.business_problem request;
      AssessmentRequest.desired_outcome request;
      default [] (AssessmentRequest.current_process request) ] ++
    AssessmentRequest.pain_points request ++
    AssessmentRequest.constraints request ++
    [ default [] (AssessmentRequest.additional_context request) ] in
  casefold (str_join " " values).

(** [sum(any(...) for keywords in _CONCERN_KEYWORDS.values())]. *)
Definition concern_count (text : pystr) : Z :=
  sum_Z ((λ kv : pystr * list pystr,
            Z.b2z (existsb (contains_term text) kv.2)) <$> _CONCERN_KEYWORDS).

Definition has_coordination_signal (text : pystr) : bool :=
  existsb (contains_term text) _COORDINATION_KEYWORDS.

Definition n_pain_points (request : AssessmentRequest.t) : Z :=
  Z.of_nat (length (AssessmentRequest.pain_points request)).
Definition n_constraints (request : AssessmentRequest.t) : Z :=
  Z.of_nat (length (AssessmentRequest.constraints request)).

(** [bool(request.current_process and request.additional_context)]. *)
Definition rich_process_context (request : AssessmentRequest.t) : bool :=
  truthy (default [] (AssessmentRequest.current_process request)) &&
  truthy (default [] (AssessmentRequest.additional_context request)).

(** The reasons appended before the specialist test. *)
Definition workload_reasons (request : AssessmentRequest.t) (text : pystr) :
    list RoutingReasonCode.t :=
  let multiple_pain_points := Z.leb MULTIPLE_PAIN_POINTS_THRESHOLD (n_pain_points request) in
  let multiple_constraints := Z.leb MULTIPLE_CONSTRAINTS_THRESHOLD (n_constraints request) in
  (if multiple_pain_points then [MULTIPLE_PAIN_POINTS] else []) ++
  (if multiple_constraints then [MULTIPLE_CONSTRAINTS] else []) ++
  (if Z.leb 2 (concern_count text) then [MULTIPLE_WORKLOAD_CONCERNS] else []) ++
  (if rich_process_context request then [RICH_PROCESS_CONTEXT] else []).

Definition specialist_separation_is_useful (request : AssessmentRequest.t) (text : pystr) : bool :=
  Z.leb SPECIALIST_CONCERNS_THRESHOLD (concern_count text) &&
  (has_coordination_signal text || Z.leb 3 (n_pain_points request) ||
   Z.leb 3 (n_constraints request)).

(** [ExecutionRouter.route]; [forced_mode] is the constructor's argument. *)
Definition route (forced_mode : option ExecutionMode.t) (request : AssessmentRequest.t) :
    res ExecutionRoutingDecision.t :=
  match forced_mode with
  | Some mode =>
      ExecutionRoutingDecision.construct
        (ExecutionRoutingDecision.mk mode [ENVIRONMENT_OVERRIDE])
  | None =>
      let text := _workload_text request in
      let reasons := workload_reasons request text in
      if specialist_separation_is_useful request text then
        let reasons :=
          if has_coordination_signal text
          then reasons ++ [CROSS_FUNCTIONAL_COORDINATION] else reasons in
        ExecutionRoutingDecision.construct
          (ExecutionRoutingDecision.mk MULTI_AGENT
             (reasons ++ [SPECIALIST_SEPARATION_BENEFICIAL]))
      else if truthy reasons then
        ExecutionRoutingDecision.construct
          (ExecutionRoutingDecision.mk SINGLE_AGENT
             (reasons ++ [SINGLE_REASONING_CONTEXT_SUFFICIENT]))
      else
        ExecutionRoutingDecision.construct
          (ExecutionRoutingDecision.mk DETERMINISTIC
             [BOUNDED_SCOPE; LOW_COORDINATION_COMPLEXITY])
  end.

(** ** Lemmas *)

Lemma workload_reasons_length request text : (length (workload_reasons request text) ≤ 4)%nat.
Proof. unfold workload_reasons. rewrite !length_app. bool_cases; simpl; lia. Qed.

Lemma construct_decision_ok mode reasons :
  (1 ≤ length reasons ≤ 12)%nat →
  ExecutionRoutingDecision.construct (ExecutionRoutingDecision.mk mode reasons) =
  Ok (ExecutionRoutingDecision.mk mode reasons).
Proof.
  intros H. unfold ExecutionRoutingDecision.construct, ExecutionRoutingDecision.valid.
  cbn [ExecutionRoutingDecision.reason_codes]. unfold len_in, len_ge, len_le.
  rewrite (proj2 (Z.leb_le _ _)), (proj2 (Z.leb_le _ _)) by lia. done.
Qed.

Lemma workload_reasons_nil request text :
  truthy (workload_reasons request text) = false ↔
  (n_pain_points request < 2)%Z ∧ (n_constraints request < 2)%Z ∧
  (concern_count text < 2)%Z ∧ rich_process_context request = false.
Proof.
  unfold workload_reasons, MULTIPLE_PAIN_POINTS_THRESHOLD, MULTIPLE_CONSTRAINTS_THRESHOLD.
  rewrite <- !Z.leb_gt. bool_cases; simpl; split; intros; destruct_and?; done.
Qed.

(** The mode chosen without an override, as a function of the signals. *)
Definition preferred_mode (request : AssessmentRequest.t) : ExecutionMode.t :=
  let text := _workload_text request in
  if specialist_separation_is_useful request text then MULTI_AGENT
  else if truthy (workload_reasons request text) then SINGLE_AGENT
  else DETERMINISTIC.

Lemma route_total forced request :
  ∃ reasons, (1 ≤ length reasons ≤ 7)%nat ∧ route forced request =
    Ok (ExecutionRoutingDecision.mk (default (preferred_mode request) forced) reasons).
Proof.
  pose proof (workload_reasons_length request (_workload_text request)) as Hl.
  unfold route, preferred_mode. destruct forced as [mode|]; simpl.
  { exists [ENVIRONMENT_OVERRIDE]. simpl. split; [lia|]. by apply construct_decision_ok; simpl; lia. }
  bool_cases; (eexists; split; cycle 1; [apply construct_decision_ok|]);
    rewrite ?length_app; simpl; lia.
Qed.

(** ** Properties *)

(** routing a request always returns a decision (the validating constructor never
    rejects it): an operator override is obeyed and is the only reason reported; without
    one, the multi-agent workflow is preferred exactly when at least three concerns are
    present together with a coordination signal, three pain points or three constraints,
    and the deterministic workflow exactly when no workload signal is present. *)
Theorem route_correct forced request :
  ∃ d, route forced request = Ok d ∧
    match forced with
    | Some mode => d = ExecutionRoutingDecision.mk mode [ENVIRONMENT_OVERRIDE]
    | None =>
        (ExecutionRoutingDecision.preferred_execution_mode d = MULTI_AGENT ↔
           (3 ≤ concern_count (_workload_text request))%Z ∧
           (has_coordination_signal (_workload_text request) = true ∨
            (3 ≤ n_pain_points request)%Z ∨ (3 ≤ n_constraints request)%Z)) ∧
        (ExecutionRoutingDecision.preferred_execution_mode d = DETERMINISTIC ↔
           (n_pain_points request < 2)%Z ∧ (n_constraints request < 2)%Z ∧
           (concern_count (_workload_text request) < 2)%Z ∧
           rich_process_context request = false)
    end.
Proof.
  destruct forced as [mode|]; [by eexists|].
  destruct (route_total None request) as (reasons & _ & Hroute).
  eexists. split; [exact Hroute|]. simpl. clear Hroute. unfold preferred_mode.
  assert (Hs : specialist_separation_is_useful request (_workload_text request) = true ↔
     (3 ≤ concern_count (_workload_text request))%Z ∧
       (has_coordination_signal (_workload_text request) = true ∨
        (3 ≤ n_pain_points request)%Z ∨ (3 ≤ n_constraints request)%Z)).
  { unfold specialist_separation_is_useful, SPECIALIST_CONCERNS_THRESHOLD.
    rewrite andb_true_iff, !orb_true_iff, !Z.leb_le. tauto. }
  rewrite <- Hs, <- workload_reasons_nil. clear Hs.
  destruct (specialist_separation_is_useful _ _) eqn:Hsp.
  - split; [done|]. split; [done|]. rewrite workload_reasons_nil.
    unfold specialist_separation_is_useful, SPECIALIST_CONCERNS_THRESHOLD in Hsp.
    rewrite andb_true_iff, Z.leb_le in Hsp. lia.
  - destruct (truthy _); split; split; done.
Qed.

(** a keyword counts only where it stands as a whole word of the case-folded
    workload text: neither neighbour is a word character. *)
Theorem contains_term_whole_word (request : AssessmentRequest.t) (term : pystr) :
  contains_term (_workload_text request) term = true ↔
  ∃ pre post, _workload_text request = pre ++ term ++ post ∧
    word_opt (last pre) = false ∧ word_opt (head post) = false.
Proof.
  unfold contains_term. rewrite search_from_spec.
  split; intros (pre & post & Ht & Hp & Hn); exists pre, post; by destruct (last pre).
Qed.

End router.
