(* ===== verification/Session.v ===== *)
(** A database session, over any set of tables: the interface [Session] of what the
    repositories use of a SQLAlchemy session, its contract [SessionLaws], and the rules
    for transactions written against it.

    SQLAlchemy and the DBMS are not part of the repository.  What the code relies on is
    that a query sees the session's own changes, a flush checks the declared constraints,
    a commit makes the session's view durable, a rollback drops it, and any of them may
    raise an [SQLAlchemyError]. *)
From S2P Require Import Prelude Errors Domain.

(** ** The tables

    A program's tables, with the constraints they declare: rows, keys, references. *)
Class Tables (D : Type) := tables_ok : D → Prop.

(** ** A database session *)

Class Session (D S : Type) := {
  view : S → D;      (* what the session's queries see *)
  durable : S → D;   (* what is committed *)
  sess_read : ∀ {A}, (D → A) → M S A;
  sess_change : (D → D) → M S unit;
  sess_flush : M S unit;
  sess_commit : M S unit;
  sess_rollback : M S unit;
  clock : M S datetime;
  uuid4 : M S uuid;
  get_request_id : M S (option pystr)
}.

Section session.
Context {D S : Type} `{!Session D S}.

Definition keeps (s s' : S) : Prop := view s' = view s ∧ durable s' = durable s.

Definition is_sql (e : exn) : Prop := ∃ q, e = SQLAlchemyError q.
End session.

Class SessionLaws (D S : Type) `{!Tables D} `{!Session D S} := {
  read_law {A} (q : D → A) s :
    wp (sess_read q) (λ s' r, keeps s s' ∧
      match r with Ok a => a = q (view s) | Raise e => is_sql e end) s;
  change_law f s :
    wp (sess_change f) (λ s' r, view s' = f (view s) ∧ durable s' = durable s ∧ r = Ok tt) s;
  flush_law s :
    wp sess_flush (λ s' r, durable s' = durable s ∧
      match r with Ok _ => view s' = view s ∧ tables_ok (view s) | Raise e => is_sql e end) s;
  commit_law s :
    wp sess_commit (λ s' r,
      match r with
      | Ok _ => view s' = view s ∧ durable s' = view s ∧ tables_ok (view s)
      | Raise e => is_sql e ∧ (durable s' = durable s ∨
                               durable s' = view s ∧ tables_ok (view s))
      end) s;
  rollback_law s :
    wp sess_rollback (λ s' r, durable s' = durable s ∧
      match r with
      | Ok _ => view s' = durable s
      | Raise e => is_sql e ∧ (view s' = view s ∨ view s' = durable s)
      end) s;
  clock_law s :
    wp clock (λ s' r, keeps s s' ∧
      ∃ now, r = Ok now ∧ datetime.utcoffset now = Some 0%Z) s;
  uuid4_law s : wp uuid4 (λ s' r, keeps s s' ∧ ∃ u, r = Ok u) s;
  request_id_law s :
    wp get_request_id (λ s' r, keeps s s' ∧
      ∃ o, r = Ok o ∧ opt_all (len_le 128) o = true ∧ str_strip <$> o = o) s
}.

(** *** Transactions

    [txn m db E Q]: started where the session's view is [db], the computation [m] leaves
    the committed tables alone; it returns a value and a view satisfying [Q], or raises
    an exception satisfying [E]. *)
Section txn.
Context {D S : Type} `{!Tables D} `{!Session D S} `{!SessionLaws D S}.
Implicit Types (db : D) (E : exn → Prop).

Definition txn {A} (m : M S A) db E (Q : A → D → Prop) : Prop :=
  ∀ s, view s = db →
    wp m (λ s' r, durable s' = durable s ∧
      match r with Ok a => Q a (view s') | Raise e => E e end) s.

Lemma txn_mono {A} (m : M S A) db E E' Q Q' :
  txn m db E Q → (∀ e, E e → E' e) → (∀ a db', Q a db' → Q' a db') → txn m db E' Q'.
Proof.
  intros H HE HQ s Hs. eapply wp_mono; [by apply H|].
  intros s' [a|e] [??]; split; auto.
Qed.

Lemma txn_ret {A} (a : A) db E Q : Q a db → txn (ret a) db E Q.
Proof. intros H s <-. by apply wp_ret. Qed.

Lemma txn_raise {A} e db E (Q : A → D → Prop) : E e → txn (raise e) db E Q.
Proof. intros H s <-. by apply wp_raise. Qed.

Lemma txn_of_res {A} (r : res A) db E Q :
  match r with Ok a => Q a db | Raise e => E e end → txn (of_res r) db E Q.
Proof. intros H s <-. unfold wp. simpl. by destruct r. Qed.

Lemma txn_bind {A B} (m : M S A) (k : A → M S B) db E Q :
  txn m db E (λ a db', txn (k a) db' E Q) → txn (bind m k) db E Q.
Proof.
  intros H s Hs. apply wp_bind. eapply wp_mono; [by apply H|].
  intros s' [a|e] [Hd Hq]; [|done]. eapply wp_mono; [by apply Hq|].
  intros s'' r [-> Hr]. done.
Qed.

Lemma txn_try {A} (m : M S A) h db E E' Q :
  txn m db E' Q → (∀ e db', E' e → txn (h e) db' E Q) → txn (try_except m h) db E Q.
Proof.
  intros H Hh s Hs. apply wp_try. eapply wp_mono; [by apply H|].
  intros s' [a|e] [Hd Hq]; [done|]. eapply wp_mono; [by eapply Hh|].
  intros s'' r [-> Hr]. done.
Qed.

Lemma txn_read {A} (q : D → A) db E Q :
  (∀ e, is_sql e → E e) → Q (q db) db → txn (sess_read q) db E Q.
Proof.
  intros HE HQ s Hs. eapply wp_mono; [apply read_law|]. subst db.
  intros s' [a|e] [[Hv Hd] H]; rewrite Hd; (split; [done|]); [|by apply HE].
  by rewrite Hv, H.
Qed.

Lemma txn_change f db E Q : Q tt (f db) → txn (sess_change f) db E Q.
Proof.
  intros HQ s Hs. eapply wp_mono; [apply change_law|]. subst db.
  intros s' r (Hv & Hd & ->). rewrite Hd, Hv. done.
Qed.

Lemma txn_flush db E Q :
  (∀ e, is_sql e → E e) → (tables_ok db → Q tt db) → txn sess_flush db E Q.
Proof.
  intros HE HQ s Hs. eapply wp_mono; [apply flush_law|]. subst db.
  intros s' [[]|e] [Hd H]; (split; [done|]); [|by apply HE].
  destruct H as [-> ?]. by apply HQ.
Qed.

Lemma txn_clock db E Q :
  (∀ now, datetime.utcoffset now = Some 0%Z → Q now db) → txn clock db E Q.
Proof.
  intros HQ s Hs. eapply wp_mono; [apply clock_law|]. subst db.
  intros s' r [[Hv Hd] (now & -> & Hn)]. rewrite Hd, Hv. split; [done|]. by apply HQ.
Qed.

Lemma txn_uuid4 db E Q : (∀ u, Q u db) → txn uuid4 db E Q.
Proof.
  intros HQ s Hs. eapply wp_mono; [apply uuid4_law|]. subst db.
  intros s' r [[Hv Hd] [u ->]]. rewrite Hd, Hv. split; [done|]. apply HQ.
Qed.

Lemma txn_request_id db E Q :
  (∀ o, opt_all (len_le 128) o = true → str_strip <$> o = o → Q o db) →
  txn get_request_id db E Q.
Proof.
  intros HQ s Hs. eapply wp_mono; [apply request_id_law|]. subst db.
  intros s' r [[Hv Hd] (o & -> & Ho & Hst)]. rewrite Hd, Hv. split; [done|]. by apply HQ.
Qed.

(** A computation that leaves the tables alone. *)
Lemma txn_safe {A} (m : M S A) (P : A → Prop) db E Q :
  safe keeps E m P → (∀ a, P a → Q a db) → txn m db E Q.
Proof.
  intros Hm HQ s Hs. eapply wp_mono; [apply Hm|]. intros s' [a|e] [[Hv Hd] Ha].
  - rewrite Hv, Hs. auto.
  - auto.
Qed.
End txn.

(** Symbolic execution of a transaction, one operation at a time. *)
Ltac txn_step :=
  lazymatch goal with
  | |- txn (bind _ _) _ _ _ => apply txn_bind
  | |- txn (ret _) _ _ _ => apply txn_ret
  | |- txn (raise _) _ _ _ => apply txn_raise
  | |- txn (app_raise _) _ _ _ => apply txn_raise
  | |- txn (of_res _) _ _ _ => apply txn_of_res
  | |- txn (sess_read _) _ _ _ => apply txn_read; [auto|]
  | |- txn (sess_change _) _ _ _ => apply txn_change
  | |- txn sess_flush _ _ _ => apply txn_flush; [auto|intros ?]
  | |- txn clock _ _ _ => apply txn_clock; intros ? ?
  | |- txn uuid4 _ _ _ => apply txn_uuid4; intros ?
  | |- txn get_request_id _ _ _ => apply txn_request_id; intros ? ? ?
  end.
Ltac txn_steps := repeat txn_step.

(** ** Ending a transaction *)

Section commits.
Context {D S : Type} `{!Tables D} `{!Session D S} `{!SessionLaws D S}.
Implicit Types (db : D) (E : exn → Prop).

(** [commits m db E Q]: a computation that ends its transaction.  Either it returns and
    what it made durable satisfies [Q], or it raises an exception of [E] and nothing
    became durable, or the commit itself failed and the outcome is unknown: nothing or
    everything is durable, never a part. *)
Definition commits {A} (m : M S A) db E (Q : A → D → Prop) : Prop :=
  ∀ s, view s = db → wp m (λ s' r,
    match r with
    | Ok a => Q a (durable s') ∧ view s' = durable s'
    | Raise e => E e ∧ durable s' = durable s ∨ is_sql e ∧ ∃ a, Q a (durable s')
    end) s.

Lemma commits_bind {A B} (m : M S A) (k : A → M S B) db E Q :
  txn m db E (λ a db', commits (k a) db' E Q) → commits (bind m k) db E Q.
Proof.
  intros H s Hs. apply wp_bind. eapply wp_mono; [by apply H|].
  intros s' [a|e] [Hd Hq]; [|by left]. eapply wp_mono; [by apply Hq|].
  intros s'' [b|e]; [done|]. intros [[He Hd']|?]; [left|by right].
  split; [done|congruence].
Qed.

Lemma commits_raise {A} e db E (Q : A → D → Prop) : E e → commits (raise e) db E Q.
Proof. intros He s Hs. apply wp_raise. by left. Qed.

Lemma commits_mono {A} (m : M S A) db E E' Q Q' :
  commits m db E Q → (∀ e, E e → E' e) → (∀ a db', Q a db' → Q' a db') → commits m db E' Q'.
Proof.
  intros H HE HQ s Hs. eapply wp_mono; [by apply H|].
  intros s' [a|e]; [intros [??]; split; auto|].
  intros [[? ?]|[? [a ?]]]; [left; auto|right; eauto].
Qed.
Lemma commits_commit_ret {A} (a : A) db E Q :
  (∀ e, is_sql e → E e) → (tables_ok db → Q a db) → commits (sess_commit ;;; ret a) db E Q.
Proof.
  intros HE HQ s <-. apply wp_bind. eapply wp_mono; [apply commit_law|].
  intros s' [[]|e].
  - intros (Hv & Hd & Hok). apply wp_ret. rewrite Hv, Hd. auto.
  - intros [He [Hd|[Hd Hok]]]; [left; auto|right]. split; [done|]. exists a. rewrite Hd. auto.
Qed.

Lemma commits_commit_unit db E Q :
  (∀ e, is_sql e → E e) → (tables_ok db → Q tt db) → commits sess_commit db E Q.
Proof.
  intros HE HQ s Hs. pose proof (commits_commit_ret tt db E Q HE HQ s Hs) as H.
  unfold wp, bind, ret in *. by destruct (sess_commit s) as [s' [[]|e]].
Qed.

End commits.

(** ** Computations that leave the tables alone *)

Section neutral.
Context {D S : Type} `{!Session D S}.

Definition neutral {A} (m : M S A) (Q : A → Prop) : Prop :=
  ∀ s, wp m (λ s' r, keeps s s' ∧ match r with Ok a => Q a | Raise _ => True end) s.

Lemma keeps_trans (s1 s2 s3 : S) : keeps s1 s2 → keeps s2 s3 → keeps s1 s3.
Proof. intros [H1 H2] [H3 H4]. split; congruence. Qed.

#[export] Instance keeps_preorder : PreOrder (keeps (D := D) (S := S)).
Proof. split; [done|]. intros s1 s2 s3. apply keeps_trans. Qed.

Lemma safe_neutral {A} E (m : M S A) (Q : A → Prop) : safe keeps E m Q → neutral m Q.
Proof.
  intros H s. eapply wp_mono; [apply H|]. intros s' [a|e] [? ?]; by split.
Qed.

Lemma neutral_ret {A} (a : A) (Q : A → Prop) : Q a → neutral (ret a) Q.
Proof. by intros H s. Qed.

Lemma neutral_raise {A} e (Q : A → Prop) : neutral (raise e) Q.
Proof. by intros s. Qed.

Lemma neutral_of_res {A} (r : res A) (Q : A → Prop) : (∀ a, r = Ok a → Q a) → neutral (of_res r) Q.
Proof. intros H s. split; [done|]. destruct r; simpl; auto. Qed.

Lemma neutral_bind {A B} (m : M S A) (k : A → M S B) P (Q : B → Prop) :
  neutral m P → (∀ a, P a → neutral (k a) Q) → neutral (bind m k) Q.
Proof.
  intros Hm Hk s. apply wp_bind. eapply wp_mono; [apply Hm|].
  intros s' [a|e] [Hs Ha]; [|done]. eapply wp_mono; [by apply Hk|].
  intros s'' r [Hs' Hr]. split; [by eapply keeps_trans|done].
Qed.

(** The value came out of some run of the computation. *)
Definition produces {A} (m : M S A) (a : A) : Prop := ∃ s1 s2, m s1 = (s2, Ok a).

Lemma neutral_produces {A} (m : M S A) P : neutral m P → neutral m (λ a, P a ∧ produces m a).
Proof.
  intros H s. specialize (H s). unfold wp in *. destruct (m s) as [s' [a|e]] eqn:Hm; simpl in *;
    destruct H; (split; [done|]); [|done]. split; [done|]. by exists s, s'.
Qed.

End neutral.
