(* ===== verification/Storage.v ===== *)
(** Persistence: the tables of app/db/models/assessment.py and
    app/db/models/runtime_review.py, their declared constraints, and the enumerations and
    JSON payloads their columns hold. *)
From S2P Require Import Prelude PyFloat Errors Domain AgentModels Schemas RuntimeModels.
From S2P Require Import Session.

(** ** Enumerations stored as strings *)

Class StrEnum (X : Type) := {
  enum_value : X → pystr;
  enum_members : list X;
  enum_members_complete : ∀ x, x ∈ enum_members;
  enum_value_inj : ∀ x y, enum_value x = enum_value y → x = y
}.

(** [Enum(value)]: lookup by value, [ValueError] when no member has it. *)
Definition enum_of_value {X} `{StrEnum X} (s : pystr) : res X :=
  match py_next (λ x, bool_decide (enum_value x = s)) enum_members with
  | Some x => Ok x
  | None => Raise ValueError
  end.

Lemma py_next_Some {A} (p : A → bool) (l : list A) a :
  py_next p l = Some a → a ∈ l ∧ p a = true.
Proof.
  induction l as [|b l IH]; simpl; [done|]. destruct (p b) eqn:Hb; intros H.
  - injection H as <-. split; [left|done].
  - destruct (IH H). split; [by right|done].
Qed.

Lemma py_next_None {A} (p : A → bool) (l : list A) a :
  py_next p l = None → a ∈ l → p a = false.
Proof.
  induction l as [|b l IH]; simpl; [set_solver|]. destruct (p b) eqn:Hb; [done|].
  intros H [->|Ha]%elem_of_cons; auto.
Qed.

Lemma enum_of_value_value {X} `{StrEnum X} (x : X) : enum_of_value (enum_value x) = Ok x.
Proof.
  unfold enum_of_value. destruct (py_next _ _) as [y|] eqn:Hn.
  - apply py_next_Some in Hn as [_ Hy]. apply bool_decide_eq_true in Hy.
    by apply enum_value_inj in Hy as ->.
  - apply py_next_None with (a := x) in Hn; [|apply enum_members_complete].
    by apply bool_decide_eq_false in Hn.
Qed.

Ltac solve_enum value members :=
  refine {| enum_value := value; enum_members := members |};
  [ intros []; vm_compute; repeat constructor
  | intros [] []; vm_compute; congruence ].

#[export] Instance gate_decision_enum : StrEnum RuntimeRiskDecision.t.
Proof. solve_enum RuntimeRiskDecision.value RuntimeRiskDecision.members. Defined.
#[export] Instance review_status_enum : StrEnum HumanReviewStatus.t.
Proof. solve_enum HumanReviewStatus.value HumanReviewStatus.members. Defined.
#[export] Instance review_action_enum : StrEnum HumanReviewAction.t.
Proof. solve_enum HumanReviewAction.value HumanReviewAction.members. Defined.
#[export] Instance reason_code_enum : StrEnum RuntimeReasonCode.t.
Proof. solve_enum RuntimeReasonCode.value RuntimeReasonCode.members. Defined.
#[export] Instance assessment_status_enum : StrEnum AssessmentStatus.t.
Proof. solve_enum AssessmentStatus.value AssessmentStatus.members. Defined.

(** The round trip, stated on each enumeration's own [value]. *)
Lemma review_status_roundtrip (x : HumanReviewStatus.t) :
  enum_of_value (HumanReviewStatus.value x) = Ok x.
Proof. exact (enum_of_value_value x). Qed.
Lemma review_action_roundtrip (x : HumanReviewAction.t) :
  enum_of_value (HumanReviewAction.value x) = Ok x.
Proof. exact (enum_of_value_value x). Qed.

Lemma enum_list_roundtrip {X} `{StrEnum X} (l : list X) :
  res_map enum_of_value (enum_value <$> l) = Ok l.
Proof. rewrite (res_map_fmap _ _ id); [by rewrite list_fmap_id|]. intros; apply enum_of_value_value. Qed.

Lemma reason_codes_roundtrip (l : list RuntimeReasonCode.t) :
  res_map enum_of_value (RuntimeReasonCode.value <$> l) = Ok l.
Proof. exact (enum_list_roundtrip l). Qed.

(** ** JSON payloads

    The JSON columns hold values of a type [J]; pydantic's serializer and validator are
    parameters.  Validating the dump of a valid model gives that model back. *)

Class Json (J : Type) := {
  json_is_dict : J → bool;   (* isinstance(x, dict) *)
  json_truthy : J → bool     (* bool(x): a non-empty dictionary *)
}.

Class PydanticModel (J : Type) `{Json J} (X : Type) (ok : X → Prop) := {
  model_dump : X → J;
  model_validate : J → res X;
  model_dump_is_dict : ∀ x, json_is_dict (model_dump x) = true;
  model_dump_truthy : ∀ x, json_truthy (model_dump x) = true;
  model_validate_dump : ∀ x, ok x → model_validate (model_dump x) = Ok x;
  model_validate_raises : ∀ j e, model_validate j = Raise e → e = ValidationError
}.

(** The instances whose dump is read back exactly: validated, with stripped strings,
    UTC timestamps and finite costs. *)
Definition gate_result_ok (g : QualityGateResult.t) : Prop := QualityGateResult.valid g = true.

Definition trace_event_ok (e : RuntimeTraceEvent.t) : Prop :=
  RuntimeTraceEvent.valid e = true ∧ RuntimeTraceEvent.normalize e = e ∧
  datetime.utcoffset (RuntimeTraceEvent.timestamp e) = Some 0%Z.

Definition cost_ok (x : pyfloat) : bool :=
  match x with
  | SpecFloat.S754_zero false => true
  | SpecFloat.S754_finite false _ _ => true
  | _ => false
  end.

Definition telemetry_ok (t : OperationalTelemetry.t) : Prop :=
  OperationalTelemetry.valid t = true ∧ OperationalTelemetry.normalize t = t ∧
  Forall trace_event_ok (OperationalTelemetry.events t) ∧
  opt_all cost_ok (OperationalTelemetry.estimated_cost t) = true.

Definition assessment_result_ok (_ : AssessmentResult.t) : Prop := True.

(** ** Tables *)

(** app/db/models/assessment.py: [AssessmentModel]. *)
Module AssessmentModel.
Record t {J : Type} := mk {
  id : uuid;
  status : AssessmentStatus.t;
  company_name : pystr;
  industry : pystr;
  business_problem : pystr;
  created_by_subject : option pystr;
  request_payload : J;
  result_payload : option J;
  execution_metadata : option J;
  error_code : option pystr;
  error_message : option pystr;
  created_at : datetime;
  updated_at : datetime;
  completed_at : option datetime
}.
Arguments t : clear implicits.
#[export] Instance eta {J} : Eta (t J) := λ r, mk J (id r) (status r) (company_name r)
  (industry r) (business_problem r) (created_by_subject r) (request_payload r)
  (result_payload r) (execution_metadata r) (error_code r) (error_message r)
  (created_at r) (updated_at r) (completed_at r).

(** The check constraints and column lengths. *)
Definition row_ok {J} (r : t J) : bool :=
  implb (bool_decide (status r = AssessmentStatus.COMPLETED))
    (bool_decide (is_Some (result_payload r)) && bool_decide (is_Some (completed_at r))) &&
  implb (bool_decide (status r = AssessmentStatus.FAILED))
    (negb (bool_decide (is_Some (result_payload r))) &&
     bool_decide (is_Some (error_code r)) && bool_decide (is_Some (error_message r))) &&
  len_le 200 (company_name r) && len_le 120 (industry r) &&
  opt_all (len_le 255) (created_by_subject r) &&
  opt_all (len_le 100) (error_code r) && opt_all (len_le 500) (error_message r).
End AssessmentModel.
#[export] Existing Instance AssessmentModel.eta.

(** app/db/models/runtime_review.py: [AssessmentRuntimeStateModel].  The [telemetry]
    column is the dictionary [save_state] writes. *)
Module RuntimeStateModel.
Record t {J : Type} := mk {
  assessment_id : uuid;
  gate_decision : pystr;
  review_status : pystr;
  reason_codes : list pystr;
  candidate_result : option J;
  candidate_execution : option J;
  telemetry : list (pystr * J);
  revision_count : Z;
  max_revisions : Z;
  created_at : datetime;
  updated_at : datetime
}.
Arguments t : clear implicits.
#[export] Instance eta {J} : Eta (t J) := λ r, mk J (assessment_id r) (gate_decision r)
  (review_status r) (reason_codes r) (candidate_result r) (candidate_execution r)
  (telemetry r) (revision_count r) (max_revisions r) (created_at r) (updated_at r).
Definition row_ok {J} (r : t J) : bool :=
  mem (gate_decision r) (RuntimeRiskDecision.value <$> RuntimeRiskDecision.members) &&
  mem (review_status r) (HumanReviewStatus.value <$> HumanReviewStatus.members) &&
  Z.leb 0 (revision_count r) && Z.leb 0 (max_revisions r) &&
  Z.leb (revision_count r) (max_revisions r).
End RuntimeStateModel.
#[export] Existing Instance RuntimeStateModel.eta.

(** [HumanReviewEventModel]. *)
Module ReviewEventModel.
Record t := mk {
  id : uuid;
  assessment_id : uuid;
  action : pystr;
  previous_status : pystr;
  new_status : pystr;
  reviewer_id : option pystr;
  reviewer_subject : option pystr;
  reviewer_email : option pystr;
  reviewer_role : option pystr;
  reviewer_issuer : option pystr;
  request_id : option pystr;
  comment : option pystr;
  reason_codes : list pystr;
  revision_number : Z;
  created_at : datetime
}.
Definition row_ok (r : t) : bool :=
  mem (action r) (HumanReviewAction.value <$> HumanReviewAction.members) &&
  Z.leb 0 (revision_number r) && len_le 30 (previous_status r) && len_le 30 (new_status r) &&
  opt_all (len_le 100) (reviewer_id r) && opt_all (len_le 255) (reviewer_subject r) &&
  opt_all (len_le 320) (reviewer_email r) && opt_all (len_le 20) (reviewer_role r) &&
  opt_all (len_le 255) (reviewer_issuer r) && opt_all (len_le 128) (request_id r).
End ReviewEventModel.

(** The tables; review events in the order of their insertion. *)
Module Database.
Record t {J : Type} := mk {
  assessments : gmap uuid (AssessmentModel.t J);
  states : gmap uuid (RuntimeStateModel.t J);
  events : list ReviewEventModel.t;
  conflict : bool   (* a pending INSERT repeats a primary key *)
}.
Arguments t : clear implicits.
#[export] Instance eta {J} : Eta (t J) := λ r, mk J (assessments r) (states r) (events r)
  (conflict r).
Definition empty {J} : t J := mk J ∅ ∅ [] false.

(** Every declared constraint holds: rows, foreign keys, primary keys. *)
Definition ok {J} (db : t J) : Prop :=
  conflict db = false ∧
  map_Forall (λ _ r, AssessmentModel.row_ok r = true) (assessments db) ∧
  map_Forall (λ i r, RuntimeStateModel.row_ok r = true ∧ is_Some (assessments db !! i)) (states db) ∧
  Forall (λ e, ReviewEventModel.row_ok e = true ∧
    is_Some (assessments db !! ReviewEventModel.assessment_id e)) (events db) ∧
  NoDup (ReviewEventModel.id <$> events db).
End Database.
#[export] Existing Instance Database.eta.
Abbreviation Database := Database.t.
#[export] Instance database_tables {J} : Tables (Database J) := Database.ok.

Section pending_changes.
Context {J : Type}.
Implicit Types db : Database J.

(** [session.add(model)]: an INSERT; a repeated key makes every later flush fail. *)
Definition add_assessment (r : AssessmentModel.t J) db : Database J :=
  db <| Database.assessments := <[AssessmentModel.id r := r]> (Database.assessments db) |>
     <| Database.conflict := Database.conflict db ||
          bool_decide (is_Some (Database.assessments db !! AssessmentModel.id r)) |>.
Definition add_state (r : RuntimeStateModel.t J) db : Database J :=
  db <| Database.states := <[RuntimeStateModel.assessment_id r := r]> (Database.states db) |>
     <| Database.conflict := Database.conflict db ||
          bool_decide (is_Some (Database.states db !! RuntimeStateModel.assessment_id r)) |>.
Definition add_event (e : ReviewEventModel.t) db : Database J :=
  db <| Database.events := Database.events db ++ [e] |>.

(** Assignments to the attributes of a loaded model: an UPDATE of its row. *)
Definition put_assessment (r : AssessmentModel.t J) db : Database J :=
  db <| Database.assessments := <[AssessmentModel.id r := r]> (Database.assessments db) |>.
Definition put_state (r : RuntimeStateModel.t J) db : Database J :=
  db <| Database.states := <[RuntimeStateModel.assessment_id r := r]> (Database.states db) |>.
End pending_changes.
