(* ===== verification/KnowledgeStore.v ===== *)
(** The knowledge tables of app/db/models/knowledge_document.py, knowledge_chunk.py,
    knowledge_entity.py and knowledge_relationship.py with their constraints, and the
    name normalization of app/knowledge_graph/normalization.py they are keyed by.

    A primary key is the key of a finite map; a JSON column is the dictionary it holds.
    The vector column keeps the numbers it is given: pgvector's rounding to single
    precision is not modelled. *)
From S2P Require Import Prelude PyFloat Errors Domain Unicode Session.

(** ** app/knowledge_graph/normalization.py *)

Section names.
Context {udb : UnicodeDB}.

(** [" ".join(s.split())]. *)
Definition join_words (s : pystr) : pystr := str_join " " (str_words s).

Definition normalize_entity_name (value : pystr) : pystr := casefold (join_words (nfkc value)).
Definition canonicalize_entity_name (value : pystr) : pystr := join_words (nfkc value).
End names.

(** ** Rows *)

Definition KNOWLEDGE_EMBEDDING_DIMENSION : Z := 1536.

Module KnowledgeDocumentModel.
Record t := mk {
  id : uuid;
  title : pystr;
  source_type : KnowledgeSourceType.t;
  source_uri : option pystr;
  external_id : option pystr;
  content : pystr;
  document_metadata : pydict;
  content_hash : pystr;
  created_at : datetime;
  updated_at : datetime
}.
Definition row_ok (r : t) : bool :=
  len_le 300 (title r) && opt_all (len_le 2000) (source_uri r) &&
  opt_all (len_le 300) (external_id r) && len_le 64 (content_hash r).
End KnowledgeDocumentModel.

Module KnowledgeChunkModel.
Record t := mk {
  id : uuid;
  document_id : uuid;
  chunk_index : Z;
  content : pystr;
  embedding : list pyfloat;
  chunk_metadata : pydict;
  created_at : datetime
}.
Definition row_ok (r : t) : bool :=
  Z.eqb (Z.of_nat (length (embedding r))) KNOWLEDGE_EMBEDDING_DIMENSION &&
  Z.leb (- 2 ^ 31) (chunk_index r) && Z.ltb (chunk_index r) (2 ^ 31).
End KnowledgeChunkModel.

(** The range constraint of both [confidence] columns. *)
Definition confidence_ok (x : pyfloat) : bool := fleb f64_zero x && fleb x f64_one.

Module KnowledgeEntityModel.
Record t := mk {
  id : uuid;
  entity_type : KnowledgeEntityType.t;
  canonical_name : pystr;
  normalized_name : pystr;
  description : option pystr;
  entity_metadata : pydict;
  created_at : datetime;
  updated_at : datetime
}.
#[export] Instance eta : Eta t := λ r, mk (id r) (entity_type r) (canonical_name r)
  (normalized_name r) (description r) (entity_metadata r) (created_at r) (updated_at r).
Definition row_ok (r : t) : bool :=
  len_le 300 (canonical_name r) && len_le 300 (normalized_name r).
(** The columns of the unique constraint. *)
Definition identity (r : t) : KnowledgeEntityType.t * pystr := (entity_type r, normalized_name r).
End KnowledgeEntityModel.
#[export] Existing Instance KnowledgeEntityModel.eta.

Module KnowledgeEntityMentionModel.
Record t := mk {
  id : uuid;
  entity_id : uuid;
  document_id : uuid;
  chunk_id : uuid;
  mention_text : pystr;
  confidence : pyfloat;
  mention_metadata : pydict;
  created_at : datetime
}.
Definition row_ok (r : t) : bool := len_le 500 (mention_text r) && confidence_ok (confidence r).
Definition identity (r : t) : uuid * uuid := (entity_id r, chunk_id r).
End KnowledgeEntityMentionModel.

Module KnowledgeRelationshipModel.
Record t := mk {
  id : uuid;
  source_entity_id : uuid;
  target_entity_id : uuid;
  relationship_type : KnowledgeRelationshipType.t;
  description : option pystr;
  confidence : pyfloat;
  source_chunk_id : uuid;
  relationship_metadata : pydict;
  created_at : datetime
}.
Definition row_ok (r : t) : bool :=
  bool_decide (source_entity_id r ≠ target_entity_id r) && confidence_ok (confidence r).
Definition identity (r : t) : uuid * uuid * KnowledgeRelationshipType.t * uuid :=
  (source_entity_id r, target_entity_id r, relationship_type r, source_chunk_id r).
End KnowledgeRelationshipModel.

(** ** Tables *)

Module KnowledgeTables.
Record t := mk {
  documents : gmap uuid KnowledgeDocumentModel.t;
  chunks : gmap uuid KnowledgeChunkModel.t;
  entities : gmap uuid KnowledgeEntityModel.t;
  mentions : gmap uuid KnowledgeEntityMentionModel.t;
  relationships : gmap uuid KnowledgeRelationshipModel.t;
  conflict : bool   (* a pending INSERT repeats a primary key *)
}.
#[export] Instance eta : Eta t := λ r, mk (documents r) (chunks r) (entities r) (mentions r)
  (relationships r) (conflict r).
Definition empty : t := mk ∅ ∅ ∅ ∅ ∅ false.
End KnowledgeTables.
#[export] Existing Instance KnowledgeTables.eta.
Abbreviation knowledge := KnowledgeTables.t.

(** Rows stored under their own primary key, each satisfying [ok]. *)
Definition table_ok {A} (id : A → uuid) (ok : A → Prop) (m : gmap uuid A) : Prop :=
  map_Forall (λ i r, id r = i ∧ ok r) m.

(** A unique constraint on the columns [key]. *)
Definition unique_by {A K} (key : A → K) (m : gmap uuid A) : Prop :=
  map_Forall (λ i a, map_Forall (λ j b, key a = key b → i = j) m) m.

(** Every declared constraint: row checks, foreign keys, unique constraints. *)
Definition knowledge_ok (db : knowledge) : Prop :=
  KnowledgeTables.conflict db = false ∧
  table_ok KnowledgeDocumentModel.id (λ r, KnowledgeDocumentModel.row_ok r = true)
    (KnowledgeTables.documents db) ∧
  table_ok KnowledgeChunkModel.id (λ r, KnowledgeChunkModel.row_ok r = true ∧
      is_Some (KnowledgeTables.documents db !! KnowledgeChunkModel.document_id r))
    (KnowledgeTables.chunks db) ∧
  table_ok KnowledgeEntityModel.id (λ r, KnowledgeEntityModel.row_ok r = true)
    (KnowledgeTables.entities db) ∧
  table_ok KnowledgeEntityMentionModel.id (λ r, KnowledgeEntityMentionModel.row_ok r = true ∧
      is_Some (KnowledgeTables.entities db !! KnowledgeEntityMentionModel.entity_id r) ∧
      is_Some (KnowledgeTables.documents db !! KnowledgeEntityMentionModel.document_id r) ∧
      is_Some (KnowledgeTables.chunks db !! KnowledgeEntityMentionModel.chunk_id r))
    (KnowledgeTables.mentions db) ∧
  table_ok KnowledgeRelationshipModel.id (λ r, KnowledgeRelationshipModel.row_ok r = true ∧
      is_Some (KnowledgeTables.entities db !! KnowledgeRelationshipModel.source_entity_id r) ∧
      is_Some (KnowledgeTables.entities db !! KnowledgeRelationshipModel.target_entity_id r) ∧
      is_Some (KnowledgeTables.chunks db !! KnowledgeRelationshipModel.source_chunk_id r))
    (KnowledgeTables.relationships db) ∧
  unique_by (λ r, (KnowledgeChunkModel.document_id r, KnowledgeChunkModel.chunk_index r))
    (KnowledgeTables.chunks db) ∧
  unique_by KnowledgeEntityModel.identity (KnowledgeTables.entities db) ∧
  unique_by KnowledgeEntityMentionModel.identity (KnowledgeTables.mentions db) ∧
  unique_by KnowledgeRelationshipModel.identity (KnowledgeTables.relationships db).

#[export] Instance knowledge_tables : Tables knowledge := knowledge_ok.

#[export] Instance unique_by_dec {A K} `{EqDecision K} (key : A → K) (m : gmap uuid A) :
  Decision (unique_by key m).
Proof. unfold unique_by. apply _. Defined.
#[export] Instance table_ok_dec {A} (id : A → uuid) (ok : A → Prop) `{!∀ a, Decision (ok a)}
  (m : gmap uuid A) : Decision (table_ok id ok m).
Proof. unfold table_ok. apply _. Defined.
#[export] Instance knowledge_ok_dec (db : knowledge) : Decision (tables_ok db).
Proof. unfold tables_ok, knowledge_tables, knowledge_ok. apply _. Defined.

(** The INSERT of a row under a primary key. *)
Definition repeats {A} (i : uuid) (m : gmap uuid A) : bool := bool_decide (is_Some (m !! i)).

Definition add_document (r : KnowledgeDocumentModel.t) (db : knowledge) : knowledge :=
  let i := KnowledgeDocumentModel.id r in
  db <| KnowledgeTables.documents := <[i := r]> (KnowledgeTables.documents db) |>
     <| KnowledgeTables.conflict :=
          KnowledgeTables.conflict db || repeats i (KnowledgeTables.documents db) |>.
Definition add_chunk (db : knowledge) (r : KnowledgeChunkModel.t) : knowledge :=
  let i := KnowledgeChunkModel.id r in
  db <| KnowledgeTables.chunks := <[i := r]> (KnowledgeTables.chunks db) |>
     <| KnowledgeTables.conflict :=
          KnowledgeTables.conflict db || repeats i (KnowledgeTables.chunks db) |>.
Definition add_entity (r : KnowledgeEntityModel.t) (db : knowledge) : knowledge :=
  let i := KnowledgeEntityModel.id r in
  db <| KnowledgeTables.entities := <[i := r]> (KnowledgeTables.entities db) |>
     <| KnowledgeTables.conflict :=
          KnowledgeTables.conflict db || repeats i (KnowledgeTables.entities db) |>.
Definition add_mention_row (r : KnowledgeEntityMentionModel.t) (db : knowledge) : knowledge :=
  let i := KnowledgeEntityMentionModel.id r in
  db <| KnowledgeTables.mentions := <[i := r]> (KnowledgeTables.mentions db) |>
     <| KnowledgeTables.conflict :=
          KnowledgeTables.conflict db || repeats i (KnowledgeTables.mentions db) |>.
Definition add_relationship_row (r : KnowledgeRelationshipModel.t) (db : knowledge) : knowledge :=
  let i := KnowledgeRelationshipModel.id r in
  db <| KnowledgeTables.relationships := <[i := r]> (KnowledgeTables.relationships db) |>
     <| KnowledgeTables.conflict :=
          KnowledgeTables.conflict db || repeats i (KnowledgeTables.relationships db) |>.
(** Assignments to a loaded entity: an UPDATE. *)
Definition put_entity (r : KnowledgeEntityModel.t) (db : knowledge) : knowledge :=
  db <| KnowledgeTables.entities :=
          <[KnowledgeEntityModel.id r := r]> (KnowledgeTables.entities db) |>.

(** ** Queries *)

(** The rows of a table, in no particular order. *)
Definition rows {A} (m : gmap uuid A) : list A := (map_to_list m).*2.

Lemma elem_of_rows {A} (m : gmap uuid A) a : a ∈ rows m ↔ ∃ i, m !! i = Some a.
Proof.
  unfold rows. rewrite list_elem_of_fmap. split.
  - intros ([i b] & -> & Hb%elem_of_map_to_list). eauto.
  - intros [i Hi]. exists (i, a). split; [done|]. by apply elem_of_map_to_list.
Qed.

Lemma rows_keys_NoDup {A} (id : A → uuid) ok (m : gmap uuid A) :
  table_ok id ok m → NoDup (id <$> rows m).
Proof.
  intros Hm. unfold rows. rewrite <- list_fmap_compose.
  assert ((id ∘ snd) <$> map_to_list m = (map_to_list m).*1) as ->.
  { apply list_fmap_ext. intros k [i a] Hk%list_elem_of_lookup_2%elem_of_map_to_list. simpl.
    by destruct (Hm i a Hk). }
  apply NoDup_fst_map_to_list.
Qed.

(** [a[:n]] on a sequence. *)
Definition slice_to {A} (n : Z) (l : list A) : list A :=
  if Z.leb 0 n then take (Z.to_nat n) l else take (length l - Z.to_nat (- n)) l.
(** [LIMIT n]. *)
Definition sql_limit {A} (n : Z) (l : list A) : list A := take (Z.to_nat n) l.


(** [ORDER BY created_at, id], [ORDER BY chunk_index], [ORDER BY id] and
    [ORDER BY normalized_name, id]. *)
Definition oldest_le {A} (created_at : A → datetime) (id : A → uuid) (a b : A) : Prop :=
  (instant (created_at a) < instant (created_at b))%Z ∨
  instant (created_at a) = instant (created_at b) ∧ (id a ≤ id b)%N.
#[export] Instance oldest_le_dec {A} (created_at : A → datetime) id :
  RelDecision (oldest_le created_at id).
Proof. intros a b. unfold oldest_le. apply _. Defined.

Definition index_le (a b : KnowledgeChunkModel.t) : Prop :=
  (KnowledgeChunkModel.chunk_index a ≤ KnowledgeChunkModel.chunk_index b)%Z.
#[export] Instance index_le_dec : RelDecision index_le.
Proof. intros a b. unfold index_le. apply _. Defined.

Definition id_le {A} (id : A → uuid) (a b : A) : Prop := (id a ≤ id b)%N.
#[export] Instance id_le_dec {A} (id : A → uuid) : RelDecision (id_le id).
Proof. intros a b. unfold id_le. apply _. Defined.

(** The collation of a text column, a total preorder of the database. *)
Class Collation := {
  collate : relation pystr;
  collate_dec :: RelDecision collate;
  collate_total :: Total collate;
  collate_trans :: Transitive collate
}.

Section collated.
Context {C : Collation}.
Definition name_le (a b : KnowledgeEntityModel.t) : Prop :=
  let na := KnowledgeEntityModel.normalized_name a in
  let nb := KnowledgeEntityModel.normalized_name b in
  collate na nb ∧ (collate nb na → (KnowledgeEntityModel.id a ≤ KnowledgeEntityModel.id b)%N).
#[export] Instance name_le_dec : RelDecision name_le.
Proof. intros a b. unfold name_le. apply _. Defined.
End collated.

(** PostgreSQL's order on double precision: NaN is the greatest value. *)
Definition is_nan (x : pyfloat) : bool :=
  match x with SpecFloat.S754_nan => true | _ => false end.
Definition sql_fleb (x y : pyfloat) : bool := is_nan y || fleb x y.
