(* ===== verification/FloatOrder.v ===== *)
(** The order of floats: outside NaN the comparisons of [PyFloat] are those of a
    lexicographic rank, so they are total and transitive; with NaN on top they are the
    order the database sorts by. *)
From S2P Require Import Prelude PyFloat Errors Domain Unicode Session KnowledgeStore.
From Stdlib Require Import Floats.SpecFloat.

(** Sign class, exponent and mantissa, negated for negative numbers. *)
Definition rank (x : pyfloat) : Z * Z * Z :=
  match x with
  | S754_infinity true => (-2, 0, 0)
  | S754_finite true m e => (-1, - e, Z.neg m)
  | S754_zero _ => (0, 0, 0)
  | S754_finite false m e => (1, e, Z.pos m)
  | S754_infinity false => (2, 0, 0)
  | S754_nan => (3, 0, 0)
  end%Z.

Definition lex_lt (a b : Z * Z * Z) : Prop :=
  (a.1.1 < b.1.1 ∨ a.1.1 = b.1.1 ∧ (a.1.2 < b.1.2 ∨ a.1.2 = b.1.2 ∧ a.2 < b.2))%Z.

Lemma compare_rank x y :
  is_nan x = false → is_nan y = false →
  match SFcompare x y with
  | Some Lt => lex_lt (rank x) (rank y)
  | Some Eq => rank x = rank y
  | Some Gt => lex_lt (rank y) (rank x)
  | None => False
  end.
Proof.
  destruct x as [[]|[]| |[] m e], y as [[]|[]| |[] m' e']; intros Hx Hy; try done;
    unfold SFcompare, rank, lex_lt; simpl; try lia; try done.
  - destruct (Z.compare_spec e e'); [subst|lia..].
    change (Pos.compare_cont Eq m m') with (Pos.compare m m').
    destruct (Pos.compare_spec m m'); simpl; [by subst|lia..].
  - destruct (Z.compare_spec e e'); [subst|lia..].
    change (Pos.compare_cont Eq m m') with (Pos.compare m m').
    destruct (Pos.compare_spec m m'); simpl; [by subst|lia..].
Qed.

Lemma fltb_rank x y :
  is_nan x = false → is_nan y = false → fltb x y = true ↔ lex_lt (rank x) (rank y).
Proof.
  intros Hx Hy. pose proof (compare_rank x y Hx Hy) as H. unfold fltb, SFltb.
  destruct (SFcompare x y) as [[]|]; [|done| |done]; (split; [done|]); unfold lex_lt in *.
  - rewrite H. lia.
  - lia.
Qed.

Lemma feqb_rank x y :
  is_nan x = false → is_nan y = false → feqb x y = true ↔ rank x = rank y.
Proof.
  intros Hx Hy. pose proof (compare_rank x y Hx Hy) as H. unfold feqb, SFeqb.
  destruct (SFcompare x y) as [[]|]; [done| | |done]; (split; [done|]); unfold lex_lt in *;
    intros Heq; rewrite Heq in H; lia.
Qed.

Lemma fleb_rank x y :
  is_nan x = false → is_nan y = false → fleb x y = true ↔ ¬ lex_lt (rank y) (rank x).
Proof.
  intros Hx Hy. pose proof (compare_rank x y Hx Hy) as H. unfold fleb, SFleb.
  destruct (SFcompare x y) as [[]|]; [| | |done]; unfold lex_lt in *.
  - split; [intros _; rewrite H; lia|done].
  - split; [intros _; lia|done].
  - split; [done|intros Hn; by destruct Hn].
Qed.

Lemma fleb_nan x y : fleb x y = true → is_nan x = false ∧ is_nan y = false.
Proof. by destruct x as [[]|[]| |[] ? ?], y as [[]|[]| |[] ? ?]. Qed.

Lemma fltb_asym x y : fltb x y = true → fltb y x = false.
Proof.
  intros H. assert (is_nan x = false ∧ is_nan y = false) as [Hx Hy]
    by (by destruct x as [[]|[]| |[] ? ?], y as [[]|[]| |[] ? ?]).
  apply not_true_is_false. intros H'. apply fltb_rank in H, H'; [|done..].
  unfold lex_lt in *. lia.
Qed.

Lemma fltb_feqb x y : fltb x y = true → feqb y x = false.
Proof.
  intros H. assert (is_nan x = false ∧ is_nan y = false) as [Hx Hy]
    by (by destruct x as [[]|[]| |[] ? ?], y as [[]|[]| |[] ? ?]).
  apply not_true_is_false. intros H'. apply fltb_rank in H; [|done..].
  apply feqb_rank in H'; [|done..]. rewrite H' in H. unfold lex_lt in *. lia.
Qed.

Lemma feqb_sym x y : feqb x y = feqb y x.
Proof.
  destruct (is_nan x) eqn:Hx, (is_nan y) eqn:Hy;
    [by destruct x as [[]|[]| |[] ? ?], y as [[]|[]| |[] ? ?]..|].
  apply eq_true_iff_eq. rewrite !feqb_rank by done. by split.
Qed.

Lemma fneg_nan x : is_nan (fneg x) = is_nan x.
Proof. by destruct x. Qed.

Lemma rank_nan x : is_nan x = true → rank x = (3, 0, 0)%Z.
Proof. by destruct x. Qed.

(** PostgreSQL's comparison is the rank's. *)
Lemma sql_fleb_rank x y : sql_fleb x y = true ↔ ¬ lex_lt (rank y) (rank x).
Proof.
  unfold sql_fleb. destruct (is_nan y) eqn:Hy; simpl.
  - rewrite (rank_nan y Hy). unfold lex_lt. split; [|done]. intros _.
    destruct x as [[]|[]| |[] ? ?]; simpl; lia.
  - destruct (is_nan x) eqn:Hx; [|by apply fleb_rank].
    rewrite (rank_nan x Hx). split; [by destruct x as [[]|[]| |[] ? ?]|].
    intros H. destruct H. unfold lex_lt. destruct y as [[]|[]| |[] ? ?]; simpl; try lia. done.
Qed.

(** ** Sorting *)

(** A sorted list, on whose elements the order is transitive, is strongly sorted. *)
Lemma Sorted_StronglySorted_on {A} (R : relation A) (P : A → Prop) l :
  (∀ x y z, P x → P y → P z → R x y → R y z → R x z) →
  Forall P l → Sorted R l → StronglySorted R l.
Proof.
  intros Htr. induction l as [|a l IH]; intros HP Hs; [constructor|].
  inversion HP as [|? ? Ha Hl]; subst. inversion Hs as [|? ? Hs' Hhd]; subst.
  specialize (IH Hl Hs'). constructor; [done|].
  destruct l as [|b l]; [constructor|]. inversion Hhd; subst.
  inversion IH as [|? ? _ Hb]; subst. inversion Hl as [|? ? Hpb Hpl]; subst.
  constructor; [done|]. rewrite Forall_forall in Hb, Hpl |- *. intros c Hc.
  eapply (Htr a b c); auto.
Qed.

(** The first elements of a sorted list precede the others. *)
Lemma StronglySorted_take {A} (R : relation A) n l a b :
  StronglySorted R l → a ∈ take n l → b ∈ drop n l → R a b.
Proof.
  revert n. induction l as [|c l IH]; intros [|n] Hs Ha Hb; simpl in *; try by apply elem_of_nil in Ha.
  inversion Hs as [|? ? Hs' Hc]; subst. apply elem_of_cons in Ha as [->|Ha].
  - rewrite Forall_forall in Hc. apply Hc. by eapply subseteq_drop.
  - eauto.
Qed.
