(* ===== verification/Repositories.v ===== *)
(** app/repositories/assessments.py and app/repositories/runtime_reviews.py: every
    operation, against a [Session], with the transaction rule of each and the round
    trip between a model row and the domain record. *)
From S2P Require Import Prelude PyFloat Errors Domain AgentModels Schemas RuntimeModels.
From S2P Require Import Session Storage.

(** ** Shared helpers *)

(** [_as_utc]: a naive value is taken as UTC, an aware one is converted. *)
Definition _as_utc (value : datetime) : datetime :=
  match datetime.utcoffset value with
  | None => datetime.mk (datetime.wall value) (Some 0%Z)
  | Some off => datetime.mk (datetime.wall value - off)%Z (Some 0%Z)
  end.

(** [ORDER BY created_at [DESC], id]. *)
Definition newest_first {J} (a b : AssessmentModel.t J) : Prop :=
  (instant (AssessmentModel.created_at b) < instant (AssessmentModel.created_at a))%Z ∨
  instant (AssessmentModel.created_at a) = instant (AssessmentModel.created_at b) ∧
  (AssessmentModel.id a ≤ AssessmentModel.id b)%N.
Definition oldest_first (a b : ReviewEventModel.t) : Prop :=
  (instant (ReviewEventModel.created_at a) < instant (ReviewEventModel.created_at b))%Z ∨
  instant (ReviewEventModel.created_at a) = instant (ReviewEventModel.created_at b) ∧
  (ReviewEventModel.id a ≤ ReviewEventModel.id b)%N.

#[export] Instance newest_first_dec {J} : RelDecision (@newest_first J).
Proof. intros a b. unfold newest_first. apply _. Defined.
#[export] Instance oldest_first_dec : RelDecision oldest_first.
Proof. intros a b. unfold oldest_first. apply _. Defined.
#[export] Instance oldest_first_total : Total oldest_first.
Proof. intros a b. unfold oldest_first. lia. Qed.
#[export] Instance oldest_first_trans : Transitive oldest_first.
Proof. intros a b c. unfold oldest_first. lia. Qed.

(** [SELECT k, COUNT( * ) GROUP BY k]: the rows, keyed. *)
Definition count_by (keys : list pystr) : gmap pystr Z :=
  foldr (λ k m, <[k := (default 0 (m !! k) + 1)%Z]> m) ∅ keys.

(** ** AssessmentRepository *)

Section assessments.
Context {J S : Type} `{!Session (Database J) S}.

(** [_to_record]; the timestamp columns are not nullable. *)
Definition _to_record (model : AssessmentModel.t J) : PersistedAssessment.t J :=
  PersistedAssessment.mk J (AssessmentModel.id model) (AssessmentModel.status model)
    (AssessmentModel.request_payload model) (AssessmentModel.result_payload model)
    (AssessmentModel.execution_metadata model) (AssessmentModel.error_code model)
    (AssessmentModel.error_message model) (_as_utc (AssessmentModel.created_at model))
    (_as_utc (AssessmentModel.updated_at model)) (_as_utc <$> AssessmentModel.completed_at model)
    (AssessmentModel.created_by_subject model).

(** [session.get(AssessmentModel, assessment_id)]. *)
Definition get_assessment_model (assessment_id : uuid) : M S (option (AssessmentModel.t J)) :=
  sess_read (λ db, Database.assessments db !! assessment_id).

Definition create (assessment_id : uuid) (company_name industry business_problem : pystr)
    (request_payload : J) (created_by_subject : option pystr) :
    M S (PersistedAssessment.t J) :=
  let* now := clock in
  let model := AssessmentModel.mk J assessment_id AssessmentStatus.PENDING company_name
    industry business_problem created_by_subject request_payload None None None None
    now now None in
  sess_change (add_assessment model) ;;;
  sess_flush ;;;
  ret (_to_record model).

Definition get_by_id (assessment_id : uuid) : M S (option (PersistedAssessment.t J)) :=
  let* model := get_assessment_model assessment_id in
  ret (_to_record <$> model).

(** The WHERE clause of [list_page] and [count]. *)
Definition has_status (status : option AssessmentStatus.t) (model : AssessmentModel.t J) : Prop :=
  match status with Some x => AssessmentModel.status model = x | None => True end.
#[global] Instance has_status_dec status model : Decision (has_status status model).
Proof. unfold has_status. destruct status; apply _. Defined.

Definition select_assessments (status : option AssessmentStatus.t) (db : Database J) :
    list (AssessmentModel.t J) :=
  filter (has_status status) (snd <$> map_to_list (Database.assessments db)).

Definition list_page (status : option AssessmentStatus.t) (offset limit : nat) :
    M S (list (PersistedAssessment.t J)) :=
  let* models := sess_read (λ db,
    take limit (drop offset (merge_sort newest_first (select_assessments status db)))) in
  ret (_to_record <$> models).

Definition count (status : option AssessmentStatus.t) : M S Z :=
  sess_read (λ db, Z.of_nat (length (select_assessments status db))).

Definition count_by_status : M S (gmap pystr Z) :=
  sess_read (λ db, count_by ((λ m, AssessmentStatus.value (AssessmentModel.status m)) <$>
                             select_assessments None db)).

Definition mark_processing (assessment_id : uuid) : M S (option (PersistedAssessment.t J)) :=
  let* model := get_assessment_model assessment_id in
  match model with
  | None => ret None
  | Some model =>
      let* now := clock in
      let model := model <| AssessmentModel.status := AssessmentStatus.PROCESSING |>
                         <| AssessmentModel.updated_at := now |> in
      sess_change (put_assessment model) ;;;
      sess_flush ;;;
      ret (Some (_to_record model))
  end.

(** The attribute assignments of [mark_completed], [mark_pending_review] and
    [mark_failed]. *)
Definition completed_model (model : AssessmentModel.t J) (now : datetime)
    (result_payload : J) (execution_metadata : option J) : AssessmentModel.t J :=
  model <| AssessmentModel.status := AssessmentStatus.COMPLETED |>
        <| AssessmentModel.result_payload := Some result_payload |>
        <| AssessmentModel.execution_metadata := execution_metadata |>
        <| AssessmentModel.error_code := None |>
        <| AssessmentModel.error_message := None |>
        <| AssessmentModel.completed_at := Some now |>
        <| AssessmentModel.updated_at := now |>.

Definition pending_review_model (model : AssessmentModel.t J) (now : datetime)
    (execution_metadata : option J) : AssessmentModel.t J :=
  model <| AssessmentModel.status := AssessmentStatus.PENDING_REVIEW |>
        <| AssessmentModel.result_payload := None |>
        <| AssessmentModel.execution_metadata := execution_metadata |>
        <| AssessmentModel.error_code := None |>
        <| AssessmentModel.error_message := None |>
        <| AssessmentModel.completed_at := None |>
        <| AssessmentModel.updated_at := now |>.

Definition failed_model (model : AssessmentModel.t J) (now : datetime)
    (error_code error_message : pystr) : AssessmentModel.t J :=
  model <| AssessmentModel.status := AssessmentStatus.FAILED |>
        <| AssessmentModel.result_payload := None |>
        <| AssessmentModel.execution_metadata := None |>
        <| AssessmentModel.error_code := Some (take 100 error_code) |>
        <| AssessmentModel.error_message := Some (take 500 error_message) |>
        <| AssessmentModel.completed_at := None |>
        <| AssessmentModel.updated_at := now |>.

Definition mark_completed (assessment_id : uuid) (result_payload : J)
    (execution_metadata : option J) : M S (option (PersistedAssessment.t J)) :=
  let* model := get_assessment_model assessment_id in
  match model with
  | None => ret None
  | Some model =>
      let* now := clock in
      let model := completed_model model now result_payload execution_metadata in
      sess_change (put_assessment model) ;;;
      sess_flush ;;;
      ret (Some (_to_record model))
  end.

Definition mark_pending_review (assessment_id : uuid) (execution_metadata : option J) :
    M S (option (PersistedAssessment.t J)) :=
  let* model := get_assessment_model assessment_id in
  match model with
  | None => ret None
  | Some model =>
      let* now := clock in
      let model := pending_review_model model now execution_metadata in
      sess_change (put_assessment model) ;;;
      sess_flush ;;;
      ret (Some (_to_record model))
  end.

Definition mark_failed (assessment_id : uuid) (error_code error_message : pystr) :
    M S (option (PersistedAssessment.t J)) :=
  let* model := get_assessment_model assessment_id in
  match model with
  | None => ret None
  | Some model =>
      let* now := clock in
      let model := failed_model model now error_code error_message in
      sess_change (put_assessment model) ;;;
      sess_flush ;;;
      ret (Some (_to_record model))
  end.
End assessments.

(** ** RuntimeReviewRepository *)

(** The optional keyword arguments of [add_review_event]. *)
Module Actor.
Record t := mk {
  reviewer_subject : option pystr;
  reviewer_email : option pystr;
  reviewer_role : option pystr;
  reviewer_issuer : option pystr;
  request_id : option pystr
}.
Definition none : t := mk None None None None None.
End Actor.

Section reviews.
Context {J S : Type} `{!Session (Database J) S} `{!Json J}.
Context `{!PydanticModel J QualityGateResult.t gate_result_ok}.
Context `{!PydanticModel J OperationalTelemetry.t telemetry_ok}.

(** [telemetry.get(key)] checked with [isinstance(_, dict)]. *)
Definition telemetry_section (model : RuntimeStateModel.t J) (key : pystr) : res J :=
  match dict_get (RuntimeStateModel.telemetry model) key with
  | Some j => if json_is_dict j then Ok j else Raise ValueError
  | None => Raise ValueError
  end.

(** [dict(payload) if payload else None]. *)
Definition truthy_payload (o : option J) : option J :=
  match o with Some j => if json_truthy j then Some j else None | None => None end.

Definition _state_from_model (model : RuntimeStateModel.t J) :
    res (RuntimeAssessmentState.t J) :=
  res_bind (telemetry_section model "gate_result") (λ persisted_gate,
  res_bind (telemetry_section model "operational") (λ persisted_operational,
  res_bind (model_validate persisted_gate) (λ gate,
  res_bind (enum_of_value (RuntimeStateModel.review_status model)) (λ review_status,
  res_bind (model_validate persisted_operational) (λ telemetry,
  RuntimeAssessmentState.construct
    (RuntimeAssessmentState.mk J (RuntimeStateModel.assessment_id model) gate review_status
       (truthy_payload (RuntimeStateModel.candidate_result model))
       (truthy_payload (RuntimeStateModel.candidate_execution model))
       telemetry (RuntimeStateModel.revision_count model)
       (RuntimeStateModel.max_revisions model)
       (_as_utc (RuntimeStateModel.created_at model))
       (_as_utc (RuntimeStateModel.updated_at model)))))))).

Definition _review_from_model (model : ReviewEventModel.t) : res HumanReviewRecord.t :=
  res_bind (enum_of_value (ReviewEventModel.action model)) (λ action,
  res_bind (enum_of_value (ReviewEventModel.previous_status model)) (λ previous_status,
  res_bind (enum_of_value (ReviewEventModel.new_status model)) (λ new_status,
  res_bind (res_map enum_of_value (ReviewEventModel.reason_codes model)) (λ reason_codes,
  HumanReviewRecord.construct
    (HumanReviewRecord.mk (ReviewEventModel.id model) (ReviewEventModel.assessment_id model)
       action previous_status new_status (ReviewEventModel.reviewer_id model)
       (ReviewEventModel.reviewer_subject model) (ReviewEventModel.reviewer_email model)
       (ReviewEventModel.reviewer_role model) (ReviewEventModel.reviewer_issuer model)
       (ReviewEventModel.request_id model) (ReviewEventModel.comment model) reason_codes
       (ReviewEventModel.revision_number model)
       (_as_utc (ReviewEventModel.created_at model))))))).

(** The row [save_state] writes over [created_at]. *)
Definition state_row (created_at now : datetime) (assessment_id : uuid)
    (gate_result : QualityGateResult.t) (review_status : HumanReviewStatus.t)
    (candidate_result candidate_execution : option J)
    (telemetry : OperationalTelemetry.t) (revision_count max_revisions : Z) :
    RuntimeStateModel.t J :=
  RuntimeStateModel.mk J assessment_id
    (RuntimeRiskDecision.value (QualityGateResult.decision gate_result))
    (HumanReviewStatus.value review_status)
    (RuntimeReasonCode.value <$> QualityGateResult.reason_codes gate_result)
    candidate_result candidate_execution
    [(lit "gate_result", model_dump gate_result); (lit "operational", model_dump telemetry)]
    revision_count max_revisions created_at now.

Definition save_state (assessment_id : uuid) (gate_result : QualityGateResult.t)
    (review_status : HumanReviewStatus.t) (candidate_result candidate_execution : option J)
    (telemetry : OperationalTelemetry.t) (revision_count max_revisions : Z) :
    M S (RuntimeAssessmentState.t J) :=
  let* now := clock in
  let* model := sess_read (λ db, Database.states db !! assessment_id) in
  let row created_at := state_row created_at now assessment_id gate_result review_status
    candidate_result candidate_execution telemetry revision_count max_revisions in
  let* model :=
    match model with
    | None => sess_change (add_state (row now)) ;;; ret (row now)
    | Some model =>
        let model := row (RuntimeStateModel.created_at model) in
        sess_change (put_state model) ;;; ret model
    end in
  sess_flush ;;;
  of_res (_state_from_model model).

Definition get_state (assessment_id : uuid) : M S (option (RuntimeAssessmentState.t J)) :=
  let* model := sess_read (λ db, Database.states db !! assessment_id) in
  match model with
  | Some model => let* st := of_res (_state_from_model model) in ret (Some st)
  | None => ret None
  end.

Definition get_states (assessment_ids : list uuid) :
    M S (gmap uuid (RuntimeAssessmentState.t J)) :=
  if truthy assessment_ids then
    let* models := sess_read (λ db,
      filter (λ m, RuntimeStateModel.assessment_id m ∈ assessment_ids)
        (snd <$> map_to_list (Database.states db))) in
    let* pairs := of_res (res_map (λ m, res_bind (_state_from_model m) (λ st,
      Ok (RuntimeStateModel.assessment_id m, st))) models) in
    ret (list_to_map pairs)
  else ret ∅.

Definition count_by_gate_decision : M S (gmap pystr Z) :=
  sess_read (λ db, count_by (RuntimeStateModel.gate_decision <$>
                             (snd <$> map_to_list (Database.states db)))).

Definition count_by_review_status : M S (gmap pystr Z) :=
  sess_read (λ db, count_by (RuntimeStateModel.review_status <$>
                             (snd <$> map_to_list (Database.states db)))).

Definition event_row (id assessment_id : uuid) (now : datetime) (action : HumanReviewAction.t)
    (previous_status new_status : HumanReviewStatus.t) (reviewer_id comment : option pystr)
    (reason_codes : list RuntimeReasonCode.t) (revision_number : Z) (actor : Actor.t) :
    ReviewEventModel.t :=
  ReviewEventModel.mk id assessment_id (HumanReviewAction.value action)
    (HumanReviewStatus.value previous_status) (HumanReviewStatus.value new_status)
    reviewer_id (Actor.reviewer_subject actor) (Actor.reviewer_email actor)
    (Actor.reviewer_role actor) (Actor.reviewer_issuer actor) (Actor.request_id actor)
    comment (RuntimeReasonCode.value <$> reason_codes) revision_number now.

Definition add_review_event (assessment_id : uuid) (action : HumanReviewAction.t)
    (previous_status new_status : HumanReviewStatus.t) (reviewer_id comment : option pystr)
    (reason_codes : list RuntimeReasonCode.t) (revision_number : Z) (actor : Actor.t) :
    M S HumanReviewRecord.t :=
  let* id := uuid4 in
  let* now := clock in
  let model := event_row id assessment_id now action previous_status new_status
    reviewer_id comment reason_codes revision_number actor in
  sess_change (add_event model) ;;;
  sess_flush ;;;
  of_res (_review_from_model model).

Definition list_review_events (assessment_id : uuid) : M S (list HumanReviewRecord.t) :=
  let* models := sess_read (λ db,
    merge_sort oldest_first
      (filter (λ e, ReviewEventModel.assessment_id e = assessment_id) (Database.events db))) in
  of_res (res_map _review_from_model models).

(** [commit] and [rollback] of both repositories. *)
Definition commit : M S unit := sess_commit.
Definition rollback : M S unit := sess_rollback.
End reviews.

(** ** Lemmas: rows and records *)

Lemma as_utc_instant d : is_aware d = true → instant (_as_utc d) = instant d.
Proof.
  destruct d as [w [off|]]; unfold is_aware, instant, _as_utc; simpl; [lia|done].
Qed.

Lemma as_utc_aware d : is_aware (_as_utc d) = true.
Proof. by destruct d as [w [off|]]. Qed.

(** A stored time, shown in UTC; a time stored without an offset is one already. *)
Definition states_time (stored shown : datetime) : Prop :=
  datetime.utcoffset shown = Some 0%Z ∧
  datetime.wall shown = (datetime.wall stored - default 0 (datetime.utcoffset stored))%Z.

Lemma as_utc_states d : states_time d (_as_utc d).
Proof. destruct d as [w [off|]]; unfold states_time, _as_utc; simpl; split; (done || lia). Qed.

Lemma as_utc_id d : datetime.utcoffset d = Some 0%Z → _as_utc d = d.
Proof. destruct d as [w o]; unfold _as_utc; simpl; intros ->. f_equal. lia. Qed.

Section rows.
Context {J : Type} `{!Json J}.
Context `{!PydanticModel J QualityGateResult.t gate_result_ok}.
Context `{!PydanticModel J OperationalTelemetry.t telemetry_ok}.
Implicit Types (g : QualityGateResult.t) (t : OperationalTelemetry.t).

(** A saved checkpoint is read back as it was written; an empty payload reads as absent. *)
Lemma state_row_roundtrip c now id g rs (cr ce : option J) t rc mr :
  gate_result_ok g → telemetry_ok t → (0 ≤ rc)%Z → (0 ≤ mr)%Z →
  _state_from_model (state_row c now id g rs cr ce t rc mr) =
  Ok (RuntimeAssessmentState.mk J id g rs (truthy_payload cr) (truthy_payload ce) t rc mr
        (_as_utc c) (_as_utc now)).
Proof.
  intros Hg Ht Hrc Hmr. unfold _state_from_model, telemetry_section, state_row, dict_get. simpl.
  rewrite !model_dump_is_dict. simpl. rewrite !model_validate_dump by done. simpl.
  rewrite review_status_roundtrip. simpl.
  unfold RuntimeAssessmentState.construct, RuntimeAssessmentState.valid. simpl.
  by rewrite (proj2 (Z.leb_le 0 rc)), (proj2 (Z.leb_le 0 mr)).
Qed.

(** The audit record of an event row. *)
Definition event_record (id assessment_id : uuid) (now : datetime) (action : HumanReviewAction.t)
    (previous_status new_status : HumanReviewStatus.t) (reviewer_id comment : option pystr)
    (reason_codes : list RuntimeReasonCode.t) (revision_number : Z) (actor : Actor.t) :
    HumanReviewRecord.t :=
  HumanReviewRecord.normalize
    (HumanReviewRecord.mk id assessment_id action previous_status new_status reviewer_id
       (Actor.reviewer_subject actor) (Actor.reviewer_email actor) (Actor.reviewer_role actor)
       (Actor.reviewer_issuer actor) (Actor.request_id actor) comment reason_codes
       revision_number (_as_utc now)).

Lemma event_row_roundtrip id aid now action prev new rid comment reasons rn actor :
  (0 ≤ rn)%Z →
  _review_from_model (event_row id aid now action prev new rid comment reasons rn actor) =
  Ok (event_record id aid now action prev new rid comment reasons rn actor).
Proof.
  intros Hrn. unfold _review_from_model, event_row. simpl.
  rewrite review_action_roundtrip, !review_status_roundtrip. simpl.
  rewrite reason_codes_roundtrip. simpl.
  unfold HumanReviewRecord.construct, HumanReviewRecord.valid. simpl.
  by rewrite (proj2 (Z.leb_le 0 rn)).
Qed.
End rows.

(** ** Transaction rules *)

Section rules.
Context {J S : Type} `{!Session (Database J) S} `{!SessionLaws (Database J) S} `{!Json J}.
Context `{!PydanticModel J QualityGateResult.t gate_result_ok}.
Context `{!PydanticModel J OperationalTelemetry.t telemetry_ok}.
Context (E : exn → Prop) (HE : ∀ e, is_sql e → E e).
Implicit Types db : Database J.

Lemma txn_get_by_id id db Q :
  Q (_to_record <$> Database.assessments db !! id) db → txn (get_by_id id) db E Q.
Proof. intros HQ. unfold get_by_id, get_assessment_model. txn_steps. done. Qed.

(** The shape the three lifecycle updates share. *)
Lemma txn_update (f : AssessmentModel.t J → datetime → AssessmentModel.t J) id db Q :
  (Database.assessments db !! id = None → Q None db) →
  (∀ model now, Database.assessments db !! id = Some model →
     datetime.utcoffset now = Some 0%Z →
     Database.ok (put_assessment (f model now) db) →
     Q (Some (_to_record (f model now))) (put_assessment (f model now) db)) →
  txn (let* model := get_assessment_model id in
       match model with
       | None => ret None
       | Some model =>
           let* now := clock in
           sess_change (put_assessment (f model now)) ;;;
           sess_flush ;;;
           ret (Some (_to_record (f model now)))
       end) db E Q.
Proof.
  intros Hn Hs. unfold get_assessment_model. txn_steps.
  destruct (Database.assessments db !! id); txn_steps; auto.
Qed.

Lemma txn_mark_completed id rp em db Q :
  (Database.assessments db !! id = None → Q None db) →
  (∀ model now, Database.assessments db !! id = Some model →
     datetime.utcoffset now = Some 0%Z →
     let model' := completed_model model now rp em in
     Database.ok (put_assessment model' db) →
     Q (Some (_to_record model')) (put_assessment model' db)) →
  txn (mark_completed id rp em) db E Q.
Proof. apply (txn_update (λ model now, completed_model model now rp em)). Qed.

Lemma txn_mark_pending_review id em db Q :
  (Database.assessments db !! id = None → Q None db) →
  (∀ model now, Database.assessments db !! id = Some model →
     datetime.utcoffset now = Some 0%Z →
     let model' := pending_review_model model now em in
     Database.ok (put_assessment model' db) →
     Q (Some (_to_record model')) (put_assessment model' db)) →
  txn (mark_pending_review id em) db E Q.
Proof. apply (txn_update (λ model now, pending_review_model model now em)). Qed.

Lemma txn_mark_failed id code msg db Q :
  (Database.assessments db !! id = None → Q None db) →
  (∀ model now, Database.assessments db !! id = Some model →
     datetime.utcoffset now = Some 0%Z →
     let model' := failed_model model now code msg in
     Database.ok (put_assessment model' db) →
     Q (Some (_to_record model')) (put_assessment model' db)) →
  txn (mark_failed id code msg) db E Q.
Proof. apply (txn_update (λ model now, failed_model model now code msg)). Qed.

(** [save_state] replaces the checkpoint, keeping the creation time of an existing row. *)
Lemma txn_save_state id g rs cr ce t rc mr db Q :
  gate_result_ok g → telemetry_ok t → (0 ≤ rc)%Z → (0 ≤ mr)%Z →
  (∀ now, datetime.utcoffset now = Some 0%Z →
     let row := state_row (from_option RuntimeStateModel.created_at now (Database.states db !! id))
                  now id g rs cr ce t rc mr in
     let db' := put_state row db in
     Database.ok db' →
     Q (RuntimeAssessmentState.mk J id g rs (truthy_payload cr) (truthy_payload ce) t rc mr
          (_as_utc (RuntimeStateModel.created_at row)) now) db') →
  txn (save_state id g rs cr ce t rc mr) db E Q.
Proof.
  intros Hg Ht Hrc Hmr HQ. unfold save_state. txn_steps.
  match goal with H : datetime.utcoffset ?n = _ |- _ =>
    rename H into Hnow; rename n into t0; specialize (HQ t0 Hnow) end.
  destruct (Database.states db !! id) as [model|] eqn:Hm; simpl in HQ; txn_steps.
  all: rewrite state_row_roundtrip by done; rewrite (as_utc_id _ Hnow); simpl.
  - by apply HQ.
  - assert (add_state (state_row t0 t0 id g rs cr ce t rc mr) db =
            put_state (state_row t0 t0 id g rs cr ce t rc mr) db) as Heq.
    { unfold add_state, put_state. simpl. rewrite Hm. simpl. by rewrite orb_false_r. }
    rewrite Heq in *. rewrite (as_utc_id _ Hnow) in HQ. by apply HQ.
Qed.

Lemma txn_add_review_event aid action prev new rid comment reasons rn actor db Q :
  (0 ≤ rn)%Z →
  (∀ u now, datetime.utcoffset now = Some 0%Z →
     let row := event_row u aid now action prev new rid comment reasons rn actor in
     Database.ok (add_event row db) →
     Q (event_record u aid now action prev new rid comment reasons rn actor) (add_event row db)) →
  txn (add_review_event aid action prev new rid comment reasons rn actor) db E Q.
Proof.
  intros Hrn HQ. unfold add_review_event. txn_steps.
  rewrite event_row_roundtrip by done. by apply HQ.
Qed.
End rules.
