(* ===== verification/KnowledgeRepositories.v ===== *)
(** app/repositories/knowledge_documents.py, knowledge_chunks.py and knowledge_graph.py:
    every operation, against a [Session] on the knowledge tables. *)
From S2P Require Import Prelude PyFloat Errors Domain Unicode Session Storage Repositories.
From S2P Require Import KnowledgeStore.

(** The metadata of a retrieved chunk. *)
Definition evidence_metadata (chunk : KnowledgeChunkModel.t) (document : KnowledgeDocumentModel.t) :
    pydict :=
  [(lit "document", PDict (KnowledgeDocumentModel.document_metadata document));
   (lit "chunk", PDict (KnowledgeChunkModel.chunk_metadata chunk))].

(** The inner join of chunks with their documents. *)
Definition chunk_documents (db : knowledge) :
    list (KnowledgeChunkModel.t * KnowledgeDocumentModel.t) :=
  omap (λ c, (λ d, (c, d)) <$>
    KnowledgeTables.documents db !! KnowledgeChunkModel.document_id c)
    (rows (KnowledgeTables.chunks db)).

Definition chunk_id_of (row : KnowledgeChunkModel.t * KnowledgeDocumentModel.t) : uuid :=
  KnowledgeChunkModel.id row.1.

(** ** KnowledgeDocumentRepository *)

Module KnowledgeDocuments.
Section repository.
Context {S : Type} `{!Session knowledge S}.

Definition _to_record (model : KnowledgeDocumentModel.t) : KnowledgeDocumentRecord.t :=
  KnowledgeDocumentRecord.mk (KnowledgeDocumentModel.id model)
    (KnowledgeDocumentModel.title model) (KnowledgeDocumentModel.source_type model)
    (KnowledgeDocumentModel.source_uri model) (KnowledgeDocumentModel.external_id model)
    (KnowledgeDocumentModel.content model) (KnowledgeDocumentModel.document_metadata model)
    (KnowledgeDocumentModel.content_hash model)
    (_as_utc (KnowledgeDocumentModel.created_at model))
    (_as_utc (KnowledgeDocumentModel.updated_at model)).

(** The two timestamps are column defaults, evaluated when the row is flushed. *)
Definition create (document_id : uuid) (title : pystr) (source_type : KnowledgeSourceType.t)
    (source_uri external_id : option pystr) (content : pystr) (metadata : pydict)
    (content_hash : pystr) : M S KnowledgeDocumentRecord.t :=
  let* created_at := clock in
  let* updated_at := clock in
  let model := KnowledgeDocumentModel.mk document_id title source_type source_uri external_id
    content metadata content_hash created_at updated_at in
  sess_change (add_document model) ;;;
  sess_flush ;;;
  ret (_to_record model).

Definition get_by_id (document_id : uuid) : M S (option KnowledgeDocumentRecord.t) :=
  let* model := sess_read (λ db, KnowledgeTables.documents db !! document_id) in
  ret (_to_record <$> model).

Definition by_age : relation KnowledgeDocumentModel.t :=
  oldest_le KnowledgeDocumentModel.created_at KnowledgeDocumentModel.id.

Definition find_by_content_hash (content_hash : pystr) : M S (option KnowledgeDocumentRecord.t) :=
  let* model := sess_read (λ db, head (merge_sort by_age
    (filter (λ d, KnowledgeDocumentModel.content_hash d = content_hash)
       (rows (KnowledgeTables.documents db))))) in
  ret (_to_record <$> model).

Definition list_documents (limit : Z) : M S (list KnowledgeDocumentRecord.t) :=
  let* models := sess_read (λ db,
    sql_limit limit (merge_sort by_age (rows (KnowledgeTables.documents db)))) in
  ret (_to_record <$> models).

Definition commit : M S unit := sess_commit.
Definition rollback : M S unit := sess_rollback.
End repository.
End KnowledgeDocuments.

(** ** KnowledgeChunkRepository *)

(** pgvector's cosine distance between two vectors. *)
Class CosineDistance := cosine_distance : list pyfloat → list pyfloat → pyfloat.

Module KnowledgeChunks.
Section repository.
Context {S : Type} `{!Session knowledge S}.

Definition _to_record (model : KnowledgeChunkModel.t) : KnowledgeChunkRecord.t :=
  KnowledgeChunkRecord.mk (KnowledgeChunkModel.id model)
    (KnowledgeChunkModel.document_id model) (KnowledgeChunkModel.chunk_index model)
    (KnowledgeChunkModel.content model) (KnowledgeChunkModel.embedding model)
    (KnowledgeChunkModel.chunk_metadata model) (_as_utc (KnowledgeChunkModel.created_at model)).

(** The models of a batch: [id] and the default of [created_at] are drawn per row. *)
Fixpoint chunk_models (document_id : uuid) (chunks : list EmbeddedChunk.t) :
    M S (list KnowledgeChunkModel.t) :=
  match chunks with
  | [] => ret []
  | chunk :: chunks' =>
      let* id := uuid4 in
      let* created_at := clock in
      let* models := chunk_models document_id chunks' in
      ret (KnowledgeChunkModel.mk id document_id (EmbeddedChunk.chunk_index chunk)
             (EmbeddedChunk.content chunk) (EmbeddedChunk.embedding chunk)
             (EmbeddedChunk.metadata chunk) created_at :: models)
  end.

Definition bulk_create (document_id : uuid) (chunks : list EmbeddedChunk.t) :
    M S (list KnowledgeChunkRecord.t) :=
  let* models := chunk_models document_id chunks in
  sess_change (λ db, fold_left add_chunk models db) ;;;
  sess_flush ;;;
  ret (_to_record <$> models).

Definition select_chunks (document_id : uuid) (db : knowledge) : list KnowledgeChunkModel.t :=
  merge_sort index_le (filter (λ c, KnowledgeChunkModel.document_id c = document_id)
    (rows (KnowledgeTables.chunks db))).

Definition list_by_document (document_id : uuid) : M S (list KnowledgeChunkRecord.t) :=
  let* models := sess_read (select_chunks document_id) in
  ret (_to_record <$> models).

Section similarity.
Context {cosine : CosineDistance} (query_embedding : list pyfloat).

Definition distance (row : KnowledgeChunkModel.t * KnowledgeDocumentModel.t) : pyfloat :=
  cosine_distance (KnowledgeChunkModel.embedding row.1) query_embedding.

(** [ORDER BY distance, id]. *)
Definition nearest_le (a b : KnowledgeChunkModel.t * KnowledgeDocumentModel.t) : Prop :=
  sql_fleb (distance a) (distance b) = true ∧
  (sql_fleb (distance b) (distance a) = true → (chunk_id_of a ≤ chunk_id_of b)%N).
#[export] Instance nearest_le_dec : RelDecision nearest_le.
Proof. intros a b. unfold nearest_le. apply _. Defined.

(** The [WHERE] clause. *)
Definition eligible (similarity_threshold : pyfloat) (source_type : option KnowledgeSourceType.t)
    (document_id : option uuid) (row : KnowledgeChunkModel.t * KnowledgeDocumentModel.t) : bool :=
  sql_fleb (distance row) (fsub f64_one similarity_threshold) &&
  opt_all (λ t, bool_decide (KnowledgeDocumentModel.source_type row.2 = t)) source_type &&
  opt_all (λ d, bool_decide (KnowledgeChunkModel.document_id row.1 = d)) document_id.

Definition nearest (limit : Z) (similarity_threshold : pyfloat)
    (source_type : option KnowledgeSourceType.t) (document_id : option uuid) (db : knowledge) :
    list (KnowledgeChunkModel.t * KnowledgeDocumentModel.t) :=
  sql_limit limit (merge_sort nearest_le
    (filter (λ row, eligible similarity_threshold source_type document_id row = true)
       (chunk_documents db))).

Definition to_evidence (row : KnowledgeChunkModel.t * KnowledgeDocumentModel.t) :
    RetrievedEvidence.t :=
  RetrievedEvidence.mk (chunk_id_of row) (KnowledgeDocumentModel.id row.2)
    (KnowledgeDocumentModel.title row.2) (KnowledgeChunkModel.content row.1)
    (Some (fsub f64_one (distance row))) (KnowledgeDocumentModel.source_type row.2)
    (evidence_metadata row.1 row.2) RetrievalSource.VECTOR.

(** The loop keeps the first row of each chunk. *)
Definition search_similar (limit : Z) (similarity_threshold : pyfloat)
    (source_type : option KnowledgeSourceType.t) (document_id : option uuid) :
    M S (list RetrievedEvidence.t) :=
  let* found := sess_read (nearest limit similarity_threshold source_type document_id) in
  ret (to_evidence <$> dedup_by chunk_id_of found).
End similarity.

Definition rollback : M S unit := sess_rollback.
End repository.
End KnowledgeChunks.

(** ** KnowledgeGraphRepository *)

Definition _entity_record (model : KnowledgeEntityModel.t) : KnowledgeEntityRecord.t :=
  KnowledgeEntityRecord.mk (KnowledgeEntityModel.id model)
    (KnowledgeEntityModel.entity_type model) (KnowledgeEntityModel.canonical_name model)
    (KnowledgeEntityModel.normalized_name model) (KnowledgeEntityModel.description model)
    (KnowledgeEntityModel.entity_metadata model) (_as_utc (KnowledgeEntityModel.created_at model))
    (_as_utc (KnowledgeEntityModel.updated_at model)).

Definition _mention_record (model : KnowledgeEntityMentionModel.t) :
    KnowledgeEntityMentionRecord.t :=
  KnowledgeEntityMentionRecord.mk (KnowledgeEntityMentionModel.id model)
    (KnowledgeEntityMentionModel.entity_id model) (KnowledgeEntityMentionModel.document_id model)
    (KnowledgeEntityMentionModel.chunk_id model) (KnowledgeEntityMentionModel.mention_text model)
    (KnowledgeEntityMentionModel.confidence model)
    (KnowledgeEntityMentionModel.mention_metadata model)
    (_as_utc (KnowledgeEntityMentionModel.created_at model)).

Definition _relationship_record (model : KnowledgeRelationshipModel.t) :
    KnowledgeRelationshipRecord.t :=
  KnowledgeRelationshipRecord.mk (KnowledgeRelationshipModel.id model)
    (KnowledgeRelationshipModel.source_entity_id model)
    (KnowledgeRelationshipModel.target_entity_id model)
    (KnowledgeRelationshipModel.relationship_type model)
    (KnowledgeRelationshipModel.description model) (KnowledgeRelationshipModel.confidence model)
    (KnowledgeRelationshipModel.source_chunk_id model)
    (KnowledgeRelationshipModel.relationship_metadata model)
    (_as_utc (KnowledgeRelationshipModel.created_at model)).

Module KnowledgeGraph.
Section repository.
Context {S : Type} `{!Session knowledge S} {udb : UnicodeDB} {C : Collation}.

(** [session.scalar(select(...).where(...))] on a unique key: the row, if any. *)
Definition entity_of (entity_type : KnowledgeEntityType.t) (normalized : pystr) (db : knowledge) :
    option KnowledgeEntityModel.t :=
  py_next (λ m, bool_decide (KnowledgeEntityModel.identity m = (entity_type, normalized)))
    (rows (KnowledgeTables.entities db)).

Definition upsert_entity (entity_type : KnowledgeEntityType.t) (canonical_name : pystr)
    (description : option pystr) (metadata : option pydict) : M S KnowledgeEntityRecord.t :=
  let canonical := canonicalize_entity_name canonical_name in
  let normalized := normalize_entity_name canonical in
  if truthy normalized then
    let* found := sess_read (entity_of entity_type normalized) in
    match found with
    | None =>
        let* id := uuid4 in
        let* created_at := clock in
        let* updated_at := clock in
        let model := KnowledgeEntityModel.mk id entity_type canonical normalized description
          (default [] metadata) created_at updated_at in
        sess_change (add_entity model) ;;;
        sess_flush ;;;
        ret (_entity_record model)
    | Some model =>
        if negb (is_not_none (KnowledgeEntityModel.description model)) &&
           truthy (default [] description) then
          let* now := clock in
          let model := model <| KnowledgeEntityModel.description := description |>
                             <| KnowledgeEntityModel.updated_at := now |> in
          sess_change (put_entity model) ;;;
          sess_flush ;;;
          ret (_entity_record model)
        else ret (_entity_record model)
    end
  else raise ValueError.

Definition get_entity (entity_id : uuid) : M S (option KnowledgeEntityRecord.t) :=
  let* model := sess_read (λ db, KnowledgeTables.entities db !! entity_id) in
  ret (_entity_record <$> model).

Definition find_entity (entity_type : KnowledgeEntityType.t) (name : pystr) :
    M S (option KnowledgeEntityRecord.t) :=
  let* model := sess_read (entity_of entity_type (normalize_entity_name name)) in
  ret (_entity_record <$> model).

(** [matches.sort(key=(-len(normalized_name), str(id)))]. *)
Definition longest_le (a b : KnowledgeEntityModel.t) : Prop :=
  let la := length (KnowledgeEntityModel.normalized_name a) in
  let lb := length (KnowledgeEntityModel.normalized_name b) in
  (lb < la)%nat ∨ la = lb ∧ (KnowledgeEntityModel.id a ≤ KnowledgeEntityModel.id b)%N.
#[export] Instance longest_le_dec : RelDecision longest_le.
Proof. intros a b. unfold longest_le. apply _. Defined.

Definition find_matching_query (query : pystr) (limit : Z)
    (entity_types : option (list KnowledgeEntityType.t)) : M S (list KnowledgeEntityRecord.t) :=
  let normalized_query := normalize_entity_name query in
  if truthy normalized_query then
    let types := default [] entity_types in
    let* candidates := sess_read (λ db,
      sql_limit (Z.max 100 (limit * 50)) (merge_sort name_le
        (filter (λ m, types = [] ∨ KnowledgeEntityModel.entity_type m ∈ types)
           (rows (KnowledgeTables.entities db))))) in
    let matches := filter (λ m,
      contains_term normalized_query (KnowledgeEntityModel.normalized_name m) = true) candidates in
    ret (_entity_record <$> slice_to limit (merge_sort longest_le matches))
  else ret [].

(** [not 0.0 <= confidence <= 1.0] is [negb (confidence_ok confidence)]. *)
Definition add_mention (entity_id document_id chunk_id : uuid) (mention_text : pystr)
    (confidence : pyfloat) (metadata : option pydict) : M S KnowledgeEntityMentionRecord.t :=
  if confidence_ok confidence then
    let* entity := sess_read (λ db, KnowledgeTables.entities db !! entity_id) in
    match entity with
    | None => raise ValueError
    | Some _ =>
        let* chunk := sess_read (λ db, KnowledgeTables.chunks db !! chunk_id) in
        match chunk with
        | None => raise ValueError
        | Some chunk =>
            if decide (KnowledgeChunkModel.document_id chunk = document_id) then
              let* found := sess_read (λ db,
                py_next (λ m, bool_decide (KnowledgeEntityMentionModel.identity m =
                                           (entity_id, chunk_id)))
                  (rows (KnowledgeTables.mentions db))) in
              match found with
              | Some model => ret (_mention_record model)
              | None =>
                  let* id := uuid4 in
                  let* created_at := clock in
                  let model := KnowledgeEntityMentionModel.mk id entity_id document_id chunk_id
                    (canonicalize_entity_name mention_text) confidence (default [] metadata)
                    created_at in
                  sess_change (add_mention_row model) ;;;
                  sess_flush ;;;
                  ret (_mention_record model)
              end
            else raise ValueError
        end
    end
  else raise ValueError.

Definition add_relationship (source_entity_id target_entity_id : uuid)
    (relationship_type : KnowledgeRelationshipType.t) (description : option pystr)
    (confidence : pyfloat) (source_chunk_id : uuid) (metadata : option pydict) :
    M S KnowledgeRelationshipRecord.t :=
  if negb (confidence_ok confidence) then raise ValueError
  else if decide (source_entity_id = target_entity_id) then raise ValueError
  else
    let* source := sess_read (λ db, KnowledgeTables.entities db !! source_entity_id) in
    match source with
    | None => raise ValueError
    | Some _ =>
        let* target := sess_read (λ db, KnowledgeTables.entities db !! target_entity_id) in
        match target with
        | None => raise ValueError
        | Some _ =>
            let* chunk := sess_read (λ db, KnowledgeTables.chunks db !! source_chunk_id) in
            match chunk with
            | None => raise ValueError
            | Some _ =>
                let* found := sess_read (λ db,
                  py_next (λ m, bool_decide (KnowledgeRelationshipModel.identity m =
                      (source_entity_id, target_entity_id, relationship_type, source_chunk_id)))
                    (rows (KnowledgeTables.relationships db))) in
                match found with
                | Some model => ret (_relationship_record model)
                | None =>
                    let* id := uuid4 in
                    let* created_at := clock in
                    let model := KnowledgeRelationshipModel.mk id source_entity_id
                      target_entity_id relationship_type description confidence source_chunk_id
                      (default [] metadata) created_at in
                    sess_change (add_relationship_row model) ;;;
                    sess_flush ;;;
                    ret (_relationship_record model)
                end
            end
        end
    end.

(** *** Bounded traversal *)

(** The local variables of [get_neighborhood]'s loop. *)
Record traversal := Traversal {
  tv_visited : gset uuid;
  tv_frontier : gset uuid;
  tv_relationships : list KnowledgeRelationshipModel.t;
  tv_depth_used : Z
}.

Definition endpoints (edge : KnowledgeRelationshipModel.t) : list uuid :=
  [KnowledgeRelationshipModel.source_entity_id edge;
   KnowledgeRelationshipModel.target_entity_id edge].

Definition edges_by_age : relation KnowledgeRelationshipModel.t :=
  oldest_le KnowledgeRelationshipModel.created_at KnowledgeRelationshipModel.id.

(** The query of one level: edges incident to the frontier, oldest first. *)
Definition incident (min_confidence : pyfloat) (frontier : gset uuid)
    (edge : KnowledgeRelationshipModel.t) : Prop :=
  (KnowledgeRelationshipModel.source_entity_id edge ∈ frontier ∨
   KnowledgeRelationshipModel.target_entity_id edge ∈ frontier) ∧
  sql_fleb min_confidence (KnowledgeRelationshipModel.confidence edge) = true.
#[export] Instance incident_dec min_confidence frontier edge :
  Decision (incident min_confidence frontier edge).
Proof. unfold incident. apply _. Defined.

Definition level_edges (max_entities : Z) (min_confidence : pyfloat) (frontier : gset uuid)
    (db : knowledge) : list KnowledgeRelationshipModel.t :=
  sql_limit (max_entities * 8) (merge_sort edges_by_age
    (filter (incident min_confidence frontier) (rows (KnowledgeTables.relationships db)))).

(** One edge of a level: it is kept unless its new endpoints exceed the entity limit; the
    accumulator's frontier is [next_frontier]. *)
Definition visit_edge (max_entities : Z) (st : traversal) (edge : KnowledgeRelationshipModel.t) :
    traversal :=
  let new_ids := filter (λ i, i ∉ tv_visited st) (endpoints edge) in
  if truthy new_ids &&
     Z.ltb max_entities (Z.of_nat (size (tv_visited st)) + Z.of_nat (length new_ids))
  then st
  else Traversal (tv_visited st ∪ list_to_set new_ids) (tv_frontier st ∪ list_to_set new_ids)
         (keyed_setdefault KnowledgeRelationshipModel.id (tv_relationships st) edge)
         (tv_depth_used st).

Definition visit_level (max_entities depth : Z) (st : traversal)
    (edges : list KnowledgeRelationshipModel.t) : traversal :=
  let st' := fold_left (visit_edge max_entities) edges
    (Traversal (tv_visited st) ∅ (tv_relationships st) (tv_depth_used st)) in
  Traversal (tv_visited st') (tv_frontier st') (tv_relationships st') depth.

(** [for depth in range(1, max_depth + 1)], with [levels] of them left. *)
Fixpoint traverse (levels : nat) (depth max_entities : Z) (min_confidence : pyfloat)
    (st : traversal) : M S traversal :=
  match levels with
  | O => ret st
  | Datatypes.S levels' =>
      if decide (tv_frontier st = ∅) then ret st
      else
        let* edges := sess_read (level_edges max_entities min_confidence (tv_frontier st)) in
        match edges with
        | [] => ret st
        | _ =>
            traverse levels' (depth + 1) max_entities min_confidence
              (visit_level max_entities depth st edges)
        end
  end.

Definition mentions_by_age : relation KnowledgeEntityMentionModel.t :=
  oldest_le KnowledgeEntityMentionModel.created_at KnowledgeEntityMentionModel.id.

Definition to_graph_evidence (row : KnowledgeChunkModel.t * KnowledgeDocumentModel.t) :
    RetrievedEvidence.t :=
  RetrievedEvidence.mk (chunk_id_of row) (KnowledgeDocumentModel.id row.2)
    (KnowledgeDocumentModel.title row.2) (KnowledgeChunkModel.content row.1) None
    (KnowledgeDocumentModel.source_type row.2) (evidence_metadata row.1 row.2)
    RetrievalSource.GRAPH.

Definition _load_graph_evidence (chunk_ids : gset uuid) : M S (list RetrievedEvidence.t) :=
  if decide (chunk_ids = ∅) then ret []
  else
    let* found := sess_read (λ db, merge_sort (id_le chunk_id_of)
      (filter (λ row, chunk_id_of row ∈ chunk_ids) (chunk_documents db))) in
    ret (to_graph_evidence <$> found).

(** [entities_by_id] looked up, and the result assembled. *)
Definition entity_with (models : list KnowledgeEntityModel.t) (i : uuid) :
    option KnowledgeEntityModel.t :=
  py_next (λ m, bool_decide (KnowledgeEntityModel.id m = i)) models.

Definition get_neighborhood (seed_entity_ids : list uuid) (max_depth max_entities : Z)
    (min_confidence : pyfloat) : M S GraphTraversalData.t :=
  let ordered_seeds := slice_to max_entities (dict_fromkeys seed_entity_ids) in
  let seeds : gset uuid := list_to_set ordered_seeds in
  let* st := traverse (Z.to_nat max_depth) 1 max_entities min_confidence
    (Traversal seeds seeds [] 0) in
  let visited := tv_visited st in
  let relationships := tv_relationships st in
  let* entity_models := sess_read (λ db, merge_sort name_le
    (filter (λ m, KnowledgeEntityModel.id m ∈ visited) (rows (KnowledgeTables.entities db)))) in
  let* mention_models := sess_read (λ db, merge_sort mentions_by_age
    (filter (λ m, KnowledgeEntityMentionModel.entity_id m ∈ visited)
       (rows (KnowledgeTables.mentions db)))) in
  let chunk_ids : gset uuid :=
    list_to_set (KnowledgeEntityMentionModel.chunk_id <$> mention_models) ∪
    list_to_set (KnowledgeRelationshipModel.source_chunk_id <$> relationships) in
  let* evidence := _load_graph_evidence chunk_ids in
  ret (GraphTraversalData.mk
    (_entity_record <$> omap (entity_with entity_models) ordered_seeds)
    (_entity_record <$> filter (λ m, KnowledgeEntityModel.id m ∉ seeds) entity_models)
    (_relationship_record <$> merge_sort (id_le KnowledgeRelationshipModel.id) relationships)
    (_mention_record <$> mention_models)
    evidence
    (tv_depth_used st)).

Definition list_entities : M S (list KnowledgeEntityRecord.t) :=
  let* models := sess_read (λ db, merge_sort name_le (rows (KnowledgeTables.entities db))) in
  ret (_entity_record <$> models).

Definition list_relationships : M S (list KnowledgeRelationshipRecord.t) :=
  let* models := sess_read (λ db, merge_sort (id_le KnowledgeRelationshipModel.id)
    (rows (KnowledgeTables.relationships db))) in
  ret (_relationship_record <$> models).

Definition commit : M S unit := sess_commit.
Definition rollback : M S unit := sess_rollback.
End repository.
End KnowledgeGraph.
