(* ===== verification/Telemetry.v ===== *)
(** Operational telemetry: app/runtime/metrics.py, app/runtime/telemetry.py and the
    exporter allowlist of app/observability/exporters.py. *)
From S2P Require Import Prelude Errors PyFloat Domain AgentModels Schemas RuntimeModels Session.
From S2P Require Import Storage.

(** ** app/runtime/metrics.py *)

Module RuntimeMetricsRecorder.
Record t := mk {
  model_call_durations_ms : list Z;
  embedding_call_durations_ms : list Z;
  tool_call_durations_ms : list Z;
  retry_count : Z;
  timeout_count : Z;
  _input_tokens : Z;
  _output_tokens : Z;
  _total_tokens : Z;
  _usage_observed : bool
}.
#[export] Instance eta : Eta t := λ r, mk (model_call_durations_ms r)
  (embedding_call_durations_ms r) (tool_call_durations_ms r) (retry_count r) (timeout_count r)
  (_input_tokens r) (_output_tokens r) (_total_tokens r) (_usage_observed r).
Definition empty : t := mk [] [] [] 0 0 0 0 0 false.
End RuntimeMetricsRecorder.
#[export] Existing Instance RuntimeMetricsRecorder.eta.

(** What [record_model_call] is given: a [ProviderTokenUsage], an object with a [usage]
    attribute whose three counters [getattr] reads ([None] when missing), or an object
    without usage. *)
Inductive provider_response :=
  | TokenUsage (u : ProviderTokenUsage.t)
  | WithUsage (input_tokens output_tokens total_tokens : pyval)
  | NoUsage.

(** [isinstance(value, int)]: booleans are integers. *)
Definition as_int (v : pyval) : option Z :=
  match v with PInt n => Some n | PBool b => Some (Z.b2z b) | _ => None end.

Section metrics.
Import RuntimeMetricsRecorder.

Definition modify {S} (f : S → S) : M S unit := λ s, (f s, Ok tt).

(** [self.x += counter]: adding [None] is a [TypeError]. *)
Definition add_counter (f : Z → t → t) (counter : option Z) : M t unit :=
  match counter with Some n => modify (f n) | None => raise TypeError end.

Definition add_input (n : Z) (r : t) : t := r <| _input_tokens := (_input_tokens r + n)%Z |>.
Definition add_output (n : Z) (r : t) : t := r <| _output_tokens := (_output_tokens r + n)%Z |>.
Definition add_total (n : Z) (r : t) : t := r <| _total_tokens := (_total_tokens r + n)%Z |>.

Definition _record_usage (response : provider_response) : M t unit :=
  match response with
  | TokenUsage u =>
      modify (λ r, r <| _usage_observed := true |>) ;;;
      add_counter add_input (ProviderTokenUsage.input_tokens u) ;;;
      add_counter add_output (ProviderTokenUsage.output_tokens u) ;;;
      add_counter add_total (ProviderTokenUsage.total_tokens u)
  | NoUsage => ret tt
  | WithUsage input_tokens output_tokens total_tokens =>
      let total_tokens :=
        match total_tokens, as_int input_tokens, as_int output_tokens with
        | PNone, Some i, Some o => PInt (i + o)
        | _, _, _ => total_tokens
        end in
      match as_int input_tokens, as_int output_tokens, as_int total_tokens with
      | Some i, Some o, Some n =>
          if Z.leb 0 i && Z.leb 0 o && Z.leb 0 n then
            modify (λ r, add_total n (add_output o (add_input i
                           (r <| _usage_observed := true |>))))
          else ret tt
      | _, _, _ => ret tt
      end
  end.

Definition record_model_call (duration_ms : Z) (response : provider_response) : M t unit :=
  modify (λ r, r <| model_call_durations_ms :=
                      model_call_durations_ms r ++ [Z.max 0 duration_ms] |>) ;;;
  _record_usage response.

Definition record_embedding_call (duration_ms : Z) : M t unit :=
  modify (λ r, r <| embedding_call_durations_ms :=
                      embedding_call_durations_ms r ++ [Z.max 0 duration_ms] |>).

Definition record_tool_call (duration_ms : Z) : M t unit :=
  modify (λ r, r <| tool_call_durations_ms :=
                      tool_call_durations_ms r ++ [Z.max 0 duration_ms] |>).

Definition record_retry (attempt : Z) (category : FailureCategory.t) : M t unit :=
  modify (λ r, r <| retry_count := (retry_count r + 1)%Z |>) ;;;
  if decide (category = FailureCategory.TIMEOUT)
  then modify (λ r, r <| timeout_count := (timeout_count r + 1)%Z |>)
  else ret tt.

(** The property [token_usage]. *)
Definition token_usage (r : t) : res (option ProviderTokenUsage.t) :=
  if _usage_observed r then
    res_bind (ProviderTokenUsage.construct
      (ProviderTokenUsage.mk (Some (_input_tokens r)) (Some (_output_tokens r))
         (Some (_total_tokens r)))) (λ u, Ok (Some u))
  else Ok None.

(** Every list entry and every counter is non-negative. *)
Definition recorder_ok (r : t) : Prop :=
  Forall (λ n, 0 ≤ n)%Z (model_call_durations_ms r) ∧
  Forall (λ n, 0 ≤ n)%Z (embedding_call_durations_ms r) ∧
  Forall (λ n, 0 ≤ n)%Z (tool_call_durations_ms r) ∧
  (0 ≤ timeout_count r ≤ retry_count r)%Z ∧
  (0 ≤ _input_tokens r)%Z ∧ (0 ≤ _output_tokens r)%Z ∧ (0 ≤ _total_tokens r)%Z.
End metrics.

(** ** app/runtime/telemetry.py *)

(** [n * x] for an [int] and a [float]: the [int] is converted, [OverflowError] when it
    is too large. *)
Definition int_float (n : Z) : res pyfloat :=
  match float_of_Z n with
  | SpecFloat.S754_infinity _ => Raise (OtherException "OverflowError")
  | x => Ok x
  end.

Definition calculate_estimated_cost (usage : option ProviderTokenUsage.t)
    (input_cost_per_million output_cost_per_million : option pyfloat) :
    res (option pyfloat) :=
  match usage, input_cost_per_million, output_cost_per_million with
  | Some u, Some ic, Some oc =>
      match ProviderTokenUsage.input_tokens u, ProviderTokenUsage.output_tokens u with
      | Some i, Some o =>
          res_bind (int_float i) (λ fi, res_bind (int_float o) (λ fo,
          Ok (Some (fdiv (fadd (fmul fi ic) (fmul fo oc)) (float_of_Z 1000000)))))
      | _, _ => Ok None
      end
  | _, _, _ => Ok None
  end.

(** The attributes the three execution-metadata classes share. *)
Definition execution_mode (execution : ExecutionMetadata) : pystr :=
  match execution with
  | Deterministic m => DeterministicExecutionMetadata.execution_mode m
  | SingleAgent m => AssessmentExecutionMetadata.execution_mode m
  | MultiAgent m => MultiAgentExecutionMetadata.execution_mode m
  end.
Definition graph_retrieval (execution : ExecutionMetadata) :
    option GraphRetrievalExecutionMetadata.t :=
  match execution with
  | Deterministic m => DeterministicExecutionMetadata.graph_retrieval m
  | SingleAgent m => AssessmentExecutionMetadata.graph_retrieval m
  | MultiAgent m => MultiAgentExecutionMetadata.graph_retrieval m
  end.

(** [agent_statuses.model_dump().values()]. *)
Definition status_values (s : MultiAgentStatuses.t) : list MultiAgentStatus.t :=
  [MultiAgentStatuses.evidence s; MultiAgentStatuses.architecture s;
   MultiAgentStatuses.risk_governance s; MultiAgentStatuses.synthesis s].

(** [agent_durations_ms.model_dump()]. *)
Definition duration_dict (d : MultiAgentDurations.t) : gmap pystr (option Z) :=
  list_to_map
    [(lit "evidence", MultiAgentDurations.evidence d);
     (lit "architecture", MultiAgentDurations.architecture d);
     (lit "risk_governance", MultiAgentDurations.risk_governance d);
     (lit "synthesis", MultiAgentDurations.synthesis d)].

(** The values the [isinstance] cascade computes. *)
Module Counters.
Record t := mk {
  tool_calls : Z;
  model_calls : Z;
  specialist_durations : gmap pystr (option Z);
  synthesis_duration : option Z;
  degraded : bool;
  termination : pystr
}.
End Counters.

Definition execution_counters (execution : ExecutionMetadata)
    (model_call_count : option Z) : Counters.t :=
  match execution with
  | Deterministic _ => Counters.mk 0 (default 1%Z model_call_count) ∅ None false "completed"
  | SingleAgent m =>
      let termination :=
        AgentTerminationReason.value (AssessmentExecutionMetadata.termination_reason m) in
      Counters.mk (Z.of_nat (length (AssessmentExecutionMetadata.tools_used m)))
        (default (AssessmentExecutionMetadata.steps_used m + 1)%Z model_call_count) ∅ None
        (negb (bool_decide (termination = lit "completed")) &&
         negb (bool_decide (termination = lit "agent_stopped")))
        termination
  | MultiAgent m =>
      Counters.mk (MultiAgentExecutionMetadata.tool_calls m)
        (default
           (sum_Z ((λ s, Z.b2z (bool_decide (s = MultiAgentStatus.COMPLETED))) <$>
                   status_values (MultiAgentExecutionMetadata.agent_statuses m)))
           model_call_count)
        (duration_dict (MultiAgentExecutionMetadata.agent_durations_ms m))
        (MultiAgentDurations.synthesis (MultiAgentExecutionMetadata.agent_durations_ms m))
        (MultiAgentExecutionMetadata.degraded_mode m)
        (MultiAgentTerminationReason.value (MultiAgentExecutionMetadata.termination_reason m))
  end.

Definition execution_health (gate_decision : RuntimeRiskDecision.t) (degraded : bool) :
    ExecutionHealth.t * HumanReviewStatus.t :=
  match gate_decision with
  | RuntimeRiskDecision.REQUIRE_HUMAN_REVIEW =>
      (ExecutionHealth.PENDING_HUMAN_REVIEW, HumanReviewStatus.PENDING)
  | RuntimeRiskDecision.BLOCK_AND_ESCALATE =>
      (ExecutionHealth.BLOCKED, HumanReviewStatus.NOT_REQUIRED)
  | _ =>
      (if degraded then ExecutionHealth.DEGRADED else ExecutionHealth.FULL,
       HumanReviewStatus.NOT_REQUIRED)
  end.

Definition build_operational_telemetry (execution : ExecutionMetadata) (duration_ms : Z)
    (gate_decision : RuntimeRiskDecision.t) (token_usage : option ProviderTokenUsage.t)
    (evidence_count : Z) (model_call_count : option Z)
    (input_cost_per_million output_cost_per_million : option pyfloat)
    (request_id : option pystr) (timestamp : datetime) : res OperationalTelemetry.t :=
  let graph := graph_retrieval execution in
  let graph_used :=
    from_option GraphRetrievalExecutionMetadata.graph_retrieval_used false graph in
  let vector_used :=
    negb (Z.eqb evidence_count 0) &&
    from_option (λ g,
      Z.ltb 0 (GraphRetrievalExecutionMetadata.vector_evidence_count g) ||
      Z.ltb 0 (GraphRetrievalExecutionMetadata.hybrid_evidence_count g)) true graph in
  let c := execution_counters execution model_call_count in
  let health := execution_health gate_decision (Counters.degraded c) in
  res_bind (calculate_estimated_cost token_usage input_cost_per_million
              output_cost_per_million) (λ cost,
  res_bind (RuntimeTraceEvent.construct
    (RuntimeTraceEvent.mk (datetime_minus_ms timestamp duration_ms) request_id
       RuntimeTraceEventType.ASSESSMENT_STARTED "assessment" "started" None None)) (λ started,
  res_bind (RuntimeTraceEvent.construct
    (RuntimeTraceEvent.mk timestamp request_id
       RuntimeTraceEventType.QUALITY_GATE_EVALUATED "runtime_risk_gate"
       (RuntimeRiskDecision.value gate_decision) (Some 0%Z) None)) (λ evaluated,
  OperationalTelemetry.construct
    (OperationalTelemetry.mk request_id (execution_mode execution) health.1
       duration_ms duration_ms None None (Counters.synthesis_duration c)
       (Some (Counters.model_calls c)) [] None (Counters.tool_calls c) graph_used vector_used
       (Counters.specialist_durations c) 0 0 (Z.b2z (Counters.degraded c)) health.2
       (Counters.termination c) token_usage cost
       (match cost with Some _ => Some (lit "USD") | None => None end)
       [started; evaluated])))).

(** ** app/observability/exporters.py: the attribute allowlist *)

(** [str(uuid)]: a parameter of the exporter model. *)
Definition safe_span_attributes (uuid_str : uuid → pystr) (assessment_id : uuid)
    (t : OperationalTelemetry.t) (g : QualityGateResult.t) : pydict :=
  let usage := OperationalTelemetry.token_usage t in
  [ (lit "assessment.id", PStr (uuid_str assessment_id));
    (lit "assessment.execution_mode", PStr (OperationalTelemetry.execution_mode t));
    (lit "assessment.execution_health",
       PStr (ExecutionHealth.value (OperationalTelemetry.execution_health t)));
    (lit "assessment.duration_ms", PInt (OperationalTelemetry.total_duration_ms t));
    (lit "assessment.execution_duration_ms",
       PInt (OperationalTelemetry.execution_duration_ms t));
    (lit "assessment.model_calls", PInt (default 0%Z (OperationalTelemetry.model_call_count t)));
    (lit "assessment.embedding_calls",
       PInt (default 0%Z (OperationalTelemetry.embedding_call_count t)));
    (lit "assessment.tool_calls", PInt (OperationalTelemetry.tool_call_count t));
    (lit "assessment.retry_count", PInt (OperationalTelemetry.retry_count t));
    (lit "assessment.timeout_count", PInt (OperationalTelemetry.timeout_count t));
    (lit "assessment.degraded_state_count", PInt (OperationalTelemetry.degraded_state_count t));
    (lit "assessment.review_status",
       PStr (HumanReviewStatus.value (OperationalTelemetry.human_review_status t)));
    (lit "assessment.termination_reason", PStr (OperationalTelemetry.termination_reason t));
    (lit "assessment.gate_decision",
       PStr (RuntimeRiskDecision.value (QualityGateResult.decision g)));
    (lit "assessment.risk_level",
       PStr (RuntimeRiskLevel.value (QualityGateResult.risk_level g)));
    (lit "assessment.graph_retrieval_used",
       PBool (OperationalTelemetry.graph_retrieval_used t));
    (lit "assessment.vector_retrieval_used",
       PBool (OperationalTelemetry.vector_retrieval_used t)) ] ++
  match OperationalTelemetry.request_id t with
  | Some r => [(lit "request.id", PStr r)] | None => []
  end ++
  match usage with
  | Some u =>
      match ProviderTokenUsage.input_tokens u with
      | Some n => [(lit "gen_ai.usage.input_tokens", PInt n)] | None => []
      end ++
      match ProviderTokenUsage.output_tokens u with
      | Some n => [(lit "gen_ai.usage.output_tokens", PInt n)] | None => []
      end
  | None => []
  end.

(** ** Lemmas *)

Section recorder.
Import RuntimeMetricsRecorder.

(** The calls a provider or tool makes on the recorder. *)
Inductive metric_op :=
  | ModelCall (duration_ms : Z) (response : provider_response)
  | EmbeddingCall (duration_ms : Z)
  | ToolCall (duration_ms : Z)
  | Retry (attempt : Z) (category : FailureCategory.t).

Definition run_op (op : metric_op) : M t unit :=
  match op with
  | ModelCall d response => record_model_call d response
  | EmbeddingCall d => record_embedding_call d
  | ToolCall d => record_tool_call d
  | Retry n category => record_retry n category
  end.

(** A [ProviderTokenUsage] is an instance, so its constraints hold. *)
Definition op_valid (op : metric_op) : Prop :=
  match op with
  | ModelCall _ (TokenUsage u) => ProviderTokenUsage.valid u = true
  | _ => True
  end.

Lemma add_counter_ok f c r :
  opt_all (Z.leb 0) c = true → (∀ n r', (0 ≤ n)%Z → recorder_ok r' → recorder_ok (f n r')) →
  recorder_ok r → recorder_ok (add_counter f c r).1.
Proof.
  intros Hc Hf Hr. destruct c as [n|]; simpl; [|done]. apply Hf; [|done].
  by apply Z.leb_le.
Qed.

Lemma add_input_ok n r : (0 ≤ n)%Z → recorder_ok r → recorder_ok (add_input n r).
Proof. unfold recorder_ok. simpl. intuition lia. Qed.
Lemma add_output_ok n r : (0 ≤ n)%Z → recorder_ok r → recorder_ok (add_output n r).
Proof. unfold recorder_ok. simpl. intuition lia. Qed.
Lemma add_total_ok n r : (0 ≤ n)%Z → recorder_ok r → recorder_ok (add_total n r).
Proof. unfold recorder_ok. simpl. intuition lia. Qed.

(** An invariant kept by each step is kept by a sequence, wherever it stops. *)
Lemma bind_preserves {S A B} (P : S → Prop) (m : M S A) (k : A → M S B) s :
  P (m s).1 → (∀ a s', P s' → P (k a s').1) → P (bind m k s).1.
Proof. unfold bind. destruct (m s) as [s' [a|e]]; simpl; auto. Qed.

Lemma record_usage_ok response r :
  op_valid (ModelCall 0 response) → recorder_ok r → recorder_ok (_record_usage response r).1.
Proof.
  intros Hv Hr. destruct response as [u|i o n|]; simpl in *; [| |done].
  - unfold ProviderTokenUsage.valid in Hv. split_bools.
    apply (bind_preserves recorder_ok); [done|]. intros _ r1 Hr1.
    apply (bind_preserves recorder_ok); [by apply add_counter_ok; auto using add_input_ok|]. intros _ r2 Hr2.
    apply (bind_preserves recorder_ok); [by apply add_counter_ok; auto using add_output_ok|]. intros _ r3 Hr3.
    apply add_counter_ok; auto using add_total_ok.
  - repeat case_match; simpl; split_bools; try done;
      apply add_total_ok, add_output_ok, add_input_ok; try (by apply Z.leb_le);
      destruct Hr as (?&?&?&?&?); unfold recorder_ok; simpl; auto.
Qed.

Lemma append_nonneg l d :
  Forall (λ n, 0 ≤ n)%Z l → Forall (λ n, 0 ≤ n)%Z (l ++ [Z.max 0 d]).
Proof. intros Hl. apply Forall_app; split; [done|]. constructor; [lia|constructor]. Qed.

Lemma run_op_ok op r : op_valid op → recorder_ok r → recorder_ok (run_op op r).1.
Proof.
  intros Hv Hr. destruct op as [d response|d|d|n category]; simpl in *.
  - apply (bind_preserves recorder_ok); [|intros _ r'; by apply record_usage_ok].
    destruct Hr as (?&?&?&?&?). unfold recorder_ok. simpl. auto using append_nonneg.
  - destruct Hr as (?&?&?&?&?). unfold recorder_ok. simpl. auto using append_nonneg.
  - destruct Hr as (?&?&?&?&?). unfold recorder_ok. simpl. auto using append_nonneg.
  - unfold record_retry, bind. simpl.
    destruct Hr as (?&?&?&?&?). case_decide; unfold recorder_ok; simpl; split_and!; try done; lia.
Qed.

Definition run_ops (ops : list metric_op) (r : t) : t :=
  fold_left (λ r op, (run_op op r).1) ops r.

Lemma run_ops_ok ops r : Forall op_valid ops → recorder_ok r → recorder_ok (run_ops ops r).
Proof.
  revert r; induction ops as [|op ops IH]; intros r Hv Hr; [done|].
  inversion_clear Hv. simpl. apply IH; [done|]. by apply run_op_ok.
Qed.

Lemma empty_recorder_ok : recorder_ok empty.
Proof. unfold recorder_ok, empty. simpl. split_and!; constructor || lia. Qed.

Lemma token_usage_ok r :
  recorder_ok r →
  ∃ u, token_usage r = Ok u ∧ opt_all ProviderTokenUsage.valid u = true.
Proof.
  intros (_&_&_&_&Hi&Ho&Ht). unfold token_usage.
  destruct (_usage_observed r); [|by eexists].
  unfold ProviderTokenUsage.construct, ProviderTokenUsage.normalize, ProviderTokenUsage.valid.
  simpl. rewrite !(proj2 (Z.leb_le _ _)) by done. simpl. eexists; split; [done|].
  simpl. unfold ProviderTokenUsage.valid. simpl. by rewrite !(proj2 (Z.leb_le _ _)).
Qed.
End recorder.

(** *** Building telemetry *)

(** What is known of a request identifier: bounded, without surrounding space. *)
Definition request_id_ok (o : option pystr) : Prop :=
  opt_all (len_le 128) o = true ∧ str_strip <$> o = o.

Lemma trace_event_construct ts rid ty component status d :
  request_id_ok rid → datetime.utcoffset ts = Some 0%Z →
  len_in 1 100 component = true → str_strip component = component →
  len_in 1 50 status = true → str_strip status = status → opt_all (Z.leb 0) d = true →
  let e := RuntimeTraceEvent.mk ts rid ty component status d None in
  RuntimeTraceEvent.construct e = Ok e ∧ trace_event_ok e.
Proof.
  intros [Hr1 Hr2] Hts Hc1 Hc2 Hs1 Hs2 Hd e.
  assert (RuntimeTraceEvent.normalize e = e) as Hn.
  { unfold RuntimeTraceEvent.normalize. simpl. by rewrite Hr2, Hc2, Hs2. }
  assert (RuntimeTraceEvent.valid e = true) as Hv.
  { unfold RuntimeTraceEvent.valid. simpl. rewrite !andb_true_iff. auto. }
  unfold RuntimeTraceEvent.construct. rewrite Hn, Hv. split; [done|]. by split.
Qed.

Definition execution_valid (execution : ExecutionMetadata) : bool :=
  match execution with
  | Deterministic m => DeterministicExecutionMetadata.valid m
  | SingleAgent m => AssessmentExecutionMetadata.valid m
  | MultiAgent m => MultiAgentExecutionMetadata.valid m
  end.

Lemma execution_mode_ok execution :
  execution_valid execution = true →
  len_in 1 30 (execution_mode execution) = true ∧
  str_strip (execution_mode execution) = execution_mode execution.
Proof.
  assert (∀ (m : pystr) l, mem m l = true →
    forallb (λ m, len_in 1 30 m && bool_decide (str_strip m = m)) l = true →
    len_in 1 30 m = true ∧ str_strip m = m) as H.
  { intros m l Hm Hl. rewrite mem_spec in Hm.
    rewrite forallb_Forall, Forall_forall in Hl. specialize (Hl m Hm). simpl in Hl.
    apply andb_true_iff in Hl as [? Hs]. apply bool_decide_eq_true in Hs. done. }
  intros Hv. destruct execution as [m|m|m]; simpl in *.
  - unfold DeterministicExecutionMetadata.valid in Hv. split_bools. eapply H; [done|]. vm_compute. done.
  - unfold AssessmentExecutionMetadata.valid in Hv. split_bools. eapply H; [done|]. vm_compute. done.
  - unfold MultiAgentExecutionMetadata.valid in Hv. split_bools. eapply H; [done|]. vm_compute. done.
Qed.

Lemma termination_ok execution n :
  let t := Counters.termination (execution_counters execution n) in
  len_in 1 100 t = true ∧ str_strip t = t.
Proof.
  destruct execution as [m|m|m]; simpl; [by vm_compute| |].
  - destruct (AssessmentExecutionMetadata.termination_reason m); by vm_compute.
  - destruct (MultiAgentExecutionMetadata.termination_reason m); by vm_compute.
Qed.

Lemma counters_nonneg execution n :
  execution_valid execution = true → opt_all (Z.leb 0) n = true →
  let c := execution_counters execution n in
  (0 ≤ Counters.tool_calls c)%Z ∧ (0 ≤ Counters.model_calls c)%Z ∧
  opt_all (Z.leb 0) (Counters.synthesis_duration c) = true.
Proof.
  intros Hv Hn. destruct execution as [m|m|m]; simpl in *.
  - split_and!; [lia| |done]. destruct n; simpl in *; [by apply Z.leb_le|lia].
  - unfold AssessmentExecutionMetadata.valid in Hv. split_bools.
    split_and!; [lia| |done]. destruct n; simpl in *; apply Z.leb_le; [done|].
    apply Z.leb_le. match goal with H : Z.leb 0 (AssessmentExecutionMetadata.steps_used m) = true |- _ =>
      apply Z.leb_le in H; lia end.
  - unfold MultiAgentExecutionMetadata.valid, MultiAgentDurations.valid in Hv. split_bools.
    split_and!; [by apply Z.leb_le| |done].
    destruct n; simpl in *; [by apply Z.leb_le|]. repeat case_bool_decide; simpl; lia.
Qed.

Lemma cost_ok_nonneg x : cost_ok x = true → fleb (float_of_Z 0) x = true.
Proof. destruct x as [[]|[]| |[] m e]; try done; reflexivity. Qed.

(** Valid inputs give a telemetry record that survives persistence, with the health and
    review status of the gate decision. *)
Lemma build_telemetry_ok execution d decision usage n mc ic oc rid ts cost :
  execution_valid execution = true → (0 ≤ d)%Z → opt_all (Z.leb 0) mc = true →
  opt_all ProviderTokenUsage.valid usage = true → request_id_ok rid →
  datetime.utcoffset ts = Some 0%Z →
  calculate_estimated_cost usage ic oc = Ok cost → opt_all cost_ok cost = true →
  ∃ t, build_operational_telemetry execution d decision usage n mc ic oc rid ts = Ok t ∧
    telemetry_ok t ∧
    OperationalTelemetry.execution_health t =
      (execution_health decision (Counters.degraded (execution_counters execution mc))).1 ∧
    OperationalTelemetry.human_review_status t =
      (execution_health decision (Counters.degraded (execution_counters execution mc))).2 ∧
    OperationalTelemetry.execution_duration_ms t = d ∧
    OperationalTelemetry.request_id t = rid ∧
    (OperationalTelemetry.estimated_cost t = cost ∧
     length (OperationalTelemetry.events t) = 2%nat)%type.
Proof.
  intros Hv Hd Hmc Hu Hrid Hts Hcost Hcok. unfold build_operational_telemetry.
  rewrite Hcost. simpl.
  destruct (trace_event_construct (datetime_minus_ms ts d) rid
    RuntimeTraceEventType.ASSESSMENT_STARTED "assessment" "started" None) as [He1 Hk1]; try done.
  destruct (trace_event_construct ts rid RuntimeTraceEventType.QUALITY_GATE_EVALUATED
    "runtime_risk_gate" (RuntimeRiskDecision.value decision) (Some 0%Z)) as [He2 Hk2];
    try done; try by destruct decision.
  rewrite He1. simpl. rewrite He2. simpl.
  unfold OperationalTelemetry.construct.
  destruct (execution_mode_ok execution Hv) as [Hm1 Hm2].
  pose proof (termination_ok execution mc) as [Ht1 Ht2].
  pose proof (counters_nonneg execution mc Hv Hmc) as (Hc1 & Hc2 & Hc3).
  set (raw := OperationalTelemetry.mk _ _ _ _ _ _ _ _ _ _ _ _ _ _ _ _ _ _ _ _ _ _ _ _).
  assert (OperationalTelemetry.normalize raw = raw) as Hn.
  { unfold OperationalTelemetry.normalize, raw. simpl. rewrite (proj2 Hrid), Hm2, Ht2.
    by destruct cost. }
  assert (OperationalTelemetry.valid raw = true) as Hval.
  { unfold OperationalTelemetry.valid, raw. simpl. rewrite !andb_true_iff.
    split_and!; first [done | by apply Z.leb_le | apply Hrid | apply Hk1 | apply Hk2 |
      by destruct (Counters.degraded _) |
      by destruct cost | by destruct cost; simpl in *; [apply cost_ok_nonneg|]]. }
  assert (Forall trace_event_ok (OperationalTelemetry.events raw)) as Hev.
  { apply Forall_cons; split; [exact Hk1|]. apply Forall_cons; by split. }
  rewrite Hn, Hval. eexists. split; [done|]. by split_and!.
Qed.

(** * What the metrics recorder and the exporter guarantee: after any sequence of calls the
    counters are exactly what was observed, and only allowlisted attributes leave the
    process. *)

Section recorder.
Import RuntimeMetricsRecorder.

(** ** What a sequence of calls reports *)

Definition model_duration (op : metric_op) : option Z :=
  match op with ModelCall d _ => Some (Z.max 0 d) | _ => None end.
Definition embedding_duration (op : metric_op) : option Z :=
  match op with EmbeddingCall d => Some (Z.max 0 d) | _ => None end.
Definition tool_duration (op : metric_op) : option Z :=
  match op with ToolCall d => Some (Z.max 0 d) | _ => None end.
Definition is_retry (op : metric_op) : option FailureCategory.t :=
  match op with Retry _ category => Some category | _ => None end.

(** The usage a response carries: three non-negative integers, the total being the sum
    when the provider leaves it out. *)
Definition reported_usage (op : metric_op) : option (Z * Z * Z) :=
  match op with
  | ModelCall _ (TokenUsage u) =>
      match ProviderTokenUsage.input_tokens u, ProviderTokenUsage.output_tokens u,
            ProviderTokenUsage.total_tokens u with
      | Some i, Some o, Some n => Some (i, o, n)
      | _, _, _ => None
      end
  | ModelCall _ (WithUsage vi vo vn) =>
      match as_int vi, as_int vo with
      | Some i, Some o =>
          match match vn with PNone => Some (i + o)%Z | _ => as_int vn end with
          | Some n => if Z.leb 0 i && Z.leb 0 o && Z.leb 0 n then Some (i, o, n) else None
          | None => None
          end
      | _, _ => None
      end
  | _ => None
  end.

(** A [ProviderTokenUsage] reports all three counters. *)
Definition op_complete (op : metric_op) : Prop :=
  op_valid op ∧ match op with
                | ModelCall _ (TokenUsage _) => is_Some (reported_usage op)
                | _ => True
                end.

(** The recorder after the calls [ops], by what they report. *)
Definition account (ops : list metric_op) (r : t) : t :=
  let usages := omap reported_usage ops in
  mk (model_call_durations_ms r ++ omap model_duration ops)
     (embedding_call_durations_ms r ++ omap embedding_duration ops)
     (tool_call_durations_ms r ++ omap tool_duration ops)
     (retry_count r + Z.of_nat (length (omap is_retry ops)))
     (timeout_count r + Z.of_nat (length (filter (λ c, c = FailureCategory.TIMEOUT)
                                            (omap is_retry ops))))
     (_input_tokens r + sum_Z ((λ u, u.1.1) <$> usages))
     (_output_tokens r + sum_Z ((λ u, u.1.2) <$> usages))
     (_total_tokens r + sum_Z ((λ u, u.2) <$> usages))
     (_usage_observed r || truthy usages).

(** The usage part of a call, as [_record_usage] performs it. *)
Definition add_usage (o : option (Z * Z * Z)) (r : t) : t :=
  match o with
  | None => r
  | Some (i, o, n) => add_total n (add_output o (add_input i (r <| _usage_observed := true |>)))
  end.

Lemma record_usage_effect d response r :
  op_complete (ModelCall d response) →
  (_record_usage response r).1 = add_usage (reported_usage (ModelCall d response)) r.
Proof.
  intros [_ Hc]. destruct response as [u|vi vo vn|]; [| |done].
  - simpl in *. destruct Hc as [[[i o] n] Hc]. unfold bind, modify, add_counter.
    destruct (ProviderTokenUsage.input_tokens u), (ProviderTokenUsage.output_tokens u),
      (ProviderTokenUsage.total_tokens u); try done.
  - simpl. clear Hc. destruct (as_int vi) as [i|] eqn:Hi, (as_int vo) as [o|] eqn:Ho;
      destruct vn; simpl; try done; repeat case_match; simplify_eq/=; done.
Qed.

Lemma run_op_effect op r : op_complete op → (run_op op r).1 = account [op] r.
Proof.
  intros Hc. destruct r as [m e tl rc tc i o n b].
  destruct op as [d response|d|d|a category]; simpl.
  - unfold record_model_call, bind at 1, modify. simpl.
    rewrite (record_usage_effect d) by done.
    assert (∀ (o : option (Z * Z * Z)), omap (λ _ : unit, o) [tt] = option_list o) as Ho
      by (by intros []).
    unfold account. change (omap reported_usage [ModelCall d response]) with
      (omap (λ _ : unit, reported_usage (ModelCall d response)) [tt]). rewrite Ho.
    destruct (reported_usage (ModelCall d response)) as [[[ui uo] un]|]; csimpl;
      rewrite ?app_nil_r, ?Z.add_0_r, ?orb_true_r, ?orb_false_r; done.
  - unfold account. csimpl. by rewrite !app_nil_r, !Z.add_0_r, orb_false_r.
  - unfold account. csimpl. by rewrite !app_nil_r, !Z.add_0_r, orb_false_r.
  - unfold account, record_retry, bind, modify. csimpl. rewrite filter_cons.
    destruct (decide (category = FailureCategory.TIMEOUT)); csimpl;
      by rewrite !app_nil_r, !Z.add_0_r, orb_false_r.
Qed.

Lemma omap_cons_app {A B} (f : A → option B) a l : omap f (a :: l) = omap f [a] ++ omap f l.
Proof. csimpl. by destruct (f a). Qed.

Lemma sum_Z_app l1 l2 : sum_Z (l1 ++ l2) = (sum_Z l1 + sum_Z l2)%Z.
Proof. induction l1; simpl; lia. Qed.

Lemma truthy_app {A} (l1 l2 : list A) : truthy (l1 ++ l2) = truthy l1 || truthy l2.
Proof. by destruct l1. Qed.

Lemma account_cons op ops r : account ops (account [op] r) = account (op :: ops) r.
Proof.
  unfold account. cbn [RuntimeMetricsRecorder.model_call_durations_ms
    embedding_call_durations_ms tool_call_durations_ms retry_count timeout_count _input_tokens
    _output_tokens _total_tokens _usage_observed].
  rewrite (omap_cons_app model_duration op ops), (omap_cons_app embedding_duration op ops),
    (omap_cons_app tool_duration op ops), (omap_cons_app is_retry op ops),
    (omap_cons_app reported_usage op ops).
  rewrite !app_assoc, !length_app, filter_app, length_app, !fmap_app, !sum_Z_app, truthy_app,
    orb_assoc. f_equal; lia.
Qed.

Lemma run_ops_account ops r : Forall op_complete ops → run_ops ops r = account ops r.
Proof.
  revert r; induction ops as [|op ops IH]; intros r Hc.
  - unfold account. csimpl. destruct r. simpl. by rewrite !app_nil_r, !Z.add_0_r, orb_false_r.
  - inversion_clear Hc. cbn [run_ops fold_left]. fold (run_ops ops (run_op op r).1).
    rewrite IH, run_op_effect by done. apply account_cons.
Qed.

(** The recorder accounts exactly for what it was told: after any sequence of calls
    the durations are the reported ones in order, clamped at zero, the retry and timeout
    counts are the numbers of retries and of timeouts among them, and the token usage is
    absent exactly when no provider reported usage and the sums of the reported counters
    otherwise; it never fails to build. *)
Theorem recorder_accounts ops :
  Forall op_complete ops →
  let r := run_ops ops empty in
  model_call_durations_ms r = omap model_duration ops ∧
  embedding_call_durations_ms r = omap embedding_duration ops ∧
  tool_call_durations_ms r = omap tool_duration ops ∧
  retry_count r = Z.of_nat (length (omap is_retry ops)) ∧
  timeout_count r = Z.of_nat (length (filter (λ c, c = FailureCategory.TIMEOUT)
                                        (omap is_retry ops))) ∧
  recorder_ok r ∧
  token_usage r = Ok (match omap reported_usage ops with
                      | [] => None
                      | usages => Some (ProviderTokenUsage.mk
                          (Some (sum_Z ((λ u, u.1.1) <$> usages)))
                          (Some (sum_Z ((λ u, u.1.2) <$> usages)))
                          (Some (sum_Z ((λ u, u.2) <$> usages))))
                      end).
Proof.
  intros Hc r.
  assert (recorder_ok r) as Hok.
  { apply run_ops_ok; [|apply empty_recorder_ok]. eapply Forall_impl; [done|]. by intros ? []. }
  pose proof (token_usage_ok r Hok) as (u & Hu & _).
  unfold r in *. rewrite run_ops_account in * by done. split_and!; try done.
  revert Hu. unfold token_usage, account. cbn [_usage_observed _input_tokens _output_tokens
    _total_tokens empty orb].
  destruct (omap reported_usage ops) as [|x l]; [done|]. cbn [truthy].
  unfold ProviderTokenUsage.construct. destruct (ProviderTokenUsage.valid _); [|done].
  intros _. reflexivity.
Qed.
End recorder.

Lemma recorder_accounts_witness :
  let ops := [ModelCall 12 (WithUsage (PInt 10) (PInt 5) PNone); Retry 1 FailureCategory.TIMEOUT;
              ModelCall (-3) NoUsage; ToolCall 7;
              ModelCall 4 (WithUsage (PInt 1) (PInt 2) (PInt 3))] in
  RuntimeMetricsRecorder.model_call_durations_ms (run_ops ops RuntimeMetricsRecorder.empty) =
    [12; 0; 4]%Z ∧
  token_usage (run_ops ops RuntimeMetricsRecorder.empty) =
    Ok (Some (ProviderTokenUsage.mk (Some 11%Z) (Some 7%Z) (Some 18%Z))).
Proof.
  intros ops. assert (Forall op_complete ops) as H by (repeat constructor; done).
  destruct (recorder_accounts ops H) as (Hm & _ & _ & _ & _ & _ & Hu).
  split; [exact Hm|exact Hu].
Defined.
