(* ===== verification/Identity.v ===== *)
(** Identity: app/identity/models.py, app/identity/tokens.py and the authorization
    dependencies of app/identity/dependencies.py.  The JWT library and the key resolver
    are parameters; Unicode case folding is the class [UnicodeDB]. *)
From S2P Require Import Prelude PyFloat Errors Domain Unicode Session Storage.

(** ** app/identity/models.py *)

Module Role.
Inductive t := ANALYST | REVIEWER | ADMIN.
Definition value (x : t) : pystr :=
  match x with ANALYST => "analyst" | REVIEWER => "reviewer" | ADMIN => "admin" end.
Definition members : list t := [ANALYST; REVIEWER; ADMIN].
#[export] Instance eq_dec : EqDecision t.
Proof. solve_decision. Defined.
End Role.
#[export] Existing Instance Role.eq_dec.
#[export] Instance role_enum : StrEnum Role.t.
Proof. solve_enum Role.value Role.members. Defined.

(** The frozen set of roles is the list of its members without repetition. *)
Module AuthenticatedPrincipal.
Record t := mk {
  subject : pystr;
  email : option pystr;
  display_name : option pystr;
  roles : list Role.t;
  issuer : pystr
}.
Definition valid (r : t) : bool :=
  len_in 1 255 (subject r) && opt_all (len_le 320) (email r) &&
  opt_all (len_le 255) (display_name r) && len_ge 1 (roles r) && len_in 1 255 (issuer r).
Definition construct (r : t) : res t :=
  if valid r then Ok r else Raise ValidationError.

Definition can_review (r : t) : bool :=
  truthy (filter (λ x, x ∈ [Role.REVIEWER; Role.ADMIN]) (roles r)).
Definition audit_role (r : t) : Role.t :=
  if decide (Role.ADMIN ∈ roles r) then Role.ADMIN
  else if decide (Role.REVIEWER ∈ roles r) then Role.REVIEWER
  else Role.ANALYST.
End AuthenticatedPrincipal.
Abbreviation principal := AuthenticatedPrincipal.t.

(** ** app/identity/tokens.py *)

Section tokens.
Context `{db : UnicodeDB}.
(** [str(value)] of a claim that is not a string. *)
Context (str_of : pyval → pystr).

Definition py_str (v : pyval) : pystr := match v with PStr s => s | _ => str_of v end.

(** [isinstance(x, str) and x.strip()]. *)
Definition nonblank_str (v : option pyval) : option pystr :=
  match v with
  | Some (PStr s) => if truthy (str_strip s) then Some s else None
  | _ => None
  end.

(** An optional claim that must be a string when it is not [None]. *)
Definition optional_str (v : option pyval) : res (option pystr) :=
  match v with
  | None | Some PNone => Ok None
  | Some (PStr s) => Ok (Some s)
  | Some _ => Raise (ApplicationError AuthenticationRequiredError)
  end.

Definition raw_roles (claims : pydict) : pyval :=
  let raw := match dict_get claims "roles" with
             | Some v => v
             | None => default (PList []) (dict_get claims "role")
             end in
  match raw with PStr s => PList [PStr s] | _ => raw end.

Definition parse_roles (l : list pyval) : res (list Role.t) :=
  res_map (λ v, enum_of_value (casefold (py_str v))) l.

(** [claims.get("name", claims.get("display_name"))]. *)
Definition name_claim (claims : pydict) : option pyval :=
  match dict_get claims "name" with
  | Some v => Some v
  | None => dict_get claims "display_name"
  end.

Definition principal_from_claims (claims : pydict) : res principal :=
  match nonblank_str (dict_get claims "sub"), nonblank_str (dict_get claims "iss") with
  | Some subject, Some issuer =>
      match raw_roles claims with
      | PList (v :: vs) =>
          match parse_roles (v :: vs) with
          | Raise ValueError => Raise (ApplicationError AuthenticationRequiredError)
          | Raise e => Raise e
          | Ok roles =>
              res_bind (optional_str (dict_get claims "email")) (λ email,
              res_bind (optional_str (name_claim claims)) (λ display_name,
              AuthenticatedPrincipal.construct
                (AuthenticatedPrincipal.mk subject email display_name
                   (dict_fromkeys roles) issuer)))
          end
      | _ => Raise (ApplicationError AuthenticationRequiredError)
      end
  | _, _ => Raise (ApplicationError AuthenticationRequiredError)
  end.

(** The exception classes [verify] turns into [AuthenticationRequiredError]:
    [InvalidTokenError], [PyJWKClientError], [TypeError], [ValueError], [KeyError]. *)
Definition token_failure (jwks : bool) (e : exn) : bool :=
  match e with
  | OtherException name =>
      bool_decide (name = lit "InvalidTokenError") ||
      jwks && bool_decide (name = lit "PyJWKClientError")
  | TypeError | ValueError | ValidationError | KeyError => true
  | _ => false
  end.

Definition or_authentication_required {A} (jwks : bool) (r : res A) : res A :=
  match r with
  | Ok a => Ok a
  | Raise e => if token_failure jwks e then Raise (ApplicationError AuthenticationRequiredError)
               else Raise e
  end.

(** [LocalJWTVerifier.verify]; [decode token key] is [jwt.decode] with the verifier's
    algorithm, issuer, audience, leeway and required claims. *)
Definition local_verify {K} (decode : pystr → K → res pydict) (verification_key : K)
    (token : pystr) : res principal :=
  or_authentication_required false
    (res_bind (decode token verification_key) principal_from_claims).

(** [OIDCJWKSVerifier.verify]; the signing key is resolved from the token. *)
Definition jwks_verify {K} (decode : pystr → K → res pydict) (resolve : pystr → res K)
    (token : pystr) : res principal :=
  or_authentication_required true
    (res_bind (resolve token) (λ key, res_bind (decode token key) principal_from_claims)).

(** ** app/identity/dependencies.py *)

(** [get_authenticated_principal]: [credentials] is the scheme and the token. *)
Definition get_authenticated_principal (auth_enabled : bool)
    (credentials : option (pystr * pystr)) (verifier : option (pystr → res principal)) :
    res principal :=
  if negb auth_enabled then
    AuthenticatedPrincipal.construct
      (AuthenticatedPrincipal.mk "local-development" None
         (Some (lit "Local development principal")) [Role.ADMIN] "local-development")
  else
    match credentials, verifier with
    | Some (scheme, token), Some verify =>
        if bool_decide (casefold scheme = lit "bearer") then verify token
        else Raise (ApplicationError AuthenticationRequiredError)
    | _, _ => Raise (ApplicationError AuthenticationRequiredError)
    end.

Definition require_reviewer_or_admin (p : principal) : res principal :=
  if negb (AuthenticatedPrincipal.can_review p) then Raise (ApplicationError PermissionDeniedError)
  else Ok p.

Definition require_admin (p : principal) : res principal :=
  if decide (Role.ADMIN ∈ AuthenticatedPrincipal.roles p) then Ok p
  else Raise (ApplicationError PermissionDeniedError).

(** The dependency chain of a reviewer endpoint. *)
Definition reviewer_endpoint (auth_enabled : bool) (credentials : option (pystr * pystr))
    (verifier : option (pystr → res principal)) : res principal :=
  res_bind (get_authenticated_principal auth_enabled credentials verifier)
    require_reviewer_or_admin.
End tokens.

(** ** Lemmas *)

Lemma can_review_spec p :
  AuthenticatedPrincipal.can_review p = true ↔
  Role.REVIEWER ∈ AuthenticatedPrincipal.roles p ∨ Role.ADMIN ∈ AuthenticatedPrincipal.roles p.
Proof.
  unfold AuthenticatedPrincipal.can_review. split.
  - destruct (filter _ _) as [|r l] eqn:Hf; [done|]. intros _.
    assert (r ∈ filter (λ x, x ∈ [Role.REVIEWER; Role.ADMIN])
      (AuthenticatedPrincipal.roles p)) as Hr by (rewrite Hf; left).
    apply list_elem_of_filter in Hr as [Hr ?]. set_solver.
  - intros H. destruct (filter _ _) as [|r l] eqn:Hf; [|done].
    assert (∃ r, r ∈ filter (λ x, x ∈ [Role.REVIEWER; Role.ADMIN])
      (AuthenticatedPrincipal.roles p)) as [r Hr].
    { destruct H; eexists; apply list_elem_of_filter; (split; [|done]); set_solver. }
    rewrite Hf in Hr. set_solver.
Qed.

(** Only a reviewer's or an administrator's role is recorded for who may review. *)
Lemma audit_role_reviews p :
  AuthenticatedPrincipal.can_review p = true →
  AuthenticatedPrincipal.audit_role p ≠ Role.ANALYST.
Proof.
  rewrite can_review_spec. unfold AuthenticatedPrincipal.audit_role.
  repeat case_decide; naive_solver.
Qed.

Lemma enum_of_value_raises {X} `{StrEnum X} s e : enum_of_value s = Raise e → e = ValueError.
Proof. unfold enum_of_value. case_match; congruence. Qed.

Lemma res_map_Ok {A B} (f : A → res B) l bs :
  res_map f l = Ok bs → Forall2 (λ a b, f a = Ok b) l bs.
Proof.
  revert bs; induction l as [|a l IH]; simpl; intros bs; [intros [= <-]; constructor|].
  destruct (f a) eqn:Ha; simpl; [|done]. destruct (res_map f l); simpl; [|done].
  intros [= <-]. constructor; [done|]. by apply IH.
Qed.

Section claims.
Context `{db : UnicodeDB} (str_of : pyval → pystr).

Definition is_auth_failure (e : exn) : Prop :=
  e = ApplicationError AuthenticationRequiredError.

Lemma optional_str_raises v e : optional_str v = Raise e → is_auth_failure e.
Proof. unfold optional_str, is_auth_failure. repeat case_match; naive_solver. Qed.

(** What [principal_from_claims] can raise. *)
Lemma principal_from_claims_raises claims e :
  principal_from_claims str_of claims = Raise e → is_auth_failure e ∨ e = ValidationError.
Proof.
  unfold principal_from_claims, is_auth_failure. intros H.
  destruct (nonblank_str (dict_get claims "sub")) as [sub|]; [|naive_solver].
  destruct (nonblank_str (dict_get claims "iss")) as [iss|]; [|naive_solver].
  destruct (raw_roles claims) as [| | | | |[|v vs]|]; try naive_solver.
  destruct (parse_roles str_of (v :: vs)) as [roles|e'] eqn:Hp.
  - destruct (optional_str (dict_get claims "email")) as [em|] eqn:Hem; simpl in H;
      [|apply optional_str_raises in Hem; naive_solver].
    destruct (optional_str (name_claim claims)) as [nm|] eqn:Hnm; simpl in H;
      [|apply optional_str_raises in Hnm; naive_solver].
    unfold AuthenticatedPrincipal.construct in H. case_match; naive_solver.
  - apply res_map_raises in Hp as (w & _ & ->%enum_of_value_raises). naive_solver.
Qed.

(** What a principal took from its claims. *)
Lemma principal_from_claims_Ok claims p :
  principal_from_claims str_of claims = Ok p →
  dict_get claims "sub" = Some (PStr (AuthenticatedPrincipal.subject p)) ∧
  dict_get claims "iss" = Some (PStr (AuthenticatedPrincipal.issuer p)) ∧
  AuthenticatedPrincipal.valid p = true ∧
  ∃ values, raw_roles claims = PList values ∧
    ∀ r, r ∈ AuthenticatedPrincipal.roles p →
      ∃ v, v ∈ values ∧ casefold (py_str str_of v) = Role.value r.
Proof.
  unfold principal_from_claims. intros H.
  destruct (nonblank_str (dict_get claims "sub")) as [sub|] eqn:Hs; [|done].
  destruct (nonblank_str (dict_get claims "iss")) as [iss|] eqn:Hi; [|done].
  destruct (raw_roles claims) as [| | | | |[|v vs]|] eqn:Hr; try done.
  destruct (parse_roles str_of (v :: vs)) as [roles|[]] eqn:Hp; try done.
  destruct (optional_str (dict_get claims "email")) as [em|]; simpl in H; [|done].
  destruct (optional_str (name_claim claims)) as [nm|]; simpl in H; [|done].
  unfold AuthenticatedPrincipal.construct in H. case_match eqn:Hv; [|done].
  injection H as <-.
  assert (∀ o s, nonblank_str o = Some s → o = Some (PStr s)) as Hn.
  { intros o s. unfold nonblank_str. repeat case_match; naive_solver. }
  split_and!; [by apply Hn|by apply Hn|done|]. exists (v :: vs). split; [done|].
  intros r Hrr. simpl in Hrr. apply dedup_by_subset in Hrr.
  apply res_map_Ok in Hp. apply list_elem_of_lookup in Hrr as [i Hi'].
  destruct (Forall2_lookup_r _ _ _ _ _ Hp Hi') as (w & Hw & He).
  exists w. split; [by eapply list_elem_of_lookup_2|].
  unfold enum_of_value in He. destruct (py_next _ _) as [x|] eqn:Hx; [|done].
  injection He as ->. apply py_next_Some in Hx as [_ Hx]. by apply bool_decide_eq_true in Hx.
Qed.

Lemma or_auth_raises {A} jwks (r : res A) e :
  (∀ e, r = Raise e → token_failure jwks e = true ∨ is_auth_failure e) →
  or_authentication_required jwks r = Raise e → is_auth_failure e.
Proof.
  intros H. unfold or_authentication_required. destruct r as [a|e']; [done|].
  destruct (H e' eq_refl) as [-> | ->]; [by intros [= <-]|]. simpl. by intros [= <-].
Qed.

Lemma or_auth_Ok {A} jwks (r : res A) a : or_authentication_required jwks r = Ok a → r = Ok a.
Proof. unfold or_authentication_required. by repeat case_match. Qed.

(** ** Properties *)

(** C32: with authentication on, a reviewer endpoint serves a request only for a bearer
    token that the verification key accepts and whose own claims carry the reviewer or
    the administrator role; the identity recorded is the one in the claims. *)
Theorem reviewer_endpoint_sound {K} (decode : pystr → K → res pydict) (key : K) credentials p :
  reviewer_endpoint true credentials (Some (local_verify str_of decode key)) = Ok p →
  ∃ scheme token claims values v,
    credentials = Some (scheme, token) ∧ casefold scheme = lit "bearer" ∧
    decode token key = Ok claims ∧
    dict_get claims "sub" = Some (PStr (AuthenticatedPrincipal.subject p)) ∧
    dict_get claims "iss" = Some (PStr (AuthenticatedPrincipal.issuer p)) ∧
    raw_roles claims = PList values ∧ v ∈ values ∧
    casefold (py_str str_of v) ∈ [Role.value Role.REVIEWER; Role.value Role.ADMIN] ∧
    AuthenticatedPrincipal.audit_role p ≠ Role.ANALYST.
Proof.
  unfold reviewer_endpoint, get_authenticated_principal. simpl.
  destruct credentials as [[scheme token]|]; [|done].
  case_bool_decide as Hsch; [|done].
  destruct (local_verify str_of decode key token) as [q|] eqn:Hv; [|done].
  unfold require_reviewer_or_admin. simpl.
  destruct (AuthenticatedPrincipal.can_review q) eqn:Hrev; [|done]. simpl.
  intros [= ->]. apply or_auth_Ok in Hv.
  destruct (decode token key) as [claims|] eqn:Hd; [|done]. simpl in Hv.
  apply principal_from_claims_Ok in Hv as (Hsub & Hiss & _ & values & Hraw & Hroles).
  pose proof (audit_role_reviews p Hrev) as Haudit.
  apply can_review_spec in Hrev.
  assert (∃ r, r ∈ AuthenticatedPrincipal.roles p ∧ (r = Role.REVIEWER ∨ r = Role.ADMIN))
    as (r & Hr & Hrr) by naive_solver.
  destruct (Hroles r Hr) as (v & Hv & Hcf).
  exists scheme, token, claims, values, v. split_and!; try done.
  rewrite Hcf. destruct Hrr as [-> | ->]; set_solver.
Qed.

(** Whatever the token, a verifier whose library calls raise only their documented
    exceptions never raises anything but [AuthenticationRequiredError]: no detail of a
    malformed token reaches the caller. *)
Theorem verify_failures {K} (decode : pystr → K → res pydict) (resolve : pystr → res K)
    token e :
  (∀ t k e, decode t k = Raise e → token_failure true e = true) →
  (∀ t e, resolve t = Raise e → token_failure true e = true) →
  jwks_verify str_of decode resolve token = Raise e → is_auth_failure e.
Proof.
  intros Hd Hr. apply or_auth_raises. intros e'.
  destruct (resolve token) as [k|] eqn:Hk; simpl; [|intros [= <-]; left; by eapply Hr].
  destruct (decode token k) as [claims|] eqn:Hc; simpl; [|intros [= <-]; left; by eapply Hd].
  intros [?| ->]%principal_from_claims_raises; naive_solver.
Qed.
End claims.

(** A decoder that knows one token, for the witnesses. *)
Definition demo_claims : pydict :=
  [(lit "sub", PStr "alice"); (lit "iss", PStr "idp"); (lit "roles", PList [PStr "Reviewer"])].
Definition demo_decode (token : pystr) (key : unit) : res pydict :=
  if bool_decide (token = lit "good") then Ok demo_claims
  else Raise (OtherException "InvalidTokenError").

Lemma reviewer_endpoint_sound_witness :
  ∃ p, AuthenticatedPrincipal.audit_role p ≠ Role.ANALYST ∧
    AuthenticatedPrincipal.subject p = lit "alice".
Proof.
  destruct (reviewer_endpoint_sound (db := ascii_db) (λ _, []) demo_decode tt
    (Some (lit "Bearer", lit "good"))
    (AuthenticatedPrincipal.mk "alice" None None [Role.REVIEWER] "idp"))
    as (? & ? & ? & ? & ? & ? & ? & ? & ? & ? & ? & ? & ? & ?).
  - vm_compute. reflexivity.
  - eexists. split; [eassumption|reflexivity].
Defined.

Lemma verify_failures_witness :
  is_auth_failure (ApplicationError AuthenticationRequiredError).
Proof.
  apply (verify_failures (db := ascii_db) (λ _, []) demo_decode (λ _, Ok tt) "bad").
  - intros t k e. unfold demo_decode. case_bool_decide; [done|]. intros [= <-]. reflexivity.
  - done.
  - vm_compute. reflexivity.
Defined.
