(* ===== verification/Governance.v ===== *)
(** app/services/runtime_governance.py: [RuntimeGovernanceService], every operation,
    against the session interface of Storage and the repositories. *)
From S2P Require Import Prelude PyFloat Errors Domain AgentModels Schemas RuntimeModels.
From S2P Require Import Gate Session Storage Repositories Telemetry Identity.

(** ** Collaborators *)

(** The telemetry exporter writes to a collector, never to the database. *)
Class Exporter (S : Type) := {
  export : uuid → OperationalTelemetry.t → QualityGateResult.t → M S unit
}.
Class ExporterLaws (D S : Type) `{!Session D S} `{!Exporter S} := {
  export_law id t g s : wp (export id t g) (λ s' _, keeps s s') s
}.

(** The constructor arguments of the service that are not repositories. *)
Module GovernanceConfig.
Record t := mk {
  policy : RuntimeRiskPolicy.t;
  input_cost_per_million : option pyfloat;
  output_cost_per_million : option pyfloat;
  metrics : option RuntimeMetricsRecorder.t
}.
End GovernanceConfig.

(** [signal_overrides]: the fields [model_copy(update=...)] replaces. *)
Inductive signal_flag :=
  | EvidenceRequired | EvidenceAvailable | ProvenanceValid | UnsupportedClaimsDetected
  | DegradedExecution | SpecialistUnavailable | RetrievalFailed | ToolFailed | ModelFailed
  | HumanOversightRequired | HumanOversightPresent | MitigationsComplete.
Inductive signal_override :=
  | OverrideRiskLevel (l : RuntimeRiskLevel.t)
  | OverrideFlag (f : signal_flag) (b : bool).

Section overrides.
Import QualityGateSignals.
Definition apply_override (s : signals) (o : signal_override) : signals :=
  match o with
  | OverrideRiskLevel l => s <| risk_level := l |>
  | OverrideFlag EvidenceRequired b => s <| evidence_required := b |>
  | OverrideFlag EvidenceAvailable b => s <| evidence_available := b |>
  | OverrideFlag ProvenanceValid b => s <| provenance_valid := b |>
  | OverrideFlag UnsupportedClaimsDetected b => s <| unsupported_claims_detected := b |>
  | OverrideFlag DegradedExecution b => s <| degraded_execution := b |>
  | OverrideFlag SpecialistUnavailable b => s <| specialist_unavailable := b |>
  | OverrideFlag RetrievalFailed b => s <| retrieval_failed := b |>
  | OverrideFlag ToolFailed b => s <| tool_failed := b |>
  | OverrideFlag ModelFailed b => s <| model_failed := b |>
  | OverrideFlag HumanOversightRequired b => s <| human_oversight_required := b |>
  | OverrideFlag HumanOversightPresent b => s <| human_oversight_present := b |>
  | OverrideFlag MitigationsComplete b => s <| mitigations_complete := b |>
  end.
End overrides.

(** ** derive_signals *)

Definition severity_order (x : RiskSeverity.t) : RuntimeRiskLevel.t :=
  match x with
  | RiskSeverity.LOW => RuntimeRiskLevel.LOW
  | RiskSeverity.MEDIUM => RuntimeRiskLevel.MEDIUM
  | RiskSeverity.HIGH => RuntimeRiskLevel.HIGH
  | RiskSeverity.CRITICAL => RuntimeRiskLevel.CRITICAL
  end.

(** [max(levels, default=LOW, key=index)]: the first of the greatest. *)
Definition max_level (levels : list RuntimeRiskLevel.t) : RuntimeRiskLevel.t :=
  match levels with
  | [] => RuntimeRiskLevel.LOW
  | l :: ls => fold_left (λ a b, if Z.ltb (level_rank a) (level_rank b) then b else a) ls l
  end.

Definition result_risk_level (result : AssessmentResult.t) : RuntimeRiskLevel.t :=
  max_level ((λ r, severity_order (AssessmentRisk.severity r)) <$> AssessmentResult.risks result).

Definition opt_truthy (o : option pystr) : bool := truthy (default [] o).

(** The pairs [(degraded, retrieval_failed)] read from the graph metadata. *)
Definition graph_signals (execution : ExecutionMetadata) : bool * bool :=
  match graph_retrieval execution with
  | Some g =>
      (GraphRetrievalExecutionMetadata.degraded_graph_mode g,
       opt_truthy (GraphRetrievalExecutionMetadata.graph_error_code g) ||
       opt_truthy (GraphRetrievalExecutionMetadata.vector_error_code g))
  | None => (false, false)
  end.

(** The triple [(degraded, specialist_unavailable, tool_failed)] of the [isinstance]
    cascade, from the graph's [degraded]. *)
Definition execution_signals (execution : ExecutionMetadata) (degraded : bool) :
    bool * bool * bool :=
  match execution with
  | Deterministic _ => (degraded, false, false)
  | SingleAgent m =>
      (degraded ||
         negb (mem (AgentTerminationReason.value (AssessmentExecutionMetadata.termination_reason m))
                 (lit <$> ["completed"; "agent_stopped"])),
       false,
       existsb (λ e, bool_decide (AgentTraceEvent.event_type e = AgentTraceEventType.TOOL_FAILED))
         (AssessmentExecutionMetadata.trace m))
  | MultiAgent m =>
      (degraded || MultiAgentExecutionMetadata.degraded_mode m,
       existsb (λ s, mem s [MultiAgentStatus.FAILED; MultiAgentStatus.SKIPPED])
         (status_values (MultiAgentExecutionMetadata.agent_statuses m)),
       existsb (λ e, bool_decide
           (MultiAgentTraceEvent.event_type e = MultiAgentTraceEventType.TOOL_FAILED))
         (MultiAgentExecutionMetadata.trace m))
  end.

Definition derive_signals (result : AssessmentResult.t) (evidence : list RetrievedEvidence.t)
    (execution : ExecutionMetadata) (provenance_valid : bool) : signals :=
  let risk_level := result_risk_level result in
  let '(graph_degraded, retrieval_failed) := graph_signals execution in
  let '(degraded, specialist_unavailable, tool_failed) :=
    execution_signals execution graph_degraded in
  let evidence_required := mem risk_level [RuntimeRiskLevel.HIGH; RuntimeRiskLevel.CRITICAL] in
  QualityGateSignals.mk risk_level evidence_required (truthy evidence) provenance_valid false
    degraded specialist_unavailable retrieval_failed tool_failed false evidence_required
    (HumanOversight.review_recommended (AssessmentResult.human_oversight result))
    (forallb (λ r, truthy (str_strip (AssessmentRisk.mitigation r)))
       (AssessmentResult.risks result)).

(** ** Telemetry updates *)

Section telemetry_updates.
Import OperationalTelemetry.

(** The [model_copy] that adds the recorder's counters. *)
Definition with_metrics (t : OperationalTelemetry.t) (retrieval : option Z)
    (m : RuntimeMetricsRecorder.t) : OperationalTelemetry.t :=
  let tools := RuntimeMetricsRecorder.tool_call_durations_ms m in
  let models := RuntimeMetricsRecorder.model_call_durations_ms m in
  let observed_retrieval_ms :=
    match retrieval with
    | None => if truthy tools then Some (sum_Z tools) else None
    | _ => retrieval
    end in
  let synthesis :=
    match synthesis_duration_ms t with
    | None => if truthy models then last models else None
    | x => x
    end in
  t <| model_call_durations_ms := models |>
    <| embedding_call_count :=
         Some (Z.of_nat (length (RuntimeMetricsRecorder.embedding_call_durations_ms m))) |>
    <| retrieval_duration_ms := observed_retrieval_ms |>
    <| synthesis_duration_ms := synthesis |>
    <| retry_count := RuntimeMetricsRecorder.retry_count m |>
    <| timeout_count := RuntimeMetricsRecorder.timeout_count m |>.

(** The [model_copy] of [_review_telemetry]. *)
Definition with_review (t : OperationalTelemetry.t) (status : HumanReviewStatus.t)
    (wait_ms : Z) : OperationalTelemetry.t :=
  t <| human_review_status := status |>
    <| human_wait_duration_ms := Some wait_ms |>
    <| total_duration_ms := (execution_duration_ms t + wait_ms)%Z |>
    <| execution_health := if decide (status = HumanReviewStatus.APPROVED)
                           then ExecutionHealth.FULL else execution_health t |>.

Definition with_rejection (t : OperationalTelemetry.t) : OperationalTelemetry.t :=
  t <| execution_health := ExecutionHealth.BLOCKED |>
    <| termination_reason := lit "human_rejection" |>.

(** The [model_copy] of [resume_revision]. *)
Definition merged (old new : OperationalTelemetry.t) (wait_ms : Z)
    (resumed : RuntimeTraceEvent.t) : OperationalTelemetry.t :=
  new <| human_wait_duration_ms := Some wait_ms |>
      <| total_duration_ms := (execution_duration_ms new + wait_ms)%Z |>
      <| events := events old ++ [resumed] ++ events new |>.
End telemetry_updates.

(** [max(0, round((now - then).total_seconds() * 1_000))]. *)
Definition wait_ms (now then_ : datetime) : res Z :=
  res_bind (datetime_sub now then_) (λ delta,
  res_bind (round_ms delta) (λ ms, Ok (Z.max 0 ms))).

(** ** The service *)

Section service.
Context {J S : Type} `{!Session (Database J) S} `{!Exporter S} `{!Json J}.
Context `{!PydanticModel J QualityGateResult.t gate_result_ok}.
Context `{!PydanticModel J OperationalTelemetry.t telemetry_ok}.
Context `{!PydanticModel J AssessmentResult.t assessment_result_ok}.
Context (dump_execution : ExecutionMetadata → J).   (* execution.model_dump(mode="json") *)
Context (config : GovernanceConfig.t).

Definition _required_assessment (assessment_id : uuid) : M S (PersistedAssessment.t J) :=
  let* record := get_by_id assessment_id in
  match record with
  | None => app_raise AssessmentNotFoundError
  | Some record => ret record
  end.

Definition _required_state (assessment_id : uuid) : M S (RuntimeAssessmentState.t J) :=
  _required_assessment assessment_id ;;;
  let* st := try_except (get_state assessment_id)
    (λ e, if is_value_or_type_error e then app_raise PersistenceError else raise e) in
  match st with
  | None => app_raise RuntimeStateNotFoundError
  | Some st => ret st
  end.

Definition _required_pending_state (assessment_id : uuid) : M S (RuntimeAssessmentState.t J) :=
  let* st := _required_state assessment_id in
  if decide (RuntimeAssessmentState.review_status st = HumanReviewStatus.PENDING) then ret st
  else app_raise InvalidReviewTransitionError.

(** Every exception of the exporter is swallowed. *)
Definition _export_telemetry (assessment_id : uuid) (t : OperationalTelemetry.t)
    (g : QualityGateResult.t) : M S unit :=
  try_except (export assessment_id t g) (λ _, ret tt).

Definition _append_event (t : OperationalTelemetry.t) (event_type : RuntimeTraceEventType.t)
    (status component : pystr) : M S OperationalTelemetry.t :=
  let* now := clock in
  let* event := of_res (RuntimeTraceEvent.construct
    (RuntimeTraceEvent.mk now (OperationalTelemetry.request_id t) event_type component status
       None None)) in
  ret (t <| OperationalTelemetry.events := OperationalTelemetry.events t ++ [event] |>).

Definition _review_telemetry (st : RuntimeAssessmentState.t J)
    (review_status : HumanReviewStatus.t) (event_type : RuntimeTraceEventType.t) :
    M S OperationalTelemetry.t :=
  let* now := clock in
  let* ms := of_res (wait_ms now (RuntimeAssessmentState.updated_at st)) in
  let updated := with_review (RuntimeAssessmentState.telemetry st) review_status ms in
  let* updated := _append_event updated RuntimeTraceEventType.HUMAN_REVIEW_RESUMED
    (HumanReviewStatus.value review_status) "human_review" in
  _append_event updated event_type (HumanReviewStatus.value review_status) "human_review".

(** [reviewer_id] of an event and the keyword arguments of [_actor_fields]. *)
Definition _legacy_reviewer (request : HumanReviewRequest.t) : option pystr :=
  HumanReviewRequest.reviewer_id request.
Definition reviewer_id_of (p : option principal) (request : HumanReviewRequest.t) :
    option pystr :=
  match p with
  | Some p => Some (AuthenticatedPrincipal.subject p)
  | None => _legacy_reviewer request
  end.
Definition _actor_fields (p : option principal) : M S Actor.t :=
  match p with
  | None => ret Actor.none
  | Some p =>
      let* request_id := get_request_id in
      ret (Actor.mk (Some (AuthenticatedPrincipal.subject p)) (AuthenticatedPrincipal.email p)
             (Some (Role.value (AuthenticatedPrincipal.audit_role p)))
             (Some (AuthenticatedPrincipal.issuer p)) request_id)
  end.

Definition _persist_transition (st : RuntimeAssessmentState.t J) (action : HumanReviewAction.t)
    (new_status : HumanReviewStatus.t) (request : HumanReviewRequest.t)
    (t : OperationalTelemetry.t) (p : option principal) : M S unit :=
  save_state (RuntimeAssessmentState.assessment_id st) (RuntimeAssessmentState.gate_result st)
    new_status (RuntimeAssessmentState.candidate_result st)
    (RuntimeAssessmentState.candidate_execution st) t
    (RuntimeAssessmentState.revision_count st) (RuntimeAssessmentState.max_revisions st) ;;;
  let* actor := _actor_fields p in
  add_review_event (RuntimeAssessmentState.assessment_id st) action HumanReviewStatus.PENDING
    new_status (reviewer_id_of p request) (HumanReviewRequest.comment request)
    (QualityGateResult.reason_codes (RuntimeAssessmentState.gate_result st))
    (RuntimeAssessmentState.revision_count st) actor ;;;
  ret tt.

Definition _decision (st : RuntimeAssessmentState.t J) (action : HumanReviewAction.t)
    (assessment_status : AssessmentStatus.t) : HumanReviewDecision.t :=
  HumanReviewDecision.mk (RuntimeAssessmentState.assessment_id st) action
    (if decide (action = HumanReviewAction.APPROVED) then HumanReviewStatus.APPROVED
     else HumanReviewStatus.REJECTED)
    (AssessmentStatus.value assessment_status) (RuntimeAssessmentState.revision_count st).

(** *** process_candidate *)

(** The telemetry of a candidate before the lifecycle event is appended. *)
Definition candidate_telemetry (gate_result : QualityGateResult.t)
    (evidence : list RetrievedEvidence.t) (execution : ExecutionMetadata) (duration_ms : Z)
    (retrieval_duration_ms : option Z) : M S OperationalTelemetry.t :=
  let metrics := GovernanceConfig.metrics config in
  let model_call_count :=
    (λ m, Z.of_nat (length (RuntimeMetricsRecorder.model_call_durations_ms m))) <$> metrics in
  let* usage := of_res (match metrics with
                        | Some m => token_usage m
                        | None => Ok None
                        end) in
  let* request_id := get_request_id in
  let* now := clock in
  let* t := of_res (build_operational_telemetry execution duration_ms
    (QualityGateResult.decision gate_result) usage (Z.of_nat (length evidence))
    model_call_count (GovernanceConfig.input_cost_per_million config)
    (GovernanceConfig.output_cost_per_million config) request_id now) in
  ret (match metrics with
       | Some m => with_metrics t retrieval_duration_ms m
       | None => t
       end).

(** The three lifecycle branches: the review status, the record and the telemetry. *)
Definition finalize (assessment_id : uuid) (gate_result : QualityGateResult.t)
    (result_payload execution_payload : J) (t : OperationalTelemetry.t) :
    M S (HumanReviewStatus.t * option (PersistedAssessment.t J) * OperationalTelemetry.t) :=
  match QualityGateResult.decision gate_result with
  | RuntimeRiskDecision.REQUIRE_HUMAN_REVIEW =>
      let* record := mark_pending_review assessment_id (Some execution_payload) in
      let* t := _append_event t RuntimeTraceEventType.HUMAN_REVIEW_REQUESTED
        (HumanReviewStatus.value HumanReviewStatus.PENDING) "human_review" in
      ret (HumanReviewStatus.PENDING, record, t)
  | RuntimeRiskDecision.BLOCK_AND_ESCALATE =>
      let* record := mark_failed assessment_id "runtime_risk_gate_blocked"
        "The assessment was blocked by the runtime risk and quality gate." in
      let* t := _append_event t RuntimeTraceEventType.ASSESSMENT_FAILED "blocked" "assessment" in
      ret (HumanReviewStatus.NOT_REQUIRED, record, t)
  | _ =>
      let* record := mark_completed assessment_id result_payload (Some execution_payload) in
      let* t := _append_event t RuntimeTraceEventType.ASSESSMENT_COMPLETED
        (RuntimeRiskDecision.value (QualityGateResult.decision gate_result)) "assessment" in
      ret (HumanReviewStatus.NOT_REQUIRED, record, t)
  end.

Definition process_candidate (assessment_id : uuid) (result : AssessmentResult.t)
    (evidence : list RetrievedEvidence.t) (execution : ExecutionMetadata) (duration_ms : Z)
    (provenance_valid : bool) (retrieval_duration_ms : option Z)
    (signal_overrides : list signal_override) (revision_count : Z)
    (record_review_request : bool) : M S (PersistedAssessment.t J) :=
  let s := foldl apply_override (derive_signals result evidence execution provenance_valid)
             signal_overrides in
  let* gate_result := of_res (evaluate (GovernanceConfig.policy config) s) in
  let* t := candidate_telemetry gate_result evidence execution duration_ms
              retrieval_duration_ms in
  let result_payload := model_dump result in
  let execution_payload := dump_execution execution in
  let* outcome := finalize assessment_id gate_result result_payload execution_payload t in
  let '(review_status, record, t) := outcome in
  match record with
  | None => app_raise PersistenceError
  | Some record =>
      save_state assessment_id gate_result review_status (Some result_payload)
        (Some execution_payload) t revision_count
        (RuntimeRiskPolicy.max_human_revisions (GovernanceConfig.policy config)) ;;;
      (if bool_decide (review_status = HumanReviewStatus.PENDING) && record_review_request then
         add_review_event assessment_id HumanReviewAction.REQUESTED
           HumanReviewStatus.NOT_REQUIRED HumanReviewStatus.PENDING None None
           (QualityGateResult.reason_codes gate_result) revision_count Actor.none ;;;
         ret tt
       else ret tt) ;;;
      _export_telemetry assessment_id t gate_result ;;;
      ret record
  end.

(** *** Reads *)

Definition get_runtime_status (assessment_id : uuid) : M S RuntimeStatusResponse.t :=
  let* st := _required_state assessment_id in
  ret (RuntimeStatusResponse.mk assessment_id (RuntimeAssessmentState.gate_result st)
         (RuntimeAssessmentState.review_status st) (RuntimeAssessmentState.revision_count st)
         (RuntimeAssessmentState.max_revisions st) (RuntimeAssessmentState.telemetry st)).

Definition list_reviews (assessment_id : uuid) : M S (list HumanReviewRecord.t) :=
  _required_assessment assessment_id ;;;
  list_review_events assessment_id.

(** [ReviewCandidateResponse]: the candidate, its execution metadata and the checkpoint. *)
Definition get_review_candidate (assessment_id : uuid) :
    M S (AssessmentResult.t * option J * RuntimeAssessmentState.t J) :=
  _required_assessment assessment_id ;;;
  let* st := _required_state assessment_id in
  match RuntimeAssessmentState.candidate_result st with
  | None => app_raise PersistenceError
  | Some payload =>
      let* result := try_except (of_res (model_validate payload))
        (λ e, if decide (e = ValidationError) then app_raise PersistenceError else raise e) in
      ret (result, RuntimeAssessmentState.candidate_execution st, st)
  end.

(** *** Reviewer actions *)

Definition approve (assessment_id : uuid) (request : HumanReviewRequest.t)
    (p : option principal) : M S HumanReviewDecision.t :=
  let* st := _required_pending_state assessment_id in
  match RuntimeAssessmentState.candidate_result st with
  | None => app_raise PersistenceError
  | Some candidate =>
      let* record := mark_completed assessment_id candidate
        (RuntimeAssessmentState.candidate_execution st) in
      match record with
      | None => app_raise PersistenceError
      | Some record =>
          let* t := _review_telemetry st HumanReviewStatus.APPROVED
            RuntimeTraceEventType.HUMAN_REVIEW_APPROVED in
          _persist_transition st HumanReviewAction.APPROVED HumanReviewStatus.APPROVED
            request t p ;;;
          commit ;;;
          _export_telemetry assessment_id t (RuntimeAssessmentState.gate_result st) ;;;
          ret (_decision st HumanReviewAction.APPROVED (PersistedAssessment.status record))
      end
  end.

Definition reject (assessment_id : uuid) (request : HumanReviewRequest.t)
    (p : option principal) : M S HumanReviewDecision.t :=
  let* st := _required_pending_state assessment_id in
  let* record := mark_failed assessment_id "human_review_rejected"
    "The assessment was rejected during human review." in
  match record with
  | None => app_raise PersistenceError
  | Some record =>
      let* t := _review_telemetry st HumanReviewStatus.REJECTED
        RuntimeTraceEventType.HUMAN_REVIEW_REJECTED in
      let t := with_rejection t in
      _persist_transition st HumanReviewAction.REJECTED HumanReviewStatus.REJECTED
        request t p ;;;
      commit ;;;
      _export_telemetry assessment_id t (RuntimeAssessmentState.gate_result st) ;;;
      ret (_decision st HumanReviewAction.REJECTED (PersistedAssessment.status record))
  end.

Definition request_revision (assessment_id : uuid) (request : HumanReviewRequest.t)
    (p : option principal) : M S HumanReviewDecision.t :=
  let* st := _required_pending_state assessment_id in
  if Z.leb (RuntimeAssessmentState.max_revisions st) (RuntimeAssessmentState.revision_count st)
  then app_raise RevisionLimitReachedError
  else
    let revision := (RuntimeAssessmentState.revision_count st + 1)%Z in
    let* t := _review_telemetry st HumanReviewStatus.REVISION_REQUESTED
      RuntimeTraceEventType.REVISION_REQUESTED in
    save_state assessment_id (RuntimeAssessmentState.gate_result st)
      HumanReviewStatus.REVISION_REQUESTED (RuntimeAssessmentState.candidate_result st)
      (RuntimeAssessmentState.candidate_execution st) t revision
      (RuntimeAssessmentState.max_revisions st) ;;;
    let* actor := _actor_fields p in
    add_review_event assessment_id HumanReviewAction.REVISION_REQUESTED
      HumanReviewStatus.PENDING HumanReviewStatus.REVISION_REQUESTED
      (reviewer_id_of p request) (HumanReviewRequest.comment request)
      (QualityGateResult.reason_codes (RuntimeAssessmentState.gate_result st)) revision actor ;;;
    commit ;;;
    _export_telemetry assessment_id t (RuntimeAssessmentState.gate_result st) ;;;
    ret (HumanReviewDecision.mk assessment_id HumanReviewAction.REVISION_REQUESTED
           HumanReviewStatus.REVISION_REQUESTED
           (AssessmentStatus.value AssessmentStatus.PENDING_REVIEW) revision).

Definition get_revision_feedback (assessment_id : uuid) : M S HumanReviewRecord.t :=
  let* st := _required_state assessment_id in
  if decide (RuntimeAssessmentState.review_status st = HumanReviewStatus.REVISION_REQUESTED) then
    let* events := list_review_events assessment_id in
    match py_next (λ item,
            bool_decide (HumanReviewRecord.action item = HumanReviewAction.REVISION_REQUESTED) &&
            Z.eqb (HumanReviewRecord.revision_number item)
              (RuntimeAssessmentState.revision_count st)) (reverse events) with
    | None => app_raise PersistenceError
    | Some event => ret event
    end
  else app_raise InvalidReviewTransitionError.

Definition resume_revision (assessment_id : uuid) (result : AssessmentResult.t)
    (evidence : list RetrievedEvidence.t) (execution : ExecutionMetadata) (duration_ms : Z)
    (provenance_valid : bool) : M S (PersistedAssessment.t J) :=
  let* st := _required_state assessment_id in
  if decide (RuntimeAssessmentState.review_status st = HumanReviewStatus.REVISION_REQUESTED) then
    let previous := RuntimeAssessmentState.review_status st in
    let* record := process_candidate assessment_id result evidence execution duration_ms
      provenance_valid None [] (RuntimeAssessmentState.revision_count st) false in
    let* new_state := _required_state assessment_id in
    let* resumed_at := clock in
    let* ms := of_res (wait_ms resumed_at (RuntimeAssessmentState.updated_at st)) in
    let new_telemetry := RuntimeAssessmentState.telemetry new_state in
    let* event := of_res (RuntimeTraceEvent.construct
      (RuntimeTraceEvent.mk resumed_at (OperationalTelemetry.request_id new_telemetry)
         RuntimeTraceEventType.HUMAN_REVIEW_RESUMED "human_review" "revision_submitted"
         None None)) in
    let merged_telemetry :=
      merged (RuntimeAssessmentState.telemetry st) new_telemetry ms event in
    save_state assessment_id (RuntimeAssessmentState.gate_result new_state)
      (RuntimeAssessmentState.review_status new_state)
      (RuntimeAssessmentState.candidate_result new_state)
      (RuntimeAssessmentState.candidate_execution new_state) merged_telemetry
      (RuntimeAssessmentState.revision_count new_state)
      (RuntimeAssessmentState.max_revisions new_state) ;;;
    add_review_event assessment_id HumanReviewAction.REVISION_SUBMITTED previous
      (RuntimeAssessmentState.review_status new_state) None None
      (QualityGateResult.reason_codes (RuntimeAssessmentState.gate_result new_state))
      (RuntimeAssessmentState.revision_count st) Actor.none ;;;
    commit ;;;
    _export_telemetry assessment_id merged_telemetry
      (RuntimeAssessmentState.gate_result new_state) ;;;
    ret record
  else app_raise InvalidReviewTransitionError.
End service.
