(* ===== verification/ReviewSpec.v ===== *)
(** The review boundary as an abstract state machine: what app/services/runtime_governance.py
    promises about one assessment, without sessions, rows or payload formats.

    A [case] is what can be observed of an assessment that reached the gate; [step] is the
    transition relation of the reviewer actions and of a resumed revision; [case_inv]
    holds of every reachable case.  GovernanceSpec shows that the service refines it. *)
From S2P Require Import Prelude PyFloat Errors Domain RuntimeModels.

(** One line of the audit trail. *)
Record entry := Entry {
  e_action : HumanReviewAction.t;
  e_previous : HumanReviewStatus.t;
  e_new : HumanReviewStatus.t;
  e_revision : Z
}.

Record case {P : Type} := Case {
  c_status : AssessmentStatus.t;       (* assessments.status *)
  c_published : option P;              (* assessments.result_payload *)
  c_candidate : P;                     (* the checkpoint's candidate *)
  c_review : HumanReviewStatus.t;
  c_revision : Z;
  c_limit : Z;
  c_trail : list entry
}.
Arguments case : clear implicits.
Arguments Case {P} _ _ _ _ _ _ _.

Inductive label := Approve | Reject | RequestRevision | Resume.

(** Where a gate decision leaves the assessment: its status, whether the candidate is
    published, and the review status. *)
Inductive outcome := Published | Blocked | AwaitingReview.
Definition outcome_status (o : outcome) : AssessmentStatus.t :=
  match o with
  | Published => AssessmentStatus.COMPLETED
  | Blocked => AssessmentStatus.FAILED
  | AwaitingReview => AssessmentStatus.PENDING_REVIEW
  end.
Definition outcome_review (o : outcome) : HumanReviewStatus.t :=
  match o with AwaitingReview => HumanReviewStatus.PENDING | _ => HumanReviewStatus.NOT_REQUIRED end.
Definition outcome_published {P} (o : outcome) (candidate : P) : option P :=
  match o with Published => Some candidate | _ => None end.
Definition outcome_of (d : RuntimeRiskDecision.t) : outcome :=
  match d with
  | RuntimeRiskDecision.REQUIRE_HUMAN_REVIEW => AwaitingReview
  | RuntimeRiskDecision.BLOCK_AND_ESCALATE => Blocked
  | _ => Published
  end.

Section machine.
Context {P : Type}.
Implicit Types c : case P.

(** A candidate's first passage through the gate. *)
Definition opened (o : outcome) (candidate : P) (limit : Z) : case P :=
  Case (outcome_status o) (outcome_published o candidate) candidate (outcome_review o) 0 limit
    (match o with
     | AwaitingReview => [Entry HumanReviewAction.REQUESTED HumanReviewStatus.NOT_REQUIRED
                            HumanReviewStatus.PENDING 0]
     | _ => []
     end).

(** A new candidate in answer to a revision request, left where [o] puts it. *)
Definition resumed (o : outcome) (candidate : P) (limit : Z) (c : case P) : case P :=
  Case (outcome_status o) (outcome_published o candidate) candidate (outcome_review o)
    (c_revision c) limit
    (c_trail c ++ [Entry HumanReviewAction.REVISION_SUBMITTED
                     HumanReviewStatus.REVISION_REQUESTED (outcome_review o) (c_revision c)]).

Inductive step : case P → label → case P → Prop :=
  | step_approve status published candidate revision limit trail :
      step (Case status published candidate HumanReviewStatus.PENDING revision limit trail)
        Approve
        (Case AssessmentStatus.COMPLETED (Some candidate) candidate
           HumanReviewStatus.APPROVED revision limit
           (trail ++ [Entry HumanReviewAction.APPROVED HumanReviewStatus.PENDING
                        HumanReviewStatus.APPROVED revision]))
  | step_reject status published candidate revision limit trail :
      step (Case status published candidate HumanReviewStatus.PENDING revision limit trail)
        Reject
        (Case AssessmentStatus.FAILED None candidate
           HumanReviewStatus.REJECTED revision limit
           (trail ++ [Entry HumanReviewAction.REJECTED HumanReviewStatus.PENDING
                        HumanReviewStatus.REJECTED revision]))
  | step_request status published candidate revision limit trail :
      (revision < limit)%Z →
      step (Case status published candidate HumanReviewStatus.PENDING revision limit trail)
        RequestRevision
        (Case status published candidate
           HumanReviewStatus.REVISION_REQUESTED (revision + 1) limit
           (trail ++ [Entry HumanReviewAction.REVISION_REQUESTED HumanReviewStatus.PENDING
                        HumanReviewStatus.REVISION_REQUESTED (revision + 1)]))
  | step_resume status published candidate revision limit trail o candidate' limit' :
      (revision ≤ limit')%Z →
      step (Case status published candidate HumanReviewStatus.REVISION_REQUESTED
              revision limit trail)
        Resume
        (Case (outcome_status o) (outcome_published o candidate') candidate'
           (outcome_review o) revision limit'
           (trail ++ [Entry HumanReviewAction.REVISION_SUBMITTED
                        HumanReviewStatus.REVISION_REQUESTED (outcome_review o) revision])).

(** The cases some sequence of actions leads to. *)
Inductive reachable : case P → Prop :=
  | reachable_opened o candidate limit : (0 ≤ limit)%Z → reachable (opened o candidate limit)
  | reachable_step c l c' : reachable c → step c l c' → reachable c'.

(** ** Invariant *)

(** The trail is a path of review statuses from [s] to [s']. *)
Fixpoint trail_path (s : HumanReviewStatus.t) (tr : list entry) (s' : HumanReviewStatus.t) : Prop :=
  match tr with
  | [] => s = s'
  | e :: tr' => e_previous e = s ∧ trail_path (e_new e) tr' s'
  end.

Definition is_request (e : entry) : Prop := e_action e = HumanReviewAction.REVISION_REQUESTED.
#[global] Instance is_request_dec e : Decision (is_request e).
Proof. unfold is_request. apply _. Defined.

(** The numbers of the revision requests, in order. *)
Definition request_numbers (tr : list entry) : list Z := e_revision <$> filter is_request tr.

Definition count_action (a : HumanReviewAction.t) (tr : list entry) : nat :=
  length (filter (λ e, e_action e = a) tr).

Record case_inv (c : case P) : Prop := {
  inv_bounds : (0 ≤ c_revision c ≤ c_limit c)%Z;
  inv_lifecycle :
    match c_review c with
    | HumanReviewStatus.PENDING | HumanReviewStatus.REVISION_REQUESTED =>
        c_status c = AssessmentStatus.PENDING_REVIEW ∧ c_published c = None
    | HumanReviewStatus.APPROVED =>
        c_status c = AssessmentStatus.COMPLETED ∧ c_published c = Some (c_candidate c)
    | HumanReviewStatus.REJECTED =>
        c_status c = AssessmentStatus.FAILED ∧ c_published c = None
    | HumanReviewStatus.NOT_REQUIRED =>
        (c_status c = AssessmentStatus.COMPLETED ∧ c_published c = Some (c_candidate c)) ∨
        (c_status c = AssessmentStatus.FAILED ∧ c_published c = None)
    end;
  inv_trail : trail_path HumanReviewStatus.NOT_REQUIRED (c_trail c) (c_review c);
  inv_requests : request_numbers (c_trail c) = seqZ 1 (c_revision c);
  inv_requested : c_review c = HumanReviewStatus.REVISION_REQUESTED → (1 ≤ c_revision c)%Z;
  inv_decisions :
    (count_action HumanReviewAction.APPROVED (c_trail c) +
     count_action HumanReviewAction.REJECTED (c_trail c) ≤ 1)%nat ∧
    (c_review c ∈ [HumanReviewStatus.PENDING; HumanReviewStatus.REVISION_REQUESTED] →
     count_action HumanReviewAction.APPROVED (c_trail c) = 0%nat ∧
     count_action HumanReviewAction.REJECTED (c_trail c) = 0%nat)
}.

Lemma trail_path_snoc s tr s' e :
  trail_path s tr s' → e_previous e = s' → trail_path s (tr ++ [e]) (e_new e).
Proof.
  revert s; induction tr as [|e' tr IH]; simpl; intros s H He; [by subst|].
  destruct H as [-> H]. split; [done|]. by apply IH.
Qed.

Lemma request_numbers_snoc tr e :
  request_numbers (tr ++ [e]) =
  request_numbers tr ++ if decide (is_request e) then [e_revision e] else [].
Proof.
  unfold request_numbers. rewrite filter_app, fmap_app. f_equal.
  rewrite filter_cons. by case_decide.
Qed.

Lemma count_action_snoc a tr e :
  count_action a (tr ++ [e]) =
  (count_action a tr + if decide (e_action e = a) then 1 else 0)%nat.
Proof.
  unfold count_action. rewrite filter_app, length_app, filter_cons. by case_decide.
Qed.

Lemma opened_inv o candidate limit : (0 ≤ limit)%Z → case_inv (opened o candidate limit).
Proof.
  intros Hl. destruct o; constructor; simpl; try lia; try done; auto; set_solver.
Qed.

Lemma step_inv c l c' : step c l c' → case_inv c → case_inv c'.
Proof.
  intros Hs Hi. destruct Hi as [Hb Hl Ht Hr Hq Hd].
  destruct Hs; simpl in *; (constructor; simpl;
    [ lia
    | try done; try (by destruct o; simpl; auto)
    | eapply (trail_path_snoc _ _ _ (Entry _ _ _ _)); [exact Ht|done]
    | rewrite request_numbers_snoc, Hr; simpl; rewrite ?app_nil_r; try done
    | try done; try lia; try (by destruct o)
    | rewrite !count_action_snoc; simpl; destruct Hd as [Hd1 Hd2];
      destruct Hd2; [set_solver|]; split; [lia|try (set_solver); try lia] ]).
  rewrite (seqZ_app 1 revision 1) by lia. f_equal.
  rewrite seqZ_cons, seqZ_nil by lia. f_equal; lia.
Qed.

Lemma reachable_inv c : reachable c → case_inv c.
Proof. induction 1; eauto using opened_inv, step_inv. Qed.

(** ** Consequences *)

(** Reviewer actions are only possible while a review is pending. *)
Lemma step_from c l c' :
  step c l c' →
  c_review c = match l with Resume => HumanReviewStatus.REVISION_REQUESTED
               | _ => HumanReviewStatus.PENDING end.
Proof. by destruct 1. Qed.

Lemma step_resumed o candidate limit c :
  c_review c = HumanReviewStatus.REVISION_REQUESTED → (c_revision c ≤ limit)%Z →
  step c Resume (resumed o candidate limit c).
Proof. destruct c; simpl. intros -> Hl. by apply step_resume. Qed.

(** A decided case never moves again. *)
Definition final (c : case P) : Prop :=
  c_review c ∈ [HumanReviewStatus.NOT_REQUIRED; HumanReviewStatus.APPROVED;
                HumanReviewStatus.REJECTED].

Lemma final_stuck c l c' : final c → ¬ step c l c'.
Proof. unfold final. intros Hf Hs. pose proof (step_from _ _ _ Hs) as Hr.
  rewrite Hr, !elem_of_cons in Hf. destruct l; naive_solver (by eapply not_elem_of_nil).
Qed.

(** Every revision consumes the budget: the requests and resumptions still possible while
    at most [limit] revisions are configured. *)
Definition measure (limit : Z) (c : case P) : Z :=
  (2 * (limit - c_revision c) +
   match c_review c with
   | HumanReviewStatus.REVISION_REQUESTED => 2
   | HumanReviewStatus.PENDING => 1
   | _ => 0
   end)%Z.

Lemma step_measure limit c l c' : step c l c' → (measure limit c' < measure limit c)%Z.
Proof. intros Hs. destruct Hs; unfold measure; simpl; try lia. destruct o; simpl; lia. Qed.

Lemma measure_nonneg limit c : case_inv c → (c_limit c ≤ limit)%Z → (0 ≤ measure limit c)%Z.
Proof. intros [Hb _ _ _ _ _] Hl. unfold measure. destruct (c_review c); lia. Qed.

Lemma measure_opened limit o candidate l :
  (measure limit (opened o candidate l) ≤ 2 * limit + 1)%Z.
Proof. unfold measure. destruct o; simpl; lia. Qed.

(** Only a resumption takes over the configured limit. *)
Lemma step_limit c l c' : step c l c' → l ≠ Resume → c_limit c' = c_limit c.
Proof. by destruct 1. Qed.
End machine.
