(* ===== verification/GovernanceSpec.v ===== *)
(** The governance service refines the review state machine of ReviewSpec.

    [represents db id c]: the tables hold the case [c] for the assessment [id].  Each
    reviewer action, run in a transaction, either commits exactly one step of the
    machine on its own assessment and changes no other, or raises a known exception
    and commits nothing. *)
From S2P Require Import Prelude Errors PyFloat Domain AgentModels Schemas RuntimeModels Gate.
From S2P Require Import Session Storage Repositories Telemetry Identity Governance ReviewSpec.
(** * Lemmas on the pieces of the governance service: every telemetry update keeps a
    telemetry record fit for persistence, and the transaction rules of the service's
    helpers. *)

(** ** Telemetry updates *)

Section telemetry.
Import OperationalTelemetry.
Implicit Types t : OperationalTelemetry.t.

(** [telemetry_ok], one conjunct per constrained field. *)
Record telemetry_fields (t : OperationalTelemetry.t) : Prop := {
  tf_request_id : request_id_ok (request_id t);
  tf_mode : len_in 1 30 (execution_mode t) = true ∧ str_strip (execution_mode t) = execution_mode t;
  tf_total : (0 ≤ total_duration_ms t)%Z;
  tf_execution : (0 ≤ execution_duration_ms t)%Z;
  tf_wait : opt_all (Z.leb 0) (human_wait_duration_ms t) = true;
  tf_retrieval : opt_all (Z.leb 0) (retrieval_duration_ms t) = true;
  tf_synthesis : opt_all (Z.leb 0) (synthesis_duration_ms t) = true;
  tf_models : opt_all (Z.leb 0) (model_call_count t) = true;
  tf_embeddings : opt_all (Z.leb 0) (embedding_call_count t) = true;
  tf_tools : (0 ≤ tool_call_count t)%Z;
  tf_retries : (0 ≤ retry_count t)%Z;
  tf_timeouts : (0 ≤ timeout_count t)%Z;
  tf_degraded : (0 ≤ degraded_state_count t)%Z;
  tf_termination : len_in 1 100 (termination_reason t) = true ∧
    str_strip (termination_reason t) = termination_reason t;
  tf_usage : opt_all ProviderTokenUsage.valid (token_usage t) = true;
  tf_cost : opt_all cost_ok (estimated_cost t) = true;
  tf_currency : opt_all (len_le 10) (estimated_cost_currency t) = true ∧
    str_strip <$> estimated_cost_currency t = estimated_cost_currency t;
  tf_events : Forall trace_event_ok (events t)
}.

Lemma telemetry_ok_fields t : telemetry_ok t ↔ telemetry_fields t.
Proof.
  destruct t as [rid mode health total exec wait retr synth models mdur emb tools g v sp retries
    timeouts degr review term usage cost cur evs].
  unfold telemetry_ok, valid, normalize, request_id_ok. simpl. split.
  - intros (Hv & Hn & He & Hc). injection Hn as Hn1 Hn2 Hn3 Hn4. split_bools.
    constructor; simpl; try split; try (by apply Z.leb_le); try done.
  - intros [[]? ? ? ? ? ? ? ? ? ? ? ? ? ? ? ? Hev]; simpl in *. destruct_and!.
    split_and!; try done.
    + rewrite !andb_true_iff. split_and!; try done; try (by apply Z.leb_le).
      * destruct cost; [by apply cost_ok_nonneg|done].
      * apply forallb_Forall. eapply Forall_impl; [done|]. by intros e [? ?].
    + by f_equal.
Qed.

Lemma telemetry_ok_append t e :
  telemetry_ok t → trace_event_ok e → telemetry_ok (t <| events := events t ++ [e] |>).
Proof.
  rewrite !telemetry_ok_fields. intros [] He. constructor; simpl; try done.
  apply Forall_app. split; [done|by constructor].
Qed.

Lemma telemetry_ok_review t status ms :
  telemetry_ok t → (0 ≤ ms)%Z → telemetry_ok (with_review t status ms).
Proof.
  rewrite !telemetry_ok_fields. intros [] Hms. constructor; simpl; try done; lia.
Qed.

Lemma telemetry_ok_rejection t : telemetry_ok t → telemetry_ok (with_rejection t).
Proof. rewrite !telemetry_ok_fields. intros []. by constructor. Qed.

Lemma sum_Z_nonneg l : Forall (λ n, 0 ≤ n)%Z l → (0 ≤ sum_Z l)%Z.
Proof. induction 1; simpl; lia. Qed.

Lemma telemetry_ok_metrics t retrieval m :
  telemetry_ok t → recorder_ok m → opt_all (Z.leb 0) retrieval = true →
  telemetry_ok (with_metrics t retrieval m).
Proof.
  rewrite !telemetry_ok_fields. intros [] (Hm & He & Ht & Hr & _) Hret.
  constructor; simpl; try done; try lia.
  - destruct retrieval as [n|]; [done|].
    destruct (truthy _); simpl; [|done]. apply Z.leb_le. by apply sum_Z_nonneg.
  - destruct (synthesis_duration_ms t); [done|].
    destruct (truthy _); simpl; [|done].
    destruct (last _) as [x|] eqn:Hx; simpl; [|done]. apply Z.leb_le.
    rewrite Forall_forall in Hm. apply Hm. by apply last_Some_elem_of.
  - apply Z.leb_le. lia.
Qed.

Lemma telemetry_ok_merged old new ms e :
  telemetry_ok old → telemetry_ok new → (0 ≤ ms)%Z → trace_event_ok e →
  telemetry_ok (merged old new ms e).
Proof.
  rewrite !telemetry_ok_fields. intros [] [] Hms He. constructor; simpl; try done; try lia.
  apply Forall_app. split; [done|]. by constructor.
Qed.

Lemma telemetry_ok_request_id t : telemetry_ok t → request_id_ok (request_id t).
Proof. rewrite telemetry_ok_fields. by intros []. Qed.
End telemetry.

(** ** Timing *)

(** The arithmetic on two UTC timestamps can only fail in the rounding of their difference. *)
Definition timing_error (e : exn) : Prop :=
  ∃ a b, datetime.utcoffset a = Some 0%Z ∧ datetime.utcoffset b = Some 0%Z ∧
    wait_ms a b = Raise e.

Lemma wait_ms_nonneg a b ms : wait_ms a b = Ok ms → (0 ≤ ms)%Z.
Proof.
  unfold wait_ms. destruct (datetime_sub a b); simpl; [|done].
  destruct (round_ms _); simpl; [|done]. intros [= <-]. lia.
Qed.

(** ** Transaction rules *)

Section rules.
Context {J S : Type} `{!Session (Database J) S} `{!SessionLaws (Database J) S}.
Context (E : exn → Prop) (HE : ∀ e, is_sql e → E e).
Implicit Types db : Database J.

Lemma txn_append_event t ty status component db Q :
  telemetry_ok t →
  len_in 1 100 component = true → str_strip component = component →
  len_in 1 50 status = true → str_strip status = status →
  (∀ e, trace_event_ok e →
     Q (t <| OperationalTelemetry.events := OperationalTelemetry.events t ++ [e] |>) db) →
  txn (_append_event t ty status component) db E Q.
Proof.
  intros Ht Hc1 Hc2 Hs1 Hs2 HQ. unfold _append_event. txn_steps.
  match goal with H : datetime.utcoffset ?n = _ |- _ =>
    destruct (trace_event_construct n (OperationalTelemetry.request_id t) ty component status
      None (telemetry_ok_request_id _ Ht) H Hc1 Hc2 Hs1 Hs2 eq_refl) as [Heq Hok] end.
  rewrite Heq. txn_steps. by apply HQ.
Qed.

Lemma txn_actor_fields p db Q : (∀ actor, Q actor db) → txn (_actor_fields p) db E Q.
Proof. intros HQ. unfold _actor_fields. destruct p; txn_steps; apply HQ. Qed.

Lemma txn_required_assessment id db Q :
  (Database.assessments db !! id = None → E (ApplicationError AssessmentNotFoundError)) →
  (∀ a, Database.assessments db !! id = Some a → Q (_to_record a) db) →
  txn (_required_assessment id) db E Q.
Proof.
  intros HN HQ. unfold _required_assessment. apply txn_bind, txn_get_by_id; [done|].
  destruct (Database.assessments db !! id) as [a|]; simpl; txn_steps; auto.
Qed.
End rules.

(** *** Committing *)

Section commits.
Context {J S : Type} `{!Session (Database J) S} `{!SessionLaws (Database J) S} `{!Exporter S} `{!ExporterLaws (Database J) S}.
Implicit Types (db : Database J) (E : exn → Prop).

Lemma export_telemetry_law id t g (s : S) :
  wp (_export_telemetry id t g) (λ s' r, keeps s s' ∧ r = Ok tt) s.
Proof.
  unfold _export_telemetry. apply wp_try. eapply wp_mono; [apply export_law|].
  intros s' [[]|e] Hk; [done|]. by apply wp_ret.
Qed.

(** The end of every reviewer action: commit, export, answer. *)
Lemma commits_commit {A} (a : A) id t g db E Q :
  (∀ e, is_sql e → E e) → (Database.ok db → Q a db) →
  commits (commit ;;; _export_telemetry id t g ;;; ret a) db E Q.
Proof.
  intros HE HQ s Hs. unfold commit. apply wp_bind. eapply wp_mono; [apply commit_law|].
  subst db. intros s' [[]|e].
  - intros (Hv & Hd & Hok). apply wp_bind. eapply wp_mono; [apply export_telemetry_law|].
    intros s'' r [[Hv' Hd'] ->]. apply wp_ret. rewrite Hv', Hd', Hv, Hd. auto.
  - intros [He [Hd|[Hd Hok]]]; [left; auto|]. right. split; [done|]. exists a.
    rewrite Hd. auto.
Qed.

End commits.


(** ** Representation *)

Section representation.
Context {J : Type} `{!Json J}.
Context `{!PydanticModel J QualityGateResult.t gate_result_ok}.
Context `{!PydanticModel J OperationalTelemetry.t telemetry_ok}.
Implicit Types (db : Database J) (id : uuid) (c : case J).

(** What a checkpoint row was written from. *)
Record checkpoint := Checkpoint {
  ck_created : datetime;
  ck_updated : datetime;
  ck_gate : QualityGateResult.t;
  ck_execution : J;
  ck_telemetry : OperationalTelemetry.t
}.

Definition checkpoint_ok (k : checkpoint) : Prop :=
  datetime.utcoffset (ck_created k) = Some 0%Z ∧ datetime.utcoffset (ck_updated k) = Some 0%Z ∧
  gate_result_ok (ck_gate k) ∧ json_truthy (ck_execution k) = true ∧
  telemetry_ok (ck_telemetry k).

Definition checkpoint_row id c (k : checkpoint) : RuntimeStateModel.t J :=
  state_row (ck_created k) (ck_updated k) id (ck_gate k) (c_review c) (Some (c_candidate c))
    (Some (ck_execution k)) (ck_telemetry k) (c_revision c) (c_limit c).

Definition checkpoint_state id c (k : checkpoint) : RuntimeAssessmentState.t J :=
  RuntimeAssessmentState.mk J id (ck_gate k) (c_review c) (Some (c_candidate c))
    (Some (ck_execution k)) (ck_telemetry k) (c_revision c) (c_limit c)
    (ck_created k) (ck_updated k).

(** The events of one assessment and the audit entries they record. *)
Definition events_of db id : list ReviewEventModel.t :=
  filter (λ e, ReviewEventModel.assessment_id e = id) (Database.events db).

Definition records_entry id (e : ReviewEventModel.t) (en : entry) : Prop :=
  ∃ u now rid comment reasons actor,
    e = event_row u id now (e_action en) (e_previous en) (e_new en) rid comment reasons
          (e_revision en) actor ∧ datetime.utcoffset now = Some 0%Z.

Definition holds_case db id c (k : checkpoint) : Prop :=
  (∃ a, Database.assessments db !! id = Some a ∧ AssessmentModel.id a = id ∧
        AssessmentModel.status a = c_status c ∧
        AssessmentModel.result_payload a = c_published c) ∧
  Database.states db !! id = Some (checkpoint_row id c k) ∧
  Forall2 (records_entry id) (events_of db id) (c_trail c) ∧
  checkpoint_ok k ∧ json_truthy (c_candidate c) = true ∧ (0 ≤ c_revision c ≤ c_limit c)%Z.

Definition represents db id c : Prop := ∃ k, holds_case db id c k.

(** Nothing is stored about an assessment's review yet. *)
Definition unopened db id : Prop :=
  Database.states db !! id = None ∧ events_of db id = [].

(** Only the rows of [id] differ. *)
Definition frame id db db' : Prop :=
  ∀ id', id' ≠ id →
    Database.assessments db' !! id' = Database.assessments db !! id' ∧
    Database.states db' !! id' = Database.states db !! id' ∧
    events_of db' id' = events_of db id'.

Lemma frame_trans id db1 db2 db3 : frame id db1 db2 → frame id db2 db3 → frame id db1 db3.
Proof. intros H1 H2 id' Hne. destruct (H1 id' Hne) as (<-&<-&<-). by apply H2. Qed.

Lemma frame_represents id id' db db' c :
  frame id db db' → id' ≠ id → represents db id' c → represents db' id' c.
Proof.
  intros Hf Hne [k Hk]. exists k. destruct (Hf id' Hne) as (Ha & Hs & He).
  unfold holds_case. by rewrite Ha, Hs, He.
Qed.

Lemma frame_unopened id id' db db' :
  frame id db db' → id' ≠ id → unopened db id' → unopened db' id'.
Proof. intros Hf Hne. destruct (Hf id' Hne) as (Ha & Hs & He). unfold unopened. by rewrite Hs, He. Qed.

Lemma frame_put_assessment db a : frame (AssessmentModel.id a) db (put_assessment a db).
Proof. intros id' Hne. simpl. by rewrite lookup_insert_ne. Qed.

Lemma frame_put_state db m : frame (RuntimeStateModel.assessment_id m) db (put_state m db).
Proof. intros id' Hne. simpl. by rewrite lookup_insert_ne. Qed.

Lemma events_add_event db e id :
  events_of (add_event e db) id =
  events_of db id ++ if decide (ReviewEventModel.assessment_id e = id) then [e] else [].
Proof. unfold events_of, add_event. simpl. rewrite filter_app, filter_cons. by case_decide. Qed.

Lemma frame_add_event db e : frame (ReviewEventModel.assessment_id e) db (add_event e db).
Proof.
  intros id' Hne. split; [done|]. split; [done|]. rewrite events_add_event.
  rewrite decide_False by done. by rewrite app_nil_r.
Qed.

(** The checkpoint row is read back as the checkpoint state. *)
Lemma checkpoint_row_read id c k :
  checkpoint_ok k → json_truthy (c_candidate c) = true → (0 ≤ c_revision c ≤ c_limit c)%Z →
  _state_from_model (checkpoint_row id c k) = Ok (checkpoint_state id c k).
Proof.
  intros (Hc & Hu & Hg & Hx & Ht) Hj Hb. unfold checkpoint_row.
  rewrite state_row_roundtrip by (done || lia). unfold truthy_payload. rewrite Hj, Hx.
  by rewrite !as_utc_id.
Qed.
End representation.

(** ** The service *)

Section service.
Context {J S : Type} `{!Session (Database J) S} `{!SessionLaws (Database J) S} `{!Exporter S} `{!ExporterLaws (Database J) S}.
Context `{!Json J}.
Context `{!PydanticModel J QualityGateResult.t gate_result_ok}.
Context `{!PydanticModel J OperationalTelemetry.t telemetry_ok}.
Context `{!PydanticModel J AssessmentResult.t assessment_result_ok}.
Context (dump_execution : ExecutionMetadata → J).
Context (dump_execution_truthy : ∀ x, json_truthy (dump_execution x) = true).
Implicit Types (db : Database J) (id : uuid) (c : case J).

Section with_errors.
Context (E : exn → Prop) (HE : ∀ e, is_sql e → E e).

Lemma txn_required_state db id c k Q :
  holds_case db id c k → Q (checkpoint_state id c k) db → txn (_required_state id) db E Q.
Proof.
  intros ((a & Ha & _) & Hs & _ & Hk & Hj & Hb) HQ. unfold _required_state.
  apply txn_bind, txn_required_assessment; [done|by rewrite Ha|]. intros _ _.
  apply txn_bind. apply txn_try with (E' := is_sql).
  - unfold get_state. apply txn_bind, txn_read; [auto|]. rewrite Hs.
    apply txn_bind, txn_of_res. rewrite checkpoint_row_read by done. txn_steps. done.
  - intros e db' [q ->]. simpl. txn_steps. apply HE. by exists q.
Qed.

Lemma txn_required_pending_state db id c k Q :
  holds_case db id c k →
  (c_review c ≠ HumanReviewStatus.PENDING → E (ApplicationError InvalidReviewTransitionError)) →
  (c_review c = HumanReviewStatus.PENDING → Q (checkpoint_state id c k) db) →
  txn (_required_pending_state id) db E Q.
Proof.
  intros Hc Hno HQ. unfold _required_pending_state.
  eapply txn_bind, txn_required_state; [done|]. simpl.
  case_decide; txn_steps; auto.
Qed.

Lemma txn_review_telemetry db id c k status ty Q :
  checkpoint_ok k → (∀ e, timing_error e → E e) →
  (∀ t, telemetry_ok t → Q t db) →
  txn (_review_telemetry (checkpoint_state id c k) status ty) db E Q.
Proof.
  intros (_ & Hu & _ & _ & Ht) HT HQ. unfold _review_telemetry.
  apply txn_bind, txn_clock. intros a Ha.
  apply txn_bind, txn_of_res. simpl. destruct (wait_ms _ _) as [ms|e] eqn:Hms.
  2: { apply HT. exists a, (ck_updated k). by split_and!. }
  apply wait_ms_nonneg in Hms. apply txn_bind.
  apply txn_append_event; try (by destruct status); [by apply telemetry_ok_review|].
  intros e1 He1. apply txn_append_event; try (by destruct status).
  - apply telemetry_ok_append; [by apply telemetry_ok_review|done].
  - intros e2 He2. apply HQ. do 2 (apply telemetry_ok_append; [|done]).
    by apply telemetry_ok_review.
Qed.

(** A transition's writes: the checkpoint, then the audit event. *)
Lemma txn_transition {A} db id c k review revision action new rid comment reasons p t
    (m : M S A) Q :
  Database.states db !! id = Some (checkpoint_row id c k) → checkpoint_ok k →
  telemetry_ok t → (0 ≤ revision)%Z → (0 ≤ c_limit c)%Z →
  (∀ now u now' actor, datetime.utcoffset now = Some 0%Z → datetime.utcoffset now' = Some 0%Z →
     let row := state_row (ck_created k) now id (ck_gate k) review (Some (c_candidate c))
                  (Some (ck_execution k)) t revision (c_limit c) in
     let event := event_row u id now' action HumanReviewStatus.PENDING new rid comment reasons
                    revision actor in
     Database.ok (add_event event (put_state row db)) →
     commits m (add_event event (put_state row db)) E Q) →
  commits (save_state id (ck_gate k) review (Some (c_candidate c)) (Some (ck_execution k)) t
             revision (c_limit c) ;;;
           let* actor := _actor_fields p in
           add_review_event id action HumanReviewStatus.PENDING new rid comment reasons
             revision actor ;;; m) db E Q.
Proof.
  intros Hs (_ & _ & Hg & _) Ht Hr Hl Hm.
  apply commits_bind, txn_save_state; try done. intros now Hnow row db' Hok.
  subst row db'. rewrite Hs in *. simpl in *.
  apply commits_bind, txn_actor_fields. intros actor.
  apply commits_bind, txn_add_review_event; [done|done|]. intros u now' Hnow' event Hok'.
  by apply Hm.
Qed.

(** The two ways the service nests a transition's writes are the same computation. *)
Lemma persist_transition_assoc {A} st action new request t p (m : M S A) s :
  (_persist_transition st action new request t p ;;; m) s =
  (save_state (RuntimeAssessmentState.assessment_id st) (RuntimeAssessmentState.gate_result st)
     new (RuntimeAssessmentState.candidate_result st)
     (RuntimeAssessmentState.candidate_execution st) t
     (RuntimeAssessmentState.revision_count st) (RuntimeAssessmentState.max_revisions st) ;;;
   let* actor := _actor_fields p in
   add_review_event (RuntimeAssessmentState.assessment_id st) action HumanReviewStatus.PENDING
     new (reviewer_id_of p request) (HumanReviewRequest.comment request)
     (QualityGateResult.reason_codes (RuntimeAssessmentState.gate_result st))
     (RuntimeAssessmentState.revision_count st) actor ;;; m) s.
Proof.
  unfold _persist_transition, bind, ret.
  destruct (save_state _ _ _ _ _ _ _ _ s) as [s1 [x|e]]; [|done].
  destruct (_actor_fields p s1) as [s2 [y|e]]; [|done].
  by destruct (add_review_event _ _ _ _ _ _ _ _ _ s2) as [s3 [z|e]].
Qed.
End with_errors.

Lemma commits_ext {A} (m m' : M S A) db E Q :
  (∀ s, m s = m' s) → commits m' db E Q → commits m db E Q.
Proof. intros Heq H s Hs. unfold wp. rewrite Heq. by apply H. Qed.

(** After a transition's writes the tables hold the next case. *)
Lemma represents_after db id c' k' a trail en event :
  Database.assessments db !! id = Some a → AssessmentModel.id a = id →
  AssessmentModel.status a = c_status c' → AssessmentModel.result_payload a = c_published c' →
  Forall2 (records_entry id) (events_of db id) trail → c_trail c' = trail ++ [en] →
  records_entry id event en →
  checkpoint_ok k' → json_truthy (c_candidate c') = true → (0 ≤ c_revision c' ≤ c_limit c')%Z →
  represents (add_event event (put_state (checkpoint_row id c' k') db)) id c'.
Proof.
  intros Ha Hid Hst Hpub Htr Heq Hen Hk Hj [Hb1 Hb2]. exists k'. split_and!; try done.
  - exists a. simpl. done.
  - simpl. by rewrite lookup_insert_eq.
  - rewrite events_add_event, Heq. destruct Hen as (u & now & rid & cm & rs & act & -> & Hnow).
    simpl. rewrite decide_True by done. apply Forall2_app; [done|].
    constructor; [|constructor]. by exists u, now, rid, cm, rs, act.
Qed.

Lemma frame_after db id row event :
  RuntimeStateModel.assessment_id row = id → ReviewEventModel.assessment_id event = id →
  frame id db (add_event event (put_state row db)).
Proof.
  intros <- He. eapply frame_trans; [apply frame_put_state|]. rewrite <- He. apply frame_add_event.
Qed.

(** ** Reviewer actions *)

Definition review_error c (allowed : HumanReviewStatus.t) (e : exn) : Prop :=
  is_sql e ∨ timing_error e ∨
  e = ApplicationError InvalidReviewTransitionError ∧ c_review c ≠ allowed.

(** One step of the machine on [id], and nothing else. *)
Definition acts (l : label) db id c db' : Prop :=
  Database.ok db' ∧ frame id db db' ∧ ∃ c', step c l c' ∧ represents db' id c'.

(** The common end of [approve] and [reject]: [a'] is the updated assessment row. *)
Lemma decision_commits l db id c k a' t action new request p (d : HumanReviewDecision.t)
    (E : exn → Prop) :
  (∀ e, is_sql e → E e) → holds_case db id c k → telemetry_ok t →
  AssessmentModel.id a' = id →
  let c' := Case (AssessmentModel.status a') (AssessmentModel.result_payload a') (c_candidate c)
              new (c_revision c) (c_limit c)
              (c_trail c ++ [Entry action HumanReviewStatus.PENDING new (c_revision c)]) in
  step c l c' →
  commits (_persist_transition (checkpoint_state id c k) action new request t p ;;;
           commit ;;; _export_telemetry id t (ck_gate k) ;;; ret d) (put_assessment a' db) E
    (λ d' db', acts l db id c db' ∧ d' = d).
Proof.
  intros HE ((_ & _ & _) & Hs & Htr & Hk & Hj & Hb) Ht Hid c' Hstep.
  eapply commits_ext; [intros s; apply persist_transition_assoc|]. simpl.
  eapply txn_transition; [exact HE|exact Hs|done|done|lia|lia|].
  intros now u now' actor Hnow Hnow' row event Hok.
  apply commits_commit; [exact HE|]. intros _. unfold acts. split_and!; try done.
  - eapply frame_trans; [|by apply frame_after]. rewrite <- Hid. apply frame_put_assessment.
  - exists c'. split; [done|].
    eapply (represents_after (put_assessment a' db) id c'
      (Checkpoint (ck_created k) now (ck_gate k) (ck_execution k) t) a'); try done.
    + simpl. by rewrite <- Hid, lookup_insert_eq.
    + by exists u, now', (reviewer_id_of p request), (HumanReviewRequest.comment request),
        (QualityGateResult.reason_codes (ck_gate k)), actor.
    + destruct Hk as (? & ? & ? & ? & ?). by split_and!.
Qed.

Lemma approve_commits db id c request p :
  represents db id c →
  commits (approve id request p) db (review_error c HumanReviewStatus.PENDING)
    (λ d db', acts Approve db id c db' ∧
       d = HumanReviewDecision.mk id HumanReviewAction.APPROVED HumanReviewStatus.APPROVED
             (AssessmentStatus.value AssessmentStatus.COMPLETED) (c_revision c)).
Proof.
  intros [k Hc]. unfold approve.
  assert (HE : ∀ e, is_sql e → review_error c HumanReviewStatus.PENDING e) by (by left).
  apply commits_bind. eapply txn_required_pending_state; [exact HE|done|by right; right|].
  intros Hrev. simpl. pose proof Hc as ((a & Ha & Hid & _) & _ & _ & Hk & _).
  apply commits_bind, txn_mark_completed; [exact HE|by rewrite Ha|].
  intros a0 now0 Ha0 _ a' _. rewrite Ha in Ha0. injection Ha0 as <-.
  apply commits_bind, txn_review_telemetry; [done|by right; left|].
  intros t Ht. eapply decision_commits; try done.
  destruct c; simpl in *; subst. constructor.
Qed.

Lemma reject_commits db id c request p :
  represents db id c →
  commits (reject id request p) db (review_error c HumanReviewStatus.PENDING)
    (λ d db', acts Reject db id c db' ∧
       d = HumanReviewDecision.mk id HumanReviewAction.REJECTED HumanReviewStatus.REJECTED
             (AssessmentStatus.value AssessmentStatus.FAILED) (c_revision c)).
Proof.
  intros [k Hc]. unfold reject.
  assert (HE : ∀ e, is_sql e → review_error c HumanReviewStatus.PENDING e) by (by left).
  apply commits_bind. eapply txn_required_pending_state; [exact HE|done|by right; right|].
  intros Hrev. simpl. pose proof Hc as ((a & Ha & Hid & _) & _ & _ & Hk & _).
  apply commits_bind, txn_mark_failed; [exact HE|by rewrite Ha|].
  intros a0 now0 Ha0 _ a' _. rewrite Ha in Ha0. injection Ha0 as <-.
  apply commits_bind, txn_review_telemetry; [done|by right; left|].
  intros t Ht. eapply decision_commits; try done; [by apply telemetry_ok_rejection|].
  destruct c; simpl in *; subst. constructor.
Qed.

Lemma request_revision_commits db id c request p :
  represents db id c →
  commits (request_revision id request p) db
    (λ e, review_error c HumanReviewStatus.PENDING e ∨
          e = ApplicationError RevisionLimitReachedError ∧
          c_review c = HumanReviewStatus.PENDING ∧ c_revision c = c_limit c)
    (λ d db', acts RequestRevision db id c db' ∧
       d = HumanReviewDecision.mk id HumanReviewAction.REVISION_REQUESTED
             HumanReviewStatus.REVISION_REQUESTED
             (AssessmentStatus.value AssessmentStatus.PENDING_REVIEW) (c_revision c + 1)).
Proof.
  intros [k Hc]. unfold request_revision. set (E := λ e : exn, review_error c _ e ∨ _).
  assert (HE : ∀ e, is_sql e → E e) by (by left; left).
  apply commits_bind. eapply txn_required_pending_state; [exact HE|done|by left; right; right|].
  intros Hrev. simpl.
  pose proof Hc as ((a & Ha & Hid & Hst & Hpub) & Hs & Htr & Hk & Hj & Hb).
  destruct (Z.leb_spec (c_limit c) (c_revision c)) as [Hle|Hlt].
  { apply commits_raise. right. split_and!; [done|done|lia]. }
  apply commits_bind, txn_review_telemetry; [done|by left; right; left|].
  intros t Ht. eapply txn_transition; [exact HE|exact Hs|done|done|lia|lia|].
  intros now u now' actor Hnow Hnow' row event Hok.
  apply commits_commit; [exact HE|]. intros _. unfold acts. split_and!; try done; [by apply frame_after|].
  pose (c' := Case (c_status c) (c_published c) (c_candidate c)
      HumanReviewStatus.REVISION_REQUESTED (c_revision c + 1) (c_limit c)
      (c_trail c ++ [Entry HumanReviewAction.REVISION_REQUESTED HumanReviewStatus.PENDING
                       HumanReviewStatus.REVISION_REQUESTED (c_revision c + 1)])).
  exists c'. split.
  { destruct c; simpl in *; subst. by constructor. }
  eapply (represents_after db id c' (Checkpoint (ck_created k) now (ck_gate k) (ck_execution k) t) a);
    try done.
  - by exists u, now', (reviewer_id_of p request), (HumanReviewRequest.comment request),
      (QualityGateResult.reason_codes (ck_gate k)), actor.
  - destruct Hk as (? & ? & ? & ? & ?). by split_and!.
  - simpl. lia.
Qed.

(** ** Candidates *)

Section candidates.
Context (config : GovernanceConfig.t).

(** The recorder's counters are non-negative and its tokens, at the configured prices, give
    a finite cost. *)
Definition config_ok : Prop :=
  (match GovernanceConfig.metrics config with Some m => recorder_ok m | None => True end) ∧
  (0 ≤ RuntimeRiskPolicy.max_human_revisions (GovernanceConfig.policy config))%Z ∧
  ∀ usage, (match GovernanceConfig.metrics config with
            | Some m => token_usage m
            | None => Ok None
            end) = Ok usage →
    ∃ cost, calculate_estimated_cost usage (GovernanceConfig.input_cost_per_million config)
              (GovernanceConfig.output_cost_per_million config) = Ok cost ∧
            opt_all cost_ok cost = true.

Context (Hconfig : config_ok).

Lemma txn_export id t g db E (Q : unit → Database J → Prop) :
  Q tt db → txn (_export_telemetry id t g) db E Q.
Proof.
  intros HQ s Hs. eapply wp_mono; [apply export_telemetry_law|]. subst db.
  intros s' r [[Hv Hd] ->]. by rewrite Hv, Hd.
Qed.

Lemma txn_candidate_telemetry g evidence execution d retrieval db E Q :
  execution_valid execution = true → (0 ≤ d)%Z → opt_all (Z.leb 0) retrieval = true →
  (∀ t, telemetry_ok t → Q t db) →
  txn (candidate_telemetry config g evidence execution d retrieval) db E Q.
Proof.
  intros Hv Hd Hret HQ. destruct Hconfig as (Hm & _ & Hcost). unfold candidate_telemetry.
  assert (∃ usage, match GovernanceConfig.metrics config with
                   | Some m => token_usage m | None => Ok None end = Ok usage ∧
                   opt_all ProviderTokenUsage.valid usage = true) as (usage & Hu & Huv).
  { destruct (GovernanceConfig.metrics config); [by apply token_usage_ok|by eexists]. }
  rewrite Hu. destruct (Hcost usage Hu) as (cost & Hc & Hcok).
  apply txn_bind, txn_of_res, txn_bind, txn_request_id. intros rid Hrid Hstrip.
  apply txn_bind, txn_clock. intros now Hnow.
  destruct (build_telemetry_ok execution d (QualityGateResult.decision g) usage
    (Z.of_nat (length evidence))
    ((λ m, Z.of_nat (length (RuntimeMetricsRecorder.model_call_durations_ms m))) <$>
       GovernanceConfig.metrics config)
    (GovernanceConfig.input_cost_per_million config)
    (GovernanceConfig.output_cost_per_million config) rid now cost) as (t & Ht & Hok & _); try done.
  { destruct (GovernanceConfig.metrics config); simpl; [|done]. apply Z.leb_le. lia. }
  rewrite Ht. apply txn_bind, txn_of_res, txn_ret, HQ.
  destruct (GovernanceConfig.metrics config); [by apply telemetry_ok_metrics|done].
Qed.

(** The assessment row after each branch of the gate. *)
Definition finalized (d : RuntimeRiskDecision.t) (a : AssessmentModel.t J) (now : datetime)
    (candidate execution : J) : AssessmentModel.t J :=
  match d with
  | RuntimeRiskDecision.REQUIRE_HUMAN_REVIEW => pending_review_model a now (Some execution)
  | RuntimeRiskDecision.BLOCK_AND_ESCALATE =>
      failed_model a now "runtime_risk_gate_blocked"
        "The assessment was blocked by the runtime risk and quality gate."
  | _ => completed_model a now candidate (Some execution)
  end.

Lemma finalized_row d a now candidate execution :
  let a' := finalized d a now candidate execution in
  AssessmentModel.id a' = AssessmentModel.id a ∧
  AssessmentModel.status a' = outcome_status (outcome_of d) ∧
  AssessmentModel.result_payload a' = outcome_published (outcome_of d) candidate.
Proof. by destruct d. Qed.

Lemma txn_finalize id g candidate execution t a db E Q :
  (∀ e, is_sql e → E e) → telemetry_ok t → Database.assessments db !! id = Some a →
  (∀ now t', datetime.utcoffset now = Some 0%Z → telemetry_ok t' →
     let a' := finalized (QualityGateResult.decision g) a now candidate execution in
     Q (outcome_review (outcome_of (QualityGateResult.decision g)), Some (_to_record a'), t')
       (put_assessment a' db)) →
  txn (finalize id g candidate execution t) db E Q.
Proof.
  intros HE Ht Ha HQ. unfold finalize, finalized in *.
  destruct (QualityGateResult.decision g) eqn:Hd; apply txn_bind.
  1,2: apply txn_mark_completed; [exact HE|by rewrite Ha|].
  3: apply txn_mark_pending_review; [exact HE|by rewrite Ha|].
  4: apply txn_mark_failed; [exact HE|by rewrite Ha|].
  all: intros a0 now Ha0 Hnow a' _; rewrite Ha in Ha0; injection Ha0 as <-.
  all: apply txn_bind, txn_append_event; [exact Ht|reflexivity..|].
  all: intros e He; apply txn_ret, (HQ now); [exact Hnow|].
  all: by apply telemetry_ok_append.
Qed.

(** What processing a candidate leaves in the tables. *)
Definition processed db id (d : RuntimeRiskDecision.t) (candidate execution : J) (revision : Z)
    (requested : bool) (record : PersistedAssessment.t J) db' : Prop :=
  Database.ok db' ∧ frame id db db' ∧
  (∃ a now, Database.assessments db !! id = Some a ∧ datetime.utcoffset now = Some 0%Z ∧
     Database.assessments db' !! id = Some (finalized d a now candidate execution) ∧
     record = _to_record (finalized d a now candidate execution)) ∧
  let o := outcome_of d in
  let limit := RuntimeRiskPolicy.max_human_revisions (GovernanceConfig.policy config) in
  ∃ entries : list (ReviewEventModel.t * entry),
    events_of db' id = events_of db id ++ (fst <$> entries) ∧
    Forall (λ en, records_entry id en.1 en.2) entries ∧
    snd <$> entries =
      (if bool_decide (outcome_review o = HumanReviewStatus.PENDING) && requested
       then [Entry HumanReviewAction.REQUESTED HumanReviewStatus.NOT_REQUIRED
               HumanReviewStatus.PENDING revision] else []) ∧
  ∃ k, checkpoint_ok k ∧ ∀ trail,
    Forall2 (records_entry id) (events_of db' id) trail →
    holds_case db' id
      (Case (outcome_status o) (outcome_published o candidate) candidate (outcome_review o)
         revision limit trail) k.

Lemma state_row_bound db id m :
  Database.ok db → Database.states db !! id = Some m →
  (RuntimeStateModel.revision_count m ≤ RuntimeStateModel.max_revisions m)%Z.
Proof.
  intros (_ & _ & Hs & _) Hm. destruct (Hs id m Hm) as [Hok _].
  unfold RuntimeStateModel.row_ok in Hok. split_bools. by apply Z.leb_le.
Qed.

Lemma process_candidate_txn db id a result evidence execution d provenance retrieval
    overrides revision requested (E : exn → Prop) Q :
  (∀ e, is_sql e → E e) → config_ok →
  Database.assessments db !! id = Some a → AssessmentModel.id a = id →
  (∀ m, Database.states db !! id = Some m →
     datetime.utcoffset (RuntimeStateModel.created_at m) = Some 0%Z) →
  execution_valid execution = true → (0 ≤ d)%Z → opt_all (Z.leb 0) retrieval = true →
  (0 ≤ revision)%Z →
  (∀ record db', processed db id (gate_decision (GovernanceConfig.policy config)
       (foldl apply_override (derive_signals result evidence execution provenance) overrides))
     (model_dump result) (dump_execution execution) revision requested record db' →
     Q record db') →
  txn (process_candidate dump_execution config id result evidence execution d provenance
         retrieval overrides revision requested) db E Q.
Proof.
  intros HE Hcfg Ha Hid Hcr Hx Hd Hret Hrev HQ. unfold process_candidate.
  set (s := foldl apply_override _ _) in *. rewrite evaluate_eq.
  apply txn_bind, txn_of_res. set (g := QualityGateResult.mk _ _ _ _ _).
  assert (gate_result_ok g) as Hg.
  { unfold gate_result_ok, g, QualityGateResult.valid. simpl. by rewrite !eqb_reflx. }
  apply txn_bind, txn_candidate_telemetry; [done..|]. intros t Ht.
  apply txn_bind. eapply txn_finalize; [exact HE|exact Ht|exact Ha|].
  intros nowf t' Hnowf Ht' a'.
  destruct (finalized_row (QualityGateResult.decision g) a nowf (model_dump result)
    (dump_execution execution)) as (Hid' & Hst & Hpub).
  fold a' in Hid', Hst, Hpub. change (QualityGateResult.decision g) with
    (gate_decision (GovernanceConfig.policy config) s) in *.
  set (d' := gate_decision _ s) in *. set (o := outcome_of d') in *.
  apply txn_bind, txn_save_state; [exact HE|done|done|done|apply Hcfg|].
  intros now Hnow row db1 Hok1. simpl in row.
  set (k := Checkpoint (from_option RuntimeStateModel.created_at now (Database.states db !! id))
              now g (dump_execution execution) t').
  assert (checkpoint_ok k) as Hk.
  { split_and!; simpl; try done; [|by destruct Ht' as (?&?&?&?)..].
    destruct (Database.states db !! id) eqn:Hm; simpl; [by apply Hcr|done]. }
  assert (frame id db db1) as Hf1.
  { eapply frame_trans; [|apply (frame_put_state _ row)]. rewrite <- Hid, <- Hid'.
    apply frame_put_assessment. }
  assert (Database.states db1 !! id = Some row) as Hs1 by apply lookup_insert_eq.
  pose proof (state_row_bound _ _ _ Hok1 Hs1) as Hb1. simpl in Hb1.
  assert (∀ db2 entries, Database.ok db2 → frame id db1 db2 →
    Database.assessments db2 = Database.assessments db1 →
    Database.states db2 = Database.states db1 →
    events_of db2 id = events_of db id ++ (fst <$> entries) →
    Forall (λ en, records_entry id en.1 en.2) entries →
    snd <$> entries =
      (if bool_decide (outcome_review o = HumanReviewStatus.PENDING) && requested
       then [Entry HumanReviewAction.REQUESTED HumanReviewStatus.NOT_REQUIRED
               HumanReviewStatus.PENDING revision] else []) →
    txn (_export_telemetry id t' g ;;; ret (_to_record a')) db2 E Q) as Hfin.
  { intros db2 entries Hok2 Hf2 Ha2 Hs2 Hev Hrec Hsnd.
    apply txn_bind, txn_export, txn_ret, HQ. split; [done|].
    split; [by eapply frame_trans|]. split; [exists a, nowf; rewrite Ha2; split_and!; try done;
      simpl; by rewrite <- Hid, <- Hid', lookup_insert_eq|]. exists entries. split_and!; try done.
    exists k. split; [done|]. intros trail Htr. split_and!; simpl; try done.
    - exists a'. rewrite Ha2. split_and!; try done; [|congruence].
      simpl. by rewrite <- Hid, <- Hid', lookup_insert_eq.
    - by rewrite Hs2.
    - apply model_dump_truthy. }
  apply txn_bind. destruct (bool_decide _ && requested).
  - apply txn_bind, txn_add_review_event; [exact HE|done|].
    intros u now' Hnow' event Hok2. apply txn_ret.
    apply (Hfin _ [(event, Entry HumanReviewAction.REQUESTED HumanReviewStatus.NOT_REQUIRED
               HumanReviewStatus.PENDING revision)]); try done.
    + apply (frame_add_event db1 event).
    + rewrite events_add_event. simpl. by rewrite decide_True.
    + constructor; [|constructor]. by eexists u, now', None, None, _, Actor.none.
  - apply txn_ret. apply (Hfin _ []); try done. by rewrite app_nil_r.
Qed.

Lemma records_pairs id (entries : list (ReviewEventModel.t * entry)) :
  Forall (λ en, records_entry id en.1 en.2) entries →
  Forall2 (records_entry id) (fst <$> entries) (snd <$> entries).
Proof. induction 1; csimpl; constructor; auto. Qed.

(** The first candidate of an assessment opens a case. *)
Lemma processed_opened db id d candidate execution record db' :
  unopened db id → processed db id d candidate execution 0 true record db' →
  represents db' id
    (opened (outcome_of d) candidate
       (RuntimeRiskPolicy.max_human_revisions (GovernanceConfig.policy config))).
Proof.
  intros [_ Hev] (_ & _ & _ & entries & He & Hrec & Hsnd & k & _ & Hk). exists k.
  unfold opened. set (o := outcome_of d) in *.
  replace (match o with AwaitingReview => _ | _ => _ end) with (snd <$> entries)
    by (rewrite Hsnd; by destruct o).
  apply Hk. rewrite He, Hev. simpl. by apply records_pairs.
Qed.

Lemma processed_status db id d candidate execution revision requested record db' :
  processed db id d candidate execution revision requested record db' →
  PersistedAssessment.status record = outcome_status (outcome_of d).
Proof. intros (_ & _ & (a & now & _ & _ & _ & ->) & _). by destruct d. Qed.

Lemma processed_resumed db id c d candidate execution record db' :
  Forall2 (records_entry id) (events_of db id) (c_trail c) →
  processed db id d candidate execution (c_revision c) false record db' →
  let o := outcome_of d in
  ∃ k, holds_case db' id
    (Case (outcome_status o) (outcome_published o candidate) candidate (outcome_review o)
       (c_revision c) (RuntimeRiskPolicy.max_human_revisions (GovernanceConfig.policy config))
       (c_trail c)) k.
Proof.
  intros Htr (_ & _ & _ & entries & He & _ & Hsnd & k & _ & Hk) o. exists k. apply Hk.
  rewrite andb_false_r in Hsnd. destruct entries; [|done]. by rewrite He, app_nil_r.
Qed.

(** What a resumed revision commits: the machine's [Resume] step to the case in which the
    gate's outcome for the new candidate, that candidate and the configured limit are
    stored; the assessment row is finalised as the gate decides and answered. *)
Definition resumes db id c result evidence execution provenance
    (record : PersistedAssessment.t J) db' : Prop :=
  let d := gate_decision (GovernanceConfig.policy config)
             (derive_signals result evidence execution provenance) in
  let c' := resumed (outcome_of d) (model_dump result)
              (RuntimeRiskPolicy.max_human_revisions (GovernanceConfig.policy config)) c in
  Database.ok db' ∧ frame id db db' ∧ step c Resume c' ∧ represents db' id c' ∧
  ∃ a now, Database.assessments db !! id = Some a ∧ datetime.utcoffset now = Some 0%Z ∧
    Database.assessments db' !! id =
      Some (finalized d a now (model_dump result) (dump_execution execution)) ∧
    record = _to_record (finalized d a now (model_dump result) (dump_execution execution)).

Lemma resumes_acts db id c result evidence execution provenance record db' :
  resumes db id c result evidence execution provenance record db' → acts Resume db id c db'.
Proof. intros (Hok & Hf & Hs & Hr & _). split; [done|]. split; [done|]. by eexists. Qed.

Lemma resume_revision_commits db id c result evidence execution d provenance :
  config_ok → represents db id c → execution_valid execution = true → (0 ≤ d)%Z →
  commits (resume_revision dump_execution config id result evidence execution d provenance) db
    (review_error c HumanReviewStatus.REVISION_REQUESTED)
    (λ record db', resumes db id c result evidence execution provenance record db').
Proof.
  intros Hcfg [k Hc] Hx Hd. unfold resume_revision. set (o := outcome_of (gate_decision
    (GovernanceConfig.policy config) (derive_signals result evidence execution provenance))).
  assert (HE : ∀ e, is_sql e → review_error c HumanReviewStatus.REVISION_REQUESTED e) by (by left).
  apply commits_bind. eapply txn_required_state; [exact HE|exact Hc|].
  pose proof Hc as ((a & Ha & Hid & _) & Hs & Htr & Hk & Hj & Hb). simpl.
  case_decide as Hrev; [|by apply commits_raise; right; right].
  apply commits_bind. eapply process_candidate_txn; [exact HE|done|exact Ha|done| |done..|lia|].
  { intros m Hm. rewrite Hs in Hm. injection Hm as <-. apply Hk. }
  intros record db1 Hproc. simpl in Hproc.
  destruct (processed_resumed _ _ _ _ _ _ _ _ Htr Hproc) as [k1 Hc1]. fold o in Hc1.
  destruct Hproc as (_ & Hf & Hrow & _).
  set (c1 := Case _ _ _ _ _ _ _) in Hc1.
  apply commits_bind. eapply txn_required_state; [exact HE|exact Hc1|].
  pose proof Hc1 as ((a1 & Ha1 & Hid1 & Hst1 & Hpub1) & Hs1 & Htr1 & Hk1 & Hj1 & Hb1).
  apply commits_bind, txn_clock. intros resumed_at Hres.
  apply commits_bind, txn_of_res. simpl.
  destruct (wait_ms resumed_at (ck_updated k)) as [ms|e] eqn:Hms.
  2: { right; left. exists resumed_at, (ck_updated k). split_and!; try done. apply Hk. }
  apply wait_ms_nonneg in Hms.
  destruct Hk as (_ & _ & _ & _ & Hold). destruct Hk1 as (Hcr1 & Hup1 & Hg1 & Hx1 & Hnew).
  destruct (trace_event_construct resumed_at (OperationalTelemetry.request_id (ck_telemetry k1))
    RuntimeTraceEventType.HUMAN_REVIEW_RESUMED "human_review" "revision_submitted" None
    (telemetry_ok_request_id _ Hnew) Hres eq_refl eq_refl eq_refl eq_refl eq_refl) as [Heq Hev].
  rewrite Heq. apply commits_bind, txn_of_res.
  set (t := merged _ _ _ _).
  assert (telemetry_ok t) as Ht by (by apply telemetry_ok_merged).
  apply commits_bind, txn_save_state; [exact HE|done|exact Ht|apply Hb1|simpl in Hb1; lia|].
  intros now Hnow row db2 _. subst row db2. rewrite Hs1. simpl from_option.
  apply commits_bind, txn_add_review_event; [exact HE|lia|].
  intros u now' Hnow' event Hok. apply commits_commit; [exact HE|]. intros _.
  split; [done|]. split; [eapply frame_trans; [exact Hf|]; by apply frame_after|].
  split; [apply step_resumed; [done|simpl in Hb1; lia]|]. split; [|exact Hrow].
  eapply (represents_after db1 id (resumed o (model_dump result)
      (RuntimeRiskPolicy.max_human_revisions (GovernanceConfig.policy config)) c)
    (Checkpoint (ck_created k1) now (ck_gate k1) (ck_execution k1) t) a1); try done.
  eexists u, now', None, None, _, Actor.none. split; [|done].
  subst event. simpl in Hrev. by rewrite Hrev.
Qed.
End candidates.
End service.
