(* ===== verification/MemorySession.v ===== *)
(** A concrete session: two copies of the tables, a clock that ticks, a counter for
    fresh identifiers and a script of database faults.  It shows that the laws of
    [Session] can hold, and the witnesses of the service theorems run on it. *)
From S2P Require Import Prelude PyFloat Errors Domain AgentModels Schemas RuntimeModels.
From S2P Require Import Session Storage Repositories Governance.

(** ** Payloads *)

Inductive payload :=
  | GatePayload (g : QualityGateResult.t)
  | TelemetryPayload (t : OperationalTelemetry.t)
  | ResultPayload (r : AssessmentResult.t)
  | RequestPayload (r : AssessmentRequest.t)
  | ExecutionPayload (e : ExecutionMetadata).

#[export] Instance payload_json : Json payload :=
  {| json_is_dict := λ _, true; json_truthy := λ _, true |}.

Ltac solve_pydantic := intros; repeat case_match; naive_solver.

#[export, refine] Instance payload_gate :
    PydanticModel payload QualityGateResult.t gate_result_ok :=
  {| model_dump := GatePayload;
     model_validate j := match j with GatePayload g => Ok g | _ => Raise ValidationError end |}.
Proof. all: solve_pydantic. Defined.
#[export, refine] Instance payload_telemetry :
    PydanticModel payload OperationalTelemetry.t telemetry_ok :=
  {| model_dump := TelemetryPayload;
     model_validate j := match j with TelemetryPayload t => Ok t | _ => Raise ValidationError end |}.
Proof. all: solve_pydantic. Defined.
#[export, refine] Instance payload_result :
    PydanticModel payload AssessmentResult.t assessment_result_ok :=
  {| model_dump := ResultPayload;
     model_validate j := match j with ResultPayload r => Ok r | _ => Raise ValidationError end |}.
Proof. all: solve_pydantic. Defined.

(** ** The session *)

Section session.
Context {D : Type} `{!Tables D} `{!∀ db : D, Decision (tables_ok db)}.

Record memory := Memory {
  mem_view : D;
  mem_durable : D;
  mem_faults : list (option sql_error);   (* the outcome of the next database calls *)
  mem_clock : Z;
  mem_uuid : uuid
}.

(** The next scripted outcome; an exhausted script succeeds. *)
Definition next_fault (s : memory) : option sql_error := default None (head (mem_faults s)).
Definition pop (s : memory) : memory :=
  Memory (mem_view s) (mem_durable s) (tail (mem_faults s)) (mem_clock s) (mem_uuid s).
Definition with_tables (s : memory) (v d : D) : memory :=
  Memory v d (tail (mem_faults s)) (mem_clock s) (mem_uuid s).

Definition tick (s : memory) : memory :=
  Memory (mem_view s) (mem_durable s) (mem_faults s) (mem_clock s + 1000)%Z (mem_uuid s).

#[global] Instance memory_session : Session D memory := {|
  view := mem_view;
  durable := mem_durable;
  sess_read A q := λ s,
    match next_fault s with
    | Some e => (pop s, Raise (SQLAlchemyError e))
    | None => (pop s, Ok (q (mem_view s)))
    end;
  sess_change f := λ s,
    (Memory (f (mem_view s)) (mem_durable s) (mem_faults s) (mem_clock s) (mem_uuid s), Ok tt);
  sess_flush := λ s,
    match next_fault s with
    | Some e => (pop s, Raise (SQLAlchemyError e))
    | None => if decide (tables_ok (mem_view s)) then (pop s, Ok tt)
              else (pop s, Raise (SQLAlchemyError OtherSQLAlchemyError))
    end;
  sess_commit := λ s,
    match next_fault s with
    | Some e => (pop s, Raise (SQLAlchemyError e))
    | None => if decide (tables_ok (mem_view s))
              then (with_tables s (mem_view s) (mem_view s), Ok tt)
              else (pop s, Raise (SQLAlchemyError OtherSQLAlchemyError))
    end;
  sess_rollback := λ s,
    match next_fault s with
    | Some e => (pop s, Raise (SQLAlchemyError e))
    | None => (with_tables s (mem_durable s) (mem_durable s), Ok tt)
    end;
  clock := λ s, (tick s, Ok (datetime_utc (mem_clock s)));
  uuid4 := λ s,
    (Memory (mem_view s) (mem_durable s) (mem_faults s) (mem_clock s) (mem_uuid s + 1)%N, Ok (mem_uuid s));
  get_request_id := λ s, (s, Ok (Some (lit "request-1")))
|}.

#[global] Instance memory_laws : SessionLaws D memory.
Proof.
  split; intros; unfold wp, keeps, is_sql; simpl;
    repeat (case_match; simplify_eq/=); eauto 10; naive_solver.
Qed.

#[global] Instance memory_exporter : Exporter memory := {|
  export _ _ _ := λ s, (s, Raise (OtherException "ConnectionError"))
|}.
#[global] Instance memory_exporter_laws : ExporterLaws D memory.
Proof. by split. Qed.

(** A session opened on the tables [db], at clock 0, without faults. *)
Definition open_session (db : D) : memory := Memory db db [] 0 100.
End session.
Arguments memory : clear implicits.

#[global] Instance database_ok_dec {J} (db : Database J) : Decision (tables_ok db).
Proof. unfold tables_ok, database_tables, Database.ok. apply _. Defined.

(** ** An assessment awaiting review

    The running example of the witnesses: a high-risk candidate of assessment 1, held by
    the gate, with a budget of two revisions. *)
Definition demo_result : AssessmentResult.t :=
  AssessmentResult.mk "Summary" (ProblemAnalysis.mk "Problem" [] [])
    (AISuitability.mk SuitabilityLevel.HIGH "Rationale") []
    (RecommendedSolution.mk SolutionPattern.RAG_DECISION_SUPPORT "Solution" "Rationale")
    [AssessmentRisk.mk RiskCategory.PRIVACY "Risk" RiskSeverity.HIGH "Mitigation"]
    (HumanOversight.mk true [] "Rationale") [] [] []
    ExternalEvidenceStatus.NOT_RETRIEVED [].

Definition demo_execution : ExecutionMetadata :=
  Deterministic (DeterministicExecutionMetadata.mk None "deterministic" None [] [] None).

Definition demo_request : AssessmentRequest.t :=
  AssessmentRequest.mk "Company" None "Industry" "Problem" None [] "Outcome" [] None.

Definition demo_gate : QualityGateResult.t :=
  QualityGateResult.mk RuntimeRiskDecision.REQUIRE_HUMAN_REVIEW RuntimeRiskLevel.HIGH
    [RuntimeReasonCode.HIGH_RISK; RuntimeReasonCode.INSUFFICIENT_EVIDENCE] true false.

Definition demo_telemetry : OperationalTelemetry.t :=
  OperationalTelemetry.mk None "deterministic" ExecutionHealth.PENDING_HUMAN_REVIEW 10 10
    None None None (Some 1%Z) [] None 0 false false ∅ 0 0 0 HumanReviewStatus.PENDING
    "completed" None None None [].

Definition demo_assessment : AssessmentModel.t payload :=
  AssessmentModel.mk payload 1%N AssessmentStatus.PENDING_REVIEW "Company" "Industry" "Problem" None
    (RequestPayload demo_request) None (Some (ExecutionPayload demo_execution)) None None
    (datetime_utc 0) (datetime_utc 0) None.

Definition demo_state (status : HumanReviewStatus.t) (revision : Z) :
    RuntimeStateModel.t payload :=
  state_row (datetime_utc 0) (datetime_utc 0) 1%N demo_gate status
    (Some (ResultPayload demo_result)) (Some (ExecutionPayload demo_execution))
    demo_telemetry revision 2.

Definition demo_event : ReviewEventModel.t :=
  event_row 7%N 1%N (datetime_utc 0) HumanReviewAction.REQUESTED HumanReviewStatus.NOT_REQUIRED
    HumanReviewStatus.PENDING None None (QualityGateResult.reason_codes demo_gate) 0 Actor.none.

Definition demo_db : Database payload :=
  Database.mk payload {[ 1%N := demo_assessment ]}
    {[ 1%N := demo_state HumanReviewStatus.PENDING 0 ]} [demo_event] false.

Definition demo_review : HumanReviewRequest.t :=
  HumanReviewRequest.mk (Some (lit "alice")) (Some (lit "Please add evidence.")).

Example demo_approve_runs :
  (approve 1%N demo_review None (open_session demo_db)).2 =
  Ok (HumanReviewDecision.mk 1%N HumanReviewAction.APPROVED HumanReviewStatus.APPROVED
        "completed" 0).
Proof. vm_compute. reflexivity. Qed.

Example demo_approve_fails_on_fault :
  (approve 1%N demo_review None
     (Memory demo_db demo_db [None; None; Some OperationalError] 0 100)).2 =
  Raise (SQLAlchemyError OperationalError).
Proof. vm_compute. reflexivity. Qed.
