(* ===== verification/KnowledgeDemo.v ===== *)
(** A small knowledge base, for the examples and witnesses of the knowledge theorems: one
    document of one chunk, three entities in a line and their mentions. *)
From S2P Require Import Prelude PyFloat Errors Domain Unicode Session Storage Repositories.
From S2P Require Import KnowledgeStore KnowledgeRepositories Governance MemorySession.

#[export] Instance ascii_unicode : UnicodeDB := ascii_db.

(** Names compared by their length. *)
#[export, refine] Instance length_collation : Collation := {
  collate a b := (length a ≤ length b)%nat
}.
Proof.
  - intros a b. apply _.
  - intros a b. lia.
  - intros a b c. lia.
Defined.

Definition demo_vector : list pyfloat := replicate 1536 f64_one.

Definition demo_document : KnowledgeDocumentModel.t :=
  KnowledgeDocumentModel.mk 1%N "Policy" KnowledgeSourceType.POLICY None None
    "The claims system uses the ledger. The ledger is governed by the policy." []
    (replicate 64 48%Z) (datetime_utc 0) (datetime_utc 0).
Definition demo_chunk : KnowledgeChunkModel.t :=
  KnowledgeChunkModel.mk 10%N 1%N 0
    "The claims system uses the ledger. The ledger is governed by the policy."
    demo_vector [] (datetime_utc 0).
Definition demo_entity (i : uuid) (ty : KnowledgeEntityType.t) (name normalized : pystr) :
    KnowledgeEntityModel.t :=
  KnowledgeEntityModel.mk i ty name normalized None [] (datetime_utc 0) (datetime_utc 0).
Definition demo_claims := demo_entity 21 KnowledgeEntityType.SYSTEM "Claims system" "claims system".
Definition demo_ledger := demo_entity 22 KnowledgeEntityType.DATA_ASSET "Ledger" "ledger".
Definition demo_policy := demo_entity 23 KnowledgeEntityType.POLICY "Policy" "policy".
Definition demo_mention (i e : uuid) (text : pystr) : KnowledgeEntityMentionModel.t :=
  KnowledgeEntityMentionModel.mk i e 1%N 10%N text f64_one [] (datetime_utc 0).
Definition demo_edge (i s d : uuid) (ty : KnowledgeRelationshipType.t) :
    KnowledgeRelationshipModel.t :=
  KnowledgeRelationshipModel.mk i s d ty None f64_one 10%N [] (datetime_utc 0).

Definition demo_knowledge : knowledge :=
  KnowledgeTables.mk {[ 1%N := demo_document ]} {[ 10%N := demo_chunk ]}
    {[ 21%N := demo_claims; 22%N := demo_ledger; 23%N := demo_policy ]}
    {[ 31%N := demo_mention 31 21 "Claims system"; 32%N := demo_mention 32 22 "Ledger" ]}
    {[ 41%N := demo_edge 41 21 22 KnowledgeRelationshipType.USES;
       42%N := demo_edge 42 22 23 KnowledgeRelationshipType.GOVERNED_BY ]}
    false.

Lemma demo_knowledge_ok : knowledge_ok demo_knowledge.
Proof. apply (bool_decide_unpack (knowledge_ok demo_knowledge)). vm_compute. exact I. Qed.
