(* ===== verification/KnowledgeEnrichment.v ===== *)
(** app/knowledge_graph/enrichment.py: [KnowledgeGraphEnrichmentService.enrich], and its
    contract - a document's graph is added as a whole or not at all. *)
From S2P Require Import Prelude PyFloat Errors Domain AgentModels Schemas Unicode Session Storage.
From S2P Require Import Repositories KnowledgeStore KnowledgeRepositories KnowledgeExtraction.
From S2P Require Import Governance MemorySession KnowledgeDemo.

(** [for a in l: b = f(b, a)]. *)
Fixpoint fold_m {S A B} (f : B → A → M S B) (l : list A) (b : B) : M S B :=
  match l with
  | [] => ret b
  | a :: l' => let* b' := f b a in fold_m f l' b'
  end.

(** [_raise_database_error]. *)
Definition graph_database_error (e : sql_error) : app_error :=
  match e with
  | OperationalError | ProgrammingError => KnowledgeGraphUnavailableError
  | OtherSQLAlchemyError => KnowledgeGraphPersistenceError
  end.

Section enrichment.
Context {S : Type} `{!Session knowledge S} {udb : UnicodeDB}.

(** The two extractors, as the protocols state them. *)
Record extractors := Extractors {
  ex_entities : uuid → pystr → M S EntityExtractionResult.t;
  ex_relationships : uuid → pystr → list ExtractedEntity.t → M S RelationshipExtractionResult.t
}.

(** The sets filled over all chunks. *)
Record tally := Tally { ty_entities : gset uuid; ty_relationships : gset uuid }.

(** The variables of one chunk: the tally's entities, [resolved_by_key] and
    [accepted_entities]. *)
Record chunk_entities := ChunkEntities {
  ce_ids : gset uuid;
  ce_resolved : gmap pystr KnowledgeEntityRecord.t;
  ce_accepted : list ExtractedEntity.t
}.

Definition enrich_entity (document_id : uuid) (chunk : KnowledgeChunkRecord.t)
    (acc : chunk_entities) (entity : ExtractedEntity.t) : M S chunk_entities :=
  let* record := KnowledgeGraph.upsert_entity (ExtractedEntity.entity_type entity)
    (ExtractedEntity.canonical_name entity) (ExtractedEntity.description entity) None in
  KnowledgeGraph.add_mention (KnowledgeEntityRecord.entity_id record) document_id
    (KnowledgeChunkRecord.chunk_id chunk) (ExtractedEntity.canonical_name entity)
    (ExtractedEntity.confidence entity)
    (Some [(lit "source_metadata", PDict (KnowledgeChunkRecord.metadata chunk))]) ;;;
  ret (ChunkEntities ({[KnowledgeEntityRecord.entity_id record]} ∪ ce_ids acc)
         (<[ExtractedEntity.local_key entity := record]> (ce_resolved acc))
         (ce_accepted acc ++ [entity])).

Definition enrich_relationship (chunk : KnowledgeChunkRecord.t)
    (resolved : gmap pystr KnowledgeEntityRecord.t) (ids : gset uuid)
    (relationship : ExtractedRelationship.t) : M S (gset uuid) :=
  match resolved !! ExtractedRelationship.source_entity_key relationship,
        resolved !! ExtractedRelationship.target_entity_key relationship with
  | Some source, Some target =>
      let* record := KnowledgeGraph.add_relationship (KnowledgeEntityRecord.entity_id source)
        (KnowledgeEntityRecord.entity_id target)
        (ExtractedRelationship.relationship_type relationship)
        (ExtractedRelationship.description relationship)
        (ExtractedRelationship.confidence relationship) (KnowledgeChunkRecord.chunk_id chunk)
        None in
      ret ({[KnowledgeRelationshipRecord.relationship_id record]} ∪ ids)
  | _, _ => app_raise KnowledgeGraphExtractionError
  end.

Context (ext : extractors).

Definition enrich_chunk (document_id : uuid) (acc : tally) (chunk : KnowledgeChunkRecord.t) :
    M S tally :=
  let* extracted := ex_entities ext (KnowledgeChunkRecord.chunk_id chunk)
    (KnowledgeChunkRecord.content chunk) in
  let* found := fold_m (enrich_entity document_id chunk)
    (EntityExtractionResult.entities extracted) (ChunkEntities (ty_entities acc) ∅ []) in
  let* relationships := ex_relationships ext (KnowledgeChunkRecord.chunk_id chunk)
    (KnowledgeChunkRecord.content chunk) (ce_accepted found) in
  let* ids := fold_m (enrich_relationship chunk (ce_resolved found))
    (RelationshipExtractionResult.relationships relationships) (ty_relationships acc) in
  ret (Tally (ce_ids found) ids).

(** The body of the [try]. *)
Definition enrich_document (document_id : uuid) : M S tally :=
  let* document := KnowledgeDocuments.get_by_id document_id in
  match document with
  | None => app_raise KnowledgeDocumentNotFoundError
  | Some _ =>
      let* chunks := KnowledgeChunks.list_by_document document_id in
      let* acc := fold_m (enrich_chunk document_id) chunks (Tally ∅ ∅) in
      KnowledgeGraph.commit ;;;
      ret acc
  end.

Definition enrich (document_id : uuid) : M S KnowledgeGraphEnrichmentResult.t :=
  let* acc := try_except (enrich_document document_id) (λ e,
    match e with
    | ApplicationError a => KnowledgeGraph.rollback ;;; app_raise a
    | ValueError | ValidationError =>
        KnowledgeGraph.rollback ;;; app_raise KnowledgeGraphExtractionError
    | SQLAlchemyError q => KnowledgeGraph.rollback ;;; app_raise (graph_database_error q)
    | _ => raise e
    end) in
  ret (KnowledgeGraphEnrichmentResult.mk document_id (Z.of_nat (size (ty_entities acc)))
         (Z.of_nat (size (ty_relationships acc))) "completed").
End enrichment.
Arguments extractors : clear implicits.

(** ** Growth of the graph *)

(** What enriching document [d] may do to the tables: entities keep their identity, name
    and any description they had; mentions and relationships are only added, and what is
    added comes from a chunk of [d]. *)
Definition chunk_of (d : uuid) (db : knowledge) (c : uuid) : Prop :=
  ∃ chunk, KnowledgeTables.chunks db !! c = Some chunk ∧ KnowledgeChunkModel.document_id chunk = d.

Definition same_entity (e e' : KnowledgeEntityModel.t) : Prop :=
  KnowledgeEntityModel.identity e' = KnowledgeEntityModel.identity e ∧
  KnowledgeEntityModel.canonical_name e' = KnowledgeEntityModel.canonical_name e ∧
  (is_Some (KnowledgeEntityModel.description e) →
     KnowledgeEntityModel.description e' = KnowledgeEntityModel.description e).

Record grown (d : uuid) (db db' : knowledge) : Prop := {
  gw_documents : KnowledgeTables.documents db' = KnowledgeTables.documents db;
  gw_chunks : KnowledgeTables.chunks db' = KnowledgeTables.chunks db;
  gw_entities i e : KnowledgeTables.entities db !! i = Some e →
    ∃ e', KnowledgeTables.entities db' !! i = Some e' ∧ same_entity e e';
  gw_mentions : KnowledgeTables.mentions db ⊆ KnowledgeTables.mentions db';
  gw_new_mentions i m : KnowledgeTables.mentions db' !! i = Some m →
    KnowledgeTables.mentions db !! i = Some m ∨
    KnowledgeEntityMentionModel.document_id m = d ∧
    chunk_of d db (KnowledgeEntityMentionModel.chunk_id m);
  gw_relationships : KnowledgeTables.relationships db ⊆ KnowledgeTables.relationships db';
  gw_new_relationships i r : KnowledgeTables.relationships db' !! i = Some r →
    KnowledgeTables.relationships db !! i = Some r ∨
    chunk_of d db (KnowledgeRelationshipModel.source_chunk_id r)
}.

Lemma grown_refl d db : grown d db db.
Proof. split; auto. intros i e He. exists e. by repeat split. Qed.

Lemma chunk_of_grown d db db' c : grown d db db' → chunk_of d db c ↔ chunk_of d db' c.
Proof. intros Hg. unfold chunk_of. by rewrite (gw_chunks _ _ _ Hg). Qed.

Lemma grown_trans d db1 db2 db3 : grown d db1 db2 → grown d db2 db3 → grown d db1 db3.
Proof.
  intros H12 H23. split.
  - by rewrite (gw_documents _ _ _ H23), (gw_documents _ _ _ H12).
  - by rewrite (gw_chunks _ _ _ H23), (gw_chunks _ _ _ H12).
  - intros i e He. destruct (gw_entities _ _ _ H12 i e He) as (e2 & He2 & Hi & Hn & Hd).
    destruct (gw_entities _ _ _ H23 i e2 He2) as (e3 & He3 & Hi' & Hn' & Hd').
    exists e3. split; [done|]. split; [congruence|]. split; [congruence|].
    intros H. rewrite Hd' by (by rewrite Hd). by apply Hd.
  - etrans; [apply (gw_mentions _ _ _ H12)|apply (gw_mentions _ _ _ H23)].
  - intros i m Hm. destruct (gw_new_mentions _ _ _ H23 i m Hm) as [Hm'|[? Hc]].
    + by apply (gw_new_mentions _ _ _ H12).
    + right. split; [done|]. by apply (chunk_of_grown _ _ _ _ H12).
  - etrans; [apply (gw_relationships _ _ _ H12)|apply (gw_relationships _ _ _ H23)].
  - intros i r Hr. destruct (gw_new_relationships _ _ _ H23 i r Hr) as [Hr'|Hc].
    + by apply (gw_new_relationships _ _ _ H12).
    + right. by apply (chunk_of_grown _ _ _ _ H12).
Qed.

#[export] Instance grown_preorder d : PreOrder (grown d).
Proof. split; [intros db; apply grown_refl|intros ???; apply grown_trans]. Qed.

(** ** Rules of the graph operations *)

Section rules.
Context {S : Type} `{!Session knowledge S} `{!SessionLaws knowledge S} {udb : UnicodeDB}.
Context (E : exn → Prop) (Hsql : ∀ e, is_sql e → E e) (Hvalue : E ValueError).
Implicit Types db : knowledge.

(** A row found by a query of a table is stored under its identifier. *)
Lemma queried {A} (id : A → uuid) ok (m : gmap uuid A) (p : A → bool) a :
  table_ok id ok m → py_next p (rows m) = Some a → m !! id a = Some a ∧ p a = true.
Proof.
  intros Hm H. apply py_next_Some in H as [[i Hi]%elem_of_rows Hp].
  destruct (Hm i a Hi) as [-> _]. done.
Qed.

(** Inserting a row that repeats no key leaves the others alone. *)
Lemma insert_fresh {A} (i : uuid) (a : A) (m : gmap uuid A) b :
  b || repeats i m = false → m !! i = None ∧ m ⊆ <[i:=a]> m.
Proof.
  intros [_ Hr]%orb_false_iff. unfold repeats in Hr. apply bool_decide_eq_false in Hr.
  apply eq_None_not_Some in Hr. split; [done|]. by apply insert_subseteq.
Qed.

Lemma txn_upsert_entity d ty name description metadata db :
  knowledge_ok db →
  txn (KnowledgeGraph.upsert_entity ty name description metadata) db E (λ r db',
    knowledge_ok db' ∧ grown d db db' ∧
    (∃ model, KnowledgeTables.entities db' !! KnowledgeEntityRecord.entity_id r = Some model ∧
       KnowledgeEntityModel.identity model =
         (ty, normalize_entity_name (canonicalize_entity_name name))) ∧
    KnowledgeTables.mentions db' = KnowledgeTables.mentions db ∧
    KnowledgeTables.relationships db' = KnowledgeTables.relationships db ∧
    ∀ i m, KnowledgeTables.entities db' !! i = Some m →
      is_Some (KnowledgeTables.entities db !! i) ∨
      KnowledgeEntityModel.identity m =
        (ty, normalize_entity_name (canonicalize_entity_name name)) ∧
      KnowledgeEntityModel.canonical_name m = canonicalize_entity_name name ∧
      KnowledgeEntityModel.description m = description).
Proof.
  intros Hok. unfold KnowledgeGraph.upsert_entity.
  set (normalized := normalize_entity_name _). destruct (truthy normalized); [|by txn_steps].
  txn_steps. destruct (KnowledgeGraph.entity_of ty normalized db) as [model|] eqn:Hfound.
  - unfold KnowledgeGraph.entity_of in Hfound.
    apply (queried KnowledgeEntityModel.id (λ r, KnowledgeEntityModel.row_ok r = true)) in Hfound
      as [Hm Hp]; [|apply Hok]. apply bool_decide_eq_true in Hp.
    destruct (negb _ && _) eqn:Hd.
    2: { txn_steps. split_and!; try done; [by exists model|]. intros i m Hi. left. by eexists. }
    txn_steps. set (model' := update _ _ _) in *. split; [done|].
    split; [|split; [|split_and!; try done]].
    + split; try done; auto. intros i e He. simpl.
      destruct (decide (i = KnowledgeEntityModel.id model)) as [->|Hne].
      * exists model'. split; [by rewrite lookup_insert_eq|]. rewrite Hm in He.
        injection He as <-. split; [done|]. split; [done|]. intros [x Hx].
        apply andb_true_iff in Hd as [Hd _]. by rewrite Hx in Hd.
      * exists e. split; [by rewrite lookup_insert_ne by done|]. by repeat split.
    + exists model'. split; [|done]. simpl. apply lookup_insert_eq.
    + intros i m. simpl. rewrite lookup_insert_Some. intros [[<- _]|[_ Hi]]; left; by eexists.
  - txn_steps. match goal with H : tables_ok _ |- _ => rename H into Hok' end.
    split; [done|]. pose proof Hok' as [Hc _]. simpl in Hc.
    match type of Hok' with tables_ok (add_entity ?row db) => set (model := row) in * end.
    destruct (insert_fresh _ model _ _ Hc) as [Hnone Hsub].
    split; [|split; [|split_and!; try done]].
    + split; try done; auto. intros i e He. exists e. split; [|by repeat split].
      by eapply lookup_weaken.
    + exists model. split; [|done]. simpl. apply lookup_insert_eq.
    + intros i m. simpl. rewrite lookup_insert_Some.
      intros [[_ <-]|[_ Hi]]; [by right|left; by eexists].
Qed.

Lemma txn_add_mention d eid cid text conf metadata db :
  knowledge_ok db →
  txn (KnowledgeGraph.add_mention eid d cid text conf metadata) db E (λ r db',
    knowledge_ok db' ∧ grown d db db' ∧
    (∃ i m, KnowledgeTables.mentions db' !! i = Some m ∧
       KnowledgeEntityMentionModel.identity m = (eid, cid)) ∧
    KnowledgeTables.entities db' = KnowledgeTables.entities db ∧
    KnowledgeTables.relationships db' = KnowledgeTables.relationships db ∧
    ∀ i m, KnowledgeTables.mentions db' !! i = Some m →
      KnowledgeTables.mentions db !! i = Some m ∨
      KnowledgeEntityMentionModel.identity m = (eid, cid) ∧
      KnowledgeEntityMentionModel.mention_text m = canonicalize_entity_name text ∧
      KnowledgeEntityMentionModel.confidence m = conf ∧
      KnowledgeEntityMentionModel.mention_metadata m = default [] metadata).
Proof.
  intros Hok. unfold KnowledgeGraph.add_mention.
  destruct (confidence_ok conf); [|by txn_steps]. txn_steps.
  destruct (KnowledgeTables.entities db !! eid); [|by txn_steps]. txn_steps.
  destruct (KnowledgeTables.chunks db !! cid) as [chunk|] eqn:Hchunk; [|by txn_steps].
  case_decide as Hd; [|by txn_steps].
  assert (chunk_of d db cid) as Hof by (by exists chunk). txn_steps.
  destruct (py_next _ _) as [m|] eqn:Hfound; txn_steps.
  - eapply queried in Hfound as [Hm Hp]; [|apply Hok]. apply bool_decide_eq_true in Hp.
    split_and!; try done; [by eauto|by left].
  - match goal with H : tables_ok _ |- _ => rename H into Hok' end.
    pose proof Hok' as [Hc _]. simpl in Hc.
    match type of Hok' with tables_ok (add_mention_row ?row db) => set (model := row) in * end.
    destruct (insert_fresh _ model _ _ Hc) as [Hnone Hsub]. split; [done|].
    split; [|split; [|split_and!; try done]].
    + split; try done; auto.
      * intros i e He. exists e. by repeat split.
      * intros i m. simpl. rewrite lookup_insert_Some. intros [[_ <-]|[_ ?]]; auto.
    + eexists _, model. split; [|done]. simpl. apply lookup_insert_eq.
    + intros i m. simpl. rewrite lookup_insert_Some. intros [[_ <-]|[_ Hi]]; [by right|by left].
Qed.

Lemma txn_add_relationship d sid tid ty description conf cid metadata db :
  knowledge_ok db → chunk_of d db cid →
  txn (KnowledgeGraph.add_relationship sid tid ty description conf cid metadata) db E
    (λ r db', knowledge_ok db' ∧ grown d db db' ∧
      (∃ m, KnowledgeTables.relationships db' !! KnowledgeRelationshipRecord.relationship_id r
              = Some m ∧ KnowledgeRelationshipModel.identity m = (sid, tid, ty, cid)) ∧
      KnowledgeTables.entities db' = KnowledgeTables.entities db ∧
      KnowledgeTables.mentions db' = KnowledgeTables.mentions db ∧
      ∀ i m, KnowledgeTables.relationships db' !! i = Some m →
        KnowledgeTables.relationships db !! i = Some m ∨
        KnowledgeRelationshipModel.identity m = (sid, tid, ty, cid) ∧
        KnowledgeRelationshipModel.description m = description ∧
        KnowledgeRelationshipModel.confidence m = conf).
Proof.
  intros Hok Hof. unfold KnowledgeGraph.add_relationship.
  destruct (negb (confidence_ok conf)); [by txn_steps|].
  case_decide; [by txn_steps|]. txn_steps.
  destruct (KnowledgeTables.entities db !! sid); [|by txn_steps]. txn_steps.
  destruct (KnowledgeTables.entities db !! tid); [|by txn_steps]. txn_steps.
  destruct (KnowledgeTables.chunks db !! cid); [|by txn_steps]. txn_steps.
  destruct (py_next _ _) as [m|] eqn:Hfound; txn_steps.
  - eapply queried in Hfound as [Hm Hp]; [|apply Hok]. apply bool_decide_eq_true in Hp.
    split_and!; try done; [by eauto|by left].
  - match goal with H : tables_ok _ |- _ => rename H into Hok' end.
    pose proof Hok' as [Hc _]. simpl in Hc.
    match type of Hok' with tables_ok (add_relationship_row ?row db) => set (model := row) in * end.
    destruct (insert_fresh _ model _ _ Hc) as [Hnone Hsub]. split; [done|].
    split; [|split; [|split_and!; try done]].
    + split; try done; auto.
      * intros i e He. exists e. by repeat split.
      * intros i m. simpl. rewrite lookup_insert_Some. intros [[_ <-]|[_ ?]]; auto.
    + exists model. split; [|done]. simpl. apply lookup_insert_eq.
    + intros i m. simpl. rewrite lookup_insert_Some. intros [[_ <-]|[_ Hi]]; [by right|by left].
Qed.

(** A loop over [l] satisfies an invariant of the elements done. *)
Lemma txn_fold {A B} (f : B → A → M S B) l b db (I : list A → B → knowledge → Prop) :
  (∀ done a b db, a ∈ l → I done b db → txn (f b a) db E (I (done ++ [a]))) →
  I [] b db → txn (fold_m f l b) db E (I l).
Proof.
  assert (∀ l done b db, (∀ done a b db, a ∈ l → I done b db → txn (f b a) db E (I (done ++ [a]))) →
    I done b db → txn (fold_m f l b) db E (I (done ++ l))) as H.
  { clear l b db. intros l. induction l as [|a l IH]; intros done b db Hf Hb; simpl.
    - apply txn_ret. by rewrite app_nil_r.
    - apply txn_bind. eapply txn_mono; [apply Hf; [left|done]|done|].
      intros b' db' Hb'. replace (done ++ a :: l) with ((done ++ [a]) ++ l) by (by rewrite <- app_assoc).
      apply IH; [|done]. intros; apply Hf; [by right|done]. }
  intros Hf Hb. by apply (H l []).
Qed.
End rules.

(** ** The service *)

Lemma safe_from {S A} (R : relation S) E (m : M S A) Q :
  safe R E m Q → safe R E m (λ a, Q a ∧ ∃ s s', m s = (s', Ok a)).
Proof.
  intros H s. specialize (H s). unfold wp in *. destruct (m s) as [s' [a|e]] eqn:Hm; simpl in *;
    destruct H as [? ?]; (split; [done|]); [split; [done|by exists s, s']|done].
Qed.

(** What the extractors found in one chunk, with the rows it is stored in. *)
Record run := Run {
  rn_chunk : KnowledgeChunkRecord.t;
  rn_entities : list ExtractedEntity.t;
  rn_entity_ids : list uuid;
  rn_relationships : list ExtractedRelationship.t;
  rn_relationship_ids : list uuid
}.

(** Which row a key of a chunk's entities stands for; the last entity of a key counts. *)
Definition resolution (entities : list ExtractedEntity.t) (ids : list uuid) : gmap pystr uuid :=
  foldl (λ m ei, <[ExtractedEntity.local_key ei.1 := ei.2]> m) ∅ (zip entities ids).

Lemma resolution_snoc entities ids e i :
  length entities = length ids →
  resolution (entities ++ [e]) (ids ++ [i]) =
    <[ExtractedEntity.local_key e := i]> (resolution entities ids).
Proof. intros Hl. unfold resolution. by rewrite zip_with_app, foldl_app by done. Qed.

Definition entity_key {udb : UnicodeDB} (e : ExtractedEntity.t) : KnowledgeEntityType.t * pystr :=
  (ExtractedEntity.entity_type e,
   normalize_entity_name (canonicalize_entity_name (ExtractedEntity.canonical_name e))).

(** Entity [e] of chunk [c] is stored in row [i] and mentioned in that chunk. *)
Definition entity_stored {udb : UnicodeDB} (db : knowledge) (c : uuid) (e : ExtractedEntity.t) (i : uuid) : Prop :=
  (∃ m, KnowledgeTables.entities db !! i = Some m ∧ KnowledgeEntityModel.identity m = entity_key e) ∧
  ∃ j m, KnowledgeTables.mentions db !! j = Some m ∧ KnowledgeEntityMentionModel.identity m = (i, c).

(** Relationship [r] of chunk [c] is the edge [j] between the rows its keys stand for. *)
Definition relationship_stored (db : knowledge) (c : uuid) (resolved : gmap pystr uuid)
    (r : ExtractedRelationship.t) (j : uuid) : Prop :=
  ∃ source target m,
    resolved !! ExtractedRelationship.source_entity_key r = Some source ∧
    resolved !! ExtractedRelationship.target_entity_key r = Some target ∧
    KnowledgeTables.relationships db !! j = Some m ∧ KnowledgeRelationshipModel.identity m =
      (source, target, ExtractedRelationship.relationship_type r, c).

Definition run_stored {udb : UnicodeDB} (db : knowledge) (r : run) : Prop :=
  let c := KnowledgeChunkRecord.chunk_id (rn_chunk r) in
  Forall2 (entity_stored db c) (rn_entities r) (rn_entity_ids r) ∧
  Forall2 (relationship_stored db c (resolution (rn_entities r) (rn_entity_ids r)))
    (rn_relationships r) (rn_relationship_ids r).

(** The extractions of some chunks, flat: an entity or a relationship with its chunk. *)
Definition run_entities (r : run) : list (KnowledgeChunkRecord.t * ExtractedEntity.t) :=
  (rn_chunk r,.) <$> rn_entities r.
Definition run_relationships (r : run) : list (KnowledgeChunkRecord.t * ExtractedRelationship.t) :=
  (rn_chunk r,.) <$> rn_relationships r.

(** Every row of [db] that is not in [db0] was made from one of these extractions. *)
Record sourced {udb : UnicodeDB} (db0 : knowledge) (ents : list (KnowledgeChunkRecord.t * ExtractedEntity.t))
    (rels : list (KnowledgeChunkRecord.t * ExtractedRelationship.t)) (db : knowledge) : Prop := {
  sr_entities i m : KnowledgeTables.entities db !! i = Some m →
    is_Some (KnowledgeTables.entities db0 !! i) ∨
    ∃ c e, (c, e) ∈ ents ∧ KnowledgeEntityModel.identity m = entity_key e;
  sr_mentions i m : KnowledgeTables.mentions db !! i = Some m →
    KnowledgeTables.mentions db0 !! i = Some m ∨
    ∃ c e, (c, e) ∈ ents ∧ KnowledgeEntityMentionModel.chunk_id m = KnowledgeChunkRecord.chunk_id c ∧
      KnowledgeEntityMentionModel.mention_text m =
        canonicalize_entity_name (ExtractedEntity.canonical_name e) ∧
      KnowledgeEntityMentionModel.confidence m = ExtractedEntity.confidence e ∧
      KnowledgeEntityMentionModel.mention_metadata m =
        [(lit "source_metadata", PDict (KnowledgeChunkRecord.metadata c))];
  sr_relationships i m : KnowledgeTables.relationships db !! i = Some m →
    KnowledgeTables.relationships db0 !! i = Some m ∨
    ∃ c r, (c, r) ∈ rels ∧
      KnowledgeRelationshipModel.source_chunk_id m = KnowledgeChunkRecord.chunk_id c ∧
      KnowledgeRelationshipModel.relationship_type m = ExtractedRelationship.relationship_type r ∧
      KnowledgeRelationshipModel.description m = ExtractedRelationship.description r ∧
      KnowledgeRelationshipModel.confidence m = ExtractedRelationship.confidence r
}.

Lemma sourced_more {udb : UnicodeDB} db0 ents ents' rels rels' db :
  ents ⊆ ents' → rels ⊆ rels' → sourced db0 ents rels db → sourced db0 ents' rels' db.
Proof.
  intros He Hr [H1 H2 H3]. split.
  - intros i m Hm. destruct (H1 i m Hm) as [?|(c & e & ? & ?)]; [by left|right; eauto].
  - intros i m Hm. destruct (H2 i m Hm) as [?|(c & e & ? & ?)]; [by left|right]. exists c, e. auto.
  - intros i m Hm. destruct (H3 i m Hm) as [?|(c & e & ? & ?)]; [by left|right]. exists c, e. auto.
Qed.

Lemma entity_stored_grown {udb : UnicodeDB} d db db' c e i :
  grown d db db' → entity_stored db c e i → entity_stored db' c e i.
Proof.
  intros Hg [(m & Hm & Hid) (j & n & Hn & Hin)]. split.
  - destruct (gw_entities _ _ _ Hg i m Hm) as (m' & Hm' & Hs & _). exists m'. by rewrite Hs.
  - exists j, n. split; [|done]. eapply lookup_weaken; [done|apply (gw_mentions _ _ _ Hg)].
Qed.
Lemma relationship_stored_grown d db db' c m r j :
  grown d db db' → relationship_stored db c m r j → relationship_stored db' c m r j.
Proof.
  intros Hg (source & target & n & Hs & Ht & Hn & Hid). exists source, target, n. split_and!; try done.
  eapply lookup_weaken; [done|apply (gw_relationships _ _ _ Hg)].
Qed.
Lemma run_stored_grown {udb : UnicodeDB} d db db' r : grown d db db' → run_stored db r → run_stored db' r.
Proof.
  intros Hg [He Hr]. split; (eapply Forall2_impl; [done|]); simpl; intros.
  - by eapply entity_stored_grown.
  - by eapply relationship_stored_grown.
Qed.

Section service.
Context {S : Type} `{!Session knowledge S} `{!SessionLaws knowledge S} {udb : UnicodeDB}.
Context (ext : extractors S) (E : exn → Prop).
Context (Hsql : ∀ e, is_sql e → E e) (Hvalue : E ValueError)
  (Happ : ∀ a, E (ApplicationError a)).

(** The extractors leave the database alone. *)
Definition extractors_ok : Prop :=
  (∀ id content, safe keeps E (ex_entities ext id content) (λ _, True)) ∧
  (∀ id content entities, safe keeps E (ex_relationships ext id content entities) (λ _, True)).
Context (Hext : extractors_ok).

Context (d : uuid) (db0 : knowledge).

(** The run is what the extractors answered about its chunk, the second one asked with the
    entities of the first. *)
Definition extracted (r : run) : Prop :=
  let c := rn_chunk r in
  (∃ s s' answer, ex_entities ext (KnowledgeChunkRecord.chunk_id c) (KnowledgeChunkRecord.content c) s
     = (s', Ok answer) ∧ EntityExtractionResult.entities answer = rn_entities r) ∧
  (∃ s s' answer, ex_relationships ext (KnowledgeChunkRecord.chunk_id c)
     (KnowledgeChunkRecord.content c) (rn_entities r) s = (s', Ok answer) ∧
     RelationshipExtractionResult.relationships answer = rn_relationships r).

(** Entities counted are mentioned in the document, relationships are supported by it. *)
Definition mentioned (i : uuid) (db : knowledge) : Prop :=
  ∃ j m, KnowledgeTables.mentions db !! j = Some m ∧
    KnowledgeEntityMentionModel.entity_id m = i ∧
    chunk_of d db0 (KnowledgeEntityMentionModel.chunk_id m).
Definition supported (i : uuid) (db : knowledge) : Prop :=
  ∃ r, KnowledgeTables.relationships db !! i = Some r ∧
    chunk_of d db0 (KnowledgeRelationshipModel.source_chunk_id r).

Definition progress (es rs : gset uuid) (db : knowledge) : Prop :=
  knowledge_ok db ∧ grown d db0 db ∧
  (∀ i, i ∈ es → mentioned i db) ∧ (∀ i, i ∈ rs → supported i db).

(** The whole graph of the document is stored: everything the extractors found in every one
    of its chunks, nothing else, and [es] and [rs] are its entities and its edges. *)
Definition complete (chunks : list KnowledgeChunkRecord.t) (es rs : gset uuid) (db : knowledge) :
    Prop :=
  ∃ runs : list run,
    rn_chunk <$> runs = chunks ∧ Forall extracted runs ∧ Forall (run_stored db) runs ∧
    sourced db0 (runs ≫= run_entities) (runs ≫= run_relationships) db ∧
    es = list_to_set (runs ≫= rn_entity_ids) ∧ rs = list_to_set (runs ≫= rn_relationship_ids).

(** The tables during an enrichment. *)
Definition growing (ents : list (KnowledgeChunkRecord.t * ExtractedEntity.t))
    (rels : list (KnowledgeChunkRecord.t * ExtractedRelationship.t)) (db : knowledge) : Prop :=
  knowledge_ok db ∧ grown d db0 db ∧ sourced db0 ents rels db.

Lemma txn_enrich_entity chunk ents rels done acc ids entity db :
  chunk_of d db0 (KnowledgeChunkRecord.chunk_id chunk) →
  growing (ents ++ ((chunk,.) <$> done)) rels db →
  Forall2 (entity_stored db (KnowledgeChunkRecord.chunk_id chunk)) done ids →
  KnowledgeEntityRecord.entity_id <$> ce_resolved acc = resolution done ids →
  txn (enrich_entity d chunk acc entity) db E (λ acc' db', ∃ i,
    growing (ents ++ ((chunk,.) <$> done ++ [entity])) rels db' ∧ grown d db db' ∧
    Forall2 (entity_stored db' (KnowledgeChunkRecord.chunk_id chunk)) (done ++ [entity]) (ids ++ [i]) ∧
    KnowledgeEntityRecord.entity_id <$> ce_resolved acc' = resolution (done ++ [entity]) (ids ++ [i]) ∧
    ce_ids acc' = {[i]} ∪ ce_ids acc ∧ ce_accepted acc' = ce_accepted acc ++ [entity]).
Proof.
  intros Hc (Hok & Hg & Hsrc) Hst Hres. unfold enrich_entity. apply txn_bind.
  eapply txn_mono; [by apply (txn_upsert_entity E Hsql Hvalue d)|done|].
  intros record db1 (Hok1 & Hg1 & (model & Hmodel & Hmid) & Hm1 & Hr1 & Hnew1). apply txn_bind.
  eapply txn_mono; [by apply (txn_add_mention E Hsql Hvalue d)|done|].
  intros _ db2 (Hok2 & Hg2 & Hmention & He2 & Hr2 & Hnew2). apply txn_ret.
  assert (grown d db db2) as Hg' by (by etrans).
  assert (length done = length ids) as Hl by (by eapply Forall2_length).
  assert ((chunk, entity) ∈ ents ++ ((chunk,.) <$> done ++ [entity])) as Hin
    by (rewrite fmap_app; set_solver).
  exists (KnowledgeEntityRecord.entity_id record). split_and!; try done.
  - split; [done|]. split; [by etrans|].
    eapply (sourced_more _ _ (ents ++ ((chunk,.) <$> done ++ [entity])) _ rels) in Hsrc; [|set_solver|done].
    destruct Hsrc as [S1 S2 S3]. split; rewrite ?He2, ?Hr2, ?Hr1; try done.
    + intros i m Hi. destruct (Hnew1 i m Hi) as [[m0 Hm0]|(Hid & _)];
        [|right; by exists chunk, entity].
      destruct (gw_entities _ _ _ Hg1 i m0 Hm0) as (m' & Hm' & Hid' & _).
      rewrite Hi in Hm'. injection Hm' as <-. destruct (S1 i m0 Hm0) as [?|(c & e & ? & Hide)]; [by left|].
      right. exists c, e. by rewrite Hid'.
    + intros i m Hi. destruct (Hnew2 i m Hi) as [Hi'|(Hid & ? & ? & ?)].
      * rewrite Hm1 in Hi'. by apply S2.
      * right. exists chunk, entity. by injection Hid as _ ->.
  - apply Forall2_app; [eapply Forall2_impl; [done|]; intros; by eapply entity_stored_grown|].
    constructor; [|done]. split; [|done]. exists model. by rewrite He2.
  - simpl. rewrite fmap_insert, Hres. by rewrite resolution_snoc.
Qed.

Lemma txn_enrich_relationship chunk ents rels done resolved rids acc rel db :
  chunk_of d db0 (KnowledgeChunkRecord.chunk_id chunk) →
  growing ents (rels ++ ((chunk,.) <$> done)) db →
  Forall2 (relationship_stored db (KnowledgeChunkRecord.chunk_id chunk)
    (KnowledgeEntityRecord.entity_id <$> resolved)) done rids →
  txn (enrich_relationship chunk resolved acc rel) db E (λ acc' db', ∃ j,
    growing ents (rels ++ ((chunk,.) <$> done ++ [rel])) db' ∧ grown d db db' ∧
    Forall2 (relationship_stored db' (KnowledgeChunkRecord.chunk_id chunk)
      (KnowledgeEntityRecord.entity_id <$> resolved)) (done ++ [rel]) (rids ++ [j]) ∧
    acc' = {[j]} ∪ acc).
Proof.
  intros Hc (Hok & Hg & Hsrc) Hst. unfold enrich_relationship.
  destruct (resolved !! _) as [source|] eqn:Hs; [|by apply txn_raise].
  destruct (resolved !! ExtractedRelationship.target_entity_key _) as [target|] eqn:Ht;
    [|by apply txn_raise].
  apply txn_bind. eapply txn_mono; [apply (txn_add_relationship E Hsql Hvalue d); [done|]|done|].
  { by apply (chunk_of_grown _ db0). }
  intros record db1 (Hok1 & Hg1 & (m & Hm & Hid) & He1 & Hm1 & Hnew). apply txn_ret.
  assert ((chunk, rel) ∈ rels ++ ((chunk,.) <$> done ++ [rel])) as Hin
    by (rewrite fmap_app; set_solver).
  exists (KnowledgeRelationshipRecord.relationship_id record). split_and!; try done.
  - split; [done|]. split; [by etrans|].
    eapply (sourced_more _ _ ents _ (rels ++ ((chunk,.) <$> done ++ [rel]))) in Hsrc;
      [|done|set_solver].
    destruct Hsrc as [S1 S2 S3]. split; rewrite ?He1, ?Hm1; try done.
    intros i r Hi. destruct (Hnew i r Hi) as [Hi'|(Hrid & ? & ?)]; [by apply S3|].
    right. exists chunk, rel. by injection Hrid as _ _ -> ->.
  - apply Forall2_app; [eapply Forall2_impl; [done|]; intros; by eapply relationship_stored_grown|].
    constructor; [|done]. exists (KnowledgeEntityRecord.entity_id source),
      (KnowledgeEntityRecord.entity_id target), m. by rewrite !lookup_fmap, Hs, Ht.
Qed.

(** The entities of one chunk. *)
Lemma txn_enrich_entities chunk ents rels es entities db :
  chunk_of d db0 (KnowledgeChunkRecord.chunk_id chunk) → growing ents rels db →
  txn (fold_m (enrich_entity d chunk) entities (ChunkEntities es ∅ [])) db E (λ acc db', ∃ ids,
    growing (ents ++ ((chunk,.) <$> entities)) rels db' ∧ grown d db db' ∧
    Forall2 (entity_stored db' (KnowledgeChunkRecord.chunk_id chunk)) entities ids ∧
    KnowledgeEntityRecord.entity_id <$> ce_resolved acc = resolution entities ids ∧
    ce_ids acc = es ∪ list_to_set ids ∧ ce_accepted acc = entities).
Proof.
  intros Hc Hg.
  apply (txn_fold E _ _ _ _ (λ done acc db', ∃ ids,
    growing (ents ++ ((chunk,.) <$> done)) rels db' ∧ grown d db db' ∧
    Forall2 (entity_stored db' (KnowledgeChunkRecord.chunk_id chunk)) done ids ∧
    KnowledgeEntityRecord.entity_id <$> ce_resolved acc = resolution done ids ∧
    ce_ids acc = es ∪ list_to_set ids ∧ ce_accepted acc = done)).
  - intros done entity acc db1 _ (ids & Hg1 & Hd1 & Hst & Hres & Hids & Hacc).
    eapply txn_mono; [by eapply txn_enrich_entity|done|].
    intros acc' db2 (i & Hg2 & Hd2 & Hst2 & Hres2 & Hids2 & Hacc2).
    exists (ids ++ [i]). split_and!; [done|by etrans|done|done| |by rewrite Hacc2, Hacc].
    rewrite Hids2, Hids, list_to_set_app_L. set_solver.
  - exists []. rewrite app_nil_r. split_and!; try done. simpl. set_solver.
Qed.

(** The relationships of one chunk. *)
Lemma txn_enrich_relationships chunk ents rels resolved rs relationships db :
  chunk_of d db0 (KnowledgeChunkRecord.chunk_id chunk) → growing ents rels db →
  txn (fold_m (enrich_relationship chunk resolved) relationships rs) db E (λ acc db', ∃ rids,
    growing ents (rels ++ ((chunk,.) <$> relationships)) db' ∧ grown d db db' ∧
    Forall2 (relationship_stored db' (KnowledgeChunkRecord.chunk_id chunk)
      (KnowledgeEntityRecord.entity_id <$> resolved)) relationships rids ∧
    acc = rs ∪ list_to_set rids).
Proof.
  intros Hc Hg.
  apply (txn_fold E _ _ _ _ (λ done acc db', ∃ rids,
    growing ents (rels ++ ((chunk,.) <$> done)) db' ∧ grown d db db' ∧
    Forall2 (relationship_stored db' (KnowledgeChunkRecord.chunk_id chunk)
      (KnowledgeEntityRecord.entity_id <$> resolved)) done rids ∧
    acc = rs ∪ list_to_set rids)).
  - intros done rel acc db1 _ (rids & Hg1 & Hd1 & Hst & ->).
    eapply txn_mono; [by eapply txn_enrich_relationship|done|].
    intros acc' db2 (j & Hg2 & Hd2 & Hst2 & ->).
    exists (rids ++ [j]). split_and!; [done|by etrans|done|]. rewrite list_to_set_app_L. set_solver.
  - exists []. rewrite app_nil_r. split_and!; try done. simpl. set_solver.
Qed.

(** The chunks done, with what is stored of them and the identifiers counted. *)
Definition chunks_done (done : list KnowledgeChunkRecord.t) (acc : tally) (db : knowledge) : Prop :=
  ∃ runs : list run,
    rn_chunk <$> runs = done ∧ Forall extracted runs ∧ Forall (run_stored db) runs ∧
    growing (runs ≫= run_entities) (runs ≫= run_relationships) db ∧
    ty_entities acc = list_to_set (runs ≫= rn_entity_ids) ∧
    ty_relationships acc = list_to_set (runs ≫= rn_relationship_ids).

Lemma txn_enrich_chunk done acc chunk db :
  chunk_of d db0 (KnowledgeChunkRecord.chunk_id chunk) → chunks_done done acc db →
  txn (enrich_chunk ext d acc chunk) db E (chunks_done (done ++ [chunk])).
Proof.
  intros Hc (runs & Hrun & Hex & Hst & Hg & Hes & Hrs). destruct Hext as [Hents Hrels].
  unfold enrich_chunk.
  apply txn_bind, (txn_safe _ _ _ _ _ (safe_from _ _ _ _ (Hents _ _))).
  intros answer [_ (s1 & s1' & Ha)]. apply txn_bind.
  eapply txn_mono; [by eapply txn_enrich_entities|done|].
  intros found db1 (ids & Hg1 & Hd1 & Hst1 & Hres & Hids & Hacc).
  apply txn_bind, (txn_safe _ _ _ _ _ (safe_from _ _ _ _ (Hrels _ _ _))).
  intros answer' [_ (s2 & s2' & Ha')]. rewrite Hacc in Ha'. apply txn_bind.
  eapply txn_mono; [by eapply txn_enrich_relationships|done|].
  intros rs db2 (rids & Hg2 & Hd2 & Hst2 & ->). apply txn_ret. rewrite Hres in Hst2.
  pose (r := Run chunk (EntityExtractionResult.entities answer) ids
               (RelationshipExtractionResult.relationships answer') rids).
  exists (runs ++ [r]). rewrite !bind_app, fmap_app, Hrun. simpl. rewrite !app_nil_r.
  split_and!; [done| | |exact Hg2| |].
  - apply Forall_app. split; [done|]. constructor; [|done]. split; by eexists _, _, _.
  - apply Forall_app. split.
    + eapply Forall_impl; [exact Hst|]. intros r' Hr'. eapply run_stored_grown; [|done]. by etrans.
    + constructor; [|done]. split; [|done]. eapply Forall2_impl; [exact Hst1|].
      intros. by eapply entity_stored_grown.
  - simpl. by rewrite Hids, Hes, list_to_set_app_L.
  - simpl. by rewrite Hrs, list_to_set_app_L.
Qed.

(** The chunks of a document. *)
Definition document_chunks (db : knowledge) : list KnowledgeChunkRecord.t :=
  KnowledgeChunks._to_record <$> KnowledgeChunks.select_chunks d db.

Lemma listed_chunks db c :
  knowledge_ok db → c ∈ document_chunks db → chunk_of d db (KnowledgeChunkRecord.chunk_id c).
Proof.
  intros (_ & _ & Hc & _) Hin. apply list_elem_of_fmap in Hin as (m & -> & Hin).
  apply elem_of_merge_sort, list_elem_of_filter in Hin as [Hd [i Hi]%elem_of_rows].
  exists m. simpl. by destruct (Hc i m Hi) as [-> _].
Qed.

Lemma chunks_done_complete acc db :
  knowledge_ok db0 → chunks_done (document_chunks db0) acc db →
  progress (ty_entities acc) (ty_relationships acc) db ∧
  complete (document_chunks db0) (ty_entities acc) (ty_relationships acc) db.
Proof.
  intros Hok0 (runs & Hrun & Hex & Hst & (Hok & Hg & Hsrc) & Hes & Hrs).
  split; [|by exists runs]. split; [done|]. split; [done|]. rewrite Forall_forall in Hst.
  assert (∀ r, r ∈ runs → chunk_of d db0 (KnowledgeChunkRecord.chunk_id (rn_chunk r))) as Hchunk.
  { intros r Hr. apply listed_chunks; [done|]. rewrite <- Hrun. by apply list_elem_of_fmap_2. }
  split; intros i Hi.
  - rewrite Hes, elem_of_list_to_set in Hi. apply list_elem_of_bind in Hi as (r & Hi & Hr).
    destruct (Hst r Hr) as [Hst1 _]. apply list_elem_of_lookup in Hi as [k Hk].
    destruct (Forall2_lookup_r _ _ _ _ _ Hst1 Hk) as (e & _ & _ & j & m & Hm & Hid).
    injection Hid as Hi Hc. exists j, m. split_and!; [done|done|]. rewrite Hc. by apply Hchunk.
  - rewrite Hrs, elem_of_list_to_set in Hi. apply list_elem_of_bind in Hi as (r & Hi & Hr).
    destruct (Hst r Hr) as [_ Hst2]. apply list_elem_of_lookup in Hi as [k Hk].
    destruct (Forall2_lookup_r _ _ _ _ _ Hst2 Hk) as (e & _ & so & ta & m & _ & _ & Hm & Hid).
    injection Hid as _ _ _ Hc. exists m. split; [done|]. rewrite Hc. by apply Hchunk.
Qed.

Lemma commits_enrich_document :
  knowledge_ok db0 →
  commits (enrich_document ext d) db0 E (λ acc db,
    is_Some (KnowledgeTables.documents db !! d) ∧
    progress (ty_entities acc) (ty_relationships acc) db ∧
    complete (document_chunks db0) (ty_entities acc) (ty_relationships acc) db).
Proof.
  intros Hok. unfold enrich_document. apply commits_bind. unfold KnowledgeDocuments.get_by_id.
  txn_steps. destruct (KnowledgeTables.documents db0 !! d) as [doc|] eqn:Hdoc; simpl;
    [|by apply commits_raise].
  apply commits_bind. unfold KnowledgeChunks.list_by_document. txn_steps.
  apply commits_bind. eapply txn_mono.
  { apply (txn_fold E _ _ _ _ chunks_done).
    - intros done chunk acc db1 Hin Hp. apply txn_enrich_chunk; [|done]. by apply listed_chunks.
    - exists []. split_and!; try done. split; [done|]. split; [done|]. split; auto. }
  { done. }
  intros acc db1 Hp. apply (chunks_done_complete acc db1 Hok) in Hp as [Hp Hcomplete].
  apply commits_commit_ret; [done|]. intros _. split; [|done].
  destruct Hp as (_ & Hg & _). by rewrite (gw_documents _ _ _ Hg), Hdoc.
Qed.
End service.

Section atomic.
Context {S : Type} `{!Session knowledge S} `{!SessionLaws knowledge S} {udb : UnicodeDB}.

Lemma rollback_then a (s : S) :
  wp (KnowledgeGraph.rollback ;;; app_raise (A := tally) a) (λ s' r, durable s' = durable s ∧
    match r with Ok _ => False | Raise e => e = ApplicationError a ∨ is_sql e end) s.
Proof.
  apply wp_bind. eapply wp_mono; [apply rollback_law|]. intros s' [[]|e] [Hd Hr].
  - apply wp_raise. auto.
  - destruct Hr. auto.
Qed.

(** The errors that leave it open whether the commit took place. *)
Definition commit_unknown (e : exn) : Prop :=
  is_sql e ∨ e = ApplicationError KnowledgeGraphUnavailableError ∨
  e = ApplicationError KnowledgeGraphPersistenceError.

(** An exception [e] left [db] untouched, or it came from the commit. *)
Definition untouched_or_unknown (d : uuid) (e : exn) (db db' : knowledge) : Prop :=
  db' = db ∨ commit_unknown e ∧ ∃ es rs, progress d db es rs db'.

(** Enrichment on every path. *)
Lemma enrich_complete (ext : extractors S) (E : exn → Prop) d (s : S) :
  (∀ e, is_sql e → E e) → E ValueError → (∀ a, E (ApplicationError a)) →
  extractors_ok ext E → knowledge_ok (durable s) → view s = durable s →
  let whole es rs db' := progress d (durable s) es rs db' ∧
    complete ext (durable s) (document_chunks d (durable s)) es rs db' in
  wp (enrich ext d) (λ s' r,
    match r with
    | Ok out => view s' = durable s' ∧ is_Some (KnowledgeTables.documents (durable s') !! d) ∧
        ∃ es rs, whole es rs (durable s') ∧
          out = KnowledgeGraphEnrichmentResult.mk d (Z.of_nat (size es)) (Z.of_nat (size rs))
                  "completed"
    | Raise e => E e ∧ e ≠ ValueError ∧ e ≠ ValidationError ∧
        (durable s' = durable s ∨ commit_unknown e ∧ ∃ es rs, whole es rs (durable s'))
    end) s.
Proof.
  intros Hsql Hvalue Happ Hext Hok Hv whole. unfold enrich. apply wp_bind, wp_try. eapply wp_mono.
  { by apply (commits_enrich_document ext E Hsql Hvalue Happ Hext d (durable s)). }
  intros s1 [acc|e].
  { intros [[Hdoc Hp] Hv1]. apply wp_ret. split_and!; [done|done|]. by eexists _, _. }
  intros H.
  set (stopped (s' : S) (r : res tally) := match r with
      | Ok _ => False
      | Raise e' => E e' ∧ e' ≠ ValueError ∧ e' ≠ ValidationError ∧
          (durable s' = durable s ∨ commit_unknown e' ∧ ∃ es rs, whole es rs (durable s')) end).
  assert (Hstop : ∀ a, (is_sql e → commit_unknown (ApplicationError a)) →
    wp (KnowledgeGraph.rollback ;;; app_raise (A := tally) a) stopped s1).
  { intros a Ha. eapply wp_mono; [apply rollback_then|]. intros s' [x|e'] [Hd Hr]; [done|].
    unfold stopped. rewrite Hd. split_and!.
    - destruct Hr as [->|?]; auto.
    - destruct Hr as [->|[? ->]]; done.
    - destruct Hr as [->|[? ->]]; done.
    - destruct H as [[_ ?]|[He (acc & _ & Hp)]]; [by left|right]. split; [|by eexists _, _].
      destruct Hr as [->|?]; [auto|by left]. }
  assert (Hraise : ¬ is_sql e → e ≠ ValueError → e ≠ ValidationError →
    wp (raise (A := tally) e) stopped s1).
  { intros Hn H1 H2. destruct H as [[He Hd]|[? _]]; [|done]. apply wp_raise.
    split_and!; [done..|]. by left. }
  eapply wp_mono with (P := stopped); [|by intros ? []].
  destruct e as [a|q| | | | | | | | | |]; try (apply Hraise; [by intros []|done|done]).
  - apply Hstop. by intros [].
  - apply Hstop. intros _. destruct q; [right; left|right; left|right; right]; done.
  - apply Hstop. by intros [].
  - apply Hstop. by intros [].
Qed.

(** What the uploads and the connector rely on. *)
Lemma enrich_spec (ext : extractors S) (E : exn → Prop) d (s : S) :
  (∀ e, is_sql e → E e) → E ValueError → (∀ a, E (ApplicationError a)) →
  extractors_ok ext E → knowledge_ok (durable s) → view s = durable s →
  wp (enrich ext d) (λ s' r,
    match r with
    | Ok out => view s' = durable s' ∧ is_Some (KnowledgeTables.documents (durable s') !! d) ∧
        ∃ es rs, progress d (durable s) es rs (durable s') ∧
          out = KnowledgeGraphEnrichmentResult.mk d (Z.of_nat (size es)) (Z.of_nat (size rs))
                  "completed"
    | Raise e => E e ∧ e ≠ ValueError ∧ e ≠ ValidationError ∧
        untouched_or_unknown d e (durable s) (durable s')
    end) s.
Proof.
  intros Hsql Hvalue Happ Hext Hok Hv. eapply wp_mono; [by apply (enrich_complete ext E)|].
  intros s' [out|e].
  - intros (Hv' & Hd & es & rs & [Hp _] & Ho). split_and!; [done|done|]. by exists es, rs.
  - intros (He & H1 & H2 & Hu). split_and!; try done.
    destruct Hu as [Hu|(Hc & es & rs & Hp & _)]; [by left|right]. split; [done|]. by exists es, rs.
Qed.

(** C14: enrichment is atomic and whole: whatever the extractors propose and wherever the
    database fails, enriching a document either returns, and then the document exists and
    the committed tables satisfy every constraint and hold the whole graph of it - for every
    one of its chunks, every entity the extractors found there is stored under its type and
    normalized name and mentioned in that chunk, every relationship found is an edge between
    the rows of its two entities with that chunk as its source, no row was added that was not
    extracted from a chunk, and what was there before is untouched but for a description
    that was missing - with the counts of the distinct entities and edges; or it raises,
    never a bare [ValueError], and the committed tables are as before unless the commit itself
    failed, when they are as before or those of a completed enrichment. *)
Theorem enrichment_atomic (ext : extractors S) (E : exn → Prop) d (s : S) :
  (∀ e, is_sql e → E e) → E ValueError → (∀ a, E (ApplicationError a)) →
  extractors_ok ext E → knowledge_ok (durable s) → view s = durable s →
  let whole es rs db' := progress d (durable s) es rs db' ∧
    complete ext (durable s) (document_chunks d (durable s)) es rs db' in
  wp (enrich ext d) (λ s' r,
    match r with
    | Ok out => view s' = durable s' ∧ is_Some (KnowledgeTables.documents (durable s') !! d) ∧
        ∃ es rs, whole es rs (durable s') ∧
          out = KnowledgeGraphEnrichmentResult.mk d (Z.of_nat (size es)) (Z.of_nat (size rs))
                  "completed"
    | Raise e => E e ∧ e ≠ ValueError ∧ e ≠ ValidationError ∧
        (durable s' = durable s ∨ commit_unknown e ∧ ∃ es rs, whole es rs (durable s'))
    end) s.
Proof. apply enrich_complete. Qed.
End atomic.

(** ** On the sample tables *)

(** Extractors that find the same two entities and one edge in every chunk. *)
Definition demo_extractors (S : Type) : extractors S := Extractors
  (λ id _, ret (EntityExtractionResult.mk
     [ExtractedEntity.mk "ledger" "Ledger" KnowledgeEntityType.DATA_ASSET (Some (lit "Books.")) f64_one id;
      ExtractedEntity.mk "audit" "Audit" KnowledgeEntityType.PROCESS None f64_one id]))
  (λ id _ _, ret (RelationshipExtractionResult.mk
     [ExtractedRelationship.mk "audit" "ledger" KnowledgeRelationshipType.USES None f64_one id])).

Example demo_enrich_runs :
  match enrich (demo_extractors _) 1%N (open_session demo_knowledge) with
  | (s, Ok out) =>
      (KnowledgeGraphEnrichmentResult.entity_count out,
       size (KnowledgeTables.entities (durable s)), size (KnowledgeTables.mentions (durable s)),
       KnowledgeEntityModel.description <$> KnowledgeTables.entities (durable s) !! 22%N)
      = (2%Z, 4%nat, 3%nat, Some (Some (lit "Books.")))
  | _ => False
  end.
Proof. vm_compute. reflexivity. Qed.

(** On the sample tables the enrichment returns, with the whole graph stored. *)
Lemma enrichment_atomic_witness :
  ∃ s' es rs,
    enrich (demo_extractors (memory knowledge)) 1%N (open_session demo_knowledge) =
      (s', Ok (KnowledgeGraphEnrichmentResult.mk 1%N (Z.of_nat (size es)) (Z.of_nat (size rs))
                 "completed")) ∧
    progress 1%N demo_knowledge es rs (durable s') ∧
    complete (demo_extractors (memory knowledge)) demo_knowledge
      (document_chunks 1%N demo_knowledge) es rs (durable s') ∧
    length (document_chunks 1%N demo_knowledge) = 1%nat ∧ size es = 2%nat.
Proof.
  assert (extractors_ok (demo_extractors (memory knowledge)) (λ _, True)) as Hext.
  { split; intros; (apply safe_ret; [apply keeps_preorder|done]). }
  pose proof (enrichment_atomic (demo_extractors (memory knowledge)) (λ _, True) 1%N
    (open_session demo_knowledge) (λ _ _, I) I (λ _, I) Hext demo_knowledge_ok eq_refl) as H.
  unfold wp in H.
  assert (option_map KnowledgeGraphEnrichmentResult.entity_count
    match (enrich (demo_extractors (memory knowledge)) 1%N (open_session demo_knowledge)).2 with
    | Ok out => Some out | Raise _ => None end = Some 2%Z) as Hcount by (vm_compute; reflexivity).
  destruct (enrich _ _ _) as [s' [out|e]]; [|discriminate Hcount]. simpl in H, Hcount.
  destruct H as (_ & _ & es & rs & [Hp Hc] & ->). exists s', es, rs.
  split; [reflexivity|]. split; [exact Hp|]. split; [exact Hc|].
  split; [vm_compute; reflexivity|]. injection Hcount as Hcount. exact (Nat2Z.inj _ 2 Hcount).
Defined.
