(* ===== verification/TraversalTheorems.v ===== *)
(** The bounded traversal of the knowledge graph: [KnowledgeGraph.get_neighborhood]
    respects its limits, returns only what the stored edges connect to the seeds, and
    returns all of it whenever its limits do not bind. *)
From S2P Require Import Prelude PyFloat Errors Domain Unicode Session Storage Repositories.
From S2P Require Import KnowledgeStore KnowledgeRepositories Governance MemorySession KnowledgeDemo.
Import KnowledgeGraph.

(** ** The specification: entities within a number of hops *)

Section hops.
Context (edges : list KnowledgeRelationshipModel.t) (seeds : gset uuid).

(** Edges are followed in both directions. *)
Definition joins (edge : KnowledgeRelationshipModel.t) (i j : uuid) : Prop :=
  KnowledgeRelationshipModel.source_entity_id edge = i ∧
  KnowledgeRelationshipModel.target_entity_id edge = j ∨
  KnowledgeRelationshipModel.source_entity_id edge = j ∧
  KnowledgeRelationshipModel.target_entity_id edge = i.

Inductive hops : nat → uuid → Prop :=
  | hops_seed n i : i ∈ seeds → hops n i
  | hops_edge n i j edge : hops n i → edge ∈ edges → joins edge i j → hops (S n) j.
End hops.

Lemma joins_endpoints edge i j : joins edge i j → i ∈ endpoints edge ∧ j ∈ endpoints edge.
Proof. unfold endpoints. intros [[<- <-]|[<- <-]]; set_solver. Qed.

Lemma endpoints_joins edge i :
  i ∈ endpoints edge → ∃ j, joins edge i j ∧ ∀ k, k ∈ endpoints edge ↔ k = i ∨ k = j.
Proof.
  unfold endpoints, joins. rewrite !elem_of_cons, elem_of_nil. intros [->|[->|[]]].
  - eexists. split; [by left|]. set_solver.
  - eexists. split; [by right|]. set_solver.
Qed.

Lemma hops_mono edges edges' seeds n n' i :
  (∀ e, e ∈ edges → e ∈ edges') → (n ≤ n')%nat → hops edges seeds n i → hops edges' seeds n' i.
Proof.
  intros He Hn H. revert n' Hn. induction H as [n i Hi|n i j e _ IH Hin Hj]; intros n' Hn.
  - by apply hops_seed.
  - destruct n' as [|n']; [lia|]. apply (hops_edge _ _ n' i j e); auto with lia.
Qed.

(** ** Limits and grounding *)

Lemma size_added (X : gset uuid) l : (size (X ∪ list_to_set l) ≤ size X + length l)%nat.
Proof.
  induction l as [|i l IH]; simpl; [by rewrite union_empty_r_L, Nat.add_0_r|].
  assert (X ∪ ({[i]} ∪ list_to_set l) = {[i]} ∪ (X ∪ list_to_set l)) as -> by set_solver.
  rewrite size_union_alt, size_singleton.
  assert (size ((X ∪ list_to_set l) ∖ {[i]}) ≤ size (X ∪ list_to_set l))%nat
    by (apply subseteq_size; set_solver). lia.
Qed.

Section traversal.
Context (db : knowledge) (max_entities : Z) (min_confidence : pyfloat) (seeds : gset uuid).
Abbreviation edges := (rows (KnowledgeTables.relationships db)).

(** An edge the traversal may follow. *)
Definition trusted (edge : KnowledgeRelationshipModel.t) : Prop :=
  edge ∈ edges ∧ sql_fleb min_confidence (KnowledgeRelationshipModel.confidence edge) = true.

Lemma level_edges_trusted frontier edge :
  edge ∈ level_edges max_entities min_confidence frontier db →
  trusted edge ∧ ∃ i, i ∈ endpoints edge ∧ i ∈ frontier.
Proof.
  unfold level_edges, sql_limit. intros Hin%subseteq_take.
  apply elem_of_merge_sort, list_elem_of_filter in Hin as [[Hf Hc] Hin].
  split; [done|]. unfold endpoints. destruct Hf; eexists; (split; [|done]); set_solver.
Qed.

Lemma level_edges_complete frontier edge i :
  (Z.of_nat (length edges) ≤ max_entities * 8)%Z →
  trusted edge → i ∈ endpoints edge → i ∈ frontier →
  edge ∈ level_edges max_entities min_confidence frontier db.
Proof.
  intros Hl [Hin Hc] Hi Hf. unfold level_edges, sql_limit. rewrite take_ge.
  - apply elem_of_merge_sort, list_elem_of_filter. split; [|done]. split; [|done].
    unfold endpoints in Hi. set_solver.
  - rewrite (Permutation_length (merge_sort_Permutation _ _)).
    etrans; [apply length_filter|]. lia.
Qed.

Definition edge_id : KnowledgeRelationshipModel.t → uuid := KnowledgeRelationshipModel.id.
Context (Hids : NoDup (edge_id <$> edges)).

Lemma same_id e1 e2 : e1 ∈ edges → e2 ∈ edges → edge_id e1 = edge_id e2 → e1 = e2.
Proof.
  intros [i Hi]%list_elem_of_lookup [j Hj]%list_elem_of_lookup Heq.
  assert (i = j) as ->; [|congruence].
  eapply (NoDup_lookup _ i j (edge_id e1) Hids); rewrite list_lookup_fmap;
    [by rewrite Hi|by rewrite Hj, Heq].
Qed.

Lemma setdefault_edge l edge :
  Forall trusted l → trusted edge → edge ∈ keyed_setdefault edge_id l edge.
Proof.
  intros Hl He. unfold keyed_setdefault. case_decide as Hin; [|set_solver].
  apply list_elem_of_fmap in Hin as (e' & Heq & Hin). rewrite Forall_forall in Hl.
  destruct (Hl _ Hin) as [? _]. destruct He as [? _]. by rewrite (same_id edge e').
Qed.

(** What holds of the traversal after any number of levels. *)
Record grounded (st : traversal) : Prop := {
  gr_seeds : seeds ⊆ tv_visited st;
  gr_frontier : tv_frontier st ⊆ tv_visited st;
  gr_size : (Z.of_nat (size (tv_visited st)) ≤ max_entities)%Z;
  gr_ids : NoDup (edge_id <$> tv_relationships st);
  gr_trusted : Forall trusted (tv_relationships st);
  gr_endpoints : ∀ e i, e ∈ tv_relationships st → i ∈ endpoints e → i ∈ tv_visited st
}.

(** ... and that each visited entity is within the depth used. *)
Definition within (n : nat) (st : traversal) : Prop :=
  ∀ i, i ∈ tv_visited st → hops (tv_relationships st) seeds n i.

Lemma new_ids_fresh (visited : gset uuid) edge i :
  i ∈ filter (λ i, i ∉ visited) (endpoints edge) ↔ i ∈ endpoints edge ∧ i ∉ visited.
Proof. rewrite list_elem_of_filter. tauto. Qed.

Lemma visit_edge_grounded st edge :
  grounded st → trusted edge → grounded (visit_edge max_entities st edge) ∧
  tv_visited st ⊆ tv_visited (visit_edge max_entities st edge) ∧
  (∀ e, e ∈ tv_relationships st → e ∈ tv_relationships (visit_edge max_entities st edge)).
Proof.
  intros [Hs Hf Hz Hn Ht He] Htr. unfold visit_edge.
  set (new := filter _ (endpoints edge)). destruct (truthy new && _) eqn:Hb; [done|].
  assert (Hkeep : ∀ e, e ∈ tv_relationships st →
    e ∈ keyed_setdefault edge_id (tv_relationships st) edge).
  { intros e Hin. unfold keyed_setdefault. case_decide; [done|]. set_solver. }
  split; [|split; [simpl; set_solver|done]]. split; simpl.
  - set_solver.
  - set_solver.
  - pose proof (size_added (tv_visited st) new).
    destruct new as [|i l] eqn:Hnew.
    + simpl. rewrite union_empty_r_L. done.
    + rewrite <- Hnew in *. assert (truthy new = true) as Htn by (by rewrite Hnew).
      rewrite Htn in Hb. simpl in Hb. apply Z.ltb_ge in Hb. lia.
  - apply (keyed_setdefault_NoDup edge_id _ [edge]). done.
  - unfold keyed_setdefault. case_decide; [done|]. apply Forall_app. auto.
  - intros e i Hin Hi. unfold keyed_setdefault in Hin.
    assert (e ∈ tv_relationships st ∨ e = edge) as [Hin'| ->].
    { case_decide; [by left|]. set_solver. }
    + apply elem_of_union_l. eauto.
    + destruct (decide (i ∈ tv_visited st)); [set_solver|].
      apply elem_of_union_r, elem_of_list_to_set. by apply new_ids_fresh.
Qed.

Definition reached (V : gset uuid) (n : nat) (st : traversal) : Prop :=
  V ⊆ tv_visited st ∧ (∀ i, i ∈ V → hops (tv_relationships st) seeds n i) ∧ within (S n) st.

Lemma visit_edge_reached V n st edge :
  grounded st → reached V n st → trusted edge → (∃ i, i ∈ endpoints edge ∧ i ∈ V) →
  reached V n (visit_edge max_entities st edge).
Proof.
  intros Hg (HV & Hold & Hall) Htr (k & Hk & HkV).
  destruct (visit_edge_grounded st edge Hg Htr) as (Hg' & Hv & Hr).
  split; [by etrans|]. split.
  { intros i Hi. eapply hops_mono; [exact Hr|done|]. by apply Hold. }
  intros i Hi. destruct (decide (i ∈ tv_visited st)) as [Hin|Hout].
  { eapply hops_mono; [exact Hr|done|]. by apply Hall. }
  unfold visit_edge in Hi, Hr |- *. set (new := filter _ (endpoints edge)) in *.
  destruct (truthy new && _); [done|]. simpl in *.
  assert (i ∈ endpoints edge) as Hie.
  { assert (i ∈ new) as Hin by set_solver. by apply new_ids_fresh in Hin as [? _]. }
  destruct (endpoints_joins edge k Hk) as (j & Hj & Heq).
  destruct (proj1 (Heq i) Hie) as [Hik|Hij]; [rewrite Hik in Hout; set_solver|]. rewrite Hij.
  apply (hops_edge _ _ n k j edge); [|apply setdefault_edge; [apply Hg|done]|done].
  eapply hops_mono; [exact Hr|done|]. by apply Hold.
Qed.

Lemma fold_visit_grounded V n es st :
  grounded st → reached V n st →
  Forall (λ e, trusted e ∧ ∃ i, i ∈ endpoints e ∧ i ∈ V) es →
  grounded (fold_left (visit_edge max_entities) es st) ∧
  reached V n (fold_left (visit_edge max_entities) es st).
Proof.
  intros Hg Hr Hes. revert st Hg Hr.
  induction Hes as [|e es [Htr Hi] _ IH]; intros st Hg Hr; simpl; [done|]. apply IH.
  - by apply visit_edge_grounded.
  - by apply visit_edge_reached.
Qed.

Lemma visit_level_grounded st es depth n :
  grounded st → within n st →
  Forall (λ e, trusted e ∧ ∃ i, i ∈ endpoints e ∧ i ∈ tv_frontier st) es →
  grounded (visit_level max_entities depth st es) ∧
  within (S n) (visit_level max_entities depth st es).
Proof.
  intros Hg Hw Hes. unfold visit_level.
  destruct (fold_visit_grounded (tv_visited st) n es
    (Traversal (tv_visited st) ∅ (tv_relationships st) (tv_depth_used st)))
    as [[] (_ & _ & ?)]; [| | |by split].
  - destruct Hg. by split.
  - split; [done|]. split; [done|]. intros i Hi.
    apply (hops_mono (tv_relationships st) _ seeds n (S n)); [done|lia|by apply Hw].
  - eapply Forall_impl; [exact Hes|]. intros e [? (i & ? & Hi)]. split; [done|].
    exists i. split; [done|]. by apply (gr_frontier st Hg).
Qed.

(** A level adds at most one relationship per edge of its query. *)
Lemma fold_visit_length es st :
  (length (tv_relationships (fold_left (visit_edge max_entities) es st)) ≤
   length (tv_relationships st) + length es)%nat.
Proof.
  revert st. induction es as [|e es IH]; intros st; simpl; [lia|]. etrans; [apply IH|].
  unfold visit_edge. destruct (truthy _ && _); simpl; [lia|]. unfold keyed_setdefault.
  case_decide; [lia|]. rewrite length_app. simpl. lia.
Qed.

Lemma level_edges_length frontier :
  (length (level_edges max_entities min_confidence frontier db) ≤
   Z.to_nat (max_entities * 8))%nat.
Proof. unfold level_edges, sql_limit. rewrite length_take. lia. Qed.

(** ** Completeness

    When there are no more entities and edges than the limits allow, nothing is skipped. *)
Context (Hroom : (Z.of_nat (length edges) ≤ max_entities * 8)%Z).
Context (known : gset uuid) (Hknown : (Z.of_nat (size known) ≤ max_entities)%Z).
Context (Hends : ∀ e i, e ∈ edges → i ∈ endpoints e → i ∈ known).
Context (Hself : ∀ e, e ∈ edges → NoDup (endpoints e)).

(** Every trusted edge at a visited entity off the frontier has been followed. *)
Record explored (n : nat) (st : traversal) : Prop := {
  ex_known : tv_visited st ⊆ known;
  ex_frontier : tv_frontier st ⊆ tv_visited st;
  ex_closed : ∀ e i j, trusted e → i ∈ endpoints e → j ∈ endpoints e →
    i ∈ tv_visited st → i ∉ tv_frontier st → j ∈ tv_visited st;
  ex_hops : ∀ l i, (∀ e, e ∈ l → trusted e) → hops l seeds n i → i ∈ tv_visited st
}.

Lemma visit_edge_known st edge :
  tv_visited st ⊆ known → trusted edge →
  let st' := visit_edge max_entities st edge in
  tv_visited st' ⊆ known ∧ tv_visited st ⊆ tv_visited st' ∧
  (∀ i, i ∈ endpoints edge → i ∈ tv_visited st') ∧
  (∀ i, i ∈ tv_visited st' → i ∈ tv_visited st ∨ i ∈ tv_frontier st') ∧
  tv_frontier st ⊆ tv_frontier st'.
Proof.
  intros Hk [Hin Hc]. unfold visit_edge. set (new := filter _ (endpoints edge)).
  assert (Hnew : ∀ i, i ∈ new ↔ i ∈ endpoints edge ∧ i ∉ tv_visited st)
    by (intros; apply new_ids_fresh).
  assert (Hnd : NoDup new) by (apply NoDup_filter; auto).
  assert (Hsub : tv_visited st ∪ list_to_set new ⊆ known).
  { apply union_subseteq. split; [done|]. intros i Hi%elem_of_list_to_set%Hnew.
    apply (Hends edge); tauto. }
  assert (Z.of_nat (size (tv_visited st)) + Z.of_nat (length new) ≤ max_entities)%Z.
  { apply subseteq_size in Hsub. rewrite size_union, size_list_to_set in Hsub by set_solver. lia. }
  destruct (truthy new && _) eqn:Hb.
  { apply andb_true_iff in Hb as [_ Hb]. apply Z.ltb_lt in Hb. lia. }
  simpl. split_and!; [done|set_solver| |set_solver|set_solver].
  intros i Hi. destruct (decide (i ∈ tv_visited st)); [set_solver|].
  apply elem_of_union_r, elem_of_list_to_set, Hnew. done.
Qed.

Lemma fold_visit_frontier es st :
  tv_frontier st ⊆ tv_visited st →
  tv_frontier (fold_left (visit_edge max_entities) es st) ⊆
  tv_visited (fold_left (visit_edge max_entities) es st).
Proof.
  revert st. induction es as [|e es IH]; intros st Hf; simpl; [done|]. apply IH.
  unfold visit_edge. destruct (truthy _ && _); [done|]. simpl. set_solver.
Qed.

Lemma fold_visit_known es st :
  tv_visited st ⊆ known → Forall trusted es →
  let st' := fold_left (visit_edge max_entities) es st in
  tv_visited st' ⊆ known ∧ tv_visited st ⊆ tv_visited st' ∧
  (∀ e i, e ∈ es → i ∈ endpoints e → i ∈ tv_visited st') ∧
  (∀ i, i ∈ tv_visited st' → i ∈ tv_visited st ∨ i ∈ tv_frontier st') ∧
  tv_frontier st ⊆ tv_frontier st'.
Proof.
  intros Hk Hes. revert st Hk. induction Hes as [|e es He _ IH]; intros st Hk; simpl.
  { split_and!; [done|done|set_solver|by left|done]. }
  destruct (visit_edge_known st e Hk He) as (Hk' & Hv & Hi & Hf & Hff).
  destruct (IH _ Hk') as (Hk'' & Hv' & Hi' & Hf' & Hff').
  split_and!; [done|by etrans| | |by etrans].
  - intros e' i [->|He']%elem_of_cons Hie; eauto.
  - intros i [Hin|?]%Hf'; [|by right]. apply Hf in Hin as [?|?]; [by left|right; auto].
Qed.

Lemma visit_level_explored n st depth :
  explored n st →
  explored (S n) (visit_level max_entities depth st
    (level_edges max_entities min_confidence (tv_frontier st) db)).
Proof.
  intros [Hk Hf Hc Hh]. unfold visit_level.
  set (acc := Traversal (tv_visited st) ∅ (tv_relationships st) (tv_depth_used st)).
  set (es := level_edges _ _ _ _).
  destruct (fold_visit_known es acc) as (Hk' & Hv & Hi & Hnew & Hff); [done| |].
  { apply Forall_forall. intros e He. by apply level_edges_trusted in He as [? _]. }
  assert (Hstep : ∀ e i j, trusted e → i ∈ endpoints e → j ∈ endpoints e → i ∈ tv_visited st →
    j ∈ tv_visited (fold_left (visit_edge max_entities) es acc)).
  { intros e i j He Hie Hje Hiv. destruct (decide (i ∈ tv_frontier st)) as [HF|HF].
    - apply (Hi e); [|done]. by apply (level_edges_complete _ e i).
    - apply Hv. by apply (Hc e i j). }
  split; simpl.
  - done.
  - apply fold_visit_frontier. done.
  - intros e i j He Hie Hje Hiv Hif. apply Hnew in Hiv as [Hiv|]; [|done]. by apply (Hstep e i j).
  - intros l i Hl H. inversion H as [? ? Hs|? i' ? e Hn He Hj]; subst.
    + apply Hv, (Hh l); [done|]. by apply hops_seed.
    + apply joins_endpoints in Hj as [? ?]. apply (Hstep e i'); auto. by apply (Hh l).
Qed.
End traversal.

(** ** The whole traversal *)

Section traverse.
Context (db : knowledge) (Hok : knowledge_ok db).
Context (max_entities : Z) (min_confidence : pyfloat) (seeds : gset uuid).
Abbreviation edges := (rows (KnowledgeTables.relationships db)).
Abbreviation follows := (trusted db min_confidence).

(** The traversal of an unchanging database. *)
Fixpoint traverse_db (levels : nat) (depth : Z) (st : traversal) : traversal :=
  match levels with
  | O => st
  | S levels' =>
      if decide (tv_frontier st = ∅) then st
      else
        match level_edges max_entities min_confidence (tv_frontier st) db with
        | [] => st
        | es => traverse_db levels' (depth + 1) (visit_level max_entities depth st es)
        end
  end.

Lemma relationships_table :
  table_ok KnowledgeRelationshipModel.id (λ r, KnowledgeRelationshipModel.row_ok r = true ∧
      is_Some (KnowledgeTables.entities db !! KnowledgeRelationshipModel.source_entity_id r) ∧
      is_Some (KnowledgeTables.entities db !! KnowledgeRelationshipModel.target_entity_id r) ∧
      is_Some (KnowledgeTables.chunks db !! KnowledgeRelationshipModel.source_chunk_id r))
    (KnowledgeTables.relationships db).
Proof. apply Hok. Qed.

Lemma edge_ids_NoDup : NoDup (edge_id <$> edges).
Proof. eapply rows_keys_NoDup, relationships_table. Qed.

Lemma edge_ends e i : e ∈ edges → i ∈ endpoints e → is_Some (KnowledgeTables.entities db !! i).
Proof.
  intros [k Hk]%elem_of_rows Hi. destruct (relationships_table k e Hk) as (_ & _ & Hs & Ht & _).
  unfold endpoints in Hi. rewrite !elem_of_cons, elem_of_nil in Hi.
  by destruct Hi as [->|[->|[]]].
Qed.

Lemma edge_no_self e : e ∈ edges → NoDup (endpoints e).
Proof.
  intros [k Hk]%elem_of_rows. destruct (relationships_table k e Hk) as (_ & Hr & _).
  unfold KnowledgeRelationshipModel.row_ok in Hr. split_bools.
  match goal with H : bool_decide _ = true |- _ => apply bool_decide_eq_true in H as Hne end.
  unfold endpoints. repeat constructor; set_solver.
Qed.

(** The bounds: depth, entities, relationships. *)
Record bounded (levels : nat) (st : traversal) : Prop := {
  bd_grounded : grounded db max_entities min_confidence seeds st;
  bd_within : within seeds (Z.to_nat (tv_depth_used st)) st;
  bd_depth : (0 ≤ tv_depth_used st ≤ Z.of_nat levels)%Z;
  bd_length : (Z.of_nat (length (tv_relationships st)) ≤
               tv_depth_used st * (Z.max 0 max_entities * 8))%Z
}.

Lemma traverse_bounded levels n st :
  bounded n st → tv_depth_used st = Z.of_nat n →
  bounded (n + levels) (traverse_db levels (Z.of_nat n + 1) st).
Proof.
  revert n st. induction levels as [|levels IH]; intros n st Hb Hn; simpl.
  { by rewrite Nat.add_0_r. }
  assert (Hstop : bounded (n + S levels) st).
  { destruct Hb. split; try done. lia. }
  case_decide; [done|].
  destruct (level_edges _ _ _ _) as [|e es] eqn:Hes; [done|]. rewrite <- Hes.
  set (l := level_edges max_entities min_confidence (tv_frontier st) db) in *.
  replace (n + S levels)%nat with (S n + levels)%nat by lia.
  replace (Z.of_nat n + 1 + 1)%Z with (Z.of_nat (S n) + 1)%Z by lia.
  destruct Hb as [Hg Hw Hd Hl].
  destruct (visit_level_grounded db max_entities min_confidence seeds edge_ids_NoDup st l
    (Z.of_nat n + 1) _ Hg Hw) as [Hg' Hw'].
  { apply Forall_forall. intros x. apply level_edges_trusted. }
  apply IH; [|simpl; lia]. split; [done| |simpl; lia|].
  - simpl. replace (Z.to_nat (Z.of_nat n + 1)) with (S (Z.to_nat (tv_depth_used st))) by lia. done.
  - pose proof (fold_visit_length max_entities l
      (Traversal (tv_visited st) ∅ (tv_relationships st) (tv_depth_used st))) as Hlen.
    pose proof (level_edges_length db max_entities min_confidence (tv_frontier st)).
    fold l in H0. simpl in *. nia.
Qed.

Lemma traverse_complete levels n depth st known :
  (Z.of_nat (length edges) ≤ max_entities * 8)%Z →
  (Z.of_nat (size known) ≤ max_entities)%Z →
  (∀ i, is_Some (KnowledgeTables.entities db !! i) → i ∈ known) →
  explored db min_confidence seeds known n st →
  ∀ l i, (∀ e, e ∈ l → follows e) → hops l seeds (n + levels) i →
    i ∈ tv_visited (traverse_db levels depth st).
Proof.
  intros Hroom Hknown Hdom.
  assert (Hclosed : ∀ st n, explored db min_confidence seeds known n st →
    (∀ e i, follows e → i ∈ endpoints e → i ∈ tv_frontier st → False) →
    ∀ l m i, (∀ e, e ∈ l → follows e) → hops l seeds m i → i ∈ tv_visited st).
  { intros st' n' [_ _ Hc Hh] Hno l m i Hl Hi. induction Hi as [m i Hi|m i j e _ IH He Hj].
    - apply (Hh l); [done|]. by apply hops_seed.
    - apply joins_endpoints in Hj as [? ?]. apply (Hc e i j); auto. intros HF. eauto. }
  revert n depth st. induction levels as [|levels IH]; intros n depth st Hex l i Hl Hi; simpl.
  { rewrite Nat.add_0_r in Hi. by apply (ex_hops _ _ _ _ _ _ Hex l). }
  case_decide as HF.
  { eapply Hclosed; [exact Hex| |exact Hl|exact Hi]. intros. set_solver. }
  destruct (level_edges _ _ _ _) as [|e es] eqn:Hes.
  { eapply Hclosed; [exact Hex| |exact Hl|exact Hi]. intros e' i' He Hie Hif.
    pose proof (level_edges_complete db max_entities min_confidence (tv_frontier st) e' i'
      Hroom He Hie Hif) as Hin. rewrite Hes in Hin. by apply elem_of_nil in Hin. }
  rewrite <- Hes. apply (IH (S n) _ _) with (l := l); [|done|].
  - apply visit_level_explored; [exact edge_ids_NoDup|done|done| |exact edge_no_self|done].
    intros e' i' He Hi'. by apply Hdom, (edge_ends e').
  - by replace (S n + levels)%nat with (n + S levels)%nat by lia.
Qed.
End traverse.

(** ** The result *)

Section result.
Context {C : Collation} (db : knowledge).

(** The chunks of the mentions and relationships found. *)
Definition supporting (mentions : list KnowledgeEntityMentionModel.t)
    (relationships : list KnowledgeRelationshipModel.t) : gset uuid :=
  list_to_set (KnowledgeEntityMentionModel.chunk_id <$> mentions) ∪
  list_to_set (KnowledgeRelationshipModel.source_chunk_id <$> relationships).

Definition evidence_db (chunk_ids : gset uuid) : list RetrievedEvidence.t :=
  to_graph_evidence <$> merge_sort (id_le chunk_id_of)
    (filter (λ row, chunk_id_of row ∈ chunk_ids) (chunk_documents db)).

Definition entities_db (visited : gset uuid) : list KnowledgeEntityModel.t :=
  merge_sort name_le (filter (λ m, KnowledgeEntityModel.id m ∈ visited)
    (rows (KnowledgeTables.entities db))).

Definition mentions_db (visited : gset uuid) : list KnowledgeEntityMentionModel.t :=
  merge_sort mentions_by_age (filter (λ m, KnowledgeEntityMentionModel.entity_id m ∈ visited)
    (rows (KnowledgeTables.mentions db))).

(** What [get_neighborhood] returns on an unchanging database. *)
Definition neighborhood_db (seed_entity_ids : list uuid) (max_depth max_entities : Z)
    (min_confidence : pyfloat) : GraphTraversalData.t :=
  let ordered_seeds := slice_to max_entities (dict_fromkeys seed_entity_ids) in
  let seeds : gset uuid := list_to_set ordered_seeds in
  let st := traverse_db db max_entities min_confidence (Z.to_nat max_depth) 1
    (Traversal seeds seeds [] 0) in
  let models := entities_db (tv_visited st) in
  let mentions := mentions_db (tv_visited st) in
  GraphTraversalData.mk
    (_entity_record <$> omap (entity_with models) ordered_seeds)
    (_entity_record <$> filter (λ m, KnowledgeEntityModel.id m ∉ seeds) models)
    (_relationship_record <$> merge_sort (id_le KnowledgeRelationshipModel.id)
       (tv_relationships st))
    (_mention_record <$> mentions)
    (evidence_db (supporting mentions (tv_relationships st)))
    (tv_depth_used st).

Lemma evidence_db_empty : evidence_db ∅ = [].
Proof.
  unfold evidence_db. destruct (filter _ (chunk_documents db)) as [|row l] eqn:Hf; [done|].
  assert (row ∈ row :: l) as Hin by left. rewrite <- Hf in Hin.
  apply list_elem_of_filter in Hin as [Hin _]. set_solver.
Qed.

Context {S : Type} `{!Session knowledge S} `{!SessionLaws knowledge S}.

Lemma txn_traverse levels depth me mc st E Q :
  (∀ e, is_sql e → E e) → Q (traverse_db db me mc levels depth st) db →
  txn (traverse levels depth me mc st) db E Q.
Proof.
  intros HE. revert depth st. induction levels as [|levels IH]; intros depth st HQ; simpl in *.
  { by apply txn_ret. }
  case_decide; [by apply txn_ret|]. txn_steps.
  destruct (level_edges _ _ _ _); [by apply txn_ret|by apply IH].
Qed.

Lemma txn_get_neighborhood ids md me mc E Q :
  (∀ e, is_sql e → E e) → Q (neighborhood_db ids md me mc) db →
  txn (get_neighborhood ids md me mc) db E Q.
Proof.
  intros HE HQ. unfold get_neighborhood. apply txn_bind, txn_traverse; [done|].
  txn_steps. unfold _load_graph_evidence. unfold neighborhood_db in HQ.
  fold (entities_db (tv_visited (traverse_db db me mc (Z.to_nat md) 1
    (Traversal (list_to_set (slice_to me (dict_fromkeys ids)))
       (list_to_set (slice_to me (dict_fromkeys ids))) [] 0)))).
  case_decide as Hc; txn_steps; [|exact HQ].
  unfold supporting, mentions_db in HQ. rewrite Hc, evidence_db_empty in HQ. exact HQ.
Qed.

(** *** Which entities are found *)

Definition found (out : GraphTraversalData.t) : list uuid :=
  KnowledgeEntityRecord.entity_id <$>
    (GraphTraversalData.matched_entities out ++ GraphTraversalData.related_entities out).

Context (Hok : knowledge_ok db).

Lemma entities_db_spec visited m :
  m ∈ entities_db visited ↔
  KnowledgeTables.entities db !! KnowledgeEntityModel.id m = Some m ∧
  KnowledgeEntityModel.id m ∈ visited.
Proof.
  unfold entities_db. rewrite elem_of_merge_sort, list_elem_of_filter, elem_of_rows. split.
  - intros [Hv [i Hi]]. split; [|done]. destruct Hok as (_ & _ & _ & He & _).
    by destruct (He i m Hi) as [-> _].
  - intros [Hi Hv]. eauto.
Qed.

Lemma entities_db_NoDup visited : NoDup (KnowledgeEntityModel.id <$> entities_db visited).
Proof.
  unfold entities_db. rewrite merge_sort_Permutation.
  apply (sublist_NoDup _ (KnowledgeEntityModel.id <$> rows (KnowledgeTables.entities db)));
    [|apply fmap_sublist, sublist_filter].
  destruct Hok as (_ & _ & _ & He & _). by eapply rows_keys_NoDup.
Qed.

Lemma entity_with_spec visited i m :
  entity_with (entities_db visited) i = Some m ↔
  KnowledgeTables.entities db !! i = Some m ∧ i ∈ visited.
Proof.
  unfold entity_with. split.
  - intros H. apply py_next_Some in H as [Hin Hi]. apply bool_decide_eq_true in Hi as <-.
    by apply entities_db_spec in Hin.
  - intros [Hm Hv].
    assert (Hid : KnowledgeEntityModel.id m = i).
    { destruct Hok as (_ & _ & _ & He & _). by destruct (He i m Hm). }
    destruct (py_next _ _) as [m'|] eqn:Hn.
    + apply py_next_Some in Hn as [Hin Hi]. apply bool_decide_eq_true in Hi.
      apply entities_db_spec in Hin as [Hm' _]. rewrite Hi in Hm'. congruence.
    + apply py_next_None with (a := m) in Hn.
      * rewrite Hid, bool_decide_eq_true_2 in Hn; done.
      * apply entities_db_spec. by rewrite Hid.
Qed.

Section found.
Context (ids : list uuid) (md me : Z) (mc : pyfloat).
Let out := neighborhood_db ids md me mc.
Let ordered := slice_to me (dict_fromkeys ids).
Let st := traverse_db db me mc (Z.to_nat md) 1
  (Traversal (list_to_set ordered) (list_to_set ordered) [] 0).

Lemma ordered_NoDup : NoDup ordered.
Proof.
  assert (NoDup (dict_fromkeys ids)) as Hd.
  { pose proof (dedup_by_NoDup id ids) as H. by rewrite list_fmap_id in H. }
  unfold ordered, slice_to. destruct (Z.leb _ _); by apply (sublist_NoDup _ (dict_fromkeys ids)),
    sublist_take.
Qed.

Lemma ordered_seeds i : i ∈ ordered → i ∈ ids.
Proof.
  unfold ordered, slice_to. destruct (Z.leb _ _); intros Hin%subseteq_take;
    by apply dedup_by_subset in Hin.
Qed.

Lemma matched_ids :
  KnowledgeEntityRecord.entity_id <$> GraphTraversalData.matched_entities out =
  filter (λ i, is_Some (KnowledgeTables.entities db !! i) ∧ i ∈ tv_visited st) ordered.
Proof.
  unfold out, neighborhood_db. simpl. fold ordered. fold st. clearbody ordered st.
  rewrite <- list_fmap_compose. induction ordered as [|i l IH]; [done|]. simpl.
  destruct (entity_with _ i) as [m|] eqn:He.
  - apply entity_with_spec in He as Hm. destruct Hm as [Hm Hv].
    rewrite filter_cons_True by eauto. csimpl. rewrite IH. f_equal.
    destruct Hok as (_ & _ & _ & Hents & _). by destruct (Hents i m Hm).
  - rewrite filter_cons_False; [done|]. intros [[m Hm] Hv].
    by rewrite (proj2 (entity_with_spec _ i m) (conj Hm Hv)) in He.
Qed.

Lemma related_ids :
  KnowledgeEntityRecord.entity_id <$> GraphTraversalData.related_entities out =
  KnowledgeEntityModel.id <$>
    filter (λ m, KnowledgeEntityModel.id m ∉ (list_to_set ordered : gset uuid))
      (entities_db (tv_visited st)).
Proof. unfold out, neighborhood_db. simpl. by rewrite <- list_fmap_compose. Qed.

Lemma found_spec i :
  i ∈ found out ↔ is_Some (KnowledgeTables.entities db !! i) ∧ i ∈ tv_visited st.
Proof.
  unfold found. rewrite fmap_app, elem_of_app, matched_ids, related_ids.
  rewrite list_elem_of_filter, list_elem_of_fmap. setoid_rewrite list_elem_of_filter.
  setoid_rewrite entities_db_spec. split.
  - intros [[? _]|(m & -> & _ & Hm & Hv)]; [done|]. eauto.
  - intros [[m Hm] Hv]. destruct (decide (i ∈ ordered)); [left; eauto|right].
    assert (Hid : KnowledgeEntityModel.id m = i).
    { destruct Hok as (_ & _ & _ & He & _). by destruct (He i m Hm). }
    exists m. rewrite Hid. split_and!; [done| |done..]. by rewrite elem_of_list_to_set.
Qed.

Lemma found_NoDup : NoDup (found out).
Proof.
  unfold found. rewrite fmap_app, matched_ids, related_ids. apply NoDup_app. split_and!.
  - apply NoDup_filter, ordered_NoDup.
  - intros i [_ Hi]%list_elem_of_filter. rewrite list_elem_of_fmap.
    intros (m & -> & [Hn _]%list_elem_of_filter). by rewrite elem_of_list_to_set in Hn.
  - eapply sublist_NoDup; [apply (entities_db_NoDup (tv_visited st))|].
    apply fmap_sublist, sublist_filter.
Qed.

Lemma found_size : (length (found out) ≤ size (tv_visited st))%nat.
Proof.
  rewrite <- (size_list_to_set (C := gset uuid) (found out) found_NoDup).
  apply subseteq_size. intros i Hi%elem_of_list_to_set. by apply found_spec.
Qed.
End found.
End result.

(** *** The evidence *)

Section evidence.
Context (db : knowledge) (Hok : knowledge_ok db).

Lemma chunk_documents_spec c d :
  (c, d) ∈ chunk_documents db ↔
  KnowledgeTables.chunks db !! KnowledgeChunkModel.id c = Some c ∧
  KnowledgeTables.documents db !! KnowledgeChunkModel.document_id c = Some d.
Proof.
  destruct Hok as (_ & _ & Hc & _). unfold chunk_documents. rewrite list_elem_of_omap. split.
  - intros (c' & [i Hi]%elem_of_rows & Heq).
    destruct (KnowledgeTables.documents db !! _) eqn:Hd; [|done]. simplify_eq/=.
    by destruct (Hc i c Hi) as [-> _].
  - intros [Hi Hd]. exists c. split; [apply elem_of_rows; eauto|]. by rewrite Hd.
Qed.

(** A stored chunk is joined with its document. *)
Lemma chunk_documents_total i :
  is_Some (KnowledgeTables.chunks db !! i) → ∃ row, row ∈ chunk_documents db ∧ chunk_id_of row = i.
Proof.
  intros [c Hi]. pose proof Hok as (_ & _ & Hc & _).
  destruct (Hc i c Hi) as (Hid & _ & [d Hd]). exists (c, d).
  split; [|done]. apply chunk_documents_spec. by rewrite Hid.
Qed.

Lemma evidence_db_spec chunk_ids item :
  item ∈ evidence_db db chunk_ids ↔
  ∃ row, row ∈ chunk_documents db ∧ item = to_graph_evidence row ∧ chunk_id_of row ∈ chunk_ids.
Proof.
  unfold evidence_db. rewrite list_elem_of_fmap. split.
  - intros (row & -> & [? ?]%elem_of_merge_sort%list_elem_of_filter). eauto.
  - intros (row & Hin & -> & Hc). exists row. split; [done|].
    by apply elem_of_merge_sort, list_elem_of_filter.
Qed.
End evidence.

(** ** The theorems *)

Section neighborhood.
Context {C : Collation} {S : Type} `{!Session knowledge S} `{!SessionLaws knowledge S}.
Implicit Types (db : knowledge) (out : GraphTraversalData.t).

(** The edges that a neighborhood keeps, as stored rows. *)
Definition kept_edges (out : GraphTraversalData.t) (db : knowledge)
    (kept : list KnowledgeRelationshipModel.t) : Prop :=
  GraphTraversalData.relationships out = _relationship_record <$> kept ∧
  NoDup (KnowledgeRelationshipModel.id <$> kept) ∧
  ∀ e, e ∈ kept → e ∈ rows (KnowledgeTables.relationships db).

Lemma initial_bounded db ids me mc :
  (0 ≤ me)%Z →
  let seeds : gset uuid := list_to_set (slice_to me (dict_fromkeys ids)) in
  bounded db me mc seeds 0 (Traversal seeds seeds [] 0).
Proof.
  intros Hme seeds. split; try done.
  - split; simpl; try done; [|constructor|set_solver].
    pose proof (size_added ∅ (slice_to me (dict_fromkeys ids))) as Hs.
    rewrite union_empty_l_L, size_empty in Hs.
    assert (length (slice_to me (dict_fromkeys ids)) ≤ Z.to_nat me)%nat.
    { unfold slice_to. rewrite (proj2 (Z.leb_le 0 me) Hme), length_take. lia. }
    unfold seeds. lia.
  - intros i Hi. by apply hops_seed.
Qed.

(** C16: the neighborhood of a set of seed entities is bounded and grounded: on tables that
    satisfy their constraints, [get_neighborhood] changes nothing and, unless the database
    fails, returns at most [max_entities] distinct entities, uses at most [max_depth]
    levels and keeps at most [8 * max_entities] edges per level; every kept edge is a
    stored one of sufficient confidence between returned entities whose source chunk is
    among the evidence; every returned entity is connected to a seed by a path of kept
    edges no longer than the depth used; and every item of evidence is a stored chunk
    that mentions a returned entity or supports a kept edge. *)
Theorem neighborhood_bounded db ids md me mc :
  knowledge_ok db → (0 ≤ me)%Z →
  txn (get_neighborhood ids md me mc) db is_sql (λ out db', db' = db ∧ ∃ kept,
    kept_edges out db kept ∧
    (NoDup (found out) ∧ Z.of_nat (length (found out)) ≤ me ∧
     0 ≤ GraphTraversalData.depth_used out ≤ Z.max 0 md ∧
     Z.of_nat (length kept) ≤ GraphTraversalData.depth_used out * (me * 8))%Z ∧
    (∀ e, e ∈ kept →
       sql_fleb mc (KnowledgeRelationshipModel.confidence e) = true ∧
       (∀ i, i ∈ endpoints e → i ∈ found out) ∧
       KnowledgeRelationshipModel.source_chunk_id e ∈
         (RetrievedEvidence.chunk_id <$> GraphTraversalData.evidence out)) ∧
    (∀ i, i ∈ found out →
       hops kept (list_to_set ids) (Z.to_nat (GraphTraversalData.depth_used out)) i) ∧
    (∀ item, item ∈ GraphTraversalData.evidence out → ∃ row, row ∈ chunk_documents db ∧
       item = to_graph_evidence row ∧
       ((∃ m, m ∈ rows (KnowledgeTables.mentions db) ∧
           KnowledgeEntityMentionModel.entity_id m ∈ found out ∧
           KnowledgeEntityMentionModel.chunk_id m = chunk_id_of row) ∨
        ∃ e, e ∈ kept ∧ KnowledgeRelationshipModel.source_chunk_id e = chunk_id_of row))).
Proof.
  intros Hok Hme. apply txn_get_neighborhood; [exact _|done|]. split; [done|].
  pose proof (traverse_bounded db Hok me mc _ (Z.to_nat md) 0 _ (initial_bounded db ids me mc Hme)
    eq_refl) as Hb. simpl in Hb.
  pose proof (found_spec db Hok ids md me mc) as Hf.
  pose proof (found_NoDup db Hok ids md me mc) as Hnd.
  pose proof (found_size db Hok ids md me mc) as Hsz.
  set (out := neighborhood_db db ids md me mc) in *.
  set (st := traverse_db _ _ _ _ _ _) in *. destruct Hb as [Hg Hw Hd Hl].
  set (kept := merge_sort (id_le KnowledgeRelationshipModel.id) (tv_relationships st)).
  assert (Hkept : ∀ e, e ∈ kept ↔ e ∈ tv_relationships st) by (intros; apply elem_of_merge_sort).
  destruct Hg as [Hseeds Hfr Hsize Hids Htr Hends]. rewrite Forall_forall in Htr.
  assert (Hend : ∀ e i, e ∈ kept → i ∈ endpoints e → i ∈ found out).
  { intros e i He%Hkept Hi. apply Hf. split; [|by eauto].
    apply (edge_ends db Hok e); [|done]. by apply Htr. }
  exists kept. split_and!; try done.
  - split_and!; [done|by unfold kept; rewrite merge_sort_Permutation|].
    intros e He%Hkept. by apply Htr.
  - lia.
  - change (GraphTraversalData.depth_used out) with (tv_depth_used st). lia.
  - change (GraphTraversalData.depth_used out) with (tv_depth_used st). lia.
  - change (GraphTraversalData.depth_used out) with (tv_depth_used st). unfold kept.
    rewrite (Permutation_length (merge_sort_Permutation _ _)). rewrite Z.max_r in Hl by done. done.
  - intros e He. split_and!; [by apply Htr, Hkept|eauto|].
    apply list_elem_of_fmap.
    destruct (chunk_documents_total db Hok (KnowledgeRelationshipModel.source_chunk_id e))
      as (row & Hrow & Hid).
    { apply Hkept in He. destruct (Htr e He) as [[k Hk]%elem_of_rows _].
      by destruct (relationships_table db Hok k e Hk) as (_ & _ & _ & _ & ?). }
    exists (to_graph_evidence row). split; [done|]. apply evidence_db_spec.
    exists row. split_and!; [done..|]. rewrite Hid. unfold supporting. apply elem_of_union_r, elem_of_list_to_set.
    by apply list_elem_of_fmap_2, Hkept.
  - intros i [_ Hi]%Hf. change (GraphTraversalData.depth_used out) with (tv_depth_used st).
    apply Hw in Hi. clear -Hi Hkept. induction Hi as [n i Hi|n i j e _ IH He Hj].
    + apply hops_seed. apply elem_of_list_to_set in Hi. apply elem_of_list_to_set.
      by eapply ordered_seeds.
    + apply (hops_edge _ _ n i j e); [done| |done]. by apply Hkept.
  - intros item Hitem. apply evidence_db_spec in Hitem as (row & Hrow & -> & Hc).
    exists row. split_and!; [done..|].
    unfold supporting in Hc. apply elem_of_union in Hc as [Hc%elem_of_list_to_set|Hc%elem_of_list_to_set];
      apply list_elem_of_fmap in Hc as (x & Hx & Hin).
    + left. exists x. unfold mentions_db in Hin.
      apply elem_of_merge_sort, list_elem_of_filter in Hin as [Hv Hin]. split_and!; [done| |done].
      apply Hf. split; [|done]. apply elem_of_rows in Hin as [k Hk].
      destruct Hok as (_ & _ & _ & _ & Hm & _). by destruct (Hm k x Hk) as (_ & _ & ? & _).
    + right. exists x. split; [by apply Hkept|done].
Qed.

(** The edges the traversal may follow, as a list. *)
Definition trusted_edges (mc : pyfloat) (db : knowledge) : list KnowledgeRelationshipModel.t :=
  filter (λ e, sql_fleb mc (KnowledgeRelationshipModel.confidence e) = true)
    (rows (KnowledgeTables.relationships db)).

Lemma trusted_edges_spec mc db e : e ∈ trusted_edges mc db ↔ trusted db mc e.
Proof. unfold trusted_edges, trusted. rewrite list_elem_of_filter. tauto. Qed.

Lemma ordered_all me ids (known : gset uuid) :
  (Z.of_nat (size known) ≤ me)%Z → (∀ i, i ∈ ids → i ∈ known) →
  ∀ i, i ∈ slice_to me (dict_fromkeys ids) ↔ i ∈ ids.
Proof.
  intros Hsz Hin i.
  assert (NoDup (dict_fromkeys ids)) as Hnd.
  { pose proof (dedup_by_NoDup id ids) as H. by rewrite list_fmap_id in H. }
  assert (Hmem : ∀ j, j ∈ dict_fromkeys ids ↔ j ∈ ids).
  { intros j. pose proof (dedup_by_keys id ids j) as H. by rewrite !list_fmap_id in H. }
  assert (length (dict_fromkeys ids) ≤ size known)%nat.
  { rewrite <- (size_list_to_set (C := gset uuid) (dict_fromkeys ids) Hnd).
    apply subseteq_size. intros j Hj%elem_of_list_to_set%Hmem. auto. }
  unfold slice_to. rewrite (proj2 (Z.leb_le 0 me)) by lia. rewrite take_ge by lia. apply Hmem.
Qed.

(** C17: the neighborhood is complete when its limits do not bind: if the seeds are stored
    entities and the tables hold at most [max_entities] entities and [8 * max_entities]
    relationships, the entities returned are exactly those connected to a seed by a path
    of at most [max_depth] edges of sufficient confidence, followed in either direction. *)
Theorem neighborhood_complete db ids md me mc :
  knowledge_ok db → (0 ≤ md)%Z →
  (Z.of_nat (size (KnowledgeTables.entities db)) ≤ me)%Z →
  (Z.of_nat (length (rows (KnowledgeTables.relationships db))) ≤ me * 8)%Z →
  (∀ i, i ∈ ids → is_Some (KnowledgeTables.entities db !! i)) →
  txn (get_neighborhood ids md me mc) db is_sql (λ out db', db' = db ∧
    ∀ i, i ∈ found out ↔ hops (trusted_edges mc db) (list_to_set ids) (Z.to_nat md) i).
Proof.
  intros Hok Hmd Hents Hrels Hids. apply txn_get_neighborhood; [exact _|done|]. split; [done|].
  intros i. rewrite (found_spec db Hok ids md me mc).
  pose proof (traverse_bounded db Hok me mc _ (Z.to_nat md) 0 _
    (initial_bounded db ids me mc ltac:(lia)) eq_refl) as Hb.
  change (Z.of_nat 0 + 1)%Z with 1%Z in Hb. simpl in Hb.
  pose proof (ordered_all me ids (dom (KnowledgeTables.entities db))) as Hord.
  rewrite size_dom in Hord. specialize (Hord Hents).
  assert (∀ j, j ∈ ids → j ∈ dom (KnowledgeTables.entities db)) as Hdom
    by (intros j Hj; by apply elem_of_dom, Hids).
  specialize (Hord Hdom).
  set (seeds := list_to_set (slice_to me (dict_fromkeys ids))) in *.
  assert (seeds = list_to_set ids) as Hseeds.
  { apply set_eq. intros j. unfold seeds. rewrite !elem_of_list_to_set. apply Hord. }
  rewrite Hseeds in *. set (st := traverse_db _ _ _ _ _ _) in *. split.
  - intros [_ Hi]. apply (bd_within _ _ _ _ _ _ Hb) in Hi.
    eapply hops_mono; [| |exact Hi].
    + intros e He. apply trusted_edges_spec.
      pose proof (gr_trusted _ _ _ _ _ (bd_grounded _ _ _ _ _ _ Hb)) as Ht.
      rewrite Forall_forall in Ht. by apply Ht.
    + pose proof (bd_depth _ _ _ _ _ _ Hb). lia.
  - intros Hi. split.
    + inversion Hi as [? ? Hs|? ? ? e _ He Hj]; subst.
      * apply elem_of_list_to_set in Hs. auto.
      * apply joins_endpoints in Hj as [_ Hj]. apply trusted_edges_spec in He as [He _].
        by apply (edge_ends db Hok e).
    + apply (traverse_complete db Hok me mc (list_to_set ids) (Z.to_nat md) 0 1 _
        (dom (KnowledgeTables.entities db)) Hrels) with (l := trusted_edges mc db).
      * by rewrite size_dom.
      * intros j Hj. by apply elem_of_dom.
      * split; simpl; [|done| |].
        -- intros j Hj%elem_of_list_to_set. auto.
        -- done.
        -- intros l j _ H. inversion H; by subst.
      * intros e. apply trusted_edges_spec.
      * done.
Qed.
End neighborhood.

(** ** On the sample tables *)

(** One level from the claims system: the ledger, but not the policy. *)
Example demo_one_hop :
  match (get_neighborhood [21%N] 1 20 f64_zero
           (open_session demo_knowledge)).2 with
  | Ok out => (found out, GraphTraversalData.depth_used out,
               RetrievedEvidence.chunk_id <$> GraphTraversalData.evidence out)
              = ([21%N; 22%N], 1%Z, [10%N])
  | Raise _ => False
  end.
Proof. vm_compute. reflexivity. Qed.

Lemma neighborhood_bounded_witness :
  knowledge_ok demo_knowledge ∧
  txn (S := memory knowledge) (get_neighborhood [21%N] 2 2 f64_zero) demo_knowledge is_sql
    (λ out db', (Z.of_nat (length (found out)) ≤ 2)%Z).
Proof.
  split; [exact demo_knowledge_ok|]. eapply txn_mono.
  - apply (neighborhood_bounded (S := memory knowledge) demo_knowledge [21%N] 2 2 f64_zero
      demo_knowledge_ok). lia.
  - done.
  - intros out db' (_ & kept & _ & (_ & H & _) & _). exact H.
Defined.

Lemma neighborhood_complete_witness :
  txn (S := memory knowledge) (get_neighborhood [21%N] 2 20 f64_zero) demo_knowledge is_sql
    (λ out db', db' = demo_knowledge ∧ ∀ i, i ∈ found out ↔
       hops (trusted_edges f64_zero demo_knowledge) (list_to_set [21%N]) 2 i).
Proof.
  apply (neighborhood_complete (S := memory knowledge) demo_knowledge [21%N] 2 20 f64_zero
    demo_knowledge_ok).
  - lia.
  - vm_compute. discriminate.
  - vm_compute. discriminate.
  - intros i ->%list_elem_of_singleton. vm_compute. by eexists.
Defined.
