(* ===== verification/GovernanceTheorems.v ===== *)
(** What the governance service guarantees: the reviewer actions refine the review state
    machine, every database the service can produce holds only reachable cases, revision
    feedback is always found, and a reviewer whose subject does not fit the audit column
    can never act. *)
From S2P Require Import Prelude PyFloat Errors Domain AgentModels Schemas RuntimeModels.
From S2P Require Import Gate Session Storage Repositories Telemetry Identity Governance ReviewSpec.
From S2P Require Import GovernanceSpec MemorySession.

Section theorems.
Context {J S : Type} `{!Session (Database J) S} `{!SessionLaws (Database J) S} `{!Exporter S} `{!ExporterLaws (Database J) S}.
Context `{!Json J}.
Context `{!PydanticModel J QualityGateResult.t gate_result_ok}.
Context `{!PydanticModel J OperationalTelemetry.t telemetry_ok}.
Context `{!PydanticModel J AssessmentResult.t assessment_result_ok}.
Context (dump_execution : ExecutionMetadata → J).
Context (dump_execution_truthy : ∀ x, json_truthy (dump_execution x) = true).
Implicit Types (db : Database J) (id : uuid) (c : case J).

(** ** Requests on an assessment without a review *)

Lemma txn_required_state_unopened db id (E : exn → Prop) Q :
  (∀ e, is_sql e → E e) → E (ApplicationError AssessmentNotFoundError) →
  E (ApplicationError RuntimeStateNotFoundError) → unopened db id →
  txn (_required_state id) db E Q.
Proof.
  intros HE H1 H2 [Hs _]. unfold _required_state.
  apply txn_bind, txn_required_assessment; [exact HE|done|]. intros a _.
  apply txn_bind. apply txn_try with (E' := is_sql).
  - unfold get_state. apply txn_bind, txn_read; [auto|]. rewrite Hs. txn_steps. done.
  - intros e db' [q ->]. simpl. txn_steps. apply HE. by exists q.
Qed.

Lemma commits_unopened {A} db id (k : RuntimeAssessmentState.t J → M S A) Q :
  unopened db id → commits (bind (_required_state id) k) db (λ _, True) Q.
Proof. intros Hu. by apply commits_bind, txn_required_state_unopened. Qed.

Lemma txn_pending_unopened db id Q :
  unopened db id → txn (_required_pending_state id) db (λ _, True) Q.
Proof. intros Hu. by apply txn_bind, txn_required_state_unopened. Qed.

(** ** The service as a transition system *)

Inductive op :=
  | OpApprove (id : uuid) (request : HumanReviewRequest.t) (p : option principal)
  | OpReject (id : uuid) (request : HumanReviewRequest.t) (p : option principal)
  | OpRequestRevision (id : uuid) (request : HumanReviewRequest.t) (p : option principal)
  | OpResume (config : GovernanceConfig.t) (id : uuid) (result : AssessmentResult.t)
      (evidence : list RetrievedEvidence.t) (execution : ExecutionMetadata) (duration_ms : Z)
      (provenance_valid : bool)
  | OpSubmit (config : GovernanceConfig.t) (id : uuid) (result : AssessmentResult.t)
      (evidence : list RetrievedEvidence.t) (execution : ExecutionMetadata) (duration_ms : Z)
      (provenance_valid : bool) (retrieval_duration_ms : option Z)
      (overrides : list signal_override).

(** What each request runs; a candidate is committed by [generate_assessment]. *)
Definition run (o : op) : M S unit :=
  match o with
  | OpApprove id request p => approve id request p ;;; ret tt
  | OpReject id request p => reject id request p ;;; ret tt
  | OpRequestRevision id request p => request_revision id request p ;;; ret tt
  | OpResume config id result evidence execution d prov =>
      resume_revision dump_execution config id result evidence execution d prov ;;; ret tt
  | OpSubmit config id result evidence execution d prov retrieval overrides =>
      process_candidate dump_execution config id result evidence execution d prov retrieval
        overrides 0 true ;;; commit
  end.

(** The inputs come from validated objects; a candidate is submitted once, for a stored
    assessment. *)
Definition op_ok db (o : op) : Prop :=
  match o with
  | OpResume config _ _ _ execution d _ =>
      config_ok config ∧ execution_valid execution = true ∧ (0 ≤ d)%Z
  | OpSubmit config id _ _ execution d _ retrieval _ =>
      config_ok config ∧ execution_valid execution = true ∧ (0 ≤ d)%Z ∧
      opt_all (Z.leb 0) retrieval = true ∧ unopened db id ∧
      ∃ a, Database.assessments db !! id = Some a ∧ AssessmentModel.id a = id
  | _ => True
  end.

(** One request served on a session opened on [db], whatever its outcome; or writes of the
    assessment service to assessments that have no review. *)
Inductive served : Database J → Database J → Prop :=
  | served_request s o : view s = durable s → op_ok (durable s) o →
      served (durable s) (durable (run o s).1)
  | served_other db db' :
      Database.states db' = Database.states db → Database.events db' = Database.events db →
      (∀ id, ¬ unopened db id → Database.assessments db' !! id = Database.assessments db !! id) →
      served db db'.

Definition all_reachable db : Prop :=
  ∀ id, unopened db id ∨ ∃ c, represents db id c ∧ reachable c.

Lemma acts_all_reachable l db id c db' :
  all_reachable db → reachable c → acts l db id c db' → all_reachable db'.
Proof.
  intros Hall Hc (_ & Hf & c' & Hstep & Hc') id'.
  destruct (decide (id' = id)) as [->|Hne].
  - right. exists c'. split; [done|]. by eapply reachable_step.
  - destruct (Hall id') as [Hu|(c0 & Hr & Hc0)].
    + left. by eapply frame_unopened.
    + right. exists c0. split; [by eapply frame_represents|done].
Qed.

Lemma commits_then_ret {A} (m : M S A) db E (Q : A → Database J → Prop) P :
  commits m db E Q → (∀ a db', Q a db' → P db') →
  commits (m ;;; ret tt) db (λ _, True) (λ _ db', P db').
Proof.
  intros H HP s Hs. apply wp_bind. eapply wp_mono; [by apply H|].
  intros s' [a|e].
  - intros [HQ Hv]. apply wp_ret. eauto.
  - intros [[_ ?]|[? [a ?]]]; [by left|]. right. split; [done|]. exists tt. eauto.
Qed.

Lemma commits_weaken {A} (m : M S A) db E (Q : A → Database J → Prop) P :
  commits m db E Q → (∀ a db', Q a db' → P db') → commits m db E (λ _ db', P db').
Proof.
  intros H HP s Hs. eapply wp_mono; [by apply H|].
  intros s' [a|e]; [intros [? ?]; eauto|]. intros [?|[? [a ?]]]; [by left|right; eauto].
Qed.

(** A reviewer action on [id], or the resumption of its revision. *)
Definition target (o : op) : uuid :=
  match o with
  | OpApprove id _ _ | OpReject id _ _ | OpRequestRevision id _ _
  | OpResume _ id _ _ _ _ _ | OpSubmit _ id _ _ _ _ _ _ _ => id
  end.
Definition reviews id (o : op) : Prop :=
  match o with OpSubmit _ _ _ _ _ _ _ _ _ => False | _ => target o = id end.

(** Without a review there is nothing to act on. *)
Lemma run_unopened o db id (P : Database J → Prop) :
  unopened db id → reviews id o → commits (run o) db (λ _, True) (λ _ db', P db').
Proof.
  intros Hu Ht. destruct o as [id' rq p|id' rq p|id' rq p|config id' r ev x d pv|];
    simpl in *; [subst id'..|done];
    (eapply commits_then_ret; [|intros ? ? H; exact H]).
  1-3: apply commits_bind; by apply txn_pending_unopened.
  by apply commits_unopened.
Qed.

Lemma submit_commits config id r ev x d pv rt ov db :
  op_ok db (OpSubmit config id r ev x d pv rt ov) →
  let o := outcome_of (gate_decision (GovernanceConfig.policy config)
             (foldl apply_override (derive_signals r ev x pv) ov)) in
  commits (run (OpSubmit config id r ev x d pv rt ov)) db (λ _, True)
    (λ _ db', frame id db db' ∧
       represents db' id (opened o (model_dump r)
         (RuntimeRiskPolicy.max_human_revisions (GovernanceConfig.policy config)))).
Proof.
  intros (Hcfg & Hx & Hd & Hrt & Hu & a & Ha & Hid) o. simpl.
  apply commits_bind. eapply process_candidate_txn; try done.
  { by destruct Hu as [-> _]. }
  intros record db' Hp. pose proof (processed_opened _ _ _ _ _ _ _ _ Hu Hp) as Ho.
  destruct Hp as (_ & Hf & _). intros s Hs. eapply wp_mono; [apply commit_law|]. subst db'.
  intros s' [[]|e]; [intros (Hv & Hdb & _); by rewrite Hv, Hdb|].
  intros [He [Hdb|[Hdb _]]]; [by left|]. right. split; [done|]. exists tt. by rewrite Hdb.
Qed.

Lemma run_all_reachable o db :
  all_reachable db → op_ok db o → commits (run o) db (λ _, True) (λ _ db', all_reachable db').
Proof.
  intros Hall Hok. destruct (Hall (target o)) as [Hu|(c & Hc & Hr)];
    destruct o as [id rq p|id rq p|id rq p|config id r ev x d pv|config id r ev x d pv rt ov];
    try (by eapply run_unopened); simpl in *.
  2-4: eapply commits_then_ret; [by first [apply approve_commits|apply reject_commits
         |apply request_revision_commits]|]; intros a db' [Ha _]; by eapply acts_all_reachable.
  2: { destruct Hok as (Hcfg & Hx & Hd).
       eapply commits_then_ret; [by apply resume_revision_commits|]. intros a db' Ha.
       eapply acts_all_reachable; [done|done|by eapply resumes_acts]. }
  all: eapply commits_weaken; [by apply submit_commits|]; intros [] db' [Hf Ho] id';
    destruct (decide (id' = id)) as [->|Hne];
    [right; eexists; split; [exact Ho|constructor; apply Hok]|];
    destruct (Hall id') as [Hu'|(c0 & Hr' & Hc0)];
    [left; by eapply frame_unopened|right; exists c0; split; [by eapply frame_represents|done]].
Qed.

Lemma represents_other db db' id c :
  Database.states db' = Database.states db → Database.events db' = Database.events db →
  (∀ id', ¬ unopened db id' → Database.assessments db' !! id' = Database.assessments db !! id') →
  represents db id c → represents db' id c.
Proof.
  intros Hst Hev Has [k Hk]. exists k. pose proof Hk as (_ & Hs & _).
  unfold holds_case, events_of. rewrite Hst, Hev, Has; [done|]. intros [? _]. congruence.
Qed.

Lemma served_all_reachable db db' : served db db' → all_reachable db → all_reachable db'.
Proof.
  intros Hs. destruct Hs as [s o Hv Hok|db db' Hst Hev Has]; intros Hall.
  - pose proof (run_all_reachable o (durable s) Hall Hok s Hv) as H. unfold wp in H.
    destruct (run o s) as [s' [[]|e]]; simpl in *; [apply H|].
    destruct H as [[_ ->]|[_ [_ H]]]; done.
  - intros id. destruct (Hall id) as [[H1 H2]|(c & Hrep & Hc)].
    + left. split; [by rewrite Hst|]. unfold events_of. by rewrite Hev.
    + right. exists c. split; [by eapply represents_other|done].
Qed.

(** ** Termination of the review loop *)

(** The configured revision budget is at most [limit] whenever a candidate is processed. *)
Definition within (limit : Z) (o : op) : Prop :=
  match o with
  | OpResume config _ _ _ _ _ _ | OpSubmit config _ _ _ _ _ _ _ _ =>
      (RuntimeRiskPolicy.max_human_revisions (GovernanceConfig.policy config) ≤ limit)%Z
  | _ => True
  end.

(** The request ran to no effect: it raised and the committed tables are what they were. *)
Definition refused (o : op) (s : S) : Prop :=
  (∃ e, (run o s).2 = Raise e) ∧ durable (run o s).1 = durable s.

(** The databases reached from tables without reviews, and how many reviews of [id]
    (actions and resumptions that were not refused) led there. *)
Inductive history (limit : Z) id : nat → Database J → Prop :=
  | history_start db : (∀ id', unopened db id') → history limit id 0 db
  | history_review n s o :
      history limit id n (durable s) → view s = durable s → op_ok (durable s) o →
      within limit o → reviews id o → ¬ refused o s →
      history limit id (Datatypes.S n) (durable (run o s).1)
  | history_request n s o :
      history limit id n (durable s) → view s = durable s → op_ok (durable s) o →
      within limit o → (reviews id o → refused o s) → history limit id n (durable (run o s).1)
  | history_other n db db' :
      history limit id n db →
      Database.states db' = Database.states db → Database.events db' = Database.events db →
      (∀ id', ¬ unopened db id' →
         Database.assessments db' !! id' = Database.assessments db !! id') →
      history limit id n db'.

(** What a review of [id] that is not refused does to its case. *)
Definition reviewed (limit : Z) id c db' : Prop :=
  ∃ l c', step c l c' ∧ represents db' id c' ∧ (c_limit c' ≤ limit)%Z.

Lemma acts_reviewed limit l db id c db' :
  l ≠ Resume → (c_limit c ≤ limit)%Z → acts l db id c db' → reviewed limit id c db'.
Proof.
  intros Hl Hc (_ & _ & c' & Hs & Hr). exists l, c'. split_and!; try done.
  by rewrite (step_limit _ _ _ Hs Hl).
Qed.

Lemma run_reviewed limit o db id c :
  reviews id o → op_ok db o → within limit o → represents db id c → (c_limit c ≤ limit)%Z →
  commits (run o) db (λ _, True) (λ _ db', reviewed limit id c db').
Proof.
  intros Ht Hok Hw Hc Hl.
  destruct o as [id' rq p|id' rq p|id' rq p|config id' r ev x d pv|]; simpl in *; [subst id'..|done].
  - eapply commits_then_ret; [by apply approve_commits|]. intros a db' [Ha _].
    eapply acts_reviewed; [|exact Hl|exact Ha]; done.
  - eapply commits_then_ret; [by apply reject_commits|]. intros a db' [Ha _].
    eapply acts_reviewed; [|exact Hl|exact Ha]; done.
  - eapply commits_then_ret; [by apply request_revision_commits|]. intros a db' [Ha _].
    eapply acts_reviewed; [|exact Hl|exact Ha]; done.
  - destruct Hok as (Hcfg & Hx & Hd).
    eapply commits_then_ret; [by apply resume_revision_commits|].
    intros a db' (_ & _ & Hs & Hr & _). eexists _, _. split_and!; [exact Hs|exact Hr|done].
Qed.

Lemma run_frame o db :
  all_reachable db → op_ok db o →
  commits (run o) db (λ _, True) (λ _ db', frame (target o) db db').
Proof.
  intros Hall Hok. destruct o as [id rq p|id rq p|id rq p|config id r ev x d pv
    |config id r ev x d pv rt ov]; simpl in *.
  1-4: destruct (Hall id) as [Hu|(c & Hc & Hr)].
  1,3,5: eapply commits_then_ret; [|intros ? ? H; exact H];
    apply commits_bind; by apply txn_pending_unopened.
  - eapply commits_then_ret; [by apply approve_commits|]. by intros a db' [(_ & Hf & _) _].
  - eapply commits_then_ret; [by apply reject_commits|]. by intros a db' [(_ & Hf & _) _].
  - eapply commits_then_ret; [by apply request_revision_commits|]. by intros a db' [(_ & Hf & _) _].
  - eapply commits_then_ret; [|intros ? ? H; exact H]. by apply commits_unopened.
  - destruct Hok as (Hcfg & Hx & Hd).
    eapply commits_then_ret; [by apply resume_revision_commits|]. by intros a db' (_ & Hf & _).
  - eapply commits_weaken; [by apply submit_commits|]. by intros [] db' (Hf & _).
Qed.

Lemma commits_result {A} (m : M S A) db (P : Database J → Prop) s :
  commits m db (λ _, True) (λ _ db', P db') → view s = db →
  (∃ e, (m s).2 = Raise e) ∧ durable (m s).1 = durable s ∨ P (durable (m s).1).
Proof.
  intros H Hs. pose proof (H s Hs) as Hw. unfold wp in Hw.
  destruct (m s) as [s' [a|e]]; simpl; [by right; destruct Hw|].
  destruct Hw as [[_ Hd]|[_ [_ Hp]]]; [left|by right]. split; [by exists e|done].
Qed.

(** The case of [id] still has [2 * limit + 1 - n] reviews. *)
Definition budget (limit : Z) id (n : nat) db : Prop :=
  (unopened db id ∧ n = 0%nat) ∨
  ∃ c, represents db id c ∧ reachable c ∧ (c_limit c ≤ limit)%Z ∧
       (Z.of_nat n + measure limit c ≤ 2 * limit + 1)%Z.

Lemma budget_bound limit id n db :
  (0 ≤ limit)%Z → budget limit id n db → (Z.of_nat n ≤ 2 * limit + 1)%Z.
Proof.
  intros Hl [[_ ->]|(c & _ & Hr & Hc & Hn)]; [lia|].
  pose proof (measure_nonneg limit c (reachable_inv c Hr) Hc). lia.
Qed.

Lemma budget_frame limit id id' n db db' :
  frame id' db db' → id ≠ id' → budget limit id n db → budget limit id n db'.
Proof.
  intros Hf Hne [[Hu ->]|(c & Hr & H)]; [left; split; [by eapply frame_unopened|done]|].
  right. exists c. split; [by eapply frame_represents|done].
Qed.

Lemma run_refused_or limit id n s o :
  budget limit id n (durable s) → view s = durable s → op_ok (durable s) o → within limit o →
  reviews id o → refused o s ∨ budget limit id (Datatypes.S n) (durable (run o s).1).
Proof.
  intros [[Hu ->]|(c & Hrep & Hr & Hc & Hn)] Hv Hok Hw Ht.
  - destruct (commits_result (run o) (durable s) (λ _, False) s) as [Hx|[]]; [|done|by left].
    by apply run_unopened with (id := id).
  - destruct (commits_result _ _ _ s (run_reviewed limit o _ id c Ht Hok Hw Hrep Hc) Hv)
      as [Hx|(l & c' & Hs & Hrep' & Hc')]; [by left|].
    right. right. exists c'. split_and!; [done|by eapply reachable_step|done|].
    pose proof (step_measure limit _ _ _ Hs). lia.
Qed.

Lemma budget_request limit id n s o :
  all_reachable (durable s) → budget limit id n (durable s) → view s = durable s →
  op_ok (durable s) o → within limit o → (reviews id o → refused o s) →
  budget limit id n (durable (run o s).1).
Proof.
  intros Hall Hb Hv Hok Hw Ht. destruct (decide (id = target o)) as [->|Hne].
  2: { destruct (commits_result _ _ _ s (run_frame o _ Hall Hok) Hv) as [[_ ->]|Hf]; [done|].
       by eapply budget_frame. }
  assert (budget limit (target o) n (durable s) → refused o s →
          budget limit (target o) n (durable (run o s).1)) as Hstay by (by intros ? [_ ->]).
  destruct o as [| | | |config id r ev x d pv rt ov]; [by apply Hstay, Ht..|].
  change (target _) with id in *.
  destruct (commits_result _ _ _ s (submit_commits config id r ev x d pv rt ov _ Hok) Hv)
    as [[_ Hd]|[_ Ho]]; [by rewrite Hd|].
  assert (unopened (durable s) id) as Hu by apply Hok.
  destruct Hb as [[_ ->]|(c & (k & _ & Hs & _) & _)]; [|destruct Hu; congruence].
  right. eexists. split_and!; [exact Ho|constructor; apply Hok|done|]. apply measure_opened.
Qed.

Lemma history_budget limit id n db :
  history limit id n db → all_reachable db ∧ budget limit id n db.
Proof.
  induction 1 as [db Hu|n s o _ [Hall Hb] Hv Hok Hw Ht Hn|n s o _ [Hall Hb] Hv Hok Hw Ht
    |n db db' _ [Hall Hb] Hs He Ha].
  - split; [by intros id'; left|by left].
  - split; [by eapply served_all_reachable; [apply served_request|]|by destruct (run_refused_or limit id n s o)].
  - split; [by eapply served_all_reachable; [apply served_request|]|by apply budget_request].
  - split; [by eapply served_all_reachable; [apply served_other|]|].
    destruct Hb as [[[H1 H2] ->]|(c & Hrep & H)].
    + left. split; [|done]. split; [by rewrite Hs|]. unfold events_of. by rewrite He.
    + right. exists c. split; [by eapply represents_other|done].
Qed.

(** A review of a decided case is refused. *)
Lemma decided_refused id c s o :
  represents (durable s) id c → final c → view s = durable s → op_ok (durable s) o →
  reviews id o → refused o s.
Proof.
  intros Hrep Hf Hv Hok Ht.
  assert (∃ limit, within limit o ∧ (c_limit c ≤ limit)%Z) as (limit & Hw & Hl).
  { destruct o as [| | |config|]; [by exists (c_limit c)..| |done].
    exists (RuntimeRiskPolicy.max_human_revisions (GovernanceConfig.policy config) `max` c_limit c)%Z.
    simpl. lia. }
  destruct (commits_result _ _ _ s (run_reviewed limit o _ id c Ht Hok Hw Hrep Hl) Hv)
    as [Hx|(l & c' & Hs & _)]; [done|].
  by destruct (final_stuck _ _ _ Hf Hs).
Qed.

(** ** Feedback *)

Lemma res_map_all {A B} (f : A → res B) l (P : A → B → Prop) :
  (∀ a, a ∈ l → ∃ b, f a = Ok b ∧ P a b) → ∃ bs, res_map f l = Ok bs ∧ Forall2 P l bs.
Proof.
  induction l as [|a l IH]; intros H; simpl; [by exists []; split|].
  destruct (H a) as (b & Hb & Hp); [left|]. rewrite Hb. simpl.
  destruct IH as (bs & -> & HF); [intros; apply H; by right|]. simpl.
  exists (b :: bs). split; [done|by constructor].
Qed.

Lemma py_next_exists {A} (p : A → bool) l a :
  a ∈ l → p a = true → ∃ b, py_next p l = Some b ∧ b ∈ l ∧ p b = true.
Proof.
  intros Ha Hp. destruct (py_next p l) as [b|] eqn:Hn.
  - exists b. by apply py_next_Some in Hn.
  - pose proof (py_next_None _ _ a Hn Ha). congruence.
Qed.

(** The record of an audit event of [id]. *)
Definition record_of_event (e : ReviewEventModel.t) (r : HumanReviewRecord.t) : Prop :=
  HumanReviewAction.value (HumanReviewRecord.action r) = ReviewEventModel.action e ∧
  HumanReviewRecord.revision_number r = ReviewEventModel.revision_number e ∧
  HumanReviewRecord.comment r = str_strip <$> ReviewEventModel.comment e.

Lemma txn_list_review_events db id c (E : exn → Prop) Q :
  (∀ e, is_sql e → E e) → Database.ok db → represents db id c →
  (∀ records, Forall2 record_of_event (merge_sort oldest_first (events_of db id)) records →
     Q records db) →
  txn (list_review_events id) db E Q.
Proof.
  intros HE Hok [k Hk] HQ. unfold list_review_events.
  apply txn_bind, txn_read; [exact HE|]. apply txn_of_res.
  destruct Hk as (_ & _ & Htr & _).
  destruct (res_map_all _review_from_model (merge_sort oldest_first (events_of db id))
    record_of_event) as (rs & Hrs & HF).
  - intros e He. assert (e ∈ events_of db id) as He'.
    { by apply elem_of_merge_sort in He. }
    pose proof He' as Hin. unfold events_of in Hin. apply list_elem_of_filter in Hin as [_ Hin].
    apply list_elem_of_lookup in He' as [i Hi].
    destruct (Forall2_lookup_l _ _ _ _ _ Htr Hi) as (en & _ & (u & now & rid & cm & rs & ac & -> & _)).
    destruct Hok as (_ & _ & _ & Hev & _). rewrite Forall_forall in Hev.
    destruct (Hev _ Hin) as [Hrow _]. unfold ReviewEventModel.row_ok in Hrow. split_bools.
    simpl in *. eexists. split; [apply event_row_roundtrip; by apply Z.leb_le|]. by split_and!.
  - unfold events_of in Hrs. rewrite Hrs. by apply HQ.
Qed.

Lemma get_revision_feedback_txn db id c (E : exn → Prop) Q :
  (∀ e, is_sql e → E e) → Database.ok db → represents db id c → case_inv c →
  (c_review c ≠ HumanReviewStatus.REVISION_REQUESTED →
   E (ApplicationError InvalidReviewTransitionError)) →
  (∀ e r, c_review c = HumanReviewStatus.REVISION_REQUESTED →
     e ∈ events_of db id → record_of_event e r →
     HumanReviewRecord.action r = HumanReviewAction.REVISION_REQUESTED →
     HumanReviewRecord.revision_number r = c_revision c → Q r db) →
  txn (get_revision_feedback id) db E Q.
Proof.
  intros HE Hok Hrep Hinv Hno HQ. unfold get_revision_feedback.
  destruct Hrep as [k Hk] eqn:Hrep'. clear Hrep'.
  apply txn_bind. eapply txn_required_state; [exact HE|exact Hk|]. simpl.
  case_decide as Hrev; [|apply txn_raise; auto].
  apply txn_bind. eapply txn_list_review_events; [exact HE|done|exact Hrep|].
  intros records HF. destruct Hk as (_ & _ & Htr & _).
  assert (∃ r, r ∈ reverse records ∧
    bool_decide (HumanReviewRecord.action r = HumanReviewAction.REVISION_REQUESTED) &&
    Z.eqb (HumanReviewRecord.revision_number r) (c_revision c) = true) as (r & Hr & Hp).
  { assert (c_revision c ∈ request_numbers (c_trail c)) as Hin.
    { rewrite (inv_requests _ Hinv). apply elem_of_seqZ.
      pose proof (inv_requested _ Hinv Hrev). lia. }
    apply list_elem_of_fmap in Hin as (en & Hnum & Hen).
    apply list_elem_of_filter in Hen as [Hreq Hen]. apply list_elem_of_lookup in Hen as [i Hi].
    destruct (Forall2_lookup_r _ _ _ _ _ Htr Hi) as (e & He & (u & now & rid & cm & rs & ac & -> & _)).
    apply list_elem_of_lookup_2 in He. rewrite <- (elem_of_merge_sort oldest_first) in He.
    apply list_elem_of_lookup in He as [j Hj].
    destruct (Forall2_lookup_l _ _ _ _ _ HF Hj) as (r & Hr & Hact & Hrn & _).
    exists r. split; [rewrite elem_of_reverse; by eapply list_elem_of_lookup_2|].
    simpl in Hact, Hrn.
    pose proof (enum_value_inj (HumanReviewRecord.action r) (e_action en) Hact) as Hact'.
    rewrite Hact', Hrn, Hnum, Z.eqb_refl, andb_true_r. by apply bool_decide_eq_true. }
  match goal with |- context [py_next ?test _] =>
    destruct (py_next_exists test _ r Hr Hp) as (r' & -> & Hr' & Hp') end.
  apply txn_ret. apply andb_true_iff in Hp' as [Hact Hnum].
  apply bool_decide_eq_true in Hact. apply Z.eqb_eq in Hnum.
  rewrite elem_of_reverse in Hr'. apply list_elem_of_lookup in Hr' as [i Hi].
  destruct (Forall2_lookup_r _ _ _ _ _ HF Hi) as (e & He & Hre).
  apply (HQ e); try done. apply list_elem_of_lookup_2 in He.
  by apply elem_of_merge_sort in He.
Qed.

(** A reviewer identifier longer than its column makes every flush of its event fail. *)
Lemma long_reviewer_rejected db id u now action prev new rid comment reasons rn actor :
  (100 < length rid)%nat →
  ¬ Database.ok (add_event (event_row u id now action prev new (Some rid) comment reasons rn actor) db).
Proof.
  intros Hl (_ & _ & _ & Hev & _). simpl in Hev.
  apply Forall_app in Hev as [_ Hev]. apply Forall_cons in Hev as [[Hrow _] _].
  unfold ReviewEventModel.row_ok in Hrow. simpl in Hrow. split_bools.
  match goal with H : len_le 100 rid = true |- _ => unfold len_le in H; apply Z.leb_le in H end. lia.
Qed.

(** ** Properties *)

(** C2: the reviewer actions refine the review state machine: run on tables that hold the
    case [c] for an assessment, each of them either commits exactly its step of the
    machine on that assessment and on no other row and answers with the decision it
    took, or raises - a database error, a failure of the timing arithmetic,
    [InvalidReviewTransitionError] exactly when no review is pending,
    [RevisionLimitReachedError] exactly when the budget is spent - and commits nothing. *)
Theorem reviewer_actions_refine db id c request p :
  represents db id c →
  commits (approve id request p) db (review_error c HumanReviewStatus.PENDING)
    (λ d db', acts Approve db id c db' ∧
       d = HumanReviewDecision.mk id HumanReviewAction.APPROVED HumanReviewStatus.APPROVED
             (AssessmentStatus.value AssessmentStatus.COMPLETED) (c_revision c)) ∧
  commits (reject id request p) db (review_error c HumanReviewStatus.PENDING)
    (λ d db', acts Reject db id c db' ∧
       d = HumanReviewDecision.mk id HumanReviewAction.REJECTED HumanReviewStatus.REJECTED
             (AssessmentStatus.value AssessmentStatus.FAILED) (c_revision c)) ∧
  commits (request_revision id request p) db
    (λ e, review_error c HumanReviewStatus.PENDING e ∨
          e = ApplicationError RevisionLimitReachedError ∧
          c_review c = HumanReviewStatus.PENDING ∧ c_revision c = c_limit c)
    (λ d db', acts RequestRevision db id c db' ∧
       d = HumanReviewDecision.mk id HumanReviewAction.REVISION_REQUESTED
             HumanReviewStatus.REVISION_REQUESTED
             (AssessmentStatus.value AssessmentStatus.PENDING_REVIEW) (c_revision c + 1)).
Proof.
  intros Hc. split_and!;
    [by apply approve_commits|by apply reject_commits|by apply request_revision_commits].
Qed.

(** C6: resuming a revision commits, in one transaction, the machine's [Resume] step to
    exactly the case the gate's outcome for the new candidate makes: that outcome's
    status and review status, that candidate (published only on a completed outcome), the
    configured limit and one [REVISION_SUBMITTED] event; the assessment row is the one
    that outcome writes, and it is what is answered.  Or it raises and commits nothing,
    with [InvalidReviewTransitionError] exactly when no revision was requested. *)
Theorem resume_revision_refines config db id c result evidence execution d provenance :
  config_ok config → represents db id c → execution_valid execution = true → (0 ≤ d)%Z →
  let decision := gate_decision (GovernanceConfig.policy config)
                    (derive_signals result evidence execution provenance) in
  let c' := resumed (outcome_of decision) (model_dump result)
              (RuntimeRiskPolicy.max_human_revisions (GovernanceConfig.policy config)) c in
  commits (resume_revision dump_execution config id result evidence execution d provenance) db
    (review_error c HumanReviewStatus.REVISION_REQUESTED)
    (λ record db',
       Database.ok db' ∧ frame id db db' ∧ step c Resume c' ∧ represents db' id c' ∧
       ∃ a now, Database.assessments db !! id = Some a ∧ datetime.utcoffset now = Some 0%Z ∧
         let a' := finalized decision a now (model_dump result) (dump_execution execution) in
         Database.assessments db' !! id = Some a' ∧ record = _to_record a').
Proof. intros Hcfg Hc Hx Hd. by apply resume_revision_commits. Qed.

(** C5: the first candidate of an assessment opens its case as the gate decides: the
    assessment is completed, failed or held for review, the candidate is published only
    if no review is required, and the audit trail starts accordingly. *)
Theorem process_candidate_opens_case config db id a result evidence execution d provenance
    retrieval overrides :
  config_ok config → unopened db id →
  Database.assessments db !! id = Some a → AssessmentModel.id a = id →
  execution_valid execution = true → (0 ≤ d)%Z → opt_all (Z.leb 0) retrieval = true →
  let o := outcome_of (gate_decision (GovernanceConfig.policy config)
             (foldl apply_override (derive_signals result evidence execution provenance)
                overrides)) in
  txn (process_candidate dump_execution config id result evidence execution d provenance
         retrieval overrides 0 true) db is_sql
    (λ record db', PersistedAssessment.status record = outcome_status o ∧ frame id db db' ∧
       represents db' id
         (opened o (model_dump result)
            (RuntimeRiskPolicy.max_human_revisions (GovernanceConfig.policy config)))).
Proof.
  intros Hcfg Hu Ha Hid Hx Hd Hrt o. eapply process_candidate_txn; try done.
  { by destruct Hu as [-> _]. }
  intros record db' Hp. split; [by eapply processed_status|]. split; [apply Hp|].
  by eapply processed_opened.
Qed.

(** C3: whatever sequence of requests is served, succeeding or failing, every assessment
    either has no review or holds a case of the state machine that satisfies the
    invariant: the lifecycle status, the published payload and the review status agree,
    the revision count stays within its limit, the audit trail is an unbroken path of
    statuses with one numbered request per revision, and at most one reviewer decision
    was taken. *)
Theorem served_databases_hold_reachable_cases db0 db :
  (∀ id, unopened db0 id) → rtc served db0 db →
  ∀ id, unopened db id ∨ ∃ c, represents db id c ∧ reachable c ∧ case_inv c.
Proof.
  intros H0 Hs id.
  assert (all_reachable db) as Hall.
  { clear id. assert (all_reachable db0) as Ha by (intros id; by left). clear H0.
    induction Hs as [|db1 db2 db3 Hstep _ IH]; [done|]. apply IH.
    by eapply served_all_reachable. }
  destruct (Hall id) as [?|(c & Hr & Hc)]; [by left|right].
  exists c. split_and!; try done. by apply reachable_inv.
Qed.

(** C34: the review loop terminates.  Whatever requests the service is sent, succeeding or
    failing and on whatever assessments, while at most [limit] revisions are configured:
    at most [2 * limit + 1] reviewer actions and resumed revisions of one assessment ever
    answer or change its tables, every further one raises and leaves the committed tables
    alone; and so does every one, with any budget, once the stored review status says
    that a decision was taken or that none is required. *)
Theorem reviews_terminate limit id n db :
  (0 ≤ limit)%Z → history limit id n db →
  (Z.of_nat n ≤ 2 * limit + 1)%Z ∧
  (∀ o s, durable s = db → view s = durable s → op_ok db o → reviews id o →
     (Z.of_nat n = 2 * limit + 1)%Z ∧ within limit o ∨
     (∃ m, Database.states db !! id = Some m ∧
        RuntimeStateModel.review_status m ∈ HumanReviewStatus.value <$>
          [HumanReviewStatus.NOT_REQUIRED; HumanReviewStatus.APPROVED;
           HumanReviewStatus.REJECTED]) →
     refused o s).
Proof.
  intros Hl Hh. destruct (history_budget _ _ _ _ Hh) as [_ Hb].
  split; [by eapply budget_bound|]. intros o s <- Hv Hok Ht [[Hn Hw]|(m & Hm & Hf)].
  - destruct (run_refused_or limit id n s o Hb Hv Hok Hw Ht) as [?|Hb']; [done|].
    pose proof (budget_bound _ _ _ _ Hl Hb'). lia.
  - destruct Hb as [[[Hs _] _]|(c & Hrep & _)]; [congruence|].
    eapply decided_refused; try done.
    destruct Hrep as (k & _ & Hs & _). rewrite Hs in Hm. injection Hm as <-.
    apply list_elem_of_fmap in Hf as (st & Heq & Hin). unfold final.
    simpl in Heq. pose proof (enum_value_inj (c_review c) st Heq) as ->. exact Hin.
Qed.

(** while a revision is requested its feedback is always found: the latest request,
    with the reviewer's own comment; otherwise the answer is
    [InvalidReviewTransitionError].  The read changes nothing. *)
Theorem revision_feedback_found db id c :
  Database.ok db → represents db id c → reachable c →
  txn (get_revision_feedback id) db
    (λ e, is_sql e ∨ e = ApplicationError InvalidReviewTransitionError ∧
                     c_review c ≠ HumanReviewStatus.REVISION_REQUESTED)
    (λ r db', db' = db ∧ c_review c = HumanReviewStatus.REVISION_REQUESTED ∧
       HumanReviewRecord.action r = HumanReviewAction.REVISION_REQUESTED ∧
       HumanReviewRecord.revision_number r = c_revision c ∧
       ∃ e, e ∈ events_of db id ∧ record_of_event e r).
Proof.
  intros Hok Hrep Hr.
  eapply get_revision_feedback_txn; try done;
    [by left|by apply reachable_inv|by right|].
  intros e r Hrev He Hre Hact Hnum. split_and!; try done. by exists e.
Qed.

(** A reviewer whose identity is valid but longer than the audit column
    [reviewer_id(100)] can never act: whatever the case, approving it never succeeds and
    never changes the committed tables. *)
Theorem long_subject_cannot_approve db id c request p s :
  represents db id c → (100 < length (AuthenticatedPrincipal.subject p))%nat →
  view s = db → 
  wp (approve id request (Some p)) (λ s' r,
    (∃ e, r = Raise e ∧ review_error c HumanReviewStatus.PENDING e) ∧
    durable s' = durable s) s.
Proof.
  intros [k Hc] Hl Hs.
  assert (∀ o rid, reviewer_id_of o request = Some rid → (100 < length rid)%nat →
    commits (approve id request o) db (review_error c HumanReviewStatus.PENDING)
      (λ _ _, False)) as H.
  { clear Hs s Hl p. intros p rid Hp Hl. unfold approve.
    assert (HE : ∀ e, is_sql e → review_error c HumanReviewStatus.PENDING e) by (by left).
    apply commits_bind. eapply txn_required_pending_state; [exact HE|done|by right; right|].
    intros Hrev. simpl. pose proof Hc as ((a & Ha & Hid & _) & Hst & _ & Hk & _ & Hb).
    apply commits_bind, txn_mark_completed; [exact HE|by rewrite Ha|].
    intros a0 now0 Ha0 _ a' _. rewrite Ha in Ha0. injection Ha0 as <-.
    apply commits_bind, txn_review_telemetry; [done|by right; left|].
    intros t Ht. eapply commits_ext; [intros s; apply persist_transition_assoc|]. simpl.
    eapply txn_transition; [exact HE|exact Hst|done|done|lia|lia|].
    intros now u now' actor _ _ row event Hok. exfalso. revert Hok.
    subst event. rewrite Hp. by apply long_reviewer_rejected. }
  eapply wp_mono; [by eapply (H (Some p))|]. intros s' [d|e]; [by intros [[] _]|].
  intros [[He Hd]|[_ [_ []]]]. split; [by exists e|done].
Qed.
End theorems.

(** ** Witnesses *)

Lemma payload_truthy (x : ExecutionMetadata) : json_truthy (ExecutionPayload x) = true.
Proof. done. Qed.

Definition demo_config : GovernanceConfig.t :=
  GovernanceConfig.mk default_policy None None None.

Lemma demo_config_ok : config_ok demo_config.
Proof. split; [done|]. split; [done|]. intros usage [= <-]. by exists None. Qed.

Definition demo_checkpoint : checkpoint (J := payload) :=
  Checkpoint (datetime_utc 0) (datetime_utc 0) demo_gate (ExecutionPayload demo_execution)
    demo_telemetry.

Lemma demo_checkpoint_ok : checkpoint_ok demo_checkpoint.
Proof. by split_and!. Qed.

Definition demo_case : case payload :=
  opened AwaitingReview (ResultPayload demo_result) 2.

Lemma demo_represents : represents demo_db 1%N demo_case.
Proof.
  exists demo_checkpoint. split_and!; try done; try apply demo_checkpoint_ok.
  - by exists demo_assessment.
  - constructor; [|constructor].
    by exists 7%N, (datetime_utc 0), None, None, (QualityGateResult.reason_codes demo_gate), Actor.none.
Qed.

Lemma reviewer_actions_refine_witness :
  commits (approve 1%N demo_review None) demo_db (review_error demo_case HumanReviewStatus.PENDING)
    (λ d db', acts Approve demo_db 1%N demo_case db' ∧
       d = HumanReviewDecision.mk 1%N HumanReviewAction.APPROVED HumanReviewStatus.APPROVED
             (AssessmentStatus.value AssessmentStatus.COMPLETED) 0).
Proof. apply (reviewer_actions_refine demo_db 1%N demo_case demo_review None demo_represents). Defined.

(** The demo case after a revision request. *)
Definition revision_case : case payload :=
  Case AssessmentStatus.PENDING_REVIEW None (ResultPayload demo_result)
    HumanReviewStatus.REVISION_REQUESTED 1 2
    [Entry HumanReviewAction.REQUESTED HumanReviewStatus.NOT_REQUIRED HumanReviewStatus.PENDING 0;
     Entry HumanReviewAction.REVISION_REQUESTED HumanReviewStatus.PENDING
       HumanReviewStatus.REVISION_REQUESTED 1].
Definition revision_db : Database payload :=
  Database.mk payload {[ 1%N := demo_assessment ]}
    {[ 1%N := demo_state HumanReviewStatus.REVISION_REQUESTED 1 ]}
    [demo_event;
     event_row 8%N 1%N (datetime_utc 1) HumanReviewAction.REVISION_REQUESTED
       HumanReviewStatus.PENDING HumanReviewStatus.REVISION_REQUESTED (Some (lit "alice"))
       (Some (lit "Please add evidence.")) (QualityGateResult.reason_codes demo_gate) 1
       Actor.none] false.

Lemma revision_represents : represents revision_db 1%N revision_case.
Proof.
  exists demo_checkpoint. split_and!; try done; try apply demo_checkpoint_ok.
  - by exists demo_assessment.
  - constructor; [|constructor; [|constructor]].
    + by exists 7%N, (datetime_utc 0), None, None,
        (QualityGateResult.reason_codes demo_gate), Actor.none.
    + by exists 8%N, (datetime_utc 1), (Some (lit "alice")), (Some (lit "Please add evidence.")),
        (QualityGateResult.reason_codes demo_gate), Actor.none.
Qed.

Lemma revision_reachable : reachable revision_case.
Proof.
  eapply reachable_step; [apply (reachable_opened AwaitingReview (ResultPayload demo_result) 2); lia|].
  by apply (step_request AssessmentStatus.PENDING_REVIEW None).
Qed.

(** The resubmitted candidate is held for review again, as the gate decides. *)
Lemma resume_revision_refines_witness :
  let decision := gate_decision default_policy (derive_signals demo_result [] demo_execution true) in
  let c' := resumed (outcome_of decision) (ResultPayload demo_result) 2 revision_case in
  decision = RuntimeRiskDecision.REQUIRE_HUMAN_REVIEW ∧
  commits (resume_revision ExecutionPayload demo_config 1%N demo_result [] demo_execution 5 true)
    revision_db (review_error revision_case HumanReviewStatus.REVISION_REQUESTED)
    (λ record db',
       Database.ok db' ∧ frame 1%N revision_db db' ∧ step revision_case Resume c' ∧
       represents db' 1%N c' ∧
       ∃ a now, Database.assessments revision_db !! 1%N = Some a ∧
         datetime.utcoffset now = Some 0%Z ∧
         let a' := finalized decision a now (ResultPayload demo_result)
                     (ExecutionPayload demo_execution) in
         Database.assessments db' !! 1%N = Some a' ∧ record = _to_record a').
Proof.
  split; [vm_compute; reflexivity|].
  exact (resume_revision_refines ExecutionPayload payload_truthy demo_config revision_db 1%N
    revision_case demo_result [] demo_execution 5 true demo_config_ok revision_represents
    eq_refl (proj1 (Z.leb_le 0 5) eq_refl)).
Defined.

Definition fresh_db : Database payload :=
  Database.mk payload
    {[ 1%N := demo_assessment <| AssessmentModel.status := AssessmentStatus.PROCESSING |>
                <| AssessmentModel.execution_metadata := None |> ]} ∅ [] false.

Definition fresh_assessment : AssessmentModel.t payload :=
  demo_assessment <| AssessmentModel.status := AssessmentStatus.PROCESSING |>
                  <| AssessmentModel.execution_metadata := None |>.

Lemma process_candidate_opens_case_witness :
  let o := outcome_of (gate_decision default_policy (derive_signals demo_result [] demo_execution true)) in
  o = AwaitingReview ∧
  txn (process_candidate ExecutionPayload demo_config 1%N demo_result [] demo_execution 5 true
         None [] 0 true) fresh_db is_sql
    (λ record db', PersistedAssessment.status record = outcome_status o ∧
       frame 1%N fresh_db db' ∧ represents db' 1%N (opened o (ResultPayload demo_result) 2)).
Proof.
  split; [vm_compute; reflexivity|].
  exact (process_candidate_opens_case ExecutionPayload payload_truthy demo_config fresh_db 1%N
    fresh_assessment demo_result [] demo_execution 5 true None [] demo_config_ok
    (conj eq_refl eq_refl) eq_refl eq_refl eq_refl (proj1 (Z.leb_le 0 5) eq_refl) eq_refl).
Defined.

(** A request served on a session of its own, whose next fresh identifier is [u]. *)
Definition session_at (u : N) (db : Database payload) : memory (Database payload) :=
  Memory db db [] 0 u.
Definition serve (u : N) (o : op) (db : Database payload) : Database payload :=
  durable (run ExecutionPayload o (session_at u db)).1.

Lemma session_at_durable u (db : Database payload) : durable (session_at u db) = db.
Proof. reflexivity. Qed.
Lemma session_at_view u (db : Database payload) :
  view (session_at u db) = durable (session_at u db).
Proof. reflexivity. Qed.

Lemma served_open u db o : op_ok db o → served ExecutionPayload db (serve u o db).
Proof.
  intros Hok. exact (served_request ExecutionPayload (session_at u db) o
    (eq_refl : view (session_at u db) = durable (session_at u db)) Hok).
Qed.

Definition submit_op : op :=
  OpSubmit demo_config 1%N demo_result [] demo_execution 5 true None [].

Lemma submit_op_ok : op_ok fresh_db submit_op.
Proof.
  split_and!; [apply demo_config_ok..|reflexivity|lia|reflexivity|by split|].
  by exists fresh_assessment.
Qed.

Lemma served_databases_hold_reachable_cases_witness :
  let db := serve 200 (OpApprove 1%N demo_review None) (serve 100 submit_op fresh_db) in
  unopened db 1%N ∨ ∃ c, represents db 1%N c ∧ reachable c ∧ case_inv c.
Proof.
  refine (served_databases_hold_reachable_cases ExecutionPayload payload_truthy fresh_db _ _
    (rtc_l _ _ _ _ (served_open 100 _ _ submit_op_ok) (rtc_once _ _
       (served_open 200 (serve 100 submit_op fresh_db) (OpApprove 1%N demo_review None) I))) 1%N).
  intros id. split; reflexivity.
Defined.

Lemma revision_feedback_found_witness :
  txn (get_revision_feedback 1%N) revision_db
    (λ e, is_sql e ∨ e = ApplicationError InvalidReviewTransitionError ∧
                     c_review revision_case ≠ HumanReviewStatus.REVISION_REQUESTED)
    (λ r db', db' = revision_db ∧
       c_review revision_case = HumanReviewStatus.REVISION_REQUESTED ∧
       HumanReviewRecord.action r = HumanReviewAction.REVISION_REQUESTED ∧
       HumanReviewRecord.revision_number r = 1%Z ∧
       ∃ e, e ∈ events_of revision_db 1%N ∧ record_of_event e r).
Proof.
  apply (revision_feedback_found revision_db 1%N revision_case);
    [|exact revision_represents|exact revision_reachable].
  apply (bool_decide_unpack _). vm_compute. exact I.
Defined.

(** A principal whose subject has 101 characters is valid. *)
Definition long_principal : principal :=
  AuthenticatedPrincipal.mk (replicate 101 97%Z) None None [Role.REVIEWER] "idp".

Lemma long_subject_cannot_approve_witness :
  AuthenticatedPrincipal.valid long_principal = true ∧
  wp (approve 1%N demo_review (Some long_principal)) (λ s' r,
    (∃ e, r = Raise e ∧ review_error demo_case HumanReviewStatus.PENDING e) ∧
    durable s' = durable (open_session demo_db)) (open_session demo_db).
Proof.
  split; [reflexivity|].
  apply (long_subject_cannot_approve demo_db 1%N demo_case demo_review long_principal
    (open_session demo_db) demo_represents); [simpl; lia|reflexivity].
Defined.

Lemma history_serve_review u n o db :
  history ExecutionPayload 2 1%N n db → op_ok db o → within 2 o → reviews 1%N o →
  ¬ refused ExecutionPayload o (session_at u db) →
  history ExecutionPayload 2 1%N (S n) (serve u o db).
Proof.
  intros Hh Hok Hw Ht Hn.
  exact (history_review ExecutionPayload 2 1%N n (session_at u db) o Hh
    (eq_refl : view (session_at u db) = durable (session_at u db)) Hok Hw Ht Hn).
Qed.

Lemma history_serve_submit u n o db :
  history ExecutionPayload 2 1%N n db → op_ok db o → within 2 o → ¬ reviews 1%N o →
  history ExecutionPayload 2 1%N n (serve u o db).
Proof.
  intros Hh Hok Hw Ht.
  refine (history_request ExecutionPayload 2 1%N n (session_at u db) o Hh
    (eq_refl : view (session_at u db) = durable (session_at u db)) Hok Hw _).
  intros Hr. by destruct Ht.
Qed.

Definition approved_db : Database payload :=
  serve 200 (OpApprove 1%N demo_review None) (serve 100 submit_op fresh_db).

Lemma approved_db_state :
  RuntimeStateModel.review_status <$> Database.states approved_db !! 1%N = Some (lit "approved").
Proof. vm_compute. reflexivity. Qed.

Lemma approved_db_not_refused :
  ¬ refused ExecutionPayload (OpApprove 1%N demo_review None)
      (session_at 200 (serve 100 submit_op fresh_db)).
Proof.
  intros [[e He] _]. revert He.
  assert ((run ExecutionPayload (OpApprove 1%N demo_review None)
    (session_at 200 (serve 100 submit_op fresh_db))).2 = Ok tt) as -> by (vm_compute; reflexivity).
  discriminate.
Qed.

(** With two revisions allowed, one approval of a submitted candidate is within the five
    reviews, and after it a rejection is refused. *)
Lemma reviews_terminate_witness :
  (1 ≤ 5)%Z ∧ refused ExecutionPayload (OpReject 1%N demo_review None) (session_at 300 approved_db).
Proof.
  assert (history ExecutionPayload 2 1%N 1 approved_db) as Hh.
  { refine (history_serve_review 200 0 (OpApprove 1%N demo_review None)
      (serve 100 submit_op fresh_db) _ I I eq_refl approved_db_not_refused).
    refine (history_serve_submit 100 0 submit_op fresh_db _ submit_op_ok (Z.le_refl 2) (λ H, H)).
    constructor. intros id. split; reflexivity. }
  destruct (reviews_terminate ExecutionPayload payload_truthy 2 1%N 1 approved_db
    (proj1 (Z.leb_le 0 2) eq_refl) Hh) as [Hn Hr].
  split; [exact Hn|].
  refine (Hr (OpReject 1%N demo_review None) (session_at 300 approved_db)
    (session_at_durable 300 approved_db) (session_at_view 300 approved_db)
    I eq_refl (or_intror _)).
  pose proof approved_db_state as Hs.
  destruct (Database.states approved_db !! 1%N) as [m|]; [|discriminate Hs].
  exists m. split; [reflexivity|]. injection Hs as ->. right. left.
Defined.
