(* ===== verification/Resilience.v ===== *)
(** app/runtime/resilience.py: failure classification, bounded retry with exponential
    backoff, and the time bound on an operation. *)
From S2P Require Import Prelude PyFloat Errors Domain RuntimeModels.

(** ** classify_failure *)

(** [type(exc).__name__] of the vendor exceptions, which reach the code by name only. *)
Definition vendor_name (e : exn) : pystr :=
  match e with OtherException name => name | _ => [] end.

Definition classify_failure (e : exn) : FailureCategory.t :=
  if (match e with ProviderError ProviderTimeoutError | OperationTimeoutError => true
      | _ => false end) ||
     mem (vendor_name e) [lit "APITimeoutError"]
  then FailureCategory.TIMEOUT
  else if (match e with ProviderError ProviderTransientError => true | _ => false end) ||
     mem (vendor_name e) (lit <$> ["APIConnectionError"; "InternalServerError"; "RateLimitError"])
  then FailureCategory.TRANSIENT
  else if is_value_or_type_error e then FailureCategory.VALIDATION
  else FailureCategory.PERMANENT.

Definition retryable (e : exn) : bool :=
  mem (classify_failure e) [FailureCategory.TRANSIENT; FailureCategory.TIMEOUT].

(** ** run_with_retry *)

Section retry.
Context {S R : Type} (policy : RetryPolicy.t).
Context (operation : M S R) (sleeper : pyfloat → M S unit) (random_value : M S pyfloat).
Context (on_retry : option (Z → FailureCategory.t → M S unit)).

(** [min(max_delay_ms, base_delay_ms * 2**attempt)]. *)
Definition base_delay (attempt : Z) : Z :=
  Z.min (RetryPolicy.max_delay_ms policy) (RetryPolicy.base_delay_ms policy * 2 ^ attempt).

(** [(base + base * jitter_ratio * random_value()) / 1_000]. *)
Definition delay_seconds (attempt : Z) (random : pyfloat) : pyfloat :=
  let base := base_delay attempt in
  let jitter := fmul (fmul (float_of_Z base) (RetryPolicy.jitter_ratio policy)) random in
  fdiv (fadd (float_of_Z base) jitter) (float_of_Z 1000).

(** The body of the [for] statement, over the attempts that remain. *)
Fixpoint retry_loop (attempts : list Z) : M S R :=
  match attempts with
  | [] => raise RuntimeError
  | attempt :: rest =>
      try_except operation (λ exc,
        let category := classify_failure exc in
        if negb (mem category [FailureCategory.TRANSIENT; FailureCategory.TIMEOUT]) then raise exc
        else if Z.leb (RetryPolicy.max_retries policy) attempt then raise exc
        else
          (match on_retry with
           | Some notify => notify (attempt + 1)%Z category
           | None => ret tt
           end) ;;;
          let* random := random_value in
          sleeper (delay_seconds attempt random) ;;;
          retry_loop rest)
  end.

Definition run_with_retry : M S R :=
  retry_loop (seqZ 0 (RetryPolicy.max_retries policy + 1)).
End retry.

(** ** run_with_timeout

    The worker thread delivers the operation's outcome, or the deadline passes first:
    [deadline] says which. *)
Definition run_with_timeout {S R} (deadline : M S bool) (operation : M S R)
    (timeout_seconds : pyfloat) : M S R :=
  if fleb timeout_seconds (float_of_Z 0) then raise ValueError
  else
    let* missed := deadline in
    if missed : bool then raise OperationTimeoutError else operation.

(** ** Specification

    A world in which the outcome of each call is scripted and every effect is recorded. *)

Record world := World {
  w_calls : nat;
  w_notified : list (Z * FailureCategory.t);
  w_slept : list pyfloat;
  w_draws : nat
}.

Section spec.
Context {R : Type} (outcome : nat → res R) (draw : nat → pyfloat) (policy : RetryPolicy.t).

Definition scripted_operation : M world R := λ w,
  (World (S (w_calls w)) (w_notified w) (w_slept w) (w_draws w), outcome (w_calls w)).
Definition recording_sleeper (d : pyfloat) : M world unit := λ w,
  (World (w_calls w) (w_notified w) (w_slept w ++ [d]) (w_draws w), Ok tt).
Definition scripted_random : M world pyfloat := λ w,
  (World (w_calls w) (w_notified w) (w_slept w) (S (w_draws w)), Ok (draw (w_draws w))).
Definition recording_notify (n : Z) (c : FailureCategory.t) : M world unit := λ w,
  (World (w_calls w) (w_notified w ++ [(n, c)]) (w_slept w) (w_draws w), Ok tt).

Definition retry_run : M world R :=
  run_with_retry policy scripted_operation recording_sleeper scripted_random
    (Some recording_notify).

(** The call [i] failed in a way worth retrying. *)
Definition retryable_call (i : nat) : bool :=
  match outcome i with Raise e => retryable e | Ok _ => false end.
Definition category_of (i : nat) : FailureCategory.t :=
  match outcome i with Raise e => classify_failure e | Ok _ => FailureCategory.PERMANENT end.

(** The number of calls after which the loop stops: the first call that is not worth
    retrying, or the last attempt. *)
Fixpoint stop_from (i fuel : nat) : nat :=
  match fuel with
  | O => i
  | S f => if retryable_call i then stop_from (S i) f else i
  end.
Definition stop : nat := stop_from 0 (Z.to_nat (RetryPolicy.max_retries policy)).

Lemma stop_from_spec i fuel :
  (i ≤ stop_from i fuel ≤ i + fuel)%nat ∧
  (∀ j, i ≤ j < stop_from i fuel → retryable_call j = true)%nat ∧
  (stop_from i fuel = (i + fuel)%nat ∨ retryable_call (stop_from i fuel) = false).
Proof.
  revert i; induction fuel as [|f IH]; intros i; simpl; [split_and!; try lia; left; lia|].
  destruct (retryable_call i) eqn:Hr.
  - destruct (IH (S i)) as (Hb & Hj & He). split_and!; [lia|lia| |].
    + intros j Hj'. destruct (decide (j = i)) as [->|]; [done|]. apply Hj. lia.
    + destruct He as [He|He]; [left; lia|by right].
  - split_and!; [lia|lia| |by right]. intros j Hj. lia.
Qed.

(** The world after the calls [i, ..., k]. *)
Definition after_calls (i k : nat) (w : world) : world :=
  World (S k) (w_notified w ++ ((λ j, (Z.of_nat j + 1, category_of j)%Z) <$> seq i (k - i)))
    (w_slept w ++ ((λ j, delay_seconds policy (Z.of_nat j) (draw j)) <$> seq i (k - i)))
    k.

Lemma after_calls_stop i w :
  w_draws w = i → after_calls i i w = World (S i) (w_notified w) (w_slept w) (w_draws w).
Proof. intros Hd. unfold after_calls. rewrite Nat.sub_diag. simpl. by rewrite !app_nil_r, Hd. Qed.

Lemma retry_loop_run fuel i w :
  w_calls w = i → w_draws w = i →
  (Z.of_nat i + Z.of_nat fuel = RetryPolicy.max_retries policy)%Z →
  retry_loop policy scripted_operation recording_sleeper scripted_random (Some recording_notify)
    (seqZ (Z.of_nat i) (Z.of_nat fuel + 1)) w =
  (after_calls i (stop_from i fuel) w, outcome (stop_from i fuel)).
Proof.
  revert i w; induction fuel as [|f IH]; intros i w Hc Hd Hn;
    rewrite seqZ_cons by lia; cbn [retry_loop];
    unfold try_except, scripted_operation at 1; rewrite Hc.
  - cbn [stop_from]. rewrite (after_calls_stop i w Hd). simpl. destruct (outcome i) as [r|e]; [done|].
    rewrite (proj2 (Z.leb_le _ _)) by lia. by destruct (negb _).
  - cbn [stop_from]. destruct (retryable_call i) eqn:Hr; unfold retryable_call in Hr.
    2: { rewrite (after_calls_stop i w Hd). destruct (outcome i) as [r|e]; [done|].
         unfold retryable in Hr. by rewrite Hr. }
    destruct (outcome i) as [r|e] eqn:Ho; [done|]. unfold retryable in Hr. rewrite Hr. simpl.
    rewrite (proj2 (Z.leb_gt _ _)) by lia.
    unfold bind, recording_notify, recording_sleeper, scripted_random. simpl. rewrite Hd.
    replace (Z.succ (Z.of_nat i)) with (Z.of_nat (S i)) by lia.
    replace (Z.pred _) with (Z.of_nat f + 1)%Z by lia.
    rewrite IH by (simpl; lia). f_equal. unfold after_calls.
    destruct (stop_from_spec (S i) f) as ([Hlo _] & _).
    replace (stop_from (S i) f - i)%nat with (S (stop_from (S i) f - S i)) by lia.
    simpl. rewrite <- !app_assoc. simpl. unfold category_of. by rewrite Ho.
Qed.

Lemma retry_run_eq :
  (0 ≤ RetryPolicy.max_retries policy)%Z →
  retry_run (World 0 [] [] 0) = (after_calls 0 stop (World 0 [] [] 0), outcome stop).
Proof.
  intros Hn. unfold retry_run, run_with_retry, stop.
  pose proof (retry_loop_run (Z.to_nat (RetryPolicy.max_retries policy)) 0 (World 0 [] [] 0)) as H.
  rewrite Z2Nat.id in H by done. by apply H; simpl; lia.
Qed.

Lemma base_delay_bounds attempt :
  RetryPolicy.valid policy = true → (0 ≤ attempt)%Z →
  (0 ≤ base_delay policy attempt ≤ RetryPolicy.max_delay_ms policy)%Z ∧
  (base_delay policy attempt ≤ base_delay policy (attempt + 1))%Z.
Proof.
  intros Hv Ha. unfold RetryPolicy.valid in Hv. split_bools. unfold base_delay.
  repeat match goal with H : Z.leb _ _ = true |- _ => apply Z.leb_le in H end.
  rewrite Z.pow_add_r by lia. pose proof (Z.pow_nonneg 2 attempt). nia.
Qed.

(** for every script of outcomes the retry loop makes the calls up to the first one
    that succeeds or fails in a non-retryable way, at most [max_retries + 1] of them,
    returns exactly that call's outcome (the closing [RuntimeError] is never reached),
    reports every retry with its number and category, and sleeps once before each
    retry, with base delays that never decrease nor exceed [max_delay_ms]. *)
Theorem run_with_retry_correct :
  RetryPolicy.valid policy = true →
  let k := stop in
  (Z.of_nat k ≤ RetryPolicy.max_retries policy)%Z ∧
  (∀ j, j < k → retryable_call j = true)%nat ∧
  (Z.of_nat k = RetryPolicy.max_retries policy ∨ retryable_call k = false) ∧
  (∃ w, retry_run (World 0 [] [] 0) = (w, outcome k) ∧
    w_calls w = S k ∧
    w_notified w = ((λ j, (Z.of_nat j + 1, category_of j)%Z) <$> seq 0 k) ∧
    w_slept w = ((λ j, delay_seconds policy (Z.of_nat j) (draw j)) <$> seq 0 k)) ∧
  (∀ j, 0 ≤ base_delay policy (Z.of_nat j) ≤ RetryPolicy.max_delay_ms policy ∧
        base_delay policy (Z.of_nat j) ≤ base_delay policy (Z.of_nat j + 1))%Z.
Proof.
  intros Hv k. pose proof Hv as Hv'. unfold RetryPolicy.valid in Hv'. split_bools.
  assert (0 ≤ RetryPolicy.max_retries policy)%Z as Hn by (by apply Z.leb_le).
  destruct (stop_from_spec 0 (Z.to_nat (RetryPolicy.max_retries policy))) as (Hb & Hj & He).
  fold stop in Hb, Hj, He. fold k in Hb, Hj, He. split_and!.
  - lia.
  - intros j Hjk. apply Hj. lia.
  - destruct He as [He|He]; [left; lia|by right].
  - eexists. split; [by apply retry_run_eq|]. unfold after_calls. simpl.
    fold k. by rewrite Nat.sub_0_r.
  - intros j. apply base_delay_bounds; [done|lia].
Qed.
End spec.

Definition demo_retry_policy : RetryPolicy.t := RetryPolicy.mk 2 250 4000 (float_dyadic 1 3).
Definition demo_outcome (i : nat) : res Z :=
  match i with
  | O => Raise (ProviderError ProviderTransientError)
  | _ => Ok 7%Z
  end.

Lemma run_with_retry_correct_witness :
  stop demo_outcome demo_retry_policy = 1%nat ∧
  ∃ w, retry_run demo_outcome (λ _, f64_zero) demo_retry_policy (World 0 [] [] 0) = (w, Ok 7%Z) ∧
    w_calls w = 2%nat.
Proof.
  destruct (run_with_retry_correct demo_outcome (λ _, f64_zero) demo_retry_policy)
    as (_ & _ & _ & (w & Hw & Hc & _) & _); [vm_compute; reflexivity|].
  split; [reflexivity|]. exists w. split; [exact Hw|exact Hc].
Defined.
