(* ===== verification/Assessments.v ===== *)
(** app/services/assessments.py: [AssessmentService], every operation.

    The collaborators the service receives through protocols (the generator, the retrieval
    service and the two agent workflows) are arguments: computations of the session's
    state.  Logging is left out. *)
From S2P Require Import Prelude PyFloat Errors Domain AgentModels Schemas RuntimeModels.
From S2P Require Import Prompts Gate ExecutionRouter Session Storage Repositories Telemetry Identity Governance.

(** ** Collaborators *)

(** [RAGPreparation] or [HybridRAGPreparation]: [getattr(_, "graph_retrieval", None)]. *)
Inductive preparation :=
  | Plain (p : RAGPreparation.t)
  | Hybrid (p : HybridRAGPreparation.t).
Definition prep_evidence (p : preparation) : list RetrievedEvidence.t :=
  match p with Plain p => RAGPreparation.evidence p | Hybrid p => HybridRAGPreparation.evidence p end.
Definition prep_context (p : preparation) : pystr :=
  match p with Plain p => RAGPreparation.context p | Hybrid p => HybridRAGPreparation.context p end.
Definition prep_graph (p : preparation) : option GraphRetrievalExecutionMetadata.t :=
  match p with Plain _ => None | Hybrid p => Some (HybridRAGPreparation.graph_retrieval p) end.

(** [AgentWorkflowOutput]. *)
Record workflow_output := WorkflowOutput {
  out_result : AssessmentResult.t;
  out_evidence : list RetrievedEvidence.t;
  out_execution : ExecutionMetadata
}.

(** A request pydantic accepts and reads back unchanged: valid, its strings stripped. *)
Definition request_ok (r : AssessmentRequest.t) : Prop :=
  AssessmentRequest.valid r = true ∧
  Forall (λ s, str_strip s = s)
    ([AssessmentRequest.company_name r; AssessmentRequest.industry r;
      AssessmentRequest.business_problem r; AssessmentRequest.desired_outcome r] ++
     AssessmentRequest.pain_points r ++ AssessmentRequest.constraints r ++
     option_list (AssessmentRequest.organization_description r) ++
     option_list (AssessmentRequest.current_process r) ++
     option_list (AssessmentRequest.additional_context r)).

(** Metadata payloads: [payload.get("execution_mode")] and the three validators. *)
Class ExecutionJson (J : Type) := {
  dump_execution : ExecutionMetadata → J;
  payload_mode : J → option pystr;
  validate_deterministic : J → res DeterministicExecutionMetadata.t;
  validate_single_agent : J → res AssessmentExecutionMetadata.t;
  validate_multi_agent : J → res MultiAgentExecutionMetadata.t
}.

Section collaborators.
Context (S : Type).
Record services := Services {
  perf_counter : M S pyfloat;
  generator : AssessmentPrompt.t → M S AssessmentResult.t;
  rag_service : option (AssessmentRequest.t → M S preparation);
  agentic_workflow : option (uuid → AssessmentRequest.t → M S workflow_output);
  multi_agent_workflow : option (uuid → AssessmentRequest.t → M S workflow_output);
  runtime_governance : option GovernanceConfig.t;
  execution_router : option (AssessmentRequest.t → res ExecutionRoutingDecision.t)
}.
End collaborators.
Arguments perf_counter {S} _.
Arguments generator {S} _.
Arguments rag_service {S} _.
Arguments agentic_workflow {S} _.
Arguments multi_agent_workflow {S} _.
Arguments runtime_governance {S} _.
Arguments execution_router {S} _.

(** ** Grounding *)

Definition reference_key (r : SourceReference.t) : uuid * uuid :=
  (SourceReference.document_id r, SourceReference.chunk_id r).
Definition evidence_key (e : RetrievedEvidence.t) : uuid * uuid :=
  (RetrievedEvidence.document_id e, RetrievedEvidence.chunk_id e).

(** The loop of [_apply_grounding_metadata]. *)
Fixpoint grounded_references (allowed seen : list (uuid * uuid))
    (references : list SourceReference.t) : list SourceReference.t :=
  match references with
  | [] => []
  | r :: rest =>
      if decide (reference_key r ∈ allowed ∧ reference_key r ∉ seen)
      then r :: grounded_references allowed (reference_key r :: seen) rest
      else grounded_references allowed seen rest
  end.

Definition _apply_grounding_metadata (result : AssessmentResult.t)
    (evidence : list RetrievedEvidence.t) : AssessmentResult.t :=
  let allowed := evidence_key <$> evidence in
  let references := grounded_references allowed [] (AssessmentResult.source_references result) in
  let status := if truthy evidence then ExternalEvidenceStatus.RETRIEVED
                else ExternalEvidenceStatus.NOT_RETRIEVED in
  result <| AssessmentResult.external_evidence_status := status |>
         <| AssessmentResult.source_references := references |>.

Definition _provenance_is_valid (result : AssessmentResult.t)
    (evidence : list RetrievedEvidence.t) : bool :=
  forallb (λ r, mem (reference_key r) (evidence_key <$> evidence))
    (AssessmentResult.source_references result).

(** ** Routing *)

Section routing.
Context {S : Type} (svc : services S).
Import ExecutionMode RoutingReasonCode FallbackReasonCode.

Definition available {A} (o : option A) : bool := bool_decide (is_Some o).

Definition _route_execution (request : AssessmentRequest.t) : res ResolvedExecutionRoute.t :=
  match execution_router svc with
  | None =>
      let mode :=
        if available (multi_agent_workflow svc) then MULTI_AGENT
        else if available (agentic_workflow svc) then SINGLE_AGENT
        else DETERMINISTIC in
      ResolvedExecutionRoute.construct
        (ResolvedExecutionRoute.mk mode mode [LEGACY_FLAG_SELECTION] [])
  | Some route =>
      res_bind (route request) (λ decision,
      let preferred := ExecutionRoutingDecision.preferred_execution_mode decision in
      let '(actual, fallback_reasons) :=
        if bool_decide (preferred = MULTI_AGENT) && negb (available (multi_agent_workflow svc)) then
          if available (agentic_workflow svc)
          then (SINGLE_AGENT, [MULTI_AGENT_CAPABILITY_UNAVAILABLE; FALLBACK_TO_SINGLE_AGENT])
          else (DETERMINISTIC, [MULTI_AGENT_CAPABILITY_UNAVAILABLE;
                                SINGLE_AGENT_CAPABILITY_UNAVAILABLE; FALLBACK_TO_DETERMINISTIC])
        else if bool_decide (preferred = SINGLE_AGENT) && negb (available (agentic_workflow svc)) then
          (DETERMINISTIC, [SINGLE_AGENT_CAPABILITY_UNAVAILABLE; FALLBACK_TO_DETERMINISTIC])
        else (preferred, []) in
      ResolvedExecutionRoute.construct
        (ResolvedExecutionRoute.mk preferred actual
           (ExecutionRoutingDecision.reason_codes decision) fallback_reasons))
  end.
End routing.

(** The dictionary [routing_metadata]: [None] is the empty one. *)
Record routing_metadata := RoutingMetadata {
  rm_preferred : pystr;
  rm_reasons : list pystr;
  rm_fallbacks : list pystr
}.
Definition metadata_of (r : ResolvedExecutionRoute.t) : routing_metadata :=
  RoutingMetadata
    (ExecutionMode.value (ResolvedExecutionRoute.preferred_execution_mode r))
    (RoutingReasonCode.value <$> ResolvedExecutionRoute.routing_reason_codes r)
    (FallbackReasonCode.value <$> ResolvedExecutionRoute.fallback_reason_codes r).

(** [execution.model_copy(update=routing_metadata)]. *)
Definition with_routing (m : option routing_metadata) (e : ExecutionMetadata) : ExecutionMetadata :=
  match m with
  | None => e
  | Some m =>
      match e with
      | Deterministic x => Deterministic (x
          <| DeterministicExecutionMetadata.preferred_execution_mode := Some (rm_preferred m) |>
          <| DeterministicExecutionMetadata.routing_reason_codes := rm_reasons m |>
          <| DeterministicExecutionMetadata.fallback_reason_codes := rm_fallbacks m |>)
      | SingleAgent x => SingleAgent (x
          <| AssessmentExecutionMetadata.preferred_execution_mode := Some (rm_preferred m) |>
          <| AssessmentExecutionMetadata.routing_reason_codes := rm_reasons m |>
          <| AssessmentExecutionMetadata.fallback_reason_codes := rm_fallbacks m |>)
      | MultiAgent x => MultiAgent (x
          <| MultiAgentExecutionMetadata.preferred_execution_mode := Some (rm_preferred m) |>
          <| MultiAgentExecutionMetadata.routing_reason_codes := rm_reasons m |>
          <| MultiAgentExecutionMetadata.fallback_reason_codes := rm_fallbacks m |>)
      end
  end.

(** [execution.model_copy(update={"request_id": ...})] and [{"graph_retrieval": ...}]. *)
Definition with_request_id (o : option pystr) (e : ExecutionMetadata) : ExecutionMetadata :=
  match o with
  | None => e
  | Some _ =>
      match e with
      | Deterministic x => Deterministic (x <| DeterministicExecutionMetadata.request_id := o |>)
      | SingleAgent x => SingleAgent (x <| AssessmentExecutionMetadata.request_id := o |>)
      | MultiAgent x => MultiAgent (x <| MultiAgentExecutionMetadata.request_id := o |>)
      end
  end.
Definition with_graph (g : option GraphRetrievalExecutionMetadata.t)
    (m : DeterministicExecutionMetadata.t) : DeterministicExecutionMetadata.t :=
  match g with
  | None => m
  | Some _ => m <| DeterministicExecutionMetadata.graph_retrieval := g |>
  end.

(** [max(0, round((perf_counter() - started) * 1_000))]. *)
Definition elapsed_ms (started now : pyfloat) : res Z :=
  res_bind (py_round (fmul (fsub now started) (float_of_Z 1000))) (λ n, Ok (Z.max 0 n)).

(** ** The service *)

Section service.
Context {J S : Type} `{!Session (Database J) S} `{!Exporter S} `{!Json J}.
Context `{!PydanticModel J QualityGateResult.t gate_result_ok}.
Context `{!PydanticModel J OperationalTelemetry.t telemetry_ok}.
Context `{!PydanticModel J AssessmentResult.t assessment_result_ok}.
Context `{!PydanticModel J AssessmentRequest.t request_ok} `{!ExecutionJson J}.
Context (svc : services S).

Definition _handle_database_error (exc : sql_error) : M S app_error :=
  try_except rollback
    (λ e, match e with SQLAlchemyError _ => ret tt | _ => raise e end) ;;;
  ret (match exc with OperationalError => DatabaseUnavailableError | _ => PersistenceError end).

(** [try: m except SQLAlchemyError as exc: raise self._handle_database_error(exc)]. *)
Definition guard_database {A} (m : M S A) : M S A :=
  try_except m (λ e,
    match e with
    | SQLAlchemyError q => let* a := _handle_database_error q in app_raise a
    | _ => raise e
    end).

Definition _persist_failure (assessment_id : uuid) (error_code error_message : pystr) : M S unit :=
  guard_database
    (let* failed_record := mark_failed assessment_id error_code error_message in
     match failed_record with
     | None => app_raise PersistenceError
     | Some _ => commit
     end).

Definition _parse_execution_metadata (payload : option J) : res (option ExecutionMetadata) :=
  match payload with
  | None => Ok None
  | Some j =>
      if bool_decide (payload_mode j = Some (lit "deterministic")) then
        res_bind (validate_deterministic j) (λ m, Ok (Some (Deterministic m)))
      else if bool_decide (payload_mode j = Some (lit "multi_agent")) then
        res_bind (validate_multi_agent j) (λ m, Ok (Some (MultiAgent m)))
      else res_bind (validate_single_agent j) (λ m, Ok (Some (SingleAgent m)))
  end.

(** The [try] block of [_to_response]. *)
Definition parse_record (record : PersistedAssessment.t J) :
    res (AssessmentRequest.t * option AssessmentResult.t * option ExecutionMetadata) :=
  res_bind (model_validate (PersistedAssessment.request_payload record)) (λ request,
  res_bind (match PersistedAssessment.result_payload record with
            | Some j => res_bind (model_validate j) (λ r, Ok (Some r))
            | None => Ok None
            end) (λ result,
  res_bind (_parse_execution_metadata (PersistedAssessment.execution_metadata record)) (λ execution,
  Ok (request, result, execution)))).

Definition _to_response (record : PersistedAssessment.t J) : res AssessmentResponse.t :=
  match parse_record record with
  | Raise ValidationError => Raise (ApplicationError PersistenceError)
  | Raise e => Raise e
  | Ok (request, result, execution) =>
      let error :=
        match PersistedAssessment.error_code record, PersistedAssessment.error_message record with
        | Some code, Some message => Some (AssessmentFailure.mk code message)
        | _, _ => None
        end in
      AssessmentResponse.construct
        (AssessmentResponse.mk (PersistedAssessment.assessment_id record)
           (PersistedAssessment.status record) request result execution error
           (PersistedAssessment.created_at record) (PersistedAssessment.updated_at record)
           (PersistedAssessment.completed_at record))
  end.

Definition get_assessment (assessment_id : uuid) : M S AssessmentResponse.t :=
  let* record := guard_database (get_by_id assessment_id) in
  match record with
  | None => app_raise AssessmentNotFoundError
  | Some record => of_res (_to_response record)
  end.

(** The first two transactions of [generate_assessment]. *)
Definition create_record (assessment_id : uuid) (request : AssessmentRequest.t)
    (p : option principal) : M S unit :=
  guard_database
    (create assessment_id (AssessmentRequest.company_name request)
       (AssessmentRequest.industry request) (AssessmentRequest.business_problem request)
       (model_dump request) (AuthenticatedPrincipal.subject <$> p) ;;;
     commit).
Definition start_processing (assessment_id : uuid) : M S unit :=
  guard_database
    (let* processing_record := mark_processing assessment_id in
     match processing_record with
     | None => app_raise PersistenceError
     | Some _ => commit
     end).

(** [try: ... finally: retrieval_duration_ms = ...]. *)
Definition timed_preparation (prepare : AssessmentRequest.t → M S preparation)
    (request : AssessmentRequest.t) : M S (preparation * Z) :=
  let* retrieval_started := perf_counter svc in
  λ s,
    let '(s', r) := prepare request s in
    (let* now := perf_counter svc in
     let* duration := of_res (elapsed_ms retrieval_started now) in
     let* preparation := of_res r in
     ret (preparation, duration)) s'.

(** The body of the generation [try]: result, evidence, execution, retrieval duration. *)
Definition run_workflow (assessment_id : uuid) (request : AssessmentRequest.t)
    (mode : ExecutionMode.t) (metadata : option routing_metadata)
    (execution : DeterministicExecutionMetadata.t) :
    M S (workflow_output * option Z) :=
  match mode with
  | ExecutionMode.MULTI_AGENT =>
      match multi_agent_workflow svc with
      | None => raise AssertionError
      | Some run =>
          let* out := run assessment_id request in
          ret (WorkflowOutput (out_result out) (out_evidence out)
                 (with_routing metadata (out_execution out)), None)
      end
  | ExecutionMode.SINGLE_AGENT =>
      match agentic_workflow svc with
      | None => raise AssertionError
      | Some run =>
          let* out := run assessment_id request in
          ret (WorkflowOutput (out_result out) (out_evidence out)
                 (with_routing metadata (out_execution out)), None)
      end
  | ExecutionMode.DETERMINISTIC =>
      match rag_service svc with
      | Some prepare =>
          let* timed := timed_preparation prepare request in
          let preparation := timed.1 in
          let* result := generator svc
            (build_assessment_prompt request (prep_context preparation)) in
          ret (WorkflowOutput result (prep_evidence preparation)
                 (Deterministic (with_graph (prep_graph preparation) execution)), Some timed.2)
      | None =>
          let* result := generator svc (build_assessment_prompt request NO_EXTERNAL_EVIDENCE) in
          ret (WorkflowOutput result [] (Deterministic execution), None)
      end
  end.

(** The rest of the [try] body: provenance, grounding and the request identifier. *)
Definition ground (generated : workflow_output * option Z) :
    M S (workflow_output * bool * option Z) :=
  let out := generated.1 in
  let provenance_valid := _provenance_is_valid (out_result out) (out_evidence out) in
  let result := _apply_grounding_metadata (out_result out) (out_evidence out) in
  let* request_id := get_request_id in
  ret (WorkflowOutput result (out_evidence out) (with_request_id request_id (out_execution out)),
       provenance_valid, generated.2).

(** Its handlers: the failure is persisted, then raised. *)
Definition generation_failed {A} (assessment_id : uuid) (e : exn) : M S A :=
  match e with
  | ApplicationError a =>
      _persist_failure assessment_id (error_code a) (public_message a) ;;; raise e
  | _ =>
      _persist_failure assessment_id (error_code AssessmentGenerationError)
        (public_message AssessmentGenerationError) ;;;
      app_raise AssessmentGenerationError
  end.

(** The last transaction. *)
Definition persist_result (assessment_id : uuid) (generated : workflow_output * bool * option Z)
    (started : pyfloat) : M S (PersistedAssessment.t J) :=
  let '(out, provenance_valid, retrieval_duration_ms) := generated in
  guard_database
    (let* record :=
       match runtime_governance svc with
       | Some config =>
           let* now := perf_counter svc in
           let* duration := of_res (elapsed_ms started now) in
           let* record := process_candidate dump_execution config assessment_id (out_result out)
             (out_evidence out) (out_execution out) duration provenance_valid
             retrieval_duration_ms [] 0 true in
           ret (Some record)
       | None =>
           mark_completed assessment_id (model_dump (out_result out))
             (Some (dump_execution (out_execution out)))
       end in
     match record with
     | None => app_raise PersistenceError
     | Some record => commit ;;; ret record
     end).

(** Generation and persistence, once the request is routed. *)
Definition execute (assessment_id : uuid) (request : AssessmentRequest.t)
    (generation_started : pyfloat) (routing : ResolvedExecutionRoute.t)
    (metadata : option routing_metadata) (execution : DeterministicExecutionMetadata.t) :
    M S AssessmentResponse.t :=
  let* generated := try_except
    (let* generated := run_workflow assessment_id request
       (ResolvedExecutionRoute.execution_mode routing) metadata execution in
     ground generated)
    (generation_failed assessment_id) in
  let* record := persist_result assessment_id generated generation_started in
  of_res (_to_response record).

Definition generate_assessment (request : AssessmentRequest.t) (p : option principal) :
    M S AssessmentResponse.t :=
  let* assessment_id := uuid4 in
  create_record assessment_id request p ;;;
  start_processing assessment_id ;;;
  let* generation_started := perf_counter svc in
  let* routing := of_res (_route_execution svc request) in
  let metadata :=
    match execution_router svc with Some _ => Some (metadata_of routing) | None => None end in
  let* execution := of_res
    (DeterministicExecutionMetadata.construct
       (match with_routing metadata (Deterministic
                (DeterministicExecutionMetadata.mk None "deterministic" None [] [] None)) with
        | Deterministic m => m
        | _ => DeterministicExecutionMetadata.mk None "deterministic" None [] [] None
        end)) in
  execute assessment_id request generation_started routing metadata execution.
End service.
