(* ===== verification/Tools.v ===== *)
(** app/tools/registry.py and app/tools/permissions.py: the allowlist of tools, their typed
    execution with a per-run cache, and the per-agent permissions.

    The canonical serialization of a call ([json.dumps] with sorted keys) and SHA-256 are
    parameters; between them the text is encoded as UTF-8, which fails on surrogates. *)
From S2P Require Import Prelude PyText PyFloat Errors Domain AgentModels Schemas RuntimeModels.
From S2P Require Import Session Storage Telemetry Assessments.

(** ** Registry *)

Section tools.
Context {S : Type}.

(** [ToolDefinition]: the arguments model with its validator and serializer, and the
    handler. *)
Record ToolDefinition := MkToolDefinition {
  td_name : pystr;
  td_description : pystr;
  td_arguments : Type;
  td_validate : pydict → res td_arguments;
  td_dump : td_arguments → pydict;
  td_handler : td_arguments → M S ToolExecutionResult.t
}.

(** [ToolRegistry]; the metrics recorder lives in the state. *)
Record ToolRegistry := MkToolRegistry {
  tr_definitions : list ToolDefinition;
  tr_timeout_seconds : option pyfloat;
  tr_timeout_runner : M S ToolExecutionResult.t → pyfloat → M S ToolExecutionResult.t;
  tr_metrics : option (M RuntimeMetricsRecorder.t unit → M S unit);
  tr_perf_counter : M S pyfloat
}.

Definition make_registry (definitions : list ToolDefinition) (timeout_seconds : option pyfloat)
    (timeout_runner : M S ToolExecutionResult.t → pyfloat → M S ToolExecutionResult.t)
    (metrics : option (M RuntimeMetricsRecorder.t unit → M S unit))
    (perf_counter : M S pyfloat) : res ToolRegistry :=
  if decide (NoDup (td_name <$> definitions))
  then Ok (MkToolRegistry definitions timeout_seconds timeout_runner metrics perf_counter)
  else Raise ValueError.

Definition names (r : ToolRegistry) : list pystr := td_name <$> tr_definitions r.

(** [self._definitions.get(name)]. *)
Definition find_definition (r : ToolRegistry) (name : pystr) : option ToolDefinition :=
  py_next (λ d, bool_decide (td_name d = name)) (tr_definitions r).
End tools.
Arguments ToolDefinition : clear implicits.
Arguments ToolRegistry : clear implicits.

(** [str] comparison: by code points. *)
Fixpoint str_leb (s t : pystr) : bool :=
  match s, t with
  | [], _ => true
  | _ :: _, [] => false
  | c :: s', d :: t' => if Z.eqb c d then str_leb s' t' else Z.ltb c d
  end.
Definition str_le (s t : pystr) : Prop := str_leb s t = true.
#[export] Instance str_le_dec : RelDecision str_le.
Proof. intros s t. unfold str_le. apply _. Defined.

(** [tuple(sorted(str(key) for key in raw_arguments))]. *)
Definition argument_keys (raw_arguments : pydict) : list pystr :=
  merge_sort str_le (fst <$> raw_arguments).

(** A failed [ToolExecutionResult]: the other fields take their defaults. *)
Definition failed_result (tool_name summary error_code : pystr) : ToolExecutionResult.t :=
  ToolExecutionResult.mk tool_name false summary [] None None None (Some error_code) false.

Abbreviation tool_cache := (gmap pystr ToolExecutionResult.t).

(** [(result, fingerprint, argument_keys)] and the cache after the call. *)
Record tool_call := ToolCallOutcome {
  tc_result : ToolExecutionResult.t;
  tc_fingerprint : pystr;
  tc_keys : list pystr;
  tc_cache : option tool_cache
}.

Definition unknown_tool (name : pystr) : ToolExecutionResult.t :=
  failed_result name "Requested tool is not in the approved tool registry." "unknown_tool".
Definition invalid_arguments (name : pystr) : ToolExecutionResult.t :=
  failed_result name "Tool arguments did not match the approved schema." "invalid_tool_arguments".
Definition unauthorized_tool (name : pystr) : ToolExecutionResult.t :=
  failed_result name "The specialist is not authorized to use the requested tool."
    "unauthorized_tool".

(** The result of each exception clause. *)
Definition failure_result (name : pystr) (e : exn) : ToolExecutionResult.t :=
  match e with
  | OperationTimeoutError =>
      failed_result name "The approved tool exceeded its configured time limit." "tool_timeout"
  | ApplicationError a => failed_result name (public_message a) (error_code a)
  | _ => failed_result name "The approved tool could not complete the request."
           "tool_execution_error"
  end.

(** [json.dumps(_, default=str, ensure_ascii=False, sort_keys=True, separators=(",", ":"))],
    and SHA-256. *)
Class CallHash := {
  canonical_json : pydict → pystr;
  #[global] call_sha :: Sha256
}.

Definition hash_call {CH : CallHash} (payload : pydict) : res pystr :=
  sha256_of (canonical_json payload).

Definition _fingerprint {CH : CallHash} (name : pystr) (arguments : pydict) : res pystr :=
  hash_call [(lit "name", PStr name); (lit "arguments", PDict arguments)].

(** The fingerprint of a rejected call. *)
Definition agent_fingerprint {CH : CallHash} (agent : MultiAgentName.t) (name : pystr)
    (raw_arguments : pydict) : res pystr :=
  hash_call [(lit "agent", PStr (MultiAgentName.value agent)); (lit "name", PStr name);
             (lit "arguments", PDict raw_arguments)].

Section execute.
Context {S : Type} {CH : CallHash}.

Definition run_handler (r : ToolRegistry S) (d : ToolDefinition S) (arguments : td_arguments d) :
    M S ToolExecutionResult.t :=
  match tr_timeout_seconds r with
  | Some t => tr_timeout_runner r (td_handler d arguments) t
  | None => td_handler d arguments
  end.

Definition count_timeout : M RuntimeMetricsRecorder.t unit :=
  modify (λ m, m <| RuntimeMetricsRecorder.timeout_count :=
                      (RuntimeMetricsRecorder.timeout_count m + 1)%Z |>).

Definition on_metrics (r : ToolRegistry S) (op : M RuntimeMetricsRecorder.t unit) : M S unit :=
  match tr_metrics r with Some lift => lift op | None => ret tt end.

(** The [try] statement of [execute]. *)
Definition attempt (r : ToolRegistry S) (name : pystr) (d : ToolDefinition S)
    (arguments : td_arguments d) : M S ToolExecutionResult.t :=
  let* started := tr_perf_counter r in
  try_finally
    (try_except (run_handler r d arguments) (λ e,
       (match e with OperationTimeoutError => on_metrics r count_timeout | _ => ret tt end) ;;;
       ret (failure_result name e)))
    (match tr_metrics r with
     | Some lift =>
         let* now := tr_perf_counter r in
         let* duration := of_res (elapsed_ms started now) in
         lift (record_tool_call duration)
     | None => ret tt
     end).

Definition execute (r : ToolRegistry S) (name : pystr) (raw_arguments : pydict)
    (cache : option tool_cache) : M S tool_call :=
  let keys := argument_keys raw_arguments in
  match find_definition r name with
  | None =>
      let* fingerprint := of_res (_fingerprint name raw_arguments) in
      ret (ToolCallOutcome (unknown_tool name) fingerprint keys cache)
  | Some d =>
      match td_validate d raw_arguments with
      | Raise ValidationError =>
          let* fingerprint := of_res (_fingerprint name raw_arguments) in
          ret (ToolCallOutcome (invalid_arguments name) fingerprint keys cache)
      | Raise e => raise e
      | Ok arguments =>
          let* fingerprint := of_res (_fingerprint name (td_dump d arguments)) in
          match (c ← cache; c !! fingerprint) with
          | Some hit =>
              ret (ToolCallOutcome (hit <| ToolExecutionResult.cached := true |>) fingerprint keys
                     cache)
          | None =>
              let* result := attempt r name d arguments in
              ret (ToolCallOutcome result fingerprint keys (insert fingerprint result <$> cache))
          end
      end
  end.

(** ** Permissions *)

Definition EVIDENCE_TOOL_NAMES : list pystr :=
  lit <$> ["search_knowledge"; "get_knowledge_document"; "search_knowledge_graph"].

Definition _permissions (agent : MultiAgentName.t) : list pystr :=
  match agent with
  | MultiAgentName.EVIDENCE => EVIDENCE_TOOL_NAMES
  | _ => []
  end.

Definition execute_as (agent : MultiAgentName.t) (r : ToolRegistry S) (name : pystr)
    (raw_arguments : pydict) (cache : option tool_cache) : M S tool_call :=
  if mem name (_permissions agent) then execute r name raw_arguments cache
  else
    let* fingerprint := of_res (agent_fingerprint agent name raw_arguments) in
    ret (ToolCallOutcome (unauthorized_tool name) fingerprint (argument_keys raw_arguments) cache).

(** The tools shown to an agent: [schemas_for], by name. *)
Definition schemas_for (agent : MultiAgentName.t) (r : ToolRegistry S) : list (ToolDefinition S) :=
  filter (λ d, td_name d ∈ _permissions agent) (tr_definitions r).
End execute.

(** ** What a tool call guarantees *)

(** A result fit for the trace: a bounded summary, an error code whenever it failed, and
    valid graph metadata. *)
Definition tool_result_ok (x : ToolExecutionResult.t) : Prop :=
  len_in 1 300 (ToolExecutionResult.summary x) = true ∧
  (ToolExecutionResult.success x = false → is_Some (ToolExecutionResult.error_code x)) ∧
  opt_all GraphRetrievalExecutionMetadata.valid (ToolExecutionResult.graph_retrieval x) = true.

Lemma failure_result_ok name e :
  tool_result_ok (failure_result name e) ∧
  ToolExecutionResult.success (failure_result name e) = false ∧
  ToolExecutionResult.tool_name (failure_result name e) = name.
Proof.
  assert (∀ a : app_error, len_in 1 300 (public_message a) = true) as Hm.
  { intros a. by destruct a; vm_compute. }
  destruct e; (split; [split; [first [apply Hm | by vm_compute]|by split; [eexists|]]|done]).
Qed.

Section execute_theorems.
Context {S : Type} {CH : CallHash}.
Context (R : relation S) `{!PreOrder R}.

Abbreviation never := (λ _ : exn, False).
Abbreviation anything := (λ _ : exn, True).

(** What a registry is built from: handlers that stay within the frame, validators that
    only raise [ValidationError], a clock whose differences can be rounded. *)
Record registry_ok (r : ToolRegistry S) : Prop := {
  reg_handlers d : d ∈ tr_definitions r → ∀ raw arguments,
    td_validate d raw = Ok arguments →
    safe R anything (td_handler d arguments) tool_result_ok;
  reg_validators d : d ∈ tr_definitions r → ∀ raw e,
    td_validate d raw = Raise e → e = ValidationError;
  reg_runner m t : safe R anything m tool_result_ok →
    safe R anything (tr_timeout_runner r m t) tool_result_ok;
  reg_clock : ∃ reading : pyfloat → Prop,
    safe R never (tr_perf_counter r) reading ∧
    ∀ a b, reading a → reading b → ∃ n, elapsed_ms a b = Ok n;
  reg_metrics lift : tr_metrics r = Some lift → ∀ op,
    (∀ m, (op m).2 = Ok tt) → safe R never (lift op) (λ _, True)
}.

Definition cache_ok (cache : option tool_cache) : Prop :=
  match cache with Some c => map_Forall (λ _ x, tool_result_ok x) c | None => True end.

Definition call_ok (out : tool_call) : Prop :=
  tool_result_ok (tc_result out) ∧ cache_ok (tc_cache out).

Context (r : ToolRegistry S) (Hr : registry_ok r).

Lemma find_definition_some name d :
  find_definition r name = Some d → d ∈ tr_definitions r ∧ td_name d = name.
Proof.
  unfold find_definition. induction (tr_definitions r) as [|d' l IH]; [done|]. simpl.
  case_bool_decide as Hn; [intros [= ->]; split; [left|done]|].
  intros H. destruct (IH H). split; [by right|done].
Qed.

Lemma metrics_safe op : (∀ m, (op m).2 = Ok tt) → safe R never (on_metrics r op) (λ _, True).
Proof.
  intros Hop. unfold on_metrics. destruct (tr_metrics r) as [lift|] eqn:Hm.
  - by apply (reg_metrics r Hr lift Hm).
  - by apply safe_ret.
Qed.

Lemma attempt_safe name d raw arguments :
  d ∈ tr_definitions r → td_validate d raw = Ok arguments →
  safe R never (attempt r name d arguments) tool_result_ok.
Proof.
  intros Hd Hv. destruct (reg_clock r Hr) as (reading & Hclock & Helapsed). unfold attempt.
  eapply safe_bind; [done|exact Hclock|]. intros started Hs. apply safe_finally; [done| |].
  - eapply safe_try; [done| |].
    + unfold run_handler. destruct (tr_timeout_seconds r); [apply (reg_runner r Hr)|];
        by eapply (reg_handlers r Hr).
    + intros e _. apply safe_bind with (P := λ _, True); [done| |].
      * destruct e; try (by apply safe_ret). by apply metrics_safe.
      * intros _ _. apply safe_ret; [done|]. apply failure_result_ok.
  - destruct (tr_metrics r) as [lift|] eqn:Hm; [|by apply safe_ret].
    eapply safe_bind; [done|exact Hclock|]. intros now Hn.
    apply safe_bind with (P := λ _, True); [done| |].
    + apply safe_of_res; [done|]. destruct (Helapsed started now Hs Hn) as [n ->]. done.
    + intros n _. by apply (reg_metrics r Hr lift Hm).
Qed.

(** A call whose serialization has no UTF-8 encoding cannot be fingerprinted. *)
Definition unencodable (e : exn) : Prop :=
  e = ValueError ∧ ∃ payload, utf8_encodable (canonical_json payload) = false.

Lemma hash_call_safe payload : safe R unencodable (of_res (hash_call payload)) (λ _, True).
Proof.
  apply safe_of_res; [done|]. unfold hash_call, sha256_of.
  destruct (utf8_encodable _) eqn:He; [done|]. split; [done|by exists payload].
Qed.

(** A refused call: only its fingerprint is computed. *)
Lemma refuse_safe payload x keys cache :
  tool_result_ok x → cache_ok cache →
  safe R unencodable (let* f := of_res (hash_call payload) in ret (ToolCallOutcome x f keys cache))
    call_ok.
Proof.
  intros Hx Hc. eapply safe_bind; [done|apply hash_call_safe|]. intros f _.
  by apply safe_ret; [done|split].
Qed.

Lemma execute_safe name raw cache :
  cache_ok cache → safe R unencodable (execute r name raw cache) call_ok.
Proof.
  intros Hc. unfold execute. destruct (find_definition r name) as [d|] eqn:Hd.
  2: { apply refuse_safe; [|done]. split; [done|]. by split; [eexists|]. }
  apply find_definition_some in Hd as [Hd _].
  destruct (td_validate d raw) as [arguments|e] eqn:Hv.
  2: { apply (reg_validators r Hr d Hd) in Hv as ->. apply refuse_safe; [|done].
       split; [done|]. by split; [eexists|]. }
  eapply safe_bind; [done|apply hash_call_safe|]. intros f _.
  destruct (c ← cache; c !! _) as [hit|] eqn:Hhit.
  - apply safe_ret; [done|]. split; [|done]. destruct cache as [c|]; [|done].
    simpl in Hhit. by destruct (Hc _ _ Hhit).
  - eapply safe_bind; [done|by eapply safe_mono; [eapply attempt_safe|done|]|]. intros x Hx.
    apply safe_ret; [done|].
    split; [done|]. destruct cache as [c|]; [|done]. simpl. by apply map_Forall_insert_2.
Qed.

Lemma execute_as_contained agent name raw cache :
  cache_ok cache → safe R unencodable (execute_as agent r name raw cache) call_ok.
Proof.
  intros Hc. unfold execute_as. destruct (mem name (_permissions agent)); [by apply execute_safe|].
  apply refuse_safe; [|done]. split; [done|]. by split; [eexists|].
Qed.

(** The error code of a handler's failure. *)
Definition failure_code (e : exn) : pystr :=
  match e with
  | OperationTimeoutError => "tool_timeout"
  | ApplicationError a => error_code a
  | _ => "tool_execution_error"
  end.

(** A failed call: no success, the code, and nothing the tool observed. *)
Definition failed_with (name code : pystr) (x : ToolExecutionResult.t) : Prop :=
  ∃ summary, x = ToolExecutionResult.mk name false summary [] None None None (Some code) false.

(** Exactly one run of the handler from [s] to [s'], surrounded by the clock and the metrics:
    what it returned is the result, what it raised the failed result of its code. *)
Definition ran_once (d : ToolDefinition S) (name : pystr) (arguments : td_arguments d) (s s' : S)
    (x : ToolExecutionResult.t) : Prop :=
  ∃ s1 s2 result, R s s1 ∧ run_handler r d arguments s1 = (s2, result) ∧ R s2 s' ∧
    match result with Ok y => x = y | Raise e => failed_with name (failure_code e) x end.

Lemma attempt_ran_once name d raw arguments s :
  d ∈ tr_definitions r → td_validate d raw = Ok arguments →
  wp (attempt r name d arguments)
    (λ s' res, ∃ x, res = Ok x ∧ ran_once d name arguments s s' x) s.
Proof.
  intros Hd Hv. destruct (reg_clock r Hr) as (reading & Hclock & Helapsed). unfold attempt.
  apply wp_bind. eapply wp_mono; [apply Hclock|]. intros s1 [started|e] [Hs1 Hst]; [|done].
  set (final := match tr_metrics r with Some _ => _ | None => _ end).
  assert (safe R never final (λ _, True)) as Hfinal.
  { unfold final. destruct (tr_metrics r) as [lift|] eqn:Hm; [|by apply safe_ret].
    eapply safe_bind; [done|exact Hclock|]. intros now Hn.
    apply safe_bind with (P := λ _, True); [done| |].
    + apply safe_of_res; [done|]. by destruct (Helapsed started now Hst Hn) as [n ->].
    + intros n _. by apply (reg_metrics r Hr lift Hm). }
  unfold wp, try_finally, try_except. destruct (run_handler r d arguments s1) as [s2 [y|e]] eqn:Hrun.
  - specialize (Hfinal s2). unfold wp in Hfinal. destruct (final s2) as [s3 [[]|e]]; [|by destruct Hfinal].
    exists y. split; [done|]. exists s1, s2, (Ok y). by destruct Hfinal.
  - assert (∃ s3, R s2 s3 ∧ (((match e with OperationTimeoutError => on_metrics r count_timeout
       | _ => ret tt end) : M S unit) ;;; ret (failure_result name e)) s2 =
       (s3, Ok (failure_result name e))) as (s3 & Hs3 & ->).
    { destruct e; try by exists s2. pose proof (metrics_safe count_timeout (λ _, eq_refl) s2) as Hc.
      unfold wp, bind, ret in *. destruct (on_metrics r count_timeout s2) as [s3 [[]|e]];
        [|by destruct Hc]. by exists s3; destruct Hc. }
    specialize (Hfinal s3). unfold wp in Hfinal. destruct (final s3) as [s4 [[]|e']]; [|by destruct Hfinal].
    exists (failure_result name e). split; [done|]. exists s1, s2, (Raise e).
    split_and!; try done; [by transitivity s3; destruct Hfinal|]. by destruct e; eexists.
Qed.

(** What a call does, case by case: it is refused - nothing runs, and neither the state nor
    the cache changes - for an agent without permission, for an unknown tool and for
    arguments the schema rejects; a cached result is returned, marked; otherwise the
    handler runs exactly once, and its result is cached and returned. *)
Definition call_explained (agent : MultiAgentName.t) (name : pystr) (raw : pydict)
    (cache : option tool_cache) (s s' : S) (out : tool_call) : Prop :=
  let refused payload code :=
    s' = s ∧ failed_with name code (tc_result out) ∧ tc_cache out = cache ∧
    hash_call payload = Ok (tc_fingerprint out) in
  let call arguments := [(lit "name", PStr name); (lit "arguments", PDict arguments)] in
  tc_keys out = argument_keys raw ∧
  if negb (mem name (_permissions agent)) then
    refused [(lit "agent", PStr (MultiAgentName.value agent)); (lit "name", PStr name);
             (lit "arguments", PDict raw)] "unauthorized_tool"
  else
    match find_definition r name with
    | None => refused (call raw) "unknown_tool"
    | Some d =>
        match td_validate d raw with
        | Raise _ => refused (call raw) "invalid_tool_arguments"
        | Ok arguments =>
            hash_call (call (td_dump d arguments)) = Ok (tc_fingerprint out) ∧
            match (c ← cache; c !! tc_fingerprint out) with
            | Some hit =>
                s' = s ∧ tc_cache out = cache ∧
                tc_result out = hit <| ToolExecutionResult.cached := true |>
            | None =>
                tc_cache out = insert (tc_fingerprint out) (tc_result out) <$> cache ∧
                ran_once d name arguments s s' (tc_result out)
            end
        end
    end.

Lemma refuse_explained payload x keys cache (s : S) :
  wp (let* f := of_res (hash_call payload) in ret (ToolCallOutcome x f keys cache)) (λ s' res, s' = s ∧
    match res with
    | Ok out => out = ToolCallOutcome x (tc_fingerprint out) keys cache ∧
                hash_call payload = Ok (tc_fingerprint out)
    | Raise e => e = ValueError
    end) s.
Proof. unfold wp, hash_call, sha256_of, bind, of_res. by destruct (utf8_encodable _). Qed.

Lemma hash_call_raises payload e : hash_call payload = Raise e → e = ValueError.
Proof. unfold hash_call, sha256_of. destruct (utf8_encodable _); [done|by intros [= <-]]. Qed.

Lemma execute_as_explained agent name raw cache s :
  wp (execute_as agent r name raw cache) (λ s' res,
    match res with
    | Ok out => call_explained agent name raw cache s s' out
    | Raise e => s' = s ∧ e = ValueError
    end) s.
Proof.
  assert (∀ payload code x, failed_with name code x →
    wp (let* f := of_res (hash_call payload) in ret (ToolCallOutcome x f (argument_keys raw) cache))
      (λ s' res, match res with
       | Ok out => tc_keys out = argument_keys raw ∧ s' = s ∧ failed_with name code (tc_result out) ∧
                   tc_cache out = cache ∧ hash_call payload = Ok (tc_fingerprint out)
       | Raise e => s' = s ∧ e = ValueError
       end) s) as Hrefuse.
  { intros payload code x Hx. eapply wp_mono; [apply refuse_explained|].
    intros s' [out|e] [-> H]; [|done]. destruct H as [-> H]. by split_and!. }
  unfold execute_as, call_explained. destruct (mem name (_permissions agent)) eqn:Hm; cbn [negb].
  2: { apply Hrefuse. by eexists. }
  unfold execute. destruct (find_definition r name) as [d|] eqn:Hd.
  2: { apply Hrefuse. by eexists. }
  apply find_definition_some in Hd as [Hd _].
  destruct (td_validate d raw) as [arguments|e] eqn:Hv.
  2: { pose proof (reg_validators r Hr d Hd _ _ Hv) as ->. apply Hrefuse. by eexists. }
  unfold _fingerprint. set (payload := [_; _]).
  destruct (hash_call payload) as [f|e] eqn:Hf; [|by apply hash_call_raises in Hf as ->].
  apply wp_bind. unfold wp at 1. cbn [of_res fst snd].
  destruct (c ← cache; c !! f) as [hit|] eqn:Hhit.
  - apply wp_ret. simpl. rewrite Hhit. by split_and!.
  - apply wp_bind. eapply wp_mono; [by eapply attempt_ran_once|].
    intros s' res (x & -> & Hx). apply wp_ret. simpl. rewrite Hhit. by split_and!.
Qed.


(** Repeating a call is free: once a call has been made with a cache, the same call
    on the resulting cache runs nothing, whatever the state is by then, and returns the
    same result - marked as cached if a tool was run for it - and the same cache. *)
Theorem repeated_call_cached name raw c s s' out s2 :
  execute r name raw (Some c) s = (s', Ok out) →
  ∃ out2, execute r name raw (tc_cache out) s2 = (s2, Ok out2) ∧
    (tc_result out2) <| ToolExecutionResult.cached := true |> =
      (tc_result out) <| ToolExecutionResult.cached := true |> ∧
    (∀ d arguments, find_definition r name = Some d → td_validate d raw = Ok arguments →
       ToolExecutionResult.cached (tc_result out2) = true) ∧
    tc_fingerprint out2 = tc_fingerprint out ∧ tc_cache out2 = tc_cache out.
Proof.
  unfold execute. destruct (find_definition r name) as [d|].
  2: { rewrite bind_of_res. destruct (_fingerprint name raw); [|done].
       intros [= <- <-]. by eexists. }
  destruct (td_validate d raw) as [arguments|e] eqn:Hv.
  2: { destruct e; try discriminate. rewrite bind_of_res. destruct (_fingerprint name raw); [|done].
       intros [= <- <-]. eexists. split; [reflexivity|].
       split_and!; try done. intros d0 a0 [= <-] Hv'. rewrite Hv in Hv'. discriminate. }
  rewrite bind_of_res. destruct (_fingerprint name (td_dump d arguments)) as [f|]; [|done].
  simpl. destruct (c !! _) as [hit|] eqn:Hhit.
  - intros [= <- <-]. simpl. eexists.
    split; [rewrite bind_of_res; simpl; rewrite Hhit; reflexivity|]. simpl. by destruct hit.
  - unfold bind at 1. destruct (attempt r name d arguments s) as [s1 [x|e]]; [|done].
    intros [= <- <-]. eexists.
    split; [rewrite bind_of_res; simpl; rewrite lookup_insert_eq; reflexivity|]. simpl. by destruct x.
Qed.
End execute_theorems.

(** *** A registry with one tool, which counts its runs *)

Definition demo_tool_result : ToolExecutionResult.t :=
  ToolExecutionResult.mk "search_knowledge" true "Found one source." [] None None None None false.
Definition demo_tool : ToolDefinition nat :=
  MkToolDefinition "search_knowledge" "Search." pydict
    (λ raw, match raw with [] => Raise ValidationError | _ => Ok raw end) id
    (λ _ runs, (S runs, Ok demo_tool_result)).
(** A tool whose store is away. *)
Definition broken_tool : ToolDefinition nat :=
  MkToolDefinition "get_knowledge_document" "Read." pydict Ok id
    (λ _ runs, (S runs, Raise (ApplicationError KnowledgeStoreUnavailableError))).
Definition demo_tools : ToolRegistry nat :=
  MkToolRegistry [demo_tool; broken_tool] None (λ m _, m) None (ret f64_one).
(** A toy hash that keeps the top-level strings, in place of JSON and SHA-256. *)
#[export] Instance demo_hash : CallHash := {|
  canonical_json payload :=
    let text := concat ((λ kv, match kv.2 with
                               | PStr s => s
                               | PDict d => concat (fst <$> d)
                               | _ => []
                               end) <$> payload) in
    if utf8_encodable text then text else [];
  call_sha := id
|}.
Lemma demo_hash_total e : ¬ unencodable e.
Proof.
  intros [_ [payload Hp]]. simpl in Hp.
  by destruct (utf8_encodable (concat _)) eqn:He in Hp; rewrite ?He in Hp.
Qed.
Definition demo_arguments : pydict := [(lit "query", PStr "data residency")].

Lemma demo_tools_ok : registry_ok le demo_tools.
Proof.
  split; try done.
  - intros d [->|[->|[]%not_elem_of_nil]%elem_of_cons]%elem_of_cons raw arguments _ s;
      (split; [|done]); simpl; lia.
  - intros d [->|[->|[]%not_elem_of_nil]%elem_of_cons]%elem_of_cons raw e;
      [destruct raw; [by intros [= <-]|done]|done].
  - exists (eq f64_one). split; [by apply safe_ret; [apply _|]|]. intros a b <- <-.
    eexists. vm_compute. reflexivity.
Qed.


Lemma repeated_call_cached_witness :
  ∃ out out2, execute demo_tools "search_knowledge" demo_arguments (Some ∅) 0%nat
    = (1%nat, Ok out) ∧
  execute demo_tools "search_knowledge" demo_arguments (tc_cache out) 1%nat
    = (1%nat, Ok out2) ∧ ToolExecutionResult.cached (tc_result out2) = true.
Proof.
  eexists.
  destruct (repeated_call_cached demo_tools
    (lit "search_knowledge") demo_arguments ∅ 0%nat 1%nat
    (ToolCallOutcome demo_tool_result (lit "search_knowledgequery")
       [lit "query"] (Some {[lit "search_knowledgequery" := demo_tool_result]})) 1%nat)
    as (out2 & Hrun & _ & Hcached & _).
  { vm_compute. reflexivity. }
  exists out2. split; [|split; [exact Hrun|]].
  - vm_compute. reflexivity.
  - apply (Hcached demo_tool demo_arguments); reflexivity.
Defined.
