(* ===== verification/JsonText.v ===== *)
(** [json.dumps(_, ensure_ascii=False, indent=2, sort_keys=True)] on every value a model dump
    or a metadata dictionary holds, [repr] of floats included.  No line of the text but the
    first starts with a letter [E], so a delimiter line cannot be forged. *)
From S2P Require Import Prelude PyFloat Errors Domain AgentModels Schemas Prompts PyText.
From S2P Require Import RuntimeModels Session Storage Telemetry Assessments Tools.
From Stdlib Require Import Floats.SpecFloat.

(** ** [repr] of a float

    The shortest decimal that is read back as the same float, the nearest one when several
    have that length; positional for exponents from -4 to 15, scientific outside. *)

(** [D / 10^k] is read back as [m * 2^e]: it lies in the interval of the reals rounded there,
    bounds included when the significand is even. *)
Definition reads_back (m : positive) (e D k : Z) : bool :=
  let low := (4 * Z.pos m - (if Z.eqb (Z.pos m) (2 ^ 52) && negb (Z.eqb e (-1074)) then 1 else 2))%Z in
  let high := (4 * Z.pos m + 2)%Z in
  let scaled b := (b * 2 ^ Z.max (e - 2) 0 * 10 ^ Z.max k 0)%Z in
  let d := (D * 10 ^ Z.max (- k) 0 * 2 ^ Z.max (2 - e) 0)%Z in
  if Z.even (Z.pos m) then Z.leb (scaled low) d && Z.leb d (scaled high)
  else Z.ltb (scaled low) d && Z.ltb d (scaled high).

(** The number of digits before the decimal point of [num / den]. *)
Fixpoint decimal_point (fuel : nat) (num den p : Z) : Z :=
  match fuel with
  | O => p
  | S fuel =>
      if Z.leb (den * 10 ^ Z.max p 0) (num * 10 ^ Z.max (- p) 0)
      then decimal_point fuel num den (p + 1) else p
  end.

(** The digits with [n] significant ones: the nearest of the two candidates that are read
    back. *)
Definition candidate (m : positive) (e num den p n : Z) : option (Z * Z) :=
  let k := (n - p)%Z in
  let a := (num * 10 ^ Z.max k 0)%Z in
  let b := (den * 10 ^ Z.max (- k) 0)%Z in
  let low := (a / b)%Z in
  let twice := (2 * (a mod b))%Z in
  let near := if Z.ltb b twice || (Z.eqb b twice && Z.odd low) then (low + 1)%Z else low in
  let far := (2 * low + 1 - near)%Z in
  if reads_back m e near k then Some (near, k)
  else if negb (Z.eqb (a mod b) 0) && reads_back m e far k then Some (far, k)
  else None.
Fixpoint shortest (fuel : nat) (m : positive) (e num den p n : Z) : Z * Z :=
  match fuel with
  | O => (0, 0)%Z
  | S fuel =>
      match candidate m e num den p n with
      | Some d => d
      | None => shortest fuel m e num den p (n + 1)
      end
  end.

Fixpoint strip_zeros (fuel : nat) (D k : Z) : Z * Z :=
  match fuel with
  | O => (D, k)
  | S fuel =>
      if Z.eqb (D mod 10) 0 && Z.ltb 0 D then strip_zeros fuel (D / 10) (k - 1) else (D, k)
  end.

(** The digits [D] and their scale [k], laid out. *)
Definition layout (D k : Z) : pystr :=
  let digits := str_nonneg D in
  let n := Z.of_nat (length digits) in
  let point := (n - k)%Z in
  if Z.ltb (-4) point && Z.leb point 16 then
    if Z.leb point 0 then lit "0." ++ replicate (Z.to_nat (- point)) 48%Z ++ digits
    else if Z.leb n point then digits ++ replicate (Z.to_nat (point - n)) 48%Z ++ lit ".0"
    else take (Z.to_nat point) digits ++ lit "." ++ drop (Z.to_nat point) digits
  else
    let exponent := (point - 1)%Z in
    take 1 digits ++ (if Z.ltb 1 n then lit "." ++ drop 1 digits else []) ++
    (if Z.ltb exponent 0 then lit "e-" else lit "e+") ++
    (let text := str_nonneg (Z.abs exponent) in replicate (2 - length text) 48%Z ++ text).

Definition repr_finite (m : positive) (e : Z) : pystr :=
  let num := (Z.pos m * 2 ^ Z.max e 0)%Z in
  let den := (2 ^ Z.max (- e) 0)%Z in
  let p := decimal_point 1024 num den (((Z.log2 (Z.pos m) + e) * 30103) / 100000 - 1) in
  let '(D, k) := shortest 17 m e num den p 1 in
  let '(D, k) := strip_zeros 20 D k in
  layout D k.

(** [float.__repr__] as [json.dumps] writes it. *)
Definition json_float (x : pyfloat) : pystr :=
  match x with
  | S754_zero neg => (if neg then [45%Z] else []) ++ lit "0.0"
  | S754_infinity neg => (if neg then [45%Z] else []) ++ lit "Infinity"
  | S754_nan => lit "NaN"
  | S754_finite neg m e => (if neg then [45%Z] else []) ++ repr_finite m e
  end.

Example repr_samples :
  json_float <$> [fdiv f64_one (float_of_Z 10); fdiv f64_one (float_of_Z 3); float_of_Z 1;
                  float_of_Z (-1234567); fdiv (float_of_Z 5) (float_of_Z 100000);
                  fmul (float_of_Z (10 ^ 15)) (float_of_Z 10); float_of_Z (10 ^ 16);
                  fdiv (float_of_Z 2) (float_of_Z 3); float_of_Z (2 ^ 53);
                  fdiv (float_of_Z 123) (float_of_Z 100)] =
  lit <$> ["0.1"; "0.3333333333333333"; "1.0"; "-1234567.0"; "5e-05"; "1e+16"; "1e+16";
           "0.6666666666666666"; "9007199254740992.0"; "1.23"].
Proof. vm_compute. reflexivity. Qed.
Example repr_integer : json_float (S754_finite false (2 ^ 52) 0) = lit "4503599627370496.0".
Proof. vm_compute. reflexivity. Qed.

(** ** Values *)

(** The items of a dictionary, sorted by key. *)
Definition item_le : relation (pystr * pystr) := λ a b, str_le a.1 b.1.
#[export] Instance item_le_dec : RelDecision item_le.
Proof. intros a b. unfold item_le. apply _. Defined.

Fixpoint json_text (level : nat) (v : pyval) : pystr :=
  match v with
  | PNone => "null"
  | PBool b => if b then "true" else "false"
  | PInt n => str_int n
  | PFloat x => json_float x
  | PStr s => json_string s
  | PList l => json_block level 91 93 (map (json_text (S level)) l)
  | PDict d =>
      json_block level 123 125
        ((λ kv, json_string kv.1 ++ lit ": " ++ kv.2) <$>
         merge_sort item_le (map (λ kv, (kv.1, json_text (S level) kv.2)) d))
  end.

Example json_sorted :
  json_text 0 (PDict [(lit "b", PList [PInt 1; PNone]); (lit "a", PFloat f64_one)]) =
  lit "{" ++ json_newline 1 ++ json_string "a" ++ lit ": 1.0," ++ json_newline 1 ++ json_string "b" ++ lit ": [" ++
  json_newline 2 ++ lit "1," ++ json_newline 2 ++ lit "null" ++ json_newline 1 ++ lit "]" ++
  json_newline 0 ++ lit "}".
Proof. vm_compute. reflexivity. Qed.

(** ** Line breaks *)

(** Neither a line break nor a letter [E]. *)
Definition plain (c : Z) : Prop := c ≠ 10%Z ∧ c ≠ 69%Z.
#[local] Instance plain_dec c : Decision (plain c).
Proof. unfold plain. apply _. Defined.

Lemma plain_safe s : Forall plain s → s ≠ [] → json_safe s.
Proof.
  intros Hs Hne. split.
  - apply breaks_ok_no_newline. eapply Forall_impl; [exact Hs|]. by intros c [? _].
  - destruct s as [|c s]; [done|]. apply Forall_cons in Hs as [[_ Hc] _]. by eexists _, _.
Qed.

Lemma plain_text s : forallb (λ c, bool_decide (plain c)) s = true → Forall plain s.
Proof.
  rewrite forallb_forall. intros H. apply Forall_forall. intros c Hc.
  apply (bool_decide_eq_true_1 (plain c)), H. by apply list_elem_of_In.
Qed.

Lemma digits_rev_plain fuel n : (0 ≤ n)%Z → Forall plain (digits_rev fuel n).
Proof.
  revert n. induction fuel as [|fuel IH]; intros n Hn; simpl; [constructor|].
  destruct (Z.ltb_spec n 10); constructor; try (unfold plain; lia); [constructor| |].
  - pose proof (Z.mod_pos_bound n 10 ltac:(lia)). unfold plain. lia.
  - apply IH. by apply Z.div_pos.
Qed.

Lemma str_nonneg_plain n : (0 ≤ n)%Z → Forall plain (str_nonneg n).
Proof. intros Hn. unfold str_nonneg. by apply Forall_reverse, digits_rev_plain. Qed.
Lemma str_nonneg_nonempty n : str_nonneg n ≠ [].
Proof.
  unfold str_nonneg. cbn [digits_rev]. intros H. apply (f_equal length) in H.
  rewrite length_reverse in H. by destruct (Z.ltb n 10).
Qed.

Lemma str_int_plain n : Forall plain (str_int n).
Proof.
  unfold str_int. destruct (Z.ltb_spec n 0); [|by apply str_nonneg_plain].
  constructor; [by unfold plain|]. apply str_nonneg_plain. lia.
Qed.
Lemma str_int_safe n : json_safe (str_int n).
Proof.
  apply plain_safe; [apply str_int_plain|]. unfold str_int.
  destruct (Z.ltb n 0); [done|apply str_nonneg_nonempty].
Qed.

Lemma layout_plain D k : (0 ≤ D)%Z → Forall plain (layout D k) ∧ layout D k ≠ [].
Proof.
  intros HD. pose proof (str_nonneg_plain D HD) as Hd. pose proof (str_nonneg_nonempty D) as Hne.
  assert (∀ n, Forall plain (replicate n 48%Z)) as Hz by (intros; by apply Forall_replicate).
  assert (∀ s : string, forallb (λ c, bool_decide (plain c)) (lit s) = true → Forall plain (lit s)) as Ht
    by (intros; by apply plain_text).
  unfold layout. repeat case_match; split;
    rewrite ?Forall_app; split_and?; auto using Forall_take, Forall_drop;
    try (by apply Ht); try (by apply str_nonneg_plain; lia);
    try (by destruct (str_nonneg D)); try (intros [? ?]%app_eq_nil; done).
Qed.

Lemma candidate_nonneg m e num den p n D k :
  (0 ≤ num)%Z → (0 < den)%Z → candidate m e num den p n = Some (D, k) → (0 ≤ D)%Z.
Proof.
  intros Hn Hd. unfold candidate.
  set (a := (num * _)%Z). set (b := (den * _)%Z).
  assert (0 ≤ a)%Z by (subst a; apply Z.mul_nonneg_nonneg; [done|apply Z.pow_nonneg; lia]).
  assert (0 < b)%Z by (subst b; apply Z.mul_pos_pos; [done|apply Z.pow_pos_nonneg; lia]).
  assert (0 ≤ a / b)%Z by (apply Z.div_pos; lia).
  destruct (reads_back _ _ _ _); [|destruct (_ && _); [|done]]; intros [= <- _];
    repeat case_match; lia.
Qed.

Lemma shortest_nonneg fuel m e num den p n :
  (0 ≤ num)%Z → (0 < den)%Z → (0 ≤ (shortest fuel m e num den p n).1)%Z.
Proof.
  intros Hn Hd. revert n. induction fuel as [|fuel IH]; intros n; simpl; [lia|].
  destruct (candidate m e num den p n) as [[D k]|] eqn:Hc; [|apply IH].
  by apply candidate_nonneg in Hc.
Qed.

Lemma strip_zeros_nonneg fuel D k : (0 ≤ D)%Z → (0 ≤ (strip_zeros fuel D k).1)%Z.
Proof.
  revert D k. induction fuel as [|fuel IH]; intros D k HD; simpl; [done|].
  destruct (_ && _); [|done]. apply IH. by apply Z.div_pos.
Qed.

Lemma json_float_spec x : Forall plain (json_float x) ∧ json_float x ≠ [].
Proof.
  destruct x as [neg|neg| |neg m e]; 
    try (split; [apply plain_text; by try destruct neg|by try destruct neg]).
  simpl. unfold repr_finite.
  set (num := (Z.pos m * 2 ^ Z.max e 0)%Z). set (den := (2 ^ Z.max (- e) 0)%Z).
  pose proof (shortest_nonneg 17 m e num den
    (decimal_point 1024 num den (((Z.log2 (Z.pos m) + e) * 30103) / 100000 - 1)) 1) as H.
  destruct (shortest _ _ _ _ _ _ _) as [D k]. simpl in H.
  pose proof (strip_zeros_nonneg 20 D k) as H2. destruct (strip_zeros 20 D k) as [D' k']. simpl in H2.
  destruct (layout_plain D' k') as [Hp Hne].
  { apply H2, H; subst num den; [apply Z.mul_nonneg_nonneg; [lia|]; apply Z.pow_nonneg; lia|].
    apply Z.pow_pos_nonneg; lia. }
  split; [|destruct neg; [done|exact Hne]].
  destruct neg; [by constructor; [unfold plain; lia|]|done].
Qed.

Lemma json_float_plain x : Forall plain (json_float x).
Proof. apply json_float_spec. Qed.
Lemma json_float_safe x : json_safe (json_float x).
Proof. apply plain_safe; apply json_float_spec. Qed.

(** Induction on values. *)
Section pyval_ind.
Context (P : pyval → Prop).
Context (HNone : P PNone) (HBool : ∀ b, P (PBool b)) (HInt : ∀ n, P (PInt n)).
Context (HFloat : ∀ x, P (PFloat x)) (HStr : ∀ s, P (PStr s)).
Context (HList : ∀ l, Forall P l → P (PList l)) (HDict : ∀ d, Forall (λ kv, P kv.2) d → P (PDict d)).
Fixpoint pyval_nested_ind (v : pyval) : P v :=
  match v with
  | PNone => HNone
  | PBool b => HBool b
  | PInt n => HInt n
  | PFloat x => HFloat x
  | PStr s => HStr s
  | PList l =>
      HList l ((fix all (l : list pyval) : Forall P l :=
        match l with
        | [] => Forall_nil_2 P
        | x :: l' => Forall_cons_2 P x l' (pyval_nested_ind x) (all l')
        end) l)
  | PDict d =>
      HDict d ((fix all (d : list (pystr * pyval)) : Forall (λ kv, P kv.2) d :=
        match d with
        | [] => Forall_nil_2 _
        | kv :: d' => Forall_cons_2 (λ kv, P kv.2) kv d' (pyval_nested_ind kv.2) (all d')
        end) d)
  end.
End pyval_ind.

Lemma json_block_safe level opening closing items :
  opening ≠ 69%Z → opening ≠ 10%Z → closing ≠ 69%Z → closing ≠ 10%Z → Forall json_safe items →
  json_safe (json_block level opening closing items).
Proof.
  intros H1 H2 H3 H4 Hall. unfold json_block. destruct items as [|x items].
  - by apply plain_safe; [repeat constructor|].
  - split; [|by eexists _, _].
    change (breaks_ok ([opening] ++ (json_newline (S level) ++
      str_join (lit "," ++ json_newline (S level)) (x :: items) ++ json_newline level ++ [closing]))
      = true).
    apply breaks_ok_app; [by apply breaks_ok_no_newline; repeat constructor|].
    apply join_items_breaks; [done|done| |by eexists _, _].
    by apply breaks_ok_no_newline; repeat constructor.
Qed.

Lemma json_text_safe v level : json_safe (json_text level v).
Proof.
  revert level. induction v using pyval_nested_ind; intros level; simpl.
  - by apply plain_safe; [apply plain_text|].
  - by destruct b; (apply plain_safe; [apply plain_text|]).
  - apply str_int_safe.
  - apply json_float_safe.
  - apply json_string_safe.
  - apply json_block_safe; try done. apply Forall_map. eapply Forall_impl; [exact H|]. by intros v Hv.
  - apply json_block_safe; try done. apply Forall_fmap.
    apply Forall_forall. intros kv Hkv. rewrite (merge_sort_Permutation item_le) in Hkv.
    apply list_elem_of_fmap in Hkv as (kv' & -> & Hin). rewrite Forall_forall in H.
    destruct (H kv' Hin (S level)) as [Hb _]. split; [|by eexists _, _]. simpl.
    apply (breaks_ok_app (json_string kv'.1)); [apply json_string_breaks|].
    by apply (breaks_ok_app (lit ": ")); [|exact Hb].
Qed.
