(* ===== verification/AgentGraph.v ===== *)
(** app/graph/state.py, nodes.py, routing.py and workflow.py: the bounded single-agent
    workflow.

    The graph library runs one node per superstep, merges the returned dictionary into the
    state (no key has a reducer, so a key is overwritten) and raises [GraphRecursionError]
    when the recursion limit is spent before the end: [run_graph]. *)
From S2P Require Import Prelude PyFloat Errors Domain AgentModels Schemas RuntimeModels.
From S2P Require Import Session Storage Telemetry Assessments Tools.

(** ** State *)

Module AssessmentGraphState.
Record t := mk {
  assessment_id : uuid;
  request : AssessmentRequest.t;
  retrieved_evidence : list RetrievedEvidence.t;
  observed_documents : list ObservedKnowledgeDocument.t;
  tool_history : list ToolHistoryEntry.t;
  tool_cache : gmap pystr ToolExecutionResult.t;
  pending_tool_name : option pystr;
  pending_tool_arguments : pydict;
  next_action : AgentDecisionType.t;
  step : Z;
  max_steps : Z;
  tool_calls_used : Z;
  max_tool_calls : Z;
  final_result : option AssessmentResult.t;
  termination_reason : option AgentTerminationReason.t;
  error : option pystr;
  trace : list AgentTraceEvent.t
}.
#[export] Instance eta : Eta t := λ r, mk (assessment_id r) (request r) (retrieved_evidence r)
  (observed_documents r) (tool_history r) (tool_cache r) (pending_tool_name r)
  (pending_tool_arguments r) (next_action r) (step r) (max_steps r) (tool_calls_used r)
  (max_tool_calls r) (final_result r) (termination_reason r) (error r) (trace r).
End AssessmentGraphState.
#[export] Existing Instance AssessmentGraphState.eta.
Abbreviation gstate := AssessmentGraphState.t.

Definition initialize_assessment_state (assessment_id : uuid) (request : AssessmentRequest.t)
    (max_steps max_tool_calls : Z) : res gstate :=
  if Z.ltb max_steps 1 || Z.ltb max_tool_calls 1 then Raise ValueError
  else Ok (AssessmentGraphState.mk assessment_id request [] [] [] ∅ None []
             AgentDecisionType.SYNTHESIZE 0 max_steps 0 max_tool_calls None None None []).

(** ** Nodes *)

Section nodes.
Context {S : Type}.
Import AssessmentGraphState.

(** The [AssessmentAgent] protocol, and [datetime.now(UTC)]. *)
Record agent := Agent {
  ag_decide : gstate → Z → list (ToolDefinition S) → M S AgentDecision.t;
  ag_synthesize : AssessmentRequest.t → list RetrievedEvidence.t →
    list ObservedKnowledgeDocument.t → M S AssessmentResult.t;
  ag_now : M S datetime
}.

Context (ag : agent) (tools : ToolRegistry S) {CH : CallHash}.

Definition _event (step : Z) (event_type : AgentTraceEventType.t) (summary : pystr)
    (tool_name tool_status : option pystr) (termination : option AgentTerminationReason.t) :
    M S AgentTraceEvent.t :=
  let* now := ag_now ag in
  of_res (AgentTraceEvent.construct
    (AgentTraceEvent.mk step event_type now summary tool_name tool_status termination)).

(** [reason]; [decide] is given the state's fields and the incremented step. *)
Definition reason (st : gstate) : M S gstate :=
  if Z.leb (max_steps st) (step st) then
    let* event := _event (step st) AgentTraceEventType.MAX_STEPS_REACHED
      "The configured reasoning-step limit was reached." None None
      (Some AgentTerminationReason.MAX_STEPS_REACHED) in
    ret (st <| next_action := AgentDecisionType.SYNTHESIZE |>
            <| termination_reason := Some AgentTerminationReason.MAX_STEPS_REACHED |>
            <| trace := trace st ++ [event] |>)
  else if Z.leb (max_tool_calls st) (tool_calls_used st) then
    let* event := _event (step st) AgentTraceEventType.MAX_TOOL_CALLS_REACHED
      "The configured tool-call limit was reached." None None
      (Some AgentTerminationReason.MAX_TOOL_CALLS_REACHED) in
    ret (st <| next_action := AgentDecisionType.SYNTHESIZE |>
            <| termination_reason := Some AgentTerminationReason.MAX_TOOL_CALLS_REACHED |>
            <| trace := trace st ++ [event] |>)
  else
    let step' := (step st + 1)%Z in
    let* started := _event step' AgentTraceEventType.REASONING_STARTED
      "The agent evaluated whether more approved evidence was needed." None None None in
    let* decision := ag_decide ag st step' (tr_definitions tools) in
    let st' := st <| step := step' |>
                  <| next_action := AgentDecision.action decision |>
                  <| pending_tool_name := None |>
                  <| pending_tool_arguments := [] |>
                  <| trace := trace st ++ [started] |> in
    match AgentDecision.action decision, AgentDecision.tool_request decision with
    | AgentDecisionType.TOOL, Some tool_request =>
        let* requested := _event step' AgentTraceEventType.TOOL_REQUESTED
          "The agent requested one approved read-only tool."
          (Some (AgentToolRequest.name tool_request)) None None in
        ret (st' <| pending_tool_name := Some (AgentToolRequest.name tool_request) |>
                 <| pending_tool_arguments := AgentToolRequest.arguments tool_request |>
                 <| trace := trace st' ++ [requested] |>)
    | AgentDecisionType.SYNTHESIZE, _ =>
        ret (st' <| termination_reason := Some AgentTerminationReason.AGENT_STOPPED |>)
    | AgentDecisionType.FAIL, _ =>
        ret (st' <| termination_reason := Some AgentTerminationReason.FAILED |>)
    | AgentDecisionType.TOOL, None => ret st'
    end.

(** The dictionary of the known items, then [setdefault] of the new ones. *)
Definition merge_by {A K} `{EqDecision K} (key : A → K) (known new : list A) : list A :=
  fold_left (keyed_setdefault key) new (fold_left (keyed_set key) known []).
Definition merge_evidence (known new : list RetrievedEvidence.t) : list RetrievedEvidence.t :=
  merge_by RetrievedEvidence.chunk_id known new.
Definition merge_documents (known : list ObservedKnowledgeDocument.t)
    (new : option ObservedKnowledgeDocument.t) : list ObservedKnowledgeDocument.t :=
  merge_by ObservedKnowledgeDocument.document_id known (option_list new).

Definition tool_status_of (result : ToolExecutionResult.t) : pystr :=
  if ToolExecutionResult.cached result then "cached"
  else if ToolExecutionResult.success result then "completed" else "failed".

Definition execute_tool (st : gstate) : M S gstate :=
  let tool_name := default [] (pending_tool_name st) in
  let* call := execute tools tool_name (pending_tool_arguments st)
    (Some (tool_cache st)) in
  let result := tc_result call in
  let entry := ToolHistoryEntry.mk (step st) tool_name (ToolExecutionResult.success result)
    (ToolExecutionResult.summary result) (tc_keys call) (tc_fingerprint call)
    (ToolExecutionResult.cached result) (ToolExecutionResult.error_code result) None in
  let event_type := if ToolExecutionResult.success result
                    then AgentTraceEventType.TOOL_COMPLETED else AgentTraceEventType.TOOL_FAILED in
  let* event := _event (step st) event_type (ToolExecutionResult.summary result)
    (Some tool_name) (Some (tool_status_of result)) None in
  ret (st <| retrieved_evidence :=
               merge_evidence (retrieved_evidence st) (ToolExecutionResult.evidence result) |>
          <| observed_documents :=
               merge_documents (observed_documents st) (ToolExecutionResult.document result) |>
          <| tool_history := tool_history st ++ [entry] |>
          <| tool_cache := default (tool_cache st) (tc_cache call) |>
          <| tool_calls_used := (tool_calls_used st + 1)%Z |>
          <| pending_tool_name := None |>
          <| pending_tool_arguments := [] |>
          <| trace := trace st ++ [event] |>).

Definition synthesize (st : gstate) : M S gstate :=
  let termination := default AgentTerminationReason.COMPLETED (termination_reason st) in
  let* started := _event (step st) AgentTraceEventType.SYNTHESIS_STARTED
    "Schema-constrained assessment synthesis started." None None None in
  let* result := ag_synthesize ag (request st) (retrieved_evidence st) (observed_documents st) in
  let* completed := _event (step st) AgentTraceEventType.WORKFLOW_COMPLETED
    "The agentic workflow produced a structured assessment." None None (Some termination) in
  ret (st <| final_result := Some result |>
          <| termination_reason := Some termination |>
          <| trace := trace st ++ [started; completed] |>).

Definition fail (st : gstate) : M S gstate :=
  let* event := _event (step st) AgentTraceEventType.WORKFLOW_FAILED
    "The agentic workflow terminated without a final result." None None
    (Some AgentTerminationReason.FAILED) in
  ret (st <| error := Some (lit "agent_terminated_without_result") |>
          <| termination_reason := Some AgentTerminationReason.FAILED |>
          <| trace := trace st ++ [event] |>).

(** ** The graph *)

Inductive node := Reason | ExecuteTool | Synthesize | Fail.

Definition route_after_reason (st : gstate) : node :=
  match next_action st with
  | AgentDecisionType.TOOL => ExecuteTool
  | AgentDecisionType.SYNTHESIZE => Synthesize
  | AgentDecisionType.FAIL => Fail
  end.

(** One superstep: the node, then its outgoing edge ([None] is [END]). *)
Definition superstep (n : node) (st : gstate) : M S (gstate * option node) :=
  match n with
  | Reason => let* st' := reason st in ret (st', Some (route_after_reason st'))
  | ExecuteTool => let* st' := execute_tool st in ret (st', Some Reason)
  | Synthesize => let* st' := synthesize st in ret (st', None)
  | Fail => let* st' := fail st in ret (st', None)
  end.

Fixpoint run_graph (limit : nat) (n : node) (st : gstate) : M S gstate :=
  match limit with
  | O => raise GraphRecursionError
  | Datatypes.S limit =>
      let* out := superstep n st in
      match out.2 with
      | None => ret out.1
      | Some n' => run_graph limit n' out.1
      end
  end.

(** ** AgenticAssessmentWorkflow.run *)

Definition workflow_run (limit_steps limit_tool_calls recursion_limit : Z) (id : uuid)
    (rq : AssessmentRequest.t) : M S workflow_output :=
  let* initial := of_res (initialize_assessment_state id rq limit_steps limit_tool_calls) in
  let* st := run_graph (Z.to_nat recursion_limit) Reason initial in
  match final_result st, termination_reason st, error st with
  | Some result, Some termination, None =>
      let* execution := of_res (AssessmentExecutionMetadata.construct
        (AssessmentExecutionMetadata.mk None "single_agent" None [] [] (step st)
           (dict_fromkeys (ToolHistoryEntry.tool_name <$> tool_history st)) termination (trace st)
           None)) in
      ret (WorkflowOutput result (retrieved_evidence st) (SingleAgent execution))
  | _, _, _ => app_raise AssessmentGenerationError
  end.
End nodes.
Arguments agent : clear implicits.
