(* ===== verification/EvidenceAgent.v ===== *)
(** app/agents/evidence_agent.py: the tool-using specialist - a finite loop of one tool call
    per step, then a brief whose citations are cut down to what was observed.

    The provider is a record of the two operations the agent uses; the texts of its prompts
    (app/agents/evidence_prompt.py) are arguments. *)
From S2P Require Import Prelude PyFloat Errors Domain AgentModels Schemas RuntimeModels.
From S2P Require Import Session Storage Telemetry Assessments Tools.

Module ToolCallDecision.
Record t := mk {
  name : pystr;
  arguments : pydict
}.
End ToolCallDecision.

Module EvidenceAgentOutcome.
Record t := mk {
  brief : EvidenceBrief.t;
  evidence : list RetrievedEvidence.t;
  documents : list ObservedKnowledgeDocument.t;
  tool_history : list ToolHistoryEntry.t;
  steps_used : Z;
  termination_reason : AgentTerminationReason.t;
  graph_neighborhoods : list GraphNeighborhood.t;
  graph_retrieval : option GraphRetrievalExecutionMetadata.t
}.
End EvidenceAgentOutcome.

(** [sorted(ids, key=str)] of a set of identifiers. *)
Definition sorted_ids (ids : list uuid) : list uuid := merge_sort N.le (remove_dups ids).

(** ** Observations *)

(** The lists [gather] accumulates, and its cache. *)
Module Observations.
Record t := mk {
  evidence : list RetrievedEvidence.t;
  documents : list ObservedKnowledgeDocument.t;
  graph_neighborhoods : list GraphNeighborhood.t;
  history : list ToolHistoryEntry.t;
  cache : gmap pystr ToolExecutionResult.t;
  steps_used : Z
}.
#[export] Instance eta : Eta t := λ r, mk (evidence r) (documents r) (graph_neighborhoods r)
  (history r) (cache r) (steps_used r).
Definition empty : t := mk [] [] [] [] ∅ 0.
End Observations.
#[export] Existing Instance Observations.eta.

Definition _merge_observations (g : Observations.t) (result : ToolExecutionResult.t) :
    Observations.t :=
  let existing_chunks := RetrievedEvidence.chunk_id <$> Observations.evidence g in
  g <| Observations.evidence := Observations.evidence g ++
         filter (λ item, RetrievedEvidence.chunk_id item ∉ existing_chunks)
           (ToolExecutionResult.evidence result) |>
    <| Observations.documents :=
         match ToolExecutionResult.document result with
         | Some d =>
             if forallb (λ item, bool_decide (ObservedKnowledgeDocument.document_id item ≠
                                              ObservedKnowledgeDocument.document_id d))
                  (Observations.documents g)
             then Observations.documents g ++ [d] else Observations.documents g
         | None => Observations.documents g
         end |>
    <| Observations.graph_neighborhoods := Observations.graph_neighborhoods g ++
         option_list (ToolExecutionResult.graph_neighborhood result) |>.

Definition allowed_documents (evidence : list RetrievedEvidence.t)
    (documents : list ObservedKnowledgeDocument.t) : list uuid :=
  (RetrievedEvidence.document_id <$> evidence) ++
  (ObservedKnowledgeDocument.document_id <$> documents).
Definition allowed_chunks (evidence : list RetrievedEvidence.t) : list uuid :=
  RetrievedEvidence.chunk_id <$> evidence.

(** The loop over [brief.evidence_items]. *)
Fixpoint sanitize_items (documents chunks : list uuid) (items : list EvidenceItem.t) :
    res (list EvidenceItem.t) :=
  match items with
  | [] => Ok []
  | item :: rest =>
      let document_ids := filter (λ v, v ∈ documents) (EvidenceItem.supporting_document_ids item) in
      let chunk_ids := filter (λ v, v ∈ chunks) (EvidenceItem.supporting_chunk_ids item) in
      if negb (truthy document_ids) && negb (truthy chunk_ids)
      then sanitize_items documents chunks rest
      else res_bind (EvidenceItem.construct (EvidenceItem.mk (EvidenceItem.claim item) document_ids
             chunk_ids (EvidenceItem.relevance item) (EvidenceItem.notes item))) (λ clean,
           res_bind (sanitize_items documents chunks rest) (λ more, Ok (clean :: more)))
  end.

Definition _sanitize_brief (brief : EvidenceBrief.t) (evidence : list RetrievedEvidence.t)
    (documents : list ObservedKnowledgeDocument.t) : res EvidenceBrief.t :=
  res_bind (sanitize_items (allowed_documents evidence documents) (allowed_chunks evidence)
              (EvidenceBrief.evidence_items brief)) (λ items,
  Ok (brief <| EvidenceBrief.evidence_items := items |>
            <| EvidenceBrief.retrieved_document_ids :=
                 sorted_ids (allowed_documents evidence documents) |>
            <| EvidenceBrief.retrieved_chunk_ids := sorted_ids (allowed_chunks evidence) |>)).

(** [next((code for ... in reversed(observations) if code), None)]. *)
Definition last_code (codes : list (option pystr)) : option pystr :=
  mjoin (py_next (λ o, match o with Some c => truthy c | None => false end) (reverse codes)).

(** The aggregate of the observations [first :: rest]. *)
Definition aggregated (first : GraphRetrievalExecutionMetadata.t)
    (rest : list GraphRetrievalExecutionMetadata.t) : GraphRetrievalExecutionMetadata.t :=
  let observations := first :: rest in
  let total (f : GraphRetrievalExecutionMetadata.t → Z) := sum_Z (f <$> observations) in
  GraphRetrievalExecutionMetadata.mk
    (existsb GraphRetrievalExecutionMetadata.graph_retrieval_used observations)
    (total GraphRetrievalExecutionMetadata.matched_entity_count)
    (total GraphRetrievalExecutionMetadata.relationship_count)
    (foldr (λ o d, Z.max (GraphRetrievalExecutionMetadata.graph_depth_used o) d)
       (GraphRetrievalExecutionMetadata.graph_depth_used first) rest)
    (total GraphRetrievalExecutionMetadata.vector_evidence_count)
    (total GraphRetrievalExecutionMetadata.graph_evidence_count)
    (total GraphRetrievalExecutionMetadata.hybrid_evidence_count)
    (existsb GraphRetrievalExecutionMetadata.degraded_graph_mode observations)
    (last_code (GraphRetrievalExecutionMetadata.graph_error_code <$> observations))
    (last_code (GraphRetrievalExecutionMetadata.vector_error_code <$> observations)).

Definition _aggregate_graph_metadata (history : list ToolHistoryEntry.t) :
    res (option GraphRetrievalExecutionMetadata.t) :=
  match omap ToolHistoryEntry.graph_retrieval history with
  | [] => Ok None
  | first :: rest =>
      res_bind (GraphRetrievalExecutionMetadata.construct (aggregated first rest))
        (λ m, Ok (Some m))
  end.

(** ** gather *)

Section gather.
Context {S : Type}.

(** What the agent uses of a [StructuredModelProvider]: a bounded tool decision over the
    given tools, and the generation of an [EvidenceBrief]. *)
Record evidence_provider := EvidenceProvider {
  decide_tool_call : pystr → list (ToolDefinition S) → Z → M S (option ToolCallDecision.t);
  generate_brief : pystr → M S EvidenceBrief.t
}.

Context (provider : evidence_provider) (tools : ToolRegistry S).
Context {CH : CallHash}.
Context (build_evidence_decision_input : AssessmentRequest.t → Observations.t → Z → Z → pystr).
Context (build_evidence_brief_input : AssessmentRequest.t → Observations.t → pystr).
Context (max_steps max_tool_calls : Z).

Definition _request_tool (request : AssessmentRequest.t) (g : Observations.t) (step : Z) :
    M S (option ToolCallDecision.t) :=
  decide_tool_call provider (build_evidence_decision_input request g step max_steps)
    (schemas_for MultiAgentName.EVIDENCE tools) 200.

(** The tool call of one iteration. *)
Definition call_tool (g : Observations.t) (step : Z) (call : ToolCallDecision.t) :
    M S Observations.t :=
  let* out := execute_as MultiAgentName.EVIDENCE tools
    (ToolCallDecision.name call) (ToolCallDecision.arguments call) (Some (Observations.cache g)) in
  let result := tc_result out in
  let entry := ToolHistoryEntry.mk step (ToolCallDecision.name call)
    (ToolExecutionResult.success result) (ToolExecutionResult.summary result) (tc_keys out)
    (tc_fingerprint out) (ToolExecutionResult.cached result)
    (ToolExecutionResult.error_code result) (ToolExecutionResult.graph_retrieval result) in
  let g := g <| Observations.history := Observations.history g ++ [entry] |>
             <| Observations.cache := default (Observations.cache g) (tc_cache out) |> in
  ret (_merge_observations g result).

(** [for step in range(step, step + iterations)], with its [else] clause. *)
Fixpoint gather_loop (iterations : nat) (step : Z) (request : AssessmentRequest.t)
    (g : Observations.t) : M S (Observations.t * AgentTerminationReason.t) :=
  match iterations with
  | O => ret (g, AgentTerminationReason.MAX_STEPS_REACHED)
  | Datatypes.S iterations =>
      if Z.leb max_tool_calls (Z.of_nat (length (Observations.history g)))
      then ret (g, AgentTerminationReason.MAX_TOOL_CALLS_REACHED)
      else
        let g := g <| Observations.steps_used := step |> in
        let* request_call := _request_tool request g step in
        match request_call with
        | None => ret (g, AgentTerminationReason.AGENT_STOPPED)
        | Some call =>
            let* g := call_tool g step call in
            gather_loop iterations (step + 1) request g
        end
  end.

Definition gather (request : AssessmentRequest.t) : M S EvidenceAgentOutcome.t :=
  let* loop := gather_loop (Z.to_nat max_steps) 1 request Observations.empty in
  let g := loop.1 in
  let* raw_brief := generate_brief provider (build_evidence_brief_input request g) in
  let* brief := of_res (_sanitize_brief raw_brief (Observations.evidence g)
                          (Observations.documents g)) in
  let* graph_retrieval := of_res (_aggregate_graph_metadata (Observations.history g)) in
  ret (EvidenceAgentOutcome.mk brief (Observations.evidence g) (Observations.documents g)
         (Observations.history g) (Observations.steps_used g) loop.2
         (Observations.graph_neighborhoods g) graph_retrieval).
End gather.
Arguments evidence_provider : clear implicits.
