(* ===== verification/EvidenceTheorems.v ===== *)
(** The evidence agent: its loop is bounded and accounted for, only authorized tools answer,
    and its brief cites observed sources only. *)
From S2P Require Import Prelude PyFloat Errors Domain AgentModels Schemas RuntimeModels.
From S2P Require Import Session Storage Telemetry Assessments Tools EvidenceAgent.

(** ** The sanitized brief *)

(** A brief the provider's schema validation accepted. *)
Definition brief_ok (b : EvidenceBrief.t) : Prop :=
  EvidenceBrief.valid b = true ∧
  Forall (λ i, EvidenceItem.normalize i = i) (EvidenceBrief.evidence_items b).

(** The item with its citations cut down, and whether any is left. *)
Definition restrict (docs chunks : list uuid) (i : EvidenceItem.t) : EvidenceItem.t :=
  i <| EvidenceItem.supporting_document_ids :=
         filter (λ v, v ∈ docs) (EvidenceItem.supporting_document_ids i) |>
    <| EvidenceItem.supporting_chunk_ids :=
         filter (λ v, v ∈ chunks) (EvidenceItem.supporting_chunk_ids i) |>.
Definition supported (docs chunks : list uuid) (i : EvidenceItem.t) : Prop :=
  Exists (λ v, v ∈ docs) (EvidenceItem.supporting_document_ids i) ∨
  Exists (λ v, v ∈ chunks) (EvidenceItem.supporting_chunk_ids i).
#[export] Instance supported_dec docs chunks i : Decision (supported docs chunks i).
Proof. unfold supported. apply _. Defined.

Lemma filter_truthy (l allowed : list uuid) :
  truthy (filter (λ v, v ∈ allowed) l) = bool_decide (Exists (λ v, v ∈ allowed) l).
Proof.
  case_bool_decide as H.
  - apply Exists_exists in H as (v & Hv & Ha).
    destruct (filter _ l) as [|w ws] eqn:E; [|done].
    assert (v ∈ filter (λ v, v ∈ allowed) l) as Hin by by apply list_elem_of_filter.
    rewrite E in Hin. by apply elem_of_nil in Hin.
  - destruct (filter _ l) as [|w ws] eqn:E; [done|]. exfalso. apply H, Exists_exists.
    exists w. apply and_comm, (list_elem_of_filter (λ v, v ∈ allowed)). rewrite E. left.
Qed.

Lemma len_le_filter n (allowed l : list uuid) :
  len_le n l = true → len_le n (filter (λ v, v ∈ allowed) l) = true.
Proof.
  unfold len_le. rewrite !Z.leb_le. pose proof (length_filter (λ v, v ∈ allowed) l). lia.
Qed.

Lemma restrict_construct docs chunks i :
  EvidenceItem.valid i = true → EvidenceItem.normalize i = i →
  EvidenceItem.construct (restrict docs chunks i) = Ok (restrict docs chunks i).
Proof.
  intros Hv Hn. unfold EvidenceItem.construct.
  assert (EvidenceItem.normalize (restrict docs chunks i) = restrict docs chunks i) as ->.
  { destruct i. unfold EvidenceItem.normalize, restrict in *. simpl in *. congruence. }
  assert (EvidenceItem.valid (restrict docs chunks i) = true) as ->; [|done].
  revert Hv. unfold EvidenceItem.valid. rewrite !andb_true_iff. simpl.
  intros ((((? & ?) & ?) & ?) & ?). split_and!; try done; by apply len_le_filter.
Qed.

Lemma sanitize_items_eq docs chunks items :
  forallb EvidenceItem.valid items = true → Forall (λ i, EvidenceItem.normalize i = i) items →
  sanitize_items docs chunks items =
    Ok (restrict docs chunks <$> filter (supported docs chunks) items).
Proof.
  induction items as [|i items IH]; [done|]. simpl.
  intros [Hv Hvs]%andb_true_iff [Hn Hns]%Forall_cons. rewrite !filter_truthy, filter_cons.
  rewrite IH by done.
  assert (negb (bool_decide (Exists (λ v, v ∈ docs) (EvidenceItem.supporting_document_ids i))) &&
          negb (bool_decide (Exists (λ v, v ∈ chunks) (EvidenceItem.supporting_chunk_ids i))) =
          bool_decide (¬ supported docs chunks i)) as ->.
  { unfold supported. by repeat case_bool_decide; try tauto. }
  case_bool_decide; case_decide; try tauto.
  change (EvidenceItem.mk _ _ _ _ _) with (restrict docs chunks i).
  by rewrite restrict_construct.
Qed.

Lemma elem_of_sorted_ids ids x : x ∈ sorted_ids ids ↔ x ∈ ids.
Proof. unfold sorted_ids. by rewrite merge_sort_Permutation, elem_of_remove_dups. Qed.

Lemma StronglySorted_lt l : StronglySorted N.le l → NoDup l → StronglySorted N.lt l.
Proof.
  induction 1 as [|x l Hs IH Hx]; [constructor|]. intros [Hn Hnd]%NoDup_cons.
  constructor; [by apply IH|]. rewrite Forall_forall in Hx |- *. intros y Hy.
  specialize (Hx y Hy). assert (x ≠ y) by (by intros ->). lia.
Qed.

Lemma sorted_ids_ok ids : StronglySorted N.lt (sorted_ids ids).
Proof.
  unfold sorted_ids. apply StronglySorted_lt.
  - apply StronglySorted_merge_sort; [intros x y z; lia|]. intros x y. lia.
  - rewrite merge_sort_Permutation. apply NoDup_remove_dups.
Qed.

Lemma brief_items_valid b :
  EvidenceBrief.valid b = true → forallb EvidenceItem.valid (EvidenceBrief.evidence_items b) = true.
Proof. unfold EvidenceBrief.valid. by rewrite !andb_true_iff; intros ((((((_ & _) & ?) & _) & _) & _) & _). Qed.

Lemma restricted_items_cite docs chunks (items : list EvidenceItem.t) i :
  i ∈ restrict docs chunks <$> filter (supported docs chunks) items →
  Forall (λ d, d ∈ docs) (EvidenceItem.supporting_document_ids i) ∧
  Forall (λ c, c ∈ chunks) (EvidenceItem.supporting_chunk_ids i) ∧
  (EvidenceItem.supporting_document_ids i ≠ [] ∨ EvidenceItem.supporting_chunk_ids i ≠ []).
Proof.
  intros (j & -> & Hj)%list_elem_of_fmap. apply list_elem_of_filter in Hj as [Hs _]. simpl.
  split_and!.
  - apply Forall_forall. by intros d ?%list_elem_of_filter; destruct_and?.
  - apply Forall_forall. by intros d ?%list_elem_of_filter; destruct_and?.
  - assert (∀ l allowed : list uuid, Exists (λ v, v ∈ allowed) l → filter (λ v : uuid, v ∈ allowed) l ≠ [])
      as Hne.
    { intros l allowed H Hnil. pose proof (filter_truthy l allowed) as Ht.
      rewrite Hnil, bool_decide_true in Ht by done. discriminate. }
    destruct Hs; [left|right]; by apply Hne.
Qed.

Lemma filter_observed (l allowed : list uuid) :
  Forall (λ v, v ∈ allowed) l → filter (λ v, v ∈ allowed) l = l.
Proof. induction 1; [done|]. rewrite filter_cons_True by done. by f_equal. Qed.

Lemma restrict_observed docs chunks i :
  Forall (λ d, d ∈ docs) (EvidenceItem.supporting_document_ids i) →
  Forall (λ c, c ∈ chunks) (EvidenceItem.supporting_chunk_ids i) → restrict docs chunks i = i.
Proof. intros Hd Hc. unfold restrict. simpl. rewrite !filter_observed by done. by destruct i. Qed.

(** the brief cites observed sources only: sanitizing a valid brief never fails; an
    item is kept exactly when one of its citations was observed, every citation kept was
    observed, an item whose citations were all observed is kept as it is, and the brief
    declares exactly the observed identifiers, sorted and without duplicates. *)
Theorem sanitized_brief_grounded brief evidence documents :
  brief_ok brief →
  let docs := allowed_documents evidence documents in
  let chunks := allowed_chunks evidence in
  ∃ b, _sanitize_brief brief evidence documents = Ok b ∧
    (∀ i, i ∈ EvidenceBrief.evidence_items b →
       Forall (λ d, d ∈ docs) (EvidenceItem.supporting_document_ids i) ∧
       Forall (λ c, c ∈ chunks) (EvidenceItem.supporting_chunk_ids i) ∧
       (EvidenceItem.supporting_document_ids i ≠ [] ∨ EvidenceItem.supporting_chunk_ids i ≠ [])) ∧
    EvidenceItem.claim <$> EvidenceBrief.evidence_items b =
      EvidenceItem.claim <$> filter (supported docs chunks) (EvidenceBrief.evidence_items brief) ∧
    (∀ i, i ∈ EvidenceBrief.evidence_items brief → supported docs chunks i →
       Forall (λ d, d ∈ docs) (EvidenceItem.supporting_document_ids i) →
       Forall (λ c, c ∈ chunks) (EvidenceItem.supporting_chunk_ids i) →
       i ∈ EvidenceBrief.evidence_items b) ∧
    (∀ d, d ∈ EvidenceBrief.retrieved_document_ids b ↔ d ∈ docs) ∧
    (∀ c, c ∈ EvidenceBrief.retrieved_chunk_ids b ↔ c ∈ chunks) ∧
    StronglySorted N.lt (EvidenceBrief.retrieved_document_ids b) ∧
    StronglySorted N.lt (EvidenceBrief.retrieved_chunk_ids b) ∧
    EvidenceBrief.summary b = EvidenceBrief.summary brief ∧
    EvidenceBrief.evidence_gaps b = EvidenceBrief.evidence_gaps brief.
Proof.
  intros [Hv Hn] docs chunks. unfold _sanitize_brief. fold docs chunks.
  rewrite sanitize_items_eq; [|by apply brief_items_valid|done].
  eexists. split; [reflexivity|]. split_and!; simpl; try done.
  - apply restricted_items_cite.
  - rewrite <- list_fmap_compose. by apply list_fmap_ext.
  - intros i Hi Hs Hd Hc. apply list_elem_of_fmap. exists i.
    split; [by rewrite restrict_observed|]. by apply list_elem_of_filter.
  - apply elem_of_sorted_ids.
  - apply elem_of_sorted_ids.
  - apply sorted_ids_ok.
  - apply sorted_ids_ok.
Qed.

(** ** Aggregated graph metadata *)

Lemma sum_nonneg {A} (f : A → Z) l : Forall (λ a, (0 ≤ f a)%Z) l → (0 ≤ sum_Z (f <$> l))%Z.
Proof. unfold sum_Z. induction 1; csimpl; lia. Qed.

Lemma last_code_valid (codes : list (option pystr)) (p : pystr → bool) :
  Forall (λ o, opt_all p o = true) codes → opt_all p (last_code codes) = true.
Proof.
  intros H. unfold last_code. apply Forall_reverse in H. revert H.
  induction (reverse codes) as [|o l IH]; intros H; [done|]. inversion_clear H. simpl.
  destruct o as [c|]; simpl; [|by apply IH]. by destruct (truthy c); simpl; [|apply IH].
Qed.

Lemma aggregated_valid first rest :
  Forall (λ m, GraphRetrievalExecutionMetadata.valid m = true) (first :: rest) →
  GraphRetrievalExecutionMetadata.valid (aggregated first rest) = true.
Proof.
  intros H.
  assert (∀ f : GraphRetrievalExecutionMetadata.t → Z,
    (∀ m, GraphRetrievalExecutionMetadata.valid m = true → (0 ≤ f m)%Z) →
    Z.leb 0 (sum_Z (f <$> first :: rest)) = true) as Hsum.
  { intros f Hf. apply Z.leb_le, sum_nonneg. eapply Forall_impl; [exact H|exact Hf]. }
  assert (∀ m, GraphRetrievalExecutionMetadata.valid m = true →
    (0 ≤ GraphRetrievalExecutionMetadata.graph_depth_used m ≤ 5)%Z) as Hdepth.
  { intros m Hm. unfold GraphRetrievalExecutionMetadata.valid in Hm. split_bools.
    rewrite Z.leb_le in *. lia. }
  assert (0 ≤ GraphRetrievalExecutionMetadata.graph_depth_used (aggregated first rest) ≤ 5)%Z
    as Hmax.
  { clear Hsum. apply Forall_cons in H as [Hf Hr]. simpl. induction Hr as [|m rest Hm Hr IH]; simpl.
    - by apply Hdepth.
    - pose proof (Hdepth m Hm). simpl in IH. lia. }
  unfold GraphRetrievalExecutionMetadata.valid. rewrite !andb_true_iff. split_and!;
    try (apply Z.leb_le; lia); try (apply Hsum; intros m Hm;
      unfold GraphRetrievalExecutionMetadata.valid in Hm; split_bools; by apply Z.leb_le);
    apply last_code_valid, Forall_fmap; (eapply Forall_impl; [exact H|]); intros m Hm;
    unfold GraphRetrievalExecutionMetadata.valid in Hm; split_bools; done.
Qed.

Lemma aggregate_ok history :
  Forall (λ e, opt_all GraphRetrievalExecutionMetadata.valid
                 (ToolHistoryEntry.graph_retrieval e) = true) history →
  ∃ o, _aggregate_graph_metadata history = Ok o ∧
    opt_all GraphRetrievalExecutionMetadata.valid o = true.
Proof.
  intros H. unfold _aggregate_graph_metadata.
  assert (Forall (λ m, GraphRetrievalExecutionMetadata.valid m = true)
            (omap ToolHistoryEntry.graph_retrieval history)) as Hobs.
  { apply Forall_forall. intros m (e & He & Hm)%list_elem_of_omap.
    rewrite Forall_forall in H. specialize (H e He). by rewrite Hm in H. }
  destruct (omap _ _) as [|first rest]; [by exists None|].
  unfold GraphRetrievalExecutionMetadata.construct. pose proof (aggregated_valid _ _ Hobs) as Hv.
  rewrite Hv. by exists (Some (aggregated first rest)).
Qed.

(** ** The loop *)

Section gather_theorems.
Context {S : Type} (provider : evidence_provider S) (tools : ToolRegistry S).
Context {CH : CallHash}.
Context (decision_input : AssessmentRequest.t → Observations.t → Z → Z → pystr).
Context (brief_input : AssessmentRequest.t → Observations.t → pystr).
Context (max_steps max_tool_calls : Z).
Context (R : relation S) `{!PreOrder R} (E : exn → Prop).

(** What the agent relies on in its provider: failures of a known kind, and briefs that
    passed schema validation. *)
Record provider_ok : Prop := {
  decide_safe user definitions limit :
    safe R E (decide_tool_call provider user definitions limit) (λ _, True);
  brief_safe user : safe R E (generate_brief provider user) brief_ok
}.

Context (Hprovider : provider_ok) (Htools : registry_ok R tools).
Context (Hhash : ∀ e, unencodable e → E e).

(** A history entry: only an authorized tool succeeds. *)
Definition entry_ok (e : ToolHistoryEntry.t) : Prop :=
  (ToolHistoryEntry.success e = true → ToolHistoryEntry.tool_name e ∈ EVIDENCE_TOOL_NAMES) ∧
  opt_all GraphRetrievalExecutionMetadata.valid (ToolHistoryEntry.graph_retrieval e) = true ∧
  len_in 1 300 (ToolHistoryEntry.summary e) = true.

(** The observations after [n] tool calls. *)
Record observed (n : Z) (g : Observations.t) : Prop := {
  obs_steps : ToolHistoryEntry.step <$> Observations.history g = seqZ 1 n;
  obs_count : Z.of_nat (length (Observations.history g)) = n;
  obs_entries : Forall entry_ok (Observations.history g);
  obs_documents : NoDup (ObservedKnowledgeDocument.document_id <$> Observations.documents g);
  obs_cache : cache_ok (Some (Observations.cache g))
}.

Lemma observed_empty : observed 0 Observations.empty.
Proof. split; try done; simpl; first [constructor | apply map_Forall_empty]. Qed.

Lemma execute_as_safe name raw cache :
  cache_ok cache →
  safe R E (execute_as MultiAgentName.EVIDENCE tools name raw cache)
    (λ out, call_ok out ∧
      (ToolExecutionResult.success (tc_result out) = true → name ∈ EVIDENCE_TOOL_NAMES)).
Proof.
  intros Hc. unfold execute_as. destruct (mem name _) eqn:Hm.
  - apply mem_spec in Hm. eapply safe_mono; [by apply execute_safe|exact Hhash|]. by intros out Hout.
  - eapply safe_bind; [done|eapply safe_mono; [apply hash_call_safe; done|exact Hhash|done]|].
    intros f _. apply safe_ret; [done|]. split; [|done]. split; [|done]. split; [done|].
    by split; [eexists|].
Qed.

Lemma merge_documents_NoDup g result :
  NoDup (ObservedKnowledgeDocument.document_id <$> Observations.documents g) →
  NoDup (ObservedKnowledgeDocument.document_id <$>
           Observations.documents (_merge_observations g result)).
Proof.
  intros Hn. unfold _merge_observations. simpl. destruct (ToolExecutionResult.document result);
    [|done]. case_match eqn:Hall; [|done]. rewrite fmap_app. apply NoDup_app.
  split_and!; [done| |apply NoDup_singleton]. intros x (d & -> & Hd)%list_elem_of_fmap.
  csimpl. intros Hx%list_elem_of_singleton. rewrite forallb_forall in Hall.
  apply list_elem_of_In, Hall, bool_decide_eq_true in Hd. done.
Qed.

Lemma call_tool_safe n g call :
  observed n g → (0 ≤ n)%Z →
  safe R E (call_tool tools g (n + 1) call)
    (λ g', observed (n + 1) g' ∧ Observations.steps_used g' = Observations.steps_used g).
Proof.
  intros [Hs Hc He Hd Hca] Hn. unfold call_tool. eapply safe_bind; [done| |].
  { eapply safe_mono; [by apply execute_as_safe|done|]. intros out Hout. exact Hout. }
  intros out [[(Hsum & _ & Hg) Hcache] Hauth]. apply safe_ret; [done|]. split; [|done].
  split.
  - simpl. rewrite fmap_app, Hs, seqZ_app by lia. csimpl.
    by replace (1 + n)%Z with (n + 1)%Z by lia.
  - simpl. rewrite length_app. simpl. lia.
  - simpl. apply Forall_app. split; [done|]. apply Forall_singleton. by split_and!.
  - by apply merge_documents_NoDup.
  - simpl. destruct (tc_cache out); [|done]. exact Hcache.
Qed.

(** How a loop of at most [iterations] further steps ends. *)
Definition ended (n iterations : Z) (g : Observations.t) (reason : AgentTerminationReason.t) :
    Prop :=
  match reason with
  | AgentTerminationReason.MAX_STEPS_REACHED => n = iterations ∧ Observations.steps_used g = n
  | AgentTerminationReason.MAX_TOOL_CALLS_REACHED =>
      n = max_tool_calls ∧ Observations.steps_used g = n
  | AgentTerminationReason.AGENT_STOPPED =>
      Observations.steps_used g = (n + 1)%Z ∧ (n < iterations)%Z
  | _ => False
  end.

Lemma gather_loop_safe request k n g :
  observed n g → (0 ≤ n ≤ max_tool_calls)%Z → Observations.steps_used g = n →
  safe R E (gather_loop provider tools decision_input
              max_steps max_tool_calls k (n + 1) request g)
    (λ out, ∃ n', observed n' out.1 ∧ (0 ≤ n' ≤ max_tool_calls)%Z ∧ (n' ≤ n + Z.of_nat k)%Z ∧
            ended n' (n + Z.of_nat k) out.1 out.2).
Proof.
  revert n g. induction k as [|k IH]; intros n g Hg Hn Hsteps; simpl.
  { apply safe_ret; [done|]. exists n. split_and!; simpl; done || lia. }
  case_eq (max_tool_calls <=? Z.of_nat (length (Observations.history g)))%Z; intros Hlim.
  { apply Z.leb_le in Hlim. rewrite (obs_count _ _ Hg) in Hlim. apply safe_ret; [done|].
    exists n. split_and!; simpl; done || lia. }
  apply Z.leb_gt in Hlim. rewrite (obs_count _ _ Hg) in Hlim.
  assert (observed n (g <| Observations.steps_used := (n + 1)%Z |>)) as Hg'
    by (destruct Hg; by split).
  eapply safe_bind; [done|apply (decide_safe Hprovider)|]. intros [call|] _.
  - eapply safe_bind; [done|apply call_tool_safe; [exact Hg'|lia]|]. intros g2 [Hg2 Hs2].
    eapply safe_mono; [apply (IH (n + 1)%Z g2 Hg2); [lia|exact Hs2]|done|].
    intros [g3 reason] (n' & ? & ? & ? & Hend). exists n'. split_and!; try done; try lia.
    simpl in *. unfold ended in *. by replace (n + Z.of_nat (Datatypes.S k))%Z
      with (n + 1 + Z.of_nat k)%Z by lia.
  - apply safe_ret; [done|]. exists n. split_and!; simpl; done || lia.
Qed.

(** The hand-off of a run: the loop's bounds, its history and why it ended, and citations
    of observed sources only. *)
Definition outcome_ok (o : EvidenceAgentOutcome.t) : Prop :=
  let history := EvidenceAgentOutcome.tool_history o in
  let calls := Z.of_nat (length history) in
  let docs := allowed_documents (EvidenceAgentOutcome.evidence o)
                (EvidenceAgentOutcome.documents o) in
  let chunks := allowed_chunks (EvidenceAgentOutcome.evidence o) in
  ToolHistoryEntry.step <$> history = seqZ 1 calls ∧ Forall entry_ok history ∧
  (calls ≤ max_tool_calls)%Z ∧ (0 ≤ EvidenceAgentOutcome.steps_used o ≤ max_steps)%Z ∧
  match EvidenceAgentOutcome.termination_reason o with
  | AgentTerminationReason.MAX_STEPS_REACHED =>
      calls = max_steps ∧ EvidenceAgentOutcome.steps_used o = max_steps
  | AgentTerminationReason.MAX_TOOL_CALLS_REACHED =>
      calls = max_tool_calls ∧ EvidenceAgentOutcome.steps_used o = calls
  | AgentTerminationReason.AGENT_STOPPED =>
      EvidenceAgentOutcome.steps_used o = (calls + 1)%Z
  | _ => False
  end ∧
  (∀ i, i ∈ EvidenceBrief.evidence_items (EvidenceAgentOutcome.brief o) →
     Forall (λ d, d ∈ docs) (EvidenceItem.supporting_document_ids i) ∧
     Forall (λ c, c ∈ chunks) (EvidenceItem.supporting_chunk_ids i) ∧
     (EvidenceItem.supporting_document_ids i ≠ [] ∨ EvidenceItem.supporting_chunk_ids i ≠ [])) ∧
  opt_all GraphRetrievalExecutionMetadata.valid (EvidenceAgentOutcome.graph_retrieval o) = true.

Lemma gather_contained request :
  (1 ≤ max_steps)%Z → (1 ≤ max_tool_calls)%Z →
  safe R E (gather provider tools decision_input brief_input
              max_steps max_tool_calls request) outcome_ok.
Proof.
  intros Hms Hmc. unfold gather. eapply safe_bind; [done| |].
  { apply (gather_loop_safe request (Z.to_nat max_steps) 0 Observations.empty observed_empty);
      [lia|done]. }
  intros [g reason] (n & Hg & Hn & Hle & Hend). cbn [fst snd] in *.
  rewrite Z.add_0_l, Z2Nat.id in * by lia.
  eapply safe_bind; [done|apply (brief_safe Hprovider)|]. intros raw [Hv Hnorm].
  destruct (aggregate_ok (Observations.history g)) as (o & Ho & Hov).
  { eapply Forall_impl; [apply (obs_entries _ _ Hg)|]. by intros e (_ & ? & _). }
  unfold _sanitize_brief. rewrite sanitize_items_eq; [|by apply brief_items_valid|done].
  rewrite Ho. simpl. apply safe_ret; [done|].
  destruct Hg as [Hs Hc He Hd Hca]. unfold outcome_ok. simpl. rewrite Hc.
  split_and!; try done; try lia.
  - unfold ended in Hend. destruct reason; try done; lia.
  - unfold ended in Hend. destruct reason; try done; lia.
  - unfold ended in Hend. destruct reason; try done; lia.
  - apply restricted_items_cite.
Qed.
(** C29: gathering evidence is bounded and contained: with positive limits and whatever the
    provider asks for, the agent raises only what the provider itself raises, or the failure to encode a tool
    call; otherwise it
    hands off a history of numbered calls within both limits in which only authorized
    tools succeed, the true reason why the loop ended, a brief that cites observed sources
    only, and valid aggregated graph metadata. *)
Theorem evidence_gathering_bounded request :
  (1 ≤ max_steps)%Z → (1 ≤ max_tool_calls)%Z →
  safe R E (gather provider tools decision_input brief_input
              max_steps max_tool_calls request) outcome_ok.
Proof. apply gather_contained. Qed.
End gather_theorems.

(** ** Concrete runs *)

Definition demo_evidence : RetrievedEvidence.t :=
  RetrievedEvidence.mk 11%N 21%N "Policy" "Data stays in the EU." None KnowledgeSourceType.POLICY []
    RetrievalSource.VECTOR.
Definition demo_item (documents chunks : list uuid) : EvidenceItem.t :=
  EvidenceItem.mk "Data stays in the EU." documents chunks "Residency." None.
Definition demo_brief : EvidenceBrief.t :=
  EvidenceBrief.mk "Summary" [demo_item [21%N; 22%N] []; demo_item [] [99%N]; demo_item [] [11%N]]
    [] SpecialistConfidence.LOW [21%N; 22%N] [11%N; 99%N].
Definition demo_provider : evidence_provider nat := EvidenceProvider
  (λ _ _ _ asked, (S asked, Ok (if Nat.ltb asked 4
     then Some (ToolCallDecision.mk (if Nat.eqb asked 0 then lit "delete_everything"
                                     else lit "search_knowledge") demo_arguments)
     else None)))
  (λ _, ret demo_brief).
Definition no_prompt : pystr := "prompt".

Lemma demo_brief_ok : brief_ok demo_brief.
Proof. split; [by vm_compute|]. repeat constructor. Qed.

Lemma demo_provider_ok : provider_ok demo_provider le (λ _, False).
Proof.
  split.
  - intros user definitions limit s. split; [simpl; lia|done].
  - intros user. apply safe_ret; [apply _|]. apply demo_brief_ok.
Qed.

Definition demo_gather (max_steps max_tool_calls : Z) : M nat EvidenceAgentOutcome.t :=
  gather demo_provider demo_tools
    (λ _ _ _ _, no_prompt) (λ _ _, no_prompt) max_steps max_tool_calls
    (AssessmentRequest.mk "Company" None "Industry" "Problem" None [] "Outcome" [] None).

Example demo_gather_runs :
  match (demo_gather 4 3 0%nat).2 with
  | Ok o => (ToolHistoryEntry.success <$> EvidenceAgentOutcome.tool_history o,
             EvidenceAgentOutcome.termination_reason o, EvidenceAgentOutcome.steps_used o)
  | Raise _ => ([], AgentTerminationReason.FAILED, 0%Z)
  end = ([false; true; true], AgentTerminationReason.MAX_TOOL_CALLS_REACHED, 3%Z).
Proof. vm_compute. reflexivity. Qed.

Lemma evidence_gathering_bounded_witness :
  safe le (λ _, False) (demo_gather 4 3) (outcome_ok 4 3).
Proof.
  apply (evidence_gathering_bounded demo_provider demo_tools _ _ 4 3 le (λ _, False)
    demo_provider_ok demo_tools_ok demo_hash_total); lia.
Defined.

Lemma sanitized_brief_grounded_witness :
  ∃ b, _sanitize_brief demo_brief [demo_evidence] [] = Ok b ∧
    EvidenceBrief.retrieved_chunk_ids b = [11%N] ∧
    ∀ i, i ∈ EvidenceBrief.evidence_items b →
      Forall (λ c, c ∈ [11%N]) (EvidenceItem.supporting_chunk_ids i).
Proof.
  destruct (sanitized_brief_grounded demo_brief [demo_evidence] [] demo_brief_ok)
    as (b & Hb & Hitems & _). exists b. split; [exact Hb|]. split.
  - vm_compute in Hb. injection Hb as <-. reflexivity.
  - intros i Hi. apply (Hitems i Hi).
Defined.
