(* ===== verification/MultiAgentGraph.v ===== *)
(** app/graph/multi_agent_state.py, multi_agent_nodes.py and multi_agent_workflow.py: four
    specialists orchestrated by a fixed graph, with a partial-failure policy.

    A node returns its dictionary of updates, a function on the state.  The graph library
    runs the two middle specialists in one superstep, both on the state before it, and then
    merges their dictionaries; [architecture_first] is the order in which they happen to
    run.  Any exception of a node ends the run. *)
From S2P Require Import Prelude PyFloat Errors Domain AgentModels Schemas RuntimeModels.
From S2P Require Import Session Storage Telemetry Assessments Tools EvidenceAgent.

(** ** State *)

Module MultiAgentGraphState.
Record t := mk {
  assessment_id : uuid;
  request : AssessmentRequest.t;
  started_at : option datetime;
  completed_at : option datetime;
  max_failures : Z;
  evidence_brief : option EvidenceBrief.t;
  retrieved_evidence : list RetrievedEvidence.t;
  observed_documents : list ObservedKnowledgeDocument.t;
  tool_history : list ToolHistoryEntry.t;
  evidence_steps_used : Z;
  evidence_termination_reason : option AgentTerminationReason.t;
  graph_retrieval : option GraphRetrievalExecutionMetadata.t;
  architecture_recommendation : option ArchitectureRecommendation.t;
  risk_governance_review : option RiskGovernanceReview.t;
  final_result : option AssessmentResult.t;
  execution : option MultiAgentExecutionMetadata.t;
  evidence_status : MultiAgentStatus.t;
  architecture_status : MultiAgentStatus.t;
  risk_governance_status : MultiAgentStatus.t;
  synthesis_status : MultiAgentStatus.t;
  evidence_error : option pystr;
  architecture_error : option pystr;
  risk_governance_error : option pystr;
  synthesis_error : option pystr;
  evidence_duration_ms : option Z;
  architecture_duration_ms : option Z;
  risk_governance_duration_ms : option Z;
  synthesis_duration_ms : option Z;
  initialization_trace : list MultiAgentTraceEvent.t;
  evidence_trace : list MultiAgentTraceEvent.t;
  architecture_trace : list MultiAgentTraceEvent.t;
  risk_governance_trace : list MultiAgentTraceEvent.t;
  synthesis_trace : list MultiAgentTraceEvent.t;
  validation_trace : list MultiAgentTraceEvent.t
}.
#[export] Instance eta : Eta t := λ r, mk (assessment_id r) (request r) (started_at r)
  (completed_at r) (max_failures r) (evidence_brief r) (retrieved_evidence r) (observed_documents
  r) (tool_history r) (evidence_steps_used r) (evidence_termination_reason r) (graph_retrieval r)
  (architecture_recommendation r) (risk_governance_review r) (final_result r) (execution r)
  (evidence_status r) (architecture_status r) (risk_governance_status r) (synthesis_status r)
  (evidence_error r) (architecture_error r) (risk_governance_error r) (synthesis_error r)
  (evidence_duration_ms r) (architecture_duration_ms r) (risk_governance_duration_ms r)
  (synthesis_duration_ms r) (initialization_trace r) (evidence_trace r) (architecture_trace r)
  (risk_governance_trace r) (synthesis_trace r) (validation_trace r).
End MultiAgentGraphState.
#[export] Existing Instance MultiAgentGraphState.eta.
Abbreviation mstate := MultiAgentGraphState.t.

Definition initialize_multi_agent_state (assessment_id : uuid) (request : AssessmentRequest.t)
    (max_failures : Z) : mstate :=
  MultiAgentGraphState.mk assessment_id request None None max_failures None [] [] [] 0 None None
    None None None None
    MultiAgentStatus.PENDING MultiAgentStatus.PENDING MultiAgentStatus.PENDING
    MultiAgentStatus.PENDING
    None None None None None None None None [] [] [] [] [] [].

(** ** Nodes *)

Definition _safe_error_code (exc : exn) : pystr :=
  match exc with ApplicationError a => error_code a | _ => "specialist_generation_failed" end.

Import MultiAgentGraphState.

Definition _degradation_reasons (st : mstate) : list pystr :=
  (if is_not_none (evidence_error st)
   then [lit "Evidence Agent output unavailable; assessment-only context used."] else []) ++
  (if is_not_none (architecture_error st) then [lit "Architecture Agent output unavailable."] else []) ++
  (if is_not_none (risk_governance_error st)
   then [lit "Risk & Governance Agent output unavailable; governance confidence reduced."]
   else []).

Section nodes.
Context {S : Type}.

(** The four agents' protocols, [datetime.now(UTC)] and [perf_counter]. *)
Record specialists := Specialists {
  sp_evidence : AssessmentRequest.t → M S EvidenceAgentOutcome.t;
  sp_architecture : AssessmentRequest.t → EvidenceBrief.t → M S ArchitectureRecommendation.t;
  sp_risk_governance : AssessmentRequest.t → EvidenceBrief.t → M S RiskGovernanceReview.t;
  sp_synthesis : AssessmentRequest.t → EvidenceBrief.t → option ArchitectureRecommendation.t →
    option RiskGovernanceReview.t → list pystr → M S AssessmentResult.t;
  sp_now : M S datetime;
  sp_perf_counter : M S pyfloat
}.

Context (sp : specialists).

Definition _event (event_type : MultiAgentTraceEventType.t) (summary : pystr)
    (agent : option MultiAgentName.t) (tool_name error_code : option pystr) :
    M S MultiAgentTraceEvent.t :=
  let* now := sp_now sp in
  of_res (MultiAgentTraceEvent.construct
    (MultiAgentTraceEvent.mk 0 now agent event_type summary tool_name error_code)).

Definition _elapsed_ms (started : pyfloat) : M S Z :=
  let* now := sp_perf_counter sp in
  of_res (elapsed_ms started now).

(** The outcome of the computation, as a value. *)
Definition catching {A} (m : M S A) : M S (res A) :=
  try_except (let* a := m in ret (Ok a)) (λ e, ret (Raise e)).

Definition initialize (st : mstate) : M S (mstate → mstate) :=
  let* started_at := sp_now sp in
  let* event := _event MultiAgentTraceEventType.WORKFLOW_STARTED
    "The controlled four-agent workflow started." None None None in
  ret (λ st, st <| MultiAgentGraphState.started_at := Some started_at |>
                <| initialization_trace := [event] |>).

Definition tool_event_type (item : ToolHistoryEntry.t) : MultiAgentTraceEventType.t :=
  if bool_decide (ToolHistoryEntry.error_code item = Some (lit "unauthorized_tool"))
  then MultiAgentTraceEventType.TOOL_AUTHORIZATION_DENIED
  else if ToolHistoryEntry.success item then MultiAgentTraceEventType.TOOL_COMPLETED
  else MultiAgentTraceEventType.TOOL_FAILED.

(** [for item in outcome.tool_history: trace.append(...)]. *)
Fixpoint tool_events (history : list ToolHistoryEntry.t) : M S (list MultiAgentTraceEvent.t) :=
  match history with
  | [] => ret []
  | item :: rest =>
      let* event := _event (tool_event_type item) (ToolHistoryEntry.summary item)
        (Some MultiAgentName.EVIDENCE) (Some (ToolHistoryEntry.tool_name item))
        (ToolHistoryEntry.error_code item) in
      let* events := tool_events rest in
      ret (event :: events)
  end.

Definition evidence (st : mstate) : M S (mstate → mstate) :=
  let* started := sp_perf_counter sp in
  let* start := _event MultiAgentTraceEventType.AGENT_STARTED
    "Evidence analysis started with approved read-only tools." (Some MultiAgentName.EVIDENCE)
    None None in
  let* r := catching (sp_evidence sp (request st)) in
  match r with
  | Raise exc =>
      let code := _safe_error_code exc in
      let* failed := _event MultiAgentTraceEventType.AGENT_FAILED
        "Evidence analysis did not complete." (Some MultiAgentName.EVIDENCE) None (Some code) in
      let* degraded := _event MultiAgentTraceEventType.DEGRADED_MODE
        "The workflow continued with assessment-only evidence context." None None None in
      let* duration := _elapsed_ms started in
      ret (λ st, st <| evidence_brief := Some EvidenceBrief_unavailable |>
                    <| evidence_status := MultiAgentStatus.FAILED |>
                    <| evidence_error := Some code |>
                    <| evidence_duration_ms := Some duration |>
                    <| evidence_trace := [start; failed; degraded] |>)
  | Ok outcome =>
      let* tools := tool_events (EvidenceAgentOutcome.tool_history outcome) in
      let* completed := _event MultiAgentTraceEventType.AGENT_COMPLETED
        "The Evidence Agent produced a typed EvidenceBrief." (Some MultiAgentName.EVIDENCE)
        None None in
      let* duration := _elapsed_ms started in
      ret (λ st, st <| evidence_brief := Some (EvidenceAgentOutcome.brief outcome) |>
                    <| retrieved_evidence := EvidenceAgentOutcome.evidence outcome |>
                    <| observed_documents := EvidenceAgentOutcome.documents outcome |>
                    <| tool_history := EvidenceAgentOutcome.tool_history outcome |>
                    <| evidence_steps_used := EvidenceAgentOutcome.steps_used outcome |>
                    <| evidence_termination_reason :=
                         Some (EvidenceAgentOutcome.termination_reason outcome) |>
                    <| graph_retrieval := EvidenceAgentOutcome.graph_retrieval outcome |>
                    <| evidence_status := MultiAgentStatus.COMPLETED |>
                    <| evidence_duration_ms := Some duration |>
                    <| evidence_trace := start :: tools ++ [completed] |>)
  end.

(** [state["evidence_brief"] or EvidenceBrief.unavailable()]. *)
Definition brief_of (st : mstate) : EvidenceBrief.t :=
  default EvidenceBrief_unavailable (evidence_brief st).

Definition architecture (st : mstate) : M S (mstate → mstate) :=
  let* started := sp_perf_counter sp in
  let* start := _event MultiAgentTraceEventType.AGENT_STARTED
    "Independent solution architecture analysis started." (Some MultiAgentName.ARCHITECTURE)
    None None in
  let* r := catching (sp_architecture sp (request st) (brief_of st)) in
  match r with
  | Raise exc =>
      let code := _safe_error_code exc in
      let* failed := _event MultiAgentTraceEventType.AGENT_FAILED
        "Solution architecture analysis did not complete." (Some MultiAgentName.ARCHITECTURE)
        None (Some code) in
      let* duration := _elapsed_ms started in
      ret (λ st, st <| architecture_status := MultiAgentStatus.FAILED |>
                    <| architecture_error := Some code |>
                    <| architecture_duration_ms := Some duration |>
                    <| architecture_trace := [start; failed] |>)
  | Ok result =>
      let* completed := _event MultiAgentTraceEventType.AGENT_COMPLETED
        "The Architecture Agent produced a typed recommendation."
        (Some MultiAgentName.ARCHITECTURE) None None in
      let* duration := _elapsed_ms started in
      ret (λ st, st <| architecture_recommendation := Some result |>
                    <| architecture_status := MultiAgentStatus.COMPLETED |>
                    <| architecture_duration_ms := Some duration |>
                    <| architecture_trace := [start; completed] |>)
  end.

Definition risk_governance (st : mstate) : M S (mstate → mstate) :=
  let* started := sp_perf_counter sp in
  let* start := _event MultiAgentTraceEventType.AGENT_STARTED
    "Independent risk and governance analysis started." (Some MultiAgentName.RISK_GOVERNANCE)
    None None in
  let* r := catching (sp_risk_governance sp (request st) (brief_of st)) in
  match r with
  | Raise exc =>
      let code := _safe_error_code exc in
      let* failed := _event MultiAgentTraceEventType.AGENT_FAILED
        "Risk and governance analysis did not complete." (Some MultiAgentName.RISK_GOVERNANCE)
        None (Some code) in
      let* duration := _elapsed_ms started in
      ret (λ st, st <| risk_governance_status := MultiAgentStatus.FAILED |>
                    <| risk_governance_error := Some code |>
                    <| risk_governance_duration_ms := Some duration |>
                    <| risk_governance_trace := [start; failed] |>)
  | Ok result =>
      let* completed := _event MultiAgentTraceEventType.AGENT_COMPLETED
        "The Risk & Governance Agent produced a typed review."
        (Some MultiAgentName.RISK_GOVERNANCE) None None in
      let* duration := _elapsed_ms started in
      ret (λ st, st <| risk_governance_review := Some result |>
                    <| risk_governance_status := MultiAgentStatus.COMPLETED |>
                    <| risk_governance_duration_ms := Some duration |>
                    <| risk_governance_trace := [start; completed] |>)
  end.

Definition failures (st : mstate) : Z :=
  Z.of_nat (length (omap id [evidence_error st; architecture_error st; risk_governance_error st])).

Definition available (st : mstate) : bool :=
  bool_decide (evidence_status st = MultiAgentStatus.COMPLETED) ||
  bool_decide (is_Some (architecture_recommendation st)) ||
  bool_decide (is_Some (risk_governance_review st)).

(** The limitations a degraded result carries. *)
Definition with_limitations (reasons : list pystr) (result : AssessmentResult.t) :
    AssessmentResult.t :=
  if truthy reasons
  then result <| AssessmentResult.information_gaps := AssessmentResult.information_gaps result ++
         (app (lit "Specialist limitation: ") <$> reasons) |>
  else result.

Definition synthesize (st : mstate) : M S (mstate → mstate) :=
  if Z.ltb (max_failures st) (failures st) || negb (available st)
  then app_raise AssessmentGenerationError
  else
    let reasons := _degradation_reasons st in
    let* started := sp_perf_counter sp in
    let* start := _event MultiAgentTraceEventType.AGENT_STARTED
      "Typed specialist outputs converged for final synthesis." (Some MultiAgentName.SYNTHESIS)
      None None in
    let* result := sp_synthesis sp (request st) (brief_of st) (architecture_recommendation st)
      (risk_governance_review st) reasons in
    let result := with_limitations reasons result in
    let* completed := _event MultiAgentTraceEventType.AGENT_COMPLETED
      "The Synthesis Agent produced the existing AssessmentResult contract."
      (Some MultiAgentName.SYNTHESIS) None None in
    let* duration := _elapsed_ms started in
    ret (λ st, st <| final_result := Some result |>
                  <| synthesis_status := MultiAgentStatus.COMPLETED |>
                  <| synthesis_duration_ms := Some duration |>
                  <| synthesis_trace := [start; completed] |>).

(** [enumerate]: the events numbered in their fixed order. *)
Definition numbered (trace : list MultiAgentTraceEvent.t) : list MultiAgentTraceEvent.t :=
  imap (λ index event, event <| MultiAgentTraceEvent.sequence := Z.of_nat index |>) trace.

Definition execution_of (st : mstate) (trace : list MultiAgentTraceEvent.t) :
    res MultiAgentExecutionMetadata.t :=
  let reasons := _degradation_reasons st in
  res_bind (MultiAgentDurations.construct (MultiAgentDurations.mk (evidence_duration_ms st)
    (architecture_duration_ms st) (risk_governance_duration_ms st) (synthesis_duration_ms st)))
    (λ durations,
  res_bind (MultiAgentErrors.construct (MultiAgentErrors.mk (evidence_error st)
    (architecture_error st) (risk_governance_error st) (synthesis_error st))) (λ errors,
  MultiAgentExecutionMetadata.construct (MultiAgentExecutionMetadata.mk None "multi_agent" None
    [] [] MultiAgentName.members
    (MultiAgentStatuses.mk (evidence_status st) (architecture_status st)
       (risk_governance_status st) (synthesis_status st))
    durations errors
    (dict_fromkeys (ToolHistoryEntry.tool_name <$> tool_history st))
    (Z.of_nat (length (tool_history st))) (truthy reasons) reasons
    (if truthy reasons then MultiAgentTerminationReason.COMPLETED_DEGRADED
     else MultiAgentTerminationReason.COMPLETED)
    trace (graph_retrieval st)))).

Definition validate (st : mstate) : M S (mstate → mstate) :=
  match final_result st with
  | None => app_raise AssessmentGenerationError
  | Some result =>
      let* last := _event MultiAgentTraceEventType.WORKFLOW_COMPLETED
        (if truthy (_degradation_reasons st)
         then "The multi-agent workflow completed in degraded mode."
         else "The multi-agent workflow completed with all specialists.") None None None in
      let trace := numbered (initialization_trace st ++ evidence_trace st ++ architecture_trace st ++
        risk_governance_trace st ++ synthesis_trace st ++ [last]) in
      let* execution := of_res (execution_of st trace) in
      let* completed_at := sp_now sp in
      ret (λ st, st <| final_result := Some result |>
                    <| MultiAgentGraphState.execution := Some execution |>
                    <| MultiAgentGraphState.completed_at := Some completed_at |>
                    <| validation_trace := drop (length trace - 1) trace |>)
  end.

(** ** The graph *)

Definition run_node (node : mstate → M S (mstate → mstate)) (st : mstate) : M S mstate :=
  let* updates := node st in
  ret (updates st).

(** The superstep of the two branches. *)
Definition fan_out (architecture_first : bool) (st : mstate) : M S mstate :=
  if architecture_first then
    let* updates := architecture st in
    let* updates' := risk_governance st in
    ret (updates' (updates st))
  else
    let* updates' := risk_governance st in
    let* updates := architecture st in
    ret (updates' (updates st)).

Definition invoke (architecture_first : bool) (st : mstate) : M S mstate :=
  let* st := run_node initialize st in
  let* st := run_node evidence st in
  let* st := fan_out architecture_first st in
  let* st := run_node synthesize st in
  run_node validate st.

(** ** MultiAgentAssessmentWorkflow.run *)

Definition multi_agent_run (architecture_first : bool) (limit : Z) (id : uuid)
    (rq : AssessmentRequest.t) : M S workflow_output :=
  let* st := try_except
    (invoke architecture_first (initialize_multi_agent_state id rq limit))
    (λ exc, match exc with
            | ApplicationError a => raise (ApplicationError a)
            | _ => app_raise AssessmentGenerationError
            end) in
  match final_result st, MultiAgentGraphState.execution st with
  | Some result, Some execution =>
      ret (WorkflowOutput result (retrieved_evidence st) (MultiAgent execution))
  | _, _ => app_raise AssessmentGenerationError
  end.
End nodes.
Arguments specialists : clear implicits.
