(* ===== verification/AssessmentRouting.v ===== *)
(** The pure parts of the assessment service: the execution mode it resolves is always
    available, and the grounding metadata of a result names retrieved evidence only. *)
From S2P Require Import Prelude PyFloat Errors Domain AgentModels Schemas RuntimeModels.
From S2P Require Import Unicode ExecutionRouter Session Storage Repositories Assessments.

(** ** Routing *)

Section routing.
Context {S : Type} (svc : services S).
Import ExecutionMode FallbackReasonCode.

(** The workflow a mode needs is configured; the deterministic one always is. *)
Definition mode_available (mode : ExecutionMode.t) : Prop :=
  match mode with
  | DETERMINISTIC => True
  | SINGLE_AGENT => is_Some (agentic_workflow svc)
  | MULTI_AGENT => is_Some (multi_agent_workflow svc)
  end.

Definition mode_rank (mode : ExecutionMode.t) : Z :=
  match mode with DETERMINISTIC => 0 | SINGLE_AGENT => 1 | MULTI_AGENT => 2 end.

(** The router returns a decision within its declared bound. *)
Definition router_ok (request : AssessmentRequest.t) : Prop :=
  ∀ route, execution_router svc = Some route →
    ∃ d, route request = Ok d ∧ ExecutionRoutingDecision.valid d = true.

Lemma available_spec {A} (o : option A) : available o = true ↔ is_Some o.
Proof. unfold available. apply bool_decide_eq_true. Qed.

Lemma resolved_route_ok r :
  ResolvedExecutionRoute.valid r = true → ResolvedExecutionRoute.construct r = Ok r.
Proof. intros H. unfold ResolvedExecutionRoute.construct. by rewrite H. Qed.

(** Routing succeeds, within its bounds, on a configured workflow. *)
Lemma route_resolved request :
  router_ok request →
  ∃ r, _route_execution svc request = Ok r ∧
    mode_available (ResolvedExecutionRoute.execution_mode r) ∧
    ResolvedExecutionRoute.valid r = true.
Proof.
  intros Hr. unfold _route_execution, mode_available.
  destruct (execution_router svc) as [route|] eqn:Hrt.
  - destruct (Hr route Hrt) as ([preferred reasons] & Hd & Hv). rewrite Hd.
    unfold ExecutionRoutingDecision.valid in Hv. apply andb_true_iff in Hv as [_ Hv]. simpl in *.
    destruct preferred, (available (multi_agent_workflow svc)) eqn:Hm,
      (available (agentic_workflow svc)) eqn:Ha; simpl;
      (rewrite resolved_route_ok by (unfold ResolvedExecutionRoute.valid; simpl; by rewrite Hv));
      (eexists; split; [reflexivity|]); simpl; rewrite <- ?available_spec, ?Hm, ?Ha;
      (split; [done|]); unfold ResolvedExecutionRoute.valid; simpl; by rewrite Hv.
  - destruct (available (multi_agent_workflow svc)) eqn:Hm,
      (available (agentic_workflow svc)) eqn:Ha; simpl;
      (rewrite resolved_route_ok by done); (eexists; split; [reflexivity|]); simpl;
      by rewrite <- ?available_spec, ?Hm, ?Ha.
Qed.

(** whatever mode the router prefers, the service resolves one whose workflow is
    configured - the assertions of [generate_assessment] never fail - namely the
    strongest configured one that does not exceed the preference, and it records a
    fallback reason exactly when the two differ, naming each missing capability. *)
Theorem route_execution_available request :
  router_ok request →
  ∃ r, _route_execution svc request = Ok r ∧
    let preferred := ResolvedExecutionRoute.preferred_execution_mode r in
    let actual := ResolvedExecutionRoute.execution_mode r in
    let fallbacks := ResolvedExecutionRoute.fallback_reason_codes r in
    mode_available actual ∧ (mode_rank actual ≤ mode_rank preferred)%Z ∧
    (∀ mode, mode_available mode → (mode_rank mode ≤ mode_rank preferred)%Z →
             (mode_rank mode ≤ mode_rank actual)%Z) ∧
    (fallbacks = [] ↔ actual = preferred) ∧
    (MULTI_AGENT_CAPABILITY_UNAVAILABLE ∈ fallbacks ↔
       preferred = MULTI_AGENT ∧ actual ≠ MULTI_AGENT) ∧
    (SINGLE_AGENT_CAPABILITY_UNAVAILABLE ∈ fallbacks ↔
       preferred ≠ DETERMINISTIC ∧ actual = DETERMINISTIC) ∧
    (∀ route, execution_router svc = Some route →
       ∃ d, route request = Ok d ∧
         preferred = ExecutionRoutingDecision.preferred_execution_mode d ∧
         ResolvedExecutionRoute.routing_reason_codes r = ExecutionRoutingDecision.reason_codes d).
Proof.
  intros Hr. unfold _route_execution, mode_available.
  destruct (execution_router svc) as [route|] eqn:Hrt.
  - destruct (Hr route Hrt) as (d & Hd & Hv). rewrite Hd. simpl.
    destruct d as [preferred reasons]. unfold ExecutionRoutingDecision.valid in Hv.
    apply andb_true_iff in Hv as [_ Hv]. simpl in *.
    destruct preferred, (available (multi_agent_workflow svc)) eqn:Hm,
      (available (agentic_workflow svc)) eqn:Ha; simpl;
      (rewrite resolved_route_ok by (unfold ResolvedExecutionRoute.valid; simpl; by rewrite Hv));
      (eexists; split; [reflexivity|]); simpl;
      rewrite <- ?available_spec, ?Hm, ?Ha;
      (split_and!; [done|done| |done| | |by intros ? [= <-]; eexists]);
      try (intros [] Hav; simpl; try done; rewrite <- available_spec in Hav; congruence);
      try set_solver; try (split; [set_solver|by intros [??]]).
  - destruct (available (multi_agent_workflow svc)) eqn:Hm,
      (available (agentic_workflow svc)) eqn:Ha; simpl;
      (rewrite resolved_route_ok by done); (eexists; split; [reflexivity|]); simpl;
      rewrite <- ?available_spec, ?Hm, ?Ha;
      (split_and!; [done|done| |done| | |done]);
      try (intros [] Hav; simpl; try done; rewrite <- available_spec in Hav; congruence);
      try set_solver; try (split; [set_solver|by intros [??]]).
Qed.
End routing.

(** ** Grounding *)

Section grounding.
Implicit Types (allowed seen : list (uuid * uuid)) (refs : list SourceReference.t).

(** The loop keeps, of the references to retrieved evidence, the first of each key. *)
Lemma grounded_references_eq allowed seen refs :
  grounded_references allowed seen refs =
  dedup_by_from reference_key seen (filter (λ r, reference_key r ∈ allowed) refs).
Proof.
  revert seen; induction refs as [|r refs IH]; intros seen; [done|].
  cbn [grounded_references]. rewrite filter_cons.
  destruct (decide (reference_key r ∈ allowed)) as [Ha|Ha]; cbn [dedup_by_from].
  - destruct (decide (reference_key r ∈ seen)) as [Hs|Hs].
    + rewrite decide_False by tauto. apply IH.
    + rewrite decide_True by tauto. by rewrite IH.
  - rewrite decide_False by tauto. apply IH.
Qed.

Lemma dedup_by_from_sublist {A K} `{EqDecision K} (key : A → K) (ks : list K) (l : list A) :
  dedup_by_from key ks l `sublist_of` l.
Proof.
  revert ks; induction l as [|a l IH]; intros ks; simpl; [constructor|].
  case_decide; by constructor.
Qed.

Lemma sublist_filter {A} (P : A → Prop) `{∀ x, Decision (P x)} (l : list A) :
  filter P l `sublist_of` l.
Proof.
  induction l as [|a l IH]; [constructor|]. rewrite filter_cons. case_decide; by constructor.
Qed.

Lemma filter_all {A} (P : A → Prop) `{∀ x, Decision (P x)} (l : list A) :
  (∀ x, x ∈ l → P x) → filter P l = l.
Proof.
  induction l as [|a l IH]; intros Hl; [done|]. rewrite filter_cons, decide_True.
  - rewrite IH; [done|]. intros x Hx. apply Hl. by right.
  - apply Hl. left.
Qed.

Lemma provenance_spec result evidence :
  _provenance_is_valid result evidence = true ↔
  ∀ r, r ∈ AssessmentResult.source_references result → reference_key r ∈ evidence_key <$> evidence.
Proof.
  unfold _provenance_is_valid. rewrite forallb_Forall, Forall_forall. by setoid_rewrite mem_spec.
Qed.

(** C27: the references of a grounded result are a subsequence of the model's, name only
    retrieved chunks, none of them twice and none of the grounded ones missing; the
    result claims external evidence exactly when some was retrieved; nothing else
    changes, grounding again changes nothing, and the provenance flag handed to the gate
    is false exactly when the model cited something that was not retrieved. *)
Theorem grounding_correct result evidence :
  let grounded := _apply_grounding_metadata result evidence in
  let refs := AssessmentResult.source_references result in
  let refs' := AssessmentResult.source_references grounded in
  refs' `sublist_of` refs ∧ NoDup (reference_key <$> refs') ∧
  (∀ k, k ∈ reference_key <$> refs' ↔ k ∈ reference_key <$> refs ∧ k ∈ evidence_key <$> evidence) ∧
  (AssessmentResult.external_evidence_status grounded = ExternalEvidenceStatus.RETRIEVED ↔
     evidence ≠ []) ∧
  grounded <| AssessmentResult.source_references := refs |>
           <| AssessmentResult.external_evidence_status :=
                AssessmentResult.external_evidence_status result |> = result ∧
  _apply_grounding_metadata grounded evidence = grounded ∧
  _provenance_is_valid grounded evidence = true ∧
  (_provenance_is_valid result evidence = false ↔
     ∃ r, r ∈ refs ∧ reference_key r ∉ evidence_key <$> evidence).
Proof.
  intros grounded refs refs'. set (allowed := evidence_key <$> evidence).
  assert (refs' = dedup_by reference_key (filter (λ r, reference_key r ∈ allowed) refs)) as Heq
    by apply grounded_references_eq.
  assert (∀ r, r ∈ refs' → reference_key r ∈ allowed) as Hall.
  { intros r. rewrite Heq. intros Hr%dedup_by_subset. by apply list_elem_of_filter in Hr as [? _]. }
  assert (NoDup (reference_key <$> refs')) as Hnd by (rewrite Heq; apply dedup_by_NoDup).
  split; [rewrite Heq; etrans; [apply dedup_by_from_sublist|apply sublist_filter]|].
  split; [done|]. split; [|split; [|split; [|split; [|split]]]].
  - intros k. rewrite Heq, dedup_by_keys, !list_elem_of_fmap.
    setoid_rewrite list_elem_of_filter. naive_solver.
  - simpl. by destruct evidence.
  - by destruct result.
  - assert (grounded_references allowed [] refs' = refs') as Hid.
    { rewrite grounded_references_eq, filter_all by done. apply dedup_by_from_id; set_solver. }
    change (_apply_grounding_metadata grounded evidence) with
      (grounded <| AssessmentResult.external_evidence_status :=
                     AssessmentResult.external_evidence_status grounded |>
                <| AssessmentResult.source_references := grounded_references allowed [] refs' |>).
    rewrite Hid. by destruct result.
  - by apply provenance_spec.
  - rewrite <- not_true_iff_false, provenance_spec. fold refs allowed. split.
    + intros Hn. destruct (decide (Exists (λ r, reference_key r ∉ allowed) refs)) as [He|He].
      * by apply Exists_exists in He.
      * rewrite <- Forall_Exists_neg, Forall_forall in He. destruct Hn. intros r Hr.
        by apply dec_stable, He.
    + intros (r & Hr & Hn) H. by apply Hn, H.
Qed.
End grounding.

(** ** Witness *)

(** The router forced to the multi-agent workflow in a deployment that has none. *)
Definition bare_services : services unit :=
  Services _ (ret f64_one) (λ _, raise KeyError) None None None None
    (Some (route (db := ascii_db) (Some ExecutionMode.MULTI_AGENT))).

Definition some_request : AssessmentRequest.t :=
  AssessmentRequest.mk "Company" None "Industry" "Problem" None [] "Outcome" [] None.

Lemma route_execution_available_witness :
  router_ok bare_services some_request ∧
  ∃ r, _route_execution bare_services some_request = Ok r ∧
    mode_available bare_services (ResolvedExecutionRoute.execution_mode r).
Proof.
  assert (router_ok bare_services some_request) as H.
  { intros rt [= <-]. eexists. split; reflexivity. }
  split; [exact H|].
  destruct (route_execution_available bare_services some_request H) as (r & Hr & Ha & _).
  exists r. split; [exact Hr|exact Ha].
Defined.
