(* ===== verification/AssessmentLifecycle.v ===== *)
(** The life of one assessment: [generate_assessment] creates a fresh row, commits every
    stage, and leaves in the committed tables exactly what it answers - or a recorded
    failure - whatever its collaborators do. *)
From S2P Require Import Prelude PyFloat Errors Domain AgentModels Schemas RuntimeModels.
From S2P Require Import Prompts Unicode Gate ExecutionRouter Session Storage Repositories Telemetry.
From S2P Require Import Identity Governance ReviewSpec GovernanceSpec.
From S2P Require Import MemorySession GovernanceTheorems Assessments AssessmentRouting.

(** ** Metadata that survives persistence *)

Definition agent_event_ok (e : AgentTraceEvent.t) : Prop :=
  datetime.utcoffset (AgentTraceEvent.timestamp e) = Some 0%Z.
Definition multi_event_ok (e : MultiAgentTraceEvent.t) : Prop :=
  MultiAgentTraceEvent.normalize e = e ∧
  datetime.utcoffset (MultiAgentTraceEvent.timestamp e) = Some 0%Z.

Definition execution_ok (e : ExecutionMetadata) : Prop :=
  execution_valid e = true ∧
  match e with
  | Deterministic _ => True
  | SingleAgent m => Forall agent_event_ok (AssessmentExecutionMetadata.trace m)
  | MultiAgent m =>
      MultiAgentExecutionMetadata.normalize m = m ∧
      MultiAgentErrors.normalize (MultiAgentExecutionMetadata.agent_errors m) =
        MultiAgentExecutionMetadata.agent_errors m ∧
      Forall multi_event_ok (MultiAgentExecutionMetadata.trace m)
  end.

(** The validators read a dumped execution back, by its mode marker. *)
Class ExecutionJsonLaws (J : Type) `{!Json J} `{!ExecutionJson J} := {
  dump_execution_truthy e : json_truthy (dump_execution (J := J) e) = true;
  payload_mode_dump e : payload_mode (dump_execution (J := J) e) = Some (execution_mode e);
  validate_dump e : execution_ok e →
    match e with
    | Deterministic m => validate_deterministic (dump_execution (J := J) e) = Ok m
    | SingleAgent m => validate_single_agent (dump_execution (J := J) e) = Ok m
    | MultiAgent m => validate_multi_agent (dump_execution (J := J) e) = Ok m
    end
}.

(** The strings of a routing decision fit the metadata fields. *)
Definition routing_ok (o : option routing_metadata) : Prop :=
  match o with
  | None => True
  | Some m =>
      rm_preferred m ∈ lit <$> ["deterministic"; "single_agent"; "multi_agent"] ∧
      len_le 12 (rm_reasons m) = true ∧ len_le 12 (rm_fallbacks m) = true ∧
      str_strip <$> rm_reasons m = rm_reasons m ∧ str_strip <$> rm_fallbacks m = rm_fallbacks m
  end.

Lemma metadata_of_ok r : ResolvedExecutionRoute.valid r = true → routing_ok (Some (metadata_of r)).
Proof.
  intros H. unfold ResolvedExecutionRoute.valid in H. apply andb_true_iff in H as [H1 H2].
  unfold len_le in *. split_and!; simpl.
  - destruct (ResolvedExecutionRoute.preferred_execution_mode r); set_solver.
  - unfold len_le. by rewrite length_fmap.
  - unfold len_le. by rewrite length_fmap.
  - rewrite <- list_fmap_compose. apply list_fmap_ext. intros i x _. by destruct x.
  - rewrite <- list_fmap_compose. apply list_fmap_ext. intros i x _. by destruct x.
Qed.

Ltac solve_valid :=
  rewrite !andb_true_iff in *; destruct_and?; split_and?; try done.

Lemma with_routing_ok o e : routing_ok o → execution_ok e → execution_ok (with_routing o e).
Proof.
  destruct o as [m|]; [|done]. intros (Hp & Hr & Hf & Hsr & Hsf) [Hv He].
  apply mem_spec in Hp.
  destruct e as [x|x|x]; (split; [|done || (destruct He as (Hn & Hs & Ht); split_and!; try done)]).
  - simpl in *. unfold DeterministicExecutionMetadata.valid in *. simpl. solve_valid.
  - simpl in *. unfold AssessmentExecutionMetadata.valid in *. simpl. solve_valid.
  - simpl in *. unfold MultiAgentExecutionMetadata.valid in *. simpl. solve_valid.
  - destruct x. unfold MultiAgentExecutionMetadata.normalize in *. simpl in *.
    injection Hn. intros. congruence.
Qed.

Lemma with_request_id_ok o e :
  opt_all (len_le 128) o = true → str_strip <$> o = o → execution_ok e →
  execution_ok (with_request_id o e).
Proof.
  destruct o as [rid|]; [|done]. intros Hl Hs [Hv He].
  destruct e as [x|x|x]; (split; [|done || (destruct He as (Hn & Hes & Ht); split_and!; try done)]).
  - simpl in *. unfold DeterministicExecutionMetadata.valid in *. simpl. solve_valid.
  - simpl in *. unfold AssessmentExecutionMetadata.valid in *. simpl. solve_valid.
  - simpl in *. unfold MultiAgentExecutionMetadata.valid in *. simpl. solve_valid.
  - destruct x. unfold MultiAgentExecutionMetadata.normalize in *. simpl in *.
    injection Hn. intros. injection Hs as Hs. congruence.
Qed.

Lemma with_graph_ok g m :
  opt_all GraphRetrievalExecutionMetadata.valid g = true → execution_ok (Deterministic m) →
  execution_ok (Deterministic (with_graph g m)).
Proof.
  destruct g as [g|]; [|done]. intros Hg [Hv _]. split; [|done].
  simpl in *. unfold DeterministicExecutionMetadata.valid in *. simpl. solve_valid.
Qed.

Lemma execution_mode_class e :
  execution_valid e = true →
  match e with
  | Deterministic _ => execution_mode e = lit "deterministic"
  | SingleAgent _ => execution_mode e ≠ lit "deterministic" ∧ execution_mode e ≠ lit "multi_agent"
  | MultiAgent _ => execution_mode e = lit "multi_agent"
  end.
Proof.
  destruct e as [m|m|m]; simpl; intros H.
  - unfold DeterministicExecutionMetadata.valid in H. solve_valid.
    match goal with H : mem (DeterministicExecutionMetadata.execution_mode _) _ = true |- _ =>
      rewrite mem_spec in H end. set_solver.
  - unfold AssessmentExecutionMetadata.valid in H. solve_valid;
    match goal with H : mem (AssessmentExecutionMetadata.execution_mode _) _ = true |- _ => rewrite mem_spec in H;
      intros Heq; rewrite Heq in H end; revert select (_ ∈ _); csimpl; rewrite !elem_of_cons;
      rewrite elem_of_nil; intros [Hx|[Hx|[]]]; vm_compute in Hx; done.
  - unfold MultiAgentExecutionMetadata.valid in H. solve_valid.
    match goal with H : mem (MultiAgentExecutionMetadata.execution_mode _) _ = true |- _ => rewrite mem_spec in H end.
    set_solver.
Qed.

(** ** Settling a transaction *)

Definition db_failure (e : exn) : Prop :=
  e = ApplicationError DatabaseUnavailableError ∨ e = ApplicationError PersistenceError.

Section settling.
Context {J S : Type} `{!Session (Database J) S} `{!SessionLaws (Database J) S}.
Implicit Types (db : Database J) (E : exn → Prop).

(** [settles m db E Q]: like [commits], for a computation whose database errors are
    already classified. *)
Definition settles {A} (m : M S A) db E (Q : A → Database J → Prop) : Prop :=
  ∀ s, view s = db → wp m (λ s' r,
    match r with
    | Ok a => Q a (durable s') ∧ view s' = durable s'
    | Raise e => E e ∧ durable s' = durable s ∨ db_failure e ∧ ∃ a, Q a (durable s')
    end) s.

Lemma handle_database_error_law q (s : S) :
  wp (_handle_database_error q) (λ s' r, durable s' = durable s ∧
    ∃ a, r = Ok a ∧ db_failure (ApplicationError a)) s.
Proof.
  assert (∃ a, (match q with OperationalError => DatabaseUnavailableError
                | _ => PersistenceError end) = a ∧ db_failure (ApplicationError a)) as (a & Ha & Hf).
  { destruct q; eexists; (split; [done|]); [by left|by right|by right]. }
  unfold _handle_database_error. rewrite Ha. apply wp_bind, wp_try.
  eapply wp_mono; [apply rollback_law|]. intros s' [[]|e] [Hd Hr].
  - apply wp_ret. split; [done|]. by exists a.
  - destruct Hr as [[q' ->] _]. apply wp_ret, wp_ret. split; [done|]. by exists a.
Qed.

(** [guard_database] classifies the database errors of a transaction. *)
Lemma guard_settles {A} (m : M S A) db E E' Q :
  commits m db E Q → (∀ e, E e → ¬ is_sql e → E' e) → (∀ e, db_failure e → E' e) →
  settles (guard_database m) db E' Q.
Proof.
  intros Hm HE Hdb s Hs. unfold guard_database. apply wp_try.
  eapply wp_mono; [by apply Hm|]. intros s' [a|e]; [done|]. intros H.
  assert (is_sql e ∨ ¬ is_sql e) as [[q ->]|Hn].
  { destruct e; try (by right; intros [??]). left. by eexists. }
  - apply wp_bind. eapply wp_mono; [apply handle_database_error_law|].
    intros s'' r (Hd & a & -> & Hf). apply wp_raise. rewrite Hd.
    destruct H as [[_ H]|[_ H]]; [left|right]; (split; [|done]); auto.
  - destruct H as [[He Hd]|[? _]]; [|done].
    destruct e; try (apply wp_raise; left; split; [by apply HE|done]). destruct Hn. by eexists.
Qed.

Lemma neutral_request_id :
  neutral get_request_id (λ o, opt_all (len_le 128) o = true ∧ str_strip <$> o = o).
Proof.
  intros s. eapply wp_mono; [apply request_id_law|]. by intros s' r [Hk (o & -> & ? & ?)].
Qed.
End settling.

(** ** The stages of an assessment *)

Section lifecycle.
Context {J S : Type} `{!Session (Database J) S} `{!SessionLaws (Database J) S} `{!Exporter S} `{!ExporterLaws (Database J) S}.
Context `{!Json J}.
Context `{!PydanticModel J QualityGateResult.t gate_result_ok}.
Context `{!PydanticModel J OperationalTelemetry.t telemetry_ok}.
Context `{!PydanticModel J AssessmentResult.t assessment_result_ok}.
Context `{!PydanticModel J AssessmentRequest.t request_ok}.
Context `{!ExecutionJson J} `{!ExecutionJsonLaws J}.
Context (svc : services S).
Implicit Types (db : Database J) (id : uuid) (a : AssessmentModel.t J).

(** What the service relies on in its collaborators: they leave the assessment tables
    alone, whether they return or raise, and return valid metadata. *)
Record services_ok : Prop := {
  perf_counter_ok s : wp (perf_counter svc) (λ s' r, keeps s s' ∧ ∃ t, r = Ok t) s;
  generator_ok prompt : neutral (generator svc prompt) (λ _, True);
  rag_ok prepare : rag_service svc = Some prepare → ∀ request,
    neutral (prepare request)
      (λ p, opt_all GraphRetrievalExecutionMetadata.valid (prep_graph p) = true);
  single_agent_ok run : agentic_workflow svc = Some run → ∀ id request,
    neutral (run id request) (λ out, execution_ok (out_execution out));
  multi_agent_ok run : multi_agent_workflow svc = Some run → ∀ id request,
    neutral (run id request) (λ out, execution_ok (out_execution out));
  governance_ok config : runtime_governance svc = Some config → config_ok config;
  service_router_ok request : router_ok svc request
}.

Section one_request.
Context (request : AssessmentRequest.t) (p : option principal).
Context (request_valid : request_ok request).

(** The row of a new assessment: [a] was inserted for this request under a fresh key and
    nothing else changed. *)
Definition stored db0 id a db : Prop :=
  Database.assessments db0 !! id = None ∧ frame id db0 db ∧
  Database.assessments db !! id = Some a ∧ AssessmentModel.id a = id ∧
  AssessmentModel.request_payload a = model_dump request ∧
  AssessmentModel.created_by_subject a = AuthenticatedPrincipal.subject <$> p ∧
  datetime.utcoffset (AssessmentModel.created_at a) = Some 0%Z.

Definition at_stage (status : AssessmentStatus.t) db0 id db : Prop :=
  ∃ a, stored db0 id a db ∧ unopened db id ∧ AssessmentModel.status a = status.

(** The columns no update touches. *)
Definition carries a a' : Prop :=
  AssessmentModel.id a' = AssessmentModel.id a ∧
  AssessmentModel.request_payload a' = AssessmentModel.request_payload a ∧
  AssessmentModel.created_by_subject a' = AssessmentModel.created_by_subject a ∧
  AssessmentModel.created_at a' = AssessmentModel.created_at a.

Lemma stored_put db0 id a a' db :
  stored db0 id a db → carries a a' → stored db0 id a' (put_assessment a' db).
Proof.
  intros (Hf & Hfr & Ha & Hid & Hr & Hc & Ht) (Hid' & Hr' & Hc' & Ht').
  assert (AssessmentModel.id a' = id) as Hi by congruence. split_and!; try congruence.
  - eapply frame_trans; [done|]. rewrite <- Hi. apply frame_put_assessment.
  - simpl. by rewrite Hi, lookup_insert_eq.
Qed.

Lemma unopened_put db id a : unopened db id → unopened (put_assessment a db) id.
Proof. done. Qed.

(** Without an assessment row there is no review: the foreign keys. *)
Lemma unopened_absent db id :
  Database.ok db → Database.assessments db !! id = None → unopened db id.
Proof.
  intros (_ & _ & Hs & He & _) Hn. split.
  - destruct (Database.states db !! id) as [m|] eqn:Hm; [|done].
    destruct (Hs id m Hm) as [_ [? ?]]. congruence.
  - unfold events_of. destruct (filter _ (Database.events db)) as [|e l] eqn:Hl; [done|].
    assert (e ∈ filter (λ e, ReviewEventModel.assessment_id e = id) (Database.events db)) as Hin.
    { rewrite Hl. left. }
    apply list_elem_of_filter in Hin as [Hid Hin]. rewrite Forall_forall in He.
    destruct (He e Hin) as [_ [? ?]]. congruence.
Qed.

Lemma create_settles db id :
  Database.ok db →
  settles (create_record id request p) db db_failure
    (λ _ db', at_stage AssessmentStatus.PENDING db id db').
Proof.
  intros Hok. eapply (guard_settles _ _ is_sql); [|by intros|done].
  apply commits_bind. unfold create. txn_steps.
  match goal with H : tables_ok _ |- _ => rename H into Hok' end.
  match goal with H : datetime.utcoffset _ = _ |- _ => rename H into Hnow end.
  assert (Database.assessments db !! id = None) as Hfresh.
  { destruct Hok' as [Hc _]. simpl in Hc. apply orb_false_iff in Hc as [_ Hc].
    rewrite bool_decide_eq_false in Hc. by apply eq_None_not_Some. }
  apply commits_commit_unit; [done|]. intros _. eexists. split; [|split].
  - split; [done|]. split.
    { intros id' Hne. simpl. by rewrite lookup_insert_ne. }
    split; [simpl; by rewrite lookup_insert_eq|]. by split_and!.
  - exact (unopened_absent db id Hok Hfresh).
  - done.
Qed.

(** An update of the assessment row, committed. *)
Lemma update_settles (m : M S (option (PersistedAssessment.t J)))
    (f : AssessmentModel.t J → datetime → AssessmentModel.t J) db0 id db st
    (Q : unit → Database J → Prop) :
  (∀ E (P : option (PersistedAssessment.t J) → Database J → Prop), (∀ e, is_sql e → E e) →
     (Database.assessments db !! id = None → P None db) →
     (∀ a now, Database.assessments db !! id = Some a → datetime.utcoffset now = Some 0%Z →
        Database.ok (put_assessment (f a now) db) →
        P (Some (_to_record (f a now))) (put_assessment (f a now) db)) →
     txn m db E P) →
  at_stage st db0 id db → (∀ a now, carries a (f a now)) →
  (∀ a now, stored db0 id (f a now) (put_assessment (f a now) db) → unopened db id →
     Q tt (put_assessment (f a now) db)) →
  settles (guard_database
    (let* record := m in
     match record with None => app_raise PersistenceError | Some _ => commit end)) db db_failure Q.
Proof.
  intros Hm (a & Hst & Hu & _) Hf HQ. eapply (guard_settles _ _ is_sql); [|by intros|done].
  pose proof Hst as (_ & _ & Ha & _).
  apply commits_bind, Hm; [done|by rewrite Ha|].
  intros a0 now Ha0 _ _. rewrite Ha in Ha0. injection Ha0 as <-.
  apply commits_commit_unit; [done|]. intros _. apply HQ; [|done]. by eapply stored_put.
Qed.

Lemma start_settles db0 id db :
  at_stage AssessmentStatus.PENDING db0 id db →
  settles (start_processing id) db db_failure
    (λ _ db', at_stage AssessmentStatus.PROCESSING db0 id db').
Proof.
  intros Hst. eapply (update_settles _ (λ a now, a <| AssessmentModel.status :=
    AssessmentStatus.PROCESSING |> <| AssessmentModel.updated_at := now |>)); [|done| |].
  - intros E P HE HN HS. by apply txn_update.
  - done.
  - intros a now Hs Hu. by eexists.
Qed.

(** The failure of a generation, as recorded: its stable code and public message. *)
Definition failure_recorded db0 id (x : app_error) db : Prop :=
  ∃ a, stored db0 id a db ∧ AssessmentModel.status a = AssessmentStatus.FAILED ∧
    AssessmentModel.error_code a = Some (error_code x) ∧
    AssessmentModel.error_message a = Some (public_message x).

Lemma persist_failure_settles db0 id db x :
  at_stage AssessmentStatus.PROCESSING db0 id db →
  settles (_persist_failure id (error_code x) (public_message x)) db db_failure
    (λ _ db', failure_recorded db0 id x db').
Proof.
  intros Hst. eapply (update_settles _ (λ a now, failed_model a now (error_code x)
    (public_message x))); [|done| |].
  - intros E P HE HN HS. by apply txn_mark_failed.
  - done.
  - intros a now Hs Hu. eexists. split; [exact Hs|]. simpl.
    rewrite !take_ge by (first [apply error_code_bounded|apply public_message_bounded]). done.
Qed.

(** ** Generation *)

(** The workflow of the mode produced this result and this evidence. *)
Definition produced id (mode : ExecutionMode.t) (r : AssessmentResult.t)
    (evidence : list RetrievedEvidence.t) : Prop :=
  match mode with
  | ExecutionMode.MULTI_AGENT =>
      ∃ run out, multi_agent_workflow svc = Some run ∧ produces (run id request) out ∧
        r = out_result out ∧ evidence = out_evidence out
  | ExecutionMode.SINGLE_AGENT =>
      ∃ run out, agentic_workflow svc = Some run ∧ produces (run id request) out ∧
        r = out_result out ∧ evidence = out_evidence out
  | ExecutionMode.DETERMINISTIC =>
      match rag_service svc with
      | Some prepare =>
          ∃ prep, produces (prepare request) prep ∧ evidence = prep_evidence prep ∧
            produces (generator svc (build_assessment_prompt request (prep_context prep))) r
      | None =>
          evidence = [] ∧
          produces (generator svc (build_assessment_prompt request NO_EXTERNAL_EVIDENCE)) r
      end
  end.

(** What the generation hands to persistence. *)
Definition generated_ok id mode (x : workflow_output * bool * option Z) : Prop :=
  ∃ r, produced id mode r (out_evidence x.1.1) ∧
    out_result x.1.1 = _apply_grounding_metadata r (out_evidence x.1.1) ∧
    x.1.2 = _provenance_is_valid r (out_evidence x.1.1) ∧
    execution_ok (out_execution x.1.1) ∧ opt_all (Z.leb 0) x.2 = true.

Lemma elapsed_ms_nonneg t1 t2 n : elapsed_ms t1 t2 = Ok n → (0 ≤ n)%Z.
Proof. unfold elapsed_ms. destruct (py_round _); simpl; [|done]. intros [= <-]. lia. Qed.

Section generation.
Context (Hsvc : services_ok).

Lemma perf_counter_neutral : neutral (perf_counter svc) (λ _, True).
Proof.
  intros s. eapply wp_mono; [by apply perf_counter_ok|]. by intros s' r [Hk [t ->]].
Qed.

Lemma timed_preparation_neutral prepare :
  rag_service svc = Some prepare →
  neutral (timed_preparation svc prepare request)
    (λ x, opt_all GraphRetrievalExecutionMetadata.valid (prep_graph x.1) = true ∧
          produces (prepare request) x.1 ∧ (0 ≤ x.2)%Z).
Proof.
  intros Hr. unfold timed_preparation.
  apply neutral_bind with (P := λ _, True); [apply perf_counter_neutral|].
  intros started _ s.
  pose proof (neutral_produces _ _ (rag_ok Hsvc prepare Hr request) s) as Hp.
  unfold wp in *. destruct (prepare request s) as [s1 r]. simpl in Hp.
  destruct Hp as [Hk Hp].
  assert (neutral (let* now := perf_counter svc in
     let* duration := of_res (elapsed_ms started now) in
     let* preparation := of_res r in ret (preparation, duration))
     (λ x, opt_all GraphRetrievalExecutionMetadata.valid (prep_graph x.1) = true ∧
          produces (prepare request) x.1 ∧ (0 ≤ x.2)%Z)) as Hn.
  { apply neutral_bind with (P := λ _, True); [apply perf_counter_neutral|]. intros now _.
    apply neutral_bind with (P := λ n, (0 ≤ n)%Z).
    { apply neutral_of_res. apply elapsed_ms_nonneg. }
    intros n Hn. apply neutral_bind with (P := λ x, r = Ok x).
    { by apply neutral_of_res. }
    intros x ->. apply neutral_ret. simpl. by destruct Hp. }
  specialize (Hn s1). unfold wp in Hn. destruct (bind _ _ s1) as [s2 o]. simpl in *.
  destruct Hn as [Hk2 Hn]. split; [by eapply keeps_trans|done].
Qed.

Lemma run_workflow_neutral id mode metadata execution :
  mode_available svc mode → routing_ok metadata → execution_ok (Deterministic execution) →
  neutral (run_workflow svc id request mode metadata execution)
    (λ g, execution_ok (out_execution g.1) ∧ opt_all (Z.leb 0) g.2 = true ∧
          produced id mode (out_result g.1) (out_evidence g.1)).
Proof.
  intros Hav Hm Hx. destruct mode; unfold run_workflow, produced; simpl in Hav.
  - destruct (rag_service svc) as [prepare|] eqn:Hr.
    + eapply neutral_bind; [by apply timed_preparation_neutral|].
      intros [prep n] (Hg & Hp & Hn). simpl in *.
      eapply neutral_bind; [apply neutral_produces, generator_ok; exact Hsvc|].
      intros r [_ Hpr]. apply neutral_ret. split; [by apply with_graph_ok|].
      split; [by apply Z.leb_le|]. by exists prep.
    + eapply neutral_bind; [apply neutral_produces, generator_ok; exact Hsvc|].
      intros r [_ Hpr]. by apply neutral_ret.
  - destruct (agentic_workflow svc) as [run|] eqn:Hr; [|by destruct Hav].
    eapply neutral_bind; [apply neutral_produces; by apply (single_agent_ok Hsvc)|].
    intros out [Ho Hp]. apply neutral_ret. split; [by apply with_routing_ok|].
    split; [done|]. by exists run, out.
  - destruct (multi_agent_workflow svc) as [run|] eqn:Hr; [|by destruct Hav].
    eapply neutral_bind; [apply neutral_produces; by apply (multi_agent_ok Hsvc)|].
    intros out [Ho Hp]. apply neutral_ret. split; [by apply with_routing_ok|].
    split; [done|]. by exists run, out.
Qed.

Lemma generation_neutral id mode metadata execution :
  mode_available svc mode → routing_ok metadata → execution_ok (Deterministic execution) →
  neutral (let* generated := run_workflow svc id request mode metadata execution in
           ground generated) (generated_ok id mode).
Proof.
  intros Hav Hm Hx. eapply neutral_bind; [by apply run_workflow_neutral|].
  intros [out n] (Ho & Hn & Hp). unfold ground.
  eapply neutral_bind; [apply neutral_request_id|]. intros rid [Hl Hs].
  apply neutral_ret. exists (out_result out). split_and!; try done. by apply with_request_id_ok.
Qed.

(** The handlers: every failure of the generation ends as a recorded failure, unless the
    database fails too. *)
Lemma generation_failed_law {A} db0 id db e (s : S) :
  at_stage AssessmentStatus.PROCESSING db0 id db → view s = db → durable s = db →
  wp (generation_failed (A := A) id e) (λ s' r,
    ∃ e', r = Raise e' ∧
      ((∃ x, e' = ApplicationError x ∧ failure_recorded db0 id x (durable s')) ∨
       db_failure e' ∧ (durable s' = db ∨ ∃ x, failure_recorded db0 id x (durable s')))) s.
Proof.
  intros Hst Hv Hd.
  assert (∀ x (e' : exn), e' = ApplicationError x →
    wp (_persist_failure id (error_code x) (public_message x) ;;; raise (A := A) e') (λ s' r,
    ∃ e', r = Raise e' ∧
      ((∃ x, e' = ApplicationError x ∧ failure_recorded db0 id x (durable s')) ∨
       db_failure e' ∧ (durable s' = db ∨ ∃ x, failure_recorded db0 id x (durable s')))) s) as H.
  { intros x e' ->. apply wp_bind.
    eapply wp_mono; [by eapply (persist_failure_settles db0 id db x Hst)|].
    intros s' [[]|e1].
    - intros [Hf _]. apply wp_raise. eexists. split; [done|]. left. by exists x.
    - intros Hf. exists e1. split; [done|]. right.
      destruct Hf as [[Hf ->]|[Hf [_ Hr]]]; (split; [done|]); [by left|right; by exists x]. }
  destruct e; try by apply H.
Qed.
End generation.

(** ** Persisting the result *)

(** The gate's verdict on a generated candidate; without governance it is completed. *)
Definition verdict (x : workflow_output * bool * option Z) : RuntimeRiskDecision.t :=
  match runtime_governance svc with
  | None => RuntimeRiskDecision.AUTO_COMPLETE
  | Some config =>
      gate_decision (GovernanceConfig.policy config)
        (derive_signals (out_result x.1.1) (out_evidence x.1.1) (out_execution x.1.1) x.1.2)
  end.

(** [round] of a clock difference that is not a number. *)
Definition clock_error (e : exn) : Prop := ∃ t1 t2, elapsed_ms t1 t2 = Raise e.

(** The row of a finished generation. *)
Definition finished db0 id (x : workflow_output * bool * option Z) a (now : datetime) db : Prop :=
  stored db0 id a db ∧ datetime.utcoffset now = Some 0%Z ∧
  ∃ a0, a = finalized (verdict x) a0 now (model_dump (out_result x.1.1))
              (dump_execution (out_execution x.1.1)).

Lemma stored_step db0 id a a' db db' :
  stored db0 id a db → frame id db db' → Database.assessments db' !! id = Some a' →
  carries a a' → stored db0 id a' db'.
Proof.
  intros (Hf & Hfr & Ha & Hid & Hr & Hc & Ht) Hfr' Ha' (Hid' & Hr' & Hc' & Ht').
  split_and!; try congruence. by eapply frame_trans.
Qed.

Lemma finalized_carries d a now c x : carries a (finalized d a now c x).
Proof. by destruct d. Qed.

Lemma txn_perf_counter (Hsvc : services_ok) db E Q :
  (∀ t, Q t db) → txn (perf_counter svc) db E Q.
Proof.
  intros HQ s <-. eapply wp_mono; [by apply perf_counter_ok|].
  intros s' r [[Hv Hd] [t ->]]. rewrite Hv, Hd. auto.
Qed.

Lemma persist_settles (Hsvc : services_ok) db0 id db x started :
  at_stage AssessmentStatus.PROCESSING db0 id db →
  execution_ok (out_execution x.1.1) → opt_all (Z.leb 0) x.2 = true →
  settles (persist_result svc id x started) db (λ e, db_failure e ∨ clock_error e)
    (λ record db', ∃ a now, record = _to_record a ∧ finished db0 id x a now db').
Proof.
  intros (a & Hst & Hu & _) Hx Hn. destruct x as [[out prov] n]. simpl in *.
  pose proof Hst as (_ & _ & Ha & Hid & _).
  eapply (guard_settles _ _ (λ e, is_sql e ∨ clock_error e));
    [|by intros e [?|?] ?; [|right]|by left].
  assert (HE : ∀ e, is_sql e → is_sql e ∨ clock_error e) by auto.
  apply commits_bind. unfold finished, verdict. simpl.
  destruct (runtime_governance svc) as [config|] eqn:Hg.
  - apply txn_bind, (txn_perf_counter Hsvc). intros t.
    apply txn_bind, txn_of_res. destruct (elapsed_ms started t) as [d|e] eqn:Hd.
    2: { right. by exists started, t. }
    apply elapsed_ms_nonneg in Hd.
    apply txn_bind. eapply process_candidate_txn;
      [exact dump_execution_truthy|by apply (governance_ok Hsvc)|exact HE|
       by apply (governance_ok Hsvc)|exact Ha|exact Hid| |
       apply Hx|exact Hd|exact Hn|done|].
    { by destruct Hu as [-> _]. }
    intros record db' (_ & Hfr & (a1 & now & Ha1 & Hnow & Ha' & ->) & _).
    rewrite Ha in Ha1. injection Ha1 as <-.
    apply txn_ret, commits_commit_ret; [exact HE|]. intros _.
    eexists _, now. split; [done|]. split_and!; [|done|by exists a].
    eapply stored_step; [exact Hst|exact Hfr|exact Ha'|apply finalized_carries].
  - apply txn_mark_completed; [exact HE|by rewrite Ha|].
    intros a1 now Ha1 Hnow a' _. rewrite Ha in Ha1. injection Ha1 as <-.
    apply commits_commit_ret; [exact HE|]. intros _.
    eexists _, now. split; [done|]. split_and!; [|done|by exists a].
    by eapply stored_put.
Qed.

(** ** The answer *)

#[local] Arguments _parse_execution_metadata : simpl never.

Definition response_of (d : RuntimeRiskDecision.t) id (created now : datetime)
    (result : AssessmentResult.t) (execution : ExecutionMetadata) : AssessmentResponse.t :=
  match outcome_of d with
  | Published => AssessmentResponse.mk id AssessmentStatus.COMPLETED request (Some result)
      (Some execution) None created now (Some now)
  | AwaitingReview => AssessmentResponse.mk id AssessmentStatus.PENDING_REVIEW request None
      (Some execution) None created now None
  | Blocked => AssessmentResponse.mk id AssessmentStatus.FAILED request None None
      (Some (AssessmentFailure.mk "runtime_risk_gate_blocked"
         "The assessment was blocked by the runtime risk and quality gate.")) created now None
  end.

Lemma parse_dump_execution x :
  execution_ok x → _parse_execution_metadata (Some (dump_execution x : J)) = Ok (Some x).
Proof.
  intros Hx. unfold _parse_execution_metadata. rewrite payload_mode_dump.
  pose proof (validate_dump x Hx) as Hd. destruct Hx as [Hv _].
  pose proof (execution_mode_class x Hv) as Hm. destruct x as [m|m|m].
  - rewrite Hm, bool_decide_eq_true_2 by done. by rewrite Hd.
  - destruct Hm. rewrite !bool_decide_eq_false_2 by congruence. by rewrite Hd.
  - rewrite Hm. rewrite bool_decide_eq_false_2 by done.
    rewrite bool_decide_eq_true_2 by done. by rewrite Hd.
Qed.

Lemma to_response_finished db0 id x a now db :
  finished db0 id x a now db → execution_ok (out_execution x.1.1) →
  _to_response (_to_record a) =
    Ok (response_of (verdict x) id (AssessmentModel.created_at a) now (out_result x.1.1)
          (out_execution x.1.1)).
Proof.
  intros ((_ & _ & _ & Hid & Hr & _ & Hc) & Hnow & a0 & Ha) Hx.
  unfold _to_response, parse_record. simpl. rewrite Hr, (as_utc_id _ Hc), model_validate_dump by done.
  subst a. destruct (verdict x); simpl in *;
    rewrite ?model_validate_dump, ?parse_dump_execution by done; simpl;
    rewrite ?Hid, ?(as_utc_id _ Hnow); reflexivity.
Qed.

(** ** generate_assessment *)

(** What a request leaves behind: the answer, or the exception and the stage reached. *)
Definition lifecycle_outcome db db' (r : res AssessmentResponse.t) : Prop :=
  match r with
  | Ok resp => ∃ id mode x a now,
      mode_available svc mode ∧ generated_ok id mode x ∧ finished db id x a now db' ∧
      _to_response (_to_record a) = Ok resp ∧
      resp = response_of (verdict x) id (AssessmentModel.created_at a) now (out_result x.1.1)
               (out_execution x.1.1)
  | Raise e =>
      db_failure e ∧ db' = db ∨ ∃ id,
        (∃ x, e = ApplicationError x ∧ failure_recorded db id x db') ∨
        (db_failure e ∧ ∃ a, stored db id a db') ∨
        (clock_error e ∧ at_stage AssessmentStatus.PROCESSING db id db')
  end.

Lemma at_stage_stored st db0 id db : at_stage st db0 id db → ∃ a, stored db0 id a db.
Proof. intros (a & Ha & _). by exists a. Qed.

(** One stage of the chain: a settled transaction, whose continuation runs on its result. *)
Lemma settles_step {A B} (m : M S A) (k : A → M S B) db E Q (R : S → res B → Prop) (s : S) :
  settles m db E Q → view s = db →
  (∀ v s', Q v (durable s') → view s' = durable s' → wp (k v) R s') →
  (∀ e s', E e → durable s' = durable s → R s' (Raise e)) →
  (∀ e s' v, db_failure e → Q v (durable s') → R s' (Raise e)) →
  wp (bind m k) R s.
Proof.
  intros Hm Hv Hk HE HF. apply wp_bind. eapply wp_mono; [by apply Hm|].
  intros s' [a|e]; [intros [??]; auto|]. intros [[??]|[? [a ?]]]; eauto.
Qed.

Lemma routing_metadata_ok d m :
  routing_ok m → execution_ok (Deterministic d) → ∃ d',
    with_routing m (Deterministic d) = Deterministic d' ∧ execution_ok (Deterministic d').
Proof.
  intros Hm Hd. pose proof (with_routing_ok m _ Hm Hd) as H.
  destruct m; simpl in *; by eexists.
Qed.

(** Routing and the first metadata object never fail. *)
Lemma routing_total (Hsvc : services_ok) (R : S → res AssessmentResponse.t → Prop)
    (k : ResolvedExecutionRoute.t → option routing_metadata → DeterministicExecutionMetadata.t →
         M S AssessmentResponse.t) (s : S) :
  (∀ routing m d, mode_available svc (ResolvedExecutionRoute.execution_mode routing) →
     routing_ok m → execution_ok (Deterministic d) → wp (k routing m d) R s) →
  wp (let* routing := of_res (_route_execution svc request) in
      let metadata :=
        match execution_router svc with Some _ => Some (metadata_of routing) | None => None end in
      let* execution := of_res
        (DeterministicExecutionMetadata.construct
           (match with_routing metadata (Deterministic
                    (DeterministicExecutionMetadata.mk None "deterministic" None [] [] None)) with
            | Deterministic m => m
            | _ => DeterministicExecutionMetadata.mk None "deterministic" None [] [] None
            end)) in
      k routing metadata execution) R s.
Proof.
  intros Hk. destruct (route_resolved svc request (service_router_ok Hsvc request))
    as (routing & Hr & Hav & Hval).
  apply wp_bind. rewrite Hr. unfold of_res at 1, wp at 1. simpl. apply wp_bind.
  set (metadata := match execution_router svc with Some _ => _ | None => _ end).
  assert (routing_ok metadata) as Hm.
  { unfold metadata. destruct (execution_router svc); [by apply metadata_of_ok|done]. }
  destruct (routing_metadata_ok
    (DeterministicExecutionMetadata.mk None "deterministic" None [] [] None) metadata Hm)
    as (d & Hd & Hok); [by split|].
  rewrite Hd. unfold DeterministicExecutionMetadata.construct.
  pose proof Hok as [Hv _]. simpl in Hv. rewrite Hv. unfold of_res, wp at 1. simpl.
  by apply Hk.
Qed.

(** C1: the life of an assessment.  Started on consistent committed tables, a request
    either changes nothing and reports a database failure, or inserts exactly one new
    row under a fresh identifier and changes no other: if it answers, the committed row
    is the one the gate's verdict asks for, carrying the grounded result of the workflow
    that ran, and reading that row back gives the very answer; if the generation fails
    the row is FAILED with that error's stable code and public message; otherwise the
    database failed (or the clock difference could not be rounded) and the row stays at
    the stage it had reached. *)
Theorem generate_assessment_lifecycle (s : S) :
  services_ok → view s = durable s → Database.ok (durable s) →
  wp (generate_assessment svc request p)
    (λ s' r, lifecycle_outcome (durable s) (durable s') r) s.
Proof.
  intros Hsvc Hv Hok. unfold generate_assessment. apply wp_bind.
  eapply wp_mono; [apply uuid4_law|]. intros s0 r [[Hv0 Hd0] [id ->]]. set (db := durable s).
  eapply (settles_step _ _ db); [by apply create_settles|by rewrite Hv0| | |].
  2: { intros e s1 He Hd1. left. split; [done|]. by rewrite Hd1. }
  2: { intros e s1 [] He Hst. right. exists id. right; left. split; [done|].
       by eapply at_stage_stored. }
  intros [] s1 Hst1 Hv1.
  eapply settles_step; [by apply start_settles|exact Hv1| | |].
  2: { intros e s2 He Hd2. right. exists id. right; left. rewrite Hd2. split; [done|].
       by eapply at_stage_stored. }
  2: { intros e s2 [] He Hst. right. exists id. right; left. split; [done|].
       by eapply at_stage_stored. }
  intros [] s2 Hst2 Hv2. apply wp_bind. eapply wp_mono; [by apply perf_counter_ok|].
  intros s3 r [[Hv3 Hd3] [t ->]]. refine (routing_total Hsvc _
    (λ routing m d, execute svc id request t routing m d) s3 _).
  intros routing m d Hav Hm Hx. unfold execute. apply wp_bind, wp_try.
  eapply wp_mono; [by apply generation_neutral|]. intros s4 [x|e] [[Hv4 Hd4] Hx4].
  - assert (at_stage AssessmentStatus.PROCESSING db id (durable s4)) as Hst4.
    { by rewrite Hd4, Hd3. }
    destruct Hx4 as (r & Hp & Hres & Hprov & Hex & Hn).
    eapply settles_step; [by apply persist_settles|congruence| | |].
    + intros record s5 (a & now & -> & Hfin) Hv5.
      pose proof (to_response_finished db id x a now (durable s5) Hfin Hex) as Hr.
      unfold wp, of_res. simpl. rewrite Hr. eexists id, _, x, a, now.
      split_and!; [exact Hav|by exists r|exact Hfin|exact Hr|done].
    + intros e s5 [He|He] Hd5; rewrite Hd5; right; exists id; [right; left|right; right].
      * split; [done|]. by eapply at_stage_stored.
      * done.
    + intros e s5 record He (a & now & -> & Hfin & _). right. exists id. right; left. by eauto.
  - assert (at_stage AssessmentStatus.PROCESSING db id (durable s4)) as Hst4.
    { by rewrite Hd4, Hd3. }
    eapply wp_mono; [apply (generation_failed_law db id (durable s4)); [done|congruence|done]|].
    intros s5 r (e' & -> & [Hf|[He' [Hd5|[x (a & Ha & _)]]]]); right; exists id.
    + by left.
    + right; left. rewrite Hd5. split; [done|]. by eapply at_stage_stored.
    + right; left. split; [done|]. by exists a.
Qed.

(** What stored execution metadata are read as: the class its mode names. *)
Definition reads_execution (j : J) (r : res ExecutionMetadata) : Prop :=
  match payload_mode j with
  | Some m =>
      if bool_decide (m = "deterministic") then
        r = match validate_deterministic j with Ok x => Ok (Deterministic x) | Raise e => Raise e end
      else if bool_decide (m = "multi_agent") then
        r = match validate_multi_agent j with Ok x => Ok (MultiAgent x) | Raise e => Raise e end
      else r = match validate_single_agent j with Ok x => Ok (SingleAgent x) | Raise e => Raise e end
  | None => r = match validate_single_agent j with Ok x => Ok (SingleAgent x) | Raise e => Raise e end
  end.

(** An answer that states the row, field by field. *)
Definition states_row (a : AssessmentModel.t J) (resp : AssessmentResponse.t) : Prop :=
  AssessmentResponse.assessment_id resp = AssessmentModel.id a ∧
  AssessmentResponse.status resp = AssessmentModel.status a ∧
  model_validate (AssessmentModel.request_payload a) = Ok (AssessmentResponse.input resp) ∧
  match AssessmentModel.result_payload a, AssessmentResponse.result resp with
  | Some j, Some x => model_validate j = Ok x
  | None, None => True
  | _, _ => False
  end ∧
  match AssessmentModel.execution_metadata a, AssessmentResponse.execution resp with
  | Some j, Some x => reads_execution j (Ok x)
  | None, None => True
  | _, _ => False
  end ∧
  AssessmentResponse.error resp =
    match AssessmentModel.error_code a, AssessmentModel.error_message a with
    | Some code, Some message => Some (AssessmentFailure.mk code message)
    | _, _ => None
    end ∧
  states_time (AssessmentModel.created_at a) (AssessmentResponse.created_at resp) ∧
  states_time (AssessmentModel.updated_at a) (AssessmentResponse.updated_at resp) ∧
  match AssessmentModel.completed_at a, AssessmentResponse.completed_at resp with
  | Some d, Some d' => states_time d d'
  | None, None => True
  | _, _ => False
  end.

(** A payload of the row that its class refuses, and the refusal. *)
Definition payload_refused (a : AssessmentModel.t J) (e : exn) : Prop :=
  model_validate (X := AssessmentRequest.t) (AssessmentModel.request_payload a) = Raise e ∨
  (∃ j, AssessmentModel.result_payload a = Some j ∧
        model_validate (X := AssessmentResult.t) j = Raise e) ∨
  (∃ j, AssessmentModel.execution_metadata a = Some j ∧ reads_execution j (Raise e)).

(** The answer to a read of the row: what it states, when its payloads validate and agree with
    its status; a persistence failure when a payload no longer validates. *)
Definition row_answer (a : AssessmentModel.t J) (r : res AssessmentResponse.t) : Prop :=
  match r with
  | Ok resp => states_row a resp ∧ AssessmentResponse.valid resp = true
  | Raise e =>
      (e = ApplicationError PersistenceError ∧ payload_refused a ValidationError) ∨
      (e = ValidationError ∧ ∃ resp, states_row a resp ∧ AssessmentResponse.valid resp = false) ∨
      (e ≠ ValidationError ∧ payload_refused a e)
  end.

Lemma parse_execution_reads o :
  match _parse_execution_metadata (J := J) o, o with
  | Ok (Some x), Some j => reads_execution j (Ok x)
  | Ok None, None => True
  | Raise e, Some j => reads_execution j (Raise e)
  | _, _ => False
  end.
Proof.
  destruct o as [j|]; [|done]. unfold _parse_execution_metadata, reads_execution.
  destruct (payload_mode j) as [m|].
  - destruct (decide (m = lit "deterministic")) as [->|H1].
    { rewrite !bool_decide_eq_true_2 by done. by destruct (validate_deterministic j). }
    rewrite !(bool_decide_eq_false_2 (_ = lit "deterministic")), bool_decide_eq_false_2 by congruence.
    destruct (decide (m = lit "multi_agent")) as [->|H2].
    { rewrite !bool_decide_eq_true_2 by done. by destruct (validate_multi_agent j). }
    rewrite !bool_decide_eq_false_2 by congruence. by destruct (validate_single_agent j).
  - rewrite !bool_decide_eq_false_2 by done. by destruct (validate_single_agent j).
Qed.

Lemma to_response_answer a : row_answer a (_to_response (_to_record a)).
Proof.
  unfold _to_response, parse_record. simpl.
  destruct (model_validate (AssessmentModel.request_payload a)) as [rq|e] eqn:Hrq; simpl.
  2: { pose proof (model_validate_raises _ _ Hrq) as ->. left. split; [done|]. by left. }
  set (read := match AssessmentModel.result_payload a with Some _ => _ | None => _ end).
  assert (match read, AssessmentModel.result_payload a with
          | Ok (Some x), Some j => model_validate j = Ok x
          | Ok None, None => True
          | Raise e, Some j => e = ValidationError ∧
              model_validate (X := AssessmentResult.t) j = Raise ValidationError
          | _, _ => False
          end) as Hres.
  { subst read. destruct (AssessmentModel.result_payload a) as [j|]; [|done].
    destruct (model_validate j) as [x|e] eqn:Hj; simpl; [done|].
    pose proof (model_validate_raises _ _ Hj) as ->. done. }
  destruct read as [result|e]; simpl.
  2: { destruct (AssessmentModel.result_payload a) as [j|] eqn:Hj; [|done].
       destruct Hres as [-> Hv]. left. split; [done|]. right; left. by exists j. }
  pose proof (parse_execution_reads (AssessmentModel.execution_metadata a)) as Hx.
  destruct (_parse_execution_metadata _) as [execution|e]; simpl.
  2: { destruct (AssessmentModel.execution_metadata a) as [j|] eqn:Hj; [|done].
       assert (payload_refused a e) as Hr by (right; right; by exists j).
       destruct e; simpl; try (by right; right; split; [done|]). by left. }
  unfold AssessmentResponse.construct. set (resp := AssessmentResponse.mk _ _ _ _ _ _ _ _ _).
  assert (states_row a resp) as Hstates.
  { unfold states_row, resp. simpl. split_and!; try done; try apply as_utc_states.
    - by destruct result, (AssessmentModel.result_payload a).
    - by destruct execution, (AssessmentModel.execution_metadata a).
    - destruct (AssessmentModel.completed_at a); simpl; [apply as_utc_states|done]. }
  destruct (AssessmentResponse.valid resp) eqn:Hv; simpl; [done|].
  right; left. split; [done|]. by exists resp.
Qed.

(** C28: reading an assessment changes nothing and answers what the committed row says: an
    unknown identifier is reported as such; of a stored row the answer states every field -
    the identifier, the status, the validated request, result and execution metadata, the
    error and the times in UTC - or a payload no longer validates, which is a persistence
    failure, or the row contradicts its own status, which is a [ValidationError]; a row that
    [generate_assessment] finished is answered exactly as it was; only the database itself can
    interfere. *)
Theorem get_assessment_correct id (s : S) :
  wp (get_assessment id) (λ s' r, durable s' = durable s ∧
    ((∃ e, r = Raise e ∧ db_failure e) ∨
     match Database.assessments (view s) !! id with
     | None => r = Raise (ApplicationError AssessmentNotFoundError)
     | Some a =>
         row_answer a r ∧
         ∀ db0 x now, finished db0 id x a now (view s) → execution_ok (out_execution x.1.1) →
           r = Ok (response_of (verdict x) id (AssessmentModel.created_at a) now
                     (out_result x.1.1) (out_execution x.1.1))
     end)) s.
Proof.
  unfold get_assessment. apply wp_bind. unfold guard_database. apply wp_try.
  unfold get_by_id, get_assessment_model. apply wp_bind.
  eapply wp_mono; [apply read_law|]. intros s1 [o|e] [[Hv Hd] H].
  - subst o. apply wp_ret. destruct (Database.assessments (view s) !! id) as [a|]; simpl.
    + unfold wp, of_res. simpl. split; [done|]. right. split; [apply to_response_answer|].
      intros db0 x now Hf Hx. by eapply to_response_finished.
    + apply wp_raise. split; [done|]. by right.
  - destruct H as [q ->]. apply wp_bind.
    eapply wp_mono; [apply handle_database_error_law|].
    intros s2 r (Hd2 & a & -> & Hf). apply wp_raise. split; [congruence|]. left. by eexists.
Qed.
End one_request.
End lifecycle.

(** ** Witnesses *)

Definition mode_of_payload (j : payload) : option pystr :=
  match j with ExecutionPayload e => Some (execution_mode e) | _ => None end.

#[export] Instance payload_execution : ExecutionJson payload := {|
  dump_execution := ExecutionPayload;
  payload_mode := mode_of_payload;
  validate_deterministic j :=
    match j with ExecutionPayload (Deterministic m) => Ok m | _ => Raise ValidationError end;
  validate_single_agent j :=
    match j with ExecutionPayload (SingleAgent m) => Ok m | _ => Raise ValidationError end;
  validate_multi_agent j :=
    match j with ExecutionPayload (MultiAgent m) => Ok m | _ => Raise ValidationError end
|}.
#[export] Instance payload_execution_laws : ExecutionJsonLaws payload.
Proof. split; [done|done|]. by intros []. Qed.

#[export, refine] Instance payload_request : PydanticModel payload AssessmentRequest.t request_ok :=
  {| model_dump := RequestPayload;
     model_validate j := match j with RequestPayload r => Ok r | _ => Raise ValidationError end |}.
Proof. all: solve_pydantic. Defined.

(** A deployment with governance and the router, without agents and retrieval. *)
Definition demo_services (result : res AssessmentResult.t) : services (memory (Database payload)) :=
  Services _ (ret f64_one) (λ _, of_res result) None None None (Some demo_config)
    (Some (route (db := ascii_db) None)).

Lemma demo_services_ok result : services_ok (J := payload) (demo_services result).
Proof.
  split; try done.
  - intros s. split; [done|]. by exists f64_one.
  - intros prompt. by apply neutral_of_res.
  - intros config [= <-]. apply demo_config_ok.
  - intros request rt [= <-].
    destruct (route_total (db := ascii_db) None request) as (reasons & Hl & ->).
    eexists. split; [done|]. unfold ExecutionRoutingDecision.valid, len_in, len_ge, len_le. simpl.
    rewrite (proj2 (Z.leb_le _ _)), (proj2 (Z.leb_le _ _)) by lia. done.
Qed.

Lemma demo_request_ok : request_ok demo_request.
Proof. split; [by vm_compute|]. repeat constructor. Qed.

Definition empty_session : memory (Database payload) := open_session Database.empty.

Example demo_generation_runs :
  AssessmentResponse.status <$>
    match (generate_assessment (demo_services (Ok demo_result)) demo_request None empty_session).2
    with Ok r => Some r | Raise _ => None end = Some AssessmentStatus.PENDING_REVIEW.
Proof. vm_compute. reflexivity. Qed.

Lemma generate_assessment_lifecycle_witness :
  let run := generate_assessment (demo_services (Raise KeyError)) demo_request None empty_session in
  run.2 = Raise (ApplicationError AssessmentGenerationError) ∧
  lifecycle_outcome (demo_services (Raise KeyError)) demo_request None Database.empty
    (durable run.1) (Raise (ApplicationError AssessmentGenerationError)).
Proof.
  intros run. assert (run.2 = Raise (ApplicationError AssessmentGenerationError)) as Hr
    by (vm_compute; reflexivity).
  split; [exact Hr|]. rewrite <- Hr.
  apply (generate_assessment_lifecycle (demo_services (Raise KeyError)) demo_request None
    demo_request_ok empty_session (demo_services_ok _) eq_refl).
  apply (bool_decide_unpack _). vm_compute. exact I.
Defined.

(** A row completed without a gate, and the answer to a read of it. *)
Definition ungoverned : services (memory (Database payload)) :=
  Services _ (ret f64_one) (λ _, ret demo_result) None None None None None.
Definition completed_row : AssessmentModel.t payload :=
  completed_model demo_assessment (datetime_utc 5) (ResultPayload demo_result)
    (Some (ExecutionPayload demo_execution)).
Definition completed_db : Database payload :=
  Database.mk payload {[ 1%N := completed_row ]} ∅ [] false.
Definition demo_output : workflow_output * bool * option Z :=
  (WorkflowOutput demo_result [] demo_execution, true, None).

Lemma completed_finished :
  finished ungoverned demo_request None Database.empty 1%N demo_output completed_row
    (datetime_utc 5) completed_db.
Proof.
  split; [|split; [done|by exists demo_assessment]]. split_and!; try done.
  intros id' Hne. split_and!; try done. simpl. by rewrite lookup_singleton_ne.
Qed.

Lemma get_assessment_correct_witness :
  (get_assessment (J := payload) 1%N (open_session completed_db)).2 =
    Ok (AssessmentResponse.mk 1%N AssessmentStatus.COMPLETED demo_request (Some demo_result)
          (Some demo_execution) None (datetime_utc 0) (datetime_utc 5) (Some (datetime_utc 5))) ∧
  (get_assessment (J := payload) 9%N (open_session completed_db)).2 =
    Raise (ApplicationError AssessmentNotFoundError).
Proof.
  split.
  - destruct (get_assessment_correct (J := payload) ungoverned demo_request None demo_request_ok
      1%N (open_session completed_db)) as [_ [(e & He & _)|[_ H]]]; [vm_compute in He; discriminate He|].
    refine (H Database.empty demo_output (datetime_utc 5) completed_finished _).
    by split.
  - destruct (get_assessment_correct (J := payload) ungoverned demo_request None demo_request_ok
      9%N (open_session completed_db)) as [_ [(e & He & Hf)|H]]; [|exact H].
    rewrite He. vm_compute in He. congruence.
Defined.
