(* ===== verification/MultiAgentTheorems.v ===== *)
(** The multi-agent workflow: the partial-failure policy decides exactly which runs answer,
    a degraded answer says what it lacks, and the reported metadata is an account of the
    run; the order in which the two parallel specialists run does not matter. *)
From S2P Require Import Prelude PyFloat Errors Chunking TextNormalization.
From S2P Require Import Domain AgentModels Schemas RuntimeModels Session Storage Telemetry MemorySession.
From S2P Require Import Assessments Tools EvidenceAgent EvidenceTheorems MultiAgentGraph.
From S2P Require Import AssessmentLifecycle.

(** ** Total outcomes

    [total R m Q]: from any state, [m] moves along [R] and its outcome satisfies [Q]. *)

Definition total {S} (R : relation S) {A} (m : M S A) (Q : res A → Prop) : Prop :=
  ∀ s, R s (m s).1 ∧ Q (m s).2.

(** [r] is the outcome of some run of [m]. *)
Definition answers {S A} (m : M S A) (r : res A) : Prop := ∃ s s', m s = (s', r).

(** Every run of [m] moves along [R]. *)
Definition frames {S A} (R : relation S) (m : M S A) : Prop := ∀ s, R s (m s).1.

Section total_rules.
Context {S : Type} (R : relation S) `{!PreOrder R}.

Lemma total_ret {A} (a : A) (Q : res A → Prop) : Q (Ok a) → total R (ret a) Q.
Proof. intros H s. by split. Qed.

Lemma total_raise {A} e (Q : res A → Prop) : Q (Raise e) → total R (raise e) Q.
Proof. intros H s. by split. Qed.

Lemma total_of_res {A} (r : res A) (Q : res A → Prop) : Q r → total R (of_res r) Q.
Proof. intros H s. by split. Qed.

Lemma total_bind {A B} (m : M S A) (k : A → M S B) P (Q : res B → Prop) :
  total R m P → (∀ a, P (Ok a) → total R (k a) Q) → (∀ e, P (Raise e) → Q (Raise e)) →
  total R (bind m k) Q.
Proof.
  intros Hm Hk He s. specialize (Hm s). unfold bind. destruct (m s) as [s' [a|e]]; simpl in *.
  - destruct Hm as [Hs Ha]. destruct (Hk a Ha s') as [Hs' HQ]. split; [by etrans|done].
  - destruct Hm. auto.
Qed.

(** A step that cannot fail. *)
Lemma total_step {A B} (m : M S A) (k : A → M S B) P (Q : res B → Prop) :
  safe R (λ _, False) m P → (∀ a, P a → total R (k a) Q) → total R (bind m k) Q.
Proof.
  intros Hm Hk s. specialize (Hm s). unfold wp in Hm. unfold bind.
  destruct (m s) as [s' [a|e]]; simpl in *; destruct Hm as [Hs Ha]; [|done].
  destruct (Hk a Ha s') as [Hs' HQ]. split; [by etrans|done].
Qed.

Lemma total_catching {A B} (m : M S A) (k : res A → M S B) (Q : res B → Prop) :
  frames R m → (∀ r, answers m r → total R (k r) Q) → total R (bind (catching m) k) Q.
Proof.
  intros Hm Hk s. specialize (Hm s). unfold bind, catching, try_except, ret.
  unfold bind. destruct (m s) as [s' r] eqn:Hr. simpl in Hm.
  assert (answers m r) as Ha by (by exists s, s').
  destruct r as [a|e]; destruct (Hk _ Ha s') as [Hs' HQ]; (split; [by etrans|done]).
Qed.

Lemma total_try {A} (m : M S A) h P (Q : res A → Prop) :
  total R m P → (∀ a, P (Ok a) → Q (Ok a)) → (∀ e, P (Raise e) → total R (h e) Q) →
  total R (try_except m h) Q.
Proof.
  intros Hm Ha He s. specialize (Hm s). unfold try_except.
  destruct (m s) as [s' [a|e]]; simpl in *; destruct Hm as [Hs HP]; [by split; auto|].
  destruct (He e HP s') as [Hs' HQ]. split; [by etrans|done].
Qed.

Lemma total_safe {A} (m : M S A) (Q : A → Prop) :
  total R m (λ r, ∃ a, r = Ok a ∧ Q a) → safe R (λ _, False) m Q.
Proof.
  intros Hm s. destruct (Hm s) as (Hs & a & Ha & HQ). unfold wp. split; [done|]. by rewrite Ha.
Qed.

Lemma safe_total {A} (m : M S A) (Q : A → Prop) :
  safe R (λ _, False) m Q → total R m (λ r, match r with Ok a => Q a | Raise _ => False end).
Proof. intros Hm s. apply Hm. Qed.

Lemma total_mono {A} (m : M S A) (P Q : res A → Prop) :
  total R m P → (∀ r, P r → Q r) → total R m Q.
Proof. intros Hm HPQ s. destruct (Hm s). auto. Qed.
End total_rules.

(** A computation that leaves the state alone and always has the same outcome. *)
Definition independent {S A} (m : M S A) : Prop := ∃ r, ∀ s, m s = (s, r).

Lemma independent_ret {S A} (a : A) : independent (ret (S := S) a).
Proof. by exists (Ok a). Qed.
Lemma independent_raise {S A} e : independent (raise (S := S) (A := A) e).
Proof. by exists (Raise e). Qed.
Lemma independent_of_res {S A} (r : res A) : independent (of_res (S := S) r).
Proof. by exists r. Qed.
Lemma independent_bind {S A B} (m : M S A) (k : A → M S B) :
  independent m → (∀ a, independent (k a)) → independent (bind m k).
Proof.
  intros [[a|e] Hm] Hk.
  - destruct (Hk a) as [r Hr]. exists r. intros s. unfold bind. by rewrite Hm.
  - exists (Raise e). intros s. unfold bind. by rewrite Hm.
Qed.
Lemma independent_catching {S A} (m : M S A) : independent m → independent (catching m).
Proof.
  intros [r Hm]. exists (Ok r). intros s. unfold catching, try_except, bind. rewrite Hm.
  by destruct r.
Qed.
Ltac solve_independent :=
  repeat first
    [ assumption
    | apply independent_ret | apply independent_raise | apply independent_of_res
    | apply independent_catching
    | apply independent_bind; [|intros ?]
    | progress unfold _event, _elapsed_ms
    | case_match ].

(** ** Events *)

(** What an event shows besides its time and its number: the agent, the type, the tool and
    the error code. *)
Definition shape : Type :=
  option MultiAgentName.t * MultiAgentTraceEventType.t * option pystr * option pystr.

Record matches (sh : shape) (e : MultiAgentTraceEvent.t) : Prop := {
  matches_ok : multi_event_ok e;
  matches_valid : MultiAgentTraceEvent.valid e = true;
  matches_shape : (MultiAgentTraceEvent.agent e, MultiAgentTraceEvent.event_type e,
                   MultiAgentTraceEvent.tool_name e, MultiAgentTraceEvent.error_code e) = sh
}.

(** The texts an event accepts, after stripping. *)
Definition event_text (summary : pystr) (tool code : option pystr) : bool :=
  len_in 1 300 (str_strip summary) && opt_all (len_le 100) (str_strip <$> tool) &&
  opt_all (len_le 100) (str_strip <$> code).

Definition entry_event_ok (item : ToolHistoryEntry.t) : bool :=
  event_text (ToolHistoryEntry.summary item) (Some (ToolHistoryEntry.tool_name item))
    (ToolHistoryEntry.error_code item).
Definition entry_shape (item : ToolHistoryEntry.t) : shape :=
  (Some MultiAgentName.EVIDENCE, tool_event_type item,
   Some (str_strip (ToolHistoryEntry.tool_name item)),
   str_strip <$> ToolHistoryEntry.error_code item).

Lemma normalize_idem e :
  MultiAgentTraceEvent.normalize (MultiAgentTraceEvent.normalize e) =
  MultiAgentTraceEvent.normalize e.
Proof.
  destruct e as [n t a ty s [tn|] [ec|]]; unfold MultiAgentTraceEvent.normalize; simpl;
    by rewrite !strip_idem.
Qed.

Lemma matches_Forall shapes tr (Q : MultiAgentTraceEvent.t → Prop) :
  Forall2 matches shapes tr → (∀ sh e, matches sh e → Q e) → Forall Q tr.
Proof. intros H HQ. eapply Forall2_Forall_r; [exact H|]. apply Forall_forall. eauto. Qed.

Lemma numbered_from k tr shapes :
  Forall2 matches shapes tr →
  let tr' := imap (λ i e, e <| MultiAgentTraceEvent.sequence := Z.of_nat (k + i) |>) tr in
  Forall2 matches shapes tr' ∧
  MultiAgentTraceEvent.sequence <$> tr' = seqZ (Z.of_nat k) (Z.of_nat (length tr)).
Proof.
  intros H. revert k. induction H as [|sh e shapes tr [[Hn Ht] Hv Hs] _ IH]; intros k; cbn zeta.
  - split; [constructor|done].
  - destruct (IH (S k)) as [IH1 IH2]. simpl. rewrite Nat.add_0_r. split.
    + constructor.
      * split; [|by unfold MultiAgentTraceEvent.valid in *; simpl; split_bools;
                 rewrite !andb_true_iff; split_and!; try done; apply Z.leb_le; lia|done].
        split; [|done]. destruct e. unfold MultiAgentTraceEvent.normalize in *. simpl in *.
        congruence.
      * erewrite imap_ext; [exact IH1|]. intros i x _. simpl. do 2 f_equal. lia.
    + csimpl. rewrite seqZ_cons by lia. f_equal.
      erewrite imap_ext; [etrans; [exact IH2|]; f_equal; lia|].
      intros i x _. simpl. do 2 f_equal. lia.
Qed.

Lemma numbered_matches shapes tr :
  Forall2 matches shapes tr →
  Forall2 matches shapes (numbered tr) ∧
  MultiAgentTraceEvent.sequence <$> numbered tr = seqZ 0 (Z.of_nat (length tr)).
Proof. apply (numbered_from 0). Qed.

(** ** The expected run

    Functions of the specialists' answers: what the policy decides and what the metadata
    says. *)

Abbreviation evidence_answer := (res EvidenceAgentOutcome.t).
Abbreviation architecture_answer := (res ArchitectureRecommendation.t).
Abbreviation governance_answer := (res RiskGovernanceReview.t).

Definition to_option {A} (r : res A) : option A := match r with Ok a => Some a | Raise _ => None end.
Definition code_of {A} (r : res A) : option pystr :=
  match r with Ok _ => None | Raise e => Some (_safe_error_code e) end.
Definition status_of {A} (r : res A) : MultiAgentStatus.t :=
  match r with Ok _ => MultiAgentStatus.COMPLETED | Raise _ => MultiAgentStatus.FAILED end.
Definition brief_from (ev : evidence_answer) : EvidenceBrief.t :=
  match ev with Ok o => EvidenceAgentOutcome.brief o | Raise _ => EvidenceBrief_unavailable end.
Definition history_from (ev : evidence_answer) : list ToolHistoryEntry.t :=
  match ev with Ok o => EvidenceAgentOutcome.tool_history o | Raise _ => [] end.

(** The events of an answer's tool calls can be built. *)
Definition reportable (ev : evidence_answer) : bool := forallb entry_event_ok (history_from ev).

Section expected.
Context (ev : evidence_answer) (ar : architecture_answer) (rg : governance_answer).

Definition failed_count : Z := Z.of_nat (length (omap id [code_of ev; code_of ar; code_of rg])).

(** The partial-failure policy: too many failures, or nothing to synthesize from. *)
Definition rejected (limit : Z) : bool := Z.ltb limit failed_count || Z.eqb failed_count 3.

Definition expected_reasons : list pystr :=
  (if is_not_none (code_of ev)
   then [lit "Evidence Agent output unavailable; assessment-only context used."] else []) ++
  (if is_not_none (code_of ar) then [lit "Architecture Agent output unavailable."] else []) ++
  (if is_not_none (code_of rg)
   then [lit "Risk & Governance Agent output unavailable; governance confidence reduced."]
   else []).

Definition agent_shapes {A} (agent : MultiAgentName.t) (r : res A) : list shape :=
  [(Some agent, match r with Ok _ => MultiAgentTraceEventType.AGENT_COMPLETED
                | Raise _ => MultiAgentTraceEventType.AGENT_FAILED end, None, code_of r)].
Definition started (agent : MultiAgentName.t) : shape :=
  (Some agent, MultiAgentTraceEventType.AGENT_STARTED, None, None).

Definition evidence_shapes : list shape :=
  started MultiAgentName.EVIDENCE :: (entry_shape <$> history_from ev) ++
  agent_shapes MultiAgentName.EVIDENCE ev ++
  (if is_not_none (code_of ev) then [(None, MultiAgentTraceEventType.DEGRADED_MODE, None, None)] else []).
Definition architecture_shapes : list shape :=
  started MultiAgentName.ARCHITECTURE :: agent_shapes MultiAgentName.ARCHITECTURE ar.
Definition governance_shapes : list shape :=
  started MultiAgentName.RISK_GOVERNANCE :: agent_shapes MultiAgentName.RISK_GOVERNANCE rg.
Definition synthesis_shapes : list shape :=
  started MultiAgentName.SYNTHESIS ::
  agent_shapes MultiAgentName.SYNTHESIS (Ok tt).

(** The trace, in the fixed order of the agents. *)
Definition expected_trace : list shape :=
  [(None, MultiAgentTraceEventType.WORKFLOW_STARTED, None, None)] ++ evidence_shapes ++
  architecture_shapes ++ governance_shapes ++ synthesis_shapes ++
  [(None, MultiAgentTraceEventType.WORKFLOW_COMPLETED, None, None)].

(** The metadata of the run: exact, up to the times and the durations. *)
Record account (m : MultiAgentExecutionMetadata.t) : Prop := {
  acc_statuses : MultiAgentExecutionMetadata.agent_statuses m =
    MultiAgentStatuses.mk (status_of ev) (status_of ar) (status_of rg) MultiAgentStatus.COMPLETED;
  acc_errors : MultiAgentExecutionMetadata.agent_errors m =
    MultiAgentErrors.mk (code_of ev) (code_of ar) (code_of rg) None;
  acc_tools : MultiAgentExecutionMetadata.tools_used m =
    str_strip <$> dict_fromkeys (ToolHistoryEntry.tool_name <$> history_from ev);
  acc_calls : MultiAgentExecutionMetadata.tool_calls m = Z.of_nat (length (history_from ev));
  acc_degraded : MultiAgentExecutionMetadata.degraded_mode m = Z.ltb 0 failed_count;
  acc_reasons : MultiAgentExecutionMetadata.degradation_reasons m = expected_reasons;
  acc_termination : MultiAgentExecutionMetadata.termination_reason m =
    if Z.ltb 0 failed_count then MultiAgentTerminationReason.COMPLETED_DEGRADED
    else MultiAgentTerminationReason.COMPLETED;
  acc_trace : Forall2 matches expected_trace (MultiAgentExecutionMetadata.trace m);
  acc_sequence : MultiAgentTraceEvent.sequence <$> MultiAgentExecutionMetadata.trace m =
    seqZ 0 (Z.of_nat (length expected_trace));
  acc_graph : MultiAgentExecutionMetadata.graph_retrieval m =
    mjoin (EvidenceAgentOutcome.graph_retrieval <$> to_option ev)
}.
End expected.

Lemma safe_code_ok e :
  len_le 100 (_safe_error_code e) = true ∧ str_strip (_safe_error_code e) = _safe_error_code e.
Proof.
  destruct e as [a| | | | | | | | | | |]; [destruct a|..]; split; vm_compute; reflexivity.
Qed.

Lemma code_of_ok {A} (r : res A) :
  opt_all (len_le 100) (code_of r) = true ∧ str_strip <$> code_of r = code_of r.
Proof. destruct r as [a|e]; [done|]. simpl. destruct (safe_code_ok e) as [? ->]. done. Qed.

(** ** The nodes *)

Import MultiAgentGraphState.

Section workflow.
Context {S : Type} (R : relation S) `{!PreOrder R} (sp : specialists S).

Abbreviation never := (λ _ : exn, False).

(** What the workflow relies on: the specialists stay within the frame and hand over valid
    graph metadata, the clock reads UTC, and clock differences can be rounded. *)
Record specialists_ok : Prop := {
  evidence_frames rq : frames R (sp_evidence sp rq);
  architecture_frames rq brief : frames R (sp_architecture sp rq brief);
  governance_frames rq brief : frames R (sp_risk_governance sp rq brief);
  synthesis_frames rq brief a g reasons : frames R (sp_synthesis sp rq brief a g reasons);
  evidence_graph rq o : answers (sp_evidence sp rq) (Ok o) →
    opt_all GraphRetrievalExecutionMetadata.valid (EvidenceAgentOutcome.graph_retrieval o) = true;
  now_utc : safe R never (sp_now sp) (λ t, datetime.utcoffset t = Some 0%Z);
  perf_counter_ok : ∃ reading : pyfloat → Prop,
    safe R never (sp_perf_counter sp) reading ∧
    ∀ a b, reading a → reading b → ∃ n, elapsed_ms a b = Ok n
}.

Context (Hsp : specialists_ok).

Lemma event_construct now ty summary agent tool code :
  datetime.utcoffset now = Some 0%Z →
  if event_text summary tool code
  then ∃ e, MultiAgentTraceEvent.construct
              (MultiAgentTraceEvent.mk 0 now agent ty summary tool code) = Ok e ∧
            matches (agent, ty, str_strip <$> tool, str_strip <$> code) e
  else MultiAgentTraceEvent.construct
         (MultiAgentTraceEvent.mk 0 now agent ty summary tool code) = Raise ValidationError.
Proof.
  intros Hnow. unfold MultiAgentTraceEvent.construct.
  set (e := MultiAgentTraceEvent.mk 0 now agent ty summary tool code).
  change (MultiAgentTraceEvent.valid (MultiAgentTraceEvent.normalize e))
    with (event_text summary tool code).
  destruct (event_text summary tool code) eqn:Ht; [|done].
  eexists. split; [reflexivity|]. split; [|exact Ht|done].
  split; [apply normalize_idem|exact Hnow].
Qed.

Lemma event_step {A} ty summary agent tool code (k : _ → M S A) (Q : res A → Prop) :
  event_text summary tool code = true →
  (∀ e, matches (agent, ty, str_strip <$> tool, str_strip <$> code) e → total R (k e) Q) →
  total R (let* e := _event sp ty summary agent tool code in k e) Q.
Proof.
  intros Ht Hk. eapply (total_step R); [|exact Hk]. unfold _event.
  eapply safe_bind; [done|apply (now_utc Hsp)|]. intros now Hnow. apply safe_of_res; [done|].
  pose proof (event_construct now ty summary agent tool code Hnow) as H. rewrite Ht in H.
  destruct H as (e & -> & He). exact He.
Qed.

(** A reading from which the elapsed time can be told later. *)
Definition timed (started : pyfloat) : Prop :=
  safe R never (_elapsed_ms sp started) (λ d, (0 ≤ d)%Z).

Lemma clock_step {A} (k : pyfloat → M S A) (Q : res A → Prop) :
  (∀ started, timed started → total R (k started) Q) →
  total R (let* started := sp_perf_counter sp in k started) Q.
Proof.
  intros Hk. destruct (perf_counter_ok Hsp) as (reading & Hclock & Helapsed).
  eapply (total_step R); [exact Hclock|]. intros started Hs. apply Hk. unfold timed, _elapsed_ms.
  eapply safe_bind; [done|exact Hclock|]. intros now Hn. apply safe_of_res; [done|].
  destruct (Helapsed started now Hs Hn) as [n Hel]. rewrite Hel. revert Hel. unfold elapsed_ms.
  destruct (py_round _); simpl; [|done]. intros [= <-]. lia.
Qed.

Lemma tool_events_total history :
  total R (tool_events sp history) (λ r,
    if forallb entry_event_ok history
    then ∃ evs, r = Ok evs ∧ Forall2 matches (entry_shape <$> history) evs
    else r = Raise ValidationError).
Proof.
  induction history as [|item history IH]; simpl.
  { apply (total_ret R). by exists []. }
  destruct (entry_event_ok item) eqn:Hi; simpl.
  - apply event_step; [exact Hi|]. intros e He. eapply (total_bind R); [exact IH| |].
    + intros evs H. destruct (forallb _ history); [|done]. destruct H as (evs' & [= <-] & Hevs).
      apply (total_ret R). exists (e :: evs). split; [done|]. by constructor.
    + intros exc H. destruct (forallb _ history); [|done]. by destruct H as (? & ? & _).
  - apply (total_bind R) with (P := λ r, r = Raise ValidationError);
      [|discriminate|intros e [= ->]; done].
    unfold _event. eapply (total_step R); [apply (now_utc Hsp)|]. intros now Hnow.
    apply (total_of_res R). pose proof (event_construct now (tool_event_type item)
      (ToolHistoryEntry.summary item) (Some MultiAgentName.EVIDENCE)
      (Some (ToolHistoryEntry.tool_name item)) (ToolHistoryEntry.error_code item) Hnow) as H.
    unfold entry_event_ok in Hi. by rewrite Hi in H.
Qed.

(** The evidence node: which keys it sets. *)
Definition evidence_updates (ev : evidence_answer) (f : mstate → mstate) : Prop :=
  ∃ d tr, (0 ≤ d)%Z ∧ Forall2 matches (evidence_shapes ev) tr ∧
  f = λ st, match ev with
    | Raise exc => st <| evidence_brief := Some EvidenceBrief_unavailable |>
        <| evidence_status := MultiAgentStatus.FAILED |>
        <| evidence_error := Some (_safe_error_code exc) |>
        <| evidence_duration_ms := Some d |> <| evidence_trace := tr |>
    | Ok o => st <| evidence_brief := Some (EvidenceAgentOutcome.brief o) |>
        <| retrieved_evidence := EvidenceAgentOutcome.evidence o |>
        <| observed_documents := EvidenceAgentOutcome.documents o |>
        <| tool_history := EvidenceAgentOutcome.tool_history o |>
        <| evidence_steps_used := EvidenceAgentOutcome.steps_used o |>
        <| evidence_termination_reason := Some (EvidenceAgentOutcome.termination_reason o) |>
        <| graph_retrieval := EvidenceAgentOutcome.graph_retrieval o |>
        <| evidence_status := MultiAgentStatus.COMPLETED |>
        <| evidence_duration_ms := Some d |> <| evidence_trace := tr |>
    end.

Lemma failed_text (exc : exn) (summary : pystr) :
  len_in 1 300 (str_strip summary) = true →
  event_text summary None (Some (_safe_error_code exc)) = true.
Proof.
  intros Hs. unfold event_text. rewrite Hs. simpl. destruct (safe_code_ok exc) as [Hl Hstrip].
  by rewrite Hstrip.
Qed.

Lemma evidence_total st :
  total R (evidence sp st) (λ r, ∃ ev, answers (sp_evidence sp (request st)) ev ∧
    if reportable ev then ∃ f, r = Ok f ∧ evidence_updates ev f else r = Raise ValidationError).
Proof.
  unfold evidence. apply clock_step. intros started Hstarted.
  apply event_step; [done|]. intros start Hstart.
  apply (total_catching R); [apply (evidence_frames Hsp)|]. intros [o|exc] Hans.
  - eapply (total_bind R); [apply tool_events_total| |].
    + intros tools Htools. destruct (forallb entry_event_ok _) eqn:Hrep; [|done].
      destruct Htools as (evs & [= <-] & Hevs).
      apply event_step; [done|]. intros completed Hcompleted.
      eapply (total_step R); [exact Hstarted|]. intros d Hd. apply (total_ret R).
      exists (Ok o). split; [exact Hans|]. unfold reportable. simpl history_from. rewrite Hrep.
      eexists. split; [reflexivity|]. exists d, (start :: tools ++ [completed]).
      split; [exact Hd|]. split; [|reflexivity].
      constructor; [exact Hstart|]. simpl. apply Forall2_app; [exact Hevs|]. by constructor.
    + intros e He. exists (Ok o). split; [exact Hans|]. unfold reportable. simpl history_from.
      destruct (forallb entry_event_ok _); [by destruct He as (? & ? & _)|]. congruence.
  - apply event_step; [by apply failed_text|]. intros failed Hfailed.
    apply event_step; [done|]. intros degraded Hdegraded.
    eapply (total_step R); [exact Hstarted|]. intros d Hd. apply (total_ret R).
    exists (Raise exc). split; [exact Hans|]. simpl.
    eexists. split; [reflexivity|]. exists d, [start; failed; degraded].
    split; [exact Hd|]. split; [|reflexivity].
    destruct (safe_code_ok exc) as [_ Hc]. simpl in Hfailed. rewrite Hc in Hfailed.
    do 3 (apply Forall2_cons_2; [assumption|]). constructor.
Qed.

(** A toolless specialist: its outcome sets its own keys only. *)
Definition architecture_updates (ar : architecture_answer) (f : mstate → mstate) : Prop :=
  ∃ d tr, (0 ≤ d)%Z ∧ Forall2 matches (architecture_shapes ar) tr ∧
  f = λ st, match ar with
    | Raise exc => st <| architecture_status := MultiAgentStatus.FAILED |>
        <| architecture_error := Some (_safe_error_code exc) |>
        <| architecture_duration_ms := Some d |> <| architecture_trace := tr |>
    | Ok result => st <| architecture_recommendation := Some result |>
        <| architecture_status := MultiAgentStatus.COMPLETED |>
        <| architecture_duration_ms := Some d |> <| architecture_trace := tr |>
    end.
Definition governance_updates (rg : governance_answer) (f : mstate → mstate) : Prop :=
  ∃ d tr, (0 ≤ d)%Z ∧ Forall2 matches (governance_shapes rg) tr ∧
  f = λ st, match rg with
    | Raise exc => st <| risk_governance_status := MultiAgentStatus.FAILED |>
        <| risk_governance_error := Some (_safe_error_code exc) |>
        <| risk_governance_duration_ms := Some d |> <| risk_governance_trace := tr |>
    | Ok result => st <| risk_governance_review := Some result |>
        <| risk_governance_status := MultiAgentStatus.COMPLETED |>
        <| risk_governance_duration_ms := Some d |> <| risk_governance_trace := tr |>
    end.

Lemma architecture_safe st :
  safe R never (architecture sp st) (λ f, ∃ ar,
    answers (sp_architecture sp (request st) (brief_of st)) ar ∧ architecture_updates ar f).
Proof.
  apply total_safe. unfold architecture. apply clock_step. intros started Hstarted.
  apply event_step; [done|]. intros start Hstart.
  apply (total_catching R); [apply (architecture_frames Hsp)|]. intros [result|exc] Hans.
  - apply event_step; [done|]. intros completed Hcompleted.
    eapply (total_step R); [exact Hstarted|]. intros d Hd. apply (total_ret R).
    eexists. split; [reflexivity|]. exists (Ok result). split; [exact Hans|].
    exists d, [start; completed]. split; [exact Hd|]. split; [|reflexivity].
    do 2 (apply Forall2_cons_2; [assumption|]). constructor.
  - apply event_step; [by apply failed_text|]. intros failed Hfailed.
    eapply (total_step R); [exact Hstarted|]. intros d Hd. apply (total_ret R).
    eexists. split; [reflexivity|]. exists (Raise exc). split; [exact Hans|].
    exists d, [start; failed]. split; [exact Hd|]. split; [|reflexivity].
    destruct (safe_code_ok exc) as [_ Hc]. simpl in Hfailed. rewrite Hc in Hfailed.
    do 2 (apply Forall2_cons_2; [assumption|]). constructor.
Qed.

Lemma governance_safe st :
  safe R never (risk_governance sp st) (λ f, ∃ rg,
    answers (sp_risk_governance sp (request st) (brief_of st)) rg ∧ governance_updates rg f).
Proof.
  apply total_safe. unfold risk_governance. apply clock_step. intros started Hstarted.
  apply event_step; [done|]. intros start Hstart.
  apply (total_catching R); [apply (governance_frames Hsp)|]. intros [result|exc] Hans.
  - apply event_step; [done|]. intros completed Hcompleted.
    eapply (total_step R); [exact Hstarted|]. intros d Hd. apply (total_ret R).
    eexists. split; [reflexivity|]. exists (Ok result). split; [exact Hans|].
    exists d, [start; completed]. split; [exact Hd|]. split; [|reflexivity].
    do 2 (apply Forall2_cons_2; [assumption|]). constructor.
  - apply event_step; [by apply failed_text|]. intros failed Hfailed.
    eapply (total_step R); [exact Hstarted|]. intros d Hd. apply (total_ret R).
    eexists. split; [reflexivity|]. exists (Raise exc). split; [exact Hans|].
    exists d, [start; failed]. split; [exact Hd|]. split; [|reflexivity].
    destruct (safe_code_ok exc) as [_ Hc]. simpl in Hfailed. rewrite Hc in Hfailed.
    do 2 (apply Forall2_cons_2; [assumption|]). constructor.
Qed.

(** Both branches read the state before them, in either order. *)
Lemma fan_out_safe architecture_first st :
  safe R never (fan_out sp architecture_first st) (λ st', ∃ ar rg f g,
    answers (sp_architecture sp (request st) (brief_of st)) ar ∧ architecture_updates ar f ∧
    answers (sp_risk_governance sp (request st) (brief_of st)) rg ∧ governance_updates rg g ∧
    st' = g (f st)).
Proof.
  destruct architecture_first; simpl.
  - eapply safe_bind; [done|apply architecture_safe|]. intros f (ar & Har & Hf).
    eapply safe_bind; [done|apply governance_safe|]. intros g (rg & Hrg & Hg).
    apply safe_ret; [done|]. by exists ar, rg, f, g.
  - eapply safe_bind; [done|apply governance_safe|]. intros g (rg & Hrg & Hg).
    eapply safe_bind; [done|apply architecture_safe|]. intros f (ar & Har & Hf).
    apply safe_ret; [done|]. by exists ar, rg, f, g.
Qed.

(** The state before the fan-in, after the specialists answered [ev], [ar] and [rg]. *)
Record gathered (rq : AssessmentRequest.t) (limit : Z) ev ar rg (st : mstate) : Prop := {
  g_request : request st = rq;
  g_limit : max_failures st = limit;
  g_brief : brief_of st = brief_from ev;
  g_codes : evidence_error st = code_of ev ∧ architecture_error st = code_of ar ∧
    risk_governance_error st = code_of rg ∧ synthesis_error st = None;
  g_statuses : evidence_status st = status_of ev ∧ architecture_status st = status_of ar ∧
    risk_governance_status st = status_of rg;
  g_answers : architecture_recommendation st = to_option ar ∧
    risk_governance_review st = to_option rg;
  g_history : tool_history st = history_from ev;
  g_evidence : retrieved_evidence st =
    default [] (EvidenceAgentOutcome.evidence <$> to_option ev);
  g_graph : graph_retrieval st = mjoin (EvidenceAgentOutcome.graph_retrieval <$> to_option ev);
  g_durations : opt_all (Z.leb 0) (evidence_duration_ms st) = true ∧
    opt_all (Z.leb 0) (architecture_duration_ms st) = true ∧
    opt_all (Z.leb 0) (risk_governance_duration_ms st) = true;
  g_traces : Forall2 matches
    ([(None, MultiAgentTraceEventType.WORKFLOW_STARTED, None, None)] ++ evidence_shapes ev ++
     architecture_shapes ar ++ governance_shapes rg)
    (initialization_trace st ++ evidence_trace st ++ architecture_trace st ++
     risk_governance_trace st)
}.

Lemma gathered_intro id rq limit ev ar rg t0 start f g h :
  matches (None, MultiAgentTraceEventType.WORKFLOW_STARTED, None, None) start →
  evidence_updates ev f → architecture_updates ar g → governance_updates rg h →
  gathered rq limit ev ar rg
    (h (g (f ((initialize_multi_agent_state id rq limit)
       <| started_at := Some t0 |> <| initialization_trace := [start] |>)))).
Proof.
  intros Hs (d1 & tr1 & Hd1 & Htr1 & ->) (d2 & tr2 & Hd2 & Htr2 & ->) (d3 & tr3 & Hd3 & Htr3 & ->).
  apply Z.leb_le in Hd1, Hd2, Hd3.
  assert (Forall2 matches [(None, MultiAgentTraceEventType.WORKFLOW_STARTED, None, None)] [start])
    as Hstart by (by constructor).
  destruct ev, ar, rg; split; try (simpl; done);
    repeat (apply Forall2_app; [assumption|]); assumption.
Qed.

Lemma gathered_reasons rq limit ev ar rg st :
  gathered rq limit ev ar rg st → _degradation_reasons st = expected_reasons ev ar rg.
Proof.
  intros [_ _ _ (H1 & H2 & H3 & _) _ _ _ _ _ _ _]. unfold _degradation_reasons.
  by rewrite H1, H2, H3.
Qed.

Lemma gathered_policy rq limit ev ar rg st :
  gathered rq limit ev ar rg st →
  Z.ltb (max_failures st) (failures st) || negb (available st) = rejected ev ar rg limit.
Proof.
  intros [_ Hl _ (H1 & H2 & H3 & _) (H4 & _) (H5 & H6) _ _ _ _ _].
  unfold failures, available, rejected, failed_count. rewrite Hl, H1, H2, H3, H4, H5, H6.
  f_equal. by destruct ev, ar, rg.
Qed.

Lemma reasons_truthy ev ar rg : truthy (expected_reasons ev ar rg) = Z.ltb 0 (failed_count ev ar rg).
Proof. by destruct ev, ar, rg. Qed.

(** The state after the fan-in. *)
Record synthesized rq limit ev ar rg (result : AssessmentResult.t) (st : mstate) : Prop := {
  s_gathered : gathered rq limit ev ar rg st;
  s_result : final_result st = Some result;
  s_status : synthesis_status st = MultiAgentStatus.COMPLETED;
  s_duration : opt_all (Z.leb 0) (synthesis_duration_ms st) = true;
  s_trace : Forall2 matches synthesis_shapes (synthesis_trace st)
}.

Lemma synthesize_total rq limit ev ar rg st :
  gathered rq limit ev ar rg st →
  total R (run_node (synthesize sp) st) (λ r,
    if rejected ev ar rg limit then r = Raise (ApplicationError AssessmentGenerationError)
    else ∃ ans, answers (sp_synthesis sp rq (brief_from ev) (to_option ar) (to_option rg)
                           (expected_reasons ev ar rg)) ans ∧
      match ans with
      | Raise e => r = Raise e
      | Ok result => ∃ st', r = Ok st' ∧
          synthesized rq limit ev ar rg (with_limitations (expected_reasons ev ar rg) result) st'
      end).
Proof.
  intros Hg. unfold run_node, synthesize. rewrite (gathered_policy _ _ _ _ _ _ Hg).
  destruct (rejected ev ar rg limit); [by apply (total_raise R)|].
  rewrite (gathered_reasons _ _ _ _ _ _ Hg), (g_request _ _ _ _ _ _ Hg), (g_brief _ _ _ _ _ _ Hg).
  destruct (g_answers _ _ _ _ _ _ Hg) as [-> ->].
  set (m := sp_synthesis sp rq (brief_from ev) (to_option ar) (to_option rg)
              (expected_reasons ev ar rg)).
  eapply (total_bind R) with (P := λ r, ∃ ans, answers m ans ∧
    match ans with
    | Raise e => r = Raise e
    | Ok result => ∃ f, r = Ok f ∧ synthesized rq limit ev ar rg
                     (with_limitations (expected_reasons ev ar rg) result) (f st)
    end).
  - apply clock_step. intros started Hstarted. apply event_step; [done|]. intros start Hstart.
    apply (total_bind R) with (P := answers m).
    + intros s. split; [apply (synthesis_frames Hsp)|]. exists s. destruct (m s) as [s' r].
      by exists s'.
    + intros result Hans. apply event_step; [done|]. intros completed Hcompleted.
      eapply (total_step R); [exact Hstarted|]. intros d Hd. apply (total_ret R).
      exists (Ok result). split; [exact Hans|]. eexists. split; [reflexivity|].
      destruct Hg. split; [by split|done|done|by apply Z.leb_le|].
      do 2 (apply Forall2_cons_2; [assumption|]). constructor.
    + intros e He. by exists (Raise e).
  - intros f ([result|e] & Hans & H); [|done]. destruct H as (f' & [= <-] & Hs).
    apply (total_ret R). exists (Ok result). split; [exact Hans|]. by exists (f st).
  - intros e ([result|e'] & Hans & H); [by destruct H as (? & ? & _)|]. injection H as <-.
    by exists (Raise e).
Qed.

Lemma expected_reasons_strip ev ar rg :
  str_strip <$> expected_reasons ev ar rg = expected_reasons ev ar rg.
Proof. destruct ev, ar, rg; vm_compute; reflexivity. Qed.

(** The metadata [validate] builds from the state and the trace. *)
Definition metadata_of (ev : evidence_answer) (ar : architecture_answer)
    (rg : governance_answer) (durations : MultiAgentDurations.t)
    (trace : list MultiAgentTraceEvent.t) : MultiAgentExecutionMetadata.t :=
  MultiAgentExecutionMetadata.mk None "multi_agent" None [] [] MultiAgentName.members
    (MultiAgentStatuses.mk (status_of ev) (status_of ar) (status_of rg) MultiAgentStatus.COMPLETED)
    durations (MultiAgentErrors.mk (code_of ev) (code_of ar) (code_of rg) None)
    (str_strip <$> dict_fromkeys (ToolHistoryEntry.tool_name <$> history_from ev))
    (Z.of_nat (length (history_from ev))) (truthy (expected_reasons ev ar rg))
    (expected_reasons ev ar rg)
    (if truthy (expected_reasons ev ar rg) then MultiAgentTerminationReason.COMPLETED_DEGRADED
     else MultiAgentTerminationReason.COMPLETED)
    trace (mjoin (EvidenceAgentOutcome.graph_retrieval <$> to_option ev)).

Definition graph_ok (ev : evidence_answer) : Prop :=
  opt_all GraphRetrievalExecutionMetadata.valid
    (mjoin (EvidenceAgentOutcome.graph_retrieval <$> to_option ev)) = true.

Lemma errors_ok ev ar rg :
  let errors := MultiAgentErrors.mk (code_of (A := EvidenceAgentOutcome.t) ev)
    (code_of (A := ArchitectureRecommendation.t) ar) (code_of (A := RiskGovernanceReview.t) rg)
    None in
  MultiAgentErrors.normalize errors = errors ∧ MultiAgentErrors.valid errors = true.
Proof.
  destruct (code_of_ok ev) as [He1 He2], (code_of_ok ar) as [Ha1 Ha2], (code_of_ok rg) as [Hr1 Hr2].
  split.
  - unfold MultiAgentErrors.normalize. simpl. by rewrite He2, Ha2, Hr2.
  - unfold MultiAgentErrors.valid. rewrite !andb_true_iff. by split_and!.
Qed.

Lemma metadata_valid ev ar rg durations shapes trace :
  graph_ok ev → MultiAgentDurations.valid durations = true → Forall2 matches shapes trace →
  MultiAgentExecutionMetadata.valid (metadata_of ev ar rg durations trace) = true.
Proof.
  intros Hg Hd Ht. unfold MultiAgentExecutionMetadata.valid. rewrite !andb_true_iff.
  split_and!; try done.
  - apply (errors_ok ev ar rg).
  - apply Z.leb_le. simpl. lia.
  - apply forallb_forall. intros e He%list_elem_of_In. simpl in He.
    apply (matches_Forall _ _ (λ e, MultiAgentTraceEvent.valid e = true)) in Ht; [|by intros ? ? []].
    rewrite Forall_forall in Ht. by apply Ht.
Qed.

Lemma metadata_execution_ok ev ar rg durations shapes trace :
  graph_ok ev → MultiAgentDurations.valid durations = true → Forall2 matches shapes trace →
  execution_ok (MultiAgent (metadata_of ev ar rg durations trace)).
Proof.
  intros Hg Hd Ht. split; [by eapply metadata_valid|]. split_and!.
  - unfold MultiAgentExecutionMetadata.normalize, metadata_of. simpl.
    rewrite expected_reasons_strip, <- list_fmap_compose. f_equal.
    apply list_fmap_ext. intros i s _. apply strip_idem.
  - apply (errors_ok ev ar rg).
  - simpl. eapply matches_Forall; [exact Ht|]. by intros ? ? [].
Qed.

Lemma execution_of_eq rq limit ev ar rg result st shapes trace :
  synthesized rq limit ev ar rg result st → graph_ok ev → Forall2 matches shapes trace →
  ∃ durations, MultiAgentDurations.valid durations = true ∧
    execution_of st trace = Ok (metadata_of ev ar rg durations trace).
Proof.
  intros [Hg Hres Hst Hdur _] Hgraph Htrace. pose proof (gathered_reasons _ _ _ _ _ _ Hg) as Hrs.
  destruct Hg as [_ _ _ (H1 & H2 & H3 & H4) (H5 & H6 & H7) _ H8 _ H9 (H10 & H11 & H12) _].
  unfold execution_of. rewrite Hrs, H1, H2, H3, H4, H5, H6, H7, H8, H9, Hst.
  set (durations := MultiAgentDurations.mk _ _ _ _).
  assert (MultiAgentDurations.valid durations = true) as Hd.
  { unfold MultiAgentDurations.valid. rewrite !andb_true_iff. by split_and!. }
  exists durations. split; [exact Hd|]. unfold MultiAgentDurations.construct.
  change (MultiAgentDurations.normalize durations) with durations. rewrite Hd. simpl.
  destruct (errors_ok ev ar rg) as [He1 He2]. unfold MultiAgentErrors.construct.
  rewrite He1, He2. simpl. unfold MultiAgentExecutionMetadata.construct.
  match goal with |- context [MultiAgentExecutionMetadata.normalize ?m] =>
    assert (MultiAgentExecutionMetadata.normalize m = metadata_of ev ar rg durations trace) as ->
  end.
  { unfold MultiAgentExecutionMetadata.normalize, metadata_of. simpl.
    by rewrite expected_reasons_strip. }
  by rewrite (metadata_valid ev ar rg durations shapes trace).
Qed.

Lemma validate_total rq limit ev ar rg result st :
  synthesized rq limit ev ar rg result st → graph_ok ev →
  safe R never (run_node (validate sp) st) (λ st', ∃ m,
    final_result st' = Some result ∧ MultiAgentGraphState.execution st' = Some m ∧
    retrieved_evidence st' = retrieved_evidence st ∧ execution_ok (MultiAgent m) ∧
    account ev ar rg m).
Proof.
  intros Hs Hgraph. apply total_safe. unfold run_node, validate. rewrite (s_result _ _ _ _ _ _ _ Hs).
  eapply (total_step R) with (P := λ f, ∃ m, final_result (f st) = Some result ∧
    MultiAgentGraphState.execution (f st) = Some m ∧
    retrieved_evidence (f st) = retrieved_evidence st ∧ execution_ok (MultiAgent m) ∧
    account ev ar rg m).
  2: { intros f H. apply (total_ret R). by exists (f st). }
  apply total_safe. apply event_step; [by destruct (truthy _)|]. intros last Hlast.
  assert (Forall2 matches (expected_trace ev ar rg)
    (initialization_trace st ++ evidence_trace st ++ architecture_trace st ++
     risk_governance_trace st ++ synthesis_trace st ++ [last])) as Htrace.
  { pose proof (g_traces _ _ _ _ _ _ (s_gathered _ _ _ _ _ _ _ Hs)) as Ht.
    pose proof (s_trace _ _ _ _ _ _ _ Hs) as Ht2. unfold expected_trace.
    rewrite !app_assoc in *. repeat (apply Forall2_app; [|assumption || by constructor]). done. }
  destruct (numbered_matches _ _ Htrace) as [Hnum Hseq].
  destruct (execution_of_eq rq limit ev ar rg result st _ _ Hs Hgraph Hnum) as (d & Hd & Hex).
  cbn zeta. rewrite Hex. eapply (total_step R) with (P := λ m, m = metadata_of ev ar rg d _);
    [by apply safe_of_res|].
  intros m ->. eapply (total_step R); [apply (now_utc Hsp)|]. intros now _. apply (total_ret R).
  eexists. split; [reflexivity|]. eexists. split_and!; [done|reflexivity|done| |].
  - by eapply metadata_execution_ok.
  - split; try done.
    + apply reasons_truthy.
    + by rewrite <- reasons_truthy.
    + rewrite (Forall2_length _ _ _ Htrace). exact Hseq.
Qed.

(** ** The run *)

(** What a run answers, from what the specialists answered. *)
Definition run_outcome (rq : AssessmentRequest.t) (limit : Z) (r : res workflow_output) : Prop :=
  ∃ ev, answers (sp_evidence sp rq) ev ∧
  if reportable ev then
    ∃ ar rg, answers (sp_architecture sp rq (brief_from ev)) ar ∧
      answers (sp_risk_governance sp rq (brief_from ev)) rg ∧
      if rejected ev ar rg limit then r = Raise (ApplicationError AssessmentGenerationError)
      else
        let reasons := expected_reasons ev ar rg in
        ∃ ans, answers (sp_synthesis sp rq (brief_from ev) (to_option ar) (to_option rg) reasons) ans ∧
        match ans with
        | Ok result => ∃ m, r = Ok (WorkflowOutput (with_limitations reasons result)
              (default [] (EvidenceAgentOutcome.evidence <$> to_option ev)) (MultiAgent m)) ∧
            execution_ok (MultiAgent m) ∧ account ev ar rg m
        | Raise (ApplicationError a) => r = Raise (ApplicationError a)
        | Raise _ => r = Raise (ApplicationError AssessmentGenerationError)
        end
  else r = Raise (ApplicationError AssessmentGenerationError).

(** The same before the final [except] clauses. *)
Definition invoke_outcome (rq : AssessmentRequest.t) (limit : Z) (r : res mstate) : Prop :=
  ∃ ev, answers (sp_evidence sp rq) ev ∧
  if reportable ev then
    ∃ ar rg, answers (sp_architecture sp rq (brief_from ev)) ar ∧
      answers (sp_risk_governance sp rq (brief_from ev)) rg ∧
      if rejected ev ar rg limit then r = Raise (ApplicationError AssessmentGenerationError)
      else
        let reasons := expected_reasons ev ar rg in
        ∃ ans, answers (sp_synthesis sp rq (brief_from ev) (to_option ar) (to_option rg) reasons) ans ∧
        match ans with
        | Ok result => ∃ st m, r = Ok st ∧
            final_result st = Some (with_limitations reasons result) ∧
            MultiAgentGraphState.execution st = Some m ∧
            retrieved_evidence st = default [] (EvidenceAgentOutcome.evidence <$> to_option ev) ∧
            execution_ok (MultiAgent m) ∧ account ev ar rg m
        | Raise e => r = Raise e
        end
  else r = Raise ValidationError.

Lemma initialize_safe st :
  safe R never (run_node (initialize sp) st) (λ st', ∃ t0 start,
    matches (None, MultiAgentTraceEventType.WORKFLOW_STARTED, None, None) start ∧
    st' = st <| started_at := Some t0 |> <| initialization_trace := [start] |>).
Proof.
  apply total_safe. unfold run_node, initialize.
  eapply (total_step R) with (P := λ f, ∃ t0 start,
    matches (None, MultiAgentTraceEventType.WORKFLOW_STARTED, None, None) start ∧
    f = λ st, st <| started_at := Some t0 |> <| initialization_trace := [start] |>).
  - apply total_safe. eapply (total_step R); [apply (now_utc Hsp)|]. intros t0 _.
    apply event_step; [done|]. intros start Hstart. apply (total_ret R).
    eexists. split; [reflexivity|]. by exists t0, start.
  - intros f (t0 & start & Hs & ->). apply (total_ret R). eexists. split; [reflexivity|].
    by exists t0, start.
Qed.

Lemma invoke_total architecture_first id rq limit :
  total R (invoke sp architecture_first (initialize_multi_agent_state id rq limit))
    (invoke_outcome rq limit).
Proof.
  unfold invoke. eapply (total_step R); [apply initialize_safe|]. intros st (t0 & start & Hs & ->).
  set (st0 := _ <| initialization_trace := _ |>).
  apply (total_bind R) with (P := λ r, ∃ ev, answers (sp_evidence sp rq) ev ∧
    if reportable ev then ∃ f, r = Ok (f st0) ∧ evidence_updates ev f else r = Raise ValidationError).
  { unfold run_node. eapply (total_bind R); [apply evidence_total| |].
    - intros f (ev & Hev & H). apply (total_ret R). exists ev. split; [exact Hev|].
      destruct (reportable ev); [|done]. destruct H as (f' & [= <-] & Hf). by exists f.
    - intros e (ev & Hev & H). exists ev. split; [exact Hev|].
      destruct (reportable ev); [by destruct H as (? & ? & _)|]. congruence. }
  2: { intros e (ev & Hev & H). exists ev. split; [exact Hev|].
       destruct (reportable ev); [by destruct H as (? & ? & _)|]. congruence. }
  intros st1 (ev & Hev & H). destruct (reportable ev) eqn:Hrep; [|done].
  destruct H as (f & [= ->] & Hf).
  assert (brief_of (f st0) = brief_from ev ∧ request (f st0) = rq) as [Hbrief Hrq].
  { destruct Hf as (d & tr & _ & _ & ->). by destruct ev. }
  eapply (total_step R); [apply fan_out_safe|].
  intros st2 (ar & rg & g & h & Har & Hg & Hrg & Hh & ->). rewrite Hbrief, Hrq in Har, Hrg.
  pose proof (gathered_intro id rq limit ev ar rg t0 start f g h Hs Hf Hg Hh) as Hgathered.
  fold st0 in Hgathered.
  assert (graph_ok ev) as Hgraph.
  { unfold graph_ok. destruct ev as [o|e]; [|done]. by apply (evidence_graph Hsp rq). }
  eapply (total_bind R); [by apply synthesize_total| |].
  - intros st3 H3. destruct (rejected ev ar rg limit) eqn:Hrej; [done|].
    destruct H3 as (ans & Hans & H3). destruct ans as [result|e]; [|done].
    destruct H3 as (st' & [= <-] & Hsyn).
    pose proof (s_gathered _ _ _ _ _ _ _ Hsyn) as Hgat.
    eapply (total_mono R).
    + eapply safe_total, validate_total; [exact Hsyn|exact Hgraph].
    + intros r Hr. exists ev. split; [exact Hev|]. rewrite Hrep. exists ar, rg.
      split_and!; [done|done|]. rewrite Hrej. exists (Ok result). split; [exact Hans|].
      destruct r as [st4|e]; [|done]. destruct Hr as (m & H1 & H2 & H4 & H5 & H6).
      exists st4, m. split_and!; try done. rewrite H4. apply (g_evidence _ _ _ _ _ _ Hgat).
  - intros e H3. exists ev. split; [exact Hev|]. rewrite Hrep. exists ar, rg.
    split_and!; [done|done|]. destruct (rejected ev ar rg limit); [congruence|].
    destruct H3 as (ans & Hans & H3). exists ans. split; [exact Hans|].
    destruct ans as [result|e']; [by destruct H3 as (? & ? & _)|congruence].
Qed.

Lemma multi_agent_run_total architecture_first limit id rq :
  total R (multi_agent_run sp architecture_first limit id rq) (run_outcome rq limit).
Proof.
  unfold multi_agent_run.
  apply (total_bind R) with (P := λ r, match r with
    | Ok st => invoke_outcome rq limit (Ok st)
    | Raise e => run_outcome rq limit (Raise e)
    end).
  - eapply (total_try R); [apply invoke_total|done|]. intros e (ev & Hev & H).
    assert (∀ a, run_outcome rq limit (Raise (ApplicationError a)) →
      total R (raise (ApplicationError a)) (λ r : res mstate, match r with
        | Ok st => invoke_outcome rq limit (Ok st)
        | Raise e => run_outcome rq limit (Raise e) end)) as Hraise.
    { intros a Ha. by apply (total_raise R). }
    destruct (reportable ev) eqn:Hrep.
    2: { injection H as ->. apply Hraise. exists ev. split; [exact Hev|]. by rewrite Hrep. }
    destruct H as (ar & rg & Har & Hrg & H).
    destruct (rejected ev ar rg limit) eqn:Hrej.
    { injection H as ->. apply Hraise. exists ev. split; [exact Hev|]. rewrite Hrep.
      exists ar, rg. by rewrite Hrej. }
    destruct H as ([result|e'] & Hans & H); [by destruct H as (? & ? & ? & _)|].
    injection H as ->.
    destruct e'; apply Hraise; exists ev; (split; [exact Hev|]); rewrite Hrep; exists ar, rg;
      rewrite Hrej; (split_and!; [done|done|]); eexists; (split; [exact Hans|reflexivity]).
  - intros st (ev & Hev & H). destruct (reportable ev) eqn:Hrep; [|done].
    destruct H as (ar & rg & Har & Hrg & H). destruct (rejected ev ar rg limit) eqn:Hrej; [done|].
    destruct H as ([result|e] & Hans & H); [|done].
    destruct H as (st' & m & [= <-] & H1 & H2 & H3 & H4 & H5).
    rewrite H1, H2, H3. apply (total_ret R). exists ev. split; [exact Hev|]. rewrite Hrep.
    exists ar, rg. rewrite Hrej. split_and!; [done|done|]. exists (Ok result).
    split; [exact Hans|]. by exists m.
  - done.
Qed.

(** C8: the partial-failure policy: whichever of the two parallel specialists runs first, a
    run of the four-agent workflow always ends, stays within its specialists' effects, and
    answers as the policy says. It asks the evidence specialist; if the answer's tool calls
    cannot be reported it fails; otherwise it asks both analysts about the evidence brief
    (or its stand-in), rejects the run when more specialists failed than allowed or all
    did, and otherwise returns the synthesis - with one limitation per failed specialist -
    together with metadata that survives persistence and matches the run exactly:
    statuses, error codes, tools, degradation and the complete, consecutively numbered
    trace. Nothing but application errors gets out. *)
Theorem multi_agent_policy architecture_first limit id rq :
  total R (multi_agent_run sp architecture_first limit id rq) (run_outcome rq limit).
Proof. apply multi_agent_run_total. Qed.

(** the two parallel specialists do not interfere: when the specialists and the clocks
    do not depend on what ran before them, the state after the parallel superstep is the
    same in both orders. *)
Theorem parallel_branches_commute st s :
  independent (sp_architecture sp (request st) (brief_of st)) →
  independent (sp_risk_governance sp (request st) (brief_of st)) →
  independent (sp_now sp) → independent (sp_perf_counter sp) →
  fan_out sp true st s = fan_out sp false st s.
Proof.
  intros Ha Hr Hnow Hclock.
  assert (independent (architecture sp st)) as [ra Hra] by (unfold architecture; solve_independent).
  assert (independent (risk_governance sp st)) as [rr Hrr]
    by (unfold risk_governance; solve_independent).
  pose proof (architecture_safe st s) as Hsa. pose proof (governance_safe st s) as Hsr.
  unfold wp in Hsa, Hsr. rewrite Hra in Hsa. rewrite Hrr in Hsr. simpl in Hsa, Hsr.
  unfold fan_out, bind. rewrite Hra, Hrr.
  destruct ra as [f|e], rr as [g|e']; [|by destruct Hsr|by destruct Hsa|by destruct Hsa].
  cbn. by rewrite ?Hra, ?Hrr.
Qed.
End workflow.

(** ** The workflow under the assessment service *)

Section neutral_workflow.
Context {J S : Type} `{!Session (Database J) S} `{!SessionLaws (Database J) S}.

(** The multi-agent workflow meets what the assessment service demands of it: with
    specialists that leave the assessment tables alone, a run leaves them alone too, and
    the metadata of a run that returns survives persistence. *)
Lemma multi_agent_workflow_admissible (sp : specialists S) first limit id rq :
  specialists_ok keeps sp →
  neutral (multi_agent_run sp first limit id rq) (λ out, execution_ok (out_execution out)).
Proof.
  intros Hsp s. destruct (multi_agent_run_total keeps sp Hsp first limit id rq s) as [Hk H].
  unfold wp. split; [exact Hk|]. destruct (multi_agent_run _ _ _ _ _ s) as [s' [out|e]]; [|done].
  simpl in *. destruct H as (ev & _ & H). destruct (reportable ev); [|done].
  destruct H as (ar & rg & _ & _ & H). destruct (rejected _ _ _ _); [done|].
  destruct H as ([result|e] & _ & H).
  - by destruct H as (m & [= ->] & Hm & _).
  - by destruct e.
Qed.
End neutral_workflow.

(** ** A degraded run

    The evidence specialist breaks and the governance specialist times out. *)

Definition demo_architecture : ArchitectureRecommendation.t :=
  ArchitectureRecommendation.mk SolutionPattern.RAG_DECISION_SUPPORT "Retrieval." [] [] []
    ComplexityLevel.LOW [] [] "Simple enough." SpecialistConfidence.MEDIUM.
Definition demo_specialists (S : Type) : specialists S := Specialists
  (λ _, raise (OtherException "ConnectionError")) (λ _ _, ret demo_architecture)
  (λ _ _, raise OperationTimeoutError) (λ _ _ _ _ _, ret demo_result)
  (ret (datetime_utc 0)) (ret f64_one).

Lemma demo_specialists_ok S (R : relation S) `{!PreOrder R} : specialists_ok R (demo_specialists S).
Proof.
  split; try (intros; intros s; reflexivity).
  - by intros rq o (s & s' & H).
  - by apply safe_ret.
  - exists (eq f64_one). split; [by apply safe_ret|]. intros a b <- <-.
    eexists. vm_compute. reflexivity.
Qed.

Example demo_multi_agent_degraded :
  match (multi_agent_run (demo_specialists nat) true 2 1%N demo_request 0%nat).2 with
  | Ok (WorkflowOutput result _ (MultiAgent m)) =>
      (MultiAgentExecutionMetadata.agent_errors m,
       length (AssessmentResult.information_gaps result),
       length (MultiAgentExecutionMetadata.trace m))
      = (MultiAgentErrors.mk (Some (lit "specialist_generation_failed")) None
           (Some (lit "specialist_generation_failed")) None, 2%nat, 11%nat)
  | _ => False
  end.
Proof. vm_compute. reflexivity. Qed.

Lemma multi_agent_policy_witness :
  run_outcome (demo_specialists nat) demo_request 1
    (Raise (ApplicationError AssessmentGenerationError)).
Proof.
  assert (PreOrder (λ _ _ : nat, True)) as HP by (by split).
  pose proof (multi_agent_policy (λ _ _ : nat, True) (demo_specialists nat)
    (demo_specialists_ok nat _) true 1 1%N demo_request 0%nat) as [_ H].
  assert ((multi_agent_run (demo_specialists nat) true 1 1%N demo_request 0%nat).2 =
    Raise (ApplicationError AssessmentGenerationError)) as Hr by (vm_compute; reflexivity).
  rewrite Hr in H. exact H.
Defined.

Lemma parallel_branches_commute_witness :
  fan_out (demo_specialists nat) true (initialize_multi_agent_state 1%N demo_request 2) 0%nat =
  fan_out (demo_specialists nat) false (initialize_multi_agent_state 1%N demo_request 2) 0%nat.
Proof.
  assert (PreOrder (λ _ _ : nat, True)) as HP by (by split).
  apply (parallel_branches_commute (λ _ _, True) (demo_specialists nat)
    (demo_specialists_ok nat (λ _ _, True))); solve_independent.
Defined.

Lemma multi_agent_workflow_admissible_witness :
  neutral (S := memory (Database payload))
    (multi_agent_run (demo_specialists _) false 2 1%N demo_request)
    (λ out, execution_ok (out_execution out)).
Proof.
  apply (multi_agent_workflow_admissible (demo_specialists _)).
  apply (demo_specialists_ok _ keeps).
Defined.
