(* ===== verification/KnowledgeRetrieval.v ===== *)
(** Retrieval: app/rag/retrieval.py, context.py and service.py, and
    app/knowledge_graph/retrieval.py, hybrid.py and context.py.

    The embedding provider is an argument: it returns vectors, or raises. *)
From S2P Require Import Prelude PyFloat Errors Domain AgentModels Schemas RuntimeModels Prompts.
From S2P Require Import PyText Unicode Session Storage Repositories Telemetry Assessments Tools.
From S2P Require Import EvidenceAgent KnowledgeStore KnowledgeRepositories KnowledgeEnrichment.

(** [with suppress(SQLAlchemyError): m]. *)
Definition suppress_sql {S} (m : M S unit) : M S unit :=
  try_except m (λ e, match e with SQLAlchemyError _ => ret tt | _ => raise e end).

(** ** app/rag/retrieval.py *)

(** [f"{label}: {value}"] of the fields that have a value, joined by line breaks. *)
Definition labelled (label : pystr) (value : pystr) : list pystr :=
  if truthy value then [label ++ lit ": " ++ value] else [].
Definition joined_items (items : list pystr) : pystr := str_join "; " items.

Definition build_retrieval_query (request : AssessmentRequest.t) : pystr :=
  str_join [10%Z]
    (labelled "Company" (AssessmentRequest.company_name request) ++
     labelled "Organization" (default [] (AssessmentRequest.organization_description request)) ++
     labelled "Industry" (AssessmentRequest.industry request) ++
     labelled "Business problem" (AssessmentRequest.business_problem request) ++
     labelled "Current process" (default [] (AssessmentRequest.current_process request)) ++
     labelled "Pain points" (joined_items (AssessmentRequest.pain_points request)) ++
     labelled "Desired outcome" (AssessmentRequest.desired_outcome request) ++
     labelled "Constraints" (joined_items (AssessmentRequest.constraints request))).

(** [RetrievalService]: its constructor arguments. *)
Record vector_search (S : Type) := VectorSearch {
  vs_embed_texts : list pystr → M S (list (list pyfloat));
  vs_top_k : Z;
  vs_threshold : pyfloat
}.
Arguments VectorSearch {S}.
Arguments vs_embed_texts {S}.
Arguments vs_top_k {S}.
Arguments vs_threshold {S}.

(** [a or b] on an optional integer. *)
Definition or_default (o : option Z) (d : Z) : Z :=
  match o with Some n => if Z.eqb n 0 then d else n | None => d end.

(** [sorted(_, key=(-similarity_score, str(chunk_id)))]: [b] does not come before [a]. *)
Definition score (item : RetrievedEvidence.t) : pyfloat :=
  default SpecFloat.S754_nan (RetrievedEvidence.similarity_score item).
Definition ranked_before (a b : RetrievedEvidence.t) : bool :=
  fltb (fneg (score a)) (fneg (score b)) ||
  (feqb (fneg (score a)) (fneg (score b)) &&
   N.ltb (RetrievedEvidence.chunk_id a) (RetrievedEvidence.chunk_id b)).
Definition ranked_le (a b : RetrievedEvidence.t) : Prop := ranked_before b a = false.
#[export] Instance ranked_le_dec : RelDecision ranked_le.
Proof. intros a b. unfold ranked_le. apply _. Defined.

(** [item.similarity_score >= threshold]: a comparison with [None] is a [TypeError]. *)
Definition meets (threshold : pyfloat) (item : RetrievedEvidence.t) : res bool :=
  match RetrievedEvidence.similarity_score item with
  | Some x => Ok (fleb threshold x)
  | None => Raise TypeError
  end.

Fixpoint unique_evidence (threshold : pyfloat) (acc evidence : list RetrievedEvidence.t) :
    res (list RetrievedEvidence.t) :=
  match evidence with
  | [] => Ok acc
  | item :: evidence' =>
      res_bind (meets threshold item) (λ b,
        unique_evidence threshold
          (if b then keyed_setdefault RetrievedEvidence.chunk_id acc item else acc) evidence')
  end.

Section services.
Context {S : Type} `{!Session knowledge S} {cosine : CosineDistance}.

Definition vector_database_error (e : sql_error) : app_error :=
  match e with
  | OperationalError | ProgrammingError => KnowledgeStoreUnavailableError
  | OtherSQLAlchemyError => KnowledgePersistenceError
  end.

Definition search (svc : vector_search S) (query : pystr) (top_k : option Z)
    (similarity_threshold : option pyfloat) (source_type : option KnowledgeSourceType.t)
    (document_id : option uuid) : M S (list RetrievedEvidence.t) :=
  let* vectors := vs_embed_texts svc [query] in
  match vectors with
  | [] => raise (OtherException "IndexError")
  | query_embedding :: _ =>
      let resolved_top_k := or_default top_k (vs_top_k svc) in
      let resolved_threshold := default (vs_threshold svc) similarity_threshold in
      let* evidence := try_except
        (KnowledgeChunks.search_similar query_embedding resolved_top_k resolved_threshold
           source_type document_id)
        (λ e, match e with
              | SQLAlchemyError q =>
                  suppress_sql KnowledgeChunks.rollback ;;; app_raise (vector_database_error q)
              | _ => raise e
              end) in
      let* unique := of_res (unique_evidence resolved_threshold [] evidence) in
      ret (slice_to resolved_top_k (merge_sort ranked_le unique))
  end.

(** ** app/knowledge_graph/retrieval.py *)

(** [GraphRetrievalService]: its constructor arguments. *)
Record graph_search := GraphSearch {
  gs_max_depth : Z;
  gs_max_entities : Z;
  gs_min_confidence : pyfloat
}.

Definition _entity_result (entity : KnowledgeEntityRecord.t) : GraphEntityResult.t :=
  GraphEntityResult.mk (KnowledgeEntityRecord.entity_id entity)
    (KnowledgeEntityRecord.entity_type entity) (KnowledgeEntityRecord.canonical_name entity)
    (KnowledgeEntityRecord.normalized_name entity) (KnowledgeEntityRecord.description entity).

(** [{key(x): x for x in l}.get(k)]: the last item of the key. *)
Definition last_with {A} (key : A → uuid) (l : list A) (k : uuid) : option A :=
  py_next (λ a, bool_decide (key a = k)) (reverse l).

(** One relationship of the result, dropped when an end or its source is missing. *)
Definition relationship_result (data : GraphTraversalData.t) (r : KnowledgeRelationshipRecord.t) :
    option GraphRelationshipResult.t :=
  let entities := GraphTraversalData.matched_entities data ++
                  GraphTraversalData.related_entities data in
  match last_with KnowledgeEntityRecord.entity_id entities
          (KnowledgeRelationshipRecord.source_entity_id r),
        last_with KnowledgeEntityRecord.entity_id entities
          (KnowledgeRelationshipRecord.target_entity_id r),
        last_with RetrievedEvidence.chunk_id (GraphTraversalData.evidence data)
          (KnowledgeRelationshipRecord.source_chunk_id r) with
  | Some source, Some target, Some provenance =>
      Some (GraphRelationshipResult.mk (KnowledgeRelationshipRecord.relationship_id r)
        (KnowledgeEntityRecord.entity_id source) (KnowledgeEntityRecord.canonical_name source)
        (KnowledgeEntityRecord.entity_id target) (KnowledgeEntityRecord.canonical_name target)
        (KnowledgeRelationshipRecord.relationship_type r)
        (KnowledgeRelationshipRecord.description r) (KnowledgeRelationshipRecord.confidence r)
        (RetrievedEvidence.document_id provenance) (RetrievedEvidence.chunk_id provenance))
  | _, _, _ => None
  end.

Definition neighborhood_of (query : pystr) (data : GraphTraversalData.t) :
    res GraphNeighborhood.t :=
  res_bind (res_map GraphRelationshipResult.construct
              (omap (relationship_result data) (GraphTraversalData.relationships data)))
    (λ relationships,
  GraphNeighborhood.construct (GraphNeighborhood.mk query
    (_entity_result <$> GraphTraversalData.matched_entities data)
    (_entity_result <$> GraphTraversalData.related_entities data)
    relationships
    (sorted_ids (RetrievedEvidence.document_id <$> GraphTraversalData.evidence data))
    (sorted_ids (RetrievedEvidence.chunk_id <$> GraphTraversalData.evidence data))
    (GraphTraversalData.depth_used data)
    (GraphTraversalData.evidence data))).

(** [GraphNeighborhood.empty]. *)
Definition empty_neighborhood (query : pystr) : res GraphNeighborhood.t :=
  GraphNeighborhood.construct (GraphNeighborhood.mk query [] [] [] [] [] 0 []).

Context {udb : UnicodeDB} {C : Collation}.

(** The queries of [search], both inside its [try]. *)
Definition find_and_traverse (svc : graph_search) (query : pystr) (depth : Z)
    (entity_types : option (list KnowledgeEntityType.t)) : M S (option GraphTraversalData.t) :=
  let* matches := KnowledgeGraph.find_matching_query query (gs_max_entities svc) entity_types in
  if truthy matches then
    let* data := KnowledgeGraph.get_neighborhood (KnowledgeEntityRecord.entity_id <$> matches)
      depth (gs_max_entities svc) (gs_min_confidence svc) in
    ret (Some data)
  else ret None.

Definition graph_search_query (svc : graph_search) (query : pystr) (max_depth : option Z)
    (entity_types : option (list KnowledgeEntityType.t)) : M S GraphNeighborhood.t :=
  let depth := Z.min (or_default max_depth (gs_max_depth svc)) (gs_max_depth svc) in
  let* traversal := try_except (find_and_traverse svc query depth entity_types)
    (λ e, match e with
          | SQLAlchemyError q =>
              suppress_sql KnowledgeGraph.rollback ;;; app_raise (graph_database_error q)
          | _ => raise e
          end) in
  match traversal with
  | None => of_res (empty_neighborhood query)
  | Some data => of_res (neighborhood_of query data)
  end.

(** ** app/knowledge_graph/hybrid.py *)

(** [try: m except ApplicationError as exc: ...]: the value, or the code of the error. *)
Definition or_error_code {A} (m : M S A) (fallback : res A) : M S (A * option pystr) :=
  try_except (let* a := m in ret (a, None))
    (λ e, match e with
          | ApplicationError x => let* a := of_res fallback in ret (a, Some (error_code x))
          | _ => raise e
          end).

Abbreviation merged := (list RetrievedEvidence.t).
Definition with_source (source : RetrievalSource.t) (item : RetrievedEvidence.t) :
    RetrievedEvidence.t :=
  item <| RetrievedEvidence.retrieval_source := source |>.

Definition merge_vector (acc : merged) (item : RetrievedEvidence.t) : merged :=
  keyed_set RetrievedEvidence.chunk_id acc (with_source RetrievalSource.VECTOR item).
Definition merge_graph (acc : merged) (item : RetrievedEvidence.t) : merged :=
  keyed_set RetrievedEvidence.chunk_id acc
    (match py_next (λ e, bool_decide (RetrievedEvidence.chunk_id e =
                                      RetrievedEvidence.chunk_id item)) acc with
     | None => with_source RetrievalSource.GRAPH item
     | Some existing => with_source RetrievalSource.BOTH existing
     end).
Definition merge_evidence (vector graph : list RetrievedEvidence.t) : merged :=
  fold_left merge_graph graph (fold_left merge_vector vector []).

Definition hybrid_metadata (vector : list RetrievedEvidence.t) (neighborhood : GraphNeighborhood.t)
    (evidence : list RetrievedEvidence.t) (graph_error vector_error : option pystr) :
    res GraphRetrievalExecutionMetadata.t :=
  GraphRetrievalExecutionMetadata.construct (GraphRetrievalExecutionMetadata.mk
    (negb (is_not_none graph_error))
    (Z.of_nat (length (GraphNeighborhood.matched_entities neighborhood)))
    (Z.of_nat (length (GraphNeighborhood.relationships neighborhood)))
    (GraphNeighborhood.depth_used neighborhood)
    (Z.of_nat (length vector))
    (Z.of_nat (length (GraphNeighborhood.evidence neighborhood)))
    (Z.of_nat (length evidence))
    (is_not_none graph_error) graph_error vector_error).

(** [HybridRetrievalService.search], given the answers of its two services to the query. *)
Definition hybrid_of (vector : M S (list RetrievedEvidence.t)) (graph : M S GraphNeighborhood.t)
    (query : pystr) : M S HybridRetrievalResult.t :=
  let* v := or_error_code vector (Ok []) in
  let* g := or_error_code graph (empty_neighborhood query) in
  let evidence := merge_evidence v.1 (GraphNeighborhood.evidence g.1) in
  let* metadata := of_res (hybrid_metadata v.1 g.1 evidence g.2 v.2) in
  ret (HybridRetrievalResult.mk evidence g.1 metadata).

Definition hybrid_search (vector : vector_search S) (graph : graph_search) (query : pystr)
    (top_k max_depth : option Z) : M S HybridRetrievalResult.t :=
  hybrid_of (search vector query top_k None None None)
    (graph_search_query graph query max_depth None) query.
End services.

(** ** app/rag/context.py and app/knowledge_graph/context.py *)

Definition lines (l : list pystr) : pystr := str_join [10%Z] l.
Definition sections (l : list pystr) : pystr := str_join [10; 10]%Z l.

(** [f(rank, item) for rank, item in enumerate(items, start=1)]. *)
Definition enumerate_from_1 {A B} (f : Z → A → B) (items : list A) : list B :=
  imap (λ i a, f (Z.of_nat i + 1)%Z a) items.

Definition source_section (rank : Z) (item : RetrievedEvidence.t) : pystr :=
  lines [lit "BEGIN_SOURCE_" ++ str_int rank;
    lit "Rank: " ++ str_int rank;
    lit "Document: " ++ RetrievedEvidence.document_title item;
    lit "Document ID: " ++ str_uuid (RetrievedEvidence.document_id item);
    lit "Chunk ID: " ++ str_uuid (RetrievedEvidence.chunk_id item);
    lit "Source type: " ++ KnowledgeSourceType.value (RetrievedEvidence.source_type item);
    lit "Retrieval source: " ++ RetrievalSource.value (RetrievedEvidence.retrieval_source item);
    lit "Similarity: " ++ (match RetrievedEvidence.similarity_score item with
                           | Some x => format_fixed 6 x
                           | None => lit "not_applicable"
                           end);
    lit "Content:";
    RetrievedEvidence.content item;
    lit "END_SOURCE_" ++ str_int rank].

Definition build_rag_context (evidence : list RetrievedEvidence.t) : pystr :=
  if truthy evidence then
    sections (lit "EXTERNAL_KNOWLEDGE_STATUS: RELEVANT_EVIDENCE_RETRIEVED" ::
              enumerate_from_1 source_section evidence)
  else NO_EXTERNAL_EVIDENCE.

(** Formatting [None] with [:.6f] is a [TypeError]. *)
Definition vector_section (rank : Z) (item : RetrievedEvidence.t) : res pystr :=
  match RetrievedEvidence.similarity_score item with
  | Some x => Ok (lines [lit "Vector rank: " ++ str_int rank;
      lit "Document: " ++ RetrievedEvidence.document_title item;
      lit "Document ID: " ++ str_uuid (RetrievedEvidence.document_id item);
      lit "Chunk ID: " ++ str_uuid (RetrievedEvidence.chunk_id item);
      lit "Retrieval source: " ++ RetrievalSource.value (RetrievedEvidence.retrieval_source item);
      lit "Similarity: " ++ format_fixed 6 x])
  | None => Raise TypeError
  end.

Definition relationship_section (rank : Z) (r : GraphRelationshipResult.t) : pystr :=
  let arrow := [32; 8594; 32]%Z in
  lines [lit "BEGIN_GRAPH_RELATIONSHIP_" ++ str_int rank;
    lit "Entity: " ++ GraphRelationshipResult.source_entity_name r;
    lit "Relationship: " ++ GraphRelationshipResult.source_entity_name r ++ arrow ++
      KnowledgeRelationshipType.value (GraphRelationshipResult.relationship_type r) ++ arrow ++
      GraphRelationshipResult.target_entity_name r;
    lit "Description: " ++ (match GraphRelationshipResult.description r with
                            | Some (c :: s) => c :: s
                            | _ => lit "Not supplied"
                            end);
    lit "Confidence: " ++ format_fixed 3 (GraphRelationshipResult.confidence r);
    lit "Supported by document: " ++ str_uuid (GraphRelationshipResult.source_document_id r);
    lit "Supported by chunk: " ++ str_uuid (GraphRelationshipResult.source_chunk_id r);
    lit "END_GRAPH_RELATIONSHIP_" ++ str_int rank].

Definition hybrid_source_section (rank : Z) (item : RetrievedEvidence.t) : pystr :=
  lines [lit "BEGIN_HYBRID_SOURCE_" ++ str_int rank;
    lit "Document: " ++ RetrievedEvidence.document_title item;
    lit "Document ID: " ++ str_uuid (RetrievedEvidence.document_id item);
    lit "Chunk ID: " ++ str_uuid (RetrievedEvidence.chunk_id item);
    lit "Source type: " ++ KnowledgeSourceType.value (RetrievedEvidence.source_type item);
    lit "Retrieval source: " ++ RetrievalSource.value (RetrievedEvidence.retrieval_source item);
    lit "Content:";
    RetrievedEvidence.content item;
    lit "END_HYBRID_SOURCE_" ++ str_int rank].

Definition from_vector (item : RetrievedEvidence.t) : bool :=
  match RetrievedEvidence.retrieval_source item with
  | RetrievalSource.VECTOR | RetrievalSource.BOTH => true
  | RetrievalSource.GRAPH => false
  end.

Definition build_hybrid_rag_context (evidence : list RetrievedEvidence.t)
    (neighborhood : GraphNeighborhood.t) : res pystr :=
  let relationships := GraphNeighborhood.relationships neighborhood in
  if truthy evidence || truthy relationships then
    let vector_items := filter (λ item, from_vector item = true) evidence in
    res_bind (res_map id (enumerate_from_1 vector_section vector_items)) (λ vector_sections,
    Ok (sections
      ([lit "EXTERNAL_KNOWLEDGE_STATUS: RELEVANT_HYBRID_EVIDENCE_RETRIEVED";
        lit "VECTOR EVIDENCE"] ++
       (if truthy vector_items then vector_sections
        else [lit "No vector evidence available."]) ++
       [lit "GRAPH RELATIONSHIPS"] ++
       (if truthy relationships then enumerate_from_1 relationship_section relationships
        else [lit "No source-grounded graph relationships matched."]) ++
       [lit "SOURCE EVIDENCE"] ++ enumerate_from_1 hybrid_source_section evidence)))
  else Ok NO_EXTERNAL_EVIDENCE.

(** ** app/rag/service.py and [HybridRAGService] *)

Section preparation.
Context {S : Type} `{!Session knowledge S} {cosine : CosineDistance}.

Definition rag_prepare (retrieval : vector_search S) (request : AssessmentRequest.t) :
    M S preparation :=
  let query := build_retrieval_query request in
  let* evidence := search retrieval query None None None None in
  ret (Plain (RAGPreparation.mk query evidence (build_rag_context evidence))).

Context {udb : UnicodeDB} {C : Collation}.
Definition hybrid_prepare (vector : vector_search S) (graph : graph_search)
    (request : AssessmentRequest.t) : M S preparation :=
  let query := build_retrieval_query request in
  let* result := hybrid_search vector graph query None None in
  let* context := of_res (build_hybrid_rag_context (HybridRetrievalResult.evidence result)
    (HybridRetrievalResult.neighborhood result)) in
  ret (Hybrid (HybridRAGPreparation.mk query (HybridRetrievalResult.evidence result) context
    (HybridRetrievalResult.metadata result))).
End preparation.
