(* ===== verification/Utf8.v ===== *)
(** Python's strict UTF-8 codec, which reads uploaded text files: [bytes.decode(utf-8-sig)]
    and its inverse [str.encode()].  A byte is its value, a character its code point. *)
From S2P Require Import Prelude Errors PyText.

Abbreviation bytes := (list Z).

Definition continuation (b : Z) : bool := Z.leb 128 b && Z.leb b 191.

(** A code point that UTF-8 encodes: no surrogate, at most U+10FFFF. *)
Definition scalar (c : Z) : bool :=
  (Z.leb 0 c && Z.leb c 55295) || (Z.leb 57344 c && Z.leb c 1114111).

(** The shortest form of each code point only: an overlong form, a surrogate, a code point
    beyond the range or a truncated sequence is an error. *)
Fixpoint utf8_decode (l : bytes) : option pystr :=
  match l with
  | [] => Some []
  | b0 :: l1 =>
      if Z.leb 0 b0 && Z.leb b0 127 then cons b0 <$> utf8_decode l1
      else match l1 with
      | [] => None
      | b1 :: l2 =>
          if Z.leb 194 b0 && Z.leb b0 223 && continuation b1
          then cons ((b0 - 192) * 64 + (b1 - 128))%Z <$> utf8_decode l2
          else match l2 with
          | [] => None
          | b2 :: l3 =>
              let c3 := ((b0 - 224) * 4096 + (b1 - 128) * 64 + (b2 - 128))%Z in
              if Z.leb 224 b0 && Z.leb b0 239 && continuation b1 && continuation b2 &&
                 Z.leb 2048 c3 && scalar c3
              then cons c3 <$> utf8_decode l3
              else match l3 with
              | [] => None
              | b3 :: l4 =>
                  let c4 := ((b0 - 240) * 262144 + (b1 - 128) * 4096 + (b2 - 128) * 64 +
                             (b3 - 128))%Z in
                  if Z.leb 240 b0 && Z.leb b0 244 && continuation b1 && continuation b2 &&
                     continuation b3 && Z.leb 65536 c4 && scalar c4
                  then cons c4 <$> utf8_decode l4
                  else None
              end
          end
      end
  end.

Definition BOM : bytes := [239; 187; 191]%Z.

(** [data.decode(utf-8-sig)]: one byte order mark at the start is dropped. *)
Definition decode_utf8_sig (data : bytes) : option pystr :=
  if str_startswith BOM data then utf8_decode (drop 3 data) else utf8_decode data.

Definition utf8_encode_char (c : Z) : bytes :=
  if Z.leb c 127 then [c]
  else if Z.leb c 2047 then [192 + c / 64; 128 + c mod 64]%Z
  else if Z.leb c 65535 then [224 + c / 4096; 128 + c / 64 mod 64; 128 + c mod 64]%Z
  else [240 + c / 262144; 128 + c / 4096 mod 64; 128 + c / 64 mod 64; 128 + c mod 64]%Z.
Definition utf8_encode (s : pystr) : bytes := s ≫= utf8_encode_char.

Example decode_euro : utf8_decode [226; 130; 172; 33]%Z = Some [8364; 33]%Z.
Proof. reflexivity. Qed.
Example decode_overlong : utf8_decode [192; 175]%Z = None.
Proof. reflexivity. Qed.
Example decode_surrogate : utf8_decode [237; 160; 128]%Z = None.
Proof. reflexivity. Qed.
Example decode_bom : decode_utf8_sig ([239; 187; 191; 65]%Z : bytes) = Some [65]%Z.
Proof. reflexivity. Qed.

(** ** The codec is a bijection between texts of scalars and the bytes it accepts *)

(** Decides the comparisons that arithmetic decides. *)
Ltac decide_leb :=
  repeat match goal with
  | |- context [Z.leb ?a ?b] =>
      first [rewrite (proj2 (Z.leb_le a b)) by lia | rewrite (proj2 (Z.leb_gt a b)) by lia]
  end; cbn [andb].

Lemma scalar_range c :
  scalar c = true ↔ (0 ≤ c ≤ 55295 ∨ 57344 ≤ c ≤ 1114111)%Z.
Proof. unfold scalar. rewrite orb_true_iff, !andb_true_iff, !Z.leb_le. done. Qed.

Lemma decode_encode_char c l :
  scalar c = true → utf8_decode (utf8_encode_char c ++ l) = cons c <$> utf8_decode l.
Proof.
  intros Hc. pose proof (proj1 (scalar_range c) Hc). unfold utf8_encode_char.
  pose proof (Z.div_mod c 64) as E1. pose proof (Z.div_mod (c / 64) 64) as E2.
  pose proof (Z.div_mod (c / 4096) 64) as E3.
  replace (c / 64 / 64)%Z with (c / 4096)%Z in E2 by (rewrite Z.div_div by lia; done).
  replace (c / 4096 / 64)%Z with (c / 262144)%Z in E3 by (rewrite Z.div_div by lia; done).
  pose proof (Z.mod_pos_bound c 64). pose proof (Z.mod_pos_bound (c / 64) 64).
  pose proof (Z.mod_pos_bound (c / 4096) 64).
  set (q1 := (c / 64)%Z) in *. set (q2 := (c / 4096)%Z) in *. set (q3 := (c / 262144)%Z) in *.
  set (r1 := (c mod 64)%Z) in *. set (r2 := (q1 mod 64)%Z) in *. set (r3 := (q2 mod 64)%Z) in *.
  clearbody q1 q2 q3 r1 r2 r3.
  destruct (Z.leb_spec c 127); [|destruct (Z.leb_spec c 2047); [|destruct (Z.leb_spec c 65535)]];
    cbn [app utf8_decode]; unfold continuation.
  - decide_leb. reflexivity.
  - decide_leb. do 2 f_equal. lia.
  - replace ((224 + q2 - 224) * 4096 + (128 + r2 - 128) * 64 + (128 + r1 - 128))%Z with c by lia.
    rewrite Hc. decide_leb. reflexivity.
  - replace ((240 + q3 - 240) * 262144 + (128 + r3 - 128) * 4096 + (128 + r2 - 128) * 64 +
             (128 + r1 - 128))%Z with c by lia.
    rewrite Hc. decide_leb. reflexivity.
Qed.

Lemma decode_encode s : forallb scalar s = true → utf8_decode (utf8_encode s) = Some s.
Proof.
  induction s as [|c s IH]; [done|]. cbn [forallb]. intros [Hc Hs]%andb_true_iff.
  change (utf8_decode (utf8_encode_char c ++ utf8_encode s) = Some (c :: s)).
  rewrite decode_encode_char by done.
  by rewrite (IH Hs).
Qed.

(** The bytes of a code point from its parts. *)
Lemma encode_char_2 x y :
  (2 ≤ x ≤ 31)%Z → (0 ≤ y ≤ 63)%Z →
  utf8_encode_char (x * 64 + y) = [192 + x; 128 + y]%Z.
Proof.
  intros. unfold utf8_encode_char. decide_leb.
  rewrite <- (Z.div_unique (x * 64 + y) 64 x y) by lia.
  by rewrite <- (Z.mod_unique (x * 64 + y) 64 x y) by lia.
Qed.

Lemma encode_char_3 x y z :
  (0 ≤ x ≤ 15)%Z → (0 ≤ y ≤ 63)%Z → (0 ≤ z ≤ 63)%Z → (2048 ≤ x * 4096 + y * 64 + z)%Z →
  utf8_encode_char (x * 4096 + y * 64 + z) = [224 + x; 128 + y; 128 + z]%Z.
Proof.
  intros. unfold utf8_encode_char. decide_leb.
  rewrite <- (Z.div_unique (x * 4096 + y * 64 + z) 64 (x * 64 + y) z) by lia.
  rewrite <- (Z.mod_unique (x * 4096 + y * 64 + z) 64 (x * 64 + y) z) by lia.
  rewrite <- (Z.div_unique (x * 4096 + y * 64 + z) 4096 x (y * 64 + z)) by lia.
  by rewrite <- (Z.mod_unique (x * 64 + y) 64 x y) by lia.
Qed.

Lemma encode_char_4 x y z w :
  (0 ≤ x ≤ 4)%Z → (0 ≤ y ≤ 63)%Z → (0 ≤ z ≤ 63)%Z → (0 ≤ w ≤ 63)%Z →
  (65536 ≤ x * 262144 + y * 4096 + z * 64 + w)%Z →
  utf8_encode_char (x * 262144 + y * 4096 + z * 64 + w) =
    [240 + x; 128 + y; 128 + z; 128 + w]%Z.
Proof.
  intros. unfold utf8_encode_char. decide_leb. set (c := (_ + w)%Z).
  rewrite <- (Z.div_unique c 64 (x * 4096 + y * 64 + z) w) by lia.
  rewrite <- (Z.mod_unique c 64 (x * 4096 + y * 64 + z) w) by lia.
  rewrite <- (Z.div_unique c 4096 (x * 64 + y) (z * 64 + w)) by lia.
  rewrite <- (Z.div_unique c 262144 x (y * 4096 + z * 64 + w)) by lia.
  rewrite <- (Z.mod_unique (x * 4096 + y * 64 + z) 64 (x * 64 + y) z) by lia.
  by rewrite <- (Z.mod_unique (x * 64 + y) 64 x y) by lia.
Qed.

Lemma continuation_range b : continuation b = true ↔ (128 ≤ b ≤ 191)%Z.
Proof. unfold continuation. by rewrite andb_true_iff, !Z.leb_le. Qed.

(** The character read first, and the bytes left. *)
Lemma decode_step l c s :
  utf8_decode l = Some (c :: s) →
  scalar c = true ∧ ∃ l', l = utf8_encode_char c ++ l' ∧ utf8_decode l' = Some s.
Proof.
  destruct l as [|b0 l1]; [done|]. cbn [utf8_decode].
  destruct (Z.leb 0 b0 && Z.leb b0 127) eqn:H1.
  { intros (s' & Hs & [= -> ->])%fmap_Some. apply andb_true_iff in H1 as [Ha Hb].
    split; [apply scalar_range; lia|]. exists l1. unfold utf8_encode_char. by rewrite Hb. }
  destruct l1 as [|b1 l2]; [done|].
  destruct (Z.leb 194 b0 && Z.leb b0 223 && continuation b1) eqn:H2.
  { rewrite !andb_true_iff, !Z.leb_le, continuation_range in H2.
    intros (s' & Hs & [= -> ->])%fmap_Some. split; [apply scalar_range; lia|]. exists l2.
    rewrite encode_char_2 by lia. split; [cbn [app]; repeat (apply f_equal2; [lia|])|]; done. }
  destruct l2 as [|b2 l3]; [done|]. cbn zeta.
  match goal with |- context [if ?b then _ else _] => destruct b eqn:H3 end.
  { rewrite !andb_true_iff, !Z.leb_le, !continuation_range in H3.
    intros (s' & Hs & [= -> ->])%fmap_Some. split; [tauto|]. exists l3.
    rewrite encode_char_3 by lia. split; [cbn [app]; repeat (apply f_equal2; [lia|])|]; done. }
  destruct l3 as [|b3 l4]; [done|].
  match goal with |- context [if ?b then _ else _] => destruct b eqn:H4 end; [|done].
  rewrite !andb_true_iff, !Z.leb_le, !continuation_range in H4.
  intros (s' & Hs & [= -> ->])%fmap_Some. split; [tauto|]. exists l4.
  rewrite encode_char_4 by lia. split; [cbn [app]; repeat (apply f_equal2; [lia|])|]; done.
Qed.

Lemma decode_nil l : utf8_decode l = Some [] → l = [].
Proof.
  destruct l as [|b0 l1]; [done|]. cbn [utf8_decode]. intros H. exfalso. revert H.
  repeat case_match; try done; by intros (s' & _ & ?)%fmap_Some.
Qed.

Lemma encode_decode l s :
  utf8_decode l = Some s → forallb scalar s = true ∧ utf8_encode s = l.
Proof.
  revert l. induction s as [|c s IH]; intros l Hl.
  { by rewrite (decode_nil l Hl). }
  destruct (decode_step l c s Hl) as (Hc & l' & -> & Hs). destruct (IH l' Hs) as [Hall <-].
  cbn [forallb]. by rewrite Hc, Hall.
Qed.

(** Decoding accepts exactly the encodings. *)
Lemma utf8_decode_iff l s :
  utf8_decode l = Some s ↔ forallb scalar s = true ∧ utf8_encode s = l.
Proof.
  split; [apply encode_decode|]. intros [Hs <-]. by apply decode_encode.
Qed.
