(* ===== verification/DocumentParsers.v ===== *)
(** app/ingestion/models.py, app/ingestion/router.py and app/ingestion/parsers/: what an
    upload is called, which parser it goes to, and the text each parser reads from it.

    Arguments: the libraries that open a PDF and a DOCX file, and the names in a ZIP
    archive.  Each either gives its content or raises; the parsers work on the content. *)
From S2P Require Import Prelude Errors Chunking TextNormalization Domain Unicode PyText Utf8.

(** ** app/ingestion/models.py *)

Module FileFormat.
Inductive t := PDF | DOCX | TXT | MARKDOWN.
Definition value (x : t) : pystr :=
  match x with PDF => "pdf" | DOCX => "docx" | TXT => "txt" | MARKDOWN => "markdown" end.
#[export] Instance eq_dec : EqDecision t.
Proof. solve_decision. Defined.
End FileFormat.
#[export] Existing Instance FileFormat.eq_dec.

Module ParsedDocumentSegment.
Record t := mk {
  text : pystr;
  page_number : option Z;
  section_heading : option pystr
}.
Definition normalize (r : t) : t :=
  mk (str_strip (text r)) (page_number r) (str_strip <$> section_heading r).
Definition valid (r : t) : bool :=
  len_ge 1 (text r) && opt_all (Z.leb 1) (page_number r) &&
  opt_all (len_le 500) (section_heading r).
Definition construct (r : t) : res t :=
  if valid (normalize r) then Ok (normalize r) else Raise ValidationError.
End ParsedDocumentSegment.

Module ParsedDocument.
Record t := mk {
  text : pystr;
  title : pystr;
  filename : pystr;
  mime_type : pystr;
  file_format : FileFormat.t;
  source_type : KnowledgeSourceType.t;
  page_count : option Z;
  sections : list pystr;
  parser_name : pystr;
  parser_version : option pystr;
  extraction_method : pystr;
  metadata : pydict;
  segments : list ParsedDocumentSegment.t
}.
Definition normalize (r : t) : t :=
  mk (str_strip (text r)) (str_strip (title r)) (str_strip (filename r)) (str_strip (mime_type r))
    (file_format r) (source_type r) (page_count r) (str_strip <$> sections r)
    (str_strip (parser_name r)) (str_strip <$> parser_version r) (str_strip (extraction_method r))
    (metadata r) (segments r).
Definition valid (r : t) : bool :=
  len_ge 1 (text r) && len_in 1 300 (title r) && len_in 1 255 (filename r) &&
  len_in 1 200 (mime_type r) && opt_all (Z.leb 1) (page_count r) && len_le 1000 (sections r) &&
  len_in 1 100 (parser_name r) && opt_all (len_le 100) (parser_version r) &&
  len_in 1 100 (extraction_method r) && len_le 10000 (segments r).
Definition construct (r : t) : res t :=
  if valid (normalize r) then Ok (normalize r) else Raise ValidationError.
End ParsedDocument.

(** ** Names *)

(** [name.rfind(.)]: the name is split at its last dot. *)
Fixpoint split_last_dot (name : pystr) : option (pystr * pystr) :=
  match name with
  | [] => None
  | c :: rest =>
      match split_last_dot rest with
      | Some (before, after) => Some (c :: before, after)
      | None => if Z.eqb c 46 then Some ([], rest) else None
      end
  end.
(** [PurePath(name).stem] and [PurePath(name).suffix] of a single component: the last dot
    counts when something stands on both sides of it. *)
Definition path_parts (name : pystr) : pystr * pystr :=
  match split_last_dot name with
  | Some (before, after) =>
      if truthy before && truthy after then (before, 46%Z :: after) else (name, [])
  | None => (name, [])
  end.
Definition path_stem (name : pystr) : pystr := (path_parts name).1.
Definition path_suffix (name : pystr) : pystr := (path_parts name).2.

(** [s.rsplit(sep, 1)[-1]] and [s.split(sep, 1)[0]] for a character. *)
Definition after_last (sep : Z) (s : pystr) : pystr := default [] (last (str_split sep s)).
Definition before_first (sep : Z) (s : pystr) : pystr := default [] (head (str_split sep s)).
(** [s[-n:]]. *)
Definition take_last (n : nat) (s : pystr) : pystr := drop (length s - n) s.

(** [CONTROL_CHARACTERS]. *)
Definition is_control (c : Z) : bool := (Z.leb 0 c && Z.leb c 31) || Z.eqb c 127.
Definition MAX_FILENAME_LENGTH : nat := 255.

Definition sanitize_filename (value : option pystr) : res pystr :=
  let candidate := str_strip (after_last 47 (str_replace (default [] value) [92%Z] [47%Z])) in
  let candidate := filter (λ c, negb (is_control c) = true) candidate in
  if negb (truthy candidate) || mem candidate [lit "."; lit ".."]
  then Raise (ApplicationError UnsupportedFileTypeError)
  else
    let suffix := take_last 20 (path_suffix candidate) in
    if Nat.ltb MAX_FILENAME_LENGTH (length candidate)
    then Ok (take (MAX_FILENAME_LENGTH - length suffix) (path_stem candidate) ++ suffix)
    else Ok candidate.

(** ** Lines *)

(** [str.splitlines]: the line boundaries are not part of the lines. *)
Definition is_line_break (c : Z) : bool :=
  mem c [10; 11; 12; 13; 28; 29; 30; 133; 8232; 8233]%Z.
Fixpoint splitlines_from (line : pystr) (s : pystr) : list pystr :=
  match s with
  | [] => if truthy line then [reverse line] else []
  | c :: s' =>
      if is_line_break c then
        reverse line ::
          match s' with
          | d :: s'' => if Z.eqb c 13 && Z.eqb d 10 then splitlines_from [] s''
                        else splitlines_from [] s'
          | [] => []
          end
      else splitlines_from (c :: line) s'
  end.
Definition splitlines (s : pystr) : list pystr := splitlines_from [] s.

(** *** [HEADING_PATTERN]: [^#{1,6}\s+(.+?)\s*#*\s*$] on a line without a line feed *)

(** The leading characters that satisfy [p], and the rest. *)
Fixpoint span_chars (p : Z → bool) (s : pystr) : pystr * pystr :=
  match s with
  | [] => ([], [])
  | c :: s' => if p c then let '(a, b) := span_chars p s' in (c :: a, b) else ([], s)
  end.
(** [\s*#*\s*$]. *)
Definition closing (s : pystr) : bool :=
  let rest := (span_chars is_space s).2 in
  let rest := (span_chars (Z.eqb 35) rest).2 in
  negb (truthy (span_chars is_space rest).2).
(** [(.+?)]: the shortest non-empty text before a closing sequence. *)
Fixpoint lazy_group (s : pystr) : pystr :=
  match s with
  | [] => []
  | c :: s' => if closing s' then [c] else c :: lazy_group s'
  end.
Definition heading_text (line : pystr) : option pystr :=
  let '(marks, rest) := span_chars (Z.eqb 35) line in
  let '(blanks, rest) := span_chars is_space rest in
  if Nat.leb 1 (length marks) && Nat.leb (length marks) 6 then
    match rest with
    | _ :: _ => if truthy blanks then Some (str_strip (lazy_group rest)) else None
    | [] =>
        (* the last of at least two blanks is left to the group *)
        if Nat.leb 2 (length blanks) then Some [] else None
    end
  else None.

Example heading_plain : heading_text "## Scope ##" = Some (lit "Scope").
Proof. reflexivity. Qed.
Example heading_needs_blank : heading_text "##Scope" = None.
Proof. reflexivity. Qed.
Example heading_seven : heading_text "####### Scope" = None.
Proof. reflexivity. Qed.
Example heading_hash_inside : heading_text "# C# and F#" = Some (lit "C# and F").
Proof. reflexivity. Qed.
Example heading_empty : heading_text "#  " = Some [].
Proof. reflexivity. Qed.

(** ** app/ingestion/parsers/ *)

(** A parser takes the bytes, the file name and the MIME type. *)
Record parser := Parser {
  pa_format : FileFormat.t;
  pa_parse : bytes → pystr → pystr → res ParsedDocument.t
}.

(** *** text.py *)

Definition parse_text (data : bytes) (filename mime_type : pystr) : res ParsedDocument.t :=
  match decode_utf8_sig data with
  | None => Raise (ApplicationError TextDecodeError)
  | Some text =>
      if truthy (str_strip text) then
        res_bind (ParsedDocumentSegment.construct (ParsedDocumentSegment.mk text None None))
          (λ segment,
        ParsedDocument.construct
          (ParsedDocument.mk text (path_stem filename) filename mime_type FileFormat.TXT
             KnowledgeSourceType.TEXT None [] "utf8_text" (Some (lit "1")) "utf8_decode" []
             [segment]))
      else Raise (ApplicationError DocumentParseError)
  end.
Definition TextDocumentParser : parser := Parser FileFormat.TXT parse_text.

(** *** markdown.py *)

(** The local variables of [parse]; [block] is in reverse. *)
Record markdown := Markdown {
  md_sections : list pystr;
  md_segments : list ParsedDocumentSegment.t;
  md_block : list pystr;
  md_heading : option pystr
}.
Definition flush (st : markdown) : res markdown :=
  let text := str_strip (str_join [10%Z] (reverse (md_block st))) in
  if truthy text then
    res_bind (ParsedDocumentSegment.construct (ParsedDocumentSegment.mk text None (md_heading st)))
      (λ segment, Ok (Markdown (md_sections st) (md_segments st ++ [segment]) [] (md_heading st)))
  else Ok (Markdown (md_sections st) (md_segments st) [] (md_heading st)).
Definition read_line (st : markdown) (line : pystr) : res markdown :=
  match heading_text line with
  | Some heading =>
      res_bind (flush st) (λ st,
        Ok (Markdown (md_sections st ++ [heading]) (md_segments st) (line :: md_block st)
              (Some heading)))
  | None => Ok (Markdown (md_sections st) (md_segments st) (line :: md_block st) (md_heading st))
  end.
Fixpoint read_lines (lines : list pystr) (st : markdown) : res markdown :=
  match lines with
  | [] => Ok st
  | line :: rest => res_bind (read_line st line) (read_lines rest)
  end.

Definition parse_markdown (data : bytes) (filename mime_type : pystr) : res ParsedDocument.t :=
  res_bind (parse_text data filename mime_type) (λ parsed,
  res_bind (read_lines (splitlines (ParsedDocument.text parsed)) (Markdown [] [] [] None)) (λ st,
  res_bind (flush st) (λ st,
  let title := match md_sections st with heading :: _ => heading | [] => path_stem filename end in
  ParsedDocument.construct
    (ParsedDocument.mk
       (str_join [10; 10]%Z (ParsedDocumentSegment.text <$> md_segments st)) title filename
       mime_type FileFormat.MARKDOWN KnowledgeSourceType.MARKDOWN None (md_sections st)
       "markdown_text" (Some (lit "1")) "utf8_markdown_preserved"
       [(lit "heading_count", PInt (Z.of_nat (length (md_sections st))))] (md_segments st))))).
Definition MarkdownDocumentParser : parser := Parser FileFormat.MARKDOWN parse_markdown.

(** *** pdf.py *)

(** What the library reads: whether the file is encrypted, the text of each page, and the
    title in the metadata. *)
Record pdf_document := PdfDocument {
  pdf_is_encrypted : bool;
  pdf_pages : list (res (option pystr));
  pdf_title : res (option pystr)
}.

Section pdf.
Context (PdfReader : bytes → res pdf_document) (pypdf_version : pystr) (minimum_characters : Z).

Definition pdf_failure (e : exn) : bool :=
  match e with
  | ValueError | ValidationError | TypeError | KeyError => true
  | OtherException name => mem name [lit "PdfReadError"; lit "OSError"]
  | _ => false
  end.

Fixpoint page_segments (page_number : Z) (pages : list (res (option pystr))) :
    res (list ParsedDocumentSegment.t) :=
  match pages with
  | [] => Ok []
  | page :: rest =>
      res_bind page (λ extracted,
      let text := default [] extracted in
      res_bind (if truthy (str_strip text)
                then res_bind (ParsedDocumentSegment.construct
                       (ParsedDocumentSegment.mk text (Some page_number) None))
                       (λ segment, Ok [segment])
                else Ok []) (λ here,
      res_bind (page_segments (page_number + 1) rest) (λ after, Ok (here ++ after))))
  end.

(** The [try] statement. *)
Definition read_pdf (data : bytes) :
    res (list ParsedDocumentSegment.t * option pystr * nat) :=
  res_bind (PdfReader data) (λ reader,
  if pdf_is_encrypted reader then Raise (ApplicationError EncryptedPDFError)
  else
    res_bind (page_segments 1 (pdf_pages reader)) (λ segments,
    res_bind (pdf_title reader) (λ metadata_title,
    Ok (segments, metadata_title, length (pdf_pages reader))))).

Definition parse_pdf (data : bytes) (filename mime_type : pystr) : res ParsedDocument.t :=
  match read_pdf data with
  | Raise e => Raise (if pdf_failure e then ApplicationError DocumentParseError else e)
  | Ok (segments, metadata_title, page_count) =>
      let text := str_join [10; 10]%Z (ParsedDocumentSegment.text <$> segments) in
      if Z.ltb (Z.of_nat (length (concat (str_words text)))) minimum_characters
      then Raise (ApplicationError OCRRequiredError)
      else
        let title := match metadata_title with
                     | Some given => if truthy given then str_strip given else path_stem filename
                     | None => path_stem filename
                     end in
        ParsedDocument.construct
          (ParsedDocument.mk text (take 300 title) filename mime_type FileFormat.PDF
             KnowledgeSourceType.TEXT (Some (Z.of_nat page_count)) [] "pypdf"
             (Some pypdf_version) "digital_text_per_page"
             [(lit "page_count", PInt (Z.of_nat page_count)); (lit "ocr_used", PBool false)]
             segments)
  end.
Definition PDFDocumentParser : parser := Parser FileFormat.PDF parse_pdf.
End pdf.

(** *** docx.py *)

(** A block of the document: a paragraph with the name of its style, or the rows of a table. *)
Inductive docx_block :=
  | Paragraph (text : pystr) (style_name : option pystr)
  | Table (rows : list (list pystr)).
Record docx_document := DocxDocument {
  docx_blocks : list docx_block;
  docx_title : option pystr
}.

Section docx.
Context (Document : bytes → res docx_document) (docx_version : pystr).

Definition docx_failure (e : exn) : bool :=
  match e with
  | ValueError | ValidationError | TypeError | KeyError => true
  | OtherException name =>
      mem name [lit "PackageNotFoundError"; lit "BadZipFile"; lit "XMLSyntaxError"]
  | _ => false
  end.

(** [row.strip( |)]. *)
Fixpoint strip_left (p : Z → bool) (s : pystr) : pystr :=
  match s with [] => [] | c :: s' => if p c then strip_left p s' else s end.
Definition strip_chars (p : Z → bool) (s : pystr) : pystr :=
  reverse (strip_left p (reverse (strip_left p s))).
Definition blank_or_bar (c : Z) : bool := Z.eqb c 32 || Z.eqb c 124.

Definition table_text (rows : list (list pystr)) : pystr :=
  str_join [10%Z] (filter (λ row, truthy (strip_chars blank_or_bar row) = true)
                     ((λ cells, str_join (lit " | ") (str_strip <$> cells)) <$> rows)).

Fixpoint _extract (blocks : list docx_block) (segments : list ParsedDocumentSegment.t)
    (sections : list pystr) (current_heading : option pystr) :
    res (list ParsedDocumentSegment.t * list pystr) :=
  match blocks with
  | [] => Ok (segments, sections)
  | Paragraph raw style_name :: rest =>
      let text := str_strip raw in
      if truthy text then
        let heading := str_startswith (lit "Heading") (default [] style_name) in
        let current_heading := if heading then Some text else current_heading in
        let sections := if heading then sections ++ [text] else sections in
        res_bind (ParsedDocumentSegment.construct
                    (ParsedDocumentSegment.mk text None current_heading)) (λ segment,
        _extract rest (segments ++ [segment]) sections current_heading)
      else _extract rest segments sections current_heading
  | Table rows :: rest =>
      let text := table_text rows in
      if truthy text then
        res_bind (ParsedDocumentSegment.construct
                    (ParsedDocumentSegment.mk text None current_heading)) (λ segment,
        _extract rest (segments ++ [segment]) sections current_heading)
      else _extract rest segments sections current_heading
  end.

(** The [try] statement. *)
Definition read_docx (data : bytes) : res (list ParsedDocumentSegment.t * list pystr * pystr) :=
  res_bind (Document data) (λ document,
  res_bind (_extract (docx_blocks document) [] [] None) (λ '(segments, sections),
  Ok (segments, sections, str_strip (default [] (docx_title document))))).

Definition parse_docx (data : bytes) (filename mime_type : pystr) : res ParsedDocument.t :=
  match read_docx data with
  | Raise e => Raise (if docx_failure e then ApplicationError DocumentParseError else e)
  | Ok (segments, sections, core_title) =>
      let text := str_join [10; 10]%Z (ParsedDocumentSegment.text <$> segments) in
      if truthy (str_strip text) then
        let title := if truthy core_title then core_title
                     else match sections with heading :: _ => heading | [] => path_stem filename end in
        ParsedDocument.construct
          (ParsedDocument.mk text (take 300 title) filename mime_type FileFormat.DOCX
             KnowledgeSourceType.TEXT None sections "python-docx" (Some docx_version)
             "ooxml_reading_order"
             [(lit "heading_count", PInt (Z.of_nat (length sections)))] segments)
      else Raise (ApplicationError DocumentParseError)
  end.
Definition DOCXDocumentParser : parser := Parser FileFormat.DOCX parse_docx.
End docx.

(** ** DocumentParserRouter *)

Definition MIME_TYPES (extension : pystr) : list pystr :=
  if decide (extension = lit ".pdf") then lit <$> ["application/pdf"; "application/x-pdf"]
  else if decide (extension = lit ".docx") then
    [lit "application/vnd.openxmlformats-officedocument.wordprocessingml.document"]
  else if decide (extension = lit ".txt") then [lit "text/plain"]
  else if mem extension [lit ".md"; lit ".markdown"] then
    lit <$> ["text/markdown"; "text/x-markdown"; "text/plain"]
  else [].
Definition FORMAT_BY_EXTENSION (extension : pystr) : option FileFormat.t :=
  if decide (extension = lit ".pdf") then Some FileFormat.PDF
  else if decide (extension = lit ".docx") then Some FileFormat.DOCX
  else if decide (extension = lit ".txt") then Some FileFormat.TXT
  else if mem extension [lit ".md"; lit ".markdown"] then Some FileFormat.MARKDOWN
  else None.

Section router.
Context {udb : UnicodeDB} (archive_names : bytes → res (list pystr)).

Definition _is_docx_package (data : bytes) : res bool :=
  if negb (str_startswith (lit "PK") data) then Ok false
  else
    match archive_names data with
    | Ok names =>
        Ok (mem (lit "[Content_Types].xml") names && mem (lit "word/document.xml") names)
    | Raise (OtherException name) =>
        if mem name [lit "BadZipFile"; lit "OSError"] then Ok false
        else Raise (OtherException name)
    | Raise e => Raise e
    end.

Definition find_parser (parsers : list parser) (format : FileFormat.t) : option parser :=
  last (filter (λ p, bool_decide (pa_format p = format) = true) parsers).

(** The check of the signature of a format. *)
Definition signature_ok (format : FileFormat.t) (data : bytes) : res bool :=
  match format with
  | FileFormat.PDF => Ok (str_startswith (lit "%PDF-") data)
  | FileFormat.DOCX => _is_docx_package data
  | FileFormat.TXT | FileFormat.MARKDOWN => Ok (negb (mem 0%Z data))
  end.

Definition select (parsers : list parser) (filename : pystr) (mime_type : option pystr)
    (data : bytes) : res parser :=
  if negb (truthy data) then Raise (ApplicationError EmptyFileError)
  else
    let extension := casefold (path_suffix filename) in
    let normalized_mime := casefold (str_strip (before_first 59 (default [] mime_type))) in
    match FORMAT_BY_EXTENSION extension with
    | Some format =>
        if mem normalized_mime (MIME_TYPES extension) then
          res_bind (signature_ok format data) (λ ok,
          if ok then
            match find_parser parsers format with
            | Some parser => Ok parser
            | None => Raise (ApplicationError UnsupportedFileTypeError)
            end
          else Raise (ApplicationError UnsupportedFileTypeError))
        else Raise (ApplicationError UnsupportedFileTypeError)
    | None => Raise (ApplicationError UnsupportedFileTypeError)
    end.
End router.

(** ** Nothing visible is lost

    The characters a line or segment boundary drops are white space. *)

Lemma visible_join_sep sep ls :
  visible sep = [] → visible (str_join sep ls) = mjoin (visible <$> ls).
Proof.
  intros Hsep. induction ls as [|l [|l2 ls] IH]; [done|by csimpl; rewrite app_nil_r|].
  change (str_join sep (l :: l2 :: ls)) with (l ++ sep ++ str_join sep (l2 :: ls)).
  by rewrite !visible_app, Hsep, IH.
Qed.

Lemma line_break_space c : is_line_break c = true → is_space c = true.
Proof.
  unfold is_line_break. rewrite mem_spec, !elem_of_cons, elem_of_nil. intros H.
  unfold is_space. apply bool_decide_eq_true. lia.
Qed.

Lemma visible_splitlines s line :
  visible (reverse line) ++ visible s = mjoin (visible <$> splitlines_from line s).
Proof.
  remember (length s) as n eqn:Hn. revert s line Hn.
  induction n as [n IH] using lt_wf_ind. intros [|c s] line ->.
  { cbn. destruct line; [done|]. cbn. by rewrite app_nil_r. }
  cbn [splitlines_from]. destruct (is_line_break c) eqn:Hc.
  - rewrite visible_cons, (line_break_space c Hc). cbn [fmap list_fmap mjoin list_join].
    f_equal. change (visible s) with (visible (reverse []) ++ visible s).
    destruct s as [|d s]; [done|]. destruct (Z.eqb c 13 && Z.eqb d 10) eqn:Hcr.
    + apply andb_true_iff in Hcr as [_ ->%Z.eqb_eq]. rewrite visible_cons. simpl is_space.
      apply (IH (length s)) with (line := []); simpl; lia.
    + apply (IH (length (d :: s))) with (line := []); simpl; lia.
  - rewrite <- (IH (length s)) by (simpl; lia). rewrite reverse_cons, visible_app, <- app_assoc.
    f_equal. rewrite (visible_cons c s), (visible_cons c []). by destruct (is_space c).
Qed.

Lemma segment_construct r s : ParsedDocumentSegment.construct r = Ok s →
  s = ParsedDocumentSegment.normalize r.
Proof. unfold ParsedDocumentSegment.construct. case_match; [by intros [= <-]|done]. Qed.

Lemma document_construct r d : ParsedDocument.construct r = Ok d → d = ParsedDocument.normalize r.
Proof. unfold ParsedDocument.construct. case_match; [by intros [= <-]|done]. Qed.

(** What the parser has read, visibly. *)
Definition visible_state (st : markdown) : pystr :=
  mjoin (visible <$> (ParsedDocumentSegment.text <$> md_segments st)) ++
  mjoin (visible <$> reverse (md_block st)).

Lemma flush_visible st st' : flush st = Ok st' →
  visible_state st' = visible_state st ∧ md_block st' = [] ∧ md_sections st' = md_sections st.
Proof.
  unfold flush, visible_state. set (block := str_join [10%Z] (reverse (md_block st))).
  assert (Hb : visible block = mjoin (visible <$> reverse (md_block st))) by (by apply visible_join_sep).
  destruct (truthy (str_strip block)) eqn:Ht.
  - destruct (ParsedDocumentSegment.construct _) as [segment|] eqn:Hs; [|done]. intros [= <-].
    apply segment_construct in Hs as ->. cbn [md_segments md_block md_sections].
    rewrite !fmap_app, join_app. csimpl. rewrite !app_nil_r. split; [|done].
    f_equal. rewrite !visible_strip, Hb. done.
  - intros [= <-]. cbn [md_segments md_block md_sections]. split; [|done].
    apply strip_nil in Ht. by rewrite <- Hb, Ht.
Qed.

Lemma read_line_visible st line st' : read_line st line = Ok st' →
  visible_state st' = visible_state st ++ visible line ∧
  md_sections st' = md_sections st ++ option_list (heading_text line).
Proof.
  unfold read_line. assert (Hpush : ∀ st sections heading,
    visible_state (Markdown sections (md_segments st) (line :: md_block st) heading)
    = visible_state st ++ visible line).
  { intros st1 sections heading. unfold visible_state. cbn [md_segments md_block].
    rewrite reverse_cons, fmap_app, join_app. csimpl. by rewrite app_nil_r, <- app_assoc. }
  destruct (heading_text line) as [heading|].
  - destruct (flush st) as [st1|] eqn:Hf; [|done]. intros [= <-].
    apply flush_visible in Hf as (Hv & _ & Hsec). by rewrite Hpush, Hv, <- Hsec.
  - intros [= <-]. by rewrite Hpush, app_nil_r.
Qed.

Lemma read_lines_visible lines st st' : read_lines lines st = Ok st' →
  visible_state st' = visible_state st ++ mjoin (visible <$> lines) ∧
  md_sections st' = md_sections st ++ omap heading_text lines.
Proof.
  revert st. induction lines as [|line lines IH]; intros st.
  { intros [= <-]. by rewrite !app_nil_r. }
  cbn [read_lines]. destruct (read_line st line) as [st1|] eqn:Hl; [|done]. simpl. intros Hr.
  apply read_line_visible in Hl as [Hv Hs]. destruct (IH st1 Hr) as [Hv' Hs'].
  rewrite Hv', Hv, Hs', Hs, <- !app_assoc. split; [done|]. f_equal.
  by destruct (heading_text line).
Qed.

Lemma heading_stripped line heading : heading_text line = Some heading → str_strip heading = heading.
Proof.
  unfold heading_text. destruct (span_chars _ _) as [marks rest]. destruct (span_chars _ _) as [blanks rest'].
  destruct (_ && _); [|done]. destruct rest'.
  - destruct (Nat.leb _ _); [by intros [= <-]|done].
  - destruct (truthy _); [|done]. intros [= <-]. apply strip_idem.
Qed.

(** The byte order mark is the encoding of U+FEFF. *)
Lemma decode_sig_encode s : forallb scalar s = true → head s ≠ Some 65279%Z →
  decode_utf8_sig (utf8_encode s) = Some s ∧ decode_utf8_sig (BOM ++ utf8_encode s) = Some s.
Proof.
  intros Hs Hbom. unfold decode_utf8_sig. split; [|by apply decode_encode].
  destruct (str_startswith BOM (utf8_encode s)) eqn:H; [|by apply decode_encode].
  exfalso. destruct s as [|c s]; [done|]. pose proof (decode_encode (c :: s) Hs) as Hd.
  set (l := utf8_encode (c :: s)) in *. clearbody l. unfold BOM in H.
  destruct l as [|b0 [|b1 [|b2 l]]]; try done; cbn [str_startswith] in H;
    rewrite ?andb_false_r in H; try done.
  rewrite !andb_true_iff, !Z.eqb_eq in H. destruct H as (<- & <- & <- & _).
  cbn in Hd. destruct (utf8_decode l); [|done]. simpl in Hd. by simplify_eq.
Qed.

(** the text parsers lose nothing: a text of Unicode scalar values, uploaded in UTF-8 with
    or without a byte order mark, is decoded to itself, and bytes are accepted only if they
    are the encoding of a text; the text file parser returns that text without its outer
    white space, and the Markdown parser returns text with exactly its visible characters,
    in order, with exactly the headings of its lines as sections. *)
Theorem text_parsers_exact filename mime_type :
  (∀ s, forallb scalar s = true → head s ≠ Some 65279%Z →
     decode_utf8_sig (utf8_encode s) = Some s ∧ decode_utf8_sig (BOM ++ utf8_encode s) = Some s) ∧
  (∀ data, match decode_utf8_sig data with
   | None => parse_text data filename mime_type = Raise (ApplicationError TextDecodeError) ∧
             parse_markdown data filename mime_type = Raise (ApplicationError TextDecodeError)
   | Some s =>
       (data = utf8_encode s ∨ data = BOM ++ utf8_encode s) ∧
       (∀ d, parse_text data filename mime_type = Ok d → ParsedDocument.text d = str_strip s) ∧
       (∀ d, parse_markdown data filename mime_type = Ok d →
          visible (ParsedDocument.text d) = visible s ∧
          ParsedDocument.sections d = omap heading_text (splitlines (str_strip s)))
   end).
Proof.
  split; [apply decode_sig_encode|]. intros data.
  assert (Htext : ∀ s d, decode_utf8_sig data = Some s → parse_text data filename mime_type = Ok d →
    ParsedDocument.text d = str_strip s).
  { intros s d Hs. unfold parse_text. rewrite Hs. destruct (truthy _); [|done].
    destruct (ParsedDocumentSegment.construct _); [|done]. simpl. by intros ->%document_construct. }
  destruct (decode_utf8_sig data) as [s|] eqn:Hs.
  2: { unfold parse_markdown, parse_text. by rewrite Hs. }
  split_and!; [|by eauto|].
  - unfold decode_utf8_sig in Hs. destruct (str_startswith BOM data) eqn:Hb.
    + right. apply encode_decode in Hs as [_ ->]. unfold BOM in *.
      destruct data as [|b0 [|b1 [|b2 l]]]; try done; cbn [str_startswith] in Hb;
        rewrite ?andb_false_r in Hb; try done.
      rewrite !andb_true_iff, !Z.eqb_eq in Hb. by destruct Hb as (<- & <- & <- & _).
    + left. by apply encode_decode in Hs as [_ ->].
  - intros d. unfold parse_markdown. destruct (parse_text data filename mime_type) as [p|] eqn:Hp; [|done].
    simpl. rewrite (Htext s p eq_refl eq_refl). destruct (read_lines _ _) as [st|] eqn:Hr; [|done]. simpl.
    destruct (flush st) as [st'|] eqn:Hf; [|done]. simpl. intros ->%document_construct. simpl.
    apply read_lines_visible in Hr as [Hv Hsec]. apply flush_visible in Hf as (Hv' & Hblock & Hsec').
    unfold visible_state in Hv' at 1. rewrite Hblock, Hv in Hv'. cbn in Hv'.
    rewrite app_nil_r in Hv'. split.
    + rewrite visible_strip, visible_join_sep by done. rewrite Hv'.
      unfold splitlines. by rewrite <- visible_splitlines, reverse_nil, visible_strip.
    + rewrite Hsec', Hsec. simpl. generalize (splitlines (str_strip s)). intros lines.
      induction lines as [|line lines IH]; [done|]. csimpl.
      destruct (heading_text line) as [h|] eqn:Hh; [|done]. csimpl.
      by rewrite IH, (heading_stripped line h Hh).
Qed.

(** A file with a byte order mark, a heading and a line separator. *)
Definition demo_markdown : bytes := BOM ++ utf8_encode (lit "# Policy" ++ [8232; 8364; 32]%Z ++ lit "rule").
Example demo_markdown_parsed :
  match parse_markdown demo_markdown "policy.md" "text/markdown" with
  | Ok d => (ParsedDocument.text d, ParsedDocument.title d, ParsedDocument.sections d,
             ParsedDocumentSegment.section_heading <$> ParsedDocument.segments d)
            = (lit "# Policy" ++ [10; 8364; 32]%Z ++ lit "rule", lit "Policy", [lit "Policy"],
               [Some (lit "Policy")])
  | Raise _ => False
  end.
Proof. vm_compute. reflexivity. Qed.

(** A heading of blanks first in the file leaves no title, and the file is refused. *)
Example blank_heading_refused :
  parse_markdown (lit "#  " ++ [10%Z] ++ lit "Text") "policy.md" "text/markdown"
  = Raise ValidationError.
Proof. vm_compute. reflexivity. Qed.

(** A blank title in the metadata of a PDF leaves no title either. *)
Example blank_pdf_title_refused :
  parse_pdf (λ _, Ok (PdfDocument false [Ok (Some (lit "Text"))] (Ok (Some (lit " "))))) "6" 1
    [] "policy.pdf" "application/pdf" = Raise ValidationError.
Proof. vm_compute. reflexivity. Qed.

Lemma text_parsers_exact_witness :
  visible (match parse_markdown demo_markdown "policy.md" "text/markdown" with
           | Ok d => ParsedDocument.text d | Raise _ => [] end)
  = visible (lit "# Policy" ++ [8232; 8364; 32]%Z ++ lit "rule").
Proof.
  destruct (text_parsers_exact (lit "policy.md") (lit "text/markdown")) as [_ H].
  specialize (H demo_markdown).
  assert (Hs : decode_utf8_sig demo_markdown =
    Some (lit "# Policy" ++ [8232; 8364; 32]%Z ++ lit "rule")) by (vm_compute; reflexivity).
  rewrite Hs in H. destruct H as (_ & _ & H).
  destruct (parse_markdown demo_markdown (lit "policy.md") (lit "text/markdown")) as [d|e] eqn:Hd.
  - exact (proj1 (H d eq_refl)).
  - vm_compute in Hd. discriminate.
Defined.
