(* ===== verification/KnowledgeTools.v ===== *)
(** app/tools/knowledge.py: the three read-only tools, and the registry made of them.  They
    commit nothing, and what they report fits the trace of the agents that call them.

    The schemas are pydantic models: validating raw arguments and dumping validated ones
    are arguments of the registry, with the constraints of the models as their law. *)
From S2P Require Import Prelude PyText PyFloat Errors Domain AgentModels Schemas RuntimeModels.
From S2P Require Import Unicode Session Storage Telemetry Governance MemorySession Tools.
From S2P Require Import KnowledgeStore KnowledgeRepositories KnowledgeDemo KnowledgeEnrichment.
From S2P Require Import Assessments TraversalTheorems KnowledgeRetrieval RetrievalTheorems.

Definition DOCUMENT_EXCERPT_MAX_CHARS : Z := 12000.

(** What pydantic does with one arguments model. *)
Record arguments_model (A : Type) := ArgumentsModel {
  model_validate : pydict → res A;
  model_dump : A → pydict
}.
Arguments ArgumentsModel {A}.
Arguments model_validate {A}.
Arguments model_dump {A}.

(** Validation raises nothing but [ValidationError], and returns instances that satisfy the
    constraints of the model. *)
Record model_ok {A} (valid : A → bool) (m : arguments_model A) : Prop := {
  validate_raises raw e : model_validate m raw = Raise e → e = ValidationError;
  validate_valid raw a : model_validate m raw = Ok a → valid a = true
}.

Section tools.
Context {S : Type} `{!Session knowledge S} {cosine : CosineDistance} {udb : UnicodeDB}.
Context {C : Collation}.

Definition search_knowledge (retrieval : vector_search S) (arguments : SearchKnowledgeArguments.t) :
    M S ToolExecutionResult.t :=
  let* evidence := search retrieval (SearchKnowledgeArguments.query arguments)
    (Some (SearchKnowledgeArguments.top_k arguments)) None None None in
  ret (ToolExecutionResult.mk "search_knowledge" true
    (lit "Knowledge search returned " ++ str_int (Z.of_nat (length evidence)) ++
     lit " relevant chunk(s).") evidence None None None None false).

Definition observed_document (record : KnowledgeDocumentRecord.t) : ObservedKnowledgeDocument.t :=
  let excerpt := slice_to DOCUMENT_EXCERPT_MAX_CHARS (KnowledgeDocumentRecord.content record) in
  ObservedKnowledgeDocument.mk (KnowledgeDocumentRecord.document_id record)
    (KnowledgeDocumentRecord.title record) (KnowledgeDocumentRecord.source_type record) excerpt
    (KnowledgeDocumentRecord.metadata record)
    (Z.ltb (Z.of_nat (length excerpt))
       (Z.of_nat (length (KnowledgeDocumentRecord.content record)))).

Definition get_knowledge_document (arguments : GetKnowledgeDocumentArguments.t) :
    M S ToolExecutionResult.t :=
  let* record := KnowledgeDocuments.get_by_id
    (GetKnowledgeDocumentArguments.document_id arguments) in
  match record with
  | None => ret (ToolExecutionResult.mk "get_knowledge_document" true
      "Knowledge document was not found." [] None None None None false)
  | Some record => ret (ToolExecutionResult.mk "get_knowledge_document" true
      "Knowledge document was retrieved through the read-only repository." []
      (Some (observed_document record)) None None None false)
  end.

(** [GraphRetrievalExecutionMetadata(...)] of a failed and of a successful search. *)
Definition degraded_metadata (code : pystr) : res GraphRetrievalExecutionMetadata.t :=
  GraphRetrievalExecutionMetadata.construct
    (GraphRetrievalExecutionMetadata.mk false 0 0 0 0 0 0 true (Some code) None).
Definition search_metadata (n : GraphNeighborhood.t) : res GraphRetrievalExecutionMetadata.t :=
  let evidence_count := Z.of_nat (length (GraphNeighborhood.evidence n)) in
  GraphRetrievalExecutionMetadata.construct
    (GraphRetrievalExecutionMetadata.mk true
       (Z.of_nat (length (GraphNeighborhood.matched_entities n)))
       (Z.of_nat (length (GraphNeighborhood.relationships n)))
       (GraphNeighborhood.depth_used n) 0 evidence_count evidence_count false None None).

Definition search_knowledge_graph (graph : graph_search)
    (arguments : SearchKnowledgeGraphArguments.t) : M S ToolExecutionResult.t :=
  let* outcome := try_except
    (let* neighborhood := graph_search_query graph (SearchKnowledgeGraphArguments.query arguments)
       (Some (SearchKnowledgeGraphArguments.max_depth arguments))
       (SearchKnowledgeGraphArguments.entity_types arguments) in ret (inl neighborhood))
    (λ e, match e with ApplicationError exc => ret (inr exc) | _ => raise e end) in
  match outcome with
  | inr exc =>
      let* metadata := of_res (degraded_metadata (error_code exc)) in
      ret (ToolExecutionResult.mk "search_knowledge_graph" false (public_message exc) [] None None
             (Some metadata) (Some (error_code exc)) false)
  | inl neighborhood =>
      let* metadata := of_res (search_metadata neighborhood) in
      ret (ToolExecutionResult.mk "search_knowledge_graph" true
        (lit "Knowledge graph search returned " ++
         str_int (Z.of_nat (length (GraphNeighborhood.matched_entities neighborhood))) ++
         lit " matched entity/entities and " ++
         str_int (Z.of_nat (length (GraphNeighborhood.relationships neighborhood))) ++
         lit " relationship(s).") (GraphNeighborhood.evidence neighborhood) None
        (Some neighborhood) (Some metadata) None false)
  end.

(** The schemas of the tools. *)
Record tool_schemas := ToolSchemas {
  ts_search : arguments_model SearchKnowledgeArguments.t;
  ts_document : arguments_model GetKnowledgeDocumentArguments.t;
  ts_graph : arguments_model SearchKnowledgeGraphArguments.t
}.

Definition tool {A} (name description : pystr) (model : arguments_model A)
    (handler : A → M S ToolExecutionResult.t) : ToolDefinition S :=
  MkToolDefinition name description A (model_validate model) (model_dump model) handler.

Definition knowledge_tools (schemas : tool_schemas) (retrieval : vector_search S)
    (graph : option graph_search) : list (ToolDefinition S) :=
  [tool "search_knowledge"
     (lit "Search the existing enterprise knowledge store for evidence relevant to " ++
      lit "the assessment. Use a focused query and a small result count.")
     (ts_search schemas) (search_knowledge retrieval);
   tool "get_knowledge_document"
     (lit "Read a bounded excerpt of one existing knowledge document by UUID. Use it " ++
      lit "only when a known source needs more context.")
     (ts_document schemas) get_knowledge_document] ++
  match graph with
  | None => []
  | Some graph =>
      [tool "search_knowledge_graph"
         (lit "Find known enterprise entities and traverse a small, source-grounded " ++
          lit "relationship neighborhood. Use only for relationship-aware evidence.")
         (ts_graph schemas) (search_knowledge_graph graph)]
  end.

Definition build_knowledge_tool_registry (schemas : tool_schemas) (retrieval : vector_search S)
    (graph : option graph_search) (timeout_seconds : option pyfloat)
    (timeout_runner : M S ToolExecutionResult.t → pyfloat → M S ToolExecutionResult.t)
    (metrics : option (M RuntimeMetricsRecorder.t unit → M S unit))
    (perf_counter : M S pyfloat) : res (ToolRegistry S) :=
  make_registry (knowledge_tools schemas retrieval graph) timeout_seconds timeout_runner metrics
    perf_counter.
End tools.

(** ** Bounds *)

Lemma digits_rev_length fuel n : (length (digits_rev fuel n) ≤ fuel)%nat.
Proof.
  revert n. induction fuel as [|fuel IH]; intros n; simpl; [lia|].
  destruct (Z.ltb n 10); simpl; [lia|]. pose proof (IH (n / 10)%Z). lia.
Qed.

(** A 64-bit count takes no more than 64 characters. *)
Lemma str_int_length n : (0 ≤ n < 2 ^ 64)%Z → (1 ≤ length (str_int n) ≤ 64)%nat.
Proof.
  intros Hn. unfold str_int. replace (n <? 0)%Z with false by (symmetry; apply Z.ltb_ge; lia).
  unfold str_nonneg. rewrite length_reverse. split.
  - cbn [digits_rev]. case_match; simpl; lia.
  - etrans; [apply digits_rev_length|]. destruct (decide (n = 0%Z)) as [->|]; [simpl; lia|].
    pose proof (Z.log2_lt_pow2 n 64 ltac:(lia)) as Hlog. pose proof (Z.log2_nonneg n). lia.
Qed.

Section traversal.
Import KnowledgeGraph.
Context (me : Z).

Lemma traverse_db_length db mc levels depth st :
  (length (tv_relationships (traverse_db db me mc levels depth st)) ≤
   length (tv_relationships st) + levels * Z.to_nat (me * 8))%nat.
Proof.
  revert depth st. induction levels as [|levels IH]; intros depth st; simpl; [lia|].
  case_decide; [lia|]. pose proof (level_edges_length db me mc (tv_frontier st)) as Hl.
  destruct (level_edges me mc (tv_frontier st) db) as [|e es] eqn:He; [lia|].
  etrans; [apply IH|]. unfold visit_level. cbn [tv_relationships].
  pose proof (fold_visit_length me (e :: es) (Traversal (tv_visited st) ∅ (tv_relationships st)
    (tv_depth_used st))) as Hv. cbn [tv_relationships] in Hv. lia.
Qed.
End traversal.

(** ** What a neighborhood can hold, whatever the tables hold *)

(** A valid neighborhood with bounded counts. *)
Definition neighborhood_fits (me : Z) (n : GraphNeighborhood.t) : Prop :=
  GraphNeighborhood.valid n = true ∧
  (length (GraphNeighborhood.matched_entities n) ≤ Z.to_nat me)%nat ∧
  (length (GraphNeighborhood.relationships n) ≤ 5 * Z.to_nat (me * 8))%nat.

Lemma length_omap_le {A B} (f : A → option B) l : (length (omap f l) ≤ length l)%nat.
Proof. induction l as [|a l IH]; csimpl; [lia|]. destruct (f a); csimpl; lia. Qed.

Lemma construct_neighborhood n n' :
  GraphNeighborhood.construct n = Ok n' → n' = n ∧ GraphNeighborhood.valid n = true.
Proof. unfold GraphNeighborhood.construct. intros Hn. case_match; [|done]. by injection Hn as <-. Qed.

Section graph.
Context {S : Type} `{!Session knowledge S} `{!SessionLaws knowledge S} {udb : UnicodeDB}.
Context {C : Collation} (svc : graph_search) (Hsvc : graph_search_ok svc).
Import KnowledgeGraph.

Lemma neighborhood_of_fits query db ids md n :
  (md ≤ 5)%Z →
  neighborhood_of query (neighborhood_db db ids md (gs_max_entities svc) (gs_min_confidence svc))
    = Ok n →
  neighborhood_fits (gs_max_entities svc) n.
Proof.
  intros Hmd. unfold neighborhood_of. set (data := neighborhood_db _ _ _ _ _).
  destruct (res_map _ _) as [rs|] eqn:Hrs; [|done]. intros Hn. simpl in Hn.
  apply construct_neighborhood in Hn as [-> Hv]. split; [done|]. simpl.
  apply res_map_length in Hrs. rewrite Hrs, length_fmap. split.
  - unfold data, neighborhood_db. cbn [GraphTraversalData.matched_entities]. rewrite length_fmap.
    etrans; [apply length_omap_le|]. destruct Hsvc as [_ Hme]. unfold slice_to.
    rewrite (proj2 (Z.leb_le 0 _)) by lia. rewrite length_take. lia.
  - etrans; [apply length_omap_le|]. unfold data, neighborhood_db.
    cbn [GraphTraversalData.relationships].
    rewrite length_fmap, (Permutation_length (merge_sort_Permutation _ _)).
    etrans; [apply traverse_db_length|]. cbn [tv_relationships length]. nia.
Qed.

Lemma find_and_traverse_txn query depth types db :
  (depth ≤ 5)%Z →
  txn (find_and_traverse svc query depth types) db is_sql (λ o _, ∀ data, o = Some data →
    ∃ ids, data = neighborhood_db db ids depth (gs_max_entities svc) (gs_min_confidence svc)).
Proof.
  intros Hd. unfold find_and_traverse, find_matching_query.
  assert (Hrest : ∀ matches, txn (if truthy matches then
      let* data := get_neighborhood (KnowledgeEntityRecord.entity_id <$> matches) depth
        (gs_max_entities svc) (gs_min_confidence svc) in ret (Some data)
    else ret None) db is_sql (λ o _, ∀ data, o = Some data → ∃ ids,
      data = neighborhood_db db ids depth (gs_max_entities svc) (gs_min_confidence svc))).
  { intros matches. destruct (truthy matches); [|by apply txn_ret]. apply txn_bind.
    apply txn_get_neighborhood; [exact _|done|]. apply txn_ret. intros data [= <-]. by eexists. }
  destruct (truthy (normalize_entity_name query)); txn_steps; apply Hrest.
Qed.
End graph.

(** ** The handlers *)

Section handlers.
Context {S : Type} `{!Session knowledge S} `{!SessionLaws knowledge S} {cosine : CosineDistance}.
Context {udb : UnicodeDB} {C : Collation}.

(** Nothing is committed. *)
Definition commits_nothing (s s' : S) : Prop := durable s' = durable s.
#[export] Instance commits_nothing_preorder : PreOrder commits_nothing.
Proof. split; [done|]. unfold commits_nothing. intros ???. congruence. Qed.

Abbreviation quiet := (safe commits_nothing (λ _, True)).

Lemma quiet_keeps {A} E (m : M S A) (Q : A → Prop) : safe keeps E m Q → quiet m Q.
Proof.
  intros Hm s. eapply wp_mono; [apply Hm|]. intros s' r [[_ Hd] Hr]. split; [done|].
  by destruct r.
Qed.

Lemma quiet_any {A} (r : res A) (Q : A → Prop) : (∀ a, r = Ok a → Q a) → quiet (of_res r) Q.
Proof. intros Hr. apply safe_of_res; [apply _|]. destruct r; auto. Qed.

Lemma quiet_rollback : quiet (suppress_sql sess_rollback) (λ _, True).
Proof. intros s. eapply wp_mono; [apply suppress_rollback|]. by intros s' r (Hd & -> & _). Qed.

Lemma search_quiet svc E query k :
  embeddings_ok svc E → (1 ≤ k)%Z →
  quiet (search svc query (Some k) None None None) (λ items, (length items ≤ Z.to_nat k)%nat).
Proof.
  intros Hembed Hk. unfold search, or_default. replace (k =? 0)%Z with false by lia.
  eapply safe_bind; [apply _|eapply quiet_keeps, Hembed|]. intros [|v vs] _.
  { apply safe_raise; [apply _|done]. }
  apply safe_bind with (P := λ _, True); [apply _| |].
  - eapply safe_try; [apply _|eapply quiet_keeps; eapply reads_bind|].
    + apply reads_query.
    + intros found. apply reads_ret.
    + intros e _. destruct e; try (apply safe_raise; [apply _|done]).
      eapply safe_bind; [apply _|apply quiet_rollback|]. intros _ _. apply safe_raise; [apply _|done].
  - intros evidence _. apply safe_bind with (P := λ _, True); [apply _|by apply quiet_any|].
    intros unique _. apply safe_ret; [apply _|]. unfold slice_to.
    rewrite (proj2 (Z.leb_le 0 k)) by lia. rewrite length_take. lia.
Qed.

Lemma graph_search_quiet svc query max_depth types :
  graph_search_ok svc →
  quiet (graph_search_query svc query max_depth types) (neighborhood_fits (gs_max_entities svc)).
Proof.
  intros Hsvc s. unfold graph_search_query. set (depth := Z.min _ _).
  assert (depth ≤ 5)%Z as Hdepth by (destruct Hsvc; lia).
  apply wp_bind, wp_try. eapply wp_mono; [by apply (find_and_traverse_txn svc query depth types)|].
  intros s1 [o|e] [Hd Hr].
  - unfold wp, of_res, commits_nothing. destruct o as [data|].
    + destruct (Hr data eq_refl) as [ids ->]. split; [done|].
      destruct (neighborhood_of _ _) as [n|] eqn:Hn; [|done]. by eapply neighborhood_of_fits.
    + split; [done|]. destruct (empty_neighborhood query) as [n|] eqn:Hn; [|done].
      apply construct_neighborhood in Hn as [-> Hv]. split; [done|]. simpl. lia.
  - destruct Hr as [q ->]. apply wp_bind. eapply wp_mono; [apply suppress_rollback|].
    intros s2 r (Hd2 & -> & _). apply wp_raise. split; [|done]. unfold commits_nothing. congruence.
Qed.

(** The summaries: counts of 64 bits between fixed texts. *)
Lemma search_summary_fits n :
  (0 ≤ n < 2 ^ 64)%Z →
  len_in 1 300 (lit "Knowledge search returned " ++ str_int n ++ lit " relevant chunk(s).") = true.
Proof.
  intros Hn. pose proof (str_int_length n Hn) as Hl.
  unfold len_in, len_ge, len_le. rewrite !length_app.
  change (length (lit "Knowledge search returned ")) with 26%nat.
  change (length (lit " relevant chunk(s).")) with 19%nat.
  apply andb_true_iff. rewrite !Z.leb_le. lia.
Qed.

Lemma graph_summary_fits n m :
  (0 ≤ n < 2 ^ 64)%Z → (0 ≤ m < 2 ^ 64)%Z →
  len_in 1 300 (lit "Knowledge graph search returned " ++ str_int n ++
    lit " matched entity/entities and " ++ str_int m ++ lit " relationship(s).") = true.
Proof.
  intros Hn Hm. pose proof (str_int_length n Hn) as Hln. pose proof (str_int_length m Hm) as Hlm.
  unfold len_in, len_ge, len_le. rewrite !length_app.
  change (length (lit "Knowledge graph search returned ")) with 32%nat.
  change (length (lit " matched entity/entities and ")) with 29%nat.
  change (length (lit " relationship(s).")) with 17%nat.
  apply andb_true_iff. rewrite !Z.leb_le. lia.
Qed.

Lemma public_message_fits a : len_in 1 300 (public_message a) = true.
Proof. by destruct a; vm_compute. Qed.

Lemma construct_metadata m m' :
  GraphRetrievalExecutionMetadata.construct m = Ok m' →
  GraphRetrievalExecutionMetadata.valid m' = true.
Proof.
  unfold GraphRetrievalExecutionMetadata.construct. intros Hm. case_match; [|done].
  by injection Hm as <-.
Qed.

Lemma search_knowledge_quiet svc E arguments :
  embeddings_ok svc E → SearchKnowledgeArguments.valid arguments = true →
  quiet (search_knowledge svc arguments) tool_result_ok.
Proof.
  intros Hembed Hv. unfold SearchKnowledgeArguments.valid in Hv.
  rewrite !andb_true_iff, !Z.leb_le in Hv. destruct Hv as [[_ H1] H20].
  eapply safe_bind; [apply _|by apply (search_quiet svc E)|]. intros evidence Hl.
  cbv beta in Hl.
  apply safe_ret; [apply _|]. split; [|done]. apply search_summary_fits. lia.
Qed.

Lemma get_knowledge_document_quiet arguments :
  quiet (get_knowledge_document arguments) tool_result_ok.
Proof.
  eapply safe_bind; [apply _|eapply quiet_keeps; apply reads_bind|].
  - apply reads_query.
  - intros model. apply reads_ret.
  - intros [record|] _; (apply safe_ret; [apply _|]); by split.
Qed.

(** Only application errors are answered with a failed result. *)
Lemma search_knowledge_graph_quiet svc arguments :
  graph_search_ok svc → (gs_max_entities svc ≤ 2 ^ 32)%Z →
  quiet (search_knowledge_graph svc arguments) tool_result_ok.
Proof.
  intros Hsvc Hme. unfold search_knowledge_graph.
  apply safe_bind with (P := λ o, match o with
    | inl n => neighborhood_fits (gs_max_entities svc) n
    | inr _ => True
    end); [apply _| |].
  - eapply safe_try; [apply _| |].
    + eapply safe_bind; [apply _|by apply graph_search_quiet|]. intros n Hn.
      by apply safe_ret; [apply _|].
    + intros e _. destruct e; try (apply safe_raise; [apply _|done]). by apply safe_ret; [apply _|].
  - intros [n|exc] Hn.
    + destruct Hn as (_ & Hm & Hr).
      apply safe_bind with (P := λ m, GraphRetrievalExecutionMetadata.valid m = true);
        [apply _|apply quiet_any; intros m; apply construct_metadata|].
      intros m Hv. apply safe_ret; [apply _|]. split; [|by split].
      apply graph_summary_fits; lia.
    + apply safe_bind with (P := λ m, GraphRetrievalExecutionMetadata.valid m = true);
        [apply _|apply quiet_any; intros m; apply construct_metadata|].
      intros m Hv. apply safe_ret; [apply _|]. split; [apply public_message_fits|].
      split; [by eexists|done].
Qed.
End handlers.

(** ** The registry *)

Section registry.
Context {S : Type} `{!Session knowledge S} `{!SessionLaws knowledge S} {cosine : CosineDistance}.
Context {udb : UnicodeDB} {C : Collation} {CH : CallHash}.
Context (schemas : tool_schemas) (retrieval : vector_search S) (graph : option graph_search).
Context (timeout_seconds : option pyfloat).
Context (timeout_runner : M S ToolExecutionResult.t → pyfloat → M S ToolExecutionResult.t).
Context (metrics : option (M RuntimeMetricsRecorder.t unit → M S unit)).
Context (perf_counter : M S pyfloat) (E : exn → Prop).

(** What the registry relies on: the schemas, the embedding provider, the configured bounds
    of the graph search, and an execution environment that commits nothing by itself. *)
Record knowledge_tools_env : Prop := {
  env_search : model_ok SearchKnowledgeArguments.valid (ts_search schemas);
  env_document : model_ok (λ _, true) (ts_document schemas);
  env_graph_schema : model_ok SearchKnowledgeGraphArguments.valid (ts_graph schemas);
  env_embeddings : embeddings_ok retrieval E;
  env_graph svc : graph = Some svc → graph_search_ok svc ∧ (gs_max_entities svc ≤ 2 ^ 32)%Z;
  env_runner m t : safe commits_nothing (λ _, True) m tool_result_ok →
    safe commits_nothing (λ _, True) (timeout_runner m t) tool_result_ok;
  env_clock : ∃ reading : pyfloat → Prop,
    safe commits_nothing (λ _, False) perf_counter reading ∧
    ∀ a b, reading a → reading b → ∃ n, elapsed_ms a b = Ok n;
  env_metrics lift : metrics = Some lift → ∀ op, (∀ m, (op m).2 = Ok tt) →
    safe commits_nothing (λ _, False) (lift op) (λ _, True)
}.

Abbreviation tools := (knowledge_tools schemas retrieval graph).
Abbreviation built := (MkToolRegistry tools timeout_seconds timeout_runner metrics perf_counter).

Lemma knowledge_tools_names :
  NoDup (td_name <$> tools) ∧ Forall (λ n, n ∈ EVIDENCE_TOOL_NAMES) (td_name <$> tools).
Proof.
  unfold knowledge_tools. destruct graph; split; simpl;
    apply (bool_decide_unpack _); vm_compute; exact I.
Qed.

Lemma knowledge_registry_ok : knowledge_tools_env → registry_ok commits_nothing built.
Proof.
  intros [Hs Hd Hg Hembed Hgraph Hrunner Hclock Hmetrics]. split; try done; cbn [tr_definitions].
  - intros d Hin raw arguments Hv. unfold knowledge_tools in Hin.
    rewrite !elem_of_app, !elem_of_cons, elem_of_nil in Hin.
    destruct Hin as [[->|[->|[]]]|Hin].
    + eapply search_knowledge_quiet; [exact Hembed|]. by eapply (validate_valid _ _ Hs).
    + apply get_knowledge_document_quiet.
    + destruct graph as [svc|]; [|by apply elem_of_nil in Hin].
      apply list_elem_of_singleton in Hin as ->.
      destruct (Hgraph svc eq_refl). by apply search_knowledge_graph_quiet.
  - intros d Hin raw e He. unfold knowledge_tools in Hin.
    rewrite !elem_of_app, !elem_of_cons, elem_of_nil in Hin.
    destruct Hin as [[->|[->|[]]]|Hin].
    + by eapply (validate_raises _ _ Hs).
    + by eapply (validate_raises _ _ Hd).
    + destruct graph as [svc|]; [|by apply elem_of_nil in Hin].
      apply list_elem_of_singleton in Hin as ->. by eapply (validate_raises _ _ Hg).
Qed.

(** The observation of a stored document: a prefix of its text. *)
Definition observes (d : KnowledgeDocumentModel.t) (o : ObservedKnowledgeDocument.t) : Prop :=
  let excerpt := ObservedKnowledgeDocument.content_excerpt o in
  let content := KnowledgeDocumentModel.content d in
  excerpt `prefix_of` content ∧ (Z.of_nat (length excerpt) ≤ DOCUMENT_EXCERPT_MAX_CHARS)%Z ∧
  (ObservedKnowledgeDocument.truncated o = true ↔ excerpt ≠ content).

Lemma observed_document_observes d :
  observes d (observed_document (KnowledgeDocuments._to_record d)).
Proof.
  unfold observes, observed_document, slice_to. cbn. set (content := KnowledgeDocumentModel.content d).
  change (0 <=? 12000)%Z with true. cbn iota.
  set (n := Z.to_nat DOCUMENT_EXCERPT_MAX_CHARS).
  assert (Z.of_nat n = DOCUMENT_EXCERPT_MAX_CHARS) as Hn
    by (unfold n; rewrite Z2Nat.id; [done|unfold DOCUMENT_EXCERPT_MAX_CHARS; lia]).
  clearbody n. split_and!.
  - exists (drop n content). by rewrite take_drop.
  - rewrite length_take. lia.
  - rewrite Z.ltb_lt, length_take. split.
    + intros Hlt Heq. apply (f_equal length) in Heq. rewrite length_take in Heq. lia.
    + intros Hne. destruct (decide (n < length content)%nat); [lia|]. destruct Hne.
      apply take_ge. lia.
Qed.

(** the knowledge tools are read-only and contained: over any store, building the
    registry succeeds, it offers the evidence agent's tools and nothing else, and every
    call made through it by any agent commits nothing and reports a result fit for the
    trace, never an exception, unless the call itself cannot be encoded.  Observing a
    document returns a prefix of the stored text of at most 12 000 characters, flagged as
    truncated exactly when it is not the whole text. *)
Theorem knowledge_tools_read_only :
  knowledge_tools_env →
  ∃ r, build_knowledge_tool_registry schemas retrieval graph timeout_seconds timeout_runner
         metrics perf_counter = Ok r ∧
    Forall (λ n, n ∈ EVIDENCE_TOOL_NAMES) (names r) ∧
    (∀ agent name raw cache, cache_ok cache →
       safe commits_nothing unencodable (execute_as agent r name raw cache) call_ok) ∧
    ∀ i s, wp (get_knowledge_document (GetKnowledgeDocumentArguments.mk i)) (λ s' x, keeps s s' ∧
      match x with
      | Ok x =>
          match KnowledgeTables.documents (view s) !! i with
          | Some d => ∃ o, ToolExecutionResult.document x = Some o ∧ observes d o
          | None => ToolExecutionResult.document x = None
          end
      | Raise e => is_sql e
      end) s.
Proof.
  intros Henv. destruct knowledge_tools_names as [Hnd Hnames]. exists built.
  unfold build_knowledge_tool_registry, make_registry. rewrite decide_True by exact Hnd.
  split_and!; try done.
  - intros agent name raw cache Hc.
    by apply execute_as_contained; [apply _|apply knowledge_registry_ok|].
  - intros i s. unfold get_knowledge_document, KnowledgeDocuments.get_by_id.
    apply wp_bind, wp_bind. eapply wp_mono; [apply read_law|]. intros s' [model|e] [Hk Hr]; [|done].
    cbn in Hr. rewrite <- Hr. apply wp_ret. destruct model as [d|]; [|by apply wp_ret].
    apply wp_ret. split; [done|]. eexists. split; [done|]. apply observed_document_observes.
Qed.
End registry.

(** ** A small registry *)

Section demo.
#[local] Instance equal_distance : CosineDistance := λ _ _, f64_zero.

Definition demo_schema {A} (parse : pystr → option A) (valid : A → bool) : arguments_model A :=
  ArgumentsModel
    (λ raw, match raw with
            | [(_, PStr q)] =>
                match parse q with
                | Some a => if valid a then Ok a else Raise ValidationError
                | None => Raise ValidationError
                end
            | _ => Raise ValidationError
            end) (λ _, []).

Lemma demo_schema_ok {A} parse (valid : A → bool) : model_ok valid (demo_schema parse valid).
Proof.
  split; simpl; intros raw x H; repeat case_match; try done; by injection H as <-.
Qed.

Definition demo_schemas : tool_schemas := ToolSchemas
  (demo_schema (λ q, Some (SearchKnowledgeArguments.mk q 5)) SearchKnowledgeArguments.valid)
  (demo_schema (λ _, Some (GetKnowledgeDocumentArguments.mk 1%N)) (λ _, true))
  (demo_schema (λ q, Some (SearchKnowledgeGraphArguments.mk q 2 None))
     SearchKnowledgeGraphArguments.valid).

Lemma demo_tools_env :
  knowledge_tools_env (S := memory knowledge) demo_schemas demo_vector_search
    (Some demo_graph_search) (λ m _, m) None (ret f64_one) (λ _, False).
Proof.
  split; try apply demo_schema_ok; try done.
  - intros svc [= <-]. done.
  - exists (eq f64_one). split; [by apply safe_ret; [apply _|]|]. intros a b <- <-.
    eexists. vm_compute. reflexivity.
Qed.

Lemma knowledge_tools_read_only_witness :
  ∃ r, build_knowledge_tool_registry (S := memory knowledge) demo_schemas demo_vector_search
         (Some demo_graph_search) None (λ m _, m) None (ret f64_one) = Ok r ∧
    names r = EVIDENCE_TOOL_NAMES ∧
    safe commits_nothing unencodable
      (execute_as MultiAgentName.EVIDENCE r "search_knowledge" demo_arguments None) call_ok.
Proof.
  destruct (knowledge_tools_read_only (S := memory knowledge) demo_schemas demo_vector_search
    (Some demo_graph_search) None (λ m _, m) None (ret f64_one) (λ _, False) demo_tools_env)
    as (r & Hr & _ & Hcalls & _).
  exists r. split; [exact Hr|]. split; [|by apply Hcalls].
  unfold build_knowledge_tool_registry, make_registry in Hr.
  rewrite decide_True in Hr by apply knowledge_tools_names. by injection Hr as <-.
Defined.
End demo.
