(* ===== verification/Ingestion.v ===== *)
(** app/rag/ingestion.py: one document is normalized, chunked, embedded and stored with
    all its chunks in one transaction, or not at all.

    Arguments: the embedding provider, SHA-256, and the conversions of parser metadata
    that are not already integers and strings. *)
From S2P Require Import Prelude PyText PyFloat Errors Chunking Domain Session Storage.
From S2P Require Import Governance MemorySession KnowledgeStore KnowledgeRepositories KnowledgeDemo.
From S2P Require Import KnowledgeRetrieval RetrievalTheorems.

Module KnowledgeDocumentCreate.
Record t := mk {
  title : pystr;
  source_type : KnowledgeSourceType.t;
  source_uri : option pystr;
  external_id : option pystr;
  content : pystr;
  metadata : pydict
}.
(** The constraints on the fields other than [metadata]. *)
Definition valid (r : t) : bool :=
  len_in 1 300 (title r) &&
  opt_all (len_le 2000) (source_uri r) &&
  opt_all (len_le 300) (external_id r) &&
  len_in 1 1000000 (content r).
End KnowledgeDocumentCreate.

(** ** Provenance *)

(** [bool(v)] of a metadata value. *)
Definition truthy_value (v : pyval) : bool :=
  match v with
  | PNone => false
  | PBool b => b
  | PInt n => negb (Z.eqb n 0)
  | PFloat x => negb (feqb x f64_zero)
  | PStr s => truthy s
  | PList l => truthy l
  | PDict d => truthy d
  end.

(** [int(v)] of a string or a float, and [str(v)] of a value that is no string. *)
Class Conversions := {
  parse_int : pyval → res Z;
  display : pyval → pystr
}.

Definition py_int {conv : Conversions} (v : pyval) : res Z :=
  match v with
  | PInt n => Ok n
  | PBool b => Ok (if b then 1%Z else 0%Z)
  | PNone | PList _ | PDict _ => Raise TypeError
  | PStr _ | PFloat _ => parse_int v
  end.
Definition py_str {conv : Conversions} (v : pyval) : pystr :=
  match v with PStr s => s | _ => display v end.

(** [s.find(sub, lo)], with [n] positions left to try. *)
Fixpoint find_below (sub s : pystr) (lo n : nat) : option nat :=
  match n with
  | O => None
  | S k => if str_startswith sub (drop lo s) then Some lo else find_below sub s (S lo) k
  end.
Definition find_from (sub s : pystr) (lo : nat) : option nat :=
  find_below sub s lo (S (length s) - length sub - lo).

Abbreviation span := (nat * nat * pydict)%type.

Fixpoint spans_from (normalized : pystr) (cursor : nat) (segments : list KnowledgeSourceSegment.t) :
    list span :=
  match segments with
  | [] => []
  | segment :: rest =>
      let segment_text := normalize_text (KnowledgeSourceSegment.text segment) in
      if truthy segment_text then
        match find_from segment_text normalized cursor with
        | None => spans_from normalized cursor rest
        | Some start =>
            let end_ := (start + length segment_text)%nat in
            (start, end_, KnowledgeSourceSegment.metadata segment) ::
              spans_from normalized end_ rest
        end
      else spans_from normalized cursor rest
  end.

Definition _build_provenance_spans (normalized : pystr)
    (source_segments : list KnowledgeSourceSegment.t) : list span :=
  spans_from normalized 0 source_segments.

(** The metadata of the spans that overlap a chunk. *)
Definition overlapping (chunk_start chunk_end : nat) (spans : list span) : list pydict :=
  (λ s : span, s.2) <$>
    filter (λ s : span, Nat.ltb chunk_start s.1.2 && Nat.ltb s.1.1 chunk_end = true) spans.

(** [metadata.get("page_number")] that is not [None]. *)
Definition page_value (metadata : pydict) : option pyval :=
  match dict_get metadata (lit "page_number") with
  | None | Some PNone => None
  | Some v => Some v
  end.
Definition section_value (metadata : pydict) : option pyval :=
  match dict_get metadata (lit "section_heading") with
  | Some v => if truthy_value v then Some v else None
  | None => None
  end.

Definition page_entries (pages : list Z) : pydict :=
  match head pages, last pages with
  | Some first, Some final =>
      [(lit "source_pages", PList (PInt <$> pages));
       (lit "source_page_start", PInt first); (lit "source_page_end", PInt final)]
  | _, _ => []
  end.
Definition section_entries (sections : list pystr) : pydict :=
  if truthy sections then [(lit "source_sections", PList (PStr <$> sections))] else [].

Definition _chunk_provenance {conv : Conversions} (chunk_start chunk_end : nat)
    (spans : list span) : res pydict :=
  let metadata := overlapping chunk_start chunk_end spans in
  res_bind (res_map py_int (omap page_value metadata)) (λ numbers,
  let pages := merge_sort Z.le (dict_fromkeys numbers) in
  let sections := dict_fromkeys (py_str <$> omap section_value metadata) in
  Ok (page_entries pages ++ section_entries sections)).

(** ** KnowledgeIngestionService *)

Section service.
Context {S : Type} `{!Session knowledge S} {sha : Sha256} {conv : Conversions}.

(** The constructor arguments. *)
Record ingestion := Ingestion {
  in_embed_texts : list pystr → M S (list (list pyfloat));
  in_chunk_size : Z;
  in_chunk_overlap : Z
}.

Definition embedded_chunk (spans : list span) (chunk : TextChunk.t) (vector : list pyfloat) :
    res EmbeddedChunk.t :=
  res_bind (sha256_of (TextChunk.content chunk)) (λ content_hash,
  res_bind (_chunk_provenance (TextChunk.start_offset chunk) (TextChunk.end_offset chunk) spans)
    (λ provenance,
  Ok (EmbeddedChunk.mk (Z.of_nat (TextChunk.index chunk)) (TextChunk.content chunk) vector
        ((lit "content_hash", PStr content_hash) :: provenance)))).

(** [zip] of two lists of one length. *)
Definition embedded_chunks (spans : list span) (chunks : list TextChunk.t)
    (vectors : list (list pyfloat)) : res (list EmbeddedChunk.t) :=
  res_map (λ cv, embedded_chunk spans cv.1 cv.2) (zip chunks vectors).

Definition knowledge_error (e : sql_error) : app_error :=
  match e with
  | OperationalError | ProgrammingError => KnowledgeStoreUnavailableError
  | OtherSQLAlchemyError => KnowledgePersistenceError
  end.

Context (svc : ingestion).

(** The document and its chunks, stored and committed. *)
Definition store (document_id : uuid) (request : KnowledgeDocumentCreate.t)
    (normalized content_hash : pystr) (segments : list KnowledgeSourceSegment.t) :
    M S KnowledgeIngestionResult.t :=
  let* document := KnowledgeDocuments.create document_id (KnowledgeDocumentCreate.title request)
    (KnowledgeDocumentCreate.source_type request) (KnowledgeDocumentCreate.source_uri request)
    (KnowledgeDocumentCreate.external_id request) normalized
    (KnowledgeDocumentCreate.metadata request) content_hash in
  let* text_chunks := of_res (chunk_text normalized (in_chunk_size svc) (in_chunk_overlap svc)) in
  if truthy text_chunks then
    let* vectors := in_embed_texts svc (TextChunk.content <$> text_chunks) in
    if Nat.eqb (length vectors) (length text_chunks) then
      let spans := _build_provenance_spans normalized segments in
      let* chunks := of_res (embedded_chunks spans text_chunks vectors) in
      KnowledgeChunks.bulk_create document_id chunks ;;;
      KnowledgeDocuments.commit ;;;
      ret (KnowledgeIngestionResult.mk document (Z.of_nat (length chunks)) false)
    else app_raise InvalidEmbeddingError
  else app_raise EmptyKnowledgeDocumentError.

(** The body of the [try] statement. *)
Definition ingest_body (document_id : uuid) (request : KnowledgeDocumentCreate.t)
    (normalized content_hash : pystr) (deduplicate : bool)
    (segments : list KnowledgeSourceSegment.t) : M S KnowledgeIngestionResult.t :=
  let* existing := if deduplicate then KnowledgeDocuments.find_by_content_hash content_hash
                   else ret None in
  match existing with
  | Some document =>
      let* chunks := KnowledgeChunks.list_by_document (KnowledgeDocumentRecord.document_id document) in
      ret (KnowledgeIngestionResult.mk document (Z.of_nat (length chunks)) true)
  | None => store document_id request normalized content_hash segments
  end.

Definition ingest (request : KnowledgeDocumentCreate.t) (deduplicate : bool)
    (segments : list KnowledgeSourceSegment.t) : M S KnowledgeIngestionResult.t :=
  let* document_id := uuid4 in
  let normalized := normalize_text (KnowledgeDocumentCreate.content request) in
  if truthy normalized then
    let* content_hash := of_res (sha256_of normalized) in
    try_except (ingest_body document_id request normalized content_hash deduplicate segments)
      (λ e, match e with
            | ApplicationError a => KnowledgeDocuments.rollback ;;; app_raise a
            | SQLAlchemyError q => KnowledgeDocuments.rollback ;;; app_raise (knowledge_error q)
            | _ => raise e
            end)
  else app_raise EmptyKnowledgeDocumentError.

Definition get_document (document_id : uuid) : M S KnowledgeDocumentRecord.t :=
  let* document := try_except (KnowledgeDocuments.get_by_id document_id)
    (λ e, match e with
          | SQLAlchemyError q => app_raise (knowledge_error q)
          | _ => raise e
          end) in
  match document with
  | None => app_raise KnowledgeDocumentNotFoundError
  | Some document => ret document
  end.
End service.
Arguments ingestion : clear implicits.

(** ** What ingestion promises *)

Section outcome.
Context {S : Type} {sha : Sha256} {conv : Conversions} (svc : ingestion S).
Context (request : KnowledgeDocumentCreate.t) (segments : list KnowledgeSourceSegment.t).
Abbreviation normalized := (normalize_text (KnowledgeDocumentCreate.content request)).
Abbreviation spans := (_build_provenance_spans normalized segments).

(** The row of a chunk of the text. *)
Record row_of (document_id : uuid) (chunk : TextChunk.t) (row : KnowledgeChunkModel.t) : Prop := {
  row_document : KnowledgeChunkModel.document_id row = document_id;
  row_index : KnowledgeChunkModel.chunk_index row = Z.of_nat (TextChunk.index chunk);
  row_content : KnowledgeChunkModel.content row = TextChunk.content chunk;
  row_metadata : ∃ h provenance, sha256_of (TextChunk.content chunk) = Ok h ∧
    _chunk_provenance (TextChunk.start_offset chunk) (TextChunk.end_offset chunk) spans =
      Ok provenance ∧
    KnowledgeChunkModel.chunk_metadata row = (lit "content_hash", PStr h) :: provenance
}.

(** The row of the document. *)
Record document_of (doc : KnowledgeDocumentModel.t) : Prop := {
  doc_title : KnowledgeDocumentModel.title doc = KnowledgeDocumentCreate.title request;
  doc_source_type :
    KnowledgeDocumentModel.source_type doc = KnowledgeDocumentCreate.source_type request;
  doc_source_uri :
    KnowledgeDocumentModel.source_uri doc = KnowledgeDocumentCreate.source_uri request;
  doc_external_id :
    KnowledgeDocumentModel.external_id doc = KnowledgeDocumentCreate.external_id request;
  doc_content : KnowledgeDocumentModel.content doc = normalized;
  doc_metadata :
    KnowledgeDocumentModel.document_metadata doc = KnowledgeDocumentCreate.metadata request;
  doc_hash : sha256_of normalized = Ok (KnowledgeDocumentModel.content_hash doc)
}.

(** Rows inserted under new keys. *)
Definition insert_rows (rows : list KnowledgeChunkModel.t) (m : gmap uuid KnowledgeChunkModel.t) :
    gmap uuid KnowledgeChunkModel.t :=
  fold_left (λ m r, <[KnowledgeChunkModel.id r := r]> m) rows m.

(** [db'] is [db] with the new document and a row for each of its chunks. *)
Record ingested (db db' : knowledge) (out : KnowledgeIngestionResult.t) : Prop := {
  ing_rows : ∃ doc texts rows,
    chunk_text normalized (in_chunk_size svc) (in_chunk_overlap svc) = Ok texts ∧ texts ≠ [] ∧
    document_of doc ∧ KnowledgeTables.documents db !! KnowledgeDocumentModel.id doc = None ∧
    KnowledgeTables.documents db' =
      <[KnowledgeDocumentModel.id doc := doc]> (KnowledgeTables.documents db) ∧
    Forall2 (row_of (KnowledgeDocumentModel.id doc)) texts rows ∧
    NoDup (KnowledgeChunkModel.id <$> rows) ∧
    Forall (λ r, KnowledgeTables.chunks db !! KnowledgeChunkModel.id r = None) rows ∧
    KnowledgeTables.chunks db' = insert_rows rows (KnowledgeTables.chunks db) ∧
    out = KnowledgeIngestionResult.mk (KnowledgeDocuments._to_record doc)
            (Z.of_nat (length texts)) false;
  ing_entities : KnowledgeTables.entities db' = KnowledgeTables.entities db;
  ing_mentions : KnowledgeTables.mentions db' = KnowledgeTables.mentions db;
  ing_relationships : KnowledgeTables.relationships db' = KnowledgeTables.relationships db;
  ing_ok : knowledge_ok db'
}.

(** The stored documents with the hash of the text. *)
Definition same_text (db : knowledge) (doc : KnowledgeDocumentModel.t) : Prop :=
  (∃ i, KnowledgeTables.documents db !! i = Some doc) ∧
  sha256_of normalized = Ok (KnowledgeDocumentModel.content_hash doc).

(** The outcome: a document found, or a document added. *)
Definition ingest_outcome (deduplicate : bool) (db db' : knowledge)
    (out : KnowledgeIngestionResult.t) : Prop :=
  (deduplicate = true ∧ db' = db ∧ ∃ doc, same_text db doc ∧
     out = KnowledgeIngestionResult.mk (KnowledgeDocuments._to_record doc)
             (Z.of_nat (length (KnowledgeChunks.select_chunks (KnowledgeDocumentModel.id doc) db)))
             true) ∨
  ((deduplicate = true → ∀ doc, ¬ same_text db doc) ∧ ingested db db' out).
End outcome.

(** *** Rows *)

Lemma fold_add_chunk rows db :
  let db' := fold_left add_chunk rows db in
  KnowledgeTables.documents db' = KnowledgeTables.documents db ∧
  KnowledgeTables.entities db' = KnowledgeTables.entities db ∧
  KnowledgeTables.mentions db' = KnowledgeTables.mentions db ∧
  KnowledgeTables.relationships db' = KnowledgeTables.relationships db ∧
  KnowledgeTables.chunks db' = insert_rows rows (KnowledgeTables.chunks db) ∧
  (KnowledgeTables.conflict db' = false →
   KnowledgeTables.conflict db = false ∧ NoDup (KnowledgeChunkModel.id <$> rows) ∧
   Forall (λ r, KnowledgeTables.chunks db !! KnowledgeChunkModel.id r = None) rows).
Proof.
  revert db. induction rows as [|r rows IH]; intros db; simpl.
  { split_and!; try done. intros ?. split_and!; [done|constructor|constructor]. }
  destruct (IH (add_chunk db r)) as (Hd & He & Hm & Hr & Hc & Hconf).
  split_and!; [done..|]. intros H. destruct (Hconf H) as (Hf & Hnd & Hfresh).
  unfold add_chunk in Hf. simpl in Hf. apply orb_false_iff in Hf as [Hf Hrep].
  unfold repeats in Hrep. apply bool_decide_eq_false, eq_None_not_Some in Hrep.
  simpl in Hfresh. split_and!; [done| |].
  - csimpl. constructor; [|done]. intros (r' & Heq & Hin)%list_elem_of_fmap.
    rewrite Forall_forall in Hfresh. specialize (Hfresh r' Hin). rewrite <- Heq in Hfresh.
    by rewrite lookup_insert_eq in Hfresh.
  - constructor; [done|]. eapply Forall_impl; [exact Hfresh|]. intros r' H'.
    by apply lookup_insert_None in H' as [? _].
Qed.

(** *** The transaction *)

Section transaction.
Context {S : Type} `{!Session knowledge S} `{!SessionLaws knowledge S}.
Context {sha : Sha256} {conv : Conversions} (svc : ingestion S) (E : exn → Prop).
Context (Hsql : ∀ e, is_sql e → E e) (Hvalue : E ValueError) (Htype : E TypeError)
  (Happ : ∀ a, E (ApplicationError a)) (Hparse : ∀ v e, parse_int v = Raise e → E e).
Context (Hembed : ∀ texts, safe keeps E (in_embed_texts svc texts) (λ _, True)).
Context (request : KnowledgeDocumentCreate.t) (segments : list KnowledgeSourceSegment.t).
Abbreviation normalized := (normalize_text (KnowledgeDocumentCreate.content request)).
Abbreviation spans := (_build_provenance_spans normalized segments).

Lemma res_map_spec {A B} (f : A → res B) l :
  match res_map f l with
  | Ok bs => Forall2 (λ a b, f a = Ok b) l bs
  | Raise e => ∃ a, a ∈ l ∧ f a = Raise e
  end.
Proof.
  induction l as [|a l IH]; simpl; [constructor|]. destruct (f a) as [b|e] eqn:Ha; simpl.
  - destruct (res_map f l) as [bs|e]; simpl; [by constructor|].
    destruct IH as (a' & Hin & He). exists a'. split; [by right|done].
  - exists a. split; [left|done].
Qed.

Lemma provenance_raises a b ss e : _chunk_provenance a b ss = Raise e → E e.
Proof.
  unfold _chunk_provenance. pose proof (res_map_spec py_int
    (omap page_value (overlapping a b ss))) as H.
  destruct (res_map _ _) as [?|e']; [done|]. intros [= <-]. destruct H as (v & _ & Hv).
  destruct v; simpl in Hv; simplify_eq; eauto.
Qed.

Lemma sha256_of_raises s e : sha256_of s = Raise e → E e.
Proof. unfold sha256_of. case_match; [done|]. by intros [= <-]. Qed.

(** The row an embedded chunk becomes. *)
Definition embeds (d : uuid) (chunk : EmbeddedChunk.t) (row : KnowledgeChunkModel.t) : Prop :=
  KnowledgeChunkModel.document_id row = d ∧
  KnowledgeChunkModel.chunk_index row = EmbeddedChunk.chunk_index chunk ∧
  KnowledgeChunkModel.content row = EmbeddedChunk.content chunk ∧
  KnowledgeChunkModel.chunk_metadata row = EmbeddedChunk.metadata chunk.

Lemma embedded_chunks_spec texts vectors :
  length vectors = length texts →
  match embedded_chunks spans texts vectors with
  | Ok chunks => ∀ d rows, Forall2 (embeds d) chunks rows →
      Forall2 (row_of request segments d) texts rows
  | Raise e => E e
  end.
Proof.
  intros Hl. unfold embedded_chunks. pose proof (res_map_spec (λ cv, embedded_chunk spans cv.1 cv.2)
    (zip texts vectors)) as H. destruct (res_map _ _) as [chunks|e].
  - intros d rows Hrows. assert (texts = (zip texts vectors).*1) as -> by (by rewrite fst_zip by lia).
    apply Forall2_fmap_l. eapply Forall2_trans; [|exact H|exact Hrows].
    intros [t v] c row Hc (Hd & Hi & Hct & Hm). simpl in *. unfold embedded_chunk in Hc.
    destruct (sha256_of _) as [h|] eqn:Hh; [|done]. simpl in Hc.
    destruct (_chunk_provenance _ _ _) as [prov|] eqn:Hp; [|done]. simpl in Hc.
    injection Hc as <-. split; [done..|]. by exists h, prov.
  - destruct H as ([t v] & _ & Ht). unfold embedded_chunk in Ht. simpl in Ht.
    destruct (sha256_of _) as [h|e1] eqn:Hh; simpl in Ht.
    + destruct (_chunk_provenance _ _ _) as [prov|e2] eqn:Hp; [done|]. simpl in Ht.
      injection Ht as <-. by eapply provenance_raises.
    + injection Ht as <-. by eapply sha256_of_raises.
Qed.

Lemma txn_chunk_models d chunks db :
  txn (KnowledgeChunks.chunk_models d chunks) db E (λ rows db', db' = db ∧
    Forall2 (embeds d) chunks rows).
Proof.
  induction chunks as [|c chunks IH]; simpl; txn_steps; [by split|].
  eapply txn_mono; [exact IH|done|]. intros rows db' [-> Hrows]. apply txn_ret. split; [done|].
  by constructor.
Qed.

Lemma commits_store id h db :
  sha256_of normalized = Ok h →
  commits (store svc id request normalized h segments) db E
    (λ out db', ingested svc request segments db db' out).
Proof.
  intros Hh. unfold store. apply commits_bind. unfold KnowledgeDocuments.create. txn_steps.
  match goal with |- context [KnowledgeDocuments._to_record ?m] => set (doc := m) end.
  apply commits_bind, txn_of_res. destruct (chunk_text _ _ _) as [texts|e] eqn:Htexts.
  2: { unfold chunk_text in Htexts. repeat case_match; simplify_eq; done. }
  destruct (truthy texts) eqn:Hne; [|by apply commits_raise].
  apply commits_bind, (txn_safe _ _ _ _ _ (Hembed _)). intros vectors _.
  destruct (Nat.eqb_spec (length vectors) (length texts)) as [Hl|]; [|by apply commits_raise].
  pose proof (embedded_chunks_spec texts vectors Hl) as Hspec.
  apply commits_bind, txn_of_res. destruct (embedded_chunks _ _ _) as [chunks|e] eqn:Hchunks;
    [|exact Hspec].
  apply commits_bind. unfold KnowledgeChunks.bulk_create. apply txn_bind.
  eapply txn_mono; [apply txn_chunk_models|done|]. intros rows db1 [-> Hrows]. txn_steps.
  apply commits_commit_ret; [done|]. intros _.
  destruct (fold_add_chunk rows (add_document doc db)) as (Hd & He & Hm & Hr & Hc & Hconf).
  set (db' := fold_left add_chunk rows (add_document doc db)) in *.
  assert (Hok : knowledge_ok db') by done. destruct (Hconf (proj1 Hok)) as (Hdf & Hnd & Hfresh).
  unfold add_document in Hdf. simpl in Hdf. apply orb_false_iff in Hdf as [_ Hrep].
  unfold repeats in Hrep. apply bool_decide_eq_false, eq_None_not_Some in Hrep.
  split; [|done..]. exists doc, texts, rows. split_and!; try done.
  - by destruct texts.
  - by apply Hspec.
  - do 2 f_equal. f_equal. unfold embedded_chunks in Hchunks. apply res_map_length in Hchunks.
    rewrite Hchunks, length_zip. lia.
Qed.

Lemma oldest_with_hash db h :
  match head (merge_sort KnowledgeDocuments.by_age
          (filter (λ d, KnowledgeDocumentModel.content_hash d = h)
             (rows (KnowledgeTables.documents db)))) with
  | Some doc => (∃ i, KnowledgeTables.documents db !! i = Some doc) ∧
                KnowledgeDocumentModel.content_hash doc = h
  | None => ∀ i doc, KnowledgeTables.documents db !! i = Some doc →
              KnowledgeDocumentModel.content_hash doc ≠ h
  end.
Proof.
  set (found := merge_sort _ _).
  assert (Hin : ∀ doc, doc ∈ found ↔ (∃ i, KnowledgeTables.documents db !! i = Some doc) ∧
    KnowledgeDocumentModel.content_hash doc = h).
  { intros doc. unfold found. rewrite elem_of_merge_sort, list_elem_of_filter, elem_of_rows. tauto. }
  destruct found as [|doc l]; simpl.
  - intros i doc Hi Hh. assert (doc ∈ @nil KnowledgeDocumentModel.t) as Hd by (apply Hin; eauto).
    by apply elem_of_nil in Hd.
  - apply Hin. left.
Qed.

(** An exception of the body: nothing is committed, or the commit itself failed. *)
Lemma ingest_body_wp id h deduplicate s :
  sha256_of normalized = Ok h → view s = durable s →
  let db := durable s in
  wp (ingest_body svc id request normalized h deduplicate segments) (λ s' r,
    match r with
    | Ok out => view s' = durable s' ∧
        ingest_outcome svc request segments deduplicate db (durable s') out
    | Raise e => E e ∧ durable s' = db ∨
        is_sql e ∧ ∃ out, ingest_outcome svc request segments deduplicate db (durable s') out
    end) s.
Proof.
  intros Hh Hs db. unfold ingest_body. apply wp_bind.
  assert (Hstore : ∀ s1, keeps s s1 →
    (deduplicate = true → ∀ doc, ¬ same_text request db doc) →
    wp (store svc id request normalized h segments) (λ s' r,
      match r with
      | Ok out => view s' = durable s' ∧
          ingest_outcome svc request segments deduplicate db (durable s') out
      | Raise e => E e ∧ durable s' = db ∨
          is_sql e ∧ ∃ out, ingest_outcome svc request segments deduplicate db (durable s') out
      end) s1).
  { intros s1 [Hv Hd] Hnone. eapply wp_mono.
    - apply (commits_store id h (view s1) Hh s1 eq_refl).
    - intros s' [out|e].
      + intros [Hi Hvd]. split; [done|]. right. split; [done|]. by rewrite Hv, Hs in Hi.
      + intros [[? Hd']|[? (out & Hi)]]; [left; split; [done|by rewrite Hd']|right].
        split; [done|]. exists out. right. split; [done|]. by rewrite Hv, Hs in Hi. }
  destruct deduplicate; [|apply wp_ret, Hstore; [split; done|done]].
  unfold KnowledgeDocuments.find_by_content_hash. apply wp_bind.
  eapply wp_mono; [apply read_law|]. intros s1 [found|e] [[Hv Hd] Hr].
  2: { left. split; [by apply Hsql|done]. }
  pose proof (oldest_with_hash db h) as Hfound. rewrite Hs in Hr. fold db in Hr.
  rewrite <- Hr in Hfound. apply wp_ret. destruct found as [doc|]; simpl.
  - destruct Hfound as [Hi Hhash]. apply wp_bind. unfold KnowledgeChunks.list_by_document.
    apply wp_bind. eapply wp_mono; [apply read_law|]. intros s2 [cs|e] [[Hv2 Hd2] Hr2].
    + apply wp_ret, wp_ret. split; [congruence|]. left. split; [done|]. split; [by rewrite Hd2|].
      exists doc. split; [split; [done|by rewrite Hhash]|]. do 2 f_equal.
      rewrite length_fmap, Hr2. simpl. by rewrite Hv, Hs.
    + left. split; [by apply Hsql|by rewrite Hd2].
  - apply Hstore; [by split|]. intros _ doc [[i Hi] Hdoc]. apply (Hfound i doc Hi). congruence.
Qed.

(** The errors that leave it open whether the commit took place. *)
Definition store_unknown (e : exn) : Prop :=
  is_sql e ∨ e = ApplicationError KnowledgeStoreUnavailableError ∨
  e = ApplicationError KnowledgePersistenceError.

(** Ingestion on every path. *)
Lemma ingest_spec deduplicate s :
  view s = durable s →
  wp (ingest svc request deduplicate segments) (λ s' r,
    match r with
    | Ok out => view s' = durable s' ∧
        ingest_outcome svc request segments deduplicate (durable s) (durable s') out
    | Raise e => E e ∧ (durable s' = durable s ∨
        store_unknown e ∧
        ∃ out, ingest_outcome svc request segments deduplicate (durable s) (durable s') out)
    end) s.
Proof.
  intros Hs. unfold ingest. apply wp_bind. eapply wp_mono; [apply uuid4_law|].
  intros s1 r [[Hv Hd] (id & ->)].
  destruct (truthy normalized); [|apply wp_raise; split; [done|by left]].
  rewrite <- Hd. assert (Hs1 : view s1 = durable s1) by congruence. clear s Hs Hv Hd.
  apply wp_bind. unfold wp at 1, of_res. simpl.
  destruct (sha256_of normalized) as [h|e] eqn:Hh; simpl.
  2: { split; [by eapply sha256_of_raises|by left]. }
  apply wp_try. eapply wp_mono; [by apply ingest_body_wp|].
  intros s2 [out|e]; [done|]. intros H.
  assert (Hstop : ∀ a, (is_sql e → store_unknown (ApplicationError a)) →
    wp (KnowledgeDocuments.rollback ;;; app_raise (A := KnowledgeIngestionResult.t) a) (λ s' r,
      match r with
      | Ok _ => False
      | Raise e' => E e' ∧ (durable s' = durable s1 ∨ store_unknown e' ∧
          ∃ out, ingest_outcome svc request segments deduplicate (durable s1) (durable s') out)
      end) s2).
  { intros a Ha. apply wp_bind. eapply wp_mono; [apply rollback_law|].
    intros s3 [[]|e'] [Hd3 Hr]; [apply wp_raise|]; rewrite Hd3.
    - split; [done|]. destruct H as [[_ ?]|[? ?]]; [by left|right; auto].
    - destruct Hr as [Hq _]. split; [by apply Hsql|].
      destruct H as [[_ ?]|[_ ?]]; [by left|right; split; [by left|done]]. }
  assert (Hraise : ¬ is_sql e → wp (raise (A := KnowledgeIngestionResult.t) e) (λ s' r,
      match r with
      | Ok _ => False
      | Raise e' => E e' ∧ (durable s' = durable s1 ∨ store_unknown e' ∧
          ∃ out, ingest_outcome svc request segments deduplicate (durable s1) (durable s') out)
      end) s2).
  { intros Hn. destruct H as [[? ?]|[? _]]; [|done]. apply wp_raise. split; [done|by left]. }
  eapply wp_mono; [destruct e as [a|q| | | | | | | | | |];
    try (apply Hraise; by intros []); [apply Hstop; by intros []|apply Hstop]|].
  - intros _. destruct q; [right; left|right; left|right; right]; done.
  - by intros s' [].
Qed.

(** C15: ingestion is atomic and exact: wherever the provider or the database fails, ingesting
    a text either returns, and then it found - only if asked to - a stored document with
    the hash of the normalized text and changed nothing, or it committed exactly one new
    document, which holds the normalized text, and one new row for each chunk of that
    text, in order, with its hash and the pages and sections it overlaps - and, if asked,
    no stored document had that hash -, every constraint of the tables holding; or it
    raises, and the committed tables are as before unless the commit itself failed, when
    they are as before or those of a completed ingestion. *)
Theorem ingestion_atomic deduplicate s :
  view s = durable s →
  wp (ingest svc request deduplicate segments) (λ s' r,
    match r with
    | Ok out => view s' = durable s' ∧
        ingest_outcome svc request segments deduplicate (durable s) (durable s') out
    | Raise e => E e ∧ (durable s' = durable s ∨
        store_unknown e ∧
        ∃ out, ingest_outcome svc request segments deduplicate (durable s) (durable s') out)
    end) s.
Proof. apply ingest_spec. Qed.
End transaction.

(** ** A small run *)

Section demo.
#[local] Instance first_characters : Sha256 := take 64.
#[local] Instance no_conversions : Conversions := {|
  parse_int _ := Raise ValueError; display _ := []
|}.

Definition demo_ingestion : ingestion (memory knowledge) :=
  Ingestion (λ texts, ret ((λ _, demo_vector) <$> texts)) 24 4.
Definition demo_create : KnowledgeDocumentCreate.t :=
  KnowledgeDocumentCreate.mk "Guide" KnowledgeSourceType.TEXT None None
    "Claims are paid weekly.  Audits follow." [].
Definition demo_segments : list KnowledgeSourceSegment.t :=
  [KnowledgeSourceSegment.mk "Claims are paid weekly."
     [(lit "page_number", PInt 1); (lit "section_heading", PStr "Payments")];
   KnowledgeSourceSegment.mk "Audits follow." [(lit "page_number", PInt 2)]].

(** Two chunks are stored; ingesting the text again finds the document. *)
Example demo_ingest_runs :
  match ingest demo_ingestion demo_create true demo_segments (open_session demo_knowledge) with
  | (s, Ok out) =>
      (KnowledgeIngestionResult.chunk_count out, KnowledgeIngestionResult.duplicate out,
       size (KnowledgeTables.documents (durable s)), size (KnowledgeTables.chunks (durable s)),
       match ingest demo_ingestion demo_create true demo_segments s with
       | (_, Ok again) => KnowledgeIngestionResult.duplicate again
       | _ => false
       end)
      = (2%Z, false, 2%nat, 3%nat, true)
  | _ => False
  end.
Proof. vm_compute. reflexivity. Qed.

Lemma ingestion_atomic_witness :
  ∃ s out, ingest demo_ingestion demo_create true demo_segments (open_session demo_knowledge)
      = (s, Ok out) ∧
    ingest_outcome demo_ingestion demo_create demo_segments true demo_knowledge (durable s) out.
Proof.
  pose proof (ingestion_atomic demo_ingestion (λ _, True) (λ _ _, I) I I (λ _, I) (λ _ _ _, I)
    (λ texts, safe_ret keeps (λ _, True) _ (λ _, True) I) demo_create demo_segments true
    (open_session demo_knowledge) eq_refl) as H. unfold wp in H.
  destruct (ingest demo_ingestion demo_create true demo_segments (open_session demo_knowledge))
    as [s [out|e]] eqn:Hrun.
  - exists s, out. split; [done|]. apply H.
  - exfalso. vm_compute in Hrun. discriminate.
Defined.
End demo.
