(* ===== verification/FileIngestion.v ===== *)
(** app/ingestion/service.py: an upload is read within its bound, parsed, and handed to the
    ingestion transaction; enriching the graph afterwards cannot undo it.

    Arguments: reading from the upload, [json.loads], and the size of the metadata as
    compact JSON. *)
From S2P Require Import Prelude Errors Chunking TextNormalization Domain Unicode PyText Session Storage KnowledgeStore.
From S2P Require Import Governance MemorySession KnowledgeRepositories KnowledgeDemo KnowledgeEnrichment.
From S2P Require Import Ingestion Utf8 DocumentParsers.

Module GraphEnrichmentStatus.
Inductive t := NOT_REQUESTED | DISABLED | COMPLETED | FAILED.
Definition value (x : t) : pystr :=
  match x with
  | NOT_REQUESTED => "not_requested"
  | DISABLED => "disabled"
  | COMPLETED => "completed"
  | FAILED => "failed"
  end.
End GraphEnrichmentStatus.

Module FileIngestionResult.
Record t := mk {
  document : KnowledgeDocumentRecord.t;
  filename : pystr;
  mime_type : pystr;
  parser : pystr;
  extraction_method : pystr;
  normalized_character_count : Z;
  chunk_count : Z;
  duplicate : bool;
  graph_enrichment_status : GraphEnrichmentStatus.t;
  graph_error_code : option pystr
}.
End FileIngestionResult.

(** An upload: the bytes not read yet, with the name and the type the client gave. *)
Module UploadFile.
Record t := mk {
  filename : option pystr;
  content_type : option pystr;
  content : bytes
}.
End UploadFile.

(** [read n] gives the next bytes, at most [n], and what remains. *)
Class UploadRead := upload_read : Z → bytes → bytes * bytes.
Class UploadReadLaws {R : UploadRead} : Prop := {
  read_split n data : (upload_read n data).1 ++ (upload_read n data).2 = data;
  read_at_most n data : (0 ≤ n)%Z → (Z.of_nat (length (upload_read n data).1) ≤ n)%Z;
  read_progress n data : (0 < n)%Z → (upload_read n data).1 = [] → data = []
}.
Arguments UploadReadLaws : clear implicits.

(** [json.loads], and the length of [json.dumps(value, separators=(,:)).encode()]. *)
Class MetadataJson := {
  json_loads : pystr → res pyval;
  json_size : pydict → res Z
}.

(** ** app/schemas/knowledge.py *)

Definition MAX_METADATA_BYTES : Z := 100000.

(** [validate_metadata_size]: whether the metadata are accepted; an exception that is no
    [TypeError] or [ValueError] passes through pydantic. *)
Definition validate_metadata_size {json : MetadataJson} (value : pydict) : res bool :=
  match json_size value with
  | Ok n => Ok (Z.leb n MAX_METADATA_BYTES)
  | Raise e => if is_value_or_type_error e then Ok false else Raise e
  end.

(** [KnowledgeDocumentCreate(...)] with literal keys in its metadata. *)
Definition document_create {json : MetadataJson} (r : KnowledgeDocumentCreate.t) :
    res KnowledgeDocumentCreate.t :=
  let r := KnowledgeDocumentCreate.mk (str_strip (KnowledgeDocumentCreate.title r))
    (KnowledgeDocumentCreate.source_type r) (str_strip <$> KnowledgeDocumentCreate.source_uri r)
    (str_strip <$> KnowledgeDocumentCreate.external_id r)
    (str_strip (KnowledgeDocumentCreate.content r)) (KnowledgeDocumentCreate.metadata r) in
  res_bind (validate_metadata_size (KnowledgeDocumentCreate.metadata r)) (λ fits,
  if fits && KnowledgeDocumentCreate.valid r then Ok r else Raise ValidationError).

(** ** Reading *)

Definition READ_SIZE : Z := 64 * 1024.

Section read.
Context {R : UploadRead} (max_upload_size_bytes : Z).

(** The loop of [_read_bounded]; each iteration but the last reads a byte, so the length of
    the content bounds their number. *)
Fixpoint read_loop (fuel : nat) (content chunks : bytes) : res bytes :=
  match fuel with
  | O => Raise (OtherException "out of fuel")
  | S fuel =>
      let remaining := (max_upload_size_bytes - Z.of_nat (length chunks))%Z in
      let '(chunk, rest) := upload_read (Z.min READ_SIZE (remaining + 1)) content in
      if negb (truthy chunk) then Ok chunks
      else if Z.ltb max_upload_size_bytes (Z.of_nat (length chunks + length chunk))
      then Raise (ApplicationError FileTooLargeError)
      else read_loop fuel rest (chunks ++ chunk)
  end.
Definition _read_bounded (upload : UploadFile.t) : res bytes :=
  read_loop (S (length (UploadFile.content upload))) (UploadFile.content upload) [].
End read.

(** ** Metadata *)

Definition MAX_METADATA_CHARACTERS : Z := 100000.
Definition parse_upload_metadata {json : MetadataJson} (value : option pystr) : res pydict :=
  match value with
  | None => Ok []
  | Some value =>
      if negb (truthy (str_strip value)) then Ok []
      else if Z.ltb MAX_METADATA_CHARACTERS (Z.of_nat (length value))
      then Raise (ApplicationError InvalidUploadMetadataError)
      else
        match json_loads value with
        | Ok (PDict parsed) => Ok parsed
        | Ok _ | Raise TypeError => Raise (ApplicationError InvalidUploadMetadataError)
        | Raise (OtherException name) =>
            if decide (name = lit "JSONDecodeError")
            then Raise (ApplicationError InvalidUploadMetadataError)
            else Raise (OtherException name)
        | Raise e => Raise e
        end
  end.

Definition opt_value {A} (f : A → pyval) (o : option A) : pyval :=
  match o with Some a => f a | None => PNone end.

Definition provenance {udb : UnicodeDB} (parsed : ParsedDocument.t) : pydict :=
  [(lit "filename", PStr (ParsedDocument.filename parsed));
   (lit "mime_type", PStr (ParsedDocument.mime_type parsed));
   (lit "file_extension", PStr (casefold (path_suffix (ParsedDocument.filename parsed))));
   (lit "file_format", PStr (FileFormat.value (ParsedDocument.file_format parsed)));
   (lit "parser_name", PStr (ParsedDocument.parser_name parsed));
   (lit "parser_version", opt_value PStr (ParsedDocument.parser_version parsed));
   (lit "extraction_method", PStr (ParsedDocument.extraction_method parsed));
   (lit "page_count", opt_value PInt (ParsedDocument.page_count parsed));
   (lit "sections", PList (PStr <$> ParsedDocument.sections parsed));
   (lit "raw_binary_retained", PBool false)].

Definition _build_request {udb : UnicodeDB} {json : MetadataJson} (parsed : ParsedDocument.t)
    (title : option pystr) (source_type : option KnowledgeSourceType.t) (user_metadata : pydict) :
    res KnowledgeDocumentCreate.t :=
  let given := default [] title in
  let resolved_title := str_strip (if truthy given then given else ParsedDocument.title parsed) in
  if negb (truthy resolved_title) || Z.ltb 300 (Z.of_nat (length resolved_title))
  then Raise (ApplicationError InvalidUploadMetadataError)
  else
    match document_create
      (KnowledgeDocumentCreate.mk resolved_title
         (default (ParsedDocument.source_type parsed) source_type) None None
         (ParsedDocument.text parsed)
         [(lit "file", PDict (provenance parsed));
          (lit "parser", PDict (ParsedDocument.metadata parsed));
          (lit "user", PDict user_metadata);
          (lit "content_trust", PStr (lit "untrusted_evidence"))])
    with
    | Raise ValidationError => Raise (ApplicationError DocumentParseError)
    | r => r
    end.

Definition source_segment (segment : ParsedDocumentSegment.t) : KnowledgeSourceSegment.t :=
  KnowledgeSourceSegment.mk (ParsedDocumentSegment.text segment)
    [(lit "page_number", opt_value PInt (ParsedDocumentSegment.page_number segment));
     (lit "section_heading", opt_value PStr (ParsedDocumentSegment.section_heading segment))].

(** ** FileIngestionService *)

Section service.
Context {S : Type} `{!Session knowledge S} {sha : Sha256} {conv : Conversions}.
Context {udb : UnicodeDB} {R : UploadRead} {json : MetadataJson}.
Context (archive_names : bytes → res (list pystr)).

(** The constructor arguments. *)
Context (parsers : list parser) (svc : ingestion S).
Context (graph : option (uuid → M S KnowledgeGraphEnrichmentResult.t)).
Context (max_upload_size_bytes : Z).

(** What [ingest_upload] knows before it touches the database. *)
Record prepared := Prepared {
  pr_filename : pystr;
  pr_parsed : ParsedDocument.t;
  pr_request : KnowledgeDocumentCreate.t
}.

Definition parse_upload (parser : parser) (data : bytes) (filename : pystr)
    (content_type : option pystr) : res ParsedDocument.t :=
  let given := default [] content_type in
  match pa_parse parser data filename
          (before_first 59 (if truthy given then given else "application/octet-stream")) with
  | Ok parsed => Ok parsed
  | Raise (ApplicationError a) => Raise (ApplicationError a)
  | Raise _ => Raise (ApplicationError DocumentParseError)
  end.

Definition prepare_upload (upload : UploadFile.t) (title : option pystr)
    (source_type : option KnowledgeSourceType.t) (metadata_json : option pystr) : res prepared :=
  res_bind (sanitize_filename (UploadFile.filename upload)) (λ filename,
  res_bind (_read_bounded max_upload_size_bytes upload) (λ data,
  res_bind (select archive_names parsers filename (UploadFile.content_type upload) data) (λ parser,
  res_bind (parse_upload parser data filename (UploadFile.content_type upload)) (λ parsed,
  res_bind (parse_upload_metadata metadata_json) (λ user_metadata,
  res_bind (_build_request parsed title source_type user_metadata) (λ request,
  Ok (Prepared filename parsed request))))))).

Definition _enrich_graph (document_id : uuid) (requested : bool) :
    M S (GraphEnrichmentStatus.t * option pystr) :=
  if negb requested then ret (GraphEnrichmentStatus.NOT_REQUESTED, None)
  else
    match graph with
    | None => ret (GraphEnrichmentStatus.DISABLED, Some (lit "knowledge_graph_disabled"))
    | Some enrich =>
        try_except
          (let* _ := enrich document_id in ret (GraphEnrichmentStatus.COMPLETED, None))
          (λ e, match e with
                | ApplicationError a => ret (GraphEnrichmentStatus.FAILED, Some (error_code a))
                | _ => ret (GraphEnrichmentStatus.FAILED, Some (lit "graph_enrichment_failed"))
                end)
    end.

Definition ingest_upload (upload : UploadFile.t) (title : option pystr)
    (source_type : option KnowledgeSourceType.t) (metadata_json : option pystr)
    (enrich_graph : bool) : M S FileIngestionResult.t :=
  let* p := of_res (prepare_upload upload title source_type metadata_json) in
  let parsed := pr_parsed p in
  let* result := ingest svc (pr_request p) true (source_segment <$> ParsedDocument.segments parsed) in
  let document := KnowledgeIngestionResult.document result in
  let* graph_result := _enrich_graph (KnowledgeDocumentRecord.document_id document) enrich_graph in
  ret (FileIngestionResult.mk document (pr_filename p) (ParsedDocument.mime_type parsed)
         (ParsedDocument.parser_name parsed) (ParsedDocument.extraction_method parsed)
         (Z.of_nat (length (KnowledgeDocumentRecord.content document)))
         (KnowledgeIngestionResult.chunk_count result) (KnowledgeIngestionResult.duplicate result)
         graph_result.1 graph_result.2).
End service.

(** ** The name of an upload *)

Lemma span_dot name before after :
  split_last_dot name = Some (before, after) → name = before ++ 46%Z :: after.
Proof.
  revert before after. induction name as [|c name IH]; intros before after; [done|]. cbn.
  destruct (split_last_dot name) as [[b a]|].
  - intros [= <- <-]. by rewrite (IH b a eq_refl).
  - destruct (Z.eqb_spec c 46) as [->|]; [|done]. by intros [= <- <-].
Qed.

Lemma path_parts_app name : path_stem name ++ path_suffix name = name.
Proof.
  unfold path_stem, path_suffix, path_parts. destruct (split_last_dot name) as [[b a]|] eqn:H.
  - destruct (truthy b && truthy a); simpl; [by rewrite (span_dot _ _ _ H)|by rewrite app_nil_r].
  - simpl. by rewrite app_nil_r.
Qed.

(** A name that is no path: not empty, bounded, neither directory entry, and free of
    separators and control characters. *)
Record safe_filename (f : pystr) : Prop := {
  sf_nonempty : f ≠ [];
  sf_length : (length f ≤ MAX_FILENAME_LENGTH)%nat;
  sf_entry : f ≠ lit "." ∧ f ≠ lit "..";
  sf_chars c : c ∈ f → c ≠ 47%Z ∧ c ≠ 92%Z ∧ is_control c = false
}.

Lemma take_last_spec n s : ∃ front, s = front ++ take_last n s ∧
  length (take_last n s) = Nat.min n (length s).
Proof.
  exists (take (length s - n) s). unfold take_last. rewrite take_drop, length_drop. split; [done|lia].
Qed.

Lemma sanitize_filename_safe value f : sanitize_filename value = Ok f → safe_filename f.
Proof.
  unfold sanitize_filename. set (given := after_last _ _). set (name := filter _ (str_strip given)).
  assert (Hchars : ∀ c, c ∈ name → c ≠ 47%Z ∧ c ≠ 92%Z ∧ is_control c = false).
  { intros c [Hc Hin]%list_elem_of_filter. apply negb_true_iff in Hc.
    unfold str_strip in Hin. apply rstrip_subset, lstrip_subset in Hin.
    unfold given, after_last in Hin. destruct (last _) as [part|] eqn:Hl; [|by apply elem_of_nil in Hin].
    apply last_Some_elem_of, split_parts in Hl as [Hsep Hsub]. simpl in Hin.
    split; [by intros ->|]. split; [|done]. intros ->. apply Hsub in Hin. revert Hin.
    by apply replace_one_absent. }
  destruct (negb (truthy name) || _) eqn:Hname; [done|].
  apply orb_false_iff in Hname as [Hne Hent]. apply negb_false_iff in Hne.
  apply bool_decide_eq_false in Hent.
  assert (Hent' : name ≠ lit "." ∧ name ≠ lit "..") by (split; intros Heq; apply Hent; rewrite Heq; [left|right; left]).
  assert (Hne' : name ≠ []) by (by intros ->).
  destruct (Nat.ltb_spec MAX_FILENAME_LENGTH (length name)) as [Hlong|Hshort]; intros [= <-];
    [|by split].
  pose proof (path_parts_app name) as Happ. set (stem := path_stem name) in *.
  destruct (take_last_spec 20 (path_suffix name)) as (front & Hfront & Hlen).
  set (suffix := take_last 20 (path_suffix name)) in *.
  assert (Hsuf : length stem + length (path_suffix name) = length name)
    by (rewrite <- Happ at 2; by rewrite length_app).
  unfold MAX_FILENAME_LENGTH in *.
  assert (Hl : (3 ≤ length (take (255 - length suffix) stem ++ suffix) ≤ 255)%nat)
    by (rewrite length_app, length_take; lia).
  split.
  - intros H. rewrite H in Hl. simpl in Hl. lia.
  - unfold MAX_FILENAME_LENGTH. lia.
  - split; intros H; rewrite H in Hl; simpl in Hl; lia.
  - intros c [Hc|Hc]%elem_of_app; apply Hchars; rewrite <- Happ; apply elem_of_app.
    + left. by eapply subseteq_take.
    + right. rewrite Hfront. apply elem_of_app. by right.
Qed.

(** ** Reading *)

Section reading.
Context {R : UploadRead} {RL : UploadReadLaws R} (max : Z) (Hmax : (0 ≤ max)%Z).

Lemma read_loop_spec fuel content chunks :
  (length content < fuel)%nat → (Z.of_nat (length chunks) ≤ max)%Z →
  read_loop max fuel content chunks =
    if Z.leb (Z.of_nat (length chunks + length content)) max then Ok (chunks ++ content)
    else Raise (ApplicationError FileTooLargeError).
Proof.
  revert content chunks. induction fuel as [|fuel IH]; intros content chunks Hf Hc; [lia|].
  cbn [read_loop]. set (n := Z.min READ_SIZE _).
  assert (Hn : (0 < n)%Z) by (unfold n, READ_SIZE; lia).
  pose proof (read_split n content) as Hs. pose proof (read_progress n content Hn) as Hp.
  destruct (upload_read n content) as [chunk rest]. simpl in *. subst content.
  rewrite length_app in *. destruct chunk as [|b chunk]; simpl in *.
  - rewrite (Hp eq_refl), app_nil_r. simpl. by rewrite (proj2 (Z.leb_le _ _)) by lia.
  - destruct (Z.ltb_spec max (Z.of_nat (length chunks + Datatypes.S (length chunk)))).
    + by rewrite (proj2 (Z.leb_gt _ _)) by lia.
    + rewrite IH by (rewrite ?length_app; simpl; lia). rewrite length_app, <- app_assoc. simpl.
      by replace (length chunks + Datatypes.S (length chunk) + length rest)%nat
        with (length chunks + Datatypes.S (length chunk + length rest))%nat by lia.
Qed.

(** Reading is exact: the whole content when it fits, an error when it does not. *)
Lemma read_bounded_spec upload :
  _read_bounded max upload =
    if Z.leb (Z.of_nat (length (UploadFile.content upload))) max
    then Ok (UploadFile.content upload) else Raise (ApplicationError FileTooLargeError).
Proof. unfold _read_bounded. rewrite read_loop_spec by (simpl; lia). done. Qed.
End reading.

(** ** The outcome of an upload *)

Section outcome.
Context {S : Type} `{!Session knowledge S} `{!SessionLaws knowledge S}.
Context {sha : Sha256} {conv : Conversions} {udb : UnicodeDB}.
Context {R : UploadRead} {RL : UploadReadLaws R} {json : MetadataJson}.
Context (archive_names : bytes → res (list pystr)) (parsers : list parser) (max : Z).
Context (Hmax : (0 ≤ max)%Z).

(** An exception that is no application error and comes from JSON or the ZIP archive. *)
Definition foreign_failure (upload : UploadFile.t) (metadata_json : option pystr) (e : exn) : Prop :=
  (∃ text, metadata_json = Some text ∧ json_loads text = Raise e) ∨
  archive_names (UploadFile.content upload) = Raise e ∨
  (∃ metadata, json_size metadata = Raise e ∧ is_value_or_type_error e = false).

Lemma select_spec filename mime data :
  match select archive_names parsers filename mime data with
  | Ok p => data ≠ [] ∧ p ∈ parsers ∧
      FORMAT_BY_EXTENSION (casefold (path_suffix filename)) = Some (pa_format p) ∧
      casefold (str_strip (before_first 59 (default [] mime))) ∈
        MIME_TYPES (casefold (path_suffix filename)) ∧
      signature_ok archive_names (pa_format p) data = Ok true
  | Raise e => e = ApplicationError EmptyFileError ∨ e = ApplicationError UnsupportedFileTypeError ∨
      archive_names data = Raise e
  end.
Proof.
  unfold select. destruct data as [|b data]; [by left|]. cbn [truthy negb].
  set (extension := casefold (path_suffix filename)).
  destruct (FORMAT_BY_EXTENSION extension) as [format|] eqn:Hf; [|by right; left].
  destruct (mem _ (MIME_TYPES extension)) eqn:Hm; [|by right; left].
  apply mem_spec in Hm. destruct (signature_ok archive_names format (b :: data)) as [ok|e] eqn:Hs.
  - simpl. destruct ok; [|by right; left]. unfold find_parser.
    destruct (last _) as [p|] eqn:Hl; [|by right; left].
    apply last_Some_elem_of, list_elem_of_filter in Hl as [Hp Hin].
    apply bool_decide_eq_true in Hp. by rewrite Hp.
  - simpl. right. right. unfold signature_ok in Hs. destruct format; try done.
    unfold _is_docx_package in Hs. destruct (negb _); [done|].
    destruct (archive_names (b :: data)) as [names|e']; [done|].
    destruct e'; simplify_eq; try done. by case_match; simplify_eq.
Qed.

Lemma parse_upload_spec p data filename content_type :
  match parse_upload p data filename content_type with
  | Ok parsed => ∃ mime, pa_parse p data filename mime = Ok parsed
  | Raise e => ∃ a, e = ApplicationError a
  end.
Proof.
  unfold parse_upload. destruct (pa_parse _ _ _ _) as [parsed|e] eqn:H; [by eexists|].
  destruct e; by eexists.
Qed.

Lemma parse_upload_metadata_spec metadata_json e :
  parse_upload_metadata metadata_json = Raise e →
  (∃ a, e = ApplicationError a) ∨
  ∃ text, metadata_json = Some text ∧ json_loads text = Raise e.
Proof.
  unfold parse_upload_metadata. destruct metadata_json as [text|]; [|done].
  destruct (negb _); [done|]. destruct (Z.ltb _ _); [intros [= <-]; left; by eexists|].
  destruct (json_loads text) as [v|e'] eqn:Hj.
  - destruct v; intros [= <-]; left; by eexists.
  - destruct e'; try (intros [= <-]; right; by eexists); try (intros [= <-]; left; by eexists).
    case_decide; intros [= <-]; [left|right]; by eexists.
Qed.

(** The request made of a parsed document: its text, under the title given or read. *)
Record request_of (parsed : ParsedDocument.t) (user_metadata : pydict)
    (request : KnowledgeDocumentCreate.t) : Prop := {
  rq_content : KnowledgeDocumentCreate.content request = str_strip (ParsedDocument.text parsed);
  rq_valid : KnowledgeDocumentCreate.valid request = true;
  rq_metadata : KnowledgeDocumentCreate.metadata request =
    [(lit "file", PDict (provenance parsed)); (lit "parser", PDict (ParsedDocument.metadata parsed));
     (lit "user", PDict user_metadata); (lit "content_trust", PStr (lit "untrusted_evidence"))];
  rq_size : ∃ n, json_size (KnowledgeDocumentCreate.metadata request) = Ok n ∧
    (n ≤ MAX_METADATA_BYTES)%Z
}.

Lemma build_request_spec parsed title source_type user_metadata :
  match _build_request parsed title source_type user_metadata with
  | Ok request => request_of parsed user_metadata request
  | Raise e => (∃ a, e = ApplicationError a) ∨
      ∃ metadata, json_size metadata = Raise e ∧ is_value_or_type_error e = false
  end.
Proof.
  unfold _build_request. destruct (_ || _); [left; by eexists|].
  unfold document_create, validate_metadata_size. simpl. set (metadata := [_; _; _; _]).
  destruct (json_size metadata) as [n|e] eqn:Hj; simpl.
  - destruct (Z.leb_spec n MAX_METADATA_BYTES); simpl; [|left; by eexists].
    destruct (KnowledgeDocumentCreate.valid _) eqn:Hv; [|left; by eexists].
    split; simpl; [done|done|done|by eexists].
  - destruct (is_value_or_type_error e) eqn:He; simpl; [left; by eexists|].
    destruct e; try done; by right; exists metadata.
Qed.

(** What an accepted upload is. *)
Record accepted (upload : UploadFile.t) (metadata_json : option pystr) (p : prepared) : Prop := {
  ac_filename : safe_filename (pr_filename p);
  ac_size : (0 < Z.of_nat (length (UploadFile.content upload)) ≤ max)%Z;
  ac_parser : ∃ parser mime, parser ∈ parsers ∧
    FORMAT_BY_EXTENSION (casefold (path_suffix (pr_filename p))) = Some (pa_format parser) ∧
    casefold (str_strip (before_first 59 (default [] (UploadFile.content_type upload)))) ∈
      MIME_TYPES (casefold (path_suffix (pr_filename p))) ∧
    signature_ok archive_names (pa_format parser) (UploadFile.content upload) = Ok true ∧
    pa_parse parser (UploadFile.content upload) (pr_filename p) mime = Ok (pr_parsed p);
  ac_request : ∃ user_metadata, parse_upload_metadata metadata_json = Ok user_metadata ∧
    request_of (pr_parsed p) user_metadata (pr_request p)
}.

(** an upload is refused or fully checked before the database is touched: it is accepted
    only with a bare, bounded file name, content that is not empty and within the limit,
    an extension, a declared type and a signature that agree on one allowed format, and a
    request for the text of that format's parser, valid, its metadata bounded and marked as
    untrusted; whatever the parser raises becomes an application error, so that every
    refusal is one, except for what the JSON and ZIP readers raise beyond the errors
    expected of them. Content over the limit is always refused. *)
Theorem upload_checked upload title source_type metadata_json :
  match prepare_upload archive_names parsers max upload title source_type metadata_json with
  | Ok p => accepted upload metadata_json p
  | Raise e => (∃ a, e = ApplicationError a) ∨ foreign_failure upload metadata_json e
  end.
Proof.
  unfold prepare_upload. destruct (sanitize_filename _) as [filename|e] eqn:Hname; simpl.
  2: { unfold sanitize_filename in Hname. repeat case_match; simplify_eq. left. by eexists. }
  rewrite read_bounded_spec by done. destruct (Z.leb_spec (Z.of_nat (length (UploadFile.content upload))) max);
    simpl; [|left; by eexists].
  pose proof (select_spec filename (UploadFile.content_type upload) (UploadFile.content upload)) as Hsel.
  destruct (select _ _ _ _ _) as [p|e]; simpl.
  2: { destruct Hsel as [->|[->|?]]; [left; by eexists..|right; by right; left]. }
  destruct Hsel as (Hne & Hin & Hf & Hm & Hsig).
  pose proof (parse_upload_spec p (UploadFile.content upload) filename
    (UploadFile.content_type upload)) as Hparse.
  destruct (parse_upload _ _ _ _) as [parsed|e]; simpl; [|by left]. destruct Hparse as [mime Hparse].
  destruct (parse_upload_metadata metadata_json) as [user|e] eqn:Hmeta; simpl.
  2: { destruct (parse_upload_metadata_spec _ _ Hmeta) as [?|?]; [by left|right; by left]. }
  pose proof (build_request_spec parsed title source_type user) as Hreq.
  destruct (_build_request _ _ _ _) as [request|e]; simpl.
  - split; simpl; [by eapply sanitize_filename_safe| |by exists p, mime|by exists user].
    split; [|done]. destruct (UploadFile.content upload); [done|simpl; lia].
  - destruct Hreq as [?|?]; [by left|right; by do 2 right].
Qed.

(** *** The database *)

Context (svc : ingestion S) (E : exn → Prop).
Context (Hsql : ∀ e, is_sql e → E e) (Hvalue : E ValueError) (Htype : E TypeError)
  (Happ : ∀ a, E (ApplicationError a)) (Hparse : ∀ v e, parse_int v = Raise e → E e).
Context (Hembed : ∀ texts, safe keeps E (in_embed_texts svc texts) (λ _, True)).
Context (graph : option (extractors S)) (Hgraph : ∀ ext, graph = Some ext → extractors_ok ext E).

(** The enrichment that follows starts from [db] and leaves [db']. *)
Definition enriched (requested : bool) (d : uuid) (db db' : knowledge)
    (outcome : GraphEnrichmentStatus.t * option pystr) : Prop :=
  if requested then
    match graph with
    | None => outcome = (GraphEnrichmentStatus.DISABLED, Some (lit "knowledge_graph_disabled")) ∧
        db' = db
    | Some _ =>
        (outcome = (GraphEnrichmentStatus.COMPLETED, None) ∧ ∃ es rs, progress d db es rs db') ∨
        (∃ e, outcome = (GraphEnrichmentStatus.FAILED,
           Some match e with ApplicationError a => error_code a
                           | _ => lit "graph_enrichment_failed" end) ∧
           untouched_or_unknown d e db db')
    end
  else outcome = (GraphEnrichmentStatus.NOT_REQUESTED, None) ∧ db' = db.

Lemma enrich_graph_wp requested d s :
  knowledge_ok (durable s) → view s = durable s →
  wp (_enrich_graph (enrich <$> graph) d requested) (λ s' r,
    ∃ outcome, r = Ok outcome ∧ enriched requested d (durable s) (durable s') outcome) s.
Proof.
  intros Hok Hs. unfold _enrich_graph, enriched. destruct requested; [|apply wp_ret; by eexists].
  destruct graph as [ext|]; simpl; [|apply wp_ret; by eexists].
  apply wp_try, wp_bind. eapply wp_mono.
  { apply (enrich_spec ext E d s); [done..|by apply Hgraph|done|done]. }
  intros s1 [out|e].
  - intros (_ & _ & es & rs & Hp & _). apply wp_ret. eexists. split; [done|]. left.
    split; [done|]. by eexists _, _.
  - intros (_ & _ & _ & Hu). destruct e; apply wp_ret; (eexists; split; [done|]; right;
      by (eexists; split; [|exact Hu])).
Qed.

Lemma ingest_outcome_ok request segments deduplicate db db' out :
  knowledge_ok db → ingest_outcome svc request segments deduplicate db db' out → knowledge_ok db'.
Proof. by intros Hok [(_ & -> & _)|[_ H]]; [|apply H]. Qed.

(** The report of an upload: what was accepted and what is stored. *)
Definition report (p : prepared) (result : KnowledgeIngestionResult.t)
    (outcome : GraphEnrichmentStatus.t * option pystr) : FileIngestionResult.t :=
  FileIngestionResult.mk (KnowledgeIngestionResult.document result) (pr_filename p)
    (ParsedDocument.mime_type (pr_parsed p)) (ParsedDocument.parser_name (pr_parsed p))
    (ParsedDocument.extraction_method (pr_parsed p))
    (Z.of_nat (length (KnowledgeDocumentRecord.content (KnowledgeIngestionResult.document result))))
    (KnowledgeIngestionResult.chunk_count result) (KnowledgeIngestionResult.duplicate result)
    outcome.1 outcome.2.

(** an upload is stored with its chunks or not at all, and the graph cannot undo it: a
    refused upload leaves the tables alone; an accepted one is ingested exactly as the
    transaction for its text promises, an exception leaving the tables as before unless
    the commit itself failed; and once it is ingested the upload always reports it, the
    enrichment that may follow only adding to the stored document what enrichment adds, or
    nothing, its failure reported under a stable code. *)
Theorem upload_stored upload title source_type metadata_json requested s :
  knowledge_ok (durable s) → view s = durable s →
  wp (ingest_upload archive_names parsers svc (enrich <$> graph) max upload title source_type
        metadata_json requested) (λ s' r,
    match prepare_upload archive_names parsers max upload title source_type metadata_json with
    | Raise e => r = Raise e ∧ durable s' = durable s
    | Ok p =>
        let outcome_of := ingest_outcome svc (pr_request p)
          (source_segment <$> ParsedDocument.segments (pr_parsed p)) true (durable s) in
        match r with
        | Ok out => ∃ db result outcome,
            outcome_of db result ∧ out = report p result outcome ∧
            enriched requested
              (KnowledgeDocumentRecord.document_id (KnowledgeIngestionResult.document result))
              db (durable s') outcome
        | Raise e => E e ∧ (durable s' = durable s ∨
            store_unknown e ∧ ∃ result, outcome_of (durable s') result)
        end
    end) s.
Proof.
  intros Hok Hs. unfold ingest_upload. apply wp_bind. unfold wp at 1, of_res. simpl.
  destruct (prepare_upload _ _ _ _ _ _ _) as [p|e]; [|done].
  apply wp_bind. eapply wp_mono.
  { apply (ingest_spec svc E Hsql Hvalue Htype Happ Hparse Hembed (pr_request p)
      (source_segment <$> ParsedDocument.segments (pr_parsed p)) true s Hs). }
  intros s1 [result|e]; [|done]. intros [Hv Hout]. apply wp_bind.
  eapply wp_mono; [by apply enrich_graph_wp; [eapply ingest_outcome_ok|]|].
  intros s2 r (outcome & -> & Hen). apply wp_ret. by exists (durable s1), result, outcome.
Qed.
End outcome.

(** ** A small upload *)

Section demo.
#[local] Instance leading_characters : Sha256 := take 64.
#[local] Instance unused_conversions : Conversions := {|
  parse_int _ := Raise ValueError; display _ := []
|}.
(** A file read in full requests, and metadata that are an empty object. *)
#[local] Instance read_exact : UploadRead := λ n data, (take (Z.to_nat n) data, drop (Z.to_nat n) data).
#[local] Instance read_exact_laws : UploadReadLaws read_exact.
Proof.
  split; unfold upload_read, read_exact; simpl.
  - intros n data. apply take_drop.
  - intros n data Hn. rewrite length_take. lia.
  - intros n data Hn H%(f_equal length). rewrite length_take in H. simpl in H.
    destruct data; [done|]. simpl in H. lia.
Qed.
#[local] Instance small_metadata : MetadataJson := {|
  json_loads text := if decide (text = lit "{}") then Ok (PDict [])
                     else Raise (OtherException "JSONDecodeError");
  json_size _ := Ok 200%Z
|}.

Definition demo_parsers : list parser := [TextDocumentParser; MarkdownDocumentParser].
Definition no_archive (data : bytes) : res (list pystr) := Raise (OtherException "BadZipFile").
Definition demo_upload : UploadFile.t :=
  UploadFile.mk (Some (lit "C:\uploads\guide.txt")) (Some (lit "text/plain; charset=utf-8"))
    (lit "Claims are paid weekly.").
Definition demo_service : ingestion (memory knowledge) :=
  Ingestion (λ texts, ret ((λ _, demo_vector) <$> texts)) 24 4.

Definition demo_run (requested : bool) :=
  ingest_upload (udb := ascii_db) no_archive demo_parsers demo_service
    (enrich (udb := ascii_db) <$> Some (demo_extractors (memory knowledge))) 100 demo_upload None
    None (Some (lit "{}")) requested (open_session demo_knowledge).

Example demo_upload_runs :
  match demo_run true with
  | (s, Ok out) =>
      (FileIngestionResult.filename out, FileIngestionResult.chunk_count out,
       GraphEnrichmentStatus.value (FileIngestionResult.graph_enrichment_status out),
       size (KnowledgeTables.documents (durable s)))
      = (lit "guide.txt", 1%Z, lit "completed", 2%nat)
  | _ => False
  end.
Proof. vm_compute. reflexivity. Qed.

(** One byte over the limit. *)
Example demo_upload_too_large :
  prepare_upload (udb := ascii_db) no_archive demo_parsers 22 demo_upload None None None
  = Raise (ApplicationError FileTooLargeError).
Proof. vm_compute. reflexivity. Qed.

Lemma upload_checked_witness :
  ∃ p, prepare_upload (udb := ascii_db) no_archive demo_parsers 100 demo_upload None None
         (Some (lit "{}")) = Ok p ∧ accepted (udb := ascii_db) no_archive demo_parsers 100
         demo_upload (Some (lit "{}")) p.
Proof.
  pose proof (upload_checked (udb := ascii_db) no_archive demo_parsers 100 ltac:(done) demo_upload
    None None (Some (lit "{}"))) as H.
  destruct (prepare_upload _ _ _ _ _ _ _) as [p|e] eqn:Hp.
  - exists p. split; [reflexivity|exact H].
  - vm_compute in Hp. discriminate.
Defined.

Lemma upload_stored_witness :
  ∃ s out, demo_run true = (s, Ok out) ∧ ∃ d outcome db, enriched
    (Some (demo_extractors (memory knowledge))) true d db (durable s) outcome.
Proof.
  pose proof (upload_stored (udb := ascii_db) no_archive demo_parsers 100 demo_service
    (λ _, True) (λ _ _, I) I I (λ _, I) (λ _ _ _, I)
    (λ texts, safe_ret keeps (λ _, True) _ (λ _, True) I)
    (Some (demo_extractors (memory knowledge)))) as H.
  assert (Hg : ∀ ext, Some (demo_extractors (memory knowledge)) = Some ext →
    extractors_ok ext (λ _, True)).
  { intros ext [= <-]. split; intros; (apply safe_ret; [apply keeps_preorder|done]). }
  specialize (H Hg demo_upload None None (Some (lit "{}")) true (open_session demo_knowledge)
    demo_knowledge_ok eq_refl). unfold wp in H. fold (demo_run true) in H.
  destruct (demo_run true) as [s [out|e]] eqn:Hrun; [|vm_compute in Hrun; discriminate].
  exists s, out. split; [reflexivity|].
  destruct (prepare_upload _ _ _ _ _ _ _) as [p|e]; [|by destruct H].
  destruct H as (db & result & outcome & _ & _ & Hen).
  eexists _, outcome, db. exact Hen.
Defined.
End demo.
