(* ===== verification/PolicyConnector.v ===== *)
(** app/connectors/policy_repository.py: one bounded pull from the policy repository, each
    document handed to the ingestion transaction.

    Arguments: the HTTP client, the reader of the JSON page (pydantic's, of the models here),
    the text of a time, and the host of the configured address. *)
From S2P Require Import Prelude Errors Chunking Domain Unicode PyText Session Storage KnowledgeStore.
From S2P Require Import Governance MemorySession KnowledgeRepositories KnowledgeDemo KnowledgeEnrichment.
From S2P Require Import Ingestion Utf8 FileIngestion.

Module PolicyDocument.
Record t := mk {
  external_id : pystr;
  title : pystr;
  content : pystr;
  source_uri : option pystr;
  updated_at : option datetime;
  metadata : pydict
}.
(** The constraints pydantic enforces, after stripping. *)
Definition valid (r : t) : bool :=
  len_in 1 300 (external_id r) && len_in 1 300 (title r) && len_in 1 1000000 (content r) &&
  opt_all (len_le 2000) (source_uri r).
End PolicyDocument.

Module PolicyRepositorySyncResult.
Record t := mk {
  fetched : Z;
  ingested : Z;
  duplicates : Z;
  graph_enriched : Z;
  graph_failed : Z;
  document_ids : list uuid
}.
End PolicyRepositorySyncResult.

(** The chunks of a response body, each read or failed. *)
Abbreviation byte_stream := (list (res bytes)).

Section connector.
Context {S : Type} `{!Session knowledge S} {sha : Sha256} {conv : Conversions} {json : MetadataJson}.
Context (svc : ingestion S) (graph : option (uuid → M S KnowledgeGraphEnrichmentResult.t)).

(** The client: a request with its limit gives a stream or fails, [raise_for_status]
    included. *)
Context (get : Z → M S byte_stream) (validate_page : bytes → res (list PolicyDocument.t)).
Context (isoformat : datetime → pystr) (repository_host : option pystr).
Context (max_documents max_response_bytes : Z).

(** The loop over the chunks. *)
Fixpoint receive (received : Z) (chunks : bytes) (stream : byte_stream) : res bytes :=
  match stream with
  | [] => Ok chunks
  | next :: rest =>
      res_bind next (λ chunk,
      let received := (received + Z.of_nat (length chunk))%Z in
      if Z.ltb max_response_bytes received
      then Raise (ApplicationError InvalidConnectorResponseError)
      else receive received (chunks ++ chunk) rest)
  end.

(** [except httpx.HTTPError]. *)
Definition fetch : M S bytes :=
  try_except (let* stream := get max_documents in of_res (receive 0 [] stream))
    (λ e, match e with
          | OtherException name =>
              if decide (name = lit "HTTPError") then app_raise ConnectorUnavailableError
              else raise e
          | _ => raise e
          end).

(** Reading the page; [ValidationError] and the decoding errors are [ValueError]s. *)
Definition read_page (body : bytes) : res (list PolicyDocument.t) :=
  match validate_page body with
  | Ok documents =>
      if Z.ltb max_documents (Z.of_nat (length documents))
      then Raise (ApplicationError InvalidConnectorResponseError)
      else Ok documents
  | Raise ValueError | Raise ValidationError =>
      Raise (ApplicationError InvalidConnectorResponseError)
  | Raise (OtherException name) =>
      if mem name [lit "JSONDecodeError"; lit "UnicodeDecodeError"]
      then Raise (ApplicationError InvalidConnectorResponseError)
      else Raise (OtherException name)
  | Raise e => Raise e
  end.

Definition ingestion_request (document : PolicyDocument.t) : res KnowledgeDocumentCreate.t :=
  match document_create
    (KnowledgeDocumentCreate.mk (PolicyDocument.title document) KnowledgeSourceType.POLICY
       (PolicyDocument.source_uri document) (Some (PolicyDocument.external_id document))
       (PolicyDocument.content document)
       [(lit "connector", PDict
           [(lit "type", PStr (lit "policy_repository"));
            (lit "repository_host", opt_value PStr repository_host);
            (lit "external_updated_at",
               opt_value PStr (isoformat <$> PolicyDocument.updated_at document))]);
        (lit "upstream", PDict (PolicyDocument.metadata document));
        (lit "content_trust", PStr (lit "untrusted_evidence"))])
  with
  | Raise ValidationError => Raise (ApplicationError InvalidConnectorResponseError)
  | r => r
  end.

(** The local variables of [sync]. *)
Record tally := Tally {
  ta_document_ids : list uuid;
  ta_duplicates : Z;
  ta_graph_enriched : Z;
  ta_graph_failed : Z
}.

Definition sync_document (enrich_graph : bool) (acc : tally) (document : PolicyDocument.t) :
    M S tally :=
  let* request := of_res (ingestion_request document) in
  let* result := ingest svc request true [] in
  let id := KnowledgeDocumentRecord.document_id (KnowledgeIngestionResult.document result) in
  let duplicate := KnowledgeIngestionResult.duplicate result in
  let acc := Tally (ta_document_ids acc ++ [id])
    (ta_duplicates acc + (if duplicate then 1 else 0)) (ta_graph_enriched acc) (ta_graph_failed acc) in
  match graph with
  | Some enrich =>
      if enrich_graph && negb duplicate then
        try_except
          (let* _ := enrich id in
           ret (Tally (ta_document_ids acc) (ta_duplicates acc) (ta_graph_enriched acc + 1)
                  (ta_graph_failed acc)))
          (λ _, ret (Tally (ta_document_ids acc) (ta_duplicates acc) (ta_graph_enriched acc)
                       (ta_graph_failed acc + 1)))
      else ret acc
  | None => ret acc
  end.

Fixpoint sync_documents (enrich_graph : bool) (acc : tally) (documents : list PolicyDocument.t) :
    M S tally :=
  match documents with
  | [] => ret acc
  | document :: rest =>
      let* acc := sync_document enrich_graph acc document in
      sync_documents enrich_graph acc rest
  end.

Definition sync (enrich_graph : bool) : M S PolicyRepositorySyncResult.t :=
  let* body := fetch in
  let* documents := of_res (read_page body) in
  let* acc := sync_documents enrich_graph (Tally [] 0 0 0) documents in
  ret (PolicyRepositorySyncResult.mk (Z.of_nat (length documents))
         (Z.of_nat (length documents) - ta_duplicates acc) (ta_duplicates acc)
         (ta_graph_enriched acc) (ta_graph_failed acc) (ta_document_ids acc)).
End connector.

(** ** Enrichment that leaves the session clean *)

(** The exceptions [enrich] answers with a rollback. *)
Definition handled (e : exn) : Prop :=
  match e with
  | ApplicationError _ | SQLAlchemyError _ | ValueError | ValidationError => True
  | _ => False
  end.

Lemma sql_handled e : is_sql e → handled e.
Proof. by intros [q ->]. Qed.

Section clean.
Context {S : Type} `{!Session knowledge S} `{!SessionLaws knowledge S} {udb : UnicodeDB}.
Context (Hrollback : ∀ s : S, wp (sess_rollback (S := S)) (λ _ r, r = Ok tt) s).

Lemma rollback_clean {A} (e : exn) (s : S) :
  wp (KnowledgeGraph.rollback ;;; raise (A := A) e) (λ s' r, view s' = durable s' ∧
    durable s' = durable s) s.
Proof.
  apply wp_bind. pose proof (Hrollback s) as Hr. pose proof (rollback_law s) as Hl.
  unfold wp in *. unfold KnowledgeGraph.rollback. destruct (sess_rollback s) as [s' r].
  simpl in *. subst r. destruct Hl as [Hd Hv]. simpl. split; congruence.
Qed.

Lemma enrich_clean (ext : extractors S) d (s : S) :
  extractors_ok ext handled → knowledge_ok (durable s) → view s = durable s →
  wp (enrich ext d) (λ s' r, ∀ e, r = Raise e → view s' = durable s') s.
Proof.
  intros Hext Hok Hv. unfold enrich. apply wp_bind, wp_try. eapply wp_mono.
  { by apply (commits_enrich_document ext handled sql_handled I (λ _, I) Hext d (durable s)). }
  intros s1 [acc|e]; [by intros _; apply wp_ret|]. intros H.
  assert (handled e) as He by (destruct H as [[? _]|[? _]]; [done|by apply sql_handled]).
  destruct e as [a|q| | | | | | | | | |]; try done;
    (eapply wp_mono; [apply rollback_clean|]; by intros s' [] [? _]).
Qed.
End clean.

(** ** What a pull promises *)

Section outcome.
Context {S : Type} `{!Session knowledge S} `{!SessionLaws knowledge S}.
Context {sha : Sha256} {conv : Conversions} {json : MetadataJson} {udb : UnicodeDB}.
Context (svc : ingestion S) (graph : option (extractors S)).
Context (get : Z → M S byte_stream) (validate_page : bytes → res (list PolicyDocument.t)).
Context (isoformat : datetime → pystr) (repository_host : option pystr).
Context (max_documents max_response_bytes : Z).
Context (E : exn → Prop).
Context (Hsql : ∀ e, is_sql e → E e) (Hvalue : E ValueError) (Htype : E TypeError)
  (Happ : ∀ a, E (ApplicationError a)) (Hparse : ∀ v e, parse_int v = Raise e → E e).
Context (Hembed : ∀ texts, safe keeps E (in_embed_texts svc texts) (λ _, True)).
Context (Hget : ∀ n, safe keeps E (get n) (Forall (λ r, ∀ e, r = Raise e → E e))).
Context (Hpage : ∀ body e, validate_page body = Raise e → E e).
Context (Hjson : ∀ m e, json_size m = Raise e → E e).
Abbreviation request_of := (ingestion_request isoformat repository_host).

(** Documents [docs], ingested in order from [db] to [db']: [dups] of them stored before, and
    of the others [won] enriched and [lost] not. *)
Inductive synced (enrich_graph : bool) (db : knowledge) :
    list PolicyDocument.t → list uuid → Z → Z → Z → knowledge → Prop :=
  | synced_nil : synced enrich_graph db [] [] 0 0 0 db
  | synced_snoc docs ids dups won lost db1 doc request result db2 db3 won' lost' :
      synced enrich_graph db docs ids dups won lost db1 →
      request_of doc = Ok request →
      ingest_outcome svc request [] true db1 db2 result →
      (let d := KnowledgeDocumentRecord.document_id (KnowledgeIngestionResult.document result) in
       if enrich_graph && negb (KnowledgeIngestionResult.duplicate result) &&
          bool_decide (is_Some graph)
       then (won' = (won + 1)%Z ∧ lost' = lost ∧ ∃ es rs, progress d db2 es rs db3) ∨
            (won' = won ∧ lost' = (lost + 1)%Z ∧ ∃ e, untouched_or_unknown d e db2 db3)
       else won' = won ∧ lost' = lost ∧ db3 = db2) →
      synced enrich_graph db (docs ++ [doc])
        (ids ++ [KnowledgeDocumentRecord.document_id (KnowledgeIngestionResult.document result)])
        (dups + if KnowledgeIngestionResult.duplicate result then 1 else 0) won' lost' db3.

Lemma synced_counts b db docs ids dups won lost db' :
  synced b db docs ids dups won lost db' →
  length ids = length docs ∧ (0 ≤ dups ≤ Z.of_nat (length docs))%Z ∧ (0 ≤ won)%Z ∧ (0 ≤ lost)%Z ∧
  (won + lost ≤ Z.of_nat (length docs) - dups)%Z.
Proof.
  induction 1 as [|docs ids dups won lost db1 doc request result db2 db3 won' lost' _ IH _ _ H];
    [simpl; lia|].
  destruct IH as (Hl & Hd & Hw & Hf & Hs). rewrite !length_app. simpl. cbn zeta in H.
  destruct (KnowledgeIngestionResult.duplicate result);
    rewrite ?andb_false_r in H; simpl in H.
  - destruct H as (-> & -> & _). split_and!; lia.
  - destruct (_ && _); [destruct H as [(-> & -> & _)|(-> & -> & _)]|destruct H as (-> & -> & _)];
      split_and!; lia.
Qed.

(** The exceptions of the parts before the first document. *)
Lemma receive_raises n chunks stream e :
  Forall (λ r, ∀ e, r = Raise e → E e) stream →
  receive max_response_bytes n chunks stream = Raise e → E e.
Proof.
  intros Hs. revert n chunks. induction Hs as [|r stream Hr _ IH]; intros n chunks; [done|].
  cbn [receive]. destruct r as [chunk|e']; simpl; [|intros [= <-]; by apply Hr].
  destruct (Z.ltb _ _); [intros [= <-]; apply Happ|apply IH].
Qed.

Lemma fetch_safe : safe keeps E (fetch get max_documents max_response_bytes) (λ _, True).
Proof.
  unfold fetch. eapply safe_try; [apply keeps_preorder| |].
  - eapply safe_bind; [apply keeps_preorder|apply Hget|]. intros stream Hs.
    apply safe_of_res; [apply keeps_preorder|].
    destruct (receive _ _ _ _) eqn:Hr; [done|]. by eapply receive_raises.
  - intros e He. destruct e; try (apply safe_raise; [apply keeps_preorder|done]).
    case_decide; (apply safe_raise; [apply keeps_preorder|]); auto.
Qed.

Context (Hgraph : ∀ ext, graph = Some ext → extractors_ok ext handled).
Context (Hrollback : ∀ s : S, wp (sess_rollback (S := S)) (λ _ r, r = Ok tt) s).

Lemma sync_document_wp b db docs ids dups won lost doc s :
  knowledge_ok (durable s) → view s = durable s →
  synced b db docs ids dups won lost (durable s) →
  wp (sync_document svc (enrich <$> graph) isoformat repository_host b
        (Tally ids dups won lost) doc) (λ s' r,
    match r with
    | Ok acc => view s' = durable s' ∧ knowledge_ok (durable s') ∧
        synced b db (docs ++ [doc]) (ta_document_ids acc) (ta_duplicates acc)
          (ta_graph_enriched acc) (ta_graph_failed acc) (durable s')
    | Raise e => E e ∧ (durable s' = durable s ∨ store_unknown e ∧
        ∃ request result, request_of doc = Ok request ∧
          ingest_outcome svc request [] true (durable s) (durable s') result)
    end) s.
Proof.
  intros Hok Hs Hsync. unfold sync_document. apply wp_bind. unfold wp at 1, of_res. simpl.
  destruct (request_of doc) as [request|e] eqn:Hreq.
  2: { split; [|by left]. unfold ingestion_request, document_create, validate_metadata_size in Hreq.
    simpl in Hreq. destruct (json_size _) as [n|e'] eqn:Hj in Hreq; simpl in Hreq.
    - destruct (_ && _); [done|]. injection Hreq as <-. apply Happ.
    - destruct (is_value_or_type_error e'); simpl in Hreq; [injection Hreq as <-; apply Happ|].
      destruct e'; injection Hreq as <-; eauto. }
  apply wp_bind. eapply wp_mono.
  { apply (ingest_spec svc E Hsql Hvalue Htype Happ Hparse Hembed request [] true s Hs). }
  intros s1 [result|e].
  2: { intros [He H]. split; [done|]. destruct H as [?|(Hu & out & H)]; [by left|right].
    split; [done|]. by exists request, out. }
  intros [Hv1 Hout].
  assert (knowledge_ok (durable s1)) as Hok1 by (eapply ingest_outcome_ok; [|exact Hout]; done).
  set (d := KnowledgeDocumentRecord.document_id _). set (dup := KnowledgeIngestionResult.duplicate _).
  assert (Hplain : b && negb dup && bool_decide (is_Some graph) = false →
    synced b db (docs ++ [doc]) (ids ++ [d]) (dups + (if dup then 1 else 0)) won lost (durable s1)).
  { intros Hno. eapply synced_snoc; [exact Hsync|exact Hreq|exact Hout|]. cbn zeta.
    fold dup. by rewrite Hno. }
  destruct graph as [ext|] eqn:Hg; simpl.
  2: { apply wp_ret. simpl. split_and!; [done..|]. apply Hplain. by rewrite andb_false_r. }
  destruct (b && negb dup) eqn:Hb; [|apply wp_ret; simpl; split_and!; [done..|by apply Hplain]].
  clear Hplain. apply wp_try, wp_bind.
  pose proof (enrich_spec ext handled d s1 sql_handled I (λ _, I)
    (Hgraph ext eq_refl) Hok1 Hv1) as H1.
  pose proof (enrich_clean Hrollback ext d s1 (Hgraph ext eq_refl) Hok1 Hv1) as H2.
  unfold wp in *. destruct (enrich ext d s1) as [s2 [out|e]]; simpl in *.
  - destruct H1 as (Hv2 & _ & es & rs & Hp & _). split; [done|]. split; [apply Hp|].
    eapply synced_snoc; [exact Hsync|exact Hreq|exact Hout|]. cbn zeta. fold d dup. rewrite Hb, Hg. simpl.
    left. split; [done|]. split; [done|]. by eexists _, _.
  - destruct H1 as (_ & _ & _ & Hu). split; [by apply (H2 e)|]. split.
    { destruct Hu as [->|(_ & es & rs & Hp)]; [done|apply Hp]. }
    eapply synced_snoc; [exact Hsync|exact Hreq|exact Hout|]. cbn zeta. fold d dup. rewrite Hb, Hg. simpl.
    right. split; [done|]. split; [done|]. by exists e.
Qed.

(** The state between two documents of a pull that started from [db]. *)
Definition pulled b db done acc s : Prop :=
  view s = durable s ∧ knowledge_ok (durable s) ∧
  synced b db done (ta_document_ids acc) (ta_duplicates acc) (ta_graph_enriched acc)
    (ta_graph_failed acc) (durable s).

(** A pull that stops: a prefix [done] of [docs] was ingested, and the next document was not,
    unless it is unknown whether its commit took place. *)
Definition stopped b db docs e db' : Prop :=
  ∃ done rest ids dups won lost db1, docs = done ++ rest ∧
    synced b db done ids dups won lost db1 ∧
    (db' = db1 ∨ store_unknown e ∧ ∃ doc request result, head rest = Some doc ∧
       request_of doc = Ok request ∧ ingest_outcome svc request [] true db1 db' result).

Lemma sync_documents_wp b db done acc docs s :
  pulled b db done acc s →
  wp (sync_documents svc (enrich <$> graph) isoformat repository_host b acc docs) (λ s' r,
    match r with
    | Ok acc' => pulled b db (done ++ docs) acc' s'
    | Raise e => E e ∧ stopped b db (done ++ docs) e (durable s')
    end) s.
Proof.
  revert done acc s. induction docs as [|doc docs IH]; intros done acc s Hp; cbn [sync_documents].
  { apply wp_ret. by rewrite app_nil_r. }
  destruct Hp as (Hv & Hok & Hsync). apply wp_bind. destruct acc as [ids dups won lost].
  eapply wp_mono; [by eapply (sync_document_wp b db done)|]. intros s1 [acc1|e].
  - intros (Hv1 & Hok1 & Hsync1). specialize (IH (done ++ [doc]) acc1 s1).
    rewrite <- app_assoc in IH. by apply IH.
  - intros [He H]. split; [done|]. exists done, (doc :: docs), ids, dups, won, lost, (durable s).
    split; [done|]. split; [done|]. destruct H as [?|(Hu & request & result & Hr & Ho)]; [by left|].
    right. split; [done|]. by exists doc, request, result.
Qed.

(** a pull is bounded and stops cleanly: it takes at most the configured number of
    documents, ingests them one by one in the order of the page, each as the ingestion
    transaction promises and followed, if asked and if the document is new, by its
    enrichment, whose failure is counted and stops nothing; what it reports is exactly what
    it did; and when it fails, a prefix of the documents has been ingested and nothing else
    has changed, unless the commit of the next document failed. This assumes that the
    extractors raise only what enrichment answers with a rollback. *)
Theorem pull_bounded b s :
  knowledge_ok (durable s) → view s = durable s →
  wp (sync svc (enrich <$> graph) get validate_page isoformat repository_host max_documents
        max_response_bytes b) (λ s' r,
    match r with
    | Ok out => ∃ docs ids dups won lost,
        (∃ body, read_page validate_page max_documents body = Ok docs) ∧
        (Z.of_nat (length docs) ≤ max_documents)%Z ∧
        synced b (durable s) docs ids dups won lost (durable s') ∧
        out = PolicyRepositorySyncResult.mk (Z.of_nat (length docs))
                (Z.of_nat (length docs) - dups) dups won lost ids ∧
        length ids = length docs ∧ (0 ≤ dups)%Z ∧
        (0 ≤ won)%Z ∧ (0 ≤ lost)%Z ∧ (won + lost ≤ Z.of_nat (length docs) - dups)%Z
    | Raise e => E e ∧ ∃ docs,
        (docs = [] ∨ ∃ body, read_page validate_page max_documents body = Ok docs) ∧
        stopped b (durable s) docs e (durable s')
    end) s.
Proof.
  intros Hok Hs. assert (Hnone : ∀ e, stopped b (durable s) [] e (durable s)).
  { intros e. exists [], [], [], 0%Z, 0%Z, 0%Z, (durable s). split; [done|]. split; [constructor|by left]. }
  unfold sync. apply wp_bind. eapply wp_mono; [apply fetch_safe|].
  intros s1 [body|e]; intros [[Hv Hd] Hr].
  2: { split; [done|]. exists []. split; [by left|]. rewrite Hd. apply Hnone. }
  apply wp_bind. unfold wp at 1, of_res. simpl.
  destruct (read_page validate_page max_documents body) as [docs|e] eqn:Hpg.
  2: { split; [|exists []; split; [by left|]; rewrite Hd; apply Hnone]. unfold read_page in Hpg.
    destruct (validate_page body) as [docs|e'] eqn:Hval.
    - destruct (Z.ltb _ _); [injection Hpg as <-; apply Happ|done].
    - pose proof (Hpage body e' Hval). destruct e'; try (injection Hpg as <-; auto).
      destruct (mem _ _); injection Hpg as <-; auto. }
  assert ((Z.of_nat (length docs) ≤ max_documents)%Z) as Hlen.
  { unfold read_page in Hpg. destruct (validate_page body) as [ds|e'].
    - destruct (Z.ltb_spec max_documents (Z.of_nat (length ds))); [done|]. by injection Hpg as <-.
    - destruct e'; try done. by destruct (mem _ _). }
  apply wp_bind. eapply wp_mono.
  { apply (sync_documents_wp b (durable s) [] (Tally [] 0 0 0)). unfold pulled. simpl.
    rewrite Hv, Hd. split_and!; [done|done|constructor]. }
  intros s2 [acc|e]; simpl.
  - intros (_ & _ & Hsync). apply wp_ret. eexists docs, _, _, _, _.
    split; [by eexists|]. split; [done|]. split; [exact Hsync|]. split; [done|].
    destruct (synced_counts _ _ _ _ _ _ _ _ Hsync) as (? & ? & ? & ? & ?). split_and!; lia.
  - intros [He Hst]. split; [done|]. exists docs. split; [right; by eexists|done].
Qed.
End outcome.

(** ** Small pulls *)

Section demo.
#[local] Instance leading_characters : Sha256 := take 64.
#[local] Instance unused_conversions : Conversions := {|
  parse_int _ := Raise ValueError; display _ := []
|}.
#[local] Instance small_metadata : MetadataJson := {|
  json_loads _ := Ok (PDict []); json_size _ := Ok 200%Z
|}.
(** The in-memory session with a rollback that never fails. *)
#[local] Instance steady_session : Session knowledge (memory knowledge) := {|
  view := view; durable := durable; sess_read := @sess_read _ _ memory_session;
  sess_change := sess_change; sess_flush := sess_flush; sess_commit := sess_commit;
  sess_rollback := λ s, (with_tables s (mem_durable s) (mem_durable s), Ok tt);
  clock := clock; uuid4 := uuid4; get_request_id := get_request_id
|}.
#[local] Instance steady_laws : SessionLaws knowledge (memory knowledge).
Proof.
  split; intros; unfold wp, keeps, is_sql; simpl;
    repeat (case_match; simplify_eq/=); eauto 10; naive_solver.
Qed.

Definition demo_pull_service : ingestion (memory knowledge) :=
  Ingestion (λ texts, ret ((λ _, demo_vector) <$> texts)) 24 4.
Definition demo_policies : list PolicyDocument.t :=
  [PolicyDocument.mk "p-1" "Payments" "Claims are paid weekly." None None [];
   PolicyDocument.mk "p-2" "Audits" "Audits follow." None None []].
Definition demo_pull (ext : extractors (memory knowledge)) :=
  sync demo_pull_service (enrich (udb := ascii_db) <$> Some ext) (λ _, ret [Ok [123; 125]%Z])
    (λ _, Ok demo_policies) (λ _, []) None 10 1000 true (open_session demo_knowledge).

Example demo_pull_runs :
  match demo_pull (demo_extractors _) with
  | (s, Ok out) => (PolicyRepositorySyncResult.ingested out,
      PolicyRepositorySyncResult.graph_enriched out, size (KnowledgeTables.documents (durable s)))
      = (2%Z, 2%Z, 3%nat)
  | _ => False
  end.
Proof. vm_compute. reflexivity. Qed.

(** Extractors that find entities and then fail in a way enrichment does not answer: its
    changes stay pending in the session, and the ingestion of the next document commits
    the mentions of the first, which the pull reports as failed. *)
Definition failing_extractors : extractors (memory knowledge) :=
  Extractors (ex_entities (demo_extractors _)) (λ _ _ _, raise KeyError).
Example pull_commits_failed_enrichment :
  match demo_pull failing_extractors with
  | (s, Ok out) => (PolicyRepositorySyncResult.graph_enriched out,
      PolicyRepositorySyncResult.graph_failed out,
      size (KnowledgeTables.mentions demo_knowledge), size (KnowledgeTables.mentions (durable s)))
      = (0%Z, 2%Z, 2%nat, 4%nat)
  | _ => False
  end.
Proof. vm_compute. reflexivity. Qed.

Lemma pull_bounded_witness :
  ∃ s out, demo_pull (demo_extractors _) = (s, Ok out) ∧
    (PolicyRepositorySyncResult.fetched out ≤ 10)%Z.
Proof.
  pose proof (pull_bounded (udb := ascii_db) demo_pull_service (Some (demo_extractors (memory knowledge)))
    (λ _, ret [Ok [123; 125]%Z]) (λ _, Ok demo_policies) (λ _, []) None 10 1000
    (λ _, True) (λ _ _, I) I I (λ _, I) (λ _ _ _, I)
    (λ texts, safe_ret keeps (λ _, True) _ (λ _, True) I)) as H.
  assert (Hget : ∀ n : Z, safe (S := memory knowledge) keeps (λ _, True)
    ((λ _ : Z, ret [Ok [123; 125]%Z]) n) (Forall (λ r, ∀ e, r = Raise e → True))).
  { intros n. apply safe_ret; [apply keeps_preorder|]. by repeat constructor. }
  assert (Hg : ∀ ext, Some (demo_extractors (memory knowledge)) = Some ext →
    extractors_ok ext handled).
  { intros ext [= <-]. split; intros; (apply safe_ret; [apply keeps_preorder|done]). }
  specialize (H Hget (λ _ _ _, I) (λ _ _ _, I) Hg (λ s, eq_refl) true (open_session demo_knowledge)
    demo_knowledge_ok eq_refl). unfold wp in H. fold (demo_pull (demo_extractors _)) in H.
  destruct (demo_pull (demo_extractors _)) as [s [out|e]] eqn:Hrun; [|vm_compute in Hrun; discriminate].
  exists s, out. split; [reflexivity|].
  destruct H as (docs & ids & dups & won & lost & _ & Hlen & _ & -> & _). exact Hlen.
Defined.
End demo.
