(* ===== verification/HttpApp.v ===== *)
(** app/main.py: what surrounds every endpoint.  A request gets an identifier, an oversized
    JSON body is refused, every exception becomes an error response, and the context
    variable of the identifier is restored.

    Arguments: the endpoint behind the exception handlers (routing, the host and
    origin middleware and the dependencies included), the phrases of [HTTPStatus], and [uuid4]. *)
From S2P Require Import Prelude Errors Domain Prompts PyText Session Telemetry.

(** ** Identifiers *)

Definition id_start (c : Z) : bool :=
  (Z.leb 65 c && Z.leb c 90) || (Z.leb 97 c && Z.leb c 122) || (Z.leb 48 c && Z.leb c 57).
(** [REQUEST_ID_PATTERN.fullmatch]: a letter or digit, then letters, digits, dots,
    underscores and hyphens. *)
Definition REQUEST_ID_PATTERN (value : pystr) : bool :=
  match value with
  | [] => false
  | c :: rest => id_start c && forallb (λ c, id_start c || mem c [46; 95; 45]%Z) rest
  end.

Definition _request_id_is_valid (value : option pystr) (max_length : Z) : bool :=
  match value with
  | None => false
  | Some value => Z.leb (Z.of_nat (length value)) max_length && REQUEST_ID_PATTERN value
  end.

(** ** Content length *)

(** The digits of an integer literal, with single underscores between them. *)
Fixpoint literal_digits (after_digit : bool) (s : pystr) : option (list Z) :=
  match s with
  | [] => if after_digit then Some [] else None
  | c :: s' =>
      if Z.leb 48 c && Z.leb c 57 then cons (c - 48)%Z <$> literal_digits true s'
      else if Z.eqb c 95 && after_digit then
        match s' with
        | d :: _ => if Z.leb 48 d && Z.leb d 57 then literal_digits false s' else None
        | [] => None
        end
      else None
  end.
(** [int(text)] of a header value, whose characters are Latin-1: [None] is [ValueError], raised
    for more than 4300 digits as well. *)
Definition int_of_text (text : pystr) : option Z :=
  let text := str_strip text in
  let '(sign, rest) :=
    match text with
    | 43%Z :: rest => (1%Z, rest)
    | 45%Z :: rest => ((-1)%Z, rest)
    | _ => (1%Z, text)
    end in
  match literal_digits false rest with
  | Some digits =>
      if Nat.ltb 4300 (length digits) then None
      else Some (sign * fold_left (λ n d, n * 10 + d)%Z digits 0)%Z
  | None => None
  end.

Example int_plain : int_of_text " 1_024 " = Some 1024%Z.
Proof. reflexivity. Qed.
Example int_bad : (int_of_text "1__0", int_of_text "12a", int_of_text "") = (None, None, None).
Proof. reflexivity. Qed.

(** ** Requests and responses *)

Section app.
Context {P B S : Type}.

(** The headers the application reads, and the rest of the request. *)
Record request := Request {
  rq_x_request_id : option pystr;
  rq_content_type : option pystr;
  rq_content_length : option pystr;
  rq_rest : P
}.

(** [ErrorResponse], the body an endpoint returned, and the bodies the framework makes itself:
    the detail of its own [HTTPException], and the traceback of its debug mode. *)
Inductive body :=
  | ErrorBody (code message : pystr) (request_id : option pystr)
  | EndpointBody (b : B)
  | DetailBody (detail : pystr)
  | DebugBody (exc : exn).
Record response := Response {
  rs_status : Z;
  rs_body : body;
  rs_x_request_id : option pystr;
  rs_www_authenticate : option pystr
}.

(** What an endpoint does when it raises no other exception.  [fastapi.HTTPException] is a
    subclass of Starlette's: the application registers a handler for the former, while the
    router (no route, no such method) and the parsing of forms raise the latter. *)
Inductive outcome :=
  | Returned (status_code : Z) (b : B)
  | HTTPException (status_code : Z)
  | StarletteHTTPException (status_code : Z) (detail : pystr)
  | RequestValidationError.

(** The context variable and [request.state], over the state of the endpoints. *)
Record http := Http {
  context : option pystr;
  state_request_id : option pystr;
  state_supplied : bool;
  inner : S
}.

Context (endpoint : option pystr → request → M S outcome).
Context (phrase : Z → option pystr) (uuid4 : M S uuid).
Context (request_id_max_length max_json_request_size_kb : Z) (debug : bool).

(** An effect on the inner state; the endpoint runs in a copy of the context. *)
Definition lift {A} (m : option pystr → M S A) : M http A :=
  λ h, let '(s, r) := m (context h) (inner h) in
       (Http (context h) (state_request_id h) (state_supplied h) s, r).

Definition _safe_request_id (value : option pystr) : M http pystr :=
  match value with
  | Some v => if _request_id_is_valid value request_id_max_length then ret v
              else let* u := lift (λ _, uuid4) in ret (str_uuid u)
  | None => let* u := lift (λ _, uuid4) in ret (str_uuid u)
  end.

Definition _error_response (request_id : option pystr) (code message : pystr) (status_code : Z)
    (body_request_id : option pystr) : response :=
  Response status_code (ErrorBody code message body_request_id) request_id None.

(** *** The exception handlers *)

Definition status_codes (e : app_error) : option Z :=
  match e with
  | BaseApplicationError => None
  | AuthenticationRequiredError => Some 401
  | PermissionDeniedError => Some 403
  | ConnectorNotConfiguredError => Some 503
  | ConnectorUnavailableError => Some 503
  | InvalidConnectorResponseError => Some 502
  | AssessmentNotFoundError => Some 404
  | RuntimeStateNotFoundError => Some 404
  | InvalidReviewTransitionError => Some 409
  | RevisionLimitReachedError => Some 409
  | OpenAIClientNotConfiguredError => Some 503
  | ModelProviderNotConfiguredError => Some 503
  | LLMProviderError => Some 502
  | InvalidLLMResponseError => Some 502
  | AssessmentGenerationError => Some 502
  | DatabaseNotConfiguredError => Some 503
  | DatabaseUnavailableError => Some 503
  | PersistenceError => Some 503
  | EmbeddingNotConfiguredError => Some 503
  | EmbeddingProviderError => Some 502
  | InvalidEmbeddingError => Some 502
  | EmptyKnowledgeDocumentError => Some 422
  | KnowledgeDocumentNotFoundError => Some 404
  | KnowledgeStoreUnavailableError => Some 503
  | KnowledgePersistenceError => Some 503
  | KnowledgeGraphDisabledError => Some 503
  | KnowledgeGraphExtractionError => Some 502
  | KnowledgeGraphPersistenceError => Some 503
  | KnowledgeGraphUnavailableError => Some 503
  | UnsupportedFileTypeError => Some 415
  | FileTooLargeError => Some 413
  | EmptyFileError => Some 422
  | InvalidUploadMetadataError => Some 422
  | DocumentParseError => Some 422
  | EncryptedPDFError => Some 422
  | OCRRequiredError => Some 422
  | TextDecodeError => Some 422
  end%Z.

(** [getattr(request.state, request_id, get_request_id())]. *)
Definition current_request_id (h : http) : option pystr :=
  match state_request_id h with Some id => Some id | None => context h end.
(** The identifier shown in the body: only one the client supplied. *)
Definition supplied_request_id (h : http) : option pystr :=
  if state_supplied h then state_request_id h else None.

Definition handle_application_error (h : http) (e : app_error) : response :=
  let request_id := current_request_id h in
  let authentication := bool_decide (e = AuthenticationRequiredError) in
  let response := _error_response request_id (error_code e) (public_message e)
    (default 500%Z (status_codes e))
    (if authentication || bool_decide (e = PermissionDeniedError) then request_id
     else supplied_request_id h) in
  if authentication
  then Response (rs_status response) (rs_body response) (rs_x_request_id response)
         (Some (lit "Bearer"))
  else response.
Definition handle_request_validation_error (h : http) : response :=
  _error_response (current_request_id h) "request_validation_error"
    "The request did not satisfy the API schema." 422 (supplied_request_id h).
Definition handle_http_error (h : http) (status_code : Z) : response :=
  _error_response (current_request_id h) "http_error" (default (lit "HTTP error") (phrase status_code))
    status_code (supplied_request_id h).
Definition handle_unexpected_error (h : http) : response :=
  _error_response (current_request_id h) "internal_server_error"
    "The request could not be completed." 500 (supplied_request_id h).

(** What the framework answers by default to an [HTTPException] of its own: the status and
    the detail of the exception. *)
Definition http_exception_handler (status_code : Z) (detail : pystr) : response :=
  Response status_code (DetailBody detail) None None.

(** The handlers around the endpoint; other exceptions pass. *)
Definition call_next (r : request) : M http response := λ h,
  let '(h', result) := lift (λ context, endpoint context r) h in
  (h', match result with
       | Ok (Returned status_code b) => Ok (Response status_code (EndpointBody b) None None)
       | Ok (HTTPException status_code) => Ok (handle_http_error h' status_code)
       | Ok (StarletteHTTPException status_code detail) =>
           Ok (http_exception_handler status_code detail)
       | Ok RequestValidationError => Ok (handle_request_validation_error h')
       | Raise (ApplicationError a) => Ok (handle_application_error h' a)
       | Raise e => Raise e
       end).

(** *** The middleware *)

(** Whether a JSON body is declared longer than the limit. *)
Definition exceeds_limit (r : request) : bool :=
  let content_type := str_strip (default [] (head (str_split 59 (default [] (rq_content_type r))))) in
  match rq_content_length r with
  | Some content_length =>
      bool_decide (content_type = lit "application/json") &&
      match int_of_text content_length with
      | Some n => Z.ltb (max_json_request_size_kb * 1024) n
      | None => true
      end
  | None => false
  end.

Definition set_state (request_id : pystr) (supplied : bool) : M http (option pystr) := λ h,
  (Http (Some request_id) (Some request_id) supplied (inner h), Ok (context h)).
Definition reset_request_id (token : option pystr) : M http unit := λ h,
  (Http token (state_request_id h) (state_supplied h) (inner h), Ok tt).

Definition log_requests (r : request) : M http response :=
  let* request_id := _safe_request_id (rq_x_request_id r) in
  let supplied := _request_id_is_valid (rq_x_request_id r) request_id_max_length in
  let* token := set_state request_id supplied in
  let* response := try_except
    (if exceeds_limit r then
       ret (_error_response (Some request_id) "request_too_large"
              "The JSON request exceeds the configured size limit." 413
              (if supplied then Some request_id else None))
     else call_next r)
    (λ e, reset_request_id token ;;; raise e) in
  reset_request_id token ;;;
  ret (Response (rs_status response) (rs_body response) (Some request_id)
         (rs_www_authenticate response)).

(** The outermost middleware answers what nothing else did; in debug mode it shows the
    traceback instead of calling the registered handler. *)
Definition serve (r : request) : M http response := λ h,
  let '(h', result) := log_requests r h in
  (h', match result with
       | Ok response => Ok response
       | Raise e => Ok (if debug then Response 500 (DebugBody e) None None
                        else handle_unexpected_error h')
       end).
End app.

(** ** What a client sees *)

Lemma strip_no_space s : Forall (λ c, is_space c = false) s → str_strip s = s.
Proof.
  assert (H : ∀ s, Forall (λ c, is_space c = false) s → str_lstrip s = s)
    by (intros s' [|c l Hc _]; [done|]; simpl; by rewrite Hc).
  intros Hs. unfold str_strip, str_rstrip. rewrite (H s Hs), H by (by apply Forall_reverse).
  apply reverse_involutive.
Qed.

Lemma pattern_no_space s : REQUEST_ID_PATTERN s = true → Forall (λ c, is_space c = false) s.
Proof.
  assert (Hs : ∀ c, id_start c || mem c [46; 95; 45]%Z = true → is_space c = false).
  { intros c [H|H]%orb_true_iff; unfold is_space; apply bool_decide_eq_false.
    - unfold id_start in H. rewrite !orb_true_iff, !andb_true_iff, !Z.leb_le in H. lia.
    - rewrite mem_spec, !elem_of_cons, elem_of_nil in H. lia. }
  destruct s as [|c s]; [done|]. cbn [REQUEST_ID_PATTERN]. intros [Hc Hall]%andb_true_iff.
  constructor; [apply Hs; by rewrite Hc|]. apply forallb_Forall in Hall.
  eapply Forall_impl; [exact Hall|]. exact Hs.
Qed.

(** An identifier of the pattern and of bounded length is one the telemetry models accept. *)
Lemma pattern_request_id_ok s :
  REQUEST_ID_PATTERN s = true → (length s ≤ 128)%nat → request_id_ok (Some s).
Proof.
  intros Hp Hl. split.
  - simpl. unfold len_le. apply Z.leb_le. lia.
  - simpl. by rewrite strip_no_space by (by apply pattern_no_space).
Qed.

Lemma hex_digit_start n : (0 ≤ n < 16)%Z → id_start (hex_digit n) = true.
Proof.
  intros H. assert (Hall : forallb (λ n, id_start (hex_digit n)) (seqZ 0 16) = true)
    by (vm_compute; reflexivity).
  rewrite forallb_Forall, Forall_forall in Hall. apply Hall, elem_of_seqZ. lia.
Qed.
Lemma hex_digits_spec len n :
  length (hex_digits len n) = len ∧ Forall (λ c, id_start c = true) (hex_digits len n).
Proof.
  revert n. induction len as [|len IH]; intros n; [done|]. cbn [hex_digits].
  destruct (IH (n / 16)%Z) as [Hl Hall]. rewrite length_app, Hl. split; [simpl; lia|].
  apply Forall_app. split; [done|]. constructor; [|done]. apply hex_digit_start.
  apply Z.mod_pos_bound. lia.
Qed.
Lemma str_uuid_spec u : REQUEST_ID_PATTERN (str_uuid u) = true ∧ length (str_uuid u) = 36%nat.
Proof.
  unfold str_uuid. cbn [str_join]. set (n := Z.of_N u).
  destruct (hex_digits_spec 8 (n / 2 ^ 96)) as [L1 F1].
  destruct (hex_digits_spec 4 (n / 2 ^ 80)) as [L2 F2].
  destruct (hex_digits_spec 4 (n / 2 ^ 64)) as [L3 F3].
  destruct (hex_digits_spec 4 (n / 2 ^ 48)) as [L4 F4].
  destruct (hex_digits_spec 12 n) as [L5 F5].
  set (h1 := hex_digits 8 _) in *. set (h2 := hex_digits 4 _) in *.
  set (h3 := hex_digits 4 _) in *. set (h4 := hex_digits 4 _) in *. set (h5 := hex_digits 12 _) in *.
  split; [|rewrite !length_app, L1, L2, L3, L4, L5; reflexivity].
  clearbody h1 h2 h3 h4 h5. destruct h1 as [|c h1]; [done|]. inversion_clear F1 as [|? ? Hc F1'].
  cbn [app REQUEST_ID_PATTERN]. rewrite Hc. apply forallb_Forall.
  assert (Hs : ∀ l, Forall (λ c, id_start c = true) l →
    Forall (λ c, id_start c || mem c [46; 95; 45]%Z = true) l).
  { intros l Hl. eapply Forall_impl; [exact Hl|]. by intros d ->. }
  assert (Hsep : Forall (λ c, id_start c || mem c [46; 95; 45]%Z = true) (lit "-"))
    by (by constructor).
  rewrite !Forall_app. auto 20.
Qed.

Section theorem.
Context {P B S : Type}.
Context (endpoint : option pystr → request (P := P) → M S (outcome (B := B))).
Context (phrase : Z → option pystr) (uuid4 : M S uuid) (max_length max_kb : Z) (debug : bool).
Context (Huuid : ∀ s, ∃ s' u, uuid4 s = (s', Ok u)) (Hmax : (max_length ≤ 128)%Z).

(** The answer to what the endpoint did, for a request identified by [id]. *)
Definition answer (id : pystr) (supplied : bool) (result : res (outcome (B := B))) :
    response (B := B) :=
  let shown := if supplied then Some id else None in
  match result with
  | Ok (Returned status_code b) => Response status_code (EndpointBody b) (Some id) None
  | Ok (HTTPException status_code) =>
      Response status_code (ErrorBody "http_error" (default (lit "HTTP error") (phrase status_code)) shown)
        (Some id) None
  | Ok (StarletteHTTPException status_code detail) =>
      Response status_code (DetailBody detail) (Some id) None
  | Ok RequestValidationError =>
      Response 422 (ErrorBody "request_validation_error"
        "The request did not satisfy the API schema." shown) (Some id) None
  | Raise (ApplicationError AuthenticationRequiredError) =>
      Response 401 (ErrorBody "authentication_required"
        (public_message AuthenticationRequiredError) (Some id)) (Some id) (Some (lit "Bearer"))
  | Raise (ApplicationError PermissionDeniedError) =>
      Response 403 (ErrorBody "permission_denied" (public_message PermissionDeniedError) (Some id))
        (Some id) None
  | Raise (ApplicationError a) =>
      Response (default 500%Z (status_codes a)) (ErrorBody (error_code a) (public_message a) shown)
        (Some id) None
  | Raise e =>
      if debug then Response 500 (DebugBody e) None None
      else Response 500
             (ErrorBody "internal_server_error" "The request could not be completed." shown)
             (Some id) None
  end.

(** The identifier given to a request, and the state after choosing it. *)
Inductive identified (r : request (P := P)) (s : S) : pystr → bool → S → Prop :=
  | id_supplied v : rq_x_request_id r = Some v → REQUEST_ID_PATTERN v = true →
      (Z.of_nat (length v) ≤ max_length)%Z → identified r s v true s
  | id_generated u s' : _request_id_is_valid (rq_x_request_id r) max_length = false →
      uuid4 s = (s', Ok u) → identified r s (str_uuid u) false s'.

Lemma safe_request_id_spec r h : ∃ id s,
  identified r (inner h) id (_request_id_is_valid (rq_x_request_id r) max_length) s ∧
  _safe_request_id uuid4 max_length (rq_x_request_id r) h =
    (Http (context h) (state_request_id h) (state_supplied h) s, Ok id).
Proof.
  destruct (_request_id_is_valid (rq_x_request_id r) max_length) eqn:Hv.
  - pose proof Hv as Hv'. unfold _request_id_is_valid in Hv'.
    destruct (rq_x_request_id r) as [v|] eqn:Hr; [|done].
    apply andb_true_iff in Hv' as [Hl Hp]. apply Z.leb_le in Hl.
    exists v, (inner h). split; [by constructor|]. unfold _safe_request_id. rewrite Hv. by destruct h.
  - destruct (Huuid (inner h)) as (s' & u & Hu). exists (str_uuid u), s'.
    split; [by constructor|]. unfold _safe_request_id.
    destruct (rq_x_request_id r); rewrite ?Hv; unfold bind, lift; by rewrite Hu.
Qed.

(** What [serve] does with a request, whatever the endpoint is. *)
Lemma serve_spec (r : request (P := P)) (h : http (S := S)) :
  ∃ id s, identified r (inner h) id (_request_id_is_valid (rq_x_request_id r) max_length) s ∧
    request_id_ok (Some id) ∧
    (let '(h', response) := serve endpoint phrase uuid4 max_length max_kb debug r h in
     context h' = context h ∧
     if exceeds_limit max_kb r
     then inner h' = s ∧ response = Ok (Response 413 (ErrorBody "request_too_large"
            "The JSON request exceeds the configured size limit."
            (if _request_id_is_valid (rq_x_request_id r) max_length then Some id else None))
            (Some id) None)
     else let '(s', result) := endpoint (Some id) r s in
       inner h' = s' ∧
       response = Ok (answer id (_request_id_is_valid (rq_x_request_id r) max_length) result)).
Proof.
  destruct (safe_request_id_spec r h) as (id & s & Hid & Hsafe). exists id, s. split; [done|].
  split.
  - destruct Hid as [v _ Hp Hl|u s' _ _].
    + apply pattern_request_id_ok; [done|lia].
    + destruct (str_uuid_spec u) as [Hp Hl]. apply pattern_request_id_ok; [done|lia].
  - unfold serve, log_requests. unfold bind at 1. rewrite Hsafe. cbn beta iota.
    set (supplied := _request_id_is_valid _ _).
    unfold bind at 1, set_state. cbn beta iota. unfold bind, try_except.
    destruct (exceeds_limit max_kb r); [by destruct supplied|].
    unfold call_next, lift. cbn [context inner]. destruct (endpoint (Some id) r s) as [s' result].
    destruct result as [[status b|status|status detail|]|e]; [done|by destruct supplied|done
      |by destruct supplied|].
    unfold answer. destruct e as [a| | | | | | | | | | |]; try by destruct supplied, debug.
    destruct a; by destruct supplied.
Qed.

(** C12: every request is answered, under one identifier: the identifier is the client's when
    it has the allowed form and length and a fresh UUID otherwise, is always one the
    telemetry models accept, and is sent back in the header; a JSON body declared over the
    limit is refused before the endpoint runs; otherwise the endpoint runs once, with the
    identifier in its context, and whatever it returns or raises is answered: an
    application error under its own code and status; an [HTTPException] of FastAPI by the
    registered handler, and one the framework raises itself (no route, no such method, a form
    that cannot be parsed) by the framework's default, its detail under its status and
    without a code; and any other exception by a message that says nothing about it, unless
    the application runs in debug mode, where the framework answers with the traceback and
    no identifier; and the context variable is restored. Every declared class
    of application error has a status of its own, below 500 or a gateway status. *)
Theorem every_request_answered (r : request) (h : http (S := S)) :
  ∃ id s, identified r (inner h) id (_request_id_is_valid (rq_x_request_id r) max_length) s ∧
    request_id_ok (Some id) ∧
    (let '(h', response) := serve endpoint phrase uuid4 max_length max_kb debug r h in
     context h' = context h ∧
     if exceeds_limit max_kb r
     then inner h' = s ∧ response = Ok (Response 413 (ErrorBody "request_too_large"
            "The JSON request exceeds the configured size limit."
            (if _request_id_is_valid (rq_x_request_id r) max_length then Some id else None))
            (Some id) None)
     else let '(s', result) := endpoint (Some id) r s in
       inner h' = s' ∧
       response = Ok (answer id (_request_id_is_valid (rq_x_request_id r) max_length) result)) ∧
    ∀ a, a ≠ BaseApplicationError →
      ∃ status, status_codes a = Some status ∧ status ∈ [401; 403; 404; 409; 413; 415; 422; 502; 503]%Z.
Proof.
  destruct (serve_spec r h) as (id & s & Hid & Hok & Hserve). exists id, s.
  repeat (split; [done|]). intros a Ha.
  destruct a; try done; (eexists; split; [reflexivity|]);
    apply (bool_decide_unpack _); vm_compute; exact I.
Qed.
End theorem.

(** ** Concrete requests *)

Definition demo_endpoint (context : option pystr) (r : request (P := unit)) :
    M nat (outcome (B := unit)) := λ calls, (Datatypes.S calls, Raise KeyError).
Definition demo_uuid : M nat uuid := ret 7%N.
Definition large : request (P := unit) :=
  Request (Some (lit "req-1")) (Some (lit "application/json; charset=utf-8")) (Some (lit "300000")) tt.

(** The comparison of the type is case sensitive, while HTTP and the JSON decoding of
    requests are not: the same body passes under another spelling. *)
Example limit_depends_on_case :
  exceeds_limit 256 large = true ∧
  exceeds_limit 256 (Request None (Some (lit "Application/JSON")) (Some (lit "300000")) tt) = false.
Proof. by vm_compute. Qed.

(** A path without a route is not answered in the application's error format, since the
    handler is registered for the subclass the router does not raise. *)
Example unknown_path_default :
  (serve (λ _ _, ret (StarletteHTTPException (B := unit) 404 "Not Found")) (λ _, None) demo_uuid
     64 256 false (Request (Some (lit "req-1")) None None tt) (Http None None false 0%nat)).2 =
  Ok (Response 404 (DetailBody "Not Found") (Some (lit "req-1")) None).
Proof. reflexivity. Qed.

Lemma every_request_answered_witness :
  ∃ h' response,
    serve demo_endpoint (λ _, None) demo_uuid 64 256 false (Request None None None tt)
      (Http (Some (lit "outer")) None false 0%nat) = (h', response) ∧
    context h' = Some (lit "outer") ∧ inner h' = 1%nat.
Proof.
  destruct (every_request_answered demo_endpoint (λ _, None) demo_uuid 64 256 false
    (λ s, ex_intro _ s (ex_intro _ 7%N eq_refl)) ltac:(done) (Request None None None tt)
    (Http (Some (lit "outer")) None false 0%nat)) as (id & s & Hid & _ & H & _).
  destruct (serve _ _ _ _ _ _ _ _) as [h' response]. exists h', response.
  split; [reflexivity|]. destruct H as [Hc [Hi _]]. split; [exact Hc|]. rewrite Hi. simpl. f_equal.
  inversion Hid. unfold demo_uuid, ret in *. by simplify_eq.
Defined.
