(* ===== verification/Settings.v ===== *)
(** app/core/config.py: the settings, the constraints of their fields, and the validators
    that relate them.

    The values are those pydantic-settings has read and converted; a secret is the text it
    holds, a choice among words is an inductive type (the log level is the word), and
    [embedding_provider], which has one possible value, is left out.
    [urllib.parse.urlsplit] is a parameter: it splits a URL or raises [ValueError]. *)
From S2P Require Import Prelude PyFloat Errors Domain RuntimeModels Unicode ExecutionRouter.
From S2P Require Import KnowledgeStore.

(** ** Values *)

Module Environment.
Inductive t := LOCAL | DEVELOPMENT | TEST | STAGING | PRODUCTION.
#[export] Instance eq_dec : EqDecision t.
Proof. solve_decision. Defined.
End Environment.
#[export] Existing Instance Environment.eq_dec.

Module ChatProvider.
Inductive t := OPENAI | ANTHROPIC.
End ChatProvider.

Module JwtAlgorithm.
Inductive t := HS256 | RS256.
#[export] Instance eq_dec : EqDecision t.
Proof. solve_decision. Defined.
End JwtAlgorithm.
#[export] Existing Instance JwtAlgorithm.eq_dec.

Module ExporterKind.
Inductive t := NONE | OTLP.
#[export] Instance eq_dec : EqDecision t.
Proof. solve_decision. Defined.
End ExporterKind.
#[export] Existing Instance ExporterKind.eq_dec.

(** What [urlsplit] returns, without the path. *)
Module SplitResult.
Record t := mk { scheme : pystr; netloc : pystr; query : pystr; fragment : pystr }.
End SplitResult.
Class UrlSplit := urlsplit : pystr → res SplitResult.t.

(** [Field(ge=lo, le=hi)]. *)
Definition in_range (lo hi n : Z) : bool := Z.leb lo n && Z.leb n hi.

Module Settings.
Record t := mk {
  app_name : pystr;
  environment : Environment.t;
  debug : bool;
  log_level : pystr;
  api_v1_prefix : pystr;
  cors_allowed_origins : pystr;
  cors_allow_credentials : bool;
  trusted_hosts : pystr;
  max_json_request_size_kb : Z;
  request_id_max_length : Z;
  log_exception_tracebacks : bool;
  database_url : option pystr;
  database_connect_timeout_seconds : Z;
  chat_model_provider : ChatProvider.t;
  chat_model_name : pystr;
  embedding_model : pystr;
  openai_api_key : option pystr;
  anthropic_api_key : option pystr;
  openai_timeout_seconds : pyfloat;
  openai_store_responses : bool;
  provider_required : bool;
  rag_enabled : bool;
  openai_embedding_dimension : Z;
  rag_chunk_size : Z;
  rag_chunk_overlap : Z;
  rag_retrieval_top_k : Z;
  rag_similarity_threshold : pyfloat;
  knowledge_graph_enabled : bool;
  graph_max_depth : Z;
  graph_max_entities : Z;
  graph_min_confidence : pyfloat;
  max_upload_size_mb : Z;
  pdf_min_extracted_characters : Z;
  agentic_workflow_enabled : bool;
  agent_max_steps : Z;
  agent_max_tool_calls : Z;
  langgraph_recursion_limit : Z;
  multi_agent_workflow_enabled : bool;
  evidence_agent_max_steps : Z;
  evidence_agent_max_tool_calls : Z;
  multi_agent_max_failures : Z;
  specialist_retry_limit : Z;
  execution_routing_enabled : bool;
  execution_mode_override : option ExecutionMode.t;
  runtime_risk_gate_enabled : bool;
  runtime_medium_risk_decision : RuntimeRiskDecision.t;
  runtime_high_risk_decision : RuntimeRiskDecision.t;
  runtime_critical_risk_decision : RuntimeRiskDecision.t;
  runtime_review_on_insufficient_evidence : bool;
  runtime_review_on_degraded_execution : bool;
  runtime_review_on_specialist_unavailable : bool;
  runtime_review_on_tool_failure : bool;
  runtime_block_high_risk_invalid_provenance : bool;
  runtime_block_critical_missing_mitigation : bool;
  max_human_revisions : Z;
  provider_max_retries : Z;
  provider_retry_base_delay_ms : Z;
  model_timeout_seconds : pyfloat;
  embedding_timeout_seconds : pyfloat;
  tool_timeout_seconds : pyfloat;
  graph_extraction_timeout_seconds : pyfloat;
  model_input_cost_per_1m_tokens : option pyfloat;
  model_output_cost_per_1m_tokens : option pyfloat;
  evaluation_llm_judge_enabled : bool;
  evaluation_judge_model : pystr;
  auth_enabled : bool;
  auth_jwt_algorithm : JwtAlgorithm.t;
  auth_jwt_verification_key : option pystr;
  auth_jwks_url : option pystr;
  auth_jwks_cache_seconds : Z;
  auth_jwks_timeout_seconds : Z;
  auth_jwt_issuer : option pystr;
  auth_jwt_audience : option pystr;
  auth_jwt_leeway_seconds : Z;
  observability_exporter : ExporterKind.t;
  otel_exporter_otlp_endpoint : option pystr;
  otel_service_name : pystr;
  otel_export_timeout_seconds : Z;
  policy_repository_enabled : bool;
  policy_repository_base_url : option pystr;
  policy_repository_token : option pystr;
  policy_repository_documents_path : pystr;
  policy_repository_timeout_seconds : Z;
  policy_repository_max_documents : Z;
  policy_repository_max_response_mb : Z
}.
#[export] Instance eta : Eta t := λ s, mk (app_name s) (environment s) (debug s) (log_level s)
    (api_v1_prefix s) (cors_allowed_origins s) (cors_allow_credentials s) (trusted_hosts s)
    (max_json_request_size_kb s) (request_id_max_length s) (log_exception_tracebacks s)
    (database_url s) (database_connect_timeout_seconds s) (chat_model_provider s) (chat_model_name
    s) (embedding_model s) (openai_api_key s) (anthropic_api_key s) (openai_timeout_seconds s)
    (openai_store_responses s) (provider_required s) (rag_enabled s) (openai_embedding_dimension
    s) (rag_chunk_size s) (rag_chunk_overlap s) (rag_retrieval_top_k s) (rag_similarity_threshold
    s) (knowledge_graph_enabled s) (graph_max_depth s) (graph_max_entities s)
    (graph_min_confidence s) (max_upload_size_mb s) (pdf_min_extracted_characters s)
    (agentic_workflow_enabled s) (agent_max_steps s) (agent_max_tool_calls s)
    (langgraph_recursion_limit s) (multi_agent_workflow_enabled s) (evidence_agent_max_steps s)
    (evidence_agent_max_tool_calls s) (multi_agent_max_failures s) (specialist_retry_limit s)
    (execution_routing_enabled s) (execution_mode_override s) (runtime_risk_gate_enabled s)
    (runtime_medium_risk_decision s) (runtime_high_risk_decision s)
    (runtime_critical_risk_decision s) (runtime_review_on_insufficient_evidence s)
    (runtime_review_on_degraded_execution s) (runtime_review_on_specialist_unavailable s)
    (runtime_review_on_tool_failure s) (runtime_block_high_risk_invalid_provenance s)
    (runtime_block_critical_missing_mitigation s) (max_human_revisions s) (provider_max_retries s)
    (provider_retry_base_delay_ms s) (model_timeout_seconds s) (embedding_timeout_seconds s)
    (tool_timeout_seconds s) (graph_extraction_timeout_seconds s) (model_input_cost_per_1m_tokens
    s) (model_output_cost_per_1m_tokens s) (evaluation_llm_judge_enabled s)
    (evaluation_judge_model s) (auth_enabled s) (auth_jwt_algorithm s) (auth_jwt_verification_key
    s) (auth_jwks_url s) (auth_jwks_cache_seconds s) (auth_jwks_timeout_seconds s)
    (auth_jwt_issuer s) (auth_jwt_audience s) (auth_jwt_leeway_seconds s) (observability_exporter
    s) (otel_exporter_otlp_endpoint s) (otel_service_name s) (otel_export_timeout_seconds s)
    (policy_repository_enabled s) (policy_repository_base_url s) (policy_repository_token s)
    (policy_repository_documents_path s) (policy_repository_timeout_seconds s)
    (policy_repository_max_documents s) (policy_repository_max_response_mb s).

(** The constraints of the single fields. *)
Definition fields_ok (s : t) : bool :=
  mem (log_level s) (lit <$> ["DEBUG"; "INFO"; "WARNING"; "ERROR"; "CRITICAL"]) &&
  in_range 1 10240 (max_json_request_size_kb s) &&
  in_range 16 128 (request_id_max_length s) &&
  in_range 1 30 (database_connect_timeout_seconds s) &&
  fltb f64_zero (openai_timeout_seconds s) &&
  Z.eqb (openai_embedding_dimension s) KNOWLEDGE_EMBEDDING_DIMENSION &&
  in_range 200 20000 (rag_chunk_size s) &&
  in_range 0 5000 (rag_chunk_overlap s) &&
  in_range 1 20 (rag_retrieval_top_k s) &&
  fleb (float_of_Z (-1)) (rag_similarity_threshold s) && fleb (rag_similarity_threshold s) (float_of_Z 1) &&
  in_range 1 5 (graph_max_depth s) &&
  in_range 1 100 (graph_max_entities s) &&
  fleb (float_of_Z 0) (graph_min_confidence s) && fleb (graph_min_confidence s) (float_of_Z 1) &&
  in_range 1 100 (max_upload_size_mb s) &&
  in_range 1 10000 (pdf_min_extracted_characters s) &&
  in_range 1 50 (agent_max_steps s) &&
  in_range 1 50 (agent_max_tool_calls s) &&
  in_range 1 1000 (langgraph_recursion_limit s) &&
  in_range 1 50 (evidence_agent_max_steps s) &&
  in_range 1 50 (evidence_agent_max_tool_calls s) &&
  in_range 0 2 (multi_agent_max_failures s) &&
  in_range 0 3 (specialist_retry_limit s) &&
  in_range 0 10 (max_human_revisions s) &&
  in_range 0 10 (provider_max_retries s) &&
  in_range 0 60000 (provider_retry_base_delay_ms s) &&
  fltb f64_zero (model_timeout_seconds s) &&
  fltb f64_zero (embedding_timeout_seconds s) &&
  fltb f64_zero (tool_timeout_seconds s) &&
  fltb f64_zero (graph_extraction_timeout_seconds s) &&
  opt_all (fleb f64_zero) (model_input_cost_per_1m_tokens s) &&
  opt_all (fleb f64_zero) (model_output_cost_per_1m_tokens s) &&
  in_range 60 86400 (auth_jwks_cache_seconds s) &&
  in_range 1 30 (auth_jwks_timeout_seconds s) &&
  in_range 0 300 (auth_jwt_leeway_seconds s) &&
  len_in 1 100 (otel_service_name s) &&
  in_range 1 30 (otel_export_timeout_seconds s) &&
  in_range 1 30 (policy_repository_timeout_seconds s) &&
  in_range 1 500 (policy_repository_max_documents s) &&
  in_range 1 25 (policy_repository_max_response_mb s).
(** The default of every field. *)
Definition defaults : t :=
  mk (lit "Enterprise AI Architecture & Risk Intelligence Platform") Environment.LOCAL false
    (lit "INFO") (lit "/api/v1") (lit "http://localhost:3000,http://127.0.0.1:3000") false
    (lit "localhost,127.0.0.1,testserver") 256 64 false None 5 ChatProvider.OPENAI
    (lit "gpt-4.1-mini") (lit "text-embedding-3-small") None None (float_of_Z 30) false true
    false KNOWLEDGE_EMBEDDING_DIMENSION 1200 200 5 (float_dyadic 3152519739159347 53) false 2 20
    (float_dyadic 1 1) 10 100 false 5 5 25 false 4 4 2 1 true None false
    RuntimeRiskDecision.COMPLETE_WITH_WARNING RuntimeRiskDecision.REQUIRE_HUMAN_REVIEW
    RuntimeRiskDecision.BLOCK_AND_ESCALATE true true true true true true 2 2 250 (float_of_Z 30)
    (float_of_Z 30) (float_of_Z 10) (float_of_Z 30) None None false (lit "gpt-4.1-mini") false
    JwtAlgorithm.HS256 None None 300 5 None None 30 ExporterKind.NONE None
    (lit "enterprise-agentic-ai-platform") 5 false None None (lit "/v1/documents") 10 100 5.
End Settings.
#[export] Existing Instance Settings.eta.
Import Settings.

(** ** Derived values *)

(** [[value.strip() for value in text.split(",") if value.strip()]]. *)
Definition comma_separated (text : pystr) : list pystr :=
  filter (λ v, truthy v = true) (str_strip <$> str_split 44 text).
Definition parsed_cors_allowed_origins (s : Settings.t) : list pystr :=
  comma_separated (cors_allowed_origins s).
Definition parsed_trusted_hosts (s : Settings.t) : list pystr := comma_separated (trusted_hosts s).

(** [x is not None and x.get_secret_value().strip()]. *)
Definition configured (secret : option pystr) : bool :=
  match secret with Some v => truthy (str_strip v) | None => false end.
(** [bool(x)] of an optional text. *)
Definition given (text : option pystr) : bool := truthy (default [] text).

Definition selected_key (s : Settings.t) : option pystr :=
  match chat_model_provider s with
  | ChatProvider.ANTHROPIC => anthropic_api_key s
  | ChatProvider.OPENAI => openai_api_key s
  end.
Definition provider_is_configured (s : Settings.t) : bool := configured (selected_key s).

(** ** Validators *)

(** [if not b: raise ValueError]. *)
Definition ensure (b : bool) : res unit := if b then Ok tt else Raise ValueError.
(** [if b: r]. *)
Definition when (b : bool) (r : res unit) : res unit := if b then r else Ok tt.
Definition and_then (r k : res unit) : res unit := res_bind r (λ _, k).
Infix ">>>" := and_then (at level 52, right associativity).

(** A loop of checks. *)
Fixpoint check_all {A} (check : A → res unit) (l : list A) : res unit :=
  match l with
  | [] => Ok tt
  | a :: l' => check a >>> check_all check l'
  end.

Section validators.
Context {url : UrlSplit} {udb : UnicodeDB}.

(** [parsed.scheme in {"http", "https"} and parsed.netloc]. *)
Definition valid_http_url (text : pystr) : res unit :=
  res_bind (urlsplit text) (λ parsed,
    ensure (mem (SplitResult.scheme parsed) [lit "http"; lit "https"] &&
            truthy (SplitResult.netloc parsed))).
Definition uses_https (text : pystr) : res unit :=
  res_bind (urlsplit text) (λ parsed,
    ensure (bool_decide (SplitResult.scheme parsed = lit "https"))).

Definition absolute_path (text : pystr) : res unit :=
  res_bind (urlsplit text) (λ parsed,
    ensure (str_startswith (lit "/") text && negb (str_startswith (lit "//") text) &&
            negb (truthy (SplitResult.scheme parsed)) && negb (truthy (SplitResult.netloc parsed)) &&
            negb (truthy (SplitResult.query parsed)) &&
            negb (truthy (SplitResult.fragment parsed)))).

(** [marker in text] for some marker. *)
Definition UNSAFE_PLACEHOLDER_MARKERS : list pystr :=
  lit <$> ["change-me"; "changeme"; "placeholder"; "replace-with"].
Fixpoint str_contains (sub text : pystr) : bool :=
  str_startswith sub text || match text with [] => false | _ :: text' => str_contains sub text' end.
Definition has_placeholder (text : pystr) : bool :=
  existsb (λ marker, str_contains marker (casefold text)) UNSAFE_PLACEHOLDER_MARKERS.

Definition _validate_auth_settings (s : Settings.t) : res unit :=
  ensure (bool_decide (is_Some (auth_jwt_verification_key s)) || given (auth_jwks_url s)) >>>
  ensure (negb (bool_decide (is_Some (auth_jwt_verification_key s)) && given (auth_jwks_url s))) >>>
  when (given (auth_jwks_url s))
    (valid_http_url (default [] (auth_jwks_url s)) >>>
     ensure (bool_decide (auth_jwt_algorithm s = JwtAlgorithm.RS256))) >>>
  ensure (given (auth_jwt_issuer s) && given (auth_jwt_audience s)).

Definition provider_needed (s : Settings.t) : bool :=
  provider_required s || rag_enabled s || agentic_workflow_enabled s ||
  multi_agent_workflow_enabled s || knowledge_graph_enabled s || evaluation_llm_judge_enabled s.

Definition production_database (s : Settings.t) : res unit :=
  match database_url s with
  | None => Raise ValueError
  | Some url =>
      let database_url := str_strip url in
      ensure (str_startswith (lit "postgresql://") database_url ||
              str_startswith (lit "postgresql+psycopg://") database_url) >>>
      ensure (negb (has_placeholder database_url))
  end.

(** The last check: the key or the address the tokens are verified with. *)
Definition production_identity (s : Settings.t) : res unit :=
  if given (auth_jwks_url s) then uses_https (default [] (auth_jwks_url s))
  else
    match auth_jwt_verification_key s with
    | None => Raise (OtherException "AssertionError")
    | Some key =>
        let verification_key := str_strip key in
        ensure (Z.leb 32 (Z.of_nat (length verification_key)) &&
                negb (has_placeholder verification_key))
    end.

Definition _validate_production_settings (s : Settings.t) : res unit :=
  ensure (negb (debug s)) >>>
  ensure (negb (log_exception_tracebacks s)) >>>
  ensure (negb (mem (lit "*") (parsed_cors_allowed_origins s))) >>>
  ensure (negb (cors_allow_credentials s) || truthy (parsed_cors_allowed_origins s)) >>>
  ensure (truthy (parsed_trusted_hosts s) && negb (mem (lit "*") (parsed_trusted_hosts s))) >>>
  production_database s >>>
  when (policy_repository_enabled s)
    (match policy_repository_base_url s with
     | None => Raise (OtherException "AssertionError")
     | Some base_url => uses_https base_url
     end) >>>
  ensure (negb (provider_needed s) || provider_is_configured s) >>>
  ensure (negb (rag_enabled s || knowledge_graph_enabled s) || configured (openai_api_key s)) >>>
  when (provider_is_configured s) (ensure (negb (has_placeholder (default [] (selected_key s))))) >>>
  ensure (auth_enabled s) >>>
  _validate_auth_settings s >>>
  production_identity s.

Definition valid_origin (origin : pystr) : res unit :=
  res_bind (urlsplit origin) (λ parsed,
    if bool_decide (origin = lit "*") then Ok tt
    else ensure (mem (SplitResult.scheme parsed) [lit "http"; lit "https"] &&
                 truthy (SplitResult.netloc parsed))).

Definition valid_policy_repository (s : Settings.t) : res unit :=
  ensure (given (policy_repository_base_url s) && configured (policy_repository_token s)) >>>
  valid_http_url (default [] (policy_repository_base_url s)) >>>
  absolute_path (policy_repository_documents_path s).

(** The model validator. *)
Definition validate_chunk_settings (s : Settings.t) : res unit :=
  ensure (Z.ltb (rag_chunk_overlap s) (rag_chunk_size s)) >>>
  ensure (negb (agentic_workflow_enabled s &&
                Z.ltb (langgraph_recursion_limit s) (agent_max_steps s * 2 + 3))) >>>
  ensure (Bool.eqb (bool_decide (is_Some (model_input_cost_per_1m_tokens s)))
                   (bool_decide (is_Some (model_output_cost_per_1m_tokens s)))) >>>
  ensure (negb (bool_decide (observability_exporter s = ExporterKind.OTLP) &&
                negb (given (otel_exporter_otlp_endpoint s)))) >>>
  when (given (otel_exporter_otlp_endpoint s))
    (valid_http_url (default [] (otel_exporter_otlp_endpoint s))) >>>
  when (policy_repository_enabled s) (valid_policy_repository s) >>>
  check_all valid_origin (parsed_cors_allowed_origins s) >>>
  (if decide (environment s = Environment.PRODUCTION) then _validate_production_settings s
   else when (auth_enabled s) (_validate_auth_settings s)).

(** [Settings(...)]: a [ValueError] or an [AssertionError] of the validator is reported as a
    [ValidationError]. *)
Definition load_settings (s : Settings.t) : res Settings.t :=
  if fields_ok s then
    match validate_chunk_settings s with
    | Ok _ => Ok s
    | Raise _ => Raise ValidationError
    end
  else Raise ValidationError.
End validators.
