(* ===== verification/AgentGraphTheorems.v ===== *)
(** The single-agent workflow is bounded: whatever the agent decides, the graph stays
    within its step and tool-call limits, the recursion limit the configuration enforces is
    never what stops it, and the metadata it reports is an accurate account of the run. *)
From S2P Require Import Prelude PyFloat Errors Domain AgentModels Schemas RuntimeModels.
From S2P Require Import Session Storage Telemetry MemorySession Assessments Tools AgentGraph.
From S2P Require Import AssessmentLifecycle.

(** ** The account a trace gives of a run *)

Definition is_reasoning (e : AgentTraceEvent.t) : bool :=
  bool_decide (AgentTraceEvent.event_type e = AgentTraceEventType.REASONING_STARTED).
Definition is_tool_call (e : AgentTraceEvent.t) : bool :=
  bool_decide (AgentTraceEvent.event_type e ∈
    [AgentTraceEventType.TOOL_COMPLETED; AgentTraceEventType.TOOL_FAILED]).

Definition event_ok (e : AgentTraceEvent.t) : Prop :=
  AgentTraceEvent.valid e = true ∧ agent_event_ok e.

(** Every reasoning step and every tool call has one event, in order. *)
Record trace_accounts (steps : Z) (tools : list pystr) (tr : list AgentTraceEvent.t) : Prop := {
  trace_valid : Forall event_ok tr;
  trace_reasoning :
    AgentTraceEvent.step <$> filter is_reasoning tr = seqZ 1 steps;
  trace_tools :
    AgentTraceEvent.tool_name <$> filter is_tool_call tr = Some <$> tools
}.

Lemma filter_snoc (f : AgentTraceEvent.t → bool) tr e :
  filter f (tr ++ [e]) = filter f tr ++ if f e then [e] else [].
Proof.
  rewrite filter_app, filter_cons, filter_nil. by destruct (f e).
Qed.

Lemma trace_valid_snoc tr e : Forall event_ok tr → event_ok e → Forall event_ok (tr ++ [e]).
Proof. intros. apply Forall_app. split; [done|]. by apply Forall_singleton. Qed.

Lemma trace_accounts_other steps tools tr e :
  event_ok e → is_reasoning e = false → is_tool_call e = false →
  trace_accounts steps tools tr → trace_accounts steps tools (tr ++ [e]).
Proof.
  intros He Hr Ht [Hv Hsteps Htools].
  split; [by apply trace_valid_snoc| |]; by rewrite filter_snoc, ?Hr, ?Ht, app_nil_r.
Qed.

Lemma trace_accounts_reasoning steps tools tr e :
  event_ok e → is_reasoning e = true → is_tool_call e = false → (0 ≤ steps)%Z →
  AgentTraceEvent.step e = (steps + 1)%Z →
  trace_accounts steps tools tr → trace_accounts (steps + 1) tools (tr ++ [e]).
Proof.
  intros He Hr Ht Hpos Hs [Hv Hsteps Htools]. split; [by apply trace_valid_snoc| |].
  - rewrite filter_snoc, Hr, fmap_app, Hsteps, seqZ_app by lia. csimpl. rewrite Hs.
    by replace (1 + steps)%Z with (steps + 1)%Z by lia.
  - by rewrite filter_snoc, Ht, app_nil_r.
Qed.

Lemma trace_accounts_tool steps tools tr e name :
  event_ok e → is_reasoning e = false → is_tool_call e = true →
  AgentTraceEvent.tool_name e = Some name →
  trace_accounts steps tools tr → trace_accounts steps (tools ++ [name]) (tr ++ [e]).
Proof.
  intros He Hr Ht Hn [Hv Hsteps Htools]. split; [by apply trace_valid_snoc| |].
  - by rewrite filter_snoc, Hr, app_nil_r.
  - rewrite filter_snoc, Ht, !fmap_app, Htools. csimpl. by rewrite Hn.
Qed.

(** ** The invariant of the graph state *)

Import AssessmentGraphState.

Section workflow.
Context {S : Type} (ag : agent S) (tools : ToolRegistry S).
Context {CH : CallHash}.
Context (R : relation S) `{!PreOrder R} (E : exn → Prop).
Context (ms mc : Z).

Abbreviation never := (λ _ : exn, False).

(** What the graph relies on in the agent: its decisions are valid models, its failures
    are of a known kind, and the clock reads UTC. *)
Record agent_ok : Prop := {
  decide_ok st step definitions :
    safe R E (ag_decide ag st step definitions) (λ d, AgentDecision.valid d = true);
  synthesize_ok request evidence documents :
    safe R E (ag_synthesize ag request evidence documents) (λ _, True);
  now_ok : safe R never (ag_now ag) (λ t, datetime.utcoffset t = Some 0%Z)
}.

Context (Hag : agent_ok) (Htools : registry_ok R tools).
Context (Hhash : ∀ e, unencodable e → E e).

Record graph_ok (st : gstate) : Prop := {
  ok_limits : max_steps st = ms ∧ max_tool_calls st = mc;
  ok_step : (0 ≤ step st ≤ ms)%Z;
  ok_calls : tool_calls_used st = Z.of_nat (length (tool_history st)) ∧ (tool_calls_used st ≤ mc)%Z;
  ok_evidence : NoDup (RetrievedEvidence.chunk_id <$> retrieved_evidence st);
  ok_documents : NoDup (ObservedKnowledgeDocument.document_id <$> observed_documents st);
  ok_cache : cache_ok (Some (tool_cache st));
  ok_trace : trace_accounts (step st) (ToolHistoryEntry.tool_name <$> tool_history st) (trace st)
}.

(** Why a run stopped. *)
Definition termination_ok (st : gstate) : Prop :=
  match termination_reason st with
  | Some AgentTerminationReason.MAX_STEPS_REACHED => step st = ms ∧ tool_calls_used st = step st
  | Some AgentTerminationReason.MAX_TOOL_CALLS_REACHED =>
      tool_calls_used st = mc ∧ tool_calls_used st = step st
  | Some AgentTerminationReason.AGENT_STOPPED => step st = (tool_calls_used st + 1)%Z
  | _ => False
  end.

(** The state in which each node is entered. *)
Definition ready (n : node) (st : gstate) : Prop :=
  graph_ok st ∧ final_result st = None ∧ error st = None ∧
  match n with
  | Reason => tool_calls_used st = step st
  | ExecuteTool =>
      step st = (tool_calls_used st + 1)%Z ∧ (tool_calls_used st < mc)%Z ∧
      opt_all (len_le 100) (pending_tool_name st) = true
  | Synthesize => termination_ok st
  | Fail => True
  end.

Definition finished_ok (st : gstate) : Prop :=
  graph_ok st ∧
  (error st = None → is_Some (final_result st) ∧ termination_ok st).

(** Supersteps that always suffice from a node. *)
Definition supersteps (n : node) (st : gstate) : Z :=
  match n with
  | Reason => 2 * (ms - step st) + 2
  | ExecuteTool => 2 * (ms - step st) + 3
  | Synthesize | Fail => 1
  end.

Definition outcome_ok (n : node) (st : gstate) (out : gstate * option node) : Prop :=
  match out.2 with
  | Some n' => ready n' out.1 ∧ (supersteps n' out.1 < supersteps n st)%Z
  | None => finished_ok out.1
  end.

Lemma event_safe st_step ty summary name status termination :
  (0 ≤ st_step)%Z → len_in 1 300 summary = true → opt_all (len_le 100) name = true →
  opt_all (λ v, mem v (lit <$> ["completed"; "failed"; "cached"])) status = true →
  safe R never (_event ag st_step ty summary name status termination)
    (λ e, event_ok e ∧ AgentTraceEvent.step e = st_step ∧ AgentTraceEvent.event_type e = ty ∧
          AgentTraceEvent.tool_name e = name).
Proof.
  intros Hs Hsum Hn Hst. unfold _event. eapply safe_bind; [done|apply (now_ok Hag)|].
  intros t Ht. apply safe_of_res; [done|]. unfold AgentTraceEvent.construct.
  assert (AgentTraceEvent.valid
    (AgentTraceEvent.mk st_step ty t summary name status termination) = true) as Hv.
  { unfold AgentTraceEvent.valid. rewrite !andb_true_iff. split_and!; try done.
    by apply Z.leb_le. }
  by rewrite Hv.
Qed.

(** An event of a node: its text is a constant of the node. *)
Lemma node_event {A} st_step ty summary name status termination (k : AgentTraceEvent.t → M S A) Q :
  (0 ≤ st_step)%Z → len_in 1 300 summary = true → opt_all (len_le 100) name = true →
  opt_all (λ v, mem v (lit <$> ["completed"; "failed"; "cached"])) status = true →
  (∀ e, event_ok e → AgentTraceEvent.step e = st_step → AgentTraceEvent.event_type e = ty →
        AgentTraceEvent.tool_name e = name → safe R E (k e) Q) →
  safe R E (let* e := _event ag st_step ty summary name status termination in k e) Q.
Proof.
  intros Hs Hsum Hn Hst Hk. eapply safe_bind; [done| |].
  - eapply safe_mono; [by apply event_safe|done|]. intros e He. exact He.
  - intros e (He & H1 & H2 & H3). auto.
Qed.

Ltac solve_event_type := unfold is_reasoning, is_tool_call; 
  match goal with H : AgentTraceEvent.event_type _ = _ |- _ => rewrite H end; reflexivity.

Lemma fail_safe st :
  ready Fail st → safe R E (superstep ag tools Fail st) (outcome_ok Fail st).
Proof.
  intros (Hok & Hf & He & _). unfold superstep. apply safe_bind with (P := finished_ok); [done| |].
  - unfold fail. apply node_event; try done; [apply Hok|]. intros e Hev _ Hty _.
    apply safe_ret; [done|]. split; [|done]. destruct Hok. split; try done. simpl.
    by apply trace_accounts_other; [..|solve_event_type|solve_event_type|].
  - intros st' H. by apply safe_ret.
Qed.

Lemma synthesize_safe st :
  ready Synthesize st →
  safe R E (superstep ag tools Synthesize st) (outcome_ok Synthesize st).
Proof.
  intros (Hok & Hf & He & Ht). unfold superstep.
  apply safe_bind with (P := finished_ok); [done| |].
  - unfold synthesize. apply node_event; try done; [apply Hok|]. intros e1 Hev1 _ Hty1 _.
    eapply safe_bind; [done|apply (synthesize_ok Hag)|]. intros result _.
    apply node_event; try done; [apply Hok|]. intros e2 Hev2 _ Hty2 _.
    apply safe_ret; [done|]. split.
    + destruct Hok. split; try done. simpl. rewrite (app_assoc _ [e1] [e2]).
      do 2 (apply trace_accounts_other; [done|solve_event_type|solve_event_type|]). done.
    + intros _. split; [by eexists|]. unfold termination_ok in *. simpl.
      by destruct (termination_reason st).
  - intros st' H. by apply safe_ret.
Qed.

Lemma execute_tool_safe st :
  ready ExecuteTool st →
  safe R E (superstep ag tools ExecuteTool st) (outcome_ok ExecuteTool st).
Proof.
  intros (Hok & Hf & He & Hstep & Hlt & Hname). unfold superstep.
  apply safe_bind with (P := λ st', ready Reason st' ∧ step st' = step st); [done| |].
  2: { intros st' [H Hs]. apply safe_ret; [done|]. split; [done|]. simpl. lia. }
  unfold execute_tool. eapply safe_bind; [done| |].
  { eapply safe_mono; [apply execute_safe; [done|done|apply Hok]|exact Hhash|].
    intros call H. exact H. }
  intros call [[Hsum Herr] Hcache]. apply node_event.
  - apply Hok.
  - exact Hsum.
  - simpl. by destruct (pending_tool_name st).
  - unfold tool_status_of. simpl.
    by destruct (ToolExecutionResult.cached _), (ToolExecutionResult.success _).
  - intros e Hev _ Hty Hn. apply safe_ret; [done|].
    destruct Hok as [Hlim Hst [Hc1 Hc2] Hev' Hdoc Hca Htr].
    split; [|done]. split; [|split_and!; try done; simpl; lia].
    split; simpl; try done.
    + rewrite length_app. simpl. lia.
    + by apply keyed_setdefault_NoDup; rewrite keyed_set_NoDup by done.
    + by apply keyed_setdefault_NoDup; rewrite keyed_set_NoDup by done.
    + by destruct (tc_cache call).
    + rewrite fmap_app. apply trace_accounts_tool; try done; unfold is_reasoning, is_tool_call;
        rewrite Hty; by destruct (ToolExecutionResult.success _).
Qed.

Lemma reason_safe st :
  ready Reason st → (1 ≤ ms)%Z →
  safe R E (superstep ag tools Reason st) (outcome_ok Reason st).
Proof.
  intros (Hok & Hf & He & Hcalls) Hms. unfold superstep.
  apply safe_bind with (P := λ st', ready (route_after_reason st') st' ∧
    (route_after_reason st' = ExecuteTool → step st' = (step st + 1)%Z)); [done| |].
  2: { intros st' [H1 H2]. apply safe_ret; [done|]. split; [done|]. destruct Hok as [_ Hst _ _ _ _ _].
       unfold route_after_reason in *. simpl. destruct (next_action st'); simpl; try lia.
       rewrite H2 by done. lia. }
  destruct Hok as [[Hl1 Hl2] Hst [Hc1 Hc2] Hev Hdoc Hca Htr]. unfold reason.
  rewrite Hl1, Hl2. case_eq (ms <=? step st)%Z; intros H1; [apply Z.leb_le in H1|apply Z.leb_gt in H1].
  { apply node_event; try done; [lia|]. intros e Hev1 _ Hty _. apply safe_ret; [done|].
    split; [|done]. split_and!; simpl; [|done|done|unfold termination_ok; simpl; lia].
    split; simpl; try done. by apply trace_accounts_other; [..|solve_event_type|solve_event_type|]. }
  case_eq (mc <=? tool_calls_used st)%Z; intros H2;
    [apply Z.leb_le in H2|apply Z.leb_gt in H2].
  { apply node_event; try done; [lia|]. intros e Hev1 _ Hty _. apply safe_ret; [done|].
    split; [|done]. split_and!; simpl; [|done|done|unfold termination_ok; simpl; lia].
    split; simpl; try done. by apply trace_accounts_other; [..|solve_event_type|solve_event_type|]. }
  apply node_event; try done; [lia|]. intros e Hev1 Hse Hty _.
  assert (trace_accounts (step st + 1) (ToolHistoryEntry.tool_name <$> tool_history st)
            (trace st ++ [e])) as Htr'.
  { by apply trace_accounts_reasoning; [..|solve_event_type|solve_event_type| | |]; lia || done. }
  eapply safe_bind; [done|apply (decide_ok Hag)|].
  intros d Hd. unfold AgentDecision.valid in Hd. apply andb_true_iff in Hd as [Hreq Hd].
  destruct (AgentDecision.action d) eqn:Ha, (AgentDecision.tool_request d) as [req|] eqn:Hr;
    try discriminate.
  - unfold opt_all, AgentToolRequest.valid in Hreq.
    assert (len_le 100 (AgentToolRequest.name req) = true) as Hlen.
    { unfold len_in in Hreq. unfold len_le. by apply andb_true_iff in Hreq as [_ ?]. }
    apply node_event; try done; [lia|]. intros e2 Hev2 _ Hty2 _. apply safe_ret; [done|].
    split; [|done]. unfold route_after_reason. simpl.
    split_and!; simpl; try done; [|lia]. split; simpl; try done; [lia|].
    by apply trace_accounts_other; [..|solve_event_type|solve_event_type|].
  - apply safe_ret; [done|]. unfold route_after_reason. simpl. split; [|done].
    split_and!; simpl; [|done|done|unfold termination_ok; simpl; lia].
    split; simpl; try done. lia.
  - apply safe_ret; [done|]. unfold route_after_reason. simpl. split; [|done].
    split_and!; simpl; try done. split; simpl; try done. lia.
Qed.

(** ** The recursion limit *)

Lemma superstep_safe n st :
  ready n st → (1 ≤ ms)%Z →
  safe R E (superstep ag tools n st) (outcome_ok n st).
Proof.
  intros Hn Hms. destruct n;
    [by apply reason_safe|by apply execute_tool_safe|by apply synthesize_safe|by apply fail_safe].
Qed.

Lemma run_graph_safe limit n st :
  ready n st → (1 ≤ ms)%Z → (supersteps n st ≤ Z.of_nat limit)%Z →
  safe R E (run_graph ag tools limit n st) finished_ok.
Proof.
  revert n st. induction limit as [|limit IH]; intros n st Hn Hms Hl.
  - destruct Hn as [[_ Hst _ _ _ _ _] _]. destruct n; simpl in Hl; lia.
  - simpl. eapply safe_bind; [done|by apply superstep_safe|]. intros [st' [n'|]] Hout; simpl.
    + destruct Hout as [Hn' Hlt]. simpl in *. apply IH; [done|done|lia].
    + by apply safe_ret.
Qed.

(** The account an execution's metadata gives: its steps and tools are those of its trace,
    the bounds hold, and the reported reason for stopping is the true one. *)
Definition account_ok (m : AssessmentExecutionMetadata.t) : Prop :=
  ∃ calls, trace_accounts (AssessmentExecutionMetadata.steps_used m) calls
             (AssessmentExecutionMetadata.trace m) ∧
    AssessmentExecutionMetadata.tools_used m = dict_fromkeys calls ∧
    (1 ≤ AssessmentExecutionMetadata.steps_used m ≤ ms)%Z ∧
    (Z.of_nat (length calls) ≤ mc)%Z ∧
    match AssessmentExecutionMetadata.termination_reason m with
    | AgentTerminationReason.MAX_STEPS_REACHED =>
        AssessmentExecutionMetadata.steps_used m = ms ∧ Z.of_nat (length calls) = ms
    | AgentTerminationReason.MAX_TOOL_CALLS_REACHED =>
        AssessmentExecutionMetadata.steps_used m = mc ∧ Z.of_nat (length calls) = mc
    | AgentTerminationReason.AGENT_STOPPED =>
        AssessmentExecutionMetadata.steps_used m = (Z.of_nat (length calls) + 1)%Z
    | _ => False
    end.

Definition metadata_of (st : gstate) (termination : AgentTerminationReason.t) :
    AssessmentExecutionMetadata.t :=
  AssessmentExecutionMetadata.mk None "single_agent" None [] [] (step st)
    (dict_fromkeys (ToolHistoryEntry.tool_name <$> tool_history st)) termination (trace st) None.

Lemma metadata_ok st termination :
  graph_ok st → termination_reason st = Some termination → termination_ok st → (1 ≤ ms)%Z →
  (1 ≤ mc)%Z →
  execution_ok (SingleAgent (metadata_of st termination)) ∧ account_ok (metadata_of st termination).
Proof.
  intros [Hlim Hst [Hc1 Hc2] Hev Hdoc Hca Htr] Ht Hterm Hms Hmc.
  unfold termination_ok in Hterm. rewrite Ht in Hterm. split; [split|].
  - simpl. unfold AssessmentExecutionMetadata.valid. rewrite !andb_true_iff.
    split_and!; try reflexivity; [apply Z.leb_le; simpl; lia|].
    apply forallb_forall. intros e He%list_elem_of_In. pose proof (trace_valid _ _ _ Htr) as Htv.
    rewrite Forall_forall in Htv. by destruct (Htv e He).
  - simpl. eapply Forall_impl; [apply (trace_valid _ _ _ Htr)|]. by intros e [_ ?].
  - exists (ToolHistoryEntry.tool_name <$> tool_history st). simpl.
    rewrite length_fmap, <- Hc1. split_and!; [done|done| |lia|lia|];
      destruct termination; done || lia.
Qed.

Lemma workflow_run_safe limit id rq :
  (1 ≤ ms)%Z → (1 ≤ mc)%Z → (2 * ms + 3 ≤ limit)%Z →
  safe R (λ e, E e ∨ e = ApplicationError AssessmentGenerationError)
    (workflow_run ag tools ms mc limit id rq)
    (λ out, NoDup (RetrievedEvidence.chunk_id <$> out_evidence out) ∧
       ∃ m, out_execution out = SingleAgent m ∧ execution_ok (SingleAgent m) ∧ account_ok m).
Proof.
  intros Hms Hmc Hl. unfold workflow_run, initialize_assessment_state.
  replace (ms <? 1)%Z with false by (symmetry; apply Z.ltb_ge; lia).
  replace (mc <? 1)%Z with false by (symmetry; apply Z.ltb_ge; lia). simpl.
  eapply safe_bind with (P := λ st, ready Reason st ∧ step st = 0%Z);
    [done|apply safe_of_res; [done|]|].
  { split; [|done]. split; [|by split_and!]. split; simpl; try done; try lia; try constructor; done. }
  intros st0 [Hst0 Hstep0]. eapply safe_bind; [done| |].
  { eapply safe_mono; [apply run_graph_safe; [exact Hst0|done|simpl; lia]|by left|].
    intros st H. exact H. }
  intros st [[Hlim Hst [Hc1 Hc2] Hev Hdoc Hca Htr] Hfin].
  destruct (final_result st) as [result|]; [|by apply safe_raise; [done|right]].
  destruct (termination_reason st) as [termination|] eqn:Ht; [|by apply safe_raise; [done|right]].
  destruct (error st); [by apply safe_raise; [done|right]|]. destruct (Hfin eq_refl) as [_ Hterm].
  destruct (metadata_ok st termination) as [Hex Hacc]; [by split|done..|].
  change (AssessmentExecutionMetadata.mk _ _ _ _ _ _ _ _ _ _) with (metadata_of st termination).
  unfold AssessmentExecutionMetadata.construct. destruct Hex as [Hv Ht']. simpl in Hv. rewrite Hv.
  apply safe_ret; [done|]. split; [done|]. by exists (metadata_of st termination).
Qed.

(** C9: a bounded agent: for every agent whose decisions are valid models and every tool
    registry, a run configured with positive limits and the recursion limit the settings
    demand ([langgraph_recursion_limit >= agent_max_steps * 2 + 3]) never hits the
    recursion limit. It either raises one of the agent's own failures, the failure to encode
    a tool call, or [AssessmentGenerationError], or returns evidence without duplicate chunks and valid
    metadata that gives a true account of the run: one reasoning event per step, numbered
    in order, one tool event per tool call, no limit exceeded, and the reason for which
    the run in fact stopped. *)
Theorem agentic_workflow_bounded limit id rq :
  (1 ≤ ms)%Z → (1 ≤ mc)%Z → (2 * ms + 3 ≤ limit)%Z →
  safe R (λ e, E e ∨ e = ApplicationError AssessmentGenerationError)
    (workflow_run ag tools ms mc limit id rq)
    (λ out, NoDup (RetrievedEvidence.chunk_id <$> out_evidence out) ∧
       ∃ m, out_execution out = SingleAgent m ∧ execution_ok (SingleAgent m) ∧ account_ok m).
Proof. apply workflow_run_safe. Qed.
End workflow.

(** ** The workflow under the assessment service *)

Section neutral_workflow.
Context {J S : Type} `{!Session (Database J) S} `{!SessionLaws (Database J) S}.

(** The single-agent workflow meets what the assessment service demands of it: with an
    agent and tools that leave the assessment tables alone, a run leaves them alone too,
    and the metadata of a run that returns survives persistence. *)
Lemma agentic_workflow_admissible (ag : agent S) (tools : ToolRegistry S)
    {CH : CallHash} E ms mc limit id rq :
  agent_ok ag keeps E → registry_ok keeps tools → (∀ e, unencodable e → E e) →
  (1 ≤ ms)%Z → (1 ≤ mc)%Z → (2 * ms + 3 ≤ limit)%Z →
  neutral (workflow_run ag tools ms mc limit id rq)
    (λ out, execution_ok (out_execution out)).
Proof.
  intros Hag Htools Hhash Hms Hmc Hl. eapply safe_neutral. eapply safe_mono.
  - apply (workflow_run_safe ag tools keeps E ms mc Hag Htools Hhash limit id rq);
      assumption.
  - intros e H. exact H.
  - intros out (_ & m & -> & Hok & _). exact Hok.
Qed.
End neutral_workflow.

(** ** Concrete runs *)

(** An agent that always asks for the same tool, and a tool that does nothing. *)
Definition demo_agent (S : Type) : agent S := Agent
  (λ _ _ _, ret (AgentDecision.mk AgentDecisionType.TOOL
     (Some (AgentToolRequest.mk "search_knowledge" demo_arguments))))
  (λ _ _ _, ret demo_result) (ret (datetime_utc 0)).
Definition demo_registry (S : Type) : ToolRegistry S :=
  MkToolRegistry [MkToolDefinition "search_knowledge" "Search." pydict Ok id
    (λ _, ret demo_tool_result)] None (λ m _, m) None (ret f64_one).

Lemma demo_agent_ok S (R : relation S) `{!PreOrder R} : agent_ok (demo_agent S) R (λ _, False).
Proof. split; intros; by apply safe_ret. Qed.

Lemma demo_registry_ok S (R : relation S) `{!PreOrder R} : registry_ok R (demo_registry S).
Proof.
  split; try done.
  - intros d ->%list_elem_of_singleton raw arguments _. by apply safe_ret.
  - by intros d ->%list_elem_of_singleton raw e.
  - exists (eq f64_one). split; [by apply safe_ret|]. intros a b <- <-.
    eexists. vm_compute. reflexivity.
Qed.

(** Three steps, of which two may call tools: the run of five supersteps, within the nine
    the recursion limit grants, ends by the tool-call limit. *)
Lemma agentic_workflow_bounded_witness :
  safe (λ _ _ : nat, True) (λ e, False ∨ e = ApplicationError AssessmentGenerationError)
    (workflow_run (demo_agent nat) (demo_registry nat) 3 2 9 1%N demo_request)
    (λ out, NoDup (RetrievedEvidence.chunk_id <$> out_evidence out) ∧
       ∃ m, out_execution out = SingleAgent m ∧ execution_ok (SingleAgent m) ∧ account_ok 3 2 m).
Proof.
  assert (PreOrder (λ _ _ : nat, True)) by (by split).
  apply (agentic_workflow_bounded (demo_agent nat) (demo_registry nat)
    (λ _ _, True) (λ _, False) 3 2 (demo_agent_ok nat _) (demo_registry_ok nat _) demo_hash_total); lia.
Defined.

Example demo_workflow_stops :
  match (workflow_run (demo_agent nat) (demo_registry nat) 3 2 9 1%N
           demo_request 0%nat).2 with
  | Ok (WorkflowOutput _ _ (SingleAgent m)) =>
      (AssessmentExecutionMetadata.steps_used m, AssessmentExecutionMetadata.termination_reason m,
       AgentTraceEvent.tool_status <$> filter is_tool_call (AssessmentExecutionMetadata.trace m))
      = (2%Z, AgentTerminationReason.MAX_TOOL_CALLS_REACHED,
         [Some (lit "completed"); Some (lit "cached")])
  | _ => False
  end.
Proof. vm_compute. reflexivity. Qed.

Lemma agentic_workflow_admissible_witness :
  neutral (S := memory (Database payload))
    (workflow_run (demo_agent _) (demo_registry _) 3 2 9 1%N demo_request)
    (λ out, execution_ok (out_execution out)).
Proof.
  apply (agentic_workflow_admissible (demo_agent _) (demo_registry _)
    (λ _, False) 3 2); [apply demo_agent_ok, _|apply demo_registry_ok, _|apply demo_hash_total|lia..].
Defined.
