(* ===== verification/Composition.v ===== *)
(** app/api/dependencies.py, app/providers/factory.py and the verifier of
    app/identity/dependencies.py: the services are built from the settings.

    What validated settings guarantee is what the theorems about the services assume; the
    two configurations for which that fails are exhibited. *)
From S2P Require Import Prelude PyFloat Errors Chunking Domain AgentModels Schemas RuntimeModels.
From S2P Require Import Prompts PyText Unicode ExecutionRouter Session Storage Repositories Telemetry.
From S2P Require Import Identity Governance GovernanceSpec MemorySession GovernanceTheorems.
From S2P Require Import Assessments Tools AgentGraph EvidenceAgent MultiAgentGraph.
From S2P Require Import AssessmentRouting AssessmentLifecycle MultiAgentTheorems.
From S2P Require Import KnowledgeStore KnowledgeRepositories KnowledgeRetrieval RetrievalTheorems.
From S2P Require Import KnowledgeTools Ingestion AgentGraphTheorems Settings.

Import Settings.

(** ** app/providers/factory.py *)

(** [RetryPolicy(max_retries=..., base_delay_ms=...)]: the other fields take their defaults,
    4000 milliseconds and 0.1. *)
Definition default_jitter : pyfloat := float_dyadic 7205759403792794 56.
Definition provider_retry_policy (s : Settings.t) : res RetryPolicy.t :=
  RetryPolicy.construct
    (RetryPolicy.mk (provider_max_retries s) (provider_retry_base_delay_ms s) 4000 default_jitter).

(** ** app/identity/dependencies.py *)

(** What a verifier is built with: a key or the address of a key set. *)
Inductive verifier_key := LocalKey (key : pystr) (algorithm : JwtAlgorithm.t) | KeySet (url : pystr).
Record verifier_config := VerifierConfig {
  vc_key : verifier_key;
  vc_issuer : pystr;
  vc_audience : pystr;
  vc_leeway_seconds : Z
}.

Definition get_token_verifier (s : Settings.t) : res (option verifier_config) :=
  if negb (auth_enabled s) then Ok None
  else
    match auth_jwt_issuer s, auth_jwt_audience s with
    | Some issuer, Some audience =>
        if given (auth_jwks_url s) then
          Ok (Some (VerifierConfig (KeySet (default [] (auth_jwks_url s))) issuer audience
                      (auth_jwt_leeway_seconds s)))
        else
          match auth_jwt_verification_key s with
          | None => Raise (ApplicationError AuthenticationRequiredError)
          | Some key =>
              Ok (Some (VerifierConfig (LocalKey key (auth_jwt_algorithm s)) issuer audience
                          (auth_jwt_leeway_seconds s)))
          end
    | _, _ => Raise (ApplicationError AuthenticationRequiredError)
    end.

(** ** app/api/dependencies.py *)

Definition get_runtime_risk_policy (s : Settings.t) : res RuntimeRiskPolicy.t :=
  let policy := RuntimeRiskPolicy.mk (runtime_medium_risk_decision s) (runtime_high_risk_decision s)
    (runtime_critical_risk_decision s) (runtime_review_on_insufficient_evidence s)
    (runtime_review_on_degraded_execution s) (runtime_review_on_specialist_unavailable s)
    (runtime_review_on_tool_failure s) (runtime_block_high_risk_invalid_provenance s)
    (runtime_block_critical_missing_mitigation s) (max_human_revisions s) in
  if RuntimeRiskPolicy.valid policy then Ok policy else Raise ValidationError.

Definition get_runtime_governance_service (s : Settings.t)
    (metrics : RuntimeMetricsRecorder.t) : res GovernanceConfig.t :=
  res_bind (get_runtime_risk_policy s) (λ policy,
  Ok (GovernanceConfig.mk policy (model_input_cost_per_1m_tokens s)
        (model_output_cost_per_1m_tokens s) (Some metrics))).

Definition get_knowledge_ingestion_service {S} (embeddings : list pystr → M S (list (list pyfloat)))
    (s : Settings.t) : ingestion S :=
  Ingestion embeddings (rag_chunk_size s) (rag_chunk_overlap s).

Definition get_retrieval_service {S} (embeddings : list pystr → M S (list (list pyfloat)))
    (s : Settings.t) : vector_search S :=
  VectorSearch embeddings (rag_retrieval_top_k s) (rag_similarity_threshold s).

Definition get_graph_retrieval_service (s : Settings.t) : option graph_search :=
  if knowledge_graph_enabled s
  then Some (GraphSearch (graph_max_depth s) (graph_max_entities s) (graph_min_confidence s))
  else None.

Section retrieval.
Context {S : Type} `{!Session knowledge S} {cosine : CosineDistance} {udb : UnicodeDB}.
Context {C : Collation}.

Definition get_assessment_rag_service (retrieval : vector_search S) (graph : option graph_search)
    (s : Settings.t) : option (AssessmentRequest.t → M S preparation) :=
  if negb (rag_enabled s) then None
  else
    match graph with
    | Some graph => Some (hybrid_prepare retrieval graph)
    | None => Some (rag_prepare retrieval)
    end.

(** The registries of the single agent and of the evidence agent. *)
Context (schemas : tool_schemas).
Context (timeout_runner : M S ToolExecutionResult.t → pyfloat → M S ToolExecutionResult.t).
Context (metrics : option (M RuntimeMetricsRecorder.t unit → M S unit)).
Context (perf_counter : M S pyfloat).

Definition get_agent_tool_registry (retrieval : vector_search S) (s : Settings.t) :
    res (ToolRegistry S) :=
  build_knowledge_tool_registry schemas retrieval None (Some (tool_timeout_seconds s))
    timeout_runner metrics perf_counter.
Definition get_evidence_tool_registry (retrieval : vector_search S) (graph : option graph_search)
    (s : Settings.t) : res (ToolRegistry S) :=
  build_knowledge_tool_registry schemas retrieval graph (Some (tool_timeout_seconds s))
    timeout_runner metrics perf_counter.
End retrieval.

Section workflows.
Context {S : Type} {CH : CallHash} {udb : UnicodeDB}.

(** Whether the single-agent workflow is built. *)
Definition single_agent_selected (s : Settings.t) : bool :=
  match execution_mode_override s with
  | Some mode => bool_decide (mode = ExecutionMode.SINGLE_AGENT)
  | None =>
      if execution_routing_enabled s then agentic_workflow_enabled s
      else agentic_workflow_enabled s && negb (multi_agent_workflow_enabled s)
  end.
Definition multi_agent_selected (s : Settings.t) : bool :=
  match execution_mode_override s with
  | Some mode => bool_decide (mode = ExecutionMode.MULTI_AGENT)
  | None => multi_agent_workflow_enabled s
  end.

Definition get_agentic_assessment_workflow (ag : agent S) (tools : ToolRegistry S)
    (s : Settings.t) : option (uuid → AssessmentRequest.t → M S workflow_output) :=
  if single_agent_selected s
  then Some (workflow_run ag tools (agent_max_steps s) (agent_max_tool_calls s)
               (langgraph_recursion_limit s))
  else None.

Definition get_evidence_agent (provider : evidence_provider S) (tools : ToolRegistry S)
    (decision_input : AssessmentRequest.t → Observations.t → Z → Z → pystr)
    (brief_input : AssessmentRequest.t → Observations.t → pystr) (s : Settings.t) :
    AssessmentRequest.t → M S EvidenceAgentOutcome.t :=
  gather provider tools decision_input brief_input (evidence_agent_max_steps s)
    (evidence_agent_max_tool_calls s).

(** [architecture_first] is the order in which the graph library runs the two branches. *)
Definition get_multi_agent_assessment_workflow (sp : specialists S) (architecture_first : bool)
    (s : Settings.t) : option (uuid → AssessmentRequest.t → M S workflow_output) :=
  if multi_agent_selected s
  then Some (multi_agent_run sp architecture_first (multi_agent_max_failures s))
  else None.

Definition get_execution_router (s : Settings.t) :
    option (AssessmentRequest.t → res ExecutionRoutingDecision.t) :=
  match execution_mode_override s with
  | Some mode => Some (route (Some mode))
  | None => if execution_routing_enabled s then Some (route None) else None
  end.

(** The collaborators that are built on the structured model provider, which takes the
    retry policy. *)
Record model_collaborators := ModelCollaborators {
  mc_generator : RetryPolicy.t → AssessmentPrompt.t → M S AssessmentResult.t;
  mc_agent : RetryPolicy.t → agent S;
  mc_specialists : RetryPolicy.t → specialists S
}.

Definition get_assessment_service (mc : model_collaborators)
    (rag : option (AssessmentRequest.t → M S preparation)) (tools : ToolRegistry S)
    (architecture_first : bool) (perf_counter : M S pyfloat)
    (metrics : RuntimeMetricsRecorder.t) (s : Settings.t) : res (services S) :=
  res_bind (provider_retry_policy s) (λ retry,
  res_bind (get_runtime_governance_service s metrics) (λ governance,
  Ok (Services _ perf_counter (mc_generator mc retry) rag
        (get_agentic_assessment_workflow (mc_agent mc retry) tools s)
        (get_multi_agent_assessment_workflow (mc_specialists mc retry) architecture_first s)
        (if runtime_risk_gate_enabled s then Some governance else None)
        (get_execution_router s)))).
End workflows.
Arguments model_collaborators : clear implicits.

(** ** What validation guarantees *)

Section validated.
Context {url : UrlSplit} {udb : UnicodeDB} (s : Settings.t) (Hload : load_settings s = Ok s).

Lemma loaded : fields_ok s = true ∧ validate_chunk_settings s = Ok tt.
Proof.
  unfold load_settings in Hload. destruct (fields_ok s); [|done].
  by destruct (validate_chunk_settings s) as [[]|].
Qed.

(** The bounds of the single fields. *)
Lemma field_bounds :
  (200 ≤ rag_chunk_size s)%Z ∧ (0 ≤ rag_chunk_overlap s)%Z ∧
  (1 ≤ rag_retrieval_top_k s ≤ 20)%Z ∧ (1 ≤ graph_max_depth s ≤ 5)%Z ∧
  (1 ≤ graph_max_entities s ≤ 100)%Z ∧ (1 ≤ agent_max_steps s)%Z ∧
  (1 ≤ agent_max_tool_calls s)%Z ∧ (1 ≤ evidence_agent_max_steps s)%Z ∧
  (1 ≤ evidence_agent_max_tool_calls s)%Z ∧ (0 ≤ multi_agent_max_failures s ≤ 2)%Z ∧
  (0 ≤ max_human_revisions s ≤ 10)%Z ∧ (0 ≤ provider_max_retries s ≤ 10)%Z ∧
  (0 ≤ provider_retry_base_delay_ms s ≤ 60000)%Z.
Proof.
  destruct loaded as [H _]. unfold fields_ok, in_range in H.
  rewrite !andb_true_iff, !Z.leb_le in H. lia.
Qed.

Lemma ensure_then b k : ensure b >>> k = Ok tt → b = true ∧ k = Ok tt.
Proof. by destruct b. Qed.

Lemma and_then_ok r k : r >>> k = Ok tt → r = Ok tt ∧ k = Ok tt.
Proof. by destruct r as [[]|]. Qed.
Lemma ensure_ok b : ensure b = Ok tt → b = true.
Proof. by destruct b. Qed.
Lemma when_ok b r : when b r = Ok tt → b = true → r = Ok tt.
Proof. by destruct b. Qed.

Lemma retry_policy_cases :
  provider_retry_policy s =
  if Z.leb (provider_retry_base_delay_ms s) 4000
  then Ok (RetryPolicy.mk (provider_max_retries s) (provider_retry_base_delay_ms s) 4000
             default_jitter)
  else Raise ValidationError.
Proof.
  destruct field_bounds as (_ & _ & _ & _ & _ & _ & _ & _ & _ & _ & _ & [Hr1 Hr2] & [Hd1 Hd2]).
  unfold provider_retry_policy, RetryPolicy.construct, RetryPolicy.valid.
  cbn -[float_of_Z fleb default_jitter Z.leb].
  apply Z.leb_le in Hr1, Hr2, Hd1, Hd2. rewrite Hr1, Hr2, Hd1, Hd2.
  assert (fleb (float_of_Z 0) default_jitter = true) as -> by (vm_compute; reflexivity).
  assert (fleb default_jitter (float_of_Z 1) = true) as -> by (vm_compute; reflexivity).
  by destruct (Z.leb (provider_retry_base_delay_ms s) 4000).
Qed.

Lemma risk_policy_built : ∃ policy,
  get_runtime_risk_policy s = Ok policy ∧
  RuntimeRiskPolicy.max_human_revisions policy = max_human_revisions s.
Proof.
  destruct field_bounds as (_ & _ & _ & _ & _ & _ & _ & _ & _ & _ & [H1 H2] & _).
  unfold get_runtime_risk_policy, RuntimeRiskPolicy.valid. simpl.
  apply Z.leb_le in H1, H2. rewrite H1, H2. by eexists.
Qed.

Lemma recursion_limit_suffices :
  agentic_workflow_enabled s = true →
  (2 * agent_max_steps s + 3 ≤ langgraph_recursion_limit s)%Z.
Proof.
  intros Ha. destruct loaded as [_ H]. unfold validate_chunk_settings in H.
  apply and_then_ok in H as [_ H]. apply and_then_ok in H as [H _].
  apply ensure_ok in H. rewrite Ha in H. simpl in H.
  apply negb_true_iff, Z.ltb_ge in H. lia.
Qed.

(** The checks of the identity provider run when authentication is on and in production. *)
Lemma environment_checked :
  if decide (environment s = Environment.PRODUCTION)
  then _validate_production_settings s = Ok tt
  else when (auth_enabled s) (_validate_auth_settings s) = Ok tt.
Proof.
  destruct loaded as [_ H]. unfold validate_chunk_settings in H.
  do 7 apply and_then_ok in H as [_ H]. by case_decide.
Qed.

Lemma production_identity_checked :
  environment s = Environment.PRODUCTION →
  auth_enabled s = true ∧ _validate_auth_settings s = Ok tt ∧ production_identity s = Ok tt.
Proof.
  intros He. pose proof environment_checked as H. rewrite decide_True in H by done.
  unfold _validate_production_settings in H. do 10 apply and_then_ok in H as [_ H].
  apply and_then_ok in H as [Ha H]. apply and_then_ok in H as [Hv H].
  by apply ensure_ok in Ha.
Qed.

Lemma auth_checked : auth_enabled s = true → _validate_auth_settings s = Ok tt.
Proof.
  intros Ha. destruct (decide (environment s = Environment.PRODUCTION)) as [He|He].
  - by apply production_identity_checked.
  - pose proof environment_checked as H. rewrite decide_False in H by done.
    by eapply when_ok.
Qed.

(** A verifier is built exactly when authentication is on, with an issuer and an audience. *)
Lemma verifier_built :
  if auth_enabled s
  then ∃ issuer audience, auth_jwt_issuer s = Some issuer ∧ auth_jwt_audience s = Some audience ∧
    truthy issuer = true ∧ truthy audience = true ∧
    ∃ key, get_token_verifier s =
      Ok (Some (VerifierConfig key issuer audience (auth_jwt_leeway_seconds s))) ∧
    match key with
    | KeySet address => auth_jwks_url s = Some address ∧ truthy address = true ∧
                    auth_jwt_verification_key s = None
    | LocalKey k _ => auth_jwt_verification_key s = Some k ∧ given (auth_jwks_url s) = false
    end
  else get_token_verifier s = Ok None.
Proof.
  unfold get_token_verifier. destruct (auth_enabled s) eqn:Ha; [|done]. simpl.
  pose proof (auth_checked Ha) as H. unfold _validate_auth_settings in H.
  apply ensure_then in H as [H1 H]. apply ensure_then in H as [H2 H].
  apply and_then_ok in H as [_ H]. apply ensure_ok, andb_true_iff in H as [H3 H4].
  destruct (auth_jwt_issuer s) as [issuer|]; [|done].
  destruct (auth_jwt_audience s) as [audience|]; [|done].
  exists issuer, audience. do 4 (split; [done|]).
  destruct (auth_jwks_url s) as [address|]; destruct (auth_jwt_verification_key s) as [k|];
    unfold given in *; simpl in *; try done.
  - destruct (truthy address) eqn:Ht; simpl in *; [done|]. by eexists.
  - rewrite H1. by eexists.
  - by eexists.
Qed.

Lemma chunking_accepted text :
  ∃ chunks, chunk_text text (rag_chunk_size s) (rag_chunk_overlap s) = Ok chunks.
Proof.
  destruct field_bounds as (H1 & H2 & _), loaded as [_ H3].
  unfold validate_chunk_settings in H3. apply ensure_then in H3 as [H3 _]. apply Z.ltb_lt in H3.
  unfold chunk_text. destruct (Z.leb_spec (rag_chunk_size s) 0); [lia|].
  destruct (Z.ltb_spec (rag_chunk_overlap s) 0); [lia|].
  destruct (Z.leb_spec (rag_chunk_size s) (rag_chunk_overlap s)); [lia|]. by eexists.
Qed.

(** C33: validated settings fit the components built from them: the chunker never refuses
    its parameters, the search limits are the ones the retrieval theorems assume, the gate
    policy is a valid model, a token verifier is built exactly when authentication is on,
    with an issuer and an audience and from exactly one of a key and a key set, and the
    single agent the flags enable has the recursion limit its step limit needs. *)
Theorem validated_settings_fit {S} (embed : list pystr → M S (list (list pyfloat))) :
  (∀ text, ∃ chunks,
     chunk_text text (in_chunk_size (get_knowledge_ingestion_service embed s))
       (in_chunk_overlap (get_knowledge_ingestion_service embed s)) = Ok chunks) ∧
  (1 ≤ vs_top_k (get_retrieval_service embed s) ≤ 20)%Z ∧
  (∀ graph, get_graph_retrieval_service s = Some graph →
     graph_search_ok graph ∧ (gs_max_entities graph ≤ 100)%Z) ∧
  (∃ policy, get_runtime_risk_policy s = Ok policy ∧
     (0 ≤ RuntimeRiskPolicy.max_human_revisions policy ≤ 10)%Z) ∧
  (if auth_enabled s
   then ∃ verifier, get_token_verifier s = Ok (Some verifier) ∧
     truthy (vc_issuer verifier) = true ∧ truthy (vc_audience verifier) = true ∧
     match vc_key verifier with
     | KeySet address => auth_jwks_url s = Some address ∧ auth_jwt_verification_key s = None
     | LocalKey key _ => auth_jwt_verification_key s = Some key ∧ given (auth_jwks_url s) = false
     end
   else get_token_verifier s = Ok None) ∧
  (execution_mode_override s = None → single_agent_selected s = true →
   (2 * agent_max_steps s + 3 ≤ langgraph_recursion_limit s)%Z).
Proof.
  pose proof field_bounds as (_ & _ & Hk & Hd & He & _ & _ & _ & _ & _ & Hr & _).
  split; [apply chunking_accepted|]. split; [done|]. split_and!.
  - intros graph. unfold get_graph_retrieval_service. destruct (knowledge_graph_enabled s); [|done].
    intros [= <-]. unfold graph_search_ok. simpl. lia.
  - destruct risk_policy_built as (policy & Hp & Hm). exists policy. by rewrite Hm.
  - pose proof verifier_built as H. destruct (auth_enabled s); [|done].
    destruct H as (issuer & audience & _ & _ & Hi & Ha & key & Hv & H).
    eexists. split; [exact Hv|]. simpl. split_and!; [done..|]. by destruct key; intuition.
  - intros Ho Hs. apply recursion_limit_suffices. unfold single_agent_selected in Hs.
    rewrite Ho in Hs. destruct (execution_routing_enabled s); [done|].
    by apply andb_true_iff in Hs as [? _].
Qed.

(** a production deployment is closed: validated production settings have no debugging
    aid and no wildcard host or origin, name a database whose address holds no
    placeholder, and always build a token verifier, whose keys come from an HTTPS address
    or are a secret of at least 32 characters without a placeholder; no request without
    credentials reaches a reviewer endpoint. *)
Theorem production_is_closed :
  environment s = Environment.PRODUCTION →
  debug s = false ∧ log_exception_tracebacks s = false ∧
  lit "*" ∉ parsed_cors_allowed_origins s ∧
  lit "*" ∉ parsed_trusted_hosts s ∧ parsed_trusted_hosts s ≠ [] ∧
  (∃ address, database_url s = Some address ∧ has_placeholder (str_strip address) = false) ∧
  (∃ verifier, get_token_verifier s = Ok (Some verifier) ∧
     match vc_key verifier with
     | KeySet address => ∃ parts, urlsplit address = Ok parts ∧
         SplitResult.scheme parts = lit "https" ∧ SplitResult.netloc parts ≠ []
     | LocalKey key _ => (32 ≤ length (str_strip key))%nat ∧
                         has_placeholder (str_strip key) = false
     end) ∧
  ∀ verify, reviewer_endpoint (auth_enabled s) None verify =
    Raise (ApplicationError AuthenticationRequiredError).
Proof.
  intros He. pose proof environment_checked as H. rewrite decide_True in H by done.
  destruct (production_identity_checked He) as (Ha & Hv & Hi).
  unfold _validate_production_settings in H.
  apply ensure_then in H as [Hdebug H]. apply ensure_then in H as [Htrace H].
  apply ensure_then in H as [Horig H]. apply ensure_then in H as [_ H].
  apply ensure_then in H as [Hhosts H]. apply and_then_ok in H as [Hdb _].
  apply negb_true_iff in Hdebug, Htrace, Horig. apply andb_true_iff in Hhosts as [Hne Hhosts].
  apply negb_true_iff in Hhosts. apply bool_decide_eq_false in Horig, Hhosts.
  do 4 (split; [done|]).
  split; [by destruct (parsed_trusted_hosts s)|]. split.
  { unfold production_database in Hdb. destruct (database_url s) as [address|]; [|done].
    exists address. split; [done|]. apply ensure_then in Hdb as [_ Hdb].
    by apply ensure_ok, negb_true_iff in Hdb. }
  split; [|by rewrite Ha].
  pose proof verifier_built as H'. rewrite Ha in H'.
  destruct H' as (issuer & audience & _ & _ & _ & _ & key & Hver & Hkey).
  eexists. split; [exact Hver|]. simpl. unfold production_identity in Hi.
  destruct key as [key algorithm|address].
  - destruct Hkey as [Hk Hno]. rewrite Hno, Hk in Hi.
    apply ensure_ok, andb_true_iff in Hi as [Hlen Hp]. apply Z.leb_le in Hlen.
    apply negb_true_iff in Hp. split; [lia|done].
  - destruct Hkey as (Hurl & Ht & Hnone). unfold _validate_auth_settings in Hv.
    unfold given in *. rewrite Hurl in *. simpl in *. rewrite Ht in *.
    unfold uses_https in Hi. destruct (urlsplit address) as [parts|] eqn:Hsplit; [|done].
    simpl in Hi. apply ensure_ok, bool_decide_eq_true in Hi. exists parts. split; [done|].
    split; [done|]. apply ensure_then in Hv as [_ Hv]. apply ensure_then in Hv as [_ Hv].
    apply and_then_ok in Hv as [Hv _]. simpl in Hv. apply and_then_ok in Hv as [Hv _].
    unfold valid_http_url in Hv. rewrite Hsplit in Hv. simpl in Hv.
    apply ensure_ok, andb_true_iff in Hv as [_ Hv]. by destruct (SplitResult.netloc parts).
Qed.
End validated.

(** ** The assessment service *)

Section service.
Context {url : UrlSplit} {udb : UnicodeDB} {CH : CallHash}.
Context {J S : Type} `{!Session (Database J) S} `{!SessionLaws (Database J) S}.
Context (E : exn → Prop).

(** What is relied on in the parts that are not built here: they leave the assessment tables
    alone, the agent decides validly and fails in known ways, the clocks read. *)
Record collaborators_ok (mc : model_collaborators S)
    (rag : option (AssessmentRequest.t → M S preparation)) (tools : ToolRegistry S)
    (perf_counter : M S pyfloat) : Prop := {
  col_generator retry prompt : neutral (mc_generator mc retry prompt) (λ _, True);
  col_agent retry : agent_ok (mc_agent mc retry) keeps E;
  col_specialists retry : specialists_ok keeps (mc_specialists mc retry);
  col_rag prepare request : rag = Some prepare →
    neutral (prepare request)
      (λ p, opt_all GraphRetrievalExecutionMetadata.valid (prep_graph p) = true);
  col_tools : registry_ok keeps tools;
  col_hash e : unencodable e → E e;
  col_clock db : wp perf_counter (λ db' r, keeps db db' ∧ ∃ t, r = Ok t) db
}.

(** The tokens recorded so far have a finite cost at the configured prices. *)
Definition costs_finite (s : Settings.t) (metrics : RuntimeMetricsRecorder.t) : Prop :=
  ∀ usage, token_usage metrics = Ok usage →
    ∃ cost, calculate_estimated_cost usage (model_input_cost_per_1m_tokens s)
              (model_output_cost_per_1m_tokens s) = Ok cost ∧ opt_all cost_ok cost = true.

Lemma get_execution_router_ok s route request :
  get_execution_router s = Some route →
  ∃ d, route request = Ok d ∧ ExecutionRoutingDecision.valid d = true.
Proof.
  intros H. assert (∃ forced, route = ExecutionRouter.route forced) as [forced ->].
  { unfold get_execution_router in H. repeat case_match; simplify_eq; by eexists. }
  destruct (route_total forced request) as (reasons & Hl & ->).
  eexists. split; [done|]. unfold ExecutionRoutingDecision.valid, len_in, len_ge, len_le. simpl.
  by rewrite (proj2 (Z.leb_le _ _)), (proj2 (Z.leb_le _ _)) by lia.
Qed.

(** The single agent runs under limits the settings checked, unless it is forced while its
    flag is off. *)
Lemma single_agent_limits s :
  load_settings s = Ok s →
  (execution_mode_override s = Some ExecutionMode.SINGLE_AGENT →
   agentic_workflow_enabled s = true) →
  single_agent_selected s = true →
  (2 * agent_max_steps s + 3 ≤ langgraph_recursion_limit s)%Z.
Proof.
  intros Hload Hforced Hs. apply recursion_limit_suffices; [done|].
  unfold single_agent_selected in Hs. destruct (execution_mode_override s) as [mode|].
  - apply bool_decide_eq_true in Hs as ->. by apply Hforced.
  - destruct (execution_routing_enabled s); [done|]. by apply andb_true_iff in Hs as [? _].
Qed.

Lemma composed_services_ok s mc rag tools architecture_first perf_counter metrics :
  load_settings s = Ok s →
  collaborators_ok mc rag tools perf_counter →
  recorder_ok metrics → costs_finite s metrics →
  (execution_mode_override s = Some ExecutionMode.SINGLE_AGENT →
   agentic_workflow_enabled s = true) →
  (provider_retry_base_delay_ms s ≤ 4000)%Z →
  ∃ svc, get_assessment_service mc rag tools architecture_first perf_counter metrics s = Ok svc ∧
    services_ok svc.
Proof.
  intros Hload [Hgen Hag Hsp Hrag Htools Hhash Hclock] Hrec Hcost Hforced Hdelay.
  pose proof (field_bounds s Hload) as (_ & _ & _ & _ & _ & Hms & Hmc & _ & _ & _ & Hrev & _).
  unfold get_assessment_service. rewrite (retry_policy_cases s Hload).
  rewrite (proj2 (Z.leb_le _ _)) by done.
  cbn [res_bind]. unfold get_runtime_governance_service.
  destruct (risk_policy_built s Hload) as (policy & -> & Hpolicy). cbn [res_bind].
  eexists. split; [done|]. split; simpl; [done|done| | | | |].
  - intros prepare Hp request. by apply Hrag.
  - intros run. unfold get_agentic_assessment_workflow.
    destruct (single_agent_selected s) eqn:Hs; [|done]. intros [= <-] id request.
    apply (agentic_workflow_admissible _ _ E); [done..|].
    by apply single_agent_limits.
  - intros run. unfold get_multi_agent_assessment_workflow.
    destruct (multi_agent_selected s); [|done]. intros [= <-] id request.
    by apply multi_agent_workflow_admissible.
  - intros config. destruct (runtime_risk_gate_enabled s); [|done]. intros [= <-].
    split_and!; simpl; [done|lia|exact Hcost].
  - intros request route. apply get_execution_router_ok.
Qed.

(** the assessment service composed from validated settings meets the contract its
    lifecycle theorem states for its collaborators, provided the parts that are not built
    here do: the workflows, the router and the governance it is given satisfy theirs because
    their parameters are the validated ones. The one configuration refused is a retry delay above the fixed
    maximum of 4000 milliseconds. An override always selects its mode, without fallback.
    The one validated configuration outside the theorem forces the single agent while its
    flag is off, which skips the check of the recursion limit. *)
Theorem assessment_service_composed s mc rag tools architecture_first perf_counter metrics :
  load_settings s = Ok s →
  collaborators_ok mc rag tools perf_counter →
  recorder_ok metrics → costs_finite s metrics →
  (execution_mode_override s = Some ExecutionMode.SINGLE_AGENT →
   agentic_workflow_enabled s = true) →
  match get_assessment_service mc rag tools architecture_first perf_counter metrics s with
  | Ok svc =>
      (provider_retry_base_delay_ms s ≤ 4000)%Z ∧ services_ok svc ∧
      ∀ mode request, execution_mode_override s = Some mode →
        ∃ reasons, _route_execution svc request =
          Ok (ResolvedExecutionRoute.mk mode mode reasons [])
  | Raise e => (4000 < provider_retry_base_delay_ms s)%Z ∧ e = ValidationError
  end.
Proof.
  intros Hload Hcol Hrec Hcost Hforced.
  destruct (Z.leb_spec (provider_retry_base_delay_ms s) 4000) as [Hd|Hd].
  2: { unfold get_assessment_service. rewrite (retry_policy_cases s Hload).
       by rewrite (proj2 (Z.leb_gt _ _)). }
  destruct (composed_services_ok s mc rag tools architecture_first perf_counter metrics)
    as (svc & Hsvc & Hok); [done..|]. rewrite Hsvc. split; [done|]. split; [done|].
  unfold get_assessment_service in Hsvc. rewrite (retry_policy_cases s Hload) in Hsvc.
  rewrite (proj2 (Z.leb_le _ _)) in Hsvc by done. cbn [res_bind] in Hsvc.
  destruct (get_runtime_governance_service s metrics); [|done]. injection Hsvc as <-.
  intros mode request Ho. unfold _route_execution. simpl.
  unfold get_execution_router, get_multi_agent_assessment_workflow,
      get_agentic_assessment_workflow, multi_agent_selected, single_agent_selected.
    rewrite Ho. destruct (route_total (Some mode) request) as (reasons & Hl & ->). simpl.
    exists reasons. destruct mode; simpl; apply resolved_route_ok;
      unfold ResolvedExecutionRoute.valid, len_in, len_ge, len_le; simpl;
      by rewrite !(proj2 (Z.leb_le _ _)) by lia.
Qed.
End service.

(** ** Concrete configurations *)

(** [scheme://netloc/...], without queries. *)
Fixpoint split_scheme (acc text : pystr) : option (pystr * pystr) :=
  if str_startswith "://" text then Some (rev acc, drop 3 text)
  else match text with [] => None | c :: text' => split_scheme (c :: acc) text' end.
Fixpoint until_slash (text : pystr) : pystr :=
  match text with
  | [] => []
  | c :: text' => if Z.eqb c 47 then [] else c :: until_slash text'
  end.
#[export] Instance demo_urlsplit : UrlSplit := λ text,
  match split_scheme [] text with
  | Some (scheme, rest) => Ok (SplitResult.mk scheme (until_slash rest) [] [])
  | None => Ok (SplitResult.mk [] [] [] [])
  end.

Example defaults_load : load_settings (udb := ascii_db) defaults = Ok defaults.
Proof. vm_compute. reflexivity. Qed.

Definition production_settings : Settings.t :=
  defaults <| environment := Environment.PRODUCTION |>
    <| database_url := Some (lit "postgresql://db/assessments") |>
    <| openai_api_key := Some (lit "sk-1") |> <| auth_enabled := true |>
    <| auth_jwt_verification_key := Some (lit "0123456789abcdef0123456789abcdef") |>
    <| auth_jwt_issuer := Some (lit "idp") |> <| auth_jwt_audience := Some (lit "platform") |>.
Example production_loads :
  load_settings (udb := ascii_db) production_settings = Ok production_settings.
Proof. vm_compute. reflexivity. Qed.
Example placeholder_secret_refused :
  load_settings (udb := ascii_db) (production_settings
    <| auth_jwt_verification_key := Some (lit "Change-Me-0123456789abcdef0123456789") |>)
  = Raise ValidationError.
Proof. vm_compute. reflexivity. Qed.

Definition demo_collaborators : model_collaborators (memory (Database payload)) :=
  ModelCollaborators (λ _ _, ret demo_result) (λ _, demo_agent _) (λ _, demo_specialists _).

Lemma demo_collaborators_ok :
  collaborators_ok (J := payload) (λ _, False) demo_collaborators None (demo_registry _)
    (ret f64_one).
Proof.
  split.
  - intros retry prompt s. done.
  - intros retry. apply demo_agent_ok, _.
  - intros retry. apply (demo_specialists_ok _ keeps).
  - done.
  - apply demo_registry_ok, _.
  - apply demo_hash_total.
  - intros db. split; [done|]. by exists f64_one.
Qed.

(** A retry delay the settings accept and no retry policy does. *)
Definition slow_retries : Settings.t := defaults <| provider_retry_base_delay_ms := 5000%Z |>.
Example slow_retries_refused :
  load_settings (udb := ascii_db) slow_retries = Ok slow_retries ∧
  provider_retry_policy slow_retries = Raise ValidationError.
Proof. by vm_compute. Qed.

(** The single agent forced while its flag is off: its settings load, and a run of an agent
    that keeps asking for tools ends in the graph library's recursion error. *)
Definition forced_agent : Settings.t :=
  defaults <| execution_mode_override := Some ExecutionMode.SINGLE_AGENT |>
    <| agent_max_steps := 50%Z |> <| agent_max_tool_calls := 50%Z |>.
Example forced_agent_recursion :
  load_settings (udb := ascii_db) forced_agent = Ok forced_agent ∧
  match get_agentic_assessment_workflow (demo_agent nat) (demo_registry nat) forced_agent with
  | Some run => (run 1%N demo_request 0%nat).2 = Raise GraphRecursionError
  | None => False
  end.
Proof. by vm_compute. Qed.

Lemma validated_settings_fit_witness :
  ∃ verifier, get_token_verifier production_settings = Ok (Some verifier) ∧
    vc_issuer verifier = lit "idp".
Proof.
  destruct (validated_settings_fit (udb := ascii_db) production_settings production_loads
    (λ _, of_res (S := nat) (Ok []))) as (_ & _ & _ & _ & H & _).
  destruct H as (verifier & Hv & _). exists verifier. split; [exact Hv|].
  revert Hv. intros [= <-]. reflexivity.
Defined.

Lemma production_is_closed_witness :
  reviewer_endpoint (db := ascii_db) (auth_enabled production_settings) None None =
    Raise (ApplicationError AuthenticationRequiredError).
Proof.
  apply (production_is_closed (udb := ascii_db) production_settings production_loads eq_refl).
Defined.

Lemma assessment_service_composed_witness :
  let s := defaults <| agentic_workflow_enabled := true |>
             <| multi_agent_workflow_enabled := true |> <| runtime_risk_gate_enabled := true |> in
  match get_assessment_service (udb := ascii_db) demo_collaborators None (demo_registry _) true
          (ret f64_one) RuntimeMetricsRecorder.empty s with
  | Ok svc => services_ok (J := payload) svc
  | Raise _ => False
  end.
Proof.
  intros s.
  pose proof (assessment_service_composed (udb := ascii_db) (J := payload) (λ _, False) s
    demo_collaborators None (demo_registry _) true (ret f64_one) RuntimeMetricsRecorder.empty) as H.
  assert (costs_finite s RuntimeMetricsRecorder.empty) as Hcosts.
  { intros usage [= <-]. by exists None. }
  specialize (H ltac:(by vm_compute) demo_collaborators_ok ltac:(done) Hcosts ltac:(done)).
  destruct (get_assessment_service _ _ _ _ _ _ s); [apply H|].
  destruct H as [Hdelay _]. change (4000 < 250)%Z in Hdelay. lia.
Defined.
