(* ===== verification/FloatRatio.v ===== *)
(** Ratios of counts as floats: Python's true division of two integers, and the sum and the
    mean of a list of floats as [sum] computes them since Python 3.12.

    The quotient of two counts [0 <= a <= b] is a float between 0 and 1 which is 0 only when
    [a] is and 1 only when [a] is [b]: rounding never completes an incomplete score. *)
From Stdlib Require Import Floats.SpecFloat.
From S2P Require Import Prelude Errors PyFloat FloatOrder.

(** [a / b] for integers below 2^53, which are floats exactly, and [0 < b]. *)
Definition int_ratio (a b : Z) : pyfloat := fdiv (float_of_Z a) (float_of_Z b).

Definition fabs (x : pyfloat) : pyfloat := SFabs x.
Definition is_finite (x : pyfloat) : bool :=
  match x with S754_zero _ | S754_finite _ _ _ => true | _ => false end.

(** [sum] of floats: the running sum and its compensation (Neumaier). *)
Fixpoint sum_floats_from (s c : pyfloat) (l : list pyfloat) : pyfloat :=
  match l with
  | [] => if negb (feqb c f64_zero) && is_finite c then fadd s c else s
  | x :: l' =>
      let t := fadd s x in
      let lost := if fleb (fabs x) (fabs s) then fadd (fsub s t) x else fadd (fsub x t) s in
      sum_floats_from t (fadd c lost) l'
  end.
Definition sum_floats (l : list pyfloat) : pyfloat :=
  match l with
  | [] => f64_zero
  | x :: l' => sum_floats_from (fadd f64_zero x) f64_zero l'
  end.

(** The mean of the values that are present, [None] when there is none. *)
Definition average (values : list (option pyfloat)) : option pyfloat :=
  match omap id values with
  | [] => None
  | present => Some (fdiv (sum_floats present) (float_of_Z (Z.of_nat (length present))))
  end.

(** [0.0 <= x <= 1.0], the constraint of every score. *)
Definition unit_score (x : pyfloat) : bool := fleb f64_zero x && fleb x f64_one.

Example ratio_third : fltb (int_ratio 1 3) f64_one = true.
Proof. vm_compute. reflexivity. Qed.
Example average_mean : average [Some (int_ratio 1 2); None; Some f64_one] = Some (int_ratio 3 4).
Proof. vm_compute. reflexivity. Qed.
(** The compensation matters: naively, ten times 0.1 is less than 1. *)
Example sum_compensated : sum_floats (replicate 10 (int_ratio 1 10)) = f64_one.
Proof. vm_compute. reflexivity. Qed.

(** ** Digits *)

Lemma digits_bounds p :
  (2 ^ (Z.pos (digits2_pos p) - 1) ≤ Z.pos p < 2 ^ Z.pos (digits2_pos p))%Z.
Proof.
  induction p as [p IH|p IH|]; simpl digits2_pos; [| |done];
    rewrite Pos2Z.inj_succ; unfold Z.succ;
    replace (Z.pos (digits2_pos p) + 1 - 1)%Z with (Z.pos (digits2_pos p) - 1 + 1)%Z by lia;
    rewrite !Z.pow_add_r by lia; lia.
Qed.

Lemma digits_unique p d :
  (0 ≤ d)%Z → (2 ^ d ≤ Z.pos p < 2 ^ (d + 1))%Z → Z.pos (digits2_pos p) = (d + 1)%Z.
Proof.
  intros Hd Hp. pose proof (digits_bounds p) as Hb.
  assert (d < Z.pos (digits2_pos p))%Z.
  { apply (Z.pow_lt_mono_r_iff 2); lia. }
  assert (Z.pos (digits2_pos p) - 1 < d + 1)%Z; [|lia].
  apply (Z.pow_lt_mono_r_iff 2); lia.
Qed.

Lemma fexp_normal e : (-1074 ≤ e)%Z → fexp f64_prec f64_emax (53 + e) = e.
Proof. unfold fexp, emin, f64_prec, f64_emax. lia. Qed.

(** ** Integers as floats *)

(** The mantissa has its 53 digits. *)
Definition normal_mantissa (m : positive) : Prop := (2 ^ 52 ≤ Z.pos m < 2 ^ 53)%Z.

Lemma normal_digits m : normal_mantissa m → Z.pos (digits2_pos m) = 53%Z.
Proof. intros Hm. by apply (digits_unique m 52). Qed.

Lemma shr_fexp_normal m e l :
  normal_mantissa m → (-1074 ≤ e)%Z →
  shr_fexp f64_prec f64_emax (Z.pos m) e l = (shr_record_of_loc (Z.pos m) l, e).
Proof.
  intros Hm He. unfold shr_fexp. cbn [Zdigits2]. rewrite (normal_digits m Hm), fexp_normal by done.
  by rewrite Z.sub_diag.
Qed.

Lemma shr_fexp_wide m e l :
  (2 ^ 53 ≤ Z.pos m < 2 ^ 54)%Z → (-1074 ≤ e)%Z →
  shr_fexp f64_prec f64_emax (Z.pos m) e l = (shr_1 (shr_record_of_loc (Z.pos m) l), (e + 1)%Z).
Proof.
  intros Hm He. unfold shr_fexp. cbn [Zdigits2]. rewrite (digits_unique m 53) by lia.
  change (53 + 1 + e)%Z with (54 + e)%Z.
  replace (54 + e)%Z with (53 + (e + 1))%Z by lia. rewrite fexp_normal by lia.
  by replace (e + 1 - e)%Z with 1%Z by lia.
Qed.

Lemma round_normal_exact m e :
  normal_mantissa m → (-1074 ≤ e ≤ 0)%Z →
  binary_round_aux f64_prec f64_emax false (Z.pos m) e loc_Exact = S754_finite false m e.
Proof.
  intros Hm He. unfold binary_round_aux. rewrite shr_fexp_normal by (done || lia).
  simpl shr_record_of_loc. cbn [shr_m loc_of_shr_record round_nearest_even].
  rewrite shr_fexp_normal by (done || lia). simpl shr_record_of_loc. cbn [shr_m].
  rewrite (proj2 (Z.leb_le _ _)); [done|]. unfold f64_emax, f64_prec. lia.
Qed.

(** A positive integer below 2^53: its digits shifted to fill the mantissa. *)
Lemma iter_double p q : Z.pos (Pos.iter xO p q) = (Z.pos p * 2 ^ Z.pos q)%Z.
Proof.
  induction q as [|q IH] using Pos.peano_ind; [simpl; lia|].
  rewrite Pos.iter_succ, Pos2Z.inj_succ, Z.pow_succ_r by lia.
  change (Z.pos (Pos.iter xO p q)~0) with (2 * Z.pos (Pos.iter xO p q))%Z. lia.
Qed.

Lemma shl_align_fill p d :
  (d ≤ 53)%Z →
  ∃ m, shl_align p 0 (d - 53) = (m, (d - 53)%Z) ∧ Z.pos m = (Z.pos p * 2 ^ (53 - d))%Z.
Proof.
  intros Hd. unfold shl_align. rewrite Z.sub_0_r.
  destruct (d - 53)%Z as [|q|q] eqn:Hq; [|lia|].
  - exists p. split; [done|]. replace (53 - d)%Z with 0%Z by lia. lia.
  - eexists. split; [done|]. rewrite iter_double. do 2 f_equal. lia.
Qed.

Lemma float_of_pos p :
  (Z.pos p < 2 ^ 53)%Z →
  ∃ d m, float_of_Z (Z.pos p) = S754_finite false m (d - 53) ∧ normal_mantissa m ∧
    (1 ≤ d ≤ 53)%Z ∧ (2 ^ (d - 1) ≤ Z.pos p < 2 ^ d)%Z ∧
    Z.pos m = (Z.pos p * 2 ^ (53 - d))%Z.
Proof.
  intros Hp. pose proof (digits_bounds p) as Hb. set (d := Z.pos (digits2_pos p)) in *.
  assert (1 ≤ d ≤ 53)%Z as Hd.
  { split; [lia|]. assert (d - 1 < 53)%Z; [|lia]. apply (Z.pow_lt_mono_r_iff 2); lia. }
  destruct (shl_align_fill p d) as (m & Ha & Hm); [lia|].
  assert (normal_mantissa m) as Hn.
  { unfold normal_mantissa. rewrite Hm. replace 52%Z with (d - 1 + (53 - d))%Z by lia.
    replace (2 ^ 53)%Z with (2 ^ d * 2 ^ (53 - d))%Z by (rewrite <- Z.pow_add_r by lia; f_equal; lia).
    rewrite Z.pow_add_r by lia. pose proof (Z.pow_pos_nonneg 2 (53 - d)). nia. }
  exists d, m. split_and!; try done; try lia.
  unfold float_of_Z, binary_normalize, binary_round. fold d.
  replace (fexp f64_prec f64_emax (d + 0)) with (d - 53)%Z
    by (unfold fexp, emin, f64_prec, f64_emax; lia).
  rewrite Ha. apply round_normal_exact; [done|lia].
Qed.

(** ** Rounding a quotient *)

(** The float [m * 2^e], its mantissa at most 2^53. *)
Definition renormal (m e : Z) : pyfloat :=
  if Z.eqb m (2 ^ 53) then S754_finite false (2 ^ 52) (e + 1) else S754_finite false (Z.to_pos m) e.

Lemma round_up_step m e :
  (2 ^ 52 ≤ m ≤ 2 ^ 53)%Z → (-1074 ≤ e ≤ 0)%Z →
  (let '(mrs, e'') := shr_fexp f64_prec f64_emax m e loc_Exact in
   match shr_m mrs with
   | Z0 => S754_zero false
   | Z.pos p => if Z.leb e'' (f64_emax - f64_prec) then S754_finite false p e'' else S754_infinity false
   | _ => S754_nan
   end) = renormal m e.
Proof.
  intros Hm He. unfold renormal. destruct (Z.eqb_spec m (2 ^ 53)) as [->|Hne].
  - change (2 ^ 53)%Z with (Z.pos (2 ^ 53)) at 1. rewrite shr_fexp_wide by (simpl; lia).
    simpl shr_m. cbv iota beta. rewrite (proj2 (Z.leb_le _ _)); [done|].
    unfold f64_emax, f64_prec. lia.
  - destruct m as [|p|p]; [lia| |lia]. rewrite shr_fexp_normal by (unfold normal_mantissa; lia).
    simpl shr_m. rewrite (proj2 (Z.leb_le _ _)); [done|]. unfold f64_emax, f64_prec. lia.
Qed.

Lemma round_ne_cases m l :
  ∃ u, round_nearest_even m l = (m + u)%Z ∧ (u = 0 ∨ u = 1)%Z ∧ (l = loc_Exact → u = 0%Z).
Proof.
  destruct l as [|[]]; simpl; [exists 0%Z|destruct (Z.even m); [exists 0%Z|exists 1%Z]|exists 0%Z|exists 1%Z];
    split_and!; auto; try lia; done.
Qed.

(** Rounding a quotient of 53 or 54 digits: it is truncated to 53 and perhaps incremented. *)
Lemma round_quotient q e l :
  (2 ^ 52 ≤ q < 2 ^ 54)%Z → (-1074 ≤ e ≤ -1)%Z →
  ∃ m1 e1 u,
    binary_round_aux f64_prec f64_emax false q e l = renormal (m1 + u) e1 ∧
    (2 ^ 52 ≤ m1 < 2 ^ 53)%Z ∧ (u = 0 ∨ u = 1)%Z ∧
    (q < 2 ^ 53 ∧ m1 = q ∧ e1 = e ∨ 2 ^ 53 ≤ q ∧ m1 = q / 2 ∧ e1 = e + 1)%Z ∧
    (l = loc_Exact → (2 ^ 53 ≤ q)%Z → Z.even q = true → u = 0%Z).
Proof.
  intros Hq He. unfold binary_round_aux.
  destruct (Z.lt_ge_cases q (2 ^ 53)) as [Hs|Hs]; destruct q as [|p|p]; try lia.
  - rewrite shr_fexp_normal by (unfold normal_mantissa; lia).
    replace (shr_m (shr_record_of_loc (Z.pos p) l)) with (Z.pos p) by (by destruct l as [|[]]).
    destruct (round_ne_cases (Z.pos p) (loc_of_shr_record (shr_record_of_loc (Z.pos p) l)))
      as (u & -> & Hu & Hx).
    exists (Z.pos p), e, u. rewrite round_up_step by lia. split_and!; try done; try lia.
  - rewrite shr_fexp_wide by lia. set (r := shr_1 _).
    assert (shr_m r = Z.pos p / 2)%Z as Hr.
    { subst r. rewrite <- Z.div2_div. destruct p, l as [|[]]; try done; lia. }
    assert (l = loc_Exact → Z.even (Z.pos p) = true → loc_of_shr_record r = loc_Exact) as Hx.
    { intros -> Hev. subst r. by destruct p. }
    rewrite Hr. destruct (round_ne_cases (Z.pos p / 2) (loc_of_shr_record r)) as (u & -> & Hu & Hx').
    assert (2 ^ 52 ≤ Z.pos p / 2 < 2 ^ 53)%Z as Hh.
    { split; [apply Z.div_le_lower_bound|apply Z.div_lt_upper_bound]; lia. }
    exists (Z.pos p / 2)%Z, (e + 1)%Z, u. rewrite round_up_step by lia.
    split_and!; try done; try lia. intros; by apply Hx', Hx.
Qed.

Lemma new_location_exact n r : new_location n r = loc_Exact ↔ r = 0%Z.
Proof.
  unfold new_location, new_location_even, new_location_odd.
  destruct (Z.even n), (Z.eqb_spec r 0); by subst.
Qed.

(** The division of two integers below 2^53: the integer quotient of their aligned mantissas
    is rounded. *)
Lemma ratio_quotient a b :
  (Z.pos a < 2 ^ 53)%Z → (Z.pos b < 2 ^ 53)%Z →
  ∃ q r D l,
    int_ratio (Z.pos a) (Z.pos b) = binary_round_aux f64_prec f64_emax false q (-53 - D) l ∧
    (2 ^ 52 ≤ q < 2 ^ 54)%Z ∧ (-52 ≤ D ≤ 53 ∧ (Z.pos a ≤ Z.pos b → 0 ≤ D))%Z ∧ (0 ≤ r < Z.pos b)%Z ∧
    (Z.pos a * 2 ^ (53 + D) = q * Z.pos b + r)%Z ∧ (l = loc_Exact ↔ r = 0%Z).
Proof.
  intros Hla Hlb.
  destruct (float_of_pos a) as (da & ma & Ea & Na & Da & Ba & Ma); [lia|].
  destruct (float_of_pos b) as (db & mb & Eb & Nb & Db & Bb & Mb); [lia|].
  assert (Z.pos a ≤ Z.pos b → 0 ≤ db - da)%Z as Hd.
  { intros Hab. assert (da - 1 < db)%Z; [|lia]. apply (Z.pow_lt_mono_r_iff 2); lia. }
  unfold int_ratio, fdiv, SFdiv. rewrite Ea, Eb. unfold SFdiv_core_binary. cbn [Zdigits2].
  rewrite (normal_digits ma Na), (normal_digits mb Nb).
  replace (Z.min _ _) with (da - 53 - (db - 53) - 53)%Z
    by (unfold fexp, emin, f64_prec, f64_emax; lia).
  replace (da - 53 - (db - 53) - (da - 53 - (db - 53) - 53))%Z with 53%Z by lia.
  pose proof (Z.div_eucl_eq (Z.shiftl (Z.pos ma) 53) (Z.pos mb)) as Hdiv.
  pose proof (Z.mod_pos_bound (Z.shiftl (Z.pos ma) 53) (Z.pos mb)) as Hmod.
  unfold Z.modulo in Hmod. destruct (Z.div_eucl _ _) as [q r] eqn:Hqr.
  specialize (Hdiv ltac:(lia)). specialize (Hmod ltac:(lia)).
  rewrite Z.shiftl_mul_pow2 in Hdiv by lia.
  destruct Na as [Na1 Na2], Nb as [Nb1 Nb2].
  assert (2 ^ 52 ≤ q < 2 ^ 54)%Z as Hq by nia. clear Na1 Na2 Nb1 Nb2.
  set (k := (2 ^ (53 - db))%Z) in *. assert (0 < k)%Z as Hk by (apply Z.pow_pos_nonneg; lia).
  assert (Z.pos a * 2 ^ (53 + (db - da)) * k = Z.pos ma * 2 ^ 53)%Z as Hs.
  { rewrite Ma. subst k. rewrite <- !Z.mul_assoc, <- !Z.pow_add_r by lia. do 2 f_equal. lia. }
  set (r0 := (Z.pos a * 2 ^ (53 + (db - da)) - q * Z.pos b)%Z).
  assert (r = r0 * k)%Z as Hr.
  { subst r0. rewrite Z.mul_sub_distr_r, Hs, Hdiv, Mb. lia. }
  exists q, r0, (db - da)%Z, (new_location (Z.pos mb) r). 
  rewrite Hr, Mb in Hmod. fold k in Hmod.
  assert (0 ≤ r0 < Z.pos b)%Z as Hr0.
  { destruct Hmod as [H0 H1]. split; [|by apply (Z.mul_lt_mono_pos_r k)].
    apply (Z.mul_le_mono_pos_r _ _ k); [done|]. by rewrite Z.mul_0_l. }
  split_and!; try lia.
  - f_equal. lia.
  - rewrite new_location_exact. nia.
Qed.

(** ** Scores *)

Lemma fltb_fleb x y : fltb x y = true → fleb x y = true.
Proof. unfold fltb, fleb, SFltb, SFleb. by destruct (SFcompare x y) as [[]|]. Qed.

Lemma renormal_below m e :
  (2 ^ 52 ≤ m ≤ 2 ^ 53)%Z → (e ≤ -53)%Z → (m = 2 ^ 53 → e ≤ -54)%Z →
  fleb f64_zero (renormal m e) = true ∧ fltb f64_zero (renormal m e) = true ∧
  fltb (renormal m e) f64_one = true.
Proof.
  intros Hm He Hmax. unfold renormal.
  change f64_one with (S754_finite false (2 ^ 52) (-52)). change f64_zero with (S754_zero false).
  unfold fleb, fltb, SFleb, SFltb.
  destruct (Z.eqb_spec m (2 ^ 53)); cbn [SFcompare];
    rewrite (proj2 (Z.compare_lt_iff _ _)) by lia; done.
Qed.

(** A proper quotient of positive counts is strictly between 0 and 1. *)
Lemma ratio_proper a b :
  (0 < a < b)%Z → (b < 2 ^ 53)%Z →
  fleb f64_zero (int_ratio a b) = true ∧ fltb f64_zero (int_ratio a b) = true ∧
  fltb (int_ratio a b) f64_one = true.
Proof.
  intros Ha Hb. destruct a as [|a|a], b as [|b|b]; try lia.
  destruct (ratio_quotient a b) as (q & r & D & l & -> & Hq & [HD1 HD] & Hr & Heq & _); [lia..|].
  destruct (round_quotient q (-53 - D) l) as (m1 & e1 & u & -> & Hm & Hu & Hcase & _); [lia..|].
  assert (2 ^ (53 + D) = 2 ^ 53 * 2 ^ D)%Z as Hp by (by rewrite Z.pow_add_r by lia).
  assert (D = 0 ∨ D = 1 ∨ 2 ≤ D)%Z as [->|[->|HD2]] by lia.
  - change (2 ^ (53 + 0))%Z with (2 ^ 53)%Z in Heq. apply renormal_below; [lia| |]; nia.
  - change (2 ^ (53 + 1))%Z with (2 ^ 54)%Z in Heq.
    destruct Hcase as [(? & -> & ->)|(? & -> & ->)]; apply renormal_below; try lia.
    intros Hmax. assert (q / 2 = 2 ^ 53 - 1)%Z as Hh by lia.
    pose proof (Z.mul_div_le q 2). nia.
  - apply renormal_below; lia.
Qed.

Lemma ratio_one a : (0 < a < 2 ^ 53)%Z → int_ratio a a = f64_one.
Proof.
  intros Ha. destruct a as [|a|a]; try lia.
  destruct (ratio_quotient a a) as (q & r & D & l & -> & Hq & [HD1 HD] & Hr & Heq & Hl); [lia..|].
  assert (D = 0)%Z as ->.
  { destruct (Z.eq_dec D 0) as [|HD0]; [done|]. assert (2 ^ 54 ≤ 2 ^ (53 + D))%Z.
    { apply Z.pow_le_mono_r; lia. } nia. }
  assert (q = 2 ^ 53 ∧ r = 0)%Z as [-> ->].
  { apply (Z.div_mod_unique (Z.pos a)); [lia..|].
    change (2 ^ (53 + 0))%Z with (2 ^ 53)%Z in Heq. lia. }
  assert (l = loc_Exact) as -> by tauto. vm_compute. reflexivity.
Qed.

Lemma ratio_zero b : (0 < b < 2 ^ 53)%Z → int_ratio 0 b = f64_zero.
Proof.
  intros Hb. destruct b as [|b|b]; try lia.
  destruct (float_of_pos b) as (d & m & E & _); [lia|]. unfold int_ratio. by rewrite E.
Qed.

(** The quotient of a count by one that bounds it is a score; it is 1 exactly when the counts
    agree, and 0 exactly when the first is 0. *)
Lemma ratio_score a b :
  (0 ≤ a ≤ b)%Z → (0 < b < 2 ^ 53)%Z →
  unit_score (int_ratio a b) = true ∧
  (feqb (int_ratio a b) f64_one = true ↔ a = b) ∧ (feqb (int_ratio a b) f64_zero = true ↔ a = 0%Z).
Proof.
  intros Ha Hb. unfold unit_score.
  destruct (Z.eq_dec a 0) as [->|Ha0]; [rewrite ratio_zero by lia|].
  { split_and!; [done|split; [done|lia]|done]. }
  destruct (Z.eq_dec a b) as [->|Hab]; [rewrite ratio_one by lia|].
  { split_and!; [done|done|split; [done|lia]]. }
  destruct (ratio_proper a b) as (H1 & H2 & H3); [lia..|]. rewrite H1.
  split_and!.
  - by apply fltb_fleb.
  - rewrite feqb_sym. rewrite (fltb_feqb _ _ H3). split; lia.
  - rewrite (fltb_feqb _ _ H2). split; lia.
Qed.

(** ** Monotonicity *)

(** The truncated quotient that is rounded. *)
Lemma ratio_floor a b :
  (0 < a < b)%Z → (b < 2 ^ 53)%Z →
  ∃ m k u, int_ratio a b = renormal (m + u) (- k) ∧ (2 ^ 52 ≤ m < 2 ^ 53)%Z ∧ (u = 0 ∨ u = 1)%Z ∧
    (53 ≤ k)%Z ∧ (m * b ≤ a * 2 ^ k < (m + 1) * b)%Z.
Proof.
  intros Ha Hb. destruct a as [|a|a], b as [|b|b]; try lia.
  destruct (ratio_quotient a b) as (q & r & D & l & -> & Hq & [HD1 HD] & Hr & Heq & _); [lia..|].
  destruct (round_quotient q (-53 - D) l) as (m & e & u & -> & Hm & Hu & Hcase & _); [lia..|].
  exists m, (- e)%Z, u. rewrite Z.opp_involutive. split; [done|]. split; [done|]. split; [done|].
  assert (m * Z.pos b ≤ Z.pos a * 2 ^ (- e) < (m + 1) * Z.pos b)%Z as Hf.
  { destruct Hcase as [(_ & -> & ->)|(_ & -> & ->)].
    - replace (- (-53 - D))%Z with (53 + D)%Z by lia. lia.
    - replace (- (-53 - D + 1))%Z with (52 + D)%Z by lia.
      assert (2 ^ (53 + D) = 2 * 2 ^ (52 + D))%Z as Hp
        by (rewrite <- Z.pow_succ_r by lia; f_equal; lia).
      pose proof (Z.div_mod q 2). pose proof (Z.mod_pos_bound q 2). nia. }
  split; [|done]. assert (52 < - e)%Z; [|lia]. apply (Z.pow_lt_mono_r_iff 2); [lia| |nia].
  destruct Hcase as [(_ & _ & ->)|(_ & _ & ->)]; lia.
Qed.

Lemma renormal_le m e m' e' :
  (2 ^ 52 ≤ m ≤ 2 ^ 53)%Z → (2 ^ 52 ≤ m' ≤ 2 ^ 53)%Z → (e < e' ∨ e = e' ∧ m ≤ m')%Z →
  fleb (renormal m e) (renormal m' e') = true.
Proof.
  intros Hm Hm' Hle. unfold renormal, fleb, SFleb.
  destruct (Z.eqb_spec m (2 ^ 53)), (Z.eqb_spec m' (2 ^ 53)); cbn [SFcompare];
    match goal with |- context [Z.compare ?x ?y] => destruct (Z.compare_spec x y) end; try done; try lia;
    match goal with |- context [Pos.compare_cont Eq ?x ?y] =>
      change (Pos.compare_cont Eq x y) with (Pos.compare x y); destruct (Pos.compare_spec x y) end;
    try done; lia.
Qed.

Lemma ratio_mono a a' b :
  (0 ≤ a ≤ a')%Z → (a' ≤ b)%Z → (0 < b < 2 ^ 53)%Z → fleb (int_ratio a b) (int_ratio a' b) = true.
Proof.
  intros Ha Ha' Hb.
  destruct (ratio_score a' b) as (Hs' & _); [lia..|].
  destruct (ratio_score a b) as (Hs & _); [lia..|].
  unfold unit_score in *. apply andb_true_iff in Hs as [Hs0 Hs1], Hs' as [Hs0' Hs1'].
  destruct (Z.eq_dec a 0) as [->|Ha0]; [by rewrite ratio_zero|].
  destruct (Z.eq_dec a' b) as [->|Hab]; [by rewrite (ratio_one b)|].
  destruct (Z.eq_dec a a') as [<-|Haa'].
  { apply fleb_rank; [by apply (fleb_nan _ _ Hs1)..|]. unfold lex_lt. lia. }
  destruct (ratio_floor a b) as (m & k & u & -> & Hm & Hu & Hk & Hf); [lia..|].
  destruct (ratio_floor a' b) as (m' & k' & u' & Hr & Hm' & Hu' & Hk' & Hf'); [lia..|].
  rewrite Hr. apply renormal_le; [lia..|].
  assert (k' ≤ k)%Z as Hkk.
  { destruct (Z.le_gt_cases k' k) as [|Hgt]; [done|]. exfalso.
    assert (2 ^ k * 2 ≤ 2 ^ k')%Z as Hp.
    { rewrite Z.mul_comm, <- Z.pow_succ_r by lia. apply Z.pow_le_mono_r; lia. }
    assert (a * 2 ^ k * 2 ≤ a' * 2 ^ k')%Z by nia. nia. }
  destruct (Z.eq_dec k' k) as [->|Hne]; [right|left; lia].
  split; [done|]. assert (2 ^ 53 ≤ 2 ^ k)%Z by (apply Z.pow_le_mono_r; lia).
  assert (a * 2 ^ k + 2 ^ k ≤ a' * 2 ^ k)%Z by nia. assert (m < m')%Z; [|lia]. nia.
Qed.

Lemma renormal_above m e :
  (2 ^ 52 ≤ m ≤ 2 ^ 53)%Z → (-52 < e ∨ e = -52 ∧ 2 ^ 52 < m)%Z → fleb (renormal m e) f64_one = false.
Proof.
  intros Hm Hlt. apply not_true_is_false. rewrite fleb_rank; [|by unfold renormal; case_match|done].
  intros Hn. apply Hn. unfold lex_lt, renormal.
  change (rank f64_one) with (1, -52, 2 ^ 52)%Z.
  destruct (Z.eqb_spec m (2 ^ 53)); simpl rank; cbn [fst snd]; rewrite ?Z2Pos.id by lia; lia.
Qed.

(** A count above the other makes more than 1, which no score is. *)
Lemma ratio_above a b : (0 < b < a)%Z → (a < 2 ^ 52)%Z → unit_score (int_ratio a b) = false.
Proof.
  intros Hb Ha. unfold unit_score. apply andb_false_iff. right.
  destruct a as [|a|a], b as [|b|b]; try lia.
  destruct (ratio_quotient a b) as (q & r & D & l & -> & Hq & [HD1 HD] & Hr & Heq & _); [lia..|].
  destruct (round_quotient q (-53 - D) l) as (m & e & u & -> & Hm & Hu & Hcase & _); [lia..|].
  assert (e ≤ 0 ∧ m * Z.pos b ≤ Z.pos a * 2 ^ (- e) < (m + 1) * Z.pos b)%Z as [He Hf].
  { destruct Hcase as [(_ & -> & ->)|(_ & -> & ->)]; (split; [lia|]).
    - replace (- (-53 - D))%Z with (53 + D)%Z by lia. lia.
    - replace (- (-53 - D + 1))%Z with (52 + D)%Z by lia.
      assert (2 ^ (53 + D) = 2 * 2 ^ (52 + D))%Z as Hp
        by (rewrite <- Z.pow_succ_r by lia; f_equal; lia).
      pose proof (Z.div_mod q 2). pose proof (Z.mod_pos_bound q 2). nia. }
  assert (- e < 53)%Z as Hk.
  { apply (Z.pow_lt_mono_r_iff 2); [lia..|]. nia. }
  assert (-52 < e ∨ e = -52 ∧ 2 ^ 52 < m)%Z as Hlt.
  { destruct (Z.eq_dec e (-52)) as [->|]; [right|left; lia]. split; [done|].
    change (- -52)%Z with 52%Z in Hf. nia. }
  apply renormal_above; [lia|]. destruct Hlt as [?|[-> ?]]; [left; lia|right; lia].
Qed.
