(* ===== verification/Providers.v ===== *)
(** app/providers/: the vendor-neutral contract of contracts.py, and the OpenAI and Anthropic
    adapters behind it.

    The vendors' SDKs are outside the repository: a client is a record of the calls the
    adapters make, its requests and responses hold what the adapters write and read, and the
    classes of its exceptions are an interface.  A pydantic model class is a record with its
    JSON schema and its validation. *)
From S2P Require Import Prelude PyText PyFloat Errors Domain AgentModels Schemas RuntimeModels.
From S2P Require Import Session Storage Telemetry Resilience Assessments Tools EvidenceAgent.
From S2P Require Import Settings FloatRatio.

(** ** contracts.py *)

Module ProviderName.
Inductive t := OPENAI | ANTHROPIC.
Definition value (x : t) : pystr :=
  match x with OPENAI => "openai" | ANTHROPIC => "anthropic" end.
End ProviderName.

Module ProviderCapabilities.
Record t := mk {
  structured_output : bool;
  tool_calling : bool;
  usage_reporting : bool;
  embeddings : bool
}.
End ProviderCapabilities.

(** A pydantic model class: its schema, the validation of a value that is not an instance,
    and whether an instance satisfies the constraints of its fields. *)
Record output_model A := OutputModel {
  om_json_schema : pyval;
  om_validate : pyval → res A;
  om_valid : A → bool
}.
Arguments OutputModel {A}.
Arguments om_json_schema {A}.
Arguments om_validate {A}.
Arguments om_valid {A}.

(** The protocol [StructuredModelProvider]. *)
Record StructuredModelProvider S := MkStructuredModelProvider {
  name : ProviderName.t;
  capabilities : ProviderCapabilities.t;
  generate_structured : ∀ A, pystr → pystr → output_model A → M S A;
  decide_tool_call : pystr → pystr → list pydict → Z → M S (option ToolCallDecision.t)
}.
Arguments MkStructuredModelProvider {S}.
Arguments name {S}.
Arguments capabilities {S}.
Arguments generate_structured {S} _ {A}.
Arguments decide_tool_call {S}.

(** The protocol [EmbeddingProvider]. *)
Record EmbeddingProvider S := MkEmbeddingProvider {
  embedding_name : ProviderName.t;
  embedding_capabilities : ProviderCapabilities.t;
  embed_texts : list pystr → M S (list (list pyfloat))
}.
Arguments MkEmbeddingProvider {S}.
Arguments embed_texts {S}.

(** ** What the adapters share *)

(** The exceptions of a vendor: [APITimeoutError]; [RateLimitError], [APIConnectionError] and
    [InternalServerError]; and the base class of all of them.  None is an exception of the
    application or of the language. *)
Class VendorErrors := {
  is_timeout_error : exn → bool;
  is_transient_error : exn → bool;
  is_vendor_error : exn → bool;
  vendor_error_foreign e :
    is_timeout_error e || is_transient_error e || is_vendor_error e = true →
    ∃ name, e = OtherException name ∧ mem name value_error_names = false
}.

(** What an adapter is constructed with, apart from its client and model. *)
Record adapter S := Adapter {
  ad_retry_policy : option RetryPolicy.t;
  ad_timeout_seconds : option pyfloat;
  ad_metrics : option (M RuntimeMetricsRecorder.t unit → M S unit);
  ad_perf_counter : M S pyfloat;
  ad_sleeper : pyfloat → M S unit;
  ad_random : M S pyfloat
}.
Arguments Adapter {S}.
Arguments ad_retry_policy {S}.
Arguments ad_timeout_seconds {S}.
Arguments ad_metrics {S}.
Arguments ad_perf_counter {S}.
Arguments ad_sleeper {S}.
Arguments ad_random {S}.

Section shared.
Context {S : Type} {V : VendorErrors} (ad : adapter S).

Definition _normalize_provider_error (e : exn) : exn :=
  if is_timeout_error e then ProviderError ProviderTimeoutError
  else if is_transient_error e then ProviderError ProviderTransientError
  else if is_vendor_error e then ProviderError ProviderPermanentError
  else e.

(** The [try] statement around a vendor call: the exception is normalized, and the duration
    is recorded with the response, [None] when there is none. *)
Definition observed_call {A} (send : M S A)
    (record : Z → option A → M RuntimeMetricsRecorder.t unit) : M S A :=
  let* started := ad_perf_counter ad in
  finally_given (try_except send (λ e, raise (_normalize_provider_error e)))
    (λ response,
      match ad_metrics ad with
      | None => ret tt
      | Some lift =>
          let* now := ad_perf_counter ad in
          let* duration_ms := of_res (elapsed_ms started now) in
          lift (record duration_ms response)
      end).

(** [run_with_retry(...) if self._retry_policy is not None else operation()]. *)
Definition retried {A} (operation : M S A) : M S A :=
  match ad_retry_policy ad with
  | Some policy =>
      run_with_retry policy operation (ad_sleeper ad) (ad_random ad)
        ((λ lift attempt category, lift (record_retry attempt category)) <$> ad_metrics ad)
  | None => operation
  end.

(** What the recorder reads of a response. *)
Definition record_response {A} (usage : A → provider_response) (duration_ms : Z)
    (response : option A) : M RuntimeMetricsRecorder.t unit :=
  record_model_call duration_ms (from_option usage NoUsage response).
End shared.

(** ** openai.py *)

Definition OPENAI_CAPABILITIES : ProviderCapabilities.t :=
  ProviderCapabilities.mk true true true true.

(** The arguments of [responses.parse], [responses.create] and [embeddings.create]. *)
Record parse_request := ParseRequest {
  pq_model : pystr;
  pq_input : list (pystr * pystr);
  pq_store : bool;
  pq_timeout : option pyfloat
}.
Record create_request := CreateRequest {
  cq_model : pystr;
  cq_input : list (pystr * pystr);
  cq_tools : list pydict;
  cq_tool_choice : pystr;
  cq_parallel_tool_calls : bool;
  cq_max_output_tokens : Z;
  cq_store : bool;
  cq_timeout : option pyfloat
}.
Record embedding_request := EmbeddingRequest {
  eq_model : pystr;
  eq_input : list pystr;
  eq_dimensions : Z;
  eq_encoding_format : pystr;
  eq_timeout : option pyfloat
}.

(** [output_parsed] of a response: an instance of the requested class, or another value. *)
Inductive parsed A := Instance (a : A) | Value (v : pyval).
Arguments Instance {A}.
Arguments Value {A}.
Record parsed_response A := ParsedResponse {
  pr_usage : provider_response;
  pr_output_parsed : option (parsed A)
}.
Arguments ParsedResponse {A}.
Arguments pr_usage {A}.
Arguments pr_output_parsed {A}.

(** An item of [output]: its type, and the name and arguments a function call has. *)
Record output_item := OutputItem {
  oi_type : option pystr;
  oi_name : pystr;
  oi_arguments : pyval
}.
Record created_response := CreatedResponse {
  cr_usage : provider_response;
  cr_output : list output_item
}.

(** An element of an embedding: what [float] makes of a value that is no number is the
    value's. *)
Inductive vector_value := VFloat (x : pyfloat) | VInt (n : Z) | VOther (converted : res pyfloat).
Record embedding_item := EmbeddingItem { ei_index : Z; ei_embedding : list vector_value }.
Definition index_le : relation embedding_item := λ a b, (ei_index a ≤ ei_index b)%Z.
#[export] Instance index_le_dec : RelDecision index_le.
Proof. intros a b. unfold index_le. apply _. Defined.
(** Reading [data] of a response of another shape raises. *)
Record embedding_response := EmbeddingResponse { er_data : res (list embedding_item) }.

Record openai_client S := OpenAIClient {
  responses_parse : ∀ A, output_model A → parse_request → M S (parsed_response A);
  responses_create : create_request → M S created_response;
  embeddings_create : embedding_request → M S embedding_response
}.
Arguments OpenAIClient {S}.
Arguments responses_parse {S} _ {A}.
Arguments responses_create {S}.
Arguments embeddings_create {S}.

(** [create_openai_client]: the key, the time limit and the number of the SDK's own
    retries. *)
Definition usable_key (key : option pystr) : option pystr :=
  match key with
  | Some k => if truthy (str_strip k) then Some k else None
  | None => None
  end.
Definition create_openai_client {C} (OpenAI : pystr → pyfloat → Z → C) (settings : Settings.t) :
    res C :=
  match usable_key (Settings.openai_api_key settings) with
  | Some key => Ok (OpenAI key (Settings.openai_timeout_seconds settings) 0%Z)
  | None => Raise (ApplicationError OpenAIClientNotConfiguredError)
  end.

Module OpenAIStructuredModelProvider.
Section provider.
Context {S : Type} {V : VendorErrors} (ad : adapter S).
Context (client_provider : M S (openai_client S)).
Context (model : pystr) (store_responses : bool) (json_loads : pystr → res pyval).

(** The [except] clauses of [_run]. *)
Definition run_error (e : exn) : exn :=
  match e with
  | ApplicationError OpenAIClientNotConfiguredError => e
  | ProviderError ProviderTimeoutError | ProviderError ProviderTransientError
  | ProviderError ProviderPermanentError => ApplicationError LLMProviderError
  | _ => if is_value_or_type_error e then ApplicationError InvalidLLMResponseError else e
  end.
Definition _run {A} (operation : M S A) : M S A :=
  try_except (retried ad operation) (λ e, raise (run_error e)).

Definition messages (system user : pystr) : list (pystr * pystr) :=
  [(lit "system", system); (lit "user", user)].

(** [output_model.model_validate(parsed)]: an instance is returned as it is. *)
Definition validate_parsed {A} (output_model : output_model A) (p : parsed A) : res A :=
  match p with Instance a => Ok a | Value v => om_validate output_model v end.
Definition invalid_response {A} (r : res A) : res A :=
  match r with
  | Ok a => Ok a
  | Raise e => if is_value_or_type_error e
               then Raise (ApplicationError InvalidLLMResponseError) else Raise e
  end.

Definition generate_structured {A} (system user : pystr) (output_model : output_model A) : M S A :=
  let request :=
    observed_call ad
      (let* client := client_provider in
       responses_parse client output_model
         (ParseRequest model (messages system user) store_responses (ad_timeout_seconds ad)))
      (record_response pr_usage) in
  let* response := _run request in
  match pr_output_parsed response with
  | None => app_raise InvalidLLMResponseError
  | Some parsed => of_res (invalid_response (validate_parsed output_model parsed))
  end.

(** [json.loads(call.arguments)] and its [except] clause. *)
Definition call_arguments (arguments : pyval) : res pyval :=
  match arguments with
  | PStr text =>
      match json_loads text with
      | Raise (OtherException name) =>
          if decide (name = lit "JSONDecodeError") then Ok (PDict [])
          else Raise (OtherException name)
      | Raise TypeError => Ok (PDict [])
      | r => r
      end
  | _ => Ok (PDict [])
  end.

(** [arguments if isinstance(arguments, dict) else {}]. *)
Definition dict_or_empty (v : pyval) : pydict := match v with PDict d => d | _ => [] end.

Definition decide_tool_call (system user : pystr) (tools : list pydict) (max_output_tokens : Z) :
    M S (option ToolCallDecision.t) :=
  let request :=
    observed_call ad
      (let* client := client_provider in
       responses_create client
         (CreateRequest model (messages system user) tools "auto" false max_output_tokens
            store_responses (ad_timeout_seconds ad)))
      (record_response cr_usage) in
  let* response := _run request in
  match filter (λ item, oi_type item = Some (lit "function_call")) (cr_output response) with
  | [] => ret None
  | call :: _ =>
      let* arguments := of_res (call_arguments (oi_arguments call)) in
      ret (Some (ToolCallDecision.mk (oi_name call) (dict_or_empty arguments)))
  end.

Definition provider : StructuredModelProvider S :=
  MkStructuredModelProvider ProviderName.OPENAI OPENAI_CAPABILITIES (@generate_structured)
    decide_tool_call.
End provider.
End OpenAIStructuredModelProvider.

Module OpenAIEmbeddingProvider.
Section provider.
Context {S : Type} {V : VendorErrors} (ad : adapter S).
Context (client_provider : M S (openai_client S)).
Context (model : pystr) (dimension batch_size : Z).

Definition _request_batch (client : openai_client S) (batch : list pystr) :
    M S embedding_response :=
  observed_call ad
    (embeddings_create client
       (EmbeddingRequest model batch dimension "float" (ad_timeout_seconds ad)))
    (λ duration_ms _, record_embedding_call duration_ms).

(** [sorted(_, key=lambda item: item.index)]. *)
Definition by_index : list embedding_item → list embedding_item :=
  merge_sort index_le.

(** The [for] statement over the batches that start at [starts]. *)
Fixpoint embed_batches (client : openai_client S) (texts : list pystr) (starts : list Z)
    (vectors : list (list vector_value)) : M S (list (list vector_value)) :=
  match starts with
  | [] => ret vectors
  | start :: rest =>
      let batch := take (Z.to_nat batch_size) (drop (Z.to_nat start) texts) in
      let* response := retried ad (_request_batch client batch) in
      let* data := of_res (er_data response) in
      embed_batches client texts rest (vectors ++ (ei_embedding <$> by_index data))
  end.

(** [range(0, len(texts), batch_size)]. *)
Definition batch_starts (n : Z) : list Z :=
  (λ k, k * batch_size)%Z <$> seqZ 0 ((n + batch_size - 1) / batch_size).

(** The [except] clauses around the loop. *)
Definition batch_error (e : exn) : exn :=
  match e with
  | ApplicationError OpenAIClientNotConfiguredError => ApplicationError EmbeddingNotConfiguredError
  | ProviderError ProviderTimeoutError | ProviderError ProviderTransientError
  | ProviderError ProviderPermanentError => ApplicationError EmbeddingProviderError
  | _ =>
      if is_value_or_type_error e || bool_decide (e = OtherException "AttributeError")
      then ApplicationError InvalidEmbeddingError else e
  end.

(** [float(value)]. *)
Definition to_float (v : vector_value) : res pyfloat :=
  match v with VFloat x => Ok x | VInt n => int_float n | VOther r => r end.
Definition conversion_error (e : exn) : exn :=
  if is_value_or_type_error e || bool_decide (e = OtherException "OverflowError")
  then ApplicationError InvalidEmbeddingError else e.

Definition vector_fits (vector : list pyfloat) : bool :=
  Z.eqb (Z.of_nat (length vector)) dimension && forallb is_finite vector.

Definition converted_vectors (texts : list pystr) (vectors : list (list vector_value)) :
    res (list (list pyfloat)) :=
  if negb (Nat.eqb (length vectors) (length texts))
  then Raise (ApplicationError InvalidEmbeddingError)
  else
    match res_map (res_map to_float) vectors with
    | Raise e => Raise (conversion_error e)
    | Ok converted =>
        if forallb vector_fits converted then Ok converted
        else Raise (ApplicationError InvalidEmbeddingError)
    end.

Definition embed_texts (texts : list pystr) : M S (list (list pyfloat)) :=
  if negb (truthy texts) || existsb (λ text, negb (truthy (str_strip text))) texts
  then app_raise InvalidEmbeddingError
  else
    let* vectors :=
      try_except
        (let* client := client_provider in
         embed_batches client texts (batch_starts (Z.of_nat (length texts))) [])
        (λ e, raise (batch_error e)) in
    of_res (converted_vectors texts vectors).

(** The constructor refuses a dimension or a batch size that is not positive. *)
Definition provider : res (EmbeddingProvider S) :=
  if Z.leb dimension 0 || Z.leb batch_size 0 then Raise ValueError
  else Ok (MkEmbeddingProvider ProviderName.OPENAI OPENAI_CAPABILITIES embed_texts).
End provider.
End OpenAIEmbeddingProvider.

(** ** anthropic.py *)

Definition ANTHROPIC_CAPABILITIES : ProviderCapabilities.t :=
  ProviderCapabilities.mk true true true false.

Record message_request := MessageRequest {
  mq_model : pystr;
  mq_system : pystr;
  mq_messages : list (pystr * pystr);
  mq_tools : list pydict;
  mq_tool_choice : list (pystr * pystr);
  mq_max_tokens : Z;
  mq_timeout : option pyfloat
}.
(** An item of [content]: its type and name, and the input a tool call has. *)
Record content_block := ContentBlock {
  cb_type : option pystr;
  cb_name : option pystr;
  cb_input : pyval
}.
Record message_response := MessageResponse {
  mr_usage : provider_response;
  mr_content : list content_block
}.
Record anthropic_client S := AnthropicClient {
  messages_create : message_request → M S message_response
}.
Arguments AnthropicClient {S}.
Arguments messages_create {S}.

Definition create_anthropic_client {C} (Anthropic : pystr → pyfloat → Z → C)
    (settings : Settings.t) : res C :=
  match usable_key (Settings.anthropic_api_key settings) with
  | Some key => Ok (Anthropic key (Settings.model_timeout_seconds settings) 0%Z)
  | None => Raise (ApplicationError ModelProviderNotConfiguredError)
  end.

Module AnthropicStructuredModelProvider.
Section provider.
Context {S : Type} {V : VendorErrors} (ad : adapter S).
Context (client_provider : M S (anthropic_client S)).
Context (model : pystr).

(** The [except] clauses of [_create]. *)
Definition create_error (e : exn) : exn :=
  match e with
  | ProviderError ProviderTimeoutError | ProviderError ProviderTransientError
  | ProviderError ProviderPermanentError => ApplicationError LLMProviderError
  | _ => if is_value_or_type_error e then ApplicationError InvalidLLMResponseError else e
  end.

Definition _create (system user : pystr) (tools : list pydict) (tool_choice : list (pystr * pystr))
    (max_tokens : Z) : M S message_response :=
  let request :=
    observed_call ad
      (let* client := client_provider in
       messages_create client
         (MessageRequest model system [(lit "user", user)] tools tool_choice max_tokens
            (ad_timeout_seconds ad)))
      (record_response mr_usage) in
  try_except (retried ad request) (λ e, raise (create_error e)).

Definition tool_name : pystr := "submit_structured_result".

Definition generate_structured {A} (system user : pystr) (output_model : output_model A) : M S A :=
  let* response :=
    _create system user
      [[(lit "name", PStr tool_name);
        (lit "description", PStr (lit "Submit the complete validated structured result."));
        (lit "input_schema", om_json_schema output_model)]]
      [(lit "type", lit "tool"); (lit "name", tool_name)] 4096 in
  match py_next (λ item, bool_decide (cb_type item = Some (lit "tool_use")) &&
                         bool_decide (cb_name item = Some tool_name)) (mr_content response) with
  | None => app_raise InvalidLLMResponseError
  | Some block =>
      of_res (OpenAIStructuredModelProvider.invalid_response
                (om_validate output_model (cb_input block)))
  end.

(** One element of [anthropic_tools]: [tool["name"]] raises when the key is missing. *)
Definition anthropic_tool (tool : pydict) : res pydict :=
  match dict_get tool "name" with
  | None => Raise KeyError
  | Some tool_name =>
      match dict_get tool "parameters" with
      | None => Raise KeyError
      | Some parameters =>
          Ok [(lit "name", tool_name);
              (lit "description", default (PStr []) (dict_get tool "description"));
              (lit "input_schema", parameters)]
      end
  end.

(** [str(block.name)] of a tool call, whose name is a string. *)
Definition block_name (block : content_block) : pystr := default (lit "None") (cb_name block).

Definition decide_tool_call (system user : pystr) (tools : list pydict) (max_output_tokens : Z) :
    M S (option ToolCallDecision.t) :=
  let* anthropic_tools := of_res (res_map anthropic_tool tools) in
  let* response :=
    _create system user anthropic_tools [(lit "type", lit "auto")] max_output_tokens in
  match py_next (λ item, bool_decide (cb_type item = Some (lit "tool_use")))
          (mr_content response) with
  | None => ret None
  | Some block =>
      let arguments := OpenAIStructuredModelProvider.dict_or_empty (cb_input block) in
      ret (Some (ToolCallDecision.mk (block_name block) arguments))
  end.

Definition provider : StructuredModelProvider S :=
  MkStructuredModelProvider ProviderName.ANTHROPIC ANTHROPIC_CAPABILITIES (@generate_structured)
    decide_tool_call.
End provider.
End AnthropicStructuredModelProvider.
