(* ===== verification/Counting.v ===== *)
(** Counting over collections as the evaluators do it: sets and dictionaries built from lists,
    tests of uniqueness, and quotients of two counts, with the facts about them that both
    benchmarks share.  Sets are lists without repetition. *)
From S2P Require Import Prelude PyFloat Errors Domain PyText Tools FloatOrder FloatRatio.

(** ** Sets and dictionaries *)

(** [_require_unique]: [len(values) == len(set(values))]. *)
Definition _require_unique {A} `{EqDecision A} (values : list A) : bool :=
  Nat.eqb (length values) (length (remove_dups values)).

(** [set(xs).issubset(ys)]. *)
Definition issubset {A} `{EqDecision A} (xs ys : list A) : bool := forallb (λ x, mem x ys) xs.

(** [set(xs) & set(ys)] and [set(xs) - set(ys)]. *)
Definition set_and {A} `{EqDecision A} (xs ys : list A) : list A :=
  filter (λ x, x ∈ ys) (remove_dups xs).
Definition set_sub {A} `{EqDecision A} (xs ys : list A) : list A :=
  filter (λ x, x ∉ ys) (remove_dups xs).

(** [{key(x): x for x in l}] and [d.get(k)]. *)
Definition dict_by {A K} `{EqDecision K} (key : A → K) (l : list A) : list A :=
  fold_left (keyed_set key) l [].
Definition get_by {A K} `{EqDecision K} (key : A → K) (d : list A) (k : K) : option A :=
  py_next (λ a, bool_decide (key a = k)) d.

(** [sorted(xs, key=str)] of values of an enum whose values are [value]. *)
Definition value_le {A} (value : A → pystr) : relation A := λ x y, str_le (value x) (value y).
#[export] Instance value_le_dec {A} (value : A → pystr) : RelDecision (value_le value).
Proof. intros x y. unfold value_le. apply _. Defined.
Definition sorted_by {A} (value : A → pystr) (xs : list A) : list A := merge_sort (value_le value) xs.

(** [a / b] of two counts. *)
Definition py_div (a b : nat) : res pyfloat :=
  match b with
  | O => Raise (OtherException "ZeroDivisionError")
  | _ => Ok (int_ratio (Z.of_nat a) (Z.of_nat b))
  end.
(** [a / b if b else None]. *)
Definition py_div_opt (a b : nat) : res (option pyfloat) :=
  match b with O => Ok None | _ => res_bind (py_div a b) (λ x, Ok (Some x)) end.
(** [float(b)]. *)
Definition float_of_bool (b : bool) : pyfloat := if b then f64_one else f64_zero.
(** [sum(checks) / len(checks)]. *)
Definition share_true (checks : list bool) : res pyfloat :=
  py_div (length (filter Is_true checks)) (length checks).

(** The share of the expected members that were found. *)
Definition coverage {A} `{EqDecision A} (expected found : list A) : res pyfloat :=
  py_div (length (set_and expected found)) (length (remove_dups expected)).

(** ** Sets *)

Section sets.
Context {A : Type} `{EqDecision A}.
Implicit Types (l xs ys : list A).

Lemma length_remove_dups l : (length (remove_dups l) ≤ length l)%nat.
Proof. induction l as [|x l IH]; simpl; [done|]. case_decide; simpl; lia. Qed.

Lemma require_unique_NoDup l : _require_unique l = true ↔ NoDup l.
Proof.
  unfold _require_unique. rewrite Nat.eqb_eq.
  induction l as [|x l IH]; simpl; [split; [constructor|done]|].
  pose proof (length_remove_dups l). rewrite NoDup_cons. case_decide; simpl.
  - split; [lia|tauto].
  - rewrite <- IH. split; [intros; split; [done|lia]|intros [_ ?]; lia].
Qed.

Lemma remove_dups_id l : NoDup l → remove_dups l = l.
Proof.
  induction 1 as [|x l Hx _ IH]; simpl; [done|]. case_decide; [done|]. by rewrite IH.
Qed.

Lemma filter_partition (P : A → Prop) `{!∀ x, Decision (P x)} l :
  (length (filter P l) + length (filter (λ x, ¬ P x) l) = length l)%nat.
Proof.
  induction l as [|x l IH]; [done|]. rewrite !filter_cons.
  destruct (decide (P x)), (decide (¬ P x)); try tauto; simpl; lia.
Qed.

Lemma set_and_sub xs ys :
  (length (set_and xs ys) + length (set_sub xs ys) = length (remove_dups xs))%nat.
Proof. apply filter_partition. Qed.

Lemma set_and_le xs ys : (length (set_and xs ys) ≤ length (remove_dups xs))%nat.
Proof. rewrite <- (set_and_sub xs ys). lia. Qed.

Lemma set_and_full xs ys : length (set_and xs ys) = length (remove_dups xs) ↔ set_sub xs ys = [].
Proof.
  rewrite <- (set_and_sub xs ys). rewrite <- length_zero_iff_nil. lia.
Qed.

Lemma elem_of_set_and xs ys x : x ∈ set_and xs ys ↔ x ∈ xs ∧ x ∈ ys.
Proof. unfold set_and. rewrite list_elem_of_filter, elem_of_remove_dups. tauto. Qed.

Lemma elem_of_set_sub xs ys x : x ∈ set_sub xs ys ↔ x ∈ xs ∧ x ∉ ys.
Proof. unfold set_sub. rewrite list_elem_of_filter, elem_of_remove_dups. tauto. Qed.

Lemma set_and_NoDup xs ys : NoDup (set_and xs ys).
Proof. apply NoDup_filter, NoDup_remove_dups. Qed.

Lemma set_sub_NoDup xs ys : NoDup (set_sub xs ys).
Proof. apply NoDup_filter, NoDup_remove_dups. Qed.

Lemma length_set_and_comm xs ys : length (set_and xs ys) = length (set_and ys xs).
Proof.
  apply Permutation_length, NoDup_Permutation; [apply set_and_NoDup..|].
  intros x. rewrite !elem_of_set_and. tauto.
Qed.

Lemma set_sub_remove_dups xs ys : set_sub (remove_dups xs) (remove_dups ys) = set_sub xs ys.
Proof.
  unfold set_sub. rewrite (remove_dups_id (remove_dups xs)) by apply NoDup_remove_dups.
  apply list_filter_iff. intros x. by rewrite elem_of_remove_dups.
Qed.

Lemma set_and_remove_dups xs ys : set_and (remove_dups xs) (remove_dups ys) = set_and xs ys.
Proof.
  unfold set_and. rewrite (remove_dups_id (remove_dups xs)) by apply NoDup_remove_dups.
  apply list_filter_iff. intros x. by rewrite elem_of_remove_dups.
Qed.

Lemma remove_dups_nonempty l : truthy (remove_dups l) = truthy l.
Proof.
  induction l as [|x l IH]; simpl; [done|]. case_decide as Hx; [|done].
  rewrite IH. destruct l; [by apply elem_of_nil in Hx|done].
Qed.
End sets.

Lemma remove_dups_constant {A} `{EqDecision A} (k : A) l :
  l ≠ [] → Forall (λ x, x = k) l → remove_dups l = [k].
Proof.
  intros Hne. induction 1 as [|x l -> Hl IH]; [done|]. simpl.
  destruct l as [|y l]; [done|]. rewrite IH by done. inversion Hl; subst.
  case_decide as Hin; [done|]. destruct Hin. left.
Qed.

(** ** Dictionaries of unique keys *)

Lemma dict_by_unique {A K} `{EqDecision K} (key : A → K) l :
  NoDup (key <$> l) → dict_by key l = l.
Proof. intros Hn. unfold dict_by. by rewrite keyed_set_NoDup. Qed.

Lemma get_by_Some {A K} `{EqDecision K} (key : A → K) l k a :
  NoDup (key <$> l) → get_by key l k = Some a ↔ a ∈ l ∧ key a = k.
Proof.
  unfold get_by. induction l as [|b l IH]; simpl; intros Hn.
  { split; [done|]. by intros [?%elem_of_nil _]. }
  apply NoDup_cons in Hn as [Hb Hn]. rewrite elem_of_cons. case_bool_decide as Hk.
  - split; [intros [= ->]; auto|]. intros [[->|Ha] Hak]; [done|]. destruct Hb.
    rewrite Hk, <- Hak. by apply list_elem_of_fmap_2.
  - rewrite (IH Hn). split; [intros []; auto|]. intros [[->|Ha] Hak]; auto. done.
Qed.

Lemma get_by_None {A K} `{EqDecision K} (key : A → K) l k :
  get_by key l k = None ↔ k ∉ key <$> l.
Proof.
  unfold get_by. induction l as [|b l IH]; simpl; csimpl; [set_solver|].
  case_bool_decide as Hk; rewrite not_elem_of_cons; [split; [done|naive_solver]|].
  rewrite IH. naive_solver.
Qed.

(** ** Quotients *)

Lemma res_bind_inv {A B} (m : res A) (f : A → res B) b :
  res_bind m f = Ok b → ∃ a, m = Ok a ∧ f a = Ok b.
Proof. destruct m as [a|e]; [by exists a|done]. Qed.

Lemma py_div_inv a b x : py_div a b = Ok x → b ≠ O ∧ x = int_ratio (Z.of_nat a) (Z.of_nat b).
Proof. destruct b as [|b]; [done|]. by intros [= <-]. Qed.
Lemma py_div_opt_inv a b o :
  py_div_opt a b = Ok o →
  match o with
  | Some x => b ≠ O ∧ x = int_ratio (Z.of_nat a) (Z.of_nat b)
  | None => b = O
  end.
Proof. destruct b as [|b]; [by intros [= <-]|]. by intros [= <-]. Qed.

(** There are [n] things that satisfy [P]. *)
Definition card {A} (P : A → Prop) (n : nat) : Prop :=
  ∃ l, NoDup l ∧ (∀ x, x ∈ l ↔ P x) ∧ length l = n.

(** [x] is the quotient: the share of those satisfying [Q] that satisfy [P]. *)
Definition fraction {A} (P Q : A → Prop) (x : pyfloat) : Prop :=
  ∃ a b, card (λ c, P c ∧ Q c) a ∧ card Q b ∧ b ≠ O ∧ x = int_ratio (Z.of_nat a) (Z.of_nat b).

Lemma card_remove_dups {A} `{EqDecision A} (xs : list A) : card (.∈ xs) (length (remove_dups xs)).
Proof.
  exists (remove_dups xs). split; [apply NoDup_remove_dups|]. split; [|done].
  intros x. apply elem_of_remove_dups.
Qed.
Lemma card_set_and {A} `{EqDecision A} (xs ys : list A) :
  card (λ c, c ∈ ys ∧ c ∈ xs) (length (set_and xs ys)).
Proof.
  exists (set_and xs ys). split; [apply set_and_NoDup|]. split; [|done].
  intros x. rewrite elem_of_set_and. tauto.
Qed.
Lemma card_iff {A} (P Q : A → Prop) n : (∀ x, P x ↔ Q x) → card P n → card Q n.
Proof. intros H (l & Hn & Hl & He). exists l. split_and!; [done| |done]. intros x. by rewrite Hl. Qed.

Lemma coverage_fraction {A} `{EqDecision A} (expected found : list A) x :
  coverage expected found = Ok x → fraction (.∈ found) (.∈ expected) x.
Proof.
  intros [Hb ->]%py_div_inv. eexists _, _.
  split; [apply card_set_and|]. split; [apply card_remove_dups|done].
Qed.

Definition small (n : nat) : Prop := (Z.of_nat n < 2 ^ 53)%Z.

(** [x] is the score [a / b]. *)
Record share (a b : nat) (x : pyfloat) : Prop := {
  share_score : unit_score x = true;
  share_full : feqb x f64_one = true ↔ a = b;
  share_none : feqb x f64_zero = true ↔ a = O
}.

Lemma py_div_share a b :
  (a ≤ b)%nat → (0 < b)%nat → small b → ∃ x, py_div a b = Ok x ∧ share a b x.
Proof.
  unfold small. intros Hab Hb Hs. unfold py_div. destruct b as [|b]; [lia|].
  destruct (ratio_score (Z.of_nat a) (Z.of_nat (S b))) as (H1 & H2 & H3); [lia..|].
  eexists. split; [done|]. constructor; [done|rewrite H2; lia|rewrite H3; lia].
Qed.

Lemma py_div_opt_share a b :
  (a ≤ b)%nat → small b →
  ∃ x, py_div_opt a b = Ok x ∧
    match x with Some x => (0 < b)%nat ∧ share a b x | None => b = O end.
Proof.
  intros Hab Hs. destruct b as [|b]; [by exists None|].
  destruct (py_div_share a (S b)) as (x & Hx & Hsh); [done|lia|done|].
  exists (Some x). unfold py_div_opt. rewrite Hx. split; [done|]. split; [lia|done].
Qed.

Lemma coverage_share {A} `{EqDecision A} (expected found : list A) :
  expected ≠ [] → small (length expected) →
  ∃ x, coverage expected found = Ok x ∧ unit_score x = true ∧
    (feqb x f64_one = true ↔ set_sub expected found = []) ∧
    (feqb x f64_zero = true ↔ set_and expected found = []).
Proof.
  intros Hne Hs. unfold coverage.
  destruct (py_div_share (length (set_and expected found)) (length (remove_dups expected)))
    as (x & -> & [H1 H2 H3]).
  - apply set_and_le.
  - pose proof (remove_dups_nonempty expected). destruct (remove_dups expected); simpl in *; [|lia].
    by destruct expected.
  - unfold small in *. pose proof (length_remove_dups expected). lia.
  - exists x. by rewrite H2, H3, set_and_full, length_zero_iff_nil.
Qed.

Lemma share_true_score checks :
  checks ≠ [] → small (length checks) →
  ∃ x, share_true checks = Ok x ∧ unit_score x = true.
Proof.
  intros Hne Hs. unfold share_true.
  destruct (py_div_share (length (filter Is_true checks)) (length checks)) as (x & -> & [H _ _]).
  - pose proof (filter_partition Is_true checks). lia.
  - destruct checks; simpl; [done|lia].
  - done.
  - by exists x.
Qed.

Lemma float_of_bool_score b : unit_score (float_of_bool b) = true.
Proof. by destruct b. Qed.

