(* ===== verification/AssessmentBenchmark.v ===== *)
(** The data of the assessment benchmark: app/evaluation/assessment/models.py, the
    taxonomies, the scenarios with their declared outputs, and the results of an
    evaluation.  [valid] is the conjunction of a model's constraints and validators. *)
From S2P Require Import Prelude PyFloat Errors Domain Counting.

(** ** Constraints *)

Definition lower_or_digit (c : Z) : bool :=
  (Z.leb 97 c && Z.leb c 122) || (Z.leb 48 c && Z.leb c 57).

(** The pattern [^[a-z0-9][a-z0-9_-]{2,99}$] of identifiers. *)
Definition identifier_pattern (s : pystr) : bool :=
  match s with
  | [] => false
  | c :: s' =>
      lower_or_digit c && len_in 2 99 s' &&
      forallb (λ d, lower_or_digit d || Z.eqb d 95 || Z.eqb d 45) s'
  end.

(** The pattern [^[a-f0-9]{64}$]. *)
Definition fingerprint_pattern (s : pystr) : bool :=
  len_in 64 64 s &&
  forallb (λ d, (Z.leb 97 d && Z.leb d 102) || (Z.leb 48 d && Z.leb d 57)) s.

(** ** Taxonomies *)

Module AssessmentEvaluationMode.
Inductive t := DETERMINISTIC | SINGLE_AGENT | MULTI_AGENT.
Definition value (x : t) : pystr :=
  match x with
  | DETERMINISTIC => "deterministic"
  | SINGLE_AGENT => "single_agent"
  | MULTI_AGENT => "multi_agent"
  end.
Definition members : list t := [DETERMINISTIC; SINGLE_AGENT; MULTI_AGENT].
#[export] Instance eq_dec : EqDecision t.
Proof. solve_decision. Defined.
End AssessmentEvaluationMode.
#[export] Existing Instance AssessmentEvaluationMode.eq_dec.

Module AssessmentScenarioCategory.
Inductive t := CUSTOMER_SERVICE_PII | CONFIDENTIAL_INTERNAL_RAG | EXTERNAL_TOOL_ACCESS |
    HIGH_IMPACT_DECISION | THIRD_PARTY_VENDOR | COMPLIANCE_REVIEW | HUMAN_OPERATED_RECOMMENDATION
    | LOW_RISK_PRODUCTIVITY | INSUFFICIENT_INFORMATION | SIMPLE_DETERMINISTIC.
Definition value (x : t) : pystr :=
  match x with
  | CUSTOMER_SERVICE_PII => "customer_service_pii"
  | CONFIDENTIAL_INTERNAL_RAG => "confidential_internal_rag"
  | EXTERNAL_TOOL_ACCESS => "external_tool_access"
  | HIGH_IMPACT_DECISION => "high_impact_decision"
  | THIRD_PARTY_VENDOR => "third_party_vendor"
  | COMPLIANCE_REVIEW => "compliance_review"
  | HUMAN_OPERATED_RECOMMENDATION => "human_operated_recommendation"
  | LOW_RISK_PRODUCTIVITY => "low_risk_productivity"
  | INSUFFICIENT_INFORMATION => "insufficient_information"
  | SIMPLE_DETERMINISTIC => "simple_deterministic"
  end.
Definition members : list t := [CUSTOMER_SERVICE_PII; CONFIDENTIAL_INTERNAL_RAG;
    EXTERNAL_TOOL_ACCESS; HIGH_IMPACT_DECISION; THIRD_PARTY_VENDOR; COMPLIANCE_REVIEW;
    HUMAN_OPERATED_RECOMMENDATION; LOW_RISK_PRODUCTIVITY; INSUFFICIENT_INFORMATION;
    SIMPLE_DETERMINISTIC].
#[export] Instance eq_dec : EqDecision t.
Proof. solve_decision. Defined.
End AssessmentScenarioCategory.
#[export] Existing Instance AssessmentScenarioCategory.eq_dec.

Module EvaluationRiskCategory.
Inductive t := PRIVACY | SECURITY | MODEL_RISK | HALLUCINATION_GROUNDING | COMPLIANCE |
    OPERATIONAL_RISK | ACCESS_CONTROL | DATA_GOVERNANCE | THIRD_PARTY_VENDOR_RISK |
    EXPLAINABILITY | HUMAN_OVERSIGHT | MONITORING | AUDITABILITY.
Definition value (x : t) : pystr :=
  match x with
  | PRIVACY => "privacy"
  | SECURITY => "security"
  | MODEL_RISK => "model_risk"
  | HALLUCINATION_GROUNDING => "hallucination_grounding"
  | COMPLIANCE => "compliance"
  | OPERATIONAL_RISK => "operational_risk"
  | ACCESS_CONTROL => "access_control"
  | DATA_GOVERNANCE => "data_governance"
  | THIRD_PARTY_VENDOR_RISK => "third_party_vendor_risk"
  | EXPLAINABILITY => "explainability"
  | HUMAN_OVERSIGHT => "human_oversight"
  | MONITORING => "monitoring"
  | AUDITABILITY => "auditability"
  end.
Definition members : list t := [PRIVACY; SECURITY; MODEL_RISK; HALLUCINATION_GROUNDING;
    COMPLIANCE; OPERATIONAL_RISK; ACCESS_CONTROL; DATA_GOVERNANCE; THIRD_PARTY_VENDOR_RISK;
    EXPLAINABILITY; HUMAN_OVERSIGHT; MONITORING; AUDITABILITY].
#[export] Instance eq_dec : EqDecision t.
Proof. solve_decision. Defined.
End EvaluationRiskCategory.
#[export] Existing Instance EvaluationRiskCategory.eq_dec.

Module EvaluationControlCategory.
Inductive t := RETRIEVAL_GROUNDING | ROLE_BASED_ACCESS_CONTROL | LEAST_PRIVILEGE |
    TOOL_ALLOWLISTING | HUMAN_APPROVAL | ESCALATION | AUDIT_LOGGING | DATA_MINIMIZATION |
    MODEL_MONITORING | OUTPUT_VALIDATION | FALLBACK_BEHAVIOR | VERSIONING | APPROVAL_GATES |
    VENDOR_DUE_DILIGENCE | INCIDENT_RESPONSE.
Definition value (x : t) : pystr :=
  match x with
  | RETRIEVAL_GROUNDING => "retrieval_grounding"
  | ROLE_BASED_ACCESS_CONTROL => "role_based_access_control"
  | LEAST_PRIVILEGE => "least_privilege"
  | TOOL_ALLOWLISTING => "tool_allowlisting"
  | HUMAN_APPROVAL => "human_approval"
  | ESCALATION => "escalation"
  | AUDIT_LOGGING => "audit_logging"
  | DATA_MINIMIZATION => "data_minimization"
  | MODEL_MONITORING => "model_monitoring"
  | OUTPUT_VALIDATION => "output_validation"
  | FALLBACK_BEHAVIOR => "fallback_behavior"
  | VERSIONING => "versioning"
  | APPROVAL_GATES => "approval_gates"
  | VENDOR_DUE_DILIGENCE => "vendor_due_diligence"
  | INCIDENT_RESPONSE => "incident_response"
  end.
Definition members : list t := [RETRIEVAL_GROUNDING; ROLE_BASED_ACCESS_CONTROL; LEAST_PRIVILEGE;
    TOOL_ALLOWLISTING; HUMAN_APPROVAL; ESCALATION; AUDIT_LOGGING; DATA_MINIMIZATION;
    MODEL_MONITORING; OUTPUT_VALIDATION; FALLBACK_BEHAVIOR; VERSIONING; APPROVAL_GATES;
    VENDOR_DUE_DILIGENCE; INCIDENT_RESPONSE].
#[export] Instance eq_dec : EqDecision t.
Proof. solve_decision. Defined.
End EvaluationControlCategory.
#[export] Existing Instance EvaluationControlCategory.eq_dec.

Module EvaluationGovernanceRequirement.
Inductive t := ACCOUNTABLE_OWNER | DOCUMENTED_USE_CASE | RISK_REVIEW | DATA_USE_APPROVAL |
    VENDOR_OVERSIGHT | HUMAN_DECISION_AUTHORITY | AUDIT_RECORD | PERIODIC_REVIEW.
Definition value (x : t) : pystr :=
  match x with
  | ACCOUNTABLE_OWNER => "accountable_owner"
  | DOCUMENTED_USE_CASE => "documented_use_case"
  | RISK_REVIEW => "risk_review"
  | DATA_USE_APPROVAL => "data_use_approval"
  | VENDOR_OVERSIGHT => "vendor_oversight"
  | HUMAN_DECISION_AUTHORITY => "human_decision_authority"
  | AUDIT_RECORD => "audit_record"
  | PERIODIC_REVIEW => "periodic_review"
  end.
Definition members : list t := [ACCOUNTABLE_OWNER; DOCUMENTED_USE_CASE; RISK_REVIEW;
    DATA_USE_APPROVAL; VENDOR_OVERSIGHT; HUMAN_DECISION_AUTHORITY; AUDIT_RECORD; PERIODIC_REVIEW].
#[export] Instance eq_dec : EqDecision t.
Proof. solve_decision. Defined.
End EvaluationGovernanceRequirement.
#[export] Existing Instance EvaluationGovernanceRequirement.eq_dec.

Module ArchitectureCharacteristic.
Inductive t := DETERMINISTIC_SUFFICIENT | RAG_APPROPRIATE | GRAPH_RETRIEVAL_APPROPRIATE |
    AGENT_WORKFLOW_JUSTIFIED | MULTI_AGENT_JUSTIFIED | MULTI_AGENT_UNNECESSARY |
    HUMAN_APPROVAL_REQUIRED | EXTERNAL_TOOL_PERMISSIONS_CONSTRAINED | SIMPLER_WORKFLOW_PREFERRED.
Definition value (x : t) : pystr :=
  match x with
  | DETERMINISTIC_SUFFICIENT => "deterministic_sufficient"
  | RAG_APPROPRIATE => "rag_appropriate"
  | GRAPH_RETRIEVAL_APPROPRIATE => "graph_retrieval_appropriate"
  | AGENT_WORKFLOW_JUSTIFIED => "agent_workflow_justified"
  | MULTI_AGENT_JUSTIFIED => "multi_agent_justified"
  | MULTI_AGENT_UNNECESSARY => "multi_agent_unnecessary"
  | HUMAN_APPROVAL_REQUIRED => "human_approval_required"
  | EXTERNAL_TOOL_PERMISSIONS_CONSTRAINED => "external_tool_permissions_constrained"
  | SIMPLER_WORKFLOW_PREFERRED => "simpler_workflow_preferred"
  end.
Definition members : list t := [DETERMINISTIC_SUFFICIENT; RAG_APPROPRIATE;
    GRAPH_RETRIEVAL_APPROPRIATE; AGENT_WORKFLOW_JUSTIFIED; MULTI_AGENT_JUSTIFIED;
    MULTI_AGENT_UNNECESSARY; HUMAN_APPROVAL_REQUIRED; EXTERNAL_TOOL_PERMISSIONS_CONSTRAINED;
    SIMPLER_WORKFLOW_PREFERRED].
#[export] Instance eq_dec : EqDecision t.
Proof. solve_decision. Defined.
End ArchitectureCharacteristic.
#[export] Existing Instance ArchitectureCharacteristic.eq_dec.

Module EvaluationSeverity.
Inductive t := LOW | MEDIUM | HIGH | CRITICAL.
Definition value (x : t) : pystr :=
  match x with
  | LOW => "low"
  | MEDIUM => "medium"
  | HIGH => "high"
  | CRITICAL => "critical"
  end.
Definition members : list t := [LOW; MEDIUM; HIGH; CRITICAL].
#[export] Instance eq_dec : EqDecision t.
Proof. solve_decision. Defined.
End EvaluationSeverity.
#[export] Existing Instance EvaluationSeverity.eq_dec.

Module AbstentionExpectation.
Inductive t := REQUIRED | NOT_REQUIRED.
Definition value (x : t) : pystr :=
  match x with
  | REQUIRED => "required"
  | NOT_REQUIRED => "not_required"
  end.
Definition members : list t := [REQUIRED; NOT_REQUIRED].
#[export] Instance eq_dec : EqDecision t.
Proof. solve_decision. Defined.
End AbstentionExpectation.
#[export] Existing Instance AbstentionExpectation.eq_dec.

Module ClaimSupportSource.
Inductive t := ASSESSMENT_INPUT | RETRIEVED_EVIDENCE | SPECIALIST_OUTPUT | SYSTEM_KNOWLEDGE.
Definition value (x : t) : pystr :=
  match x with
  | ASSESSMENT_INPUT => "assessment_input"
  | RETRIEVED_EVIDENCE => "retrieved_evidence"
  | SPECIALIST_OUTPUT => "specialist_output"
  | SYSTEM_KNOWLEDGE => "system_knowledge"
  end.
Definition members : list t := [ASSESSMENT_INPUT; RETRIEVED_EVIDENCE; SPECIALIST_OUTPUT;
    SYSTEM_KNOWLEDGE].
#[export] Instance eq_dec : EqDecision t.
Proof. solve_decision. Defined.
End ClaimSupportSource.
#[export] Existing Instance ClaimSupportSource.eq_dec.

Module AssessmentClaimType.
Inductive t := FACT | RISK | CONTROL | GOVERNANCE | ARCHITECTURE.
Definition value (x : t) : pystr :=
  match x with
  | FACT => "fact"
  | RISK => "risk"
  | CONTROL => "control"
  | GOVERNANCE => "governance"
  | ARCHITECTURE => "architecture"
  end.
Definition members : list t := [FACT; RISK; CONTROL; GOVERNANCE; ARCHITECTURE].
#[export] Instance eq_dec : EqDecision t.
Proof. solve_decision. Defined.
End AssessmentClaimType.
#[export] Existing Instance AssessmentClaimType.eq_dec.

Module AssessmentRunStatus.
Inductive t := COMPLETED | DEGRADED | FAILED.
Definition value (x : t) : pystr :=
  match x with
  | COMPLETED => "completed"
  | DEGRADED => "degraded"
  | FAILED => "failed"
  end.
Definition members : list t := [COMPLETED; DEGRADED; FAILED].
#[export] Instance eq_dec : EqDecision t.
Proof. solve_decision. Defined.
End AssessmentRunStatus.
#[export] Existing Instance AssessmentRunStatus.eq_dec.

(** ** Scenarios and outputs *)

Module ExpectedRisk.
Record t := mk {
  category : EvaluationRiskCategory.t;
  severity : EvaluationSeverity.t
}.
#[export] Instance eta : Eta t := λ r, mk (category r) (severity r).
End ExpectedRisk.
#[export] Existing Instance ExpectedRisk.eta.

Module ExpectedEvidenceRequirement.
Record t := mk {
  claim_id : pystr;
  allowed_sources : list ClaimSupportSource.t;
  allowed_reference_ids : list pystr;
  allowed_specialist_finding_ids : list pystr;
  allowed_system_knowledge_categories : list pystr;
  citation_required : bool
}.
#[export] Instance eta : Eta t := λ r, mk (claim_id r) (allowed_sources r) (allowed_reference_ids
    r) (allowed_specialist_finding_ids r) (allowed_system_knowledge_categories r)
    (citation_required r).
(** The constraints pydantic enforces on an instance. *)
Definition valid (r : t) : bool :=
  identifier_pattern (claim_id r) &&
  len_ge 1 (allowed_sources r).
End ExpectedEvidenceRequirement.
#[export] Existing Instance ExpectedEvidenceRequirement.eta.

Module ExpectedAbstentionBehavior.
Record t := mk {
  expectation : AbstentionExpectation.t;
  uncertainty_acknowledgment_required : bool;
  validation_recommendation_required : bool
}.
#[export] Instance eta : Eta t := λ r, mk (expectation r) (uncertainty_acknowledgment_required r)
    (validation_recommendation_required r).
(** The constraints pydantic enforces on an instance. *)
Definition valid (r : t) : bool :=
  negb (bool_decide (expectation r = AbstentionExpectation.REQUIRED) &&
    negb (uncertainty_acknowledgment_required r && validation_recommendation_required r)).
End ExpectedAbstentionBehavior.
#[export] Existing Instance ExpectedAbstentionBehavior.eta.

Module IdentifiedRisk.
Record t := mk {
  finding_id : pystr;
  category : EvaluationRiskCategory.t;
  severity : EvaluationSeverity.t
}.
#[export] Instance eta : Eta t := λ r, mk (finding_id r) (category r) (severity r).
(** The constraints pydantic enforces on an instance. *)
Definition valid (r : t) : bool :=
  identifier_pattern (finding_id r).
End IdentifiedRisk.
#[export] Existing Instance IdentifiedRisk.eta.

Module ClaimSupport.
Record t := mk {
  source : ClaimSupportSource.t;
  reference_id : option pystr;
  system_knowledge_category : option pystr
}.
#[export] Instance eta : Eta t := λ r, mk (source r) (reference_id r) (system_knowledge_category
    r).
(** The constraints pydantic enforces on an instance. *)
Definition valid (r : t) : bool :=
  opt_all (λ v, len_in 1 200 v) (reference_id r) &&
  opt_all (λ v, len_in 1 100 v) (system_knowledge_category r).
End ClaimSupport.
#[export] Existing Instance ClaimSupport.eta.

Module AssessmentClaim.
Record t := mk {
  claim_id : pystr;
  claim_type : AssessmentClaimType.t;
  summary : pystr;
  supports : list ClaimSupport.t
}.
#[export] Instance eta : Eta t := λ r, mk (claim_id r) (claim_type r) (summary r) (supports r).
(** The constraints pydantic enforces on an instance. *)
Definition valid (r : t) : bool :=
  identifier_pattern (claim_id r) &&
  len_in 1 500 (summary r) &&
  len_le 10 (supports r) &&
  forallb (λ v, ClaimSupport.valid v) (supports r).
End AssessmentClaim.
#[export] Existing Instance AssessmentClaim.eta.

Module SpecialistEvaluationTrace.
Record t := mk {
  available_finding_ids : list pystr;
  important_finding_ids : list pystr;
  disagreement_ids : list pystr;
  unavailable_specialists : list pystr
}.
#[export] Instance eta : Eta t := λ r, mk (available_finding_ids r) (important_finding_ids r)
    (disagreement_ids r) (unavailable_specialists r).
(** The constraints pydantic enforces on an instance. *)
Definition valid (r : t) : bool :=
  _require_unique (available_finding_ids r) && _require_unique (important_finding_ids r) &&
  _require_unique (disagreement_ids r) &&
  issubset (important_finding_ids r) (available_finding_ids r).
End SpecialistEvaluationTrace.
#[export] Existing Instance SpecialistEvaluationTrace.eta.

Module AssessmentEvaluationOutput.
Record t := mk {
  summary : pystr;
  identified_risks : list IdentifiedRisk.t;
  recommended_controls : list EvaluationControlCategory.t;
  governance_requirements : list EvaluationGovernanceRequirement.t;
  architecture_characteristics : list ArchitectureCharacteristic.t;
  human_oversight_recommended : bool;
  uncertainty_acknowledged : bool;
  abstained_from_unsupported_conclusion : bool;
  validation_recommended : bool;
  claims : list AssessmentClaim.t;
  run_status : AssessmentRunStatus.t;
  degradation_reasons : list pystr;
  specialists : option SpecialistEvaluationTrace.t;
  preserved_specialist_finding_ids : list pystr;
  surfaced_disagreement_ids : list pystr;
  degraded_state_acknowledged : bool
}.
#[export] Instance eta : Eta t := λ r, mk (summary r) (identified_risks r) (recommended_controls
    r) (governance_requirements r) (architecture_characteristics r) (human_oversight_recommended
    r) (uncertainty_acknowledged r) (abstained_from_unsupported_conclusion r)
    (validation_recommended r) (claims r) (run_status r) (degradation_reasons r) (specialists r)
    (preserved_specialist_finding_ids r) (surfaced_disagreement_ids r)
    (degraded_state_acknowledged r).
(** The constraints pydantic enforces on an instance. *)
Definition valid (r : t) : bool :=
  len_in 1 1000 (summary r) &&
  forallb (λ v, IdentifiedRisk.valid v) (identified_risks r) &&
  forallb (λ v, AssessmentClaim.valid v) (claims r) &&
  opt_all (λ v, SpecialistEvaluationTrace.valid v) (specialists r) &&
  _require_unique (IdentifiedRisk.category <$> identified_risks r) &&
  _require_unique (recommended_controls r) && _require_unique (governance_requirements r) &&
  _require_unique (architecture_characteristics r) &&
  _require_unique (AssessmentClaim.claim_id <$> claims r) &&
  _require_unique (preserved_specialist_finding_ids r) &&
  _require_unique (surfaced_disagreement_ids r) &&
  negb (bool_decide (run_status r = AssessmentRunStatus.DEGRADED) &&
        negb (truthy (degradation_reasons r))) &&
  negb (bool_decide (run_status r = AssessmentRunStatus.COMPLETED) &&
        truthy (degradation_reasons r)) &&
  negb (negb (is_not_none (specialists r)) &&
        (truthy (preserved_specialist_finding_ids r) || truthy (surfaced_disagreement_ids r))).
End AssessmentEvaluationOutput.
#[export] Existing Instance AssessmentEvaluationOutput.eta.

Module AssessmentEvaluationCase.
Record t := mk {
  case_id : pystr;
  title : pystr;
  scenario_category : AssessmentScenarioCategory.t;
  business_context : pystr;
  industry : pystr;
  business_problem : pystr;
  expected_risks : list ExpectedRisk.t;
  unacceptable_risks : list EvaluationRiskCategory.t;
  expected_controls : list EvaluationControlCategory.t;
  expected_governance_requirements : list EvaluationGovernanceRequirement.t;
  expected_architecture_characteristics : list ArchitectureCharacteristic.t;
  human_oversight_expected : bool;
  available_evidence_ids : list pystr;
  evidence_requirements : list ExpectedEvidenceRequirement.t;
  abstention : ExpectedAbstentionBehavior.t;
  evaluation_notes : pystr;
  fixtures : list (AssessmentEvaluationMode.t * AssessmentEvaluationOutput.t)
}.
#[export] Instance eta : Eta t := λ r, mk (case_id r) (title r) (scenario_category r)
    (business_context r) (industry r) (business_problem r) (expected_risks r) (unacceptable_risks
    r) (expected_controls r) (expected_governance_requirements r)
    (expected_architecture_characteristics r) (human_oversight_expected r)
    (available_evidence_ids r) (evidence_requirements r) (abstention r) (evaluation_notes r)
    (fixtures r).
(** The constraints pydantic enforces on an instance. *)
Definition valid (r : t) : bool :=
  identifier_pattern (case_id r) &&
  len_in 1 300 (title r) &&
  len_in 1 4000 (business_context r) &&
  len_in 1 120 (industry r) &&
  len_in 1 2000 (business_problem r) &&
  len_ge 1 (expected_risks r) &&
  len_ge 1 (expected_controls r) &&
  len_ge 1 (expected_governance_requirements r) &&
  len_ge 1 (expected_architecture_characteristics r) &&
  len_ge 1 (evidence_requirements r) &&
  forallb (λ v, ExpectedEvidenceRequirement.valid v) (evidence_requirements r) &&
  ExpectedAbstentionBehavior.valid (abstention r) &&
  len_in 1 1000 (evaluation_notes r) &&
  forallb (λ kv, AssessmentEvaluationOutput.valid kv.2) (fixtures r) &&
  _require_unique (ExpectedRisk.category <$> expected_risks r) &&
  _require_unique (unacceptable_risks r) &&
  negb (existsb (λ c, mem c (unacceptable_risks r)) (ExpectedRisk.category <$> expected_risks r))
    &&
  _require_unique (expected_controls r) &&
  _require_unique (expected_governance_requirements r) &&
  _require_unique (expected_architecture_characteristics r) &&
  _require_unique (available_evidence_ids r) &&
  _require_unique (ExpectedEvidenceRequirement.claim_id <$> evidence_requirements r) &&
  forallb (λ q,
    issubset (ExpectedEvidenceRequirement.allowed_reference_ids q) (available_evidence_ids r) &&
    negb (ExpectedEvidenceRequirement.citation_required q &&
          negb (truthy (ExpectedEvidenceRequirement.allowed_reference_ids q))))
    (evidence_requirements r) &&
  forallb (λ m, mem m (fst <$> fixtures r)) AssessmentEvaluationMode.members.
End AssessmentEvaluationCase.
#[export] Existing Instance AssessmentEvaluationCase.eta.

Module AssessmentEvaluationDataset.
Record t := mk {
  dataset_id : pystr;
  version : pystr;
  description : pystr;
  synthetic : bool;
  taxonomy_notice : pystr;
  cases : list AssessmentEvaluationCase.t
}.
#[export] Instance eta : Eta t := λ r, mk (dataset_id r) (version r) (description r) (synthetic
    r) (taxonomy_notice r) (cases r).
(** The constraints pydantic enforces on an instance. *)
Definition valid (r : t) : bool :=
  len_in 1 100 (dataset_id r) &&
  len_in 1 30 (version r) &&
  len_in 1 1000 (description r) &&
  len_in 1 1000 (taxonomy_notice r) &&
  len_ge 1 (cases r) &&
  forallb (λ v, AssessmentEvaluationCase.valid v) (cases r) &&
  synthetic r &&
  _require_unique (AssessmentEvaluationCase.case_id <$> cases r) &&
  _require_unique (AssessmentEvaluationCase.scenario_category <$> cases r).
Definition construct (r : t) : res t :=
  if valid r then Ok r else Raise ValidationError.
End AssessmentEvaluationDataset.
#[export] Existing Instance AssessmentEvaluationDataset.eta.

(** ** Results *)

Module AssessmentQualityMetrics.
Record t := mk {
  risk_recall : option pyfloat;
  risk_precision : option pyfloat;
  severity_consistency : option pyfloat;
  control_coverage : option pyfloat;
  governance_coverage : option pyfloat;
  human_oversight_accuracy : option pyfloat;
  architecture_fit_score : option pyfloat;
  over_engineering_avoidance : option pyfloat;
  groundedness : option pyfloat;
  unsupported_claim_rate : option pyfloat;
  appropriate_abstention_rate : option pyfloat;
  specialist_preservation : option pyfloat;
  synthesis_transparency : option pyfloat
}.
#[export] Instance eta : Eta t := λ r, mk (risk_recall r) (risk_precision r)
    (severity_consistency r) (control_coverage r) (governance_coverage r)
    (human_oversight_accuracy r) (architecture_fit_score r) (over_engineering_avoidance r)
    (groundedness r) (unsupported_claim_rate r) (appropriate_abstention_rate r)
    (specialist_preservation r) (synthesis_transparency r).
(** The constraints pydantic enforces on an instance. *)
Definition valid (r : t) : bool :=
  opt_all (λ v, fleb (float_of_Z 0%Z) v && fleb v (float_of_Z 1%Z)) (risk_recall r) &&
  opt_all (λ v, fleb (float_of_Z 0%Z) v && fleb v (float_of_Z 1%Z)) (risk_precision r) &&
  opt_all (λ v, fleb (float_of_Z 0%Z) v && fleb v (float_of_Z 1%Z)) (severity_consistency r) &&
  opt_all (λ v, fleb (float_of_Z 0%Z) v && fleb v (float_of_Z 1%Z)) (control_coverage r) &&
  opt_all (λ v, fleb (float_of_Z 0%Z) v && fleb v (float_of_Z 1%Z)) (governance_coverage r) &&
  opt_all (λ v, fleb (float_of_Z 0%Z) v && fleb v (float_of_Z 1%Z)) (human_oversight_accuracy r)
    &&
  opt_all (λ v, fleb (float_of_Z 0%Z) v && fleb v (float_of_Z 1%Z)) (architecture_fit_score r) &&
  opt_all (λ v, fleb (float_of_Z 0%Z) v && fleb v (float_of_Z 1%Z)) (over_engineering_avoidance
    r) &&
  opt_all (λ v, fleb (float_of_Z 0%Z) v && fleb v (float_of_Z 1%Z)) (groundedness r) &&
  opt_all (λ v, fleb (float_of_Z 0%Z) v && fleb v (float_of_Z 1%Z)) (unsupported_claim_rate r) &&
  opt_all (λ v, fleb (float_of_Z 0%Z) v && fleb v (float_of_Z 1%Z)) (appropriate_abstention_rate
    r) &&
  opt_all (λ v, fleb (float_of_Z 0%Z) v && fleb v (float_of_Z 1%Z)) (specialist_preservation r) &&
  opt_all (λ v, fleb (float_of_Z 0%Z) v && fleb v (float_of_Z 1%Z)) (synthesis_transparency r).
Definition construct (r : t) : res t :=
  if valid r then Ok r else Raise ValidationError.
End AssessmentQualityMetrics.
#[export] Existing Instance AssessmentQualityMetrics.eta.

Module AssessmentQualityObservations.
Record t := mk {
  identified_risks : list IdentifiedRisk.t;
  missing_risks : list EvaluationRiskCategory.t;
  unexpected_risks : list EvaluationRiskCategory.t;
  recommended_controls : list EvaluationControlCategory.t;
  missing_controls : list EvaluationControlCategory.t;
  governance_requirements : list EvaluationGovernanceRequirement.t;
  missing_governance_requirements : list EvaluationGovernanceRequirement.t;
  architecture_characteristics : list ArchitectureCharacteristic.t;
  missing_architecture_characteristics : list ArchitectureCharacteristic.t;
  unsupported_claim_ids : list pystr;
  missing_citation_claim_ids : list pystr;
  invalid_citation_claim_ids : list pystr;
  unacceptable_risks_identified : list EvaluationRiskCategory.t;
  human_oversight_expected : bool;
  human_oversight_recommended : bool;
  abstention_expected : AbstentionExpectation.t;
  uncertainty_acknowledged : bool;
  abstained_from_unsupported_conclusion : bool;
  validation_recommended : bool;
  run_status : AssessmentRunStatus.t;
  degradation_reasons : list pystr
}.
#[export] Instance eta : Eta t := λ r, mk (identified_risks r) (missing_risks r)
    (unexpected_risks r) (recommended_controls r) (missing_controls r) (governance_requirements
    r) (missing_governance_requirements r) (architecture_characteristics r)
    (missing_architecture_characteristics r) (unsupported_claim_ids r)
    (missing_citation_claim_ids r) (invalid_citation_claim_ids r) (unacceptable_risks_identified
    r) (human_oversight_expected r) (human_oversight_recommended r) (abstention_expected r)
    (uncertainty_acknowledged r) (abstained_from_unsupported_conclusion r)
    (validation_recommended r) (run_status r) (degradation_reasons r).
(** The constraints pydantic enforces on an instance. *)
Definition valid (r : t) : bool :=
  forallb (λ v, IdentifiedRisk.valid v) (identified_risks r).
Definition construct (r : t) : res t :=
  if valid r then Ok r else Raise ValidationError.
End AssessmentQualityObservations.
#[export] Existing Instance AssessmentQualityObservations.eta.

Module JudgeDimension.
Inductive t := GROUNDEDNESS | RISK_REASONING_QUALITY | MITIGATION_USEFULNESS |
    ARCHITECTURE_APPROPRIATENESS | GOVERNANCE_COMPLETENESS | CLARITY_ACTIONABILITY.
Definition value (x : t) : pystr :=
  match x with
  | GROUNDEDNESS => "groundedness"
  | RISK_REASONING_QUALITY => "risk_reasoning_quality"
  | MITIGATION_USEFULNESS => "mitigation_usefulness"
  | ARCHITECTURE_APPROPRIATENESS => "architecture_appropriateness"
  | GOVERNANCE_COMPLETENESS => "governance_completeness"
  | CLARITY_ACTIONABILITY => "clarity_actionability"
  end.
Definition members : list t := [GROUNDEDNESS; RISK_REASONING_QUALITY; MITIGATION_USEFULNESS;
    ARCHITECTURE_APPROPRIATENESS; GOVERNANCE_COMPLETENESS; CLARITY_ACTIONABILITY].
#[export] Instance eq_dec : EqDecision t.
Proof. solve_decision. Defined.
End JudgeDimension.
#[export] Existing Instance JudgeDimension.eq_dec.

Module JudgeDimensionScore.
Record t := mk {
  dimension : JudgeDimension.t;
  score : Z;
  rationale : pystr
}.
#[export] Instance eta : Eta t := λ r, mk (dimension r) (score r) (rationale r).
(** The constraints pydantic enforces on an instance. *)
Definition valid (r : t) : bool :=
  Z.leb 1%Z (score r) &&
  Z.leb (score r) 5%Z &&
  len_in 1 500 (rationale r).
End JudgeDimensionScore.
#[export] Existing Instance JudgeDimensionScore.eta.

Module JudgeFinding.
Record t := mk {
  finding_type : pystr;
  summary : pystr
}.
#[export] Instance eta : Eta t := λ r, mk (finding_type r) (summary r).
(** The constraints pydantic enforces on an instance. *)
Definition valid (r : t) : bool :=
  len_in 1 100 (finding_type r) &&
  len_in 1 500 (summary r).
End JudgeFinding.
#[export] Existing Instance JudgeFinding.eta.

Module JudgeUsage.
Record t := mk {
  input_tokens : option Z;
  output_tokens : option Z
}.
#[export] Instance eta : Eta t := λ r, mk (input_tokens r) (output_tokens r).
(** The constraints pydantic enforces on an instance. *)
Definition valid (r : t) : bool :=
  opt_all (λ v, Z.leb 0%Z v) (input_tokens r) &&
  opt_all (λ v, Z.leb 0%Z v) (output_tokens r).
Definition construct (r : t) : res t :=
  if valid r then Ok r else Raise ValidationError.
End JudgeUsage.
#[export] Existing Instance JudgeUsage.eta.

Module LLMJudgeResult.
Record t := mk {
  dimensions : list JudgeDimensionScore.t;
  findings : list JudgeFinding.t;
  confidence : pyfloat;
  usage : option JudgeUsage.t
}.
#[export] Instance eta : Eta t := λ r, mk (dimensions r) (findings r) (confidence r) (usage r).
(** The constraints pydantic enforces on an instance. *)
Definition valid (r : t) : bool :=
  forallb (λ v, JudgeDimensionScore.valid v) (dimensions r) &&
  len_le 20 (findings r) &&
  forallb (λ v, JudgeFinding.valid v) (findings r) &&
  fleb (float_of_Z 0%Z) (confidence r) &&
  fleb (confidence r) (float_of_Z 1%Z) &&
  opt_all (λ v, JudgeUsage.valid v) (usage r) &&
  _require_unique (JudgeDimensionScore.dimension <$> dimensions r) &&
  forallb (λ d, mem d (JudgeDimensionScore.dimension <$> dimensions r)) JudgeDimension.members.
Definition construct (r : t) : res t :=
  if valid r then Ok r else Raise ValidationError.
End LLMJudgeResult.
#[export] Existing Instance LLMJudgeResult.eta.

Module AssessmentCaseEvaluationResult.
Record t := mk {
  case_id : pystr;
  scenario_category : AssessmentScenarioCategory.t;
  mode : AssessmentEvaluationMode.t;
  failed : bool;
  error_code : option pystr;
  metrics : AssessmentQualityMetrics.t;
  observations : option AssessmentQualityObservations.t;
  judge : option LLMJudgeResult.t
}.
#[export] Instance eta : Eta t := λ r, mk (case_id r) (scenario_category r) (mode r) (failed r)
    (error_code r) (metrics r) (observations r) (judge r).
(** The constraints pydantic enforces on an instance. *)
Definition valid (r : t) : bool :=
  AssessmentQualityMetrics.valid (metrics r) &&
  opt_all (λ v, AssessmentQualityObservations.valid v) (observations r) &&
  opt_all (λ v, LLMJudgeResult.valid v) (judge r).
End AssessmentCaseEvaluationResult.
#[export] Existing Instance AssessmentCaseEvaluationResult.eta.

Module AssessmentEvaluationConfiguration.
Record t := mk {
  execution_profile : pystr;
  judge_enabled : bool;
  judge_model : option pystr;
  deterministic_contract_version : pystr
}.
#[export] Instance eta : Eta t := λ r, mk (execution_profile r) (judge_enabled r) (judge_model r)
    (deterministic_contract_version r).
End AssessmentEvaluationConfiguration.
#[export] Existing Instance AssessmentEvaluationConfiguration.eta.

Module AssessmentEvaluationReport.
Record t := mk {
  generated_at : datetime;
  dataset_id : pystr;
  dataset_version : pystr;
  synthetic : bool;
  mode : AssessmentEvaluationMode.t;
  total_cases : Z;
  evaluated_cases : Z;
  skipped_cases : list pystr;
  failed_cases : list pystr;
  degraded_cases : list pystr;
  aggregate_metrics : AssessmentQualityMetrics.t;
  cases : list AssessmentCaseEvaluationResult.t;
  configuration : AssessmentEvaluationConfiguration.t;
  llm_judge_calls : Z;
  reproducibility_fingerprint : pystr;
  warnings : list pystr
}.
#[export] Instance eta : Eta t := λ r, mk (generated_at r) (dataset_id r) (dataset_version r)
    (synthetic r) (mode r) (total_cases r) (evaluated_cases r) (skipped_cases r) (failed_cases r)
    (degraded_cases r) (aggregate_metrics r) (cases r) (configuration r) (llm_judge_calls r)
    (reproducibility_fingerprint r) (warnings r).
(** The constraints pydantic enforces on an instance. *)
Definition valid (r : t) : bool :=
  Z.leb 0%Z (total_cases r) &&
  Z.leb 0%Z (evaluated_cases r) &&
  AssessmentQualityMetrics.valid (aggregate_metrics r) &&
  forallb (λ v, AssessmentCaseEvaluationResult.valid v) (cases r) &&
  Z.leb 0%Z (llm_judge_calls r) &&
  fingerprint_pattern (reproducibility_fingerprint r).
End AssessmentEvaluationReport.
#[export] Existing Instance AssessmentEvaluationReport.eta.

Module AssessmentComparisonRow.
Record t := mk {
  metric : pystr;
  values : list (AssessmentEvaluationMode.t * (option pyfloat))
}.
#[export] Instance eta : Eta t := λ r, mk (metric r) (values r).
End AssessmentComparisonRow.
#[export] Existing Instance AssessmentComparisonRow.eta.

Module AssessmentModeComparison.
Record t := mk {
  generated_at : datetime;
  dataset_id : pystr;
  dataset_version : pystr;
  synthetic : bool;
  modes : list AssessmentEvaluationMode.t;
  rows : list AssessmentComparisonRow.t;
  key_tradeoffs : list pystr;
  best_mode_by_case : list (pystr * (list AssessmentEvaluationMode.t));
  benchmark_scope : pydict;
  warnings : list pystr
}.
#[export] Instance eta : Eta t := λ r, mk (generated_at r) (dataset_id r) (dataset_version r)
    (synthetic r) (modes r) (rows r) (key_tradeoffs r) (best_mode_by_case r) (benchmark_scope r)
    (warnings r).
End AssessmentModeComparison.
#[export] Existing Instance AssessmentModeComparison.eta.
