(* ===== verification/AssessmentEvaluation.v ===== *)
(** app/evaluation/assessment/: the deterministic quality evaluators, the runner that
    evaluates every scenario of a dataset in one execution mode, and the comparison of modes
    by the Pareto frontier of their scores.

    Arguments: the executor of a scenario, the optional judge and the clock, as effectful
    computations over any state; [json.dumps] of the fingerprint's payload and SHA-256.  Sets
    are lists without repetition. *)
From S2P Require Import Prelude PyFloat Errors Domain PyText FloatOrder Tools FloatRatio.
From S2P Require Import Counting AssessmentBenchmark.

(** ** evaluators.py *)

Definition _support_is_valid (support : ClaimSupport.t) (requirement : ExpectedEvidenceRequirement.t)
    (available_specialist_findings : list pystr) : bool :=
  let reference_in ids :=
    match ClaimSupport.reference_id support with Some r => mem r ids | None => false end in
  if negb (mem (ClaimSupport.source support) (ExpectedEvidenceRequirement.allowed_sources requirement))
  then false
  else
    match ClaimSupport.source support with
    | ClaimSupportSource.ASSESSMENT_INPUT =>
        negb (is_not_none (ClaimSupport.reference_id support)) &&
        negb (is_not_none (ClaimSupport.system_knowledge_category support))
    | ClaimSupportSource.RETRIEVED_EVIDENCE =>
        reference_in (ExpectedEvidenceRequirement.allowed_reference_ids requirement)
    | ClaimSupportSource.SPECIALIST_OUTPUT =>
        reference_in (ExpectedEvidenceRequirement.allowed_specialist_finding_ids requirement) &&
        reference_in available_specialist_findings
    | ClaimSupportSource.SYSTEM_KNOWLEDGE =>
        match ClaimSupport.system_knowledge_category support with
        | Some c => mem c (ExpectedEvidenceRequirement.allowed_system_knowledge_categories requirement)
        | None => false
        end
    end.

Definition _abstention_score (case : AssessmentEvaluationCase.t) (output : AssessmentEvaluationOutput.t) :
    res pyfloat :=
  let expected := AssessmentEvaluationCase.abstention case in
  if decide (ExpectedAbstentionBehavior.expectation expected = AbstentionExpectation.REQUIRED) then
    share_true
      ([AssessmentEvaluationOutput.abstained_from_unsupported_conclusion output] ++
       (if ExpectedAbstentionBehavior.uncertainty_acknowledgment_required expected
        then [AssessmentEvaluationOutput.uncertainty_acknowledged output] else []) ++
       (if ExpectedAbstentionBehavior.validation_recommendation_required expected
        then [AssessmentEvaluationOutput.validation_recommended output] else []))
  else Ok (float_of_bool (negb (AssessmentEvaluationOutput.abstained_from_unsupported_conclusion output))).

Definition _evaluate_synthesis (output : AssessmentEvaluationOutput.t) :
    res (option pyfloat * option pyfloat) :=
  match AssessmentEvaluationOutput.specialists output with
  | None => Ok (None, None)
  | Some specialists =>
      let important := remove_dups (SpecialistEvaluationTrace.important_finding_ids specialists) in
      let preserved := AssessmentEvaluationOutput.preserved_specialist_finding_ids output in
      res_bind (py_div_opt (length (set_and important preserved)) (length important)) (λ preservation,
      let checks :=
        [issubset preserved (SpecialistEvaluationTrace.available_finding_ids specialists)] ++
        (if truthy (SpecialistEvaluationTrace.disagreement_ids specialists)
         then [issubset (SpecialistEvaluationTrace.disagreement_ids specialists)
                 (AssessmentEvaluationOutput.surfaced_disagreement_ids output)] else []) ++
        (if truthy (SpecialistEvaluationTrace.unavailable_specialists specialists) ||
            truthy (AssessmentEvaluationOutput.degradation_reasons output)
         then [AssessmentEvaluationOutput.degraded_state_acknowledged output] else []) in
      res_bind (share_true checks) (λ transparency, Ok (preservation, Some transparency)))
  end.

(** The three lists the loop over the claims fills. *)
Record claim_verdicts := ClaimVerdicts {
  unsupported_claims : list pystr;
  missing_citations : list pystr;
  invalid_citations : list pystr
}.

(** The body of the loop over [output.claims]. *)
Definition judge_claim (requirements : list ExpectedEvidenceRequirement.t)
    (available_specialist_findings : list pystr) (v : claim_verdicts) (claim : AssessmentClaim.t) :
    claim_verdicts :=
  let id := AssessmentClaim.claim_id claim in
  match get_by ExpectedEvidenceRequirement.claim_id requirements id with
  | None =>
      ClaimVerdicts (unsupported_claims v ++ [id]) (missing_citations v) (invalid_citations v)
  | Some requirement =>
      let valid_support :=
        existsb (λ s, _support_is_valid s requirement available_specialist_findings)
          (AssessmentClaim.supports claim) in
      let unsupported := unsupported_claims v ++ (if valid_support then [] else [id]) in
      if ExpectedEvidenceRequirement.citation_required requirement then
        let evidence_supports :=
          filter (λ s, ClaimSupport.source s = ClaimSupportSource.RETRIEVED_EVIDENCE)
            (AssessmentClaim.supports claim) in
        if negb (truthy evidence_supports) then
          ClaimVerdicts unsupported (missing_citations v ++ [id]) (invalid_citations v)
        else if negb (existsb (λ s,
            match ClaimSupport.reference_id s with
            | Some r => mem r (ExpectedEvidenceRequirement.allowed_reference_ids requirement)
            | None => false
            end) evidence_supports)
        then ClaimVerdicts unsupported (missing_citations v) (invalid_citations v ++ [id])
        else ClaimVerdicts unsupported (missing_citations v) (invalid_citations v)
      else ClaimVerdicts unsupported (missing_citations v) (invalid_citations v)
  end.

Definition judge_claims (case : AssessmentEvaluationCase.t) (output : AssessmentEvaluationOutput.t) :
    claim_verdicts :=
  let requirements :=
    dict_by ExpectedEvidenceRequirement.claim_id (AssessmentEvaluationCase.evidence_requirements case) in
  let available :=
    match AssessmentEvaluationOutput.specialists output with
    | Some s => SpecialistEvaluationTrace.available_finding_ids s
    | None => []
    end in
  fold_left (judge_claim requirements available) (AssessmentEvaluationOutput.claims output)
    (ClaimVerdicts [] [] []).

(** The facts reported beside the scores. *)
Definition observations_of (case : AssessmentEvaluationCase.t) (output : AssessmentEvaluationOutput.t) :
    AssessmentQualityObservations.t :=
  let expected_risks := remove_dups (ExpectedRisk.category <$> AssessmentEvaluationCase.expected_risks case) in
  let identified_risks :=
    remove_dups (IdentifiedRisk.category <$> AssessmentEvaluationOutput.identified_risks output) in
  let expected_controls := AssessmentEvaluationCase.expected_controls case in
  let found_controls := AssessmentEvaluationOutput.recommended_controls output in
  let expected_governance := AssessmentEvaluationCase.expected_governance_requirements case in
  let found_governance := AssessmentEvaluationOutput.governance_requirements output in
  let expected_architecture := AssessmentEvaluationCase.expected_architecture_characteristics case in
  let found_architecture := AssessmentEvaluationOutput.architecture_characteristics output in
  let verdicts := judge_claims case output in
  let risk := EvaluationRiskCategory.value in
  let control := EvaluationControlCategory.value in
  let governance := EvaluationGovernanceRequirement.value in
  let architecture := ArchitectureCharacteristic.value in
  AssessmentQualityObservations.mk
    (sorted_by (λ r, risk (IdentifiedRisk.category r)) (AssessmentEvaluationOutput.identified_risks output))
    (sorted_by risk (set_sub expected_risks identified_risks))
    (sorted_by risk (set_sub identified_risks expected_risks))
    (sorted_by control (remove_dups found_controls))
    (sorted_by control (set_sub expected_controls found_controls))
    (sorted_by governance (remove_dups found_governance))
    (sorted_by governance (set_sub expected_governance found_governance))
    (sorted_by architecture (remove_dups found_architecture))
    (sorted_by architecture (set_sub expected_architecture found_architecture))
    (unsupported_claims verdicts) (missing_citations verdicts) (invalid_citations verdicts)
    (sorted_by risk (set_and (AssessmentEvaluationCase.unacceptable_risks case) identified_risks))
    (AssessmentEvaluationCase.human_oversight_expected case)
    (AssessmentEvaluationOutput.human_oversight_recommended output)
    (ExpectedAbstentionBehavior.expectation (AssessmentEvaluationCase.abstention case))
    (AssessmentEvaluationOutput.uncertainty_acknowledged output)
    (AssessmentEvaluationOutput.abstained_from_unsupported_conclusion output)
    (AssessmentEvaluationOutput.validation_recommended output)
    (AssessmentEvaluationOutput.run_status output)
    (AssessmentEvaluationOutput.degradation_reasons output).

Definition SIMPLE_ARCHITECTURE : list ArchitectureCharacteristic.t :=
  [ArchitectureCharacteristic.DETERMINISTIC_SUFFICIENT;
   ArchitectureCharacteristic.SIMPLER_WORKFLOW_PREFERRED;
   ArchitectureCharacteristic.MULTI_AGENT_UNNECESSARY].
Definition COMPLEX_ARCHITECTURE : list ArchitectureCharacteristic.t :=
  [ArchitectureCharacteristic.AGENT_WORKFLOW_JUSTIFIED;
   ArchitectureCharacteristic.MULTI_AGENT_JUSTIFIED].

(** The number of matched risks of the expected severity. *)
Definition severity_matches (case : AssessmentEvaluationCase.t) (output : AssessmentEvaluationOutput.t)
    (matched_risks : list EvaluationRiskCategory.t) : nat :=
  let expected := dict_by ExpectedRisk.category (AssessmentEvaluationCase.expected_risks case) in
  let identified :=
    dict_by IdentifiedRisk.category (AssessmentEvaluationOutput.identified_risks output) in
  length (filter (λ c,
    ExpectedRisk.severity <$> get_by ExpectedRisk.category expected c =
    IdentifiedRisk.severity <$> get_by IdentifiedRisk.category identified c) matched_risks).

Definition evaluate_assessment (case : AssessmentEvaluationCase.t)
    (output : AssessmentEvaluationOutput.t) :
    res (AssessmentQualityMetrics.t * AssessmentQualityObservations.t) :=
  let expected_risks := remove_dups (ExpectedRisk.category <$> AssessmentEvaluationCase.expected_risks case) in
  let identified_risks :=
    remove_dups (IdentifiedRisk.category <$> AssessmentEvaluationOutput.identified_risks output) in
  let matched_risks := set_and expected_risks identified_risks in
  let unsupported := unsupported_claims (judge_claims case output) in
  let claim_count := length (AssessmentEvaluationOutput.claims output) in
  let simple_expected :=
    truthy (set_and SIMPLE_ARCHITECTURE
      (AssessmentEvaluationCase.expected_architecture_characteristics case)) in
  let recommends_excessive_complexity :=
    truthy (set_and COMPLEX_ARCHITECTURE
      (AssessmentEvaluationOutput.architecture_characteristics output)) in
  res_bind (_evaluate_synthesis output) (λ '(specialist_preservation, synthesis_transparency),
  res_bind (AssessmentQualityObservations.construct (observations_of case output)) (λ observations,
  res_bind (py_div (length matched_risks) (length expected_risks)) (λ risk_recall,
  res_bind (if truthy identified_risks
            then py_div (length matched_risks) (length identified_risks)
            else Ok f64_zero) (λ risk_precision,
  res_bind (py_div_opt (severity_matches case output matched_risks) (length matched_risks))
    (λ severity_consistency,
  res_bind (coverage (AssessmentEvaluationCase.expected_controls case)
              (AssessmentEvaluationOutput.recommended_controls output)) (λ control_coverage,
  res_bind (coverage (AssessmentEvaluationCase.expected_governance_requirements case)
              (AssessmentEvaluationOutput.governance_requirements output)) (λ governance_coverage,
  res_bind (coverage (AssessmentEvaluationCase.expected_architecture_characteristics case)
              (AssessmentEvaluationOutput.architecture_characteristics output))
    (λ architecture_fit_score,
  res_bind (py_div_opt (claim_count - length unsupported) claim_count) (λ groundedness,
  res_bind (py_div_opt (length unsupported) claim_count) (λ unsupported_claim_rate,
  res_bind (_abstention_score case output) (λ appropriate_abstention_rate,
  res_bind (AssessmentQualityMetrics.construct (AssessmentQualityMetrics.mk
    (Some risk_recall) (Some risk_precision) severity_consistency (Some control_coverage)
    (Some governance_coverage)
    (Some (float_of_bool (eqb (AssessmentEvaluationOutput.human_oversight_recommended output)
                              (AssessmentEvaluationCase.human_oversight_expected case))))
    (Some architecture_fit_score)
    (if simple_expected : bool then Some (float_of_bool (negb recommends_excessive_complexity))
     else None)
    groundedness unsupported_claim_rate (Some appropriate_abstention_rate)
    specialist_preservation synthesis_transparency)) (λ metrics,
  Ok (metrics, observations))))))))))))).

(** ** The scores by name *)

(** [reports.METRIC_NAMES] with the attribute each names. *)
Definition METRICS : list (pystr * (AssessmentQualityMetrics.t → option pyfloat)) :=
  [(lit "risk_recall", AssessmentQualityMetrics.risk_recall);
   (lit "risk_precision", AssessmentQualityMetrics.risk_precision);
   (lit "severity_consistency", AssessmentQualityMetrics.severity_consistency);
   (lit "control_coverage", AssessmentQualityMetrics.control_coverage);
   (lit "governance_coverage", AssessmentQualityMetrics.governance_coverage);
   (lit "human_oversight_accuracy", AssessmentQualityMetrics.human_oversight_accuracy);
   (lit "architecture_fit_score", AssessmentQualityMetrics.architecture_fit_score);
   (lit "over_engineering_avoidance", AssessmentQualityMetrics.over_engineering_avoidance);
   (lit "groundedness", AssessmentQualityMetrics.groundedness);
   (lit "unsupported_claim_rate", AssessmentQualityMetrics.unsupported_claim_rate);
   (lit "appropriate_abstention_rate", AssessmentQualityMetrics.appropriate_abstention_rate);
   (lit "specialist_preservation", AssessmentQualityMetrics.specialist_preservation);
   (lit "synthesis_transparency", AssessmentQualityMetrics.synthesis_transparency)].

(** [_average] of one score over the evaluated cases, for each score. *)
Definition aggregate_quality_metrics (metrics : list AssessmentQualityMetrics.t) :
    res AssessmentQualityMetrics.t :=
  let mean p := average (p <$> metrics) in
  AssessmentQualityMetrics.construct (AssessmentQualityMetrics.mk
    (mean AssessmentQualityMetrics.risk_recall) (mean AssessmentQualityMetrics.risk_precision)
    (mean AssessmentQualityMetrics.severity_consistency)
    (mean AssessmentQualityMetrics.control_coverage)
    (mean AssessmentQualityMetrics.governance_coverage)
    (mean AssessmentQualityMetrics.human_oversight_accuracy)
    (mean AssessmentQualityMetrics.architecture_fit_score)
    (mean AssessmentQualityMetrics.over_engineering_avoidance)
    (mean AssessmentQualityMetrics.groundedness)
    (mean AssessmentQualityMetrics.unsupported_claim_rate)
    (mean AssessmentQualityMetrics.appropriate_abstention_rate)
    (mean AssessmentQualityMetrics.specialist_preservation)
    (mean AssessmentQualityMetrics.synthesis_transparency)).

(** ** The fingerprint of a run *)

Definition dump_strs (l : list pystr) : pyval := PList (PStr <$> l).
Definition dump_enum {A} (value : A → pystr) (l : list A) : pyval := PList ((λ x, PStr (value x)) <$> l).

(** [metrics.model_dump(mode="json")]. *)
Definition dump_metrics (m : AssessmentQualityMetrics.t) : pyval :=
  PDict ((λ nf, (nf.1, match nf.2 m with Some x => PFloat x | None => PNone end)) <$> METRICS).

Definition dump_risk (r : IdentifiedRisk.t) : pyval :=
  PDict [(lit "finding_id", PStr (IdentifiedRisk.finding_id r));
         (lit "category", PStr (EvaluationRiskCategory.value (IdentifiedRisk.category r)));
         (lit "severity", PStr (EvaluationSeverity.value (IdentifiedRisk.severity r)))].

(** [observations.model_dump(mode="json")]. *)
Definition dump_observations (o : AssessmentQualityObservations.t) : pyval :=
  let risks := dump_enum EvaluationRiskCategory.value in
  let controls := dump_enum EvaluationControlCategory.value in
  let governance := dump_enum EvaluationGovernanceRequirement.value in
  let architecture := dump_enum ArchitectureCharacteristic.value in
  PDict
    [(lit "identified_risks", PList (dump_risk <$> AssessmentQualityObservations.identified_risks o));
     (lit "missing_risks", risks (AssessmentQualityObservations.missing_risks o));
     (lit "unexpected_risks", risks (AssessmentQualityObservations.unexpected_risks o));
     (lit "recommended_controls", controls (AssessmentQualityObservations.recommended_controls o));
     (lit "missing_controls", controls (AssessmentQualityObservations.missing_controls o));
     (lit "governance_requirements",
      governance (AssessmentQualityObservations.governance_requirements o));
     (lit "missing_governance_requirements",
      governance (AssessmentQualityObservations.missing_governance_requirements o));
     (lit "architecture_characteristics",
      architecture (AssessmentQualityObservations.architecture_characteristics o));
     (lit "missing_architecture_characteristics",
      architecture (AssessmentQualityObservations.missing_architecture_characteristics o));
     (lit "unsupported_claim_ids", dump_strs (AssessmentQualityObservations.unsupported_claim_ids o));
     (lit "missing_citation_claim_ids",
      dump_strs (AssessmentQualityObservations.missing_citation_claim_ids o));
     (lit "invalid_citation_claim_ids",
      dump_strs (AssessmentQualityObservations.invalid_citation_claim_ids o));
     (lit "unacceptable_risks_identified",
      risks (AssessmentQualityObservations.unacceptable_risks_identified o));
     (lit "human_oversight_expected", PBool (AssessmentQualityObservations.human_oversight_expected o));
     (lit "human_oversight_recommended",
      PBool (AssessmentQualityObservations.human_oversight_recommended o));
     (lit "abstention_expected",
      PStr (AbstentionExpectation.value (AssessmentQualityObservations.abstention_expected o)));
     (lit "uncertainty_acknowledged", PBool (AssessmentQualityObservations.uncertainty_acknowledged o));
     (lit "abstained_from_unsupported_conclusion",
      PBool (AssessmentQualityObservations.abstained_from_unsupported_conclusion o));
     (lit "validation_recommended", PBool (AssessmentQualityObservations.validation_recommended o));
     (lit "run_status", PStr (AssessmentRunStatus.value (AssessmentQualityObservations.run_status o)));
     (lit "degradation_reasons", dump_strs (AssessmentQualityObservations.degradation_reasons o))].

(** [item.model_dump(mode="json", exclude={"judge"})]. *)
Definition dump_case (r : AssessmentCaseEvaluationResult.t) : pyval :=
  PDict
    [(lit "case_id", PStr (AssessmentCaseEvaluationResult.case_id r));
     (lit "scenario_category",
      PStr (AssessmentScenarioCategory.value (AssessmentCaseEvaluationResult.scenario_category r)));
     (lit "mode", PStr (AssessmentEvaluationMode.value (AssessmentCaseEvaluationResult.mode r)));
     (lit "failed", PBool (AssessmentCaseEvaluationResult.failed r));
     (lit "error_code", match AssessmentCaseEvaluationResult.error_code r with
                        | Some c => PStr c | None => PNone end);
     (lit "metrics", dump_metrics (AssessmentCaseEvaluationResult.metrics r));
     (lit "observations", match AssessmentCaseEvaluationResult.observations r with
                          | Some o => dump_observations o | None => PNone end)].

(** [json.dumps(value, sort_keys=True, separators=(",", ":"))]. *)
Class CanonicalJson := canonical_json : pyval → pystr.

Section runner.
Context {sha : Sha256} {json : CanonicalJson}.

Definition _fingerprint (mode : AssessmentEvaluationMode.t) (aggregate : AssessmentQualityMetrics.t)
    (results : list AssessmentCaseEvaluationResult.t) : res pystr :=
  sha256_of (canonical_json (PDict
    [(lit "mode", PStr (AssessmentEvaluationMode.value mode));
     (lit "aggregate", dump_metrics aggregate);
     (lit "cases", PList (dump_case <$> results))])).

(** ** runner.py *)

Context {S : Type}.
Context (execute : AssessmentEvaluationCase.t → AssessmentEvaluationMode.t →
                   M S AssessmentEvaluationOutput.t).
Context (judge : option (AssessmentEvaluationCase.t → AssessmentEvaluationOutput.t →
                         M S LLMJudgeResult.t)).
Context (clock : M S datetime) (dataset : AssessmentEvaluationDataset.t)
        (configuration : AssessmentEvaluationConfiguration.t).

(** [AssessmentQualityMetrics()]. *)
Definition no_metrics : AssessmentQualityMetrics.t :=
  AssessmentQualityMetrics.mk None None None None None None None None None None None None None.

Definition failed_result (case : AssessmentEvaluationCase.t) (mode : AssessmentEvaluationMode.t)
    (error_code : pystr) : AssessmentCaseEvaluationResult.t :=
  AssessmentCaseEvaluationResult.mk (AssessmentEvaluationCase.case_id case)
    (AssessmentEvaluationCase.scenario_category case) mode true (Some error_code) no_metrics None None.

(** The local variables of [run]. *)
Record progress := Progress {
  results : list AssessmentCaseEvaluationResult.t;
  judge_calls : Z;
  judge_failures : Z
}.
#[export] Instance progress_eta : Eta progress :=
  λ p, Progress (results p) (judge_calls p) (judge_failures p).

(** What the guarded part of the loop body finds for one scenario. *)
Inductive evaluation :=
  | Failed (result : AssessmentCaseEvaluationResult.t)
  | Evaluated (output : AssessmentEvaluationOutput.t) (metrics : AssessmentQualityMetrics.t)
      (observations : AssessmentQualityObservations.t).

Definition evaluate_case (case : AssessmentEvaluationCase.t) (mode : AssessmentEvaluationMode.t) :
    M S evaluation :=
  try_except
    (let* output := execute case mode in
     if decide (AssessmentEvaluationOutput.run_status output = AssessmentRunStatus.FAILED)
     then ret (Failed (failed_result case mode "assessment_mode_execution_failed"))
     else
       let* measured := of_res (evaluate_assessment case output) in
       ret (Evaluated output measured.1 measured.2))
    (λ _, ret (Failed (failed_result case mode "assessment_evaluation_execution_failed"))).

(** The optional judge: its result, and whether it failed. *)
Definition judge_case (case : AssessmentEvaluationCase.t) (output : AssessmentEvaluationOutput.t) :
    M S (option LLMJudgeResult.t * Z * Z) :=
  match judge with
  | Some ask =>
      if AssessmentEvaluationConfiguration.judge_enabled configuration then
        try_except (let* result := ask case output in ret (Some result, 1%Z, 0%Z))
          (λ _, ret (None, 1%Z, 1%Z))
      else ret (None, 0%Z, 0%Z)
  | None => ret (None, 0%Z, 0%Z)
  end.

Definition run_case (mode : AssessmentEvaluationMode.t) (p : progress)
    (case : AssessmentEvaluationCase.t) : M S progress :=
  let* outcome := evaluate_case case mode in
  match outcome with
  | Failed result => ret (p <| results := results p ++ [result] |>)
  | Evaluated output metrics observations =>
      let* judged := judge_case case output in
      let '(judge_result, calls, failures) := judged in
      ret (Progress
        (results p ++ [AssessmentCaseEvaluationResult.mk (AssessmentEvaluationCase.case_id case)
           (AssessmentEvaluationCase.scenario_category case) mode false None metrics
           (Some observations) judge_result])
        (judge_calls p + calls) (judge_failures p + failures))
  end.

Fixpoint run_cases (mode : AssessmentEvaluationMode.t) (p : progress)
    (cases : list AssessmentEvaluationCase.t) : M S progress :=
  match cases with
  | [] => ret p
  | case :: rest => let* p' := run_case mode p case in run_cases mode p' rest
  end.

Definition is_degraded (r : AssessmentCaseEvaluationResult.t) : bool :=
  match AssessmentCaseEvaluationResult.observations r with
  | Some o => bool_decide (AssessmentQualityObservations.run_status o = AssessmentRunStatus.DEGRADED)
  | None => false
  end.

Definition run_warnings (p : progress) : list pystr :=
  [lit "Synthetic deterministic assessment fixtures; not real-world production assurance.";
   lit "Deterministic metrics use explicit benchmark labels, not hidden reasoning."] ++
  (if negb (AssessmentEvaluationConfiguration.judge_enabled configuration)
   then [lit "Optional LLM judge disabled; zero judge calls made."]
   else if negb (is_not_none judge)
   then [lit "LLM judge enabled but unavailable; no judge results produced."] else []) ++
  (if negb (Z.eqb (judge_failures p) 0)
   then [lit "LLM judge unavailable for " ++ str_int (judge_failures p) ++ lit " case(s)."] else []).

(** The constructor of the report, which does not validate its parts again. *)
Definition construct_report (r : AssessmentEvaluationReport.t) : res AssessmentEvaluationReport.t :=
  if Z.leb 0 (AssessmentEvaluationReport.total_cases r) &&
     Z.leb 0 (AssessmentEvaluationReport.evaluated_cases r) &&
     Z.leb 0 (AssessmentEvaluationReport.llm_judge_calls r) &&
     fingerprint_pattern (AssessmentEvaluationReport.reproducibility_fingerprint r)
  then Ok r else Raise ValidationError.

Definition evaluated_of (results : list AssessmentCaseEvaluationResult.t) :
    list AssessmentCaseEvaluationResult.t :=
  filter (λ r, AssessmentCaseEvaluationResult.failed r = false) results.

Definition run (mode : AssessmentEvaluationMode.t) : M S AssessmentEvaluationReport.t :=
  let* p := run_cases mode (Progress [] 0 0) (AssessmentEvaluationDataset.cases dataset) in
  let evaluated := evaluated_of (results p) in
  let failed :=
    AssessmentCaseEvaluationResult.case_id <$>
      filter (λ r, AssessmentCaseEvaluationResult.failed r = true) (results p) in
  let degraded :=
    AssessmentCaseEvaluationResult.case_id <$> filter (λ r, is_degraded r = true) evaluated in
  let* aggregate :=
    of_res (aggregate_quality_metrics (AssessmentCaseEvaluationResult.metrics <$> evaluated)) in
  let* generated_at := clock in
  let* fingerprint := of_res (_fingerprint mode aggregate (results p)) in
  of_res (construct_report (AssessmentEvaluationReport.mk generated_at
    (AssessmentEvaluationDataset.dataset_id dataset) (AssessmentEvaluationDataset.version dataset)
    (AssessmentEvaluationDataset.synthetic dataset) mode (Z.of_nat (length (results p)))
    (Z.of_nat (length evaluated)) [] failed degraded aggregate (results p) configuration
    (judge_calls p) fingerprint (run_warnings p))).
End runner.

(** ** fixtures.py *)

(** [DeterministicAssessmentFixtureExecutor.execute]: a copy of the declared output. *)
Definition execute_fixture (case : AssessmentEvaluationCase.t) (mode : AssessmentEvaluationMode.t) :
    res AssessmentEvaluationOutput.t :=
  match py_next (λ kv, bool_decide (kv.1 = mode)) (AssessmentEvaluationCase.fixtures case) with
  | Some (_, output) => Ok output
  | None => Raise KeyError
  end.
