(* ===== verification/AssessmentEvaluationTheorems.v ===== *)
(** The assessment evaluators: every score is a number between 0 and 1 that agrees with the
    facts reported beside it, for every valid scenario and output. *)
From S2P Require Import Prelude PyFloat Errors Domain PyText FloatOrder Tools FloatRatio.
From S2P Require Import Counting AssessmentBenchmark AssessmentEvaluation.

(** ** Claims *)

Section claims.
Context (requirements : list ExpectedEvidenceRequirement.t) (available : list pystr).
Context (Hunique : NoDup (ExpectedEvidenceRequirement.claim_id <$> requirements)).

(** The claim has a requirement that accepts one of its supports. *)
Definition supported (claim : AssessmentClaim.t) : Prop :=
  ∃ q s, q ∈ requirements ∧ s ∈ AssessmentClaim.supports claim ∧
    ExpectedEvidenceRequirement.claim_id q = AssessmentClaim.claim_id claim ∧
    _support_is_valid s q available = true.

(** The claim's requirement demands a citation of retrieved evidence. *)
Definition must_cite (claim : AssessmentClaim.t) (q : ExpectedEvidenceRequirement.t) : Prop :=
  q ∈ requirements ∧ ExpectedEvidenceRequirement.claim_id q = AssessmentClaim.claim_id claim ∧
  ExpectedEvidenceRequirement.citation_required q = true.

Definition cites (claim : AssessmentClaim.t) (s : ClaimSupport.t) : Prop :=
  s ∈ AssessmentClaim.supports claim ∧ ClaimSupport.source s = ClaimSupportSource.RETRIEVED_EVIDENCE.

Definition cites_nothing (claim : AssessmentClaim.t) : Prop :=
  (∃ q, must_cite claim q) ∧ ∀ s, ¬ cites claim s.

Definition cites_wrongly (claim : AssessmentClaim.t) : Prop :=
  ∃ q, must_cite claim q ∧ (∃ s, cites claim s) ∧
    ∀ s r, cites claim s → ClaimSupport.reference_id s = Some r →
      r ∉ ExpectedEvidenceRequirement.allowed_reference_ids q.

Lemma requirement_unique q q' claim :
  q ∈ requirements → ExpectedEvidenceRequirement.claim_id q = AssessmentClaim.claim_id claim →
  q' ∈ requirements → ExpectedEvidenceRequirement.claim_id q' = AssessmentClaim.claim_id claim →
  q' = q.
Proof.
  intros Hin Hid Hin' Hid'.
  pose proof (proj2 (get_by_Some _ _ _ q' Hunique) (conj Hin' Hid')) as H1.
  pose proof (proj2 (get_by_Some _ _ _ q Hunique) (conj Hin Hid)) as H2. congruence.
Qed.

Definition evidence_supports (claim : AssessmentClaim.t) : list ClaimSupport.t :=
  filter (λ s, ClaimSupport.source s = ClaimSupportSource.RETRIEVED_EVIDENCE)
    (AssessmentClaim.supports claim).
Definition allowed_citation (q : ExpectedEvidenceRequirement.t) (claim : AssessmentClaim.t) : bool :=
  existsb (λ s, match ClaimSupport.reference_id s with
                | Some r => mem r (ExpectedEvidenceRequirement.allowed_reference_ids q)
                | None => false
                end) (evidence_supports claim).

Section requirement.
Context (claim : AssessmentClaim.t) (q : ExpectedEvidenceRequirement.t).
Context (Hin : q ∈ requirements).
Context (Hid : ExpectedEvidenceRequirement.claim_id q = AssessmentClaim.claim_id claim).

Lemma supported_iff :
  existsb (λ s, _support_is_valid s q available) (AssessmentClaim.supports claim) = true ↔
  supported claim.
Proof.
  rewrite existsb_Exists, Exists_exists. split.
  - intros (s & Hs & Hv). by exists q, s.
  - intros (q' & s & Hq' & Hs & Hid' & Hv).
    rewrite (requirement_unique q q' claim Hin Hid Hq' Hid') in Hv. eauto.
Qed.

Lemma must_cite_iff q' :
  must_cite claim q' ↔ q' = q ∧ ExpectedEvidenceRequirement.citation_required q = true.
Proof.
  split; [intros (Hq' & Hid' & Hc); pose proof (requirement_unique q q' claim Hin Hid Hq' Hid')
         |intros [-> Hc]]; [by subst|done].
Qed.

Lemma elem_of_evidence s : s ∈ evidence_supports claim ↔ cites claim s.
Proof. unfold evidence_supports, cites. rewrite list_elem_of_filter. tauto. Qed.

Lemma cites_nothing_iff :
  cites_nothing claim ↔
  ExpectedEvidenceRequirement.citation_required q = true ∧ truthy (evidence_supports claim) = false.
Proof.
  unfold cites_nothing. setoid_rewrite must_cite_iff. setoid_rewrite <- elem_of_evidence. split.
  - intros [(q' & -> & Hc) Hno]. split; [done|]. destruct (evidence_supports claim) as [|s l]; [done|].
    destruct (Hno s). left.
  - intros [Hc Ht]. split; [by exists q|]. intros s Hs.
    destruct (evidence_supports claim); [by apply elem_of_nil in Hs|done].
Qed.

Lemma cites_wrongly_iff :
  cites_wrongly claim ↔
  ExpectedEvidenceRequirement.citation_required q = true ∧ truthy (evidence_supports claim) = true ∧
  allowed_citation q claim = false.
Proof.
  unfold cites_wrongly, allowed_citation. setoid_rewrite must_cite_iff. setoid_rewrite <- elem_of_evidence. split.
  - intros (q' & [-> Hc] & [s0 Hs0] & Hno). split_and!; [done| |].
    + destruct (evidence_supports claim); [by apply elem_of_nil in Hs0|done].
    + apply not_true_is_false. rewrite existsb_Exists, Exists_exists. intros (s & Hs & Hr).
      destruct (ClaimSupport.reference_id s) as [r|] eqn:Hid'; [|done].
      apply mem_spec in Hr. by apply (Hno s r).
  - intros (Hc & Ht & He). exists q. split; [done|split].
    + destruct (evidence_supports claim) as [|s l]; [done|]. exists s. left.
    + intros s r Hs Hr Hmem. rewrite <- not_true_iff_false in He. apply He.
      rewrite existsb_Exists, Exists_exists. exists s. rewrite Hr. split; [done|].
      by apply mem_spec.
Qed.
End requirement.

(** [l] is [id] when [P] holds and empty otherwise. *)
Definition listed (id : pystr) (P : Prop) (l : list pystr) : Prop := P ∧ l = [id] ∨ ¬ P ∧ l = [].

Lemma listed_if id P (b : bool) : (b = true ↔ P) → listed id P (if b then [id] else []).
Proof. unfold listed. destruct b; naive_solver. Qed.

(** One round of the loop extends each list by the claim's identifier or by nothing. *)
Lemma judge_claim_step v claim :
  ∃ u m i, judge_claim requirements available v claim =
    ClaimVerdicts (unsupported_claims v ++ u) (missing_citations v ++ m) (invalid_citations v ++ i) ∧
    listed (AssessmentClaim.claim_id claim) (¬ supported claim) u ∧
    listed (AssessmentClaim.claim_id claim) (cites_nothing claim) m ∧
    listed (AssessmentClaim.claim_id claim) (cites_wrongly claim) i.
Proof.
  unfold judge_claim. destruct (get_by _ _ _) as [q|] eqn:Hq.
  2: { apply get_by_None in Hq. exists [AssessmentClaim.claim_id claim], [], [].
       rewrite !app_nil_r. split; [done|].
       assert (∀ q, q ∈ requirements →
         ExpectedEvidenceRequirement.claim_id q ≠ AssessmentClaim.claim_id claim) as Hno.
       { intros q Hin Heq. apply Hq. rewrite <- Heq. by apply list_elem_of_fmap_2. }
       split_and!; [left|right|right]; (split; [|done]).
       - intros (q & s & Hin & _ & Heq & _). by apply (Hno q).
       - intros [(q & Hin & Heq & _) _]. by apply (Hno q).
       - intros (q & (Hin & Heq & _) & _). by apply (Hno q). }
  apply get_by_Some in Hq as [Hin Hid]; [|done].
  set (id := AssessmentClaim.claim_id claim).
  set (sup := existsb (λ s, _support_is_valid s q available) (AssessmentClaim.supports claim)).
  set (must := ExpectedEvidenceRequirement.citation_required q).
  exists (if negb sup then [id] else []),
    (if must && negb (truthy (evidence_supports claim)) then [id] else []),
    (if must && (truthy (evidence_supports claim) && negb (allowed_citation q claim))
     then [id] else []).
  split_and!.
  - fold (evidence_supports claim) (allowed_citation q claim).
    destruct must, sup, (truthy (evidence_supports claim)), (allowed_citation q claim);
      simpl; by rewrite ?app_nil_r.
  - apply listed_if. rewrite negb_true_iff, <- not_true_iff_false.
    unfold sup. by rewrite (supported_iff claim q Hin Hid).
  - apply listed_if. rewrite (cites_nothing_iff claim q Hin Hid), andb_true_iff, negb_true_iff. done.
  - apply listed_if. rewrite (cites_wrongly_iff claim q Hin Hid), !andb_true_iff, negb_true_iff. done.
Qed.

(** The identifiers of the claims satisfying [P], in order. *)
Inductive listing_of (P : AssessmentClaim.t → Prop) : list AssessmentClaim.t → list pystr → Prop :=
  | listing_nil : listing_of P [] []
  | listing_cons c l ids new :
      listed (AssessmentClaim.claim_id c) (P c) new → listing_of P l ids →
      listing_of P (c :: l) (new ++ ids).

Lemma judge_claims_listing v claims :
  ∃ u m i, fold_left (judge_claim requirements available) claims v =
    ClaimVerdicts (unsupported_claims v ++ u) (missing_citations v ++ m) (invalid_citations v ++ i) ∧
    listing_of (λ c, ¬ supported c) claims u ∧ listing_of cites_nothing claims m ∧
    listing_of cites_wrongly claims i.
Proof.
  revert v; induction claims as [|c l IH]; intros v; simpl.
  { exists [], [], []. rewrite !app_nil_r. split_and!; [by destruct v|constructor..]. }
  destruct (judge_claim_step v c) as (u & m & i & -> & Hu & Hm & Hi).
  destruct (IH (ClaimVerdicts (unsupported_claims v ++ u) (missing_citations v ++ m)
    (invalid_citations v ++ i))) as (u' & m' & i' & -> & Hu' & Hm' & Hi').
  exists (u ++ u'), (m ++ m'), (i ++ i'). simpl. rewrite !app_assoc.
  split_and!; [done|by constructor..].
Qed.

Lemma listing_length P claims ids : listing_of P claims ids → (length ids ≤ length claims)%nat.
Proof.
  induction 1 as [|c l ids new Hnew _ IH]; [done|]. rewrite length_app. simpl.
  destruct Hnew as [[_ ->]|[_ ->]]; simpl; lia.
Qed.

Lemma listing_elem P claims ids id :
  listing_of P claims ids → id ∈ ids ↔ ∃ c, c ∈ claims ∧ AssessmentClaim.claim_id c = id ∧ P c.
Proof.
  induction 1 as [|c l ids new Hnew _ IH].
  { split; [by intros ?%elem_of_nil|]. by intros (c & ?%elem_of_nil & _). }
  rewrite elem_of_app, IH. setoid_rewrite elem_of_cons. destruct Hnew as [[HP ->]|[HP ->]].
  - rewrite list_elem_of_singleton. naive_solver.
  - split; [|naive_solver]. intros [?%elem_of_nil|]; naive_solver.
Qed.
End claims.

(** ** The scores agree with the facts *)

(** Every list a score counts has fewer than 2^53 elements. *)
Record countable (case : AssessmentEvaluationCase.t) (output : AssessmentEvaluationOutput.t) : Prop := {
  cn_expected_risks : small (length (AssessmentEvaluationCase.expected_risks case));
  cn_identified_risks : small (length (AssessmentEvaluationOutput.identified_risks output));
  cn_controls : small (length (AssessmentEvaluationCase.expected_controls case));
  cn_governance : small (length (AssessmentEvaluationCase.expected_governance_requirements case));
  cn_architecture : small (length (AssessmentEvaluationCase.expected_architecture_characteristics case));
  cn_claims : small (length (AssessmentEvaluationOutput.claims output));
  cn_findings : ∀ s, AssessmentEvaluationOutput.specialists output = Some s →
    small (length (SpecialistEvaluationTrace.important_finding_ids s))
}.

(** A coverage score is 1 exactly when nothing is missing. *)
Definition complete_iff {A} (score : option pyfloat) (missing : list A) : Prop :=
  ∃ x, score = Some x ∧ unit_score x = true ∧ (feqb x f64_one = true ↔ missing = []).

Definition available_findings (output : AssessmentEvaluationOutput.t) : list pystr :=
  match AssessmentEvaluationOutput.specialists output with
  | Some s => SpecialistEvaluationTrace.available_finding_ids s
  | None => []
  end.

(** Both lists name a risk of category [c]. *)
Definition found_risk (case : AssessmentEvaluationCase.t) (output : AssessmentEvaluationOutput.t) c :
    Prop :=
  c ∈ ExpectedRisk.category <$> AssessmentEvaluationCase.expected_risks case ∧
  c ∈ IdentifiedRisk.category <$> AssessmentEvaluationOutput.identified_risks output.

(** The expected and the identified risk of category [c] have the same severity. *)
Definition same_severity (case : AssessmentEvaluationCase.t) (output : AssessmentEvaluationOutput.t) c :
    Prop :=
  ∃ e i, e ∈ AssessmentEvaluationCase.expected_risks case ∧
    i ∈ AssessmentEvaluationOutput.identified_risks output ∧
    ExpectedRisk.category e = c ∧ IdentifiedRisk.category i = c ∧
    ExpectedRisk.severity e = IdentifiedRisk.severity i.

(** The checks an abstention is scored by, where one is required: that the output abstained
    and, where the scenario demands it, acknowledged the uncertainty and recommended a
    validation. *)
Definition abstention_checks (case : AssessmentEvaluationCase.t) (output : AssessmentEvaluationOutput.t) :
    nat * nat :=
  let expected := AssessmentEvaluationCase.abstention case in
  let u := ExpectedAbstentionBehavior.uncertainty_acknowledgment_required expected in
  let v := ExpectedAbstentionBehavior.validation_recommendation_required expected in
  (Nat.b2n (AssessmentEvaluationOutput.abstained_from_unsupported_conclusion output) +
   Nat.b2n (u && AssessmentEvaluationOutput.uncertainty_acknowledged output) +
   Nat.b2n (v && AssessmentEvaluationOutput.validation_recommended output),
   1 + Nat.b2n u + Nat.b2n v)%nat.

(** The checks a synthesis is scored by: it preserves only findings that were available,
    surfaces every disagreement when there is one, and acknowledges a degraded state. *)
Definition synthesis_checks (output : AssessmentEvaluationOutput.t) (s : SpecialistEvaluationTrace.t) :
    nat * nat :=
  let d := negb (bool_decide (SpecialistEvaluationTrace.disagreement_ids s = [])) in
  let g := negb (bool_decide (SpecialistEvaluationTrace.unavailable_specialists s = [] ∧
                              AssessmentEvaluationOutput.degradation_reasons output = [])) in
  (Nat.b2n (bool_decide (AssessmentEvaluationOutput.preserved_specialist_finding_ids output ⊆
                         SpecialistEvaluationTrace.available_finding_ids s)) +
   Nat.b2n (d && bool_decide (SpecialistEvaluationTrace.disagreement_ids s ⊆
                              AssessmentEvaluationOutput.surfaced_disagreement_ids output)) +
   Nat.b2n (g && AssessmentEvaluationOutput.degraded_state_acknowledged output),
   1 + Nat.b2n d + Nat.b2n g)%nat.

Definition quotient (ab : nat * nat) : pyfloat := int_ratio (Z.of_nat ab.1) (Z.of_nat ab.2).

(** The exact value of every score; [unsupported] are the claims reported as unsupported. *)
Record exact_scores (case : AssessmentEvaluationCase.t) (output : AssessmentEvaluationOutput.t)
    (unsupported : list pystr) (m : AssessmentQualityMetrics.t) : Prop := {
  xs_recall : ∃ x, AssessmentQualityMetrics.risk_recall m = Some x ∧
    fraction (.∈ IdentifiedRisk.category <$> AssessmentEvaluationOutput.identified_risks output)
             (.∈ ExpectedRisk.category <$> AssessmentEvaluationCase.expected_risks case) x;
  xs_precision : ∃ x, AssessmentQualityMetrics.risk_precision m = Some x ∧
    (AssessmentEvaluationOutput.identified_risks output = [] → x = f64_zero) ∧
    (AssessmentEvaluationOutput.identified_risks output ≠ [] →
     fraction (.∈ ExpectedRisk.category <$> AssessmentEvaluationCase.expected_risks case)
              (.∈ IdentifiedRisk.category <$> AssessmentEvaluationOutput.identified_risks output) x);
  xs_severity : match AssessmentQualityMetrics.severity_consistency m with
    | Some x => fraction (same_severity case output) (found_risk case output) x
    | None => ∀ c, ¬ found_risk case output c
    end;
  xs_controls : ∃ x, AssessmentQualityMetrics.control_coverage m = Some x ∧
    fraction (.∈ AssessmentEvaluationOutput.recommended_controls output)
             (.∈ AssessmentEvaluationCase.expected_controls case) x;
  xs_governance : ∃ x, AssessmentQualityMetrics.governance_coverage m = Some x ∧
    fraction (.∈ AssessmentEvaluationOutput.governance_requirements output)
             (.∈ AssessmentEvaluationCase.expected_governance_requirements case) x;
  xs_architecture : ∃ x, AssessmentQualityMetrics.architecture_fit_score m = Some x ∧
    fraction (.∈ AssessmentEvaluationOutput.architecture_characteristics output)
             (.∈ AssessmentEvaluationCase.expected_architecture_characteristics case) x;
  xs_oversight : AssessmentQualityMetrics.human_oversight_accuracy m =
    Some (if decide (AssessmentEvaluationOutput.human_oversight_recommended output =
                     AssessmentEvaluationCase.human_oversight_expected case)
          then f64_one else f64_zero);
  xs_engineering :
    let simple := ∃ c, c ∈ SIMPLE_ARCHITECTURE ∧
      c ∈ AssessmentEvaluationCase.expected_architecture_characteristics case in
    let complex := ∃ c, c ∈ COMPLEX_ARCHITECTURE ∧
      c ∈ AssessmentEvaluationOutput.architecture_characteristics output in
    (¬ simple → AssessmentQualityMetrics.over_engineering_avoidance m = None) ∧
    (simple → complex → AssessmentQualityMetrics.over_engineering_avoidance m = Some f64_zero) ∧
    (simple → ¬ complex → AssessmentQualityMetrics.over_engineering_avoidance m = Some f64_one);
  xs_claims :
    let n := length (AssessmentEvaluationOutput.claims output) in
    let u := length unsupported in
    (n = O → AssessmentQualityMetrics.groundedness m = None ∧
             AssessmentQualityMetrics.unsupported_claim_rate m = None) ∧
    (n ≠ O → AssessmentQualityMetrics.groundedness m = Some (quotient (n - u, n)%nat) ∧
             AssessmentQualityMetrics.unsupported_claim_rate m = Some (quotient (u, n)));
  xs_abstention : AssessmentQualityMetrics.appropriate_abstention_rate m = Some (
    if decide (ExpectedAbstentionBehavior.expectation (AssessmentEvaluationCase.abstention case) =
               AbstentionExpectation.REQUIRED)
    then quotient (abstention_checks case output)
    else if AssessmentEvaluationOutput.abstained_from_unsupported_conclusion output
    then f64_zero else f64_one);
  xs_preservation : match AssessmentEvaluationOutput.specialists output with
    | None => AssessmentQualityMetrics.specialist_preservation m = None
    | Some s =>
        match AssessmentQualityMetrics.specialist_preservation m with
        | None => SpecialistEvaluationTrace.important_finding_ids s = []
        | Some x => fraction (.∈ AssessmentEvaluationOutput.preserved_specialist_finding_ids output)
                      (.∈ SpecialistEvaluationTrace.important_finding_ids s) x
        end
    end;
  xs_transparency : AssessmentQualityMetrics.synthesis_transparency m =
    (λ s, quotient (synthesis_checks output s)) <$> AssessmentEvaluationOutput.specialists output
}.

(** What the scores [m] and the observations [o] of an output say. *)
Record explained (case : AssessmentEvaluationCase.t) (output : AssessmentEvaluationOutput.t)
    (m : AssessmentQualityMetrics.t) (o : AssessmentQualityObservations.t) : Prop := {
  ex_valid : AssessmentQualityMetrics.valid m = true;
  ex_missing_risks : ∀ c, c ∈ AssessmentQualityObservations.missing_risks o ↔
    c ∈ ExpectedRisk.category <$> AssessmentEvaluationCase.expected_risks case ∧
    c ∉ IdentifiedRisk.category <$> AssessmentEvaluationOutput.identified_risks output;
  ex_unexpected_risks : ∀ c, c ∈ AssessmentQualityObservations.unexpected_risks o ↔
    c ∈ IdentifiedRisk.category <$> AssessmentEvaluationOutput.identified_risks output ∧
    c ∉ ExpectedRisk.category <$> AssessmentEvaluationCase.expected_risks case;
  ex_missing_controls : ∀ c, c ∈ AssessmentQualityObservations.missing_controls o ↔
    c ∈ AssessmentEvaluationCase.expected_controls case ∧
    c ∉ AssessmentEvaluationOutput.recommended_controls output;
  ex_missing_governance : ∀ c, c ∈ AssessmentQualityObservations.missing_governance_requirements o ↔
    c ∈ AssessmentEvaluationCase.expected_governance_requirements case ∧
    c ∉ AssessmentEvaluationOutput.governance_requirements output;
  ex_missing_architecture : ∀ c,
    c ∈ AssessmentQualityObservations.missing_architecture_characteristics o ↔
    c ∈ AssessmentEvaluationCase.expected_architecture_characteristics case ∧
    c ∉ AssessmentEvaluationOutput.architecture_characteristics output;
  ex_scores : exact_scores case output (AssessmentQualityObservations.unsupported_claim_ids o) m;
  ex_listing : listing_of
    (λ c, ¬ supported (AssessmentEvaluationCase.evidence_requirements case) (available_findings output) c)
    (AssessmentEvaluationOutput.claims output) (AssessmentQualityObservations.unsupported_claim_ids o);
  ex_recall : complete_iff (AssessmentQualityMetrics.risk_recall m)
    (AssessmentQualityObservations.missing_risks o);
  ex_precision : AssessmentEvaluationOutput.identified_risks output ≠ [] →
    complete_iff (AssessmentQualityMetrics.risk_precision m)
      (AssessmentQualityObservations.unexpected_risks o);
  ex_controls : complete_iff (AssessmentQualityMetrics.control_coverage m)
    (AssessmentQualityObservations.missing_controls o);
  ex_governance : complete_iff (AssessmentQualityMetrics.governance_coverage m)
    (AssessmentQualityObservations.missing_governance_requirements o);
  ex_architecture : complete_iff (AssessmentQualityMetrics.architecture_fit_score m)
    (AssessmentQualityObservations.missing_architecture_characteristics o);
  ex_unsupported : ∀ id, id ∈ AssessmentQualityObservations.unsupported_claim_ids o ↔
    ∃ c, c ∈ AssessmentEvaluationOutput.claims output ∧ AssessmentClaim.claim_id c = id ∧
      ¬ supported (AssessmentEvaluationCase.evidence_requirements case) (available_findings output) c;
  ex_missing_citations : ∀ id, id ∈ AssessmentQualityObservations.missing_citation_claim_ids o ↔
    ∃ c, c ∈ AssessmentEvaluationOutput.claims output ∧ AssessmentClaim.claim_id c = id ∧
      cites_nothing (AssessmentEvaluationCase.evidence_requirements case) c;
  ex_invalid_citations : ∀ id, id ∈ AssessmentQualityObservations.invalid_citation_claim_ids o ↔
    ∃ c, c ∈ AssessmentEvaluationOutput.claims output ∧ AssessmentClaim.claim_id c = id ∧
      cites_wrongly (AssessmentEvaluationCase.evidence_requirements case) c;
  ex_groundedness :
    match AssessmentQualityMetrics.groundedness m, AssessmentQualityMetrics.unsupported_claim_rate m with
    | Some x, Some y =>
        AssessmentEvaluationOutput.claims output ≠ [] ∧
        (feqb x f64_one = true ↔ AssessmentQualityObservations.unsupported_claim_ids o = []) ∧
        (feqb y f64_zero = true ↔ AssessmentQualityObservations.unsupported_claim_ids o = [])
    | None, None => AssessmentEvaluationOutput.claims output = []
    | _, _ => False
    end;
  ex_transparency : is_not_none (AssessmentQualityMetrics.synthesis_transparency m) =
    is_not_none (AssessmentEvaluationOutput.specialists output)
}.

Lemma sorted_by_nil {A} (value : A → pystr) l : sorted_by value l = [] ↔ l = [].
Proof.
  unfold sorted_by. split; [|by intros ->]. intros H. apply Permutation_nil_r.
  rewrite <- H. symmetry. apply merge_sort_Permutation.
Qed.

Lemma elem_of_sorted_by {A} (value : A → pystr) l x : x ∈ sorted_by value l ↔ x ∈ l.
Proof. apply elem_of_merge_sort. Qed.

Lemma forallb_sorted_by {A} (p : A → bool) (value : A → pystr) l :
  forallb p l = true → forallb p (sorted_by value l) = true.
Proof.
  rewrite !forallb_Forall, !Forall_forall. intros H x. rewrite elem_of_sorted_by. apply H.
Qed.

Lemma synthesis_total output :
  (∀ s, AssessmentEvaluationOutput.specialists output = Some s →
    small (length (SpecialistEvaluationTrace.important_finding_ids s))) →
  ∃ p t, _evaluate_synthesis output = Ok (p, t) ∧
    opt_all unit_score p = true ∧ opt_all unit_score t = true ∧
    is_not_none t = is_not_none (AssessmentEvaluationOutput.specialists output) ∧
    (is_not_none p = true → is_not_none t = true).
Proof.
  intros Hs. unfold _evaluate_synthesis.
  destruct (AssessmentEvaluationOutput.specialists output) as [s|]; [|by exists None, None].
  specialize (Hs s eq_refl). set (important := remove_dups _).
  destruct (py_div_opt_share
    (length (set_and important (AssessmentEvaluationOutput.preserved_specialist_finding_ids output)))
    (length important)) as (p & -> & Hp).
  - pose proof (set_and_le important (AssessmentEvaluationOutput.preserved_specialist_finding_ids output)).
    unfold important in *. by rewrite (remove_dups_id (remove_dups _)) in H by apply NoDup_remove_dups.
  - unfold small, important in *.
    pose proof (length_remove_dups (SpecialistEvaluationTrace.important_finding_ids s)). lia.
  - cbn [res_bind]. set (checks := _ ++ _).
    destruct (share_true_score checks) as (t & -> & Hu); [done| |].
    { unfold small, checks. repeat case_match; simpl; lia. }
    exists p, (Some t). split_and!; try done. destruct p; [apply Hp|done].
Qed.

Lemma abstention_total case output :
  ∃ x, _abstention_score case output = Ok x ∧ unit_score x = true.
Proof.
  unfold _abstention_score. case_decide.
  - apply share_true_score; [done|]. unfold small. repeat case_match; simpl; lia.
  - eexists. split; [done|]. apply float_of_bool_score.
Qed.

(** What validity gives to the evaluator. *)
Record wellformed (case : AssessmentEvaluationCase.t) : Prop := {
  wf_risks : AssessmentEvaluationCase.expected_risks case ≠ [];
  wf_controls : AssessmentEvaluationCase.expected_controls case ≠ [];
  wf_governance : AssessmentEvaluationCase.expected_governance_requirements case ≠ [];
  wf_architecture : AssessmentEvaluationCase.expected_architecture_characteristics case ≠ [];
  wf_categories : NoDup (ExpectedRisk.category <$> AssessmentEvaluationCase.expected_risks case);
  wf_requirements : NoDup (ExpectedEvidenceRequirement.claim_id <$>
    AssessmentEvaluationCase.evidence_requirements case)
}.

Lemma len_ge_nonempty {A} (l : list A) : len_ge 1 l = true → l ≠ [].
Proof. by destruct l. Qed.

Lemma valid_wellformed case : AssessmentEvaluationCase.valid case = true → wellformed case.
Proof.
  unfold AssessmentEvaluationCase.valid. intros. split_bools.
  constructor; auto using len_ge_nonempty; by apply require_unique_NoDup.
Qed.

Lemma valid_observations case output :
  AssessmentEvaluationOutput.valid output = true →
  AssessmentQualityObservations.construct (observations_of case output) =
    Ok (observations_of case output).
Proof.
  unfold AssessmentEvaluationOutput.valid. intros. split_bools.
  unfold AssessmentQualityObservations.construct, AssessmentQualityObservations.valid.
  cbn [AssessmentQualityObservations.identified_risks observations_of].
  rewrite forallb_sorted_by; done.
Qed.

(** The lists of the loop over the claims, as the observations report them. *)
Lemma claims_observed case output :
  wellformed case →
  let o := observations_of case output in
  let requirements := AssessmentEvaluationCase.evidence_requirements case in
  let claims := AssessmentEvaluationOutput.claims output in
  listing_of (λ c, ¬ supported requirements (available_findings output) c) claims
    (AssessmentQualityObservations.unsupported_claim_ids o) ∧
  listing_of (cites_nothing requirements) claims
    (AssessmentQualityObservations.missing_citation_claim_ids o) ∧
  listing_of (cites_wrongly requirements) claims
    (AssessmentQualityObservations.invalid_citation_claim_ids o).
Proof.
  intros Hwf. pose proof (wf_requirements _ Hwf) as Hn. simpl. unfold judge_claims.
  rewrite dict_by_unique by done.
  destruct (judge_claims_listing _ (available_findings output) Hn (ClaimVerdicts [] [] [])
    (AssessmentEvaluationOutput.claims output)) as (u & m & i & Hf & Hu & Hm & Hi).
  unfold available_findings in Hf at 1. rewrite Hf. done.
Qed.

Lemma fmap_nonempty {A B} (f : A → B) l : l ≠ [] → f <$> l ≠ [].
Proof. by destruct l. Qed.

Lemma small_fmap {A B} (f : A → B) l : small (length l) → small (length (f <$> l)).
Proof. by rewrite length_fmap. Qed.

(** The precision is the coverage of the identified risks by the expected ones. *)
Lemma precision_share (expected identified : list EvaluationRiskCategory.t) :
  small (length identified) →
  ∃ x, (if truthy (remove_dups identified)
        then py_div (length (set_and expected identified)) (length (remove_dups identified))
        else Ok f64_zero) = Ok x ∧ unit_score x = true ∧
    (identified ≠ [] → feqb x f64_one = true ↔ set_sub identified expected = []).
Proof.
  intros Hs. rewrite remove_dups_nonempty. destruct identified as [|c l] eqn:Heq.
  { exists f64_zero. split_and!; done. }
  rewrite <- Heq in *. rewrite length_set_and_comm.
  destruct (coverage_share identified expected) as (x & Hx & Hu & Hiff & _); [by rewrite Heq|done|].
  exists x. rewrite Heq at 1. simpl. unfold coverage in Hx. by rewrite Hx.
Qed.

Lemma complete_sorted {A} (value : A → pystr) score missing :
  complete_iff score missing → complete_iff score (sorted_by value missing).
Proof. intros (x & Hx & Hu & Hiff). exists x. by rewrite sorted_by_nil. Qed.

Lemma metrics_valid m :
  Forall (λ f, opt_all unit_score (f m) = true) (snd <$> METRICS) →
  AssessmentQualityMetrics.valid m = true.
Proof.
  intros H. repeat (apply Forall_cons in H as [? H]).
  unfold AssessmentQualityMetrics.valid, unit_score, f64_zero, f64_one in *.
  by repeat (apply andb_true_iff; split).
Qed.

(** Which scores are present: most always are; the severity score when some risk is matched,
    that is when the recall is not 0; the two claim scores together; the preservation of
    findings only beside the transparency of the synthesis. *)
Record coherent (simple : bool) (m : AssessmentQualityMetrics.t) : Prop := {
  co_always : Forall (λ s, is_not_none s = true)
    [AssessmentQualityMetrics.risk_precision m; AssessmentQualityMetrics.control_coverage m;
     AssessmentQualityMetrics.governance_coverage m;
     AssessmentQualityMetrics.human_oversight_accuracy m;
     AssessmentQualityMetrics.architecture_fit_score m;
     AssessmentQualityMetrics.appropriate_abstention_rate m];
  co_severity : ∃ x, AssessmentQualityMetrics.risk_recall m = Some x ∧
    is_not_none (AssessmentQualityMetrics.severity_consistency m) = negb (feqb x f64_zero);
  co_engineering : is_not_none (AssessmentQualityMetrics.over_engineering_avoidance m) = simple;
  co_claims : is_not_none (AssessmentQualityMetrics.unsupported_claim_rate m) =
    is_not_none (AssessmentQualityMetrics.groundedness m);
  co_synthesis : is_not_none (AssessmentQualityMetrics.specialist_preservation m) = true →
    is_not_none (AssessmentQualityMetrics.synthesis_transparency m) = true
}.

(** The scores in terms of the sets and counts they are computed from. *)
Record scored (case : AssessmentEvaluationCase.t) (output : AssessmentEvaluationOutput.t)
    (m : AssessmentQualityMetrics.t) : Prop := {
  sc_valid : AssessmentQualityMetrics.valid m = true;
  sc_recall : complete_iff (AssessmentQualityMetrics.risk_recall m)
    (set_sub (ExpectedRisk.category <$> AssessmentEvaluationCase.expected_risks case)
             (IdentifiedRisk.category <$> AssessmentEvaluationOutput.identified_risks output));
  sc_precision : AssessmentEvaluationOutput.identified_risks output ≠ [] →
    complete_iff (AssessmentQualityMetrics.risk_precision m)
      (set_sub (IdentifiedRisk.category <$> AssessmentEvaluationOutput.identified_risks output)
               (ExpectedRisk.category <$> AssessmentEvaluationCase.expected_risks case));
  sc_controls : complete_iff (AssessmentQualityMetrics.control_coverage m)
    (set_sub (AssessmentEvaluationCase.expected_controls case)
             (AssessmentEvaluationOutput.recommended_controls output));
  sc_governance : complete_iff (AssessmentQualityMetrics.governance_coverage m)
    (set_sub (AssessmentEvaluationCase.expected_governance_requirements case)
             (AssessmentEvaluationOutput.governance_requirements output));
  sc_architecture : complete_iff (AssessmentQualityMetrics.architecture_fit_score m)
    (set_sub (AssessmentEvaluationCase.expected_architecture_characteristics case)
             (AssessmentEvaluationOutput.architecture_characteristics output));
  sc_groundedness :
    let claims := AssessmentEvaluationOutput.claims output in
    let u := unsupported_claims (judge_claims case output) in
    match AssessmentQualityMetrics.groundedness m with
    | Some x => (0 < length claims)%nat ∧ share (length claims - length u) (length claims) x
    | None => length claims = O
    end ∧
    match AssessmentQualityMetrics.unsupported_claim_rate m with
    | Some y => (0 < length claims)%nat ∧ share (length u) (length claims) y
    | None => length claims = O
    end;
  sc_transparency : is_not_none (AssessmentQualityMetrics.synthesis_transparency m) =
    is_not_none (AssessmentEvaluationOutput.specialists output);
  sc_coherent : coherent (truthy (set_and SIMPLE_ARCHITECTURE
    (AssessmentEvaluationCase.expected_architecture_characteristics case))) m
}.

Lemma valid_categories output :
  AssessmentEvaluationOutput.valid output = true →
  NoDup (IdentifiedRisk.category <$> AssessmentEvaluationOutput.identified_risks output).
Proof. unfold AssessmentEvaluationOutput.valid. intros. split_bools. by apply require_unique_NoDup. Qed.

Lemma severity_fraction case output x :
  wellformed case → AssessmentEvaluationOutput.valid output = true →
  let matched := set_and (ExpectedRisk.category <$> AssessmentEvaluationCase.expected_risks case)
    (IdentifiedRisk.category <$> AssessmentEvaluationOutput.identified_risks output) in
  py_div_opt (severity_matches case output matched) (length matched) = Ok x →
  match x with
  | Some x => fraction (same_severity case output) (found_risk case output) x
  | None => ∀ c, ¬ found_risk case output c
  end.
Proof.
  intros Hwf Hout matched Hx%py_div_opt_inv.
  assert (∀ c, c ∈ matched ↔ found_risk case output c) as Hin by (intros c; apply elem_of_set_and).
  destruct x as [x|].
  2: { intros c Hc%Hin. apply length_zero_iff_nil in Hx. rewrite Hx in Hc. by apply elem_of_nil in Hc. }
  destruct Hx as [Hne ->]. pose proof (valid_categories _ Hout) as Hi.
  pose proof (wf_categories _ Hwf) as He. eexists _, _. split_and!; [| |exact Hne|reflexivity].
  - unfold severity_matches. rewrite !dict_by_unique by done. eexists. split; [|split; [|reflexivity]].
    { apply NoDup_filter, set_and_NoDup. }
    intros c. rewrite list_elem_of_filter, Hin. split; (intros [Hs Hf]; split; [|done]).
    + destruct Hf as [(e & -> & Hein)%list_elem_of_fmap (i & Hic & Hiin)%list_elem_of_fmap].
      rewrite (proj2 (get_by_Some _ _ _ e He) (conj Hein eq_refl)) in Hs.
      rewrite (proj2 (get_by_Some _ _ _ i Hi) (conj Hiin (eq_sym Hic))) in Hs. injection Hs as Hs.
      exists e, i. auto.
    + destruct Hs as (e & i & Hein & Hiin & Hec & Hic & Hs).
      rewrite (proj2 (get_by_Some _ _ _ e He) (conj Hein Hec)).
      rewrite (proj2 (get_by_Some _ _ _ i Hi) (conj Hiin Hic)). simpl. by rewrite Hs.
  - exists matched. split; [apply set_and_NoDup|]. split; [exact Hin|done].
Qed.

Lemma truthy_set_and {A} `{EqDecision A} (xs ys : list A) :
  truthy (set_and xs ys) = true ↔ ∃ c, c ∈ xs ∧ c ∈ ys.
Proof.
  setoid_rewrite <- elem_of_set_and. destruct (set_and xs ys) as [|c l]; simpl.
  - split; [done|]. by intros (c & ?%elem_of_nil).
  - split; [|done]. intros _. exists c. left.
Qed.

Lemma abstention_exact case output x :
  _abstention_score case output = Ok x →
  x = if decide (ExpectedAbstentionBehavior.expectation (AssessmentEvaluationCase.abstention case) =
                 AbstentionExpectation.REQUIRED)
      then quotient (abstention_checks case output)
      else if AssessmentEvaluationOutput.abstained_from_unsupported_conclusion output
      then f64_zero else f64_one.
Proof.
  unfold _abstention_score, abstention_checks, quotient. case_decide.
  - unfold share_true. intros [_ ->]%py_div_inv.
    destruct (ExpectedAbstentionBehavior.uncertainty_acknowledgment_required _),
      (ExpectedAbstentionBehavior.validation_recommendation_required _),
      (AssessmentEvaluationOutput.abstained_from_unsupported_conclusion output),
      (AssessmentEvaluationOutput.uncertainty_acknowledged output),
      (AssessmentEvaluationOutput.validation_recommended output); reflexivity.
  - intros [= <-]. by destruct (AssessmentEvaluationOutput.abstained_from_unsupported_conclusion output).
Qed.

Lemma issubset_spec {A} `{EqDecision A} (xs ys : list A) : issubset xs ys = bool_decide (xs ⊆ ys).
Proof.
  unfold issubset. apply eq_bool_prop_intro. rewrite bool_decide_spec, Is_true_true.
  rewrite forallb_Forall, Forall_forall. split; intros H x Hx; by apply mem_spec, H.
Qed.

Lemma truthy_nil {A} (l : list A) : truthy l = negb (bool_decide (l = [])).
Proof. by destruct l. Qed.

Lemma synthesis_exact output p t :
  _evaluate_synthesis output = Ok (p, t) →
  match AssessmentEvaluationOutput.specialists output with
  | None => p = None
  | Some s =>
      match p with
      | None => SpecialistEvaluationTrace.important_finding_ids s = []
      | Some x => fraction (.∈ AssessmentEvaluationOutput.preserved_specialist_finding_ids output)
                    (.∈ SpecialistEvaluationTrace.important_finding_ids s) x
      end
  end ∧ t = (λ s, quotient (synthesis_checks output s)) <$> AssessmentEvaluationOutput.specialists output.
Proof.
  unfold _evaluate_synthesis. destruct (AssessmentEvaluationOutput.specialists output) as [s|];
    [|by intros [= <- <-]].
  intros (x & Hx%py_div_opt_inv & (y & Hy & [= <- <-])%res_bind_inv)%res_bind_inv. split.
  - destruct x as [x|].
    + destruct Hx as [Hne ->]. eexists _, _. split_and!; [|apply card_remove_dups|done|done].
      eapply card_iff; [|apply card_set_and]. intros c. cbn beta. by rewrite elem_of_remove_dups.
    + apply length_zero_iff_nil in Hx.
      pose proof (remove_dups_nonempty (SpecialistEvaluationTrace.important_finding_ids s)) as Hn.
      rewrite Hx in Hn. by destruct (SpecialistEvaluationTrace.important_finding_ids s).
  - simpl. f_equal. unfold share_true in Hy. apply py_div_inv in Hy as [_ ->].
    unfold synthesis_checks, quotient. rewrite !issubset_spec, !truthy_nil.
    rewrite bool_decide_and, negb_andb.
    destruct (bool_decide (SpecialistEvaluationTrace.disagreement_ids s = [])),
      (bool_decide (SpecialistEvaluationTrace.unavailable_specialists s = [])),
      (bool_decide (AssessmentEvaluationOutput.degradation_reasons output = [])),
      (AssessmentEvaluationOutput.degraded_state_acknowledged output); simpl;
      repeat case_bool_decide; reflexivity.
Qed.

Lemma evaluate_exact case output m o :
  wellformed case → AssessmentEvaluationOutput.valid output = true →
  evaluate_assessment case output = Ok (m, o) →
  exact_scores case output (unsupported_claims (judge_claims case output)) m.
Proof.
  intros Hwf Hout H. unfold evaluate_assessment in H.
  apply res_bind_inv in H as ([p t] & Hsyn%synthesis_exact & H).
  apply res_bind_inv in H as (o' & _ & H).
  rewrite set_and_remove_dups in H.
  apply res_bind_inv in H as (rr & Hrr & H). apply res_bind_inv in H as (rp & Hrp & H).
  apply res_bind_inv in H as (sc & Hsc & H). apply res_bind_inv in H as (cc & Hcc & H).
  apply res_bind_inv in H as (gc & Hgc & H). apply res_bind_inv in H as (ac & Hac & H).
  apply res_bind_inv in H as (gr & Hgr & H). apply res_bind_inv in H as (ur & Hur & H).
  apply res_bind_inv in H as (ab & Hab & H). apply res_bind_inv in H as (m' & Hm & [= <- _]).
  unfold AssessmentQualityMetrics.construct in Hm. case_match; [|done]. injection Hm as <-.
  apply severity_fraction in Hsc; [|done..]. apply abstention_exact in Hab.
  constructor; simpl; try (eexists; split; [done|by apply coverage_fraction]); try done.
  - eexists. split; [done|]. rewrite remove_dups_nonempty, length_set_and_comm in Hrp.
    split; intros Hi.
    + rewrite Hi in Hrp. by injection Hrp as <-.
    + destruct (truthy (IdentifiedRisk.category <$> _)) eqn:Ht; [by apply coverage_fraction|].
      by destruct (AssessmentEvaluationOutput.identified_risks output).
  - clear Hab. f_equal. unfold float_of_bool. case_decide as Hd; [by rewrite Hd, eqb_reflx|].
    destruct (eqb _ _) eqn:He; [by apply eqb_prop in He|done].
  - rewrite <- !truthy_set_and. destruct (truthy (set_and SIMPLE_ARCHITECTURE _)); simpl.
    + split_and!; [by intros []| |]; intros _; [by intros ->|].
      by destruct (truthy (set_and COMPLEX_ARCHITECTURE _)).
    + by split_and!.
  - apply py_div_opt_inv in Hgr, Hur. split; intros Hn.
    + destruct gr; [by destruct Hgr|]. by destruct ur; [destruct Hur|].
    + destruct gr as [x|]; [|done]. destruct ur as [y|]; [|done].
      by destruct Hgr as [_ ->], Hur as [_ ->].
  - by rewrite Hab.
  - by destruct Hsyn.
  - by destruct Hsyn.
Qed.

Lemma claims_bound case output :
  wellformed case →
  (length (unsupported_claims (judge_claims case output)) ≤
   length (AssessmentEvaluationOutput.claims output))%nat.
Proof. intros Hwf. destruct (claims_observed case output Hwf) as (Hu & _). by apply listing_length in Hu. Qed.

Lemma evaluate_scored case output :
  wellformed case → AssessmentEvaluationOutput.valid output = true → countable case output →
  ∃ m, evaluate_assessment case output = Ok (m, observations_of case output) ∧ scored case output m.
Proof.
  intros Hcase Hout [Hr Hi Hc Hg Ha Hcl Hf].
  destruct (synthesis_total output Hf) as (sp & st & Hsyn & Hsp & Hst & Hnone & Himp).
  destruct (abstention_total case output) as (ab & Hab & Habs).
  pose proof (valid_observations case output Hout) as Hobs.
  set (E := ExpectedRisk.category <$> AssessmentEvaluationCase.expected_risks case).
  set (I := IdentifiedRisk.category <$> AssessmentEvaluationOutput.identified_risks output).
  destruct (coverage_share E I) as (rr & Hrr & Hrr1 & Hrr2 & Hrr3);
    [by apply fmap_nonempty, wf_risks|by apply small_fmap|].
  destruct (precision_share E I) as (rp & Hrp & Hrp1 & Hrp2); [by apply small_fmap|].
  destruct (coverage_share _ (AssessmentEvaluationOutput.recommended_controls output)
    (wf_controls _ Hcase) Hc) as (cc & Hcc & Hcc1 & Hcc2 & _).
  destruct (coverage_share _ (AssessmentEvaluationOutput.governance_requirements output)
    (wf_governance _ Hcase) Hg) as (gc & Hgc & Hgc1 & Hgc2 & _).
  destruct (coverage_share _ (AssessmentEvaluationOutput.architecture_characteristics output)
    (wf_architecture _ Hcase) Ha) as (ac & Hac & Hac1 & Hac2 & _).
  destruct (py_div_opt_share (severity_matches case output (set_and E I)) (length (set_and E I)))
    as (sc & Hsc & Hsc1).
  { unfold severity_matches. apply length_filter. }
  { unfold small in *. pose proof (set_and_le E I). pose proof (length_remove_dups E).
    unfold E in *. rewrite length_fmap in *. lia. }
  set (claims := AssessmentEvaluationOutput.claims output) in *.
  set (u := unsupported_claims (judge_claims case output)).
  pose proof (claims_bound case output Hcase) as Hul. fold u claims in Hul.
  destruct (py_div_opt_share (length claims - length u) (length claims)) as (gr & Hgr & Hgr1);
    [lia|done|].
  destruct (py_div_opt_share (length u) (length claims)) as (ur & Hur & Hur1); [done..|].
  unfold evaluate_assessment. rewrite Hsyn. cbn [res_bind]. rewrite Hobs. cbn [res_bind].
  fold E I claims u. rewrite (set_and_remove_dups E I).
  unfold coverage in Hrr at 1. rewrite Hrr. cbn [res_bind]. rewrite Hrp. cbn [res_bind].
  rewrite Hsc. cbn [res_bind]. rewrite Hcc. cbn [res_bind]. rewrite Hgc. cbn [res_bind].
  rewrite Hac. cbn [res_bind]. rewrite Hgr. cbn [res_bind]. rewrite Hur. cbn [res_bind].
  rewrite Hab. cbn [res_bind].
  set (m := AssessmentQualityMetrics.mk _ _ _ _ _ _ _ _ _ _ _ _ _).
  assert (AssessmentQualityMetrics.valid m = true) as Hv.
  { apply (metrics_valid m). unfold m. repeat apply Forall_cons_2; try done.
    - destruct sc; [by destruct Hsc1 as [_ []]|done].
    - apply float_of_bool_score.
    - destruct (truthy (set_and SIMPLE_ARCHITECTURE _)); [apply float_of_bool_score|done].
    - destruct gr; [by destruct Hgr1 as [_ []]|done].
    - destruct ur; [by destruct Hur1 as [_ []]|done]. }
  exists m. unfold AssessmentQualityMetrics.construct. rewrite Hv. split; [done|].
  constructor; [done|by exists rr| |by exists cc|by exists gc|by exists ac|done|done|].
  { intros Hne. exists rp. split_and!; [done..|]. by apply Hrp2, fmap_nonempty. }
  constructor; [by repeat constructor| | | |done].
  - exists rr. split; [done|]. simpl. rewrite <- length_zero_iff_nil in Hrr3.
    destruct (feqb rr f64_zero), sc; simpl; try done; exfalso; destruct Hrr3, Hsc1; try lia; auto.
  - simpl. by destruct (truthy (set_and SIMPLE_ARCHITECTURE _)).
  - simpl. destruct gr, ur; simpl; try done; lia.
Qed.

(** C36: every valid scenario and output can be evaluated: no division by zero and no refused
    score.  Every score lies between 0 and 1 and is exactly the quotient it stands for: recall,
    precision, the coverages and the preservation of findings are shares of distinct members;
    the severity score is the share of the risks found whose severity is the expected one, and
    is there only if some were found; oversight, over-engineering, abstention and transparency
    count the checks that are met; and the claim scores count the unsupported claims.  They
    agree with the facts reported beside them: recall, the three coverages and the precision
    are 1 exactly when nothing is missing (or unexpected); groundedness is 1, and the
    unsupported rate 0, exactly when no claim is unsupported; a claim is reported as
    unsupported exactly when no requirement of its name accepts one of its supports, and as
    lacking a citation, or citing wrongly, exactly when its requirement demands retrieved
    evidence and none, or only others, is cited. *)
Theorem evaluate_assessment_explained case output :
  AssessmentEvaluationCase.valid case = true → AssessmentEvaluationOutput.valid output = true →
  countable case output →
  ∃ m, evaluate_assessment case output = Ok (m, observations_of case output) ∧
    explained case output m (observations_of case output).
Proof.
  intros Hcase%valid_wellformed Hout Hcn.
  destruct (evaluate_scored case output Hcase Hout Hcn) as (m & Hm & Hs).
  destruct (claims_observed case output Hcase) as (Hlu & Hlm & Hli).
  pose proof (claims_bound case output Hcase) as Hul.
  exists m. split; [done|]. constructor; try apply Hs.
  - intros c. simpl. by rewrite elem_of_sorted_by, set_sub_remove_dups, elem_of_set_sub.
  - intros c. simpl. by rewrite elem_of_sorted_by, set_sub_remove_dups, elem_of_set_sub.
  - intros c. simpl. by rewrite elem_of_sorted_by, elem_of_set_sub.
  - intros c. simpl. by rewrite elem_of_sorted_by, elem_of_set_sub.
  - intros c. simpl. by rewrite elem_of_sorted_by, elem_of_set_sub.
  - by eapply evaluate_exact.
  - done.
  - simpl. rewrite set_sub_remove_dups. apply complete_sorted, Hs.
  - intros Hne. simpl. rewrite set_sub_remove_dups. by apply complete_sorted, Hs.
  - apply complete_sorted, Hs.
  - apply complete_sorted, Hs.
  - apply complete_sorted, Hs.
  - intros id. by apply (listing_elem _ _ _ id) in Hlu.
  - intros id. by apply (listing_elem _ _ _ id) in Hlm.
  - intros id. by apply (listing_elem _ _ _ id) in Hli.
  - pose proof (sc_groundedness _ _ _ Hs) as [Hg Hu]. simpl.
    set (claims := AssessmentEvaluationOutput.claims output) in *.
    set (u := unsupported_claims (judge_claims case output)) in *.
    assert (claims ≠ [] ↔ (0 < length claims)%nat) as Hne
      by (destruct claims; simpl; split; (done || lia)).
    assert (u = [] ↔ length u = 0%nat) as Hu0 by (by rewrite length_zero_iff_nil).
    destruct (AssessmentQualityMetrics.groundedness m),
      (AssessmentQualityMetrics.unsupported_claim_rate m); try lia.
    + destruct Hg as [Hpos [_ H1 _]], Hu as [_ [_ _ H2]]. rewrite H1, H2, Hu0, Hne.
      split_and!; lia.
    + by apply length_zero_iff_nil.
Qed.

(** ** A scenario *)

Definition demo_output (mode : AssessmentEvaluationMode.t) : AssessmentEvaluationOutput.t :=
  AssessmentEvaluationOutput.mk "summary"
    [IdentifiedRisk.mk "risk-1" EvaluationRiskCategory.PRIVACY EvaluationSeverity.HIGH;
     IdentifiedRisk.mk "risk-2" EvaluationRiskCategory.SECURITY EvaluationSeverity.LOW]
    [EvaluationControlCategory.HUMAN_APPROVAL] [EvaluationGovernanceRequirement.RISK_REVIEW]
    [ArchitectureCharacteristic.RAG_APPROPRIATE] true false false true
    [AssessmentClaim.mk "claim-1" AssessmentClaimType.FACT "supported"
       [ClaimSupport.mk ClaimSupportSource.RETRIEVED_EVIDENCE (Some (lit "doc-1")) None];
     AssessmentClaim.mk "claim-2" AssessmentClaimType.RISK "unsupported" []]
    AssessmentRunStatus.COMPLETED []
    (match mode with
     | AssessmentEvaluationMode.MULTI_AGENT =>
         Some (SpecialistEvaluationTrace.mk [lit "f-1"] [lit "f-1"] [] [])
     | _ => None
     end) [] [] false.

Definition demo_case : AssessmentEvaluationCase.t :=
  AssessmentEvaluationCase.mk "case-1" "A scenario" AssessmentScenarioCategory.CUSTOMER_SERVICE_PII
    "context" "banking" "problem"
    [ExpectedRisk.mk EvaluationRiskCategory.PRIVACY EvaluationSeverity.HIGH;
     ExpectedRisk.mk EvaluationRiskCategory.COMPLIANCE EvaluationSeverity.MEDIUM]
    [] [EvaluationControlCategory.HUMAN_APPROVAL] [EvaluationGovernanceRequirement.RISK_REVIEW]
    [ArchitectureCharacteristic.RAG_APPROPRIATE] true [lit "doc-1"]
    [ExpectedEvidenceRequirement.mk "claim-1" [ClaimSupportSource.RETRIEVED_EVIDENCE] [lit "doc-1"]
       [] [] true]
    (ExpectedAbstentionBehavior.mk AbstentionExpectation.NOT_REQUIRED false false) "notes"
    ((λ m, (m, demo_output m)) <$> AssessmentEvaluationMode.members).

Lemma demo_countable mode : countable demo_case (demo_output mode).
Proof. constructor; try (intros s; destruct mode; intros [= <-]); by vm_compute. Qed.

Lemma evaluate_assessment_explained_witness :
  let output := demo_output AssessmentEvaluationMode.MULTI_AGENT in
  AssessmentQualityObservations.missing_risks (observations_of demo_case output) =
    [EvaluationRiskCategory.COMPLIANCE] ∧
  AssessmentQualityObservations.unsupported_claim_ids (observations_of demo_case output) =
    [lit "claim-2"] ∧
  ∃ m, evaluate_assessment demo_case output = Ok (m, observations_of demo_case output) ∧
    AssessmentQualityMetrics.risk_recall m = Some (int_ratio 1 2) ∧
    AssessmentQualityMetrics.severity_consistency m = Some f64_one ∧
    AssessmentQualityMetrics.human_oversight_accuracy m = Some f64_one ∧
    AssessmentQualityMetrics.unsupported_claim_rate m = Some (int_ratio 1 2) ∧
    AssessmentQualityMetrics.appropriate_abstention_rate m = Some f64_one ∧
    AssessmentQualityMetrics.specialist_preservation m = Some f64_zero.
Proof.
  split; [vm_compute; reflexivity|]. split; [vm_compute; reflexivity|].
  destruct (evaluate_assessment_explained demo_case (demo_output AssessmentEvaluationMode.MULTI_AGENT))
    as (m & Hm & _); [vm_compute; reflexivity..|apply demo_countable|].
  exists m. split; [exact Hm|]. vm_compute in Hm. injection Hm as <-.
  split_and!; vm_compute; reflexivity.
Defined.
