(* ===== verification/AssessmentRunTheorems.v ===== *)
(** The assessment runner: it reports every scenario of the dataset once, contains the
    failures of executor and judge, and its fingerprint depends on neither judge nor clock. *)
From S2P Require Import Prelude PyFloat Errors Domain PyText FloatOrder Tools FloatRatio.
From S2P Require Import Counting AssessmentBenchmark AssessmentEvaluation AssessmentEvaluationTheorems.

(** [r] is labelled as the result of [case] in [mode]. *)
Definition names_case (mode : AssessmentEvaluationMode.t) (case : AssessmentEvaluationCase.t)
    (r : AssessmentCaseEvaluationResult.t) : Prop :=
  AssessmentCaseEvaluationResult.case_id r = AssessmentEvaluationCase.case_id case ∧
  AssessmentCaseEvaluationResult.mode r = mode.

Section run.
Context {sha : Sha256} {json : CanonicalJson} {S : Type}.
Context (execute : AssessmentEvaluationCase.t → AssessmentEvaluationMode.t →
                   M S AssessmentEvaluationOutput.t).
Context (judge : option (AssessmentEvaluationCase.t → AssessmentEvaluationOutput.t →
                         M S LLMJudgeResult.t)).
Context (configuration : AssessmentEvaluationConfiguration.t).

(** The judge is asked. *)
Definition judge_on : bool :=
  AssessmentEvaluationConfiguration.judge_enabled configuration && is_not_none judge.

(** What the judge answers about [output] in the world [s], which it leaves as [s']: [None]
    when it is not asked or raises. *)
Definition judged (case : AssessmentEvaluationCase.t) (output : AssessmentEvaluationOutput.t)
    (s : S) (answer : option LLMJudgeResult.t) (s' : S) : Prop :=
  match judge with
  | Some ask =>
      if AssessmentEvaluationConfiguration.judge_enabled configuration then
        match ask case output s with
        | (s1, Ok result) => answer = Some result ∧ s' = s1
        | (s1, Raise _) => answer = None ∧ s' = s1
        end
      else answer = None ∧ s' = s
  | None => answer = None ∧ s' = s
  end.

(** [r] is what the runner has to report when it comes to [case] in the world [s]: the executor
    is called once, in the mode of the run, and its answer decides. *)
Inductive reports_case (mode : AssessmentEvaluationMode.t) (case : AssessmentEvaluationCase.t)
    (s : S) : AssessmentCaseEvaluationResult.t → S → Prop :=
  | executor_raised s' e :
      execute case mode s = (s', Raise e) →
      reports_case mode case s (failed_result case mode "assessment_evaluation_execution_failed") s'
  | output_failed s' output :
      execute case mode s = (s', Ok output) →
      AssessmentEvaluationOutput.run_status output = AssessmentRunStatus.FAILED →
      reports_case mode case s (failed_result case mode "assessment_mode_execution_failed") s'
  | evaluation_raised s' output e :
      execute case mode s = (s', Ok output) →
      AssessmentEvaluationOutput.run_status output ≠ AssessmentRunStatus.FAILED →
      evaluate_assessment case output = Raise e →
      reports_case mode case s (failed_result case mode "assessment_evaluation_execution_failed") s'
  | evaluated s1 output metrics observations answer s' :
      execute case mode s = (s1, Ok output) →
      AssessmentEvaluationOutput.run_status output ≠ AssessmentRunStatus.FAILED →
      evaluate_assessment case output = Ok (metrics, observations) →
      judged case output s1 answer s' →
      reports_case mode case s
        (AssessmentCaseEvaluationResult.mk (AssessmentEvaluationCase.case_id case)
          (AssessmentEvaluationCase.scenario_category case) mode false None metrics
          (Some observations) answer) s'.

(** The scenarios are met one after the other, each in the world its predecessor left. *)
Inductive reports_cases (mode : AssessmentEvaluationMode.t) : S → list AssessmentEvaluationCase.t →
    list AssessmentCaseEvaluationResult.t → S → Prop :=
  | no_cases s : reports_cases mode s [] [] s
  | next_case s case r s1 cases rs s' :
      reports_case mode case s r s1 → reports_cases mode s1 cases rs s' →
      reports_cases mode s (case :: cases) (r :: rs) s'.

Lemma reports_cases_names mode s cases rs s' :
  reports_cases mode s cases rs s' → Forall2 (names_case mode) cases rs.
Proof. induction 1 as [|s case r s1 cases rs s' Hr _ IH]; constructor; [by destruct Hr|done]. Qed.

(** The scenarios evaluated without failure, and those of them without an answer of the judge. *)
Definition evaluated_count (results : list AssessmentCaseEvaluationResult.t) : Z :=
  Z.of_nat (length (evaluated_of results)).
Definition unjudged_count (results : list AssessmentCaseEvaluationResult.t) : Z :=
  Z.of_nat (length (filter (λ r, AssessmentCaseEvaluationResult.judge r = None)
    (evaluated_of results))).

Lemma judge_case_spec case output s :
  wp (judge_case judge configuration case output) (λ s' r, ∃ answer,
    judged case output s answer s' ∧
    r = Ok (answer, if judge_on then 1 else 0, if judge_on then
              (if decide (answer = None) then 1 else 0) else 0)%Z) s.
Proof.
  unfold judge_case, judge_on, judged. destruct judge as [ask|]; simpl.
  2: { rewrite andb_false_r. apply wp_ret. by exists None. }
  rewrite andb_true_r. destruct (AssessmentEvaluationConfiguration.judge_enabled configuration).
  2: { apply wp_ret. by exists None. }
  apply wp_try, wp_bind. unfold wp. destruct (ask case output s) as [s' [result|e]]; simpl.
  - by exists (Some result).
  - by exists None.
Qed.

(** The progress of the loop after the results [new]. *)
Definition advance (p : progress) (new : list AssessmentCaseEvaluationResult.t) : progress :=
  Progress (results p ++ new)
    (judge_calls p + if judge_on then evaluated_count new else 0)
    (judge_failures p + if judge_on then unjudged_count new else 0).

Lemma advance_failed p case mode code :
  p <| results := results p ++ [failed_result case mode code] |> =
  advance p [failed_result case mode code].
Proof. destruct p. unfold advance. cbn. destruct judge_on; by rewrite !Z.add_0_r. Qed.

Lemma run_case_spec mode p case s :
  wp (run_case execute judge configuration mode p case) (λ s' r, ∃ result,
    reports_case mode case s result s' ∧ r = Ok (advance p [result])) s.
Proof.
  unfold run_case, evaluate_case. apply wp_bind, wp_try, wp_bind. unfold wp at 1.
  destruct (execute case mode s) as [s1 [output|e]] eqn:Hx; cbn [fst snd]; [|].
  2: { eexists. split; [by eapply executor_raised|]. by rewrite advance_failed. }
  case_decide as Hst; cbn [fst snd ret].
  { eexists. split; [by eapply output_failed|]. by rewrite advance_failed. }
  unfold bind at 1, of_res at 1. cbn [fst snd].
  destruct (evaluate_assessment case output) as [[m o]|e] eqn:He; cbn [fst snd ret].
  2: { eexists. split; [by eapply evaluation_raised|]. by rewrite advance_failed. }
  apply wp_bind. eapply wp_mono; [apply judge_case_spec|].
  intros s2 r (answer & Hj & ->). apply wp_ret. eexists. split; [by eapply evaluated|].
  unfold advance. f_equal. f_equal. destruct judge_on; [|done]. by destruct answer.
Qed.

Lemma advance_app p l l' : advance (advance p l) l' = advance p (l ++ l').
Proof.
  unfold advance, evaluated_count, unjudged_count, evaluated_of. cbn [results judge_calls judge_failures].
  rewrite !filter_app, !length_app, app_assoc. f_equal; destruct judge_on; lia.
Qed.

Lemma run_cases_spec mode cases p s :
  wp (run_cases execute judge configuration mode p cases) (λ s' r, ∃ new,
    reports_cases mode s cases new s' ∧ r = Ok (advance p new)) s.
Proof.
  revert p s; induction cases as [|case cases IH]; intros p s; simpl.
  { apply wp_ret. exists []. split; [constructor|]. destruct p. unfold advance. cbn.
    rewrite app_nil_r. by destruct judge_on; rewrite !Z.add_0_r. }
  apply wp_bind. eapply wp_mono; [apply run_case_spec|].
  intros s1 r (result & Hr & ->). eapply wp_mono; [apply IH|].
  intros s2 r (new & Hnew & ->). exists (result :: new). split; [by econstructor|].
  by rewrite advance_app.
Qed.

Context (clock : M S datetime) (dataset : AssessmentEvaluationDataset.t).

Lemma failed_or_evaluated l :
  (evaluated_count l + Z.of_nat (length (filter (λ r,
     AssessmentCaseEvaluationResult.failed r = true) l)) = Z.of_nat (length l))%Z.
Proof.
  unfold evaluated_count, evaluated_of.
  rewrite <- (filter_partition (λ r, AssessmentCaseEvaluationResult.failed r = false) l).
  rewrite Nat2Z.inj_add. do 3 f_equal. apply list_filter_iff. intros r.
  by rewrite not_false_iff_true.
Qed.

(** [ids] are the names of the results satisfying [P], in the order of the results. *)
Definition names (P : AssessmentCaseEvaluationResult.t → Prop)
    (rs : list AssessmentCaseEvaluationResult.t) (ids : list pystr) : Prop :=
  ids `sublist_of` (AssessmentCaseEvaluationResult.case_id <$> rs) ∧
  ∀ id, id ∈ ids ↔ ∃ r, r ∈ rs ∧ AssessmentCaseEvaluationResult.case_id r = id ∧ P r.

(** The output the result was measured on declared a degraded run. *)
Definition ran_degraded (r : AssessmentCaseEvaluationResult.t) : Prop :=
  AssessmentCaseEvaluationResult.failed r = false ∧
  ∃ o, AssessmentCaseEvaluationResult.observations r = Some o ∧
    AssessmentQualityObservations.run_status o = AssessmentRunStatus.DEGRADED.

(** What a report says of its run: [rs] are the results of the scenarios and [now] the time. *)
Record accounts (mode : AssessmentEvaluationMode.t) (rs : list AssessmentCaseEvaluationResult.t)
    (now : datetime) (report : AssessmentEvaluationReport.t) : Prop := {
  ac_cases : AssessmentEvaluationReport.cases report = rs;
  ac_run : AssessmentEvaluationReport.generated_at report = now ∧
    AssessmentEvaluationReport.mode report = mode ∧
    AssessmentEvaluationReport.configuration report = configuration ∧
    AssessmentEvaluationReport.dataset_id report = AssessmentEvaluationDataset.dataset_id dataset ∧
    AssessmentEvaluationReport.dataset_version report = AssessmentEvaluationDataset.version dataset ∧
    AssessmentEvaluationReport.synthetic report = AssessmentEvaluationDataset.synthetic dataset;
  ac_total : AssessmentEvaluationReport.total_cases report =
    Z.of_nat (length (AssessmentEvaluationDataset.cases dataset));
  ac_evaluated : AssessmentEvaluationReport.evaluated_cases report = evaluated_count rs;
  ac_failed : (AssessmentEvaluationReport.evaluated_cases report +
    Z.of_nat (length (AssessmentEvaluationReport.failed_cases report)) =
    AssessmentEvaluationReport.total_cases report)%Z;
  ac_failed_ids : names (λ r, AssessmentCaseEvaluationResult.failed r = true) rs
    (AssessmentEvaluationReport.failed_cases report);
  ac_degraded_ids : names ran_degraded rs (AssessmentEvaluationReport.degraded_cases report);
  ac_aggregate : aggregate_quality_metrics
    (AssessmentCaseEvaluationResult.metrics <$> evaluated_of rs) =
    Ok (AssessmentEvaluationReport.aggregate_metrics report);
  ac_judged : AssessmentEvaluationReport.llm_judge_calls report =
    if judge_on then AssessmentEvaluationReport.evaluated_cases report else 0%Z;
  ac_unjudged : lit "LLM judge unavailable for " ++ str_int (unjudged_count rs) ++ lit " case(s)." ∈
      AssessmentEvaluationReport.warnings report ↔ judge_on = true ∧ unjudged_count rs ≠ 0%Z;
  ac_fingerprint : _fingerprint mode (AssessmentEvaluationReport.aggregate_metrics report) rs =
    Ok (AssessmentEvaluationReport.reproducibility_fingerprint report)
}.

Lemma names_filter (P : AssessmentCaseEvaluationResult.t → Prop) `{∀ r, Decision (P r)} rs :
  names P rs (AssessmentCaseEvaluationResult.case_id <$> filter P rs).
Proof.
  split; [apply fmap_sublist, sublist_filter|]. intros id.
  rewrite list_elem_of_fmap. setoid_rewrite list_elem_of_filter. naive_solver.
Qed.

Lemma names_degraded rs :
  names ran_degraded rs
    (AssessmentCaseEvaluationResult.case_id <$> filter (λ r, is_degraded r = true) (evaluated_of rs)).
Proof.
  unfold evaluated_of. rewrite list_filter_filter.
  destruct (names_filter (λ r, is_degraded r = true ∧ AssessmentCaseEvaluationResult.failed r = false) rs)
    as [Hs Hi]. split; [done|]. intros id. rewrite Hi. f_equiv. intros r.
  unfold is_degraded, ran_degraded. destruct (AssessmentCaseEvaluationResult.observations r) as [o|].
  - rewrite bool_decide_eq_true. naive_solver.
  - naive_solver.
Qed.

Lemma unavailable_warning p :
  judge_failures p = (if judge_on then unjudged_count (results p) else 0%Z) →
  lit "LLM judge unavailable for " ++ str_int (unjudged_count (results p)) ++ lit " case(s)." ∈
    run_warnings judge configuration p ↔ judge_on = true ∧ unjudged_count (results p) ≠ 0%Z.
Proof.
  intros Hf. unfold run_warnings. rewrite Hf, !elem_of_app. destruct judge_on eqn:Hj.
  - apply andb_prop in Hj as [-> ->]. simpl. destruct (Z.eqb_spec (unjudged_count (results p)) 0); simpl.
    + split; [|naive_solver]. rewrite e. intros [H|[H|H]]; exfalso;
        repeat (apply elem_of_cons in H as [H|H]; [discriminate|]); by apply elem_of_nil in H.
    + split; [done|]. intros _. right. right. left.
  - split; [|naive_solver]. simpl. intros H. exfalso.
    destruct H as [H|[H|H]]; [| |by apply elem_of_nil in H].
    + repeat (apply elem_of_cons in H as [H|H]; [discriminate|]). by apply elem_of_nil in H.
    + repeat case_match; repeat (apply elem_of_cons in H as [H|H]; [discriminate|]);
        by apply elem_of_nil in H.
Qed.

(** C37: whatever the executor and the judge do - answer, fail or raise - the runner meets every
    scenario of the dataset exactly once and in order, calls the executor once for it in the mode
    of the run, and reports what came of that call: a failed execution when the executor or the
    evaluation raised, a failed mode when the output says so, and otherwise exactly the scores
    and observations of the evaluation of that output with what the judge, asked about the same
    output, answered.  Evaluated and failed scenarios add up to the total; the failed and the
    degraded ones are listed by name, in order, and no others; the aggregate is the mean of the
    evaluated ones; the judge is asked once per evaluated scenario when it is enabled and never
    otherwise, and a warning counts its failures.  The run raises only when the mean of those
    results is refused or the clock, read after them, raises. *)
Theorem run_accounts mode s
    (sha_hex : ∀ text, fingerprint_pattern (sha256_hex text) = true)
    (json_ascii : ∀ v, utf8_encodable (canonical_json v) = true) :
  ∃ rs s1, reports_cases mode s (AssessmentEvaluationDataset.cases dataset) rs s1 ∧
  match run execute judge clock dataset configuration mode s with
  | (s', Ok report) => ∃ now, clock s1 = (s', Ok now) ∧ accounts mode rs now report
  | (s', Raise e) =>
      (s' = s1 ∧ aggregate_quality_metrics (AssessmentCaseEvaluationResult.metrics <$> evaluated_of rs) =
        Raise e) ∨ clock s1 = (s', Raise e)
  end.
Proof.
  unfold run, bind at 1. pose proof (run_cases_spec mode (AssessmentEvaluationDataset.cases dataset)
    (Progress [] 0 0) s) as Hrun. unfold wp in Hrun.
  destruct (run_cases _ _ _ _ _ _ s) as [s1 r]. cbn [fst snd] in Hrun. destruct Hrun as (rs & Hrs & ->).
  exists rs, s1. split; [done|]. unfold bind at 1, of_res at 1.
  change (results (advance _ rs)) with rs.
  destruct (aggregate_quality_metrics _) as [aggregate|e] eqn:Hagg; [|by left].
  unfold bind at 1. destruct (clock s1) as [s2 [now|e]] eqn:Hclock; [|by right].
  destruct (_fingerprint mode aggregate rs) as [fingerprint|e] eqn:Hfp.
  2: { unfold _fingerprint, sha256_of in Hfp. by rewrite json_ascii in Hfp. }
  unfold bind, of_res, construct_report. cbn -[Z.leb Z.of_nat evaluated_of fingerprint_pattern advance].
  assert (fingerprint_pattern fingerprint = true) as ->.
  { unfold _fingerprint, sha256_of in Hfp. rewrite json_ascii in Hfp. injection Hfp as <-. done. }
  rewrite !(proj2 (Z.leb_le 0 _)) by (unfold advance, evaluated_count; cbn; destruct judge_on; lia).
  exists now. split; [done|]. apply reports_cases_names, Forall2_length in Hrs as Hlen.
  constructor; cbn -[Z.of_nat evaluated_of run_warnings advance]; try done.
  - by rewrite Hlen.
  - rewrite length_fmap. apply failed_or_evaluated.
  - apply names_filter.
  - apply names_degraded.
  - by apply (unavailable_warning (advance (Progress [] 0 0) rs)).
Qed.
End run.

(** ** Reproducibility *)

(** A result without its judge. *)
Definition erase (r : AssessmentCaseEvaluationResult.t) : AssessmentCaseEvaluationResult.t :=
  r <| AssessmentCaseEvaluationResult.judge := None |>.

(** The result the outputs of a pure executor determine. *)
Definition determined (ex : AssessmentEvaluationCase.t → AssessmentEvaluationMode.t →
      res AssessmentEvaluationOutput.t)
    (mode : AssessmentEvaluationMode.t) (case : AssessmentEvaluationCase.t) :
    AssessmentCaseEvaluationResult.t :=
  match ex case mode with
  | Raise _ => failed_result case mode "assessment_evaluation_execution_failed"
  | Ok output =>
      if decide (AssessmentEvaluationOutput.run_status output = AssessmentRunStatus.FAILED)
      then failed_result case mode "assessment_mode_execution_failed"
      else
        match evaluate_assessment case output with
        | Raise _ => failed_result case mode "assessment_evaluation_execution_failed"
        | Ok (metrics, observations) =>
            AssessmentCaseEvaluationResult.mk (AssessmentEvaluationCase.case_id case)
              (AssessmentEvaluationCase.scenario_category case) mode false None metrics
              (Some observations) None
        end
  end.

Section reproducible.
Context {sha : Sha256} {json : CanonicalJson}.
Context (ex : AssessmentEvaluationCase.t → AssessmentEvaluationMode.t →
              res AssessmentEvaluationOutput.t).

(** The executor in any world. *)
Definition executor {S} : AssessmentEvaluationCase.t → AssessmentEvaluationMode.t →
    M S AssessmentEvaluationOutput.t := λ case mode, of_res (ex case mode).

Section world.
Context {S : Type} (judge : option (AssessmentEvaluationCase.t → AssessmentEvaluationOutput.t →
                                    M S LLMJudgeResult.t)).
Context (clock : M S datetime) (dataset : AssessmentEvaluationDataset.t).
Context (configuration : AssessmentEvaluationConfiguration.t).

Lemma evaluate_case_pure case mode (s : S) :
  ∃ ev, evaluate_case executor case mode s = (s, Ok ev) ∧
    match ev with
    | Failed result => determined ex mode case = result ∧ erase result = result
    | Evaluated _ m o => determined ex mode case =
        AssessmentCaseEvaluationResult.mk (AssessmentEvaluationCase.case_id case)
          (AssessmentEvaluationCase.scenario_category case) mode false None m (Some o) None
    end.
Proof.
  unfold evaluate_case, determined, executor, try_except, bind, of_res.
  destruct (ex case mode) as [output|e]; [|by eexists].
  case_decide; [by eexists|].
  destruct (evaluate_assessment case output) as [[m o]|e]; [|by eexists].
  by exists (Evaluated output m o).
Qed.

Lemma run_case_determined mode p case s :
  wp (run_case executor judge configuration mode p case) (λ _ r, ∃ p', r = Ok p' ∧
    erase <$> results p' = (erase <$> results p) ++ [determined ex mode case]) s.
Proof.
  unfold run_case. apply wp_bind. unfold wp at 1.
  destruct (evaluate_case_pure case mode s) as (ev & -> & Hev). cbn [fst snd].
  destruct ev as [result|output m o].
  { destruct Hev as [-> He]. apply wp_ret. eexists. split; [done|].
    cbn [results update]. rewrite fmap_app. csimpl. by rewrite He. }
  apply wp_bind. eapply wp_mono; [apply (judge_case_spec judge configuration)|].
  intros s' r (jr & _ & ->). apply wp_ret. eexists. split; [done|].
  cbn [results]. rewrite fmap_app, Hev. done.
Qed.

Lemma run_cases_determined mode cases p s :
  wp (run_cases executor judge configuration mode p cases) (λ _ r, ∃ p', r = Ok p' ∧
    erase <$> results p' = (erase <$> results p) ++ (determined ex mode <$> cases)) s.
Proof.
  revert p s; induction cases as [|case cases IH]; intros p s; simpl.
  { apply wp_ret. exists p. by rewrite app_nil_r. }
  apply wp_bind. eapply wp_mono; [apply run_case_determined|].
  intros s' r (p' & -> & Hp'). eapply wp_mono; [apply IH|].
  intros s'' r (p'' & -> & Hp''). exists p''. split; [done|].
  rewrite Hp'', Hp', <- app_assoc. done.
Qed.

Lemma evaluated_metrics_erase (l : list AssessmentCaseEvaluationResult.t) :
  AssessmentCaseEvaluationResult.metrics <$> evaluated_of l =
  AssessmentCaseEvaluationResult.metrics <$> evaluated_of (erase <$> l).
Proof.
  unfold evaluated_of. induction l as [|r l IH]; [done|]. csimpl. rewrite !filter_cons.
  change (AssessmentCaseEvaluationResult.failed (erase r)) with
    (AssessmentCaseEvaluationResult.failed r).
  case_decide; csimpl; by rewrite IH.
Qed.

Lemma dump_cases_erase (l : list AssessmentCaseEvaluationResult.t) : dump_case <$> l = dump_case <$> (erase <$> l).
Proof. induction l as [|r l IH]; [done|]. csimpl. by rewrite IH. Qed.

(** The parts of a report that a pure executor determines. *)
Lemma run_determined mode s :
  wp (run executor judge clock dataset configuration mode) (λ _ r, ∀ report, r = Ok report →
    let cases := determined ex mode <$> AssessmentEvaluationDataset.cases dataset in
    erase <$> AssessmentEvaluationReport.cases report = cases ∧
    aggregate_quality_metrics (AssessmentCaseEvaluationResult.metrics <$> evaluated_of cases) =
      Ok (AssessmentEvaluationReport.aggregate_metrics report) ∧
    _fingerprint mode (AssessmentEvaluationReport.aggregate_metrics report) cases =
      Ok (AssessmentEvaluationReport.reproducibility_fingerprint report)) s.
Proof.
  unfold run. apply wp_bind. eapply wp_mono; [apply run_cases_determined|].
  intros s1 r (p & -> & Hp). simpl in Hp. rewrite <- Hp, <- evaluated_metrics_erase.
  apply wp_bind. unfold of_res at 1, wp at 1. cbn [fst snd].
  destruct (aggregate_quality_metrics _) as [aggregate|e] eqn:Hagg; [|done].
  apply wp_bind. unfold wp at 1. destruct (clock s1) as [s2 [now|e]]; [|done]. cbn [fst snd].
  unfold bind, of_res, wp. cbn [fst snd].
  destruct (_fingerprint mode aggregate (results p)) as [fingerprint|e] eqn:Hfp; [|done].
  unfold construct_report. cbn [fst snd]. intros report Heq. case_match; [|done].
  injection Heq as <-. cbn. split_and!; [done..|].
  unfold _fingerprint in *. by rewrite <- dump_cases_erase.
Qed.
End world.
End reproducible.

(** two runs of the same dataset and mode whose executor answers alike - whatever their
    worlds, judges, clocks and configurations - report the same scores, observations and
    failures for every scenario, the same aggregate and the same reproducibility
    fingerprint: the optional judge and the time of the run leave no trace in it. *)
Theorem run_reproducible {sha : Sha256} {json : CanonicalJson} {S1 S2}
    ex dataset mode judge1 judge2 (clock1 : M S1 datetime) (clock2 : M S2 datetime)
    configuration1 configuration2 s1 s2 report1 report2 :
  (run (executor ex) judge1 clock1 dataset configuration1 mode s1).2 = Ok report1 →
  (run (executor ex) judge2 clock2 dataset configuration2 mode s2).2 = Ok report2 →
  erase <$> AssessmentEvaluationReport.cases report1 =
    erase <$> AssessmentEvaluationReport.cases report2 ∧
  AssessmentEvaluationReport.aggregate_metrics report1 =
    AssessmentEvaluationReport.aggregate_metrics report2 ∧
  AssessmentEvaluationReport.reproducibility_fingerprint report1 =
    AssessmentEvaluationReport.reproducibility_fingerprint report2.
Proof.
  intros H1 H2.
  destruct (run_determined ex judge1 clock1 dataset configuration1 mode s1 report1 H1) as (C1 & A1 & F1).
  destruct (run_determined ex judge2 clock2 dataset configuration2 mode s2 report2 H2) as (C2 & A2 & F2).
  rewrite A1 in A2. injection A2 as Ha. rewrite C1, C2, <- Ha in *. by rewrite F1 in F2; injection F2.
Qed.

(** ** A run over the declared fixtures *)

Definition demo_sha : Sha256 := λ text, replicate 64 (97 + Z.of_nat (length text) mod 5)%Z.
Definition demo_json : CanonicalJson := λ v,
  match v with PDict d => filter (λ c, c < 128)%Z (mjoin (fst <$> d)) | _ => [] end.

Definition demo_dataset : AssessmentEvaluationDataset.t :=
  AssessmentEvaluationDataset.mk "demo" "1" "One scenario" true "Not a standard" [demo_case].
Definition demo_configuration (judge_enabled : bool) : AssessmentEvaluationConfiguration.t :=
  AssessmentEvaluationConfiguration.mk "deterministic_assessment_fixture" judge_enabled None "v7b-1".
Definition counting_clock : M Z datetime := λ n, ((n + 1)%Z, Ok (datetime_utc n)).
Definition failing_judge (_ : AssessmentEvaluationCase.t) (_ : AssessmentEvaluationOutput.t) :
    M Z LLMJudgeResult.t := raise ValueError.

Definition demo_run (judged : bool) : M Z AssessmentEvaluationReport.t :=
  run (sha := demo_sha) (json := demo_json) (executor execute_fixture)
    (if judged then Some failing_judge else None) counting_clock demo_dataset
    (demo_configuration judged) AssessmentEvaluationMode.MULTI_AGENT.

Lemma demo_sha_hex text : fingerprint_pattern (demo_sha text) = true.
Proof.
  unfold demo_sha. pose proof (Z.mod_pos_bound (Z.of_nat (length text)) 5) as H.
  set (n := (Z.of_nat (length text) mod 5)%Z) in *.
  assert (n = 0 ∨ n = 1 ∨ n = 2 ∨ n = 3 ∨ n = 4)%Z as [->|[->|[->|[->| ->]]]] by lia;
    vm_compute; reflexivity.
Qed.

Lemma demo_json_ascii v : utf8_encodable (demo_json v) = true.
Proof.
  unfold utf8_encodable, demo_json. apply forallb_Forall.
  destruct v; try apply Forall_nil_2.
  apply Forall_forall. intros c [Hc _]%list_elem_of_filter.
  by rewrite (proj2 (Z.leb_gt 55296 c)) by lia.
Qed.

(** A scenario whose outputs declare a degraded run, one whose outputs declare a failed one and
    one without outputs, which the executor refuses. *)
Definition with_status (id : pystr) (status : AssessmentRunStatus.t) : AssessmentEvaluationCase.t :=
  demo_case <| AssessmentEvaluationCase.case_id := id |>
    <| AssessmentEvaluationCase.fixtures := (λ m, (m,
         (demo_output m) <| AssessmentEvaluationOutput.run_status := status |>
           <| AssessmentEvaluationOutput.degradation_reasons := [lit "no documents"] |>)) <$>
       AssessmentEvaluationMode.members |>.

Definition mixed_dataset : AssessmentEvaluationDataset.t :=
  demo_dataset <| AssessmentEvaluationDataset.cases :=
    [demo_case; with_status "degraded" AssessmentRunStatus.DEGRADED;
     with_status "failed" AssessmentRunStatus.FAILED;
     demo_case <| AssessmentEvaluationCase.case_id := "absent" |>
       <| AssessmentEvaluationCase.fixtures := [] |>] |>.

(** A judge that counts in the world how often it was asked, and fails every time. *)
Definition moody_judge (case : AssessmentEvaluationCase.t) (_ : AssessmentEvaluationOutput.t) :
    M Z LLMJudgeResult.t := λ n, ((n + 1)%Z, Raise ValueError).

Definition mixed_run : M Z AssessmentEvaluationReport.t :=
  run (sha := demo_sha) (json := demo_json) (executor execute_fixture) (Some moody_judge)
    counting_clock mixed_dataset (demo_configuration true) AssessmentEvaluationMode.MULTI_AGENT.

Lemma run_accounts_witness :
  ∃ report, mixed_run 7%Z = (10%Z, Ok report) ∧
    AssessmentEvaluationReport.generated_at report = datetime_utc 9 ∧
    AssessmentEvaluationReport.total_cases report = 4%Z ∧
    AssessmentEvaluationReport.llm_judge_calls report = 2%Z ∧
    AssessmentEvaluationReport.degraded_cases report = [lit "degraded"] ∧
    AssessmentEvaluationReport.failed_cases report = [lit "failed"; lit "absent"] ∧
    (AssessmentCaseEvaluationResult.error_code <$> AssessmentEvaluationReport.cases report) =
      [None; None; Some (lit "assessment_mode_execution_failed");
       Some (lit "assessment_evaluation_execution_failed")].
Proof.
  destruct (run_accounts (sha := demo_sha) (json := demo_json) (executor execute_fixture)
    (Some moody_judge) (demo_configuration true) counting_clock mixed_dataset
    AssessmentEvaluationMode.MULTI_AGENT 7%Z demo_sha_hex demo_json_ascii) as (rs & s1 & _ & H).
  change (run _ _ _ _ _ _ 7%Z) with (mixed_run 7%Z) in H.
  destruct (mixed_run 7%Z) as [s' [report|e]] eqn:Hr; [|exfalso; vm_compute in Hr; discriminate Hr].
  exists report. vm_compute in Hr. injection Hr as <- <-. split_and!; vm_compute; reflexivity.
Defined.

Lemma run_reproducible_witness :
  ∃ r1 r2, (demo_run true 7%Z).2 = Ok r1 ∧ (demo_run false 9%Z).2 = Ok r2 ∧
    AssessmentEvaluationReport.generated_at r1 ≠ AssessmentEvaluationReport.generated_at r2 ∧
    AssessmentEvaluationReport.llm_judge_calls r1 ≠ AssessmentEvaluationReport.llm_judge_calls r2 ∧
    AssessmentEvaluationReport.reproducibility_fingerprint r1 =
    AssessmentEvaluationReport.reproducibility_fingerprint r2.
Proof.
  destruct (demo_run true 7%Z) as [s1 [r1|e1]] eqn:H1; [|exfalso; vm_compute in H1; discriminate H1].
  destruct (demo_run false 9%Z) as [s2 [r2|e2]] eqn:H2; [|exfalso; vm_compute in H2; discriminate H2].
  exists r1, r2. split; [done|]. split; [done|].
  destruct (run_reproducible (sha := demo_sha) (json := demo_json) execute_fixture demo_dataset
    AssessmentEvaluationMode.MULTI_AGENT (Some failing_judge) None counting_clock counting_clock
    (demo_configuration true) (demo_configuration false) 7%Z 9%Z r1 r2
    (f_equal snd H1) (f_equal snd H2)) as (_ & _ & Hf).
  split; [|split; [|exact Hf]]; vm_compute in H1, H2; injection H1 as _ <-; injection H2 as _ <-;
    discriminate.
Defined.
