(* ===== verification/AssessmentReports.v ===== *)
(** app/evaluation/assessment/reports.py: the comparison of the execution modes over one
    dataset, its Pareto frontier per scenario, the trade-offs it states and the text it is
    rendered to.  Writing the files is left out; the clock is an argument. *)
From S2P Require Import Prelude PyFloat Errors Domain PyText FloatOrder Tools FloatRatio.
From S2P Require Import Counting AssessmentBenchmark AssessmentEvaluation.

(** [getattr(metrics, name)] for the names of [METRIC_NAMES]. *)
Definition METRIC_NAMES : list pystr := fst <$> METRICS.
Definition metric_value (m : AssessmentQualityMetrics.t) (name : pystr) : option pyfloat :=
  match dict_get METRICS name with Some f => f m | None => None end.

Definition UNSUPPORTED : pystr := "unsupported_claim_rate".

(** The two values of a metric that [_dominates] compares, larger being better. *)
Definition comparable_values (candidate baseline : AssessmentQualityMetrics.t) (name : pystr) :
    option (pyfloat * pyfloat) :=
  match metric_value candidate name, metric_value baseline name with
  | Some a, Some b =>
      if decide (name = UNSUPPORTED) then Some (fsub f64_one a, fsub f64_one b) else Some (a, b)
  | _, _ => None
  end.

Definition _dominates (candidate baseline : AssessmentCaseEvaluationResult.t) : bool :=
  let comparable :=
    omap (comparable_values (AssessmentCaseEvaluationResult.metrics candidate)
                            (AssessmentCaseEvaluationResult.metrics baseline)) METRIC_NAMES in
  truthy comparable && forallb (λ ab, fleb ab.2 ab.1) comparable &&
  existsb (λ ab, fltb ab.2 ab.1) comparable.

Definition available_cases (cases : list AssessmentCaseEvaluationResult.t) :
    list AssessmentCaseEvaluationResult.t :=
  filter (λ r, AssessmentCaseEvaluationResult.failed r = false) cases.

(** Some other mode dominates the candidate. *)
Definition dominated (available : list AssessmentCaseEvaluationResult.t)
    (candidate : AssessmentCaseEvaluationResult.t) : bool :=
  existsb (λ other,
    negb (bool_decide (AssessmentCaseEvaluationResult.mode other =
                       AssessmentCaseEvaluationResult.mode candidate)) &&
    _dominates other candidate) available.

Definition _pareto_modes (cases : list AssessmentCaseEvaluationResult.t) :
    list AssessmentEvaluationMode.t :=
  let available := available_cases cases in
  AssessmentCaseEvaluationResult.mode <$> filter (λ c, dominated available c = false) available.

(** [next(item for item in report.cases if item.case_id == case_id)]. *)
Definition _case_by_id (report : AssessmentEvaluationReport.t) (case_id : pystr) :
    res AssessmentCaseEvaluationResult.t :=
  match py_next (λ r, bool_decide (AssessmentCaseEvaluationResult.case_id r = case_id))
          (AssessmentEvaluationReport.cases report) with
  | Some r => Ok r
  | None => Raise (OtherException "StopIteration")
  end.

(** ** Trade-offs *)

Definition GAINS : list pystr := lit <$> ["risk_recall"; "control_coverage"; "governance_coverage"].
Definition LOSSES : list pystr :=
  lit <$> ["human_oversight_accuracy"; "architecture_fit_score"; "groundedness"].

(** The statements on one pair of consecutive modes. *)
Definition gain_statement (baseline candidate : AssessmentEvaluationMode.t)
    (before after : AssessmentQualityMetrics.t) (metric : pystr) : list pystr :=
  match metric_value before metric, metric_value after metric with
  | Some b, Some a =>
      if fltb b a then
        [AssessmentEvaluationMode.value candidate ++ lit " improved " ++ metric ++ lit " by " ++
         fixed3 (fsub a b) ++ lit " over " ++ AssessmentEvaluationMode.value baseline ++
         lit " on this synthetic benchmark."]
      else []
  | _, _ => []
  end.
Definition loss_statement (baseline candidate : AssessmentEvaluationMode.t)
    (before after : AssessmentQualityMetrics.t) (metric : pystr) : list pystr :=
  match metric_value before metric, metric_value after metric with
  | Some b, Some a =>
      if fltb a b then
        [AssessmentEvaluationMode.value baseline ++ lit " retained a " ++ fixed3 (fsub b a) ++
         lit " advantage in " ++ metric ++ lit " over " ++ AssessmentEvaluationMode.value candidate ++
         lit " on this synthetic benchmark."]
      else []
  | _, _ => []
  end.
Definition unsupported_statement (baseline candidate : AssessmentEvaluationMode.t)
    (before after : AssessmentQualityMetrics.t) : list pystr :=
  match AssessmentQualityMetrics.unsupported_claim_rate before,
        AssessmentQualityMetrics.unsupported_claim_rate after with
  | Some b, Some a =>
      if fltb b a then
        [AssessmentEvaluationMode.value baseline ++ lit " had a " ++ fixed3 (fsub a b) ++
         lit " lower unsupported_claim_rate than " ++ AssessmentEvaluationMode.value candidate ++
         lit "."]
      else []
  | _, _ => []
  end.

(** The dictionary [by_mode]. *)
Definition report_of (reports : list AssessmentEvaluationReport.t) (mode : AssessmentEvaluationMode.t) :
    option AssessmentEvaluationReport.t :=
  get_by AssessmentEvaluationReport.mode reports mode.

Definition pair_statements (reports : list AssessmentEvaluationReport.t)
    (baseline candidate : AssessmentEvaluationMode.t) : list pystr :=
  match report_of reports baseline, report_of reports candidate with
  | Some rb, Some rc =>
      let before := AssessmentEvaluationReport.aggregate_metrics rb in
      let after := AssessmentEvaluationReport.aggregate_metrics rc in
      (GAINS ≫= gain_statement baseline candidate before after) ++
      (LOSSES ≫= loss_statement baseline candidate before after) ++
      unsupported_statement baseline candidate before after
  | _, _ => []
  end.

(** [itertools.pairwise]. *)
Definition pairwise {A} (l : list A) : list (A * A) := zip l (tail l).

Definition FINAL_METRICS : list pystr := take 11 METRIC_NAMES.

(** [x == y] of two optional floats. *)
Definition opt_feqb (x y : option pyfloat) : bool :=
  match x, y with
  | Some a, Some b => feqb a b
  | None, None => true
  | _, _ => false
  end.

Definition _shared_final_quality_equal (first second : AssessmentCaseEvaluationResult.t) : bool :=
  forallb (λ name, opt_feqb (metric_value (AssessmentCaseEvaluationResult.metrics first) name)
                            (metric_value (AssessmentCaseEvaluationResult.metrics second) name))
    FINAL_METRICS.

Definition SIMPLE_CATEGORIES : list AssessmentScenarioCategory.t :=
  [AssessmentScenarioCategory.LOW_RISK_PRODUCTIVITY; AssessmentScenarioCategory.SIMPLE_DETERMINISTIC].

(** [best_by_case[case_id]]. *)
Definition best_of (best_by_case : list (pystr * list AssessmentEvaluationMode.t)) (case_id : pystr) :
    res (list AssessmentEvaluationMode.t) :=
  match dict_get best_by_case case_id with Some m => Ok m | None => Raise KeyError end.

Definition simple_ids (best_by_case : list (pystr * list AssessmentEvaluationMode.t))
    (report : AssessmentEvaluationReport.t) : res (list pystr) :=
  res_bind (res_map (λ item,
    if mem (AssessmentCaseEvaluationResult.scenario_category item) SIMPLE_CATEGORIES then
      res_bind (best_of best_by_case (AssessmentCaseEvaluationResult.case_id item)) (λ best,
      Ok (if mem AssessmentEvaluationMode.DETERMINISTIC best
          then [AssessmentCaseEvaluationResult.case_id item] else []))
    else Ok []) (AssessmentEvaluationReport.cases report)) (λ ids, Ok (mjoin ids)).

Definition unchanged_ids (single multi : AssessmentEvaluationReport.t) : res (list pystr) :=
  res_bind (res_map (λ item,
    if AssessmentCaseEvaluationResult.failed item then Ok []
    else
      res_bind (_case_by_id multi (AssessmentCaseEvaluationResult.case_id item)) (λ other,
      Ok (if negb (AssessmentCaseEvaluationResult.failed other) &&
             _shared_final_quality_equal item other
          then [AssessmentCaseEvaluationResult.case_id item] else [])))
    (AssessmentEvaluationReport.cases single)) (λ ids, Ok (mjoin ids)).

(** A closing statement that lists scenarios, when there are any. *)
Definition listing (prefix : pystr) (ids : list pystr) : list pystr :=
  if truthy ids then [prefix ++ str_join (lit ", ") ids ++ lit "."] else [].

Definition _derive_tradeoffs (reports : list AssessmentEvaluationReport.t)
    (best_by_case : list (pystr * list AssessmentEvaluationMode.t)) : res (list pystr) :=
  let pairs :=
    pairwise AssessmentEvaluationMode.members ≫= λ bc, pair_statements reports bc.1 bc.2 in
  res_bind (match report_of reports AssessmentEvaluationMode.DETERMINISTIC with
            | Some deterministic =>
                res_bind (simple_ids best_by_case deterministic) (λ ids,
                Ok (listing "deterministic remained Pareto-optimal for simple cases: " ids))
            | None => Ok []
            end) (λ simple,
  res_bind (match report_of reports AssessmentEvaluationMode.SINGLE_AGENT,
                  report_of reports AssessmentEvaluationMode.MULTI_AGENT with
            | Some single, Some multi =>
                res_bind (unchanged_ids single multi) (λ ids,
                Ok (listing "multi_agent added no measurable final-output quality benefit over single_agent for: " ids))
            | _, _ => Ok []
            end) (λ unchanged,
  Ok (pairs ++ simple ++ unchanged))).

(** ** The comparison *)

Definition case_ids (report : AssessmentEvaluationReport.t) : list pystr :=
  remove_dups (AssessmentCaseEvaluationResult.case_id <$> AssessmentEvaluationReport.cases report).

(** [set(xs) == set(ys)]. *)
Definition same_set {A} `{EqDecision A} (xs ys : list A) : bool := issubset xs ys && issubset ys xs.

Definition dataset_key (r : AssessmentEvaluationReport.t) : pystr * pystr :=
  (AssessmentEvaluationReport.dataset_id r, AssessmentEvaluationReport.dataset_version r).

(** [by_mode[mode]]. *)
Definition by_mode (reports : list AssessmentEvaluationReport.t) (mode : AssessmentEvaluationMode.t) :
    res AssessmentEvaluationReport.t :=
  match report_of reports mode with Some r => Ok r | None => Raise KeyError end.

Definition comparison_modes (reports : list AssessmentEvaluationReport.t) :
    list AssessmentEvaluationMode.t :=
  filter (λ m, m ∈ (AssessmentEvaluationReport.mode <$> reports)) AssessmentEvaluationMode.members.

Definition comparison_row (reports : list AssessmentEvaluationReport.t)
    (modes : list AssessmentEvaluationMode.t) (name : pystr) : res AssessmentComparisonRow.t :=
  res_bind (res_map (λ m,
    res_bind (by_mode reports m) (λ r,
    Ok (m, metric_value (AssessmentEvaluationReport.aggregate_metrics r) name))) modes) (λ values,
  Ok (AssessmentComparisonRow.mk name values)).

Definition best_row (reports : list AssessmentEvaluationReport.t)
    (modes : list AssessmentEvaluationMode.t) (case_id : pystr) :
    res (pystr * list AssessmentEvaluationMode.t) :=
  res_bind (res_map (λ m, res_bind (by_mode reports m) (λ r, _case_by_id r case_id)) modes) (λ cases,
  Ok (case_id, _pareto_modes cases)).

Definition build_assessment_comparison {S} (clock : M S datetime)
    (reports : list AssessmentEvaluationReport.t) : M S AssessmentModeComparison.t :=
  match reports with
  | [] => raise ValueError
  | first :: _ =>
      if negb (Nat.eqb (length (remove_dups (dataset_key <$> reports))) 1) then raise ValueError
      else if negb (Nat.eqb (length (remove_dups (AssessmentEvaluationReport.mode <$> reports)))
                            (length reports)) then raise ValueError
      else if existsb (λ r, negb (same_set (case_ids r) (case_ids first))) (tail reports)
      then raise ValueError
      else
        let modes := comparison_modes reports in
        let* rows := of_res (res_map (comparison_row reports modes) METRIC_NAMES) in
        let* best_by_case :=
          of_res (res_map (best_row reports modes) (merge_sort str_le (case_ids first))) in
        let* generated_at := clock in
        let* key_tradeoffs := of_res (_derive_tradeoffs reports best_by_case) in
        ret (AssessmentModeComparison.mk generated_at (AssessmentEvaluationReport.dataset_id first)
          (AssessmentEvaluationReport.dataset_version first)
          (forallb AssessmentEvaluationReport.synthetic reports) modes rows key_tradeoffs best_by_case
          [(lit "case_count", PInt (Z.of_nat (length (case_ids first))));
           (lit "synthetic", PBool true);
           (lit "regulated_enterprise_emphasis", PBool true);
           (lit "selection_method",
            PStr (lit "Pareto frontier over supported per-case deterministic metrics"));
           (lit "production_assurance", PBool false)]
          [lit "Synthetic benchmark findings are local to these declared fixtures.";
           lit "Pareto-optimal modes may tie; no global winner or hidden composite score is used."])
  end.

(** ** Text *)

Definition _display (value : option pyfloat) : pystr :=
  match value with Some x => fixed3 x | None => "N/A" end.

Definition format_assessment_report (report : AssessmentEvaluationReport.t) : pystr :=
  str_join [10%Z]
    ([lit "Mode: " ++ AssessmentEvaluationMode.value (AssessmentEvaluationReport.mode report);
      lit "Profile: " ++ AssessmentEvaluationConfiguration.execution_profile
                           (AssessmentEvaluationReport.configuration report);
      lit "Cases: " ++ str_int (AssessmentEvaluationReport.evaluated_cases report) ++ lit "/" ++
        str_int (AssessmentEvaluationReport.total_cases report)] ++
     ((λ name, title (str_replace name (lit "_") (lit " ")) ++ lit ": " ++
        _display (metric_value (AssessmentEvaluationReport.aggregate_metrics report) name))
        <$> METRIC_NAMES) ++
     [lit "LLM judge calls: " ++ str_int (AssessmentEvaluationReport.llm_judge_calls report);
      lit "Deterministic fingerprint: " ++
        AssessmentEvaluationReport.reproducibility_fingerprint report]).

(** [row.values.get(mode)]: a missing mode displays like a null value. *)
Definition row_value (row : AssessmentComparisonRow.t) (mode : AssessmentEvaluationMode.t) :
    option pyfloat :=
  match py_next (λ kv, bool_decide (kv.1 = mode)) (AssessmentComparisonRow.values row) with
  | Some (_, v) => v
  | None => None
  end.

Definition format_assessment_comparison (comparison : AssessmentModeComparison.t) : pystr :=
  let modes := AssessmentModeComparison.modes comparison in
  str_join [10%Z]
    ([pad_right 32 "Metric" ++ (modes ≫= λ m, pad_left 16 (AssessmentEvaluationMode.value m))] ++
     ((λ row, pad_right 32 (AssessmentComparisonRow.metric row) ++
        (modes ≫= λ m, pad_left 16 (_display (row_value row m))))
        <$> AssessmentModeComparison.rows comparison) ++
     (if truthy (AssessmentModeComparison.key_tradeoffs comparison)
      then lit "Key tradeoffs:" ::
           ((λ s, lit "- " ++ s) <$> AssessmentModeComparison.key_tradeoffs comparison)
      else [])).

Example title_words : title (str_replace (lit "risk_recall") (lit "_") (lit " ")) = lit "Risk Recall".
Proof. vm_compute. reflexivity. Qed.
