(* ===== verification/AssessmentReportTheorems.v ===== *)
(** The comparison of execution modes: domination never turns in a circle, so the Pareto
    frontier of a scenario is never empty, and it holds exactly the modes no other dominates. *)
From Stdlib Require Import Floats.SpecFloat.
From S2P Require Import Prelude PyFloat Errors Domain PyText FloatOrder Tools FloatRatio.
From S2P Require Import Counting AssessmentBenchmark AssessmentEvaluation AssessmentEvaluationTheorems.
From S2P Require Import AssessmentRunTheorems AssessmentReports.

(** ** The order of floats *)

Lemma fltb_fleb_absurd x y : fltb x y = true → fleb y x = true → False.
Proof.
  intros Hlt Hle. pose proof (fleb_nan _ _ Hle) as [Hy Hx].
  apply fltb_rank in Hlt; [|done..]. by apply fleb_rank in Hle.
Qed.

Lemma fleb_trans x y z : fleb x y = true → fleb y z = true → fleb x z = true.
Proof.
  intros H1 H2. pose proof (fleb_nan _ _ H1) as [Hx Hy]. pose proof (fleb_nan _ _ H2) as [_ Hz].
  apply fleb_rank in H1, H2; [|done..]. apply fleb_rank; [done..|]. unfold lex_lt in *. lia.
Qed.

Lemma fleb_antisym_zero x y :
  fleb x y = true → fleb y x = true → feqb x f64_zero = feqb y f64_zero.
Proof.
  intros H1 H2. pose proof (fleb_nan _ _ H1) as [Hx Hy].
  apply fleb_rank in H1, H2; [|done..]. apply eq_true_iff_eq.
  rewrite !feqb_rank by done. assert (rank x = rank y) as ->; [|done].
  unfold lex_lt in *. destruct (rank x) as [[a b] c], (rank y) as [[a' b'] c']. simpl in *.
  assert (a = a') as -> by lia. assert (b = b') as -> by lia. by assert (c = c') as -> by lia.
Qed.

(** ** Domination *)

(** The value of a metric as the comparison sees it: larger is better. *)
Definition merit (m : AssessmentQualityMetrics.t) (name : pystr) : option pyfloat :=
  if decide (name = UNSUPPORTED) then fsub f64_one <$> metric_value m name else metric_value m name.

Lemma comparable_merit a b name :
  comparable_values a b name =
  match merit a name, merit b name with Some x, Some y => Some (x, y) | _, _ => None end.
Proof.
  unfold comparable_values, merit.
  case_decide; destruct (metric_value a name), (metric_value b name); done.
Qed.

(** [a] is nowhere worse and somewhere better than [b], where both have a value. *)
Definition better (a b : AssessmentQualityMetrics.t) : Prop :=
  (∀ name x y, name ∈ METRIC_NAMES → merit a name = Some x → merit b name = Some y →
     fleb y x = true) ∧
  (∃ name x y, name ∈ METRIC_NAMES ∧ merit a name = Some x ∧ merit b name = Some y ∧
     fltb y x = true).

Lemma elem_of_comparable a b xy :
  xy ∈ omap (comparable_values a b) METRIC_NAMES ↔
  ∃ name, name ∈ METRIC_NAMES ∧ merit a name = Some xy.1 ∧ merit b name = Some xy.2.
Proof.
  rewrite list_elem_of_omap. setoid_rewrite comparable_merit. destruct xy as [x y]. simpl. split.
  - intros (name & Hin & Heq). exists name.
    destruct (merit a name), (merit b name); simplify_eq. done.
  - intros (name & Hin & Hx & Hy). exists name. by rewrite Hx, Hy.
Qed.

Lemma dominates_better a b :
  _dominates a b = true ↔
  better (AssessmentCaseEvaluationResult.metrics a) (AssessmentCaseEvaluationResult.metrics b).
Proof.
  unfold _dominates, better.
  set (l := omap (comparable_values _ _) METRIC_NAMES).
  rewrite !andb_true_iff, forallb_Forall, Forall_forall, existsb_Exists, Exists_exists.
  unfold l. setoid_rewrite elem_of_comparable. fold l. split.
  - intros [[_ Hall] ([x y] & (name & Hin & Hx & Hy) & Hlt)]. split.
    + intros name' x' y' Hin' Hx' Hy'. apply (Hall (x', y')). by exists name'.
    + by exists name, x, y.
  - intros [Hall (name & x & y & Hin & Hx & Hy & Hlt)]. split_and!.
    + assert ((x, y) ∈ l) as Hl by (apply elem_of_comparable; by exists name).
      destruct l; [by apply elem_of_nil in Hl|done].
    + intros [x' y'] (name' & Hin' & Hx' & Hy'). by apply (Hall name').
    + exists (x, y). split; [|done]. by exists name.
Qed.

Lemma better_asym a b : better a b → better b a → False.
Proof.
  intros [_ (name & x & y & Hin & Hx & Hy & Hlt)] [Hle _].
  apply (fltb_fleb_absurd y x Hlt). by apply (Hle name).
Qed.

(** ** Which scores can be missing *)

Definition has (s : option pyfloat) : bool := is_not_none s.

Lemma has_merit m name : has (merit m name) = has (metric_value m name).
Proof. unfold merit. case_decide; [|done]. by destruct (metric_value m name). Qed.

Definition has_claims m := has (AssessmentQualityMetrics.groundedness m).
Definition has_preservation m := has (AssessmentQualityMetrics.specialist_preservation m).
Definition has_transparency m := has (AssessmentQualityMetrics.synthesis_transparency m).
Definition has_severity m := has (AssessmentQualityMetrics.severity_consistency m).

(** A score that two of three coherent outputs of a scenario have and the third lacks is one of
    the claims' or of the synthesis. *)
Lemma missing_score simple a b c name :
  coherent simple a → coherent simple b → coherent simple c →
  has_severity a = has_severity c → name ∈ METRIC_NAMES →
  has (merit a name) = true → has (merit b name) = true → has (merit c name) = false →
  has_claims a && has_claims b && negb (has_claims c) ||
  has_preservation a && has_preservation b && negb (has_preservation c) ||
  has_transparency a && has_transparency b && negb (has_transparency c) = true.
Proof.
  intros [_ _ Ea Ca _] [_ _ _ Cb _] [Hal (x & Hr & _) Ec Cc _] Hsev Hin.
  rewrite !has_merit. repeat (apply Forall_cons in Hal as [? Hal]).
  unfold METRIC_NAMES in Hin. simpl in Hin.
  unfold has_claims, has_preservation, has_transparency, has_severity, has in *.
  repeat (apply elem_of_cons in Hin as [->|Hin]); [..|by apply elem_of_nil in Hin];
    unfold metric_value; simpl; intros Ha Hb Hc; try congruence.
  - rewrite Hr in Hc. done.
  - by rewrite Ha, Hb, Hc.
  - rewrite Ca in Ha. rewrite Cb in Hb. rewrite Cc in Hc. by rewrite Ha, Hb, Hc.
  - rewrite Ha, Hb, Hc. simpl. by rewrite orb_true_r.
  - rewrite Ha, Hb, Hc. simpl. by rewrite !orb_true_r.
Qed.

(** Along a circle no metric that all three have can differ. *)
Lemma circle_strict a b c name x y :
  better a b → better b c → better c a →
  name ∈ METRIC_NAMES → merit a name = Some x → merit b name = Some y → fltb y x = true →
  has (merit c name) = false.
Proof.
  intros _ [Hbc _] [Hca _] Hin Hx Hy Hlt. destruct (merit c name) as [z|] eqn:Hz; [|done]. exfalso.
  apply (fltb_fleb_absurd y x Hlt). eapply fleb_trans; [by apply (Hca name)|by apply (Hbc name)].
Qed.

Lemma circle_severity simple a b c :
  coherent simple a → coherent simple b → coherent simple c →
  better a b → better b c → better c a → has_severity a = has_severity c.
Proof.
  intros [_ (x & Hx & Sa) _ _ _] [_ (y & Hy & Sb) _ _ _] [_ (z & Hz & Sc) _ _ _] [Hab _] [Hbc _] [Hca _].
  unfold has_severity, has. rewrite Sa, Sc. f_equal.
  assert (lit "risk_recall" ∈ METRIC_NAMES) as Hin by (left).
  apply fleb_antisym_zero; [by apply (Hca (lit "risk_recall"))|].
  eapply fleb_trans; [by apply (Hbc (lit "risk_recall"))|by apply (Hab (lit "risk_recall"))].
Qed.

Lemma circle_gap simple a b c :
  coherent simple a → coherent simple b → coherent simple c →
  better a b → better b c → better c a →
  has_claims a && has_claims b && negb (has_claims c) ||
  has_preservation a && has_preservation b && negb (has_preservation c) ||
  has_transparency a && has_transparency b && negb (has_transparency c) = true.
Proof.
  intros Ha Hb Hc Hab Hbc Hca. pose proof Hab as [_ (name & x & y & Hin & Hx & Hy & Hlt)].
  eapply (missing_score simple a b c name); try done.
  - by apply (circle_severity simple a b c).
  - by rewrite Hx.
  - by rewrite Hy.
  - by apply (circle_strict a b c name x y).
Qed.

Lemma no_circle simple a b c :
  coherent simple a → coherent simple b → coherent simple c →
  better a b → better b c → better c a → False.
Proof.
  intros Ha Hb Hc Hab Hbc Hca.
  pose proof (circle_gap simple a b c Ha Hb Hc Hab Hbc Hca) as G1.
  pose proof (circle_gap simple b c a Hb Hc Ha Hbc Hca Hab) as G2.
  pose proof (circle_gap simple c a b Hc Ha Hb Hca Hab Hbc) as G3.
  pose proof (co_synthesis _ _ Ha) as Ia. pose proof (co_synthesis _ _ Hb) as Ib.
  pose proof (co_synthesis _ _ Hc) as Ic.
  change (has_preservation a = true → has_transparency a = true) in Ia.
  change (has_preservation b = true → has_transparency b = true) in Ib.
  change (has_preservation c = true → has_transparency c = true) in Ic.
  destruct (has_claims a), (has_claims b), (has_claims c); try done;
  destruct (has_preservation a), (has_preservation b), (has_preservation c),
    (has_transparency a), (has_transparency b), (has_transparency c); naive_solver.
Qed.

(** ** The frontier *)

(** An evaluated result of the scenario carries the scores of a valid output. *)
Definition of_scenario (case : AssessmentEvaluationCase.t) (r : AssessmentCaseEvaluationResult.t) : Prop :=
  AssessmentCaseEvaluationResult.failed r = false →
  ∃ output o, AssessmentEvaluationOutput.valid output = true ∧ countable case output ∧
    evaluate_assessment case output = Ok (AssessmentCaseEvaluationResult.metrics r, o).

Definition simple_case (case : AssessmentEvaluationCase.t) : bool :=
  truthy (set_and SIMPLE_ARCHITECTURE
    (AssessmentEvaluationCase.expected_architecture_characteristics case)).

Lemma of_scenario_coherent case r :
  AssessmentEvaluationCase.valid case = true → of_scenario case r →
  AssessmentCaseEvaluationResult.failed r = false →
  coherent (simple_case case) (AssessmentCaseEvaluationResult.metrics r).
Proof.
  intros Hcase%valid_wellformed Hr Hf. destruct (Hr Hf) as (output & o & Hv & Hc & He).
  destruct (evaluate_scored case output Hcase Hv Hc) as (m & Hm & Hs).
  rewrite Hm in He. injection He as <- _. apply Hs.
Qed.

(** Some other mode's result is better. *)
Definition beaten_by (other r : AssessmentCaseEvaluationResult.t) : Prop :=
  AssessmentCaseEvaluationResult.mode other ≠ AssessmentCaseEvaluationResult.mode r ∧
  better (AssessmentCaseEvaluationResult.metrics other) (AssessmentCaseEvaluationResult.metrics r).

Lemma dominated_spec l r : dominated l r = true ↔ ∃ other, other ∈ l ∧ beaten_by other r.
Proof.
  unfold dominated, beaten_by. rewrite existsb_Exists, Exists_exists.
  setoid_rewrite andb_true_iff. setoid_rewrite dominates_better.
  setoid_rewrite negb_true_iff. setoid_rewrite bool_decide_eq_false. naive_solver.
Qed.

Lemma elem_of_pareto cases mode :
  mode ∈ _pareto_modes cases ↔
  ∃ r, r ∈ available_cases cases ∧ AssessmentCaseEvaluationResult.mode r = mode ∧
    ∀ other, other ∈ available_cases cases → ¬ beaten_by other r.
Proof.
  unfold _pareto_modes. cbv zeta. generalize (available_cases cases). intros l.
  rewrite list_elem_of_fmap. setoid_rewrite list_elem_of_filter.
  split.
  - intros (r & -> & Hd & Hr). exists r. split; [done|split; [done|]]. intros other Ho Hb.
    apply not_true_iff_false in Hd. apply Hd, dominated_spec. eauto.
  - intros (r & Hr & <- & Hno). exists r. split; [done|split; [|done]].
    { apply not_true_is_false. intros (o & Ho & Hb)%dominated_spec. by apply (Hno o). }
Qed.

(** At most three results without circles: one is not beaten. *)
Lemma unbeaten_exists simple l :
  l ≠ [] → NoDup (AssessmentCaseEvaluationResult.mode <$> l) →
  Forall (λ r, coherent simple (AssessmentCaseEvaluationResult.metrics r)) l →
  ∃ r, r ∈ l ∧ ∀ other, other ∈ l → ¬ beaten_by other r.
Proof.
  intros Hne Hnd Hco.
  assert (length l ≤ 3)%nat as Hlen.
  { rewrite <- (length_fmap AssessmentCaseEvaluationResult.mode).
    apply (submseteq_length _ AssessmentEvaluationMode.members), NoDup_submseteq; [done|].
    intros [] _; vm_compute; repeat constructor. }
  destruct (decide (Exists (λ r, dominated l r = false) l)) as [He|He].
  { apply Exists_exists in He as (r & Hr & Hd). exists r. split; [done|]. intros other Ho Hb.
    apply not_true_iff_false in Hd. apply Hd, dominated_spec. eauto. }
  exfalso. apply not_Exists_Forall in He; [|intros ?; apply _].
  assert (∀ r, r ∈ l → ∃ other, other ∈ l ∧ beaten_by other r) as Hall.
  { intros r Hr. rewrite Forall_forall in He. apply dominated_spec.
    destruct (dominated l r) eqn:Hd; [done|]. by destruct (He r Hr Hd). }
  clear He Hnd. rewrite Forall_forall in Hco.
  destruct l as [|a [|b [|c [|d l]]]]; simpl in Hlen; [done| | | |lia]; clear Hne Hlen.
  - destruct (Hall a) as (x & Hx%list_elem_of_singleton & Hm & _); [left|]. by subst.
  - destruct (Hall a) as (x & Hx & Hxa); [left|]. destruct (Hall b) as (y & Hy & Hyb); [right; left|].
    unfold beaten_by in *. rewrite !elem_of_cons, elem_of_nil in Hx, Hy.
    destruct Hx as [->|[->|[]]], Hy as [->|[->|[]]]; try tauto.
    eapply better_asym; [apply Hxa|apply Hyb].
  - assert (coherent simple (AssessmentCaseEvaluationResult.metrics a)) as Ca by (apply Hco; left).
    assert (coherent simple (AssessmentCaseEvaluationResult.metrics b)) as Cb by (apply Hco; right; left).
    assert (coherent simple (AssessmentCaseEvaluationResult.metrics c)) as Cc
      by (apply Hco; right; right; left).
    destruct (Hall a) as (x & Hx & Hxa); [left|]. destruct (Hall b) as (y & Hy & Hyb); [right; left|].
    destruct (Hall c) as (z & Hz & Hzc); [right; right; left|]. clear Hall Hco.
    unfold beaten_by in *. rewrite !elem_of_cons, elem_of_nil in Hx, Hy, Hz.
    pose proof (better_asym (AssessmentCaseEvaluationResult.metrics a) (AssessmentCaseEvaluationResult.metrics b)).
    pose proof (better_asym (AssessmentCaseEvaluationResult.metrics b) (AssessmentCaseEvaluationResult.metrics c)).
    pose proof (better_asym (AssessmentCaseEvaluationResult.metrics c) (AssessmentCaseEvaluationResult.metrics a)).
    pose proof (no_circle simple _ _ _ Ca Cb Cc). pose proof (no_circle simple _ _ _ Ca Cc Cb).
    destruct Hx as [->|[->|[->|[]]]], Hy as [->|[->|[->|[]]]], Hz as [->|[->|[->|[]]]]; tauto.
Qed.

Lemma NoDup_members : NoDup AssessmentEvaluationMode.members.
Proof. by apply (bool_decide_unpack (NoDup _)). Qed.

Lemma NoDup_fmap_filter {A B} (f : A → B) (P : A → Prop) `{!∀ x, Decision (P x)} l :
  NoDup (f <$> l) → NoDup (f <$> filter P l).
Proof.
  induction l as [|a l IH]; [done|]. csimpl. intros [Ha Hl]%NoDup_cons. rewrite filter_cons.
  case_decide; [|by apply IH]. csimpl. apply NoDup_cons. split; [|by apply IH].
  intros (b & Heq & [_ Hb]%list_elem_of_filter)%list_elem_of_fmap. apply Ha. rewrite Heq.
  by apply list_elem_of_fmap_2.
Qed.

Lemma pareto_frontier_nonempty case cases :
  AssessmentEvaluationCase.valid case = true → Forall (of_scenario case) cases →
  NoDup (AssessmentCaseEvaluationResult.mode <$> cases) →
  available_cases cases ≠ [] → _pareto_modes cases ≠ [].
Proof.
  intros Hcase Hall Hnd Hne.
  destruct (unbeaten_exists (simple_case case) (available_cases cases)) as (r & Hr & Hb).
  - done.
  - by apply NoDup_fmap_filter.
  - rewrite Forall_forall in Hall |- *. intros r [Hf Hr]%list_elem_of_filter.
    by apply of_scenario_coherent; [|apply Hall|].
  - intros Hnil. assert (AssessmentCaseEvaluationResult.mode r ∈ _pareto_modes cases) as Hin
      by (apply elem_of_pareto; eauto).
    rewrite Hnil in Hin. by apply elem_of_nil in Hin.
Qed.

(** C38: the results of one scenario under different modes, computed by the evaluators, have a
    Pareto frontier: [_pareto_modes] lists exactly the evaluated modes that no other evaluated
    mode betters - nowhere worse and somewhere better on the scores both have - and as soon as
    one mode was evaluated the frontier is not empty, although scores that one mode lacks make
    the comparison intransitive in general. *)
Theorem pareto_frontier case cases :
  AssessmentEvaluationCase.valid case = true → Forall (of_scenario case) cases →
  NoDup (AssessmentCaseEvaluationResult.mode <$> cases) →
  (∀ mode, mode ∈ _pareto_modes cases ↔
    ∃ r, r ∈ available_cases cases ∧ AssessmentCaseEvaluationResult.mode r = mode ∧
      ∀ other, other ∈ available_cases cases → ¬ beaten_by other r) ∧
  (available_cases cases ≠ [] → _pareto_modes cases ≠ []).
Proof.
  intros Hcase Hall Hnd. split; [intros; apply elem_of_pareto|].
  by apply (pareto_frontier_nonempty case).
Qed.

(** ** Comparing the runs of one dataset *)

Lemma res_map_join_total {A B} (f : A → res (list B)) l :
  (∀ a, a ∈ l → ∃ b, f a = Ok b) →
  ∃ bs, res_bind (res_map f l) (λ bs, Ok (mjoin bs)) = Ok bs.
Proof. intros H. destruct (res_map_total f l H) as (bs & -> & _). by eexists. Qed.

Section comparison.
Context (dataset : AssessmentEvaluationDataset.t) (reports : list AssessmentEvaluationReport.t).

(** The report of a run over the dataset. *)
Record runs_dataset (r : AssessmentEvaluationReport.t) : Prop := {
  rd_key : dataset_key r = (AssessmentEvaluationDataset.dataset_id dataset,
                            AssessmentEvaluationDataset.version dataset);
  rd_cases : Forall2 (names_case (AssessmentEvaluationReport.mode r))
    (AssessmentEvaluationDataset.cases dataset) (AssessmentEvaluationReport.cases r);
  rd_scenarios : Forall2 of_scenario (AssessmentEvaluationDataset.cases dataset)
    (AssessmentEvaluationReport.cases r)
}.

Context (Hvalid : AssessmentEvaluationDataset.valid dataset = true).
Context (Hreports : Forall runs_dataset reports).
Context (Hmodes : NoDup (AssessmentEvaluationReport.mode <$> reports)).

Let ids := AssessmentEvaluationCase.case_id <$> AssessmentEvaluationDataset.cases dataset.

Lemma dataset_ids : NoDup ids.
Proof.
  unfold AssessmentEvaluationDataset.valid in Hvalid. split_bools. by apply require_unique_NoDup.
Qed.

Lemma dataset_case_valid case :
  case ∈ AssessmentEvaluationDataset.cases dataset → AssessmentEvaluationCase.valid case = true.
Proof.
  unfold AssessmentEvaluationDataset.valid in Hvalid. split_bools.
  repeat match goal with H : forallb _ _ = true |- _ => rewrite forallb_Forall, Forall_forall in H end.
  auto.
Qed.

Lemma report_ids r : runs_dataset r → case_ids r = ids.
Proof.
  intros [_ Hc _]. unfold case_ids.
  assert (AssessmentCaseEvaluationResult.case_id <$> AssessmentEvaluationReport.cases r = ids) as ->.
  { unfold ids. clear -Hc. induction Hc as [|c x l l' Hx _ IH]; [done|]. csimpl.
    rewrite IH. by destruct Hx as [-> _]. }
  apply remove_dups_id, dataset_ids.
Qed.

(** The result a report holds for a scenario. *)
Lemma case_by_id_total r case :
  runs_dataset r → case ∈ AssessmentEvaluationDataset.cases dataset →
  ∃ x, _case_by_id r (AssessmentEvaluationCase.case_id case) = Ok x ∧
    AssessmentCaseEvaluationResult.mode x = AssessmentEvaluationReport.mode r ∧ of_scenario case x ∧
    x ∈ AssessmentEvaluationReport.cases r ∧
    AssessmentCaseEvaluationResult.case_id x = AssessmentEvaluationCase.case_id case.
Proof.
  intros [_ Hc Hs] Hin. pose proof dataset_ids as Hn. unfold ids, _case_by_id in *.
  clear Hmodes Hreports Hvalid.
  induction Hc as [|c x l l' Hx Hc IH]; [by apply elem_of_nil in Hin|].
  inversion Hs as [|? ? ? ? Hsx Hs']; subst. csimpl in Hn. apply NoDup_cons in Hn as [Hnc Hn].
  destruct Hx as [Hid Hmode]. simpl. rewrite Hid.
  apply elem_of_cons in Hin as [->|Hin].
  - rewrite bool_decide_eq_true_2 by done. exists x. split_and!; try done. left.
  - rewrite bool_decide_eq_false_2.
    + destruct (IH Hs' Hin Hn) as (y & Hy & ? & ? & ? & ?). exists y. split_and!; try done. by right.
    + intros Heq. apply Hnc. rewrite Heq. by apply list_elem_of_fmap_2.
Qed.

Lemma by_mode_total mode :
  mode ∈ comparison_modes reports →
  ∃ r, by_mode reports mode = Ok r ∧ r ∈ reports ∧ AssessmentEvaluationReport.mode r = mode.
Proof.
  unfold comparison_modes, by_mode, report_of. intros [Hin _]%list_elem_of_filter.
  apply list_elem_of_fmap in Hin as (r & -> & Hr). exists r.
  assert (get_by AssessmentEvaluationReport.mode reports (AssessmentEvaluationReport.mode r) = Some r)
    as -> by (by apply get_by_Some). done.
Qed.

(** The entry of a scenario: the frontier of its results under the compared modes. *)
Lemma best_row_total case :
  case ∈ AssessmentEvaluationDataset.cases dataset →
  ∃ results,
    best_row reports (comparison_modes reports) (AssessmentEvaluationCase.case_id case) =
      Ok (AssessmentEvaluationCase.case_id case, _pareto_modes results) ∧
    AssessmentCaseEvaluationResult.mode <$> results = comparison_modes reports ∧
    Forall (of_scenario case) results ∧
    Forall (λ x, AssessmentCaseEvaluationResult.case_id x = AssessmentEvaluationCase.case_id case ∧
      ∃ r, r ∈ reports ∧ x ∈ AssessmentEvaluationReport.cases r) results.
Proof.
  intros Hin. unfold best_row. set (f := λ m, res_bind _ _).
  destruct (res_map_total f (comparison_modes reports)) as (xs & Hxs & Hall).
  { intros m Hm. destruct (by_mode_total m Hm) as (r & Hr & Hrin & _).
    rewrite Forall_forall in Hreports.
    destruct (case_by_id_total r case (Hreports r Hrin) Hin) as (x & Hx & _).
    exists x. unfold f. by rewrite Hr. }
  exists xs. rewrite Hxs. split; [done|].
  assert (∀ m x, m ∈ comparison_modes reports → f m = Ok x →
    AssessmentCaseEvaluationResult.mode x = m ∧ of_scenario case x ∧
    AssessmentCaseEvaluationResult.case_id x = AssessmentEvaluationCase.case_id case ∧
    ∃ r, r ∈ reports ∧ x ∈ AssessmentEvaluationReport.cases r) as Hf.
  { intros m x Hm Hfx. destruct (by_mode_total m Hm) as (r & Hr & Hrin & <-).
    rewrite Forall_forall in Hreports.
    destruct (case_by_id_total r case (Hreports r Hrin) Hin) as (y & Hy & Hmode & Hs & Hyin & Hid).
    unfold f in Hfx. rewrite Hr in Hfx. simpl in Hfx. rewrite Hy in Hfx. injection Hfx as <-.
    split_and!; [done..|by exists r]. }
  clearbody f. clear Hxs. induction Hall as [|m x ms xs Hmx _ IH]; [split_and!; constructor|].
  destruct (Hf m x) as (Hm & Hs & Hr); [left|done|].
  destruct IH as (IH1 & IH2 & IH3); [intros; apply Hf; [by right|done]|].
  csimpl. rewrite IH1, Hm. split_and!; [done|by constructor..].
Qed.

Lemma report_of_in mode r : report_of reports mode = Some r → r ∈ reports.
Proof. unfold report_of. by intros [? _]%get_by_Some. Qed.

(** The scenario of a result. *)
Lemma result_case r x :
  runs_dataset r → x ∈ AssessmentEvaluationReport.cases r →
  ∃ case, case ∈ AssessmentEvaluationDataset.cases dataset ∧
    AssessmentCaseEvaluationResult.case_id x = AssessmentEvaluationCase.case_id case.
Proof.
  intros [_ Hc _] Hx. apply list_elem_of_lookup in Hx as [i Hi].
  destruct (Forall2_lookup_r _ _ _ _ _ Hc Hi) as (case & Hcase & Hr). exists case.
  split; [by eapply list_elem_of_lookup_2|]. by destruct Hr.
Qed.

Lemma tradeoffs_total best_by_case :
  (∀ case, case ∈ AssessmentEvaluationDataset.cases dataset →
     is_Some (dict_get best_by_case (AssessmentEvaluationCase.case_id case))) →
  ∃ statements, _derive_tradeoffs reports best_by_case = Ok statements.
Proof.
  intros Hbest. rewrite Forall_forall in Hreports. unfold _derive_tradeoffs.
  assert (∀ r, r ∈ reports → ∃ l, simple_ids best_by_case r = Ok l) as Hsimple.
  { intros r Hr. apply res_map_join_total. intros x Hx. destruct (mem _ _); [|by eexists].
    destruct (result_case r x (Hreports r Hr) Hx) as (case & Hin & ->).
    unfold best_of. destruct (Hbest case Hin) as [b ->]. by eexists. }
  assert (∀ r r', r ∈ reports → r' ∈ reports → ∃ l, unchanged_ids r r' = Ok l) as Hunch.
  { intros r r' Hr Hr'. apply res_map_join_total. intros x Hx. destruct (AssessmentCaseEvaluationResult.failed x); [by eexists|].
    destruct (result_case r x (Hreports r Hr) Hx) as (case & Hin & ->).
    destruct (case_by_id_total r' case (Hreports r' Hr') Hin) as (y & -> & _). by eexists. }
  assert (∃ l, match report_of reports AssessmentEvaluationMode.DETERMINISTIC with
               | Some r => simple_ids best_by_case r | None => Ok [] end = Ok l) as [simple Hs].
  { destruct (report_of reports _) eqn:Hd; [|by eexists]. by eapply Hsimple, report_of_in. }
  destruct (report_of reports AssessmentEvaluationMode.DETERMINISTIC) as [d|]; [rewrite Hs|];
    simpl; destruct (report_of reports AssessmentEvaluationMode.SINGLE_AGENT) as [s|] eqn:Hsi,
      (report_of reports AssessmentEvaluationMode.MULTI_AGENT) as [m|] eqn:Hmu; try (by eexists);
    destruct (Hunch s m) as [l ->]; try (by eapply report_of_in); by eexists.
Qed.

Lemma comparison_row_total name :
  ∃ row, comparison_row reports (comparison_modes reports) name = Ok row ∧
    AssessmentComparisonRow.metric row = name ∧
    fst <$> AssessmentComparisonRow.values row = comparison_modes reports ∧
    (∀ m v, (m, v) ∈ AssessmentComparisonRow.values row → ∃ r, r ∈ reports ∧
      AssessmentEvaluationReport.mode r = m ∧
      v = metric_value (AssessmentEvaluationReport.aggregate_metrics r) name).
Proof.
  unfold comparison_row. set (f := λ m, res_bind (by_mode reports m) _).
  destruct (res_map_total f (comparison_modes reports)) as (vs & -> & Hall).
  { intros m Hm. destruct (by_mode_total m Hm) as (r & Hr & _). unfold f. rewrite Hr. by eexists. }
  eexists. split; [done|]. split; [done|]. cbn [AssessmentComparisonRow.values].
  assert (∀ m mv, m ∈ comparison_modes reports → f m = Ok mv → mv.1 = m ∧ ∃ r, r ∈ reports ∧
    AssessmentEvaluationReport.mode r = m ∧
    mv.2 = metric_value (AssessmentEvaluationReport.aggregate_metrics r) name) as Hf.
  { intros m mv Hm Hfm. destruct (by_mode_total m Hm) as (r & Hr & Hin & Hmode).
    unfold f in Hfm. rewrite Hr in Hfm. injection Hfm as <-. split; [done|by exists r]. }
  clearbody f. induction Hall as [|m mv ms vs Hmv _ IH].
  { split; [done|]. by intros ? ? ?%elem_of_nil. }
  destruct (Hf m mv) as (Hm & Hr); [left|done|].
  destruct IH as [IH1 IH2]; [intros; apply Hf; [by right|done]|]. split.
  - csimpl. by rewrite IH1, Hm.
  - intros m' v [Heq|Hin]%elem_of_cons; [|by apply IH2]. subst mv. simpl in *. by subst.
Qed.

Lemma dict_get_fst {V} (d : list (pystr * V)) k : k ∈ fst <$> d → is_Some (dict_get d k).
Proof.
  unfold dict_get. induction d as [|[k' v] d IH]; csimpl; [by intros ?%elem_of_nil|].
  case_bool_decide as Hk; [by eexists|]. intros [Heq|Hin]%elem_of_cons; [by subst|]. by apply IH.
Qed.

(** What a comparison of the reports says. *)
Record compares (c : AssessmentModeComparison.t) : Prop := {
  cp_modes : ∀ m, m ∈ AssessmentModeComparison.modes c ↔ m ∈ AssessmentEvaluationReport.mode <$> reports;
  cp_rows : AssessmentComparisonRow.metric <$> AssessmentModeComparison.rows c = METRIC_NAMES;
  cp_values : ∀ row m v, row ∈ AssessmentModeComparison.rows c →
    (m, v) ∈ AssessmentComparisonRow.values row → ∃ r, r ∈ reports ∧
      AssessmentEvaluationReport.mode r = m ∧
      v = metric_value (AssessmentEvaluationReport.aggregate_metrics r) (AssessmentComparisonRow.metric row);
  cp_cases : fst <$> AssessmentModeComparison.best_mode_by_case c = merge_sort str_le ids;
  cp_best : ∀ id best, (id, best) ∈ AssessmentModeComparison.best_mode_by_case c →
    ∃ results, best = _pareto_modes results ∧
      AssessmentCaseEvaluationResult.mode <$> results = AssessmentModeComparison.modes c ∧
      Forall (λ x, AssessmentCaseEvaluationResult.case_id x = id ∧
        ∃ r, r ∈ reports ∧ x ∈ AssessmentEvaluationReport.cases r) results ∧
      (available_cases results ≠ [] → best ≠ [])
}.

Lemma same_set_refl {A} `{EqDecision A} (l : list A) : same_set l l = true.
Proof.
  unfold same_set, issubset. assert (forallb (λ x, mem x l) l = true) as ->; [|done].
  rewrite forallb_Forall, Forall_forall. intros x Hx. by apply mem_spec.
Qed.

Lemma best_rows_total :
  ∃ best, res_map (best_row reports (comparison_modes reports)) (merge_sort str_le ids) = Ok best ∧
    fst <$> best = merge_sort str_le ids ∧
    ∀ id b, (id, b) ∈ best → ∃ results, b = _pareto_modes results ∧
      AssessmentCaseEvaluationResult.mode <$> results = comparison_modes reports ∧
      Forall (λ x, AssessmentCaseEvaluationResult.case_id x = id ∧
        ∃ r, r ∈ reports ∧ x ∈ AssessmentEvaluationReport.cases r) results ∧
      (available_cases results ≠ [] → b ≠ []).
Proof.
  set (f := best_row reports (comparison_modes reports)).
  assert (∀ id, id ∈ merge_sort str_le ids → ∃ b, f id = Ok b ∧ b.1 = id ∧
    ∃ results, b.2 = _pareto_modes results ∧
      AssessmentCaseEvaluationResult.mode <$> results = comparison_modes reports ∧
      Forall (λ x, AssessmentCaseEvaluationResult.case_id x = id ∧
        ∃ r, r ∈ reports ∧ x ∈ AssessmentEvaluationReport.cases r) results ∧
      (available_cases results ≠ [] → b.2 ≠ [])) as Hf.
  { intros id Hid. apply elem_of_merge_sort, list_elem_of_fmap in Hid as (case & -> & Hin).
    destruct (best_row_total case Hin) as (results & Hbest & Hm & Hs & Hr).
    eexists. split; [done|]. split; [done|]. exists results. split_and!; try done.
    apply (pareto_frontier_nonempty case); [by apply dataset_case_valid|done|].
    rewrite Hm. apply NoDup_filter. apply NoDup_members. }
  destruct (res_map_total f (merge_sort str_le ids)) as (best & -> & Hall).
  { intros id Hid. destruct (Hf id Hid) as (b & ? & _). by exists b. }
  exists best. split; [done|]. clearbody f. revert Hf Hall. generalize (merge_sort str_le ids).
  intros l Hf Hall. induction Hall as [|id b l best Hb _ IH].
  { split; [done|]. by intros ? ? ?%elem_of_nil. }
  destruct (Hf id) as (b' & Hb' & Hid & Hres); [left|]. rewrite Hb in Hb'. injection Hb' as <-.
  destruct IH as [IH1 IH2]; [intros; apply Hf; by right|]. csimpl. rewrite IH1, Hid.
  split; [done|]. intros id' b0 [Heq|Hin]%elem_of_cons; [|by apply IH2].
  subst b. simpl in *. by subst.
Qed.
End comparison.

(** the reports of any runs over one valid dataset, in distinct modes, can be compared: no
    look-up fails, and only the clock can raise.  The comparison covers exactly the modes that
    were run; each row holds the aggregate of the mode it is filed under; every scenario of the
    dataset has one entry, the Pareto frontier of the results the reports hold for it, and the
    entry is not empty when some mode was evaluated on it. *)
Theorem comparison_total {S} (clock : M S datetime) dataset reports s :
  AssessmentEvaluationDataset.valid dataset = true → reports ≠ [] →
  Forall (runs_dataset dataset) reports → NoDup (AssessmentEvaluationReport.mode <$> reports) →
  wp (build_assessment_comparison clock reports) (λ _ r,
    match r with
    | Ok c => compares dataset reports c
    | Raise e => ∃ s', (clock s').2 = Raise e
    end) s.
Proof.
  intros Hvalid Hne Hruns Hmodes. unfold build_assessment_comparison.
  destruct reports as [|first rest] eqn:Hrep; [done|]. rewrite <- Hrep in *. clear Hne.
  assert (∀ r, r ∈ reports → case_ids r = AssessmentEvaluationCase.case_id <$>
    AssessmentEvaluationDataset.cases dataset) as Hids.
  { intros r Hr. rewrite Forall_forall in Hruns. by apply (report_ids dataset); [|apply Hruns]. }
  rewrite (remove_dups_constant (AssessmentEvaluationDataset.dataset_id dataset,
    AssessmentEvaluationDataset.version dataset)); [|by rewrite Hrep|].
  2: { apply Forall_fmap. eapply Forall_impl; [exact Hruns|]. intros r Hr. apply Hr. }
  rewrite (remove_dups_id (AssessmentEvaluationReport.mode <$> reports)) by done.
  rewrite length_fmap, !Nat.eqb_refl. cbn [length Nat.eqb negb].
  assert (first ∈ reports) as Hfirst by (rewrite Hrep; left).
  replace (existsb _ (tail reports)) with false.
  2: { symmetry. apply not_true_is_false. rewrite existsb_Exists, Exists_exists.
       intros (r & Hr & Hs). assert (r ∈ reports) by (rewrite Hrep in *; by right).
       by rewrite (Hids r), (Hids first), same_set_refl in Hs. }
  destruct (res_map_total (comparison_row reports (comparison_modes reports)) METRIC_NAMES)
    as (rows & Hrows & Hall).
  { intros name _. destruct (comparison_row_total reports Hmodes name) as (row & -> & _). by eexists. }
  destruct (best_rows_total dataset reports) as (best & Hbest & Hfst & Hentries); [done..|].
  destruct (tradeoffs_total dataset reports) with (best_by_case := best) as [statements Hst]; [done..| |].
  { intros case Hin. apply dict_get_fst. rewrite Hfst. apply elem_of_merge_sort.
    by apply list_elem_of_fmap_2. }
  rewrite (Hids first) by done. unfold wp, bind, of_res. rewrite Hrows, Hbest. cbn [fst snd].
  destruct (clock s) as [s' [now|e]] eqn:Hclock; [|simpl; exists s; by rewrite Hclock].
  rewrite Hst. cbn [fst snd ret].
  constructor; cbn [AssessmentModeComparison.modes AssessmentModeComparison.rows
    AssessmentModeComparison.best_mode_by_case].
  - intros m. unfold comparison_modes. rewrite list_elem_of_filter. split; [by intros []|].
    intros Hm. split; [done|]. destruct m; vm_compute; repeat constructor.
  - clear -Hall Hmodes. induction Hall as [|n row l rows Hr _ IH]; [done|]. csimpl. rewrite IH.
    destruct (comparison_row_total reports Hmodes n) as (row' & Hr' & <- & _).
    rewrite Hr in Hr'. by injection Hr' as ->.
  - intros row m v Hrow Hmv. apply list_elem_of_lookup in Hrow as [i Hi].
    destruct (Forall2_lookup_r _ _ _ _ _ Hall Hi) as (name & _ & Hr).
    destruct (comparison_row_total reports Hmodes name) as (row' & Hr' & <- & _ & Hv).
    rewrite Hr in Hr'. injection Hr' as ->. by apply Hv.
  - done.
  - done.
Qed.

(** ** The three modes of a scenario *)

Definition demo_result (mode : AssessmentEvaluationMode.t) : AssessmentCaseEvaluationResult.t :=
  determined execute_fixture mode demo_case.

Lemma demo_result_evaluated mode :
  evaluate_assessment demo_case (demo_output mode) =
    Ok (AssessmentCaseEvaluationResult.metrics (demo_result mode),
        observations_of demo_case (demo_output mode)).
Proof. destruct mode; vm_compute; reflexivity. Qed.

Lemma demo_of_scenario mode : of_scenario demo_case (demo_result mode).
Proof.
  intros _. exists (demo_output mode), (observations_of demo_case (demo_output mode)).
  split; [by destruct mode|]. split; [apply demo_countable|apply demo_result_evaluated].
Qed.

Lemma pareto_frontier_witness :
  AssessmentEvaluationMode.MULTI_AGENT ∈ _pareto_modes (demo_result <$> AssessmentEvaluationMode.members) ∧
  _pareto_modes (demo_result <$> AssessmentEvaluationMode.members) ≠ [].
Proof.
  split; [vm_compute; repeat constructor|].
  apply (pareto_frontier demo_case).
  - vm_compute. reflexivity.
  - by do 3 (constructor; [apply demo_of_scenario|]).
  - apply NoDup_members.
  - vm_compute. discriminate.
Defined.

Definition demo_report (mode : AssessmentEvaluationMode.t) : AssessmentEvaluationReport.t :=
  AssessmentEvaluationReport.mk (datetime_utc 0) "demo" "1" true mode 1 1 [] [] []
    (AssessmentCaseEvaluationResult.metrics (demo_result mode)) [demo_result mode]
    (demo_configuration false) 0 [] [].

Lemma demo_runs mode : runs_dataset demo_dataset (demo_report mode).
Proof.
  constructor; [done| |].
  - constructor; [|constructor]. by destruct mode.
  - constructor; [apply demo_of_scenario|constructor].
Qed.

Lemma comparison_total_witness :
  ∃ c, (build_assessment_comparison counting_clock (demo_report <$> AssessmentEvaluationMode.members) 0%Z).2
    = Ok c ∧ fst <$> AssessmentModeComparison.best_mode_by_case c = [lit "case-1"] ∧
    length (AssessmentModeComparison.rows c) = 13%nat.
Proof.
  pose proof (comparison_total counting_clock demo_dataset
    (demo_report <$> AssessmentEvaluationMode.members) 0%Z) as H. unfold wp in H.
  destruct (build_assessment_comparison _ _ 0%Z) as [s' [c|e]] eqn:Hc; simpl in H.
  - exists c. split; [done|]. destruct H as [_ Hrows _ Hcases _].
    + vm_compute. reflexivity.
    + discriminate.
    + by do 3 (constructor; [apply demo_runs|]).
    + apply NoDup_members.
    + split; [rewrite Hcases; vm_compute; reflexivity|].
      rewrite <- (length_fmap AssessmentComparisonRow.metric), Hrows. reflexivity.
  - exfalso. vm_compute in Hc. discriminate Hc.
Defined.

(** For arbitrary scores domination can turn in a circle, and the frontier is empty: what the
    evaluators guarantee about missing scores is needed. *)
Definition circle_result (mode : AssessmentEvaluationMode.t) (control governance architecture : option pyfloat) :
    AssessmentCaseEvaluationResult.t :=
  AssessmentCaseEvaluationResult.mk "case-1" AssessmentScenarioCategory.CUSTOMER_SERVICE_PII mode
    false None (no_metrics <| AssessmentQualityMetrics.control_coverage := control |>
      <| AssessmentQualityMetrics.governance_coverage := governance |>
      <| AssessmentQualityMetrics.architecture_fit_score := architecture |>) None None.

Example circle_without_frontier :
  _pareto_modes
    [circle_result AssessmentEvaluationMode.DETERMINISTIC (Some f64_one) None (Some f64_zero);
     circle_result AssessmentEvaluationMode.SINGLE_AGENT (Some f64_zero) (Some f64_one) None;
     circle_result AssessmentEvaluationMode.MULTI_AGENT None (Some f64_zero) (Some f64_one)] = [].
Proof. vm_compute. reflexivity. Qed.
