(* ===== verification/RetrievalBenchmark.v ===== *)
(** The data of the retrieval benchmark: app/evaluation/models.py, the corpus with its graph,
    the queries with their ground truth and fixtures, and the results of an evaluation.

    Entity names are compared by their case folding, which the Unicode database defines, so
    the validator of a data set is in a section with it. *)
From S2P Require Import Prelude PyFloat Errors Domain Unicode Counting AssessmentBenchmark.

Module EvaluationMode.
Inductive t := VECTOR | GRAPH | HYBRID.
Definition value (x : t) : pystr :=
  match x with
  | VECTOR => "vector"
  | GRAPH => "graph"
  | HYBRID => "hybrid"
  end.
Definition members : list t := [VECTOR; GRAPH; HYBRID].
#[export] Instance eq_dec : EqDecision t.
Proof. solve_decision. Defined.
End EvaluationMode.
#[export] Existing Instance EvaluationMode.eq_dec.

Module EvaluationQueryType.
Inductive t := SEMANTIC_FACTUAL | POLICY_LOOKUP | MULTI_DOCUMENT | RELATIONSHIP_IMPACT_CHAIN |
    MULTI_HOP_RELATIONSHIP | NEGATIVE_NO_ANSWER.
Definition value (x : t) : pystr :=
  match x with
  | SEMANTIC_FACTUAL => "semantic_factual"
  | POLICY_LOOKUP => "policy_lookup"
  | MULTI_DOCUMENT => "multi_document"
  | RELATIONSHIP_IMPACT_CHAIN => "relationship_impact_chain"
  | MULTI_HOP_RELATIONSHIP => "multi_hop_relationship"
  | NEGATIVE_NO_ANSWER => "negative_no_answer"
  end.
Definition members : list t := [SEMANTIC_FACTUAL; POLICY_LOOKUP; MULTI_DOCUMENT;
    RELATIONSHIP_IMPACT_CHAIN; MULTI_HOP_RELATIONSHIP; NEGATIVE_NO_ANSWER].
#[export] Instance eq_dec : EqDecision t.
Proof. solve_decision. Defined.
End EvaluationQueryType.
#[export] Existing Instance EvaluationQueryType.eq_dec.

(** ** Corpus, ground truth and fixtures *)

Module BenchmarkDocument.
Record t := mk {
  document_id : uuid;
  chunk_id : uuid;
  title : pystr;
  content : pystr
}.
#[export] Instance eta : Eta t := λ r, mk (document_id r) (chunk_id r) (title r) (content r).
(** The constraints pydantic enforces on an instance. *)
Definition valid (r : t) : bool :=
  len_in 1 300 (title r) &&
  len_ge 1 (content r).
End BenchmarkDocument.
#[export] Existing Instance BenchmarkDocument.eta.

Module BenchmarkEntity.
Record t := mk {
  entity_id : uuid;
  canonical_name : pystr;
  entity_type : KnowledgeEntityType.t
}.
#[export] Instance eta : Eta t := λ r, mk (entity_id r) (canonical_name r) (entity_type r).
(** The constraints pydantic enforces on an instance. *)
Definition valid (r : t) : bool :=
  len_in 1 500 (canonical_name r).
End BenchmarkEntity.
#[export] Existing Instance BenchmarkEntity.eta.

Module ExpectedRelationship.
Record t := mk {
  source_entity : pystr;
  relationship_type : KnowledgeRelationshipType.t;
  target_entity : pystr
}.
#[export] Instance eta : Eta t := λ r, mk (source_entity r) (relationship_type r) (target_entity
    r).
(** The constraints pydantic enforces on an instance. *)
Definition valid (r : t) : bool :=
  len_in 1 500 (source_entity r) &&
  len_in 1 500 (target_entity r).
End ExpectedRelationship.
#[export] Existing Instance ExpectedRelationship.eta.

Module BenchmarkRelationship.
Record t := mk {
  source_entity : pystr;
  relationship_type : KnowledgeRelationshipType.t;
  target_entity : pystr;
  relationship_id : uuid;
  source_document_id : uuid;
  source_chunk_id : uuid
}.
#[export] Instance eta : Eta t := λ r, mk (source_entity r) (relationship_type r) (target_entity
    r) (relationship_id r) (source_document_id r) (source_chunk_id r).
(** The constraints pydantic enforces on an instance. *)
Definition valid (r : t) : bool :=
  len_in 1 500 (source_entity r) &&
  len_in 1 500 (target_entity r).
End BenchmarkRelationship.
#[export] Existing Instance BenchmarkRelationship.eta.

Module ExpectedGraphPath.
Record t := mk {
  relationships : list ExpectedRelationship.t
}.
#[export] Instance eta : Eta t := λ r, mk (relationships r).
(** The constraints pydantic enforces on an instance. *)
Definition valid (r : t) : bool :=
  len_ge 1 (relationships r) &&
  forallb (λ v, ExpectedRelationship.valid v) (relationships r).
End ExpectedGraphPath.
#[export] Existing Instance ExpectedGraphPath.eta.

Module EvaluationExpectedEvidence.
Record t := mk {
  document_ids : list uuid;
  chunk_ids : list uuid;
  entities : list pystr;
  relationships : list ExpectedRelationship.t;
  paths : list ExpectedGraphPath.t
}.
#[export] Instance eta : Eta t := λ r, mk (document_ids r) (chunk_ids r) (entities r)
    (relationships r) (paths r).
(** The constraints pydantic enforces on an instance. *)
Definition valid (r : t) : bool :=
  forallb (λ v, ExpectedRelationship.valid v) (relationships r) &&
  forallb (λ v, ExpectedGraphPath.valid v) (paths r).
End EvaluationExpectedEvidence.
#[export] Existing Instance EvaluationExpectedEvidence.eta.

Module FixtureGraphResult.
Record t := mk {
  matched_entity_ids : list uuid;
  related_entity_ids : list uuid;
  relationship_ids : list uuid;
  evidence_chunk_ids : list uuid;
  depth_used : Z
}.
#[export] Instance eta : Eta t := λ r, mk (matched_entity_ids r) (related_entity_ids r)
    (relationship_ids r) (evidence_chunk_ids r) (depth_used r).
(** The constraints pydantic enforces on an instance. *)
Definition valid (r : t) : bool :=
  Z.leb 0%Z (depth_used r) &&
  Z.leb (depth_used r) 5%Z.
End FixtureGraphResult.
#[export] Existing Instance FixtureGraphResult.eta.

Module FixtureRetrievalResult.
Record t := mk {
  vector_chunk_ids : list uuid;
  graph : FixtureGraphResult.t
}.
#[export] Instance eta : Eta t := λ r, mk (vector_chunk_ids r) (graph r).
(** The constraints pydantic enforces on an instance. *)
Definition valid (r : t) : bool :=
  FixtureGraphResult.valid (graph r).
End FixtureRetrievalResult.
#[export] Existing Instance FixtureRetrievalResult.eta.

Module EvaluationCase.
Record t := mk {
  query_id : pystr;
  query : pystr;
  query_type : EvaluationQueryType.t;
  modes : list EvaluationMode.t;
  expected : EvaluationExpectedEvidence.t;
  fixture : FixtureRetrievalResult.t;
  notes : option pystr
}.
#[export] Instance eta : Eta t := λ r, mk (query_id r) (query r) (query_type r) (modes r)
    (expected r) (fixture r) (notes r).
(** The constraints pydantic enforces on an instance. *)
Definition valid (r : t) : bool :=
  identifier_pattern (query_id r) &&
  len_in 1 4000 (query r) &&
  len_ge 1 (modes r) &&
  EvaluationExpectedEvidence.valid (expected r) &&
  FixtureRetrievalResult.valid (fixture r) &&
  opt_all (λ v, len_le 1000 v) (notes r).
End EvaluationCase.
#[export] Existing Instance EvaluationCase.eta.

(** ** The data set *)

Module EvaluationDataset.
Record t := mk {
  dataset_id : pystr;
  version : pystr;
  description : pystr;
  synthetic : bool;
  documents : list BenchmarkDocument.t;
  entities : list BenchmarkEntity.t;
  relationships : list BenchmarkRelationship.t;
  cases : list EvaluationCase.t
}.
#[export] Instance eta : Eta t := λ r, mk (dataset_id r) (version r) (description r) (synthetic
    r) (documents r) (entities r) (relationships r) (cases r).
(** The constraints pydantic enforces on an instance. *)
Definition valid (r : t) : bool :=
  len_in 1 100 (dataset_id r) &&
  len_in 1 30 (version r) &&
  len_in 1 1000 (description r) &&
  len_ge 1 (documents r) &&
  forallb (λ v, BenchmarkDocument.valid v) (documents r) &&
  forallb (λ v, BenchmarkEntity.valid v) (entities r) &&
  forallb (λ v, BenchmarkRelationship.valid v) (relationships r) &&
  len_ge 1 (cases r) &&
  forallb (λ v, EvaluationCase.valid v) (cases r).
End EvaluationDataset.
#[export] Existing Instance EvaluationDataset.eta.

Section integrity.
Context {udb : UnicodeDB}.

(** [ExpectedRelationship.key], also of the benchmark's edges. *)
Definition key (r : ExpectedRelationship.t) : pystr * KnowledgeRelationshipType.t * pystr :=
  (casefold (ExpectedRelationship.source_entity r), ExpectedRelationship.relationship_type r,
   casefold (ExpectedRelationship.target_entity r)).
Definition as_expected (r : BenchmarkRelationship.t) : ExpectedRelationship.t :=
  ExpectedRelationship.mk (BenchmarkRelationship.source_entity r)
    (BenchmarkRelationship.relationship_type r) (BenchmarkRelationship.target_entity r).

(** The names the corpus defines, and the documents by identifier and by chunk. *)
Definition entity_names (d : EvaluationDataset.t) : list pystr :=
  (λ e, casefold (BenchmarkEntity.canonical_name e)) <$> EvaluationDataset.entities d.
Definition document_by_id (d : EvaluationDataset.t) : uuid → option BenchmarkDocument.t :=
  get_by BenchmarkDocument.document_id
    (dict_by BenchmarkDocument.document_id (EvaluationDataset.documents d)).
Definition document_by_chunk (d : EvaluationDataset.t) : uuid → option BenchmarkDocument.t :=
  get_by BenchmarkDocument.chunk_id
    (dict_by BenchmarkDocument.chunk_id (EvaluationDataset.documents d)).
Definition entity_by_id (d : EvaluationDataset.t) : uuid → option BenchmarkEntity.t :=
  get_by BenchmarkEntity.entity_id
    (dict_by BenchmarkEntity.entity_id (EvaluationDataset.entities d)).
Definition relationship_by_id (d : EvaluationDataset.t) : uuid → option BenchmarkRelationship.t :=
  get_by BenchmarkRelationship.relationship_id
    (dict_by BenchmarkRelationship.relationship_id (EvaluationDataset.relationships d)).

(** The loop over the relationships. *)
Definition relationship_sound (d : EvaluationDataset.t) (r : BenchmarkRelationship.t) : bool :=
  mem (casefold (BenchmarkRelationship.source_entity r)) (entity_names d) &&
  mem (casefold (BenchmarkRelationship.target_entity r)) (entity_names d) &&
  match document_by_id d (BenchmarkRelationship.source_document_id r),
        document_by_chunk d (BenchmarkRelationship.source_chunk_id r) with
  | Some document, Some chunk =>
      bool_decide (BenchmarkDocument.document_id chunk = BenchmarkDocument.document_id document)
  | _, _ => false
  end.

Definition graph_query_types : list EvaluationQueryType.t :=
  [EvaluationQueryType.RELATIONSHIP_IMPACT_CHAIN; EvaluationQueryType.MULTI_HOP_RELATIONSHIP].

(** What the loop over the cases checks of the ground truth of one, and of its fixture. *)
Definition expected_sound (d : EvaluationDataset.t) (case : EvaluationCase.t) : bool :=
  let expected := EvaluationCase.expected case in
  let document_ids := EvaluationExpectedEvidence.document_ids expected in
  let chunk_ids := EvaluationExpectedEvidence.chunk_ids expected in
  let entities := EvaluationExpectedEvidence.entities expected in
  let relationships := key <$> EvaluationExpectedEvidence.relationships expected in
  _require_unique document_ids && _require_unique chunk_ids &&
  _require_unique (casefold <$> entities) && _require_unique relationships &&
  forallb (λ i, is_not_none (document_by_id d i)) document_ids &&
  forallb (λ i, is_not_none (document_by_chunk d i)) chunk_ids &&
  negb (truthy document_ids && truthy chunk_ids &&
        existsb (λ i, match document_by_chunk d i with
                      | Some chunk => negb (mem (BenchmarkDocument.document_id chunk) document_ids)
                      | None => false
                      end) chunk_ids) &&
  forallb (λ name, mem (casefold name) (entity_names d)) entities &&
  forallb (λ k, mem k ((λ r, key (as_expected r)) <$> EvaluationDataset.relationships d)) relationships &&
  negb (mem (EvaluationCase.query_type case) graph_query_types &&
        (negb (truthy entities) || negb (truthy relationships))) &&
  negb (bool_decide (EvaluationCase.query_type case = EvaluationQueryType.NEGATIVE_NO_ANSWER) &&
        (truthy document_ids || truthy chunk_ids || truthy entities || truthy relationships)) &&
  forallb (λ path, forallb (λ step, mem (key step) relationships) (ExpectedGraphPath.relationships path))
    (EvaluationExpectedEvidence.paths expected).

Definition fixture_sound (d : EvaluationDataset.t) (fixture : FixtureRetrievalResult.t) : bool :=
  let graph := FixtureRetrievalResult.graph fixture in
  forallb (λ i, is_not_none (document_by_chunk d i)) (FixtureRetrievalResult.vector_chunk_ids fixture) &&
  forallb (λ i, is_not_none (entity_by_id d i))
    (FixtureGraphResult.matched_entity_ids graph ++ FixtureGraphResult.related_entity_ids graph) &&
  forallb (λ i, is_not_none (relationship_by_id d i)) (FixtureGraphResult.relationship_ids graph) &&
  forallb (λ i, is_not_none (document_by_chunk d i)) (FixtureGraphResult.evidence_chunk_ids graph) &&
  forallb (λ i, match relationship_by_id d i with
                | Some r => mem (BenchmarkRelationship.source_chunk_id r)
                              (FixtureGraphResult.evidence_chunk_ids graph)
                | None => false
                end) (FixtureGraphResult.relationship_ids graph).

Definition validate_integrity (d : EvaluationDataset.t) : bool :=
  _require_unique (BenchmarkDocument.document_id <$> EvaluationDataset.documents d) &&
  _require_unique (BenchmarkDocument.chunk_id <$> EvaluationDataset.documents d) &&
  _require_unique (BenchmarkEntity.entity_id <$> EvaluationDataset.entities d) &&
  _require_unique (entity_names d) &&
  _require_unique (BenchmarkRelationship.relationship_id <$> EvaluationDataset.relationships d) &&
  _require_unique ((λ r, key (as_expected r)) <$> EvaluationDataset.relationships d) &&
  _require_unique (EvaluationCase.query_id <$> EvaluationDataset.cases d) &&
  forallb (relationship_sound d) (EvaluationDataset.relationships d) &&
  forallb (λ case, expected_sound d case && fixture_sound d (EvaluationCase.fixture case))
    (EvaluationDataset.cases d).

(** A data set the constructor accepts. *)
Definition dataset_valid (d : EvaluationDataset.t) : bool :=
  EvaluationDataset.valid d && validate_integrity d.
End integrity.

(** ** Results *)

Module RetrievalMetrics.
Record t := mk {
  hit_rate_at_k : option pyfloat;
  precision_at_k : option pyfloat;
  recall_at_k : option pyfloat;
  mrr : option pyfloat;
  false_positive_rate : option pyfloat
}.
#[export] Instance eta : Eta t := λ r, mk (hit_rate_at_k r) (precision_at_k r) (recall_at_k r)
    (mrr r) (false_positive_rate r).
(** The constraints pydantic enforces on an instance. *)
Definition valid (r : t) : bool :=
  opt_all (λ v, fleb (float_of_Z 0%Z) v && fleb v (float_of_Z 1%Z)) (hit_rate_at_k r) &&
  opt_all (λ v, fleb (float_of_Z 0%Z) v && fleb v (float_of_Z 1%Z)) (precision_at_k r) &&
  opt_all (λ v, fleb (float_of_Z 0%Z) v && fleb v (float_of_Z 1%Z)) (recall_at_k r) &&
  opt_all (λ v, fleb (float_of_Z 0%Z) v && fleb v (float_of_Z 1%Z)) (mrr r) &&
  opt_all (λ v, fleb (float_of_Z 0%Z) v && fleb v (float_of_Z 1%Z)) (false_positive_rate r).
Definition construct (r : t) : res t :=
  if valid r then Ok r else Raise ValidationError.
End RetrievalMetrics.
#[export] Existing Instance RetrievalMetrics.eta.

Module GraphMetrics.
Record t := mk {
  entity_hit_rate : option pyfloat;
  relationship_hit_rate : option pyfloat;
  path_success : option pyfloat;
  provenance_coverage : option pyfloat
}.
#[export] Instance eta : Eta t := λ r, mk (entity_hit_rate r) (relationship_hit_rate r)
    (path_success r) (provenance_coverage r).
(** The constraints pydantic enforces on an instance. *)
Definition valid (r : t) : bool :=
  opt_all (λ v, fleb (float_of_Z 0%Z) v && fleb v (float_of_Z 1%Z)) (entity_hit_rate r) &&
  opt_all (λ v, fleb (float_of_Z 0%Z) v && fleb v (float_of_Z 1%Z)) (relationship_hit_rate r) &&
  opt_all (λ v, fleb (float_of_Z 0%Z) v && fleb v (float_of_Z 1%Z)) (path_success r) &&
  opt_all (λ v, fleb (float_of_Z 0%Z) v && fleb v (float_of_Z 1%Z)) (provenance_coverage r).
Definition construct (r : t) : res t :=
  if valid r then Ok r else Raise ValidationError.
End GraphMetrics.
#[export] Existing Instance GraphMetrics.eta.

Module EvidenceObservation.
Record t := mk {
  document_id : uuid;
  chunk_id : uuid;
  title : pystr;
  retrieval_origin : RetrievalSource.t
}.
#[export] Instance eta : Eta t := λ r, mk (document_id r) (chunk_id r) (title r)
    (retrieval_origin r).
End EvidenceObservation.
#[export] Existing Instance EvidenceObservation.eta.

Module RelationshipObservation.
Record t := mk {
  source_entity : pystr;
  relationship_type : KnowledgeRelationshipType.t;
  target_entity : pystr;
  source_document_id : uuid;
  source_chunk_id : uuid
}.
#[export] Instance eta : Eta t := λ r, mk (source_entity r) (relationship_type r) (target_entity
    r) (source_document_id r) (source_chunk_id r).
(** The constraints pydantic enforces on an instance. *)
Definition valid (r : t) : bool :=
  len_in 1 500 (source_entity r) &&
  len_in 1 500 (target_entity r).
Definition construct (r : t) : res t :=
  if valid r then Ok r else Raise ValidationError.
End RelationshipObservation.
#[export] Existing Instance RelationshipObservation.eta.

Module CaseEvaluationResult.
Record t := mk {
  query_id : pystr;
  query_type : EvaluationQueryType.t;
  skipped : bool;
  skip_reason : option pystr;
  retrieved_evidence : list EvidenceObservation.t;
  retrieved_entities : list pystr;
  retrieved_relationships : list RelationshipObservation.t;
  retrieval_metrics : RetrievalMetrics.t;
  graph_metrics : GraphMetrics.t;
  evidence_origin_mix : list (RetrievalSource.t * Z);
  warnings : list pystr
}.
#[export] Instance eta : Eta t := λ r, mk (query_id r) (query_type r) (skipped r) (skip_reason r)
    (retrieved_evidence r) (retrieved_entities r) (retrieved_relationships r) (retrieval_metrics
    r) (graph_metrics r) (evidence_origin_mix r) (warnings r).
(** The constraints pydantic enforces on an instance. *)
Definition valid (r : t) : bool :=
  forallb (λ v, RelationshipObservation.valid v) (retrieved_relationships r) &&
  RetrievalMetrics.valid (retrieval_metrics r) &&
  GraphMetrics.valid (graph_metrics r).
End CaseEvaluationResult.
#[export] Existing Instance CaseEvaluationResult.eta.

Module EvaluationConfiguration.
Record t := mk {
  embedding_model : pystr;
  embedding_dimensions : Z;
  top_k : Z;
  similarity_threshold : pyfloat;
  chunk_size : Z;
  chunk_overlap : Z;
  graph_max_depth : Z;
  graph_min_confidence : pyfloat;
  graph_max_entities : Z
}.
#[export] Instance eta : Eta t := λ r, mk (embedding_model r) (embedding_dimensions r) (top_k r)
    (similarity_threshold r) (chunk_size r) (chunk_overlap r) (graph_max_depth r)
    (graph_min_confidence r) (graph_max_entities r).
(** The constraints pydantic enforces on an instance. *)
Definition valid (r : t) : bool :=
  Z.leb 1%Z (embedding_dimensions r) &&
  Z.leb 1%Z (top_k r) &&
  fleb (float_of_Z (-1)%Z) (similarity_threshold r) &&
  fleb (similarity_threshold r) (float_of_Z 1%Z) &&
  Z.leb 1%Z (chunk_size r) &&
  Z.leb 0%Z (chunk_overlap r) &&
  Z.leb 1%Z (graph_max_depth r) &&
  Z.leb (graph_max_depth r) 5%Z &&
  fleb (float_of_Z 0%Z) (graph_min_confidence r) &&
  fleb (graph_min_confidence r) (float_of_Z 1%Z) &&
  Z.leb 1%Z (graph_max_entities r).
Definition construct (r : t) : res t :=
  if valid r then Ok r else Raise ValidationError.
End EvaluationConfiguration.
#[export] Existing Instance EvaluationConfiguration.eta.

Module AggregateMetrics.
Record t := mk {
  retrieval : RetrievalMetrics.t;
  graph : GraphMetrics.t;
  evidence_origin_mix : list (RetrievalSource.t * Z)
}.
#[export] Instance eta : Eta t := λ r, mk (retrieval r) (graph r) (evidence_origin_mix r).
(** The constraints pydantic enforces on an instance. *)
Definition valid (r : t) : bool :=
  RetrievalMetrics.valid (retrieval r) &&
  GraphMetrics.valid (graph r).
End AggregateMetrics.
#[export] Existing Instance AggregateMetrics.eta.

Module EvaluationReport.
Record t := mk {
  generated_at : datetime;
  execution_profile : pystr;
  evaluation_mode : EvaluationMode.t;
  dataset_id : pystr;
  dataset_version : pystr;
  synthetic : bool;
  total_cases : Z;
  evaluated_cases : Z;
  skipped_cases : list pystr;
  configuration : EvaluationConfiguration.t;
  cases : list CaseEvaluationResult.t;
  aggregate_metrics : AggregateMetrics.t;
  warnings : list pystr
}.
#[export] Instance eta : Eta t := λ r, mk (generated_at r) (execution_profile r) (evaluation_mode
    r) (dataset_id r) (dataset_version r) (synthetic r) (total_cases r) (evaluated_cases r)
    (skipped_cases r) (configuration r) (cases r) (aggregate_metrics r) (warnings r).
(** The constraints pydantic enforces on an instance. *)
Definition valid (r : t) : bool :=
  Z.leb 1%Z (total_cases r) &&
  Z.leb 0%Z (evaluated_cases r) &&
  EvaluationConfiguration.valid (configuration r) &&
  forallb (λ v, CaseEvaluationResult.valid v) (cases r) &&
  AggregateMetrics.valid (aggregate_metrics r).
End EvaluationReport.
#[export] Existing Instance EvaluationReport.eta.

Module ComparisonMetricRow.
Record t := mk {
  metric : pystr;
  values : list (EvaluationMode.t * (option pyfloat))
}.
#[export] Instance eta : Eta t := λ r, mk (metric r) (values r).
End ComparisonMetricRow.
#[export] Existing Instance ComparisonMetricRow.eta.

Module EvaluationComparison.
Record t := mk {
  generated_at : datetime;
  dataset_id : pystr;
  dataset_version : pystr;
  synthetic : bool;
  modes : list EvaluationMode.t;
  rows : list ComparisonMetricRow.t;
  warnings : list pystr
}.
#[export] Instance eta : Eta t := λ r, mk (generated_at r) (dataset_id r) (dataset_version r)
    (synthetic r) (modes r) (rows r) (warnings r).
End EvaluationComparison.
#[export] Existing Instance EvaluationComparison.eta.
