(* ===== verification/RetrievalEvaluation.v ===== *)
(** app/evaluation/metrics.py, fixtures.py and runner.py: the ranked-retrieval and graph
    metrics, the services that answer from the fixtures of a data set, and the runner that
    evaluates every query of a data set in one retrieval mode.

    The runner's three services and its clock are arguments, effectful computations over any
    state; [fixture_runner] is the runner over the fixtures, whose hybrid path is the
    [hybrid_of] of KnowledgeRetrieval.v. *)
From S2P Require Import Prelude PyFloat Errors Domain AgentModels Schemas PyText Unicode Session.
From S2P Require Import Storage Repositories Tools KnowledgeStore KnowledgeRepositories.
From S2P Require Import KnowledgeExtraction KnowledgeRetrieval Settings FloatRatio Counting.
From S2P Require Import AssessmentBenchmark RetrievalBenchmark.

(** ** metrics.py *)

(** [_deduplicate_evidence]: the first item of each chunk. *)
Definition _deduplicate_evidence (evidence : list RetrievedEvidence.t) : list RetrievedEvidence.t :=
  fold_left (keyed_setdefault RetrievedEvidence.chunk_id) evidence [].

(** The rank of the first relevant item, counted from [rank]. *)
Fixpoint first_rank_from (rank : Z) (expected_ids retrieved_ids : list uuid) : option Z :=
  match retrieved_ids with
  | [] => None
  | item :: rest =>
      if mem item expected_ids then Some rank else first_rank_from (rank + 1) expected_ids rest
  end.

Definition no_retrieval_metrics : RetrievalMetrics.t := RetrievalMetrics.mk None None None None None.

Definition calculate_retrieval_metrics (evidence : list RetrievedEvidence.t)
    (expected : EvaluationExpectedEvidence.t) (k : Z) (negative : bool) : res RetrievalMetrics.t :=
  if Z.ltb k 1 then Raise ValueError else
  let ranked := _deduplicate_evidence (slice_to k evidence) in
  if negative then
    RetrievalMetrics.construct
      (RetrievalMetrics.mk None None None None (Some (float_of_bool (truthy ranked))))
  else
    let chunk_ids := remove_dups (EvaluationExpectedEvidence.chunk_ids expected) in
    let use_chunks := truthy chunk_ids in
    let expected_ids :=
      if use_chunks then chunk_ids
      else remove_dups (EvaluationExpectedEvidence.document_ids expected) in
    if negb (truthy expected_ids) then RetrievalMetrics.construct no_retrieval_metrics
    else
      let retrieved_ids :=
        (λ item, if use_chunks then RetrievedEvidence.chunk_id item
                 else RetrievedEvidence.document_id item) <$> ranked in
      let relevant := length (filter (λ i, i ∈ expected_ids) retrieved_ids) in
      let first_rank := first_rank_from 1 expected_ids retrieved_ids in
      RetrievalMetrics.construct (RetrievalMetrics.mk
        (Some (float_of_bool (negb (Nat.eqb relevant 0))))
        (Some (int_ratio (Z.of_nat relevant) k))
        (Some (int_ratio (Z.of_nat relevant) (Z.of_nat (length expected_ids))))
        (Some (match first_rank with None => f64_zero | Some r => int_ratio 1 r end))
        None).

Definition add_count (counts : list (RetrievalSource.t * Z)) (entry : RetrievalSource.t * Z) :
    list (RetrievalSource.t * Z) :=
  keyed_set fst counts (entry.1, (default 0 (snd <$> get_by fst counts entry.1) + entry.2)%Z).

Definition evidence_origin_mix (evidence : list RetrievedEvidence.t) : list (RetrievalSource.t * Z) :=
  fold_left (λ counts item, add_count counts (RetrievedEvidence.retrieval_source item, 1%Z))
    (_deduplicate_evidence evidence) [].

Section graph_metrics.
Context {udb : UnicodeDB}.

(** The names and the edges of a neighborhood. *)
Definition found_entities (n : GraphNeighborhood.t) : list pystr :=
  (λ e, casefold (GraphEntityResult.canonical_name e)) <$>
    (GraphNeighborhood.matched_entities n ++ GraphNeighborhood.related_entities n).
Definition edge_key (r : GraphRelationshipResult.t) : pystr * KnowledgeRelationshipType.t * pystr :=
  (casefold (GraphRelationshipResult.source_entity_name r),
   GraphRelationshipResult.relationship_type r,
   casefold (GraphRelationshipResult.target_entity_name r)).
Definition found_relationships (n : GraphNeighborhood.t) :
    list (pystr * KnowledgeRelationshipType.t * pystr) :=
  edge_key <$> GraphNeighborhood.relationships n.

(** The expected paths found within the depth used. *)
Definition path_found (n : GraphNeighborhood.t) (path : ExpectedGraphPath.t) : bool :=
  Z.leb (Z.of_nat (length (ExpectedGraphPath.relationships path))) (GraphNeighborhood.depth_used n) &&
  forallb (λ step, mem (key step) (found_relationships n)) (ExpectedGraphPath.relationships path).

(** The checks that an item of evidence, or an edge, is one of the corpus. *)
Definition evidence_traced (corpus : list BenchmarkDocument.t) (item : RetrievedEvidence.t) : bool :=
  match get_by BenchmarkDocument.chunk_id (dict_by BenchmarkDocument.chunk_id corpus)
          (RetrievedEvidence.chunk_id item) with
  | Some source =>
      bool_decide (BenchmarkDocument.document_id source = RetrievedEvidence.document_id item) &&
      bool_decide (BenchmarkDocument.title source = RetrievedEvidence.document_title item)
  | None => false
  end.
Definition edge_traced (benchmark : list BenchmarkRelationship.t) (item : GraphRelationshipResult.t) :
    bool :=
  match get_by (λ r, key (as_expected r)) (dict_by (λ r, key (as_expected r)) benchmark)
          (edge_key item) with
  | Some source =>
      bool_decide (BenchmarkRelationship.source_chunk_id source =
                   GraphRelationshipResult.source_chunk_id item) &&
      bool_decide (BenchmarkRelationship.source_document_id source =
                   GraphRelationshipResult.source_document_id item)
  | None => false
  end.

Definition calculate_graph_metrics (neighborhood : option GraphNeighborhood.t)
    (evidence : list RetrievedEvidence.t) (expected : EvaluationExpectedEvidence.t)
    (corpus : list BenchmarkDocument.t) (benchmark_relationships : list BenchmarkRelationship.t) :
    res GraphMetrics.t :=
  let expected_entities := casefold <$> EvaluationExpectedEvidence.entities expected in
  let expected_relationships := key <$> EvaluationExpectedEvidence.relationships expected in
  let share {A} `{EqDecision A} (found expected : list A) :=
    py_div_opt (length (set_and found expected)) (length (remove_dups expected)) in
  res_bind (match neighborhood with
            | Some n => share (found_entities n) expected_entities
            | None => Ok None
            end) (λ entity_hit_rate,
  res_bind (match neighborhood with
            | Some n => share (found_relationships n) expected_relationships
            | None => Ok None
            end) (λ relationship_hit_rate,
  res_bind (match neighborhood with
            | Some n =>
                let paths := EvaluationExpectedEvidence.paths expected in
                py_div_opt (length (filter (λ p, path_found n p = true) paths)) (length paths)
            | None => Ok None
            end) (λ path_success,
  let relationships := match neighborhood with
                       | Some n => GraphNeighborhood.relationships n | None => [] end in
  let traceability_checks :=
    (evidence_traced corpus <$> _deduplicate_evidence evidence) ++
    (edge_traced benchmark_relationships <$> relationships) in
  res_bind (py_div_opt (length (filter Is_true traceability_checks)) (length traceability_checks))
    (λ provenance_coverage,
  GraphMetrics.construct (GraphMetrics.mk entity_hit_rate relationship_hit_rate path_success
    provenance_coverage))))).
End graph_metrics.

Definition aggregate_case_results (results : list CaseEvaluationResult.t) : res AggregateMetrics.t :=
  let evaluated := filter (λ r, CaseEvaluationResult.skipped r = false) results in
  let origins := fold_left (λ counts r,
    fold_left add_count (CaseEvaluationResult.evidence_origin_mix r) counts) evaluated [] in
  let retrieval p := average ((λ r, p (CaseEvaluationResult.retrieval_metrics r)) <$> evaluated) in
  let graph p := average ((λ r, p (CaseEvaluationResult.graph_metrics r)) <$> evaluated) in
  res_bind (RetrievalMetrics.construct (RetrievalMetrics.mk
    (retrieval RetrievalMetrics.hit_rate_at_k) (retrieval RetrievalMetrics.precision_at_k)
    (retrieval RetrievalMetrics.recall_at_k) (retrieval RetrievalMetrics.mrr)
    (retrieval RetrievalMetrics.false_positive_rate))) (λ retrieval_metrics,
  res_bind (GraphMetrics.construct (GraphMetrics.mk
    (graph GraphMetrics.entity_hit_rate) (graph GraphMetrics.relationship_hit_rate)
    (graph GraphMetrics.path_success) (graph GraphMetrics.provenance_coverage))) (λ graph_metrics,
  Ok (AggregateMetrics.mk retrieval_metrics graph_metrics origins))).

(** ** fixtures.py *)

Section fixtures.
Context {udb : UnicodeDB} (dataset : EvaluationDataset.t).

(** [self._cases.get(query)]: of the cases with one query, the last. *)
Definition case_of_query (query : pystr) : option EvaluationCase.t :=
  get_by EvaluationCase.query (dict_by EvaluationCase.query (EvaluationDataset.cases dataset)) query.

Definition or_key_error {A} (o : option A) : res A :=
  match o with Some a => Ok a | None => Raise KeyError end.

(** [max(0.0, 1.0 - (rank - 1) * 0.05)]. *)
Definition fixture_score (rank : Z) : pyfloat :=
  let x := fsub f64_one (fmul (float_of_Z (rank - 1)) (fdiv f64_one (float_of_Z 20))) in
  if fltb f64_zero x then x else f64_zero.

Definition _evidence (document : BenchmarkDocument.t) (rank : Z) (origin : RetrievalSource.t) :
    RetrievedEvidence.t :=
  RetrievedEvidence.mk (BenchmarkDocument.chunk_id document) (BenchmarkDocument.document_id document)
    (BenchmarkDocument.title document) (BenchmarkDocument.content document)
    (match origin with RetrievalSource.VECTOR => Some (fixture_score rank) | _ => None end)
    KnowledgeSourceType.SYNTHETIC
    [(lit "synthetic", PBool true); (lit "benchmark_rank", PInt rank)] origin.

(** [[_evidence(self._documents[i], rank, origin) for rank, i in enumerate(ids, start=1)]]. *)
Definition fixture_evidence (origin : RetrievalSource.t) (chunk_ids : list uuid) :
    res (list RetrievedEvidence.t) :=
  res_map (λ ranked : Z * uuid,
    res_bind (or_key_error (document_by_chunk dataset ranked.2)) (λ document,
    Ok (_evidence document ranked.1 origin))) (enumerate_from_1 pair chunk_ids).

(** [DeterministicVectorRetrieval.search]. *)
Definition vector_fixture (query : pystr) (top_k : option Z) : res (list RetrievedEvidence.t) :=
  match case_of_query query with
  | None => Ok []
  | Some case =>
      let ids := FixtureRetrievalResult.vector_chunk_ids (EvaluationCase.fixture case) in
      fixture_evidence RetrievalSource.VECTOR
        (slice_to (or_default top_k (Z.of_nat (length ids))) ids)
  end.

(** The first entity of exactly this name. *)
Definition entity_named (name : pystr) : res BenchmarkEntity.t :=
  match py_next (λ e, bool_decide (BenchmarkEntity.canonical_name e = name))
          (dict_by BenchmarkEntity.entity_id (EvaluationDataset.entities dataset)) with
  | Some e => Ok e
  | None => Raise (OtherException "StopIteration")
  end.

Definition fixture_relationship (relationship_id : uuid) : res GraphRelationshipResult.t :=
  res_bind (or_key_error (relationship_by_id dataset relationship_id)) (λ item,
  res_bind (entity_named (BenchmarkRelationship.source_entity item)) (λ source,
  res_bind (entity_named (BenchmarkRelationship.target_entity item)) (λ target,
  GraphRelationshipResult.construct (GraphRelationshipResult.mk
    (BenchmarkRelationship.relationship_id item)
    (BenchmarkEntity.entity_id source) (BenchmarkEntity.canonical_name source)
    (BenchmarkEntity.entity_id target) (BenchmarkEntity.canonical_name target)
    (BenchmarkRelationship.relationship_type item) None f64_one
    (BenchmarkRelationship.source_document_id item) (BenchmarkRelationship.source_chunk_id item))))).

(** [DeterministicGraphRetrieval._entity]. *)
Definition _entity (entity_id : uuid) : res GraphEntityResult.t :=
  res_bind (or_key_error (entity_by_id dataset entity_id)) (λ item,
  Ok (GraphEntityResult.mk (BenchmarkEntity.entity_id item) (BenchmarkEntity.entity_type item)
    (BenchmarkEntity.canonical_name item) (casefold (BenchmarkEntity.canonical_name item)) None)).

(** [DeterministicGraphRetrieval.search]. *)
Definition graph_fixture (query : pystr) (max_depth : option Z) : res GraphNeighborhood.t :=
  match case_of_query query with
  | None => empty_neighborhood query
  | Some case =>
      let fixture := FixtureRetrievalResult.graph (EvaluationCase.fixture case) in
      let depth := FixtureGraphResult.depth_used fixture in
      if match max_depth with Some d => Z.ltb d depth | None => false end
      then empty_neighborhood query
      else
        res_bind (fixture_evidence RetrievalSource.GRAPH
                    (FixtureGraphResult.evidence_chunk_ids fixture)) (λ evidence,
        res_bind (res_map fixture_relationship (FixtureGraphResult.relationship_ids fixture))
          (λ relationships,
        res_bind (res_map _entity (FixtureGraphResult.matched_entity_ids fixture)) (λ matched,
        res_bind (res_map _entity (FixtureGraphResult.related_entity_ids fixture)) (λ related,
        GraphNeighborhood.construct (GraphNeighborhood.mk query matched related relationships
          (dict_fromkeys (RetrievedEvidence.document_id <$> evidence))
          (dict_fromkeys (RetrievedEvidence.chunk_id <$> evidence)) depth evidence)))))
  end.
End fixtures.

(** ** runner.py *)

Section runner.
Context {udb : UnicodeDB} {S : Type} (dataset : EvaluationDataset.t).
Context (vector : pystr → option Z → M S (list RetrievedEvidence.t)).
Context (graph : pystr → option Z → M S GraphNeighborhood.t).
Context (hybrid : pystr → option Z → option Z → M S HybridRetrievalResult.t).
Context (clock : M S datetime) (configuration : EvaluationConfiguration.t).
Context (execution_profile : pystr).

Definition _observation (item : RetrievedEvidence.t) : EvidenceObservation.t :=
  EvidenceObservation.mk (RetrievedEvidence.document_id item) (RetrievedEvidence.chunk_id item)
    (RetrievedEvidence.document_title item) (RetrievedEvidence.retrieval_source item).

Definition relationship_observation (item : GraphRelationshipResult.t) :
    res RelationshipObservation.t :=
  RelationshipObservation.construct (RelationshipObservation.mk
    (GraphRelationshipResult.source_entity_name item) (GraphRelationshipResult.relationship_type item)
    (GraphRelationshipResult.target_entity_name item)
    (GraphRelationshipResult.source_document_id item) (GraphRelationshipResult.source_chunk_id item)).

Definition skipped_result (case : EvaluationCase.t) (mode : EvaluationMode.t) : CaseEvaluationResult.t :=
  CaseEvaluationResult.mk (EvaluationCase.query_id case) (EvaluationCase.query_type case) true
    (Some (EvaluationMode.value mode ++ lit " mode is not applicable to this benchmark case"))
    [] [] [] no_retrieval_metrics (GraphMetrics.mk None None None None) [] [].

(** The evidence and the neighborhood of one mode. *)
Definition retrieve (case : EvaluationCase.t) (mode : EvaluationMode.t) :
    M S (list RetrievedEvidence.t * option GraphNeighborhood.t) :=
  let top_k := Some (EvaluationConfiguration.top_k configuration) in
  let max_depth := Some (EvaluationConfiguration.graph_max_depth configuration) in
  match mode with
  | EvaluationMode.VECTOR =>
      let* evidence := vector (EvaluationCase.query case) top_k in ret (evidence, None)
  | EvaluationMode.GRAPH =>
      let* neighborhood := graph (EvaluationCase.query case) max_depth in
      ret (GraphNeighborhood.evidence neighborhood, Some neighborhood)
  | EvaluationMode.HYBRID =>
      let* result := hybrid (EvaluationCase.query case) top_k max_depth in
      ret (HybridRetrievalResult.evidence result, Some (HybridRetrievalResult.neighborhood result))
  end.

(** The result of a case whose retrieval answered. *)
Definition measure (case : EvaluationCase.t) (evidence : list RetrievedEvidence.t)
    (neighborhood : option GraphNeighborhood.t) : res CaseEvaluationResult.t :=
  let negative :=
    bool_decide (EvaluationCase.query_type case = EvaluationQueryType.NEGATIVE_NO_ANSWER) in
  res_bind (calculate_retrieval_metrics evidence (EvaluationCase.expected case)
              (EvaluationConfiguration.top_k configuration) negative) (λ retrieval_metrics,
  res_bind (calculate_graph_metrics neighborhood evidence (EvaluationCase.expected case)
              (EvaluationDataset.documents dataset) (EvaluationDataset.relationships dataset))
    (λ graph_metrics,
  res_bind (match neighborhood with
            | None => Ok []
            | Some n => res_map relationship_observation (GraphNeighborhood.relationships n)
            end) (λ retrieved_relationships,
  Ok (CaseEvaluationResult.mk (EvaluationCase.query_id case) (EvaluationCase.query_type case)
    false None (_observation <$> evidence)
    (match neighborhood with
     | None => []
     | Some n => GraphEntityResult.canonical_name <$>
         (GraphNeighborhood.matched_entities n ++ GraphNeighborhood.related_entities n)
     end)
    retrieved_relationships retrieval_metrics graph_metrics (evidence_origin_mix evidence) [])))).

Definition _run_case (case : EvaluationCase.t) (mode : EvaluationMode.t) : M S CaseEvaluationResult.t :=
  if mem mode (EvaluationCase.modes case) then
    let* found := retrieve case mode in
    of_res (measure case found.1 found.2)
  else ret (skipped_result case mode).

(** [[self._run_case(case, mode) for case in cases]]. *)
Fixpoint _run_cases (cases : list EvaluationCase.t) (mode : EvaluationMode.t) :
    M S (list CaseEvaluationResult.t) :=
  match cases with
  | [] => ret []
  | case :: rest =>
      let* result := _run_case case mode in
      let* results := _run_cases rest mode in
      ret (result :: results)
  end.

(** The constructor of the report, which does not validate its parts again. *)
Definition build_report (r : EvaluationReport.t) : res EvaluationReport.t :=
  if Z.leb 1 (EvaluationReport.total_cases r) && Z.leb 0 (EvaluationReport.evaluated_cases r)
  then Ok r else Raise ValidationError.

Definition run_mode (mode : EvaluationMode.t) : M S EvaluationReport.t :=
  let* results := _run_cases (EvaluationDataset.cases dataset) mode in
  let skipped := CaseEvaluationResult.query_id <$>
    filter (λ r, CaseEvaluationResult.skipped r = true) results in
  let* generated_at := clock in
  let* aggregate := of_res (aggregate_case_results results) in
  of_res (build_report (EvaluationReport.mk generated_at execution_profile mode
    (EvaluationDataset.dataset_id dataset) (EvaluationDataset.version dataset)
    (EvaluationDataset.synthetic dataset) (Z.of_nat (length results))
    (Z.of_nat (length results) - Z.of_nat (length skipped)) skipped configuration results aggregate
    [lit "Synthetic deterministic fixture results; not live retrieval-quality metrics.";
     lit "Live OpenAI/PostgreSQL evaluation was not requested and was skipped."])).
End runner.

(** [configuration_from_settings]. *)
Definition configuration_from_settings (settings : Settings.t) : res EvaluationConfiguration.t :=
  EvaluationConfiguration.construct (EvaluationConfiguration.mk
    (Settings.embedding_model settings) (Settings.openai_embedding_dimension settings)
    (Settings.rag_retrieval_top_k settings) (Settings.rag_similarity_threshold settings)
    (Settings.rag_chunk_size settings) (Settings.rag_chunk_overlap settings)
    (Settings.graph_max_depth settings) (Settings.graph_min_confidence settings)
    (Settings.graph_max_entities settings)).

(** [build_deterministic_runner(dataset, settings).run(mode)]. *)
Section fixture_runner.
Context {udb : UnicodeDB} {S : Type} (dataset : EvaluationDataset.t) (clock : M S datetime).

Definition fixture_vector (query : pystr) (top_k : option Z) : M S (list RetrievedEvidence.t) :=
  of_res (vector_fixture dataset query top_k).
Definition fixture_graph (query : pystr) (max_depth : option Z) : M S GraphNeighborhood.t :=
  of_res (graph_fixture dataset query max_depth).
Definition fixture_hybrid (query : pystr) (top_k max_depth : option Z) : M S HybridRetrievalResult.t :=
  hybrid_of (fixture_vector query top_k) (fixture_graph query max_depth) query.

Definition fixture_runner (settings : Settings.t) (mode : EvaluationMode.t) : M S EvaluationReport.t :=
  let* configuration := of_res (configuration_from_settings settings) in
  run_mode dataset fixture_vector fixture_graph fixture_hybrid clock configuration
    "deterministic_fixture" mode.
End fixture_runner.
