(* ===== verification/RetrievalMetricTheorems.v ===== *)
(** The retrieval metrics: what each score says of the ranked evidence, when a score cannot be
    given, and that merging the graph's evidence never lowers a score. *)
From S2P Require Import Prelude PyFloat Errors Domain AgentModels Schemas PyText Unicode Session.
From S2P Require Import Storage Repositories Tools KnowledgeStore KnowledgeRepositories.
From S2P Require Import KnowledgeExtraction KnowledgeRetrieval FloatOrder FloatRatio Counting.
From S2P Require Import RetrievalTheorems RetrievalBenchmark RetrievalEvaluation.

Abbreviation chunk := RetrievedEvidence.chunk_id.
Abbreviation evidence_list := (list RetrievedEvidence.t).

(** ** Deduplication *)

Lemma deduplicate_NoDup (l : evidence_list) : NoDup (chunk <$> _deduplicate_evidence l).
Proof. apply keyed_setdefault_NoDup. constructor. Qed.

Lemma deduplicate_subset (l : evidence_list) e : e ∈ _deduplicate_evidence l → e ∈ l.
Proof. intros [H|H]%keyed_setdefault_elem; [by apply elem_of_nil in H|done]. Qed.

Lemma deduplicate_chunks (l : evidence_list) c :
  c ∈ chunk <$> _deduplicate_evidence l ↔ c ∈ chunk <$> l.
Proof.
  split.
  - rewrite !list_elem_of_fmap. intros (e & -> & He%deduplicate_subset). eauto.
  - intros Hc. by apply (keyed_setdefault_keys chunk []).
Qed.

Lemma deduplicate_app (l l' : evidence_list) :
  _deduplicate_evidence l `prefix_of` _deduplicate_evidence (l ++ l').
Proof. unfold _deduplicate_evidence. rewrite fold_left_app. apply keyed_setdefault_prefix. Qed.

Lemma setdefault_fresh (l l' : evidence_list) :
  NoDup (chunk <$> l ++ l') → fold_left (keyed_setdefault chunk) l' l = l ++ l'.
Proof.
  revert l; induction l' as [|e l' IH]; intros l Hn; simpl; [by rewrite app_nil_r|].
  rewrite fmap_app in Hn. unfold keyed_setdefault at 2. rewrite decide_False.
  - rewrite IH by (by rewrite <- app_assoc, fmap_app). by rewrite <- app_assoc.
  - apply NoDup_app in Hn as (_ & Hd & _). intros Hin. apply (Hd _ Hin). csimpl. left.
Qed.

Lemma deduplicate_id (l : evidence_list) : NoDup (chunk <$> l) → _deduplicate_evidence l = l.
Proof. apply (setdefault_fresh []). Qed.

Lemma deduplicate_nil (l : evidence_list) : truthy (_deduplicate_evidence l) = truthy l.
Proof.
  destruct l as [|e l]; [done|]. destruct (deduplicate_app [e] l) as [post H]. simpl app in H.
  by rewrite H.
Qed.

Lemma length_deduplicate (l : evidence_list) : (length (_deduplicate_evidence l) ≤ length l)%nat.
Proof.
  rewrite <- (length_fmap chunk), <- (length_fmap chunk l). apply submseteq_length.
  apply NoDup_submseteq; [apply deduplicate_NoDup|]. intros c. apply deduplicate_chunks.
Qed.

(** ** What is relevant *)

(** The identifiers the ground truth asks for: chunks, or else documents. *)
Definition by_chunk (expected : EvaluationExpectedEvidence.t) : bool :=
  truthy (remove_dups (EvaluationExpectedEvidence.chunk_ids expected)).
Definition wanted (expected : EvaluationExpectedEvidence.t) : list uuid :=
  if by_chunk expected then remove_dups (EvaluationExpectedEvidence.chunk_ids expected)
  else remove_dups (EvaluationExpectedEvidence.document_ids expected).
Definition identity (expected : EvaluationExpectedEvidence.t) (e : RetrievedEvidence.t) : uuid :=
  if by_chunk expected then chunk e else RetrievedEvidence.document_id e.
Definition relevant (expected : EvaluationExpectedEvidence.t) (e : RetrievedEvidence.t) : Prop :=
  identity expected e ∈ wanted expected.
#[export] Instance relevant_dec expected e : Decision (relevant expected e).
Proof. unfold relevant. apply _. Defined.

(** The distinct chunks among the first [k] items, and the relevant ones of them. *)
Definition top (k : Z) (l : evidence_list) : evidence_list := _deduplicate_evidence (slice_to k l).
Definition hits (expected : EvaluationExpectedEvidence.t) (ranked : evidence_list) : nat :=
  length (filter (relevant expected) ranked).

(** The scores of a ranking: whether, how often and how early it is right. *)
Record ranking_scores (expected : EvaluationExpectedEvidence.t) (k : Z) (ranked : evidence_list)
    (m : RetrievalMetrics.t) : Prop := {
  rs_hit : RetrievalMetrics.hit_rate_at_k m =
    Some (if decide (Exists (relevant expected) ranked) then f64_one else f64_zero);
  rs_precision : RetrievalMetrics.precision_at_k m =
    Some (int_ratio (Z.of_nat (hits expected ranked)) k);
  rs_precise : share (hits expected ranked) (Z.to_nat k)
    (int_ratio (Z.of_nat (hits expected ranked)) k);
  rs_recall : RetrievalMetrics.recall_at_k m =
    Some (int_ratio (Z.of_nat (hits expected ranked)) (Z.of_nat (length (wanted expected))));
  rs_recalled : share (hits expected ranked) (length (wanted expected))
    (int_ratio (Z.of_nat (hits expected ranked)) (Z.of_nat (length (wanted expected))));
  rs_mrr : RetrievalMetrics.mrr m =
    Some (match list_find (relevant expected) ranked with
          | Some (i, _) => int_ratio 1 (Z.of_nat i + 1)
          | None => f64_zero
          end);
  rs_unit : RetrievalMetrics.valid m = true;
  rs_false : RetrievalMetrics.false_positive_rate m = None
}.

Lemma retrieved_hits expected ranked :
  length (filter (λ i, i ∈ wanted expected) (identity expected <$> ranked)) = hits expected ranked.
Proof.
  unfold hits. induction ranked as [|e l IH]; [done|]. csimpl.
  destruct (decide (relevant expected e)) as [Hr|Hr].
  - by rewrite !filter_cons_True by done; simpl; rewrite IH.
  - by rewrite !filter_cons_False by done.
Qed.

Lemma first_rank_find expected ranked r :
  first_rank_from r (wanted expected) (identity expected <$> ranked) =
  (λ ie, (Z.of_nat ie.1 + r)%Z) <$> list_find (relevant expected) ranked.
Proof.
  revert r; induction ranked as [|e l IH]; intros r; [done|]. csimpl.
  unfold relevant at 1. unfold mem. case_bool_decide as Hm; [by rewrite decide_True|].
  rewrite decide_False by done. rewrite IH. destruct (list_find _ l) as [[i x]|]; [|done].
  simpl. f_equal. lia.
Qed.

Lemma hits_zero expected ranked : hits expected ranked = O ↔ ¬ Exists (relevant expected) ranked.
Proof.
  unfold hits. rewrite length_zero_iff_nil, Exists_exists. split.
  - intros Hf (e & He & Hr). assert (e ∈ filter (relevant expected) ranked) as Hin
      by (by apply list_elem_of_filter). rewrite Hf in Hin. by apply elem_of_nil in Hin.
  - intros Hno. destruct (filter _ ranked) as [|e l] eqn:Hf; [done|]. destruct Hno. exists e.
    assert (e ∈ filter (relevant expected) ranked) as He by (rewrite Hf; left).
    apply list_elem_of_filter in He. tauto.
Qed.

Lemma hits_le expected ranked : (hits expected ranked ≤ length ranked)%nat.
Proof. apply length_filter. Qed.

Lemma slice_to_take {A} k (l : list A) : (0 ≤ k)%Z → slice_to k l = take (Z.to_nat k) l.
Proof. intros Hk. unfold slice_to. by rewrite (proj2 (Z.leb_le 0 k)). Qed.

Lemma length_top k l : (0 ≤ k)%Z → (length (top k l) ≤ Z.to_nat k)%nat.
Proof.
  intros Hk. unfold top. etrans; [apply length_deduplicate|].
  rewrite slice_to_take, length_take by done. lia.
Qed.

(** In a ranking of distinct chunks, those asked for by chunk are counted at most once. *)
Lemma hits_by_chunk expected l :
  by_chunk expected = true → NoDup (chunk <$> l) → (hits expected l ≤ length (wanted expected))%nat.
Proof.
  intros Hby Hn. unfold hits. rewrite <- (length_fmap chunk). apply submseteq_length.
  apply NoDup_submseteq; [eapply sublist_NoDup; [exact Hn|apply fmap_sublist, sublist_filter]|].
  intros c (e & -> & He)%list_elem_of_fmap. apply list_elem_of_filter in He as [He _].
  unfold relevant, identity in He. by rewrite Hby in He.
Qed.

(** ** The scores *)

Lemma construct_retrieval m :
  RetrievalMetrics.construct m = if RetrievalMetrics.valid m then Ok m else Raise ValidationError.
Proof. done. Qed.

Lemma mrr_unit expected l :
  (Z.of_nat (length l) < 2 ^ 53)%Z →
  unit_score (match list_find (relevant expected) l with
              | Some (i, _) => int_ratio 1 (Z.of_nat i + 1) | None => f64_zero end) = true.
Proof.
  intros Hl. destruct (list_find _ l) as [[i e]|] eqn:Hf; [|done].
  apply list_find_Some in Hf as (Hi & _). apply lookup_lt_Some in Hi.
  apply ratio_score; lia.
Qed.

Lemma wanted_empty expected : truthy (wanted expected) = false → by_chunk expected = false.
Proof. unfold wanted. destruct (by_chunk expected) eqn:Hb; [|done]. unfold by_chunk in Hb. congruence. Qed.

(** The ranking's scores once the two quotients are shares. *)
Lemma scores_measured expected k l :
  (1 ≤ k < 2 ^ 52)%Z → small (length (wanted expected)) → truthy (wanted expected) = true →
  let ranked := top k l in
  let m := RetrievalMetrics.mk
    (Some (if decide (Exists (relevant expected) ranked) then f64_one else f64_zero))
    (Some (int_ratio (Z.of_nat (hits expected ranked)) k))
    (Some (int_ratio (Z.of_nat (hits expected ranked)) (Z.of_nat (length (wanted expected)))))
    (Some (match list_find (relevant expected) ranked with
           | Some (i, _) => int_ratio 1 (Z.of_nat i + 1) | None => f64_zero end)) None in
  if decide (hits expected ranked ≤ length (wanted expected))%nat
  then ranking_scores expected k ranked m else RetrievalMetrics.valid m = false.
Proof.
  intros Hk Hs Hw ranked m.
  assert (0 < length (wanted expected))%nat as Hpos by (destruct (wanted expected); simpl; [done|lia]).
  pose proof (hits_le expected ranked) as Hh. pose proof (length_top k l ltac:(lia)) as Ht. fold ranked in Ht.
  destruct (ratio_score (Z.of_nat (hits expected ranked)) k) as (P1 & P2 & P3); [lia..|].
  assert (unit_score (if decide (Exists (relevant expected) ranked) then f64_one else f64_zero) = true)
    as Hhit by (by case_decide).
  pose proof (mrr_unit expected ranked ltac:(lia)) as Hmrr. unfold small in Hs.
  destruct (decide (hits expected ranked ≤ length (wanted expected))%nat) as [Hle|Hle].
  - destruct (ratio_score (Z.of_nat (hits expected ranked)) (Z.of_nat (length (wanted expected))))
      as (R1 & R2 & R3); [lia..|].
    constructor; try done.
    + constructor; [done|rewrite P2; lia|rewrite P3; lia].
    + constructor; [done|rewrite R2; lia|rewrite R3; lia].
    + unfold unit_score in *. unfold RetrievalMetrics.valid. subst m. cbn [opt_all RetrievalMetrics.hit_rate_at_k
        RetrievalMetrics.precision_at_k RetrievalMetrics.recall_at_k RetrievalMetrics.mrr
        RetrievalMetrics.false_positive_rate].
      change (float_of_Z 0) with f64_zero. change (float_of_Z 1) with f64_one.
      by rewrite Hhit, P1, R1, Hmrr.
  - unfold RetrievalMetrics.valid. subst m. cbn [opt_all RetrievalMetrics.hit_rate_at_k
      RetrievalMetrics.precision_at_k RetrievalMetrics.recall_at_k].
    change (float_of_Z 0) with f64_zero. change (float_of_Z 1) with f64_one.
    pose proof (ratio_above (Z.of_nat (hits expected ranked)) (Z.of_nat (length (wanted expected)))
      ltac:(lia) ltac:(lia)) as Hab. unfold unit_score in Hab. rewrite Hab. by rewrite !andb_false_r.
Qed.

Lemma retrieval_scores evidence expected k negative :
  (1 ≤ k < 2 ^ 52)%Z → small (length (wanted expected)) →
  match calculate_retrieval_metrics evidence expected k negative with
  | Ok m =>
      if negative then
        m = RetrievalMetrics.mk None None None None (Some (if truthy evidence then f64_one else f64_zero))
      else if truthy (wanted expected) then ranking_scores expected k (top k evidence) m
      else m = no_retrieval_metrics
  | Raise e =>
      e = ValidationError ∧ negative = false ∧ EvaluationExpectedEvidence.chunk_ids expected = [] ∧
      (length (wanted expected) < hits expected (top k evidence))%nat
  end.
Proof.
  intros Hk Hs. unfold calculate_retrieval_metrics. rewrite (proj2 (Z.ltb_ge k 1)) by lia.
  fold (top k evidence). destruct negative.
  { assert (truthy (top k evidence) = truthy evidence) as ->.
    { unfold top. rewrite deduplicate_nil. rewrite slice_to_take by lia.
      destruct evidence, (Z.to_nat k) eqn:?; [done|done|lia|done]. }
    by destruct (truthy evidence). }
  cbv zeta. fold (by_chunk expected). fold (wanted expected).
  change (λ item, if by_chunk expected then chunk item else RetrievedEvidence.document_id item)
    with (identity expected).
  destruct (truthy (wanted expected)) eqn:Hw; simpl negb; cbv iota; [|done].
  rewrite retrieved_hits, first_rank_find, construct_retrieval.
  pose proof (scores_measured expected k evidence Hk Hs Hw) as H. cbv zeta in H.
  match goal with |- context [RetrievalMetrics.valid ?x] =>
    match type of H with context [RetrievalMetrics.valid ?y] =>
      assert (x = y) as -> end end.
  { f_equal; [|]; f_equal.
    - pose proof (hits_zero expected (top k evidence)) as Hz.
      destruct (decide (Exists (relevant expected) (top k evidence))) as [He|He].
      + destruct (hits expected (top k evidence)); [by destruct (proj1 Hz eq_refl)|done].
      + by rewrite (proj2 Hz He).
    - by destruct (list_find _ _) as [[]|]. }
  destruct (decide (hits expected (top k evidence) ≤ length (wanted expected))%nat) as [Hle|Hle].
  - by rewrite (rs_unit _ _ _ _ H).
  - rewrite H. split_and!; [done|done| |lia].
    destruct (by_chunk expected) eqn:Hb.
    + destruct Hle. apply hits_by_chunk; [done|apply deduplicate_NoDup].
    + unfold by_chunk in Hb. rewrite remove_dups_nonempty in Hb.
      by destruct (EvaluationExpectedEvidence.chunk_ids expected).
Qed.

(** C39: the retrieval metrics are exact.  For a case without an answer the false-positive rate
    is 1 exactly when anything was retrieved.  Otherwise the scores are those of the distinct
    chunks among the first [k]: the hit rate is 1 exactly when one is relevant; precision and
    recall are numbers between 0 and 1 that are 1 exactly when the relevant chunks fill all [k]
    places, or are as many as the expected ones, and 0 exactly when there is none; the
    reciprocal rank is that of the first relevant one.  A ground truth without identifiers
    gives no score.  The call fails in one situation: evidence is expected by document only
    and more relevant chunks than expected documents are among the first [k], which makes a
    recall above 1 that the result model refuses. *)
Theorem retrieval_metrics_exact evidence expected k negative :
  (1 ≤ k < 2 ^ 52)%Z → small (length (wanted expected)) →
  match calculate_retrieval_metrics evidence expected k negative with
  | Ok m =>
      if negative then
        m = RetrievalMetrics.mk None None None None (Some (if truthy evidence then f64_one else f64_zero))
      else if truthy (wanted expected) then ranking_scores expected k (top k evidence) m
      else m = no_retrieval_metrics
  | Raise e =>
      e = ValidationError ∧ negative = false ∧ EvaluationExpectedEvidence.chunk_ids expected = [] ∧
      (length (wanted expected) < hits expected (top k evidence))%nat
  end.
Proof. apply retrieval_scores. Qed.

(** ** Vector and hybrid retrieval *)

(** [y] is at least [x], and missing exactly when [x] is. *)
Definition no_lower (x y : option pyfloat) : Prop :=
  match x, y with
  | Some a, Some b => fleb a b = true
  | None, None => True
  | _, _ => False
  end.

Record not_worse (m m' : RetrievalMetrics.t) : Prop := {
  nw_hit : no_lower (RetrievalMetrics.hit_rate_at_k m) (RetrievalMetrics.hit_rate_at_k m');
  nw_precision : no_lower (RetrievalMetrics.precision_at_k m) (RetrievalMetrics.precision_at_k m');
  nw_recall : no_lower (RetrievalMetrics.recall_at_k m) (RetrievalMetrics.recall_at_k m');
  nw_mrr : no_lower (RetrievalMetrics.mrr m) (RetrievalMetrics.mrr m')
}.

(** The ranking [l] stays in front when the graph's chunks are added to it. *)
Lemma top_merged k v g :
  (1 ≤ k)%Z → NoDup (chunk <$> v) → NoDup (chunk <$> g) → (length v ≤ Z.to_nat k)%nat →
  ∃ f post, top k (merge_evidence v g) = (f <$> v) ++ post ∧
    ∀ e, chunk (f e) = chunk e ∧ RetrievedEvidence.document_id (f e) = RetrievedEvidence.document_id e.
Proof.
  intros Hk Hv Hg Hl. rewrite merge_evidence_reference by done. unfold merged_reference.
  set (f := λ i, with_source _ i). set (rest := with_source RetrievalSource.GRAPH <$> _).
  exists f. unfold top. rewrite slice_to_take by lia.
  rewrite take_app_ge by (by rewrite length_fmap).
  destruct (deduplicate_app (f <$> v) (take (Z.to_nat k - length (f <$> v)) rest)) as [post Hp].
  exists post. rewrite Hp, deduplicate_id; [done|]. rewrite <- list_fmap_compose. exact Hv.
Qed.

Lemma top_short k v : (1 ≤ k)%Z → NoDup (chunk <$> v) → (length v ≤ Z.to_nat k)%nat → top k v = v.
Proof. intros Hk Hv Hl. unfold top. rewrite slice_to_take, take_ge by lia. by apply deduplicate_id. Qed.

Section same_items.
Context (expected : EvaluationExpectedEvidence.t) (f : RetrievedEvidence.t → RetrievedEvidence.t).
Context (Hf : ∀ e, chunk (f e) = chunk e ∧
                   RetrievedEvidence.document_id (f e) = RetrievedEvidence.document_id e).

Lemma relevant_same e : relevant expected (f e) ↔ relevant expected e.
Proof. unfold relevant, identity. destruct (Hf e) as [-> ->]. done. Qed.

Lemma hits_same l : hits expected (f <$> l) = hits expected l.
Proof.
  unfold hits. induction l as [|e l IH]; [done|]. csimpl.
  destruct (decide (relevant expected e)) as [Hr|Hr].
  - rewrite !filter_cons_True by (by rewrite ?relevant_same). simpl. by rewrite IH.
  - by rewrite !filter_cons_False by (by rewrite ?relevant_same).
Qed.

Lemma Exists_same l : Exists (relevant expected) l → Exists (relevant expected) (f <$> l).
Proof.
  rewrite !Exists_exists. intros (e & He & Hr). exists (f e).
  split; [by apply list_elem_of_fmap_2|by apply relevant_same].
Qed.

Lemma find_same l post i e :
  list_find (relevant expected) l = Some (i, e) →
  list_find (relevant expected) ((f <$> l) ++ post) = Some (i, f e).
Proof.
  rewrite !list_find_Some. intros (Hi & Hr & Hno). split_and!.
  - rewrite lookup_app_l, list_lookup_fmap; [by rewrite Hi|].
    rewrite length_fmap. by apply lookup_lt_Some in Hi.
  - by apply relevant_same.
  - intros j e' Hj Hlt. apply lookup_lt_Some in Hi as Hlen.
    rewrite lookup_app_l in Hj by (rewrite length_fmap; lia). rewrite list_lookup_fmap in Hj.
    destruct (l !! j) as [e0|] eqn:Hl; [|done]. injection Hj as <-. rewrite relevant_same.
    by apply (Hno j).
Qed.

Lemma hits_app l post : (hits expected l ≤ hits expected ((f <$> l) ++ post))%nat.
Proof. unfold hits at 2. rewrite filter_app, length_app. fold (hits expected (f <$> l)). rewrite hits_same. lia. Qed.
End same_items.

(** Scores of two rankings, the second an extension of the first. *)
Lemma scores_extend expected k l f post m m' :
  (1 ≤ k < 2 ^ 52)%Z → small (length (wanted expected)) → truthy (wanted expected) = true →
  (∀ e, chunk (f e) = chunk e ∧
        RetrievedEvidence.document_id (f e) = RetrievedEvidence.document_id e) →
  (length ((f <$> l) ++ post) ≤ Z.to_nat k)%nat →
  ranking_scores expected k l m → ranking_scores expected k ((f <$> l) ++ post) m' →
  not_worse m m'.
Proof.
  intros Hk Hs Hw Hf Hlen Hm Hm'. unfold small in Hs.
  pose proof (hits_app expected f Hf l post) as Hle.
  pose proof (hits_le expected ((f <$> l) ++ post)) as Hh.
  assert (0 < length (wanted expected))%nat as Hpos by (destruct (wanted expected); simpl; [done|lia]).
  constructor.
  - rewrite (rs_hit _ _ _ _ Hm), (rs_hit _ _ _ _ Hm'). simpl.
    destruct (decide (Exists (relevant expected) l)) as [He|_]; [|by case_decide].
    rewrite decide_True; [done|]. apply Exists_app. left. by apply Exists_same.
  - rewrite (rs_precision _ _ _ _ Hm), (rs_precision _ _ _ _ Hm'). apply ratio_mono; lia.
  - rewrite (rs_recall _ _ _ _ Hm), (rs_recall _ _ _ _ Hm'). apply ratio_mono; try lia.
    pose proof (rs_recalled _ _ _ _ Hm') as [Hu _ _].
    destruct (Z.le_gt_cases (Z.of_nat (hits expected ((f <$> l) ++ post)))
                (Z.of_nat (length (wanted expected)))) as [|Hgt]; [done|].
    rewrite ratio_above in Hu by lia. done.
  - rewrite (rs_mrr _ _ _ _ Hm), (rs_mrr _ _ _ _ Hm'). simpl.
    destruct (list_find (relevant expected) l) as [[i e]|] eqn:Hfind.
    + rewrite (find_same expected f Hf l post i e Hfind).
      apply list_find_Some in Hfind as (Hi%lookup_lt_Some & _).
      rewrite length_app, length_fmap in Hlen. apply ratio_mono; lia.
    + pose proof (mrr_unit expected ((f <$> l) ++ post)) as Hu.
      unfold unit_score in Hu. rewrite andb_true_iff in Hu. apply Hu. lia.
Qed.

(** hybrid retrieval never scores below vector retrieval.  When the vector path answers
    with at most [k] distinct chunks, merging the graph's evidence keeps them in front: for
    every ground truth the hit rate, precision, recall and reciprocal rank of the merged list
    are at least those of the vector's, while on a query without an answer the false-positive
    rate can only rise.  The one way the merged list gets no scores is the refused recall of
    a ground truth of documents only. *)
Theorem hybrid_not_worse v g expected k negative m :
  (1 ≤ k < 2 ^ 52)%Z → small (length (wanted expected)) →
  NoDup (chunk <$> v) → NoDup (chunk <$> g) → (Z.of_nat (length v) ≤ k)%Z →
  calculate_retrieval_metrics v expected k negative = Ok m →
  match calculate_retrieval_metrics (merge_evidence v g) expected k negative with
  | Ok m' => not_worse m m' ∧
      no_lower (RetrievalMetrics.false_positive_rate m) (RetrievalMetrics.false_positive_rate m')
  | Raise e => EvaluationExpectedEvidence.chunk_ids expected = [] ∧ negative = false
  end.
Proof.
  intros Hk Hs Hv Hg Hl Hm.
  pose proof (retrieval_scores v expected k negative Hk Hs) as H. rewrite Hm in H.
  pose proof (retrieval_scores (merge_evidence v g) expected k negative Hk Hs) as H'.
  destruct (calculate_retrieval_metrics (merge_evidence v g) expected k negative) as [m'|e]; [|tauto].
  destruct (top_merged k v g) as (f & post & Htop & Hf); [lia|done..|lia|].
  destruct negative.
  { subst m m'. split; [done|]. rewrite merge_evidence_reference by done. unfold no_lower.
    cbn [RetrievalMetrics.false_positive_rate].
    by destruct v; [destruct (truthy (merged_reference _ _))|]. }
  destruct (truthy (wanted expected)) eqn:Hw; [|by subst m m'].
  rewrite top_short in H by (done || lia). rewrite Htop in H'. split.
  - eapply scores_extend; [done..| |exact H|exact H']. rewrite <- Htop. apply length_top. lia.
  - by rewrite (rs_false _ _ _ _ H), (rs_false _ _ _ _ H').
Qed.
