(* ===== verification/RetrievalRunTheorems.v ===== *)
(** The retrieval evaluation over the fixtures of a data set: it answers every query of a
    valid data set from its own fixture, and its provenance score is constant. *)
From S2P Require Import Prelude PyFloat Errors Domain AgentModels Schemas PyText Unicode Session.
From S2P Require Import Storage Repositories Tools KnowledgeStore KnowledgeRepositories.
From S2P Require Import KnowledgeExtraction KnowledgeRetrieval Settings FloatOrder FloatRatio Counting.
From S2P Require Import RetrievalTheorems RetrievalBenchmark RetrievalEvaluation.
From S2P Require Import RetrievalMetricTheorems.

Lemma forallb_elem {A} (p : A → bool) l a : forallb p l = true → a ∈ l → p a = true.
Proof. rewrite forallb_Forall, Forall_forall. auto. Qed.

Section corpus.
Context {udb : UnicodeDB} (d : EvaluationDataset.t).

(** The item, or the edge, is one of the corpus. *)
Definition from_corpus (e : RetrievedEvidence.t) : Prop :=
  ∃ doc, doc ∈ EvaluationDataset.documents d ∧ chunk e = BenchmarkDocument.chunk_id doc ∧
    RetrievedEvidence.document_id e = BenchmarkDocument.document_id doc ∧
    RetrievedEvidence.document_title e = BenchmarkDocument.title doc.
Definition from_graph (r : GraphRelationshipResult.t) : Prop :=
  ∃ b, b ∈ EvaluationDataset.relationships d ∧
    GraphRelationshipResult.source_entity_name r = BenchmarkRelationship.source_entity b ∧
    GraphRelationshipResult.relationship_type r = BenchmarkRelationship.relationship_type b ∧
    GraphRelationshipResult.target_entity_name r = BenchmarkRelationship.target_entity b ∧
    GraphRelationshipResult.source_chunk_id r = BenchmarkRelationship.source_chunk_id b ∧
    GraphRelationshipResult.source_document_id r = BenchmarkRelationship.source_document_id b.

(** The names of an edge are those of two entities, letter by letter. *)
Definition exact_names (r : BenchmarkRelationship.t) : Prop :=
  BenchmarkRelationship.source_entity r ∈
    (BenchmarkEntity.canonical_name <$> EvaluationDataset.entities d) ∧
  BenchmarkRelationship.target_entity r ∈
    (BenchmarkEntity.canonical_name <$> EvaluationDataset.entities d).

(** A data set the constructor accepts, with one case per query and exact names. *)
Record benchmark : Prop := {
  bm_valid : dataset_valid d = true;
  bm_queries : NoDup (EvaluationCase.query <$> EvaluationDataset.cases d);
  bm_names : Forall exact_names (EvaluationDataset.relationships d)
}.
Context (Hd : benchmark).

Lemma integrity : validate_integrity d = true.
Proof. pose proof (bm_valid Hd) as H. unfold dataset_valid in H. by split_bools. Qed.

(** One conjunct of the validator. *)
Ltac integrity_fact :=
  apply require_unique_NoDup; pose proof integrity as H; unfold validate_integrity in H;
  by split_bools.

Lemma unique_documents : NoDup (BenchmarkDocument.document_id <$> EvaluationDataset.documents d).
Proof. integrity_fact. Qed.
Lemma unique_chunks : NoDup (BenchmarkDocument.chunk_id <$> EvaluationDataset.documents d).
Proof. integrity_fact. Qed.
Lemma unique_entities : NoDup (BenchmarkEntity.entity_id <$> EvaluationDataset.entities d).
Proof. integrity_fact. Qed.
Lemma unique_relationships :
  NoDup (BenchmarkRelationship.relationship_id <$> EvaluationDataset.relationships d).
Proof. integrity_fact. Qed.
Lemma unique_edges : NoDup ((λ r, key (as_expected r)) <$> EvaluationDataset.relationships d).
Proof. integrity_fact. Qed.

Lemma case_sound case :
  case ∈ EvaluationDataset.cases d → fixture_sound d (EvaluationCase.fixture case) = true.
Proof.
  intros Hc. pose proof integrity as H. unfold validate_integrity in H. split_bools.
  match goal with H : forallb _ (EvaluationDataset.cases d) = true |- _ =>
    apply (forallb_elem _ _ case H) in Hc end.
  by split_bools.
Qed.

Lemma valid_relationship r :
  r ∈ EvaluationDataset.relationships d → BenchmarkRelationship.valid r = true.
Proof.
  intros Hr. pose proof (bm_valid Hd) as H. unfold dataset_valid, EvaluationDataset.valid in H.
  split_bools. eapply forallb_elem; [done|]. done.
Qed.

Lemma valid_case case : case ∈ EvaluationDataset.cases d → EvaluationCase.valid case = true.
Proof.
  intros Hr. pose proof (bm_valid Hd) as H. unfold dataset_valid, EvaluationDataset.valid in H.
  split_bools. eapply forallb_elem; [done|]. done.
Qed.

(** ** Look-ups *)

Lemma lookup_chunk i doc :
  document_by_chunk d i = Some doc →
  doc ∈ EvaluationDataset.documents d ∧ BenchmarkDocument.chunk_id doc = i.
Proof.
  unfold document_by_chunk. rewrite dict_by_unique by apply unique_chunks.
  apply get_by_Some, unique_chunks.
Qed.

Lemma traced e : from_corpus e → evidence_traced (EvaluationDataset.documents d) e = true.
Proof.
  intros (doc & Hin & Hc & Hi & Ht). unfold evidence_traced.
  rewrite dict_by_unique by apply unique_chunks.
  rewrite (proj2 (get_by_Some BenchmarkDocument.chunk_id _ _ doc unique_chunks)) by done.
  by rewrite Hi, Ht, !bool_decide_eq_true_2.
Qed.

Lemma edges_traced r : from_graph r → edge_traced (EvaluationDataset.relationships d) r = true.
Proof.
  intros (b & Hin & Hs & Ht & Hg & Hc & Hi). unfold edge_traced.
  rewrite dict_by_unique by apply unique_edges.
  rewrite (proj2 (get_by_Some (λ r, key (as_expected r)) _ (edge_key r) b unique_edges)).
  - by rewrite Hc, Hi, !bool_decide_eq_true_2.
  - split; [done|]. unfold edge_key, key. by rewrite Hs, Ht, Hg.
Qed.

Lemma case_found case :
  case ∈ EvaluationDataset.cases d → case_of_query d (EvaluationCase.query case) = Some case.
Proof.
  intros Hc. unfold case_of_query. rewrite dict_by_unique by apply (bm_queries Hd).
  by apply get_by_Some; [apply (bm_queries Hd)|].
Qed.

Lemma entity_found name :
  name ∈ (BenchmarkEntity.canonical_name <$> EvaluationDataset.entities d) →
  ∃ e, entity_named d name = Ok e ∧ BenchmarkEntity.canonical_name e = name.
Proof.
  intros (e & -> & He)%list_elem_of_fmap. unfold entity_named.
  rewrite dict_by_unique by apply unique_entities.
  destruct (py_next _ _) as [e'|] eqn:Hn.
  - apply py_next_Some in Hn as [_ Hn%bool_decide_eq_true]. by exists e'.
  - pose proof (py_next_None _ _ e Hn He) as Hf.
    simpl in Hf. by rewrite bool_decide_eq_true_2 in Hf.
Qed.

(** ** The answers of the fixtures *)

Lemma enumerate_snd {A} (l : list A) : (enumerate_from_1 pair l).*2 = l.
Proof.
  unfold enumerate_from_1. apply list_eq. intros i.
  rewrite list_lookup_fmap, list_lookup_imap. by destruct (l !! i).
Qed.

Lemma fixture_evidence_ok origin chunk_ids :
  forallb (λ i, is_not_none (document_by_chunk d i)) chunk_ids = true →
  ∃ l, fixture_evidence d origin chunk_ids = Ok l ∧ chunk <$> l = chunk_ids ∧ Forall from_corpus l.
Proof.
  intros Hin. unfold fixture_evidence.
  destruct (res_map_total (λ ranked : Z * uuid,
    res_bind (or_key_error (document_by_chunk d ranked.2)) (λ document,
    Ok (_evidence document ranked.1 origin))) (enumerate_from_1 pair chunk_ids)) as (l & -> & Hl).
  { intros [rank i] Hi. apply (list_elem_of_fmap_2 snd) in Hi. rewrite enumerate_snd in Hi.
    apply (forallb_elem _ _ _ Hin) in Hi. simpl in *. destruct (document_by_chunk d i); [|done].
    by eexists. }
  exists l. split; [done|]. rewrite <- (enumerate_snd chunk_ids) at 1.
  clear Hin. induction Hl as [|[rank i] e pairs l He _ [IH1 IH2]]; [by split; constructor|].
  simpl in He. destruct (document_by_chunk d i) as [doc|] eqn:Hdoc; [|done]. injection He as <-.
  apply lookup_chunk in Hdoc as [Hdoc Hi]. csimpl. rewrite IH1. split; [by rewrite Hi|].
  constructor; [by exists doc|done].
Qed.

Lemma entities_ok entity_ids :
  forallb (λ i, is_not_none (entity_by_id d i)) entity_ids = true →
  ∃ l, res_map (_entity d) entity_ids = Ok l.
Proof.
  intros Hin. destruct (res_map_total (_entity d) entity_ids) as (l & Hl & _); [|by exists l].
  intros i Hi. apply (forallb_elem _ _ _ Hin) in Hi. unfold _entity.
  destruct (entity_by_id d i); [by eexists|done].
Qed.

Lemma relationship_ok i :
  is_not_none (relationship_by_id d i) = true →
  ∃ r, fixture_relationship d i = Ok r ∧ from_graph r ∧ GraphRelationshipResult.valid r = true.
Proof.
  unfold fixture_relationship. destruct (relationship_by_id d i) as [b|] eqn:Hb; [|done]. intros _.
  unfold relationship_by_id in Hb. rewrite dict_by_unique in Hb by apply unique_relationships.
  apply get_by_Some in Hb as [Hb _]; [|apply unique_relationships].
  pose proof (bm_names Hd) as Hn. rewrite Forall_forall in Hn. destruct (Hn b Hb) as [Hs Ht].
  destruct (entity_found _ Hs) as (source & Hes & Hns), (entity_found _ Ht) as (target & Het & Hnt).
  simpl. rewrite Hes. simpl. rewrite Het. simpl. eexists. split; [done|]. split; [|done].
  by exists b.
Qed.

Lemma relationships_ok relationship_ids :
  forallb (λ i, is_not_none (relationship_by_id d i)) relationship_ids = true →
  ∃ l, res_map (fixture_relationship d) relationship_ids = Ok l ∧ Forall from_graph l ∧
    forallb GraphRelationshipResult.valid l = true ∧ length l = length relationship_ids.
Proof.
  induction relationship_ids as [|i relationship_ids IH]; intros Hin; [by exists []|].
  simpl in Hin. apply andb_true_iff in Hin as [Hi Hin]. destruct (IH Hin) as (l & Hl & Hg & Hv & Hlen).
  destruct (relationship_ok i Hi) as (r & Hr & Hfrom & Hval). exists (r :: l). simpl.
  rewrite Hr. simpl. rewrite Hl. simpl. rewrite Hval, Hv, Hlen. split_and!; try done. by constructor.
Qed.

(** The identifiers a mode retrieves for a case, from the fixture alone. *)
Definition vector_ids (top_k : Z) (case : EvaluationCase.t) : list uuid :=
  take (Z.to_nat top_k) (FixtureRetrievalResult.vector_chunk_ids (EvaluationCase.fixture case)).
Definition graph_ids (max_depth : Z) (case : EvaluationCase.t) : list uuid :=
  let graph := FixtureRetrievalResult.graph (EvaluationCase.fixture case) in
  if decide (FixtureGraphResult.depth_used graph ≤ max_depth)%Z
  then FixtureGraphResult.evidence_chunk_ids graph else [].

Lemma vector_answer case top_k :
  case ∈ EvaluationDataset.cases d → (1 ≤ top_k)%Z →
  ∃ l, vector_fixture d (EvaluationCase.query case) (Some top_k) = Ok l ∧
    chunk <$> l = vector_ids top_k case ∧ Forall from_corpus l.
Proof.
  intros Hc Hk. unfold vector_fixture. rewrite case_found by done. unfold or_default.
  rewrite (proj2 (Z.eqb_neq top_k 0)), slice_to_take by lia. apply fixture_evidence_ok.
  pose proof (case_sound case Hc) as H. unfold fixture_sound in H. split_bools.
  apply forallb_Forall, Forall_take, forallb_Forall. done.
Qed.

Lemma graph_answer case max_depth :
  case ∈ EvaluationDataset.cases d →
  ∃ n, graph_fixture d (EvaluationCase.query case) (Some max_depth) = Ok n ∧
    chunk <$> GraphNeighborhood.evidence n = graph_ids max_depth case ∧
    Forall from_corpus (GraphNeighborhood.evidence n) ∧
    Forall from_graph (GraphNeighborhood.relationships n) ∧
    (length (GraphNeighborhood.relationships n) ≤ length (FixtureGraphResult.relationship_ids
       (FixtureRetrievalResult.graph (EvaluationCase.fixture case))))%nat ∧
    GraphNeighborhood.valid n = true.
Proof.
  intros Hc. unfold graph_fixture, graph_ids. rewrite case_found by done. cbv zeta.
  set (g := FixtureRetrievalResult.graph (EvaluationCase.fixture case)).
  pose proof (valid_case case Hc) as Hv. unfold EvaluationCase.valid in Hv. split_bools.
  destruct (Z.ltb_spec max_depth (FixtureGraphResult.depth_used g)) as [Hlt|Hge].
  { rewrite decide_False by lia. unfold empty_neighborhood, GraphNeighborhood.construct.
    assert (GraphNeighborhood.valid (GraphNeighborhood.mk (EvaluationCase.query case)
      [] [] [] [] [] 0 []) = true) as Hn.
    { unfold GraphNeighborhood.valid. simpl. by rewrite !andb_true_r. }
    rewrite Hn. eexists. split_and!; try done. simpl. lia. }
  rewrite decide_True by lia.
  pose proof (case_sound case Hc) as Hs. unfold fixture_sound in Hs. fold g in Hs. split_bools.
  destruct (fixture_evidence_ok RetrievalSource.GRAPH (FixtureGraphResult.evidence_chunk_ids g))
    as (evidence & -> & Hids & Hcorpus); [done|].
  destruct (relationships_ok (FixtureGraphResult.relationship_ids g)) as (rels & Hrels & Hrel & Hval & Hlen);
    [done|].
  match goal with H : forallb _ (_ ++ _) = true |- _ => rewrite forallb_app in H end. split_bools.
  destruct (entities_ok (FixtureGraphResult.matched_entity_ids g)) as (matched & Hm); [done|].
  destruct (entities_ok (FixtureGraphResult.related_entity_ids g)) as (related & Hr); [done|].
  simpl. rewrite Hrels. simpl. rewrite Hm. simpl. rewrite Hr. simpl. unfold GraphNeighborhood.construct.
  match goal with |- context [GraphNeighborhood.valid ?n] =>
    assert (GraphNeighborhood.valid n = true) as Hn end.
  { unfold GraphNeighborhood.valid. cbn [GraphNeighborhood.query GraphNeighborhood.relationships
      GraphNeighborhood.depth_used].
    match goal with H : FixtureRetrievalResult.valid _ = true |- _ =>
      unfold FixtureRetrievalResult.valid, FixtureGraphResult.valid in H; fold g in H end.
    split_bools. rewrite !andb_true_iff. by split_and!. }
  rewrite Hn. eexists. split; [done|].
  cbn [GraphNeighborhood.evidence GraphNeighborhood.relationships].
  split_and!; try done. by rewrite Hlen.
Qed.

(** ** Merging *)

Lemma keyed_set_keys {A} (l : list A) (key : A → uuid) a :
  key <$> keyed_set key l a = keyed_setdefault id (key <$> l) (key a).
Proof.
  unfold keyed_set, keyed_setdefault. rewrite list_fmap_id. unfold id. case_decide as Hin.
  - rewrite <- list_fmap_compose. apply list_fmap_ext. intros i b _. simpl. by case_decide.
  - by rewrite fmap_app.
Qed.

Lemma merge_ids v g :
  chunk <$> merge_evidence v g =
  fold_left (keyed_setdefault id) ((chunk <$> v) ++ (chunk <$> g)) [].
Proof.
  unfold merge_evidence. rewrite fold_left_app.
  assert (∀ acc, chunk <$> fold_left merge_vector v acc =
    fold_left (keyed_setdefault id) (chunk <$> v) (chunk <$> acc)) as Hv.
  { induction v as [|e v IH]; intros acc; [done|]. csimpl. rewrite IH. unfold merge_vector at 1.
    by rewrite keyed_set_keys. }
  rewrite <- (Hv [] : _ = fold_left (keyed_setdefault id) (chunk <$> v) []). generalize (fold_left merge_vector v []). clear Hv.
  induction g as [|e g IH]; intros acc; [done|]. csimpl. rewrite IH. unfold merge_graph at 1.
  rewrite keyed_set_keys. do 2 f_equal. destruct (py_next _ _) as [x|] eqn:Hx; [|done].
  by apply py_next_Some in Hx as [_ Hx%bool_decide_eq_true].
Qed.

Lemma keyed_set_Forall {A} (P : A → Prop) (key : A → uuid) l a :
  Forall P l → P a → Forall P (keyed_set key l a).
Proof.
  intros Hl Ha. unfold keyed_set. case_decide.
  - apply Forall_fmap. eapply Forall_impl; [exact Hl|]. intros b Hb. simpl. by case_decide.
  - by apply Forall_app; split; [|constructor].
Qed.

Lemma merge_corpus v g :
  Forall from_corpus v → Forall from_corpus g → Forall from_corpus (merge_evidence v g).
Proof.
  intros Hv Hg. unfold merge_evidence.
  assert (∀ acc, Forall from_corpus acc → Forall from_corpus (fold_left merge_vector v acc)) as Hfold.
  { induction Hv as [|e v He _ IH]; intros acc Hacc; simpl; [done|].
    apply IH, keyed_set_Forall; [done|exact He]. }
  specialize (Hfold [] (Forall_nil_2 _)). revert Hfold.
  generalize (fold_left merge_vector v []). clear Hv.
  induction Hg as [|e g He _ IH]; intros acc Hacc; simpl; [done|]. apply IH, keyed_set_Forall; [done|].
  destruct (py_next _ _) as [x|] eqn:Hx; [|exact He].
  apply py_next_Some in Hx as [Hx _]. rewrite Forall_forall in Hacc. exact (Hacc x Hx).
Qed.

(** ** The scores of a case *)

(** A chunk of the corpus has one document. *)
Lemma same_document e e' :
  from_corpus e → from_corpus e' →
  RetrievedEvidence.document_id e = RetrievedEvidence.document_id e' → chunk e = chunk e'.
Proof.
  intros (doc & Hin & Hc & Hi & _) (doc' & Hin' & Hc' & Hi' & _) Heq.
  assert (doc = doc') as ->; [|congruence].
  pose proof (proj2 (get_by_Some _ _ _ doc unique_documents) (conj Hin eq_refl)) as H1.
  pose proof (proj2 (get_by_Some _ _ _ doc' unique_documents) (conj Hin' eq_refl)) as H2. congruence.
Qed.

Lemma hits_corpus expected l :
  NoDup (chunk <$> l) → Forall from_corpus l → (hits expected l ≤ length (wanted expected))%nat.
Proof.
  intros Hn Hf. destruct (by_chunk expected) eqn:Hb; [by apply hits_by_chunk|].
  unfold hits. rewrite <- (length_fmap RetrievedEvidence.document_id). apply submseteq_length.
  apply NoDup_submseteq.
  - assert (NoDup (RetrievedEvidence.document_id <$> l)) as Hnd.
    { clear Hb. induction l as [|e l IH]; [constructor|]. csimpl in Hn. csimpl.
      apply NoDup_cons in Hn as [He Hn]. apply Forall_cons in Hf as [Hfe Hf].
      constructor; [|by apply IH]. intros (e' & Heq & He')%list_elem_of_fmap. apply He.
      rewrite Forall_forall in Hf.
      rewrite (same_document e e' Hfe (Hf e' He') Heq). by apply list_elem_of_fmap_2. }
    eapply sublist_NoDup; [exact Hnd|apply fmap_sublist, sublist_filter].
  - intros i (e & -> & He)%list_elem_of_fmap. apply list_elem_of_filter in He as [He _].
    unfold relevant, identity in He. by rewrite Hb in He.
Qed.

Lemma top_corpus k l : Forall from_corpus l → Forall from_corpus (top k l).
Proof.
  rewrite !Forall_forall. intros Hl e He. apply deduplicate_subset in He. apply Hl.
  eapply elem_of_submseteq; [exact He|apply sublist_submseteq, slice_to_sublist].
Qed.

Lemma corpus_scored evidence expected k negative :
  (1 ≤ k < 2 ^ 52)%Z → small (length (wanted expected)) → Forall from_corpus evidence →
  ∃ m, calculate_retrieval_metrics evidence expected k negative = Ok m.
Proof.
  intros Hk Hs Hf. pose proof (retrieval_scores evidence expected k negative Hk Hs) as H.
  destruct (calculate_retrieval_metrics _ _ _ _) as [m|e]; [by exists m|].
  destruct H as (_ & _ & _ & Hlt).
  pose proof (hits_corpus expected (top k evidence) (deduplicate_NoDup _) (top_corpus _ _ Hf)). lia.
Qed.

(** ** The whole case *)

(** The lengths the quotients of a case are made of. *)
Definition case_size (case : EvaluationCase.t) : nat :=
  let expected := EvaluationCase.expected case in
  let fixture := EvaluationCase.fixture case in
  length (EvaluationExpectedEvidence.chunk_ids expected) +
  length (EvaluationExpectedEvidence.document_ids expected) +
  length (EvaluationExpectedEvidence.entities expected) +
  length (EvaluationExpectedEvidence.relationships expected) +
  length (EvaluationExpectedEvidence.paths expected) +
  length (FixtureRetrievalResult.vector_chunk_ids fixture) +
  length (FixtureGraphResult.evidence_chunk_ids (FixtureRetrievalResult.graph fixture)) +
  length (FixtureGraphResult.relationship_ids (FixtureRetrievalResult.graph fixture)).

Lemma opt_share a b :
  (a ≤ b)%nat → small b →
  ∃ x, py_div_opt a b = Ok x ∧ opt_all unit_score x = true ∧ (x = None ↔ b = O) ∧
    (a = b → b ≠ O → x = Some f64_one).
Proof.
  intros Hab Hs. destruct (py_div_opt_share a b Hab Hs) as (x & Hx & H). exists x. split; [done|].
  destruct x as [x|]; [|by split_and!]. destruct H as [Hpos [Hu _ _]]. split_and!; [done|split; [done|lia]|].
  intros -> _. unfold py_div_opt, py_div in Hx. destruct b; [lia|]. simpl in Hx. injection Hx as <-.
  f_equal. apply ratio_one. unfold small in Hs. lia.
Qed.

Lemma small_le a b : (a ≤ b)%nat → small b → small a.
Proof. unfold small. lia. Qed.

Lemma set_share {A} `{EqDecision A} (found expected : list A) :
  (length (set_and found expected) ≤ length (remove_dups expected))%nat.
Proof. rewrite length_set_and_comm. apply set_and_le. Qed.

Lemma graph_metrics_valid a b c e :
  opt_all unit_score a = true → opt_all unit_score b = true → opt_all unit_score c = true →
  opt_all unit_score e = true →
  GraphMetrics.construct (GraphMetrics.mk a b c e) = Ok (GraphMetrics.mk a b c e).
Proof.
  intros Ha Hb Hc He. unfold GraphMetrics.construct, GraphMetrics.valid.
  cbn [GraphMetrics.entity_hit_rate GraphMetrics.relationship_hit_rate GraphMetrics.path_success
       GraphMetrics.provenance_coverage].
  by setoid_rewrite Ha; setoid_rewrite Hb; setoid_rewrite Hc; setoid_rewrite He.
Qed.

Lemma all_true {A} (p : A → bool) l : Forall (λ a, p a = true) l → filter Is_true (p <$> l) = p <$> l.
Proof.
  induction 1 as [|a l Ha _ IH]; [done|]. csimpl. rewrite filter_cons_True by (by rewrite Ha).
  by rewrite IH.
Qed.

(** A share of something found in the neighborhood, when there is one. *)
Lemma neighborhood_share (n : option GraphNeighborhood.t) a b :
  (∀ n, (a n ≤ b)%nat) → small b →
  ∃ x, match n with Some n => py_div_opt (a n) b | None => Ok None end = Ok x ∧
    opt_all unit_score x = true.
Proof.
  intros Hab Hs. destruct n as [n|]; [|by exists None].
  destruct (opt_share (a n) b (Hab n) Hs) as (x & Hx & Hu & _). by exists x.
Qed.

(** The graph scores of traceable answers, with the constant one. *)
Lemma graph_scored n evidence expected :
  match n with Some n => Forall from_graph (GraphNeighborhood.relationships n) | None => True end →
  Forall from_corpus evidence →
  small (length (EvaluationExpectedEvidence.entities expected)) →
  small (length (EvaluationExpectedEvidence.relationships expected)) →
  small (length (EvaluationExpectedEvidence.paths expected)) →
  small (length evidence +
         match n with Some n => length (GraphNeighborhood.relationships n) | None => 0 end) →
  ∃ m, calculate_graph_metrics n evidence expected (EvaluationDataset.documents d)
         (EvaluationDataset.relationships d) = Ok m ∧
    GraphMetrics.provenance_coverage m =
      if truthy evidence || match n with Some n => truthy (GraphNeighborhood.relationships n)
                                       | None => false end
      then Some f64_one else None.
Proof.
  intros Hn Hf He Hr Hp Hs. unfold calculate_graph_metrics. cbv zeta.
  destruct (neighborhood_share n (λ n, length (set_and (found_entities n) (casefold <$>
    EvaluationExpectedEvidence.entities expected))) (length (remove_dups (casefold <$>
    EvaluationExpectedEvidence.entities expected)))) as (x1 & -> & Hx1); [intros; apply set_share| |].
  { eapply small_le; [apply length_remove_dups|by rewrite length_fmap]. }
  destruct (neighborhood_share n (λ n, length (set_and (found_relationships n) (key <$>
    EvaluationExpectedEvidence.relationships expected))) (length (remove_dups (key <$>
    EvaluationExpectedEvidence.relationships expected)))) as (x2 & -> & Hx2); [intros; apply set_share| |].
  { eapply small_le; [apply length_remove_dups|by rewrite length_fmap]. }
  destruct (neighborhood_share n (λ n, length (filter (λ p, path_found n p = true)
    (EvaluationExpectedEvidence.paths expected))) (length (EvaluationExpectedEvidence.paths expected)))
    as (x3 & -> & Hx3); [intros; apply length_filter|done|].
  simpl res_bind.
  set (rels := match n with Some n => GraphNeighborhood.relationships n | None => [] end).
  assert (Forall from_graph rels) as Hrels by (by destruct n; [|constructor]).
  set (checks := _ ++ _).
  assert (filter Is_true checks = checks) as Hall.
  { subst checks. rewrite filter_app, !all_true; [done| |].
    - eapply Forall_impl; [exact Hrels|]. apply edges_traced.
    - apply Forall_forall. intros e Hin%deduplicate_subset. apply traced.
      rewrite Forall_forall in Hf. by apply Hf. }
  assert (length checks = length (_deduplicate_evidence evidence) + length rels)%nat as Hlen
    by (subst checks; by rewrite length_app, !length_fmap).
  pose proof (length_deduplicate evidence) as Hded.
  destruct (opt_share (length checks) (length checks)) as (x4 & Hx4 & Hu & Hnone & Hone); [done| |].
  { eapply small_le; [|exact Hs]. rewrite Hlen. subst rels. destruct n; simpl; lia. }
  rewrite Hall, Hx4. simpl res_bind. rewrite graph_metrics_valid by done. eexists. split; [done|].
  cbn [GraphMetrics.provenance_coverage].
  assert (truthy evidence || match n with Some n => truthy (GraphNeighborhood.relationships n)
    | None => false end = negb (Nat.eqb (length checks) 0)) as ->.
  { rewrite Hlen, <- (deduplicate_nil evidence). subst rels.
    destruct (_deduplicate_evidence evidence), n as [n|]; simpl; try done.
    by destruct (GraphNeighborhood.relationships n). }
  destruct (Nat.eqb_spec (length checks) 0) as [H0|H0]; simpl; [by apply Hnone|by apply Hone].
Qed.

(** The identifiers a mode retrieves for a case, from its fixture alone. *)
Definition fixture_ids (c : EvaluationConfiguration.t) (mode : EvaluationMode.t)
    (case : EvaluationCase.t) : list uuid :=
  let vector := vector_ids (EvaluationConfiguration.top_k c) case in
  let graph := graph_ids (EvaluationConfiguration.graph_max_depth c) case in
  match mode with
  | EvaluationMode.VECTOR => vector
  | EvaluationMode.GRAPH => graph
  | EvaluationMode.HYBRID => fold_left (keyed_setdefault id) (vector ++ graph) []
  end.

(** What a retrieval over the fixtures returns. *)
Record retrieved (case : EvaluationCase.t) (ids : list uuid) (evidence : evidence_list)
    (n : option GraphNeighborhood.t) : Prop := {
  rt_ids : chunk <$> evidence = ids;
  rt_corpus : Forall from_corpus evidence;
  rt_graph : match n with Some n => Forall from_graph (GraphNeighborhood.relationships n) | None => True end;
  rt_count : (match n with Some n => length (GraphNeighborhood.relationships n) | None => 0 end ≤
    length (FixtureGraphResult.relationship_ids (FixtureRetrievalResult.graph (EvaluationCase.fixture case))))%nat
}.

Lemma hybrid_metadata_valid v n evidence :
  GraphNeighborhood.valid n = true →
  ∃ m, hybrid_metadata v n evidence None None = Ok m.
Proof.
  intros Hn. unfold hybrid_metadata, GraphRetrievalExecutionMetadata.construct.
  unfold GraphNeighborhood.valid in Hn. split_bools.
  match goal with |- context [GraphRetrievalExecutionMetadata.valid ?m] =>
    assert (GraphRetrievalExecutionMetadata.valid m = true) as -> end; [|by eexists].
  unfold GraphRetrievalExecutionMetadata.valid. cbn -[Z.leb Z.of_nat].
  rewrite !andb_true_iff. split_and!; try done; apply Z.leb_le; lia.
Qed.

Lemma retrieve_fixture {S} c mode case (s : S) :
  case ∈ EvaluationDataset.cases d → (1 ≤ EvaluationConfiguration.top_k c)%Z →
  ∃ evidence n,
    retrieve (fixture_vector d) (fixture_graph d) (fixture_hybrid d) c case mode s =
      (s, Ok (evidence, n)) ∧
    retrieved case (fixture_ids c mode case) evidence n.
Proof.
  intros Hc Hk.
  destruct (vector_answer case _ Hc Hk) as (v & Hv & Hvi & Hvc).
  destruct (graph_answer case (EvaluationConfiguration.graph_max_depth c) Hc)
    as (n & Hn & Hni & Hnc & Hng & Hlen & Hval).
  unfold retrieve, fixture_hybrid, hybrid_of, or_error_code, fixture_vector, fixture_graph.
  unfold bind, try_except, of_res, ret. destruct mode.
  - rewrite Hv. exists v, None. split; [done|]. constructor; [done|done|done|lia].
  - rewrite Hn. eexists _, (Some n). split; [done|]. by constructor.
  - rewrite Hv, Hn. cbn [fst snd].
    destruct (hybrid_metadata_valid v n (merge_evidence v (GraphNeighborhood.evidence n)) Hval) as [m Hm].
    rewrite Hm. eexists _, (Some n). split; [done|]. constructor; [|by apply merge_corpus|done|done].
    cbn [HybridRetrievalResult.evidence]. by rewrite merge_ids, Hvi, Hni.
Qed.

(** The result of a case that was evaluated. *)
Record answers (c : EvaluationConfiguration.t) (mode : EvaluationMode.t) (case : EvaluationCase.t)
    (r : CaseEvaluationResult.t) : Prop := {
  an_id : CaseEvaluationResult.query_id r = EvaluationCase.query_id case;
  an_evaluated : CaseEvaluationResult.skipped r = false;
  an_ids : EvidenceObservation.chunk_id <$> CaseEvaluationResult.retrieved_evidence r =
    fixture_ids c mode case;
  an_corpus : ∀ o, o ∈ CaseEvaluationResult.retrieved_evidence r →
    ∃ doc, doc ∈ EvaluationDataset.documents d ∧
      EvidenceObservation.chunk_id o = BenchmarkDocument.chunk_id doc ∧
      EvidenceObservation.document_id o = BenchmarkDocument.document_id doc ∧
      EvidenceObservation.title o = BenchmarkDocument.title doc;
  an_metrics : ∃ evidence, chunk <$> evidence = fixture_ids c mode case ∧
    calculate_retrieval_metrics evidence (EvaluationCase.expected case)
      (EvaluationConfiguration.top_k c)
      (bool_decide (EvaluationCase.query_type case = EvaluationQueryType.NEGATIVE_NO_ANSWER)) =
    Ok (CaseEvaluationResult.retrieval_metrics r);
  an_provenance : GraphMetrics.provenance_coverage (CaseEvaluationResult.graph_metrics r) =
    if truthy (CaseEvaluationResult.retrieved_evidence r) ||
       truthy (CaseEvaluationResult.retrieved_relationships r) then Some f64_one else None
}.

Lemma observed r : from_graph r → ∃ o, relationship_observation r = Ok o.
Proof.
  intros (b & Hb & Hs & Ht & Hg & _). unfold relationship_observation, RelationshipObservation.construct.
  pose proof (valid_relationship b Hb) as Hv. unfold RelationshipObservation.valid.
  unfold BenchmarkRelationship.valid in Hv.
  cbn [RelationshipObservation.source_entity RelationshipObservation.target_entity].
  rewrite Hs, Hg, Hv. by eexists.
Qed.

Lemma wanted_size case : (length (wanted (EvaluationCase.expected case)) ≤ case_size case)%nat.
Proof.
  unfold wanted, case_size. cbv zeta.
  pose proof (length_remove_dups (EvaluationExpectedEvidence.chunk_ids (EvaluationCase.expected case))).
  pose proof (length_remove_dups (EvaluationExpectedEvidence.document_ids (EvaluationCase.expected case))).
  destruct (by_chunk _); lia.
Qed.

Lemma fixture_ids_size c mode case :
  (length (fixture_ids c mode case) ≤
   length (FixtureRetrievalResult.vector_chunk_ids (EvaluationCase.fixture case)) +
   length (FixtureGraphResult.evidence_chunk_ids (FixtureRetrievalResult.graph (EvaluationCase.fixture case))))%nat.
Proof.
  assert (length (vector_ids (EvaluationConfiguration.top_k c) case) ≤
    length (FixtureRetrievalResult.vector_chunk_ids (EvaluationCase.fixture case)))%nat
    by (unfold vector_ids; rewrite length_take; lia).
  assert (length (graph_ids (EvaluationConfiguration.graph_max_depth c) case) ≤
    length (FixtureGraphResult.evidence_chunk_ids (FixtureRetrievalResult.graph (EvaluationCase.fixture case))))%nat
    by (unfold graph_ids; case_decide; simpl; lia).
  unfold fixture_ids. destruct mode; [lia..|]. etrans; [|apply Nat.add_le_mono; eassumption].
  rewrite <- length_app. apply submseteq_length, NoDup_submseteq.
  - rewrite <- list_fmap_id. apply keyed_setdefault_NoDup. constructor.
  - intros i [Hi|Hi]%keyed_setdefault_elem; [by apply elem_of_nil in Hi|done].
Qed.

Lemma measure_fixture c mode case evidence n :
  (1 ≤ EvaluationConfiguration.top_k c < 2 ^ 52)%Z → small (case_size case) →
  retrieved case (fixture_ids c mode case) evidence n →
  ∃ r, measure d c case evidence n = Ok r ∧ answers c mode case r.
Proof.
  intros Hk Hs [Hids Hcorpus Hgraph Hcount]. unfold measure.
  destruct (corpus_scored evidence (EvaluationCase.expected case) (EvaluationConfiguration.top_k c)
    (bool_decide (EvaluationCase.query_type case = EvaluationQueryType.NEGATIVE_NO_ANSWER)))
    as [m Hm]; [done|eapply small_le; [apply wanted_size|done]|done|].
  pose proof (fixture_ids_size c mode case) as Hsize. rewrite <- Hids, length_fmap in Hsize.
  destruct (graph_scored n evidence (EvaluationCase.expected case)) as (gm & Hgm & Hprov);
    [done|done|eapply small_le; [|exact Hs]; unfold case_size; lia..|].
  set (rels := match n with Some n => GraphNeighborhood.relationships n | None => [] end).
  assert (∃ l, match n with
    | None => Ok []
    | Some n => res_map relationship_observation (GraphNeighborhood.relationships n) end = Ok l ∧
    length l = length rels) as (l & Hl & Hlen).
  { destruct n as [n|]; [|by exists []].
    destruct (res_map_total relationship_observation (GraphNeighborhood.relationships n))
      as (l & Hl & Hall).
    - intros r Hr. apply observed. rewrite Forall_forall in Hgraph. by apply Hgraph.
    - exists l. split; [done|]. by apply Forall2_length in Hall. }
  cbv zeta. rewrite Hm. simpl res_bind. rewrite Hgm. simpl res_bind. rewrite Hl. simpl res_bind.
  eexists. split; [done|]. constructor; cbn [CaseEvaluationResult.query_id CaseEvaluationResult.skipped
    CaseEvaluationResult.retrieved_evidence CaseEvaluationResult.retrieval_metrics
    CaseEvaluationResult.graph_metrics CaseEvaluationResult.retrieved_relationships]; try done.
  - rewrite <- Hids, <- list_fmap_compose. done.
  - intros o (e & -> & He)%list_elem_of_fmap. rewrite Forall_forall in Hcorpus. by apply Hcorpus.
  - by exists evidence.
  - rewrite Hprov. f_equal. destruct evidence; simpl; [|done]. subst rels.
    destruct n as [n|]; destruct l; try done; by destruct (GraphNeighborhood.relationships n).
Qed.
End corpus.

(** ** The run *)

Lemma settings_configuration settings :
  Settings.fields_ok settings = true →
  ∃ c, configuration_from_settings settings = Ok c ∧ (1 ≤ EvaluationConfiguration.top_k c < 2 ^ 52)%Z.
Proof.
  intros Hf. unfold configuration_from_settings, EvaluationConfiguration.construct.
  match goal with |- context [EvaluationConfiguration.valid ?c] =>
    assert (EvaluationConfiguration.valid c = true ∧ (1 ≤ EvaluationConfiguration.top_k c < 2 ^ 52)%Z)
      as [-> Hk]; [|by eexists] end.
  unfold Settings.fields_ok in Hf. unfold EvaluationConfiguration.valid.
  cbn [EvaluationConfiguration.embedding_dimensions EvaluationConfiguration.top_k
    EvaluationConfiguration.similarity_threshold EvaluationConfiguration.chunk_size
    EvaluationConfiguration.chunk_overlap EvaluationConfiguration.graph_max_depth
    EvaluationConfiguration.graph_min_confidence EvaluationConfiguration.graph_max_entities].
  split_bools.
  repeat match goal with H : in_range _ _ _ = true |- _ => unfold in_range in H end. split_bools.
  repeat match goal with H : Z.leb _ _ = true |- _ => apply Z.leb_le in H end.
  repeat match goal with H : Z.eqb _ _ = true |- _ => apply Z.eqb_eq in H end.
  unfold KNOWLEDGE_EMBEDDING_DIMENSION in *.
  rewrite !andb_true_iff. split_and!; try done; try apply Z.leb_le; lia.
Qed.

Section run.
Context {udb : UnicodeDB} (d : EvaluationDataset.t).

(** [r] is the result of [case]: skipped when the mode does not apply. *)
Definition reported (c : EvaluationConfiguration.t) (mode : EvaluationMode.t) (case : EvaluationCase.t)
    (r : CaseEvaluationResult.t) : Prop :=
  if decide (mode ∈ EvaluationCase.modes case) then answers d c mode case r
  else r = skipped_result case mode.

Record reports_benchmark (settings : Settings.t) (mode : EvaluationMode.t) (report : EvaluationReport.t) :
    Prop := {
  rb_configuration : configuration_from_settings settings = Ok (EvaluationReport.configuration report);
  rb_cases : Forall2 (reported (EvaluationReport.configuration report) mode)
    (EvaluationDataset.cases d) (EvaluationReport.cases report);
  rb_total : EvaluationReport.total_cases report = Z.of_nat (length (EvaluationDataset.cases d));
  rb_skipped : EvaluationReport.skipped_cases report =
    EvaluationCase.query_id <$> filter (λ case, mode ∉ EvaluationCase.modes case) (EvaluationDataset.cases d);
  rb_evaluated : (EvaluationReport.evaluated_cases report +
    Z.of_nat (length (EvaluationReport.skipped_cases report)) = EvaluationReport.total_cases report)%Z;
  rb_aggregate : aggregate_case_results (EvaluationReport.cases report) =
    Ok (EvaluationReport.aggregate_metrics report)
}.

Lemma run_cases_fixture {S} c mode (cases : list EvaluationCase.t) (s : S) :
  benchmark d → (∀ case, case ∈ cases → case ∈ EvaluationDataset.cases d ∧ small (case_size case)) →
  (1 ≤ EvaluationConfiguration.top_k c < 2 ^ 52)%Z →
  ∃ rs, _run_cases d (fixture_vector d) (fixture_graph d) (fixture_hybrid d) c cases mode s = (s, Ok rs) ∧
    Forall2 (reported c mode) cases rs.
Proof.
  intros Hd Hin Hk. induction cases as [|case cases IH]; [by exists []|].
  destruct IH as (rs & Hrs & Hall); [intros; apply Hin; by right|].
  destruct (Hin case) as [Hc Hs]; [left|].
  assert (∃ r, _run_case d (fixture_vector d) (fixture_graph d) (fixture_hybrid d) c case mode s =
    (s, Ok r) ∧ reported c mode case r) as (r & Hr & Hrep).
  { unfold _run_case, reported, mem. destruct (decide (mode ∈ EvaluationCase.modes case)) as [Hm|Hm];
      [rewrite bool_decide_eq_true_2 by done|rewrite bool_decide_eq_false_2 by done; by eexists].
    destruct (retrieve_fixture d Hd c mode case s Hc ltac:(lia)) as (evidence & n & Hret & Hgot).
    destruct (measure_fixture d Hd c mode case evidence n Hk Hs Hgot) as (r & Hr & Ha).
    exists r. unfold bind, of_res. rewrite Hret. cbn [fst snd]. by rewrite Hr. }
  exists (r :: rs). simpl. unfold bind. rewrite Hr, Hrs. split; [done|by constructor].
Qed.

Lemma skipped_cases_of c mode cases rs :
  Forall2 (reported c mode) cases rs →
  CaseEvaluationResult.query_id <$> filter (λ r, CaseEvaluationResult.skipped r = true) rs =
  EvaluationCase.query_id <$> filter (λ case, mode ∉ EvaluationCase.modes case) cases.
Proof.
  induction 1 as [|case r cases rs Hr _ IH]; [done|]. unfold reported in Hr. rewrite !filter_cons.
  case_decide as Hm.
  - rewrite decide_False by (by rewrite (an_evaluated _ _ _ _ _ Hr)).
    rewrite decide_False by tauto. done.
  - subst r. rewrite !decide_True by done. csimpl. by rewrite IH.
Qed.

(** C40: evaluating a benchmark over its fixtures is faithful.  For a data set the constructor
    accepts, with one case per query and entity names repeated letter by letter, and settings
    whose fields are valid, a run in any mode reports every case once and in order: those the
    mode does not apply to as skipped, every other one with exactly the chunks its own fixture
    gives to that mode - the first [top_k], the graph's when it is within the depth, or both
    without repetition - identified as documents of the corpus, and the metrics of that
    evidence.  Every answer is traceable, so the provenance score is 1 wherever it is given.
    Nothing but the clock and the validation of a mean of these results can raise.  Without one
    of the two side conditions the claim fails: see [same_query_confused] and
    [folded_name_stops]. *)
Theorem fixture_run_faithful {S} (clock : M S datetime) settings mode s :
  benchmark d → Settings.fields_ok settings = true →
  Forall (λ case, small (case_size case)) (EvaluationDataset.cases d) →
  wp (fixture_runner d clock settings mode) (λ _ r,
    match r with
    | Ok report => reports_benchmark settings mode report
    | Raise e => (clock s).2 = Raise e ∨ ∃ c rs, configuration_from_settings settings = Ok c ∧
        Forall2 (reported c mode) (EvaluationDataset.cases d) rs ∧ aggregate_case_results rs = Raise e
    end) s.
Proof.
  intros Hd Hsettings Hsmall.
  destruct (settings_configuration settings Hsettings) as (c & Hc & Hk).
  destruct (run_cases_fixture c mode (EvaluationDataset.cases d) s Hd) as (rs & Hrs & Hall); [|done|].
  { intros case Hin. split; [done|]. rewrite Forall_forall in Hsmall. by apply Hsmall. }
  unfold fixture_runner, run_mode, wp, bind, of_res. rewrite Hc, Hrs. cbn [fst snd].
  destruct (clock s) as [s' [now|e]]; cbn [fst snd]; [|by left].
  destruct (aggregate_case_results rs) as [aggregate|e] eqn:Hagg; [|right; by exists c, rs].
  assert (1 ≤ length rs)%nat as Hne.
  { apply Forall2_length in Hall as <-. pose proof (bm_valid d Hd) as Hv.
    unfold dataset_valid, EvaluationDataset.valid in Hv. split_bools.
    match goal with H : len_ge 1 (EvaluationDataset.cases d) = true |- _ =>
      unfold len_ge in H; apply Z.leb_le in H; lia end. }
  pose proof (length_filter (λ r, CaseEvaluationResult.skipped r = true) rs) as Hle.
  unfold build_report. cbn -[Z.leb Z.of_nat length fmap]. rewrite length_fmap.
  rewrite !(proj2 (Z.leb_le _ _)) by lia. cbn [fst snd andb].
  constructor; cbn -[Z.of_nat]; try done.
  - by rewrite (Forall2_length _ _ _ Hall).
  - by apply (skipped_cases_of c).
  - rewrite length_fmap. lia.
Qed.
End run.

(** ** A small benchmark

    Two documents, two entities joined by one edge, a question answered by both paths and one
    without an answer. *)
Section demo.
#[local] Instance demo_unicode : UnicodeDB := ascii_db.

Definition demo_documents : list BenchmarkDocument.t :=
  [BenchmarkDocument.mk 1 11 "Policy" "Audits use the ledger.";
   BenchmarkDocument.mk 2 12 "Manual" "The ledger is append-only."].
Definition demo_edge (source : pystr) : BenchmarkRelationship.t :=
  BenchmarkRelationship.mk source KnowledgeRelationshipType.USES "Ledger" 31 1 11.
Definition demo_expected : EvaluationExpectedEvidence.t :=
  EvaluationExpectedEvidence.mk [1; 2]%N [] [lit "audit"; lit "LEDGER"]
    [as_expected (demo_edge "Audit")] [ExpectedGraphPath.mk [as_expected (demo_edge "Audit")]].
Definition demo_question (query_id query : pystr) (vector : list uuid) : EvaluationCase.t :=
  EvaluationCase.mk query_id query EvaluationQueryType.RELATIONSHIP_IMPACT_CHAIN
    EvaluationMode.members demo_expected
    (FixtureRetrievalResult.mk vector (FixtureGraphResult.mk [21]%N [22]%N [31]%N [11]%N 1)) None.
Definition demo_negative : EvaluationCase.t :=
  EvaluationCase.mk "no_answer" "What is the weather?" EvaluationQueryType.NEGATIVE_NO_ANSWER
    [EvaluationMode.VECTOR] (EvaluationExpectedEvidence.mk [] [] [] [] [])
    (FixtureRetrievalResult.mk [12]%N (FixtureGraphResult.mk [] [] [] [] 0)) None.
Definition demo_benchmark (source : pystr) (cases : list EvaluationCase.t) : EvaluationDataset.t :=
  EvaluationDataset.mk "demo" "1" "A small corpus." true demo_documents
    [BenchmarkEntity.mk 21 "Audit" KnowledgeEntityType.PROCESS;
     BenchmarkEntity.mk 22 "Ledger" KnowledgeEntityType.SYSTEM] [demo_edge source] cases.
Definition demo_data : EvaluationDataset.t :=
  demo_benchmark "Audit" [demo_question "audit_ledger" "What do audits use?" [12]%N; demo_negative].
Definition demo_clock : M nat datetime := λ n, (S n, Ok (datetime_utc 0)).

Lemma demo_is_benchmark : benchmark demo_data.
Proof.
  constructor; [vm_compute; reflexivity| |].
  - apply require_unique_NoDup. vm_compute. reflexivity.
  - repeat constructor.
Qed.

Lemma demo_sizes : Forall (λ case, small (case_size case)) (EvaluationDataset.cases demo_data).
Proof. repeat constructor. Qed.

Lemma fixture_run_faithful_witness :
  ∃ report, (fixture_runner demo_data demo_clock Settings.defaults EvaluationMode.HYBRID O).2 = Ok report ∧
    EvaluationReport.total_cases report = 2%Z ∧
    EvaluationReport.skipped_cases report = [lit "no_answer"] ∧
    reports_benchmark demo_data Settings.defaults EvaluationMode.HYBRID report.
Proof.
  pose proof (fixture_run_faithful demo_data demo_clock Settings.defaults EvaluationMode.HYBRID O
    demo_is_benchmark eq_refl demo_sizes) as H. unfold wp in H.
  destruct (fixture_runner demo_data demo_clock Settings.defaults EvaluationMode.HYBRID O)
    as [s [report|e]] eqn:Hr; simpl in H.
  - exists report. split; [done|]. split; [apply (rb_total _ _ _ _ H)|].
    split; [rewrite (rb_skipped _ _ _ _ H); reflexivity|exact H].
  - exfalso. vm_compute in Hr. discriminate Hr.
Defined.

(** The question's evidence: the vector path finds one of the two documents, the merged list
    both. *)
Definition demo_vector_evidence : evidence_list :=
  default [] (match vector_fixture demo_data "What do audits use?" None with Ok l => Some l | _ => None end).
Definition demo_graph_evidence : evidence_list :=
  match graph_fixture demo_data "What do audits use?" None with
  | Ok n => GraphNeighborhood.evidence n | _ => [] end.

Lemma retrieval_metrics_exact_witness :
  ∃ m, calculate_retrieval_metrics demo_vector_evidence demo_expected 5 false = Ok m ∧
    RetrievalMetrics.recall_at_k m = Some (int_ratio 1 2) ∧
    ranking_scores demo_expected 5 demo_vector_evidence m.
Proof.
  pose proof (retrieval_metrics_exact demo_vector_evidence demo_expected 5 false
    ltac:(done) ltac:(done)) as H.
  destruct (calculate_retrieval_metrics demo_vector_evidence demo_expected 5 false) as [m|e] eqn:Hm.
  - exists m. split; [done|]. split; [rewrite (rs_recall _ _ _ _ H); reflexivity|exact H].
  - exfalso. vm_compute in Hm. discriminate Hm.
Defined.

Lemma hybrid_not_worse_witness :
  ∃ m m', calculate_retrieval_metrics demo_vector_evidence demo_expected 5 false = Ok m ∧
    calculate_retrieval_metrics (merge_evidence demo_vector_evidence demo_graph_evidence)
      demo_expected 5 false = Ok m' ∧ not_worse m m' ∧
    RetrievalMetrics.recall_at_k m' = Some f64_one.
Proof.
  destruct (calculate_retrieval_metrics demo_vector_evidence demo_expected 5 false) as [m|e] eqn:Hm;
    [|exfalso; vm_compute in Hm; discriminate Hm].
  pose proof (hybrid_not_worse demo_vector_evidence demo_graph_evidence demo_expected 5 false m
    ltac:(done) ltac:(done) ltac:(by apply (bool_decide_eq_true_1 _); vm_compute)
    ltac:(by apply (bool_decide_eq_true_1 _); vm_compute) ltac:(done) Hm) as H.
  destruct (calculate_retrieval_metrics (merge_evidence demo_vector_evidence demo_graph_evidence)
    demo_expected 5 false) as [m'|e] eqn:Hm'; [|exfalso; vm_compute in Hm'; discriminate Hm'].
  exists m, m'. destruct H as [H _].
  split; [reflexivity|]. split; [reflexivity|]. split; [exact H|].
  vm_compute in Hm'. injection Hm' as <-. reflexivity.
Defined.

(** Two chunks of one document asked for by document: a recall of 2, which is refused. *)
Definition one_document (chunk : uuid) : RetrievedEvidence.t :=
  RetrievedEvidence.mk chunk 1 "Policy" "" None KnowledgeSourceType.SYNTHETIC [] RetrievalSource.VECTOR.
Example document_recall_refused :
  calculate_retrieval_metrics [one_document 11; one_document 12]
    (EvaluationExpectedEvidence.mk [1]%N [] [] [] []) 5 false = Raise ValidationError.
Proof. vm_compute. reflexivity. Qed.

(** The validator compares names by case folding, the fixture letter by letter: an edge whose
    name differs in case is accepted and ends the run. *)
Definition folded_name : EvaluationDataset.t :=
  demo_benchmark "AUDIT" [demo_question "audit_ledger" "What do audits use?" [12]%N].
Example folded_name_stops :
  dataset_valid folded_name = true ∧
  (fixture_runner folded_name demo_clock Settings.defaults EvaluationMode.GRAPH O).2 =
    Raise (OtherException "StopIteration").
Proof. vm_compute. split; reflexivity. Qed.

(** Two cases with one query are accepted, and the first is answered from the second's
    fixture. *)
Definition same_query : EvaluationDataset.t :=
  demo_benchmark "Audit" [demo_question "first_case" "What do audits use?" [12]%N;
                          demo_question "second_case" "What do audits use?" [11]%N].
Example same_query_confused :
  dataset_valid same_query = true ∧
  match (fixture_runner same_query demo_clock Settings.defaults EvaluationMode.VECTOR O).2 with
  | Ok report => (λ r, EvidenceObservation.chunk_id <$> CaseEvaluationResult.retrieved_evidence r) <$>
      EvaluationReport.cases report = [[11%N]; [11%N]]
  | Raise _ => False
  end.
Proof. vm_compute. split; reflexivity. Qed.
End demo.
