(* ===== verification/RetrievalReports.v ===== *)
(** app/evaluation/reports.py: the comparison of the modes' retrieval reports and the texts
    printed for both.  Writing the files is not modelled. *)
From S2P Require Import Prelude PyFloat Errors Domain PyText Tools FloatRatio Counting.
From S2P Require Import RetrievalBenchmark.

(** The dictionary [metrics] of [build_comparison]: name and accessor. *)
Definition comparison_metrics : list (pystr * (EvaluationReport.t → option pyfloat)) :=
  let retrieval p r := p (AggregateMetrics.retrieval (EvaluationReport.aggregate_metrics r)) in
  let graph p r := p (AggregateMetrics.graph (EvaluationReport.aggregate_metrics r)) in
  [(lit "hit_rate_at_k", retrieval RetrievalMetrics.hit_rate_at_k);
   (lit "precision_at_k", retrieval RetrievalMetrics.precision_at_k);
   (lit "recall_at_k", retrieval RetrievalMetrics.recall_at_k);
   (lit "mrr", retrieval RetrievalMetrics.mrr);
   (lit "entity_hit_rate", graph GraphMetrics.entity_hit_rate);
   (lit "relationship_hit_rate", graph GraphMetrics.relationship_hit_rate);
   (lit "path_success", graph GraphMetrics.path_success);
   (lit "provenance_coverage", graph GraphMetrics.provenance_coverage);
   (lit "false_positive_rate", retrieval RetrievalMetrics.false_positive_rate)].

(** [by_mode[mode]]. *)
Definition report_by_mode (reports : list EvaluationReport.t) (mode : EvaluationMode.t) :
    res EvaluationReport.t :=
  match get_by EvaluationReport.evaluation_mode (dict_by EvaluationReport.evaluation_mode reports) mode with
  | Some r => Ok r
  | None => Raise KeyError
  end.

Definition metric_row (reports : list EvaluationReport.t) (modes : list EvaluationMode.t)
    (metric : pystr * (EvaluationReport.t → option pyfloat)) : res ComparisonMetricRow.t :=
  res_bind (res_map (λ mode,
    res_bind (report_by_mode reports mode) (λ r, Ok (mode, metric.2 r))) modes) (λ values,
  Ok (ComparisonMetricRow.mk metric.1 values)).

Definition reported_modes (reports : list EvaluationReport.t) : list EvaluationMode.t :=
  filter (λ m, m ∈ (EvaluationReport.evaluation_mode <$> reports)) EvaluationMode.members.

Definition build_comparison {S} (clock : M S datetime) (reports : list EvaluationReport.t) :
    M S EvaluationComparison.t :=
  match reports with
  | [] => raise ValueError
  | first :: _ =>
      if negb (Nat.eqb (length (remove_dups ((λ r, (EvaluationReport.dataset_id r,
                 EvaluationReport.dataset_version r)) <$> reports))) 1) then raise ValueError
      else if negb (Nat.eqb (length (dict_by EvaluationReport.evaluation_mode reports)) (length reports))
      then raise ValueError
      else
        let modes := reported_modes reports in
        let* rows := of_res (res_map (metric_row reports modes) comparison_metrics) in
        let* generated_at := clock in
        ret (EvaluationComparison.mk generated_at (EvaluationReport.dataset_id first)
          (EvaluationReport.dataset_version first) (forallb EvaluationReport.synthetic reports)
          modes rows
          [lit "Calculated synthetic fixture comparison; not a live retrieval-quality claim."])
  end.

(** ** Text *)

Definition _display (value : option pyfloat) : pystr :=
  match value with Some x => fixed3 x | None => "N/A" end.

Definition format_report_summary (report : EvaluationReport.t) : pystr :=
  let retrieval := AggregateMetrics.retrieval (EvaluationReport.aggregate_metrics report) in
  let graph := AggregateMetrics.graph (EvaluationReport.aggregate_metrics report) in
  let k := str_int (EvaluationConfiguration.top_k (EvaluationReport.configuration report)) in
  str_join [10%Z]
    [lit "Mode: " ++ EvaluationMode.value (EvaluationReport.evaluation_mode report);
     lit "Profile: " ++ EvaluationReport.execution_profile report;
     lit "Cases: " ++ str_int (EvaluationReport.evaluated_cases report) ++ lit "/" ++
       str_int (EvaluationReport.total_cases report);
     lit "Hit Rate@" ++ k ++ lit ": " ++ _display (RetrievalMetrics.hit_rate_at_k retrieval);
     lit "Precision@" ++ k ++ lit ": " ++ _display (RetrievalMetrics.precision_at_k retrieval);
     lit "Recall@" ++ k ++ lit ": " ++ _display (RetrievalMetrics.recall_at_k retrieval);
     lit "MRR: " ++ _display (RetrievalMetrics.mrr retrieval);
     lit "Entity Hit Rate: " ++ _display (GraphMetrics.entity_hit_rate graph);
     lit "Relationship Hit Rate: " ++ _display (GraphMetrics.relationship_hit_rate graph);
     lit "Path Success: " ++ _display (GraphMetrics.path_success graph);
     lit "Provenance Coverage: " ++ _display (GraphMetrics.provenance_coverage graph);
     lit "Negative-query false positive rate: " ++
       _display (RetrievalMetrics.false_positive_rate retrieval)].

(** [row.values.get(mode)]. *)
Definition row_value (row : ComparisonMetricRow.t) (mode : EvaluationMode.t) : option pyfloat :=
  match get_by fst (ComparisonMetricRow.values row) mode with Some (_, v) => v | None => None end.

Definition format_comparison (comparison : EvaluationComparison.t) : pystr :=
  let modes := EvaluationComparison.modes comparison in
  str_join [10%Z]
    ((pad_right 28 "Metric" ++ (modes ≫= λ m, pad_left 12 (title (EvaluationMode.value m)))) ::
     ((λ row, pad_right 28 (ComparisonMetricRow.metric row) ++
        (modes ≫= λ m, pad_left 12 (_display (row_value row m)))) <$>
      EvaluationComparison.rows comparison)).

(** ** The comparison *)

(** A comparison of the reports: a column per mode that was run, a row per metric, each value
    the one its own report holds. *)
Record aligned (reports : list EvaluationReport.t) (c : EvaluationComparison.t) : Prop := {
  al_modes : ∀ m, m ∈ EvaluationComparison.modes c ↔ m ∈ EvaluationReport.evaluation_mode <$> reports;
  al_metrics : ComparisonMetricRow.metric <$> EvaluationComparison.rows c = fst <$> comparison_metrics;
  al_columns : Forall (λ row, fst <$> ComparisonMetricRow.values row = EvaluationComparison.modes c)
    (EvaluationComparison.rows c);
  al_values : ∀ row m v, row ∈ EvaluationComparison.rows c → (m, v) ∈ ComparisonMetricRow.values row →
    ∃ r p, r ∈ reports ∧ EvaluationReport.evaluation_mode r = m ∧
      (ComparisonMetricRow.metric row, p) ∈ comparison_metrics ∧ v = p r
}.

Section comparison.
Context (reports : list EvaluationReport.t).
Context (Hunique : NoDup (EvaluationReport.evaluation_mode <$> reports)).

Lemma elem_of_reported m :
  m ∈ reported_modes reports ↔ m ∈ EvaluationReport.evaluation_mode <$> reports.
Proof.
  unfold reported_modes. rewrite list_elem_of_filter. split; [tauto|]. intros Hm. split; [done|].
  destruct m; vm_compute; repeat constructor.
Qed.

Lemma report_found m :
  m ∈ reported_modes reports →
  ∃ r, report_by_mode reports m = Ok r ∧ r ∈ reports ∧ EvaluationReport.evaluation_mode r = m.
Proof.
  rewrite elem_of_reported. intros (r & -> & Hr)%list_elem_of_fmap. exists r.
  unfold report_by_mode. rewrite dict_by_unique by done.
  by rewrite (proj2 (get_by_Some EvaluationReport.evaluation_mode reports _ r Hunique)).
Qed.

Lemma metric_row_total metric :
  ∃ row, metric_row reports (reported_modes reports) metric = Ok row ∧
    ComparisonMetricRow.metric row = metric.1 ∧
    fst <$> ComparisonMetricRow.values row = reported_modes reports ∧
    ∀ m v, (m, v) ∈ ComparisonMetricRow.values row →
      ∃ r, r ∈ reports ∧ EvaluationReport.evaluation_mode r = m ∧ v = metric.2 r.
Proof.
  unfold metric_row.
  destruct (res_map_total (λ mode, res_bind (report_by_mode reports mode) (λ r, Ok (mode, metric.2 r)))
    (reported_modes reports)) as (values & -> & Hall).
  { intros m (r & -> & _)%report_found. by eexists. }
  eexists. split; [done|]. split; [done|]. cbn [ComparisonMetricRow.values].
  assert (Forall (λ m, ∃ r, report_by_mode reports m = Ok r ∧ r ∈ reports ∧
    EvaluationReport.evaluation_mode r = m) (reported_modes reports)) as Hin
    by (apply Forall_forall; apply report_found).
  revert Hin. induction Hall as [|m [m' v] ms values Hv _ IH]; intros Hin.
  { split; [done|]. by intros m v ?%elem_of_nil. }
  apply Forall_cons in Hin as [Hm Hin]. destruct (IH Hin) as [IH1 IH2].
  destruct Hm as (r & Hr & Hrep & Hmode). rewrite Hr in Hv. injection Hv as <- <-.
  csimpl. rewrite IH1. split; [done|]. intros m' v [[= -> ->]|Hmv]%elem_of_cons; [by exists r|].
  by apply IH2.
Qed.

(** Reports of one data set in distinct modes always compare; only the clock can raise. *)
Theorem comparison_aligned {S} (clock : M S datetime) key s :
  reports ≠ [] →
  Forall (λ r, (EvaluationReport.dataset_id r, EvaluationReport.dataset_version r) = key) reports →
  wp (build_comparison clock reports) (λ _ r,
    match r with
    | Ok c => aligned reports c
    | Raise e => (clock s).2 = Raise e
    end) s.
Proof.
  intros Hne Hkey. unfold build_comparison. pose proof metric_row_total as Htotal.
  destruct (res_map_total (metric_row reports (reported_modes reports)) comparison_metrics)
    as (rows & Hrows & Hall).
  { intros metric _. destruct (Htotal metric) as (row & -> & _). by eexists. }
  destruct reports as [|first rest] eqn:Hrep; [done|]. rewrite <- Hrep in *.
  rewrite (remove_dups_constant key); [|by rewrite Hrep|apply Forall_fmap; exact Hkey].
  rewrite dict_by_unique, !Nat.eqb_refl by done. cbn [length Nat.eqb negb]. cbv zeta.
  unfold wp, bind, of_res. rewrite Hrows. cbn [fst snd].
  cbn [fst snd]. destruct (clock s) as [s' [now|e]]; cbn [fst snd ret]; [|done].
  assert (∀ row, row ∈ rows → ∃ metric, metric ∈ comparison_metrics ∧
    metric_row reports (reported_modes reports) metric = Ok row) as Hof.
  { intros row [i Hi]%list_elem_of_lookup.
    destruct (Forall2_lookup_r _ _ _ _ _ Hall Hi) as (metric & Hm & Hr). exists metric.
    split; [by apply list_elem_of_lookup_2 in Hm|done]. }
  constructor; cbn [EvaluationComparison.modes EvaluationComparison.rows].
  - apply elem_of_reported.
  - clear -Hall Htotal. induction Hall as [|metric row l rows Hr _ IH]; [done|]. csimpl. rewrite IH.
    destruct (Htotal metric) as (row' & Hr' & <- & _). rewrite Hr in Hr'. by injection Hr' as ->.
  - apply Forall_forall. intros row (metric & _ & Hr)%Hof.
    destruct (Htotal metric) as (row' & Hr' & _ & Hc & _). rewrite Hr in Hr'. by injection Hr' as ->.
  - intros row m v (metric & Hin & Hr)%Hof Hmv.
    destruct (Htotal metric) as (row' & Hr' & Hname & _ & Hv). rewrite Hr in Hr'.
    injection Hr' as ->. destruct (Hv m v Hmv) as (r & Hrr & Hmode & ->).
    exists r, metric.2. rewrite Hname. split_and!; try done. by destruct metric.
Qed.
End comparison.
