(* ===== verification/Specialists.v ===== *)
(** The agents over the provider contract: app/services/llm.py, app/agents/structured_output.py,
    assessment_agent.py, architecture_agent.py, risk_governance_agent.py, synthesis_agent.py
    and the provider calls of evidence_agent.py, with the tool schemas they are given.

    An agent formats its prompt and asks the provider once; what the workflows assume of
    their agents follows from the contract of the provider. *)
From S2P Require Import Prelude PyText PyFloat Errors Domain AgentModels Schemas RuntimeModels.
From S2P Require Import Prompts Session Storage Telemetry Resilience Assessments Tools JsonText.
From S2P Require Import EvidenceAgent AgentPrompts AgentGraph MultiAgentGraph.
From S2P Require Import Unicode Settings Providers.

(** The classes the agents request: their schemas and validation are pydantic's. *)
Record agent_schemas := AgentSchemas {
  as_result : (pyval * (pyval → res AssessmentResult.t));
  as_brief : (pyval * (pyval → res EvidenceBrief.t));
  as_architecture : (pyval * (pyval → res ArchitectureRecommendation.t));
  as_review : (pyval * (pyval → res RiskGovernanceReview.t))
}.

Section agents.
Context {S : Type} (provider : StructuredModelProvider S) (schemas : agent_schemas).

Definition result_model : output_model AssessmentResult.t :=
  OutputModel (as_result schemas).1 (as_result schemas).2 (λ _, true).

(** A brief is stripped of surrounding blanks by its validation. *)
Definition item_stripped (i : EvidenceItem.t) : bool :=
  bool_decide (str_strip (EvidenceItem.claim i) = EvidenceItem.claim i) &&
  bool_decide (str_strip (EvidenceItem.relevance i) = EvidenceItem.relevance i) &&
  bool_decide (str_strip <$> EvidenceItem.notes i = EvidenceItem.notes i).
Definition brief_model : output_model EvidenceBrief.t :=
  OutputModel (as_brief schemas).1 (as_brief schemas).2
    (λ b, EvidenceBrief.valid b && forallb item_stripped (EvidenceBrief.evidence_items b)).
Definition architecture_model : output_model ArchitectureRecommendation.t :=
  OutputModel (as_architecture schemas).1 (as_architecture schemas).2
    ArchitectureRecommendation.valid.
Definition review_model : output_model RiskGovernanceReview.t :=
  OutputModel (as_review schemas).1 (as_review schemas).2 RiskGovernanceReview.valid.

(** ** services/llm.py *)

(** [ProviderAssessmentGenerator.generate]. *)
Definition generate (prompt : AssessmentPrompt.t) : M S AssessmentResult.t :=
  generate_structured provider (AssessmentPrompt.system prompt) (AssessmentPrompt.user prompt)
    result_model.

(** ** structured_output.py and the toolless specialists *)

Definition structured_generate {A} (system user : pystr) (output_model : output_model A) : M S A :=
  generate_structured provider system user output_model.

Definition analyze (request : AssessmentRequest.t) (brief : EvidenceBrief.t) :
    M S ArchitectureRecommendation.t :=
  structured_generate ARCHITECTURE_AGENT_SYSTEM_INSTRUCTIONS (build_architecture_input request brief)
    architecture_model.

Definition review (request : AssessmentRequest.t) (brief : EvidenceBrief.t) :
    M S RiskGovernanceReview.t :=
  structured_generate RISK_GOVERNANCE_AGENT_SYSTEM_INSTRUCTIONS
    (build_risk_governance_input request brief) review_model.

Definition synthesize (request : AssessmentRequest.t) (brief : EvidenceBrief.t)
    (architecture : option ArchitectureRecommendation.t)
    (risk_governance : option RiskGovernanceReview.t) (degradation_reasons : list pystr) :
    M S AssessmentResult.t :=
  structured_generate SYNTHESIS_AGENT_SYSTEM_INSTRUCTIONS
    (build_synthesis_input request brief architecture risk_governance degradation_reasons)
    result_model.

(** ** The tool schemas *)

(** [arguments_model.model_json_schema()] of a tool. *)
Context (model_json_schema : ToolDefinition S → pydict).

(** [d[key] = value]: the position of a known key is kept. *)
Fixpoint dict_set (key : pystr) (value : pyval) (d : pydict) : pydict :=
  match d with
  | [] => [(key, value)]
  | kv :: d' => if decide (kv.1 = key) then (key, value) :: d' else kv :: dict_set key value d'
  end.

Definition openai_schema (d : ToolDefinition S) : pydict :=
  [(lit "type", PStr (lit "function"));
   (lit "name", PStr (td_name d));
   (lit "description", PStr (td_description d));
   (lit "parameters", PDict (dict_set "additionalProperties" (PBool false) (model_json_schema d)));
   (lit "strict", PBool true)].

(** ** evidence_agent.py *)

Definition evidence_calls : evidence_provider S :=
  EvidenceProvider
    (λ user tools limit, decide_tool_call provider EVIDENCE_AGENT_SYSTEM_INSTRUCTIONS user
       (openai_schema <$> tools) limit)
    (λ user, structured_generate EVIDENCE_BRIEF_SYSTEM_INSTRUCTIONS user brief_model).

Definition evidence_gather {CH : CallHash} (tools : ToolRegistry S) (max_steps max_tool_calls : Z) :
    AssessmentRequest.t → M S EvidenceAgentOutcome.t :=
  gather evidence_calls tools build_evidence_decision_input build_evidence_brief_input max_steps
    max_tool_calls.

(** ** assessment_agent.py *)

Import AssessmentGraphState.

Definition decide_action (st : gstate) (step : Z) (tools : list (ToolDefinition S)) :
    M S AgentDecision.t :=
  let* decision :=
    decide_tool_call provider AGENT_SYSTEM_INSTRUCTIONS
      (build_agent_reasoning_input (request st) (retrieved_evidence st) (observed_documents st)
         (tool_history st) step (max_steps st))
      (openai_schema <$> tools) 200 in
  match decision with
  | None => of_res (AgentDecision.construct (AgentDecision.mk AgentDecisionType.SYNTHESIZE None))
  | Some d =>
      let* tool_request := of_res (AgentToolRequest.construct
        (AgentToolRequest.mk (ToolCallDecision.name d) (ToolCallDecision.arguments d))) in
      of_res (AgentDecision.construct
        (AgentDecision.mk AgentDecisionType.TOOL (Some tool_request)))
  end.

Definition agent_synthesize (request : AssessmentRequest.t) (evidence : list RetrievedEvidence.t)
    (documents : list ObservedKnowledgeDocument.t) : M S AssessmentResult.t :=
  generate (build_assessment_prompt request (build_agent_synthesis_context evidence documents)).

Definition assessment_agent (now : M S datetime) : agent S :=
  Agent decide_action agent_synthesize now.

Definition provider_specialists {CH : CallHash} (tools : ToolRegistry S)
    (max_steps max_tool_calls : Z) (now : M S datetime) (perf_counter : M S pyfloat) :
    specialists S :=
  Specialists (evidence_gather tools max_steps max_tool_calls) analyze review synthesize now
    perf_counter.
End agents.
