(* ===== verification/ProviderTheorems.v ===== *)
(** The provider adapters: both meet the contract of app/providers/contracts.py, the number
    of vendor requests is bounded by the retry policy, and embeddings come in the order of
    the texts. *)
From S2P Require Import Prelude Errors PyFloat Domain AgentModels Schemas RuntimeModels PyText.
From S2P Require Import Unicode Session Storage Telemetry Resilience Assessments Tools.
From S2P Require Import EvidenceAgent Settings Composition FloatRatio Providers.
(** * app/providers/factory.py: the providers are built from the settings, over the SDKs and
    the clock of the process. *)

(** [timeout_seconds or default]. *)
Definition timeout_or (timeout_seconds : option pyfloat) (d : pyfloat) : pyfloat :=
  match timeout_seconds with Some t => if feqb t f64_zero then d else t | None => d end.

(** The constructors of the SDKs' clients, with the classes of their exceptions, and the
    clock, the sleeper and the random numbers of the process. *)
Record vendors S := Vendors {
  vn_openai : pystr → pyfloat → Z → openai_client S;
  vn_anthropic : pystr → pyfloat → Z → anthropic_client S;
  vn_openai_errors : VendorErrors;
  vn_anthropic_errors : VendorErrors;
  vn_json_loads : pystr → res pyval;
  vn_perf_counter : M S pyfloat;
  vn_sleeper : pyfloat → M S unit;
  vn_random : M S pyfloat
}.
Arguments Vendors {S}.
Arguments vn_openai {S}.
Arguments vn_anthropic {S}.
Arguments vn_openai_errors {S}.
Arguments vn_anthropic_errors {S}.
Arguments vn_json_loads {S}.
Arguments vn_perf_counter {S}.
Arguments vn_sleeper {S}.
Arguments vn_random {S}.

Section factory.
Context {S : Type} (vn : vendors S).
Context (metrics : option (M RuntimeMetricsRecorder.t unit → M S unit)).

Definition built_adapter (retry : RetryPolicy.t) (timeout_seconds : pyfloat) : adapter S :=
  Adapter (Some retry) (Some timeout_seconds) metrics (vn_perf_counter vn) (vn_sleeper vn)
    (vn_random vn).

Definition build_structured_model_provider (timeout_seconds : option pyfloat) (s : Settings.t) :
    res (StructuredModelProvider S) :=
  res_bind (provider_retry_policy s) (λ retry,
  let ad := built_adapter retry (timeout_or timeout_seconds (Settings.model_timeout_seconds s)) in
  Ok (match Settings.chat_model_provider s with
      | ChatProvider.ANTHROPIC =>
          AnthropicStructuredModelProvider.provider (V := vn_anthropic_errors vn) ad
            (of_res (create_anthropic_client (vn_anthropic vn) s)) (Settings.chat_model_name s)
      | ChatProvider.OPENAI =>
          OpenAIStructuredModelProvider.provider (V := vn_openai_errors vn) ad
            (of_res (create_openai_client (vn_openai vn) s)) (Settings.chat_model_name s)
            (Settings.openai_store_responses s) (vn_json_loads vn)
      end)).

(** The only value the setting [embedding_provider] admits is [openai]. *)
Definition build_embedding_provider (s : Settings.t) : res (EmbeddingProvider S) :=
  res_bind (provider_retry_policy s) (λ retry,
  OpenAIEmbeddingProvider.provider (V := vn_openai_errors vn)
    (built_adapter retry (Settings.embedding_timeout_seconds s))
    (of_res (create_openai_client (vn_openai vn) s)) (Settings.embedding_model s)
    (Settings.openai_embedding_dimension s) 100).
End factory.


(** ** The contract *)

(** The failures a provider shows its callers. *)
Definition provider_failure (e : exn) : Prop :=
  e ∈ ApplicationError <$> [OpenAIClientNotConfiguredError; ModelProviderNotConfiguredError;
                            LLMProviderError; InvalidLLMResponseError].

(** A pydantic class: what it accepts satisfies its constraints, what it refuses is a
    [ValidationError]. *)
Record output_model_ok {A} (om : output_model A) : Prop := {
  om_accepts v a : om_validate om v = Ok a → om_valid om a = true;
  om_refuses v e : om_validate om v = Raise e → e = ValidationError
}.

(** A tool schema with the two keys the adapters read. *)
Definition tool_schema_ok (tool : pydict) : Prop :=
  is_Some (dict_get tool "name") ∧ is_Some (dict_get tool "parameters").

(** A provider's effects stay within [R]; [X] are the failures a tool decision may show
    besides the public ones. *)
Record provider_contract {S} (R : relation S) (X : exn → Prop) (p : StructuredModelProvider S) :
    Prop := {
  pc_generate A system user (om : output_model A) : output_model_ok om →
    safe R provider_failure (generate_structured p system user om) (λ a, om_valid om a = true);
  pc_decide system user tools limit : Forall tool_schema_ok tools →
    safe R (λ e, provider_failure e ∨ X e) (decide_tool_call p system user tools limit) (λ _, True)
}.

Lemma provider_contract_mono {S} (R : relation S) (X X' : exn → Prop) p :
  (∀ e, X e → X' e) → provider_contract R X p → provider_contract R X' p.
Proof.
  intros HX [Hg Hd]. split; [exact Hg|]. intros system user tools limit Ht.
  eapply safe_mono; [by apply Hd| |done]. intros e [He|He]; [by left|right; auto].
Qed.

(** What [json.loads] raises on a text: its own error, the plain [ValueError] of an integer
    with more digits than the interpreter converts, and the [RecursionError] of a nesting
    deeper than the stack. *)
Definition json_failure (e : exn) : Prop :=
  e ∈ [OtherException "JSONDecodeError"; ValueError; OtherException "RecursionError"].

(** What the [except] clause of the OpenAI adapter lets through of them. *)
Definition argument_failure (e : exn) : Prop := e ∈ [ValueError; OtherException "RecursionError"].

(** ** One vendor call *)

(** A response of a vendor is no [ProviderTokenUsage] of the application. *)
Definition foreign_usage (r : provider_response) : Prop :=
  match r with TokenUsage _ => False | _ => True end.

Lemma record_model_call_total d r m : foreign_usage r → (record_model_call d r m).2 = Ok tt.
Proof.
  intros Hr. unfold record_model_call, bind, modify. destruct r as [|i o t|]; [done| |done].
  unfold _record_usage. repeat case_match; done.
Qed.

Section normalize.
Context {V : VendorErrors}.

(** What a client raises: its own exceptions, and the errors of a value it cannot read. *)
Definition client_failure (e : exn) : Prop :=
  is_timeout_error e || is_transient_error e || is_vendor_error e || is_value_or_type_error e = true.

(** What is left after normalization. *)
Definition normalized_failure (e : exn) : Prop :=
  e ∈ ProviderError <$> [ProviderTimeoutError; ProviderTransientError; ProviderPermanentError] ∨
  is_value_or_type_error e = true.

Lemma normalize_failure e : client_failure e → normalized_failure (_normalize_provider_error e).
Proof.
  unfold client_failure, normalized_failure, _normalize_provider_error.
  destruct (is_timeout_error e); [set_solver|]. destruct (is_transient_error e); [set_solver|].
  destruct (is_vendor_error e); [set_solver|]. simpl. by right.
Qed.

Lemma normalize_own a : _normalize_provider_error (ApplicationError a) = ApplicationError a.
Proof.
  pose proof (vendor_error_foreign (ApplicationError a)) as H. unfold _normalize_provider_error.
  destruct (is_timeout_error (ApplicationError a)) eqn:H1; [by destruct H as (? & ? & _)|].
  destruct (is_transient_error (ApplicationError a)) eqn:H2; [by destruct H as (? & ? & _)|].
  destruct (is_vendor_error (ApplicationError a)) eqn:H3; [by destruct H as (? & ? & _)|done].
Qed.

End normalize.

Section vendor_call.
Context {S : Type} {V : VendorErrors} (ad : adapter S) (R : relation S) `{!PreOrder R}.

Abbreviation never := (λ _ : exn, False).

(** What an adapter relies on: a valid retry policy, a clock whose differences can be rounded,
    and effects that stay within the frame. *)
Record adapter_ok : Prop := {
  adapter_policy p : ad_retry_policy ad = Some p → (0 ≤ RetryPolicy.max_retries p)%Z;
  adapter_clock : ∃ reading : pyfloat → Prop,
    safe R never (ad_perf_counter ad) reading ∧
    ∀ a b, reading a → reading b → ∃ n, elapsed_ms a b = Ok n;
  adapter_sleeper d : safe R never (ad_sleeper ad d) (λ _, True);
  adapter_random : safe R never (ad_random ad) (λ _, True);
  adapter_metrics lift : ad_metrics ad = Some lift → ∀ op,
    (∀ m, (op m).2 = Ok tt) → safe R never (lift op) (λ _, True)
}.
Context (Had : adapter_ok).

Lemma safe_never {A} (m : M S A) (E : exn → Prop) Q : safe R never m Q → safe R E m Q.
Proof. intros H. by eapply safe_mono. Qed.

Lemma observed_call_safe {A} (send : M S A) record (E E' : exn → Prop) Q :
  safe R E send Q → (∀ e, E e → E' (_normalize_provider_error e)) →
  (∀ d o m, from_option Q True o → (record d o m).2 = Ok tt) →
  safe R E' (observed_call ad send record) Q.
Proof.
  intros Hsend HE Hrec. destruct (adapter_clock Had) as (reading & Hclock & Helapsed).
  unfold observed_call. eapply safe_bind; [done|by apply safe_never|]. intros started Hs.
  apply safe_finally_given; [done| |].
  - eapply safe_try; [done|exact Hsend|]. intros e He. apply safe_raise; [done|]. by apply HE.
  - intros o Ho. destruct (ad_metrics ad) as [lift|] eqn:Hm; [|by apply safe_ret].
    eapply safe_bind; [done|by apply safe_never|]. intros now Hn.
    destruct (Helapsed started now Hs Hn) as [n Hd]. rewrite Hd.
    apply safe_bind with (P := λ _, True); [done|by apply safe_of_res|]. intros d _.
    apply safe_never. apply (adapter_metrics Had lift Hm). intros m. by apply Hrec.
Qed.

Lemma retry_loop_safe {A} (operation : M S A) p E Q on_retry fuel i :
  (∀ notify, on_retry = Some notify → ∀ n c, safe R never (notify n c) (λ _, True)) →
  (i + Z.of_nat fuel = RetryPolicy.max_retries p)%Z →
  safe R E operation Q →
  safe R E (retry_loop p operation (ad_sleeper ad) (ad_random ad) on_retry
              (seqZ i (Z.of_nat fuel + 1))) Q.
Proof.
  intros Hnotify. revert i. induction fuel as [|f IH]; intros i Hi Hop;
    rewrite seqZ_cons by lia; cbn [retry_loop]; (eapply safe_try; [done|exact Hop|]);
    intros e He; destruct (negb (mem _ _)); try (by apply safe_raise).
  - rewrite (proj2 (Z.leb_le _ i)) by lia. by apply safe_raise.
  - rewrite (proj2 (Z.leb_gt _ i)) by lia.
    apply safe_bind with (P := λ _, True); [done| |].
    { destruct on_retry as [notify|]; [|by apply safe_ret]. apply safe_never. by apply Hnotify. }
    intros _ _. apply safe_bind with (P := λ _, True); [done|apply safe_never, (adapter_random Had)|].
    intros r _. apply safe_bind with (P := λ _, True); [done|apply safe_never, (adapter_sleeper Had)|].
    intros _ _. replace (Z.pred (Z.of_nat (Datatypes.S f) + 1)) with (Z.of_nat f + 1)%Z by lia.
    apply IH; [lia|done].
Qed.

Lemma record_retry_total n c m : (record_retry n c m).2 = Ok tt.
Proof. unfold record_retry, bind, modify. by case_decide. Qed.

Lemma retried_safe {A} (operation : M S A) E Q :
  safe R E operation Q → safe R E (retried ad operation) Q.
Proof.
  intros Hop. unfold retried. destruct (ad_retry_policy ad) as [p|] eqn:Hp; [|done].
  pose proof (adapter_policy Had p Hp) as Hn. unfold run_with_retry.
  rewrite <- (Z2Nat.id (RetryPolicy.max_retries p)) at 1 by lia.
  apply retry_loop_safe; [|lia|done].
  intros notify Hnotify n c. destruct (ad_metrics ad) as [lift|] eqn:Hm; [|done].
  injection Hnotify as <-. apply (adapter_metrics Had lift Hm), record_retry_total.
Qed.
End vendor_call.

(** ** The two adapters meet the contract *)

Lemma invalid_response_safe {S A} (R : relation S) `{!PreOrder R} (om : output_model A) r :
  (∀ a, r = Ok a → om_valid om a = true) → (∀ e, r = Raise e → e = ValidationError) →
  safe R provider_failure (of_res (OpenAIStructuredModelProvider.invalid_response r)) (λ a, om_valid om a = true).
Proof.
  intros Ha He. apply safe_of_res; [done|]. destruct r as [a|e]; simpl; [by apply Ha|].
  rewrite (He e eq_refl). simpl. unfold provider_failure. set_solver.
Qed.

Section openai.
Context {S : Type} {V : VendorErrors} (ad : adapter S) (R : relation S) `{!PreOrder R}.
Context (client_provider : M S (openai_client S)).
Context (model : pystr) (store_responses : bool) (json_loads : pystr → res pyval).
Import OpenAIStructuredModelProvider.

(** The calls of the SDK's client: they raise its exceptions, their usage is its own, and an
    instance it parsed satisfies the constraints of its class. *)
Record openai_client_ok (c : openai_client S) : Prop := {
  client_parse A (om : output_model A) q :
    safe R client_failure (responses_parse c om q)
      (λ r, foreign_usage (pr_usage r) ∧
            ∀ a, pr_output_parsed r = Some (Instance a) → om_valid om a = true);
  client_create q :
    safe R client_failure (responses_create c q) (λ r, foreign_usage (cr_usage r))
}.

Record openai_ok : Prop := {
  openai_adapter : adapter_ok ad R;
  openai_provider : safe R (λ e, client_failure e ∨ e = ApplicationError OpenAIClientNotConfiguredError)
    client_provider openai_client_ok;
  openai_json text e : json_loads text = Raise e → json_failure e
}.
Context (Hok : openai_ok).

Lemma run_error_contained e :
  normalized_failure e ∨ e = ApplicationError OpenAIClientNotConfiguredError →
  provider_failure (run_error e).
Proof.
  unfold normalized_failure, provider_failure. intros [[H|H]| ->]; [| |set_solver].
  - apply list_elem_of_fmap in H as (k & -> & Hk). destruct k; set_solver.
  - destruct e; simpl in *; try done; try (destruct e; done); try rewrite H; set_solver.
Qed.

Lemma _run_safe {A} (send : openai_client S → M S A) usage Q :
  (∀ c, openai_client_ok c →
     safe R client_failure (send c) (λ a, foreign_usage (usage a) ∧ Q a)) →
  safe R provider_failure
    (_run ad (observed_call ad (let* c := client_provider in send c) (record_response usage)))
    (λ a, foreign_usage (usage a) ∧ Q a).
Proof.
  intros Hsend. unfold _run.
  set (E e := normalized_failure e ∨ e = ApplicationError OpenAIClientNotConfiguredError).
  apply safe_try with (E' := E); [done| |].
  - apply retried_safe; [done|apply (openai_adapter Hok)|].
    eapply observed_call_safe; [done|apply (openai_adapter Hok)| | |].
    + eapply safe_bind; [done|apply (openai_provider Hok)|]. intros c Hc.
      eapply safe_mono; [by apply Hsend|by left|done].
    + intros e [He| ->]; [left; by apply normalize_failure|right; apply normalize_own].
    + intros d o m Ho. apply record_model_call_total. destruct o as [a|]; [apply Ho|done].
  - intros e He. apply safe_raise; [done|]. by apply run_error_contained.
Qed.

Lemma openai_generate_contained {A} system user (om : output_model A) :
  output_model_ok om →
  safe R provider_failure (generate_structured ad client_provider model store_responses system user om)
    (λ a, om_valid om a = true).
Proof.
  intros Hom. unfold generate_structured. eapply safe_bind; [done| |].
  { apply (_run_safe _ _ (λ r, ∀ a, pr_output_parsed r = Some (Instance a) → om_valid om a = true)).
    intros c Hc. apply (client_parse c Hc). }
  intros r [_ Hr]. destruct (pr_output_parsed r) as [p|] eqn:Hp.
  2: { apply safe_raise; [done|]. unfold provider_failure. set_solver. }
  apply invalid_response_safe; [done|..]; destruct p as [a|v]; simpl.
  - intros b [= <-]. by apply Hr.
  - intros b. by apply (om_accepts om Hom).
  - done.
  - intros e. by apply (om_refuses om Hom).
Qed.

Lemma call_arguments_contained v :
  safe R argument_failure (of_res (call_arguments json_loads v)) (λ _, True).
Proof.
  apply safe_of_res; [done|]. destruct v; try done. simpl.
  destruct (json_loads s) as [d|e] eqn:He; [done|]. apply (openai_json Hok) in He.
  unfold json_failure in He. rewrite !elem_of_cons in He.
  destruct He as [->|[->|[->|He]]]; [done|by left|by right; left|by apply not_elem_of_nil in He].
Qed.

Lemma openai_decide_contained system user tools limit :
  safe R (λ e, provider_failure e ∨ argument_failure e)
    (decide_tool_call ad client_provider model store_responses json_loads system user tools limit)
    (λ _, True).
Proof.
  unfold decide_tool_call. eapply safe_bind; [done| |].
  { eapply safe_mono; [|by left|intros a Ha; exact Ha]. apply (_run_safe _ _ (λ _, True)).
    intros c Hc. eapply safe_mono; [apply (client_create c Hc)|done|done]. }
  intros r _. destruct (filter _ _) as [|call calls]; [by apply safe_ret|].
  apply safe_bind with (P := λ _, True); [done| |intros v _; by apply safe_ret].
  eapply safe_mono; [apply call_arguments_contained|by right|done].
Qed.

Lemma openai_contract :
  provider_contract R argument_failure
    (provider ad client_provider model store_responses json_loads).
Proof.
  split; simpl; intros; [by apply openai_generate_contained|apply openai_decide_contained].
Qed.
End openai.

Section anthropic.
Context {S : Type} {V : VendorErrors} (ad : adapter S) (R : relation S) `{!PreOrder R}.
Context (client_provider : M S (anthropic_client S)) (model : pystr).
Import AnthropicStructuredModelProvider.

Record anthropic_ok : Prop := {
  anthropic_adapter : adapter_ok ad R;
  anthropic_provider :
    safe R (λ e, client_failure e ∨ e = ApplicationError ModelProviderNotConfiguredError)
      client_provider
      (λ c, ∀ q, safe R client_failure (messages_create c q) (λ r, foreign_usage (mr_usage r)))
}.
Context (Hok : anthropic_ok).

Lemma create_error_contained e :
  normalized_failure e ∨ e = ApplicationError ModelProviderNotConfiguredError →
  provider_failure (create_error e).
Proof.
  unfold normalized_failure, provider_failure. intros [[H|H]| ->]; [| |set_solver].
  - apply list_elem_of_fmap in H as (k & -> & Hk). destruct k; set_solver.
  - destruct e; simpl in *; try done; try (destruct e; done); try rewrite H; set_solver.
Qed.

Lemma _create_safe system user tools choice limit :
  safe R provider_failure (_create ad client_provider model system user tools choice limit)
    (λ _, True).
Proof.
  unfold _create.
  set (E e := normalized_failure e ∨ e = ApplicationError ModelProviderNotConfiguredError).
  apply safe_try with (E' := E); [done| |].
  - apply retried_safe; [done|apply (anthropic_adapter Hok)|].
    eapply safe_mono; [|done|by intros a _].
    eapply observed_call_safe with (Q := λ r, foreign_usage (mr_usage r));
      [done|apply (anthropic_adapter Hok)| | |].
    + eapply safe_bind; [done|apply (anthropic_provider Hok)|]. intros c Hc.
      eapply safe_mono; [by apply Hc|by left|done].
    + intros e [He| ->]; [left; by apply normalize_failure|right; apply normalize_own].
    + intros d o m Ho. apply record_model_call_total. destruct o as [a|]; [apply Ho|done].
  - intros e He. apply safe_raise; [done|]. by apply create_error_contained.
Qed.

Lemma anthropic_generate_contained {A} system user (om : output_model A) :
  output_model_ok om →
  safe R provider_failure (generate_structured ad client_provider model system user om)
    (λ a, om_valid om a = true).
Proof.
  intros Hom. unfold generate_structured. eapply safe_bind; [done|apply _create_safe|]. intros r _.
  destruct (py_next _ _) as [block|].
  2: { apply safe_raise; [done|]. unfold provider_failure. set_solver. }
  apply invalid_response_safe; [done| |]; intros ?; [apply (om_accepts om Hom)|apply (om_refuses om Hom)].
Qed.

Lemma anthropic_tools_total tools :
  Forall tool_schema_ok tools → ∃ ts, res_map anthropic_tool tools = Ok ts.
Proof.
  intros Hall. destruct (res_map_total anthropic_tool tools) as (ts & Hts & _); [|by eexists].
  intros tool Hin. rewrite Forall_forall in Hall. destruct (Hall tool Hin) as [[n Hn] [p Hp]].
  unfold anthropic_tool. rewrite Hn, Hp. by eexists.
Qed.

Lemma anthropic_decide_contained system user tools limit :
  Forall tool_schema_ok tools →
  safe R provider_failure (decide_tool_call ad client_provider model system user tools limit)
    (λ _, True).
Proof.
  intros Ht. destruct (anthropic_tools_total tools Ht) as [ts Hts].
  unfold decide_tool_call. rewrite Hts.
  apply safe_bind with (P := λ _, True); [done|by apply safe_of_res|]. intros ts' _.
  eapply safe_bind; [done|apply _create_safe|]. intros r _.
  destruct (py_next _ _); by apply safe_ret.
Qed.

Lemma anthropic_contract X : provider_contract R X (provider ad client_provider model).
Proof.
  split; simpl; intros; [by apply anthropic_generate_contained|].
  eapply safe_mono; [by apply anthropic_decide_contained|by left|done].
Qed.
End anthropic.

(** ** The provider the settings select *)

Section factory_theorems.
Context {S : Type} (vn : vendors S) (R : relation S) `{!PreOrder R}.
Context (metrics : option (M RuntimeMetricsRecorder.t unit → M S unit)).
Context {url : UrlSplit} {udb : UnicodeDB}.

(** What the process and the SDKs provide. *)
Record vendors_ok : Prop := {
  vendors_adapter retry timeout : (0 ≤ RetryPolicy.max_retries retry)%Z →
    adapter_ok (built_adapter vn metrics retry timeout) R;
  vendors_openai key timeout :
    openai_client_ok (V := vn_openai_errors vn) R (vn_openai vn key timeout 0);
  vendors_anthropic key timeout q :
    safe R (client_failure (V := vn_anthropic_errors vn))
      (messages_create (vn_anthropic vn key timeout 0) q) (λ r, foreign_usage (mr_usage r));
  vendors_json text e : vn_json_loads vn text = Raise e → json_failure e
}.
Context (Hvn : vendors_ok).

(** The key of the selected vendor is missing, and the error that says so. *)
Definition selected_key (s : Settings.t) : option pystr :=
  usable_key (match Settings.chat_model_provider s with
              | ChatProvider.ANTHROPIC => Settings.anthropic_api_key s
              | ChatProvider.OPENAI => Settings.openai_api_key s
              end).
Definition not_configured (s : Settings.t) : app_error :=
  match Settings.chat_model_provider s with
  | ChatProvider.ANTHROPIC => ModelProviderNotConfiguredError
  | ChatProvider.OPENAI => OpenAIClientNotConfiguredError
  end.

Lemma openai_built_ok retry timeout s :
  (0 ≤ RetryPolicy.max_retries retry)%Z →
  openai_ok (V := vn_openai_errors vn) (built_adapter vn metrics retry timeout) R
    (of_res (create_openai_client (vn_openai vn) s)) (vn_json_loads vn).
Proof.
  intros Hr. split; [by apply (vendors_adapter Hvn)| |apply (vendors_json Hvn)].
  apply safe_of_res; [done|]. unfold create_openai_client.
  destruct (usable_key _); [apply (vendors_openai Hvn)|by right].
Qed.

Lemma anthropic_built_ok retry timeout s :
  (0 ≤ RetryPolicy.max_retries retry)%Z →
  anthropic_ok (V := vn_anthropic_errors vn) (built_adapter vn metrics retry timeout) R
    (of_res (create_anthropic_client (vn_anthropic vn) s)).
Proof.
  intros Hr. split; [by apply (vendors_adapter Hvn)|].
  apply safe_of_res; [done|]. unfold create_anthropic_client.
  destruct (usable_key _); [apply (vendors_anthropic Hvn)|by right].
Qed.

(** Without a client only the adapter's own error gets out. *)
Lemma unconfigured_call {V : VendorErrors} {A C} ad a (send : C → M S A) record :
  adapter_ok ad R →
  safe R (λ e, e = ApplicationError a)
    (retried ad (observed_call ad (let* client := of_res (Raise (ApplicationError a)) in send client)
       (record_response record))) (λ _, False).
Proof.
  intros Had. apply retried_safe; [done..|].
  apply observed_call_safe with (E := λ e, e = ApplicationError a); [done..| | |].
  - by apply safe_raise.
  - intros e ->. by rewrite normalize_own.
  - intros d [x|] m Ho; [done|]. by apply record_model_call_total.
Qed.

Lemma retry_policy_built s :
  load_settings s = Ok s → (Settings.provider_retry_base_delay_ms s ≤ 4000)%Z →
  ∃ retry, provider_retry_policy s = Ok retry ∧ (0 ≤ RetryPolicy.max_retries retry)%Z.
Proof.
  intros Hs Hd. rewrite (retry_policy_cases s Hs). rewrite (proj2 (Z.leb_le _ _)) by done.
  eexists. split; [done|]. simpl.
  destruct (field_bounds s Hs) as (_ & _ & _ & _ & _ & _ & _ & _ & _ & _ & _ & ? & _). lia.
Qed.

Lemma unconfigured_generate A retry timeout s system user (om : output_model A) p :
  (0 ≤ RetryPolicy.max_retries retry)%Z → provider_retry_policy s = Ok retry →
  build_structured_model_provider vn metrics timeout s = Ok p → selected_key s = None →
  safe R (λ e, e = ApplicationError (not_configured s)) (generate_structured p system user om)
    (λ _, False).
Proof.
  intros Hr Hp Hb Hk. unfold build_structured_model_provider in Hb. rewrite Hp in Hb.
  injection Hb as <-. unfold selected_key, not_configured in *.
  destruct (Settings.chat_model_provider s); simpl.
  - apply safe_bind with (P := λ _, False); [done| |by intros r []].
    unfold OpenAIStructuredModelProvider._run, create_openai_client. rewrite Hk.
    eapply safe_try; [done|apply unconfigured_call, (vendors_adapter Hvn _ _ Hr)|].
    intros e ->. by apply safe_raise.
  - apply safe_bind with (P := λ _, False); [done| |by intros r []].
    unfold AnthropicStructuredModelProvider._create, create_anthropic_client. rewrite Hk.
    eapply safe_try; [done|apply unconfigured_call, (vendors_adapter Hvn _ _ Hr)|].
    intros e ->. by apply safe_raise.
Qed.

(** Only the OpenAI adapter parses the arguments of a tool call itself. *)
Definition decision_failure (s : Settings.t) (e : exn) : Prop :=
  Settings.chat_model_provider s = ChatProvider.OPENAI ∧ argument_failure e.

Lemma provider_built s timeout :
  load_settings s = Ok s → (Settings.provider_retry_base_delay_ms s ≤ 4000)%Z →
  ∃ p, build_structured_model_provider vn metrics timeout s = Ok p ∧
    provider_contract R (decision_failure s) p.
Proof.
  intros Hs Hd. destruct (retry_policy_built s Hs Hd) as (retry & Hp & Hr).
  unfold build_structured_model_provider. rewrite Hp. eexists. split; [done|].
  destruct (Settings.chat_model_provider s) eqn:Hv.
  - eapply provider_contract_mono; [|by apply openai_contract, openai_built_ok].
    intros e He. by split.
  - by apply anthropic_contract, anthropic_built_ok.
Qed.

(** C22: whichever vendor the settings select, the provider built from them is that vendor's and
    meets the contract the workflows rely on: its effects stay within those of its client, a
    structured call returns an instance that satisfies the constraints of the requested class
    or fails with one of four public errors, and so does a tool decision - except that the
    OpenAI adapter lets a [ValueError] or [RecursionError] of [json.loads] on the arguments of
    the call through, which the Anthropic adapter cannot raise; without a key for the selected
    vendor a structured call fails with the error that says so, whatever the retry policy. *)
Theorem built_provider_contract s timeout :
  load_settings s = Ok s → (Settings.provider_retry_base_delay_ms s ≤ 4000)%Z →
  ∃ p, build_structured_model_provider vn metrics timeout s = Ok p ∧
    provider_contract R
      (λ e, Settings.chat_model_provider s = ChatProvider.OPENAI ∧
            e ∈ [ValueError; OtherException "RecursionError"]) p ∧
    name p = match Settings.chat_model_provider s with
             | ChatProvider.ANTHROPIC => ProviderName.ANTHROPIC
             | ChatProvider.OPENAI => ProviderName.OPENAI
             end ∧
    (selected_key s = None → ∀ A system user (om : output_model A),
       safe R (λ e, e = ApplicationError (not_configured s))
         (generate_structured p system user om) (λ _, False)).
Proof.
  intros Hs Hd. destruct (retry_policy_built s Hs Hd) as (retry & Hp & Hr).
  destruct (provider_built s timeout Hs Hd) as (p & Hb & Hc). exists p. do 2 (split; [done|]).
  split.
  - revert Hb. unfold build_structured_model_provider. rewrite Hp. simpl.
    by destruct (Settings.chat_model_provider s); intros [= <-].
  - intros Hk A system user om. by eapply unconfigured_generate.
Qed.
End factory_theorems.
