(* ===== verification/EmbeddingTheorems.v ===== *)
(** The vendor requests of the adapters are bounded by the retry policy and all of them are
    recorded; [embed_texts] answers one valid vector per text, in the order of the texts. *)
From S2P Require Import Prelude PyText PyFloat Errors Domain AgentModels Schemas RuntimeModels.
From S2P Require Import Session Storage Telemetry Resilience Assessments Tools EvidenceAgent.
From S2P Require Import Unicode Settings FloatRatio Providers Composition ProviderTheorems.

(** ** Counting requests *)

Section requests.
Context {S : Type} {V : VendorErrors} (ad : adapter S) (calls recorded : S → nat).

(** At most [n] more requests are recorded, and no request goes unrecorded. *)
Definition spent (n : nat) : relation S := λ s s',
  (calls s ≤ calls s' ∧ calls s' + recorded s ≤ calls s + recorded s' ∧
   recorded s' ≤ recorded s + n)%nat.
Definition spends {A} (n : nat) (m : M S A) : Prop := ∀ s, wp m (λ s' _, spent n s s') s.

(** One request at most, and nothing recorded. *)
Definition asks {A} (m : M S A) : Prop := ∀ s,
  wp m (λ s' _, calls s ≤ calls s' ≤ calls s + 1 ∧ recorded s' = recorded s)%nat s.

Lemma spends_weaken {A} n k (m : M S A) : spends n m → (n ≤ k)%nat → spends k m.
Proof. intros H Hk s. eapply wp_mono; [apply H|]. unfold spent. lia. Qed.

Lemma spends_ret {A} (r : res A) : spends 0 (of_res r).
Proof. intros s. unfold wp, spent. simpl. lia. Qed.

Lemma spends_bind {A B} n k (m : M S A) (f : A → M S B) :
  spends n m → (∀ a, spends k (f a)) → spends (n + k) (let* a := m in f a).
Proof.
  intros Hm Hf s. apply wp_bind. eapply wp_mono; [apply Hm|]. intros s' [a|e] Hs.
  - eapply wp_mono; [apply Hf|]. unfold spent in *. lia.
  - unfold spent in *. lia.
Qed.

Lemma spends_try {A} n k (m : M S A) h :
  spends n m → (∀ e, spends k (h e)) → spends (n + k) (try_except m h).
Proof.
  intros Hm Hh s. apply wp_try. eapply wp_mono; [apply Hm|]. intros s' [a|e] Hs.
  - unfold spent in *. lia.
  - eapply wp_mono; [apply Hh|]. unfold spent in *. lia.
Qed.

(** The recorder takes an entry with each call recorded on it; the clock, the sleeper, the
    random numbers and the retry counters take none. *)
Record counted : Prop := {
  counted_clock : ∃ reading : pyfloat → Prop,
    (∀ s, wp (ad_perf_counter ad) (λ s' r, spent 0 s s' ∧ ∃ t, r = Ok t ∧ reading t) s) ∧
    ∀ a b, reading a → reading b → ∃ n, elapsed_ms a b = Ok n;
  counted_sleeper d : spends 0 (ad_sleeper ad d);
  counted_random : spends 0 (ad_random ad);
  counted_metrics : ∃ lift, ad_metrics ad = Some lift ∧
    (∀ n c, spends 0 (lift (record_retry n c))) ∧
    ∀ op, (∃ d u, op = record_model_call d u) ∨ (∃ d, op = record_embedding_call d) → ∀ s,
      wp (lift op) (λ s' _, calls s' = calls s ∧ recorded s' = recorded s + 1)%nat s
}.
Context (Hc : counted).

Lemma observed_call_spends {A} (send : M S A) record :
  asks send →
  (∀ d o, (∃ d' u, record d o = record_model_call d' u) ∨ (∃ d', record d o = record_embedding_call d')) →
  spends 1 (observed_call ad send record).
Proof.
  intros Hsend Hrec s. destruct (counted_clock Hc) as (reading & Hclock & Helapsed).
  destruct (counted_metrics Hc) as (lift & Hm & _ & Hlift). unfold observed_call.
  apply wp_bind. eapply wp_mono; [apply Hclock|]. intros s1 r (H1 & t & -> & Ht).
  apply wp_finally_given.
  apply wp_try. eapply wp_mono; [apply Hsend|]. intros s2 r2 H2.
  assert (∀ o, wp (match ad_metrics ad with None => ret tt | Some lift =>
      let* now := ad_perf_counter ad in let* d := of_res (elapsed_ms t now) in lift (record d o) end)
      (λ s' _, spent 1 s s') s2) as Hfinal; [|by destruct r2].
  intros o. rewrite Hm. apply wp_bind. eapply wp_mono; [apply Hclock|].
  intros s3 r3 (H3 & now & -> & Hnow). destruct (Helapsed t now Ht Hnow) as [d Hd]. rewrite Hd.
  apply wp_bind. unfold wp at 1. simpl. eapply wp_mono; [by apply Hlift|].
  unfold spent in *. simpl. lia.
Qed.

Lemma retry_loop_spends {A} (operation : M S A) p attempts lift :
  spends 1 operation → (∀ n c, spends 0 (lift (record_retry n c))) →
  spends (length attempts) (retry_loop p operation (ad_sleeper ad) (ad_random ad)
    (Some (λ n c, lift (record_retry n c))) attempts).
Proof.
  intros Hop Hl. induction attempts as [|i rest IH]; [apply spends_ret|]. cbn [retry_loop length].
  change (Datatypes.S (length rest)) with (1 + length rest)%nat. apply spends_try; [done|].
  intros e. destruct (negb (mem _ _)).
  { eapply spends_weaken; [apply (spends_ret (Raise e))|lia]. }
  destruct (Z.leb _ _). { eapply spends_weaken; [apply (spends_ret (Raise e))|lia]. }
  apply (spends_bind 0); [apply Hl|]. intros _.
  apply (spends_bind 0); [apply (counted_random Hc)|]. intros r.
  apply (spends_bind 0); [apply (counted_sleeper Hc)|]. by intros _.
Qed.

(** The attempts an adapter may make. *)
Definition attempts : nat :=
  match ad_retry_policy ad with
  | Some p => Z.to_nat (RetryPolicy.max_retries p) + 1
  | None => 1
  end.

Lemma retried_spends {A} (operation : M S A) :
  spends 1 operation → spends attempts (retried ad operation).
Proof.
  intros Hop. destruct (counted_metrics Hc) as (lift & Hm & Hl & _). unfold retried, attempts.
  destruct (ad_retry_policy ad) as [p|]; [|done]. unfold run_with_retry. rewrite Hm.
  eapply spends_weaken; [by apply retry_loop_spends|]. rewrite length_seqZ. lia.
Qed.

Lemma asks_client {A C} (client_provider : M S C) (send : C → M S A) :
  (∀ s, wp client_provider (λ s' r, spent 0 s s' ∧ ∀ c, r = Ok c → asks (send c)) s) →
  asks (let* c := client_provider in send c).
Proof.
  intros Hp s. apply wp_bind. eapply wp_mono; [apply Hp|]. intros s' [c|e] [Hs Hr].
  - eapply wp_mono; [by apply Hr|]. unfold spent in Hs. simpl. lia.
  - unfold spent in Hs. lia.
Qed.

Lemma call_spends {A C} (client_provider : M S C) (send : C → M S A) (usage : A → provider_response)
    (h : exn → exn) :
  (∀ s, wp client_provider (λ s' r, spent 0 s s' ∧ ∀ c, r = Ok c → asks (send c)) s) →
  spends attempts
    (try_except (retried ad (observed_call ad (let* c := client_provider in send c)
       (record_response usage))) (λ e, raise (h e))).
Proof.
  intros Hp. rewrite <- (Nat.add_0_r attempts). apply spends_try.
  - apply retried_spends, observed_call_spends; [by apply asks_client|].
    intros d o. left. by eexists _, _.
  - intros e. apply (spends_ret (Raise (h e))).
Qed.

Context (openai : M S (openai_client S)) (anthropic : M S (anthropic_client S)).

(** Each call of a client sends one request. *)
Context (Hopenai : ∀ s, wp openai (λ s' r, spent 0 s s' ∧ ∀ c, r = Ok c →
  (∀ A (om : output_model A) q, asks (responses_parse c om q)) ∧
  (∀ q, asks (responses_create c q)) ∧ ∀ q, asks (embeddings_create c q)) s).
Context (Hanthropic : ∀ s, wp anthropic (λ s' r, spent 0 s s' ∧ ∀ c, r = Ok c →
  ∀ q, asks (messages_create c q)) s).

Section embeddings.
Import OpenAIEmbeddingProvider.
Context (model : pystr) (dimension batch_size : Z).

Lemma embed_batches_spends client texts starts vectors :
  (∀ q, asks (embeddings_create client q)) →
  spends (length starts * attempts)
    (embed_batches ad model dimension batch_size client texts starts vectors).
Proof.
  intros Hcl. revert vectors. induction starts as [|i rest IH]; intros vectors; [apply spends_ret|].
  cbn [embed_batches length Nat.mul]. apply spends_bind.
  - apply retried_spends, observed_call_spends; [apply Hcl|]. intros d o. right. by eexists.
  - intros r. apply (spends_bind 0); [apply spends_ret|]. intros data. apply IH.
Qed.

Lemma embed_texts_spends texts :
  spends (length (batch_starts batch_size (Z.of_nat (length texts))) * attempts)
    (embed_texts ad openai model dimension batch_size texts).
Proof.
  unfold embed_texts. destruct (_ || _); [eapply spends_weaken; [apply (spends_ret (Raise _))|lia]|].
  set (n := (length _ * attempts)%nat).
  replace n with (n + 0)%nat by lia. apply spends_bind; [|intros; apply spends_ret].
  replace n with (n + 0)%nat by lia. apply spends_try; [|intros e; apply (spends_ret (Raise _))].
  intros s. apply wp_bind. eapply wp_mono; [apply Hopenai|]. intros s1 [c|e] [Hs Hr].
  - eapply wp_mono; [apply embed_batches_spends, (Hr c eq_refl)|]. unfold spent in *.
    subst n. simpl. lia.
  - unfold spent in *. lia.
Qed.
End embeddings.

Lemma batch_count batch_size n : (0 ≤ n)%Z → (0 < batch_size)%Z →
  length (OpenAIEmbeddingProvider.batch_starts batch_size n) =
  Z.to_nat ((n + batch_size - 1) / batch_size).
Proof.
  intros Hn Hb. unfold OpenAIEmbeddingProvider.batch_starts. by rewrite length_fmap, length_seqZ.
Qed.

(** an operation of an adapter sends at most [max_retries + 1] requests to its vendor, and
    [embed_texts] at most that many for each batch of texts, however the calls fail; no
    request goes unrecorded: the entries of the metrics recorder grow at least as much as the
    number of requests, and no more than the number of attempts. *)
Theorem vendor_requests_bounded A model store json_loads system user (om : output_model A) tools
    limit dimension batch_size texts :
  (0 < batch_size)%Z →
  spends attempts (OpenAIStructuredModelProvider.generate_structured ad openai model store
    system user om) ∧
  spends attempts (OpenAIStructuredModelProvider.decide_tool_call ad openai model store json_loads
    system user tools limit) ∧
  spends attempts (AnthropicStructuredModelProvider.generate_structured ad anthropic model
    system user om) ∧
  spends attempts (AnthropicStructuredModelProvider.decide_tool_call ad anthropic model
    system user tools limit) ∧
  spends (Z.to_nat ((Z.of_nat (length texts) + batch_size - 1) / batch_size) * attempts)
    (OpenAIEmbeddingProvider.embed_texts ad openai model dimension batch_size texts).
Proof.
  intros Hb. rewrite <- (batch_count batch_size (Z.of_nat (length texts))) by lia.
  split_and!; [..|by apply embed_texts_spends]; rewrite <- (Nat.add_0_r attempts).
  - apply spends_bind; [|intros r; destruct (pr_output_parsed r); apply spends_ret].
    apply call_spends. intros s. eapply wp_mono; [apply Hopenai|]. intros s' r [? Hr].
    split; [done|]. intros c Hcl. by apply (Hr c Hcl).
  - apply spends_bind.
    + apply call_spends. intros s. eapply wp_mono; [apply Hopenai|]. intros s' r [? Hr].
      split; [done|]. intros c Hcl. by apply (Hr c Hcl).
    + intros r. destruct (filter _ _) as [|call ?]; [apply spends_ret|].
      apply (spends_bind 0); [apply spends_ret|]. intros v. apply (spends_ret (Ok _)).
  - apply spends_bind; [|intros r; destruct (py_next _ _); apply spends_ret].
    apply call_spends. intros s. eapply wp_mono; [apply Hanthropic|]. intros s' r [? Hr].
    split; [done|]. intros c Hcl. by apply (Hr c Hcl).
  - apply (spends_bind 0); [apply spends_ret|]. intros ts.
    apply spends_bind; [|intros r; destruct (py_next _ _); [apply (spends_ret (Ok _))|apply (spends_ret (Ok _))]].
    apply call_spends. intros s. eapply wp_mono; [apply Hanthropic|]. intros s' r [? Hr].
    split; [done|]. intros c Hcl. by apply (Hr c Hcl).
Qed.
End requests.

(** ** Embeddings *)

Import OpenAIEmbeddingProvider.

(** The batches cover the texts. *)
Lemma batches_cover {A} (b : nat) (l : list A) i k :
  (length l ≤ (i + k) * b)%nat →
  mjoin ((λ j, take b (drop (j * b) l)) <$> seq i k) = drop (i * b) l.
Proof.
  revert i. induction k as [|k IH]; intros i Hl; simpl; [symmetry; apply drop_ge; lia|].
  rewrite IH by lia. rewrite <- (take_drop b (drop (i * b) l)) at 2. rewrite drop_drop.
  do 2 f_equal. lia.
Qed.

Lemma batch_texts {A} batch_size (texts : list A) :
  (0 < batch_size)%Z →
  mjoin ((λ start, take (Z.to_nat batch_size) (drop (Z.to_nat start) texts)) <$>
         batch_starts batch_size (Z.of_nat (length texts))) = texts.
Proof.
  intros Hb. unfold batch_starts, seqZ. rewrite <- !list_fmap_compose.
  set (n := Z.to_nat ((Z.of_nat (length texts) + batch_size - 1) / batch_size)).
  transitivity (drop (0 * Z.to_nat batch_size) texts); [|done].
  rewrite <- (batches_cover (Z.to_nat batch_size) texts 0 n).
  - f_equal. apply list_fmap_ext. intros ? j _. simpl. do 2 f_equal. lia.
  - subst n. pose proof (Z.div_mod (Z.of_nat (length texts) + batch_size - 1) batch_size ltac:(lia)).
    pose proof (Z.mod_pos_bound (Z.of_nat (length texts) + batch_size - 1) batch_size Hb).
    assert (0 ≤ (Z.of_nat (length texts) + batch_size - 1) / batch_size)%Z by (apply Z.div_pos; lia).
    zify. nia.
Qed.

(** A batch reordered by its indices. *)
Definition indexed {A} (f : A → list vector_value) (batch : list A) : list embedding_item :=
  imap (λ i t, EmbeddingItem (Z.of_nat i) (f t)) batch.

Lemma indexed_from_sorted {A} (f : A → list vector_value) batch k :
  StronglySorted index_le (imap (λ i t, EmbeddingItem (Z.of_nat (k + i)) (f t)) batch).
Proof.
  revert k. induction batch as [|t batch IH]; intros k; simpl; constructor.
  - specialize (IH (k + 1)%nat). erewrite imap_ext; [exact IH|]. intros i x _. simpl.
    do 2 f_equal. lia.
  - apply Forall_forall. intros x (i & y & -> & _)%elem_of_lookup_imap_1. unfold index_le. simpl. lia.
Qed.

Lemma indexed_index {A} (f : A → list vector_value) batch x y :
  x ∈ indexed f batch → y ∈ indexed f batch → ei_index x = ei_index y → x = y.
Proof.
  intros (i & t & -> & Hi)%elem_of_lookup_imap_1 (j & u & -> & Hj)%elem_of_lookup_imap_1.
  simpl. intros Heq. assert (i = j) as -> by lia. by rewrite Hi in Hj; injection Hj as ->.
Qed.

#[local] Instance index_le_trans : Transitive index_le.
Proof. intros a b c. unfold index_le. lia. Qed.
#[local] Instance index_le_total : Total index_le.
Proof. intros a b. unfold index_le. lia. Qed.

Lemma by_index_indexed {A} (f : A → list vector_value) batch data :
  data ≡ₚ indexed f batch → ei_embedding <$> by_index data = f <$> batch.
Proof.
  intros Hp. assert (by_index data = indexed f batch) as ->.
  { eapply (StronglySorted_unique_strong index_le).
    - intros x y Hx Hy Hxy Hyx. apply (indexed_index f batch); [|done|unfold index_le in *; lia].
      rewrite <- Hp. unfold by_index in Hx. by rewrite (merge_sort_Permutation index_le) in Hx.
    - apply (StronglySorted_merge_sort index_le).
    - apply (indexed_from_sorted f batch 0).
    - unfold by_index. by rewrite (merge_sort_Permutation index_le). }
  unfold indexed. rewrite fmap_imap. rewrite <- (imap_const f). by apply imap_ext.
Qed.

(** What [float] raises of a value that is no number. *)
Definition convertible (v : vector_value) : Prop :=
  match v with
  | VOther (Raise e) => conversion_error e = ApplicationError InvalidEmbeddingError
  | _ => True
  end.
Lemma to_float_raises v e :
  convertible v → to_float v = Raise e → conversion_error e = ApplicationError InvalidEmbeddingError.
Proof.
  destruct v as [x|n|[x|e']]; simpl; try done; [|by intros ? [= <-]].
  intros _. unfold int_float. destruct (float_of_Z n); try done. by intros [= <-].
Qed.

(** A response that can be read, or whose reading fails as that of a foreign object does. *)
Definition response_ok (r : embedding_response) : Prop :=
  match er_data r with
  | Ok data => Forall (λ i, Forall convertible (ei_embedding i)) data
  | Raise e => is_value_or_type_error e || bool_decide (e = OtherException "AttributeError") = true
  end.

(** The response to [q] holds the vectors [f] gives its texts, in any order, indexed. *)
Definition answers_with (f : pystr → list pyfloat) (q : embedding_request) (r : embedding_response) :
    Prop :=
  ∃ data, er_data r = Ok data ∧ data ≡ₚ indexed (λ t, VFloat <$> f t) (eq_input q).

Definition embedding_failure (e : exn) : Prop :=
  e ∈ ApplicationError <$> [EmbeddingNotConfiguredError; EmbeddingProviderError;
                            InvalidEmbeddingError].

Section embed.
Context {S : Type} {V : VendorErrors} (ad : adapter S) (R : relation S) `{!PreOrder R}.
Context (client_provider : M S (openai_client S)) (model : pystr) (dimension batch_size : Z).
Context (Had : adapter_ok ad R) (Hbatch : (0 < batch_size)%Z).

Abbreviation never := (λ _ : exn, False).
Abbreviation run := (embed_texts ad client_provider model dimension batch_size).

(** The client is given within the failures [Ec]; its embedding calls fail within [E] and
    answer within [Q]. *)
Definition serves (Ec E : exn → Prop) (Q : embedding_request → embedding_response → Prop) : Prop :=
  safe R Ec client_provider (λ c, ∀ q, safe R E (embeddings_create c q) (Q q)).

(** The failures of [create_openai_client]. *)
Definition unavailable (e : exn) : Prop :=
  e = ApplicationError OpenAIClientNotConfiguredError ∨ is_value_or_type_error e = true.
(** What the [except] clauses around the loop are given. *)
Definition loop_failure (e : exn) : Prop :=
  normalized_failure e ∨ e = ApplicationError OpenAIClientNotConfiguredError ∨
  is_value_or_type_error e || bool_decide (e = OtherException "AttributeError") = true.

Lemma batch_error_contained e : loop_failure e → embedding_failure (batch_error e).
Proof.
  unfold loop_failure, normalized_failure, embedding_failure.
  intros [[H|H]|[->|H]]; [| |set_solver|].
  - apply list_elem_of_fmap in H as (k & -> & Hk). destruct k; set_solver.
  - destruct e; simpl in *; try done; try rewrite H; simpl; set_solver.
  - destruct e; simpl in *; try done; try rewrite H; simpl; set_solver.
Qed.

Lemma request_batch_safe E E' c Q batch :
  (∀ q, safe R E (embeddings_create c q) (Q q)) →
  (∀ e, E e → E' (_normalize_provider_error e)) →
  safe R E' (retried ad (_request_batch ad model dimension c batch))
    (λ r, ∃ q, eq_input q = batch ∧ Q q r).
Proof.
  intros Hc HE. apply retried_safe; [done..|].
  apply observed_call_safe with (E := E); [done|done| |exact HE|done].
  eapply safe_mono; [apply Hc|done|]. intros r Hr. eexists. by split; [|exact Hr].
Qed.

(** The loop maintains a relation between the texts embedded so far and their vectors. *)
Lemma embed_batches_safe E c texts (I : list pystr → list (list vector_value) → Prop) starts sofar vs :
  (∀ batch, safe R E (retried ad (_request_batch ad model dimension c batch))
     (λ r, match er_data r with
           | Ok data => ∀ ts vs, I ts vs → I (ts ++ batch) (vs ++ (ei_embedding <$> by_index data))
           | Raise e => E e
           end)) →
  I sofar vs →
  safe R E (embed_batches ad model dimension batch_size c texts starts vs)
    (I (sofar ++ mjoin ((λ start, take (Z.to_nat batch_size) (drop (Z.to_nat start) texts)) <$> starts))).
Proof.
  intros Hreq. revert sofar vs. induction starts as [|i rest IH]; intros sofar vs HI;
    cbn [embed_batches fmap list_fmap mjoin list_join].
  { apply safe_ret; [done|]. by rewrite app_nil_r. }
  rewrite app_assoc. eapply safe_bind; [done|apply Hreq|]. intros r Hr. cbn beta in Hr.
  destruct (er_data r) as [data|e].
  - apply safe_bind with (P := λ d, d = data); [done|by apply safe_of_res|]. intros ? ->.
    by apply IH, Hr.
  - apply safe_bind with (P := λ _, False); [done|by apply safe_of_res|done].
Qed.

Lemma embed_loop_safe Ec E E' Q texts (I : list pystr → list (list vector_value) → Prop) :
  serves Ec E Q → (∀ e, E e → E' (_normalize_provider_error e)) → (∀ e, Ec e → E' e) →
  (∀ q r, Q q r → match er_data r with
                  | Ok data => ∀ ts vs, I ts vs →
                      I (ts ++ eq_input q) (vs ++ (ei_embedding <$> by_index data))
                  | Raise e => E' e
                  end) →
  I [] [] →
  safe R E' (let* client := client_provider in
    embed_batches ad model dimension batch_size client texts
      (batch_starts batch_size (Z.of_nat (length texts))) []) (I texts).
Proof.
  intros Hs Hn HE HQ HI. eapply safe_bind; [done|by eapply safe_mono; [apply Hs|exact HE|]|].
  intros c Hc. rewrite <- (batch_texts batch_size texts Hbatch) at 3.
  apply (embed_batches_safe E' c texts I _ [] []); [|done]. intros batch.
  eapply safe_mono; [by apply (request_batch_safe E E' c Q)|done|].
  intros r (q & <- & Hq). by apply HQ.
Qed.

Lemma converted_fits texts vs v :
  converted_vectors dimension texts vs = Ok v →
  length v = length texts ∧ Forall (λ x, vector_fits dimension x = true) v.
Proof.
  unfold converted_vectors. destruct (Nat.eqb_spec (length vs) (length texts)) as [Hl|]; [|done].
  simpl. destruct (res_map (res_map to_float) vs) as [w|] eqn:Hw; [|done].
  destruct (forallb _ w) eqn:Hf; [|done]. intros [= <-].
  split; [by rewrite (res_map_length _ _ _ Hw)|]. apply Forall_forall. intros x Hx. rewrite forallb_forall in Hf. by apply Hf, list_elem_of_In.
Qed.

Lemma converted_failure texts vs e :
  Forall (Forall convertible) vs → converted_vectors dimension texts vs = Raise e →
  e = ApplicationError InvalidEmbeddingError.
Proof.
  intros Hvs. unfold converted_vectors. destruct (negb _); [by intros [= <-]|].
  destruct (res_map (res_map to_float) vs) as [w|e'] eqn:Hw.
  - destruct (forallb _ w); [done|by intros [= <-]].
  - intros [= <-]. apply res_map_raises in Hw as (vec & Hvec & Hr).
    apply res_map_raises in Hr as (v & Hv & He). rewrite Forall_forall in Hvs.
    specialize (Hvs vec Hvec). rewrite Forall_forall in Hvs. exact (to_float_raises v e' (Hvs v Hv) He).
Qed.

Lemma floats_convert (f : pystr → list pyfloat) texts :
  res_map (res_map to_float) ((λ t, VFloat <$> f t) <$> texts) = Ok (f <$> texts).
Proof.
  apply res_map_fmap. intros t _. rewrite <- (list_fmap_id (f t)) at 2. by apply res_map_fmap.
Qed.

Lemma converted_answers (f : pystr → list pyfloat) texts :
  converted_vectors dimension texts ((λ t, VFloat <$> f t) <$> texts) =
  if forallb (vector_fits dimension) (f <$> texts) then Ok (f <$> texts)
  else Raise (ApplicationError InvalidEmbeddingError).
Proof.
  unfold converted_vectors. by rewrite length_fmap, Nat.eqb_refl, floats_convert.
Qed.

Lemma answers_step f q r ts vs :
  answers_with f q r → vs = (λ t, VFloat <$> f t) <$> ts →
  match er_data r with
  | Ok data => vs ++ (ei_embedding <$> by_index data) = (λ t, VFloat <$> f t) <$> (ts ++ eq_input q)
  | Raise _ => False
  end.
Proof.
  intros (data & -> & Hp) ->. by rewrite (by_index_indexed _ _ _ Hp), fmap_app.
Qed.

Lemma invalid_embedding : embedding_failure (ApplicationError InvalidEmbeddingError).
Proof. unfold embedding_failure. set_solver. Qed.

(** The exceptions of the loop, for a client that fails as documented. *)
Lemma loop_failures :
  (∀ e, client_failure e → loop_failure (_normalize_provider_error e)) ∧
  (∀ e, unavailable e → loop_failure e).
Proof.
  split; [intros e He; left; by apply normalize_failure|].
  intros e [-> |He]; [by right; left|right; right]. by rewrite He.
Qed.

(** [embed_texts] when the loop keeps [I]. *)
Lemma embed_texts_safe Q texts (I : list pystr → list (list vector_value) → Prop)
    (P : list (list pyfloat) → Prop) :
  serves unavailable client_failure Q →
  (∀ q r, Q q r → match er_data r with
                  | Ok data => ∀ ts vs, I ts vs →
                      I (ts ++ eq_input q) (vs ++ (ei_embedding <$> by_index data))
                  | Raise e => loop_failure e
                  end) →
  I [] [] →
  (∀ vs, I texts vs → match converted_vectors dimension texts vs with
                      | Ok v => P v
                      | Raise e => e = ApplicationError InvalidEmbeddingError
                      end) →
  safe R embedding_failure (run texts) P.
Proof.
  intros Hs HQ HI HP. unfold embed_texts.
  destruct (_ || _); [apply safe_raise; [done|apply invalid_embedding]|].
  apply safe_bind with (P := I texts); [done| |].
  - apply safe_try with (E' := loop_failure); [done| |].
    + destruct loop_failures. by eapply embed_loop_safe.
    + intros e He. apply safe_raise; [done|]. by apply batch_error_contained.
  - intros vs Hvs. apply safe_of_res; [done|]. specialize (HP vs Hvs).
    destruct (converted_vectors _ _ _) as [v|e]; [done|]. rewrite HP. apply invalid_embedding.
Qed.

Lemma by_index_convertible data :
  Forall (λ i, Forall convertible (ei_embedding i)) data →
  Forall (Forall convertible) (ei_embedding <$> by_index data).
Proof.
  intros Hd. apply Forall_fmap. unfold by_index. by rewrite (merge_sort_Permutation index_le).
Qed.

Lemma embeddings_contained texts :
  serves unavailable client_failure (λ _, response_ok) →
  safe R embedding_failure (run texts)
    (λ v, length v = length texts ∧ Forall (λ x, vector_fits dimension x = true) v).
Proof.
  intros Hs. apply (embed_texts_safe _ texts (λ _, Forall (Forall convertible)) _ Hs); [|constructor|].
  - intros q r. unfold response_ok. destruct (er_data r) as [data|e]; [|by right; right].
    intros Hd ts vs Hvs. apply Forall_app. split; [done|by apply by_index_convertible].
  - intros vs Hvs. destruct (converted_vectors _ _ _) as [v|e] eqn:Hc; [by eapply converted_fits|].
    by apply converted_failure in Hc.
Qed.

Lemma embeddings_exact f texts :
  serves unavailable client_failure (answers_with f) →
  safe R embedding_failure (run texts) (λ v, v = f <$> texts).
Proof.
  intros Hs.
  apply (embed_texts_safe _ texts (λ ts vs, vs = (λ t, VFloat <$> f t) <$> ts) _ Hs); [|done|].
  - intros q r Hq. pose proof (λ ts vs, answers_step f q r ts vs Hq) as H.
    destruct (er_data r); [done|]. by destruct (H [] [] eq_refl).
  - intros vs ->. rewrite converted_answers. by destruct (forallb _ _).
Qed.

Lemma embeddings_total f texts :
  serves never never (answers_with f) → texts ≠ [] →
  Forall (λ t, truthy (str_strip t) = true ∧ vector_fits dimension (f t) = true) texts →
  safe R never (run texts) (λ v, v = f <$> texts).
Proof.
  intros Hs Hne Hall. unfold embed_texts.
  assert (negb (truthy texts) || existsb (λ text, negb (truthy (str_strip text))) texts = false) as ->.
  { destruct texts as [|t ts]; [done|]. change (truthy (t :: ts)) with true. simpl negb.
    rewrite orb_false_l. apply not_true_iff_false. rewrite existsb_exists.
    intros (x & Hx & Hb). rewrite Forall_forall in Hall.
    destruct (Hall x) as [Ht _]; [by apply list_elem_of_In|]. by rewrite Ht in Hb. }
  apply safe_bind with (P := λ vs, vs = (λ t, VFloat <$> f t) <$> texts); [done| |].
  - apply safe_try with (E' := never); [done| |done].
    apply (embed_loop_safe never never never (answers_with f) texts
      (λ ts vs, vs = (λ t, VFloat <$> f t) <$> ts)); try done.
    intros q r Hq. pose proof (λ ts vs, answers_step f q r ts vs Hq) as H.
    destruct (er_data r); [done|]. by destruct (H [] [] eq_refl).
  - intros vs ->. apply safe_of_res; [done|]. rewrite converted_answers.
    assert (forallb (vector_fits dimension) (f <$> texts) = true) as ->; [|done].
    apply forallb_forall. intros x Hx. apply list_elem_of_In, list_elem_of_fmap in Hx as (t & -> & Ht).
    rewrite Forall_forall in Hall. by apply Hall.
Qed.

(** C24: [embed_texts] against any client: it fails only with one of three public errors, and
    what it returns is one vector of finite components and of the configured dimension for
    each text.  When the responses hold the vectors of their texts, in whatever order, the
    result is the vectors in the order of the texts; when moreover the client does not fail,
    every text has a visible character and every vector fits, the result is returned. *)
Theorem embeddings_ordered f texts :
  (serves unavailable client_failure (λ _, response_ok) →
   safe R embedding_failure (run texts)
     (λ v, length v = length texts ∧ Forall (λ x, vector_fits dimension x = true) v)) ∧
  (serves unavailable client_failure (answers_with f) →
   safe R embedding_failure (run texts) (λ v, v = f <$> texts)) ∧
  (serves never never (answers_with f) → texts ≠ [] →
   Forall (λ t, truthy (str_strip t) = true ∧ vector_fits dimension (f t) = true) texts →
   safe R never (run texts) (λ v, v = f <$> texts)).
Proof.
  split_and!; [apply embeddings_contained|apply embeddings_exact|apply embeddings_total].
Qed.
End embed.
