(* ===== verification/ProviderDemo.v ===== *)
(** Concrete clients: the theorems about the providers applied, and three behaviours worth
    knowing exhibited. *)
From S2P Require Import Prelude PyText PyFloat Errors Domain AgentModels Schemas RuntimeModels.
From S2P Require Import Session Storage Telemetry Resilience Assessments Tools EvidenceAgent.
From S2P Require Import Unicode Settings FloatRatio Providers Composition ProviderTheorems.
From S2P Require Import EmbeddingTheorems.

(** A world that counts the vendor requests and holds the recorder. *)
Record cloud := Cloud { requests : nat; recorder : RuntimeMetricsRecorder.t }.
Definition sending {A} (r : res A) : M cloud A := λ c, (Cloud (requests c + 1) (recorder c), r).
Definition on_recorder (op : M RuntimeMetricsRecorder.t unit) : M cloud unit := λ c,
  let '(m, r) := op (recorder c) in (Cloud (requests c) m, r).
Definition entries (c : cloud) : nat :=
  length (RuntimeMetricsRecorder.model_call_durations_ms (recorder c)) +
  length (RuntimeMetricsRecorder.embedding_call_durations_ms (recorder c)).

Definition demo_error (names : list string) (e : exn) : bool :=
  match e with OtherException name => mem name (lit <$> names) | _ => false end.
#[export] Instance demo_errors : VendorErrors.
Proof.
  refine (Build_VendorErrors (demo_error ["APITimeoutError"])
    (demo_error ["RateLimitError"; "APIConnectionError"; "InternalServerError"])
    (demo_error ["BadRequestError"]) _).
  intros e. destruct e; simpl; try done. intros H. exists type_name. split; [done|].
  apply orb_true_iff in H as [H|H]; [apply orb_true_iff in H as [H|H]|];
    apply mem_spec in H; repeat (apply elem_of_cons in H as [->|H]); try by vm_compute.
  all: by apply elem_of_nil in H.
Defined.

Definition three_retries : RetryPolicy.t := RetryPolicy.mk 3 0 0 f64_zero.
Definition demo_adapter : adapter cloud :=
  Adapter (Some three_retries) None (Some on_recorder) (ret f64_one) (λ _, ret tt) (ret f64_zero).

(** A vendor that is never there. *)
Definition busy_client : openai_client cloud :=
  OpenAIClient (λ A _ _, sending (Raise (OtherException "RateLimitError")))
    (λ _, sending (Raise (OtherException "RateLimitError")))
    (λ _, sending (Raise (OtherException "RateLimitError"))).

(** A vendor that answers, its embeddings last index first: the vector of a text is its
    length. *)
Definition demo_vector (t : pystr) : list pyfloat := [float_of_Z (Z.of_nat (length t))].
Definition demo_response : created_response :=
  CreatedResponse (WithUsage (PInt 3) (PInt 4) PNone)
    [OutputItem (Some (lit "function_call")) "search_knowledge" (PStr "{}")].
Definition demo_openai : openai_client cloud :=
  OpenAIClient (λ A _ _, sending (Ok (ParsedResponse NoUsage (Some (Value (PDict []))))))
    (λ _, sending (Ok demo_response))
    (λ q, sending (Ok (EmbeddingResponse (Ok (reverse (indexed (λ t, VFloat <$> demo_vector t)
                                                         (eq_input q))))))).
Definition demo_anthropic : anthropic_client cloud :=
  AnthropicClient (λ _, sending (Ok (MessageResponse NoUsage
    [ContentBlock (Some (lit "tool_use")) (Some (lit "submit_structured_result")) (PDict [])]))).

Definition empty_cloud : cloud := Cloud 0 RuntimeMetricsRecorder.empty.
Definition flag_model : output_model bool :=
  OutputModel PNone (λ v, match v with PDict [] => Ok true | _ => Raise ValidationError end) id.

(** Four attempts, four requests, four records, and the public error. *)
Example retries_exhausted :
  let out := OpenAIStructuredModelProvider.generate_structured demo_adapter
    (ret busy_client) "m" false "system" "user" flag_model empty_cloud in
  (requests out.1, entries out.1, RuntimeMetricsRecorder.retry_count (recorder out.1), out.2) =
    (4%nat, 4%nat, 3%Z, Raise (ApplicationError LLMProviderError)).
Proof. vm_compute. reflexivity. Qed.

(** The arguments of a tool call are parsed before they are checked, and a number with too
    many digits is a plain [ValueError], which the [except] clause lets through. *)
Example long_number_escapes :
  (OpenAIStructuredModelProvider.decide_tool_call demo_adapter (ret demo_openai) "m" false
     (λ _, Raise ValueError) "system" "user" [] 200 empty_cloud).2 = Raise ValueError.
Proof. vm_compute. reflexivity. Qed.

(** Only the total number of vectors is checked: a batch with a vector too few followed by
    one with a vector too many gives the third text the vector of another one. *)
Definition uneven_client : openai_client cloud :=
  OpenAIClient (λ A _ _, sending (Raise TypeError)) (λ _, sending (Raise TypeError))
    (λ q, sending (Ok (EmbeddingResponse (Ok (
       match indexed (λ t, VFloat <$> demo_vector t) (eq_input q) with
       | [a; b] => if Nat.eqb (length (ei_embedding a)) 1 &&
                      bool_decide (eq_input q = lit <$> ["a"; "bb"]) then [a] else [a; b; b]
       | l => l
       end))))).
Example uneven_batches_shift :
  (OpenAIEmbeddingProvider.embed_texts demo_adapter (ret uneven_client) "m" 1 2
     (lit <$> ["a"; "bb"; "ccc"; "dddd"]) empty_cloud).2 =
  Ok ((λ n, [float_of_Z n]) <$> [1; 3; 4; 4]%Z).
Proof. vm_compute. reflexivity. Qed.

(** *** Witnesses *)

Definition anything_goes : relation cloud := λ _ _, True.
#[export] Instance anything_goes_preorder : PreOrder anything_goes.
Proof. by split. Qed.

Lemma safe_sending {A} (r : res A) E Q :
  match r with Ok a => Q a | Raise e => E e end → safe anything_goes E (sending r) Q.
Proof. intros H s. unfold wp. simpl. by destruct r. Qed.

Lemma demo_adapter_ok retry timeout : (0 ≤ RetryPolicy.max_retries retry)%Z →
  adapter_ok (Adapter (Some retry) timeout (Some on_recorder) (ret f64_one) (λ _, ret tt)
    (ret f64_zero)) anything_goes.
Proof.
  intros Hr. split; simpl.
  - by intros p [= <-].
  - exists (λ t, t = f64_one). split; [by apply safe_ret|]. intros a b -> ->. by eexists.
  - intros d. by apply safe_ret.
  - by apply safe_ret.
  - intros lift [= <-] op Hop s. unfold wp, on_recorder. specialize (Hop (recorder s)).
    by destruct (op (recorder s)) as [m [[]|e]].
Qed.

Definition demo_vendors : vendors cloud :=
  Vendors (λ _ _ _, demo_openai) (λ _ _ _, demo_anthropic) demo_errors demo_errors
    (λ text, if decide (text = lit "{}") then Ok (PDict []) else Raise ValueError)
    (ret f64_one) (λ _, ret tt) (ret f64_zero).

Lemma demo_vendors_ok : vendors_ok demo_vendors anything_goes (Some on_recorder).
Proof.
  split; simpl.
  - intros retry timeout Hr. by apply demo_adapter_ok.
  - intros key timeout. split; intros; apply safe_sending; simpl; [|done]. by split.
  - intros. by apply safe_sending.
  - intros text e. case_decide; [done|]. intros [= <-]. right. left.
Qed.

Definition keyless : Settings.t := Settings.defaults.
Example keyless_loads : Settings.load_settings (udb := ascii_db) keyless = Ok keyless.
Proof. vm_compute. reflexivity. Qed.

Lemma built_provider_contract_witness :
  ∃ p, build_structured_model_provider demo_vendors (Some on_recorder) None keyless = Ok p ∧
    provider_contract anything_goes
      (λ e, Settings.chat_model_provider keyless = ChatProvider.OPENAI ∧
            e ∈ [ValueError; OtherException "RecursionError"]) p ∧
    (generate_structured p "s" "u" flag_model empty_cloud).2 =
      Raise (ApplicationError OpenAIClientNotConfiguredError).
Proof.
  destruct (built_provider_contract (udb := ascii_db) demo_vendors anything_goes (Some on_recorder)
    demo_vendors_ok keyless None keyless_loads ltac:(vm_compute; discriminate))
    as (p & Hp & Hc & _ & Hk).
  exists p. split; [exact Hp|]. split; [exact Hc|].
  specialize (Hk eq_refl bool (lit "s") (lit "u") flag_model empty_cloud). unfold wp in Hk.
  destruct (generate_structured p _ _ flag_model empty_cloud) as [c [b|e]].
  - by destruct Hk.
  - destruct Hk as [_ Hk]. simpl in Hk. by rewrite Hk.
Defined.

Lemma demo_counted : counted demo_adapter requests entries.
Proof.
  split; simpl.
  - exists (λ t, t = f64_one). split.
    + intros s. split; [unfold spent; simpl; lia|by exists f64_one].
    + intros a b -> ->. by eexists.
  - intros d s. unfold wp, spent. simpl. lia.
  - intros s. unfold wp, spent. simpl. lia.
  - exists on_recorder. split; [done|]. split.
    + intros n c s. unfold wp, on_recorder, record_retry, bind, modify, spent. simpl.
      case_decide; unfold entries; simpl; lia.
    + intros op [(d & u & ->)|(d & ->)] s; unfold wp, on_recorder, entries; simpl.
      * unfold record_model_call, bind, modify. simpl.
        assert (∀ m, RuntimeMetricsRecorder.model_call_durations_ms (_record_usage u m).1 =
                       RuntimeMetricsRecorder.model_call_durations_ms m ∧
                     RuntimeMetricsRecorder.embedding_call_durations_ms (_record_usage u m).1 =
                       RuntimeMetricsRecorder.embedding_call_durations_ms m) as Hu.
        { intros m. unfold _record_usage, add_counter, bind, modify, raise, ret.
          repeat case_match; simplify_eq; done. }
        match goal with |- context [_record_usage u ?m] =>
          specialize (Hu m); destruct (_record_usage u m) as [m' r] end.
        simpl in *. destruct Hu as [-> ->]. rewrite length_app. simpl. lia.
      * rewrite length_app. simpl. lia.
Qed.

Lemma demo_clients :
  (∀ s, wp (ret demo_openai) (λ s' r, spent requests entries 0 s s' ∧ ∀ c, r = Ok c →
     (∀ A (om : output_model A) q, asks requests entries (responses_parse c om q)) ∧
     (∀ q, asks requests entries (responses_create c q)) ∧
     ∀ q, asks requests entries (embeddings_create c q)) s) ∧
  (∀ s, wp (ret demo_anthropic) (λ s' r, spent requests entries 0 s s' ∧ ∀ c, r = Ok c →
     ∀ q, asks requests entries (messages_create c q)) s).
Proof.
  split; intros s; (split; [unfold spent; simpl; lia|]); intros c [= <-].
  - split_and!; intros; intros w; unfold wp, entries; simpl; lia.
  - intros q w. unfold wp, entries. simpl. lia.
Qed.

Lemma vendor_requests_bounded_witness :
  spends requests entries 8
    (OpenAIEmbeddingProvider.embed_texts demo_adapter (ret demo_openai) "m" 1 2
       (lit <$> ["a"; "bb"; "ccc"])).
Proof.
  destruct demo_clients as [Ho Ha].
  destruct (vendor_requests_bounded demo_adapter requests entries demo_counted (ret demo_openai)
    (ret demo_anthropic) Ho Ha bool "m" false (λ _, Ok PNone) [] [] flag_model [] 200 1 2
    (lit <$> ["a"; "bb"; "ccc"])) as (_ & _ & _ & _ & H); [reflexivity|exact H].
Defined.

Lemma demo_serves :
  serves anything_goes (ret demo_openai) (λ _, False) (λ _, False) (answers_with demo_vector).
Proof.
  apply safe_ret; [apply _|]. intros q. apply safe_sending. eexists. split; [reflexivity|].
  apply reverse_Permutation.
Qed.

Lemma embeddings_ordered_witness :
  (OpenAIEmbeddingProvider.embed_texts demo_adapter (ret demo_openai) "m" 1 2
     (lit <$> ["a"; "bb"; "ccc"]) empty_cloud).2 =
  Ok (demo_vector <$> (lit <$> ["a"; "bb"; "ccc"])).
Proof.
  destruct (embeddings_ordered demo_adapter anything_goes (ret demo_openai) "m" 1 2
    (demo_adapter_ok three_retries None ltac:(by vm_compute)) ltac:(lia) demo_vector
    (lit <$> ["a"; "bb"; "ccc"])) as (_ & _ & H).
  specialize (H demo_serves ltac:(done)
    ltac:(repeat constructor; vm_compute; reflexivity) empty_cloud).
  unfold wp in H. destruct (OpenAIEmbeddingProvider.embed_texts _ _ _ _ _ _ empty_cloud) as [c [v|e]].
  - destruct H as [_ H]. simpl in H. by rewrite H.
  - by destruct H.
Defined.
