(* ===== verification/SpecialistTheorems.v ===== *)
(** What the workflows assume of their agents follows from the provider contract; with the
    provider built from the settings, the whole assessment service is composed. *)
From S2P Require Import Prelude PyText PyFloat Errors Domain AgentModels Schemas RuntimeModels.
From S2P Require Import Prompts Session Storage Telemetry Resilience Assessments Tools JsonText.
From S2P Require Import EvidenceAgent EvidenceTheorems AgentPrompts AgentGraph AgentGraphTheorems.
From S2P Require Import MultiAgentGraph MultiAgentTheorems AssessmentLifecycle MemorySession.
From S2P Require Import Unicode Settings Governance GovernanceSpec Composition KnowledgeTools.
From S2P Require Import Providers Specialists ProviderTheorems ProviderDemo.

(** The requested classes validate as pydantic does. *)
Record agent_schemas_ok (schemas : agent_schemas) : Prop := {
  schemas_result : output_model_ok (result_model schemas);
  schemas_brief : output_model_ok (brief_model schemas);
  schemas_architecture : output_model_ok (architecture_model schemas);
  schemas_review : output_model_ok (review_model schemas)
}.

Lemma brief_model_ok schemas b : om_valid (brief_model schemas) b = true → brief_ok b.
Proof.
  simpl. intros [Hv Hs]%andb_true_iff. split; [done|]. apply Forall_forall. intros i Hi.
  rewrite forallb_forall in Hs. specialize (Hs i (proj1 (list_elem_of_In _ _) Hi)).
  unfold item_stripped in Hs. rewrite !andb_true_iff, !bool_decide_eq_true in Hs.
  destruct Hs as [[H1 H2] H3]. destruct i. unfold EvidenceItem.normalize in *. simpl in *. congruence.
Qed.

Lemma openai_schema_ok {S} (json_schema : ToolDefinition S → pydict) tools :
  Forall tool_schema_ok (openai_schema json_schema <$> tools).
Proof. apply Forall_fmap, Forall_true. intros d. by split; eexists. Qed.

Section agents.
Context {S : Type} (R : relation S) `{!PreOrder R} (p : StructuredModelProvider S).
Context (schemas : agent_schemas) (json_schema : ToolDefinition S → pydict) {CH : CallHash}.
Context (X : exn → Prop) (Hp : provider_contract R X p) (Hs : agent_schemas_ok schemas).

(** What an agent raises: the provider's failures, [X] those of its tool decisions, the
    refusal of a tool request, and a call that has no fingerprint. *)
Definition agent_failure (e : exn) : Prop :=
  (provider_failure e ∨ X e) ∨ e = ValidationError ∨ unencodable e.

Lemma structured_frames {A} system user (om : output_model A) :
  output_model_ok om → frames R (generate_structured p system user om).
Proof. intros Hom s. apply (pc_generate R X p Hp A system user om Hom s). Qed.

Lemma generate_contained prompt : safe R provider_failure (generate p schemas prompt) (λ _, True).
Proof.
  eapply safe_mono; [apply (pc_generate R X p Hp), (schemas_result _ Hs)|done|done].
Qed.

Lemma evidence_provider_ok : provider_ok (evidence_calls p schemas json_schema) R agent_failure.
Proof.
  split; simpl; intros.
  - eapply safe_mono; [apply (pc_decide R X p Hp), openai_schema_ok|by left|done].
  - eapply safe_mono; [apply (pc_generate R X p Hp), (schemas_brief schemas Hs)|by left; left|].
    intros b. apply (brief_model_ok schemas).
Qed.

Lemma assessment_agent_ok now :
  safe R (λ _, False) now (λ t, datetime.utcoffset t = Some 0%Z) →
  agent_ok (assessment_agent p schemas json_schema now) R agent_failure.
Proof.
  intros Hnow. split; simpl; [| |done].
  - intros st step tools. unfold decide_action.
    eapply safe_bind; [done|eapply safe_mono;
      [apply (pc_decide R X p Hp), openai_schema_ok|by left|done]|].
    intros [d|] _; [|by apply safe_of_res].
    apply safe_bind with (P := λ q, AgentToolRequest.valid q = true); [done| |].
    + apply safe_of_res; [done|]. unfold AgentToolRequest.construct.
      destruct (AgentToolRequest.valid _) eqn:Hv; [done|by right; left].
    + intros q Hq. apply safe_of_res; [done|].
      assert (AgentDecision.valid (AgentDecision.mk AgentDecisionType.TOOL (Some q)) = true) as Hv.
      { unfold AgentDecision.valid. cbn -[AgentToolRequest.valid]. by rewrite Hq. }
      unfold AgentDecision.construct. by rewrite Hv.
  - intros request evidence documents. eapply safe_mono; [apply generate_contained|by left; left|done].
Qed.

Section multi_agent.
Context (tools : ToolRegistry S) (max_steps max_tool_calls : Z).
Context (now : M S datetime) (perf_counter : M S pyfloat).
Context (Htools : registry_ok R tools) (Hms : (1 ≤ max_steps)%Z) (Hmc : (1 ≤ max_tool_calls)%Z).
Context (Hnow : safe R (λ _, False) now (λ t, datetime.utcoffset t = Some 0%Z)).
Context (Hclock : ∃ reading : pyfloat → Prop,
  safe R (λ _, False) perf_counter reading ∧
  ∀ a b, reading a → reading b → ∃ n, elapsed_ms a b = Ok n).

Lemma provider_specialists_ok :
  specialists_ok R (provider_specialists p schemas json_schema tools max_steps max_tool_calls now
    perf_counter).
Proof.
  assert (∀ rq, safe R agent_failure (evidence_gather p schemas json_schema tools max_steps
    max_tool_calls rq) (EvidenceTheorems.outcome_ok max_steps max_tool_calls)) as Hgather.
  { intros rq. apply gather_contained; [done|apply evidence_provider_ok|done| |done|done].
    intros e He. by right; right. }
  split; simpl.
  - intros rq s. apply (Hgather rq s).
  - intros rq brief. apply structured_frames, (schemas_architecture _ Hs).
  - intros rq brief. apply structured_frames, (schemas_review _ Hs).
  - intros rq brief a g reasons. apply structured_frames, (schemas_result _ Hs).
  - intros rq o (s & s' & Ho). specialize (Hgather rq s). unfold wp in Hgather.
    rewrite Ho in Hgather. by destruct Hgather as (_ & _ & _ & _ & _ & _ & _ & Hg).
  - exact Hnow.
  - exact Hclock.
Qed.

(** C23: the agents built over a provider that meets its contract meet the contracts the
    workflows are proved against: the four specialists stay within the provider's and the
    tools' effects and hand over valid graph metadata, the single agent answers valid
    decisions and fails only with a failure the contract admits, a refused tool request or a
    call that has no fingerprint, the generator fails only with a public provider error, and what the
    toolless specialists return satisfies the constraints of its class. *)
Theorem agents_meet_contracts :
  specialists_ok R (provider_specialists p schemas json_schema tools max_steps max_tool_calls now
    perf_counter) ∧
  agent_ok (assessment_agent p schemas json_schema now) R agent_failure ∧
  (∀ prompt, safe R provider_failure (generate p schemas prompt) (λ _, True)) ∧
  (∀ rq brief, safe R provider_failure (analyze p schemas rq brief)
     (λ a, ArchitectureRecommendation.valid a = true)) ∧
  (∀ rq brief, safe R provider_failure (review p schemas rq brief)
     (λ r, RiskGovernanceReview.valid r = true)) ∧
  (∀ rq, safe R agent_failure
     (evidence_gather p schemas json_schema tools max_steps max_tool_calls rq)
     (EvidenceTheorems.outcome_ok max_steps max_tool_calls)).
Proof.
  split_and!.
  - apply provider_specialists_ok.
  - by apply assessment_agent_ok.
  - apply generate_contained.
  - intros rq brief. apply (pc_generate R X p Hp), (schemas_architecture _ Hs).
  - intros rq brief. apply (pc_generate R X p Hp), (schemas_review _ Hs).
  - intros rq. apply gather_contained; [done|apply evidence_provider_ok|done| |done|done].
    intros e He. by right; right.
Qed.
End multi_agent.
End agents.

(** ** The service composed from the settings *)

Section platform.
Context {url : UrlSplit} {udb : UnicodeDB} {CH : CallHash}.
Context {J S : Type} `{!Session (Database J) S} `{!SessionLaws (Database J) S}.
Context (vn : vendors S) (metrics : option (M RuntimeMetricsRecorder.t unit → M S unit)).
Context (schemas : agent_schemas) (json_schema : ToolDefinition S → pydict).
Context (agent_tools evidence_tools : ToolRegistry S) (now : M S datetime).

(** The agents of one request, over the provider it was given. *)
Definition collaborators_of (p : StructuredModelProvider S) (s : Settings.t) :
    model_collaborators S :=
  ModelCollaborators (λ _, generate p schemas)
    (λ _, assessment_agent p schemas json_schema now)
    (λ _, provider_specialists p schemas json_schema evidence_tools
            (Settings.evidence_agent_max_steps s) (Settings.evidence_agent_max_tool_calls s) now
            (vn_perf_counter vn)).

(** What the process, the SDKs and the knowledge tools provide: none of it writes the
    assessment tables. *)
Record platform_ok (rag : option (AssessmentRequest.t → M S preparation)) : Prop := {
  platform_vendors : vendors_ok vn keeps metrics;
  platform_schemas : agent_schemas_ok schemas;
  platform_agent_tools : registry_ok keeps agent_tools;
  platform_evidence_tools : registry_ok keeps evidence_tools;
  platform_now : safe keeps (λ _, False) now (λ t, datetime.utcoffset t = Some 0%Z);
  platform_rag prepare request : rag = Some prepare →
    neutral (prepare request)
      (λ p, opt_all GraphRetrievalExecutionMetadata.valid (prep_graph p) = true)
}.

Lemma collaborators_of_ok s p rag X :
  platform_ok rag → load_settings s = Ok s → provider_contract keeps X p →
  collaborators_ok (agent_failure X) (collaborators_of p s) rag agent_tools (vn_perf_counter vn).
Proof.
  intros [Hv Hs Ha He Hn Hr] Hload Hp.
  destruct (field_bounds s Hload) as (_ & _ & _ & _ & _ & _ & _ & Hms & Hmc & _).
  pose proof (vendors_adapter _ _ _ Hv (RetryPolicy.mk 0 0 0 f64_zero) f64_zero ltac:(done))
    as Had.
  destruct (adapter_clock _ _ Had) as (reading & Hclock & Helapsed). simpl in Hclock.
  split; simpl; [| | |exact Hr|done| |].
  - intros _ prompt. apply safe_neutral with (E := provider_failure). by eapply generate_contained.
  - intros _. by apply (assessment_agent_ok keeps p schemas json_schema X Hp Hs).
  - intros _. eapply provider_specialists_ok; try done; [apply _|by exists reading].
  - intros e Hu. by right; right.
  - intros s0. eapply wp_mono; [apply Hclock|]. intros s1 [t|e] [Hk Ht]; [|done].
    split; [done|]. by exists t.
Qed.

End platform.

(** ** A busy vendor over the in-memory database *)

Definition busy_vendors (S : Type) : vendors S :=
  Vendors
    (λ _ _ _, OpenAIClient (λ A _ _, raise (OtherException "RateLimitError"))
                (λ _, raise (OtherException "RateLimitError"))
                (λ _, raise (OtherException "RateLimitError")))
    (λ _ _ _, AnthropicClient (λ _, raise (OtherException "APITimeoutError")))
    demo_errors demo_errors
    (λ text, Raise (if truthy text then ValueError else OtherException "JSONDecodeError"))
    (ret f64_one) (λ _, ret tt) (ret f64_zero).

Lemma busy_vendors_ok S (R : relation S) `{!PreOrder R} : vendors_ok (busy_vendors S) R None.
Proof.
  split; simpl.
  - intros retry timeout Hr. split; simpl; try (by intros; apply safe_ret).
    + by intros p [= <-].
    + exists (eq f64_one). split; [by apply safe_ret|]. intros a b <- <-. by eexists.
    + done.
  - intros key timeout. split; intros; by apply safe_raise.
  - intros. by apply safe_raise.
  - intros text e [= <-]. destruct (truthy text); [right; left|left].
Qed.

Definition demo_agent_schemas : agent_schemas :=
  AgentSchemas (PNone, λ _, Ok demo_result) (PNone, λ _, Raise ValidationError)
    (PNone, λ _, Raise ValidationError) (PNone, λ _, Raise ValidationError).
Lemma demo_agent_schemas_ok : agent_schemas_ok demo_agent_schemas.
Proof. split; split; simpl; intros; by simplify_eq. Qed.

Definition midnight : datetime := datetime.mk 0 (Some 0%Z).
Lemma midnight_safe {S} (R : relation S) `{!PreOrder R} :
  safe R (λ _, False) (ret midnight) (λ t, datetime.utcoffset t = Some 0%Z).
Proof. by apply safe_ret. Qed.

Lemma demo_provider_contract :
  ∃ p, build_structured_model_provider (busy_vendors nat) None None keyless = Ok p ∧
    provider_contract le (decision_failure keyless) p.
Proof.
  by apply (provider_built (udb := ascii_db) (busy_vendors nat) le None (busy_vendors_ok nat le)
    keyless None keyless_loads).
Qed.

Lemma agents_meet_contracts_witness :
  ∃ p, build_structured_model_provider (busy_vendors nat) None None keyless = Ok p ∧
    specialists_ok le (provider_specialists p demo_agent_schemas (λ _, []) (demo_registry nat) 4 3
      (ret midnight) (ret f64_one)).
Proof.
  destruct demo_provider_contract as (p & Hb & Hp). exists p. split; [exact Hb|].
  apply (agents_meet_contracts le p demo_agent_schemas (λ _, []) (decision_failure keyless) Hp demo_agent_schemas_ok
    (demo_registry nat) 4 3 (ret midnight) (ret f64_one) (demo_registry_ok nat le) ltac:(lia)
    ltac:(lia) (midnight_safe le)).
  exists (eq f64_one). split; [apply safe_ret; [apply _|reflexivity]|]. intros a b <- <-.
  exists 0%Z. vm_compute. reflexivity.
Defined.

Lemma busy_platform_ok :
  platform_ok (J := payload) (busy_vendors (memory (Database payload))) None demo_agent_schemas
    (demo_registry _) (demo_registry _) (ret midnight) None.
Proof.
  split; [apply busy_vendors_ok|apply demo_agent_schemas_ok|apply demo_registry_ok
         |apply demo_registry_ok|apply midnight_safe|done]; apply _.
Qed.

