(* ===== verification/ProductRead.v ===== *)
(** app/services/product_read.py and the list models of app/schemas/product.py: the page
    of assessment summaries the interface shows, the queue of held cases among them.  A
    read combines the two repositories; its theorems say which rows a page holds, what
    each summary states of its row, and that paging through a queue meets every held case
    exactly once. *)
From S2P Require Import Prelude Errors PyFloat Domain AgentModels Schemas RuntimeModels Session.
From S2P Require Import Storage Repositories Identity MemorySession.

(** ** Queries

    [queries m db E Q]: on any session whose view is [db], the computation [m] leaves the
    tables alone; it returns a value of [Q] or raises an exception of [E]. *)
Section queries.
Context {D S : Type} `{!Tables D} `{!Session D S} `{!SessionLaws D S}.
Implicit Types (db : D) (E : exn → Prop).

Definition queries {A} (m : M S A) db E (Q : A → Prop) : Prop :=
  ∀ s, view s = db →
    wp m (λ s' r, keeps s s' ∧ match r with Ok a => Q a | Raise e => E e end) s.

Lemma queries_ret {A} (a : A) db E (Q : A → Prop) : Q a → queries (ret a) db E Q.
Proof. intros H s <-. by apply wp_ret. Qed.

Lemma queries_of_res {A} (r : res A) db E (Q : A → Prop) :
  match r with Ok a => Q a | Raise e => E e end → queries (of_res r) db E Q.
Proof. intros H s <-. unfold wp. simpl. by destruct r. Qed.

Lemma queries_read {A} (q : D → A) db E (Q : A → Prop) :
  (∀ e, is_sql e → E e) → Q (q db) → queries (sess_read q) db E Q.
Proof.
  intros HE HQ s <-. eapply wp_mono; [apply read_law|].
  intros s' [a|e] [Hk H]; (split; [done|]); [by rewrite H|by apply HE].
Qed.

(** A read yields the view's own answer. *)
Lemma queries_bind_read {A B} (q : D → A) (k : A → M S B) db E (Q : B → Prop) :
  (∀ e, is_sql e → E e) → queries (k (q db)) db E Q →
  queries (bind (sess_read q) k) db E Q.
Proof.
  intros HE Hk s Hs. apply wp_bind. eapply wp_mono; [apply read_law|].
  intros s' [a|e] [[Hv Hd] H]; [|split; [done|by apply HE]]. rewrite H, Hs.
  eapply wp_mono; [apply Hk; by rewrite Hv|].
  intros s'' r [[Hv' Hd'] Hr]. split; [by split; congruence|done].
Qed.

Lemma queries_bind {A B} (m : M S A) (k : A → M S B) db E P (Q : B → Prop) :
  queries m db E P → (∀ a, P a → queries (k a) db E Q) → queries (bind m k) db E Q.
Proof.
  intros Hm Hk s Hs. apply wp_bind. eapply wp_mono; [by apply Hm|].
  intros s' [a|e] [[Hv Hd] Ha]; [|done].
  eapply wp_mono; [apply (Hk a Ha); by rewrite Hv|].
  intros s'' r [[Hv' Hd'] Hr]. split; [by split; congruence|done].
Qed.

Lemma queries_try {A} (m : M S A) h db E E' (Q : A → Prop) :
  queries m db E' Q → (∀ e, E' e → queries (h e) db E Q) → queries (try_except m h) db E Q.
Proof.
  intros Hm Hh s Hs. apply wp_try. eapply wp_mono; [by apply Hm|].
  intros s' [a|e] [[Hv Hd] Ha]; [done|].
  eapply wp_mono; [apply (Hh e Ha); by rewrite Hv|].
  intros s'' r [[Hv' Hd'] Hr]. split; [by split; congruence|done].
Qed.

Lemma queries_raise {A} e db E (Q : A → Prop) : E e → queries (raise e) db E Q.
Proof. intros H s <-. by apply wp_raise. Qed.

Lemma queries_mono {A} (m : M S A) db E E' (Q Q' : A → Prop) :
  queries m db E Q → (∀ e, E e → E' e) → (∀ a, Q a → Q' a) → queries m db E' Q'.
Proof.
  intros H HE HQ s Hs. eapply wp_mono; [by apply H|]. intros s' [a|e] [? ?]; split; auto.
Qed.
End queries.

(** ** app/schemas/product.py *)

Module PrincipalResponse.
Record t := mk {
  subject : pystr;
  email : option pystr;
  display_name : option pystr;
  roles : list pystr;
  issuer : option pystr
}.
End PrincipalResponse.

Module AssessmentListItem.
Record t := mk {
  assessment_id : uuid;
  company_name : pystr;
  industry : pystr;
  business_problem : pystr;
  status : AssessmentStatus.t;
  execution_mode : option pystr;
  created_by_subject : option pystr;
  runtime_decision : option RuntimeRiskDecision.t;
  risk_level : option RuntimeRiskLevel.t;
  reason_codes : list RuntimeReasonCode.t;
  review_status : option HumanReviewStatus.t;
  request_id : option pystr;
  created_at : datetime;
  updated_at : datetime;
  completed_at : option datetime
}.
End AssessmentListItem.

Module AssessmentListResponse.
Record t := mk {
  items : list AssessmentListItem.t;
  total : Z;
  offset : nat;
  limit : nat;
  status_counts : gmap pystr Z;
  runtime_decision_counts : gmap pystr Z;
  review_status_counts : gmap pystr Z
}.
Definition valid (r : t) : bool := Z.leb 0 (total r) && Nat.leb 1 (limit r).
Definition construct (r : t) : res t := if valid r then Ok r else Raise ValidationError.
End AssessmentListResponse.

(** [payload.get(key)] of a JSON column that holds a dictionary. *)
Class JsonGet (J : Type) := json_get : J → pystr → option pyval.

(** ** ProductReadService *)

Section service.
Context {J S : Type} `{!Session (Database J) S} `{!Json J} `{!JsonGet J}.
Context `{!PydanticModel J QualityGateResult.t gate_result_ok}.
Context `{!PydanticModel J OperationalTelemetry.t telemetry_ok}.
Context (str_of : pyval → pystr).

(** [request.get(key, default)] under [str]. *)
Definition request_text (request : J) (key fallback : pystr) : pystr :=
  py_str str_of (default (PStr fallback) (json_get request key)).

(** [(record.execution_metadata or {}).get(key)], a missing key and a null alike. *)
Definition execution_value (execution : option J) (key : pystr) : option pyval :=
  match truthy_payload execution ≫= (λ j, json_get j key) with
  | Some PNone | None => None
  | Some v => Some v
  end.

Definition execution_mode_text (execution : option J) : option pystr :=
  (λ v, match v with
        | PStr s => if bool_decide (s = "agentic") then lit "single_agent" else s
        | _ => py_str str_of v
        end) <$> execution_value execution "execution_mode".

Definition _to_list_item (record : PersistedAssessment.t J)
    (runtime : option (RuntimeAssessmentState.t J)) : AssessmentListItem.t :=
  let request := PersistedAssessment.request_payload record in
  let execution := PersistedAssessment.execution_metadata record in
  let gate := RuntimeAssessmentState.gate_result <$> runtime in
  AssessmentListItem.mk (PersistedAssessment.assessment_id record)
    (request_text request "company_name" "Unknown organization")
    (request_text request "industry" "Unknown industry")
    (request_text request "business_problem" "Assessment")
    (PersistedAssessment.status record)
    (execution_mode_text execution)
    (PersistedAssessment.created_by_subject record)
    (QualityGateResult.decision <$> gate)
    (QualityGateResult.risk_level <$> gate)
    (from_option QualityGateResult.reason_codes [] gate)
    (RuntimeAssessmentState.review_status <$> runtime)
    (py_str str_of <$> execution_value execution "request_id")
    (PersistedAssessment.created_at record) (PersistedAssessment.updated_at record)
    (PersistedAssessment.completed_at record).

(** The [except SQLAlchemyError] clause. *)
Definition read_failure {A} (exc : exn) : M S A :=
  match exc with
  | SQLAlchemyError OperationalError => app_raise DatabaseUnavailableError
  | SQLAlchemyError _ => app_raise PersistenceError
  | _ => raise exc
  end.

Definition list_assessments (status : option AssessmentStatus.t) (offset limit : nat) :
    M S AssessmentListResponse.t :=
  try_except
    (let* records := list_page status offset limit in
     let* runtime_states := get_states (PersistedAssessment.assessment_id <$> records) in
     let items := (λ record, _to_list_item record
       (runtime_states !! PersistedAssessment.assessment_id record)) <$> records in
     let* total := count status in
     let* status_counts := count_by_status in
     let* runtime_decision_counts := count_by_gate_decision in
     let* review_status_counts := count_by_review_status in
     of_res (AssessmentListResponse.construct
       (AssessmentListResponse.mk items total offset limit status_counts
          runtime_decision_counts review_status_counts)))
    read_failure.
End service.

(** ** Ordering, counting and paging *)

#[export] Instance newest_first_total {J} : Total (@newest_first J).
Proof. intros a b. unfold newest_first. lia. Qed.
#[export] Instance newest_first_trans {J} : Transitive (@newest_first J).
Proof. intros a b c. unfold newest_first. lia. Qed.

(** A group of a [GROUP BY] counts the rows of its key; a key without rows has none. *)
Lemma count_by_lookup (keys : list pystr) k :
  default 0%Z (count_by keys !! k) = Z.of_nat (length (filter (.= k) keys)).
Proof.
  induction keys as [|a keys IH]; csimpl; [done|]. rewrite filter_cons.
  destruct (decide (a = k)) as [->|Hne].
  - rewrite lookup_insert_eq. simpl. rewrite IH. lia.
  - by rewrite lookup_insert_ne by done.
Qed.

Lemma count_filter {A B} (f : A → B) (P : B → Prop) `{!∀ b, Decision (P b)} (l : list A) :
  length (filter P (f <$> l)) = length (filter (λ a, P (f a)) l).
Proof.
  induction l as [|a l IH]; csimpl; [done|]. rewrite !filter_cons.
  case_decide; simpl; [by rewrite IH|done].
Qed.

Lemma count_values {K V} `{Countable K} (f : V → pystr) (m : gmap K V) k :
  default 0%Z (count_by (f <$> (snd <$> map_to_list m)) !! k) =
  Z.of_nat (size (filter (λ im, f im.2 = k) m)).
Proof.
  rewrite count_by_lookup, !count_filter. f_equal.
  rewrite <- (length_map_to_list (filter _ m)). apply Permutation_length.
  apply NoDup_Permutation; [apply NoDup_filter, NoDup_map_to_list|apply NoDup_map_to_list|].
  intros [i x]. rewrite list_elem_of_filter, !elem_of_map_to_list, map_lookup_filter_Some. simpl. tauto.
Qed.

(** Element [i] of a list lies on page [k] of width [b] just when [k = i / b]. *)
Lemma elem_of_page {A} (l : list A) b k x :
  (0 < b)%nat → x ∈ take b (drop (k * b) l) ↔ ∃ i, l !! i = Some x ∧ (i / b = k)%nat.
Proof.
  intros Hb. split.
  - intros [j Hj]%list_elem_of_lookup. apply lookup_take_Some in Hj as [Hj Hlt].
    rewrite lookup_drop in Hj. exists (k * b + j)%nat. split; [done|].
    rewrite Nat.div_add_l, (Nat.div_small j) by lia. lia.
  - intros (i & Hi & <-). apply list_elem_of_lookup. exists (i mod b)%nat.
    pose proof (Nat.mod_upper_bound i b). pose proof (Nat.div_mod_eq i b).
    rewrite lookup_take_lt by lia. rewrite lookup_drop. by replace (i / b * b + i mod b)%nat with i by lia.
Qed.

(** A row whose identifier no other row has is on one page. *)
Lemma on_page {J} (rows : list (AssessmentModel.t J)) limit k i a id :
  (0 < limit)%nat → NoDup (AssessmentModel.id <$> rows) → rows !! i = Some a →
  AssessmentModel.id a = id →
  id ∈ AssessmentModel.id <$> take limit (drop (k * limit) rows) ↔ k = (i / limit)%nat.
Proof.
  intros Hlim Hnd Hi Hid. rewrite list_elem_of_fmap. split.
  - intros (b & Hb & (j & Hj & <-)%elem_of_page); [|done]. f_equal.
    eapply NoDup_lookup; [exact Hnd| |]; rewrite list_lookup_fmap.
    + by rewrite Hj.
    + rewrite Hi. simpl. congruence.
  - intros ->. exists a. split; [done|]. apply elem_of_page; eauto.
Qed.

(** ** What a page states *)

Section pages.
Context {J : Type} `{!Json J} `{!JsonGet J}.
Context `{!PydanticModel J QualityGateResult.t gate_result_ok}.
Context `{!PydanticModel J OperationalTelemetry.t telemetry_ok}.
Context (str_of : pyval → pystr).
Implicit Types db : Database J.

(** Rows are stored under their primary keys. *)
Definition keyed db : Prop :=
  map_Forall (λ i a, AssessmentModel.id a = i) (Database.assessments db) ∧
  map_Forall (λ i m, RuntimeStateModel.assessment_id m = i) (Database.states db).

Lemma keyed_empty : keyed (@Database.empty J).
Proof. split; apply map_Forall_empty. Qed.

(** Every change the repositories make to the tables keeps them so. *)
Lemma keyed_changes db a m e :
  keyed db → keyed (add_assessment a db) ∧ keyed (put_assessment a db) ∧
    keyed (add_state m db) ∧ keyed (put_state m db) ∧ keyed (add_event e db).
Proof. intros [Ha Hm]. repeat split; simpl; try done; by apply map_Forall_insert_2. Qed.

(** The rows of a queue in the order the interface shows them. *)
Definition queue (status : option AssessmentStatus.t) db : list (AssessmentModel.t J) :=
  merge_sort newest_first (select_assessments status db).

Lemma elem_of_queue status db a :
  a ∈ queue status db ↔ has_status status a ∧ ∃ i, Database.assessments db !! i = Some a.
Proof.
  unfold queue, select_assessments. rewrite (merge_sort_Permutation newest_first).
  rewrite list_elem_of_filter, list_elem_of_fmap. f_equiv. split.
  - intros ([i a'] & -> & Hi). exists i. by apply elem_of_map_to_list.
  - intros [i Hi]. exists (i, a). split; [done|]. by apply elem_of_map_to_list.
Qed.

Lemma queue_sorted status db : StronglySorted newest_first (queue status db).
Proof. apply (StronglySorted_merge_sort newest_first). Qed.

Lemma queue_perm status db : queue status db ≡ₚ select_assessments status db.
Proof. apply merge_sort_Permutation. Qed.

Lemma queue_ids_NoDup status db : keyed db → NoDup (AssessmentModel.id <$> queue status db).
Proof.
  intros [Ha _]. unfold queue. rewrite (merge_sort_Permutation newest_first). unfold select_assessments.
  assert (AssessmentModel.id <$> (snd <$> map_to_list (Database.assessments db)) =
          fst <$> map_to_list (Database.assessments db)) as Heq.
  { rewrite <- list_fmap_compose. apply list_fmap_ext. intros i [k a] Hk. simpl.
    apply (map_Forall_lookup_1 _ _ _ _ Ha). apply elem_of_map_to_list.
    by apply list_elem_of_lookup_2 in Hk. }
  eapply sublist_NoDup; [apply (NoDup_fst_map_to_list (Database.assessments db))|].
  rewrite <- Heq. apply fmap_sublist, sublist_filter.
Qed.

(** The checkpoint an assessment shows: the one of its row, when there is one. *)
Definition shown_state db (id : uuid) (st : option (RuntimeAssessmentState.t J)) : Prop :=
  match Database.states db !! id with
  | None => st = None
  | Some m => ∃ x, _state_from_model m = Ok x ∧ st = Some x
  end.

Definition readable db : Prop :=
  map_Forall (λ _ m, ∃ x, _state_from_model m = Ok x) (Database.states db).

(** A required field of the stored request: its value as text, or the fallback when the
    request has no such key. *)
Definition states_request (request : J) (key fallback shown : pystr) : Prop :=
  match json_get request key with
  | None => shown = fallback
  | Some (PStr s) => shown = s
  | Some v => shown = str_of v
  end.

(** An optional field of the stored execution metadata, if any were stored; [rename] is what a
    text is shown as. *)
Definition states_execution (execution : option J) (key : pystr) (rename : pystr → pystr)
    (shown : option pystr) : Prop :=
  match execution with
  | None => shown = None
  | Some j =>
      if json_truthy j then
        match json_get j key with
        | None | Some PNone => shown = None
        | Some (PStr s) => shown = Some (rename s)
        | Some v => shown = Some (str_of v)
        end
      else shown = None
  end.

(** What a summary states of the assessment's row and of its checkpoint, field by field. *)
Definition summarises db (a : AssessmentModel.t J) (item : AssessmentListItem.t) : Prop :=
  let request := AssessmentModel.request_payload a in
  let execution := AssessmentModel.execution_metadata a in
  AssessmentListItem.assessment_id item = AssessmentModel.id a ∧
  AssessmentListItem.status item = AssessmentModel.status a ∧
  AssessmentListItem.created_by_subject item = AssessmentModel.created_by_subject a ∧
  states_request request "company_name" "Unknown organization" (AssessmentListItem.company_name item) ∧
  states_request request "industry" "Unknown industry" (AssessmentListItem.industry item) ∧
  states_request request "business_problem" "Assessment" (AssessmentListItem.business_problem item) ∧
  states_execution execution "execution_mode"
    (λ s, if bool_decide (s = "agentic") then lit "single_agent" else s)
    (AssessmentListItem.execution_mode item) ∧
  states_execution execution "request_id" id (AssessmentListItem.request_id item) ∧
  states_time (AssessmentModel.created_at a) (AssessmentListItem.created_at item) ∧
  states_time (AssessmentModel.updated_at a) (AssessmentListItem.updated_at item) ∧
  match AssessmentModel.completed_at a, AssessmentListItem.completed_at item with
  | Some stored, Some shown => states_time stored shown
  | None, None => True
  | _, _ => False
  end ∧
  ∃ st, shown_state db (AssessmentModel.id a) st ∧
    AssessmentListItem.runtime_decision item =
      QualityGateResult.decision ∘ RuntimeAssessmentState.gate_result <$> st ∧
    AssessmentListItem.risk_level item =
      QualityGateResult.risk_level ∘ RuntimeAssessmentState.gate_result <$> st ∧
    AssessmentListItem.reason_codes item =
      from_option (QualityGateResult.reason_codes ∘ RuntimeAssessmentState.gate_result) [] st ∧
    AssessmentListItem.review_status item = RuntimeAssessmentState.review_status <$> st.

(** The facets count the rows of the whole tables, whatever page is asked for. *)
Definition facets db (page : AssessmentListResponse.t) : Prop :=
  (∀ x, default 0%Z (AssessmentListResponse.status_counts page !! AssessmentStatus.value x) =
        Z.of_nat (length (select_assessments (Some x) db))) ∧
  (∀ d, default 0%Z (AssessmentListResponse.runtime_decision_counts page !! d) =
        Z.of_nat (size (filter (λ im, RuntimeStateModel.gate_decision im.2 = d)
                               (Database.states db)))) ∧
  (∀ r, default 0%Z (AssessmentListResponse.review_status_counts page !! r) =
        Z.of_nat (size (filter (λ im, RuntimeStateModel.review_status im.2 = r)
                               (Database.states db)))).
End pages.

(** ** Running a read *)

Section reads.
Context {J S : Type} `{!Session (Database J) S} `{!SessionLaws (Database J) S}.
Context `{!Json J} `{!JsonGet J}.
Context `{!PydanticModel J QualityGateResult.t gate_result_ok}.
Context `{!PydanticModel J OperationalTelemetry.t telemetry_ok}.
Context (str_of : pyval → pystr).
Implicit Types db : Database J.

(** The error of a checkpoint row of these assessments that cannot be read. *)
Definition unreadable_row db (ids : list uuid) (e : exn) : Prop :=
  ∃ id m, id ∈ ids ∧ Database.states db !! id = Some m ∧ _state_from_model m = Raise e.

(** The states read from some rows, keyed by assessment. *)
Lemma shown_pairs (rows : list (RuntimeStateModel.t J)) pairs db id :
  (∀ m, m ∈ rows → Database.states db !! RuntimeStateModel.assessment_id m = Some m) →
  (∀ m, Database.states db !! id = Some m → m ∈ rows ∧ RuntimeStateModel.assessment_id m = id) →
  Forall2 (λ m p, res_bind (_state_from_model m) (λ st,
    Ok (RuntimeStateModel.assessment_id m, st)) = Ok p) rows pairs →
  shown_state db id (list_to_map (M := gmap uuid _) pairs !! id).
Proof.
  intros Hrow Hid Hall. unfold shown_state.
  destruct (list_to_map pairs !! id) as [st|] eqn:Hl.
  - apply elem_of_list_to_map_2, list_elem_of_lookup in Hl as [i Hp].
    destruct (Forall2_lookup_r _ _ _ _ _ Hall Hp) as (m & Hm & Heq).
    apply list_elem_of_lookup_2, Hrow in Hm.
    destruct (_state_from_model m) eqn:Hst; simplify_eq/=. rewrite Hm. eauto.
  - destruct (Database.states db !! id) as [m|]; [|done].
    destruct (Hid m eq_refl) as [[i Hm]%list_elem_of_lookup Heq].
    destruct (Forall2_lookup_l _ _ _ _ _ Hall Hm) as ([id' st] & Hp & Hst).
    destruct (_state_from_model m); simplify_eq/=.
    apply not_elem_of_list_to_map_2 in Hl. destruct Hl.
    apply list_elem_of_fmap. eexists. split; [|by eapply list_elem_of_lookup_2]. done.
Qed.

Lemma queries_get_states ids db :
  keyed db →
  queries (get_states ids) db (λ e, is_sql e ∨ unreadable_row db ids e)
    (λ states, ∀ id, id ∈ ids → shown_state db id (states !! id)).
Proof.
  intros [_ Hkey]. unfold get_states. destruct (truthy ids) eqn:Ht.
  2: { apply queries_ret. intros id Hid. destruct ids; [set_solver|done]. }
  apply queries_bind_read; [by left|]. set (rows := filter _ _).
  assert (∀ m, m ∈ rows ↔ RuntimeStateModel.assessment_id m ∈ ids ∧
            Database.states db !! RuntimeStateModel.assessment_id m = Some m) as Hrows.
  { intros m. subst rows. rewrite list_elem_of_filter, list_elem_of_fmap. f_equiv. split.
    - intros ([i m'] & -> & Hi). apply elem_of_map_to_list in Hi. simpl.
      by rewrite (map_Forall_lookup_1 _ _ _ _ Hkey Hi).
    - intros Hm. exists (RuntimeStateModel.assessment_id m, m). split; [done|].
      by apply elem_of_map_to_list. }
  destruct (res_map _ rows) as [pairs|e] eqn:Hr.
  - apply queries_bind with (P := (.= pairs)); [by apply queries_of_res|]. intros ? ->.
    apply queries_ret. intros id Hid. apply shown_pairs with (rows := rows).
    + intros m Hm. by apply Hrows.
    + intros m Hm. pose proof (map_Forall_lookup_1 _ _ _ _ Hkey Hm) as Heq. simpl in Heq.
      split; [|done]. apply Hrows. by rewrite Heq.
    + by apply res_map_Ok.
  - apply queries_bind with (P := λ _, False); [|done]. apply queries_of_res. right.
    apply res_map_raises in Hr as (m & Hm & He). apply Hrows in Hm as [Hid Hm].
    exists (RuntimeStateModel.assessment_id m), m. split; [done|]. split; [done|].
    by destruct (_state_from_model m); simplify_eq/=.
Qed.

(** What one call returns: the page, the size of the queue and the facets. *)
Definition page_of status offset limit db (page : AssessmentListResponse.t) : Prop :=
  Forall2 (summarises str_of db) (take limit (drop offset (queue status db)))
    (AssessmentListResponse.items page) ∧
  AssessmentListResponse.total page = Z.of_nat (length (queue status db)) ∧
  AssessmentListResponse.offset page = offset ∧ AssessmentListResponse.limit page = limit ∧
  facets db page.

Definition page_error status offset limit db (e : exn) : Prop :=
  e = ApplicationError DatabaseUnavailableError ∨ e = ApplicationError PersistenceError ∨
  unreadable_row db (AssessmentModel.id <$> take limit (drop offset (queue status db))) e.

Lemma request_text_states request key fallback :
  states_request str_of request key fallback (request_text str_of request key fallback).
Proof. unfold states_request, request_text. by destruct (json_get request key) as [[]|]. Qed.

Lemma summary_of db (a : AssessmentModel.t J) st :
  shown_state db (AssessmentModel.id a) st →
  summarises str_of db a (_to_list_item str_of (_to_record a) st).
Proof.
  intros Hst. unfold summarises, _to_list_item. simpl.
  split; [done|]. split; [done|]. split; [done|].
  do 3 (split; [apply request_text_states|]). split; [|split].
  - unfold states_execution, execution_mode_text, execution_value, truthy_payload.
    destruct (AssessmentModel.execution_metadata a) as [j|]; simpl; [|done].
    destruct (json_truthy j); simpl; [|done]. by destruct (json_get j _) as [[]|].
  - unfold states_execution, execution_value, truthy_payload.
    destruct (AssessmentModel.execution_metadata a) as [j|]; simpl; [|done].
    destruct (json_truthy j); simpl; [|done]. by destruct (json_get j _) as [[]|].
  - do 2 (split; [apply as_utc_states|]). split.
    + destruct (AssessmentModel.completed_at a); simpl; [apply as_utc_states|done].
    + exists st. split; [done|]. by destruct st.
Qed.

Lemma facets_counts db items total offset limit :
  facets db (AssessmentListResponse.mk items total offset limit
    (count_by ((λ m, AssessmentStatus.value (AssessmentModel.status m)) <$> select_assessments None db))
    (count_by (RuntimeStateModel.gate_decision <$> (snd <$> map_to_list (Database.states db))))
    (count_by (RuntimeStateModel.review_status <$> (snd <$> map_to_list (Database.states db))))).
Proof.
  unfold facets. simpl. split; [|split].
  - intros x. rewrite count_by_lookup, count_filter. unfold select_assessments.
    rewrite list_filter_filter. do 2 f_equal. apply list_filter_iff. intros m. simpl.
    split; [intros [H _]; by apply (enum_value_inj (X := AssessmentStatus.t))|by intros ->].
  - intros d. apply count_values.
  - intros r. apply count_values.
Qed.

Lemma page_read status offset limit db :
  keyed db → (1 ≤ limit)%nat →
  queries (list_assessments str_of status offset limit) db (page_error status offset limit db)
    (page_of status offset limit db).
Proof.
  intros Hkey Hlim. unfold list_assessments.
  set (rows := take limit (drop offset (queue status db))).
  apply queries_try with (E' := λ e, is_sql e ∨ unreadable_row db (AssessmentModel.id <$> rows) e).
  2: { intros e He. unfold page_error. fold rows.
       destruct e as [| [] | | | | | | | | | | ]; apply queries_raise; auto;
         (destruct He as [[q Hq]|He]; [done|by auto]). }
  eapply queries_bind with (P := (.= _to_record <$> rows)).
  { unfold list_page. apply queries_bind_read; [by left|]. by apply queries_ret. }
  intros records ->.
  replace (PersistedAssessment.assessment_id <$> (_to_record <$> rows))
    with (AssessmentModel.id <$> rows) by (by rewrite <- list_fmap_compose).
  eapply queries_bind; [by apply queries_get_states|]. intros states Hstates. simpl.
  repeat (unfold count, count_by_status, count_by_gate_decision, count_by_review_status;
          apply queries_bind_read; [by left|]).
  apply queries_of_res. unfold AssessmentListResponse.construct, AssessmentListResponse.valid. simpl.
  rewrite (proj2 (Z.leb_le _ _)) by lia. destruct limit as [|limit]; [lia|]. simpl.
  split; [|split; [|split; [done|split; [done|apply facets_counts]]]].
  - simpl. fold rows. rewrite <- list_fmap_compose. apply Forall2_fmap_r, Forall_Forall2_diag.
    apply Forall_forall. intros a Ha. simpl. apply summary_of, Hstates.
    apply list_elem_of_fmap. by exists a.
  - simpl. by rewrite (Permutation_length (queue_perm status db)).
Qed.

(** C21: Listing assessments changes nothing.  When it returns, the page is the requested
    slice of the matching rows in newest-first order: a permutation of all the rows with
    the asked status, cut at [offset] and [limit], each summary stating its own row, field
    by field - the three texts of the request or their fallbacks, the mode and the request
    identifier of the stored execution with [agentic] shown as [single_agent], the times in
    UTC - and its own checkpoint; the total is the number of matching rows and the facets
    count every row.  When it raises, it is the public error of a database failure, or the
    error of a checkpoint of this very page that cannot be read back: no other row can spoil
    a page. *)
Theorem product_page_correct status offset limit db :
  keyed db → (1 ≤ limit)%nat →
  ∃ rows, rows ≡ₚ select_assessments status db ∧ StronglySorted newest_first rows ∧
    NoDup (AssessmentModel.id <$> rows) ∧
    ∀ s, view s = db →
      wp (list_assessments str_of status offset limit) (λ s' r, keeps s s' ∧
        match r with
        | Ok page =>
            Forall2 (summarises str_of db) (take limit (drop offset rows))
              (AssessmentListResponse.items page) ∧
            AssessmentListResponse.total page = Z.of_nat (length rows) ∧
            facets db page
        | Raise e =>
            e = ApplicationError DatabaseUnavailableError ∨
            e = ApplicationError PersistenceError ∨
            unreadable_row db (AssessmentModel.id <$> take limit (drop offset rows)) e
        end) s.
Proof.
  intros Hkey Hlim. exists (queue status db). split; [apply queue_perm|].
  split; [apply queue_sorted|]. split; [by apply queue_ids_NoDup|].
  intros s Hs. eapply wp_mono; [by apply page_read|].
  intros s' [page|e] [? H]; (split; [done|]); [|exact H]. by destruct H as (? & ? & _ & _ & ?).
Qed.

(** C20: No held case starves.  In tables whose checkpoints can be read, an assessment held
    for review stands on exactly one page of the review queue, within the number of pages
    the reported total asks for: whenever the read of that page succeeds the case is on it,
    on every other page it is not, and a read fails only for the database. *)
Theorem held_case_listed_once limit db id a :
  keyed db → readable db → (1 ≤ limit)%nat →
  Database.assessments db !! id = Some a →
  AssessmentModel.status a = AssessmentStatus.PENDING_REVIEW →
  ∃ k, ∀ k' s, view s = db →
    wp (list_assessments str_of (Some AssessmentStatus.PENDING_REVIEW) (k' * limit) limit)
      (λ _ r, match r with
        | Ok page =>
            (Z.of_nat (k * limit) < AssessmentListResponse.total page)%Z ∧
            (id ∈ AssessmentListItem.assessment_id <$> AssessmentListResponse.items page ↔ k' = k)
        | Raise e => e = ApplicationError DatabaseUnavailableError ∨
                     e = ApplicationError PersistenceError
        end) s.
Proof.
  intros Hkey Hread Hlim Ha Hst.
  set (rows := queue (Some AssessmentStatus.PENDING_REVIEW) db).
  assert (a ∈ rows) as [i Hi]%list_elem_of_lookup by (apply elem_of_queue; eauto).
  exists (i / limit)%nat. intros k' s Hs. eapply wp_mono; [by apply page_read|].
  intros s' [page|e] [_ Hp].
  2: { destruct Hp as [?|[?|(j & m & _ & Hm & He)]]; auto.
       destruct (map_Forall_lookup_1 _ _ _ _ Hread Hm) as [x Hx]. congruence. }
  destruct Hp as (Hall & Ht & _). fold rows in Hall, Ht. split.
  - rewrite Ht. pose proof (lookup_lt_Some _ _ _ Hi). pose proof (Nat.div_mod_eq i limit). nia.
  - assert (AssessmentListItem.assessment_id <$> AssessmentListResponse.items page =
            AssessmentModel.id <$> take limit (drop (k' * limit) rows)) as ->.
    { clear -Hall. induction Hall as [|b item rs its Hb _ IH]; [done|]. csimpl.
      f_equal; [apply Hb|exact IH]. }
    rewrite (on_page rows limit k' i a id); [done|lia|by apply queue_ids_NoDup|done|].
    by apply (map_Forall_lookup_1 _ _ _ _ (proj1 Hkey) Ha).
Qed.
End reads.

(** * The read theorems of ProductRead at a concrete session: the held case of
    MemorySession, listed by the interface. *)

#[export] Instance payload_get : JsonGet payload := λ j key,
  match j with
  | RequestPayload r =>
      if bool_decide (key = lit "company_name") then Some (PStr (AssessmentRequest.company_name r))
      else if bool_decide (key = lit "industry") then Some (PStr (AssessmentRequest.industry r))
      else None
  | ExecutionPayload (Deterministic e) =>
      if bool_decide (key = lit "execution_mode")
      then Some (PStr (DeterministicExecutionMetadata.execution_mode e))
      else if bool_decide (key = lit "request_id") then Some PNone else None
  | _ => None
  end.

Definition no_text (_ : pyval) : pystr := [].

Definition demo_page : res AssessmentListResponse.t :=
  (list_assessments no_text (Some AssessmentStatus.PENDING_REVIEW) 0 25
     (open_session demo_db)).2.

(** The held case is shown with its gate decision; a missing request field falls back. *)
Example demo_page_shows :
  match demo_page with
  | Ok page =>
      AssessmentListResponse.total page = 1%Z ∧
      ((λ i, (AssessmentListItem.assessment_id i, AssessmentListItem.company_name i,
              AssessmentListItem.business_problem i, AssessmentListItem.review_status i)) <$>
         AssessmentListResponse.items page) =
      [(1%N, lit "Company", lit "Assessment", Some HumanReviewStatus.PENDING)]
  | Raise _ => False
  end.
Proof. vm_compute. done. Qed.

(** A fault of the connection is reported as an unavailable database. *)
Example demo_page_fault :
  (list_assessments no_text None 0 25 (Memory demo_db demo_db [Some OperationalError] 0 100)).2 =
  Raise (ApplicationError DatabaseUnavailableError).
Proof. vm_compute. reflexivity. Qed.

Lemma demo_keyed : keyed demo_db.
Proof. split; apply map_Forall_singleton; reflexivity. Qed.

Lemma demo_readable : readable demo_db.
Proof. apply map_Forall_singleton. eexists. vm_compute. reflexivity. Qed.

(** The held case is summarised by the only item of the page, with its mode and time. *)
Lemma product_page_correct_witness :
  ∃ item, (list_assessments no_text None 0 25 (open_session demo_db)).2 =
      AssessmentListResponse.construct (AssessmentListResponse.mk [item] 1 0 25
        {[lit "pending_review" := 1%Z]} {[lit "require_human_review" := 1%Z]}
        {[lit "pending" := 1%Z]}) ∧
    summarises no_text demo_db demo_assessment item ∧
    AssessmentListItem.execution_mode item = Some (lit "deterministic").
Proof.
  destruct (product_page_correct (S := memory (Database payload)) no_text None 0 25 demo_db
              demo_keyed ltac:(lia)) as (rows & Hp & _ & _ & H).
  assert (rows = [demo_assessment]) as -> by (apply Permutation_singleton_r, Hp).
  specialize (H (open_session demo_db) eq_refl). unfold wp in H.
  assert (∃ item, (list_assessments no_text None 0 25 (open_session demo_db)).2 =
      Ok (AssessmentListResponse.mk [item] 1 0 25
        {[lit "pending_review" := 1%Z]} {[lit "require_human_review" := 1%Z]}
        {[lit "pending" := 1%Z]})) as [item Hrun] by (eexists; vm_compute; reflexivity).
  exists item. destruct H as [_ H]. rewrite Hrun in H. destruct H as [Hall _].
  split; [exact Hrun|]. simpl in Hall. apply Forall2_cons in Hall as [Hsum _].
  split; [exact Hsum|]. destruct Hsum as (_ & _ & _ & _ & _ & _ & Hmode & _).
  exact Hmode.
Defined.

Lemma held_case_listed_once_witness :
  ∃ k, ∀ k' (s : memory (Database payload)), view s = demo_db →
    wp (list_assessments no_text (Some AssessmentStatus.PENDING_REVIEW) (k' * 25) 25)
      (λ _ r, match r with
        | Ok page =>
            (Z.of_nat (k * 25) < AssessmentListResponse.total page)%Z ∧
            (1%N ∈ AssessmentListItem.assessment_id <$> AssessmentListResponse.items page ↔ k' = k)
        | Raise e => e = ApplicationError DatabaseUnavailableError ∨
                     e = ApplicationError PersistenceError
        end) s.
Proof.
  exact (held_case_listed_once (S := memory (Database payload)) no_text 25 demo_db 1%N
           demo_assessment demo_keyed demo_readable ltac:(lia) eq_refl eq_refl).
Defined.
