(* ===== verification/DatabaseSession.v ===== *)
(** app/db/session.py and app/api/routes/health.py: the address of the database, the session
    a request runs in and how it ends, and the readiness check over the deployed schema.

    The engine, its pool and the driver belong to the library: opening and closing a session
    and the probes of a connection are arguments. *)
From S2P Require Import Prelude Errors Domain PyText Settings Session Storage Repositories.
From S2P Require Import MemorySession KnowledgeRetrieval.

(** ** app/db/session.py *)

Definition get_database_url (s : Settings.t) : res pystr :=
  match Settings.database_url s with
  | None => Raise (ApplicationError DatabaseNotConfiguredError)
  | Some url =>
      let database_url := str_strip url in
      if negb (truthy database_url) then Raise (ApplicationError DatabaseNotConfiguredError)
      else if str_startswith (lit "postgresql://") database_url
      then Ok (lit "postgresql+psycopg://" ++ drop (length (lit "postgresql://")) database_url)
      else Ok database_url
  end.

(** The arguments the driver is given, by the kind of database. *)
Inductive connect_args := CheckSameThread (b : bool) | ConnectTimeout (seconds : Z) | NoArguments.
Definition engine_arguments (database_url : pystr) (connect_timeout_seconds : Z) : connect_args :=
  if str_startswith (lit "sqlite") database_url then CheckSameThread false
  else if str_startswith (lit "postgresql") database_url
  then ConnectTimeout connect_timeout_seconds
  else NoArguments.

Section request_session.
Context {D S : Type} `{!Session D S}.
Context (open_session : pystr → connect_args → M S unit) (close_session : M S unit).

(** [get_db_session] around what the request does with the session. *)
Definition get_db_session {A} (settings : Settings.t) (request : M S A) : M S A :=
  try_except
    (let* url := of_res (get_database_url settings) in
     open_session url
       (engine_arguments url (Settings.database_connect_timeout_seconds settings)))
    (λ e, match e with
          | SQLAlchemyError _ => app_raise DatabaseUnavailableError
          | _ => raise e
          end) ;;;
  try_finally
    (try_except request (λ e, suppress_sql sess_rollback ;;; raise e))
    close_session.
End request_session.

(** ** app/api/routes/health.py *)

Definition ALEMBIC_HEAD_REVISION : pystr := "20260911_0006".
Definition REQUIRED_TABLES : list pystr :=
  [lit "assessments"; lit "knowledge_documents"; lit "knowledge_chunks";
   lit "knowledge_entities"; lit "knowledge_entity_mentions"; lit "knowledge_relationships";
   lit "assessment_runtime_states"; lit "human_review_events"].

Module ReadinessResponse.
Record t := mk {
  ready : bool;
  database : bool;
  schema : bool;
  configuration : bool
}.
(** The words of the two answers. *)
Definition word (b : bool) : pystr := if b then "ready" else "not_ready".
Definition status (r : t) : pystr := word (ready r).
End ReadinessResponse.

Section readiness.
Context {S : Type}.

(** A connection: [SELECT 1], the table names, the row of [alembic_version]. *)
Context (connect : pystr → connect_args → M S unit) (select_one : M S unit).
Context (get_table_names : M S (list pystr)) (alembic_revision : M S (option pystr)).

(** The [try] block: whether the schema is the deployed one, once the database answered. *)
Definition schema_check (settings : Settings.t) : M S bool :=
  let* url := of_res (get_database_url settings) in
  connect url (engine_arguments url (Settings.database_connect_timeout_seconds settings)) ;;;
  select_one ;;;
  let* table_names := get_table_names in
  if mem (lit "alembic_version") table_names then
    let* revision := alembic_revision in
    ret (bool_decide (revision = Some ALEMBIC_HEAD_REVISION) &&
         forallb (λ t, mem t table_names) REQUIRED_TABLES)
  else ret false.

(** The answer with its status code. *)
Definition readiness_check (settings : Settings.t) : M S (Z * ReadinessResponse.t) :=
  let configuration := negb (Settings.provider_required settings) || provider_is_configured settings in
  let* checks := try_except
    (let* schema := schema_check settings in ret (true, schema))
    (λ _, ret (false, false)) in
  let ready := configuration && checks.1 && checks.2 in
  ret (if ready then 200%Z else 503%Z,
       ReadinessResponse.mk ready checks.1 checks.2 configuration).
End readiness.

(** ** The address *)

Lemma startswith_split p s : str_startswith p s = true → s = p ++ drop (length p) s.
Proof.
  revert s. induction p as [|c p IH]; intros [|d s]; simpl; try done; intros H.
  apply andb_true_iff in H as [->%Z.eqb_eq H]. f_equal. by apply IH.
Qed.

(** An address of the server always names the driver the service ships with, whichever of
    the two spellings the settings use; a second resolution changes nothing. *)
Lemma database_url_driver settings url :
  get_database_url settings = Ok url → str_startswith (lit "postgresql") url = true →
  str_startswith (lit "postgresql://") url = false ∧
  (str_startswith (lit "postgresql+psycopg://") (str_strip (default [] (Settings.database_url settings))) = true →
   url = str_strip (default [] (Settings.database_url settings))).
Proof.
  unfold get_database_url. destruct (Settings.database_url settings) as [raw|]; [|done].
  change (default [] (Some raw)) with raw. set (text := str_strip raw). destruct (negb (truthy text)); [done|].
  destruct (str_startswith (lit "postgresql://") text) eqn:Hp; intros H _; injection H as <-.
  - split; [by vm_compute|]. intros Hq. exfalso. apply startswith_split in Hp. rewrite Hp in Hq.
    by vm_compute in Hq.
  - by split.
Qed.

(** ** The session of a request *)

Section session_theorem.
Context {D S : Type} `{!Tables D} `{!Session D S} `{!SessionLaws D S}.
Context (open_session : pystr → connect_args → M S unit) (close_session : M S unit).
Context (Hopen : ∀ url args, safe keeps (λ _, True) (open_session url args) (λ _, True)).
Context (Hclose : safe keeps (λ _, True) close_session (λ _, True)).

(** What the caller sees of a request that ran from [s1] and ended in [s2] with [r2]. *)
Definition session_ended {A} (s2 : S) (r2 : res A) (s' : S) (r : res A) : Prop :=
  durable s' = durable s2 ∧
  match r2 with
  | Ok a => view s' = view s2 ∧ (r = Ok a ∨ ∃ e, r = Raise e)
  | Raise e => ∃ e', r = Raise e' ∧
      (view s' = durable s' ∨ view s' = view s2 ∧ ∃ s3 q, sess_rollback s2 = (s3, Raise q))
  end.

Lemma rollback_and_raise {A} (e : exn) (s2 : S) :
  wp (suppress_sql sess_rollback ;;; raise (A := A) e)
    (λ s' r, durable s' = durable s2 ∧ ∃ e', r = Raise e' ∧
      (view s' = durable s' ∨ view s' = view s2 ∧ ∃ s3 q, sess_rollback s2 = (s3, Raise q))) s2.
Proof.
  pose proof (rollback_law s2) as Hl. unfold wp, bind, suppress_sql, try_except, raise, ret in *.
  destruct (sess_rollback s2) as [s3 [[]|q]]; simpl in *; destruct Hl as [Hd Hv].
  - split; [done|]. exists e. split; [done|]. left. congruence.
  - destruct Hv as [[x ->] Hv]. simpl. split; [done|]. exists e. split; [done|].
    destruct Hv as [Hv|Hv]; [right; eauto|left; congruence].
Qed.

(** A request's session is opened once and ended once.  When it cannot be opened the
    request does not run and the tables are untouched.  Otherwise what is durable at the end
    is what the request itself committed; a request that raised leaves nothing pending in
    the session unless the rollback itself failed, and its failure is never turned into a
    result; a request that returned keeps its outcome unless closing raises. *)
Theorem request_session_clean {A} settings (request : M S A) (s : S) :
  wp (get_db_session open_session close_session settings request) (λ s' r,
    (∃ e, r = Raise e ∧ keeps s s' ∧
       (get_database_url settings = Raise (ApplicationError DatabaseNotConfiguredError) →
        e = ApplicationError DatabaseNotConfiguredError)) ∨
    ∃ s1, keeps s s1 ∧ session_ended (request s1).1 (request s1).2 s' r) s.
Proof.
  unfold get_db_session. apply wp_bind, wp_try, wp_bind. unfold wp at 1, of_res. simpl.
  destruct (get_database_url settings) as [url|e] eqn:Hurl.
  2: { assert (e = ApplicationError DatabaseNotConfiguredError) as ->.
       { unfold get_database_url in Hurl. repeat case_match; congruence. }
       apply wp_raise. left. eexists. split; [done|]. by split. }
  eapply wp_mono; [apply Hopen|]. intros s1 [[]|e] [Hk _].
  2: { destruct e as [| q | | | | | | | | | | ]; apply wp_raise; left;
         (eexists; split; [reflexivity|by split]). }
  eapply wp_mono with (P := λ s' r, ∃ s3 r3, wp close_session (λ s4 _, s' = s4) s3 ∧
    session_ended (request s1).1 (request s1).2 s3 r3 ∧
    match r3 with Ok _ => r = r3 ∨ ∃ e, r = Raise e | Raise _ => ∃ e, r = Raise e end).
  - unfold wp, try_finally.
    pose proof (wp_try request (λ e, suppress_sql sess_rollback ;;; raise e)
      (session_ended (request s1).1 (request s1).2) s1) as Ht.
    destruct (try_except _ _ s1) as [s3 r3] eqn:Htry.
    assert (session_ended (request s1).1 (request s1).2 s3 r3) as Hend.
    { unfold wp in Ht. rewrite Htry in Ht. apply Ht. unfold session_ended.
      destruct (request s1) as [s2 [a|e]]; simpl; [auto|].
      pose proof (rollback_and_raise (A := A) e s2) as Hr. unfold wp in Hr.
      exact Hr. }
    exists s3, r3. destruct (close_session s3) as [s4 [[]|e]]; simpl; (split; [done|]).
    + split; [done|]. destruct r3; eauto.
    + split; [done|]. destruct r3; eauto.
  - intros s' r (s3 & r3 & Hc & Hend & Hr). right. exists s1. split; [done|].
    pose proof (Hclose s3) as Hk3. unfold wp in Hc, Hk3.
    destruct (close_session s3) as [s4 rc]. simpl in *. subst s4. destruct Hk3 as [[Hv3 Hd3] _].
    unfold session_ended in *. rewrite Hd3, Hv3. destruct Hend as [Hd Hrest]. split; [done|].
    destruct (request s1).2 as [a|e].
    + destruct Hrest as [Hv [->|[e ->]]]; (split; [done|]); [destruct Hr; auto|by right].
    + destruct Hrest as (e' & -> & Hv). destruct Hr as [e'' ->]. eauto.
Qed.
End session_theorem.

(** ** Readiness *)

Section readiness_theorem.
Context {S : Type} (connect : pystr → connect_args → M S unit) (select_one : M S unit).
Context (get_table_names : M S (list pystr)) (alembic_revision : M S (option pystr)).

(** A run of the probes on which the service may receive traffic. *)
Definition deployed (settings : Settings.t) (s : S) : Prop :=
  ∃ url s1 s2 s3 s4 names,
    get_database_url settings = Ok url ∧
    connect url (engine_arguments url (Settings.database_connect_timeout_seconds settings)) s =
      (s1, Ok tt) ∧
    select_one s1 = (s2, Ok tt) ∧ get_table_names s2 = (s3, Ok names) ∧
    alembic_revision s3 = (s4, Ok (Some ALEMBIC_HEAD_REVISION)) ∧
    lit "alembic_version" ∈ names ∧ REQUIRED_TABLES ⊆ names.

Lemma schema_check_deployed settings s :
  (∃ s', schema_check connect select_one get_table_names alembic_revision settings s =
         (s', Ok true)) ↔ deployed settings s.
Proof.
  unfold schema_check, deployed, bind, of_res. split.
  - intros [s' H]. destruct (get_database_url settings) as [url|] eqn:Hu; [|done].
    destruct (connect _ _ s) as [s1 [[]|]] eqn:H1; [|done].
    destruct (select_one s1) as [s2 [[]|]] eqn:H2; [|done].
    destruct (get_table_names s2) as [s3 [names|]] eqn:H3; [|done].
    destruct (mem (lit "alembic_version") names) eqn:Hm; [|done].
    destruct (alembic_revision s3) as [s4 [revision|]] eqn:H4; [|done].
    assert (bool_decide (revision = Some ALEMBIC_HEAD_REVISION) &&
            forallb (λ t, mem t names) REQUIRED_TABLES = true) as Hb by (unfold ret in H; congruence).
    apply andb_true_iff in Hb as [->%bool_decide_eq_true Hb].
    rewrite forallb_Forall, Forall_forall in Hb.
    exists url, s1, s2, s3, s4, names. rewrite <- mem_spec.
    repeat (split; [done|]). intros t Ht. apply mem_spec, Hb, Ht.
  - intros (url & s1 & s2 & s3 & s4 & names & -> & -> & -> & -> & H4 & Hv & Ht).
    rewrite (proj2 (mem_spec _ _) Hv), H4. exists s4. unfold ret.
    rewrite bool_decide_eq_true_2 by done. do 2 f_equal.
    apply forallb_Forall, Forall_forall. intros t Hin. by apply mem_spec, Ht.
Qed.

(** The readiness check always answers, with 200 exactly when it says ready and 503
    otherwise; and it says ready exactly when a provider that is required is configured, the
    database of the settings answers, its schema is at the head revision the code was
    written for and holds every table the services use.  No failure of a probe escapes. *)
Theorem readiness_exact settings s :
  ∃ s' code answer,
    readiness_check connect select_one get_table_names alembic_revision settings s =
      (s', Ok (code, answer)) ∧
    code = (if ReadinessResponse.ready answer then 200 else 503)%Z ∧
    (ReadinessResponse.ready answer = true ↔
       (Settings.provider_required settings = true → provider_is_configured settings = true) ∧
       deployed settings s).
Proof.
  unfold readiness_check.
  pose proof (schema_check_deployed settings s) as Hd.
  set (configuration := negb _ || _).
  assert (configuration = true ↔ (Settings.provider_required settings = true →
            provider_is_configured settings = true)) as Hc.
  { subst configuration. destruct (Settings.provider_required settings); simpl; naive_solver. }
  clearbody configuration. unfold bind at 1, try_except, bind at 1.
  destruct (schema_check _ _ _ _ settings s) as [s1 [schema|e]]; simpl.
  - exists s1. do 2 eexists. split; [reflexivity|]. simpl. split; [by rewrite andb_true_r|].
    rewrite andb_true_r, andb_true_iff, Hc, <- Hd. naive_solver.
  - exists s1. do 2 eexists. split; [reflexivity|]. simpl. split; [by rewrite andb_false_r|].
    rewrite andb_false_r, <- Hd. naive_solver.
Qed.
End readiness_theorem.

(** ** Concrete requests *)

Section demo.
Let settings := Settings.defaults <| Settings.database_url := Some (lit " postgresql://db/app ") |>.

Example demo_url : get_database_url settings = Ok (lit "postgresql+psycopg://db/app").
Proof. vm_compute. reflexivity. Qed.

(** A request that changes a row and then fails: its change is gone with its session. *)
Definition failing_request : M (memory (Database payload)) unit :=
  sess_change (put_assessment (demo_assessment <| AssessmentModel.company_name := lit "Other" |>)) ;;;
  raise KeyError.

Lemma request_session_clean_witness :
  let opened (_ : pystr) (_ : connect_args) : M (memory (Database payload)) unit := ret tt in
  let run := get_db_session opened (ret tt) settings failing_request (open_session demo_db) in
  view run.1 = demo_db ∧ run.2 = Raise KeyError ∧
  ((∃ e, run.2 = Raise e ∧ keeps (open_session demo_db) run.1 ∧
      (get_database_url settings = Raise (ApplicationError DatabaseNotConfiguredError) →
       e = ApplicationError DatabaseNotConfiguredError)) ∨
   ∃ s1, keeps (open_session demo_db) s1 ∧
     session_ended (failing_request s1).1 (failing_request s1).2 run.1 run.2).
Proof.
  intros opened run. split; [vm_compute; reflexivity|]. split; [vm_compute; reflexivity|].
  apply (request_session_clean (D := Database payload) opened (ret tt)).
  - intros url args s. by split.
  - intros s. by split.
Defined.
End demo.
