(* ===== verification/ApiRoutes.v ===== *)
(** app/api/routes and the response models of app/schemas: the routes of the API, the
    dependencies each declares and the order they are resolved in, and the operation each
    runs.

    FastAPI matches the request, decodes its parameters and resolves the declared
    dependencies.  What the routes rely on is that the dependencies of the router come
    before those of the route, each dependency is resolved once, in the order of the
    declaration, an exception of one of them ends the request, and the route's function runs
    only after all of them returned and the parameters were valid.  [serve_route] spells that
    order out for the declarations of each route. *)
From S2P Require Import Prelude Errors PyFloat Domain AgentModels Schemas RuntimeModels PyText.
From S2P Require Import Unicode Session Storage KnowledgeStore Repositories KnowledgeRepositories.
From S2P Require Import Identity Governance MemorySession GovernanceTheorems Assessments Tools.
From S2P Require Import AssessmentLifecycle KnowledgeRetrieval Utf8 DocumentParsers Ingestion.
From S2P Require Import FileIngestion PolicyConnector HttpApp Settings AssessmentBenchmark.
From S2P Require Import RetrievalBenchmark ProductRead DatabaseSession.

(** ** Requests and responses of the routes *)

Module KnowledgeSearchRequest.
Record t := mk {
  query : pystr;
  top_k : option Z;
  similarity_threshold : option pyfloat;
  source_type : option KnowledgeSourceType.t;
  document_id : option uuid
}.
End KnowledgeSearchRequest.

Module KnowledgeIngestionResponse.
Record t := mk { document : KnowledgeDocumentRecord.t; chunk_count : Z }.
Definition construct (r : t) : res t :=
  if Z.leb 1 (chunk_count r) then Ok r else Raise ValidationError.
End KnowledgeIngestionResponse.

Module FileIngestionResponse.
Record t := mk {
  document_id : uuid;
  filename : pystr;
  title : pystr;
  source_type : KnowledgeSourceType.t;
  mime_type : pystr;
  parser : pystr;
  extraction_method : pystr;
  normalized_character_count : Z;
  chunk_count : Z;
  duplicate : bool;
  graph_enrichment_status : GraphEnrichmentStatus.t;
  graph_error_code : option pystr;
  created_at : datetime
}.
(** [model_validate(result)] over the attributes of a [FileIngestionResult]. *)
Definition model_validate (r : FileIngestionResult.t) : res t :=
  let d := FileIngestionResult.document r in
  if Z.leb 1 (FileIngestionResult.normalized_character_count r) &&
     Z.leb 1 (FileIngestionResult.chunk_count r)
  then Ok (mk (KnowledgeDocumentRecord.document_id d) (FileIngestionResult.filename r)
             (KnowledgeDocumentRecord.title d) (KnowledgeDocumentRecord.source_type d)
             (FileIngestionResult.mime_type r) (FileIngestionResult.parser r)
             (FileIngestionResult.extraction_method r)
             (FileIngestionResult.normalized_character_count r) (FileIngestionResult.chunk_count r)
             (FileIngestionResult.duplicate r) (FileIngestionResult.graph_enrichment_status r)
             (FileIngestionResult.graph_error_code r) (KnowledgeDocumentRecord.created_at d))
  else Raise ValidationError.
End FileIngestionResponse.

Module RetrievedEvidenceResponse.
Record t := mk {
  chunk_id : uuid;
  document_id : uuid;
  document_title : pystr;
  content : pystr;
  similarity_score : option pyfloat;
  source_type : KnowledgeSourceType.t;
  metadata : pydict
}.
Definition model_validate (e : RetrievedEvidence.t) : t :=
  mk (RetrievedEvidence.chunk_id e) (RetrievedEvidence.document_id e)
    (RetrievedEvidence.document_title e) (RetrievedEvidence.content e)
    (RetrievedEvidence.similarity_score e) (RetrievedEvidence.source_type e)
    (RetrievedEvidence.metadata e).
End RetrievedEvidenceResponse.

Module KnowledgeGraphEnrichmentResponse.
Definition model_validate (r : KnowledgeGraphEnrichmentResult.t) :
    res KnowledgeGraphEnrichmentResult.t :=
  if Z.leb 0 (KnowledgeGraphEnrichmentResult.entity_count r) &&
     Z.leb 0 (KnowledgeGraphEnrichmentResult.relationship_count r) &&
     bool_decide (KnowledgeGraphEnrichmentResult.status r = lit "completed")
  then Ok r else Raise ValidationError.
End KnowledgeGraphEnrichmentResponse.

Module ReviewCandidateResponse.
Record t {J : Type} := mk {
  assessment_id : uuid;
  result : AssessmentResult.t;
  execution : option J;
  gate_result : QualityGateResult.t;
  review_status : HumanReviewStatus.t;
  telemetry : OperationalTelemetry.t;
  revision_count : Z;
  max_revisions : Z
}.
Arguments t : clear implicits.
(** What [RuntimeGovernanceService.get_review_candidate] returns of the checkpoint. *)
Definition of_state {J} (result : AssessmentResult.t) (execution : option J)
    (st : RuntimeAssessmentState.t J) : t J :=
  mk J (RuntimeAssessmentState.assessment_id st) result execution
    (RuntimeAssessmentState.gate_result st) (RuntimeAssessmentState.review_status st)
    (RuntimeAssessmentState.telemetry st) (RuntimeAssessmentState.revision_count st)
    (RuntimeAssessmentState.max_revisions st).
End ReviewCandidateResponse.

Module EvaluationModeSummary.
Record t {V : Type} := mk {
  mode : pystr;
  synthetic : bool;
  total_cases : Z;
  evaluated_cases : Z;
  aggregate_metrics : V;
  warnings : list pystr;
  reproducibility_fingerprint : option pystr
}.
Arguments t : clear implicits.
End EvaluationModeSummary.

(** ** The routes *)

Module Route.
Inductive t :=
  | SYNC_POLICY_REPOSITORY
  | CREATE_ASSESSMENT | GET_ASSESSMENT | GET_RUNTIME_STATUS | LIST_REVIEWS | GET_REVIEW_CANDIDATE
  | APPROVE_REVIEW | REJECT_REVIEW | REQUEST_REVIEW_REVISION
  | INGEST_FILE | INGEST_DOCUMENT | GET_DOCUMENT | ENRICH_DOCUMENT_GRAPH | SEARCH_KNOWLEDGE
  | GET_SESSION | LIST_ASSESSMENTS | LIST_PENDING_REVIEWS | GET_EVALUATION_SUMMARY
  | HEALTH_CHECK | READINESS_CHECK.
Definition members : list t :=
  [SYNC_POLICY_REPOSITORY; CREATE_ASSESSMENT; GET_ASSESSMENT; GET_RUNTIME_STATUS; LIST_REVIEWS;
   GET_REVIEW_CANDIDATE; APPROVE_REVIEW; REJECT_REVIEW; REQUEST_REVIEW_REVISION; INGEST_FILE;
   INGEST_DOCUMENT; GET_DOCUMENT; ENRICH_DOCUMENT_GRAPH; SEARCH_KNOWLEDGE; GET_SESSION;
   LIST_ASSESSMENTS; LIST_PENDING_REVIEWS; GET_EVALUATION_SUMMARY; HEALTH_CHECK; READINESS_CHECK].
End Route.
Import Route.
#[global] Instance route_eq_dec : EqDecision Route.t.
Proof. solve_decision. Defined.

(** The principal a route declares. *)
Inductive access := PUBLIC | AUTHENTICATED | REVIEWER_OR_ADMIN | ADMIN_ONLY.
#[global] Instance access_eq_dec : EqDecision access.
Proof. solve_decision. Defined.

Definition access_of (r : Route.t) : access :=
  match r with
  | HEALTH_CHECK | READINESS_CHECK => PUBLIC
  | SYNC_POLICY_REPOSITORY => ADMIN_ONLY
  | LIST_REVIEWS | GET_REVIEW_CANDIDATE | APPROVE_REVIEW | REJECT_REVIEW
  | REQUEST_REVIEW_REVISION | LIST_PENDING_REVIEWS => REVIEWER_OR_ADMIN
  | _ => AUTHENTICATED
  end.

Definition check_access (a : access) (p : principal) : res principal :=
  match a with
  | ADMIN_ONLY => require_admin p
  | REVIEWER_OR_ADMIN => require_reviewer_or_admin p
  | AUTHENTICATED | PUBLIC => Ok p
  end.

(** The status code of a route that returned. *)
Definition status_code (r : Route.t) : Z :=
  match r with INGEST_FILE | INGEST_DOCUMENT => 201 | _ => 200 end%Z.

(** An upload with the fields of its form. *)
Record file_form := FileForm {
  ff_file : UploadFile.t;
  ff_title : option pystr;
  ff_source_type : option KnowledgeSourceType.t;
  ff_metadata_json : option pystr;
  ff_enrich_graph : bool
}.

(** The validated parameters of a route: path, query and body. *)
Definition args (r : Route.t) : Type :=
  match r with
  | SYNC_POLICY_REPOSITORY => bool
  | CREATE_ASSESSMENT => AssessmentRequest.t
  | GET_ASSESSMENT | GET_RUNTIME_STATUS | LIST_REVIEWS | GET_REVIEW_CANDIDATE
  | GET_DOCUMENT | ENRICH_DOCUMENT_GRAPH => uuid
  | APPROVE_REVIEW | REJECT_REVIEW | REQUEST_REVIEW_REVISION => uuid * HumanReviewRequest.t
  | INGEST_FILE => file_form
  | INGEST_DOCUMENT => KnowledgeDocumentCreate.t
  | SEARCH_KNOWLEDGE => KnowledgeSearchRequest.t
  | LIST_ASSESSMENTS => option AssessmentStatus.t * nat * nat
  | LIST_PENDING_REVIEWS => nat * nat
  | GET_SESSION | GET_EVALUATION_SUMMARY | HEALTH_CHECK | READINESS_CHECK => unit
  end.

(** [Query(ge=0, le=100_000)] and [Query(ge=1, le=100)]. *)
Definition page_bounds (offset limit : nat) : bool :=
  in_range 0 100000 (Z.of_nat offset) && in_range 1 100 (Z.of_nat limit).

(** ** Handling a request *)

(** [FileIngestionService] and the connector, as their dependencies build them. *)
Record file_service (S : Type) := FileService {
  fs_parsers : list parser;
  fs_knowledge : ingestion S;
  fs_graph : option (uuid → M S KnowledgeGraphEnrichmentResult.t);
  fs_max_upload_size_bytes : Z
}.
Arguments FileService {S}.
Arguments fs_parsers {S}.
Arguments fs_knowledge {S}.
Arguments fs_graph {S}.
Arguments fs_max_upload_size_bytes {S}.
Record connector (S : Type) := Connector {
  co_sync : bool → M S PolicyRepositorySyncResult.t;
  co_close : M S unit
}.
Arguments Connector {S}.
Arguments co_sync {S}.
Arguments co_close {S}.

Inductive api_body (J V : Type) :=
  | SyncBody (b : PolicyRepositorySyncResult.t)
  | AssessmentBody (b : AssessmentResponse.t)
  | RuntimeStatusBody (b : RuntimeStatusResponse.t)
  | ReviewsBody (b : list HumanReviewRecord.t)
  | CandidateBody (b : ReviewCandidateResponse.t J)
  | DecisionBody (b : HumanReviewDecision.t)
  | FileBody (b : FileIngestionResponse.t)
  | IngestionBody (b : KnowledgeIngestionResponse.t)
  | DocumentBody (b : KnowledgeDocumentRecord.t)
  | GraphBody (b : KnowledgeGraphEnrichmentResult.t)
  | SearchBody (results : list RetrievedEvidenceResponse.t)
  | PrincipalBody (b : PrincipalResponse.t)
  | ListBody (b : AssessmentListResponse.t)
  | EvaluationBody (v7a v7b : list (EvaluationModeSummary.t V)) (disclaimer : pystr)
  | HealthBody (status version : pystr)
  | ReadinessBody (b : ReadinessResponse.t).
Arguments SyncBody {J V}.
Arguments AssessmentBody {J V}.
Arguments RuntimeStatusBody {J V}.
Arguments ReviewsBody {J V}.
Arguments CandidateBody {J V}.
Arguments DecisionBody {J V}.
Arguments FileBody {J V}.
Arguments IngestionBody {J V}.
Arguments DocumentBody {J V}.
Arguments GraphBody {J V}.
Arguments SearchBody {J V}.
Arguments PrincipalBody {J V}.
Arguments ListBody {J V}.
Arguments EvaluationBody {J V}.
Arguments HealthBody {J V}.
Arguments ReadinessBody {J V}.

Definition get_session (p : principal) : PrincipalResponse.t :=
  PrincipalResponse.mk (AuthenticatedPrincipal.subject p) (AuthenticatedPrincipal.email p)
    (AuthenticatedPrincipal.display_name p)
    (merge_sort str_le (Role.value <$> AuthenticatedPrincipal.roles p))
    (Some (AuthenticatedPrincipal.issuer p)).

Section routes.
Context {J V S : Type} `{!Session (Database J) S} `{!Session knowledge S} `{!Exporter S}.
Context `{!Json J} `{!JsonGet J}.
Context `{!PydanticModel J QualityGateResult.t gate_result_ok}.
Context `{!PydanticModel J OperationalTelemetry.t telemetry_ok}.
Context `{!PydanticModel J AssessmentResult.t assessment_result_ok}.
Context `{!PydanticModel J AssessmentRequest.t request_ok} `{!ExecutionJson J}.
Context {udb : UnicodeDB} {sha : Sha256} {conv : Conversions} {R : UploadRead} {json : MetadataJson}.
Context {cosine : CosineDistance}.
Context (str_of : pyval → pystr) (archive_names : bytes → res (list pystr)).

(** The two benchmark runs of the summary, one report per mode, and [model_dump] of their
    aggregates. *)
Context (retrieval_runner : Settings.t → EvaluationMode.t → M S EvaluationReport.t).
Context (assessment_runner : Settings.t → AssessmentEvaluationMode.t → M S AssessmentEvaluationReport.t).
Context (dump_retrieval : AggregateMetrics.t → V) (dump_quality : AssessmentQualityMetrics.t → V).
Context (check_readiness : Settings.t → M S (Z * ReadinessResponse.t)) (version : pystr).

(** What a route depends on besides the principal. *)
Definition service_of (r : Route.t) : Type :=
  match r with
  | SYNC_POLICY_REPOSITORY => connector S
  | CREATE_ASSESSMENT | GET_ASSESSMENT => services S
  | GET_RUNTIME_STATUS | LIST_REVIEWS | GET_REVIEW_CANDIDATE
  | APPROVE_REVIEW | REJECT_REVIEW | REQUEST_REVIEW_REVISION => GovernanceConfig.t
  | INGEST_FILE => file_service S
  | INGEST_DOCUMENT | GET_DOCUMENT => ingestion S
  | ENRICH_DOCUMENT_GRAPH => option (uuid → M S KnowledgeGraphEnrichmentResult.t)
  | SEARCH_KNOWLEDGE => vector_search S
  | GET_EVALUATION_SUMMARY | READINESS_CHECK => Settings.t
  | GET_SESSION | LIST_ASSESSMENTS | LIST_PENDING_REVIEWS | HEALTH_CHECK => unit
  end.

(** *** The functions of the routes *)

Definition route_get_review_candidate (assessment_id : uuid) : M S (ReviewCandidateResponse.t J) :=
  let* candidate := get_review_candidate assessment_id in
  ret (ReviewCandidateResponse.of_state candidate.1.1 candidate.1.2 candidate.2).

Definition ingest_file (service : file_service S) (form : file_form) : M S FileIngestionResponse.t :=
  let* result := ingest_upload archive_names (fs_parsers service) (fs_knowledge service)
    (fs_graph service) (fs_max_upload_size_bytes service) (ff_file form) (ff_title form)
    (ff_source_type form) (ff_metadata_json form) (ff_enrich_graph form) in
  of_res (FileIngestionResponse.model_validate result).

Definition ingest_document (service : ingestion S) (request : KnowledgeDocumentCreate.t) :
    M S KnowledgeIngestionResponse.t :=
  let* result := ingest service request false [] in
  of_res (KnowledgeIngestionResponse.construct
    (KnowledgeIngestionResponse.mk (KnowledgeIngestionResult.document result)
       (KnowledgeIngestionResult.chunk_count result))).

Definition enrich_document_graph (service : option (uuid → M S KnowledgeGraphEnrichmentResult.t))
    (document_id : uuid) : M S KnowledgeGraphEnrichmentResult.t :=
  match service with
  | None => app_raise KnowledgeGraphDisabledError
  | Some enrich =>
      let* result := enrich document_id in
      of_res (KnowledgeGraphEnrichmentResponse.model_validate result)
  end.

Definition search_knowledge (service : vector_search S) (request : KnowledgeSearchRequest.t) :
    M S (list RetrievedEvidenceResponse.t) :=
  let* evidence := search service (KnowledgeSearchRequest.query request)
    (KnowledgeSearchRequest.top_k request) (KnowledgeSearchRequest.similarity_threshold request)
    (KnowledgeSearchRequest.source_type request) (KnowledgeSearchRequest.document_id request) in
  ret (RetrievedEvidenceResponse.model_validate <$> evidence).

(** [[runner.run(mode) for mode in modes]]. *)
Fixpoint run_modes {A B} (run : A → M S B) (modes : list A) : M S (list B) :=
  match modes with
  | [] => ret []
  | mode :: rest => let* b := run mode in let* bs := run_modes run rest in ret (b :: bs)
  end.

Definition disclaimer : pystr :=
  lit "Synthetic deterministic benchmark results validate fixtures and contracts; " ++
  lit "they do not constitute production assurance or live-provider quality evidence.".

Definition v7a_summary (report : EvaluationReport.t) : EvaluationModeSummary.t V :=
  EvaluationModeSummary.mk V (EvaluationMode.value (EvaluationReport.evaluation_mode report))
    (EvaluationReport.synthetic report) (EvaluationReport.total_cases report)
    (EvaluationReport.evaluated_cases report)
    (dump_retrieval (EvaluationReport.aggregate_metrics report)) (EvaluationReport.warnings report) None.
Definition v7b_summary (report : AssessmentEvaluationReport.t) : EvaluationModeSummary.t V :=
  EvaluationModeSummary.mk V (AssessmentEvaluationMode.value (AssessmentEvaluationReport.mode report))
    (AssessmentEvaluationReport.synthetic report) (AssessmentEvaluationReport.total_cases report)
    (AssessmentEvaluationReport.evaluated_cases report)
    (dump_quality (AssessmentEvaluationReport.aggregate_metrics report))
    (AssessmentEvaluationReport.warnings report)
    (Some (AssessmentEvaluationReport.reproducibility_fingerprint report)).

Definition get_evaluation_summary (settings : Settings.t) : M S (api_body J V) :=
  let* retrieval_reports := run_modes (retrieval_runner settings) EvaluationMode.members in
  let* assessment_reports := run_modes (assessment_runner settings) AssessmentEvaluationMode.members in
  ret (EvaluationBody (v7a_summary <$> retrieval_reports) (v7b_summary <$> assessment_reports)
         disclaimer).

(** The function of each route, given its service, the principal of a guarded route and the
    validated parameters; the readiness check chooses its own status code. *)
Definition operation (r : Route.t) (p : option principal) :
    service_of r → args r → M S (Z * api_body J V) :=
  let answer {A} (f : A → api_body J V) (m : M S A) : M S (Z * api_body J V) :=
    let* a := m in ret (status_code r, f a) in
  match r return service_of r → args r → M S (Z * api_body J V) with
  | SYNC_POLICY_REPOSITORY => λ c enrich_graph,
      answer SyncBody (co_sync c enrich_graph)
  | CREATE_ASSESSMENT => λ svc request, answer AssessmentBody (generate_assessment svc request p)
  | GET_ASSESSMENT => λ _ id, answer AssessmentBody (get_assessment id)
  | GET_RUNTIME_STATUS => λ _ id, answer RuntimeStatusBody (get_runtime_status id)
  | LIST_REVIEWS => λ _ id, answer ReviewsBody (list_reviews id)
  | GET_REVIEW_CANDIDATE => λ _ id, answer CandidateBody (route_get_review_candidate id)
  | APPROVE_REVIEW => λ _ a, answer DecisionBody (approve a.1 a.2 p)
  | REJECT_REVIEW => λ _ a, answer DecisionBody (reject a.1 a.2 p)
  | REQUEST_REVIEW_REVISION => λ _ a, answer DecisionBody (request_revision a.1 a.2 p)
  | INGEST_FILE => λ svc form, answer FileBody (ingest_file svc form)
  | INGEST_DOCUMENT => λ svc request, answer IngestionBody (ingest_document svc request)
  | GET_DOCUMENT => λ _ id, answer DocumentBody (get_document id)
  | ENRICH_DOCUMENT_GRAPH => λ svc id, answer GraphBody (enrich_document_graph svc id)
  | SEARCH_KNOWLEDGE => λ svc request, answer SearchBody (search_knowledge svc request)
  | GET_SESSION => λ _ _,
      answer PrincipalBody (match p with Some p => ret (get_session p) | None => raise AssertionError end)
  | LIST_ASSESSMENTS => λ _ a, answer ListBody (list_assessments str_of a.1.1 a.1.2 a.2)
  | LIST_PENDING_REVIEWS => λ _ a,
      answer ListBody (list_assessments str_of (Some AssessmentStatus.PENDING_REVIEW) a.1 a.2)
  | GET_EVALUATION_SUMMARY => λ settings _, answer id (get_evaluation_summary settings)
  | HEALTH_CHECK => λ _ _, answer (λ _, HealthBody "ok" version) (ret tt)
  | READINESS_CHECK => λ settings _,
      let* result := check_readiness settings in ret (result.1, ReadinessBody result.2)
  end.

(** *** Validation, dependencies, dispatch *)

Definition search_request (r : KnowledgeSearchRequest.t) : res KnowledgeSearchRequest.t :=
  let r := KnowledgeSearchRequest.mk (str_strip (KnowledgeSearchRequest.query r))
    (KnowledgeSearchRequest.top_k r) (KnowledgeSearchRequest.similarity_threshold r)
    (KnowledgeSearchRequest.source_type r) (KnowledgeSearchRequest.document_id r) in
  if len_in 1 4000 (KnowledgeSearchRequest.query r) &&
     opt_all (in_range 1 20) (KnowledgeSearchRequest.top_k r) &&
     opt_all (λ x, fleb (float_of_Z (-1)) x && fleb x (float_of_Z 1))
       (KnowledgeSearchRequest.similarity_threshold r)
  then Ok r else Raise ValidationError.

Definition checked {A} (valid : A → bool) (a : A) : res A :=
  if valid a then Ok a else Raise ValidationError.

(** The declared constraints of the parameters. *)
Definition validate_args (r : Route.t) : args r → res (args r) :=
  match r return args r → res (args r) with
  | CREATE_ASSESSMENT => checked AssessmentRequest.valid
  | APPROVE_REVIEW | REJECT_REVIEW | REQUEST_REVIEW_REVISION =>
      checked (λ a, HumanReviewRequest.valid a.2)
  | INGEST_FILE => checked (λ form, opt_all (len_le 300) (ff_title form))
  | INGEST_DOCUMENT => document_create
  | SEARCH_KNOWLEDGE => search_request
  | LIST_ASSESSMENTS => checked (λ a, page_bounds a.1.2 a.2)
  | LIST_PENDING_REVIEWS => checked (λ a, page_bounds a.1 a.2)
  | _ => Ok
  end.

(** A request as the framework sees it: refused by an [HTTPException] of its own (no route, no
    such method, a form that cannot be parsed), a body that is no JSON, or a route with its
    parameters when they could be decoded. *)
Inductive decoded :=
  | Refused (status_code : Z) (detail : pystr)
  | Malformed
  | Matched (r : Route.t) (a : option (args r)).
Record incoming := Incoming {
  in_credentials : option (pystr * pystr);
  in_decoded : decoded
}.

Definition run_route (r : Route.t) (p : option principal) (svc : service_of r)
    (a : option (args r)) : M S (outcome (B := api_body J V)) :=
  match a with
  | None => ret RequestValidationError
  | Some a =>
      match validate_args r a with
      | Ok a => let* b := operation r p svc a in ret (Returned b.1 b.2)
      | Raise ValidationError => ret RequestValidationError
      | Raise e => raise e
      end
  end.

(** The connector's client is closed when its request ends. *)
Definition with_service {A} (r : Route.t) : service_of r → M S A → M S A :=
  match r return service_of r → M S A → M S A with
  | SYNC_POLICY_REPOSITORY => λ c m, try_finally m (co_close c)
  | _ => λ _ m, m
  end.

Context (resolve : ∀ r, M S (service_of r)).
Context (auth_enabled : bool) (verifier : res (option (pystr → res principal))).

(** [get_authenticated_principal] after its own dependency [get_token_verifier]. *)
Definition authenticated (credentials : option (pystr * pystr)) : res principal :=
  res_bind verifier (get_authenticated_principal auth_enabled credentials).

Definition serve_route (credentials : option (pystr * pystr)) (r : Route.t) (a : option (args r)) :
    M S (outcome (B := api_body J V)) :=
  match access_of r with
  | PUBLIC =>
      let* svc := resolve r in run_route r None svc a
  | ADMIN_ONLY =>
      let* p := of_res (authenticated credentials) in
      let* p := of_res (require_admin p) in
      let* svc := resolve r in
      with_service r svc (run_route r (Some p) svc a)
  | required =>
      let* p := of_res (authenticated credentials) in
      let* svc := resolve r in
      let* p := of_res (check_access required p) in
      with_service r svc (run_route r (Some p) svc a)
  end.

(** The application behind the middleware of app/main.py; the identifier of the request is
    read from the context by the session. *)
Definition api_endpoint (_ : option pystr) (request : request (P := incoming)) :
    M S (outcome (B := api_body J V)) :=
  match in_decoded (rq_rest request) with
  | Refused status_code detail => ret (StarletteHTTPException status_code detail)
  | Malformed => ret RequestValidationError
  | Matched r a => serve_route (in_credentials (rq_rest request)) r a
  end.
End routes.

(** ** Who reaches an operation *)

(** The roles that may use a route. *)
Definition permits (a : access) (p : principal) : Prop :=
  match a with
  | PUBLIC | AUTHENTICATED => True
  | REVIEWER_OR_ADMIN =>
      Role.REVIEWER ∈ AuthenticatedPrincipal.roles p ∨ Role.ADMIN ∈ AuthenticatedPrincipal.roles p
  | ADMIN_ONLY => Role.ADMIN ∈ AuthenticatedPrincipal.roles p
  end.
#[global] Instance permits_dec a p : Decision (permits a p).
Proof. unfold permits. destruct a; apply _. Defined.

Lemma check_access_permits a p :
  check_access a p =
  if decide (permits a p) then Ok p else Raise (ApplicationError PermissionDeniedError).
Proof.
  destruct a; try done; simpl.
  - unfold require_reviewer_or_admin. pose proof (can_review_spec p) as H.
    destruct (AuthenticatedPrincipal.can_review p); simpl; case_decide as Hd; try done; exfalso;
      [by apply Hd, H|by apply H in Hd].
Qed.

Section guards.
Context {J V S : Type} `{!Session (Database J) S} `{!Session knowledge S} `{!Exporter S}.
Context `{!Json J} `{!JsonGet J}.
Context `{!PydanticModel J QualityGateResult.t gate_result_ok}.
Context `{!PydanticModel J OperationalTelemetry.t telemetry_ok}.
Context `{!PydanticModel J AssessmentResult.t assessment_result_ok}.
Context `{!PydanticModel J AssessmentRequest.t request_ok} `{!ExecutionJson J}.
Context {udb : UnicodeDB} {sha : Sha256} {conv : Conversions} {R : UploadRead} {json : MetadataJson}.
Context {cosine : CosineDistance}.
Context (str_of : pyval → pystr) (archive_names : bytes → res (list pystr)).
Context (retrieval_runner : Settings.t → EvaluationMode.t → M S EvaluationReport.t).
Context (assessment_runner : Settings.t → AssessmentEvaluationMode.t → M S AssessmentEvaluationReport.t).
Context (dump_retrieval : AggregateMetrics.t → V) (dump_quality : AssessmentQualityMetrics.t → V).
Context (check_readiness : Settings.t → M S (Z * ReadinessResponse.t)) (version : pystr).
Context (resolve : ∀ r, M S (service_of (S := S) r)).
Context (auth_enabled : bool) (verifier : res (option (pystr → res principal))).

Abbreviation run := (run_route (J := J) str_of archive_names retrieval_runner assessment_runner
  dump_retrieval dump_quality check_readiness version).
Abbreviation serve_route := (serve_route (J := J) str_of archive_names retrieval_runner
  assessment_runner dump_retrieval dump_quality check_readiness version resolve auth_enabled
  verifier).
Abbreviation endpoint := (api_endpoint (J := J) str_of archive_names retrieval_runner
  assessment_runner dump_retrieval dump_quality check_readiness version resolve auth_enabled
  verifier).
Abbreviation authenticated := (authenticated auth_enabled verifier).

(** The three ends of a guarded request: no principal; a principal without the role, who
    gets no further than the dependencies the route names first; a principal with it. *)
Lemma serve_route_cases credentials r a s :
  access_of r ≠ PUBLIC →
  match authenticated credentials with
  | Raise e => serve_route credentials r a s = (s, Raise e)
  | Ok p =>
      if decide (permits (access_of r) p) then
        serve_route credentials r a s =
        bind (resolve r) (λ svc, with_service r svc (run r (Some p) svc a)) s
      else
        (serve_route credentials r a s = (s, Raise (ApplicationError PermissionDeniedError)) ∨
         serve_route credentials r a s =
         bind (resolve r) (λ _, raise (ApplicationError PermissionDeniedError)) s)
  end.
Proof.
  intros Hr. unfold ApiRoutes.serve_route. destruct (access_of r) eqn:Ha; [done| | |];
    unfold bind, of_res; destruct (authenticated credentials) as [p|e]; try done.
  - rewrite check_access_permits. destruct (decide _); [|right];
      by destruct (resolve r s) as [s1 [svc|e]].
  - unfold require_admin. simpl. case_decide; [done|by left].
Qed.

Context (phrase : Z → option pystr) (uuid4 : M S uuid) (max_length max_kb : Z) (debug : bool).
Context (Huuid : ∀ s, ∃ s' u, uuid4 s = (s', Ok u)) (Hmax : (max_length ≤ 128)%Z).

(** C4: The guards of the API.  Of every request that reaches a guarded route: without valid
    credentials it is answered 401 with a [Bearer] challenge and nothing at all ran; with a
    principal who lacks the route's role no operation runs, no matter how the parameters
    look, and the answer is 403 unless a dependency failed before the check; with the role,
    the answer is that of exactly one run of the route for that very principal.  Only the
    two health routes have no guard. *)
Theorem routes_guarded r a credentials (rq : request (P := incoming)) (h : http (S := S)) :
  exceeds_limit max_kb rq = false → rq_rest rq = Incoming credentials (Matched r a) →
  (access_of r = PUBLIC ↔ r = HEALTH_CHECK ∨ r = READINESS_CHECK) ∧
  (access_of r ≠ PUBLIC → ∃ id s supplied,
     identified uuid4 max_length rq (inner h) id supplied s ∧
     let '(h', answered) := serve endpoint phrase uuid4 max_length max_kb debug rq h in
     match authenticated credentials with
     | Raise e => inner h' = s ∧ answered = Ok (answer phrase debug id supplied (Raise e)) ∧
         (e = ApplicationError AuthenticationRequiredError → ∃ resp, answered = Ok resp ∧
            rs_status resp = 401%Z ∧ rs_www_authenticate resp = Some (lit "Bearer"))
     | Ok p =>
         if decide (permits (access_of r) p) then
           let '(s', result) :=
             bind (resolve r) (λ svc, with_service r svc (run r (Some p) svc a)) s in
           inner h' = s' ∧ answered = Ok (answer phrase debug id supplied result)
         else
           (inner h' = s ∨ inner h' = (resolve r s).1) ∧ ∃ resp, answered = Ok resp ∧
           (rs_status resp = 403%Z ∨
            ∃ e, (resolve r s).2 = Raise e ∧ resp = answer phrase debug id supplied (Raise e))
     end).
Proof.
  intros Hlimit Hrest. split; [destruct r; (split; [by auto|by intros [?|?]])|]. intros Hr.
  destruct (serve_spec endpoint phrase uuid4 max_length max_kb debug Huuid Hmax rq h)
    as (id & s & Hid & _ & Hserve).
  exists id, s, (_request_id_is_valid (rq_x_request_id rq) max_length). split; [exact Hid|].
  set (supplied := _request_id_is_valid _ _) in *. clearbody supplied.
  destruct (serve _ _ _ _ _ _ rq h) as [h' answered]. destruct Hserve as [_ Hserve].
  rewrite Hlimit in Hserve. unfold api_endpoint at 1 in Hserve. rewrite Hrest in Hserve. simpl in Hserve.
  pose proof (serve_route_cases credentials r a s Hr) as Hcases.
  destruct (authenticated credentials) as [p|e].
  - destruct (decide (permits (access_of r) p)).
    + rewrite Hcases in Hserve. exact Hserve.
    + destruct Hcases as [Heq|Heq]; rewrite Heq in Hserve.
      * destruct Hserve as [Hi ->]. split; [by left|]. eexists. split; [reflexivity|]. by left.
      * unfold bind, raise in Hserve. destruct (resolve r s) as [s1 [svc|e]];
          destruct Hserve as [Hi ->]; simpl; (split; [by right|]);
          (eexists; split; [reflexivity|]); [by left|right; eauto].
  - rewrite Hcases in Hserve. destruct Hserve as [Hi ->]. split; [done|]. split; [done|].
    intros ->. eexists. split; [reflexivity|]. by split.
Qed.
End guards.

(** ** Reading routes *)

(** The routes that answer a GET over the assessment tables. *)
Definition reads_assessments (r : Route.t) : bool :=
  match r with
  | GET_ASSESSMENT | GET_RUNTIME_STATUS | LIST_REVIEWS | GET_REVIEW_CANDIDATE
  | GET_SESSION | LIST_ASSESSMENTS | LIST_PENDING_REVIEWS => true
  | _ => false
  end.

Section reading.
Context {J S : Type} `{!Session (Database J) S} `{!SessionLaws (Database J) S}.

(** [commits_nothing m]: whatever [m] does or raises, what is durable stays. *)
Definition committed_same (s s' : S) : Prop := durable (D := Database J) s' = durable s.
#[export] Instance committed_same_preorder : PreOrder committed_same.
Proof. split; [done|]. intros s1 s2 s3 H1 H2. unfold committed_same in *. congruence. Qed.
Definition commits_nothing {A} (m : M S A) : Prop :=
  safe committed_same (λ _, True) m (λ _, True).

Lemma nothing_ret {A} (a : A) : commits_nothing (ret a).
Proof. by apply safe_ret; try apply _. Qed.
Lemma nothing_raise {A} e : commits_nothing (raise (A := A) e).
Proof. by apply safe_raise; try apply _. Qed.
Lemma nothing_of_res {A} (r : res A) : commits_nothing (of_res r).
Proof. apply safe_of_res; try apply _. by destruct r. Qed.
Lemma nothing_bind {A B} (m : M S A) (k : A → M S B) :
  commits_nothing m → (∀ a, commits_nothing (k a)) → commits_nothing (bind m k).
Proof. intros Hm Hk. apply (safe_bind _ _ m k (λ _, True)); [done|]. intros a _. apply Hk. Qed.
Lemma nothing_try {A} (m : M S A) h :
  commits_nothing m → (∀ e, commits_nothing (h e)) → commits_nothing (try_except m h).
Proof. intros Hm Hh. apply (safe_try _ _ m h (λ _, True)); [done|]. intros e _. apply Hh. Qed.
Lemma nothing_read {A} (q : Database J → A) : commits_nothing (sess_read q).
Proof.
  intros s. eapply wp_mono; [apply read_law|]. intros s' r [[_ Hd] _]. split; [done|by destruct r].
Qed.
Lemma nothing_rollback : commits_nothing (sess_rollback (D := Database J)).
Proof.
  intros s. eapply wp_mono; [apply rollback_law|]. intros s' r [Hd _]. split; [done|by destruct r].
Qed.
End reading.

Create HintDb committed.
#[export] Hint Resolve nothing_ret nothing_raise nothing_of_res nothing_read nothing_rollback : committed.
Ltac nothing_step :=
  match goal with
  | |- commits_nothing (bind _ _) => apply nothing_bind; [|intros ?]
  | |- commits_nothing (try_except _ _) => apply nothing_try; [|intros ?]
  | |- commits_nothing (app_raise _) => apply nothing_raise
  | |- commits_nothing (match ?x with _ => _ end) => destruct x
  | |- commits_nothing (if ?x then _ else _) => destruct x
  | |- commits_nothing _ => solve [auto with committed nocore]
  end.

Section reading_routes.
Context {J V S : Type} `{!Session (Database J) S} `{!SessionLaws (Database J) S}.
Context `{!Session knowledge S} `{!Exporter S} `{!Json J} `{!JsonGet J}.
Context `{!PydanticModel J QualityGateResult.t gate_result_ok}.
Context `{!PydanticModel J OperationalTelemetry.t telemetry_ok}.
Context `{!PydanticModel J AssessmentResult.t assessment_result_ok}.
Context `{!PydanticModel J AssessmentRequest.t request_ok} `{!ExecutionJson J}.
Context {udb : UnicodeDB} {sha : Sha256} {conv : Conversions} {R : UploadRead} {json : MetadataJson}.
Context {cosine : CosineDistance}.
Context (str_of : pyval → pystr) (archive_names : bytes → res (list pystr)).
Context (retrieval_runner : Settings.t → EvaluationMode.t → M S EvaluationReport.t).
Context (assessment_runner : Settings.t → AssessmentEvaluationMode.t → M S AssessmentEvaluationReport.t).
Context (dump_retrieval : AggregateMetrics.t → V) (dump_quality : AssessmentQualityMetrics.t → V).
Context (check_readiness : Settings.t → M S (Z * ReadinessResponse.t)) (version : pystr).

Lemma nothing_required_assessment id : commits_nothing (J := J) (_required_assessment (S := S) id).
Proof. unfold _required_assessment, get_by_id, get_assessment_model. repeat nothing_step. Qed.

Lemma nothing_required_state id : commits_nothing (J := J) (_required_state (S := S) id).
Proof.
  unfold _required_state, get_state. repeat first [apply nothing_required_assessment|nothing_step].
Qed.

Lemma nothing_operation r p svc a :
  reads_assessments r = true →
  commits_nothing (J := J) (operation (J := J) str_of archive_names retrieval_runner
    assessment_runner dump_retrieval dump_quality check_readiness version r p svc a).
Proof.
  intros Hr. destruct r; try done; simpl;
    unfold get_assessment, guard_database, _handle_database_error, get_by_id, get_assessment_model,
      get_runtime_status, list_reviews, list_review_events, route_get_review_candidate,
      get_review_candidate, list_assessments, list_page, get_states, count, count_by_status,
      count_by_gate_decision, count_by_review_status, read_failure;
    repeat first [apply nothing_required_assessment|apply nothing_required_state|nothing_step].
Qed.

Context (resolve : ∀ r, M S (service_of (S := S) r)).
Context (Hresolve : ∀ r, commits_nothing (J := J) (resolve r)).
Context (auth_enabled : bool) (verifier : res (option (pystr → res principal))).

(** C35: Reading is safe: whatever credentials and parameters a request to a reading route of
    the assessments brings, and whatever goes wrong on the way, what the database durably
    holds of assessments, checkpoints and review events is the same afterwards. *)
Theorem reading_routes_commit_nothing credentials r a s :
  reads_assessments r = true →
  wp (serve_route (J := J) str_of archive_names retrieval_runner assessment_runner
        dump_retrieval dump_quality check_readiness version resolve auth_enabled verifier
        credentials r a)
    (λ s' _, durable (D := Database J) s' = durable s) s.
Proof.
  intros Hr. eapply wp_mono.
  - assert (∀ p svc, commits_nothing (J := J) (run_route (J := J) str_of archive_names
      retrieval_runner assessment_runner dump_retrieval dump_quality check_readiness version r p
      svc a)) as Hrun.
    { intros p svc. unfold run_route. pose proof (nothing_operation r p svc) as Hop.
      repeat first [by apply Hop|nothing_step]. }
    assert (∀ A svc (m : M S A), with_service (S := S) r svc m = m) as Hwith by (by destruct r).
    assert (commits_nothing (J := J) (serve_route (J := J) str_of archive_names retrieval_runner
      assessment_runner dump_retrieval dump_quality check_readiness version resolve auth_enabled
      verifier credentials r a)) as Hall.
    { unfold serve_route. destruct (access_of r); repeat first
        [apply Hresolve|rewrite Hwith; apply Hrun|apply Hrun|nothing_step]. }
    apply Hall.
  - by intros s' r' [H _].
Qed.
End reading_routes.

(** * The guards of ApiRoutes on a concrete deployment: the held case of MemorySession behind
    the API, with authentication on. *)
Import Route.

Section demo.
Let S := memory (Database payload).

(** The knowledge tables are empty here, and no file is read. *)
#[local] Instance no_knowledge : Session knowledge S := {|
  view _ := KnowledgeTables.empty; durable _ := KnowledgeTables.empty;
  sess_read A q := λ s, (s, Ok (q KnowledgeTables.empty));
  sess_change _ := ret tt; sess_flush := ret tt; sess_commit := ret tt; sess_rollback := ret tt;
  clock := λ s, (s, Ok (datetime_utc 0)); uuid4 := λ s, (s, Ok 0%N);
  get_request_id := λ s, (s, Ok None)
|}.
#[local] Instance first_characters : Sha256 := take 64.
#[local] Instance no_conversions : Conversions := {| parse_int _ := Raise ValueError; display _ := [] |}.
#[local] Instance whole_read : UploadRead := λ n data, (data, []).
#[local] Instance no_metadata : MetadataJson :=
  {| json_loads _ := Raise ValueError; json_size _ := Ok 2%Z |}.
#[local] Instance same_distance : CosineDistance := λ _ _, f64_zero.
#[local] Instance ascii : UnicodeDB := ascii_db.

(** A token that names its role. *)
Definition demo_verify (token : pystr) : res principal :=
  match enum_of_value token with
  | Ok role => Ok (AuthenticatedPrincipal.mk "subject-1" None None [role] "https://issuer")
  | Raise _ => Raise (ApplicationError AuthenticationRequiredError)
  end.

Definition demo_resolve (r : Route.t) : M S (service_of (S := S) r) :=
  match r return M S (service_of (S := S) r) with
  | APPROVE_REVIEW | GET_RUNTIME_STATUS => ret demo_config
  | LIST_PENDING_REVIEWS => ret tt
  | _ => app_raise DatabaseNotConfiguredError
  end.

Let endpoint := api_endpoint (J := payload) (V := unit) (S := S) no_text no_archive
  (λ _ _, raise KeyError) (λ _ _, raise KeyError) (λ _, tt) (λ _, tt) (λ _, raise KeyError)
  "0.8.0" demo_resolve true (Ok (Some demo_verify)).

Definition asks (token : pystr) (r : Route.t) (a : args r) : request (P := incoming) :=
  Request None None None (Incoming (Some (lit "Bearer", token)) (Matched r (Some a))).

Let answer_to (rq : request (P := incoming)) :=
  serve endpoint (λ _, None) (uuid4 (D := Database payload)) 128 256 false rq (Http None None false (open_session demo_db)).

(** An administrator decides the held case; an analyst does not; a token that is none is
    challenged. *)
Example administrator_approves :
  match (answer_to (asks "admin" APPROVE_REVIEW (1%N, demo_review))).2 with
  | Ok resp => rs_status resp = 200%Z
  | Raise _ => False
  end.
Proof. vm_compute. reflexivity. Qed.
Example bad_token_challenged :
  match (answer_to (asks "nobody" APPROVE_REVIEW (1%N, demo_review))).2 with
  | Ok resp => rs_status resp = 401%Z ∧ rs_www_authenticate resp = Some (lit "Bearer")
  | Raise _ => False
  end.
Proof. vm_compute. done. Qed.

Lemma demo_fresh : ∀ s : S, ∃ s' u, uuid4 (D := Database payload) s = (s', Ok u).
Proof. intros s. do 2 eexists. reflexivity. Qed.

Lemma routes_guarded_witness :
  ∃ h' resp, answer_to (asks "analyst" APPROVE_REVIEW (1%N, demo_review)) = (h', Ok resp) ∧
    view (D := Database payload) (inner h') = demo_db ∧ rs_status resp = 403%Z.
Proof.
  destruct (routes_guarded (J := payload) (V := unit) (S := S) no_text no_archive
    (λ _ _, raise KeyError) (λ _ _, raise KeyError) (λ _, tt) (λ _, tt) (λ _, raise KeyError)
    "0.8.0" demo_resolve true (Ok (Some demo_verify)) (λ _, None) (uuid4 (D := Database payload)) 128 256 false
    demo_fresh ltac:(lia) APPROVE_REVIEW
    (Some (1%N, demo_review)) (Some (lit "Bearer", lit "analyst"))
    (asks "analyst" APPROVE_REVIEW (1%N, demo_review))
    (Http None None false (open_session demo_db)) eq_refl eq_refl) as [_ H].
  destruct H as (id & s & supplied & Hid & H); [done|].
  unfold answer_to, endpoint. destruct (serve _ _ _ _ _ _ _ _) as [h' answered].
  assert (view (D := Database payload) s = demo_db) as Hs.
  { inversion Hid as [|u s' _ Hu]; [done|]. injection Hu as <- _. reflexivity. }
  destruct H as [Hi (resp & -> & Hstatus)]. exists h', resp. split; [reflexivity|]. split.
  - destruct Hi as [->| ->]; exact Hs.
  - destruct Hstatus as [?|(e & He & _)]; [done|]. discriminate He.
Defined.

Lemma reading_routes_commit_nothing_witness :
  wp (serve_route (J := payload) (V := unit) (S := S) no_text no_archive
        (λ _ _, raise KeyError) (λ _ _, raise KeyError) (λ _, tt) (λ _, tt) (λ _, raise KeyError)
        "0.8.0" demo_resolve true (Ok (Some demo_verify)) (Some (lit "Bearer", lit "reviewer"))
        LIST_PENDING_REVIEWS (Some (0, 25)%nat))
    (λ s' _, durable (D := Database payload) s' = durable (open_session demo_db))
    (open_session demo_db).
Proof.
  apply (reading_routes_commit_nothing (J := payload) (V := unit) (S := S) no_text no_archive
    (λ _ _, raise KeyError) (λ _ _, raise KeyError) (λ _, tt) (λ _, tt) (λ _, raise KeyError)
    "0.8.0" demo_resolve).
  - intros []; simpl; repeat nothing_step.
  - reflexivity.
Defined.
End demo.
