(* ===== verification/KnowledgePlatform.v ===== *)
(** app/api/dependencies.py, the knowledge side and the connector: the embedding provider,
    the parsers, graph extraction over the structured provider, file ingestion and the
    policy connector are built from the settings, and resolved for the routes.

    The theorem says that what validated settings build meets what the transactions over
    the knowledge tables are proved under.  The libraries that read documents, the HTTP
    client and the splitting of its address are arguments. *)
From S2P Require Import Prelude PyText PyFloat Errors Domain AgentModels Schemas RuntimeModels.
From S2P Require Import Unicode Session Storage Repositories Identity Governance MemorySession.
From S2P Require Import Telemetry Assessments Tools KnowledgeStore KnowledgeExtraction KnowledgeEnrichment.
From S2P Require Import KnowledgeRetrieval Ingestion FileIngestion DocumentParsers PolicyConnector.
From S2P Require Import Utf8 Settings Providers Specialists Composition.
From S2P Require Import ProviderTheorems EmbeddingTheorems ProviderDemo SpecialistTheorems ApiRoutes.

(** ** app/api/dependencies.py *)

(** The classes the extractors request: their schemas and validation are pydantic's. *)
Record extraction_schemas := ExtractionSchemas {
  es_entities : pyval * (pyval → res EntityExtractionResult.t);
  es_relationships : pyval * (pyval → res RelationshipExtractionResult.t)
}.

(** [httpx.Client(base_url=..., headers=..., timeout=..., follow_redirects=False)]: a GET of a
    path with a limit, and [close]. *)
Record http_client (S : Type) := HttpClient {
  hc_stream : pystr → Z → M S byte_stream;
  hc_close : M S unit
}.
Arguments HttpClient {S}.
Arguments hc_stream {S}.
Arguments hc_close {S}.

Definition entity_model (schemas : extraction_schemas) : output_model EntityExtractionResult.t :=
  OutputModel (es_entities schemas).1 (es_entities schemas).2 EntityExtractionResult.valid.
Definition relationship_model (schemas : extraction_schemas) :
    output_model RelationshipExtractionResult.t :=
  OutputModel (es_relationships schemas).1 (es_relationships schemas).2
    RelationshipExtractionResult.valid.

Section dependencies.
Context {S : Type} {udb : UnicodeDB} (vn : vendors S).
Context (metrics : option (M RuntimeMetricsRecorder.t unit → M S unit)).
Context (schemas : extraction_schemas).

Definition get_embeddings_service (s : Settings.t) : res (EmbeddingProvider S) :=
  build_embedding_provider vn metrics s.

Definition get_graph_structured_output (s : Settings.t) : res (StructuredModelProvider S) :=
  build_structured_model_provider vn metrics (Some (Settings.graph_extraction_timeout_seconds s)) s.

(** The extractors of [get_graph_enrichment_service]. *)
Definition graph_extractors (structured : StructuredModelProvider S) (s : Settings.t) : extractors S :=
  Extractors
    (extract_entities (λ system user, structured_generate structured system user (entity_model schemas))
       (Settings.graph_max_entities s) (Settings.graph_min_confidence s))
    (extract_relationships
       (λ system user, structured_generate structured system user (relationship_model schemas))
       (Settings.graph_min_confidence s)).

Definition get_graph_enrichment_service (structured : StructuredModelProvider S) (s : Settings.t) :
    option (extractors S) :=
  if Settings.knowledge_graph_enabled s then Some (graph_extractors structured s) else None.

(** The readers of the two document libraries. *)
Context (PdfReader : bytes → res pdf_document) (pypdf_version : pystr).
Context (Document : bytes → res docx_document) (docx_version : pystr).

Definition get_file_parser_router (s : Settings.t) : list parser :=
  [PDFDocumentParser PdfReader pypdf_version (Settings.pdf_min_extracted_characters s);
   DOCXDocumentParser Document docx_version; TextDocumentParser; MarkdownDocumentParser].

Context `{!Session knowledge S}.

Definition get_file_ingestion_service (parsers : list parser) (knowledge : ingestion S)
    (graph : option (extractors S)) (s : Settings.t) : file_service S :=
  FileService parsers knowledge (enrich <$> graph) (Settings.max_upload_size_mb s * 1024 * 1024).

(** The connector is refused before anything else is built. *)
Definition require_policy_repository_settings (s : Settings.t) : res (pystr * pystr) :=
  if Settings.policy_repository_enabled s then
    match Settings.policy_repository_base_url s, Settings.policy_repository_token s with
    | Some base_url, Some token => Ok (base_url, token)
    | _, _ => Raise (ApplicationError ConnectorNotConfiguredError)
    end
  else Raise (ApplicationError ConnectorNotConfiguredError).

Context {sha : Sha256} {conv : Conversions} {json : MetadataJson}.
Context (client : pystr → pystr → Z → http_client S) (validate_page : bytes → res (list PolicyDocument.t)).
Context (isoformat : datetime → pystr) (hostname : pystr → option pystr).

(** [base_url.rstrip(/)]. *)
Definition rstrip_slash (text : pystr) : pystr := reverse (strip_left (Z.eqb 47) (reverse text)).

Definition get_policy_repository_connector (configured : pystr * pystr) (knowledge : ingestion S)
    (graph : option (extractors S)) (s : Settings.t) : connector S :=
  let base_url := rstrip_slash configured.1 in
  let c := client base_url configured.2 (Settings.policy_repository_timeout_seconds s) in
  Connector
    (sync knowledge (enrich <$> graph) (hc_stream c (Settings.policy_repository_documents_path s))
       validate_page isoformat (hostname base_url) (Settings.policy_repository_max_documents s)
       (Settings.policy_repository_max_response_mb s * 1024 * 1024))
    (hc_close c).

(** ** The dependencies of each route

    In the order the routes name them; an exception ends the request.  The services of the
    assessments are built by Composition. *)
Context (assessments : Settings.t → res (services S)).
Context (governance : Settings.t → res GovernanceConfig.t).

Definition knowledge_service (s : Settings.t) : res (ingestion S) :=
  res_bind (get_embeddings_service s) (λ e,
  Ok (get_knowledge_ingestion_service (embed_texts e) s)).
Definition graph_service (s : Settings.t) : res (option (extractors S)) :=
  res_bind (get_graph_structured_output s) (λ structured,
  Ok (get_graph_enrichment_service structured s)).

Definition resolve (s : Settings.t) (r : Route.t) : res (service_of (S := S) r) :=
  match r return res (service_of (S := S) r) with
  | Route.SYNC_POLICY_REPOSITORY =>
      res_bind (require_policy_repository_settings s) (λ configured,
      res_bind (knowledge_service s) (λ knowledge,
      res_bind (graph_service s) (λ graph,
      Ok (get_policy_repository_connector configured knowledge graph s))))
  | Route.CREATE_ASSESSMENT | Route.GET_ASSESSMENT => assessments s
  | Route.GET_RUNTIME_STATUS | Route.LIST_REVIEWS | Route.GET_REVIEW_CANDIDATE
  | Route.APPROVE_REVIEW | Route.REJECT_REVIEW | Route.REQUEST_REVIEW_REVISION => governance s
  | Route.INGEST_FILE =>
      res_bind (knowledge_service s) (λ knowledge,
      res_bind (graph_service s) (λ graph,
      Ok (get_file_ingestion_service (get_file_parser_router s) knowledge graph s)))
  | Route.INGEST_DOCUMENT | Route.GET_DOCUMENT => knowledge_service s
  | Route.ENRICH_DOCUMENT_GRAPH =>
      res_bind (graph_service s) (λ graph, Ok (enrich <$> graph))
  | Route.SEARCH_KNOWLEDGE =>
      res_bind (get_embeddings_service s) (λ e, Ok (get_retrieval_service (embed_texts e) s))
  | Route.GET_EVALUATION_SUMMARY | Route.READINESS_CHECK => Ok s
  | Route.GET_SESSION | Route.LIST_ASSESSMENTS | Route.LIST_PENDING_REVIEWS | Route.HEALTH_CHECK =>
      Ok tt
  end.
End dependencies.

(** ** The contracts *)

Lemma collect_raises {A B K} `{EqDecision K} (candidate : A → res (option (K * B))) confidence acc l e :
  collect candidate confidence acc l = Raise e → ∃ a, candidate a = Raise e.
Proof.
  revert acc. induction l as [|a l IH]; intros acc; simpl; [done|].
  destruct (candidate a) as [o|e'] eqn:Ha; simpl; [apply IH|]. intros [= ->]. by exists a.
Qed.

(** The exceptions of the extractors' own code are ones enrichment answers. *)
Lemma select_entities_handled {udb : UnicodeDB} chunk_id m mc result e :
  select_entities chunk_id m mc result = Raise e → handled e.
Proof.
  unfold select_entities. destruct (collect _ _ _ _) as [l|e'] eqn:Hc; simpl.
  - unfold EntityExtractionResult.construct. by case_match; intros [= <-].
  - intros [= <-]. apply collect_raises in Hc as [a Ha]. pose proof (entity_candidate_spec chunk_id mc a) as Hs.
    rewrite Ha in Hs. destruct (grounded_entity _ _); [by destruct Hs|by injection Hs as ->].
Qed.
Lemma select_relationships_handled {udb : UnicodeDB} chunk_id mc entities result e :
  select_relationships chunk_id mc entities result = Raise e → handled e.
Proof.
  unfold select_relationships. destruct (collect _ _ _ _) as [l|e'] eqn:Hc; simpl.
  - unfold RelationshipExtractionResult.construct. by case_match; intros [= <-].
  - intros [= <-]. apply collect_raises in Hc as [a Ha].
    pose proof (relationship_candidate_spec chunk_id mc (ExtractedEntity.local_key <$> entities) a)
      as Hs.
    rewrite Ha in Hs. destruct (grounded_relationship _ _ _); [by destruct Hs|by injection Hs as ->].
Qed.

Lemma provider_failure_handled e : provider_failure e → handled e.
Proof. intros (a & -> & _)%list_elem_of_fmap. done. Qed.

(** A computation that does not raise. *)
Definition is_Ok {A} (r : res A) : Prop := match r with Ok _ => True | Raise _ => False end.

Section contracts.
Context {S : Type} `{!Session knowledge S} `{!SessionLaws knowledge S}.
Context {url : UrlSplit} {udb : UnicodeDB} (vn : vendors S).
Context (metrics : option (M RuntimeMetricsRecorder.t unit → M S unit)) (schemas : extraction_schemas).

Record extraction_schemas_ok : Prop := {
  schemas_entities : output_model_ok (entity_model schemas);
  schemas_relationships : output_model_ok (relationship_model schemas)
}.

(** What the process and the SDKs provide here: their calls do not write the knowledge
    tables, and a response of the embedding endpoint can be read. *)
Record knowledge_vendors_ok : Prop := {
  kv_vendors : vendors_ok vn keeps metrics;
  kv_embeddings key timeout q :
    safe keeps (client_failure (V := vn_openai_errors vn))
      (embeddings_create (vn_openai vn key timeout 0) q) response_ok
}.

Lemma graph_extractors_ok X structured s :
  extraction_schemas_ok → provider_contract keeps X structured →
  extractors_ok (graph_extractors schemas structured s) handled.
Proof.
  intros Hs Hp. split; simpl.
  - intros id content. unfold extract_entities.
    apply safe_bind with (P := λ _, True); [apply keeps_preorder| |].
    + eapply safe_mono; [apply (pc_generate keeps X _ Hp), (schemas_entities Hs)| |done].
      apply provider_failure_handled.
    + intros result _. apply safe_of_res; [apply keeps_preorder|].
      destruct (select_entities _ _ _ _) eqn:H; [done|]. by eapply select_entities_handled.
  - intros id content entities. unfold extract_relationships.
    destruct (truthy entities); [|by apply safe_ret; [apply keeps_preorder|]].
    apply safe_bind with (P := λ _, True); [apply keeps_preorder| |].
    + eapply safe_mono; [apply (pc_generate keeps X _ Hp), (schemas_relationships Hs)| |done].
      apply provider_failure_handled.
    + intros result _. apply safe_of_res; [apply keeps_preorder|].
      destruct (select_relationships _ _ _ _) eqn:H; [done|]. by eapply select_relationships_handled.
Qed.

Lemma embeddings_built s :
  knowledge_vendors_ok → load_settings s = Ok s →
  (Settings.provider_retry_base_delay_ms s ≤ 4000)%Z →
  ∃ e, get_embeddings_service vn metrics s = Ok e ∧
    ∀ texts, safe keeps embedding_failure (embed_texts e texts) (λ v, length v = length texts ∧
      Forall (λ x, Z.of_nat (length x) = KNOWLEDGE_EMBEDDING_DIMENSION) v).
Proof.
  intros [Hvn Hemb] Hs Hd. destruct (retry_policy_built s Hs Hd) as (retry & Hp & Hr).
  destruct (loaded s Hs) as [Hf _].
  assert (Settings.openai_embedding_dimension s = KNOWLEDGE_EMBEDDING_DIMENSION) as Hdim.
  { unfold Settings.fields_ok in Hf. rewrite !andb_true_iff, Z.eqb_eq in Hf. tauto. }
  unfold get_embeddings_service, build_embedding_provider. rewrite Hp. simpl.
  unfold OpenAIEmbeddingProvider.provider. rewrite Hdim. eexists. split; [reflexivity|].
  intros texts. simpl. eapply safe_mono.
  - apply embeddings_contained; [apply keeps_preorder|by apply (vendors_adapter _ _ _ Hvn)|done|].
    unfold serves. apply safe_of_res; [apply keeps_preorder|]. unfold create_openai_client.
    destruct (usable_key _); [intros q; apply Hemb|by left].
  - done.
  - intros v [Hl Hall]. split; [done|]. eapply Forall_impl; [exact Hall|]. simpl. intros x Hx.
    unfold OpenAIEmbeddingProvider.vector_fits in Hx. apply andb_true_iff in Hx as [Hx _].
    by apply Z.eqb_eq.
Qed.

(** A validated configuration names the repository when it switches the connector on. *)
Lemma policy_repository_required s :
  load_settings s = Ok s →
  if Settings.policy_repository_enabled s
  then ∃ base_url token, require_policy_repository_settings s = Ok (base_url, token) ∧
         truthy base_url = true ∧ truthy (str_strip token) = true
  else require_policy_repository_settings s = Raise (ApplicationError ConnectorNotConfiguredError).
Proof.
  intros Hs. destruct (loaded s Hs) as [_ H]. unfold validate_chunk_settings in H.
  unfold require_policy_repository_settings.
  destruct (Settings.policy_repository_enabled s) eqn:He; [|done].
  do 5 apply and_then_ok in H as [_ H]. apply and_then_ok in H as [H _].
  apply when_ok in H; [|done]. unfold valid_policy_repository in H.
  apply and_then_ok in H as [H _]. apply ensure_ok, andb_true_iff in H as [Hu Ht].
  unfold given in Hu. unfold configured in Ht.
  destruct (Settings.policy_repository_base_url s) as [base_url|]; [|done].
  destruct (Settings.policy_repository_token s) as [token|]; [|done].
  exists base_url, token. auto.
Qed.

Context (PdfReader : bytes → res pdf_document) (pypdf_version : pystr).
Context (Document : bytes → res docx_document) (docx_version : pystr).
Context {sha : Sha256} {conv : Conversions} {json : MetadataJson}.
Context (client : pystr → pystr → Z → http_client S) (validate_page : bytes → res (list PolicyDocument.t)).
Context (isoformat : datetime → pystr) (hostname : pystr → option pystr).
Context (assessments : Settings.t → res (services S)).
Context (governance : Settings.t → res GovernanceConfig.t).
Abbreviation resolve := (resolve vn metrics schemas PdfReader pypdf_version Document docx_version
  client validate_page isoformat hostname assessments governance).

(** C11: The knowledge services are composed from the settings alone.  When they validate, with
    a retry delay of at most 4000 milliseconds, every knowledge route finds its service; the
    ingestion service cuts with an overlap below the chunk size and embeds into vectors of
    exactly the stored dimension, failing only with three public errors; the extractors exist
    just when the graph is switched on, and whatever the vendor answers they write nothing
    and raise only what an enrichment answers with a rollback - the assumption under which a
    pull is proved to stop cleanly.  The connector is there just when it is switched on;
    otherwise its route is refused before anything is built. *)
Theorem knowledge_platform_composed s :
  load_settings s = Ok s → (Settings.provider_retry_base_delay_ms s ≤ 4000)%Z →
  knowledge_vendors_ok → extraction_schemas_ok →
  ∃ svc graph,
    resolve s Route.INGEST_DOCUMENT = Ok svc ∧ resolve s Route.ENRICH_DOCUMENT_GRAPH = Ok (enrich <$> graph) ∧
    resolve s Route.INGEST_FILE = Ok (get_file_ingestion_service
      (get_file_parser_router PdfReader pypdf_version Document docx_version s) svc graph s) ∧
    is_Ok (resolve s Route.SEARCH_KNOWLEDGE) ∧
    (0 ≤ in_chunk_overlap svc < in_chunk_size svc)%Z ∧
    (∀ texts, safe keeps embedding_failure (in_embed_texts svc texts) (λ v, length v = length texts ∧
       Forall (λ x, Z.of_nat (length x) = KNOWLEDGE_EMBEDDING_DIMENSION) v)) ∧
    (is_Some graph ↔ Settings.knowledge_graph_enabled s = true) ∧
    (∀ ext, graph = Some ext → extractors_ok ext handled) ∧
    (if Settings.policy_repository_enabled s then is_Ok (resolve s Route.SYNC_POLICY_REPOSITORY)
     else resolve s Route.SYNC_POLICY_REPOSITORY =
          Raise (ApplicationError ConnectorNotConfiguredError)).
Proof.
  intros Hs Hd Hvn Hsch. destruct (embeddings_built s Hvn Hs Hd) as (e & He & Hemb).
  destruct (provider_built vn keeps metrics (kv_vendors Hvn) s
    (Some (Settings.graph_extraction_timeout_seconds s)) Hs Hd) as (p & Hp & Hc).
  exists (get_knowledge_ingestion_service (embed_texts e) s), (get_graph_enrichment_service schemas p s).
  pose proof (policy_repository_required s Hs) as Hpol.
  unfold KnowledgePlatform.resolve, knowledge_service, graph_service, get_graph_structured_output.
  rewrite He, Hp. simpl. split_and!; try done.
  - destruct (field_bounds s Hs) as (_ & H & _). exact H.
  - destruct (loaded s Hs) as [_ H]. unfold validate_chunk_settings in H.
    apply and_then_ok in H as [H _]. by apply ensure_ok, Z.ltb_lt in H.
  - unfold get_graph_enrichment_service. destruct (Settings.knowledge_graph_enabled s); split; try done.
  - intros ext Hext. unfold get_graph_enrichment_service in Hext.
    destruct (Settings.knowledge_graph_enabled s); [|done]. injection Hext as <-.
    by apply (graph_extractors_ok (decision_failure s)).
  - destruct (Settings.policy_repository_enabled s).
    + by destruct Hpol as (base_url & token & -> & _).
    + by rewrite Hpol.
Qed.
End contracts.

(** ** A busy vendor over the in-memory knowledge tables *)

Section demo.
#[local] Instance first_letters : Sha256 := take 64.
#[local] Instance nothing_converts : Conversions :=
  {| parse_int _ := Raise ValueError; display _ := [] |}.
#[local] Instance empty_metadata : MetadataJson :=
  {| json_loads _ := Raise ValueError; json_size _ := Ok 2%Z |}.

Definition demo_extraction_schemas : extraction_schemas :=
  ExtractionSchemas (PNone, λ _, Raise ValidationError) (PNone, λ _, Raise ValidationError).
Lemma demo_extraction_schemas_ok : extraction_schemas_ok demo_extraction_schemas.
Proof. split; split; simpl; intros; by simplify_eq. Qed.

Lemma busy_knowledge_vendors_ok :
  knowledge_vendors_ok (busy_vendors (memory knowledge)) None.
Proof.
  split; [apply busy_vendors_ok, keeps_preorder|]. intros key timeout q.
  by apply safe_raise; [apply keeps_preorder|].
Qed.

Let resolve_demo := resolve (udb := ascii_db) (busy_vendors (memory knowledge)) None
  demo_extraction_schemas (λ _, Raise ValueError) "5" (λ _, Raise ValueError) "1"
  (λ _ _ _, HttpClient (λ _ _, ret []) (ret tt)) (λ _, Raise ValueError) (λ _, []) (λ _, None)
  (λ _, Raise KeyError) (λ _, Raise KeyError).

Lemma knowledge_platform_composed_witness :
  let s := Settings.defaults <| Settings.knowledge_graph_enabled := true |> in
  ∃ svc ext,
    resolve_demo s Route.INGEST_DOCUMENT = Ok svc ∧
    resolve_demo s Route.ENRICH_DOCUMENT_GRAPH = Ok (Some (enrich (udb := ascii_db) ext)) ∧
    extractors_ok ext handled ∧
    resolve_demo s Route.SYNC_POLICY_REPOSITORY = Raise (ApplicationError ConnectorNotConfiguredError).
Proof.
  intros s.
  destruct (knowledge_platform_composed (udb := ascii_db) (busy_vendors (memory knowledge)) None
    demo_extraction_schemas (λ _, Raise ValueError) "5" (λ _, Raise ValueError) "1"
    (λ _ _ _, HttpClient (λ _ _, ret []) (ret tt)) (λ _, Raise ValueError) (λ _, []) (λ _, None)
    (λ _, Raise KeyError) (λ _, Raise KeyError) s)
    as (svc & graph & Hsvc & Hen & _ & _ & _ & _ & Hon & Hext & Hsync).
  - by vm_compute.
  - by vm_compute.
  - exact busy_knowledge_vendors_ok.
  - exact demo_extraction_schemas_ok.
  - destruct graph as [ext|]; [|by destruct (proj2 Hon eq_refl)].
    exists svc, ext. auto.
Defined.
End demo.
