(* ===== verification/Migrations.v ===== *)
(** alembic/versions/: the six migrations, the schema they build, and the schema that
    app/db/models/ declares.

    A migration is the list of the operations it issues.  [apply] is the documented effect
    of each on the catalogue of the server, with the conditions under which the server
    accepts it; the server itself is a parameter ([Catalog]) of which only that much is
    assumed.  Constraint names go through the naming convention of app/db/base.py as
    Alembic and SQLAlchemy apply it; the shortening of names beyond the limit of the server
    is not modelled. *)
From S2P Require Import Prelude Domain RuntimeModels KnowledgeStore DatabaseSession.

(** ** Schemas *)

Inductive column_type :=
  | UUID | VARCHAR (length : Z) | TEXT | JSONB | TIMESTAMPTZ | INTEGER | FLOAT
  | VECTOR (dimension : Z).

Module Column.
Record t := mk {
  type : column_type;
  nullable : bool;
  server_default : bool   (* CURRENT_TIMESTAMP *)
}.
End Column.

Inductive constraint :=
  | PrimaryKeyConstraint (columns : list pystr)
  | UniqueConstraint (columns : list pystr)
  | ForeignKeyConstraint (columns : list pystr) (table : pystr) (referred : list pystr) (cascade : bool)
  | CheckConstraint (condition : pystr) (mentioned : list pystr).

#[export] Instance column_type_eq_dec : EqDecision column_type.
Proof. solve_decision. Defined.
#[export] Instance constraint_eq_dec : EqDecision constraint.
Proof. solve_decision. Defined.

(** The columns of its own table a constraint is about. *)
Definition own_columns (c : constraint) : list pystr :=
  match c with
  | PrimaryKeyConstraint cols | UniqueConstraint cols
  | ForeignKeyConstraint cols _ _ _ | CheckConstraint _ cols => cols
  end.

Module Table.
Record t := mk {
  columns : gmap pystr Column.t;
  constraints : gmap pystr constraint
}.
#[export] Instance eta : Eta t := λ r, mk (columns r) (constraints r).
Definition has (T : t) (cols : list pystr) : Prop := Forall (λ c, is_Some (columns T !! c)) cols.
#[export] Instance has_dec T cols : Decision (has T cols).
Proof. unfold has. apply _. Defined.
End Table.
#[export] Existing Instance Table.eta.
#[export] Existing Instance Table.has_dec.

Module Index.
Record t := mk {
  table : pystr;
  columns : list pystr;
  method : option (pystr * pystr)   (* access method and operator class *)
}.
End Index.

Module Schema.
Record t := mk {
  extensions : gset pystr;
  tables : gmap pystr Table.t;
  indexes : gmap pystr Index.t
}.
#[export] Instance eta : Eta t := λ r, mk (extensions r) (tables r) (indexes r).
Definition empty : t := mk ∅ ∅ ∅.
End Schema.
#[export] Existing Instance Schema.eta.

#[export] Instance column_eq_dec : EqDecision Column.t.
Proof. solve_decision. Defined.
#[export] Instance table_eq_dec : EqDecision Table.t.
Proof. solve_decision. Defined.
#[export] Instance index_eq_dec : EqDecision Index.t.
Proof. solve_decision. Defined.
#[export] Instance schema_eq_dec : EqDecision Schema.t.
Proof. solve_decision. Defined.

(** ** Operations *)

Inductive op :=
  | CreateExtension (name : pystr)
  | CreateTable (name : pystr) (columns : list (pystr * Column.t))
      (constraints : list (pystr * constraint))
  | DropTable (name : pystr)
  | CreateIndex (name table : pystr) (columns : list pystr) (method : option (pystr * pystr))
  | DropIndex (name : pystr)
  | AddColumn (table name : pystr) (column : Column.t)
  | DropColumn (table name : pystr)
  | CreateCheck (name table condition : pystr) (mentioned : list pystr)
  | DropConstraint (name table : pystr).

Section apply.
Context (s : Schema.t).

Definition column_known (c : Column.t) : Prop :=
  match Column.type c with VECTOR _ => lit "vector" ∈ Schema.extensions s | _ => True end.
#[export] Instance column_known_dec c : Decision (column_known c).
Proof. unfold column_known. destruct (Column.type c); apply _. Defined.

Definition keys (T : Table.t) : list (list pystr) :=
  omap (λ kc, match kc.2 with PrimaryKeyConstraint cols | UniqueConstraint cols => Some cols | _ => None end)
    (map_to_list (Table.constraints T)).

(** A foreign key refers to a key of a table that exists; every other constraint is about
    the columns of its own. *)
Definition constraint_accepted (T : Table.t) (c : constraint) : Prop :=
  Table.has T (own_columns c) ∧
  match c with
  | ForeignKeyConstraint _ r refs _ =>
      match Schema.tables s !! r with
      | Some R => Table.has R refs ∧ refs ∈ keys R
      | None => False
      end
  | _ => True
  end.
#[export] Instance constraint_accepted_dec T c : Decision (constraint_accepted T c).
Proof.
  unfold constraint_accepted. apply and_dec; [apply _|]. destruct c; try apply _.
  destruct (Schema.tables s !! table); apply _.
Defined.

(** Tables, indexes and the indexes of keys share one name space. *)
Definition key_names (T : Table.t) : list pystr :=
  omap (λ kc, match kc.2 with PrimaryKeyConstraint _ | UniqueConstraint _ => Some kc.1 | _ => None end)
    (map_to_list (Table.constraints T)).
Definition relation_names : list pystr :=
  (map_to_list (Schema.tables s)).*1 ++ (map_to_list (Schema.indexes s)).*1 ++
  mjoin ((λ nT, key_names nT.2) <$> map_to_list (Schema.tables s)).

(** No table holds a foreign key to table [n] that [P] selects by its holder and columns. *)
Definition referred_by (n m : pystr) (P : pystr → list pystr → Prop) (c : constraint) : Prop :=
  match c with ForeignKeyConstraint _ r refs _ => r = n ∧ P m refs | _ => False end.
#[export] Instance referred_by_dec n m P c `{!∀ m refs, Decision (P m refs)} :
  Decision (referred_by n m P c).
Proof. destruct c; apply _. Defined.
Definition unreferred (n : pystr) (P : pystr → list pystr → Prop) : Prop :=
  map_Forall (λ m T, map_Forall (λ _ c, ¬ referred_by n m P c) (Table.constraints T))
    (Schema.tables s).

(** The effect of an operation; [None] where the server may refuse it. *)
Definition apply (o : op) : option Schema.t :=
  match o with
  | CreateExtension x => Some (s <| Schema.extensions := {[x]} ∪ Schema.extensions s |>)
  | CreateTable n cols cs =>
      let T := Table.mk (list_to_map cols) (list_to_map cs) in
      guard (n ∉ relation_names);;
      guard (NoDup cols.*1 ∧ NoDup cs.*1 ∧ Forall (λ k, k ∉ n :: relation_names) (key_names T));;
      guard (Forall column_known cols.*2 ∧
             map_Forall (λ _ c, constraint_accepted T c) (Table.constraints T));;
      Some (s <| Schema.tables := <[n := T]> (Schema.tables s) |>)
  | DropTable n =>
      T ← Schema.tables s !! n;
      guard (unreferred n (λ m _, m ≠ n));;
      Some (s <| Schema.tables := delete n (Schema.tables s) |>
              <| Schema.indexes := filter (λ ki, Index.table ki.2 ≠ n) (Schema.indexes s) |>)
  | CreateIndex i n cols method =>
      T ← Schema.tables s !! n;
      guard (i ∉ relation_names ∧ Table.has T cols);;
      Some (s <| Schema.indexes := <[i := Index.mk n cols method]> (Schema.indexes s) |>)
  | DropIndex i =>
      I ← Schema.indexes s !! i;
      Some (s <| Schema.indexes := delete i (Schema.indexes s) |>)
  | AddColumn n c col =>
      T ← Schema.tables s !! n;
      guard (Table.columns T !! c = None ∧ column_known col ∧
             (Column.nullable col = true ∨ Column.server_default col = true));;
      Some (s <| Schema.tables :=
        <[n := T <| Table.columns := <[c := col]> (Table.columns T) |>]> (Schema.tables s) |>)
  | DropColumn n c =>
      T ← Schema.tables s !! n;
      guard (is_Some (Table.columns T !! c) ∧ unreferred n (λ _ refs, c ∈ refs));;
      Some (s <| Schema.tables := <[n := T
                   <| Table.columns := delete c (Table.columns T) |>
                   <| Table.constraints := filter (λ kc, c ∉ own_columns kc.2) (Table.constraints T) |>]>
                     (Schema.tables s) |>
              <| Schema.indexes :=
                   filter (λ ki, ¬ (Index.table ki.2 = n ∧ c ∈ Index.columns ki.2))
                     (Schema.indexes s) |>)
  | CreateCheck k n condition mentioned =>
      T ← Schema.tables s !! n;
      guard (Table.constraints T !! k = None ∧ Table.has T mentioned);;
      Some (s <| Schema.tables := <[n := T
        <| Table.constraints := <[k := CheckConstraint condition mentioned]> (Table.constraints T) |>]>
          (Schema.tables s) |>)
  | DropConstraint k n =>
      T ← Schema.tables s !! n;
      match Table.constraints T !! k with
      | Some (CheckConstraint _ _) =>
          Some (s <| Schema.tables := <[n := T
            <| Table.constraints := delete k (Table.constraints T) |>]> (Schema.tables s) |>)
      | _ => None
      end
  end.
End apply.

Fixpoint apply_all (os : list op) (s : Schema.t) : option Schema.t :=
  match os with
  | [] => Some s
  | o :: os => s' ← apply s o; apply_all os s'
  end.

(** ** app/db/base.py: the naming convention

    A check constraint whose name is not marked final ([op.f]) is renamed by it. *)
Definition ck (table_name constraint_name : pystr) : pystr :=
  lit "ck_" ++ table_name ++ lit "_" ++ constraint_name.
Definition pk (table_name : pystr) : pystr := lit "pk_" ++ table_name.
Definition fk (table_name column_0_name referred_table_name : pystr) : pystr :=
  lit "fk_" ++ table_name ++ lit "_" ++ column_0_name ++ lit "_" ++ referred_table_name.

(** ** alembic/versions/ *)

Module Migration.
Record t := mk {
  revision : pystr;
  down_revision : option pystr;
  upgrade : list op;
  downgrade : list op
}.
End Migration.

(** 20260909_0001_create_assessments.py *)
Module Rev0001.
Definition upgrade : list op :=
  [ CreateTable (lit "assessments")
      [ (lit "id", Column.mk UUID false false);
        (lit "status", Column.mk (VARCHAR 20) false false);
        (lit "company_name", Column.mk (VARCHAR 200) false false);
        (lit "industry", Column.mk (VARCHAR 120) false false);
        (lit "business_problem", Column.mk TEXT false false);
        (lit "request_payload", Column.mk JSONB false false);
        (lit "result_payload", Column.mk JSONB true false);
        (lit "error_code", Column.mk (VARCHAR 100) true false);
        (lit "error_message", Column.mk (VARCHAR 500) true false);
        (lit "created_at", Column.mk TIMESTAMPTZ false true);
        (lit "updated_at", Column.mk TIMESTAMPTZ false true);
        (lit "completed_at", Column.mk TIMESTAMPTZ true false) ]
      [ (lit "ck_assessments_assessment_status_values",
           CheckConstraint (lit "status IN ('pending', 'processing', 'completed', 'failed')")
             [lit "status"]);
        (lit "ck_assessments_completed_has_result_and_timestamp",
           CheckConstraint (lit "status != 'completed' OR (result_payload IS NOT NULL AND completed_at IS NOT NULL)")
             [lit "status"; lit "result_payload"; lit "completed_at"]);
        (lit "ck_assessments_failed_has_error_without_result",
           CheckConstraint (lit "status != 'failed' OR (result_payload IS NULL AND error_code IS NOT NULL AND error_message IS NOT NULL)")
             [lit "status"; lit "result_payload"; lit "error_code"; lit "error_message"]);
        (lit "pk_assessments", PrimaryKeyConstraint [lit "id"]) ];
    CreateIndex (lit "ix_assessments_created_at") (lit "assessments") [lit "created_at"] None;
    CreateIndex (lit "ix_assessments_status") (lit "assessments") [lit "status"] None ].
Definition downgrade : list op :=
  [ DropIndex (lit "ix_assessments_status");
    DropIndex (lit "ix_assessments_created_at");
    DropTable (lit "assessments") ].
Definition migration : Migration.t :=
  Migration.mk (lit "20260909_0001") None upgrade downgrade.
End Rev0001.

(** 20260909_0002_add_pgvector_knowledge_layer.py *)
Module Rev0002.
Definition EMBEDDING_DIMENSION : Z := 1536.
Definition upgrade : list op :=
  [ CreateExtension (lit "vector");
    CreateTable (lit "knowledge_documents")
      [ (lit "id", Column.mk UUID false false);
        (lit "title", Column.mk (VARCHAR 300) false false);
        (lit "source_type", Column.mk (VARCHAR 30) false false);
        (lit "source_uri", Column.mk (VARCHAR 2000) true false);
        (lit "external_id", Column.mk (VARCHAR 300) true false);
        (lit "content", Column.mk TEXT false false);
        (lit "metadata", Column.mk JSONB false false);
        (lit "content_hash", Column.mk (VARCHAR 64) false false);
        (lit "created_at", Column.mk TIMESTAMPTZ false true);
        (lit "updated_at", Column.mk TIMESTAMPTZ false true) ]
      [ (lit "ck_knowledge_documents_knowledge_source_type_values",
           CheckConstraint (lit "source_type IN ('text', 'markdown', 'policy', 'report', 'case_study', 'manual', 'synthetic')")
             [lit "source_type"]);
        (lit "pk_knowledge_documents", PrimaryKeyConstraint [lit "id"]) ];
    CreateIndex (lit "ix_knowledge_documents_source_type") (lit "knowledge_documents")
        [lit "source_type"] None;
    CreateIndex (lit "ix_knowledge_documents_content_hash") (lit "knowledge_documents")
        [lit "content_hash"] None;
    CreateTable (lit "knowledge_chunks")
      [ (lit "id", Column.mk UUID false false);
        (lit "document_id", Column.mk UUID false false);
        (lit "chunk_index", Column.mk INTEGER false false);
        (lit "content", Column.mk TEXT false false);
        (lit "embedding", Column.mk (VECTOR EMBEDDING_DIMENSION) false false);
        (lit "metadata", Column.mk JSONB false false);
        (lit "created_at", Column.mk TIMESTAMPTZ false true) ]
      [ (lit "fk_knowledge_chunks_document_id_knowledge_documents",
           ForeignKeyConstraint [lit "document_id"] (lit "knowledge_documents") [lit "id"] true);
        (lit "pk_knowledge_chunks", PrimaryKeyConstraint [lit "id"]);
        (lit "uq_knowledge_chunks_document_chunk_index",
           UniqueConstraint [lit "document_id"; lit "chunk_index"]) ];
    CreateIndex (lit "ix_knowledge_chunks_document_id") (lit "knowledge_chunks")
        [lit "document_id"] None;
    CreateIndex (lit "ix_knowledge_chunks_embedding_hnsw") (lit "knowledge_chunks")
        [lit "embedding"] (Some (lit "hnsw", lit "vector_cosine_ops")) ].
Definition downgrade : list op :=
  [ DropIndex (lit "ix_knowledge_chunks_embedding_hnsw");
    DropIndex (lit "ix_knowledge_chunks_document_id");
    DropTable (lit "knowledge_chunks");
    DropIndex (lit "ix_knowledge_documents_content_hash");
    DropIndex (lit "ix_knowledge_documents_source_type");
    DropTable (lit "knowledge_documents") ].
Definition migration : Migration.t :=
  Migration.mk (lit "20260909_0002") (Some (lit "20260909_0001")) upgrade downgrade.
End Rev0002.

(** 20260909_0003_add_agent_execution_metadata.py *)
Module Rev0003.
Definition upgrade : list op :=
  [ AddColumn (lit "assessments") (lit "execution_metadata") (Column.mk JSONB true false) ].
Definition downgrade : list op :=
  [ DropColumn (lit "assessments") (lit "execution_metadata") ].
Definition migration : Migration.t :=
  Migration.mk (lit "20260909_0003") (Some (lit "20260909_0002")) upgrade downgrade.
End Rev0003.

(** 20260910_0004_add_knowledge_graph.py *)
Module Rev0004.
Definition ENTITY_TYPES : list pystr :=
  [lit "organization"; lit "process"; lit "system"; lit "policy"; lit "regulation";
   lit "risk"; lit "data_asset"; lit "ai_capability"; lit "control"; lit "role"; lit "other"].
Definition RELATIONSHIP_TYPES : list pystr :=
  [lit "uses"; lit "depends_on"; lit "part_of"; lit "governed_by"; lit "affected_by";
   lit "creates_risk"; lit "mitigated_by"; lit "requires"; lit "produces"; lit "consumes"; lit "related_to"].
Definition _allowed (values : list pystr) : pystr :=
  str_join (lit ", ") ((λ value, lit "'" ++ value ++ lit "'") <$> values).
Definition upgrade : list op :=
  [ CreateTable (lit "knowledge_entities")
      [ (lit "id", Column.mk UUID false false);
        (lit "entity_type", Column.mk (VARCHAR 30) false false);
        (lit "canonical_name", Column.mk (VARCHAR 300) false false);
        (lit "normalized_name", Column.mk (VARCHAR 300) false false);
        (lit "description", Column.mk TEXT true false);
        (lit "metadata", Column.mk JSONB false false);
        (lit "created_at", Column.mk TIMESTAMPTZ false true);
        (lit "updated_at", Column.mk TIMESTAMPTZ false true) ]
      [ (lit "ck_knowledge_entities_knowledge_entity_type_values",
           CheckConstraint (lit "entity_type IN (" ++ _allowed ENTITY_TYPES ++ lit ")")
             [lit "entity_type"]);
        (lit "pk_knowledge_entities", PrimaryKeyConstraint [lit "id"]);
        (lit "uq_knowledge_entities_type_normalized_name",
           UniqueConstraint [lit "entity_type"; lit "normalized_name"]) ];
    CreateIndex (lit "ix_knowledge_entities_normalized_name") (lit "knowledge_entities")
        [lit "normalized_name"] None;
    CreateIndex (lit "ix_knowledge_entities_entity_type") (lit "knowledge_entities")
        [lit "entity_type"] None;
    CreateTable (lit "knowledge_entity_mentions")
      [ (lit "id", Column.mk UUID false false);
        (lit "entity_id", Column.mk UUID false false);
        (lit "document_id", Column.mk UUID false false);
        (lit "chunk_id", Column.mk UUID false false);
        (lit "mention_text", Column.mk (VARCHAR 500) false false);
        (lit "confidence", Column.mk FLOAT false false);
        (lit "metadata", Column.mk JSONB false false);
        (lit "created_at", Column.mk TIMESTAMPTZ false true) ]
      [ (ck (lit "knowledge_entity_mentions") (lit "knowledge_entity_mentions_confidence_range"),
           CheckConstraint (lit "confidence >= 0 AND confidence <= 1") [lit "confidence"]);
        (lit "fk_knowledge_entity_mentions_entity_id_knowledge_entities",
           ForeignKeyConstraint [lit "entity_id"] (lit "knowledge_entities") [lit "id"] true);
        (lit "fk_knowledge_entity_mentions_document_id_knowledge_documents",
           ForeignKeyConstraint [lit "document_id"] (lit "knowledge_documents") [lit "id"] true);
        (lit "fk_knowledge_entity_mentions_chunk_id_knowledge_chunks",
           ForeignKeyConstraint [lit "chunk_id"] (lit "knowledge_chunks") [lit "id"] true);
        (lit "pk_knowledge_entity_mentions", PrimaryKeyConstraint [lit "id"]);
        (lit "uq_knowledge_entity_mentions_entity_chunk",
           UniqueConstraint [lit "entity_id"; lit "chunk_id"]) ] ] ++
  ((λ column, CreateIndex (lit "ix_knowledge_entity_mentions_" ++ column)
      (lit "knowledge_entity_mentions") [column] None) <$>
    [lit "entity_id"; lit "document_id"; lit "chunk_id"]) ++
  [ CreateTable (lit "knowledge_relationships")
      [ (lit "id", Column.mk UUID false false);
        (lit "source_entity_id", Column.mk UUID false false);
        (lit "target_entity_id", Column.mk UUID false false);
        (lit "relationship_type", Column.mk (VARCHAR 30) false false);
        (lit "description", Column.mk TEXT true false);
        (lit "confidence", Column.mk FLOAT false false);
        (lit "source_chunk_id", Column.mk UUID false false);
        (lit "metadata", Column.mk JSONB false false);
        (lit "created_at", Column.mk TIMESTAMPTZ false true) ]
      [ (ck (lit "knowledge_relationships") (lit "knowledge_relationships_no_self_edge"),
           CheckConstraint (lit "source_entity_id <> target_entity_id")
             [lit "source_entity_id"; lit "target_entity_id"]);
        (ck (lit "knowledge_relationships") (lit "knowledge_relationships_confidence_range"),
           CheckConstraint (lit "confidence >= 0 AND confidence <= 1") [lit "confidence"]);
        (lit "ck_knowledge_relationships_knowledge_relationship_type_values",
           CheckConstraint (lit "relationship_type IN (" ++ _allowed RELATIONSHIP_TYPES ++ lit ")")
             [lit "relationship_type"]);
        (lit "fk_knowledge_relationships_source_entity_id_knowledge_entities",
           ForeignKeyConstraint [lit "source_entity_id"] (lit "knowledge_entities") [lit "id"] true);
        (lit "fk_knowledge_relationships_target_entity_id_knowledge_entities",
           ForeignKeyConstraint [lit "target_entity_id"] (lit "knowledge_entities") [lit "id"] true);
        (lit "fk_knowledge_relationships_source_chunk_id_knowledge_chunks",
           ForeignKeyConstraint [lit "source_chunk_id"] (lit "knowledge_chunks") [lit "id"] true);
        (lit "pk_knowledge_relationships", PrimaryKeyConstraint [lit "id"]);
        (lit "uq_knowledge_relationships_source_target_type_chunk",
           UniqueConstraint [lit "source_entity_id"; lit "target_entity_id";
                             lit "relationship_type"; lit "source_chunk_id"]) ] ] ++
  ((λ column, CreateIndex (lit "ix_knowledge_relationships_" ++ column)
      (lit "knowledge_relationships") [column] None) <$>
    [lit "source_entity_id"; lit "target_entity_id"; lit "relationship_type"; lit "source_chunk_id"]).
Definition downgrade : list op :=
  ((λ column, DropIndex (lit "ix_knowledge_relationships_" ++ column)) <$>
    [lit "source_chunk_id"; lit "relationship_type"; lit "target_entity_id"; lit "source_entity_id"]) ++
  [ DropTable (lit "knowledge_relationships") ] ++
  ((λ column, DropIndex (lit "ix_knowledge_entity_mentions_" ++ column)) <$>
    [lit "chunk_id"; lit "document_id"; lit "entity_id"]) ++
  [ DropTable (lit "knowledge_entity_mentions");
    DropIndex (lit "ix_knowledge_entities_entity_type");
    DropIndex (lit "ix_knowledge_entities_normalized_name");
    DropTable (lit "knowledge_entities") ].
Definition migration : Migration.t :=
  Migration.mk (lit "20260910_0004") (Some (lit "20260909_0003")) upgrade downgrade.
End Rev0004.

(** 20260910_0005_add_runtime_reviews.py *)
Module Rev0005.
Definition upgrade : list op :=
  [ DropConstraint (lit "ck_assessments_assessment_status_values") (lit "assessments");
    CreateCheck (lit "ck_assessments_assessment_status_values") (lit "assessments")
      (lit "status IN ('pending', 'processing', 'completed', 'failed', 'pending_review')") [lit "status"];
    CreateTable (lit "assessment_runtime_states")
      [ (lit "assessment_id", Column.mk UUID false false);
        (lit "gate_decision", Column.mk (VARCHAR 40) false false);
        (lit "review_status", Column.mk (VARCHAR 30) false false);
        (lit "reason_codes", Column.mk JSONB false false);
        (lit "candidate_result", Column.mk JSONB true false);
        (lit "candidate_execution", Column.mk JSONB true false);
        (lit "telemetry", Column.mk JSONB false false);
        (lit "revision_count", Column.mk INTEGER false false);
        (lit "max_revisions", Column.mk INTEGER false false);
        (lit "created_at", Column.mk TIMESTAMPTZ false true);
        (lit "updated_at", Column.mk TIMESTAMPTZ false true) ]
      [ (lit "ck_assessment_runtime_states_gate_decision_values",
           CheckConstraint (lit "gate_decision IN ('auto_complete', 'complete_with_warning', 'require_human_review', 'block_and_escalate')")
             [lit "gate_decision"]);
        (lit "ck_assessment_runtime_states_review_status_values",
           CheckConstraint (lit "review_status IN ('not_required', 'pending', 'approved', 'rejected', 'revision_requested')")
             [lit "review_status"]);
        (lit "ck_assessment_runtime_states_revision_bounds",
           CheckConstraint (lit "revision_count >= 0 AND max_revisions >= 0 AND revision_count <= max_revisions")
             [lit "revision_count"; lit "max_revisions"]);
        (lit "fk_assessment_runtime_states_assessment_id_assessments",
           ForeignKeyConstraint [lit "assessment_id"] (lit "assessments") [lit "id"] true);
        (lit "pk_assessment_runtime_states", PrimaryKeyConstraint [lit "assessment_id"]) ];
    CreateIndex (lit "ix_assessment_runtime_states_review_status") (lit "assessment_runtime_states")
        [lit "review_status"] None;
    CreateTable (lit "human_review_events")
      [ (lit "id", Column.mk UUID false false);
        (lit "assessment_id", Column.mk UUID false false);
        (lit "action", Column.mk (VARCHAR 30) false false);
        (lit "previous_status", Column.mk (VARCHAR 30) false false);
        (lit "new_status", Column.mk (VARCHAR 30) false false);
        (lit "reviewer_id", Column.mk (VARCHAR 100) true false);
        (lit "comment", Column.mk TEXT true false);
        (lit "reason_codes", Column.mk JSONB false false);
        (lit "revision_number", Column.mk INTEGER false false);
        (lit "created_at", Column.mk TIMESTAMPTZ false true) ]
      [ (lit "ck_human_review_events_action_values",
           CheckConstraint (lit "action IN ('requested', 'approved', 'rejected', 'revision_requested', 'revision_submitted')")
             [lit "action"]);
        (lit "ck_human_review_events_revision_nonnegative",
           CheckConstraint (lit "revision_number >= 0") [lit "revision_number"]);
        (lit "fk_human_review_events_assessment_id_assessments",
           ForeignKeyConstraint [lit "assessment_id"] (lit "assessments") [lit "id"] true);
        (lit "pk_human_review_events", PrimaryKeyConstraint [lit "id"]) ];
    CreateIndex (lit "ix_human_review_events_assessment_created") (lit "human_review_events")
        [lit "assessment_id"; lit "created_at"] None ].
Definition downgrade : list op :=
  [ DropIndex (lit "ix_human_review_events_assessment_created");
    DropTable (lit "human_review_events");
    DropIndex (lit "ix_assessment_runtime_states_review_status");
    DropTable (lit "assessment_runtime_states");
    DropConstraint (lit "ck_assessments_assessment_status_values") (lit "assessments");
    CreateCheck (lit "ck_assessments_assessment_status_values") (lit "assessments")
      (lit "status IN ('pending', 'processing', 'completed', 'failed')") [lit "status"] ].
Definition migration : Migration.t :=
  Migration.mk (lit "20260910_0005") (Some (lit "20260910_0004")) upgrade downgrade.
End Rev0005.

(** 20260911_0006_add_identity_audit.py *)
Module Rev0006.
Definition upgrade : list op :=
  [ AddColumn (lit "assessments") (lit "created_by_subject") (Column.mk (VARCHAR 255) true false);
    CreateIndex (lit "ix_assessments_created_by_subject") (lit "assessments")
        [lit "created_by_subject"] None;
    AddColumn (lit "human_review_events") (lit "reviewer_subject") (Column.mk (VARCHAR 255) true false);
    AddColumn (lit "human_review_events") (lit "reviewer_email") (Column.mk (VARCHAR 320) true false);
    AddColumn (lit "human_review_events") (lit "reviewer_role") (Column.mk (VARCHAR 20) true false);
    AddColumn (lit "human_review_events") (lit "reviewer_issuer") (Column.mk (VARCHAR 255) true false);
    AddColumn (lit "human_review_events") (lit "request_id") (Column.mk (VARCHAR 128) true false) ].
Definition downgrade : list op :=
  [ DropColumn (lit "human_review_events") (lit "request_id");
    DropColumn (lit "human_review_events") (lit "reviewer_issuer");
    DropColumn (lit "human_review_events") (lit "reviewer_role");
    DropColumn (lit "human_review_events") (lit "reviewer_email");
    DropColumn (lit "human_review_events") (lit "reviewer_subject");
    DropIndex (lit "ix_assessments_created_by_subject");
    DropColumn (lit "assessments") (lit "created_by_subject") ].
Definition migration : Migration.t :=
  Migration.mk (lit "20260911_0006") (Some (lit "20260910_0005")) upgrade downgrade.
End Rev0006.

(** The directory, and the chain Alembic follows through it. *)
Definition versions : list Migration.t :=
  [Rev0001.migration; Rev0002.migration; Rev0003.migration; Rev0004.migration;
   Rev0005.migration; Rev0006.migration].

Definition successors (r : option pystr) : list Migration.t :=
  filter (λ m, Migration.down_revision m = r) versions.
Fixpoint chain_from (fuel : nat) (r : option pystr) : list Migration.t :=
  match fuel, successors r with
  | S fuel, [m] => m :: chain_from fuel (Some (Migration.revision m))
  | _, _ => []
  end.
Definition chain : list Migration.t := chain_from (length versions) None.

(** ** app/db/models/: the declared schema *)

Definition enum_values (table column name : pystr) (values : list pystr) : pystr * constraint :=
  (ck table name,
   CheckConstraint (column ++ lit " IN (" ++
     str_join (lit ", ") ((λ v, lit "'" ++ v ++ lit "'") <$> values) ++ lit ")") [column]).
Definition primary_key (table column : pystr) : pystr * constraint :=
  (pk table, PrimaryKeyConstraint [column]).
(** [ForeignKey("<table>.id", ondelete="CASCADE")] on a column. *)
Definition reference (table column referred : pystr) : pystr * constraint :=
  (fk table column referred, ForeignKeyConstraint [column] referred [lit "id"] true).
Definition index_on (name table : pystr) (columns : list pystr) : pystr * Index.t :=
  (name, Index.mk table columns None).

Definition created_at : pystr * Column.t := (lit "created_at", Column.mk TIMESTAMPTZ false true).
Definition updated_at : pystr * Column.t := (lit "updated_at", Column.mk TIMESTAMPTZ false true).
Definition required (name : pystr) (type : column_type) : pystr * Column.t :=
  (name, Column.mk type false false).
Definition optional (name : pystr) (type : column_type) : pystr * Column.t :=
  (name, Column.mk type true false).

Module AssessmentTable.
Definition name : pystr := "assessments".
Definition table : Table.t := Table.mk
  (list_to_map
    [required "id" UUID; required "status" (VARCHAR 20); required "company_name" (VARCHAR 200);
     required "industry" (VARCHAR 120); required "business_problem" TEXT;
     optional "created_by_subject" (VARCHAR 255); required "request_payload" JSONB;
     optional "result_payload" JSONB; optional "execution_metadata" JSONB;
     optional "error_code" (VARCHAR 100); optional "error_message" (VARCHAR 500);
     created_at; updated_at; optional "completed_at" TIMESTAMPTZ])
  (list_to_map
    [primary_key name "id";
     enum_values name "status" "assessment_status_values"
       (AssessmentStatus.value <$> AssessmentStatus.members);
     (ck name "completed_has_result_and_timestamp", CheckConstraint
       "status != 'completed' OR (result_payload IS NOT NULL AND completed_at IS NOT NULL)"
       [lit "status"; lit "result_payload"; lit "completed_at"]);
     (ck name "failed_has_error_without_result", CheckConstraint
       (lit "status != 'failed' OR " ++
        lit "(result_payload IS NULL AND error_code IS NOT NULL AND error_message IS NOT NULL)")
       [lit "status"; lit "result_payload"; lit "error_code"; lit "error_message"])]).
Definition indexes : list (pystr * Index.t) :=
  [index_on "ix_assessments_status" name [lit "status"];
   index_on "ix_assessments_created_at" name [lit "created_at"];
   index_on "ix_assessments_created_by_subject" name [lit "created_by_subject"]].
End AssessmentTable.

Module RuntimeStateTable.
Definition name : pystr := "assessment_runtime_states".
Definition table : Table.t := Table.mk
  (list_to_map
    [required "assessment_id" UUID; required "gate_decision" (VARCHAR 40);
     required "review_status" (VARCHAR 30); required "reason_codes" JSONB;
     optional "candidate_result" JSONB; optional "candidate_execution" JSONB;
     required "telemetry" JSONB; required "revision_count" INTEGER;
     required "max_revisions" INTEGER; created_at; updated_at])
  (list_to_map
    [primary_key name "assessment_id"; reference name "assessment_id" "assessments";
     (ck name "gate_decision_values", CheckConstraint
       (lit "gate_decision IN ('auto_complete', 'complete_with_warning', " ++
        lit "'require_human_review', 'block_and_escalate')") [lit "gate_decision"]);
     (ck name "review_status_values", CheckConstraint
       (lit "review_status IN ('not_required', 'pending', 'approved', 'rejected', " ++
        lit "'revision_requested')") [lit "review_status"]);
     (ck name "revision_bounds", CheckConstraint
       "revision_count >= 0 AND max_revisions >= 0 AND revision_count <= max_revisions"
       [lit "revision_count"; lit "max_revisions"])]).
Definition indexes : list (pystr * Index.t) :=
  [index_on "ix_assessment_runtime_states_review_status" name [lit "review_status"]].
End RuntimeStateTable.

Module ReviewEventTable.
Definition name : pystr := "human_review_events".
Definition table : Table.t := Table.mk
  (list_to_map
    [required "id" UUID; required "assessment_id" UUID; required "action" (VARCHAR 30);
     required "previous_status" (VARCHAR 30); required "new_status" (VARCHAR 30);
     optional "reviewer_id" (VARCHAR 100); optional "reviewer_subject" (VARCHAR 255);
     optional "reviewer_email" (VARCHAR 320); optional "reviewer_role" (VARCHAR 20);
     optional "reviewer_issuer" (VARCHAR 255); optional "request_id" (VARCHAR 128);
     optional "comment" TEXT; required "reason_codes" JSONB; required "revision_number" INTEGER;
     created_at])
  (list_to_map
    [primary_key name "id"; reference name "assessment_id" "assessments";
     (ck name "action_values", CheckConstraint
       (lit "action IN ('requested', 'approved', 'rejected', 'revision_requested', " ++
        lit "'revision_submitted')") [lit "action"]);
     (ck name "revision_nonnegative", CheckConstraint "revision_number >= 0"
       [lit "revision_number"])]).
Definition indexes : list (pystr * Index.t) :=
  [index_on "ix_human_review_events_assessment_created" name
     [lit "assessment_id"; lit "created_at"]].
End ReviewEventTable.

Module DocumentTable.
Definition name : pystr := "knowledge_documents".
Definition table : Table.t := Table.mk
  (list_to_map
    [required "id" UUID; required "title" (VARCHAR 300); required "source_type" (VARCHAR 30);
     optional "source_uri" (VARCHAR 2000); optional "external_id" (VARCHAR 300);
     required "content" TEXT; required "metadata" JSONB; required "content_hash" (VARCHAR 64);
     created_at; updated_at])
  (list_to_map
    [primary_key name "id";
     enum_values name "source_type" "knowledge_source_type_values"
       (KnowledgeSourceType.value <$> KnowledgeSourceType.members)]).
Definition indexes : list (pystr * Index.t) :=
  [index_on "ix_knowledge_documents_source_type" name [lit "source_type"];
   index_on "ix_knowledge_documents_content_hash" name [lit "content_hash"]].
End DocumentTable.

Module ChunkTable.
Definition name : pystr := "knowledge_chunks".
Definition table : Table.t := Table.mk
  (list_to_map
    [required "id" UUID; required "document_id" UUID; required "chunk_index" INTEGER;
     required "content" TEXT; required "embedding" (VECTOR KNOWLEDGE_EMBEDDING_DIMENSION);
     required "metadata" JSONB; created_at])
  (list_to_map
    [primary_key name "id"; reference name "document_id" "knowledge_documents";
     (lit "uq_knowledge_chunks_document_chunk_index",
      UniqueConstraint [lit "document_id"; lit "chunk_index"])]).
Definition indexes : list (pystr * Index.t) :=
  [index_on "ix_knowledge_chunks_document_id" name [lit "document_id"];
   (lit "ix_knowledge_chunks_embedding_hnsw",
    Index.mk name [lit "embedding"] (Some (lit "hnsw", lit "vector_cosine_ops")))].
End ChunkTable.

Module EntityTable.
Definition name : pystr := "knowledge_entities".
Definition table : Table.t := Table.mk
  (list_to_map
    [required "id" UUID; required "entity_type" (VARCHAR 30);
     required "canonical_name" (VARCHAR 300); required "normalized_name" (VARCHAR 300);
     optional "description" TEXT; required "metadata" JSONB; created_at; updated_at])
  (list_to_map
    [primary_key name "id";
     enum_values name "entity_type" "knowledge_entity_type_values"
       (KnowledgeEntityType.value <$> KnowledgeEntityType.members);
     (lit "uq_knowledge_entities_type_normalized_name",
      UniqueConstraint [lit "entity_type"; lit "normalized_name"])]).
Definition indexes : list (pystr * Index.t) :=
  [index_on "ix_knowledge_entities_normalized_name" name [lit "normalized_name"];
   index_on "ix_knowledge_entities_entity_type" name [lit "entity_type"]].
End EntityTable.

Module MentionTable.
Definition name : pystr := "knowledge_entity_mentions".
Definition table : Table.t := Table.mk
  (list_to_map
    [required "id" UUID; required "entity_id" UUID; required "document_id" UUID;
     required "chunk_id" UUID; required "mention_text" (VARCHAR 500);
     required "confidence" FLOAT; required "metadata" JSONB; created_at])
  (list_to_map
    [primary_key name "id"; reference name "entity_id" "knowledge_entities";
     reference name "document_id" "knowledge_documents";
     reference name "chunk_id" "knowledge_chunks";
     (lit "uq_knowledge_entity_mentions_entity_chunk",
      UniqueConstraint [lit "entity_id"; lit "chunk_id"]);
     (ck name "knowledge_entity_mentions_confidence_range",
      CheckConstraint "confidence >= 0 AND confidence <= 1" [lit "confidence"])]).
Definition indexes : list (pystr * Index.t) :=
  [index_on "ix_knowledge_entity_mentions_entity_id" name [lit "entity_id"];
   index_on "ix_knowledge_entity_mentions_document_id" name [lit "document_id"];
   index_on "ix_knowledge_entity_mentions_chunk_id" name [lit "chunk_id"]].
End MentionTable.

Module RelationshipTable.
Definition name : pystr := "knowledge_relationships".
Definition table : Table.t := Table.mk
  (list_to_map
    [required "id" UUID; required "source_entity_id" UUID; required "target_entity_id" UUID;
     required "relationship_type" (VARCHAR 30); optional "description" TEXT;
     required "confidence" FLOAT; required "source_chunk_id" UUID; required "metadata" JSONB;
     created_at])
  (list_to_map
    [primary_key name "id"; reference name "source_entity_id" "knowledge_entities";
     reference name "target_entity_id" "knowledge_entities";
     reference name "source_chunk_id" "knowledge_chunks";
     enum_values name "relationship_type" "knowledge_relationship_type_values"
       (KnowledgeRelationshipType.value <$> KnowledgeRelationshipType.members);
     (lit "uq_knowledge_relationships_source_target_type_chunk",
      UniqueConstraint [lit "source_entity_id"; lit "target_entity_id";
                        lit "relationship_type"; lit "source_chunk_id"]);
     (ck name "knowledge_relationships_no_self_edge",
      CheckConstraint "source_entity_id <> target_entity_id"
        [lit "source_entity_id"; lit "target_entity_id"]);
     (ck name "knowledge_relationships_confidence_range",
      CheckConstraint "confidence >= 0 AND confidence <= 1" [lit "confidence"])]).
Definition indexes : list (pystr * Index.t) :=
  [index_on "ix_knowledge_relationships_source_entity_id" name [lit "source_entity_id"];
   index_on "ix_knowledge_relationships_target_entity_id" name [lit "target_entity_id"];
   index_on "ix_knowledge_relationships_relationship_type" name [lit "relationship_type"];
   index_on "ix_knowledge_relationships_source_chunk_id" name [lit "source_chunk_id"]].
End RelationshipTable.

(** [Base.metadata], over a server that has pgvector. *)
Definition declared : Schema.t := Schema.mk {[lit "vector"]}
  (list_to_map
    [(AssessmentTable.name, AssessmentTable.table);
     (RuntimeStateTable.name, RuntimeStateTable.table);
     (ReviewEventTable.name, ReviewEventTable.table);
     (DocumentTable.name, DocumentTable.table); (ChunkTable.name, ChunkTable.table);
     (EntityTable.name, EntityTable.table); (MentionTable.name, MentionTable.table);
     (RelationshipTable.name, RelationshipTable.table)])
  (list_to_map
    (AssessmentTable.indexes ++ RuntimeStateTable.indexes ++ ReviewEventTable.indexes ++
     DocumentTable.indexes ++ ChunkTable.indexes ++ EntityTable.indexes ++
     MentionTable.indexes ++ RelationshipTable.indexes)).



(** ** The server

    Of the database only the documented effect of the operations on its catalogue is used, and
    only for a server on which nothing but the catalogue decides: the tables are empty (adding
    a check or a unique constraint scans the rows there are, adding a column that is not
    nullable needs none), the vector extension is available and may be created, and no name is
    longer than the server keeps.  [ddl_applies] is false of a server with rows that violate a
    constraint a migration adds, and nothing is claimed of one. *)
Class Catalog (C : Type) := {
  ddl : op → C → option C;
  catalog : C → Schema.t;
  ddl_applies : ∀ o c s', apply (catalog c) o = Some s' →
    ∃ c', ddl o c = Some c' ∧ catalog c' = s'
}.

Fixpoint ddl_all {C} `{Catalog C} (os : list op) (c : C) : option C :=
  match os with
  | [] => Some c
  | o :: os => c' ← ddl o c; ddl_all os c'
  end.

(** Applying and reverting one migration, with the revision Alembic records. *)
Inductive alembic_step {C} `{Catalog C} : option pystr * C → option pystr * C → Prop :=
  | upgrade_step m c c' : m ∈ versions → ddl_all (Migration.upgrade m) c = Some c' →
      alembic_step (Migration.down_revision m, c) (Some (Migration.revision m), c')
  | downgrade_step m c c' : m ∈ versions → ddl_all (Migration.downgrade m) c = Some c' →
      alembic_step (Some (Migration.revision m), c) (Migration.down_revision m, c').

Lemma ddl_all_applies {C} `{Catalog C} os (c : C) s' :
  apply_all os (catalog c) = Some s' → ∃ c', ddl_all os c = Some c' ∧ catalog c' = s'.
Proof.
  revert c. induction os as [|o os IH]; simpl; intros c Hs.
  - injection Hs as <-. eauto.
  - destruct (apply (catalog c) o) as [s1|] eqn:Ho; [|done]. simpl in Hs.
    destruct (ddl_applies _ _ _ Ho) as (c1 & -> & Hc1). simpl. subst s1. by apply IH.
Qed.

(** ** Well-formed schemas *)

(** A constraint is about columns that exist, a foreign key about a table that does. *)
Definition constraint_wf (s : Schema.t) (T : Table.t) (c : constraint) : Prop :=
  Table.has T (own_columns c) ∧
  match c with
  | ForeignKeyConstraint _ r refs _ =>
      ∃ R, Schema.tables s !! r = Some R ∧ Table.has R refs
  | _ => True
  end.
Record schema_wf (s : Schema.t) : Prop := {
  wf_constraints : ∀ n T k c, Schema.tables s !! n = Some T →
    Table.constraints T !! k = Some c → constraint_wf s T c;
  wf_indexes : ∀ i I, Schema.indexes s !! i = Some I →
    ∃ T, Schema.tables s !! Index.table I = Some T ∧ Table.has T (Index.columns I)
}.

(** Tables [s'] has at least the tables and columns of [s]. *)
Definition grows (s s' : Schema.t) : Prop :=
  ∀ n T, Schema.tables s !! n = Some T → ∃ T', Schema.tables s' !! n = Some T' ∧
    ∀ c, is_Some (Table.columns T !! c) → is_Some (Table.columns T' !! c).

Lemma has_mono T T' cols :
  (∀ c, is_Some (Table.columns T !! c) → is_Some (Table.columns T' !! c)) →
  Table.has T cols → Table.has T' cols.
Proof. intros Hc Hcols. unfold Table.has in *. by eapply Forall_impl. Qed.

Lemma constraint_wf_mono s s' T T' c :
  grows s s' → (∀ x, is_Some (Table.columns T !! x) → is_Some (Table.columns T' !! x)) →
  constraint_wf s T c → constraint_wf s' T' c.
Proof.
  intros Hs HT [Ho Hr]. split; [by eapply has_mono|]. destruct c; try done.
  destruct Hr as (R & HR & Hrefs). destruct (Hs _ _ HR) as (R' & HR' & Hc).
  exists R'. split; [done|]. by eapply has_mono.
Qed.

Lemma accepted_wf s T c : constraint_accepted s T c → constraint_wf s T c.
Proof.
  intros [Ho Hr]. split; [done|]. destruct c; try done.
  destruct (Schema.tables s !! table) as [R|]; [|done]. exists R. naive_solver.
Qed.

(** Replacing a table by one with more columns and accepted constraints. *)
Lemma insert_table_wf s n T :
  schema_wf s → grows s (s <| Schema.tables := <[n := T]> (Schema.tables s) |>) →
  (∀ k c, Table.constraints T !! k = Some c →
     constraint_wf (s <| Schema.tables := <[n := T]> (Schema.tables s) |>) T c) →
  schema_wf (s <| Schema.tables := <[n := T]> (Schema.tables s) |>).
Proof.
  intros [Hc Hi] Hg HT. split.
  - intros m U k c HU Hk. simpl in HU. apply lookup_insert_Some in HU as [[<- <-]|[_ HU]].
    + by eapply HT.
    + by eapply constraint_wf_mono; [done| |eapply Hc]; try done.
  - intros i I HI. destruct (Hi i I HI) as (U & HU & Hcols).
    destruct (Hg _ _ HU) as (U' & HU' & Hmore). exists U'. split; [done|]. by eapply has_mono.
Qed.

Lemma grows_insert s n T :
  (∀ T0, Schema.tables s !! n = Some T0 →
     ∀ c, is_Some (Table.columns T0 !! c) → is_Some (Table.columns T !! c)) →
  grows s (s <| Schema.tables := <[n := T]> (Schema.tables s) |>).
Proof.
  intros HT m U HU. simpl. destruct (decide (m = n)) as [->|].
  - rewrite lookup_insert_eq. eauto.
  - rewrite lookup_insert_ne by done. eauto.
Qed.

Lemma schema_eta s : Schema.mk (Schema.extensions s) (Schema.tables s) (Schema.indexes s) = s.
Proof. by destruct s. Qed.
Lemma table_eta T : Table.mk (Table.columns T) (Table.constraints T) = T.
Proof. by destruct T. Qed.

Lemma not_relation s n : n ∉ relation_names s →
  Schema.tables s !! n = None ∧ Schema.indexes s !! n = None.
Proof.
  unfold relation_names. rewrite !not_elem_of_app. intros (Ht & Hi & _). split.
  - apply eq_None_not_Some. intros [T HT]. apply Ht, list_elem_of_fmap. exists (n, T).
    split; [done|]. by apply elem_of_map_to_list.
  - apply eq_None_not_Some. intros [T HT]. apply Hi, list_elem_of_fmap. exists (n, T).
    split; [done|]. by apply elem_of_map_to_list.
Qed.

(** ** Operations and their inverses *)

Definition inverse (o : op) : option op :=
  match o with
  | CreateTable n _ _ => Some (DropTable n)
  | CreateIndex i _ _ _ => Some (DropIndex i)
  | AddColumn n c _ => Some (DropColumn n c)
  | _ => None
  end.

(** What an operation on an existing table needed. *)
Ltac open_apply H T HT :=
  unfold apply in H;
  match type of H with
  | context [Schema.tables ?s !! ?n] => destruct (Schema.tables s !! n) as [T|] eqn:HT; [|done]
  end; simpl in H; repeat (case_guard; [|done]); simplify_eq/=; destruct_and?.

Lemma create_table_wf s n cols cs s' :
  schema_wf s → apply s (CreateTable n cols cs) = Some s' → schema_wf s'.
Proof.
  intros Hwf H. unfold apply in H. simplify_option_eq.
  apply insert_table_wf; [done| |].
  - apply grows_insert. intros T0 HT0. destruct (not_relation s n) as [Hn _]; [done|]. congruence.
  - intros k c Hk. destruct_and!. eapply constraint_wf_mono; [|done|].
    + apply grows_insert. intros T0 HT0. destruct (not_relation s n) as [Hn _]; [done|]. congruence.
    + apply accepted_wf. eauto.
Qed.

Lemma add_column_wf s n c col s' :
  schema_wf s → apply s (AddColumn n c col) = Some s' → schema_wf s'.
Proof.
  intros Hwf Ha. open_apply Ha T HT.
  assert (grows s (s <| Schema.tables := <[n := T <| Table.columns :=
            <[c := col]> (Table.columns T) |>]> (Schema.tables s) |>)) as Hg.
  { apply grows_insert. intros T0 HT0 x Hx. simplify_eq. simpl.
    destruct (decide (x = c)) as [->|]; [rewrite lookup_insert_eq; eauto|by rewrite lookup_insert_ne]. }
  apply insert_table_wf; [done..|]. intros k d Hd.
  eapply constraint_wf_mono; [done| |by eapply wf_constraints].
  intros x Hx. simpl. destruct (decide (x = c)) as [->|];
    [rewrite lookup_insert_eq; eauto|by rewrite lookup_insert_ne].
Qed.

Lemma create_index_wf s i n cols method s' :
  schema_wf s → apply s (CreateIndex i n cols method) = Some s' → schema_wf s'.
Proof.
  intros [Hc Hi] Ha. open_apply Ha T HT. split; [exact Hc|].
  intros j J HJ. simpl in HJ. apply lookup_insert_Some in HJ as [[<- <-]|[_ HJ]]; [|eauto].
  simpl. eauto.
Qed.

Lemma create_check_wf s k n condition mentioned s' :
  schema_wf s → apply s (CreateCheck k n condition mentioned) = Some s' → schema_wf s'.
Proof.
  intros Hwf Ha. open_apply Ha T HT.
  apply insert_table_wf; [done|apply grows_insert; naive_solver|].
  intros j d Hd. simpl in Hd. apply lookup_insert_Some in Hd as [[<- <-]|[_ Hd]].
  - by split.
  - eapply (constraint_wf_mono s _ T); [apply grows_insert; naive_solver|done|].
    by eapply wf_constraints.
Qed.

Lemma drop_constraint_wf s k n s' :
  schema_wf s → apply s (DropConstraint k n) = Some s' → schema_wf s'.
Proof.
  intros Hwf Ha. open_apply Ha T HT.
  destruct (Table.constraints T !! k) as [[| | |condition mentioned]|]; simplify_eq.
  apply insert_table_wf; [done|apply grows_insert; naive_solver|].
  intros j d Hd. simpl in Hd. apply lookup_delete_Some in Hd as [_ Hd].
  eapply (constraint_wf_mono s _ T); [apply grows_insert; naive_solver|done|].
  by eapply wf_constraints.
Qed.

Lemma unreferred_spec s n P m T k cols r refs b :
  unreferred s n P → Schema.tables s !! m = Some T →
  Table.constraints T !! k = Some (ForeignKeyConstraint cols r refs b) →
  r = n → ¬ P m refs.
Proof. intros Hu HT Hk -> HP. apply (Hu m T HT k _ Hk). by split. Qed.

Lemma drop_table_wf s n s' : schema_wf s → apply s (DropTable n) = Some s' → schema_wf s'.
Proof.
  intros [Hc Hi] Ha. open_apply Ha T HT. split; simpl.
  - intros m U k c HU Hk. apply lookup_delete_Some in HU as [Hne HU].
    destruct (Hc m U k c HU Hk) as [Ho Hr]. split; [done|]. destruct c; try done.
    destruct Hr as (R & HR & Hrefs). exists R. split; [|done]. simpl.
    rewrite lookup_delete_ne; [done|]. intros <-.
    by eapply (unreferred_spec s n (λ m _, m ≠ n) m).
  - intros i I HI. apply map_lookup_filter_Some in HI as [HI Hne]. simpl in Hne.
    destruct (Hi i I HI) as (U & HU & Hcols). exists U. split; [|done].
    by rewrite lookup_delete_ne.
Qed.

Lemma has_delete T T' c cols :
  Table.columns T' = delete c (Table.columns T) → Table.has T cols → c ∉ cols → Table.has T' cols.
Proof.
  unfold Table.has. rewrite !Forall_forall. intros -> Hcols Hn x Hx.
  rewrite lookup_delete_ne; [by apply Hcols|]. by intros <-.
Qed.

Lemma drop_column_wf s n c s' : schema_wf s → apply s (DropColumn n c) = Some s' → schema_wf s'.
Proof.
  intros [Hc Hi] Ha. open_apply Ha T HT.
  match goal with |- context [<[n := ?U]> _] => set (T' := U) end. split; simpl.
  - intros m U k d HU Hk.
    assert (∃ V, Schema.tables s !! m = Some V ∧ Table.constraints V !! k = Some d ∧
              Table.has U (own_columns d)) as (V & HV & Hkd & Hown).
    { apply lookup_insert_Some in HU as [[<- <-]|[Hne HU]].
      - apply map_lookup_filter_Some in Hk as [Hk Hd]. exists T. split; [done|]. split; [done|].
        eapply has_delete; [reflexivity|by eapply Hc|done].
      - exists U. split; [done|]. split; [done|]. by eapply Hc. }
    split; [done|]. destruct d; try done.
    destruct (Hc m V k _ HV Hkd) as [_ (R & HR & Hrefs)].
    destruct (decide (table = n)) as [->|Hr].
    + exists T'. simpl. rewrite lookup_insert_eq. split; [done|]. simplify_eq.
      eapply has_delete; [reflexivity|done|].
      by eapply (unreferred_spec s n (λ _ refs, c ∈ refs) m).
    + exists R. split; [|done]. simpl. by rewrite lookup_insert_ne.
  - intros i I HI. apply map_lookup_filter_Some in HI as [HI Hne]. simpl in Hne.
    destruct (Hi i I HI) as (U & HU & Hcols).
    destruct (decide (Index.table I = n)) as [He|Hr].
    + rewrite He in *. exists T'. rewrite lookup_insert_eq. split; [done|].
      simplify_eq. eapply has_delete; [reflexivity|done|]. naive_solver.
    + exists U. by rewrite lookup_insert_ne.
Qed.

(** Every operation the server accepts keeps a schema well formed. *)
Lemma apply_wf s o s' : schema_wf s → apply s o = Some s' → schema_wf s'.
Proof.
  destruct o.
  - intros [Hc Hi] H. simplify_eq/=. by split.
  - apply create_table_wf.
  - apply drop_table_wf.
  - apply create_index_wf.
  - intros [Hc Hi] H. simpl in H. destruct (Schema.indexes s !! name) as [I|]; [|done].
    simplify_eq/=. split; [exact Hc|]. intros j J HJ. simpl in HJ.
    apply lookup_delete_Some in HJ as [_ HJ]. by eapply Hi.
  - apply add_column_wf.
  - apply drop_column_wf.
  - apply create_check_wf.
  - apply drop_constraint_wf.
Qed.
Lemma apply_all_wf os s s' : schema_wf s → apply_all os s = Some s' → schema_wf s'.
Proof.
  revert s. induction os as [|o os IH]; simpl; intros s Hs H; [by simplify_eq|].
  destruct (apply s o) eqn:Ho; [|done]. simpl in H. eauto using apply_wf.
Qed.

(** ** Undoing *)

Lemma undo_create_table s n cols cs s' :
  schema_wf s → apply s (CreateTable n cols cs) = Some s' → apply s' (DropTable n) = Some s.
Proof.
  intros [Hc Hi] H. unfold apply in H. repeat case_guard; try done.
  match goal with Hf : n ∉ _ |- _ => destruct (not_relation s n Hf) as [Hn _] end.
  simplify_eq/=.
  rewrite lookup_insert_eq. simpl. rewrite option_guard_True; simpl.
  - rewrite delete_insert_id by done. rewrite map_filter_id, schema_eta; [done|].
    intros i I HI Hin. simpl in Hin. destruct (Hi i I HI) as (T & HT & _). congruence.
  - intros m U HU k c Hk Hr. destruct c as [| |own r refs casc|]; try done.
    destruct Hr as [-> Hm]. simpl in HU. rewrite lookup_insert_ne in HU by done.
    destruct (Hc m U k _ HU Hk) as [_ (R & HR & _)]. congruence.
Qed.

Lemma undo_create_index s i n cols method s' :
  apply s (CreateIndex i n cols method) = Some s' → apply s' (DropIndex i) = Some s.
Proof.
  intros Ha. open_apply Ha T HT. rewrite lookup_insert_eq. simpl.
  match goal with Hf : _ ∉ _ |- _ => destruct (not_relation s i Hf) as [_ Hn] end.
  by rewrite delete_insert_id, schema_eta.
Qed.

Lemma has_fresh T c cols : Table.columns T !! c = None → Table.has T cols → c ∈ cols → False.
Proof. intros Hn Hcols Hin. apply (proj1 (Forall_forall _ _) Hcols) in Hin as [? ?]. congruence. Qed.

Lemma undo_add_column s n c col s' :
  schema_wf s → apply s (AddColumn n c col) = Some s' → apply s' (DropColumn n c) = Some s.
Proof.
  intros [Hc Hi] Ha. open_apply Ha T HT. rewrite lookup_insert_eq. simpl.
  rewrite option_guard_True; simpl.
  - rewrite delete_insert_id by done. rewrite insert_insert_eq.
    rewrite (map_filter_id _ (Table.constraints T)).
    + rewrite table_eta, insert_id by done. rewrite map_filter_id, schema_eta; [done|].
      intros i I HI [Hn Hin]. simpl in *. subst n. destruct (Hi i I HI) as (U & HU & Hcols).
      apply (has_fresh T c (Index.columns I)); [done|by simplify_eq|done].
    + intros k d Hd Hin. simpl in Hin.
      apply (has_fresh T c (own_columns d)); [done|by eapply Hc|done].
  - rewrite lookup_insert_eq. split; [eauto|].
    intros m U HU k d Hk Hr. destruct d as [| |own r refs casc|]; try done.
    destruct Hr as [-> Hin]. simpl in HU.
    assert (∃ V, Schema.tables s !! m = Some V ∧
              Table.constraints V !! k = Some (ForeignKeyConstraint own n refs casc)) as (V & HV & Hkv).
    { apply lookup_insert_Some in HU as [[<- <-]|[_ HU]]; eauto. }
    destruct (Hc m V k _ HV Hkv) as [_ (R & HR & Hrefs)]. rewrite HT in HR. injection HR as <-.
    by apply (has_fresh T c refs).
Qed.

Lemma undo_op s o i s' :
  schema_wf s → inverse o = Some i → apply s o = Some s' → apply s' i = Some s.
Proof.
  destruct o; intros Hwf Hi; simplify_eq/=;
    eauto using undo_create_table, undo_create_index, undo_add_column.
Qed.

Lemma apply_all_app os1 os2 s :
  apply_all (os1 ++ os2) s = s' ← apply_all os1 s; apply_all os2 s'.
Proof.
  revert s. induction os1 as [|o os1 IH]; intros s; simpl; [done|].
  destruct (apply s o); simpl; auto.
Qed.

Lemma apply_all_app_Some os1 os2 s s' :
  apply_all (os1 ++ os2) s = Some s' ↔
  ∃ s1, apply_all os1 s = Some s1 ∧ apply_all os2 s1 = Some s'.
Proof. rewrite apply_all_app. destruct (apply_all os1 s); naive_solver. Qed.

(** Operations each of which has an inverse are undone by their inverses in reverse order. *)
Lemma undo_all os invs s s' :
  schema_wf s → Forall2 (λ o i, inverse o = Some i) os invs → apply_all os s = Some s' →
  apply_all (reverse invs) s' = Some s.
Proof.
  intros Hwf His. revert s Hwf. induction His as [|o i os invs Hi His IH]; simpl; intros s Hwf Hos.
  - by simplify_eq.
  - destruct (apply s o) as [s1|] eqn:Ho; [|done]. simpl in Hos.
    rewrite reverse_cons, apply_all_app, (IH s1); [|by eapply apply_wf|done]. simpl.
    by rewrite (undo_op _ _ _ _ Hwf Hi Ho).
Qed.

(** A check put in the place of another is undone by putting the other back. *)
Lemma undo_check s k n condition mentioned condition' mentioned' T s' :
  schema_wf s → Schema.tables s !! n = Some T →
  Table.constraints T !! k = Some (CheckConstraint condition mentioned) →
  apply_all [DropConstraint k n; CreateCheck k n condition' mentioned'] s = Some s' →
  apply_all [DropConstraint k n; CreateCheck k n condition mentioned] s' = Some s.
Proof.
  intros Hwf HT Hk. unfold apply_all, apply. rewrite HT. simpl. rewrite Hk. simpl.
  rewrite lookup_insert_eq. simpl. intros H. repeat (case_guard; simpl in H; [|done]).
  simplify_eq/=. rewrite lookup_insert_eq. simpl. rewrite lookup_insert_eq. simpl.
  rewrite lookup_insert_eq. simpl. rewrite option_guard_True; simpl.
  - rewrite !insert_insert_eq, delete_insert_id by apply lookup_delete_eq.
    by rewrite insert_delete_id, table_eta, insert_id, schema_eta.
  - split; [|exact (proj1 (wf_constraints _ Hwf n T k _ HT Hk))]. rewrite delete_insert_id; apply lookup_delete_eq.
Qed.

(** ** Installed extensions only add to what the server accepts *)

Definition add_ext (E : gset pystr) (s : Schema.t) : Schema.t :=
  s <| Schema.extensions := E ∪ Schema.extensions s |>.

Lemma apply_frame E s o s' : apply s o = Some s' → apply (add_ext E s) o = Some (add_ext E s').
Proof.
  assert (∀ c, column_known s c → column_known (add_ext E s) c) as Hk.
  { intros c. unfold column_known. destruct (Column.type c); simpl; set_solver. }
  destruct o; intros H; unfold apply in *;
    change (Schema.tables (add_ext E s)) with (Schema.tables s);
    change (Schema.indexes (add_ext E s)) with (Schema.indexes s).
  - simplify_eq. unfold add_ext. simpl. do 2 f_equal. set_solver.
  - repeat case_guard; try done; simplify_eq/=; try done.
    all: exfalso; naive_solver eauto using Forall_impl.
  - destruct (Schema.tables s !! name); [|done]. simpl in *. by repeat case_guard; simplify_eq/=.
  - destruct (Schema.tables s !! table); [|done]. simpl in *. by repeat case_guard; simplify_eq/=.
  - destruct (Schema.indexes s !! name); [|done]. by simplify_eq/=.
  - destruct (Schema.tables s !! table); [|done]. simpl in *.
    repeat case_guard; simplify_eq/=; naive_solver.
  - destruct (Schema.tables s !! table); [|done]. simpl in *. by repeat case_guard; simplify_eq/=.
  - destruct (Schema.tables s !! table); [|done]. simpl in *. by repeat case_guard; simplify_eq/=.
  - destruct (Schema.tables s !! table) as [T|]; [|done]. simpl in *.
    destruct (Table.constraints T !! name) as [[]|]; by simplify_eq/=.
Qed.

Lemma apply_all_frame E os s s' :
  apply_all os s = Some s' → apply_all os (add_ext E s) = Some (add_ext E s').
Proof.
  revert s. induction os as [|o os IH]; simpl; intros s H; [by simplify_eq|].
  destruct (apply s o) as [s1|] eqn:Ho; [|done]. rewrite (apply_frame _ _ _ _ Ho). simpl. auto.
Qed.

(** ** The chain of revisions *)

Lemma chain_versions : chain = versions.
Proof. vm_compute. reflexivity. Qed.

(** The revision and the schema after the first [k] migrations, on an empty database. *)
Definition rev_at (k : nat) : option pystr :=
  match k with 0 => None | S k => Migration.revision <$> versions !! k end.
Definition schema_at (k : nat) : option Schema.t :=
  apply_all (mjoin (Migration.upgrade <$> take k versions)) Schema.empty.

Lemma schema_head : schema_at 6 = Some declared.
Proof. apply (bool_decide_eq_true_1 _). vm_compute. reflexivity. Qed.

Lemma version_lookup m : m ∈ versions ↔ ∃ k, k < 6 ∧ versions !! k = Some m.
Proof.
  rewrite list_elem_of_lookup. split.
  - intros [k Hk]. exists k. split; [|done]. by apply lookup_lt_Some in Hk.
  - intros (k & _ & Hk). eauto.
Qed.

Lemma down_revision_at m k : versions !! k = Some m → Migration.down_revision m = rev_at k.
Proof. do 6 (destruct k as [|k]; [intros H; injection H as <-; vm_compute; reflexivity|]). done. Qed.
Lemma rev_at_inj j k : j ≤ 6 → k ≤ 6 → rev_at j = rev_at k → j = k.
Proof.
  intros Hj Hk. destruct j as [|[|[|[|[|[|[|]]]]]]]; [..|lia];
    (destruct k as [|[|[|[|[|[|[|]]]]]]]; [..|lia]); try done; by vm_compute.
Qed.

Lemma schema_at_step k m : versions !! k = Some m →
  schema_at (S k) = s ← schema_at k; apply_all (Migration.upgrade m) s.
Proof.
  intros Hm. unfold schema_at. rewrite (take_S_r _ _ _ Hm), fmap_app, join_app, apply_all_app.
  simpl. by rewrite app_nil_r.
Qed.
Lemma schema_at_some k : k ≤ 6 → ∃ s, schema_at k = Some s.
Proof.
  intros Hk. assert (∀ j, j ≤ 6 → ∃ s, schema_at (6 - j) = Some s) as H.
  { induction j as [|j IH]; intros Hj; [rewrite Nat.sub_0_r, schema_head; eauto|].
    destruct IH as [s Hs]; [lia|].
    destruct (versions !! (6 - S j)) as [m|] eqn:Hm;
      [|apply lookup_ge_None in Hm; change (length versions) with 6 in Hm; lia].
    replace (6 - j) with (S (6 - S j)) in Hs by lia. rewrite (schema_at_step _ _ Hm) in Hs.
    destruct (schema_at (6 - S j)); eauto. }
  replace k with (6 - (6 - k)) by lia. apply H. lia.
Qed.
Lemma empty_wf : schema_wf Schema.empty.
Proof. by split. Qed.
Lemma schema_at_wf k s : schema_at k = Some s → schema_wf s.
Proof. apply apply_all_wf, empty_wf. Qed.

(** ** Reverting a migration *)

(** The status constraint the fifth migration replaces. *)
Definition pre_review (s : Schema.t) : Prop :=
  (T ← Schema.tables s !! lit "assessments";
   Table.constraints T !! lit "ck_assessments_assessment_status_values") =
    Some (CheckConstraint "status IN ('pending', 'processing', 'completed', 'failed')"
            [lit "status"]).

Definition same_relations (s1 s2 : Schema.t) : Prop :=
  Schema.tables s1 = Schema.tables s2 ∧ Schema.indexes s1 = Schema.indexes s2.

Lemma undo_inverses os s s' :
  schema_wf s → Forall (λ o, is_Some (inverse o)) os → apply_all os s = Some s' →
  apply_all (reverse (omap inverse os)) s' = Some s.
Proof.
  intros Hwf Hos. apply undo_all; [done|]. induction Hos as [|o os [i Hi] _ IH]; simpl; [done|].
  rewrite Hi. by constructor.
Qed.

(** Reverting leaves the tables and the indexes as they were, and pgvector installed. *)
Lemma undo_migration m s s' :
  m ∈ versions → schema_wf s →
  (Migration.revision m = lit "20260910_0005" → pre_review s) →
  apply_all (Migration.upgrade m) s = Some s' →
  ∃ E, E ⊆ {[lit "vector"]} ∧ apply_all (Migration.downgrade m) s' = Some (add_ext E s).
Proof.
  intros Hm Hwf Hpre Hup.
  assert (∀ os, Forall (λ o, is_Some (inverse o)) os → Migration.upgrade m = os →
    Migration.downgrade m = reverse (omap inverse os) →
    ∃ E : gset pystr, E ⊆ {[lit "vector"]} ∧ apply_all (Migration.downgrade m) s' = Some (add_ext E s)) as Hplain.
  { intros os Hos Hu ->. exists ∅. split; [set_solver|]. rewrite (undo_inverses os s); [|done..|by rewrite <- Hu].
    unfold add_ext. simpl. rewrite (left_id_L ∅ (∪)). by rewrite schema_eta. }
  unfold versions in Hm. rewrite !elem_of_cons in Hm.
  destruct Hm as [->|[->|[->|[->|[->|[->|Hm]]]]]]; [..|by apply not_elem_of_nil in Hm].
  1,3,4,6: eapply Hplain; [|reflexivity|reflexivity]; repeat constructor; eauto.
  - change (Migration.upgrade _) with (CreateExtension (lit "vector") :: tail Rev0002.upgrade) in Hup.
    exists {[lit "vector"]}. split; [done|].
    change (Migration.downgrade _) with (reverse (omap inverse (tail Rev0002.upgrade))).
    apply undo_inverses; [|repeat constructor; eauto|exact Hup].
    by apply (apply_wf s (CreateExtension (lit "vector"))).
  - specialize (Hpre eq_refl). unfold pre_review in Hpre.
    destruct (Schema.tables s !! lit "assessments") as [T|] eqn:HT; [|done].
    change (Migration.upgrade _) with (take 2 Rev0005.upgrade ++ drop 2 Rev0005.upgrade) in Hup.
    apply apply_all_app_Some in Hup as (s1 & H1 & Hup).
    exists ∅. split; [apply empty_subseteq|].
    change (Migration.downgrade _) with
      (reverse (omap inverse (drop 2 Rev0005.upgrade)) ++ drop 4 Rev0005.downgrade).
    apply apply_all_app_Some. exists s1. split.
    + apply undo_inverses; [by eapply apply_all_wf|repeat constructor; eauto|exact Hup].
    + transitivity (Some s); [exact (undo_check s _ _ _ _ _ _ T s1 Hwf HT Hpre H1)|].
      unfold add_ext. rewrite (left_id_L ∅ (∪)). by destruct s.
Qed.

(** ** Theorems *)

Section theorems.
Context {C : Type} `{!Catalog C}.

(** C26: Whatever else a server holds, if a migration applies to its schema then reverting it
    succeeds and gives every table and index back as it was; only the vector extension, which
    other schemas of the cluster may share, can be left behind.  The migration that widens
    the vocabulary of the status (revision 0005) has to find the vocabulary it puts back: its
    downgrade restores the check constraint of revision 0001 whatever stood there.  The claim
    is about the catalogue; rows, of which a downgrade drops some with their tables and others
    may violate the restored constraint, are not modelled. *)
Theorem downgrade_undoes_upgrade m (c : C) s' :
  m ∈ versions → schema_wf (catalog c) →
  (Migration.revision m = lit "20260910_0005" → pre_review (catalog c)) →
  apply_all (Migration.upgrade m) (catalog c) = Some s' →
  ∃ c1 c2, ddl_all (Migration.upgrade m) c = Some c1 ∧ catalog c1 = s' ∧
    ddl_all (Migration.downgrade m) c1 = Some c2 ∧ same_relations (catalog c) (catalog c2) ∧
    Schema.extensions (catalog c) ⊆ Schema.extensions (catalog c2) ∧
    Schema.extensions (catalog c2) ⊆ {[lit "vector"]} ∪ Schema.extensions (catalog c).
Proof.
  intros Hm Hwf Hpre Hup. destruct (ddl_all_applies _ _ _ Hup) as (c1 & Hc1 & H1).
  destruct (undo_migration _ _ _ Hm Hwf Hpre Hup) as (E & HE & Hdown). rewrite <- H1 in Hdown.
  destruct (ddl_all_applies _ _ _ Hdown) as (c2 & Hc2 & H2).
  exists c1, c2. rewrite H2. split_and!; try done; simpl.
  - apply union_subseteq_r.
  - by apply union_mono_r.
Qed.

(** The schema of a database at revision [k]: the tables and indexes after [k] migrations. *)
Definition at_revision (k : nat) (r : option pystr) (c : C) : Prop :=
  k ≤ 6 ∧ r = rev_at k ∧ ∃ s, schema_at k = Some s ∧ ∃ E, catalog c = add_ext E s.

Lemma upgrade_possible k m (c : C) : versions !! k = Some m → at_revision k (rev_at k) c →
  ∃ c', ddl_all (Migration.upgrade m) c = Some c' ∧
    at_revision (S k) (Some (Migration.revision m)) c'.
Proof.
  intros Hm (_ & _ & s & Hs & E & Hc).
  assert (k < 6) as Hk by (by apply lookup_lt_Some in Hm).
  destruct (schema_at_some (S k)) as [s' Hs']; [lia|]. pose proof Hs' as Hup.
  rewrite (schema_at_step _ _ Hm), Hs in Hup. simpl in Hup.
  apply (apply_all_frame E) in Hup. rewrite <- Hc in Hup.
  destruct (ddl_all_applies _ _ _ Hup) as (c' & Hc' & Hs1).
  exists c'. split; [done|]. split; [lia|]. split; [simpl; by rewrite Hm|eauto].
Qed.

Lemma pre_review_at_4 s : schema_at 4 = Some s → pre_review s.
Proof.
  intros Hs. unfold pre_review. transitivity (s ← schema_at 4; T ← Schema.tables s !! lit "assessments";
    Table.constraints T !! lit "ck_assessments_assessment_status_values"); [by rewrite Hs|].
  clear. apply (bool_decide_eq_true_1 _). vm_compute. reflexivity.
Qed.

Lemma downgrade_possible k m (c : C) : versions !! k = Some m →
  at_revision (S k) (Some (Migration.revision m)) c →
  ∃ c', ddl_all (Migration.downgrade m) c = Some c' ∧
    at_revision k (Migration.down_revision m) c'.
Proof.
  intros Hm (_ & _ & s' & Hs' & E & Hc).
  assert (k < 6) as Hk by (by apply lookup_lt_Some in Hm).
  rewrite (schema_at_step _ _ Hm) in Hs'. destruct (schema_at k) as [s|] eqn:Hs; [|done].
  simpl in Hs'. destruct (undo_migration m s s') as (E' & _ & Hdown); [..|done|].
  { apply list_elem_of_lookup. eauto. }
  { by eapply schema_at_wf. }
  { intros Hr. assert (rev_at (S k) = rev_at 5) as H5 by (simpl; by rewrite Hm, <- Hr).
    apply rev_at_inj in H5; [|lia..]. injection H5 as ->. by apply pre_review_at_4. }
  apply (apply_all_frame E) in Hdown. rewrite <- Hc in Hdown.
  destruct (ddl_all_applies _ _ _ Hdown) as (c' & Hc' & Hs1).
  exists c'. split; [done|]. split; [lia|]. split; [by apply down_revision_at|].
  exists s. split; [done|]. exists (E ∪ E'). rewrite Hs1. unfold add_ext. simpl.
  by rewrite (assoc_L (∪)).
Qed.

Lemma alembic_step_revision k r (c : C) r' c' :
  at_revision k r c → alembic_step (r, c) (r', c') → ∃ k', at_revision k' r' c'.
Proof.
  intros Hat Hstep. inversion Hstep as [m ? ? Hm Hddl|m ? ? Hm Hddl]; subst;
    apply version_lookup in Hm as (j & Hj & Hm); pose proof Hat as (Hk & Hr & _).
  - rewrite (down_revision_at _ _ Hm) in Hr. apply rev_at_inj in Hr as ->; [|lia..].
    rewrite (down_revision_at _ _ Hm) in Hat.
    destruct (upgrade_possible _ _ _ Hm Hat) as (c1 & Hc1 & H1). simplify_eq. eauto.
  - assert (rev_at (S j) = rev_at k) as He by (simpl; by rewrite Hm, <- Hr).
    apply rev_at_inj in He as <-; [|lia..].
    destruct (downgrade_possible _ _ _ Hm Hat) as (c1 & Hc1 & H1). simplify_eq. eauto.
Qed.

(** C25: However a fresh database is migrated forwards and backwards, its tables and indexes
    are those of the revision it records, whatever the path; no reachable revision is stuck:
    the next migration and the last one revert and apply; and at the revision the readiness
    check waits for the schema is exactly the one the models declare, with every table the
    services need. *)
Theorem schema_of_revision (c0 c : C) r :
  same_relations (catalog c0) Schema.empty →
  rtc alembic_step (None, c0) (r, c) →
  ∃ k s, k ≤ 6 ∧ r = rev_at k ∧ schema_at k = Some s ∧ same_relations (catalog c) s ∧
    (∀ m, versions !! k = Some m → ∃ c', alembic_step (r, c) (Some (Migration.revision m), c')) ∧
    (∀ m, r = Some (Migration.revision m) → m ∈ versions →
       ∃ c', alembic_step (r, c) (Migration.down_revision m, c')) ∧
    (r = Some ALEMBIC_HEAD_REVISION → same_relations (catalog c) declared ∧
       Forall (λ t, is_Some (Schema.tables (catalog c) !! t)) REQUIRED_TABLES).
Proof.
  intros [Ht Hi] Hsteps.
  assert (at_revision 0 None c0) as H0.
  { split; [lia|]. split; [done|]. exists Schema.empty. split; [done|].
    exists (Schema.extensions (catalog c0)). destruct (catalog c0). simpl in *. subst.
    unfold add_ext. simpl. by rewrite (right_id_L ∅ (∪)). }
  assert (∃ k, at_revision k r c) as (k & Hat).
  { revert H0. generalize 0. remember (None, c0) as x. remember (r, c) as y.
    intros j H0. assert (at_revision j x.1 x.2) as Hx by (by subst x). clear H0 Heqx.
    revert j Hx. induction Hsteps as [x|[r1 c1] [r2 c2] y Hstep _ IH]; intros j Hx; subst.
    - by exists j.
    - destruct (alembic_step_revision _ _ _ _ _ Hx Hstep) as [j' Hj']. by eapply IH. }
  pose proof Hat as (Hk & Hr & s & Hs & E & Hc). exists k, s.
  assert (same_relations (catalog c) s) as Hsame by (rewrite Hc; by split).
  split_and!; [done..| | |].
  - intros m Hm. subst r. destruct (upgrade_possible _ _ _ Hm Hat) as (c' & Hc' & _).
    exists c'. rewrite <- (down_revision_at _ _ Hm). constructor; [|done].
    apply list_elem_of_lookup. eauto.
  - intros m Hrm Hm. pose proof Hm as (j & Hj & Hmj)%version_lookup.
    assert (rev_at (S j) = rev_at k) as He by (simpl; rewrite Hmj; by rewrite <- Hr, Hrm).
    apply rev_at_inj in He as <-; [|lia..]. rewrite Hrm in Hat.
    destruct (downgrade_possible _ _ _ Hmj Hat) as (c' & Hc' & _).
    exists c'. rewrite Hrm. by constructor.
  - intros Hh. assert (rev_at k = rev_at 6) as He by (rewrite <- Hr, Hh; by vm_compute).
    apply rev_at_inj in He as ->; [|lia..]. rewrite schema_head in Hs. injection Hs as <-.
    split; [done|]. destruct Hsame as [-> _]. apply (bool_decide_eq_true_1 _). by vm_compute.
Qed.
End theorems.

(** ** A server *)

#[export] Instance schema_catalog : Catalog Schema.t.
Proof. refine {| ddl := λ o s, apply s o; catalog := id |}. eauto. Defined.

Lemma ddl_all_schema os s : ddl_all os s = apply_all os s.
Proof. revert s. induction os as [|o os IH]; intros s; [done|]. simpl. change (ddl o s) with (apply s o). destruct (apply s o); simpl; auto. Qed.

(** Another application's table is on the server, at the revision before the reviews. *)
Definition shared_ops : list op :=
  CreateTable "other_app" [(lit "id", Column.mk INTEGER false false)]
    [(lit "pk_other_app", PrimaryKeyConstraint [lit "id"])] ::
  mjoin (Migration.upgrade <$> take 4 versions).
Definition shared : Schema.t := default Schema.empty (apply_all shared_ops Schema.empty).

Lemma default_some {A} (d : A) (o : option A) :
  match o with Some _ => true | None => false end = true → o = Some (default d o).
Proof. by destruct o. Qed.

Lemma shared_some : apply_all shared_ops Schema.empty = Some shared.
Proof. apply default_some. vm_compute. reflexivity. Qed.
Lemma shared_wf : schema_wf shared.
Proof. exact (apply_all_wf _ _ _ empty_wf shared_some). Qed.

Definition reviewed : Schema.t := default Schema.empty (apply_all Rev0005.upgrade shared).
Lemma reviewed_some : apply_all Rev0005.upgrade shared = Some reviewed.
Proof. apply default_some. vm_compute. reflexivity. Qed.

Lemma downgrade_undoes_upgrade_witness :
  is_Some (Schema.tables shared !! lit "other_app") ∧
  ∃ c1 c2, ddl_all Rev0005.upgrade shared = Some c1 ∧ catalog c1 = reviewed ∧
    ddl_all Rev0005.downgrade c1 = Some c2 ∧ same_relations (catalog shared) (catalog c2) ∧
    Schema.extensions (catalog shared) ⊆ Schema.extensions (catalog c2) ∧
    Schema.extensions (catalog c2) ⊆ {[lit "vector"]} ∪ Schema.extensions (catalog shared).
Proof.
  split; [apply (bool_decide_eq_true_1 _); by vm_compute|].
  apply (downgrade_undoes_upgrade Rev0005.migration shared reviewed).
  - apply list_elem_of_lookup. by exists 4.
  - exact shared_wf.
  - intros _. apply (bool_decide_eq_true_1 _). by vm_compute.
  - exact reviewed_some.
Defined.

(** The whole chain on an empty server. *)
Lemma migrate_path k : k ≤ 6 →
  rtc alembic_step (None, Schema.empty) (rev_at k, default Schema.empty (schema_at k)).
Proof.
  induction k as [|k IH]; intros Hk; [apply rtc_refl|].
  eapply rtc_r; [apply IH; lia|].
  destruct (versions !! k) as [m|] eqn:Hm;
    [|apply lookup_ge_None in Hm; change (length versions) with 6 in Hm; lia].
  rewrite <- (down_revision_at _ _ Hm). simpl. rewrite Hm. constructor.
  - apply list_elem_of_lookup. eauto.
  - destruct (schema_at_some (S k) Hk) as [s' Hs']. rewrite Hs'.
    rewrite (schema_at_step _ _ Hm) in Hs'. destruct (schema_at k); [|done].
    by rewrite ddl_all_schema.
Qed.

Lemma schema_of_revision_witness :
  ∃ k s, k ≤ 6 ∧ rev_at 6 = rev_at k ∧ schema_at k = Some s ∧
    same_relations (catalog declared) s ∧
    (∀ m, versions !! k = Some m →
       ∃ c', alembic_step (rev_at 6, declared) (Some (Migration.revision m), c')) ∧
    (∀ m, rev_at 6 = Some (Migration.revision m) → m ∈ versions →
       ∃ c', alembic_step (rev_at 6, declared) (Migration.down_revision m, c')) ∧
    (rev_at 6 = Some ALEMBIC_HEAD_REVISION → same_relations (catalog declared) declared ∧
       Forall (λ t, is_Some (Schema.tables (catalog declared) !! t)) REQUIRED_TABLES).
Proof.
  apply (schema_of_revision Schema.empty declared).
  - by split.
  - pose proof (migrate_path 6 (le_n 6)) as H. rewrite schema_head in H. exact H.
Defined.
